(* ===== verification/_CoqProject ===== *)
-Q . S2P
Prelude.v
Collections.v
RustStr.v
Effects.v
Contracts.v
CoreError.v
Checks.v
Json.v
CallerVerification.v
MutationPolicy.v
RuntimeOwnership.v
EtwLifecycle.v
IpHelperSchedule.v
ProviderController.v
ReadModels.v
ReadCommands.v
ReadCommandsFacts.v
IpcFrames.v
ServiceIpc.v
ServiceIpcFacts.v
MutationAuthorization.v
MutationAuthorizationFacts.v
ServiceState.v
ServiceDispatch.v
ServiceDispatchFacts.v
Topics.v
EventBus.v
EventBusFacts.v
Query.v
StorageTypes.v
StorageDb.v
LogicalStore.v
LogicalStoreFacts.v
LogicalStorePaging.v
Migration.v
MigrationFacts.v
Manifest.v
Component.v
ComponentFacts.v
Registry.v
RegistryFacts.v
Kahn.v
Pipeline.v
PipelineFacts.v
Resolver.v
ResolverFacts.v
Settings.v
SettingsFacts.v
PrivacyService.v
PrivacyServiceFacts.v
StorageSettings.v
RustText.v
FileSystem.v
FileSystemFacts.v
PortablePreferences.v
PortablePreferencesFacts.v
Session.v
SessionLifecycle.v
SessionFacts.v
StorageOwnership.v
StorageOwnershipFacts.v
Permissions.v
PermissionsFacts.v
Observability.v
ObservabilityFacts.v
PluginRuntime.v
PluginRuntimeFacts.v
ImportContracts.v
ImportRedaction.v
ImportRedactionFacts.v
ImportCategories.v
ImportLogs.v
ImportLogsFacts.v
ImportDnsLog.v
ImportDnsLogFacts.v
ImportSummary.v
ImportSummaryFacts.v
