(* ===== verification/Prelude.v ===== *)
(** * Sentinel: a verification development

    Sentinel is a desktop network-security monitor written as a workspace of crates. This
    development models, from the bottom up,
    - the contracts ([src/crates/contracts/src]) the crates exchange, where they have checks,
    - the platform kernel ([src/crates/platform/src]) every capability plugin runs on: an
      event bus with bounded queues, pipelines, components with a life cycle, registries, a
      dependency resolver, permissions and policies, observability, a plugin runtime,
    - the authorization of changes ([src/crates/app_core/src/mutation_authorization.rs]) and
      the elevated service's pipe ([src/service/elevated/src/runtime_ipc.rs]): frames, the
      hand-shake, the dispatcher and its sessions,
    - the storage crate ([src/crates/storage/src]): logical stores, migrations, privacy
      services, settings, sessions, preferences, and who may write the database,
    - the importer of logs ([src/crates/capabilities/src/portable_capture_lite.rs]),
    and proves the properties that make them correct. A comment [(* [file.rs] symbol *)]
    before a definition names the code it translates.

    ** Shared files

    - [Prelude] (this file): [result] and its [let?] notation for the [?] operator, list and
      integer lemmas, the tactics and hint databases of the development, widths of machine
      integers with saturating arithmetic.
    - [Collections]: what the program uses of the collection library. A [HashMap] is a
      [gmap]; the order in which it is iterated is a parameter, the class [HashOrder], about
      which only permutation laws are known. Also stable sorting by a key, [position],
      [Vec::remove], [find], [enumerate].
    - [RustStr]: strings as byte sequences (UTF-8): blank text, ASCII classes, [contains],
      [split], decimal parsing and printing. [RustText]: searching, trimming and
      cutting texts, slices at byte offsets, the texts of floats and of IP addresses.
    - [Effects]: identifiers over [Uuid], instants, and the oracle [World] from which
      [Uuid::new_v4] and [Timestamp::now] draw, with its state monad [ST] and the [let$]
      notation. What comes from the crates [uuid], [chrono] and [serde_json] is the class
      [Externals] (an injective printing of uuids, an opaque JSON type).
    - [Checks]: the chains of early returns by which contracts validate their fields, with
      the rewrite database [checks]. [Json]: the tree of a [serde_json] value.
    - [FileSystem], [FileSystemFacts]: files, folders and links as a finite map, with the
      calls of [std::fs] the storage crate makes; any call may fail. The monad [IO] has the
      notation [let~]; [looks], [sees] and [changes] are what a computation does to files.

    ** The platform kernel

    - [Contracts], [CoreError] ([common/*.rs]): schema versions, privacy classes, quality
      scores as IEEE binary32, entity references, event envelopes, errors. [Query]
      ([common/query.rs], [common/pagination.rs]). [Manifest] ([plugin/mod.rs]).
      [Settings], [SettingsFacts] ([settings/mod.rs], export formats of [report/mod.rs]).
    - [Topics] ([event_bus/topic.rs]) and [EventBus] ([event_bus/bus.rs], [message.rs],
      [dead_letter.rs], [subscription.rs]): the state [EventBus] (topics, subscriptions, one
      queue per subscription, dead letters) and one definition per method; [EventBusFacts].
    - [Component] ([component/mod.rs]), [ComponentFacts]: definitions, bindings, instances
      and the life-cycle state machine. [Registry] ([registry/mod.rs]), [RegistryFacts]: the
      eight registries.
    - [Kahn]: the topological-sort loop that [PipelineDag::topological_order] and the
      resolver's [compute_startup_order] share, proved once for any graph representation.
      [Pipeline] ([pipeline/*.rs]), [PipelineFacts]: stages, DAG, execution plans,
      backpressure, checkpoints, replay, scheduler.
    - [Resolver] ([resolver/mod.rs]), [ResolverFacts]: versions, contracts, capabilities, the
      dependency graph, cycle detection, startup order, impact analysis.
    - [Permissions] ([permissions/mod.rs]), [PermissionsFacts]; [Observability]
      ([observability/*.rs]), [ObservabilityFacts]; [PluginRuntime] ([plugin_runtime/*.rs]),
      [PluginRuntimeFacts]: plugins are the class [InternalPlugin].

    The resolver reads the registries, the runtime calls the resolver for contracts and the
    permission resolver for grants, the permission resolver reads runtime profiles, pipelines
    and audit events name bus topics.

    ** The service

    - [CallerVerification], [MutationPolicy], [RuntimeOwnership], [EtwLifecycle],
      [IpHelperSchedule], [ProviderController], [ReadModels]: the contracts of the pipe, each
      with its validation. [ReadCommands], [ReadCommandsFacts]: paged, bounded reads.
    - [MutationAuthorization], [MutationAuthorizationFacts]: the evaluator, a state of three
      bounded hash maps; an approval is recorded and can be consumed once.
    - [IpcFrames]: messages on the pipe. [ServiceIpc], [ServiceIpcFacts]: rate limiter, nonce
      cache, hand-shake messages, classification of the caller. [ServiceState]: the machine
      the dispatcher runs on, with the runtime container behind its mutex. [ServiceDispatch],
      [ServiceDispatchFacts]: every method of the dispatcher, the session loop.

    The dispatcher admits a request by the session's gates ([ServiceIpc]) and the caller's
    classes ([CallerVerification]), answers reads with [ReadCommands], evaluates intents with
    [MutationAuthorization], and changes the container -- known only through the interface
    [RuntimeContainer] -- under an authorization it consumed.

    ** The storage

    - [StorageTypes], [StorageDb]: errors, privacy classes, kinds of stores; the tables the
      crate's SQL texts use, with the monad [Q] ([let@]) whose statements may fail.
    - [LogicalStore], [LogicalStoreFacts], [LogicalStorePaging] ([store.rs]); [Migration],
      [MigrationFacts] ([migration.rs]); [PrivacyService], [PrivacyServiceFacts]
      ([privacy_service.rs]); [StorageSettings] ([settings.rs]).
    - [PortablePreferences], [PortablePreferencesFacts] ([portable_preferences.rs]);
      [Session], [SessionLifecycle], [SessionFacts] ([session.rs]).
    - [StorageOwnership], [StorageOwnershipFacts] ([runtime.rs], its first half): the lease
      of the writer, the manifest of the service's state, recovery, configuration.

    Settings and retention are operations on logical stores; a session's start cleans up what
    earlier ones left, loads the portable preferences and writes its marker.

    ** The importer of logs

    - [ImportContracts] ([network/mod.rs], [identity/mod.rs]): the categories and records of
      imported metadata. [ImportRedaction], [ImportRedactionFacts]: markers, paths, URLs,
      the shape of accepted JSON, hashed labels. [ImportCategories]: the tables that map
      texts to categories, binary32 scores.
    - [ImportLogs], [ImportLogsFacts]: the parsers of network-control, object-storage, cloud,
      deception and authentication logs, the preview and the prepared batch. [ImportDnsLog],
      [ImportDnsLogFacts]: the lines of DNS resolver logs. [ImportSummary],
      [ImportSummaryFacts]: the counts and flags reported for imported records.

    A preview redacts and categorizes each line, a batch is what of a preview is handed to the
    plugins, a summary counts the records of a batch.

    ** What the theorems show

    - Event bus: over every run of calls what a subscription's backlog held followed by what
      entered is what left followed by what it holds (the deliveries that may not be
      dropped), and what left unacknowledged has a dead letter; well-formedness is invariant;
      publication accounts for every outcome and protects protected topics; retries end.
    - Pipelines: the topological order is complete exactly on acyclic graphs; validation and
      the execution plan are characterized; backpressure delays only droppable work.
    - Components and registries: histories are chains of permitted transitions; the
      registries stay valid, their indexes complete.
    - Resolver: cycle detection is sound and complete; the startup order is correct; a
      resolution that is not incompatible honours every binding; the impact analysis is
      exactly the set of transitive dependents.
    - Permissions, settings, observability, plugin runtime: when a permission is allowed,
      which gates a response execution passes; the audit log holds accountable events only;
      startup, failure counting and batch processing are characterized.
    - Authorization and service: when an intent is approved, bounds of the tables; that the
      container changes only under the approval the request names, which is then marked, and
      at most once for each approval of a session (its 64 requests cannot overflow the table);
      that every request is answered unless the operation it stands for fails on the
      container; numbering and freshness of requests; what a closed connection leaves; frames
      round trip; read pages are bounded, and complete when each fits a response.
    - Storage: a store refines a finite map; paging is complete; migrations are atomic and
      run once; redaction hides secrets; retention removes only what is too old; the
      clean-up removes only session directories; a discarded session leaves nothing, and its
      end touches nothing else but the audit log; preferences are valid and round trip; there is at most one writer.
    - Importer: which lines are accepted, what is left of a path; every text of a record is
      of a fixed vocabulary, a plain label, a hash or a fingerprint; batches are bounded; what
      is kept of a DNS query, and which line panics; the summaries count exactly.

    Theorems about a flaw say so, among them: the retry count of the bus, the protection
    bypass by a droppable lane, forensic limits that bound nothing, publish scopes a plugin
    can widen, a failed provider operation that blocks the dispatcher, pages that skip items
    the byte limit dropped, snapshots cut at a thousand records, URL credentials that survive
    redaction, a second start that removes a live session, the lock of a dead writer, a byte
    slice of a log line inside a character, times not rounded to their bucket, categories
    read from the inside of a word, fingerprints kept as they came.

    ** Fuel

    Loops that are not structurally recursive get fuel that is proved sufficient, or run on a
    list whose length bounds them. [Kahn.drain]: the number of nodes ([drain_spec]).
    [Resolver.visit_for_cycles]: the number of components ([visit_spec]);
    [Resolver.impact_loop]: one more than the number of components ([impact_loop_spec]).
    [MutationAuthorization.evict]: the size of the table ([record_bound_terminates]).
    [ReadCommands.shrink]: the number of items of the page; [ServiceIpc.forget_old]: the
    length of the queue; [IpcFrames], [ReadCommandsFacts.read_pages] and
    [LogicalStorePaging.read_all]: the client's loops, with a bound given in their theorems.
    [FileSystem.MAX_LINKS]: how many links the system follows.

    ** Parameters

    Code outside the repository is a class: [Externals], [HashOrder], [Sha256], [Dpapi];
    the JSON and texts of serde ([ResponseJson], [PayloadLength], [ServiceJson],
    [StorageText], [FilterText], [RowCountText], [SettingsJson], [SessionText], [JsonText],
    [JsonNumber]); the SQL of migrations ([SqlEngine]); the machine ([Platform],
    [SessionEnv], [RuntimeEnv], [IoText], [DirOrder], [UuidText]); dates and JSON of
    imported logs ([ImportText]), the records of the other formats ([CaptureTypes]) and of
    the plugins ([Detections]); the container ([RuntimeContainer]), whose methods are any functions of their types. Laws a theorem
    needs of them are its hypotheses, or fields of the class.

    ** What is not modelled

    - Serialization derives, [Display] text nothing else uses, timeouts that are declared but
      not enforced, poisoned locks. Memory is unbounded and a [usize] counter of a collection
      does not overflow. Threads occur where the code has them: the other holders of the
      container's mutex, the other writers of the database.
    - In the storage crate: the second half of [runtime.rs] (opening the database, pragmas,
      demo data), which is calls to SQLite with fixed texts.
    - In the importer: the parsers of HAR files, JSON lines of flows, web, API-gateway, WAF
      and CDN logs, which are a parameter of the preview, and the run of a batch through the
      plugins.
    - The other capability plugins ([capabilities]), the runtime container and the two large command
      catalogues of [app_core], [infrastructure], the Windows service host, the desktop shell
      and its TypeScript; the mock plugin catalogue and the data contracts without checks.
      They are size, not new mechanism, except the detection algorithms over floating-point
      scores, for which this development has only the contracts. *)

From stdpp Require Export base tactics option list gmap sets strings numbers relations.
From stdpp Require Export sorting.
From Stdlib Require Export Ascii.
From Stdlib Require String.

#[export] Set Warnings "-clear-no-such-hyp".
#[global] Open Scope N_scope.
#[global] Open Scope list_scope.

(* ------------------------------------------------------------------ *)
(** ** Results of fallible operations *)

(** Rust's [Result<T, E>]. *)
Inductive result (T E : Type) : Type :=
  | Ok (v : T)
  | Err (e : E).
Arguments Ok {T E} v.
Arguments Err {T E} e.

Declare Scope sentinel_scope.
Delimit Scope sentinel_scope with sentinel.
#[global] Open Scope sentinel_scope.

(** The [?] operator: stop at the first [Err]. *)
Definition res_bind {T U E} (m : result T E) (f : T → result U E) : result U E :=
  match m with
  | Ok v => f v
  | Err e => Err e
  end.

Notation "'let?' x ':=' m 'in' k" := (res_bind m (λ x, k))
  (at level 10, x binder, m at level 100, k at level 200)
  : sentinel_scope.

(** [Result::map_err]. *)
Definition map_err {T E F} (f : E → F) (m : result T E) : result T F :=
  match m with
  | Ok v => Ok v
  | Err e => Err (f e)
  end.

Definition is_ok {T E} (m : result T E) : bool :=
  match m with Ok _ => true | Err _ => false end.

(** [for x in l { f(x)?; }] *)
Fixpoint for_each {A E} (f : A → result unit E) (l : list A) : result unit E :=
  match l with
  | [] => Ok tt
  | x :: l' => let? _ := f x in for_each f l'
  end.

(** Iterator [collect] into a [Result]: the first error wins. *)
Fixpoint try_map {A B E} (f : A → result B E) (l : list A) : result (list B) E :=
  match l with
  | [] => Ok []
  | x :: l' => let? y := f x in let? ys := try_map f l' in Ok (y :: ys)
  end.

Lemma res_bind_ok {A B E} (m : result A E) (f : A → result B E) v :
  res_bind m f = Ok v ↔ ∃ x, m = Ok x ∧ f x = Ok v.
Proof. destruct m; simpl; naive_solver. Qed.

Section result_lemmas.
Context {A B E : Type}.

Lemma is_ok_true (m : result A E) : is_ok m = true ↔ ∃ v, m = Ok v.
Proof. destruct m; simpl; naive_solver. Qed.

Lemma for_each_ok (f : A → result unit E) l :
  for_each f l = Ok tt ↔ Forall (λ x, f x = Ok tt) l.
Proof.
  induction l as [|x l IH]; simpl; [by split|].
  rewrite Forall_cons. destruct (f x) as [[]|e]; simpl; naive_solver.
Qed.

Lemma for_each_err (f : A → result unit E) l e :
  for_each f l = Err e ↔
  ∃ l1 x l2, l = l1 ++ x :: l2 ∧ Forall (λ y, f y = Ok tt) l1 ∧ f x = Err e.
Proof.
  induction l as [|x l IH]; simpl.
  { split; [done|]. by intros ([|??] & ? & ? & ? & _). }
  destruct (f x) as [[]|e'] eqn:Hx; simpl.
  - rewrite IH. split.
    + intros (l1 & y & l2 & -> & ? & ?). exists (x :: l1), y, l2.
      split_and!; try done. by constructor.
    + intros ([|z l1] & y & l2 & Heq & Hf & Hy); simplify_eq/=; [congruence|].
      apply Forall_cons in Hf as [_ Hf]. by exists l1, y, l2.
  - split.
    + intros [= ->]. by exists [], x, l.
    + intros ([|z l1] & y & l2 & Heq & Hf & Hy); simplify_eq/=; [congruence|].
      apply Forall_cons in Hf as [Hf _]. congruence.
Qed.

Lemma try_map_ok (f : A → result B E) l ys :
  try_map f l = Ok ys ↔ Forall2 (λ x y, f x = Ok y) l ys.
Proof.
  revert ys. induction l as [|x l IH]; intros ys; simpl.
  { split; [intros [= <-]; constructor|by inversion 1]. }
  rewrite res_bind_ok. split.
  - intros (y & Hy & Hr). apply res_bind_ok in Hr as (ys' & Hys & [= <-]).
    constructor; [done|]. by apply IH.
  - inversion 1 as [|? y ? ys' Hy Hys]; subst. exists y. split; [done|].
    apply IH in Hys. by rewrite Hys.
Qed.

Lemma try_map_total (f : A → result B E) l :
  (∀ x, x ∈ l → ∃ y, f x = Ok y) → ∃ ys, try_map f l = Ok ys.
Proof.
  induction l as [|x l IH]; intros Hf; simpl; [by eexists|].
  destruct (Hf x) as [y ->]; [set_solver|]. simpl.
  destruct IH as [ys ->]; [set_solver|]. by eexists.
Qed.
End result_lemmas.

Lemma map_err_ok {A E E'} (f : E → E') (r : result A E) x : map_err f r = Ok x ↔ r = Ok x.
Proof. destruct r; simpl; naive_solver. Qed.

(* ------------------------------------------------------------------ *)
(** ** Lists *)

Lemma Forall2_impl_in {A B} (P Q : A → B → Prop) l k :
  Forall2 P l k → (∀ x y, x ∈ l → P x y → Q x y) → Forall2 Q l k.
Proof.
  induction 1 as [|x y l k Hxy Hlk IH]; intros HPQ; constructor; [set_solver|].
  apply IH. set_solver.
Qed.

Lemma sublist_fmap {A B} (f : A → B) l k : sublist l k → sublist (f <$> l) (f <$> k).
Proof. induction 1; simpl; by constructor. Qed.

(* ------------------------------------------------------------------ *)
(** ** Automation *)

Create HintDb sentinel discriminated.
#[export] Hint Constants Opaque : sentinel.
#[export] Hint Variables Opaque : sentinel.

(** Splits every [match] and [if] of the goal or the context, keeping the
    equations and discharging the impossible branches. *)
Ltac split_cases :=
  repeat first
    [ progress simplify_eq/=
    | case_match
    | case_decide ];
  try done.

(** Turns boolean tests into propositions. *)
Ltac bool_prop :=
  repeat match goal with
  | H : _ && _ = true |- _ => apply andb_true_iff in H as [? ?]
  | H : _ || _ = false |- _ => apply orb_false_iff in H as [? ?]
  | H : negb _ = true |- _ => apply negb_true_iff in H
  | H : negb _ = false |- _ => apply negb_false_iff in H
  | H : bool_decide _ = true |- _ => apply bool_decide_eq_true in H
  | H : bool_decide _ = false |- _ => apply bool_decide_eq_false in H
  | H : (_ <? _)%N = true |- _ => apply N.ltb_lt in H
  | H : (_ <? _)%N = false |- _ => apply N.ltb_ge in H
  | H : (_ <=? _)%N = true |- _ => apply N.leb_le in H
  | H : (_ <=? _)%N = false |- _ => apply N.leb_gt in H
  | H : (_ =? _)%N = true |- _ => apply N.eqb_eq in H
  | H : (_ =? _)%N = false |- _ => apply N.eqb_neq in H
  end.

(** Case analysis on an [Err]/[Ok] chain held in a hypothesis. *)
Ltac res_inv H :=
  repeat (apply res_bind_ok in H; destruct H as (? & ? & H)).

(* ------------------------------------------------------------------ *)
(** ** Machine integers *)

(** Unsigned integers are values of [N]; the operations the code uses on them
    are the saturating ones, written out against the largest value. *)
Definition u8_max : N := 255.
Definition u16_max : N := 65535.
Definition u32_max : N := 4294967295.
Definition u64_max : N := 18446744073709551615.

Definition saturating_add (max a b : N) : N := N.min max (a + b).
(** [N.sub] truncates at zero, as [saturating_sub] does. *)
Definition saturating_sub (a b : N) : N := a - b.

(** The length of a vector as a [usize]. *)
Definition len {A} (l : list A) : N := N.of_nat (length l).

Lemma len_nil {A} : len (@nil A) = 0.
Proof. done. Qed.
Lemma len_cons {A} (x : A) l : len (x :: l) = 1 + len l.
Proof. unfold len. simpl. lia. Qed.
Lemma len_app {A} (l k : list A) : len (l ++ k) = len l + len k.
Proof. unfold len. rewrite length_app. lia. Qed.
Create Rewrite HintDb sentinel_len.
#[export] Hint Rewrite @len_nil @len_cons @len_app : sentinel_len.

Ltac len_lia := autorewrite with sentinel_len in *; unfold len in *; simpl in *; lia.
