(* ===== verification/Collections.v ===== *)
(** * The standard-library collections the program uses

    - [HashMap]/[HashSet] are [gmap]/[gset]; their iteration order is not
      specified by the language, so it is the parameter [HashOrder]: any
      enumeration of the entries, one per map.
    - [sort_by_key] is a stable sort over a key with a total order
      ([KeyOrder]): strings bytewise, numbers, and pairs lexicographically.
    - [Vec]/[VecDeque] are lists; [position] and [remove] are here. *)

From S2P Require Import Prelude.

(* ------------------------------------------------------------------ *)
(** ** Hash maps and sets *)

Class HashOrder := {
  hash_entries : ∀ {K} `{Countable K} {V}, gmap K V → list (K * V);
  hash_entries_perm : ∀ {K} `{Countable K} {V} (m : gmap K V),
    hash_entries m ≡ₚ map_to_list m
}.

(** One enumeration, for evaluating the model on concrete inputs. *)
Definition insertion_free_order : HashOrder :=
  {| hash_entries := λ K _ _ V m, map_to_list m;
     hash_entries_perm := λ K _ _ V m, Permutation_refl _ |}.

Section hash.
Context `{HashOrder} {K} `{Countable K} {V : Type}.
Implicit Types m : gmap K V.

Definition hash_keys m : list K := (hash_entries m).*1.
Definition hash_values m : list V := (hash_entries m).*2.
(** A [HashSet] is a [HashMap] to the unit. *)
Definition hash_elements (s : gset K) : list K :=
  (hash_entries (gset_to_gmap () s)).*1.

Lemma elem_of_hash_entries m k v : (k, v) ∈ hash_entries m ↔ m !! k = Some v.
Proof. by rewrite (hash_entries_perm m), elem_of_map_to_list. Qed.

Lemma elem_of_hash_keys m k : k ∈ hash_keys m ↔ is_Some (m !! k).
Proof.
  unfold hash_keys. rewrite list_elem_of_fmap. split.
  - intros ([k' v] & -> & Hin). apply elem_of_hash_entries in Hin. eauto.
  - intros [v Hv]. exists (k, v). by rewrite elem_of_hash_entries.
Qed.

Lemma elem_of_hash_values m v : v ∈ hash_values m ↔ ∃ k, m !! k = Some v.
Proof.
  unfold hash_values. rewrite list_elem_of_fmap. split.
  - intros ([k v'] & -> & Hin). apply elem_of_hash_entries in Hin. eauto.
  - intros [k Hk]. exists (k, v). by rewrite elem_of_hash_entries.
Qed.

Lemma NoDup_hash_keys m : NoDup (hash_keys m).
Proof.
  unfold hash_keys. rewrite (hash_entries_perm m).
  apply NoDup_fst_map_to_list.
Qed.

Lemma hash_keys_length m : length (hash_keys m) = size m.
Proof.
  unfold hash_keys. rewrite length_fmap, (hash_entries_perm m).
  apply length_map_to_list.
Qed.

Lemma hash_values_length m : length (hash_values m) = size m.
Proof.
  unfold hash_values. rewrite length_fmap, (hash_entries_perm m).
  apply length_map_to_list.
Qed.

Lemma hash_entries_empty : hash_entries (∅ : gmap K V) = [].
Proof.
  apply Permutation_nil_r. by rewrite hash_entries_perm, map_to_list_empty.
Qed.
Lemma hash_values_empty : hash_values (∅ : gmap K V) = [].
Proof. unfold hash_values. by rewrite hash_entries_empty. Qed.

(** When every value carries its own key, the values of a map are
    pairwise distinct in that key. *)
Lemma NoDup_hash_values_key (key : V → K) m :
  map_Forall (λ k v, key v = k) m → NoDup (key <$> hash_values m).
Proof.
  intros Hkey. unfold hash_values. rewrite <- list_fmap_compose.
  replace ((key ∘ snd) <$> hash_entries m) with (hash_keys m).
  { apply NoDup_hash_keys. }
  unfold hash_keys. apply list_fmap_ext. intros i [k v] Hi. simpl.
  symmetry. apply Hkey, elem_of_hash_entries. by eapply list_elem_of_lookup_2.
Qed.
End hash.

Section hash_set.
Context `{HashOrder} {K} `{Countable K}.

Lemma elem_of_hash_elements (s : gset K) k : k ∈ hash_elements s ↔ k ∈ s.
Proof.
  unfold hash_elements. change (k ∈ hash_keys (gset_to_gmap () s) ↔ k ∈ s).
  rewrite elem_of_hash_keys. unfold is_Some.
  setoid_rewrite lookup_gset_to_gmap_Some. naive_solver.
Qed.

Lemma NoDup_hash_elements (s : gset K) : NoDup (hash_elements s).
Proof. apply (NoDup_hash_keys (gset_to_gmap () s)). Qed.
End hash_set.

#[export] Hint Resolve NoDup_hash_keys NoDup_hash_elements : sentinel.

(** [HashMap::insert] for a key that is absent and [contains_key]. *)
Definition contains_key {K} `{Countable K} {V} (m : gmap K V) (k : K) : bool :=
  bool_decide (is_Some (m !! k)).

Lemma contains_key_true {K} `{Countable K} {V} (m : gmap K V) k :
  contains_key m k = true ↔ is_Some (m !! k).
Proof. apply bool_decide_eq_true. Qed.
Lemma contains_key_false {K} `{Countable K} {V} (m : gmap K V) k :
  contains_key m k = false ↔ m !! k = None.
Proof.
  unfold contains_key. rewrite bool_decide_eq_false. symmetry.
  apply eq_None_not_Some.
Qed.

(* ------------------------------------------------------------------ *)
(** ** Keys with a total order *)

Class KeyOrder (K : Type) := {
  key_le : K → K → bool;
  key_le_trans : ∀ x y z, key_le x y = true → key_le y z = true → key_le x z = true;
  key_le_total : ∀ x y, key_le x y = true ∨ key_le y x = true;
  key_le_antisym : ∀ x y, key_le x y = true → key_le y x = true → x = y
}.

#[export] Program Instance string_key_order : KeyOrder string :=
  {| key_le := String.leb |}.
Next Obligation.
  intros x y z Hxy Hyz. apply Is_true_true in Hxy, Hyz. apply Is_true_true.
  by transitivity y.
Qed.
Next Obligation. apply String.leb_total. Qed.
Next Obligation.
  intros x y Hxy Hyx. apply Is_true_true in Hxy, Hyx.
  by apply (anti_symm String.le).
Qed.

#[export] Program Instance N_key_order : KeyOrder N := {| key_le := N.leb |}.
Next Obligation. intros. bool_prop. apply N.leb_le. lia. Qed.
Next Obligation. intros. rewrite !N.leb_le. lia. Qed.
Next Obligation. intros. bool_prop. lia. Qed.

Definition pair_le {A B} `{KeyOrder A} `{KeyOrder B} (p q : A * B) : bool :=
  key_le p.1 q.1 && (negb (key_le q.1 p.1) || key_le p.2 q.2).

#[export] Program Instance pair_key_order {A B} `{KeyOrder A} `{KeyOrder B} :
  KeyOrder (A * B) := {| key_le := pair_le |}.
Next Obligation.
  intros A B ?? [a1 b1] [a2 b2] [a3 b3]. unfold pair_le. simpl. intros H1 H2.
  apply andb_true_iff in H1 as [H1 H1'], H2 as [H2 H2']. apply andb_true_iff.
  pose proof (key_le_trans _ _ _ H1 H2) as H12. split; [done|].
  destruct (key_le a3 a1) eqn:H31; [simpl|done].
  rewrite (key_le_trans _ _ _ H2 H31) in H1'. simpl in H1'.
  rewrite (key_le_trans _ _ _ H31 H1) in H2'. simpl in H2'.
  by eapply key_le_trans.
Qed.
Next Obligation.
  intros A B ?? [a1 b1] [a2 b2]. unfold pair_le. simpl.
  destruct (key_le a1 a2) eqn:H12, (key_le a2 a1) eqn:H21; simpl; auto.
  - apply key_le_total.
  - destruct (key_le_total a1 a2); congruence.
Qed.
Next Obligation.
  intros A B ?? [a1 b1] [a2 b2]. unfold pair_le. simpl. intros H1 H2.
  apply andb_true_iff in H1 as [H1 H1'], H2 as [H2 H2'].
  rewrite H1 in *. rewrite H2 in *. simpl in *.
  f_equal; by apply key_le_antisym.
Qed.

(* ------------------------------------------------------------------ *)
(** ** [sort_by_key] *)

Lemma NoDup_key_inj {A K} (key : A → K) l x y :
  NoDup (key <$> l) → x ∈ l → y ∈ l → key x = key y → x = y.
Proof.
  intros Hnd [i Hi]%list_elem_of_lookup [j Hj]%list_elem_of_lookup Hk.
  assert (i = j) as ->; [|congruence].
  eapply NoDup_lookup; [exact Hnd| |];
    rewrite list_lookup_fmap; [rewrite Hi|rewrite Hj]; simpl; [done|by rewrite Hk].
Qed.

Section sort.
Context {A K : Type} `{KeyOrder K} (key : A → K).

Fixpoint insert_by_key (x : A) (l : list A) : list A :=
  match l with
  | [] => [x]
  | y :: l' => if key_le (key x) (key y) then x :: l else y :: insert_by_key x l'
  end.
Definition sort_by_key (l : list A) : list A := foldr insert_by_key [] l.

Definition by_key (x y : A) : Prop := key_le (key x) (key y) = true.

#[export] Instance by_key_trans : Transitive by_key.
Proof. intros x y z. apply key_le_trans. Qed.

Lemma insert_by_key_perm x l : insert_by_key x l ≡ₚ x :: l.
Proof.
  induction l as [|y l IH]; simpl; [done|].
  destruct (key_le _ _); [done|]. rewrite IH. apply Permutation_swap.
Qed.

Lemma sort_by_key_perm l : sort_by_key l ≡ₚ l.
Proof.
  induction l as [|x l IH]; simpl; [done|]. by rewrite insert_by_key_perm, IH.
Qed.

Lemma sort_by_key_length l : length (sort_by_key l) = length l.
Proof. by rewrite sort_by_key_perm. Qed.

Lemma elem_of_sort_by_key x l : x ∈ sort_by_key l ↔ x ∈ l.
Proof. by rewrite sort_by_key_perm. Qed.

Lemma insert_by_key_sorted x l :
  StronglySorted by_key l → StronglySorted by_key (insert_by_key x l).
Proof.
  induction 1 as [|y l Hl IH Hy]; simpl; [by repeat constructor|].
  destruct (key_le (key x) (key y)) eqn:Hxy.
  - constructor; [by constructor|]. constructor; [done|].
    eapply Forall_impl; [done|]. intros z Hz. by eapply key_le_trans.
  - constructor; [done|]. rewrite insert_by_key_perm. constructor; [|done].
    unfold by_key. destruct (key_le_total (key x) (key y)); congruence.
Qed.

Lemma sort_by_key_sorted l : StronglySorted by_key (sort_by_key l).
Proof.
  induction l as [|x l IH]; simpl; [constructor|].
  by apply insert_by_key_sorted.
Qed.

(** Two orderings of the same elements sort to the same list when the keys
    are pairwise distinct: a sorted listing does not depend on the order
    a hash map was walked in. *)
Lemma sort_by_key_unique l1 l2 :
  NoDup (key <$> l1) → l1 ≡ₚ l2 → sort_by_key l1 = sort_by_key l2.
Proof.
  intros Hnd Hp.
  apply (StronglySorted_unique_strong by_key);
    [|apply sort_by_key_sorted..|by rewrite !sort_by_key_perm].
  intros x y Hx Hy Hxy Hyx.
  rewrite elem_of_sort_by_key in Hx, Hy. rewrite <- Hp in Hy.
  apply (NoDup_key_inj key l1 x y Hnd Hx Hy). by apply key_le_antisym.
Qed.
End sort.

(** Sorting commutes with a map that keeps the keys, and with a filter. *)
Lemma sort_by_key_fmap {A B K} `{KeyOrder K} (f : A → B) (key : A → K) (key' : B → K) l :
  (∀ x, x ∈ l → key' (f x) = key x) →
  sort_by_key key' (f <$> l) = f <$> sort_by_key key l.
Proof.
  induction l as [|x l IH]; intros Hk; [done|].
  change (insert_by_key key' (f x) (sort_by_key key' (f <$> l)) =
          f <$> insert_by_key key x (sort_by_key key l)). rewrite IH.
  2:{ intros y Hy. by apply Hk, list_elem_of_further. }
  assert (∀ k, (∀ y, y ∈ k → y ∈ l) →
    insert_by_key key' (f x) (f <$> k) = f <$> insert_by_key key x k) as Hins.
  { induction k as [|y k IHk]; intros Hin; [done|]. simpl.
    rewrite !Hk by (by apply list_elem_of_here || (apply list_elem_of_further, Hin; left)).
    destruct (key_le (key x) (key y)); [done|]. simpl. f_equal. apply IHk.
    intros z Hz. by apply Hin, list_elem_of_further. }
  apply Hins. intros y. by rewrite elem_of_sort_by_key.
Qed.
Lemma StronglySorted_filter {A} (R : relation A) (P : A → Prop) `{∀ x, Decision (P x)} l :
  StronglySorted R l → StronglySorted R (filter P l).
Proof.
  induction 1 as [|x l _ IH Hx]; [constructor|]. rewrite filter_cons.
  destruct (decide (P x)); [|done]. constructor; [done|]. rewrite Forall_forall in *.
  intros y [_ Hy]%list_elem_of_filter. by apply Hx.
Qed.
Lemma sort_by_key_filter {A K} `{KeyOrder K} (key : A → K) (P : A → Prop)
    `{∀ x, Decision (P x)} l :
  NoDup (key <$> l) → sort_by_key key (filter P l) = filter P (sort_by_key key l).
Proof.
  intros Hnd. apply (StronglySorted_unique_strong (by_key key));
    [|apply sort_by_key_sorted|apply StronglySorted_filter, sort_by_key_sorted
     |by rewrite !sort_by_key_perm].
  intros x y Hx Hy Hxy Hyx. rewrite elem_of_sort_by_key in Hx.
  apply list_elem_of_filter in Hx as [_ Hx], Hy as [_ Hy]. rewrite elem_of_sort_by_key in Hy.
  apply (NoDup_key_inj key l x y Hnd Hx Hy). by apply key_le_antisym.
Qed.
Lemma list_filter_none {A} (P : A → Prop) `{∀ x, Decision (P x)} l :
  Forall (λ x, ¬ P x) l → filter P l = [].
Proof. induction 1; [done|]. by rewrite filter_cons_False. Qed.
Lemma list_filter_all {A} (P : A → Prop) `{∀ x, Decision (P x)} l :
  Forall P l → filter P l = l.
Proof. induction 1 as [|x l Hx _ IH]; [done|]. by rewrite filter_cons_True, IH. Qed.
Lemma list_filter_iff_in {A} (P Q : A → Prop) `{∀ x, Decision (P x), ∀ x, Decision (Q x)}
    (l : list A) :
  (∀ x, x ∈ l → P x ↔ Q x) → filter P l = filter Q l.
Proof.
  induction l as [|x l IH]; intros Hpq; [done|]. rewrite !filter_cons, IH.
  - by rewrite (decide_ext (P x) (Q x)) by apply Hpq, list_elem_of_here.
  - intros y Hy. by apply Hpq, list_elem_of_further.
Qed.
(** What comes after an element of a sorted list with distinct keys. *)
Lemma sorted_after {A K} `{KeyOrder K} (key : A → K) (P : A → Prop) `{∀ x, Decision (P x)}
    l1 x l2 :
  StronglySorted (by_key key) (l1 ++ x :: l2) → NoDup (key <$> l1 ++ x :: l2) →
  (∀ y, P y ↔ key_le (key y) (key x) = false) →
  filter P (l1 ++ x :: l2) = l2.
Proof.
  intros Hs Hnd HP. rewrite filter_app, filter_cons.
  rewrite (list_filter_none P l1); [simpl|].
  - destruct (decide (P x)) as [Hx|_].
    { apply HP in Hx. destruct (key_le_total (key x) (key x)); congruence. }
    apply StronglySorted_app_1_r in Hs. inversion Hs as [|?? _ Hx]; subst.
    apply list_filter_all. rewrite Forall_forall in *. intros y Hy. apply HP.
    specialize (Hx y Hy). destruct (key_le (key y) (key x)) eqn:Hyx; [|done].
    rewrite fmap_app, fmap_cons in Hnd. apply NoDup_app in Hnd as (_ & _ & Hnd).
    apply NoDup_cons in Hnd as [Hnin _]. destruct Hnin. apply list_elem_of_fmap.
    exists y. split; [|done]. by apply key_le_antisym.
  - apply Forall_forall. intros y Hy Hp%HP.
    pose proof (StronglySorted_app_1_elem_of _ _ _ y x Hs Hy) as Hyx.
    unfold by_key in Hyx. rewrite Hyx in Hp; [done|]. left.
Qed.

#[export] Instance sort_by_key_Permutation {A K} `{KeyOrder K} (key : A → K) :
  Proper ((≡ₚ) ==> (≡ₚ)) (sort_by_key key).
Proof. intros l1 l2 Hl. by rewrite !sort_by_key_perm. Qed.

Lemma NoDup_sort_by_key {A K} `{KeyOrder K} (key : A → K) l :
  NoDup l → NoDup (sort_by_key key l).
Proof. by rewrite sort_by_key_perm. Qed.
#[export] Hint Resolve NoDup_sort_by_key : sentinel.

(* ------------------------------------------------------------------ *)
(** ** Vectors and double-ended queues *)

(** [iter().position(p)] *)
Fixpoint position {A} (p : A → bool) (l : list A) : option nat :=
  match l with
  | [] => None
  | x :: l' => if p x then Some 0%nat else S <$> position p l'
  end.

(** [VecDeque::remove(i)]: the removed element and the rest. *)
Fixpoint vec_remove {A} (i : nat) (l : list A) : option (A * list A) :=
  match l, i with
  | [], _ => None
  | x :: l', O => Some (x, l')
  | x :: l', S i' => prod_map id (cons x) <$> vec_remove i' l'
  end.

(** [iter().find(p)] *)
Fixpoint find {A} (p : A → bool) (l : list A) : option A :=
  match l with
  | [] => None
  | x :: l' => if p x then Some x else find p l'
  end.

(** [iter().enumerate()] *)
Definition enumerate {A} (l : list A) : list (N * A) :=
  imap (λ i x, (N.of_nat i, x)) l.

Section vec.
Context {A : Type}.

Lemma position_Some (p : A → bool) l i :
  position p l = Some i ↔
  ∃ l1 x l2, l = l1 ++ x :: l2 ∧ length l1 = i ∧ p x = true ∧
    Forall (λ y, p y = false) l1.
Proof.
  revert i. induction l as [|x l IH]; intros i; simpl.
  { split; [done|]. by intros ([|??] & ? & ? & ? & _). }
  destruct (p x) eqn:Hx.
  - split.
    + intros [= <-]. by exists [], x, l.
    + intros ([|y l1] & z & l2 & Heq & <- & Hz & Hf); simplify_eq/=; [done|].
      apply Forall_cons in Hf as [Hf _]. congruence.
  - rewrite fmap_Some. setoid_rewrite IH. split.
    + intros (j & (l1 & z & l2 & -> & <- & ? & ?) & ->).
      exists (x :: l1), z, l2. split_and!; try done. by constructor.
    + intros ([|y l1] & z & l2 & Heq & <- & Hz & Hf); simplify_eq/=; [congruence|].
      apply Forall_cons in Hf as [_ Hf]. exists (length l1). split; [|done].
      by exists l1, z, l2.
Qed.

Lemma position_None (p : A → bool) l :
  position p l = None ↔ Forall (λ y, p y = false) l.
Proof.
  induction l as [|x l IH]; simpl; [by split|].
  rewrite Forall_cons. destruct (p x); [naive_solver|].
  rewrite fmap_None, IH. naive_solver.
Qed.

Lemma vec_remove_app (l1 : list A) x l2 :
  vec_remove (length l1) (l1 ++ x :: l2) = Some (x, l1 ++ l2).
Proof. induction l1 as [|y l1 IH]; simpl; [done|]. by rewrite IH. Qed.

Lemma find_Some (p : A → bool) l x :
  find p l = Some x → x ∈ l ∧ p x = true.
Proof.
  induction l as [|y l IH]; simpl; [done|].
  destruct (p y) eqn:Hy; [|set_solver]. intros [= <-]. set_solver.
Qed.

Lemma find_None (p : A → bool) l :
  find p l = None ↔ Forall (λ x, p x = false) l.
Proof.
  induction l as [|y l IH]; simpl; [by split|].
  rewrite Forall_cons. destruct (p y); naive_solver.
Qed.

(** [find] by a key that is pairwise distinct returns the element itself. *)
Lemma find_key_NoDup {K} `{EqDecision K} (key : A → K) l x :
  NoDup (key <$> l) → x ∈ l →
  find (λ y, bool_decide (key y = key x)) l = Some x.
Proof.
  induction l as [|y l IH]; simpl; [by intros ? ?%elem_of_nil|].
  intros [Hy Hnd]%NoDup_cons [->|Hx]%elem_of_cons.
  - by rewrite bool_decide_eq_true_2.
  - rewrite bool_decide_eq_false_2; [by apply IH|].
    intros Heq. apply Hy. rewrite Heq. by apply list_elem_of_fmap_2.
Qed.

Lemma enumerate_lookup (l : list A) i :
  enumerate l !! i = (λ x, (N.of_nat i, x)) <$> l !! i.
Proof. unfold enumerate. by rewrite list_lookup_imap. Qed.

Lemma enumerate_snd (l : list A) : (enumerate l).*2 = l.
Proof.
  apply list_eq. intros i. rewrite list_lookup_fmap, enumerate_lookup.
  by destruct (l !! i).
Qed.

Lemma enumerate_length (l : list A) : length (enumerate l) = length l.
Proof. apply length_imap. Qed.
End vec.

(* ------------------------------------------------------------------ *)
(** ** Sets of list elements *)

Section list_sets.
Context {K : Type} `{Countable K}.

Lemma size_list_to_set_le (l : list K) : (size (list_to_set l : gset K) ≤ length l)%nat.
Proof.
  induction l as [|x l IH]; [done|]. rewrite list_to_set_cons. simpl.
  rewrite size_union_alt, size_singleton.
  assert (size (list_to_set l ∖ {[x]} : gset K) ≤ size (list_to_set l : gset K))%nat
    by (apply subseteq_size; set_solver). lia.
Qed.

Lemma NoDup_size_list_to_set (l : list K) :
  NoDup l ↔ size (list_to_set l : gset K) = length l.
Proof.
  split; [by apply size_list_to_set|].
  induction l as [|x l IH]; [by constructor|].
  rewrite list_to_set_cons. simpl. intros Hsz.
  pose proof (size_list_to_set_le l) as Hle.
  destruct (decide (x ∈ l)) as [Hx|Hx].
  - replace ({[x]} ∪ list_to_set l) with (list_to_set l : gset K) in Hsz by set_solver.
    lia.
  - constructor; [done|]. apply IH. rewrite size_union, size_singleton in Hsz by set_solver.
    lia.
Qed.
End list_sets.
