(* ===== verification/RustStr.v ===== *)
(** * Strings

    A Rust [str] is its UTF-8 bytes: [String.string]. The functions here are
    the ones of the standard library the program calls: [trim().is_empty()]
    (Unicode [White_Space]), [split] on ASCII characters, [contains],
    [to_ascii_lowercase], [replace] of ASCII characters by ['_'], [join],
    the unsigned [parse] and [Display] of integers. *)

From S2P Require Import Prelude.
From Stdlib Require Import DecimalString DecimalN DecimalPos.

#[local] Open Scope string_scope.
#[local] Open Scope N_scope.

Definition code (c : ascii) : N := N_of_ascii c.

(* ------------------------------------------------------------------ *)
(** ** Blank strings *)

(** The characters with the Unicode [White_Space] property, by the length of
    their UTF-8 encoding: U+0009-000D and U+0020; U+0085 and U+00A0; U+1680,
    U+2000-200A, U+2028, U+2029, U+202F, U+205F and U+3000. *)
Definition space1 (a : N) : bool := ((9 <=? a) && (a <=? 13)) || (a =? 32).
Definition space2 (a b : N) : bool := (a =? 194) && ((b =? 133) || (b =? 160)).
Definition space3 (a b c : N) : bool :=
  ((a =? 225) && (b =? 154) && (c =? 128)) ||
  ((a =? 226) && (b =? 128) &&
     (((128 <=? c) && (c <=? 138)) || (c =? 168) || (c =? 169) || (c =? 175))) ||
  ((a =? 226) && (b =? 129) && (c =? 159)) ||
  ((a =? 227) && (b =? 128) && (c =? 128)).

(** [value.trim().is_empty()] *)
Fixpoint blank (s : string) : bool :=
  match s with
  | "" => true
  | String a s1 =>
      if space1 (code a) then blank s1
      else match s1 with
           | "" => false
           | String b s2 =>
               if space2 (code a) (code b) then blank s2
               else match s2 with
                    | "" => false
                    | String c s3 =>
                        if space3 (code a) (code b) (code c) then blank s3 else false
                    end
           end
  end.

(** [value.trim_start()]: drops white space from the front. *)
Fixpoint trim_start (s : string) : string :=
  match s with
  | "" => ""
  | String a s1 =>
      if space1 (code a) then trim_start s1
      else match s1 with
           | "" => s
           | String b s2 =>
               if space2 (code a) (code b) then trim_start s2
               else match s2 with
                    | "" => s
                    | String c s3 =>
                        if space3 (code a) (code b) (code c) then trim_start s3 else s
                    end
           end
  end.
(** [value.trim_end()]: what is blank from some byte on is dropped; the bytes inside a
    character are never the first of a white-space character. *)
Fixpoint trim_end (s : string) : string :=
  if blank s then ""
  else match s with
       | "" => ""
       | String a s1 => String a (trim_end s1)
       end.
(** [value.trim()] *)
Definition trim (s : string) : string := trim_end (trim_start s).

(* ------------------------------------------------------------------ *)
(** ** Characters *)

Fixpoint all_chars (p : ascii → bool) (s : string) : bool :=
  match s with
  | "" => true
  | String c s' => p c && all_chars p s'
  end.

Definition is_ascii_digit (c : ascii) : bool := (48 <=? code c) && (code c <=? 57).
Definition is_ascii_lowercase (c : ascii) : bool := (97 <=? code c) && (code c <=? 122).
Definition is_ascii_uppercase (c : ascii) : bool := (65 <=? code c) && (code c <=? 90).

Fixpoint map_chars (f : ascii → ascii) (s : string) : string :=
  match s with
  | "" => ""
  | String c s' => String (f c) (map_chars f s')
  end.

Definition to_ascii_lowercase : string → string :=
  map_chars (λ c, if is_ascii_uppercase c then ascii_of_N (code c + 32) else c).

(** [replace(chars, "_")] for a set of ASCII characters. *)
Definition replace_with_underscore (chars : list ascii) : string → string :=
  map_chars (λ c, if bool_decide (c ∈ chars) then "_"%char else c).

(* ------------------------------------------------------------------ *)
(** ** Searching and splitting *)

Fixpoint contains (s pat : string) : bool :=
  String.prefix pat s ||
  match s with
  | "" => false
  | String _ s' => contains s' pat
  end.

(** [split(p)]: always at least one part. *)
Fixpoint split (p : ascii → bool) (s : string) : list string :=
  match s with
  | "" => [""]
  | String c s' =>
      match split p s' with
      | [] => []
      | part :: parts =>
          if p c then "" :: part :: parts else String c part :: parts
      end
  end.

Definition is_dot (c : ascii) : bool := bool_decide (c = "."%char).

(** [slice.join(sep)] *)
Definition join (sep : string) (l : list string) : string := String.concat sep l.

(* ------------------------------------------------------------------ *)
(** ** Unsigned integers *)

Definition digit_value (c : ascii) : N := code c - 48.

Fixpoint parse_digits (acc : N) (s : string) : option N :=
  match s with
  | "" => Some acc
  | String c s' =>
      if is_ascii_digit c then parse_digits (10 * acc + digit_value c) s' else None
  end.

(** [value.parse::<uN>()]: an optional ['+'], at least one digit, no
    overflow. *)
Definition parse_uint (max : N) (s : string) : option N :=
  let digits := match s with String "+" s' => s' | _ => s end in
  match digits with
  | "" => None
  | _ => n ← parse_digits 0 digits; if n <=? max then Some n else None
  end.

(** [Display] of an unsigned integer. *)
Definition show_uint (n : N) : string := NilZero.string_of_uint (N.to_uint n).

(* ------------------------------------------------------------------ *)
(** ** Lemmas *)

Lemma all_chars_app p s t : all_chars p (s ++ t) = all_chars p s && all_chars p t.
Proof. induction s as [|c s IH]; simpl; [done|]. by rewrite IH, andb_assoc. Qed.

Lemma str_app_char c s : (String c "" ++ s)%string = String c s.
Proof. done. Qed.
Lemma str_app_cons c s t : (String c s ++ t)%string = String c (s ++ t).
Proof. done. Qed.

Lemma prefix_spec pat s : String.prefix pat s = true ↔ ∃ b, s = (pat ++ b)%string.
Proof.
  revert s. induction pat as [|c pat IH]; intros s; simpl.
  { split; [eauto|by destruct s]. }
  destruct s as [|d s]; simpl; [split; [done|by intros []]|].
  destruct (ascii_dec c d) as [->|Hne].
  - rewrite IH. split; intros [b Hb]; exists b; [by rewrite Hb|by injection Hb].
  - split; [done|]. intros [b [=]]. congruence.
Qed.

Lemma contains_spec s pat :
  contains s pat = true ↔ ∃ a b, s = (a ++ pat ++ b)%string.
Proof.
  induction s as [|c s IH]; cbn [contains]; rewrite orb_true_iff, prefix_spec.
  - split.
    + intros [[b Hb]|]; [by exists "", b|done].
    + intros ([|??] & b & Heq); [left; by exists b|done].
  - rewrite IH. split.
    + intros [[b Hb]|(a & b & ->)]; [by exists "", b|by exists (String c a), b].
    + intros ([|d a] & b & Heq); [left; by exists b|].
      right. simpl in Heq. injection Heq as -> ->. eauto.
Qed.

Lemma split_nonempty p s : split p s ≠ [].
Proof.
  induction s as [|c s IH]; simpl; [done|].
  destruct (split p s); [done|]. by destruct (p c).
Qed.

(** The parts of a split carry no separator. *)
Lemma split_parts p s : Forall (λ part, all_chars (λ c, negb (p c)) part = true) (split p s).
Proof.
  induction s as [|c s IH]; simpl; [by repeat constructor|].
  destruct (split p s) as [|part parts]; [done|].
  apply Forall_cons in IH as [Hp Hps].
  destruct (p c) eqn:Hc; repeat constructor; simpl; try done.
  by rewrite Hc.
Qed.

(** Joining the parts of a split at a dot gives the string back. *)
Lemma split_join s : join "." (split is_dot s) = s.
Proof.
  unfold join. induction s as [|c s IH]; simpl; [done|].
  destruct (split is_dot s) as [|part parts] eqn:Hs; [by apply split_nonempty in Hs|].
  unfold is_dot. case_bool_decide as Hc.
  - subst c. change (String.append "" (String.append "." (String.concat "." (part :: parts))) = String "." s).
    by rewrite IH.
  - rewrite <- IH. by destruct parts.
Qed.

Lemma split_no_sep p s : all_chars (λ c, negb (p c)) s = true → split p s = [s].
Proof.
  induction s as [|c s IH]; simpl; [done|].
  intros [Hc Hs]%andb_true_iff. rewrite (IH Hs).
  by apply negb_true_iff in Hc as ->.
Qed.

Lemma split_app p s c t :
  all_chars (λ c, negb (p c)) s = true → p c = true →
  split p (s ++ String c t) = s :: split p t.
Proof.
  intros Hs Hc. induction s as [|d s IH]; simpl.
  - destruct (split p t) as [|x l] eqn:Ht; [by apply split_nonempty in Ht|].
    by rewrite Hc.
  - simpl in Hs. apply andb_true_iff in Hs as [Hd Hs]. rewrite (IH Hs).
    by apply negb_true_iff in Hd as ->.
Qed.

(** ** Printing and parsing integers *)

Lemma parse_digits_uint acc d :
  parse_digits (Npos acc) (NilEmpty.string_of_uint d)
  = Some (Npos (Pos.of_uint_acc d acc)).
Proof.
  revert acc. induction d as [|d IH|d IH|d IH|d IH|d IH|d IH|d IH|d IH|d IH|d IH];
    intros acc; [done|..]; cbn [NilEmpty.string_of_uint parse_digits];
    match goal with |- context [is_ascii_digit ?c] =>
      change (is_ascii_digit c) with true;
      let v := eval vm_compute in (digit_value c) in change (digit_value c) with v
    end; cbv iota; cbn [Pos.of_uint_acc]; rewrite <- IH;
    f_equal; lia.
Qed.

Lemma parse_digits_uint0 d :
  parse_digits 0 (NilEmpty.string_of_uint d) = Some (Pos.of_uint d).
Proof.
  induction d as [|d IH|d IH|d IH|d IH|d IH|d IH|d IH|d IH|d IH|d IH];
    [done|..]; cbn [NilEmpty.string_of_uint parse_digits];
    match goal with |- context [is_ascii_digit ?c] =>
      change (is_ascii_digit c) with true;
      let v := eval vm_compute in (digit_value c) in change (digit_value c) with v
    end; cbv iota; cbn [Pos.of_uint];
    [exact IH | change (10 * 0 + ?x) with x; apply parse_digits_uint..].
Qed.

Lemma show_uint_digits n :
  ∃ c s, show_uint n = String c s ∧ is_ascii_digit c = true ∧
    parse_digits 0 (String c s) = Some n.
Proof.
  pose proof (parse_digits_uint0 (N.to_uint n)) as Hp.
  change (Pos.of_uint (N.to_uint n)) with (N.of_uint (N.to_uint n)) in Hp.
  rewrite DecimalN.Unsigned.of_to in Hp.
  unfold show_uint. destruct (N.to_uint n) eqn:Hd.
  { exfalso. destruct n as [|p]; [done|]. simpl in Hd.
    by apply DecimalPos.Unsigned.to_uint_nonnil in Hd. }
  all: cbn [NilZero.string_of_uint NilEmpty.string_of_uint] in *.
  all: eexists _, _; split; [reflexivity|]; by split.
Qed.

Lemma parse_show_uint max n : n ≤ max → parse_uint max (show_uint n) = Some n.
Proof.
  intros Hn. destruct (show_uint_digits n) as (c & s & -> & Hc & Hp).
  unfold parse_uint.
  assert (match String c s with String "+" s' => s' | _ => String c s end = String c s) as ->.
  { destruct c as [[] [] [] [] [] [] [] []]; try done. }
  rewrite Hp. simpl. by rewrite (proj2 (N.leb_le _ _) Hn).
Qed.

Lemma parse_digits_all acc s n : parse_digits acc s = Some n → all_chars is_ascii_digit s = true.
Proof.
  revert acc. induction s as [|c s IH]; intros acc; simpl; [done|].
  destruct (is_ascii_digit c); [|done]. intros H. by apply IH in H.
Qed.

Lemma show_uint_all_digits n : all_chars is_ascii_digit (show_uint n) = true.
Proof.
  destruct (show_uint_digits n) as (c & s & -> & _ & Hp). by apply parse_digits_all in Hp.
Qed.

Lemma parse_uint_bound max s n : parse_uint max s = Some n → n ≤ max.
Proof.
  unfold parse_uint. destruct (match s with String "+" s' => s' | _ => s end); [done|].
  destruct (parse_digits 0 _); simpl; [|done].
  destruct (_ <=? _) eqn:E; [|done]. intros [= <-]. by apply N.leb_le.
Qed.

(** ** Blank and non-blank strings *)

(** A string whose first byte is graphic ASCII is not blank. *)
Lemma blank_graphic c s : 33 ≤ code c ≤ 126 → blank (String c s) = false.
Proof.
  intros Hc. cbn [blank].
  assert (space1 (code c) = false) as ->.
  { unfold space1. apply orb_false_iff. split; [apply andb_false_iff; right|].
    - apply N.leb_gt. lia.
    - apply N.eqb_neq. lia. }
  destruct s as [|b s]; [done|].
  assert (∀ k, 127 ≤ k → (code c =? k) = false) as Hk.
  { intros k Hk. apply N.eqb_neq. lia. }
  unfold space2. rewrite (Hk 194) by lia. cbn [andb]. destruct s as [|d s]; [done|].
  unfold space3. rewrite (Hk 225), (Hk 226), (Hk 227) by lia. done.
Qed.

(** ** Lower-casing *)

Lemma to_ascii_lowercase_no_upper s :
  all_chars (λ c, negb (is_ascii_uppercase c)) (to_ascii_lowercase s) = true.
Proof.
  unfold to_ascii_lowercase. induction s as [|c s IH]; [done|]. cbn [map_chars all_chars].
  rewrite IH, andb_true_r.
  by destruct c as [[] [] [] [] [] [] [] []].
Qed.

Lemma map_chars_length f s : String.length (map_chars f s) = String.length s.
Proof. induction s; simpl; congruence. Qed.

Lemma blank_trim_start_aux n s : (String.length s ≤ n)%nat →
  blank s = bool_decide (trim_start s = "") ∧ blank (trim_start s) = blank s.
Proof.
  revert s. induction n as [|n IH]; intros [|a s1] Hn; try done; simpl in Hn; [lia|].
  cbn [blank trim_start]. destruct (space1 (code a)) eqn:Ha; [apply IH; lia|].
  destruct s1 as [|b s2]; simpl in Hn; [simpl; by rewrite Ha|].
  destruct (space2 (code a) (code b)) eqn:Hb; [apply IH; lia|].
  destruct s2 as [|c s3]; simpl in Hn; [simpl; by rewrite Ha, Hb|].
  destruct (space3 (code a) (code b) (code c)) eqn:Hc; [apply IH; lia|].
  cbn [blank]. by rewrite Ha, Hb, Hc.
Qed.

(** [trim().is_empty()] is blankness. *)
Lemma blank_trim s : blank s = bool_decide (trim s = "").
Proof.
  unfold trim. destruct (blank_trim_start_aux _ s (Nat.le_refl _)) as [H1 H2].
  destruct (trim_start s) as [|c t] eqn:Ht; [by rewrite H1|].
  cbn [trim_end]. rewrite H2. by destruct (blank s).
Qed.

(** ** Graphic text *)

Definition is_ascii_graphic (c : ascii) : bool := (33 <=? code c) && (code c <=? 126).

Lemma trim_start_graphic c s : is_ascii_graphic c = true → trim_start (String c s) = String c s.
Proof.
  intros Hc. assert (33 ≤ code c ≤ 126) as Hr.
  { unfold is_ascii_graphic in Hc. by apply andb_true_iff in Hc as [?%N.leb_le ?%N.leb_le]. }
  assert (Hb : blank (String c s) = false) by by apply blank_graphic.
  destruct (blank_trim_start_aux _ (String c s) (Nat.le_refl _)) as [H1 _].
  cbn [trim_start]. assert (space1 (code c) = false) as ->.
  { unfold space1. apply orb_false_iff. split; [apply andb_false_iff; right|].
    - apply N.leb_gt. lia.
    - apply N.eqb_neq. lia. }
  assert (∀ k, 127 ≤ k → (code c =? k) = false) as Hk.
  { intros k Hk. apply N.eqb_neq. lia. }
  destruct s as [|b s]; [done|]. unfold space2. rewrite (Hk 194) by lia. cbn [andb].
  destruct s as [|d s]; [done|].
  unfold space3. rewrite (Hk 225), (Hk 226), (Hk 227) by lia. done.
Qed.

Lemma trim_end_graphic s : all_chars is_ascii_graphic s = true → trim_end s = s.
Proof.
  induction s as [|c s IH]; [done|]. intros [Hc Hs]%andb_true_iff. cbn [trim_end].
  rewrite blank_graphic, IH; [done..|].
  unfold is_ascii_graphic in Hc. by apply andb_true_iff in Hc as [?%N.leb_le ?%N.leb_le].
Qed.

(** Graphic text has nothing to trim. *)
Lemma trim_graphic s : all_chars is_ascii_graphic s = true → trim s = s.
Proof.
  intros Hs. unfold trim. destruct s as [|c s]; [done|].
  rewrite trim_start_graphic; [by apply trim_end_graphic|]. by apply andb_true_iff in Hs as [? _].
Qed.

Lemma all_chars_impl p q s :
  (∀ c, p c = true → q c = true) → all_chars p s = true → all_chars q s = true.
Proof.
  intros Hpq. induction s as [|c s IH]; [done|]. simpl. rewrite !andb_true_iff. naive_solver.
Qed.

Lemma to_ascii_lowercase_id s :
  all_chars (λ c, negb (is_ascii_uppercase c)) s = true → to_ascii_lowercase s = s.
Proof.
  unfold to_ascii_lowercase. induction s as [|c s IH]; [done|]. cbn [map_chars all_chars].
  intros [Hc%negb_true_iff Hs]%andb_true_iff. by rewrite Hc, IH.
Qed.

(** What is found in a string is written in its alphabet. *)
Lemma contains_alphabet p s pat :
  all_chars p s = true → contains s pat = true → all_chars p pat = true.
Proof.
  rewrite contains_spec. intros Hs (a & b & ->).
  rewrite !all_chars_app, !andb_true_iff in Hs. tauto.
Qed.

Lemma string_app_length (s t : string) :
  String.length (s ++ t)%string = (String.length s + String.length t)%nat.
Proof. induction s as [|c s IH]; [done|]. rewrite str_app_cons. cbn [String.length]. by rewrite IH. Qed.

(** ** The number of digits *)

Lemma pow_digit_step a a' n m :
  10 * a ≤ a' → a' * 10 ^ N.of_nat n ≤ m → a * 10 ^ N.of_nat (S n) ≤ m.
Proof.
  intros Ha Hm. rewrite Nat2N.inj_succ, N.pow_succ_r', N.mul_assoc, (N.mul_comm a).
  etrans; [|exact Hm]. by apply N.mul_le_mono_r.
Qed.

Lemma of_uint_acc_lower d acc :
  N.pos acc * 10 ^ N.of_nat (String.length (NilEmpty.string_of_uint d)) ≤
  N.pos (Pos.of_uint_acc d acc).
Proof.
  revert acc. induction d as [|d IH|d IH|d IH|d IH|d IH|d IH|d IH|d IH|d IH|d IH]; intros acc;
    [by rewrite N.mul_1_r|..];
    (eapply pow_digit_step; [|apply IH]; lia).
Qed.

Lemma nzhead_length d :
  (String.length (NilEmpty.string_of_uint (Decimal.nzhead d)) ≤
   String.length (NilEmpty.string_of_uint d))%nat.
Proof. induction d; simpl; lia. Qed.

Lemma show_uint_length n k : n < 10 ^ N.of_nat (S k) → (String.length (show_uint n) ≤ S k)%nat.
Proof.
  intros Hn. unfold show_uint. pose proof (DecimalN.Unsigned.of_to n) as Hof.
  pose proof (DecimalN.Unsigned.to_of (N.to_uint n)) as Hto. rewrite Hof in Hto.
  assert (Hbound : ∀ d acc, n = Npos (Pos.of_uint_acc d acc) →
    (String.length (NilEmpty.string_of_uint d) ≤ k)%nat).
  { intros d acc Hd. pose proof (of_uint_acc_lower d acc) as Hl.
    assert (10 ^ N.of_nat (String.length (NilEmpty.string_of_uint d)) < 10 ^ N.of_nat (S k)) as Hp.
    { eapply N.le_lt_trans; [|exact Hn]. rewrite Hd. etrans; [|exact Hl].
      rewrite <- (N.mul_1_l (10 ^ _)) at 1. apply N.mul_le_mono_r. lia. }
    apply N.pow_lt_mono_r_iff in Hp; lia. }
  destruct (N.to_uint n) as [|d|d|d|d|d|d|d|d|d|d];
    [simpl; lia| |simpl; apply le_n_S; eapply Hbound; by rewrite <- Hof..].
  unfold Decimal.unorm in Hto. simpl in Hto. pose proof (nzhead_length d) as Hz.
  assert (d = Decimal.Nil ∨ Decimal.nzhead d = Decimal.D0 d) as [->|Hd].
  { destruct (Decimal.nzhead d); [left; by injection Hto|by right..]. }
  - simpl. lia.
  - rewrite Hd in Hz. simpl in Hz. lia.
Qed.

(** [value.split_once(c)] *)
Fixpoint split_once (c : ascii) (s : string) : option (string * string) :=
  match s with
  | "" => None
  | String c' s' =>
      if Ascii.eqb c' c then Some ("", s')
      else match split_once c s' with
           | Some (before, after) => Some (String c' before, after)
           | None => None
           end
  end.

Lemma split_once_app c s t :
  all_chars (λ c', negb (Ascii.eqb c' c)) s = true →
  split_once c (s ++ String c t)%string = Some (s, t).
Proof.
  induction s as [|c' s IH].
  - intros _. change (("" ++ String c t)%string) with (String c t). simpl.
    by rewrite Ascii.eqb_refl.
  - intros Hs. change ((String c' s ++ String c t)%string) with (String c' (s ++ String c t)%string).
    simpl in Hs. apply andb_true_iff in Hs as [Hc Hs]. apply negb_true_iff in Hc.
    simpl. rewrite Hc. by rewrite (IH Hs).
Qed.

Lemma string_app_nil_r (a : string) : (a ++ "" = a)%string.
Proof. induction a as [|x a IH]; [done|]. by rewrite !str_app_cons, IH. Qed.
