(* ===== verification/Effects.v ===== *)
(** * Identifiers, the clock, and what comes from outside the repository

    - [Uuid] is the 128-bit value of the [uuid] crate; its textual form is a
      parameter that is only known to be injective ([Externals]).
    - [Uuid::new_v4] and [Utc::now] read an oracle, the [World]: any stream of
      identifiers and any stream of instants. Operations that use them are in
      the state monad [ST].
    - [serde_json::Value] is an opaque type with its [Null]. *)

From S2P Require Import Prelude Collections RustStr.

(* ------------------------------------------------------------------ *)
(** ** Uuids and typed identifiers *)

Record Uuid := mkUuid { uuid_bits : N }.

#[export] Instance Uuid_eq_dec : EqDecision Uuid.
Proof. solve_decision. Defined.
#[export] Instance Uuid_countable : Countable Uuid.
Proof. by apply (inj_countable' uuid_bits mkUuid); intros []. Defined.

(** What the program uses of the crates [uuid] and [serde_json]. *)
Class Externals := {
  uuid_to_string : Uuid → string;
  uuid_to_string_inj : Inj (=) (=) uuid_to_string;
  json_value : Type;
  json_null : json_value;
  json_empty_object : json_value
}.
#[export] Existing Instance uuid_to_string_inj.

(** The identifier types declared with [define_uuid_id!] in
    [contracts/src/common/ids.rs], and the newtypes over [Uuid] of the platform
    crate. *)
(* [common/ids.rs:85-175] define_uuid_id! *)
Inductive IdKind :=
  | KPluginId | KCapabilityId | KContractId | KUiContributionId
  | KActionDescriptorId | KDataSourceId | KEventId | KPacketRecordId | KFlowId
  | KSessionId | KDnsObservationId | KTlsObservationId | KHttpMetadataId
  | KAuthMetadataId | KSaasCloudMetadataId | KDeceptionEventId
  | KSdnControlPlaneMetadataId | KProcessContextId | KUserSessionId
  | KFlowAttributionId | KHostIdentityId | KAssetIdentityId
  | KSecurityObservationId | KFindingId | KEvidenceId | KEvidenceQualityId
  | KNativeSamplerId | KNativeSamplerReviewId | KNativeSamplerSchemaId
  | KNativeSamplerBatchId | KNativeSchedulerCycleId
  | KNativeServiceObservationId | KNativeHealthObservationId
  | KNativeProcessObservationId | KFutureSecurityFactMappingId
  | KEvidenceBundleId | KRiskEventId | KRiskHintId | KAlertCandidateId
  | KAlertId | KIncidentCandidateId | KIncidentId | KGraphHintId
  | KGraphNodeId | KGraphEdgeId | KGraphPathId | KGraphSnapshotId
  | KGraphViewId | KPolicyDecisionId | KRecommendedActionId | KResponsePlanId
  | KResponseActionId | KResponseResultId | KApprovalRequestId
  | KApprovalResultId | KRollbackPlanId | KRollbackResultId | KReportId
  | KReportSectionId | KLlmAlertStoryId | KSecurityFactId
  | KAttackHypothesisId | KBaselineRecordId | KBaselineIndicatorId
  | KIncidentLinkedGroupId | KIncidentTimelineEntryId | KMetadataWatchSourceId
  | KMetadataWatchCheckpointId | KMetadataSamplingBatchId
  | KRedactionSummaryId | KExportRequestId | KExportResultId
  | KRuntimeProfileId | KSettingsChangeRequestId | KSettingsImpactAnalysisId
  | KAuditId | KTraceId | KCorrelationId | KCausalityId | KPipelineId
  | KReplayId | KEntityId | KIntelligenceRecordId | KEndpointAnalysisInputId
  | KEndpointThreatCandidateId | KEndpointThreatFindingId
  | KEndpointThreatEvidenceId | KEndpointThreatRiskHintId
  | KEndpointVisibilityAdvisoryId | KEndpointRejectedCandidateId
  | KReadModelSnapshotId
  (* the newtypes of the platform crate *)
  | KSubscriptionId | KDeadLetterId | KPipelineNodeId | KCheckpointId | KComponentId
  (* the newtypes of the storage crate *)
  | KIntelligenceCacheId | KComponentRecordId | KSettingsRecordId | KStoreSnapshotId
  | KMigrationId.

(** [struct $name(Uuid)] *)
(* [common/ids.rs:33-37] define_uuid_id! $name *)
Record Id (kind : IdKind) := mkId { as_uuid : Uuid }.
Arguments mkId {kind} _.
Arguments as_uuid {kind} _.

#[export] Instance Id_eq_dec kind : EqDecision (Id kind).
Proof. solve_decision. Defined.
#[export] Instance Id_countable kind : Countable (Id kind).
Proof. by apply (inj_countable' as_uuid mkId); intros []. Defined.

Abbreviation PluginId := (Id KPluginId).
Abbreviation CapabilityId := (Id KCapabilityId).
Abbreviation ContractId := (Id KContractId).
Abbreviation UiContributionId := (Id KUiContributionId).
Abbreviation EventId := (Id KEventId).
Abbreviation TraceId := (Id KTraceId).
Abbreviation CorrelationId := (Id KCorrelationId).
Abbreviation CausalityId := (Id KCausalityId).
Abbreviation PipelineId := (Id KPipelineId).
Abbreviation ReplayId := (Id KReplayId).
Abbreviation EntityId := (Id KEntityId).
Abbreviation AuditId := (Id KAuditId).
Abbreviation RuntimeProfileId := (Id KRuntimeProfileId).
Abbreviation SettingsChangeRequestId := (Id KSettingsChangeRequestId).
Abbreviation RedactionSummaryId := (Id KRedactionSummaryId).
Abbreviation SubscriptionId := (Id KSubscriptionId).
Abbreviation DeadLetterId := (Id KDeadLetterId).
Abbreviation PipelineNodeId := (Id KPipelineNodeId).
Abbreviation CheckpointId := (Id KCheckpointId).
Abbreviation ComponentId := (Id KComponentId).

(** [impl Display for $name]: the uuid's text. *)
(* [common/ids.rs:58-62] Display for $name *)
Definition id_to_string `{Externals} {kind} (i : Id kind) : string :=
  uuid_to_string (as_uuid i).

#[export] Instance id_to_string_inj `{Externals} kind : Inj (=) (=) (@id_to_string _ kind).
Proof.
  intros [x] [y] Hxy. unfold id_to_string in Hxy. simpl in Hxy.
  f_equal. by apply (inj uuid_to_string).
Qed.

(** Sorting identifiers by their text is independent of the order they are
    listed in. *)
Lemma sort_ids_unique `{Externals} {kind} (l1 l2 : list (Id kind)) :
  NoDup l1 → l1 ≡ₚ l2 → sort_by_key id_to_string l1 = sort_by_key id_to_string l2.
Proof.
  intros Hnd. apply sort_by_key_unique. by apply NoDup_fmap_2; [apply _|].
Qed.

(* ------------------------------------------------------------------ *)
(** ** Instants *)

(** [struct Timestamp(DateTime<Utc>)]: an instant, ordered. *)
(* [common/time.rs] Timestamp *)
Record Timestamp := mkTimestamp { instant : Z }.
#[export] Instance Timestamp_eq_dec : EqDecision Timestamp.
Proof. solve_decision. Defined.

(* ------------------------------------------------------------------ *)
(** ** The oracle and its state monad *)

Record World := mkWorld {
  uuid_source : nat → Uuid;
  uuids_drawn : nat;
  clock_source : nat → Timestamp;
  clock_reads : nat
}.

Definition ST (A : Type) : Type := World → A * World.

Definition st_ret {A} (x : A) : ST A := λ w, (x, w).
Definition st_bind {A B} (m : ST A) (f : A → ST B) : ST B :=
  λ w, let '(x, w') := m w in f x w'.

Notation "'let$' x ':=' m 'in' k" := (st_bind m (λ x, k))
  (at level 10, x binder, m at level 100, k at level 200) : sentinel_scope.
Notation "'let$' ' x ':=' m 'in' k" := (st_bind m (λ x, k))
  (at level 10, x strict pattern, m at level 100, k at level 200) : sentinel_scope.

(** [Uuid::new_v4] *)
Definition new_uuid : ST Uuid := λ w,
  (uuid_source w (uuids_drawn w),
   mkWorld (uuid_source w) (S (uuids_drawn w)) (clock_source w) (clock_reads w)).

(** [$name::new_v4] *)
(* [common/ids.rs] new_v4 *)
Definition new_v4 {kind} : ST (Id kind) :=
  let$ u := new_uuid in st_ret (mkId u).

(** [Timestamp::now] *)
(* [common/time.rs] Timestamp::now *)
Definition now : ST Timestamp := λ w,
  (clock_source w (clock_reads w),
   mkWorld (uuid_source w) (uuids_drawn w) (clock_source w) (S (clock_reads w))).

(** A world that hands out 0, 1, 2, ... for identifiers and instants. *)
Definition counting_world : World :=
  mkWorld (λ n, mkUuid (N.of_nat n)) 0 (λ n, mkTimestamp (Z.of_nat n)) 0.

Lemma st_bind_run {A B} (m : ST A) (f : A → ST B) w x w' :
  m w = (x, w') → st_bind m f w = f x w'.
Proof. intros Hm. unfold st_bind. by rewrite Hm. Qed.

(** For the properties that do not depend on the oracle. *)
Definition st_result {A} (m : ST A) (w : World) : A := (m w).1.

(** A concrete instance of the externals: uuids printed in decimal and a
    one-value JSON type. *)
Lemma show_uint_inj : Inj (=) (=) show_uint.
Proof.
  intros n m Hnm.
  pose proof (parse_show_uint (N.max n m) n ltac:(lia)) as Hn.
  pose proof (parse_show_uint (N.max n m) m ltac:(lia)) as Hm.
  rewrite Hnm in Hn. congruence.
Qed.

Program Definition sample_externals : Externals :=
  {| uuid_to_string := λ u, show_uint (uuid_bits u);
     json_value := unit; json_null := (); json_empty_object := () |}.
Next Obligation. intros [x] [y] Hxy. f_equal. by apply show_uint_inj. Qed.
