(* ===== verification/Contracts.v ===== *)
(** * Shared contracts ([contracts/src/common])

    Schema versions, event envelopes, entity references, quality scores and
    privacy classes, with the operations the platform calls on them. *)

From S2P Require Import Prelude Collections RustStr Effects.
From Stdlib Require Import SpecFloat.

#[local] Open Scope N_scope.

(* ------------------------------------------------------------------ *)
(** ** [common/schema.rs] *)

Module Schema.

(* [common/schema.rs] SchemaVersion *)
Record SchemaVersion := mkVersion { major : N; minor : N; patch : N }.
#[global] Instance SchemaVersion_eq_dec : EqDecision SchemaVersion.
Proof. solve_decision. Defined.

(** The fields are [u16]. *)
Definition in_range (v : SchemaVersion) : Prop :=
  major v ≤ u16_max ∧ minor v ≤ u16_max ∧ patch v ≤ u16_max.

(* [common/schema.rs] SchemaCompatibility *)
Inductive SchemaCompatibility :=
  | Strict | BackwardCompatible | MigrationRequired | Deprecated | Unsupported.
#[global] Instance SchemaCompatibility_eq_dec : EqDecision SchemaCompatibility.
Proof. solve_decision. Defined.

(* [common/schema.rs] SchemaVersion::compatibility_with *)
Definition compatibility_with (self consumer : SchemaVersion) : SchemaCompatibility :=
  if negb (major self =? major consumer) then Unsupported
  else if minor consumer <? minor self then BackwardCompatible
  else Strict.

(* [common/schema.rs:32-36] Display for SchemaVersion *)
Definition to_string (v : SchemaVersion) : string :=
  (show_uint (major v) ++ "." ++ show_uint (minor v) ++ "." ++ show_uint (patch v))%string.

(* [common/schema.rs] SchemaVersionParseError *)
Record SchemaVersionParseError := mkParseError { value : string }.

(** [impl FromStr for SchemaVersion] *)
(* [common/schema.rs] FromStr for SchemaVersion::from_str *)
Definition from_str (s : string) : result SchemaVersion SchemaVersionParseError :=
  let parts := split is_dot s in
  let major := parts !! 0%nat ≫= parse_uint u16_max in
  let minor := parts !! 1%nat ≫= parse_uint u16_max in
  let patch := parts !! 2%nat ≫= parse_uint u16_max in
  match parts !! 3%nat with
  | Some _ => Err (mkParseError s)
  | None =>
      match major, minor, patch with
      | Some major, Some minor, Some patch => Ok (mkVersion major minor patch)
      | _, _, _ => Err (mkParseError s)
      end
  end.

Lemma digits_no_dot s : all_chars is_ascii_digit s = true →
  all_chars (λ c, negb (is_dot c)) s = true.
Proof.
  induction s as [|c s IH]; simpl; [done|].
  intros [Hc Hs]%andb_true_iff. rewrite (IH Hs), andb_true_r.
  unfold is_dot. apply negb_true_iff, bool_decide_eq_false. intros ->. done.
Qed.

Lemma split_to_string v :
  split is_dot (to_string v) = [show_uint (major v); show_uint (minor v); show_uint (patch v)].
Proof.
  unfold to_string. rewrite !str_app_char.
  rewrite !split_app by (done || apply digits_no_dot, show_uint_all_digits).
  by rewrite split_no_sep by apply digits_no_dot, show_uint_all_digits.
Qed.

End Schema.
Export Schema(SchemaVersion, mkVersion, SchemaCompatibility).

(* ------------------------------------------------------------------ *)
(** ** [common/privacy.rs] *)

Module Privacy.

(* [common/privacy.rs] PrivacyClass *)
Inductive PrivacyClass := Public | Internal | Sensitive | Secret | Redacted | Tokenized.
#[global] Instance PrivacyClass_eq_dec : EqDecision PrivacyClass.
Proof. solve_decision. Defined.

(* [common/privacy.rs:4-13] Default for PrivacyClass *)
Definition default : PrivacyClass := Internal.

(* [common/privacy.rs] PrivacyClass::export_requires_redaction *)
Definition export_requires_redaction (c : PrivacyClass) : bool :=
  match c with Sensitive | Secret => true | _ => false end.

(* [common/privacy.rs] PrivacyClass::export_allowed_after_redaction *)
Definition export_allowed_after_redaction (c : PrivacyClass) : bool :=
  match c with Secret => false | _ => true end.

End Privacy.
Export Privacy(PrivacyClass).

(* ------------------------------------------------------------------ *)
(** ** [common/quality.rs] *)

Module Quality.

(** [f32]: IEEE binary32, in the Standard Library's specification format. *)
Definition f32 : Type := spec_float.
Definition f32_zero : f32 := S754_zero false.
Definition f32_one : f32 := S754_finite false 8388608 (-23).

(* [common/quality.rs] QualityScore *)
Record QualityScore := mkScore { score : f32 }.
(* [common/quality.rs] QualityScoreError *)
Record QualityScoreError := mkScoreError { rejected : f32 }.

(** [(0.0..=1.0).contains(&value)] *)
(* [common/quality.rs] QualityScore::new *)
Definition QualityScore_new (value : f32) : result QualityScore QualityScoreError :=
  if SFleb f32_zero value && SFleb value f32_one
  then Ok (mkScore value) else Err (mkScoreError value).

(* [common/quality.rs] QualityScore::perfect *)
Definition perfect : QualityScore := mkScore f32_one.
(* [common/quality.rs] QualityScore::unknown *)
Definition unknown : QualityScore := mkScore f32_zero.

End Quality.

(* ------------------------------------------------------------------ *)
(** ** [common/entity.rs] *)

(* [common/entity.rs] EntityType *)
Inductive EntityType :=
  | EHost | EUser | EProcess | EService | EPort | EIp | EDomain | EUrl
  | EApiEndpoint | ECloudResource | EAsn | ECertificate | EHoneypot | EDecoy
  | EFinding | EAlert | EIncident | EOther.

(* [common/entity.rs] EntityRef *)
Record EntityRef := mkEntityRef {
  entity_id : EntityId;
  entity_type : EntityType;
  entity_name : option string;
  namespace : option string;
  source : option string;
  confidence : Quality.QualityScore;
  first_seen : option Timestamp;
  last_seen : option Timestamp
}.

(* [common/entity.rs] EntityRef::new *)
Definition EntityRef_new (id : EntityId) (ty : EntityType) : EntityRef :=
  mkEntityRef id ty None None None Quality.unknown None None.

(* ------------------------------------------------------------------ *)
(** ** [common/trace.rs] and [common/envelope.rs] *)

Module Envelope.

(* [common/trace.rs] TraceContext *)
Record TraceContext := mkTrace {
  tc_trace_id : TraceId;
  tc_correlation_id : option CorrelationId;
  tc_causality_id : option CausalityId;
  tc_pipeline_id : option PipelineId;
  tc_replay_id : option ReplayId
}.

(* [common/trace.rs] TraceContext::new *)
Definition TraceContext_new (id : TraceId) : TraceContext := mkTrace id None None None None.
(* [common/trace.rs] TraceContext::new_root *)
Definition TraceContext_new_root : ST TraceContext :=
  let$ id := new_v4 in st_ret (TraceContext_new id).

(* [common/envelope.rs] EventType *)
Record EventType := mkEventType { event_type_str : string }.
(* [common/envelope.rs] EventTypeError *)
Inductive EventTypeError := EmptyEventType.

(** [EventType::new] *)
(* [common/envelope.rs] EventType::new *)
Definition EventType_new (value : string) : result EventType EventTypeError :=
  if blank value then Err EmptyEventType else Ok (mkEventType value).

(* [common/envelope.rs] EventEnvelope *)
Record EventEnvelope `{Externals} := mkEnvelope {
  event_id : EventId;
  event_type : EventType;
  schema_version : SchemaVersion;
  producer_plugin : PluginId;
  producer_capability : option CapabilityId;
  timestamp : Timestamp;
  ingest_time : Timestamp;
  trace_id : TraceId;
  correlation_id : option CorrelationId;
  causality_id : option CausalityId;
  pipeline_id : option PipelineId;
  replay_id : option ReplayId;
  entity_refs : list EntityRef;
  privacy_class : PrivacyClass;
  quality_score : Quality.QualityScore;
  payload : json_value
}.

(** [EventEnvelope::new] *)
(* [common/envelope.rs] EventEnvelope::new *)
Definition new `{Externals} (ty : EventType) (version : SchemaVersion)
    (producer : PluginId) (trace : TraceContext) : ST EventEnvelope :=
  let$ t := now in
  let$ id := new_v4 in
  st_ret {|
    event_id := id;
    event_type := ty;
    schema_version := version;
    producer_plugin := producer;
    producer_capability := None;
    timestamp := t;
    ingest_time := t;
    trace_id := tc_trace_id trace;
    correlation_id := tc_correlation_id trace;
    causality_id := tc_causality_id trace;
    pipeline_id := tc_pipeline_id trace;
    replay_id := tc_replay_id trace;
    entity_refs := [];
    privacy_class := Privacy.default;
    quality_score := Quality.unknown;
    payload := json_null
  |}.

End Envelope.
Export Envelope(EventEnvelope, EventType, TraceContext).
