(* ===== verification/CoreError.v ===== *)
(** * The error type of the commands ([contracts/src/common/error.rs])

    A [CoreError] is a code, a message, its severity, whether to retry, and references; the
    redacted details are a [serde_json] value. Constructor prefixes: [Ec] code, [Es]
    severity; field prefix [ce_]. *)

From S2P Require Import Prelude Effects.

#[local] Open Scope string_scope.

(* [contracts/src/common/error.rs] ErrorCode *)
Inductive ErrorCode :=
  | EcPermissionDenied | EcServiceUnavailable | EcSchemaMismatch | EcPrivacyPolicyViolation
  | EcPolicyDenial | EcValidationFailure | EcStorageUnavailable | EcUnsupportedOperation
  | EcResponseRequiresApproval | EcResponseDeniedByPolicy | EcInvalidRequest | EcTimeout
  | EcRateLimited | EcInternalError.
#[export] Instance ErrorCode_eq_dec : EqDecision ErrorCode.
Proof. solve_decision. Defined.

(* [contracts/src/common/error.rs] Display for ErrorCode::fmt *)
Definition error_code_to_string (self : ErrorCode) : string :=
  match self with
  | EcPermissionDenied => "permission_denied"
  | EcServiceUnavailable => "service_unavailable"
  | EcSchemaMismatch => "schema_mismatch"
  | EcPrivacyPolicyViolation => "privacy_policy_violation"
  | EcPolicyDenial => "policy_denial"
  | EcValidationFailure => "validation_failure"
  | EcStorageUnavailable => "storage_unavailable"
  | EcUnsupportedOperation => "unsupported_operation"
  | EcResponseRequiresApproval => "response_requires_approval"
  | EcResponseDeniedByPolicy => "response_denied_by_policy"
  | EcInvalidRequest => "invalid_request"
  | EcTimeout => "timeout"
  | EcRateLimited => "rate_limited"
  | EcInternalError => "internal_error"
  end.

(* [contracts/src/common/error.rs] ErrorSeverity *)
Inductive ErrorSeverity := EsInfo | EsWarning | EsError | EsCritical.

(* [contracts/src/common/error.rs] Display for ErrorSeverity::fmt *)
Definition error_severity_to_string (self : ErrorSeverity) : string :=
  match self with
  | EsInfo => "info" | EsWarning => "warning" | EsError => "error" | EsCritical => "critical"
  end.

Section core_error.
Context `{Externals}.

(* [contracts/src/common/error.rs] CoreError *)
Record CoreError := mkCoreError {
  ce_error_code : ErrorCode;
  ce_message : string;
  ce_severity : ErrorSeverity;
  ce_retryable : bool;
  ce_trace_id : option TraceId;
  ce_audit_ref : option AuditId;
  ce_details_redacted : option json_value
}.

(* [contracts/src/common/error.rs] CoreError::new *)
Definition core_error_new (error_code : ErrorCode) (message : string) : CoreError :=
  mkCoreError error_code message EsError false None None None.
(* [contracts/src/common/error.rs] CoreError::validation_failure *)
Definition core_validation_failure (message : string) : CoreError :=
  core_error_new EcValidationFailure message.
(* [contracts/src/common/error.rs] CoreError::permission_denied *)
Definition core_permission_denied (message : string) : CoreError :=
  core_error_new EcPermissionDenied message.
(* [contracts/src/common/error.rs] CoreError::with_severity *)
Definition core_with_severity (self : CoreError) (severity : ErrorSeverity) : CoreError :=
  mkCoreError (ce_error_code self) (ce_message self) severity (ce_retryable self)
    (ce_trace_id self) (ce_audit_ref self) (ce_details_redacted self).
(* [contracts/src/common/error.rs] CoreError::with_retryable *)
Definition core_with_retryable (self : CoreError) (retryable : bool) : CoreError :=
  mkCoreError (ce_error_code self) (ce_message self) (ce_severity self) retryable
    (ce_trace_id self) (ce_audit_ref self) (ce_details_redacted self).
(* [contracts/src/common/error.rs] CoreError::with_trace_id *)
Definition core_with_trace_id (self : CoreError) (trace_id : TraceId) : CoreError :=
  mkCoreError (ce_error_code self) (ce_message self) (ce_severity self) (ce_retryable self)
    (Some trace_id) (ce_audit_ref self) (ce_details_redacted self).
(* [contracts/src/common/error.rs] CoreError::with_audit_ref *)
Definition core_with_audit_ref (self : CoreError) (audit_ref : AuditId) : CoreError :=
  mkCoreError (ce_error_code self) (ce_message self) (ce_severity self) (ce_retryable self)
    (ce_trace_id self) (Some audit_ref) (ce_details_redacted self).
(* [contracts/src/common/error.rs] CoreError::with_redacted_details *)
Definition core_with_redacted_details (self : CoreError) (details : json_value) : CoreError :=
  mkCoreError (ce_error_code self) (ce_message self) (ce_severity self) (ce_retryable self)
    (ce_trace_id self) (ce_audit_ref self) (Some details).
(* [contracts/src/common/error.rs] Display for CoreError::fmt *)
Definition core_error_to_string (self : CoreError) : string :=
  error_code_to_string (ce_error_code self) ++ ": " ++ ce_message self.
End core_error.
