(* ===== verification/Checks.v ===== *)
(** * Validation chains

    The contracts validate their fields with chains of early returns: [if cond { return
    Err(..) }], [validate(..)?], loops over fields. These are the combinators the later
    contract files share, with their success conditions collected in the rewrite database
    [checks]; [validated] text is non-blank, bounded and free of sensitive markers. *)

From S2P Require Import Prelude Collections RustStr.

#[local] Open Scope N_scope.

(** [if cond { return Err(e) }] *)
Definition refuse_if {E} (cond : bool) (e : E) : result unit E := if cond then Err e else Ok tt.
(** [if let Some(value) = value { check(value)?; }] *)
Definition if_some {A E} (check : A → result unit E) (o : option A) : result unit E :=
  match o with Some x => check x | None => Ok tt end.
(** [option.ok_or(e)] *)
Definition ok_or {A E} (o : option A) (e : E) : result A E :=
  match o with Some x => Ok x | None => Err e end.

(** [value.len()]: bytes. *)
Definition str_len (s : string) : N := N.of_nat (String.length s).

(** The shape of the contracts' [validate_safe_text]: non-blank, at most [max] bytes, no
    marker in the lower-cased text; the three errors are given by the caller. *)
Definition check_text {E} (empty long unsafe : E) (max : N) (markers : list string)
    (value : string) : result unit E :=
  let? _ := refuse_if (blank value) empty in
  let? _ := refuse_if (max <? str_len value) long in
  for_each (λ marker, refuse_if (contains (to_ascii_lowercase value) marker) unsafe) markers.

(** The shape of the contracts that trim first: the bound and the markers are of the trimmed
    text, and the length error reports its length. *)
Definition check_trimmed {E} (empty : E) (long : N → E) (unsafe : E) (max : N)
    (markers : list string) (value : string) : result unit E :=
  let trimmed := trim value in
  let? _ := refuse_if (bool_decide (trimmed = ""%string)) empty in
  let? _ := refuse_if (max <? str_len trimmed) (long (str_len trimmed)) in
  for_each (λ marker, refuse_if (contains (to_ascii_lowercase trimmed) marker) unsafe) markers.

(** What such text satisfies. *)
Record validated (max : N) (markers : list string) (value : string) : Prop := {
  vt_text : blank value = false;
  vt_bounded : str_len value ≤ max;
  vt_safe : ∀ marker, marker ∈ markers → contains (to_ascii_lowercase value) marker = false
}.

Lemma refuse_if_ok {E} b (e : E) : refuse_if b e = Ok tt ↔ b = false.
Proof. unfold refuse_if. by destruct b. Qed.

Lemma refuse_if_err {E} b (e e' : E) : refuse_if b e = Err e' ↔ b = true ∧ e' = e.
Proof. unfold refuse_if. destruct b; naive_solver. Qed.

(** A chain passes when each check does. *)
Lemma chain_ok {E} (m k : result unit E) :
  (let? _ := m in k) = Ok tt ↔ m = Ok tt ∧ k = Ok tt.
Proof. destruct m as [[]|e]; simpl; naive_solver. Qed.

Lemma if_some_ok {A E} (check : A → result unit E) o :
  if_some check o = Ok tt ↔ ∀ x, o = Some x → check x = Ok tt.
Proof. destruct o; simpl; naive_solver. Qed.

Lemma ok_or_ok {A E} (o : option A) (e : E) x : ok_or o e = Ok x ↔ o = Some x.
Proof. destruct o; simpl; naive_solver. Qed.

Lemma check_text_ok {E} (empty long unsafe : E) max markers value :
  check_text empty long unsafe max markers value = Ok tt ↔ validated max markers value.
Proof.
  unfold check_text. rewrite !chain_ok, !refuse_if_ok, for_each_ok, Forall_forall, N.ltb_ge.
  setoid_rewrite refuse_if_ok. split.
  - intros (? & ? & ?). by constructor.
  - by intros [? ? ?].
Qed.

Lemma check_trimmed_ok {E} (empty : E) long unsafe max markers value :
  check_trimmed empty long unsafe max markers value = Ok tt ↔
  trim value ≠ ""%string ∧ str_len (trim value) ≤ max ∧
  Forall (λ marker, contains (to_ascii_lowercase (trim value)) marker = false) markers.
Proof.
  unfold check_trimmed. rewrite !chain_ok, !refuse_if_ok, for_each_ok, !Forall_forall.
  setoid_rewrite refuse_if_ok. by rewrite bool_decide_eq_false, N.ltb_ge.
Qed.

(** [value.as_deref().map(parse).transpose()?] on an optional value. *)
Definition transpose_map {A B E} (f : A → result B E) (o : option A) : result (option B) E :=
  match o with Some x => let? y := f x in Ok (Some y) | None => Ok None end.

(** [for x in l { if !seen.insert(key(x)) { return Err(duplicate) } check(x)?; }] *)
Fixpoint each_distinct {A K E} `{EqDecision K} (key : A → K) (duplicate : E)
    (check : A → result unit E) (seen : list K) (l : list A) : result unit E :=
  match l with
  | [] => Ok tt
  | x :: l =>
      let? _ := refuse_if (bool_decide (key x ∈ seen)) duplicate in
      let? _ := check x in
      each_distinct key duplicate check (key x :: seen) l
  end.

Lemma each_distinct_ok_seen {A K E} `{EqDecision K} (key : A → K) (duplicate : E) check seen l :
  each_distinct key duplicate check seen l = Ok tt ↔
  NoDup (key <$> l) ∧ (∀ x, x ∈ l → key x ∉ seen) ∧ Forall (λ x, check x = Ok tt) l.
Proof.
  revert seen. induction l as [|x l IH]; intros seen; cbn [each_distinct].
  - split; [|done]. intros _. split_and!; [constructor|set_solver|done].
  - rewrite !chain_ok, refuse_if_ok, bool_decide_eq_false, IH, fmap_cons, NoDup_cons,
      Forall_cons. setoid_rewrite list_elem_of_fmap. set_solver.
Qed.

Lemma each_distinct_ok {A K E} `{EqDecision K} (key : A → K) (duplicate : E) check l :
  each_distinct key duplicate check [] l = Ok tt ↔
  NoDup (key <$> l) ∧ Forall (λ x, check x = Ok tt) l.
Proof. rewrite each_distinct_ok_seen. set_solver. Qed.

Create Rewrite HintDb checks.
#[export] Hint Rewrite @chain_ok @refuse_if_ok @if_some_ok @check_text_ok @for_each_ok
  @ok_or_ok @map_err_ok @each_distinct_ok orb_false_iff negb_false_iff bool_decide_eq_false bool_decide_eq_true
  N.eqb_neq N.ltb_ge : checks.

#[export] Instance validated_dec max markers value : Decision (validated max markers value).
Proof.
  refine (cast_if (decide (blank value = false ∧ str_len value ≤ max ∧
    Forall (λ marker, contains (to_ascii_lowercase value) marker = false) markers)));
    [abstract (destruct a as (? & ? & Hs); rewrite Forall_forall in Hs; by constructor)|].
  abstract (intros [? ? Hs]; apply n; rewrite Forall_forall; done).
Defined.
