(* ===== verification/Json.v ===== *)
(** * JSON values ([serde_json::Value])

    The tree type of the crate [serde_json]. An object is the list of its fields in the
    order in which they are iterated; a number is its text. *)

From S2P Require Import Prelude.

#[local] Open Scope string_scope.
#[local] Open Scope list_scope.

(** [serde_json::Value] *)
#[warnings="-register-all"]
Inductive JsonTree :=
  | JNull | JBool (b : bool) | JNumber (text : string) | JString (s : string)
  | JArray (values : list JsonTree) | JObject (fields : list (string * JsonTree)).

(** Induction over the values below a value. *)
Section induction.
Context (P : JsonTree → Prop).
Hypothesis P_null : P JNull.
Hypothesis P_bool : ∀ b, P (JBool b).
Hypothesis P_number : ∀ text, P (JNumber text).
Hypothesis P_string : ∀ s, P (JString s).
Hypothesis P_array : ∀ values, Forall P values → P (JArray values).
Hypothesis P_object : ∀ fields, Forall (λ field, P field.2) fields → P (JObject fields).

Fixpoint json_induction (v : JsonTree) : P v :=
  match v with
  | JNull => P_null
  | JBool b => P_bool b
  | JNumber text => P_number text
  | JString s => P_string s
  | JArray values =>
      P_array values ((fix go l : Forall P l :=
        match l with
        | [] => Forall_nil_2 P
        | x :: l => Forall_cons_2 P x l (json_induction x) (go l)
        end) values)
  | JObject fields =>
      P_object fields ((fix go (l : list (string * JsonTree)) : Forall (λ field, P field.2) l :=
        match l with
        | [] => Forall_nil_2 _
        | f :: l => Forall_cons_2 _ f l (json_induction f.2) (go l)
        end) fields)
  end.
End induction.

(** [map.get(key)] of an object; nothing of any other value. *)
Definition json_field (v : JsonTree) (key : string) : option JsonTree :=
  match v with
  | JObject fields => snd <$> List.find (λ field, bool_decide (field.1 = key)) fields
  | _ => None
  end.
(** [Value::as_str] *)
Definition json_text (v : JsonTree) : option string :=
  match v with JString s => Some s | _ => None end.
