(* ===== verification/CallerVerification.v ===== *)
(** * Caller verification ([contracts/src/caller_verification.rs])

    What the elevated service learnt about the process at the other end of its pipe, the
    classes of commands that permits, and the validation of the two contract types.
    Constructor prefixes: [Cv] verification state, [Cc] caller category, [Lr] locality,
    [Ts] token, [Ev] elevation, [Sb] session binding, [Vf] freshness, [Ac] command class,
    [Vi] implementation state, [Cve] error. Field prefixes: [cvs_] summary, [cvr_] read
    status. [RedactionStatus] is from [graph/mod.rs]. *)

From S2P Require Import Prelude Collections RustStr Effects Contracts Checks.
Export Contracts.Schema.

#[local] Open Scope string_scope.
#[local] Open Scope list_scope.
#[local] Open Scope N_scope.

(* ------------------------------------------------------------------ *)
(** ** Data *)

(* [contracts/src/graph/mod.rs] RedactionStatus *)
Inductive RedactionStatus :=
  | RsNotRequired | RsRedacted | RsTokenized | RsHashed | RsPartiallyRedacted | RsSuppressed
  | RsRedactionRequired.
#[export] Instance RedactionStatus_eq_dec : EqDecision RedactionStatus.
Proof. solve_decision. Defined.

(* [contracts/src/caller_verification.rs] CallerVerificationState *)
Inductive CallerVerificationState :=
  | CvVerifiedInteractiveUser | CvVerifiedServiceIdentity | CvAdministratorPolicyVerified
  | CvCallerNotAuthorized | CvCallerIdentityUnavailable | CvRemoteCallerRejected
  | CvNetworkLogonRejected | CvTokenTypeRejected | CvImpersonationFailed | CvTokenQueryFailed
  | CvSessionMismatch | CvUnsupportedPlatform | CvForegroundDevelopment.
#[export] Instance CallerVerificationState_eq_dec : EqDecision CallerVerificationState.
Proof. solve_decision. Defined.

(* [contracts/src/caller_verification.rs] CallerVerificationState::permits_read_only_commands *)
Definition state_permits_read_only_commands (s : CallerVerificationState) : bool :=
  match s with
  | CvVerifiedInteractiveUser | CvVerifiedServiceIdentity | CvAdministratorPolicyVerified
  | CvForegroundDevelopment => true
  | _ => false
  end.

(* [contracts/src/caller_verification.rs] CallerCategory *)
Inductive CallerCategory :=
  | CcInteractiveUser | CcExpectedServiceIdentity | CcAdministratorPolicy
  | CcForegroundDevelopment | CcUnauthorized | CcUnavailable | CcUnsupportedPlatform.
#[export] Instance CallerCategory_eq_dec : EqDecision CallerCategory.
Proof. solve_decision. Defined.

(* [contracts/src/caller_verification.rs] LocalRemoteClassification *)
Inductive LocalRemoteClassification := LrLocal | LrRemoteRejected | LrUnavailable.
#[export] Instance LocalRemoteClassification_eq_dec : EqDecision LocalRemoteClassification.
Proof. solve_decision. Defined.

(* [contracts/src/caller_verification.rs] TokenSuitabilityCategory *)
Inductive TokenSuitabilityCategory :=
  | TsImpersonationSuitable | TsIdentificationOnlyRejected | TsUnsupportedTokenType
  | TsTokenUnavailable | TsQueryFailed | TsUnsupportedPlatform.
#[export] Instance TokenSuitabilityCategory_eq_dec : EqDecision TokenSuitabilityCategory.
Proof. solve_decision. Defined.

(* [contracts/src/caller_verification.rs] ElevationCategory *)
Inductive ElevationCategory := EvElevated | EvStandard | EvUnavailable.
#[export] Instance ElevationCategory_eq_dec : EqDecision ElevationCategory.
Proof. solve_decision. Defined.

(* [contracts/src/caller_verification.rs] SessionBindingState *)
Inductive SessionBindingState := SbBound | SbFailed | SbMismatch | SbExpired | SbUnavailable.
#[export] Instance SessionBindingState_eq_dec : EqDecision SessionBindingState.
Proof. solve_decision. Defined.

(* [contracts/src/caller_verification.rs] VerificationFreshnessBucket *)
Inductive VerificationFreshnessBucket := VfCurrentConnection | VfExpired | VfUnavailable.
#[export] Instance VerificationFreshnessBucket_eq_dec : EqDecision VerificationFreshnessBucket.
Proof. solve_decision. Defined.

(* [contracts/src/caller_verification.rs] AllowedCommandClass *)
Inductive AllowedCommandClass :=
  | AcReadStatus | AcReadCanonicalModels | AcMutationAuthorizationEvaluation
  | AcForegroundTestControl | AcFutureUserMutationCandidate | AcFutureAdminMutationCandidate
  | AcNone.
#[export] Instance AllowedCommandClass_eq_dec : EqDecision AllowedCommandClass.
Proof. solve_decision. Defined.

(* [contracts/src/caller_verification.rs] CallerVerificationImplementationState *)
Inductive CallerVerificationImplementationState :=
  | ViImplemented | ViNotImplemented | ViUnsupportedPlatform.
#[export] Instance CallerVerificationImplementationState_eq_dec :
  EqDecision CallerVerificationImplementationState.
Proof. solve_decision. Defined.

(* [contracts/src/caller_verification.rs:5-5] CALLER_VERIFICATION_SCHEMA_VERSION *)
Definition CALLER_VERIFICATION_SCHEMA_VERSION : SchemaVersion := mkVersion 1 0 0.
(* [contracts/src/caller_verification.rs:6-6] MAX_CALLER_VERIFICATION_REFS *)
Definition MAX_CALLER_VERIFICATION_REFS : N := 16.
(* [contracts/src/caller_verification.rs:7-7] MAX_CALLER_VERIFICATION_TEXT_LEN *)
Definition MAX_CALLER_VERIFICATION_TEXT_LEN : N := 128.

(* [contracts/src/caller_verification.rs] CallerVerificationSummary *)
Record CallerVerificationSummary := mkCallerSummary {
  cvs_schema_version : SchemaVersion;
  cvs_verification_ref : string;
  cvs_caller_category : CallerCategory;
  cvs_verification_state : CallerVerificationState;
  cvs_local_classification : LocalRemoteClassification;
  cvs_interactive_marker : bool;
  cvs_service_marker : bool;
  cvs_administrator_policy_marker : bool;
  cvs_token_suitability : TokenSuitabilityCategory;
  cvs_elevation_category : ElevationCategory;
  cvs_session_binding_state : SessionBindingState;
  cvs_freshness_bucket : VerificationFreshnessBucket;
  cvs_allowed_command_classes : list AllowedCommandClass;
  cvs_degraded_reason : option string;
  cvs_audit_refs : list string;
  cvs_provenance_id : string;
  cvs_redaction_status : RedactionStatus;
  cvs_production_mutations_enabled : bool
}.
#[export] Instance CallerVerificationSummary_eq_dec : EqDecision CallerVerificationSummary.
Proof. solve_decision. Defined.

(* [contracts/src/caller_verification.rs] CallerVerificationSummary::permits_command_class *)
Definition permits_command_class (self : CallerVerificationSummary)
    (command_class : AllowedCommandClass) : bool :=
  state_permits_read_only_commands (cvs_verification_state self) &&
  bool_decide (cvs_local_classification self = LrLocal) &&
  bool_decide (cvs_session_binding_state self = SbBound) &&
  bool_decide (cvs_freshness_bucket self = VfCurrentConnection) &&
  bool_decide (command_class ∈ cvs_allowed_command_classes self) &&
  negb (cvs_production_mutations_enabled self).

(* [contracts/src/caller_verification.rs] CallerVerificationSummary::permits_read_only_commands *)
Definition permits_read_only_commands (self : CallerVerificationSummary) : bool :=
  permits_command_class self AcReadStatus.

(* [contracts/src/caller_verification.rs] CallerVerificationReadStatus *)
Record CallerVerificationReadStatus := mkCallerReadStatus {
  cvr_schema_version : SchemaVersion;
  cvr_caller_impersonation : CallerVerificationImplementationState;
  cvr_token_classification : CallerVerificationImplementationState;
  cvr_production_mutation_authorization : CallerVerificationImplementationState;
  cvr_production_mutations_enabled : bool;
  cvr_production_service_mode_policy : string;
  cvr_foreground_development_policy : string;
  cvr_remote_caller_rejection_enabled : bool;
  cvr_network_logon_rejection_enabled : bool;
  cvr_session_binding_enabled : bool;
  cvr_last_verification : option CallerVerificationSummary;
  cvr_audit_refs : list string;
  cvr_provenance_id : string;
  cvr_redaction_status : RedactionStatus
}.

(* ------------------------------------------------------------------ *)
(** ** Validation *)

(* [contracts/src/caller_verification.rs] CallerVerificationContractError *)
Inductive CallerVerificationContractError :=
  | CveEmptyField (field : string) | CveTooLong (field : string)
  | CveUnsafeField (field : string) | CveTooManyItems (field : string)
  | CveUnsupportedSchemaVersion | CveProductionMutationForbidden | CveRedactionRequired.

(* [contracts/src/caller_verification.rs] Display for CallerVerificationContractError::fmt *)
Definition caller_error_to_string (e : CallerVerificationContractError) : string :=
  match e with
  | CveEmptyField field => field ++ " must not be empty"
  | CveTooLong field => field ++ " exceeds the bounded text limit"
  | CveUnsafeField field => field ++ " contains unsafe identity metadata"
  | CveTooManyItems field => field ++ " contains too many items"
  | CveUnsupportedSchemaVersion => "caller verification schema version is unsupported"
  | CveProductionMutationForbidden => "caller verification cannot enable production mutations"
  | CveRedactionRequired => "caller verification status must be redacted"
  end%string.

(* [contracts/src/caller_verification.rs:297-313] validate_safe_text *)
Definition caller_markers : list string :=
  ["s-1-"; "username"; "account_name"; "token_handle"; "token_group";
   "logon_session_identifier"; "machine_name"; "process_id"; "thread_id"; "raw_access_mask";
   "authentication_package"; "session_nonce"; "credential"; "password"; "secret"].
(* [contracts/src/caller_verification.rs] validate_safe_text *)
Definition caller_safe_text (field value : string)
    : result unit CallerVerificationContractError :=
  check_text (CveEmptyField field) (CveTooLong field) (CveUnsafeField field)
    MAX_CALLER_VERIFICATION_TEXT_LEN caller_markers value.
(* [contracts/src/caller_verification.rs] validate_optional_safe_text *)
Definition caller_optional_safe_text (field : string) (value : option string)
    : result unit CallerVerificationContractError :=
  if_some (caller_safe_text field) value.
(* [contracts/src/caller_verification.rs] validate_refs *)
Definition caller_refs (field : string) (values : list string)
    : result unit CallerVerificationContractError :=
  let? _ := refuse_if (MAX_CALLER_VERIFICATION_REFS <? len values) (CveTooManyItems field) in
  for_each (caller_safe_text field) values.

(* [contracts/src/caller_verification.rs] CallerVerificationSummary::validate *)
Definition summary_validate (self : CallerVerificationSummary)
    : result unit CallerVerificationContractError :=
  let? _ := refuse_if
    (negb (bool_decide (cvs_schema_version self = CALLER_VERIFICATION_SCHEMA_VERSION)))
    CveUnsupportedSchemaVersion in
  let? _ := caller_safe_text "verification_ref" (cvs_verification_ref self) in
  let? _ := caller_optional_safe_text "degraded_reason" (cvs_degraded_reason self) in
  let? _ := caller_refs "audit_refs" (cvs_audit_refs self) in
  let? _ := caller_safe_text "provenance_id" (cvs_provenance_id self) in
  let? _ := refuse_if
    (bool_decide (cvs_allowed_command_classes self = []) ||
     (MAX_CALLER_VERIFICATION_REFS <? len (cvs_allowed_command_classes self)))
    (CveTooManyItems "allowed_command_classes") in
  let? _ := refuse_if (cvs_production_mutations_enabled self) CveProductionMutationForbidden in
  refuse_if (bool_decide (cvs_redaction_status self = RsRedactionRequired)) CveRedactionRequired.

(* [contracts/src/caller_verification.rs] CallerVerificationReadStatus::validate *)
Definition read_status_validate (self : CallerVerificationReadStatus)
    : result unit CallerVerificationContractError :=
  let? _ := refuse_if
    (negb (bool_decide (cvr_schema_version self = CALLER_VERIFICATION_SCHEMA_VERSION)))
    CveUnsupportedSchemaVersion in
  let? _ := refuse_if
    (cvr_production_mutations_enabled self ||
     bool_decide (cvr_production_mutation_authorization self = ViImplemented))
    CveProductionMutationForbidden in
  let? _ := caller_safe_text "production_service_mode_policy"
    (cvr_production_service_mode_policy self) in
  let? _ := caller_safe_text "foreground_development_policy"
    (cvr_foreground_development_policy self) in
  let? _ := if_some summary_validate (cvr_last_verification self) in
  let? _ := caller_refs "audit_refs" (cvr_audit_refs self) in
  let? _ := caller_safe_text "provenance_id" (cvr_provenance_id self) in
  refuse_if (bool_decide (cvr_redaction_status self = RsRedactionRequired)) CveRedactionRequired.

(* ------------------------------------------------------------------ *)
(** ** Lemmas *)

(** What every permitted command class rests on. *)
Record caller_trusted (c : CallerVerificationSummary) : Prop := {
  ct_state : state_permits_read_only_commands (cvs_verification_state c) = true;
  ct_local : cvs_local_classification c = LrLocal;
  ct_bound : cvs_session_binding_state c = SbBound;
  ct_current : cvs_freshness_bucket c = VfCurrentConnection;
  ct_no_mutations : cvs_production_mutations_enabled c = false
}.

Lemma permits_command_class_true c k :
  permits_command_class c k = true ↔
  caller_trusted c ∧ k ∈ cvs_allowed_command_classes c.
Proof.
  unfold permits_command_class.
  rewrite !andb_true_iff, !bool_decide_eq_true, negb_true_iff. split.
  - intros (((((? & ?) & ?) & ?) & ?) & ?). split; [by constructor|done].
  - intros [[] ?]. by split_and!.
Qed.

(** A refused command class leaves no trust in the other conditions to rely on. *)
Lemma permits_command_class_mono c k :
  permits_command_class c k = true → caller_trusted c.
Proof. by intros [? _]%permits_command_class_true. Qed.

Lemma caller_safe_text_ok field value :
  caller_safe_text field value = Ok tt ↔
  validated MAX_CALLER_VERIFICATION_TEXT_LEN caller_markers value.
Proof. apply check_text_ok. Qed.
