(* ===== verification/MutationPolicy.v ===== *)
(** * Mutation commands and their policies ([contracts/src/mutation_authorization.rs])

    The 52 commands that change something, the policy catalog that says who may ask for each
    and in which state of its target, and the contract types of the authorization protocol
    with their validation: intents, decisions, execution requests, receipts, status.
    Constructor prefixes: [Mc] command, [Mcf] classification, [Mrc] required caller, [Mcp]
    capability, [Mts] target state, [Mtb] time to live, [Mim] creation time, [Mip]
    idempotency policy, [Mrp] replay policy, [Mxp] cancellation, [Met] timeout, [Mis]
    implementation state, [Mar] result, [Mea] execution state, [Mer] execution result, [Plc]
    provider life cycle, [Mrs] runtime state, [Mks] capability state, [Mtt] time-to-live
    state, [Mds] idempotency state, [Mfs] framework state, [Mct] count, [Mae] error. Field
    prefixes: [mcp_] policy, [mi_] intent, [mad_] decision, [mer_] execution request, [mec_]
    counters, [mrc_] receipt, [mas_] status. *)

From S2P Require Import Prelude Collections RustStr Effects Contracts Checks CallerVerification.

#[local] Open Scope string_scope.
#[local] Open Scope list_scope.
#[local] Open Scope N_scope.

(* ------------------------------------------------------------------ *)
(** ** Commands *)

(* [contracts/src/mutation_authorization.rs] MutationCommandId *)
Inductive MutationCommandId :=
  | McActivateIpHelperProvider | McSampleIpHelperNow | McPauseIpHelper | McStopIpHelper
  | McActivateEtwProvider | McPauseEtwProvider | McResumeEtwProvider | McStopEtwProvider
  | McActivateDnsSensing | McPauseDnsSensing | McResumeDnsSensing | McStopDnsSensing
  | McActivateAuthRemoteSensing | McPauseAuthRemoteSensing | McResumeAuthRemoteSensing
  | McStopAuthRemoteSensing | McConfigureIpHelperSchedule | McEnableIpHelperSchedule
  | McPauseIpHelperSchedule | McResumeIpHelperSchedule | McDisableIpHelperSchedule
  | McChangeNetworkProviderMode | McActivateNativeSampler | McSampleNativeSamplerNow
  | McPauseNativeSampler | McResumeNativeSampler | McStopNativeSampler | McUpdateNativeSchedule
  | McStartSchedulerHost | McPauseSchedulerHost | McResumeSchedulerHost | McStopSchedulerHost
  | McRequestCaptureAuthorization | McRevokeCaptureAuthorization | McGenerateReport
  | McExportArtifact | McGenerateLlmStory | McExecuteResponse | McRequestServiceHostShutdown
  | McKillProcess | McStopArbitraryService | McModifyFirewall | McBlockNetwork | McIsolateHost
  | McDisableAccount | McQuarantineFile | McInjectPacket | McExecuteArbitraryCommand
  | McCredentialOperation | McGenericElevatedExecution | McAutomaticCapture
  | McAutomaticLlmGeneration.

(* [contracts/src/mutation_authorization.rs:72-125] MutationCommandId::ALL *)
Definition ALL : list MutationCommandId :=
  [McActivateIpHelperProvider; McSampleIpHelperNow; McPauseIpHelper; McStopIpHelper;
   McActivateEtwProvider; McPauseEtwProvider; McResumeEtwProvider; McStopEtwProvider;
   McActivateDnsSensing; McPauseDnsSensing; McResumeDnsSensing; McStopDnsSensing;
   McActivateAuthRemoteSensing; McPauseAuthRemoteSensing; McResumeAuthRemoteSensing;
   McStopAuthRemoteSensing; McConfigureIpHelperSchedule; McEnableIpHelperSchedule;
   McPauseIpHelperSchedule; McResumeIpHelperSchedule; McDisableIpHelperSchedule;
   McChangeNetworkProviderMode; McActivateNativeSampler; McSampleNativeSamplerNow;
   McPauseNativeSampler; McResumeNativeSampler; McStopNativeSampler; McUpdateNativeSchedule;
   McStartSchedulerHost; McPauseSchedulerHost; McResumeSchedulerHost; McStopSchedulerHost;
   McRequestCaptureAuthorization; McRevokeCaptureAuthorization; McGenerateReport;
   McExportArtifact; McGenerateLlmStory; McExecuteResponse; McRequestServiceHostShutdown;
   McKillProcess; McStopArbitraryService; McModifyFirewall; McBlockNetwork; McIsolateHost;
   McDisableAccount; McQuarantineFile; McInjectPacket; McExecuteArbitraryCommand;
   McCredentialOperation; McGenericElevatedExecution; McAutomaticCapture;
   McAutomaticLlmGeneration].

(* [contracts/src/mutation_authorization.rs] MutationCommandId::as_str *)
Definition as_str (self : MutationCommandId) : string :=
  match self with
  | McActivateIpHelperProvider => "activate_ip_helper"
  | McSampleIpHelperNow => "sample_ip_helper_once"
  | McPauseIpHelper => "pause_ip_helper"
  | McStopIpHelper => "stop_ip_helper"
  | McActivateEtwProvider => "activate_etw"
  | McPauseEtwProvider => "pause_etw"
  | McResumeEtwProvider => "resume_etw"
  | McStopEtwProvider => "stop_etw"
  | McActivateDnsSensing => "activate_dns_sensing"
  | McPauseDnsSensing => "pause_dns_sensing"
  | McResumeDnsSensing => "resume_dns_sensing"
  | McStopDnsSensing => "stop_dns_sensing"
  | McActivateAuthRemoteSensing => "activate_auth_remote_sensing"
  | McPauseAuthRemoteSensing => "pause_auth_remote_sensing"
  | McResumeAuthRemoteSensing => "resume_auth_remote_sensing"
  | McStopAuthRemoteSensing => "stop_auth_remote_sensing"
  | McConfigureIpHelperSchedule => "configure_ip_helper_schedule"
  | McEnableIpHelperSchedule => "enable_ip_helper_schedule"
  | McPauseIpHelperSchedule => "pause_ip_helper_schedule"
  | McResumeIpHelperSchedule => "resume_ip_helper_schedule"
  | McDisableIpHelperSchedule => "disable_ip_helper_schedule"
  | McChangeNetworkProviderMode => "change_network_provider_mode"
  | McActivateNativeSampler => "activate_native_sampler"
  | McSampleNativeSamplerNow => "sample_native_sampler_now"
  | McPauseNativeSampler => "pause_native_sampler"
  | McResumeNativeSampler => "resume_native_sampler"
  | McStopNativeSampler => "stop_native_sampler"
  | McUpdateNativeSchedule => "update_native_schedule"
  | McStartSchedulerHost => "start_scheduler_host"
  | McPauseSchedulerHost => "pause_scheduler_host"
  | McResumeSchedulerHost => "resume_scheduler_host"
  | McStopSchedulerHost => "stop_scheduler_host"
  | McRequestCaptureAuthorization => "request_capture_authorization"
  | McRevokeCaptureAuthorization => "revoke_capture_authorization"
  | McGenerateReport => "generate_report"
  | McExportArtifact => "export_artifact"
  | McGenerateLlmStory => "generate_llm_story"
  | McExecuteResponse => "execute_response"
  | McRequestServiceHostShutdown => "request_service_host_shutdown"
  | McKillProcess => "kill_process"
  | McStopArbitraryService => "stop_arbitrary_service"
  | McModifyFirewall => "modify_firewall"
  | McBlockNetwork => "block_network"
  | McIsolateHost => "isolate_host"
  | McDisableAccount => "disable_account"
  | McQuarantineFile => "quarantine_file"
  | McInjectPacket => "inject_packet"
  | McExecuteArbitraryCommand => "execute_arbitrary_command"
  | McCredentialOperation => "credential_operation"
  | McGenericElevatedExecution => "generic_elevated_execution"
  | McAutomaticCapture => "automatic_capture"
  | McAutomaticLlmGeneration => "automatic_llm_generation"
  end.

(** The wire names are distinct, which gives equality and countability. *)
Definition of_str (s : string) : option MutationCommandId :=
  find (λ c, bool_decide (as_str c = s)) ALL.
Lemma of_str_as_str c : of_str (as_str c) = Some c.
Proof. by destruct c; vm_compute. Qed.
#[export] Instance as_str_inj : Inj (=) (=) as_str.
Proof. intros x y Hxy. apply (inj Some). by rewrite <- !of_str_as_str, Hxy. Qed.
#[export] Instance MutationCommandId_eq_dec : EqDecision MutationCommandId.
Proof.
  intros x y. destruct (decide (as_str x = as_str y)) as [H|H]; [left|right].
  - abstract (by apply (inj as_str)).
  - abstract (by intros ->).
Defined.
#[export] Instance MutationCommandId_countable : Countable MutationCommandId.
Proof. exact (inj_countable as_str of_str of_str_as_str). Defined.

(** [{:?}] of the derived [Debug]: the variant's name. *)
Definition command_debug (self : MutationCommandId) : string :=
  match self with
  | McActivateIpHelperProvider => "ActivateIpHelperProvider"
  | McSampleIpHelperNow => "SampleIpHelperNow"
  | McPauseIpHelper => "PauseIpHelper"
  | McStopIpHelper => "StopIpHelper"
  | McActivateEtwProvider => "ActivateEtwProvider"
  | McPauseEtwProvider => "PauseEtwProvider"
  | McResumeEtwProvider => "ResumeEtwProvider"
  | McStopEtwProvider => "StopEtwProvider"
  | McActivateDnsSensing => "ActivateDnsSensing"
  | McPauseDnsSensing => "PauseDnsSensing"
  | McResumeDnsSensing => "ResumeDnsSensing"
  | McStopDnsSensing => "StopDnsSensing"
  | McActivateAuthRemoteSensing => "ActivateAuthRemoteSensing"
  | McPauseAuthRemoteSensing => "PauseAuthRemoteSensing"
  | McResumeAuthRemoteSensing => "ResumeAuthRemoteSensing"
  | McStopAuthRemoteSensing => "StopAuthRemoteSensing"
  | McConfigureIpHelperSchedule => "ConfigureIpHelperSchedule"
  | McEnableIpHelperSchedule => "EnableIpHelperSchedule"
  | McPauseIpHelperSchedule => "PauseIpHelperSchedule"
  | McResumeIpHelperSchedule => "ResumeIpHelperSchedule"
  | McDisableIpHelperSchedule => "DisableIpHelperSchedule"
  | McChangeNetworkProviderMode => "ChangeNetworkProviderMode"
  | McActivateNativeSampler => "ActivateNativeSampler"
  | McSampleNativeSamplerNow => "SampleNativeSamplerNow"
  | McPauseNativeSampler => "PauseNativeSampler"
  | McResumeNativeSampler => "ResumeNativeSampler"
  | McStopNativeSampler => "StopNativeSampler"
  | McUpdateNativeSchedule => "UpdateNativeSchedule"
  | McStartSchedulerHost => "StartSchedulerHost"
  | McPauseSchedulerHost => "PauseSchedulerHost"
  | McResumeSchedulerHost => "ResumeSchedulerHost"
  | McStopSchedulerHost => "StopSchedulerHost"
  | McRequestCaptureAuthorization => "RequestCaptureAuthorization"
  | McRevokeCaptureAuthorization => "RevokeCaptureAuthorization"
  | McGenerateReport => "GenerateReport"
  | McExportArtifact => "ExportArtifact"
  | McGenerateLlmStory => "GenerateLlmStory"
  | McExecuteResponse => "ExecuteResponse"
  | McRequestServiceHostShutdown => "RequestServiceHostShutdown"
  | McKillProcess => "KillProcess"
  | McStopArbitraryService => "StopArbitraryService"
  | McModifyFirewall => "ModifyFirewall"
  | McBlockNetwork => "BlockNetwork"
  | McIsolateHost => "IsolateHost"
  | McDisableAccount => "DisableAccount"
  | McQuarantineFile => "QuarantineFile"
  | McInjectPacket => "InjectPacket"
  | McExecuteArbitraryCommand => "ExecuteArbitraryCommand"
  | McCredentialOperation => "CredentialOperation"
  | McGenericElevatedExecution => "GenericElevatedExecution"
  | McAutomaticCapture => "AutomaticCapture"
  | McAutomaticLlmGeneration => "AutomaticLlmGeneration"
  end.

(* [contracts/src/mutation_authorization.rs] MutationCommandId::ip_helper_production_execution_enabled *)
Definition ip_helper_production_execution_enabled (self : MutationCommandId) : bool :=
  match self with
  | McActivateIpHelperProvider | McSampleIpHelperNow | McStopIpHelper
  | McConfigureIpHelperSchedule | McEnableIpHelperSchedule | McPauseIpHelperSchedule
  | McResumeIpHelperSchedule | McDisableIpHelperSchedule => true
  | _ => false
  end.
(* [contracts/src/mutation_authorization.rs] MutationCommandId::production_execution_enabled *)
Definition production_execution_enabled (self : MutationCommandId) : bool :=
  ip_helper_production_execution_enabled self ||
  match self with
  | McActivateEtwProvider | McPauseEtwProvider | McResumeEtwProvider | McStopEtwProvider
  | McActivateDnsSensing | McPauseDnsSensing | McResumeDnsSensing | McStopDnsSensing
  | McActivateAuthRemoteSensing | McPauseAuthRemoteSensing | McResumeAuthRemoteSensing
  | McStopAuthRemoteSensing => true
  | _ => false
  end.
(* [contracts/src/mutation_authorization.rs] MutationCommandId::ip_helper_schedule_execution_enabled *)
Definition ip_helper_schedule_execution_enabled (self : MutationCommandId) : bool :=
  match self with
  | McConfigureIpHelperSchedule | McEnableIpHelperSchedule | McPauseIpHelperSchedule
  | McResumeIpHelperSchedule | McDisableIpHelperSchedule => true
  | _ => false
  end.

(* ------------------------------------------------------------------ *)
(** ** Data *)

(* [contracts/src/mutation_authorization.rs] MutationCommandClassification *)
Inductive MutationCommandClassification :=
  | McfAllowedForFrameworkReview | McfFutureUserMutation | McfFutureAdminMutation
  | McfExplicitActionOnly | McfTestOnly | McfAlwaysDenied | McfNotImplemented.
#[export] Instance MutationCommandClassification_eq_dec : EqDecision MutationCommandClassification.
Proof. solve_decision. Defined.

(* [contracts/src/mutation_authorization.rs] MutationRequiredCallerCategory *)
Inductive MutationRequiredCallerCategory :=
  | MrcVerifiedInteractiveUser | MrcAdministratorPolicyVerified | MrcVerifiedServiceIdentity
  | MrcForegroundDevelopment | MrcAnyVerifiedLocal | MrcNone.
#[export] Instance MutationRequiredCallerCategory_eq_dec : EqDecision MutationRequiredCallerCategory.
Proof. solve_decision. Defined.

(* [contracts/src/mutation_authorization.rs] MutationCapabilityCategory *)
Inductive MutationCapabilityCategory :=
  | McpIpHelperProvider | McpEtwProvider | McpDnsSensingProvider | McpAuthRemoteSensingProvider
  | McpNetworkProviderController | McpNativeSampler | McpNativeScheduler | McpNativeSchedulerHost
  | McpCaptureAuthorization | McpReportGeneration | McpExport | McpLlmAlertStory | McpResponse
  | McpServiceHostLifecycle | McpHostMutation.
#[export] Instance MutationCapabilityCategory_eq_dec : EqDecision MutationCapabilityCategory.
Proof. solve_decision. Defined.

(* [contracts/src/mutation_authorization.rs] MutationRequiredTargetState *)
Inductive MutationRequiredTargetState :=
  | MtsAnyDeclared | MtsInactiveOrReady | MtsActiveOrPaused | MtsStoppedOrPaused | MtsAvailable
  | MtsUnavailable | MtsNotApplicable.
#[export] Instance MutationRequiredTargetState_eq_dec : EqDecision MutationRequiredTargetState.
Proof. solve_decision. Defined.

(* [contracts/src/mutation_authorization.rs] MutationIntentTtlBucket *)
Inductive MutationIntentTtlBucket :=
  | MtbFiveSeconds | MtbThirtySeconds | MtbSixtySeconds.
#[export] Instance MutationIntentTtlBucket_eq_dec : EqDecision MutationIntentTtlBucket.
Proof. solve_decision. Defined.

(** [{:?}] of the derived [Debug]: the variant's name. *)
Definition capability_debug (self : MutationCapabilityCategory) : string :=
  match self with
  | McpIpHelperProvider => "IpHelperProvider"
  | McpEtwProvider => "EtwProvider"
  | McpDnsSensingProvider => "DnsSensingProvider"
  | McpAuthRemoteSensingProvider => "AuthRemoteSensingProvider"
  | McpNetworkProviderController => "NetworkProviderController"
  | McpNativeSampler => "NativeSampler"
  | McpNativeScheduler => "NativeScheduler"
  | McpNativeSchedulerHost => "NativeSchedulerHost"
  | McpCaptureAuthorization => "CaptureAuthorization"
  | McpReportGeneration => "ReportGeneration"
  | McpExport => "Export"
  | McpLlmAlertStory => "LlmAlertStory"
  | McpResponse => "Response"
  | McpServiceHostLifecycle => "ServiceHostLifecycle"
  | McpHostMutation => "HostMutation"
  end.

(** [{:?}] of the derived [Debug]: the variant's name. *)
Definition ttl_debug (self : MutationIntentTtlBucket) : string :=
  match self with
  | MtbFiveSeconds => "FiveSeconds"
  | MtbThirtySeconds => "ThirtySeconds"
  | MtbSixtySeconds => "SixtySeconds"
  end.

(* [contracts/src/mutation_authorization.rs] MutationIntentTtlBucket::duration_millis *)
Definition duration_millis (self : MutationIntentTtlBucket) : N :=
  match self with
  | MtbFiveSeconds => 5000
  | MtbThirtySeconds => 30000
  | MtbSixtySeconds => 60000
  end.

(* [contracts/src/mutation_authorization.rs] MutationIntentTimeBucket *)
Inductive MutationIntentTimeBucket :=
  | MimCurrentConnection | MimExpired.
#[export] Instance MutationIntentTimeBucket_eq_dec : EqDecision MutationIntentTimeBucket.
Proof. solve_decision. Defined.

(* [contracts/src/mutation_authorization.rs] MutationIdempotencyPolicy *)
Inductive MutationIdempotencyPolicy :=
  | MipRequired | MipOptional | MipForbidden | MipSingleUse.
#[export] Instance MutationIdempotencyPolicy_eq_dec : EqDecision MutationIdempotencyPolicy.
Proof. solve_decision. Defined.

(* [contracts/src/mutation_authorization.rs] MutationReplayPolicy *)
Inductive MutationReplayPolicy :=
  | MrpReject | MrpReturnExistingDecision.
#[export] Instance MutationReplayPolicy_eq_dec : EqDecision MutationReplayPolicy.
Proof. solve_decision. Defined.

(* [contracts/src/mutation_authorization.rs] MutationCancellationPolicy *)
Inductive MutationCancellationPolicy :=
  | MxpConnectionClose | MxpExplicitFutureCancellation | MxpNotApplicable.
#[export] Instance MutationCancellationPolicy_eq_dec : EqDecision MutationCancellationPolicy.
Proof. solve_decision. Defined.

(* [contracts/src/mutation_authorization.rs] MutationExecutionTimeoutBucket *)
Inductive MutationExecutionTimeoutBucket :=
  | MetOneSecond | MetFiveSeconds | MetThirtySeconds.
#[export] Instance MutationExecutionTimeoutBucket_eq_dec : EqDecision MutationExecutionTimeoutBucket.
Proof. solve_decision. Defined.

(* [contracts/src/mutation_authorization.rs] MutationPolicyImplementationState *)
Inductive MutationPolicyImplementationState :=
  | MisFrameworkReviewOnly | MisNotImplemented | MisAlwaysDenied.
#[export] Instance MutationPolicyImplementationState_eq_dec : EqDecision MutationPolicyImplementationState.
Proof. solve_decision. Defined.

(* [contracts/src/mutation_authorization.rs] MutationAuthorizationResult *)
Inductive MutationAuthorizationResult :=
  | MarApprovedDryRun | MarApprovedForExecution | MarDenied | MarExpired | MarReplayRejected
  | MarSessionMismatch | MarCallerNotAuthorized | MarCommandClassNotAllowed | MarPolicyNotFound
  | MarPolicyVersionMismatch | MarRuntimeStateInvalid | MarOwnershipEpochMismatch
  | MarCapabilityUnavailable | MarProviderStateInvalid | MarExplicitActionRequired
  | MarAdministratorPolicyRequired | MarResponseCapabilityBlocked | MarNotImplemented.
#[export] Instance MutationAuthorizationResult_eq_dec : EqDecision MutationAuthorizationResult.
Proof. solve_decision. Defined.

(* [contracts/src/mutation_authorization.rs] MutationExecutionAuthorizationState *)
Inductive MutationExecutionAuthorizationState :=
  | MeaApprovedForExecution | MeaConsumed | MeaExecutionStarted | MeaExecutionCompleted
  | MeaExecutionFailed | MeaExecutionCancelled | MeaExecutionTimedOut | MeaExecutionRejected
  | MeaAlreadySatisfied.
#[export] Instance MutationExecutionAuthorizationState_eq_dec : EqDecision MutationExecutionAuthorizationState.
Proof. solve_decision. Defined.

(* [contracts/src/mutation_authorization.rs] MutationExecutionResultCategory *)
Inductive MutationExecutionResultCategory :=
  | MerCompleted | MerFailed | MerCancelled | MerTimedOut | MerRejected | MerAlreadySatisfied.
#[export] Instance MutationExecutionResultCategory_eq_dec : EqDecision MutationExecutionResultCategory.
Proof. solve_decision. Defined.

(* [contracts/src/mutation_authorization.rs] ProviderLifecycleCategory *)
Inductive ProviderLifecycleCategory :=
  | PlcInactive | PlcActivating | PlcActive | PlcPaused | PlcSampling | PlcStopping | PlcStopped
  | PlcDegraded | PlcFailed | PlcUnavailable.
#[export] Instance ProviderLifecycleCategory_eq_dec : EqDecision ProviderLifecycleCategory.
Proof. solve_decision. Defined.

(* [contracts/src/mutation_authorization.rs] MutationRuntimeStateCategory *)
Inductive MutationRuntimeStateCategory :=
  | MrsServiceOwnedReady | MrsDegraded | MrsShuttingDown | MrsUnavailable.
#[export] Instance MutationRuntimeStateCategory_eq_dec : EqDecision MutationRuntimeStateCategory.
Proof. solve_decision. Defined.

(* [contracts/src/mutation_authorization.rs] MutationCapabilityStateCategory *)
Inductive MutationCapabilityStateCategory :=
  | MksAvailable | MksInactive | MksReady | MksActive | MksPaused | MksDegraded | MksStopped
  | MksUnavailable | MksBlocked | MksNotApplicable.
#[export] Instance MutationCapabilityStateCategory_eq_dec : EqDecision MutationCapabilityStateCategory.
Proof. solve_decision. Defined.

(* [contracts/src/mutation_authorization.rs] MutationTtlState *)
Inductive MutationTtlState :=
  | MttCurrent | MttExpired.
#[export] Instance MutationTtlState_eq_dec : EqDecision MutationTtlState.
Proof. solve_decision. Defined.

(* [contracts/src/mutation_authorization.rs] MutationIdempotencyState *)
Inductive MutationIdempotencyState :=
  | MdsNew | MdsReused | MdsConflict | MdsNotRequired | MdsMissing.
#[export] Instance MutationIdempotencyState_eq_dec : EqDecision MutationIdempotencyState.
Proof. solve_decision. Defined.

(* [contracts/src/mutation_authorization.rs] MutationAuthorizationFrameworkState *)
Inductive MutationAuthorizationFrameworkState :=
  | MfsImplementedDryRun | MfsImplementedNarrowExecution | MfsDegraded | MfsUnsupportedPlatform.
#[export] Instance MutationAuthorizationFrameworkState_eq_dec : EqDecision MutationAuthorizationFrameworkState.
Proof. solve_decision. Defined.

(* [contracts/src/mutation_authorization.rs] MutationCountBucket *)
Inductive MutationCountBucket :=
  | MctZero | MctOne | MctFew | MctMany.
#[export] Instance MutationCountBucket_eq_dec : EqDecision MutationCountBucket.
Proof. solve_decision. Defined.

(* [contracts/src/mutation_authorization.rs] MutationCountBucket::from_count *)
Definition from_count (count : N) : MutationCountBucket :=
  if count =? 0 then MctZero
  else if count =? 1 then MctOne
  else if (2 <=? count) && (count <=? 9) then MctFew
  else MctMany.

(* [contracts/src/mutation_authorization.rs:8-8] MUTATION_AUTHORIZATION_SCHEMA_VERSION *)
Definition MUTATION_AUTHORIZATION_SCHEMA_VERSION : SchemaVersion := mkVersion 1 0 0.
(* [contracts/src/mutation_authorization.rs:9-9] MUTATION_POLICY_CATALOG_VERSION *)
Definition MUTATION_POLICY_CATALOG_VERSION : SchemaVersion := mkVersion 1 0 0.
(* [contracts/src/mutation_authorization.rs:10-10] MAX_MUTATION_AUTHORIZATION_TEXT_LEN *)
Definition MAX_MUTATION_AUTHORIZATION_TEXT_LEN : N := 128.
(* [contracts/src/mutation_authorization.rs:11-11] MAX_MUTATION_AUTHORIZATION_REFS *)
Definition MAX_MUTATION_AUTHORIZATION_REFS : N := 16.
(* [contracts/src/mutation_authorization.rs:12-12] MAX_MUTATION_REQUEST_BYTES *)
Definition MAX_MUTATION_REQUEST_BYTES : N := 8 * 1024.

(* [contracts/src/mutation_authorization.rs] MutationCommandPolicy *)
Record MutationCommandPolicy := mkPolicy {
  mcp_command_id : MutationCommandId;
  mcp_policy_ref : string;
  mcp_policy_version : SchemaVersion;
  mcp_classifications : list MutationCommandClassification;
  mcp_required_caller_category : MutationRequiredCallerCategory;
  mcp_required_command_class : AllowedCommandClass;
  mcp_administrator_required : bool;
  mcp_interactive_session_required : bool;
  mcp_service_host_runtime_required : bool;
  mcp_required_capability : MutationCapabilityCategory;
  mcp_required_target_state : MutationRequiredTargetState;
  mcp_required_ownership_epoch : bool;
  mcp_request_ttl_bucket : MutationIntentTtlBucket;
  mcp_idempotency_policy : MutationIdempotencyPolicy;
  mcp_one_time_intent_required : bool;
  mcp_maximum_request_size : N;
  mcp_maximum_execution_timeout : MutationExecutionTimeoutBucket;
  mcp_audit_required : bool;
  mcp_replay_policy : MutationReplayPolicy;
  mcp_cancellation_policy : MutationCancellationPolicy;
  mcp_response_capable : bool;
  mcp_implementation_state : MutationPolicyImplementationState;
  mcp_execution_enabled : bool;
  mcp_degraded_reason : option string;
  mcp_redaction_status : RedactionStatus
}.

(* [contracts/src/mutation_authorization.rs] MutationIntent *)
Record MutationIntent := mkIntent {
  mi_schema_version : SchemaVersion;
  mi_intent_ref : string;
  mi_request_ref : string;
  mi_ipc_session_ref : string;
  mi_caller_verification_ref : string;
  mi_command_id : MutationCommandId;
  mi_policy_ref : string;
  mi_policy_version : SchemaVersion;
  mi_target_capability_ref : string;
  mi_target_capability_category : MutationCapabilityCategory;
  mi_requested_operation_category : string;
  mi_created_time_bucket : MutationIntentTimeBucket;
  mi_expiry_ttl_bucket : MutationIntentTtlBucket;
  mi_ownership_epoch : N;
  mi_idempotency_ref : option string;
  mi_explicit_user_action : bool;
  mi_dry_run : bool;
  mi_audit_refs : list string;
  mi_provenance_id : string;
  mi_redaction_status : RedactionStatus
}.

(* [contracts/src/mutation_authorization.rs] MutationAuthorizationDecision *)
Record MutationAuthorizationDecision := mkDecision {
  mad_schema_version : SchemaVersion;
  mad_decision_ref : string;
  mad_intent_ref : string;
  mad_command_id : MutationCommandId;
  mad_policy_ref : string;
  mad_policy_version : SchemaVersion;
  mad_result : MutationAuthorizationResult;
  mad_caller_category : CallerCategory;
  mad_command_class : AllowedCommandClass;
  mad_runtime_state : MutationRuntimeStateCategory;
  mad_capability_state : MutationCapabilityStateCategory;
  mad_ownership_epoch : N;
  mad_ttl_state : MutationTtlState;
  mad_idempotency_state : MutationIdempotencyState;
  mad_dry_run : bool;
  mad_execution_enabled : bool;
  mad_degraded_reason : option string;
  mad_audit_refs : list string;
  mad_provenance_id : string;
  mad_redaction_status : RedactionStatus
}.
#[export] Instance MutationAuthorizationDecision_eq_dec : EqDecision MutationAuthorizationDecision.
Proof. solve_decision. Defined.

(* [contracts/src/mutation_authorization.rs] MutationExecutionRequest *)
Record MutationExecutionRequest := mkExecutionRequest {
  mer_schema_version : SchemaVersion;
  mer_decision_ref : string;
  mer_intent : MutationIntent;
  mer_explicit_user_action : bool;
  mer_provenance_id : string;
  mer_redaction_status : RedactionStatus
}.

(* [contracts/src/mutation_authorization.rs] MutationExecutionCounters *)
Record MutationExecutionCounters := mkCounters {
  mec_sampled_count : N;
  mec_skipped_count : N;
  mec_rejected_count : N
}.

(* [contracts/src/mutation_authorization.rs] MutationExecutionReceipt *)
Record MutationExecutionReceipt := mkReceipt {
  mrc_schema_version : SchemaVersion;
  mrc_execution_ref : string;
  mrc_authorization_decision_ref : string;
  mrc_intent_ref : string;
  mrc_request_ref : string;
  mrc_command_id : MutationCommandId;
  mrc_policy_ref : string;
  mrc_policy_version : SchemaVersion;
  mrc_ownership_epoch : N;
  mrc_provider_category : MutationCapabilityCategory;
  mrc_previous_lifecycle_state : ProviderLifecycleCategory;
  mrc_resulting_lifecycle_state : ProviderLifecycleCategory;
  mrc_authorization_state : MutationExecutionAuthorizationState;
  mrc_result_category : MutationExecutionResultCategory;
  mrc_started_time_bucket : string;
  mrc_completed_time_bucket : string;
  mrc_duration_bucket : string;
  mrc_counters : MutationExecutionCounters;
  mrc_batch_refs : list string;
  mrc_fact_refs : list string;
  mrc_canonical_snapshot_refs : list string;
  mrc_audit_refs : list string;
  mrc_degraded_reason : option string;
  mrc_provenance_id : string;
  mrc_redaction_status : RedactionStatus
}.

(* [contracts/src/mutation_authorization.rs] MutationAuthorizationStatus *)
Record MutationAuthorizationStatus := mkAuthorizationStatus {
  mas_schema_version : SchemaVersion;
  mas_framework_state : MutationAuthorizationFrameworkState;
  mas_policy_catalog_version : SchemaVersion;
  mas_supported_command_count : N;
  mas_dry_run_only : bool;
  mas_production_execution_enabled : bool;
  mas_last_decision_category : option MutationAuthorizationResult;
  mas_denied_count_bucket : MutationCountBucket;
  mas_expired_count_bucket : MutationCountBucket;
  mas_replay_count_bucket : MutationCountBucket;
  mas_caller_trust_ready : bool;
  mas_ownership_runtime_ready : bool;
  mas_degraded_reasons : list string;
  mas_audit_refs : list string;
  mas_provenance_id : string;
  mas_redaction_status : RedactionStatus
}.

(* ------------------------------------------------------------------ *)
(** ** The policy catalog *)

(* [contracts/src/mutation_authorization.rs] policy_for_command *)
Definition policy_for_command (command_id : MutationCommandId) : MutationCommandPolicy :=
  let '(classifications, required_caller_category, required_command_class,
        administrator_required, interactive_session_required, capability, target_state,
        idempotency_policy, implementation_state, response_capable, degraded_reason) :=
    match command_id with
    | McActivateIpHelperProvider | McSampleIpHelperNow | McStopIpHelper =>
        ([McfAllowedForFrameworkReview; McfFutureUserMutation; McfExplicitActionOnly],
         MrcVerifiedInteractiveUser, AcFutureUserMutationCandidate, false, true,
         McpIpHelperProvider,
         match command_id with
         | McSampleIpHelperNow => MtsActiveOrPaused
         | McStopIpHelper => MtsAnyDeclared
         | _ => MtsInactiveOrReady
         end,
         MipSingleUse, MisFrameworkReviewOnly, false,
         Some "ip_helper_production_execution_enabled")
    | McActivateEtwProvider | McPauseEtwProvider | McResumeEtwProvider | McStopEtwProvider =>
        ([McfAllowedForFrameworkReview; McfFutureUserMutation; McfExplicitActionOnly],
         MrcVerifiedInteractiveUser, AcFutureUserMutationCandidate, false, true,
         McpEtwProvider,
         match command_id with
         | McActivateEtwProvider => MtsInactiveOrReady
         | McPauseEtwProvider => MtsActiveOrPaused
         | McResumeEtwProvider => MtsStoppedOrPaused
         | McStopEtwProvider => MtsAnyDeclared
         | _ => MtsAnyDeclared
         end,
         MipSingleUse, MisFrameworkReviewOnly, false, Some "etw_lifecycle_execution_enabled")
    | McActivateDnsSensing | McPauseDnsSensing | McResumeDnsSensing | McStopDnsSensing =>
        ([McfAllowedForFrameworkReview; McfFutureUserMutation; McfExplicitActionOnly],
         MrcVerifiedInteractiveUser, AcFutureUserMutationCandidate, false, true,
         McpDnsSensingProvider,
         match command_id with
         | McActivateDnsSensing => MtsInactiveOrReady
         | McPauseDnsSensing => MtsActiveOrPaused
         | McResumeDnsSensing => MtsStoppedOrPaused
         | McStopDnsSensing => MtsAnyDeclared
         | _ => MtsAnyDeclared
         end,
         MipSingleUse, MisFrameworkReviewOnly, false,
         Some "windows_dns_sensing_execution_enabled")
    | McActivateAuthRemoteSensing | McPauseAuthRemoteSensing | McResumeAuthRemoteSensing
    | McStopAuthRemoteSensing =>
        ([McfAllowedForFrameworkReview; McfFutureUserMutation; McfExplicitActionOnly],
         MrcVerifiedInteractiveUser, AcFutureUserMutationCandidate, false, true,
         McpAuthRemoteSensingProvider,
         match command_id with
         | McActivateAuthRemoteSensing => MtsInactiveOrReady
         | McPauseAuthRemoteSensing => MtsActiveOrPaused
         | McResumeAuthRemoteSensing => MtsStoppedOrPaused
         | McStopAuthRemoteSensing => MtsAnyDeclared
         | _ => MtsAnyDeclared
         end,
         MipSingleUse, MisFrameworkReviewOnly, false,
         Some "windows_auth_remote_sensing_execution_enabled")
    | McConfigureIpHelperSchedule | McEnableIpHelperSchedule | McPauseIpHelperSchedule
    | McResumeIpHelperSchedule | McDisableIpHelperSchedule =>
        ([McfAllowedForFrameworkReview; McfFutureUserMutation; McfExplicitActionOnly],
         MrcVerifiedInteractiveUser, AcFutureUserMutationCandidate, false, true,
         McpIpHelperProvider,
         match command_id with
         | McEnableIpHelperSchedule | McResumeIpHelperSchedule => MtsActiveOrPaused
         | _ => MtsAnyDeclared
         end,
         MipSingleUse, MisFrameworkReviewOnly, false,
         Some "ip_helper_schedule_control_plane_enabled")
    | McPauseIpHelper | McChangeNetworkProviderMode =>
        ([McfAllowedForFrameworkReview; McfFutureUserMutation; McfExplicitActionOnly;
          McfNotImplemented],
         MrcVerifiedInteractiveUser, AcFutureUserMutationCandidate, false, true,
         (if bool_decide (command_id = McChangeNetworkProviderMode)
          then McpNetworkProviderController else McpIpHelperProvider),
         match command_id with
         | McPauseIpHelper => MtsActiveOrPaused
         | _ => MtsInactiveOrReady
         end,
         MipRequired, MisFrameworkReviewOnly, false, Some "production_ip_helper_command_deferred")
    | McActivateNativeSampler | McSampleNativeSamplerNow | McPauseNativeSampler
    | McResumeNativeSampler | McStopNativeSampler =>
        ([McfAllowedForFrameworkReview; McfFutureUserMutation; McfExplicitActionOnly;
          McfNotImplemented],
         MrcVerifiedInteractiveUser, AcFutureUserMutationCandidate, false, true,
         McpNativeSampler,
         match command_id with
         | McPauseNativeSampler | McStopNativeSampler => MtsActiveOrPaused
         | _ => MtsInactiveOrReady
         end,
         MipRequired, MisFrameworkReviewOnly, false, Some "native_sampler_execution_deferred")
    | McUpdateNativeSchedule =>
        ([McfAllowedForFrameworkReview; McfFutureUserMutation; McfExplicitActionOnly;
          McfNotImplemented],
         MrcVerifiedInteractiveUser, AcFutureUserMutationCandidate, false, true,
         McpNativeScheduler, MtsAnyDeclared, MipRequired, MisFrameworkReviewOnly, false,
         Some "native_schedule_mutation_deferred")
    | McStartSchedulerHost | McPauseSchedulerHost | McResumeSchedulerHost
    | McStopSchedulerHost =>
        ([McfAllowedForFrameworkReview; McfFutureUserMutation; McfExplicitActionOnly;
          McfNotImplemented],
         MrcVerifiedInteractiveUser, AcFutureUserMutationCandidate, false, true,
         McpNativeSchedulerHost,
         match command_id with
         | McPauseSchedulerHost | McStopSchedulerHost => MtsActiveOrPaused
         | _ => MtsStoppedOrPaused
         end,
         MipRequired, MisFrameworkReviewOnly, false, Some "scheduler_host_execution_deferred")
    | McRequestCaptureAuthorization =>
        ([McfAllowedForFrameworkReview; McfFutureAdminMutation; McfExplicitActionOnly;
          McfNotImplemented],
         MrcAdministratorPolicyVerified, AcFutureAdminMutationCandidate, true, true,
         McpCaptureAuthorization, MtsUnavailable, MipSingleUse, MisNotImplemented, false,
         Some "capture_broker_not_implemented")
    | McRevokeCaptureAuthorization =>
        ([McfAllowedForFrameworkReview; McfFutureUserMutation; McfExplicitActionOnly;
          McfNotImplemented],
         MrcVerifiedInteractiveUser, AcFutureUserMutationCandidate, false, true,
         McpCaptureAuthorization, MtsUnavailable, MipSingleUse, MisNotImplemented, false,
         Some "capture_authorization_not_implemented")
    | McGenerateReport | McExportArtifact | McGenerateLlmStory =>
        ([McfAllowedForFrameworkReview; McfFutureUserMutation; McfExplicitActionOnly;
          McfNotImplemented],
         MrcVerifiedInteractiveUser, AcFutureUserMutationCandidate, false, true,
         match command_id with
         | McGenerateReport => McpReportGeneration
         | McExportArtifact => McpExport
         | _ => McpLlmAlertStory
         end,
         MtsAvailable, MipRequired, MisFrameworkReviewOnly, false,
         Some "servicehost_execution_deferred")
    | McExecuteResponse =>
        ([McfAlwaysDenied; McfNotImplemented], MrcNone, AcNone, false, true, McpResponse,
         MtsUnavailable, MipForbidden, MisAlwaysDenied, true,
         Some "response_execution_unavailable")
    | McRequestServiceHostShutdown =>
        ([McfAlwaysDenied; McfNotImplemented], MrcNone, AcNone, false, true,
         McpServiceHostLifecycle, MtsNotApplicable, MipForbidden, MisAlwaysDenied, false,
         Some "production_shutdown_not_authorized")
    | McKillProcess | McStopArbitraryService | McModifyFirewall | McBlockNetwork
    | McIsolateHost | McDisableAccount | McQuarantineFile | McInjectPacket
    | McExecuteArbitraryCommand | McCredentialOperation | McGenericElevatedExecution
    | McAutomaticCapture | McAutomaticLlmGeneration =>
        ([McfAlwaysDenied; McfNotImplemented], MrcNone, AcNone, false, false,
         McpHostMutation, MtsNotApplicable, MipForbidden, MisAlwaysDenied,
         negb (bool_decide (command_id = McAutomaticLlmGeneration)),
         Some "high_risk_command_always_denied")
    end in
  {| mcp_command_id := command_id;
     mcp_policy_ref := ("mutation_policy_" ++ as_str command_id)%string;
     mcp_policy_version := MUTATION_POLICY_CATALOG_VERSION;
     mcp_classifications := classifications;
     mcp_required_caller_category := required_caller_category;
     mcp_required_command_class := required_command_class;
     mcp_administrator_required := administrator_required;
     mcp_interactive_session_required := interactive_session_required;
     mcp_service_host_runtime_required := true;
     mcp_required_capability := capability;
     mcp_required_target_state := target_state;
     mcp_required_ownership_epoch := true;
     mcp_request_ttl_bucket := MtbThirtySeconds;
     mcp_idempotency_policy := idempotency_policy;
     mcp_one_time_intent_required := true;
     mcp_maximum_request_size := MAX_MUTATION_REQUEST_BYTES;
     mcp_maximum_execution_timeout := MetFiveSeconds;
     mcp_audit_required := true;
     mcp_replay_policy := MrpReturnExistingDecision;
     mcp_cancellation_policy := MxpConnectionClose;
     mcp_response_capable := response_capable;
     mcp_implementation_state := implementation_state;
     mcp_execution_enabled := production_execution_enabled command_id;
     mcp_degraded_reason := degraded_reason;
     mcp_redaction_status := RsRedacted |}.

(* [contracts/src/mutation_authorization.rs] mutation_policy_catalog *)
Definition mutation_policy_catalog : list MutationCommandPolicy := policy_for_command <$> ALL.

(* ------------------------------------------------------------------ *)
(** ** Validation *)

(* [contracts/src/mutation_authorization.rs] MutationAuthorizationContractError *)
Inductive MutationAuthorizationContractError :=
  | MaeEmptyField (field : string) | MaeTooLong (field : string)
  | MaeUnsafeField (field : string) | MaeTooManyItems (field : string)
  | MaeInvalidLimit (field : string) | MaeUnsupportedSchemaVersion
  | MaeUnsupportedPolicyVersion | MaeInvalidOwnershipEpoch | MaeExecutionForbidden
  | MaeExplicitActionRequired | MaeInvalidExecutionPolicy | MaeAuditRequired
  | MaeRedactionRequired.
#[export] Instance MutationAuthorizationContractError_eq_dec :
  EqDecision MutationAuthorizationContractError.
Proof. solve_decision. Defined.

(* [contracts/src/mutation_authorization.rs] Display for MutationAuthorizationContractError::fmt *)
Definition mutation_error_to_string (e : MutationAuthorizationContractError) : string :=
  match e with
  | MaeEmptyField field => field ++ " must not be empty"
  | MaeTooLong field => field ++ " exceeds the bounded text limit"
  | MaeUnsafeField field => field ++ " contains unsafe metadata"
  | MaeTooManyItems field => field ++ " contains too many items"
  | MaeInvalidLimit field => field ++ " is outside the bounded limit"
  | MaeUnsupportedSchemaVersion => "mutation authorization schema version is unsupported"
  | MaeUnsupportedPolicyVersion => "mutation policy version is unsupported"
  | MaeInvalidOwnershipEpoch => "ownership epoch must be non-zero"
  | MaeExecutionForbidden =>
      "production mutation execution is limited to explicit provider policies"
  | MaeExplicitActionRequired => "explicit user action is required"
  | MaeInvalidExecutionPolicy => "mutation execution policy is not narrowly allowlisted"
  | MaeAuditRequired => "mutation policy audit is required"
  | MaeRedactionRequired => "mutation authorization must be redacted"
  end%string.

(* [contracts/src/mutation_authorization.rs:1363-1382] validate_safe_text *)
Definition mutation_markers : list string :=
  ["s-1-"; "username"; "account_name"; "token"; "nonce"; "process_id"; "thread_id"; "pid";
   "ppid"; "command_line"; "path"; "ip_address"; "port_number"; "provider_handle";
   "credential"; "password"; "secret"; "api_key"].
(* [contracts/src/mutation_authorization.rs] validate_safe_text *)
Definition mutation_safe_text (field value : string)
    : result unit MutationAuthorizationContractError :=
  check_text (MaeEmptyField field) (MaeTooLong field) (MaeUnsafeField field)
    MAX_MUTATION_AUTHORIZATION_TEXT_LEN mutation_markers value.
(* [contracts/src/mutation_authorization.rs] validate_optional_safe_text *)
Definition mutation_optional_safe_text (field : string) (value : option string)
    : result unit MutationAuthorizationContractError :=
  if_some (mutation_safe_text field) value.
(* [contracts/src/mutation_authorization.rs] validate_refs *)
Definition mutation_refs (field : string) (values : list string)
    : result unit MutationAuthorizationContractError :=
  let? _ := refuse_if (MAX_MUTATION_AUTHORIZATION_REFS <? len values) (MaeTooManyItems field) in
  for_each (mutation_safe_text field) values.
(* [contracts/src/mutation_authorization.rs] validate_declared_identifier *)
Definition validate_declared_identifier (field value : string)
    : result unit MutationAuthorizationContractError :=
  let? _ := refuse_if (blank value) (MaeEmptyField field) in
  let? _ := refuse_if (MAX_MUTATION_AUTHORIZATION_TEXT_LEN <? str_len value)
    (MaeTooLong field) in
  refuse_if
    (negb (all_chars (λ byte, is_ascii_lowercase byte || is_ascii_digit byte ||
                              bool_decide (byte = "_"%char)) value))
    (MaeUnsafeField field).

(** [for (field, value) in [..] { validate_safe_text(field, value)?; }] *)
Definition mutation_safe_fields (fields : list (string * string))
    : result unit MutationAuthorizationContractError :=
  for_each (λ '(field, value), mutation_safe_text field value) fields.

(* [contracts/src/mutation_authorization.rs] MutationCommandPolicy::validate *)
Definition policy_validate (self : MutationCommandPolicy)
    : result unit MutationAuthorizationContractError :=
  let? _ := validate_declared_identifier "policy_ref" (mcp_policy_ref self) in
  let? _ := mutation_optional_safe_text "degraded_reason" (mcp_degraded_reason self) in
  let? _ := refuse_if
    (bool_decide (mcp_classifications self = []) ||
     (MAX_MUTATION_AUTHORIZATION_REFS <? len (mcp_classifications self)))
    (MaeTooManyItems "classifications") in
  let? _ := refuse_if
    (negb (bool_decide (mcp_policy_version self = MUTATION_POLICY_CATALOG_VERSION)))
    MaeUnsupportedPolicyVersion in
  let? _ := refuse_if
    ((mcp_maximum_request_size self =? 0) ||
     (MAX_MUTATION_REQUEST_BYTES <? mcp_maximum_request_size self))
    (MaeInvalidLimit "maximum_request_size") in
  let? _ := refuse_if
    (mcp_execution_enabled self && negb (production_execution_enabled (mcp_command_id self)))
    MaeExecutionForbidden in
  let? _ :=
    if mcp_execution_enabled self then
      let? _ := refuse_if (negb (bool_decide (mcp_idempotency_policy self = MipSingleUse)))
        MaeInvalidExecutionPolicy in
      refuse_if
        (negb (mcp_one_time_intent_required self) ||
         negb (mcp_service_host_runtime_required self) ||
         negb (mcp_required_ownership_epoch self) ||
         mcp_response_capable self ||
         negb (bool_decide (mcp_required_caller_category self = MrcVerifiedInteractiveUser)) ||
         negb (bool_decide (mcp_required_command_class self = AcFutureUserMutationCandidate)))
        MaeInvalidExecutionPolicy
    else Ok tt in
  let? _ := refuse_if (negb (mcp_audit_required self)) MaeAuditRequired in
  refuse_if (bool_decide (mcp_redaction_status self = RsRedactionRequired)) MaeRedactionRequired.

(* [contracts/src/mutation_authorization.rs] MutationIntent::validate *)
Definition intent_validate (self : MutationIntent)
    : result unit MutationAuthorizationContractError :=
  let? _ := refuse_if
    (negb (bool_decide (mi_schema_version self = MUTATION_AUTHORIZATION_SCHEMA_VERSION)))
    MaeUnsupportedSchemaVersion in
  let? _ := mutation_safe_fields
    [("intent_ref", mi_intent_ref self);
     ("request_ref", mi_request_ref self);
     ("ipc_session_ref", mi_ipc_session_ref self);
     ("caller_verification_ref", mi_caller_verification_ref self);
     ("target_capability_ref", mi_target_capability_ref self);
     ("requested_operation_category", mi_requested_operation_category self);
     ("provenance_id", mi_provenance_id self)] in
  let? _ := validate_declared_identifier "policy_ref" (mi_policy_ref self) in
  let? _ := mutation_optional_safe_text "idempotency_ref" (mi_idempotency_ref self) in
  let? _ := mutation_refs "audit_refs" (mi_audit_refs self) in
  let? _ := refuse_if (mi_ownership_epoch self =? 0) MaeInvalidOwnershipEpoch in
  let? _ := refuse_if (negb (mi_dry_run self)) MaeExecutionForbidden in
  refuse_if (bool_decide (mi_redaction_status self = RsRedactionRequired)) MaeRedactionRequired.

(* [contracts/src/mutation_authorization.rs] MutationAuthorizationDecision::validate *)
Definition decision_validate (self : MutationAuthorizationDecision)
    : result unit MutationAuthorizationContractError :=
  let? _ := refuse_if
    (negb (bool_decide (mad_schema_version self = MUTATION_AUTHORIZATION_SCHEMA_VERSION)))
    MaeUnsupportedSchemaVersion in
  let? _ := mutation_safe_fields
    [("decision_ref", mad_decision_ref self);
     ("intent_ref", mad_intent_ref self);
     ("provenance_id", mad_provenance_id self)] in
  let? _ := validate_declared_identifier "policy_ref" (mad_policy_ref self) in
  let? _ := mutation_optional_safe_text "degraded_reason" (mad_degraded_reason self) in
  let? _ := mutation_refs "audit_refs" (mad_audit_refs self) in
  let? _ := refuse_if (mad_ownership_epoch self =? 0) MaeInvalidOwnershipEpoch in
  let? _ :=
    match mad_result self with
    | MarApprovedForExecution =>
        refuse_if
          (mad_dry_run self || negb (mad_execution_enabled self) ||
           negb (production_execution_enabled (mad_command_id self)))
          MaeExecutionForbidden
    | _ => refuse_if (negb (mad_dry_run self) || mad_execution_enabled self) MaeExecutionForbidden
    end in
  let? _ := refuse_if
    (bool_decide (mad_result self = MarApprovedDryRun) && mad_execution_enabled self)
    MaeExecutionForbidden in
  refuse_if (bool_decide (mad_redaction_status self = RsRedactionRequired)) MaeRedactionRequired.

(* [contracts/src/mutation_authorization.rs] MutationExecutionRequest::validate *)
Definition execution_request_validate (self : MutationExecutionRequest)
    : result unit MutationAuthorizationContractError :=
  let? _ := refuse_if
    (negb (bool_decide (mer_schema_version self = MUTATION_AUTHORIZATION_SCHEMA_VERSION)))
    MaeUnsupportedSchemaVersion in
  let? _ := mutation_safe_text "decision_ref" (mer_decision_ref self) in
  let? _ := intent_validate (mer_intent self) in
  let? _ := mutation_safe_text "provenance_id" (mer_provenance_id self) in
  let? _ := refuse_if (negb (mer_explicit_user_action self)) MaeExplicitActionRequired in
  let? _ := refuse_if
    (negb (production_execution_enabled (mi_command_id (mer_intent self))))
    MaeExecutionForbidden in
  refuse_if (bool_decide (mer_redaction_status self = RsRedactionRequired)) MaeRedactionRequired.

(* [contracts/src/mutation_authorization.rs] MutationExecutionCounters::validate *)
Definition counters_validate (self : MutationExecutionCounters)
    : result unit MutationAuthorizationContractError :=
  refuse_if
    ((16384 <? mec_sampled_count self) || (16384 <? mec_skipped_count self) ||
     (16384 <? mec_rejected_count self))
    (MaeInvalidLimit "execution_counters").

(** The provider whose receipts a command may have. *)
(* [contracts/src/mutation_authorization.rs:779-805] MutationExecutionReceipt::validate *)
Definition expected_provider (command_id : MutationCommandId) : MutationCapabilityCategory :=
  match command_id with
  | McActivateEtwProvider | McPauseEtwProvider | McResumeEtwProvider | McStopEtwProvider =>
      McpEtwProvider
  | McActivateDnsSensing | McPauseDnsSensing | McResumeDnsSensing | McStopDnsSensing =>
      McpDnsSensingProvider
  | McActivateAuthRemoteSensing | McPauseAuthRemoteSensing | McResumeAuthRemoteSensing
  | McStopAuthRemoteSensing => McpAuthRemoteSensingProvider
  | _ => McpIpHelperProvider
  end.

(* [contracts/src/mutation_authorization.rs] MutationExecutionReceipt::validate *)
Definition receipt_validate (self : MutationExecutionReceipt)
    : result unit MutationAuthorizationContractError :=
  let? _ := refuse_if
    (negb (bool_decide (mrc_schema_version self = MUTATION_AUTHORIZATION_SCHEMA_VERSION)))
    MaeUnsupportedSchemaVersion in
  let? _ := mutation_safe_fields
    [("execution_ref", mrc_execution_ref self);
     ("authorization_decision_ref", mrc_authorization_decision_ref self);
     ("intent_ref", mrc_intent_ref self);
     ("request_ref", mrc_request_ref self);
     ("started_time_bucket", mrc_started_time_bucket self);
     ("completed_time_bucket", mrc_completed_time_bucket self);
     ("duration_bucket", mrc_duration_bucket self);
     ("provenance_id", mrc_provenance_id self)] in
  let? _ := validate_declared_identifier "policy_ref" (mrc_policy_ref self) in
  let? _ := mutation_refs "batch_refs" (mrc_batch_refs self) in
  let? _ := mutation_refs "fact_refs" (mrc_fact_refs self) in
  let? _ := mutation_refs "canonical_snapshot_refs" (mrc_canonical_snapshot_refs self) in
  let? _ := mutation_refs "audit_refs" (mrc_audit_refs self) in
  let? _ := mutation_optional_safe_text "degraded_reason" (mrc_degraded_reason self) in
  let? _ := counters_validate (mrc_counters self) in
  let? _ := refuse_if (mrc_ownership_epoch self =? 0) MaeInvalidOwnershipEpoch in
  let? _ := refuse_if (negb (production_execution_enabled (mrc_command_id self)))
    MaeExecutionForbidden in
  let? _ := refuse_if
    (negb (bool_decide (mrc_provider_category self = expected_provider (mrc_command_id self))))
    MaeInvalidExecutionPolicy in
  refuse_if (bool_decide (mrc_redaction_status self = RsRedactionRequired)) MaeRedactionRequired.

(* [contracts/src/mutation_authorization.rs] MutationAuthorizationStatus::validate *)
Definition status_validate (self : MutationAuthorizationStatus)
    : result unit MutationAuthorizationContractError :=
  let? _ := refuse_if
    (negb (bool_decide (mas_schema_version self = MUTATION_AUTHORIZATION_SCHEMA_VERSION)))
    MaeUnsupportedSchemaVersion in
  let? _ := refuse_if
    (bool_decide (mas_dry_run_only self = mas_production_execution_enabled self))
    MaeExecutionForbidden in
  let? _ := refuse_if (negb (mas_supported_command_count self =? len ALL))
    (MaeInvalidLimit "supported_command_count") in
  let? _ := mutation_refs "degraded_reasons" (mas_degraded_reasons self) in
  let? _ := mutation_refs "audit_refs" (mas_audit_refs self) in
  let? _ := mutation_safe_text "provenance_id" (mas_provenance_id self) in
  refuse_if (bool_decide (mas_redaction_status self = RsRedactionRequired)) MaeRedactionRequired.

(* ------------------------------------------------------------------ *)
(** ** Lemmas *)

Lemma elem_of_ALL c : c ∈ ALL.
Proof. destruct c; by repeat constructor. Qed.

Lemma NoDup_ALL : NoDup ALL.
Proof. by apply (bool_decide_unpack _); vm_compute. Qed.

(** The policies that refuse every caller. *)
Definition always_denied (c : MutationCommandId) : bool :=
  bool_decide (mcp_implementation_state (policy_for_command c) = MisAlwaysDenied).

(** What the catalog promises about the commands it lets execute. *)
Record execution_policy (p : MutationCommandPolicy) : Prop := {
  xp_caller : mcp_required_caller_category p = MrcVerifiedInteractiveUser;
  xp_class : mcp_required_command_class p = AcFutureUserMutationCandidate;
  xp_single_use : mcp_idempotency_policy p = MipSingleUse;
  xp_interactive : mcp_interactive_session_required p = true;
  xp_runtime : mcp_service_host_runtime_required p = true;
  xp_harmless : mcp_response_capable p = false;
  xp_provider : mcp_required_capability p = expected_provider (mcp_command_id p);
  xp_audited : mcp_audit_required p = true
}.

Lemma execution_policy_enabled c :
  production_execution_enabled c = true → execution_policy (policy_for_command c).
Proof. by destruct c; intros [=]; constructor. Qed.

Lemma policy_for_command_valid c : policy_validate (policy_for_command c) = Ok tt.
Proof. by destruct c; vm_compute. Qed.
