(* ===== verification/RuntimeOwnership.v ===== *)
(** * Runtime ownership ([contracts/src/runtime_ownership/mod.rs])

    Which process owns the runtime, in which mode, and how its shutdown went, with the
    validation of each contract type. Constructor prefixes: [Rm] mode, [Roc] owner, [Rcc]
    component, [Rcl] component life cycle, [Rhs] health, [Rts] transition, [Rac]
    authorization, [Rmt] mutation trust, [Rae] audit event, [Rsd] shutdown, [Rss] shutdown
    stage, [Rst] stage state, [Roe] error. Field prefixes: [rsg_] stage, [rsh_] shutdown,
    [rpz_] provider zero, [roc_] owner context, [rco_] component, [ros_] summary, [roe_]
    audit event. *)

From S2P Require Import Prelude Collections RustStr Effects Contracts Checks CallerVerification.

#[local] Open Scope string_scope.
#[local] Open Scope list_scope.
#[local] Open Scope N_scope.

(* ------------------------------------------------------------------ *)
(** ** Data *)

(* [contracts/src/runtime_ownership/mod.rs:5-5] RUNTIME_OWNERSHIP_SCHEMA_VERSION *)
Definition RUNTIME_OWNERSHIP_SCHEMA_VERSION : SchemaVersion := mkVersion 1 0 0.
(* [contracts/src/runtime_ownership/mod.rs:6-6] RUNTIME_OWNERSHIP_PROTOCOL_VERSION *)
Definition RUNTIME_OWNERSHIP_PROTOCOL_VERSION : SchemaVersion := mkVersion 1 0 0.
(* [contracts/src/runtime_ownership/mod.rs:7-7] MAX_RUNTIME_OWNERSHIP_COMPONENTS *)
Definition MAX_RUNTIME_OWNERSHIP_COMPONENTS : N := 32.
(* [contracts/src/runtime_ownership/mod.rs:8-8] MAX_RUNTIME_OWNERSHIP_AUDIT_REFS *)
Definition MAX_RUNTIME_OWNERSHIP_AUDIT_REFS : N := 32.
(* [contracts/src/runtime_ownership/mod.rs:9-9] MAX_RUNTIME_SHUTDOWN_STAGES *)
Definition MAX_RUNTIME_SHUTDOWN_STAGES : N := 24.
(* [contracts/src/runtime_ownership/mod.rs:10-10] MAX_RUNTIME_OWNERSHIP_TEXT_LEN *)
Definition MAX_RUNTIME_OWNERSHIP_TEXT_LEN : N := 128.

(* [contracts/src/runtime_ownership/mod.rs] RuntimeMode *)
Inductive RuntimeMode :=
  | RmUnresolved | RmPortableInProcess | RmServiceOwned | RmServiceDegraded
  | RmServiceUnavailable | RmProtocolIncompatible | RmOwnershipTransitionPending
  | RmShutdownInProgress | RmFailed.
#[export] Instance RuntimeMode_eq_dec : EqDecision RuntimeMode.
Proof. solve_decision. Defined.

(* [contracts/src/runtime_ownership/mod.rs] RuntimeOwnerCategory *)
Inductive RuntimeOwnerCategory :=
  | RocDesktopPortable | RocServiceHost | RocTestHarness | RocNone.
#[export] Instance RuntimeOwnerCategory_eq_dec : EqDecision RuntimeOwnerCategory.
Proof. solve_decision. Defined.

(* [contracts/src/runtime_ownership/mod.rs] RuntimeComponentCategory *)
Inductive RuntimeComponentCategory :=
  | RccEventBus | RccTopicCatalog | RccDag | RccPluginRuntime | RccCapabilityRegistry
  | RccPortableReaders | RccNativePermissions | RccNativeScheduler | RccNativeSchedulerHost
  | RccNativeSamplers | RccEndpointThreat | RccFusion | RccEvidenceQuality | RccRisk
  | RccAttackContext | RccGraph | RccBaseline | RccIncidentLinking | RccReadModels
  | RccReportTraceability | RccExportTraceability | RccProviderController.
#[export] Instance RuntimeComponentCategory_eq_dec : EqDecision RuntimeComponentCategory.
Proof. solve_decision. Defined.

(* [contracts/src/runtime_ownership/mod.rs] RuntimeComponentLifecycle *)
Inductive RuntimeComponentLifecycle :=
  | RclNotInitialized | RclInitializing | RclReady | RclInactive | RclRunning | RclDegraded
  | RclStopping | RclStopped | RclFailed.
#[export] Instance RuntimeComponentLifecycle_eq_dec : EqDecision RuntimeComponentLifecycle.
Proof. solve_decision. Defined.

(* [contracts/src/runtime_ownership/mod.rs] RuntimeHealthState *)
Inductive RuntimeHealthState :=
  | RhsUnknown | RhsHealthy | RhsReady | RhsInactive | RhsDegraded | RhsFailed | RhsStopped.
#[export] Instance RuntimeHealthState_eq_dec : EqDecision RuntimeHealthState.
Proof. solve_decision. Defined.

(* [contracts/src/runtime_ownership/mod.rs] RuntimeTransitionState *)
Inductive RuntimeTransitionState :=
  | RtsNone | RtsOwnershipRequested | RtsOwnershipAcquired | RtsInitializing | RtsReady
  | RtsShuttingDown | RtsReleased | RtsFailed.
#[export] Instance RuntimeTransitionState_eq_dec : EqDecision RuntimeTransitionState.
Proof. solve_decision. Defined.

(* [contracts/src/runtime_ownership/mod.rs] RuntimeAuthorizationCategory *)
Inductive RuntimeAuthorizationCategory :=
  | RacServiceHostLocal | RacDesktopPortableFallback | RacTestHarness | RacUnresolved.
#[export] Instance RuntimeAuthorizationCategory_eq_dec : EqDecision RuntimeAuthorizationCategory.
Proof. solve_decision. Defined.

(* [contracts/src/runtime_ownership/mod.rs] RuntimeMutationTrustState *)
Inductive RuntimeMutationTrustState :=
  | RmtImpersonationNotImplemented | RmtTrustedLocalService | RmtTestOnly | RmtDisabled.
#[export] Instance RuntimeMutationTrustState_eq_dec : EqDecision RuntimeMutationTrustState.
Proof. solve_decision. Defined.

(* [contracts/src/runtime_ownership/mod.rs] RuntimeOwnershipAuditEventKind *)
Inductive RuntimeOwnershipAuditEventKind :=
  | RaeRuntimeOwnershipRequested | RaeRuntimeOwnershipAcquired | RaeRuntimeOwnershipRejected
  | RaeRuntimeContainerInitializationStarted | RaeRuntimeComponentInitialized
  | RaeRuntimeComponentInitializationFailed | RaeRuntimeContainerReady
  | RaeDuplicateRuntimeBlocked | RaeDesktopRuntimeCreationBlocked | RaePortableFallbackSelected
  | RaeRuntimeShutdownStarted | RaeRuntimeComponentStopped | RaeRuntimeShutdownCompleted
  | RaeRuntimeShutdownTimeout | RaeStorageOwnerAcquired | RaeStorageOwnerConflict
  | RaeStorageOwnerReleased.
#[export] Instance RuntimeOwnershipAuditEventKind_eq_dec : EqDecision RuntimeOwnershipAuditEventKind.
Proof. solve_decision. Defined.

(* [contracts/src/runtime_ownership/mod.rs] RuntimeShutdownState *)
Inductive RuntimeShutdownState :=
  | RsdNotStarted | RsdInProgress | RsdCompleted | RsdFailed | RsdTimedOut.
#[export] Instance RuntimeShutdownState_eq_dec : EqDecision RuntimeShutdownState.
Proof. solve_decision. Defined.

(* [contracts/src/runtime_ownership/mod.rs] RuntimeShutdownStage *)
Inductive RuntimeShutdownStage :=
  | RssRejectMutations | RssShutdownInProgress | RssInvalidateMutationLeases
  | RssSignalSchedulerHostCancellation | RssJoinSchedulerHost | RssDisableScheduler
  | RssStopSamplers | RssStopPortableReaders | RssCancelAnalysisWork | RssDrainEventBus
  | RssStopPluginRuntime | RssStopDag | RssCloseEventBus | RssFinalizeCanonicalReadModels
  | RssCloseStorageWriter | RssClearServiceSessionState | RssReleaseOwnershipGuard | RssCloseIpc
  | RssStopped.
#[export] Instance RuntimeShutdownStage_eq_dec : EqDecision RuntimeShutdownStage.
Proof. solve_decision. Defined.

(* [contracts/src/runtime_ownership/mod.rs] RuntimeShutdownStageState *)
Inductive RuntimeShutdownStageState :=
  | RstPending | RstCompleted | RstSkipped | RstFailed | RstTimedOut.
#[export] Instance RuntimeShutdownStageState_eq_dec : EqDecision RuntimeShutdownStageState.
Proof. solve_decision. Defined.

(* [contracts/src/runtime_ownership/mod.rs] RuntimeShutdownStageSummary *)
Record RuntimeShutdownStageSummary := mkStageSummary {
  rsg_stage : RuntimeShutdownStage;
  rsg_state : RuntimeShutdownStageState;
  rsg_timeout_bucket : string;
  rsg_duration_bucket : string;
  rsg_reason_category : option string;
  rsg_audit_refs : list AuditId;
  rsg_redaction_status : RedactionStatus
}.

(* [contracts/src/runtime_ownership/mod.rs] RuntimeShutdownSummary *)
Record RuntimeShutdownSummary := mkShutdownSummary {
  rsh_state : RuntimeShutdownState;
  rsh_total_timeout_bucket : string;
  rsh_mutation_leases_invalidated : bool;
  rsh_scheduler_host_cancellation_signalled : bool;
  rsh_scheduler_host_joined : bool;
  rsh_provider_stop_called : bool;
  rsh_stages : list RuntimeShutdownStageSummary;
  rsh_audit_refs : list AuditId;
  rsh_redaction_status : RedactionStatus
}.

(* [contracts/src/runtime_ownership/mod.rs] RuntimeProviderZeroSummary *)
Record RuntimeProviderZeroSummary := mkProviderZero {
  rpz_ip_helper_calls : N;
  rpz_etw_calls : N;
  rpz_npcap_probes : N;
  rpz_capture_broker_launches : N;
  rpz_native_network_topics : N;
  rpz_process_network_facts : N;
  rpz_packet_facts : N
}.

(* [contracts/src/runtime_ownership/mod.rs] RuntimeOwnerContext *)
Record RuntimeOwnerContext := mkOwnerContext {
  roc_owner_category : RuntimeOwnerCategory;
  roc_runtime_mode : RuntimeMode;
  roc_ownership_ref : string;
  roc_ownership_epoch : N;
  roc_service_instance_ref : option string;
  roc_policy_profile_ref : string;
  roc_protocol_version : SchemaVersion;
  roc_schema_version : SchemaVersion;
  roc_authorization_category : RuntimeAuthorizationCategory;
  roc_provenance_id : string;
  roc_redaction_status : RedactionStatus
}.

(* [contracts/src/runtime_ownership/mod.rs] RuntimeComponentOwnershipSummary *)
Record RuntimeComponentOwnershipSummary := mkComponentOwnership {
  rco_ownership_ref : string;
  rco_ownership_epoch : N;
  rco_runtime_mode : RuntimeMode;
  rco_owner_category : RuntimeOwnerCategory;
  rco_component_category : RuntimeComponentCategory;
  rco_component_lifecycle : RuntimeComponentLifecycle;
  rco_runtime_health : RuntimeHealthState;
  rco_degraded_reason : option string;
  rco_audit_refs : list AuditId;
  rco_provenance_id : string;
  rco_time_bucket : Timestamp;
  rco_redaction_status : RedactionStatus
}.

(* [contracts/src/runtime_ownership/mod.rs] RuntimeOwnershipSummary *)
Record RuntimeOwnershipSummary := mkOwnershipSummary {
  ros_ownership_ref : string;
  ros_ownership_epoch : N;
  ros_runtime_mode : RuntimeMode;
  ros_owner_category : RuntimeOwnerCategory;
  ros_runtime_health : RuntimeHealthState;
  ros_transition_state : RuntimeTransitionState;
  ros_protocol_version : SchemaVersion;
  ros_schema_version : SchemaVersion;
  ros_degraded_reason : option string;
  ros_mutation_trust_state : RuntimeMutationTrustState;
  ros_mutation_commands_enabled : bool;
  ros_provider_controller_state : string;
  ros_provider_call_count : N;
  ros_provider_zero : RuntimeProviderZeroSummary;
  ros_scheduler_state : string;
  ros_scheduler_host_state : string;
  ros_sampler_state : string;
  ros_storage_owner_state : string;
  ros_canonical_read_model_owner : string;
  ros_snapshot_freshness : string;
  ros_shutdown : RuntimeShutdownSummary;
  ros_component_summaries : list RuntimeComponentOwnershipSummary;
  ros_audit_refs : list AuditId;
  ros_provenance_id : string;
  ros_time_bucket : Timestamp;
  ros_redaction_status : RedactionStatus
}.

(* [contracts/src/runtime_ownership/mod.rs] RuntimeOwnershipAuditEvent *)
Record RuntimeOwnershipAuditEvent := mkOwnershipAuditEvent {
  roe_event_id : AuditId;
  roe_event_kind : RuntimeOwnershipAuditEventKind;
  roe_runtime_mode : RuntimeMode;
  roe_owner_category : RuntimeOwnerCategory;
  roe_component_category : option RuntimeComponentCategory;
  roe_previous_lifecycle : option RuntimeComponentLifecycle;
  roe_new_lifecycle : option RuntimeComponentLifecycle;
  roe_result_category : string;
  roe_reason_category : option string;
  roe_time_bucket : Timestamp;
  roe_audit_refs : list AuditId;
  roe_provenance_id : string;
  roe_redaction_status : RedactionStatus
}.


(* ------------------------------------------------------------------ *)
(** ** Text *)

(* [contracts/src/runtime_ownership/mod.rs] RuntimeOwnershipContractError *)
Inductive RuntimeOwnershipContractError :=
  | RoeEmptyField (field : string)
  | RoeTooLong (field : string) (max_len actual_len : N)
  | RoeUnsafeField (field : string)
  | RoeUnsupportedProtocolVersion
  | RoeUnsupportedSchemaVersion
  | RoeInvalidOwnerModeCombination
  | RoeInvalidLifecycleCombination
  | RoeTooManyItems (field : string)
  | RoeRedactionRequired (field : string).

(* [contracts/src/runtime_ownership/mod.rs] Display for RuntimeOwnershipContractError::fmt *)
Definition ownership_error_to_string (e : RuntimeOwnershipContractError) : string :=
  match e with
  | RoeEmptyField field => field ++ " must not be empty"
  | RoeTooLong field max_len actual_len =>
      field ++ " length " ++ show_uint actual_len ++ " exceeds max " ++ show_uint max_len ++
      " characters"
  | RoeUnsafeField field => field ++ " contains unsafe runtime metadata"
  | RoeUnsupportedProtocolVersion => "runtime ownership protocol version is unsupported"
  | RoeUnsupportedSchemaVersion => "runtime ownership schema version is unsupported"
  | RoeInvalidOwnerModeCombination => "runtime owner category does not match runtime mode"
  | RoeInvalidLifecycleCombination => "runtime lifecycle combination is invalid"
  | RoeTooManyItems field => field ++ " contains too many items"
  | RoeRedactionRequired field => field ++ " must be redacted"
  end%string.

(* [contracts/src/runtime_ownership/mod.rs:613-637] validate_safe_text *)
Definition ownership_markers : list string :=
  ["pid"; "thread"; "task_handle"; "process_handle"; "raw_pointer"; "0x"; "sid"; "username";
   "hostname"; "machine_identifier"; "executable_path"; "ipc_nonce"; "nonce"; "credential";
   "secret"; "token"; "password"; "api_key"; "c:\"; "/users/"; "/home/"; "http://";
   "https://"].

(* [contracts/src/runtime_ownership/mod.rs] validate_safe_text *)
Definition ownership_safe_text (field value : string)
    : result unit RuntimeOwnershipContractError :=
  let trimmed := trim value in
  let? _ := refuse_if (bool_decide (trimmed = "")) (RoeEmptyField field) in
  let? _ := refuse_if (MAX_RUNTIME_OWNERSHIP_TEXT_LEN <? str_len trimmed)
    (RoeTooLong field MAX_RUNTIME_OWNERSHIP_TEXT_LEN (str_len trimmed)) in
  let normalized := to_ascii_lowercase trimmed in
  for_each (λ marker, refuse_if (contains normalized marker) (RoeUnsafeField field))
    ownership_markers.

(* [contracts/src/runtime_ownership/mod.rs] validate_optional_safe_text *)
Definition ownership_optional_safe_text (field : string) (value : option string)
    : result unit RuntimeOwnershipContractError :=
  if_some (ownership_safe_text field) value.

(* ------------------------------------------------------------------ *)
(** ** Shutdown *)

(* [contracts/src/runtime_ownership/mod.rs] RuntimeShutdownStageSummary::validate *)
Definition stage_validate (self : RuntimeShutdownStageSummary)
    : result unit RuntimeOwnershipContractError :=
  let? _ := ownership_safe_text "shutdown timeout_bucket" (rsg_timeout_bucket self) in
  let? _ := ownership_safe_text "shutdown duration_bucket" (rsg_duration_bucket self) in
  let? _ := ownership_optional_safe_text "shutdown reason_category" (rsg_reason_category self) in
  refuse_if
    ((MAX_RUNTIME_OWNERSHIP_AUDIT_REFS <? len (rsg_audit_refs self)) ||
     bool_decide (rsg_redaction_status self = RsRedactionRequired))
    RoeInvalidLifecycleCombination.

(* [contracts/src/runtime_ownership/mod.rs:287-307] RuntimeShutdownSummary::validate *)
Definition expected_order : list RuntimeShutdownStage :=
  [RssRejectMutations; RssShutdownInProgress; RssInvalidateMutationLeases;
   RssSignalSchedulerHostCancellation; RssJoinSchedulerHost; RssDisableScheduler;
   RssStopSamplers; RssStopPortableReaders; RssCancelAnalysisWork; RssDrainEventBus;
   RssStopPluginRuntime; RssStopDag; RssCloseEventBus; RssFinalizeCanonicalReadModels;
   RssCloseStorageWriter; RssClearServiceSessionState; RssReleaseOwnershipGuard; RssCloseIpc;
   RssStopped].

(** [self.stages.last().map(|stage| stage.stage)] *)
Definition last_stage (stages : list RuntimeShutdownStageSummary) : option RuntimeShutdownStage :=
  rsg_stage <$> last stages.

(* [contracts/src/runtime_ownership/mod.rs] RuntimeShutdownSummary::validate *)
Definition shutdown_validate (self : RuntimeShutdownSummary)
    : result unit RuntimeOwnershipContractError :=
  let? _ := ownership_safe_text "shutdown total_timeout_bucket" (rsh_total_timeout_bucket self) in
  let? _ := refuse_if
    ((MAX_RUNTIME_SHUTDOWN_STAGES <? len (rsh_stages self)) ||
     (MAX_RUNTIME_OWNERSHIP_AUDIT_REFS <? len (rsh_audit_refs self)) ||
     bool_decide (rsh_redaction_status self = RsRedactionRequired))
    RoeInvalidLifecycleCombination in
  let? _ := for_each stage_validate (rsh_stages self) in
  let? _ := refuse_if
    (existsb (λ '(actual, expected), negb (bool_decide (rsg_stage actual = expected)))
       (zip (rsh_stages self) expected_order))
    RoeInvalidLifecycleCombination in
  refuse_if
    (bool_decide (rsh_state self = RsdCompleted) &&
     (negb (rsh_mutation_leases_invalidated self) ||
      negb (rsh_scheduler_host_cancellation_signalled self) ||
      negb (rsh_scheduler_host_joined self) ||
      negb (len (rsh_stages self) =? len expected_order) ||
      negb (bool_decide (last_stage (rsh_stages self) = Some RssStopped))))
    RoeInvalidLifecycleCombination.

(* [contracts/src/runtime_ownership/mod.rs] RuntimeProviderZeroSummary::all_zero *)
Definition all_zero (self : RuntimeProviderZeroSummary) : bool :=
  (rpz_ip_helper_calls self =? 0) && (rpz_etw_calls self =? 0) &&
  (rpz_npcap_probes self =? 0) && (rpz_capture_broker_launches self =? 0) &&
  (rpz_native_network_topics self =? 0) && (rpz_process_network_facts self =? 0) &&
  (rpz_packet_facts self =? 0).

(* ------------------------------------------------------------------ *)
(** ** Owners and summaries *)

(* [contracts/src/runtime_ownership/mod.rs] RuntimeOwnerContext::service_host *)
Definition service_host (ownership_ref : string) (ownership_epoch : N)
    (service_instance_ref : string) : RuntimeOwnerContext :=
  {| roc_owner_category := RocServiceHost; roc_runtime_mode := RmServiceOwned;
     roc_ownership_ref := ownership_ref; roc_ownership_epoch := ownership_epoch;
     roc_service_instance_ref := Some service_instance_ref;
     roc_policy_profile_ref := "service_host_runtime_profile";
     roc_protocol_version := RUNTIME_OWNERSHIP_PROTOCOL_VERSION;
     roc_schema_version := RUNTIME_OWNERSHIP_SCHEMA_VERSION;
     roc_authorization_category := RacServiceHostLocal;
     roc_provenance_id := "service_host_runtime_ownership";
     roc_redaction_status := RsRedacted |}.
(* [contracts/src/runtime_ownership/mod.rs] RuntimeOwnerContext::portable_fallback *)
Definition portable_fallback (ownership_ref : string) (ownership_epoch : N)
    : RuntimeOwnerContext :=
  {| roc_owner_category := RocDesktopPortable; roc_runtime_mode := RmPortableInProcess;
     roc_ownership_ref := ownership_ref; roc_ownership_epoch := ownership_epoch;
     roc_service_instance_ref := None;
     roc_policy_profile_ref := "portable_default_runtime_profile";
     roc_protocol_version := RUNTIME_OWNERSHIP_PROTOCOL_VERSION;
     roc_schema_version := RUNTIME_OWNERSHIP_SCHEMA_VERSION;
     roc_authorization_category := RacDesktopPortableFallback;
     roc_provenance_id := "desktop_portable_runtime_ownership";
     roc_redaction_status := RsRedacted |}.
(* [contracts/src/runtime_ownership/mod.rs] RuntimeOwnerContext::test_harness *)
Definition test_harness (ownership_ref : string) (ownership_epoch : N) : RuntimeOwnerContext :=
  {| roc_owner_category := RocTestHarness; roc_runtime_mode := RmPortableInProcess;
     roc_ownership_ref := ownership_ref; roc_ownership_epoch := ownership_epoch;
     roc_service_instance_ref := None;
     roc_policy_profile_ref := "test_harness_runtime_profile";
     roc_protocol_version := RUNTIME_OWNERSHIP_PROTOCOL_VERSION;
     roc_schema_version := RUNTIME_OWNERSHIP_SCHEMA_VERSION;
     roc_authorization_category := RacTestHarness;
     roc_provenance_id := "runtime_ownership_test_harness";
     roc_redaction_status := RsRedacted |}.

(** The modes in which a category may own the runtime. *)
(* [contracts/src/runtime_ownership/mod.rs:442-451] RuntimeOwnerContext::validate *)
Definition owner_matches_mode (mode : RuntimeMode) (owner : RuntimeOwnerCategory) : bool :=
  match mode, owner with
  | RmServiceOwned, RocServiceHost
  | RmPortableInProcess, RocDesktopPortable
  | RmPortableInProcess, RocTestHarness
  | RmUnresolved, RocNone
  | RmServiceUnavailable, RocNone
  | RmProtocolIncompatible, RocNone
  | RmFailed, RocNone => true
  | _, _ => false
  end.

(* [contracts/src/runtime_ownership/mod.rs] RuntimeOwnerContext::validate *)
Definition owner_context_validate (self : RuntimeOwnerContext)
    : result unit RuntimeOwnershipContractError :=
  let? _ := ownership_safe_text "ownership_ref" (roc_ownership_ref self) in
  let? _ := ownership_optional_safe_text "service_instance_ref" (roc_service_instance_ref self) in
  let? _ := ownership_safe_text "policy_profile_ref" (roc_policy_profile_ref self) in
  let? _ := ownership_safe_text "provenance_id" (roc_provenance_id self) in
  let? _ := refuse_if
    (negb (bool_decide (roc_protocol_version self = RUNTIME_OWNERSHIP_PROTOCOL_VERSION)))
    RoeUnsupportedProtocolVersion in
  let? _ := refuse_if
    (negb (bool_decide (roc_schema_version self = RUNTIME_OWNERSHIP_SCHEMA_VERSION)))
    RoeUnsupportedSchemaVersion in
  let? _ := refuse_if (roc_ownership_epoch self =? 0) RoeInvalidLifecycleCombination in
  let? _ := refuse_if (bool_decide (roc_redaction_status self = RsRedactionRequired))
    (RoeRedactionRequired "runtime owner context") in
  refuse_if (negb (owner_matches_mode (roc_runtime_mode self) (roc_owner_category self)))
    RoeInvalidOwnerModeCombination.

(* [contracts/src/runtime_ownership/mod.rs] RuntimeComponentOwnershipSummary::validate *)
Definition component_ownership_validate (self : RuntimeComponentOwnershipSummary)
    : result unit RuntimeOwnershipContractError :=
  let? _ := ownership_safe_text "component ownership_ref" (rco_ownership_ref self) in
  let? _ := ownership_safe_text "component provenance_id" (rco_provenance_id self) in
  let? _ := ownership_optional_safe_text "component degraded_reason" (rco_degraded_reason self) in
  refuse_if
    ((rco_ownership_epoch self =? 0) ||
     (MAX_RUNTIME_OWNERSHIP_AUDIT_REFS <? len (rco_audit_refs self)) ||
     bool_decide (rco_redaction_status self = RsRedactionRequired))
    RoeInvalidLifecycleCombination.

(* [contracts/src/runtime_ownership/mod.rs] RuntimeOwnershipSummary::validate *)
Definition ownership_summary_validate (self : RuntimeOwnershipSummary)
    : result unit RuntimeOwnershipContractError :=
  let? _ := ownership_safe_text "summary ownership_ref" (ros_ownership_ref self) in
  let? _ := ownership_safe_text "summary provenance_id" (ros_provenance_id self) in
  let? _ := ownership_safe_text "provider_controller_state" (ros_provider_controller_state self) in
  let? _ := ownership_safe_text "scheduler_state" (ros_scheduler_state self) in
  let? _ := ownership_safe_text "scheduler_host_state" (ros_scheduler_host_state self) in
  let? _ := ownership_safe_text "sampler_state" (ros_sampler_state self) in
  let? _ := ownership_safe_text "storage_owner_state" (ros_storage_owner_state self) in
  let? _ := ownership_safe_text "canonical_read_model_owner"
    (ros_canonical_read_model_owner self) in
  let? _ := ownership_safe_text "snapshot_freshness" (ros_snapshot_freshness self) in
  let? _ := ownership_optional_safe_text "summary degraded_reason" (ros_degraded_reason self) in
  let? _ := refuse_if
    (negb (bool_decide (ros_protocol_version self = RUNTIME_OWNERSHIP_PROTOCOL_VERSION)))
    RoeUnsupportedProtocolVersion in
  let? _ := refuse_if
    (negb (bool_decide (ros_schema_version self = RUNTIME_OWNERSHIP_SCHEMA_VERSION)))
    RoeUnsupportedSchemaVersion in
  let? _ := refuse_if
    ((ros_ownership_epoch self =? 0) ||
     (MAX_RUNTIME_OWNERSHIP_COMPONENTS <? len (ros_component_summaries self)) ||
     (MAX_RUNTIME_OWNERSHIP_AUDIT_REFS <? len (ros_audit_refs self)) ||
     bool_decide (ros_redaction_status self = RsRedactionRequired) ||
     ros_mutation_commands_enabled self)
    RoeInvalidLifecycleCombination in
  let? _ := for_each component_ownership_validate (ros_component_summaries self) in
  shutdown_validate (ros_shutdown self).

(* [contracts/src/runtime_ownership/mod.rs] RuntimeOwnershipAuditEvent::validate *)
Definition ownership_audit_validate (self : RuntimeOwnershipAuditEvent)
    : result unit RuntimeOwnershipContractError :=
  let? _ := ownership_safe_text "audit result_category" (roe_result_category self) in
  let? _ := ownership_optional_safe_text "audit reason_category" (roe_reason_category self) in
  let? _ := ownership_safe_text "audit provenance_id" (roe_provenance_id self) in
  refuse_if
    ((MAX_RUNTIME_OWNERSHIP_AUDIT_REFS <? len (roe_audit_refs self)) ||
     bool_decide (roe_redaction_status self = RsRedactionRequired))
    RoeInvalidLifecycleCombination.

(* ------------------------------------------------------------------ *)
(** ** What validation guarantees *)

Lemma ownership_safe_text_ok field value :
  ownership_safe_text field value = Ok tt ↔
  blank value = false ∧ str_len (trim value) ≤ MAX_RUNTIME_OWNERSHIP_TEXT_LEN ∧
  ∀ marker, marker ∈ ownership_markers →
    contains (to_ascii_lowercase (trim value)) marker = false.
Proof.
  unfold ownership_safe_text. rewrite !chain_ok, !refuse_if_ok, for_each_ok, Forall_forall,
    blank_trim, N.ltb_ge. by setoid_rewrite refuse_if_ok.
Qed.

(** Two lists that agree where both are defined. *)
Lemma zip_agree {A B} `{EqDecision B} (f : A → B) (l : list A) (k : list B) :
  existsb (λ '(x, y), negb (bool_decide (f x = y))) (zip l k) = false ↔
  take (length k) (f <$> l) = take (length l) k.
Proof.
  revert k. induction l as [|x l IH]; intros [|y k]; simpl; try done.
  rewrite orb_false_iff, negb_false_iff, bool_decide_eq_true, (IH k).
  split; [intros [? ?]; by f_equal|intros [= ? ?]; done].
Qed.

(** A validated shutdown summary records a prefix of the nineteen stages in their order;
    one that claims completion records all nineteen, with the mutation leases invalidated
    and the scheduler host cancelled and joined. *)
Theorem shutdown_validate_sound (s : RuntimeShutdownSummary) :
  shutdown_validate s = Ok tt →
  take 19 (rsg_stage <$> rsh_stages s) = take (length (rsh_stages s)) expected_order ∧
  (rsh_state s = RsdCompleted →
    rsg_stage <$> rsh_stages s = expected_order ∧
    rsh_mutation_leases_invalidated s = true ∧
    rsh_scheduler_host_cancellation_signalled s = true ∧ rsh_scheduler_host_joined s = true).
Proof.
  unfold shutdown_validate. rewrite !chain_ok, !refuse_if_ok, zip_agree.
  intros (_ & _ & _ & Hz & Hc). split; [done|]. intros Hs.
  rewrite bool_decide_eq_true_2 in Hc by done. simpl in Hc.
  rewrite !orb_false_iff, !negb_false_iff in Hc. destruct Hc as ((((? & ?) & ?) & Hlen) & _).
  split_and!; try done. apply N.eqb_eq in Hlen. unfold len in Hlen.
  assert (length (rsh_stages s) = 19%nat) as Hl by (simpl in Hlen; lia).
  rewrite Hl in Hz. simpl length in Hz. rewrite take_ge in Hz; [done|]. by rewrite length_fmap, Hl.
Qed.
