(* ===== verification/EtwLifecycle.v ===== *)
(** * The ETW life-cycle status ([contracts/src/etw_lifecycle.rs])

    The state an event-tracing provider reports, and the combinations of its flags each life
    cycle state allows. Constructor prefixes: [Ea] authorization, [El] life cycle, [Er]
    session, [Ef] fallback, [Ele] error. Field prefix: [etw_]. *)

From S2P Require Import Prelude Collections RustStr Effects Contracts Checks CallerVerification.

#[local] Open Scope string_scope.
#[local] Open Scope list_scope.
#[local] Open Scope N_scope.

(* [contracts/src/etw_lifecycle.rs:5-5] ETW_LIFECYCLE_SCHEMA_VERSION *)
Definition ETW_LIFECYCLE_SCHEMA_VERSION : SchemaVersion := mkVersion 1 0 0.
(* [contracts/src/etw_lifecycle.rs:6-6] MAX_ETW_LIFECYCLE_REFS *)
Definition MAX_ETW_LIFECYCLE_REFS : N := 16.
(* [contracts/src/etw_lifecycle.rs:7-7] MAX_ETW_LIFECYCLE_TEXT_LEN *)
Definition MAX_ETW_LIFECYCLE_TEXT_LEN : N := 128.

(* [contracts/src/etw_lifecycle.rs] EtwAuthorizationState *)
Inductive EtwAuthorizationState :=
  | EaRequired | EaAuthorized | EaInvalidated.
#[export] Instance EtwAuthorizationState_eq_dec : EqDecision EtwAuthorizationState.
Proof. solve_decision. Defined.

(* [contracts/src/etw_lifecycle.rs] EtwLifecycleState *)
Inductive EtwLifecycleState :=
  | ElInactive | ElActivating | ElActive | ElPausing | ElPaused | ElResuming | ElDegraded
  | ElStopping | ElStopped | ElFailed.
#[export] Instance EtwLifecycleState_eq_dec : EqDecision EtwLifecycleState.
Proof. solve_decision. Defined.

(* [contracts/src/etw_lifecycle.rs] EtwRuntimeSessionState *)
Inductive EtwRuntimeSessionState :=
  | ErNotCreated | ErControlSessionActive | ErControlSessionPaused | ErControlSessionStopped
  | ErUnavailable.
#[export] Instance EtwRuntimeSessionState_eq_dec : EqDecision EtwRuntimeSessionState.
Proof. solve_decision. Defined.

(* [contracts/src/etw_lifecycle.rs] EtwFallbackState *)
Inductive EtwFallbackState :=
  | EfIpHelperActive | EfIpHelperAvailable | EfPortableMetadataOnly | EfUnavailable.
#[export] Instance EtwFallbackState_eq_dec : EqDecision EtwFallbackState.
Proof. solve_decision. Defined.

(* [contracts/src/etw_lifecycle.rs] EtwLifecycleStatus *)
Record EtwLifecycleStatus := mkEtwLifecycle {
  etw_lifecycle_ref : string;
  etw_ownership_ref : string;
  etw_ownership_epoch : N;
  etw_schema_version : SchemaVersion;
  etw_lifecycle_state : EtwLifecycleState;
  etw_session_state : EtwRuntimeSessionState;
  etw_authorization_state : EtwAuthorizationState;
  etw_session_generation : N;
  etw_control_thread_active : bool;
  etw_control_thread_joined : bool;
  etw_trace_session_created : bool;
  etw_provider_enabled : bool;
  etw_collection_started : bool;
  etw_consumer_started : bool;
  etw_consumer_worker_active : bool;
  etw_consumer_worker_joined : bool;
  etw_raw_event_count : N;
  etw_normalized_event_count : N;
  etw_dropped_event_count : N;
  etw_rate_limited_event_count : N;
  etw_schema_rejected_event_count : N;
  etw_published_batch_count : N;
  etw_eventbus_publication_count : N;
  etw_security_fact_count : N;
  etw_activation_count : N;
  etw_pause_count : N;
  etw_resume_count : N;
  etw_stop_count : N;
  etw_fallback_state : EtwFallbackState;
  etw_degraded_reason : option string;
  etw_authorization_refs : list string;
  etw_audit_refs : list string;
  etw_provenance_refs : list string;
  etw_updated_at : Timestamp;
  etw_redaction_status : RedactionStatus
}.

(* [contracts/src/etw_lifecycle.rs] EtwLifecycleContractError *)
Inductive EtwLifecycleContractError :=
  | EleEmptyField (field : string) | EleTooLong (field : string)
  | EleUnsafeField (field : string) | EleTooManyItems (field : string)
  | EleOwnershipEpochRequired | EleUnsupportedSchemaVersion | EleInvalidLifecycleState
  | EleCollectionBoundaryViolation | EleInvalidCounters | EleRedactionRequired.

(* [contracts/src/etw_lifecycle.rs] Display for EtwLifecycleContractError::fmt *)
Definition etw_error_to_string (e : EtwLifecycleContractError) : string :=
  match e with
  | EleEmptyField field => field ++ " must not be empty"
  | EleTooLong field => field ++ " exceeds bounded length"
  | EleUnsafeField field => field ++ " contains unsafe metadata"
  | EleTooManyItems field => field ++ " exceeds bounded item count"
  | EleOwnershipEpochRequired => "ETW ownership epoch is required"
  | EleUnsupportedSchemaVersion => "ETW lifecycle schema unsupported"
  | EleInvalidLifecycleState => "ETW lifecycle state is invalid"
  | EleCollectionBoundaryViolation => "ETW lifecycle crossed the collection boundary"
  | EleInvalidCounters => "ETW lifecycle counters are invalid"
  | EleRedactionRequired => "ETW lifecycle output must be redacted"
  end%string.

(* [contracts/src/etw_lifecycle.rs:288-302] validate_safe_text *)
Definition etw_markers : list string :=
  ["handle="; "session_name="; "provider_guid="; "pid="; "process_name="; "raw_address=";
   "exact_port="; "path="; "token="; "credential="; "secret="; "password="; "api_key="].

(* [contracts/src/etw_lifecycle.rs] validate_safe_text *)
Definition etw_safe_text (field value : string) : result unit EtwLifecycleContractError :=
  check_trimmed (EleEmptyField field) (λ _, EleTooLong field) (EleUnsafeField field)
    MAX_ETW_LIFECYCLE_TEXT_LEN etw_markers value.
(* [contracts/src/etw_lifecycle.rs] validate_optional_safe_text *)
Definition etw_optional_safe_text (field : string) (value : option string)
    : result unit EtwLifecycleContractError :=
  if_some (etw_safe_text field) value.
(* [contracts/src/etw_lifecycle.rs] validate_refs *)
Definition etw_refs (field : string) (values : list string)
    : result unit EtwLifecycleContractError :=
  let? _ := refuse_if (MAX_ETW_LIFECYCLE_REFS <? len values) (EleTooManyItems field) in
  for_each (etw_safe_text field) values.

(* [contracts/src/etw_lifecycle.rs] EtwLifecycleStatus::inactive *)
Definition etw_inactive (ownership_ref : string) (ownership_epoch : N)
    (fallback_state : EtwFallbackState) : ST EtwLifecycleStatus :=
  let$ updated_at := now in
  st_ret
    {| etw_lifecycle_ref := "etw_lifecycle_ref"; etw_ownership_ref := ownership_ref;
       etw_ownership_epoch := ownership_epoch; etw_schema_version := ETW_LIFECYCLE_SCHEMA_VERSION;
       etw_lifecycle_state := ElInactive; etw_session_state := ErNotCreated;
       etw_authorization_state := EaRequired; etw_session_generation := 0;
       etw_control_thread_active := false; etw_control_thread_joined := false;
       etw_trace_session_created := false; etw_provider_enabled := false;
       etw_collection_started := false; etw_consumer_started := false;
       etw_consumer_worker_active := false; etw_consumer_worker_joined := false;
       etw_raw_event_count := 0; etw_normalized_event_count := 0; etw_dropped_event_count := 0;
       etw_rate_limited_event_count := 0; etw_schema_rejected_event_count := 0;
       etw_published_batch_count := 0; etw_eventbus_publication_count := 0;
       etw_security_fact_count := 0; etw_activation_count := 0; etw_pause_count := 0;
       etw_resume_count := 0; etw_stop_count := 0; etw_fallback_state := fallback_state;
       etw_degraded_reason := Some "explicit_authorization_required";
       etw_authorization_refs := []; etw_audit_refs := ["etw_lifecycle_initialized"];
       etw_provenance_refs := ["servicehost_etw_lifecycle_runtime"];
       etw_updated_at := updated_at; etw_redaction_status := RsRedacted |}.

(** No trace session, provider, collection or consumer. *)
Definition etw_quiet (self : EtwLifecycleStatus) : bool :=
  negb (etw_trace_session_created self) && negb (etw_provider_enabled self) &&
  negb (etw_collection_started self) && negb (etw_consumer_started self) &&
  negb (etw_consumer_worker_active self).

(* [contracts/src/etw_lifecycle.rs:156-216] EtwLifecycleStatus::validate *)
Definition etw_state_valid (self : EtwLifecycleStatus) : bool :=
  let authorized := bool_decide (etw_authorization_state self = EaAuthorized) in
  match etw_lifecycle_state self with
  | ElInactive =>
      bool_decide (etw_authorization_state self = EaRequired) &&
      bool_decide (etw_session_state self = ErNotCreated) &&
      negb (etw_control_thread_active self) && etw_quiet self
  | ElActivating | ElPausing | ElResuming | ElStopping => authorized
  | ElActive =>
      authorized && bool_decide (etw_session_state self = ErControlSessionActive) &&
      etw_control_thread_active self && etw_trace_session_created self &&
      etw_provider_enabled self && etw_collection_started self && etw_consumer_started self &&
      etw_consumer_worker_active self && negb (etw_consumer_worker_joined self)
  | ElPaused =>
      authorized && bool_decide (etw_session_state self = ErControlSessionPaused) &&
      etw_control_thread_active self && etw_quiet self && etw_consumer_worker_joined self
  | ElDegraded | ElFailed => etw_quiet self
  | ElStopped =>
      bool_decide (etw_session_state self = ErControlSessionStopped) &&
      negb (etw_control_thread_active self) && etw_control_thread_joined self &&
      etw_quiet self && etw_consumer_worker_joined self
  end.

(* [contracts/src/etw_lifecycle.rs] EtwLifecycleStatus::validate *)
Definition etw_validate (self : EtwLifecycleStatus) : result unit EtwLifecycleContractError :=
  let? _ := etw_safe_text "lifecycle_ref" (etw_lifecycle_ref self) in
  let? _ := etw_safe_text "ownership_ref" (etw_ownership_ref self) in
  let? _ := etw_optional_safe_text "degraded_reason" (etw_degraded_reason self) in
  let? _ := etw_refs "authorization_refs" (etw_authorization_refs self) in
  let? _ := etw_refs "audit_refs" (etw_audit_refs self) in
  let? _ := etw_refs "provenance_refs" (etw_provenance_refs self) in
  let? _ := refuse_if (etw_ownership_epoch self =? 0) EleOwnershipEpochRequired in
  let? _ := refuse_if
    (negb (bool_decide (etw_schema_version self = ETW_LIFECYCLE_SCHEMA_VERSION)))
    EleUnsupportedSchemaVersion in
  let? _ := refuse_if
    ((etw_raw_event_count self <? etw_normalized_event_count self) ||
     (etw_dropped_event_count self <? etw_rate_limited_event_count self) ||
     (etw_dropped_event_count self <? etw_schema_rejected_event_count self) ||
     (etw_normalized_event_count self <? etw_published_batch_count self))
    EleInvalidCounters in
  let? _ := refuse_if (negb (etw_state_valid self)) EleInvalidLifecycleState in
  refuse_if (bool_decide (etw_redaction_status self = RsRedactionRequired)) EleRedactionRequired.

(** A fresh status is valid. *)
Lemma etw_inactive_valid ownership_ref epoch fallback w :
  etw_safe_text "ownership_ref" ownership_ref = Ok tt → epoch ≠ 0 →
  etw_validate (st_result (etw_inactive ownership_ref epoch fallback) w) = Ok tt.
Proof.
  intros Href Hepoch%N.eqb_neq. unfold etw_validate, etw_state_valid.
  cbn. rewrite Href, Hepoch. by vm_compute.
Qed.

(** In a valid status nothing runs outside the active state. *)
Lemma etw_collects_only_when_active s :
  etw_validate s = Ok tt → etw_authorization_state s ≠ EaAuthorized →
  etw_quiet s = true.
Proof.
  unfold etw_validate. autorewrite with checks.
  intros (_ & _ & _ & _ & _ & _ & _ & _ & _ & Hs & _) Ha. unfold etw_state_valid in Hs.
  rewrite !(bool_decide_eq_false_2 _ Ha) in Hs.
  destruct (etw_lifecycle_state s); cbn in Hs; by bool_prop.
Qed.
