(* ===== verification/IpHelperSchedule.v ===== *)
(** * The IP-helper schedule ([contracts/src/ip_helper_schedule.rs])

    The session-bound schedule of the connection-table provider: its configuration, its
    status, the record of a scheduled cycle and the request that changes it, with the
    validation of each. Constructor prefixes: [Is] state, [Ii] interval, [It] timeout, [Ib]
    retry budget, [Id_] retry delay, [Il] lease, [In_] next due, [Ir] registration, [Ic]
    count, [Iy] cycle type, [Iu] due state, [Ia] authorization, [Ix] result, [Ie] retry,
    [Ip] back-pressure, [If_] freshness, [Im] missed sample, [Ise] error, [Nk] provider
    kind. Field prefixes: [ihc_] cycle, [ihf_] configuration, [ihs_] status, [ihm_]
    mutation request. *)

From S2P Require Import Prelude Collections RustStr Effects Contracts Checks CallerVerification.
From S2P Require Import MutationPolicy.

#[local] Open Scope string_scope.
#[local] Open Scope list_scope.
#[local] Open Scope N_scope.

(* [contracts/src/provider_controller.rs] NetworkProviderKind *)
Inductive NetworkProviderKind :=
  | NkPortableMetadata | NkIpHelper | NkEtwNetwork | NkWindowsDns | NkWindowsAuthRemote
  | NkWindowsRdpOperational | NkWindowsSmbOperational | NkWindowsSshOperational | NkNpcapPacket
  | NkCaptureBroker | NkNone.
#[export] Instance NetworkProviderKind_eq_dec : EqDecision NetworkProviderKind.
Proof. solve_decision. Defined.

(* [contracts/src/provider_controller.rs] NetworkProviderKind::as_str *)
Definition kind_as_str (self : NetworkProviderKind) : string :=
  match self with
  | NkPortableMetadata => "portable_metadata"
  | NkIpHelper => "ip_helper"
  | NkEtwNetwork => "etw_network"
  | NkWindowsDns => "windows_dns"
  | NkWindowsAuthRemote => "windows_auth_remote"
  | NkWindowsRdpOperational => "windows_rdp_operational"
  | NkWindowsSmbOperational => "windows_smb_operational"
  | NkWindowsSshOperational => "windows_ssh_operational"
  | NkNpcapPacket => "npcap_packet"
  | NkCaptureBroker => "capture_broker"
  | NkNone => "none"
  end.

(* [contracts/src/ip_helper_schedule.rs:8-8] IP_HELPER_SCHEDULE_SCHEMA_VERSION *)
Definition IP_HELPER_SCHEDULE_SCHEMA_VERSION : SchemaVersion := mkVersion 1 0 0.
(* [contracts/src/ip_helper_schedule.rs:9-9] MAX_IP_HELPER_SCHEDULE_REFS *)
Definition MAX_IP_HELPER_SCHEDULE_REFS : N := 12.
(* [contracts/src/ip_helper_schedule.rs:10-10] MAX_IP_HELPER_SCHEDULE_TEXT_LEN *)
Definition MAX_IP_HELPER_SCHEDULE_TEXT_LEN : N := 128.
(* [contracts/src/ip_helper_schedule.rs:11-11] MAX_IP_HELPER_SCHEDULE_RECORDS *)
Definition MAX_IP_HELPER_SCHEDULE_RECORDS : N := 16384.
(* [contracts/src/ip_helper_schedule.rs:12-12] MAX_IP_HELPER_SCHEDULE_BYTES *)
Definition MAX_IP_HELPER_SCHEDULE_BYTES : N := 8 * 1024 * 1024.

(* [contracts/src/ip_helper_schedule.rs] IpHelperScheduleState *)
Inductive IpHelperScheduleState :=
  | IsNotConfigured | IsConfiguredDisabled | IsConfiguredEnabled | IsPaused | IsInvalidated
  | IsRevoked | IsDegraded.
#[export] Instance IpHelperScheduleState_eq_dec : EqDecision IpHelperScheduleState.
Proof. solve_decision. Defined.

(* [contracts/src/ip_helper_schedule.rs] IpHelperScheduleIntervalBucket *)
Inductive IpHelperScheduleIntervalBucket :=
  | IiFifteenSeconds | IiThirtySeconds | IiOneMinute | IiFiveMinutes.
#[export] Instance IpHelperScheduleIntervalBucket_eq_dec : EqDecision IpHelperScheduleIntervalBucket.
Proof. solve_decision. Defined.

(* [contracts/src/ip_helper_schedule.rs] IpHelperScheduleTimeoutBucket *)
Inductive IpHelperScheduleTimeoutBucket :=
  | ItTwoHundredFiftyMillis | ItOneSecond | ItFiveSeconds.
#[export] Instance IpHelperScheduleTimeoutBucket_eq_dec : EqDecision IpHelperScheduleTimeoutBucket.
Proof. solve_decision. Defined.

(* [contracts/src/ip_helper_schedule.rs] IpHelperScheduleRetryBudgetBucket *)
Inductive IpHelperScheduleRetryBudgetBucket :=
  | IbNone | IbOne | IbThree.
#[export] Instance IpHelperScheduleRetryBudgetBucket_eq_dec : EqDecision IpHelperScheduleRetryBudgetBucket.
Proof. solve_decision. Defined.

(* [contracts/src/ip_helper_schedule.rs] IpHelperScheduleRetryDelayBucket *)
Inductive IpHelperScheduleRetryDelayBucket :=
  | Id_None | Id_FiveSeconds | Id_ThirtySeconds.
#[export] Instance IpHelperScheduleRetryDelayBucket_eq_dec : EqDecision IpHelperScheduleRetryDelayBucket.
Proof. solve_decision. Defined.

(* [contracts/src/ip_helper_schedule.rs] IpHelperScheduleLeaseState *)
Inductive IpHelperScheduleLeaseState :=
  | IlNoLease | IlActive | IlPaused | IlInvalidated | IlRevoked | IlExpired.
#[export] Instance IpHelperScheduleLeaseState_eq_dec : EqDecision IpHelperScheduleLeaseState.
Proof. solve_decision. Defined.

(* [contracts/src/ip_helper_schedule.rs] IpHelperScheduleNextDueCategory *)
Inductive IpHelperScheduleNextDueCategory :=
  | In_NotRunning | In_Ineligible | In_Deferred | In_DueSoon | In_DueNow.
#[export] Instance IpHelperScheduleNextDueCategory_eq_dec : EqDecision IpHelperScheduleNextDueCategory.
Proof. solve_decision. Defined.

(* [contracts/src/ip_helper_schedule.rs] IpHelperSchedulerRegistrationState *)
Inductive IpHelperSchedulerRegistrationState :=
  | IrConfigured.
#[export] Instance IpHelperSchedulerRegistrationState_eq_dec : EqDecision IpHelperSchedulerRegistrationState.
Proof. solve_decision. Defined.

(* [contracts/src/ip_helper_schedule.rs] IpHelperScheduleCountBucket *)
Inductive IpHelperScheduleCountBucket :=
  | IcZero | IcOne | IcFew | IcMany.
#[export] Instance IpHelperScheduleCountBucket_eq_dec : EqDecision IpHelperScheduleCountBucket.
Proof. solve_decision. Defined.

(* [contracts/src/ip_helper_schedule.rs] IpHelperScheduledCycleType *)
Inductive IpHelperScheduledCycleType :=
  | IyScheduled.
#[export] Instance IpHelperScheduledCycleType_eq_dec : EqDecision IpHelperScheduledCycleType.
Proof. solve_decision. Defined.

(* [contracts/src/ip_helper_schedule.rs] IpHelperScheduledDueState *)
Inductive IpHelperScheduledDueState :=
  | IuNotDue | IuDue | IuDeferred | IuBlocked.
#[export] Instance IpHelperScheduledDueState_eq_dec : EqDecision IpHelperScheduledDueState.
Proof. solve_decision. Defined.

(* [contracts/src/ip_helper_schedule.rs] IpHelperScheduledAuthorizationState *)
Inductive IpHelperScheduledAuthorizationState :=
  | IaValid | IaInvalid | IaRevoked | IaStaleEpoch | IaPolicyMismatch.
#[export] Instance IpHelperScheduledAuthorizationState_eq_dec : EqDecision IpHelperScheduledAuthorizationState.
Proof. solve_decision. Defined.

(* [contracts/src/ip_helper_schedule.rs] IpHelperScheduledExecutionResult *)
Inductive IpHelperScheduledExecutionResult :=
  | IxNotStarted | IxCompleted | IxSkipped | IxFailed | IxTimedOut | IxBusy.
#[export] Instance IpHelperScheduledExecutionResult_eq_dec : EqDecision IpHelperScheduledExecutionResult.
Proof. solve_decision. Defined.

(* [contracts/src/ip_helper_schedule.rs] IpHelperScheduledRetryState *)
Inductive IpHelperScheduledRetryState :=
  | IeNone | IeScheduled | IeExhausted | IeCleared.
#[export] Instance IpHelperScheduledRetryState_eq_dec : EqDecision IpHelperScheduledRetryState.
Proof. solve_decision. Defined.

(* [contracts/src/ip_helper_schedule.rs] IpHelperScheduledBackpressureState *)
Inductive IpHelperScheduledBackpressureState :=
  | IpNone | IpLow | IpModerate | IpHigh | IpSaturated.
#[export] Instance IpHelperScheduledBackpressureState_eq_dec : EqDecision IpHelperScheduledBackpressureState.
Proof. solve_decision. Defined.

(* [contracts/src/ip_helper_schedule.rs] IpHelperScheduledFreshnessState *)
Inductive IpHelperScheduledFreshnessState :=
  | If_Fresh | If_Aging | If_Stale | If_Missing | If_Unavailable | If_Revoked.
#[export] Instance IpHelperScheduledFreshnessState_eq_dec : EqDecision IpHelperScheduledFreshnessState.
Proof. solve_decision. Defined.

(* [contracts/src/ip_helper_schedule.rs] IpHelperScheduledMissedSampleState *)
Inductive IpHelperScheduledMissedSampleState :=
  | ImOnTime | ImDelayed | ImMissedOnce | ImRepeatedlyMissed | ImPaused | ImBlocked | ImRevoked.
#[export] Instance IpHelperScheduledMissedSampleState_eq_dec : EqDecision IpHelperScheduledMissedSampleState.
Proof. solve_decision. Defined.

(* [contracts/src/ip_helper_schedule.rs] IpHelperScheduledCycleRecord *)
Record IpHelperScheduledCycleRecord := mkCycle {
  ihc_cycle_ref : string;
  ihc_scheduler_item_ref : string;
  ihc_schedule_ref : string;
  ihc_cycle_type : IpHelperScheduledCycleType;
  ihc_due_state : IpHelperScheduledDueState;
  ihc_authorization_state : IpHelperScheduledAuthorizationState;
  ihc_execution_result : IpHelperScheduledExecutionResult;
  ihc_retry_state : IpHelperScheduledRetryState;
  ihc_backpressure_state : IpHelperScheduledBackpressureState;
  ihc_freshness_result : IpHelperScheduledFreshnessState;
  ihc_missed_sample_result : IpHelperScheduledMissedSampleState;
  ihc_started_time_bucket : option Timestamp;
  ihc_completed_time_bucket : option Timestamp;
  ihc_duration_bucket : string;
  ihc_provider_call_count_bucket : IpHelperScheduleCountBucket;
  ihc_batch_refs : list string;
  ihc_fact_refs : list string;
  ihc_snapshot_refs : list string;
  ihc_audit_refs : list string;
  ihc_degraded_reason : option string;
  ihc_provenance_id : string;
  ihc_redaction_status : RedactionStatus
}.

(* [contracts/src/ip_helper_schedule.rs] IpHelperScheduleConfig *)
Record IpHelperScheduleConfig := mkScheduleConfig {
  ihf_interval_bucket : IpHelperScheduleIntervalBucket;
  ihf_provider_timeout_bucket : IpHelperScheduleTimeoutBucket;
  ihf_execution_timeout_bucket : IpHelperScheduleTimeoutBucket;
  ihf_retry_budget_bucket : IpHelperScheduleRetryBudgetBucket;
  ihf_retry_delay_bucket : IpHelperScheduleRetryDelayBucket;
  ihf_maximum_records : N;
  ihf_maximum_bytes : N;
  ihf_no_overlap_marker : bool;
  ihf_no_catch_up_marker : bool
}.
#[export] Instance IpHelperScheduleConfig_eq_dec : EqDecision IpHelperScheduleConfig.
Proof. solve_decision. Defined.

(* [contracts/src/ip_helper_schedule.rs] IpHelperScheduleStatus *)
Record IpHelperScheduleStatus := mkScheduleStatus {
  ihs_schema_version : SchemaVersion;
  ihs_schedule_ref : string;
  ihs_provider_category : NetworkProviderKind;
  ihs_scheduler_owner_ref : string;
  ihs_ownership_epoch : N;
  ihs_schedule_state : IpHelperScheduleState;
  ihs_enabled_marker : bool;
  ihs_paused_marker : bool;
  ihs_config : IpHelperScheduleConfig;
  ihs_session_bound_marker : bool;
  ihs_restart_disabled_marker : bool;
  ihs_policy_id : string;
  ihs_policy_version : SchemaVersion;
  ihs_authorization_refs : list string;
  ihs_lease_state : IpHelperScheduleLeaseState;
  ihs_schedule_lease_ref : option string;
  ihs_scheduler_registration : IpHelperSchedulerRegistrationState;
  ihs_timer_runtime_active : bool;
  ihs_next_due_category : IpHelperScheduleNextDueCategory;
  ihs_execution_count_bucket : IpHelperScheduleCountBucket;
  ihs_skipped_count_bucket : IpHelperScheduleCountBucket;
  ihs_automatic_provider_calls : N;
  ihs_scheduler_triggered_provider_calls : N;
  ihs_latest_manual_sample_ref : option string;
  ihs_latest_scheduled_cycle_ref : option string;
  ihs_latest_scheduled_execution_result : IpHelperScheduledExecutionResult;
  ihs_latest_scheduled_cycle : option IpHelperScheduledCycleRecord;
  ihs_manual_sample_count_bucket : IpHelperScheduleCountBucket;
  ihs_scheduled_sample_count_bucket : IpHelperScheduleCountBucket;
  ihs_retry_count_bucket : IpHelperScheduleCountBucket;
  ihs_timeout_count_bucket : IpHelperScheduleCountBucket;
  ihs_overlap_skip_count_bucket : IpHelperScheduleCountBucket;
  ihs_backpressure_state : IpHelperScheduledBackpressureState;
  ihs_freshness_state : IpHelperScheduledFreshnessState;
  ihs_missed_sample_state : IpHelperScheduledMissedSampleState;
  ihs_schedule_lease_valid : bool;
  ihs_created_time_bucket : Timestamp;
  ihs_updated_time_bucket : Timestamp;
  ihs_audit_refs : list string;
  ihs_provenance_id : string;
  ihs_redaction_status : RedactionStatus;
  ihs_degraded_reason : option string
}.

(* [contracts/src/ip_helper_schedule.rs] IpHelperScheduleMutationRequest *)
Record IpHelperScheduleMutationRequest := mkScheduleRequest {
  ihm_execution_request : MutationExecutionRequest;
  ihm_schedule_config : option IpHelperScheduleConfig;
  ihm_explicit_user_action : bool;
  ihm_provenance_id : string;
  ihm_redaction_status : RedactionStatus
}.

(* [contracts/src/ip_helper_schedule.rs] IpHelperScheduleContractError *)
Inductive IpHelperScheduleContractError :=
  | IseUnsupportedSchemaVersion | IseEmptyField (field : string) | IseTooLong (field : string)
  | IseUnsafeField (field : string) | IseTooManyItems (field : string)
  | IseInvalidLimit (field : string) | IseUnsafePolicy (field : string) | IseInvalidProvider
  | IseInvalidState (field : string) | IseOwnershipEpochRequired | IseProviderCallsForbidden
  | IseExplicitActionRequired | IseInvalidExecutionRequest | IseRedactionRequired.

(* [contracts/src/ip_helper_schedule.rs] Display for IpHelperScheduleContractError::fmt *)
Definition schedule_error_to_string (e : IpHelperScheduleContractError) : string :=
  match e with
  | IseUnsupportedSchemaVersion => "IP Helper schedule schema is unsupported"
  | IseEmptyField field => field ++ " must not be empty"
  | IseTooLong field => field ++ " exceeds bounded schedule text length"
  | IseUnsafeField field => field ++ " contains unsafe schedule metadata"
  | IseTooManyItems field => field ++ " contains too many schedule items"
  | IseInvalidLimit field => field ++ " has an unsafe schedule limit"
  | IseUnsafePolicy field => field ++ " is not allowed for schedule policy"
  | IseInvalidProvider => "IP Helper schedule must target IP Helper"
  | IseInvalidState field => field ++ " is inconsistent for schedule state"
  | IseOwnershipEpochRequired => "schedule ownership epoch is required"
  | IseProviderCallsForbidden => "schedule control plane must not call providers"
  | IseExplicitActionRequired => "schedule mutation requires explicit action"
  | IseInvalidExecutionRequest => "schedule execution request is invalid"
  | IseRedactionRequired => "schedule metadata must be redacted"
  end%string.

(* [contracts/src/ip_helper_schedule.rs:646-665] validate_safe_text *)
Definition schedule_markers : list string :=
  ["s-1-"; "sid"; "username"; "account_name"; "token"; "nonce"; "pid"; "process_id";
   "ip_address"; "port"; "path"; "c:\"; "/users/"; "/home/"; "credential"; "secret"; "password";
   "api_key"].

(* [contracts/src/ip_helper_schedule.rs] IpHelperScheduleCountBucket::from_count *)
Definition from_count (count : N) : IpHelperScheduleCountBucket :=
  if count =? 0 then IcZero else if count =? 1 then IcOne
  else if count <=? 9 then IcFew else IcMany.

(* [contracts/src/ip_helper_schedule.rs] validate_safe_text *)
Definition schedule_safe_text (field value : string)
    : result unit IpHelperScheduleContractError :=
  check_trimmed (IseEmptyField field) (λ _, IseTooLong field) (IseUnsafeField field)
    MAX_IP_HELPER_SCHEDULE_TEXT_LEN schedule_markers value.
(* [contracts/src/ip_helper_schedule.rs] validate_optional_safe_text *)
Definition schedule_optional_safe_text (field : string) (value : option string)
    : result unit IpHelperScheduleContractError :=
  if_some (schedule_safe_text field) value.
(* [contracts/src/ip_helper_schedule.rs] validate_refs *)
Definition schedule_refs (field : string) (values : list string)
    : result unit IpHelperScheduleContractError :=
  let? _ := refuse_if (MAX_IP_HELPER_SCHEDULE_REFS <? len values) (IseTooManyItems field) in
  for_each (schedule_safe_text field) values.
(* [contracts/src/ip_helper_schedule.rs] validate_declared_identifier *)
Definition schedule_declared_identifier (field value : string)
    : result unit IpHelperScheduleContractError :=
  let? _ := schedule_safe_text field value in
  refuse_if
    (negb (all_chars (λ c, is_ascii_lowercase c || is_ascii_digit c || bool_decide (c = "_"%char))
             value))
    (IseUnsafeField field).

(* [contracts/src/ip_helper_schedule.rs] IpHelperScheduledCycleRecord::validate *)
Definition cycle_validate (self : IpHelperScheduledCycleRecord)
    : result unit IpHelperScheduleContractError :=
  let? _ := schedule_safe_text "cycle_ref" (ihc_cycle_ref self) in
  let? _ := schedule_safe_text "scheduler_item_ref" (ihc_scheduler_item_ref self) in
  let? _ := schedule_safe_text "schedule_ref" (ihc_schedule_ref self) in
  let? _ := schedule_safe_text "duration_bucket" (ihc_duration_bucket self) in
  let? _ := schedule_refs "batch_refs" (ihc_batch_refs self) in
  let? _ := schedule_refs "fact_refs" (ihc_fact_refs self) in
  let? _ := schedule_refs "snapshot_refs" (ihc_snapshot_refs self) in
  let? _ := schedule_refs "audit_refs" (ihc_audit_refs self) in
  let? _ := schedule_optional_safe_text "degraded_reason" (ihc_degraded_reason self) in
  let? _ := schedule_safe_text "provenance_id" (ihc_provenance_id self) in
  let? _ := refuse_if (bool_decide (ihc_redaction_status self = RsRedactionRequired))
    IseRedactionRequired in
  let? _ := refuse_if (negb (bool_decide (ihc_cycle_type self = IyScheduled)))
    (IseInvalidState "cycle_type") in
  let completed := bool_decide (ihc_execution_result self = IxCompleted) in
  let? _ := refuse_if
    (xorb completed
       (negb (bool_decide (ihc_provider_call_count_bucket self = IcZero)) &&
        bool_decide (is_Some (ihc_completed_time_bucket self)) &&
        bool_decide (ihc_degraded_reason self = None)))
    (IseInvalidState "scheduled_cycle_completion") in
  refuse_if
    (negb completed && negb (bool_decide (ihc_execution_result self = IxNotStarted)) &&
     bool_decide (ihc_degraded_reason self = None))
    (IseInvalidState "scheduled_cycle_degraded_reason").

(* [contracts/src/ip_helper_schedule.rs] Default for IpHelperScheduleConfig::default *)
Definition schedule_config_default : IpHelperScheduleConfig :=
  {| ihf_interval_bucket := IiOneMinute; ihf_provider_timeout_bucket := ItTwoHundredFiftyMillis;
     ihf_execution_timeout_bucket := ItOneSecond; ihf_retry_budget_bucket := IbOne;
     ihf_retry_delay_bucket := Id_FiveSeconds; ihf_maximum_records := 128;
     ihf_maximum_bytes := 128 * 1024; ihf_no_overlap_marker := true;
     ihf_no_catch_up_marker := true |}.

(* [contracts/src/ip_helper_schedule.rs] IpHelperScheduleConfig::validate *)
Definition schedule_config_validate (self : IpHelperScheduleConfig)
    : result unit IpHelperScheduleContractError :=
  let? _ := refuse_if
    ((ihf_maximum_records self =? 0) ||
     (MAX_IP_HELPER_SCHEDULE_RECORDS <? ihf_maximum_records self))
    (IseInvalidLimit "maximum_records") in
  let? _ := refuse_if
    ((ihf_maximum_bytes self =? 0) || (MAX_IP_HELPER_SCHEDULE_BYTES <? ihf_maximum_bytes self))
    (IseInvalidLimit "maximum_bytes") in
  let? _ := refuse_if (negb (ihf_no_overlap_marker self))
    (IseUnsafePolicy "overlapping_execution_policy") in
  let? _ := refuse_if (negb (ihf_no_catch_up_marker self))
    (IseUnsafePolicy "catch_up_queue_policy") in
  refuse_if
    (bool_decide (ihf_retry_budget_bucket self = IbNone) &&
     negb (bool_decide (ihf_retry_delay_bucket self = Id_None)))
    (IseInvalidLimit "retry_delay_bucket").

(* [contracts/src/ip_helper_schedule.rs] IpHelperScheduleStatus::not_configured *)
Definition schedule_not_configured (ownership_epoch : N) : ST IpHelperScheduleStatus :=
  let$ created := now in
  st_ret
    {| ihs_schema_version := IP_HELPER_SCHEDULE_SCHEMA_VERSION;
       ihs_schedule_ref := "ip_helper_schedule_ref"; ihs_provider_category := NkIpHelper;
       ihs_scheduler_owner_ref := "servicehost_scheduler_controller";
       ihs_ownership_epoch := ownership_epoch; ihs_schedule_state := IsNotConfigured;
       ihs_enabled_marker := false; ihs_paused_marker := false;
       ihs_config := schedule_config_default; ihs_session_bound_marker := true;
       ihs_restart_disabled_marker := true;
       ihs_policy_id := "mutation_policy_configure_ip_helper_schedule";
       ihs_policy_version := MUTATION_POLICY_CATALOG_VERSION; ihs_authorization_refs := [];
       ihs_lease_state := IlNoLease; ihs_schedule_lease_ref := None;
       ihs_scheduler_registration := IrConfigured; ihs_timer_runtime_active := false;
       ihs_next_due_category := In_NotRunning; ihs_execution_count_bucket := IcZero;
       ihs_skipped_count_bucket := IcZero; ihs_automatic_provider_calls := 0;
       ihs_scheduler_triggered_provider_calls := 0; ihs_latest_manual_sample_ref := None;
       ihs_latest_scheduled_cycle_ref := None;
       ihs_latest_scheduled_execution_result := IxNotStarted;
       ihs_latest_scheduled_cycle := None; ihs_manual_sample_count_bucket := IcZero;
       ihs_scheduled_sample_count_bucket := IcZero; ihs_retry_count_bucket := IcZero;
       ihs_timeout_count_bucket := IcZero; ihs_overlap_skip_count_bucket := IcZero;
       ihs_backpressure_state := IpNone; ihs_freshness_state := If_Unavailable;
       ihs_missed_sample_state := ImBlocked; ihs_schedule_lease_valid := false;
       ihs_created_time_bucket := created; ihs_updated_time_bucket := created;
       ihs_audit_refs := ["ip_helper_schedule_not_configured"];
       ihs_provenance_id := "servicehost_ip_helper_schedule_control_plane";
       ihs_redaction_status := RsRedacted;
       ihs_degraded_reason := Some "schedule_not_configured" |}.

(** The lease each state requires. *)
(* [contracts/src/ip_helper_schedule.rs:500-516] IpHelperScheduleStatus::validate *)
Definition lease_validate (self : IpHelperScheduleStatus)
    : result unit IpHelperScheduleContractError :=
  match ihs_schedule_state self with
  | IsConfiguredEnabled =>
      refuse_if
        (negb (bool_decide (ihs_lease_state self = IlActive)) ||
         bool_decide (ihs_schedule_lease_ref self = None) ||
         negb (ihs_schedule_lease_valid self))
        (IseInvalidState "enabled_lease")
  | IsPaused =>
      refuse_if
        (negb (bool_decide (ihs_lease_state self = IlPaused)) || ihs_schedule_lease_valid self)
        (IseInvalidState "paused_lease")
  | _ => Ok tt
  end.

(** The record of the latest cycle agrees with the summary fields. *)
(* [contracts/src/ip_helper_schedule.rs:517-532] IpHelperScheduleStatus::validate *)
Definition latest_cycle_validate (self : IpHelperScheduleStatus)
    : result unit IpHelperScheduleContractError :=
  match ihs_latest_scheduled_cycle self with
  | Some cycle =>
      let? _ := cycle_validate cycle in
      refuse_if
        (negb (bool_decide (ihs_latest_scheduled_cycle_ref self = Some (ihc_cycle_ref cycle))) ||
         negb (bool_decide (ihc_schedule_ref cycle = ihs_schedule_ref self)) ||
         negb (bool_decide
           (ihs_latest_scheduled_execution_result self = ihc_execution_result cycle)))
        (IseInvalidState "latest_scheduled_cycle_ref")
  | None =>
      refuse_if (bool_decide (is_Some (ihs_latest_scheduled_cycle_ref self)))
        (IseInvalidState "latest_scheduled_cycle_ref")
  end.

(* [contracts/src/ip_helper_schedule.rs] IpHelperScheduleStatus::validate *)
Definition schedule_status_validate (self : IpHelperScheduleStatus)
    : result unit IpHelperScheduleContractError :=
  let? _ := refuse_if
    (negb (bool_decide (ihs_schema_version self = IP_HELPER_SCHEDULE_SCHEMA_VERSION)))
    IseUnsupportedSchemaVersion in
  let? _ := schedule_safe_text "schedule_ref" (ihs_schedule_ref self) in
  let? _ := schedule_safe_text "scheduler_owner_ref" (ihs_scheduler_owner_ref self) in
  let? _ := schedule_declared_identifier "policy_id" (ihs_policy_id self) in
  let? _ := schedule_optional_safe_text "schedule_lease_ref" (ihs_schedule_lease_ref self) in
  let? _ := schedule_optional_safe_text "latest_manual_sample_ref"
    (ihs_latest_manual_sample_ref self) in
  let? _ := schedule_optional_safe_text "latest_scheduled_cycle_ref"
    (ihs_latest_scheduled_cycle_ref self) in
  let? _ := schedule_refs "authorization_refs" (ihs_authorization_refs self) in
  let? _ := schedule_refs "audit_refs" (ihs_audit_refs self) in
  let? _ := schedule_safe_text "provenance_id" (ihs_provenance_id self) in
  let? _ := schedule_optional_safe_text "degraded_reason" (ihs_degraded_reason self) in
  let? _ := schedule_config_validate (ihs_config self) in
  let? _ := refuse_if (negb (bool_decide (ihs_provider_category self = NkIpHelper)))
    IseInvalidProvider in
  let? _ := refuse_if (ihs_ownership_epoch self =? 0) IseOwnershipEpochRequired in
  let? _ := refuse_if
    (negb (ihs_session_bound_marker self) || negb (ihs_restart_disabled_marker self))
    (IseUnsafePolicy "schedule_must_be_session_bound_and_restart_disabled") in
  let? _ := refuse_if
    (xorb (ihs_enabled_marker self)
       (bool_decide (ihs_schedule_state self = IsConfiguredEnabled)))
    (IseInvalidState "enabled_marker") in
  let? _ := refuse_if
    (xorb (ihs_paused_marker self) (bool_decide (ihs_schedule_state self = IsPaused)))
    (IseInvalidState "paused_marker") in
  let? _ := refuse_if (negb (ihs_automatic_provider_calls self =? 0))
    IseProviderCallsForbidden in
  let? _ := refuse_if
    (ihs_timer_runtime_active self &&
     (negb (bool_decide (ihs_schedule_state self = IsConfiguredEnabled)) ||
      negb (bool_decide (ihs_lease_state self = IlActive)) ||
      negb (ihs_schedule_lease_valid self)))
    (IseInvalidState "timer_runtime_requires_active_lease") in
  let? _ := refuse_if
    (negb (bool_decide (ihs_next_due_category self = In_NotRunning)) &&
     negb match ihs_schedule_state self with IsConfiguredEnabled | IsPaused => true | _ => false end)
    (IseInvalidState "next_due_category") in
  let? _ := lease_validate self in
  let? _ := latest_cycle_validate self in
  refuse_if (bool_decide (ihs_redaction_status self = RsRedactionRequired)) IseRedactionRequired.

(* [contracts/src/ip_helper_schedule.rs] IpHelperScheduleMutationRequest::validate *)
Definition schedule_request_validate (self : IpHelperScheduleMutationRequest)
    : result unit IpHelperScheduleContractError :=
  let? _ := map_err (λ _, IseInvalidExecutionRequest)
    (execution_request_validate (ihm_execution_request self)) in
  let? _ := schedule_safe_text "provenance_id" (ihm_provenance_id self) in
  let? _ := refuse_if (negb (ihm_explicit_user_action self)) IseExplicitActionRequired in
  let? _ := if_some schedule_config_validate (ihm_schedule_config self) in
  refuse_if (bool_decide (ihm_redaction_status self = RsRedactionRequired)) IseRedactionRequired.

(* ------------------------------------------------------------------ *)
(** ** Lemmas *)

Lemma schedule_not_configured_valid epoch w :
  epoch ≠ 0 → schedule_status_validate (st_result (schedule_not_configured epoch) w) = Ok tt.
Proof.
  intros Hepoch%N.eqb_neq. unfold schedule_status_validate, lease_validate, latest_cycle_validate.
  cbn. rewrite Hepoch. by vm_compute.
Qed.

(** A schedule runs its timer only under a valid lease that is bound to the session. *)
Lemma schedule_timer_leased s :
  schedule_status_validate s = Ok tt → ihs_timer_runtime_active s = true →
  ihs_schedule_state s = IsConfiguredEnabled ∧ ihs_lease_state s = IlActive ∧
  is_Some (ihs_schedule_lease_ref s) ∧ ihs_schedule_lease_valid s = true ∧
  ihs_session_bound_marker s = true ∧ ihs_automatic_provider_calls s = 0.
Proof.
  unfold schedule_status_validate. autorewrite with checks.
  intros (_ & _ & _ & _ & _ & _ & _ & _ & _ & _ & _ & _ & _ & _ & [Hb _] & _ & _ & Hc & Ht & _ &
    Hl & _) Ha. rewrite Ha in Ht. cbn in Ht. autorewrite with checks in Ht.
  destruct Ht as [[Hs Hlease] Hv]. unfold lease_validate in Hl. rewrite Hs in Hl.
  autorewrite with checks in Hl. destruct Hl as [[_ Hr] _].
  split_and!; try done; [by apply not_eq_None_Some|]. by apply N.eqb_eq.
Qed.
