(* ===== verification/ProviderController.v ===== *)
(** * The provider controller ([contracts/src/provider_controller.rs])

    What the service reports about the network providers: which exist, which one is
    selected, what is visible, what the fallback is, and which combinations of state, mode
    and call counters are consistent. Constructor prefixes: [Nk] kind, [Nm] mode, [Nc]
    controller state, [Ni] implementation, [Nl] life cycle, [Nv] dimension, [Nw] visibility,
    [Npe] error. Field prefixes: [npz_] counters, [nps_] provider, [nvd_] dimension, [nvs_]
    visibility, [nfp_] fallback, [npp_] policy, [npd_] dependencies, [npl_] life cycle,
    [npa_] audit, [npc_] controller. *)

From S2P Require Import Prelude Collections RustStr Effects Contracts Checks CallerVerification.
From S2P Require Import MutationPolicy RuntimeOwnership EtwLifecycle IpHelperSchedule.

#[local] Open Scope string_scope.
#[local] Open Scope list_scope.
#[local] Open Scope N_scope.

(* [contracts/src/provider_controller.rs:9-9] NETWORK_PROVIDER_CONTROLLER_SCHEMA_VERSION *)
Definition NETWORK_PROVIDER_CONTROLLER_SCHEMA_VERSION : SchemaVersion := mkVersion 1 0 0.
(* [contracts/src/provider_controller.rs:10-10] MAX_NETWORK_PROVIDER_RECORDS *)
Definition MAX_NETWORK_PROVIDER_RECORDS : N := 11.
(* [contracts/src/provider_controller.rs:11-11] MAX_NETWORK_PROVIDER_REFS *)
Definition MAX_NETWORK_PROVIDER_REFS : N := 12.
(* [contracts/src/provider_controller.rs:12-12] MAX_NETWORK_PROVIDER_TEXT_LEN *)
Definition MAX_NETWORK_PROVIDER_TEXT_LEN : N := 128.

(* [contracts/src/provider_controller.rs] NetworkProviderControllerMode *)
Inductive NetworkProviderControllerMode :=
  | NmPortableOnly | NmIpHelperOnly | NmEtwPlusIpHelper | NmPacketEnhanced | NmDegraded
  | NmUnavailable.
#[export] Instance NetworkProviderControllerMode_eq_dec : EqDecision NetworkProviderControllerMode.
Proof. solve_decision. Defined.

(* [contracts/src/provider_controller.rs] NetworkProviderControllerState *)
Inductive NetworkProviderControllerState :=
  | NcInactive | NcProbing | NcReady | NcActivating | NcActive | NcPaused | NcDegraded
  | NcStopping | NcStopped | NcRevoked | NcFailed.
#[export] Instance NetworkProviderControllerState_eq_dec : EqDecision NetworkProviderControllerState.
Proof. solve_decision. Defined.

(* [contracts/src/provider_controller.rs] NetworkProviderControllerState::as_str *)
Definition controller_state_as_str (self : NetworkProviderControllerState) : string :=
  match self with
  | NcInactive => "inactive"
  | NcProbing => "probing"
  | NcReady => "ready"
  | NcActivating => "activating"
  | NcActive => "active"
  | NcPaused => "paused"
  | NcDegraded => "degraded"
  | NcStopping => "stopping"
  | NcStopped => "stopped"
  | NcRevoked => "revoked"
  | NcFailed => "failed"
  end.

(* [contracts/src/provider_controller.rs] NetworkProviderImplementationState *)
Inductive NetworkProviderImplementationState :=
  | NiNotImplemented | NiImplementedInactive | NiAvailable | NiUnavailable
  | NiUnsupportedPlatform | NiPermissionRequired | NiAuthorizationRequired | NiDegraded
  | NiRevoked | NiFailed.
#[export] Instance NetworkProviderImplementationState_eq_dec : EqDecision NetworkProviderImplementationState.
Proof. solve_decision. Defined.

(* [contracts/src/provider_controller.rs] NetworkProviderLifecycleState *)
Inductive NetworkProviderLifecycleState :=
  | NlInactive | NlProbing | NlReady | NlActivating | NlActive | NlPaused | NlDegraded
  | NlStopping | NlStopped | NlRevoked | NlFailed.
#[export] Instance NetworkProviderLifecycleState_eq_dec : EqDecision NetworkProviderLifecycleState.
Proof. solve_decision. Defined.

(* [contracts/src/provider_controller.rs] NetworkVisibilityDimension *)
Inductive NetworkVisibilityDimension :=
  | NvPortableMetadataVisibility | NvConnectionTableVisibility
  | NvShortLivedNetworkEventVisibility | NvProcessCategoryVisibility
  | NvProcessNetworkCategoryVisibility | NvPacketHeaderVisibility | NvPacketPayloadVisibility
  | NvSpecificProcessIdentityVisibility | NvSpecificDestinationIdentityVisibility.
#[export] Instance NetworkVisibilityDimension_eq_dec : EqDecision NetworkVisibilityDimension.
Proof. solve_decision. Defined.

(* [contracts/src/provider_controller.rs] NetworkVisibilityState *)
Inductive NetworkVisibilityState :=
  | NwAvailable | NwUnavailable | NwDegraded.
#[export] Instance NetworkVisibilityState_eq_dec : EqDecision NetworkVisibilityState.
Proof. solve_decision. Defined.

(* [contracts/src/provider_controller.rs] NetworkProviderZeroCounters *)
Record NetworkProviderZeroCounters := mkCounters {
  npz_ip_helper_calls : N;
  npz_etw_calls : N;
  npz_dns_sensing_calls : N;
  npz_dns_observation_publications : N;
  npz_dns_detector_invocations : N;
  npz_dns_detector_consumed : N;
  npz_auth_remote_sensing_calls : N;
  npz_auth_remote_publications : N;
  npz_auth_remote_auth_detector_invocations : N;
  npz_auth_remote_auth_consumed : N;
  npz_auth_remote_remote_admin_invocations : N;
  npz_auth_remote_remote_admin_consumed : N;
  npz_auth_remote_lateral_invocations : N;
  npz_auth_remote_lateral_consumed : N;
  npz_auth_remote_downstream_facts : N;
  npz_rdp_operational_sensing_calls : N;
  npz_rdp_operational_publications : N;
  npz_rdp_operational_auth_detector_invocations : N;
  npz_rdp_operational_auth_consumed : N;
  npz_rdp_operational_remote_admin_invocations : N;
  npz_rdp_operational_remote_admin_consumed : N;
  npz_rdp_operational_lateral_invocations : N;
  npz_rdp_operational_lateral_consumed : N;
  npz_rdp_operational_downstream_facts : N;
  npz_smb_operational_sensing_calls : N;
  npz_smb_operational_publications : N;
  npz_smb_operational_auth_detector_invocations : N;
  npz_smb_operational_auth_consumed : N;
  npz_smb_operational_remote_admin_invocations : N;
  npz_smb_operational_remote_admin_consumed : N;
  npz_smb_operational_lateral_invocations : N;
  npz_smb_operational_lateral_consumed : N;
  npz_smb_operational_downstream_facts : N;
  npz_ssh_operational_sensing_calls : N;
  npz_ssh_operational_publications : N;
  npz_ssh_operational_auth_detector_invocations : N;
  npz_ssh_operational_auth_consumed : N;
  npz_ssh_operational_remote_admin_invocations : N;
  npz_ssh_operational_remote_admin_consumed : N;
  npz_ssh_operational_lateral_invocations : N;
  npz_ssh_operational_lateral_consumed : N;
  npz_ssh_operational_downstream_facts : N;
  npz_npcap_probes : N;
  npz_capture_broker_launches : N;
  npz_native_network_topic_publications : N;
  npz_process_network_facts : N;
  npz_packet_facts : N
}.
#[export] Instance NetworkProviderZeroCounters_eq_dec : EqDecision NetworkProviderZeroCounters.
Proof. solve_decision. Defined.

(* [contracts/src/provider_controller.rs] NetworkProviderStatus *)
Record NetworkProviderStatus := mkProvider {
  nps_provider_id : string;
  nps_provider_kind : NetworkProviderKind;
  nps_adapter_boundary : string;
  nps_implementation_state : NetworkProviderImplementationState;
  nps_lifecycle_state : NetworkProviderLifecycleState;
  nps_activation_allowed : bool;
  nps_activation_unavailable_reason : option string;
  nps_degraded_reason : option string;
  nps_dependency_refs : list string;
  nps_policy_refs : list string;
  nps_provenance_refs : list string;
  nps_bounded_counters : NetworkProviderZeroCounters;
  nps_redaction_status : RedactionStatus
}.

(* [contracts/src/provider_controller.rs] NetworkVisibilityDimensionStatus *)
Record NetworkVisibilityDimensionStatus := mkDimension {
  nvd_dimension : NetworkVisibilityDimension;
  nvd_visibility_state : NetworkVisibilityState;
  nvd_degraded_reason : option string
}.

(* [contracts/src/provider_controller.rs] NetworkVisibilitySummary *)
Record NetworkVisibilitySummary := mkVisibility {
  nvs_visibility_ref : string;
  nvs_dimensions : list NetworkVisibilityDimensionStatus;
  nvs_provenance_refs : list string;
  nvs_generated_at : Timestamp;
  nvs_redaction_status : RedactionStatus
}.

(* [contracts/src/provider_controller.rs] NetworkFallbackPlan *)
Record NetworkFallbackPlan := mkFallback {
  nfp_fallback_plan_ref : string;
  nfp_selected_mode : NetworkProviderControllerMode;
  nfp_selection_order : list NetworkProviderKind;
  nfp_fallback_rules : list string;
  nfp_degraded_reason : option string;
  nfp_policy_refs : list string;
  nfp_redaction_status : RedactionStatus
}.

(* [contracts/src/provider_controller.rs] NetworkProviderPolicySummary *)
Record NetworkProviderPolicySummary := mkPolicySummary {
  npp_policy_ref : string;
  npp_provider_activation_allowed : bool;
  npp_activation_unavailable_reason : string;
  npp_ip_helper_execution_available_over_production_ipc : bool;
  npp_production_ipc_execution_unavailable_reason : string;
  npp_required_gates : list string;
  npp_provider_readiness_creates_evidence : bool;
  npp_provider_availability_creates_findings : bool;
  npp_production_provider_mutations_enabled : bool;
  npp_redaction_status : RedactionStatus
}.

(* [contracts/src/provider_controller.rs] NetworkProviderDependencySummary *)
Record NetworkProviderDependencySummary := mkDependencySummary {
  npd_dependency_ref : string;
  npd_dependency_refs : list string;
  npd_degraded_reason : option string;
  npd_redaction_status : RedactionStatus
}.

(* [contracts/src/provider_controller.rs] NetworkProviderLifecycleSummary *)
Record NetworkProviderLifecycleSummary := mkLifecycleSummary {
  npl_lifecycle_ref : string;
  npl_controller_state : NetworkProviderControllerState;
  npl_selected_mode : NetworkProviderControllerMode;
  npl_active_provider_count : N;
  npl_inactive_provider_count : N;
  npl_degraded_provider_count : N;
  npl_redaction_status : RedactionStatus
}.

(* [contracts/src/provider_controller.rs] NetworkProviderAuditSummary *)
Record NetworkProviderAuditSummary := mkAuditSummary {
  npa_audit_ref : string;
  npa_declared_status_topics : list string;
  npa_audit_refs : list string;
  npa_status_publication_count : N;
  npa_provider_execution_event_count : N;
  npa_redaction_status : RedactionStatus
}.

(* [contracts/src/provider_controller.rs] NetworkProviderControllerStatus *)
Record NetworkProviderControllerStatus := mkControllerStatus {
  npc_controller_ref : string;
  npc_ownership_ref : string;
  npc_ownership_epoch : N;
  npc_runtime_owner : RuntimeOwnerCategory;
  npc_schema_version : SchemaVersion;
  npc_controller_state : NetworkProviderControllerState;
  npc_selected_mode : NetworkProviderControllerMode;
  npc_providers : list NetworkProviderStatus;
  npc_visibility_summary : NetworkVisibilitySummary;
  npc_fallback_plan : NetworkFallbackPlan;
  npc_dependency_summary : NetworkProviderDependencySummary;
  npc_policy_summary : NetworkProviderPolicySummary;
  npc_lifecycle_summary : NetworkProviderLifecycleSummary;
  npc_audit_summary : NetworkProviderAuditSummary;
  npc_ip_helper_schedule : IpHelperScheduleStatus;
  npc_etw_lifecycle : EtwLifecycleStatus;
  npc_provider_zero : NetworkProviderZeroCounters;
  npc_generated_at : Timestamp;
  npc_redaction_status : RedactionStatus
}.

(* [contracts/src/provider_controller.rs] ProviderControllerContractError *)
Inductive ProviderControllerContractError :=
  | NpeEmptyField (field : string) | NpeTooLong (field : string)
  | NpeUnsafeField (field : string) | NpeTooManyItems (field : string)
  | NpeOwnershipEpochRequired | NpeUnsupportedRuntimeOwner | NpeUnsupportedSchemaVersion
  | NpeDuplicateProvider | NpeInvalidSelectionPolicy | NpeActivationMustRemainBlocked
  | NpeProviderExecutionNotAllowed | NpeInvalidScheduleState | NpeInvalidEtwLifecycleState
  | NpeRedactionRequired.

(* [contracts/src/provider_controller.rs] Display for ProviderControllerContractError::fmt *)
Definition provider_error_to_string (e : ProviderControllerContractError) : string :=
  match e with
  | NpeEmptyField field => field ++ " must not be empty"
  | NpeTooLong field => field ++ " exceeds bounded provider text length"
  | NpeUnsafeField field => field ++ " contains unsafe provider metadata"
  | NpeTooManyItems field => field ++ " contains too many provider items"
  | NpeOwnershipEpochRequired => "provider ownership epoch is required"
  | NpeUnsupportedRuntimeOwner => "provider controller must be ServiceHost-owned"
  | NpeUnsupportedSchemaVersion => "provider controller schema is unsupported"
  | NpeDuplicateProvider => "provider controller contains duplicate providers"
  | NpeInvalidSelectionPolicy => "provider selection policy is unsupported"
  | NpeActivationMustRemainBlocked => "provider activation must remain blocked"
  | NpeProviderExecutionNotAllowed => "provider execution is not allowed in this slice"
  | NpeInvalidScheduleState => "IP Helper schedule state is invalid"
  | NpeInvalidEtwLifecycleState => "ETW lifecycle state is invalid"
  | NpeRedactionRequired => "provider controller metadata must be redacted"
  end%string.

(* [contracts/src/provider_controller.rs:1171-1196] validate_safe_text *)
Definition provider_markers : list string :=
  ["pid"; "ppid"; "process_id"; "process_name"; "raw_process"; "path:"; "c:\"; "\users\";
   "/users/"; "/home/"; "interface_name"; "device_identifier"; "packet_data"; "packet_bytes";
   "provider_handle"; "npcap_handle"; "etw_raw_event"; "credential"; "secret"; "token";
   "password"; "api_key"; "http://"; "https://"].

(* [contracts/src/provider_controller.rs] NetworkProviderZeroCounters::all_zero *)
Definition counters_all_zero (self : NetworkProviderZeroCounters) : bool :=
  (npz_ip_helper_calls self =? 0) && (npz_etw_calls self =? 0) &&
  (npz_dns_sensing_calls self =? 0) && (npz_dns_observation_publications self =? 0) &&
  (npz_dns_detector_invocations self =? 0) && (npz_dns_detector_consumed self =? 0) &&
  (npz_auth_remote_sensing_calls self =? 0) && (npz_auth_remote_publications self =? 0) &&
  (npz_auth_remote_auth_detector_invocations self =? 0) &&
  (npz_auth_remote_auth_consumed self =? 0) &&
  (npz_auth_remote_remote_admin_invocations self =? 0) &&
  (npz_auth_remote_remote_admin_consumed self =? 0) &&
  (npz_auth_remote_lateral_invocations self =? 0) &&
  (npz_auth_remote_lateral_consumed self =? 0) && (npz_auth_remote_downstream_facts self =? 0) &&
  (npz_rdp_operational_sensing_calls self =? 0) &&
  (npz_rdp_operational_publications self =? 0) &&
  (npz_rdp_operational_auth_detector_invocations self =? 0) &&
  (npz_rdp_operational_auth_consumed self =? 0) &&
  (npz_rdp_operational_remote_admin_invocations self =? 0) &&
  (npz_rdp_operational_remote_admin_consumed self =? 0) &&
  (npz_rdp_operational_lateral_invocations self =? 0) &&
  (npz_rdp_operational_lateral_consumed self =? 0) &&
  (npz_rdp_operational_downstream_facts self =? 0) &&
  (npz_smb_operational_sensing_calls self =? 0) &&
  (npz_smb_operational_publications self =? 0) &&
  (npz_smb_operational_auth_detector_invocations self =? 0) &&
  (npz_smb_operational_auth_consumed self =? 0) &&
  (npz_smb_operational_remote_admin_invocations self =? 0) &&
  (npz_smb_operational_remote_admin_consumed self =? 0) &&
  (npz_smb_operational_lateral_invocations self =? 0) &&
  (npz_smb_operational_lateral_consumed self =? 0) &&
  (npz_smb_operational_downstream_facts self =? 0) &&
  (npz_ssh_operational_sensing_calls self =? 0) &&
  (npz_ssh_operational_publications self =? 0) &&
  (npz_ssh_operational_auth_detector_invocations self =? 0) &&
  (npz_ssh_operational_auth_consumed self =? 0) &&
  (npz_ssh_operational_remote_admin_invocations self =? 0) &&
  (npz_ssh_operational_remote_admin_consumed self =? 0) &&
  (npz_ssh_operational_lateral_invocations self =? 0) &&
  (npz_ssh_operational_lateral_consumed self =? 0) &&
  (npz_ssh_operational_downstream_facts self =? 0) && (npz_npcap_probes self =? 0) &&
  (npz_capture_broker_launches self =? 0) && (npz_native_network_topic_publications self =? 0) &&
  (npz_process_network_facts self =? 0) && (npz_packet_facts self =? 0).
(* [contracts/src/provider_controller.rs] NetworkProviderZeroCounters::ip_helper_handoff_only *)
Definition ip_helper_handoff_only (self : NetworkProviderZeroCounters) : bool :=
  (0 <? npz_ip_helper_calls self) &&
  (npz_etw_calls self =? 0) &&
  (npz_npcap_probes self =? 0) &&
  (npz_capture_broker_launches self =? 0) &&
  (0 <? npz_native_network_topic_publications self) &&
  (npz_process_network_facts self =? 0) &&
  (npz_packet_facts self =? 0).
(* [contracts/src/provider_controller.rs] NetworkProviderZeroCounters::etw_lifecycle_only *)
Definition etw_lifecycle_only (self : NetworkProviderZeroCounters) : bool :=
  (0 <? npz_etw_calls self) &&
  (npz_npcap_probes self =? 0) &&
  (npz_capture_broker_launches self =? 0) &&
  (npz_process_network_facts self =? 0) &&
  (npz_packet_facts self =? 0) &&
  (((npz_ip_helper_calls self =? 0) && (npz_native_network_topic_publications self =? 0)) ||
   ((0 <? npz_ip_helper_calls self) && (0 <? npz_native_network_topic_publications self))).
(* [contracts/src/provider_controller.rs] NetworkProviderZeroCounters::etw_handoff_only *)
Definition etw_handoff_only (self : NetworkProviderZeroCounters) : bool :=
  (0 <? npz_etw_calls self) &&
  (npz_npcap_probes self =? 0) &&
  (npz_capture_broker_launches self =? 0) &&
  (0 <? npz_native_network_topic_publications self) &&
  (npz_process_network_facts self =? 0) &&
  (npz_packet_facts self =? 0).
(* [contracts/src/provider_controller.rs] NetworkProviderZeroCounters::dns_sensing_only *)
Definition dns_sensing_only (self : NetworkProviderZeroCounters) : bool :=
  (0 <? npz_dns_sensing_calls self) &&
  (npz_npcap_probes self =? 0) &&
  (npz_capture_broker_launches self =? 0) &&
  (npz_native_network_topic_publications self =? 0) &&
  (npz_process_network_facts self =? 0) &&
  (npz_packet_facts self =? 0).
(* [contracts/src/provider_controller.rs] NetworkProviderZeroCounters::auth_remote_sensing_only *)
Definition auth_remote_sensing_only (self : NetworkProviderZeroCounters) : bool :=
  (0 <? npz_auth_remote_sensing_calls self) &&
  (npz_npcap_probes self =? 0) &&
  (npz_capture_broker_launches self =? 0) &&
  (npz_native_network_topic_publications self =? 0) &&
  (npz_process_network_facts self =? 0) &&
  (npz_packet_facts self =? 0).
(* [contracts/src/provider_controller.rs] NetworkProviderZeroCounters::rdp_operational_sensing_only *)
Definition rdp_operational_sensing_only (self : NetworkProviderZeroCounters) : bool :=
  (0 <? npz_rdp_operational_sensing_calls self) &&
  (npz_npcap_probes self =? 0) &&
  (npz_capture_broker_launches self =? 0) &&
  (npz_native_network_topic_publications self =? 0) &&
  (npz_process_network_facts self =? 0) &&
  (npz_packet_facts self =? 0).
(* [contracts/src/provider_controller.rs] NetworkProviderZeroCounters::smb_operational_sensing_only *)
Definition smb_operational_sensing_only (self : NetworkProviderZeroCounters) : bool :=
  (0 <? npz_smb_operational_sensing_calls self) &&
  (npz_npcap_probes self =? 0) &&
  (npz_capture_broker_launches self =? 0) &&
  (npz_native_network_topic_publications self =? 0) &&
  (npz_process_network_facts self =? 0) &&
  (npz_packet_facts self =? 0).
(* [contracts/src/provider_controller.rs] NetworkProviderZeroCounters::ssh_operational_sensing_only *)
Definition ssh_operational_sensing_only (self : NetworkProviderZeroCounters) : bool :=
  (0 <? npz_ssh_operational_sensing_calls self) &&
  (npz_npcap_probes self =? 0) &&
  (npz_capture_broker_launches self =? 0) &&
  (npz_native_network_topic_publications self =? 0) &&
  (npz_process_network_facts self =? 0) &&
  (npz_packet_facts self =? 0).

(* ------------------------------------------------------------------ *)
(** ** Validation *)

(* [contracts/src/provider_controller.rs] validate_safe_text *)
Definition provider_safe_text (field value : string)
    : result unit ProviderControllerContractError :=
  check_trimmed (NpeEmptyField field) (λ _, NpeTooLong field) (NpeUnsafeField field)
    MAX_NETWORK_PROVIDER_TEXT_LEN provider_markers value.
(* [contracts/src/provider_controller.rs] validate_optional_safe_text *)
Definition provider_optional_safe_text (field : string) (value : option string)
    : result unit ProviderControllerContractError :=
  if_some (provider_safe_text field) value.
(* [contracts/src/provider_controller.rs] validate_string_list *)
Definition provider_string_list (field : string) (values : list string)
    : result unit ProviderControllerContractError :=
  let? _ := refuse_if (MAX_NETWORK_PROVIDER_REFS <? len values) (NpeTooManyItems field) in
  for_each (provider_safe_text field) values.

(** [if self.redaction_status == RedactionRequired { return Err(RedactionRequired) }] *)
Definition redacted (status : RedactionStatus) : result unit ProviderControllerContractError :=
  refuse_if (bool_decide (status = RsRedactionRequired)) NpeRedactionRequired.

(** The kinds a service can activate. *)
(* [contracts/src/provider_controller.rs:352-361] NetworkProviderStatus::initial *)
Definition activatable (kind : NetworkProviderKind) : bool :=
  match kind with
  | NkIpHelper | NkEtwNetwork | NkWindowsDns | NkWindowsAuthRemote | NkWindowsRdpOperational
  | NkWindowsSmbOperational | NkWindowsSshOperational => true
  | _ => false
  end.

(* [contracts/src/provider_controller.rs] adapter_boundary_for *)
Definition adapter_boundary_for (provider_kind : NetworkProviderKind) : string :=
  match provider_kind with
  | NkPortableMetadata => "portable_default_metadata"
  | NkIpHelper | NkEtwNetwork | NkWindowsDns | NkWindowsAuthRemote | NkWindowsRdpOperational
  | NkWindowsSmbOperational | NkWindowsSshOperational => "infrastructure"
  | NkNpcapPacket | NkCaptureBroker => "deferred_infrastructure"
  | NkNone => "none"
  end.

(** [NetworkProviderZeroCounters::default()] *)
(* [contracts/src/provider_controller.rs] NetworkProviderZeroCounters *)
Definition counters_default : NetworkProviderZeroCounters :=
  mkCounters 0 0 0 0 0 0 0 0 0 0 0 0 0 0 0 0 0 0 0 0 0 0 0 0 0 0 0 0 0 0 0 0 0 0 0 0 0 0 0 0 0 0
    0 0 0 0 0.

(* [contracts/src/provider_controller.rs] NetworkProviderStatus::initial *)
Definition provider_initial (provider_kind : NetworkProviderKind)
    (implementation_state : NetworkProviderImplementationState) : NetworkProviderStatus :=
  let activation_allowed := activatable provider_kind in
  {| nps_provider_id := "network_provider_" ++ kind_as_str provider_kind;
     nps_provider_kind := provider_kind;
     nps_adapter_boundary := adapter_boundary_for provider_kind;
     nps_implementation_state := implementation_state;
     nps_lifecycle_state := NlInactive;
     nps_activation_allowed := activation_allowed;
     nps_activation_unavailable_reason :=
       if activation_allowed then None else Some "provider_execution_deferred"%string;
     nps_degraded_reason := None;
     nps_dependency_refs := ["dependency_ref_" ++ kind_as_str provider_kind];
     nps_policy_refs := ["policy_ref_" ++ kind_as_str provider_kind];
     nps_provenance_refs := ["provider_controller_foundation"];
     nps_bounded_counters := counters_default;
     nps_redaction_status := RsRedacted |}%string.

(* [contracts/src/provider_controller.rs] NetworkProviderStatus::validate *)
Definition provider_validate (self : NetworkProviderStatus)
    : result unit ProviderControllerContractError :=
  let? _ := provider_safe_text "provider_id" (nps_provider_id self) in
  let? _ := provider_safe_text "adapter_boundary" (nps_adapter_boundary self) in
  let? _ := provider_optional_safe_text "activation_unavailable_reason"
    (nps_activation_unavailable_reason self) in
  let? _ := provider_optional_safe_text "degraded_reason" (nps_degraded_reason self) in
  let? _ := provider_string_list "dependency_refs" (nps_dependency_refs self) in
  let? _ := provider_string_list "policy_refs" (nps_policy_refs self) in
  let? _ := provider_string_list "provenance_refs" (nps_provenance_refs self) in
  let? _ := refuse_if (nps_activation_allowed self && negb (activatable (nps_provider_kind self)))
    NpeActivationMustRemainBlocked in
  redacted (nps_redaction_status self).

(* [contracts/src/provider_controller.rs] NetworkVisibilityDimensionStatus::validate *)
Definition dimension_validate (self : NetworkVisibilityDimensionStatus)
    : result unit ProviderControllerContractError :=
  provider_optional_safe_text "visibility degraded_reason" (nvd_degraded_reason self).

(* [contracts/src/provider_controller.rs] NetworkVisibilitySummary::validate *)
Definition visibility_validate (self : NetworkVisibilitySummary)
    : result unit ProviderControllerContractError :=
  let? _ := provider_safe_text "visibility_ref" (nvs_visibility_ref self) in
  let? _ := provider_string_list "visibility provenance_refs" (nvs_provenance_refs self) in
  let? _ := refuse_if (MAX_NETWORK_PROVIDER_RECORDS + 1 <? len (nvs_dimensions self))
    (NpeTooManyItems "dimensions") in
  let? _ := each_distinct nvd_dimension NpeDuplicateProvider dimension_validate []
    (nvs_dimensions self) in
  redacted (nvs_redaction_status self).

(* [contracts/src/provider_controller.rs] NetworkFallbackPlan::validate *)
Definition fallback_validate (self : NetworkFallbackPlan)
    : result unit ProviderControllerContractError :=
  let? _ := provider_safe_text "fallback_plan_ref" (nfp_fallback_plan_ref self) in
  let? _ := provider_string_list "fallback_rules" (nfp_fallback_rules self) in
  let? _ := provider_optional_safe_text "fallback degraded_reason" (nfp_degraded_reason self) in
  let? _ := provider_string_list "fallback policy_refs" (nfp_policy_refs self) in
  let? _ := refuse_if
    (bool_decide (nfp_selection_order self = []) ||
     (MAX_NETWORK_PROVIDER_RECORDS <? len (nfp_selection_order self)) ||
     negb (bool_decide (NkPortableMetadata ∈ nfp_selection_order self)))
    NpeInvalidSelectionPolicy in
  redacted (nfp_redaction_status self).

(* [contracts/src/provider_controller.rs] NetworkProviderPolicySummary::validate *)
Definition policy_summary_validate (self : NetworkProviderPolicySummary)
    : result unit ProviderControllerContractError :=
  let? _ := provider_safe_text "policy_ref" (npp_policy_ref self) in
  let? _ := provider_safe_text "activation_unavailable_reason"
    (npp_activation_unavailable_reason self) in
  let? _ := provider_safe_text "production_ipc_execution_unavailable_reason"
    (npp_production_ipc_execution_unavailable_reason self) in
  let? _ := provider_string_list "required_gates" (npp_required_gates self) in
  let? _ := refuse_if
    (npp_provider_readiness_creates_evidence self ||
     npp_provider_availability_creates_findings self)
    NpeActivationMustRemainBlocked in
  redacted (npp_redaction_status self).

(* [contracts/src/provider_controller.rs] NetworkProviderDependencySummary::validate *)
Definition dependency_summary_validate (self : NetworkProviderDependencySummary)
    : result unit ProviderControllerContractError :=
  let? _ := provider_safe_text "dependency_ref" (npd_dependency_ref self) in
  let? _ := provider_string_list "dependency_refs" (npd_dependency_refs self) in
  let? _ := provider_optional_safe_text "dependency degraded_reason" (npd_degraded_reason self) in
  redacted (npd_redaction_status self).

(* [contracts/src/provider_controller.rs] NetworkProviderLifecycleSummary::validate *)
Definition lifecycle_summary_validate (self : NetworkProviderLifecycleSummary)
    : result unit ProviderControllerContractError :=
  let? _ := provider_safe_text "lifecycle_ref" (npl_lifecycle_ref self) in
  redacted (npl_redaction_status self).

(* [contracts/src/provider_controller.rs] NetworkProviderAuditSummary::validate *)
Definition audit_summary_validate (self : NetworkProviderAuditSummary)
    : result unit ProviderControllerContractError :=
  let? _ := provider_safe_text "audit_ref" (npa_audit_ref self) in
  let? _ := provider_string_list "declared_status_topics" (npa_declared_status_topics self) in
  let? _ := provider_string_list "audit_refs" (npa_audit_refs self) in
  redacted (npa_redaction_status self).

(** [providers.iter().find(|provider| provider.provider_kind == kind)] *)
(* [contracts/src/provider_controller.rs] NetworkProviderControllerStatus::provider *)
Definition find_provider (providers : list NetworkProviderStatus) (kind : NetworkProviderKind)
    : option NetworkProviderStatus :=
  snd <$> list_find (λ provider, nps_provider_kind provider = kind) providers.

(* [contracts/src/provider_controller.rs] validate_network_provider_selection *)
Definition validate_network_provider_selection
    (selected_mode : NetworkProviderControllerMode) (providers : list NetworkProviderStatus)
    : result unit ProviderControllerContractError :=
  let state_for kind := nps_implementation_state <$> find_provider providers kind in
  let? _ := refuse_if (negb (bool_decide (state_for NkPortableMetadata = Some NiAvailable)))
    NpeInvalidSelectionPolicy in
  let native_supported kind :=
    match state_for kind with
    | Some (NiImplementedInactive | NiAvailable | NiPermissionRequired
           | NiAuthorizationRequired | NiDegraded) => true
    | _ => false
    end in
  match selected_mode with
  | NmPortableOnly | NmDegraded | NmUnavailable => Ok tt
  | NmIpHelperOnly => refuse_if (negb (native_supported NkIpHelper)) NpeInvalidSelectionPolicy
  | NmEtwPlusIpHelper =>
      refuse_if (negb (native_supported NkIpHelper && native_supported NkEtwNetwork))
        NpeInvalidSelectionPolicy
  | NmPacketEnhanced =>
      refuse_if (negb (native_supported NkNpcapPacket && native_supported NkCaptureBroker))
        NpeInvalidSelectionPolicy
  end.

(* [contracts/src/provider_controller.rs] NetworkProviderControllerStatus::provider *)
Definition status_provider (self : NetworkProviderControllerStatus) (kind : NetworkProviderKind)
    : option NetworkProviderStatus :=
  find_provider (npc_providers self) kind.

(** The modes in which a native provider may have run. *)
Definition native_mode (mode : NetworkProviderControllerMode) : bool :=
  match mode with
  | NmEtwPlusIpHelper | NmIpHelperOnly | NmDegraded | NmPortableOnly => true
  | _ => false
  end.
(** [Active], [Paused], [Degraded] or [Stopped]. *)
Definition sensing_state (state : NetworkProviderControllerState) : bool :=
  match state with NcActive | NcPaused | NcDegraded | NcStopped => true | _ => false end.

(** The combinations of controller state, selected mode and call counters that are
    consistent; the ten disjuncts in the order of the code. *)
(* [contracts/src/provider_controller.rs:852-985] NetworkProviderControllerStatus::validate *)
Definition execution_allowed (self : NetworkProviderControllerStatus) : bool :=
  let state := npc_controller_state self in
  let mode := npc_selected_mode self in
  let zero := npc_provider_zero self in
  let inactive_zero := bool_decide (state = NcInactive) &&
    bool_decide (mode = NmPortableOnly) && counters_all_zero zero in
  let lifecycle_control_zero :=
    match state with NcReady | NcActive | NcStopped => true | _ => false end &&
    bool_decide (mode = NmPortableOnly) && counters_all_zero zero in
  let explicit_ip_helper_handoff :=
    match state with NcReady | NcActive | NcDegraded | NcStopped => true | _ => false end &&
    match mode with NmIpHelperOnly | NmDegraded | NmPortableOnly => true | _ => false end &&
    ip_helper_handoff_only zero && (npz_etw_calls zero =? 0) && (npz_npcap_probes zero =? 0) &&
    (npz_capture_broker_launches zero =? 0) && (npz_process_network_facts zero =? 0) &&
    (npz_packet_facts zero =? 0) in
  let explicit_etw_lifecycle := sensing_state state && native_mode mode &&
    etw_lifecycle_only zero in
  let explicit_etw_handoff :=
    match state with NcActive | NcDegraded | NcStopped => true | _ => false end &&
    native_mode mode && etw_handoff_only zero in
  let explicit_sensing only := sensing_state state && native_mode mode && only zero in
  inactive_zero || lifecycle_control_zero || explicit_ip_helper_handoff ||
  explicit_etw_lifecycle || explicit_etw_handoff || explicit_sensing dns_sensing_only ||
  explicit_sensing auth_remote_sensing_only || explicit_sensing rdp_operational_sensing_only ||
  explicit_sensing smb_operational_sensing_only ||
  explicit_sensing ssh_operational_sensing_only.

(* [contracts/src/provider_controller.rs] NetworkProviderControllerStatus::validate *)
Definition controller_validate (self : NetworkProviderControllerStatus)
    : result unit ProviderControllerContractError :=
  let? _ := provider_safe_text "controller_ref" (npc_controller_ref self) in
  let? _ := provider_safe_text "ownership_ref" (npc_ownership_ref self) in
  let? _ := refuse_if (npc_ownership_epoch self =? 0) NpeOwnershipEpochRequired in
  let? _ := refuse_if (negb (bool_decide (npc_runtime_owner self = RocServiceHost)))
    NpeUnsupportedRuntimeOwner in
  let? _ := refuse_if
    (negb (bool_decide (npc_schema_version self = NETWORK_PROVIDER_CONTROLLER_SCHEMA_VERSION)))
    NpeUnsupportedSchemaVersion in
  let? _ := refuse_if (MAX_NETWORK_PROVIDER_RECORDS <? len (npc_providers self))
    (NpeTooManyItems "providers") in
  let? _ := each_distinct nps_provider_kind NpeDuplicateProvider provider_validate []
    (npc_providers self) in
  let? _ := validate_network_provider_selection (npc_selected_mode self) (npc_providers self) in
  let? _ := visibility_validate (npc_visibility_summary self) in
  let? _ := fallback_validate (npc_fallback_plan self) in
  let? _ := dependency_summary_validate (npc_dependency_summary self) in
  let? _ := policy_summary_validate (npc_policy_summary self) in
  let? _ := lifecycle_summary_validate (npc_lifecycle_summary self) in
  let? _ := audit_summary_validate (npc_audit_summary self) in
  let? _ := map_err (λ _, NpeInvalidScheduleState)
    (schedule_status_validate (npc_ip_helper_schedule self)) in
  let? _ := refuse_if
    (negb (ihs_ownership_epoch (npc_ip_helper_schedule self) =? npc_ownership_epoch self))
    NpeInvalidScheduleState in
  let? _ := map_err (λ _, NpeInvalidEtwLifecycleState) (etw_validate (npc_etw_lifecycle self)) in
  let? _ := refuse_if
    (negb (bool_decide (etw_ownership_ref (npc_etw_lifecycle self) = npc_ownership_ref self)) ||
     negb (etw_ownership_epoch (npc_etw_lifecycle self) =? npc_ownership_epoch self))
    NpeInvalidEtwLifecycleState in
  let? _ := refuse_if (negb (execution_allowed self)) NpeProviderExecutionNotAllowed in
  redacted (npc_redaction_status self).

(* ------------------------------------------------------------------ *)
(** ** The initial status *)

(* [contracts/src/provider_controller.rs] unavailable_dimension *)
Definition unavailable_dimension (dimension : NetworkVisibilityDimension)
    : NetworkVisibilityDimensionStatus :=
  mkDimension dimension NwUnavailable (Some "provider_execution_deferred").

(** The topics a service declares for its providers. *)
(* [contracts/src/provider_controller.rs:14-17] NETWORK_PROVIDER_CONTROLLER_STATUS_TOPIC *)
Definition declared_topics : list string :=
  ["network.provider_controller.status"; "network.provider.status";
   "network.visibility.status"; "audit.network_provider_controller";
   "audit.network_provider_execution"].

(* [contracts/src/provider_controller.rs:632-677] NetworkProviderControllerStatus::inactive_servicehost *)
Definition initial_providers : list NetworkProviderStatus :=
  [provider_initial NkPortableMetadata NiAvailable;
   provider_initial NkIpHelper NiImplementedInactive;
   provider_initial NkEtwNetwork NiImplementedInactive;
   provider_initial NkWindowsDns NiImplementedInactive;
   provider_initial NkWindowsAuthRemote NiImplementedInactive;
   provider_initial NkWindowsRdpOperational NiImplementedInactive;
   provider_initial NkWindowsSmbOperational NiImplementedInactive;
   provider_initial NkWindowsSshOperational NiImplementedInactive;
   provider_initial NkNpcapPacket NiNotImplemented;
   provider_initial NkCaptureBroker NiNotImplemented;
   provider_initial NkNone NiUnavailable].

(* [contracts/src/provider_controller.rs] NetworkProviderControllerStatus::inactive_servicehost *)
Definition inactive_servicehost (ownership_ref : string) (ownership_epoch : N)
    : ST (result NetworkProviderControllerStatus ProviderControllerContractError) :=
  let$ visible_at := now in
  let$ schedule := schedule_not_configured ownership_epoch in
  let$ etw := etw_inactive ownership_ref ownership_epoch EfIpHelperAvailable in
  let$ generated_at := now in
  let status :=
    {| npc_controller_ref := "provider_controller_ref";
       npc_ownership_ref := ownership_ref;
       npc_ownership_epoch := ownership_epoch;
       npc_runtime_owner := RocServiceHost;
       npc_schema_version := NETWORK_PROVIDER_CONTROLLER_SCHEMA_VERSION;
       npc_controller_state := NcInactive;
       npc_selected_mode := NmPortableOnly;
       npc_providers := initial_providers;
       npc_visibility_summary :=
         mkVisibility "network_visibility_ref"
           (mkDimension NvPortableMetadataVisibility NwAvailable None ::
              (unavailable_dimension <$>
                 [NvConnectionTableVisibility; NvShortLivedNetworkEventVisibility;
                  NvProcessCategoryVisibility; NvProcessNetworkCategoryVisibility;
                  NvPacketHeaderVisibility; NvPacketPayloadVisibility;
                  NvSpecificProcessIdentityVisibility;
                  NvSpecificDestinationIdentityVisibility]))
           ["provider_controller_foundation"] visible_at RsRedacted;
       npc_fallback_plan :=
         mkFallback "network_fallback_plan_ref" NmPortableOnly
           [NkPortableMetadata; NkIpHelper; NkEtwNetwork; NkWindowsDns; NkWindowsAuthRemote;
            NkWindowsRdpOperational; NkWindowsSmbOperational; NkWindowsSshOperational;
            NkNpcapPacket; NkCaptureBroker]
           ["portable_paths_always_available"; "ip_helper_requires_explicit_activation";
            "etw_failure_falls_back_to_ip_helper"; "npcap_failure_falls_back_to_etw_or_ip_helper";
            "packet_enhancement_never_replaces_metadata_fallback"]
           (Some "native_network_providers_inactive") ["network_provider_selection_policy_ref"]
           RsRedacted;
       npc_dependency_summary :=
         mkDependencySummary "network_provider_dependency_ref"
           ["servicehost_runtime_ownership_gate"; "owner_epoch_gate"; "declared_topic_gate";
            "no_raw_retention_gate"]
           (Some "provider_execution_deferred") RsRedacted;
       npc_policy_summary :=
         {| npp_policy_ref := "network_provider_policy_ref";
            npp_provider_activation_allowed := true;
            npp_activation_unavailable_reason := "not_applicable";
            npp_ip_helper_execution_available_over_production_ipc := true;
            npp_production_ipc_execution_unavailable_reason := "not_applicable";
            npp_required_gates :=
              ["servicehost_runtime_ownership"; "current_ownership_epoch";
               "provider_implemented_state"; "provider_permission_or_authorization";
               "accepted_schema"; "declared_eventbus_topics"; "redaction_policy";
               "no_raw_retention_policy"; "not_shutting_down"; "bounded_limits";
               "production_caller_trust"];
            npp_provider_readiness_creates_evidence := false;
            npp_provider_availability_creates_findings := false;
            npp_production_provider_mutations_enabled := true;
            npp_redaction_status := RsRedacted |};
       npc_lifecycle_summary :=
         mkLifecycleSummary "network_provider_lifecycle_ref" NcInactive NmPortableOnly 0 10 0
           RsRedacted;
       npc_audit_summary :=
         mkAuditSummary "network_provider_audit_ref" declared_topics
           ["audit_network_provider_controller_ref"] 0 0 RsRedacted;
       npc_ip_helper_schedule := schedule;
       npc_etw_lifecycle := etw;
       npc_provider_zero := counters_default;
       npc_generated_at := generated_at;
       npc_redaction_status := RsRedacted |} in
  st_ret (let? _ := controller_validate status in Ok status).

(* ------------------------------------------------------------------ *)
(** ** Lemmas *)

(** The fixed part of the initial status is valid; the owner is checked by the texts of the
    controller and of the life cycle. *)
Lemma inactive_servicehost_ok ownership_ref epoch w :
  provider_safe_text "ownership_ref" ownership_ref = Ok tt →
  etw_safe_text "ownership_ref" ownership_ref = Ok tt → epoch ≠ 0 →
  ∃ status w', inactive_servicehost ownership_ref epoch w = (Ok status, w') ∧
    controller_validate status = Ok tt ∧ npc_ownership_epoch status = epoch.
Proof.
  intros Hp He Hepoch. unfold inactive_servicehost, st_bind.
  destruct (now w) as [t1 w1].
  destruct (schedule_not_configured epoch w1) as [sched w2] eqn:Hsched.
  destruct (etw_inactive ownership_ref epoch EfIpHelperAvailable w2) as [etw w3] eqn:Hetw.
  destruct (now w3) as [t2 w4]. unfold st_ret.
  pose proof (schedule_not_configured_valid epoch w1 Hepoch) as Hs.
  pose proof (etw_inactive_valid ownership_ref epoch EfIpHelperAvailable w2 He Hepoch) as Hv.
  unfold st_result in Hs, Hv. rewrite Hsched in Hs. rewrite Hetw in Hv. cbn [fst] in Hs, Hv.
  assert (ihs_ownership_epoch sched = epoch) as Hse.
  { unfold schedule_not_configured, st_bind in Hsched. destruct (now w1).
    by injection Hsched as <- <-. }
  assert (etw_ownership_ref etw = ownership_ref ∧ etw_ownership_epoch etw = epoch) as [Her Hee].
  { unfold etw_inactive, st_bind in Hetw. destruct (now w2). by injection Hetw as <- <-. }
  match goal with |- context [controller_validate ?s] => set (status := s) end.
  assert (controller_validate status = Ok tt) as Hok.
  { apply N.eqb_neq in Hepoch. unfold controller_validate. rewrite !chain_ok, !map_err_ok.
    subst status. cbn [npc_ownership_ref npc_ownership_epoch npc_ip_helper_schedule
      npc_etw_lifecycle]. rewrite Hp, Hs, Hv, Her, Hee, Hse, Hepoch, N.eqb_refl.
    rewrite (bool_decide_eq_true_2 (ownership_ref = ownership_ref)) by done.
    split_and!; by vm_compute. }
  exists status, w4. rewrite Hok. by split_and!.
Qed.

(** The counters of a captured packet are zero. *)
Definition no_capture (c : NetworkProviderZeroCounters) : Prop :=
  npz_npcap_probes c = 0 ∧ npz_capture_broker_launches c = 0 ∧
  npz_process_network_facts c = 0 ∧ npz_packet_facts c = 0.

Ltac counters_tac := intros; bool_prop; unfold no_capture; auto.

Lemma all_zero_no_capture c : counters_all_zero c = true → no_capture c.
Proof. unfold counters_all_zero. counters_tac. Qed.
Lemma handoff_no_capture c : ip_helper_handoff_only c = true → no_capture c.
Proof. unfold ip_helper_handoff_only. counters_tac. Qed.
Lemma etw_lifecycle_no_capture c : etw_lifecycle_only c = true → no_capture c.
Proof. unfold etw_lifecycle_only. counters_tac. Qed.
Lemma etw_handoff_no_capture c : etw_handoff_only c = true → no_capture c.
Proof. unfold etw_handoff_only. counters_tac. Qed.
Lemma dns_no_capture c : dns_sensing_only c = true → no_capture c.
Proof. unfold dns_sensing_only. counters_tac. Qed.
Lemma auth_remote_no_capture c : auth_remote_sensing_only c = true → no_capture c.
Proof. unfold auth_remote_sensing_only. counters_tac. Qed.
Lemma rdp_no_capture c : rdp_operational_sensing_only c = true → no_capture c.
Proof. unfold rdp_operational_sensing_only. counters_tac. Qed.
Lemma smb_no_capture c : smb_operational_sensing_only c = true → no_capture c.
Proof. unfold smb_operational_sensing_only. counters_tac. Qed.
Lemma ssh_no_capture c : ssh_operational_sensing_only c = true → no_capture c.
Proof. unfold ssh_operational_sensing_only. counters_tac. Qed.
Create HintDb capture discriminated.
#[export] Hint Resolve all_zero_no_capture handoff_no_capture etw_lifecycle_no_capture
  etw_handoff_no_capture dns_no_capture auth_remote_no_capture rdp_no_capture smb_no_capture
  ssh_no_capture : capture.

Lemma execution_allowed_no_capture s :
  execution_allowed s = true →
  no_capture (npc_provider_zero s) ∧
  (npc_controller_state s = NcInactive → counters_all_zero (npc_provider_zero s) = true).
Proof.
  unfold execution_allowed. intros Hex. split.
  - rewrite !orb_true_iff, !andb_true_iff in Hex. naive_solver eauto with capture.
  - intros Hs. rewrite Hs in Hex. cbn in Hex. rewrite !orb_false_r in Hex.
    by apply andb_true_iff in Hex as [_ ?].
Qed.

(** A valid status of the provider controller reports no packet capture of any kind: no
    packet probe, no launch of the capture broker, no process-network or packet fact; an
    inactive controller reports no provider call at all; each provider is reported once,
    and only the seven activatable kinds may say that activation is allowed. *)
Theorem controller_status_consistent s (Hvalid : controller_validate s = Ok tt) :
  let zero := npc_provider_zero s in
  npz_npcap_probes zero = 0 ∧ npz_capture_broker_launches zero = 0 ∧
  npz_process_network_facts zero = 0 ∧ npz_packet_facts zero = 0 ∧
  (npc_controller_state s = NcInactive → counters_all_zero zero = true) ∧
  NoDup (nps_provider_kind <$> npc_providers s) ∧
  Forall (λ p, nps_activation_allowed p = true → activatable (nps_provider_kind p) = true)
    (npc_providers s).
Proof.
  unfold controller_validate in Hvalid. autorewrite with checks in Hvalid.
  destruct Hvalid as (_ & _ & _ & _ & _ & _ & [Hnd Hall] & _ & _ & _ & _ & _ & _ & _ & _ & _ &
    _ & _ & Hex & _).
  apply execution_allowed_no_capture in Hex as [(? & ? & ? & ?) ?].
  split_and!; try done. eapply Forall_impl; [exact Hall|]. intros p Hp Ha.
  unfold provider_validate in Hp. autorewrite with checks in Hp.
  destruct Hp as (_ & _ & _ & _ & _ & _ & _ & Hp & _). rewrite Ha in Hp.
  by destruct (activatable _).
Qed.

Lemma controller_status_consistent_witness :
  ∃ s w, inactive_servicehost "owner-ref" 1 counting_world = (Ok s, w) ∧
  controller_validate s = Ok tt ∧ npz_npcap_probes (npc_provider_zero s) = 0.
Proof.
  destruct (inactive_servicehost_ok "owner-ref" 1 counting_world) as (s & w & Hs & Hv & _);
    [by vm_compute..|].
  exists s, w. split_and!; [exact Hs|exact Hv|]. apply (controller_status_consistent s Hv).
Defined.
