(* ===== verification/ReadModels.v ===== *)
(** * Read-model snapshots ([contracts/src/read_model_snapshot/mod.rs])

    The bounded, redacted projections of the runtime a service hands out, and the
    traceability of reports and exports, with their validation. Constructor prefixes: [Rf]
    freshness, [Cm] category, [Rse] error. Field prefixes: [smi_] item, [sms_] snapshot,
    [trc_] traceability. *)

From S2P Require Import Prelude Collections RustStr Effects Contracts Checks CallerVerification.
From S2P Require Import RuntimeOwnership.

#[local] Open Scope string_scope.
#[local] Open Scope list_scope.
#[local] Open Scope N_scope.

(* ------------------------------------------------------------------ *)
(** ** Data *)

(* [read_model_snapshot/mod.rs:10-10] READ_MODEL_SNAPSHOT_SCHEMA_VERSION *)
Definition READ_MODEL_SNAPSHOT_SCHEMA_VERSION : SchemaVersion := mkVersion 1 0 0.
(* [read_model_snapshot/mod.rs:11-11] MAX_READ_MODEL_SNAPSHOT_ITEMS *)
Definition MAX_READ_MODEL_SNAPSHOT_ITEMS : N := 32.
(* [read_model_snapshot/mod.rs:12-12] MAX_READ_MODEL_SNAPSHOT_TEXT_LEN *)
Definition MAX_READ_MODEL_SNAPSHOT_TEXT_LEN : N := 128.
(* [read_model_snapshot/mod.rs:13-13] MAX_READ_MODEL_SNAPSHOT_LIST_ITEMS *)
Definition MAX_READ_MODEL_SNAPSHOT_LIST_ITEMS : N := 24.
(* [read_model_snapshot/mod.rs:14-14] REPORT_EXPORT_TRACEABILITY_SCHEMA_VERSION *)
Definition REPORT_EXPORT_TRACEABILITY_SCHEMA_VERSION : SchemaVersion := mkVersion 1 0 0.
(* [read_model_snapshot/mod.rs:15-15] MAX_REPORT_EXPORT_TRACEABILITY_REFS *)
Definition MAX_REPORT_EXPORT_TRACEABILITY_REFS : N := 16.

(* [read_model_snapshot/mod.rs] ReadModelSnapshotContractError *)
Inductive ReadModelSnapshotContractError :=
  | RseEmptyField (field : string)
  | RseTooLong (field : string) (max_len actual_len : N)
  | RseUnsafeField (field : string)
  | RseUnsupportedSchemaVersion | RseOwnershipEpochRequired
  | RseTooManyItems (field : string)
  | RseRedactionRequired (field : string)
  | RseUnsupportedRuntimeOwner.

(* [read_model_snapshot/mod.rs] Display for ReadModelSnapshotContractError::fmt *)
Definition snapshot_error_to_string (e : ReadModelSnapshotContractError) : string :=
  match e with
  | RseEmptyField field => field ++ " must not be empty"
  | RseTooLong field max_len actual_len =>
      field ++ " length " ++ show_uint actual_len ++ " exceeds max " ++ show_uint max_len ++
      " characters"
  | RseUnsafeField field => field ++ " contains unsafe read-model metadata"
  | RseUnsupportedSchemaVersion => "read-model snapshot schema unsupported"
  | RseOwnershipEpochRequired => "ownership epoch is required"
  | RseTooManyItems field => field ++ " contains too many items"
  | RseRedactionRequired field => field ++ " must be redacted"
  | RseUnsupportedRuntimeOwner => "read-model traceability must be ServiceHost-owned"
  end%string.

(* [read_model_snapshot/mod.rs] ReadModelSnapshotFreshness *)
Inductive ReadModelSnapshotFreshness := RfFresh | RfAging | RfStale | RfUnavailable.
#[export] Instance ReadModelSnapshotFreshness_eq_dec : EqDecision ReadModelSnapshotFreshness.
Proof. solve_decision. Defined.

(* [read_model_snapshot/mod.rs] CanonicalReadModelCategory *)
Inductive CanonicalReadModelCategory :=
  | CmRuntimeOwnership | CmComponentLifecycleHealth | CmRuntimeHealth | CmStorageOwnerSummary
  | CmCapabilityHealth | CmScheduler | CmSchedulerHost | CmSamplerState
  | CmNativePermissionReadiness | CmEndpointThreat | CmFusion | CmEvidenceQuality | CmRisk
  | CmAttackContext | CmGraph | CmBaseline | CmIncidentLinkedGroups | CmReportTraceability
  | CmExportTraceabilityHistory | CmProviderControllerStatus.
#[export] Instance CanonicalReadModelCategory_eq_dec : EqDecision CanonicalReadModelCategory.
Proof. solve_decision. Defined.

(** [#[derive(Ord)]]: the order of declaration. *)
(* [read_model_snapshot/mod.rs] CanonicalReadModelCategory *)
Definition category_rank (c : CanonicalReadModelCategory) : N :=
  match c with
  | CmRuntimeOwnership => 0 | CmComponentLifecycleHealth => 1 | CmRuntimeHealth => 2
  | CmStorageOwnerSummary => 3 | CmCapabilityHealth => 4 | CmScheduler => 5
  | CmSchedulerHost => 6 | CmSamplerState => 7 | CmNativePermissionReadiness => 8
  | CmEndpointThreat => 9 | CmFusion => 10 | CmEvidenceQuality => 11 | CmRisk => 12
  | CmAttackContext => 13 | CmGraph => 14 | CmBaseline => 15 | CmIncidentLinkedGroups => 16
  | CmReportTraceability => 17 | CmExportTraceabilityHistory => 18
  | CmProviderControllerStatus => 19
  end.

(* [read_model_snapshot/mod.rs] CanonicalReadModelSnapshotItem *)
Record CanonicalReadModelSnapshotItem := mkSnapshotItem {
  smi_model_category : CanonicalReadModelCategory;
  smi_lifecycle_state : RuntimeComponentLifecycle;
  smi_health_state : RuntimeHealthState;
  smi_bounded_categories : list string;
  smi_bounded_buckets : list string;
  smi_bounded_refs : list string;
  smi_degraded_reason : option string;
  smi_missing_visibility_flags : list string;
  smi_provenance_id : string;
  smi_redaction_status : RedactionStatus
}.
#[export] Instance CanonicalReadModelSnapshotItem_eq_dec :
  EqDecision CanonicalReadModelSnapshotItem.
Proof. solve_decision. Defined.

Abbreviation ReadModelSnapshotId := (Id KReadModelSnapshotId).

(* [read_model_snapshot/mod.rs] CanonicalReadModelSnapshot *)
Record CanonicalReadModelSnapshot := mkSnapshot {
  sms_snapshot_id : ReadModelSnapshotId;
  sms_ownership_ref : string;
  sms_ownership_epoch : N;
  sms_runtime_owner : RuntimeOwnerCategory;
  sms_runtime_mode : RuntimeMode;
  sms_schema_version : SchemaVersion;
  sms_generation_bucket : string;
  sms_generated_time_bucket : Timestamp;
  sms_freshness_state : ReadModelSnapshotFreshness;
  sms_partial_state : bool;
  sms_items : list CanonicalReadModelSnapshotItem;
  sms_degraded_reason : option string;
  sms_missing_visibility_flags : list string;
  sms_provenance_id : string;
  sms_redaction_status : RedactionStatus
}.

(* [read_model_snapshot/mod.rs] CanonicalReportExportTraceabilitySnapshot *)
Record CanonicalReportExportTraceabilitySnapshot := mkTraceability {
  trc_ownership_ref : string;
  trc_ownership_epoch : N;
  trc_runtime_owner : RuntimeOwnerCategory;
  trc_schema_version : SchemaVersion;
  trc_report_refs : list string;
  trc_export_refs : list string;
  trc_finding_refs : list string;
  trc_evidence_refs : list string;
  trc_hypothesis_refs : list string;
  trc_risk_refs : list string;
  trc_attack_refs : list string;
  trc_graph_refs : list string;
  trc_explicit_llm_story_refs : list string;
  trc_snapshot_refs : list string;
  trc_integrity_hash : string;
  trc_generated_time_bucket : Timestamp;
  trc_redaction_status : RedactionStatus
}.

(* ------------------------------------------------------------------ *)
(** ** Validation *)

(* [read_model_snapshot/mod.rs:283-308] validate_safe_text *)
Definition snapshot_markers : list string :=
  ["pid"; "ppid"; "process_id"; "process_name"; "handle"; "pointer"; "raw_log"; "raw_provider";
   "provider_value"; "username"; "sid"; "hostname"; "host_identifier"; "credential"; "secret";
   "token"; "password"; "api_key"; "c:\"; "\users\"; "/users/"; "/home/"; "http://";
   "https://"].

(* [read_model_snapshot/mod.rs] validate_safe_text *)
Definition snapshot_safe_text (field value : string)
    : result unit ReadModelSnapshotContractError :=
  check_trimmed (RseEmptyField field) (RseTooLong field MAX_READ_MODEL_SNAPSHOT_TEXT_LEN)
    (RseUnsafeField field) MAX_READ_MODEL_SNAPSHOT_TEXT_LEN snapshot_markers value.
(* [read_model_snapshot/mod.rs] validate_optional_safe_text *)
Definition snapshot_optional_safe_text (field : string) (value : option string)
    : result unit ReadModelSnapshotContractError :=
  if_some (snapshot_safe_text field) value.
(* [read_model_snapshot/mod.rs] validate_string_list *)
Definition snapshot_string_list (field : string) (values : list string)
    : result unit ReadModelSnapshotContractError :=
  let? _ := refuse_if (MAX_READ_MODEL_SNAPSHOT_LIST_ITEMS <? len values)
    (RseTooManyItems field) in
  for_each (snapshot_safe_text field) values.
(* [read_model_snapshot/mod.rs] validate_traceability_ref_list *)
Definition traceability_ref_list (field : string) (values : list string)
    : result unit ReadModelSnapshotContractError :=
  let? _ := refuse_if (MAX_REPORT_EXPORT_TRACEABILITY_REFS <? len values)
    (RseTooManyItems field) in
  for_each (snapshot_safe_text field) values.

(* [read_model_snapshot/mod.rs] CanonicalReadModelSnapshotItem::validate *)
Definition item_validate (self : CanonicalReadModelSnapshotItem)
    : result unit ReadModelSnapshotContractError :=
  let? _ := snapshot_string_list "bounded_categories" (smi_bounded_categories self) in
  let? _ := snapshot_string_list "bounded_buckets" (smi_bounded_buckets self) in
  let? _ := snapshot_string_list "bounded_refs" (smi_bounded_refs self) in
  let? _ := snapshot_optional_safe_text "degraded_reason" (smi_degraded_reason self) in
  let? _ := snapshot_string_list "missing_visibility_flags"
    (smi_missing_visibility_flags self) in
  let? _ := snapshot_safe_text "provenance_id" (smi_provenance_id self) in
  refuse_if (bool_decide (smi_redaction_status self = RsRedactionRequired))
    (RseRedactionRequired "snapshot item").

(* [read_model_snapshot/mod.rs] CanonicalReadModelSnapshot::validate *)
Definition snapshot_validate (self : CanonicalReadModelSnapshot)
    : result unit ReadModelSnapshotContractError :=
  let? _ := snapshot_safe_text "ownership_ref" (sms_ownership_ref self) in
  let? _ := snapshot_safe_text "generation_bucket" (sms_generation_bucket self) in
  let? _ := snapshot_optional_safe_text "degraded_reason" (sms_degraded_reason self) in
  let? _ := snapshot_string_list "missing_visibility_flags"
    (sms_missing_visibility_flags self) in
  let? _ := snapshot_safe_text "provenance_id" (sms_provenance_id self) in
  let? _ := refuse_if
    (negb (bool_decide (sms_schema_version self = READ_MODEL_SNAPSHOT_SCHEMA_VERSION)))
    RseUnsupportedSchemaVersion in
  let? _ := refuse_if (sms_ownership_epoch self =? 0) RseOwnershipEpochRequired in
  let? _ := refuse_if (MAX_READ_MODEL_SNAPSHOT_ITEMS <? len (sms_items self))
    (RseTooManyItems "items") in
  let? _ := refuse_if (bool_decide (sms_redaction_status self = RsRedactionRequired))
    (RseRedactionRequired "snapshot") in
  for_each item_validate (sms_items self).

(* [read_model_snapshot/mod.rs] CanonicalReportExportTraceabilitySnapshot::validate *)
Definition traceability_validate (self : CanonicalReportExportTraceabilitySnapshot)
    : result unit ReadModelSnapshotContractError :=
  let? _ := snapshot_safe_text "traceability ownership_ref" (trc_ownership_ref self) in
  let? _ := snapshot_safe_text "traceability integrity_hash" (trc_integrity_hash self) in
  let? _ := refuse_if (trc_ownership_epoch self =? 0) RseOwnershipEpochRequired in
  let? _ := refuse_if (negb (bool_decide (trc_runtime_owner self = RocServiceHost)))
    RseUnsupportedRuntimeOwner in
  let? _ := refuse_if
    (negb (bool_decide (trc_schema_version self = REPORT_EXPORT_TRACEABILITY_SCHEMA_VERSION)))
    RseUnsupportedSchemaVersion in
  let? _ := refuse_if (bool_decide (trc_redaction_status self = RsRedactionRequired))
    (RseRedactionRequired "report export traceability") in
  for_each (λ '(field, refs), traceability_ref_list field refs)
    [("report_refs", trc_report_refs self); ("export_refs", trc_export_refs self);
     ("finding_refs", trc_finding_refs self); ("evidence_refs", trc_evidence_refs self);
     ("hypothesis_refs", trc_hypothesis_refs self); ("risk_refs", trc_risk_refs self);
     ("attack_refs", trc_attack_refs self); ("graph_refs", trc_graph_refs self);
     ("explicit_llm_story_refs", trc_explicit_llm_story_refs self);
     ("snapshot_refs", trc_snapshot_refs self)].

(* ------------------------------------------------------------------ *)
(** ** Lemmas *)

(** What the consumers of a validated snapshot rely on. *)
Lemma snapshot_validate_items s :
  snapshot_validate s = Ok tt →
  len (sms_items s) ≤ MAX_READ_MODEL_SNAPSHOT_ITEMS ∧ sms_ownership_epoch s ≠ 0 ∧
  Forall (λ i, item_validate i = Ok tt) (sms_items s).
Proof. unfold snapshot_validate. autorewrite with checks. naive_solver. Qed.

(** Dropping references keeps an item valid. *)
Lemma item_validate_take_refs i n :
  item_validate i = Ok tt →
  item_validate (mkSnapshotItem (smi_model_category i) (smi_lifecycle_state i)
    (smi_health_state i) (smi_bounded_categories i) (smi_bounded_buckets i)
    (take n (smi_bounded_refs i)) (smi_degraded_reason i) (smi_missing_visibility_flags i)
    (smi_provenance_id i) (smi_redaction_status i)) = Ok tt.
Proof.
  unfold item_validate, snapshot_string_list. simpl. autorewrite with checks.
  intros (? & ? & [Hl Hr] & ?). split_and!; try naive_solver.
  - unfold len in *. rewrite length_take. lia.
  - by apply Forall_take.
Qed.
