(* ===== verification/ReadCommands.v ===== *)
(** * Read commands ([contracts/src/read_commands.rs])

    The named, bounded queries of the service: each selects one category of the current
    snapshot and pages through it with continuation tokens. [serde_json] is the class
    [ResponseJson]; its [Value] is the documented tree. An [instant] counts nanoseconds.
    Constructor prefixes: [Rd] command, [Rce] error. Field prefixes: [rdd_] declaration,
    [rrq_] request, [rrs_] response. *)

From S2P Require Import Prelude Collections RustStr Effects Contracts Checks CallerVerification.
From S2P Require Import Json.
From S2P Require Import RuntimeOwnership ReadModels.

#[local] Open Scope string_scope.
#[local] Open Scope list_scope.
#[local] Open Scope N_scope.

(* ------------------------------------------------------------------ *)
(** ** Commands *)

(* [contracts/src/read_commands.rs:11-11] READ_COMMAND_PROTOCOL_VERSION *)
Definition READ_COMMAND_PROTOCOL_VERSION : SchemaVersion := mkVersion 1 0 0.
(* [contracts/src/read_commands.rs:12-12] READ_COMMAND_SCHEMA_VERSION *)
Definition READ_COMMAND_SCHEMA_VERSION : SchemaVersion := mkVersion 1 0 0.
(* [contracts/src/read_commands.rs:13-13] READ_COMMAND_TIMEOUT_MS *)
Definition READ_COMMAND_TIMEOUT_MS : N := 250.
(* [contracts/src/read_commands.rs:14-14] READ_COMMAND_MAX_RESPONSE_BYTES *)
Definition READ_COMMAND_MAX_RESPONSE_BYTES : N := 16 * 1024.
(* [contracts/src/read_commands.rs:15-15] READ_COMMAND_MAX_ITEMS *)
Definition READ_COMMAND_MAX_ITEMS : N := 8.
(* [contracts/src/read_commands.rs:16-16] READ_COMMAND_MAX_REFS_PER_RECORD *)
Definition READ_COMMAND_MAX_REFS_PER_RECORD : N := 8.
(* [contracts/src/read_commands.rs:17-17] READ_COMMAND_MAX_NESTED_DEPTH *)
Definition READ_COMMAND_MAX_NESTED_DEPTH : N := 8.
(* [contracts/src/read_commands.rs:18-18] READ_COMMAND_MAX_SNAPSHOT_AGE_MS *)
Definition READ_COMMAND_MAX_SNAPSHOT_AGE_MS : Z := 5 * 60 * 1000.
(* [contracts/src/read_commands.rs:19-19] READ_COMMAND_MAX_CONTINUATION_LEN *)
Definition READ_COMMAND_MAX_CONTINUATION_LEN : N := 64.

(* [contracts/src/read_commands.rs] ServiceReadCommandId *)
Inductive ServiceReadCommandId :=
  | RdGetRuntimeOwnership | RdGetComponentOwnershipSummary | RdGetRuntimeHealth
  | RdListCapabilityStatus | RdGetCapabilityHealthSummary | RdGetSchedulerStatus
  | RdGetSchedulerHostStatus | RdGetNativeSamplerStatus | RdGetNativePermissionStatus
  | RdGetEndpointThreatSummary | RdGetFusionSummary | RdGetEvidenceQualitySummary
  | RdGetRiskSummary | RdGetAttackCoverageSummary | RdGetGraphSummary | RdGetBaselineSummary
  | RdGetIncidentLinkSummary | RdGetReportTraceability | RdGetExportTraceability
  | RdGetStorageOwnerSummary | RdGetProviderControllerStatus | RdListNetworkProviderStatus
  | RdGetNetworkProviderStatus | RdGetNetworkVisibilitySummary | RdGetNetworkFallbackPlan.
#[export] Instance ServiceReadCommandId_eq_dec : EqDecision ServiceReadCommandId.
Proof. solve_decision. Defined.

(* [contracts/src/read_commands.rs] ServiceReadCommandId::all *)
Definition all_read_commands : list ServiceReadCommandId :=
  [RdGetRuntimeOwnership; RdGetComponentOwnershipSummary; RdGetRuntimeHealth;
   RdListCapabilityStatus; RdGetCapabilityHealthSummary; RdGetSchedulerStatus;
   RdGetSchedulerHostStatus; RdGetNativeSamplerStatus; RdGetNativePermissionStatus;
   RdGetEndpointThreatSummary; RdGetFusionSummary; RdGetEvidenceQualitySummary; RdGetRiskSummary;
   RdGetAttackCoverageSummary; RdGetGraphSummary; RdGetBaselineSummary; RdGetIncidentLinkSummary;
   RdGetReportTraceability; RdGetExportTraceability; RdGetStorageOwnerSummary;
   RdGetProviderControllerStatus; RdListNetworkProviderStatus; RdGetNetworkProviderStatus;
   RdGetNetworkVisibilitySummary; RdGetNetworkFallbackPlan].

(* [contracts/src/read_commands.rs] ServiceReadCommandId::as_str *)
Definition read_command_as_str (self : ServiceReadCommandId) : string :=
  match self with
  | RdGetRuntimeOwnership => "get_runtime_ownership"
  | RdGetComponentOwnershipSummary => "get_component_ownership_summary"
  | RdGetRuntimeHealth => "get_runtime_health"
  | RdListCapabilityStatus => "list_capability_status"
  | RdGetCapabilityHealthSummary => "get_capability_health_summary"
  | RdGetSchedulerStatus => "get_scheduler_status"
  | RdGetSchedulerHostStatus => "get_scheduler_host_status"
  | RdGetNativeSamplerStatus => "get_native_sampler_status"
  | RdGetNativePermissionStatus => "get_native_permission_status"
  | RdGetEndpointThreatSummary => "get_endpoint_threat_summary"
  | RdGetFusionSummary => "get_fusion_summary"
  | RdGetEvidenceQualitySummary => "get_evidence_quality_summary"
  | RdGetRiskSummary => "get_risk_summary"
  | RdGetAttackCoverageSummary => "get_attack_coverage_summary"
  | RdGetGraphSummary => "get_graph_summary"
  | RdGetBaselineSummary => "get_baseline_summary"
  | RdGetIncidentLinkSummary => "get_incident_link_summary"
  | RdGetReportTraceability => "get_report_traceability"
  | RdGetExportTraceability => "get_export_traceability"
  | RdGetStorageOwnerSummary => "get_storage_owner_summary"
  | RdGetProviderControllerStatus => "get_provider_controller_status"
  | RdListNetworkProviderStatus => "list_network_provider_status"
  | RdGetNetworkProviderStatus => "get_network_provider_status"
  | RdGetNetworkVisibilitySummary => "get_network_visibility_summary"
  | RdGetNetworkFallbackPlan => "get_network_fallback_plan"
  end.

(* [contracts/src/read_commands.rs] ReadCommandContractError *)
Inductive ReadCommandContractError :=
  | RceUnknownCommand | RceVersionMismatch | RceEpochRequired | RceFreshnessNotAllowed
  | RceLimitExceeded (field : string) | RceUnsafeField (field : string)
  | RceRedactionRequired | RceSerializationFailed.

(* [contracts/src/read_commands.rs] Display for ReadCommandContractError::fmt *)
Definition read_error_to_string (e : ReadCommandContractError) : string :=
  match e with
  | RceUnknownCommand => "read command is not allowlisted"
  | RceVersionMismatch => "read command version mismatch"
  | RceEpochRequired => "read command ownership epoch is required"
  | RceFreshnessNotAllowed => "read command freshness is not allowed"
  | RceLimitExceeded field => "read command limit exceeded for " ++ field
  | RceUnsafeField field => "read command unsafe field " ++ field
  | RceRedactionRequired => "read command response must be redacted"
  | RceSerializationFailed => "read command serialization failed"
  end%string.

(** The arms of the [match] on the text. *)
(* [contracts/src/read_commands.rs] ServiceReadCommandId::parse *)
Definition read_command_arms : list (string * ServiceReadCommandId) :=
  [("get_runtime_ownership", RdGetRuntimeOwnership);
   ("get_component_ownership_summary", RdGetComponentOwnershipSummary);
   ("get_runtime_health", RdGetRuntimeHealth);
   ("list_capability_status", RdListCapabilityStatus);
   ("get_capability_health_summary", RdGetCapabilityHealthSummary);
   ("get_scheduler_status", RdGetSchedulerStatus);
   ("get_scheduler_host_status", RdGetSchedulerHostStatus);
   ("get_native_sampler_status", RdGetNativeSamplerStatus);
   ("get_native_permission_status", RdGetNativePermissionStatus);
   ("get_endpoint_threat_summary", RdGetEndpointThreatSummary);
   ("get_fusion_summary", RdGetFusionSummary);
   ("get_evidence_quality_summary", RdGetEvidenceQualitySummary);
   ("get_risk_summary", RdGetRiskSummary);
   ("get_attack_coverage_summary", RdGetAttackCoverageSummary);
   ("get_graph_summary", RdGetGraphSummary);
   ("get_baseline_summary", RdGetBaselineSummary);
   ("get_incident_link_summary", RdGetIncidentLinkSummary);
   ("get_report_traceability", RdGetReportTraceability);
   ("get_export_traceability", RdGetExportTraceability);
   ("get_storage_owner_summary", RdGetStorageOwnerSummary);
   ("get_provider_controller_status", RdGetProviderControllerStatus);
   ("list_network_provider_status", RdListNetworkProviderStatus);
   ("get_network_provider_status", RdGetNetworkProviderStatus);
   ("get_network_visibility_summary", RdGetNetworkVisibilitySummary);
   ("get_network_fallback_plan", RdGetNetworkFallbackPlan)].

(* [contracts/src/read_commands.rs] ServiceReadCommandId::parse *)
Definition read_command_parse (value : string)
    : result ServiceReadCommandId ReadCommandContractError :=
  match list_find (λ arm, value = arm.1) read_command_arms with
  | Some (_, (_, command)) => Ok command
  | None => Err RceUnknownCommand
  end.

(* [contracts/src/read_commands.rs] ServiceReadCommandId::category *)
Definition read_category (self : ServiceReadCommandId) : CanonicalReadModelCategory :=
  match self with
  | RdGetRuntimeOwnership => CmRuntimeOwnership
  | RdGetComponentOwnershipSummary => CmComponentLifecycleHealth
  | RdGetRuntimeHealth => CmRuntimeHealth
  | RdListCapabilityStatus | RdGetCapabilityHealthSummary => CmCapabilityHealth
  | RdGetSchedulerStatus => CmScheduler
  | RdGetSchedulerHostStatus => CmSchedulerHost
  | RdGetNativeSamplerStatus => CmSamplerState
  | RdGetNativePermissionStatus => CmNativePermissionReadiness
  | RdGetEndpointThreatSummary => CmEndpointThreat
  | RdGetFusionSummary => CmFusion
  | RdGetEvidenceQualitySummary => CmEvidenceQuality
  | RdGetRiskSummary => CmRisk
  | RdGetAttackCoverageSummary => CmAttackContext
  | RdGetGraphSummary => CmGraph
  | RdGetBaselineSummary => CmBaseline
  | RdGetIncidentLinkSummary => CmIncidentLinkedGroups
  | RdGetReportTraceability => CmReportTraceability
  | RdGetExportTraceability => CmExportTraceabilityHistory
  | RdGetStorageOwnerSummary => CmStorageOwnerSummary
  | RdGetProviderControllerStatus | RdListNetworkProviderStatus | RdGetNetworkProviderStatus
  | RdGetNetworkVisibilitySummary | RdGetNetworkFallbackPlan => CmProviderControllerStatus
  end.

(* ------------------------------------------------------------------ *)
(** ** Declarations, requests, responses *)

(* [contracts/src/read_commands.rs] ReadCommandRequiredRuntimeState *)
Inductive ReadCommandRequiredRuntimeState := RqServiceOwned.
(* [contracts/src/read_commands.rs] ReadCommandTruncationPolicy *)
Inductive ReadCommandTruncationPolicy := RtStablePage.

(* [contracts/src/read_commands.rs] ServiceReadCommandDeclaration *)
Record ServiceReadCommandDeclaration := mkReadDeclaration {
  rdd_command_id : ServiceReadCommandId;
  rdd_protocol_version : SchemaVersion;
  rdd_schema_version : SchemaVersion;
  rdd_timeout_ms : N;
  rdd_maximum_response_size : N;
  rdd_maximum_item_count : N;
  rdd_maximum_nested_depth : N;
  rdd_maximum_refs_per_record : N;
  rdd_snapshot_max_age_ms : Z;
  rdd_required_runtime_state : ReadCommandRequiredRuntimeState;
  rdd_allowed_freshness_states : list ReadModelSnapshotFreshness;
  rdd_truncation_policy : ReadCommandTruncationPolicy;
  rdd_audit_required : bool
}.

(* [contracts/src/read_commands.rs] ServiceReadCommandDeclaration::validate *)
Definition declaration_validate (self : ServiceReadCommandDeclaration)
    : result unit ReadCommandContractError :=
  let? _ := refuse_if
    (negb (bool_decide (rdd_protocol_version self = READ_COMMAND_PROTOCOL_VERSION)))
    RceVersionMismatch in
  let? _ := refuse_if
    (negb (bool_decide (rdd_schema_version self = READ_COMMAND_SCHEMA_VERSION)))
    RceVersionMismatch in
  refuse_if
    ((rdd_timeout_ms self =? 0) || (1000 <? rdd_timeout_ms self) ||
     (rdd_maximum_response_size self =? 0) ||
     (READ_COMMAND_MAX_RESPONSE_BYTES <? rdd_maximum_response_size self) ||
     (rdd_maximum_item_count self =? 0) ||
     (READ_COMMAND_MAX_ITEMS <? rdd_maximum_item_count self) ||
     (rdd_maximum_nested_depth self =? 0) ||
     (READ_COMMAND_MAX_NESTED_DEPTH <? rdd_maximum_nested_depth self) ||
     (rdd_maximum_refs_per_record self =? 0) ||
     (READ_COMMAND_MAX_REFS_PER_RECORD <? rdd_maximum_refs_per_record self) ||
     (rdd_snapshot_max_age_ms self <=? 0)%Z ||
     bool_decide (rdd_allowed_freshness_states self = []) || negb (rdd_audit_required self))
    (RceLimitExceeded "declaration").

(* [contracts/src/read_commands.rs] service_read_command_declaration *)
Definition service_read_command_declaration (command_id : ServiceReadCommandId)
    : ServiceReadCommandDeclaration :=
  {| rdd_command_id := command_id;
     rdd_protocol_version := READ_COMMAND_PROTOCOL_VERSION;
     rdd_schema_version := READ_COMMAND_SCHEMA_VERSION;
     rdd_timeout_ms := READ_COMMAND_TIMEOUT_MS;
     rdd_maximum_response_size := READ_COMMAND_MAX_RESPONSE_BYTES;
     rdd_maximum_item_count := READ_COMMAND_MAX_ITEMS;
     rdd_maximum_nested_depth := READ_COMMAND_MAX_NESTED_DEPTH;
     rdd_maximum_refs_per_record := READ_COMMAND_MAX_REFS_PER_RECORD;
     rdd_snapshot_max_age_ms := READ_COMMAND_MAX_SNAPSHOT_AGE_MS;
     rdd_required_runtime_state := RqServiceOwned;
     rdd_allowed_freshness_states := [RfFresh; RfAging; RfStale; RfUnavailable];
     rdd_truncation_policy := RtStablePage;
     rdd_audit_required := true |}.
(* [contracts/src/read_commands.rs] service_read_command_declarations *)
Definition service_read_command_declarations : list ServiceReadCommandDeclaration :=
  service_read_command_declaration <$> all_read_commands.

(* [contracts/src/read_commands.rs] ServiceReadCommandRequest *)
Record ServiceReadCommandRequest := mkReadRequest {
  rrq_page_size : option N;
  rrq_continuation_token : option string
}.

(* [contracts/src/read_commands.rs] ServiceReadCommandResponse *)
Record ServiceReadCommandResponse := mkReadResponse {
  rrs_command_id : ServiceReadCommandId;
  rrs_protocol_version : SchemaVersion;
  rrs_schema_version : SchemaVersion;
  rrs_snapshot_id : ReadModelSnapshotId;
  rrs_ownership_ref : string;
  rrs_ownership_epoch : N;
  rrs_generation_bucket : string;
  rrs_freshness_state : ReadModelSnapshotFreshness;
  rrs_partial_state : bool;
  rrs_items : list CanonicalReadModelSnapshotItem;
  rrs_total_available : N;
  rrs_truncated : bool;
  rrs_continuation_token : option string;
  rrs_degraded_reason : option string;
  rrs_provenance_id : string;
  rrs_redaction_status : RedactionStatus
}.

(** [response.items = items; response.truncated = truncated; ..] *)
Definition set_page (r : ServiceReadCommandResponse)
    (items : list CanonicalReadModelSnapshotItem) (truncated : bool) (token : option string)
    : ServiceReadCommandResponse :=
  mkReadResponse (rrs_command_id r) (rrs_protocol_version r) (rrs_schema_version r)
    (rrs_snapshot_id r) (rrs_ownership_ref r) (rrs_ownership_epoch r)
    (rrs_generation_bucket r) (rrs_freshness_state r) (rrs_partial_state r) items
    (rrs_total_available r) truncated token (rrs_degraded_reason r) (rrs_provenance_id r)
    (rrs_redaction_status r).

(** [serde_json::to_value(response)], and the length of [serde_json::to_vec(response)]; no
    result when serialization fails. *)
Class ResponseJson := {
  response_to_value : ServiceReadCommandResponse → option JsonTree;
  response_to_vec_len : ServiceReadCommandResponse → option N
}.

(* [contracts/src/read_commands.rs] json_depth *)
Fixpoint json_depth (value : JsonTree) : N :=
  match value with
  | JArray values => 1 + foldr N.max 0 (map json_depth values)
  | JObject fields => 1 + foldr N.max 0 (map (λ field, json_depth field.2) fields)
  | _ => 1
  end.

(* ------------------------------------------------------------------ *)
(** ** Validation *)

(* [contracts/src/read_commands.rs:515-529] validate_safe_text *)
Definition read_markers : list string :=
  ["raw_db_cursor"; "select "; "sql"; "runtime_handle"; "authorization_nonce"; "nonce";
   "secret"; "token"; "password"; "credential"; "c:\"; "/users/"; "/home/"].
(* [contracts/src/read_commands.rs] validate_safe_text *)
Definition read_safe_text (field value : string) : result unit ReadCommandContractError :=
  check_trimmed (RceUnsafeField field) (λ _, RceUnsafeField field) (RceUnsafeField field)
    (N.max READ_COMMAND_MAX_CONTINUATION_LEN 128) read_markers value.
(* [contracts/src/read_commands.rs] validate_optional_safe_text *)
Definition read_optional_safe_text (field : string) (value : option string)
    : result unit ReadCommandContractError :=
  if_some (read_safe_text field) value.

(* [contracts/src/read_commands.rs] ServiceReadCommandResponse::validate_with_declaration *)
Definition validate_with_declaration `{ResponseJson} (self : ServiceReadCommandResponse)
    (declaration : ServiceReadCommandDeclaration) : result unit ReadCommandContractError :=
  let? _ := declaration_validate declaration in
  let? _ := refuse_if
    (negb (bool_decide (rrs_command_id self = rdd_command_id declaration)))
    RceUnknownCommand in
  let? _ := read_safe_text "ownership_ref" (rrs_ownership_ref self) in
  let? _ := read_safe_text "generation_bucket" (rrs_generation_bucket self) in
  let? _ := read_optional_safe_text "continuation_token" (rrs_continuation_token self) in
  let? _ := read_optional_safe_text "degraded_reason" (rrs_degraded_reason self) in
  let? _ := read_safe_text "provenance_id" (rrs_provenance_id self) in
  let? _ := refuse_if
    (negb (bool_decide (rrs_protocol_version self = READ_COMMAND_PROTOCOL_VERSION)) ||
     negb (bool_decide (rrs_schema_version self = READ_COMMAND_SCHEMA_VERSION)))
    RceVersionMismatch in
  let? _ := refuse_if (rrs_ownership_epoch self =? 0) RceEpochRequired in
  let? _ := refuse_if (rdd_maximum_item_count declaration <? len (rrs_items self))
    (RceLimitExceeded "items") in
  let? _ := refuse_if (bool_decide (rrs_redaction_status self = RsRedactionRequired))
    RceRedactionRequired in
  let? _ := refuse_if
    (negb (bool_decide (rrs_freshness_state self ∈ rdd_allowed_freshness_states declaration)))
    RceFreshnessNotAllowed in
  let? _ := for_each (λ item,
    let? _ := map_err (λ _, RceUnsafeField "item") (item_validate item) in
    refuse_if (rdd_maximum_refs_per_record declaration <? len (smi_bounded_refs item))
      (RceLimitExceeded "bounded_refs")) (rrs_items self) in
  let? value := ok_or (response_to_value self) RceSerializationFailed in
  let? _ := refuse_if (rdd_maximum_nested_depth declaration <? json_depth value)
    (RceLimitExceeded "nested_depth") in
  let? size := ok_or (response_to_vec_len self) RceSerializationFailed in
  refuse_if (rdd_maximum_response_size declaration <? size) (RceLimitExceeded "response_size").

(* ------------------------------------------------------------------ *)
(** ** Pages *)

(** [format!("read_page_{}", offset)] *)
(* [contracts/src/read_commands.rs:427-431] build_service_read_command_response *)
Definition page_token (offset : N) : string := ("read_page_" ++ show_uint offset)%string.

(** [value.strip_prefix(prefix)] *)
Fixpoint strip_prefix (prefix value : string) : option string :=
  match prefix, value with
  | "", _ => Some value
  | String c prefix, String d value => if ascii_dec c d then strip_prefix prefix value else None
  | _, "" => None
  end%string.

(* [contracts/src/read_commands.rs] parse_continuation_token *)
Definition parse_continuation_token (value : string) : result N ReadCommandContractError :=
  let? _ := read_safe_text "continuation_token" value in
  let? offset := ok_or (strip_prefix "read_page_" value)
    (RceUnsafeField "continuation_token") in
  ok_or (parse_uint u64_max offset) (RceUnsafeField "continuation_token").

(** [value.clamp(low, high)] *)
Definition clamp (low high value : N) : N := N.max low (N.min high value).

(** [item.bounded_refs.truncate(limit)] *)
Definition truncate_refs (limit : N) (item : CanonicalReadModelSnapshotItem)
    : CanonicalReadModelSnapshotItem :=
  mkSnapshotItem (smi_model_category item) (smi_lifecycle_state item) (smi_health_state item)
    (smi_bounded_categories item) (smi_bounded_buckets item)
    (take (N.to_nat limit) (smi_bounded_refs item)) (smi_degraded_reason item)
    (smi_missing_visibility_flags item) (smi_provenance_id item) (smi_redaction_status item).

(** The closure over one item of the page: the item, and whether it was cut. *)
(* [contracts/src/read_commands.rs:418-425] build_service_read_command_response *)
Definition page_item (limit : N) (item : CanonicalReadModelSnapshotItem)
    : CanonicalReadModelSnapshotItem * bool :=
  if limit <? len (smi_bounded_refs item) then (truncate_refs limit item, true)
  else (item, false).

(** The items of a snapshot in the category of a command. *)
(* [contracts/src/read_commands.rs:405-411] build_service_read_command_response *)
Definition matching_items (command_id : ServiceReadCommandId)
    (snapshot : CanonicalReadModelSnapshot) : list CanonicalReadModelSnapshotItem :=
  sort_by_key (λ item, category_rank (smi_model_category item))
    (filter (λ item, smi_model_category item = read_category command_id)
       (sms_items snapshot)).

(** The loop that drops items until the response fits; [fuel] is the number of items. The
    flag says whether one was dropped. *)
(* [contracts/src/read_commands.rs:469-479] build_service_read_command_response *)
Fixpoint shrink `{ResponseJson} (fuel : nat) (limit : N) (response : ServiceReadCommandResponse)
    (popped : bool) : result (ServiceReadCommandResponse * bool) ReadCommandContractError :=
  let? size := ok_or (response_to_vec_len response) RceSerializationFailed in
  if (limit <? size) && negb (bool_decide (rrs_items response = [])) then
    match fuel with
    | O => Ok (response, popped)
    | S fuel =>
        shrink fuel limit
          (set_page response (removelast (rrs_items response)) true
             (rrs_continuation_token response)) true
    end
  else Ok (response, popped).

(** [duration.num_milliseconds()] *)
Definition num_milliseconds (nanoseconds : Z) : Z := Z.quot nanoseconds 1000000.

(** The freshness, the partial flag and the reason of a response. *)
(* [contracts/src/read_commands.rs:435-450] build_service_read_command_response *)
Definition response_freshness (declaration : ServiceReadCommandDeclaration)
    (snapshot : CanonicalReadModelSnapshot) (snapshot_age_ms : Z)
    : ReadModelSnapshotFreshness * bool * option string :=
  let '(freshness_state, partial_state, degraded_reason) :=
    if (rdd_snapshot_max_age_ms declaration <? snapshot_age_ms)%Z
    then (RfStale, true, Some "snapshot_age_limit_exceeded")
    else (sms_freshness_state snapshot, sms_partial_state snapshot,
          sms_degraded_reason snapshot) in
  if negb (bool_decide (freshness_state ∈ rdd_allowed_freshness_states declaration))
  then (RfUnavailable, true, Some "snapshot_freshness_not_allowed")
  else (freshness_state, partial_state, degraded_reason).

(** The end of the function: the byte limit, the token of a page it shortened, and the
    final validation. *)
(* [contracts/src/read_commands.rs:469-486] build_service_read_command_response *)
Definition finish_response `{ResponseJson} (declaration : ServiceReadCommandDeclaration)
    (start total_available : N) (truncated : bool) (response : ServiceReadCommandResponse)
    : result ServiceReadCommandResponse ReadCommandContractError :=
  let? '(response, popped) := shrink (length (rrs_items response))
    (rdd_maximum_response_size declaration) response false in
  let response :=
    if (truncated || popped) && bool_decide (rrs_continuation_token response = None) &&
       (start + len (rrs_items response) <? total_available)
    then set_page response (rrs_items response) (rrs_truncated response)
           (Some (page_token (start + len (rrs_items response))))
    else response in
  let? _ := validate_with_declaration response declaration in
  Ok response.

(* [contracts/src/read_commands.rs] build_service_read_command_response *)
Definition build_service_read_command_response `{ResponseJson}
    (command_id : ServiceReadCommandId) (snapshot : CanonicalReadModelSnapshot)
    (request : ServiceReadCommandRequest)
    : ST (result ServiceReadCommandResponse ReadCommandContractError) :=
  let declaration := service_read_command_declaration command_id in
  let checked :=
    let? _ := declaration_validate declaration in
    let? _ := map_err (λ _, RceUnsafeField "snapshot") (snapshot_validate snapshot) in
    let? _ := read_optional_safe_text "continuation_token" (rrq_continuation_token request) in
    let? start := transpose_map parse_continuation_token (rrq_continuation_token request) in
    Ok (default 0 start) in
  match checked with
  | Err error => st_ret (Err error)
  | Ok start =>
      let page_size := clamp 1 (rdd_maximum_item_count declaration)
        (default (rdd_maximum_item_count declaration) (rrq_page_size request)) in
      let matching := matching_items command_id snapshot in
      let total_available := len matching in
      let paged := page_item (rdd_maximum_refs_per_record declaration) <$>
        take (N.to_nat page_size) (drop (N.to_nat start) matching) in
      let truncated := (0 <? start) ||
        (saturating_add u64_max start page_size <? total_available) ||
        existsb snd paged in
      let items := fst <$> paged in
      let continuation_token :=
        if saturating_add u64_max start (len items) <? total_available
        then Some (page_token (start + len items)) else None in
      let$ utc_now := now in
      let snapshot_age_ms :=
        num_milliseconds (instant utc_now - instant (sms_generated_time_bucket snapshot)) in
      let '(freshness_state, partial_state, degraded_reason) :=
        response_freshness declaration snapshot snapshot_age_ms in
      let response :=
        {| rrs_command_id := command_id;
           rrs_protocol_version := READ_COMMAND_PROTOCOL_VERSION;
           rrs_schema_version := READ_COMMAND_SCHEMA_VERSION;
           rrs_snapshot_id := sms_snapshot_id snapshot;
           rrs_ownership_ref := sms_ownership_ref snapshot;
           rrs_ownership_epoch := sms_ownership_epoch snapshot;
           rrs_generation_bucket := sms_generation_bucket snapshot;
           rrs_freshness_state := freshness_state;
           rrs_partial_state := partial_state;
           rrs_items := items;
           rrs_total_available := total_available;
           rrs_truncated := truncated;
           rrs_continuation_token := continuation_token;
           rrs_degraded_reason := degraded_reason;
           rrs_provenance_id := sms_provenance_id snapshot;
           rrs_redaction_status := RsRedacted |} in
      st_ret (finish_response declaration start total_available truncated response)
  end.
