(* ===== verification/ReadCommandsFacts.v ===== *)
(** * What the read commands guarantee ([contracts/src/read_commands.rs])

    Continuation tokens and command names round trip; a response is bounded, of one
    category and redacted; the token of a page, on every branch; following the tokens visits
    every item, unless the byte limit shortened a page, when the items dropped from it are
    skipped. *)

From S2P Require Import Prelude Collections RustStr Effects Contracts Checks CallerVerification.
From S2P Require Import Json.
From S2P Require Import RuntimeOwnership ReadModels ReadCommands.

#[local] Open Scope string_scope.
#[local] Open Scope list_scope.
#[local] Open Scope N_scope.

(* ------------------------------------------------------------------ *)
(** ** Names and tokens *)

Lemma read_command_parse_as_str c : read_command_parse (read_command_as_str c) = Ok c.
Proof. by destruct c. Qed.

Lemma read_command_parse_ok s c : read_command_parse s = Ok c → s = read_command_as_str c.
Proof.
  unfold read_command_parse. destruct (list_find _ _) as [[i [t d]]|] eqn:Hf; [|done].
  intros [= <-]. apply list_find_Some in Hf as (Hi & -> & _).
  repeat (destruct i as [|i]; [by injection Hi as <- <-|]). done.
Qed.

Lemma elem_of_all_read_commands c : c ∈ all_read_commands.
Proof. destruct c; set_solver. Qed.

(** The alphabet of a token: it holds none of the letters the markers need. *)
Definition token_char (c : ascii) : bool :=
  is_ascii_digit c || bool_decide (c ∈ ["r"; "e"; "a"; "d"; "_"; "p"; "g"]%char).

Lemma digits_token s : all_chars is_ascii_digit s = true → all_chars token_char s = true.
Proof. apply all_chars_impl. intros c Hc. unfold token_char. by rewrite Hc. Qed.

Lemma token_char_graphic c : token_char c = true → is_ascii_graphic c = true.
Proof. by destruct c as [[] [] [] [] [] [] [] []]. Qed.
Lemma token_char_lower c : token_char c = true → negb (is_ascii_uppercase c) = true.
Proof. by destruct c as [[] [] [] [] [] [] [] []]. Qed.

Lemma page_token_chars n : all_chars token_char (page_token n) = true.
Proof.
  unfold page_token. rewrite all_chars_app. apply andb_true_iff. split; [done|].
  apply digits_token, show_uint_all_digits.
Qed.

Lemma page_token_safe field n : n ≤ u64_max → read_safe_text field (page_token n) = Ok tt.
Proof.
  intros Hn. unfold read_safe_text. rewrite check_trimmed_ok.
  pose proof (page_token_chars n) as Hc.
  rewrite trim_graphic by (eapply all_chars_impl; [apply token_char_graphic|done]).
  rewrite to_ascii_lowercase_id by (eapply all_chars_impl; [apply token_char_lower|done]).
  split_and!; [done| |].
  - unfold str_len, page_token. rewrite string_app_length.
    pose proof (show_uint_length n 19) as Hl. change (10 ^ N.of_nat 20) with (10 ^ 20)%N in Hl.
    assert (n < 10 ^ 20) as Hlt by (eapply N.le_lt_trans; [done|by vm_compute]).
    specialize (Hl Hlt). change (String.length "read_page_") with 10%nat. simpl. lia.
  - apply Forall_forall. intros marker Hm. apply not_true_is_false. intros Hin.
    apply (contains_alphabet _ _ _ Hc) in Hin. revert marker Hm Hin.
    apply (Forall_forall (λ marker, all_chars token_char marker = true → False)).
    by repeat constructor.
Qed.

Lemma strip_prefix_app a b : strip_prefix a (a ++ b)%string = Some b.
Proof.
  induction a as [|c a IH]; [by destruct b|]. rewrite str_app_cons. cbn [strip_prefix].
  by destruct (ascii_dec c c).
Qed.

(** Every offset a response can hand out as a continuation token is read back from it:
    the token passes the filter of sensitive markers (although one of the markers is the
    word "token") and parses to the offset, for every 64-bit offset. *)
Theorem continuation_token_roundtrip offset (Hmax : offset ≤ u64_max) :
  parse_continuation_token (page_token offset) = Ok offset.
Proof.
  unfold parse_continuation_token. rewrite page_token_safe by done. cbn [res_bind].
  unfold page_token. rewrite strip_prefix_app. cbn [ok_or res_bind].
  by rewrite parse_show_uint.
Qed.

(* ------------------------------------------------------------------ *)
(** ** Shrinking *)

Section read.
Context `{ResponseJson}.

Lemma set_page_id r : set_page r (rrs_items r) (rrs_truncated r) (rrs_continuation_token r) = r.
Proof. by destruct r. Qed.

(** The loop stops with a prefix of the items that fits, or with none left. *)
Lemma shrink_ok fuel limit r popped r' popped' :
  (length (rrs_items r) ≤ fuel)%nat → shrink fuel limit r popped = Ok (r', popped') →
  ∃ k, (k ≤ length (rrs_items r))%nat ∧
    r' = set_page r (take k (rrs_items r))
      (rrs_truncated r || negb (k =? length (rrs_items r))%nat) (rrs_continuation_token r) ∧
    popped' = popped || negb (k =? length (rrs_items r))%nat ∧
    ∃ size, response_to_vec_len r' = Some size ∧ (size ≤ limit ∨ rrs_items r' = []).
Proof.
  revert r popped. induction fuel as [|fuel IH]; intros r popped Hf; cbn [shrink];
    destruct (response_to_vec_len r) as [size|] eqn:Hs; try done; cbn [ok_or res_bind];
    destruct (limit <? size) eqn:Hl; simpl; [|intros [= <- <-]|case_bool_decide as He; simpl|
      intros [= <- <-]].
  - destruct (rrs_items r) eqn:He; [|simpl in Hf; lia]. simpl. intros [= <- <-].
    exists 0%nat. rewrite He. simpl. rewrite !orb_false_r.
    split_and!; [lia| |done|eauto]. rewrite <- (set_page_id r) at 1. by rewrite He.
  - exists (length (rrs_items r)). rewrite firstn_all, Nat.eqb_refl. simpl.
    rewrite !orb_false_r, set_page_id. apply N.ltb_ge in Hl.
    split_and!; [done..|]. exists size. auto.
  - intros [= <- <-]. exists 0%nat. rewrite He. simpl. rewrite !orb_false_r.
    split_and!; [lia| |done|eauto]. rewrite <- (set_page_id r) at 1. by rewrite He.
  - assert (Hlen : length (removelast (rrs_items r)) = pred (length (rrs_items r))).
    { rewrite removelast_firstn_len, length_take. lia. }
    assert (length (rrs_items r) ≠ 0%nat) by by destruct (rrs_items r).
    intros (k & Hk & -> & -> & Hsize)%IH; [|simpl; rewrite Hlen; lia].
    simpl in *. rewrite Hlen in *. exists k.
    rewrite removelast_firstn_len, take_take, Nat.min_l in * by lia.
    assert ((k =? length (rrs_items r))%nat = false) as -> by (apply Nat.eqb_neq; lia).
    rewrite orb_true_r. simpl. rewrite orb_true_r. split_and!; [lia|done|done|].
    by destruct Hsize as (sz & ? & ?); exists sz.
  - exists (length (rrs_items r)). rewrite firstn_all, Nat.eqb_refl. simpl.
    rewrite !orb_false_r, set_page_id. apply N.ltb_ge in Hl.
    split_and!; [done..|]. exists size. auto.
Qed.

(** It always ends: only the serializer can make it fail. *)
Lemma shrink_total fuel limit r popped :
  (∀ r, is_Some (response_to_vec_len r)) → ∃ x, shrink fuel limit r popped = Ok x.
Proof.
  intros Hj. revert r popped. induction fuel as [|fuel IH]; intros r popped; cbn [shrink];
    destruct (Hj r) as [size ->]; cbn [ok_or res_bind]; case_match; eauto.
Qed.

Lemma shrink_fits fuel limit r popped size :
  response_to_vec_len r = Some size → size ≤ limit → shrink fuel limit r popped = Ok (r, popped).
Proof.
  intros Hs Hl. apply N.ltb_ge in Hl. destruct fuel; cbn [shrink];
    rewrite Hs; cbn [ok_or res_bind]; by rewrite Hl.
Qed.

(* ------------------------------------------------------------------ *)
(** ** Pages *)

(** The page a request asks for, before the byte limit. *)
Definition request_page (command : ServiceReadCommandId) (s : CanonicalReadModelSnapshot)
    (start size : N) : list CanonicalReadModelSnapshotItem :=
  fst ∘ page_item READ_COMMAND_MAX_REFS_PER_RECORD <$>
    take (N.to_nat size) (drop (N.to_nat start) (matching_items command s)).
(** The page size and the offset of a request. *)
Definition request_size (q : ServiceReadCommandRequest) : N :=
  clamp 1 READ_COMMAND_MAX_ITEMS (default READ_COMMAND_MAX_ITEMS (rrq_page_size q)).
Definition request_start (q : ServiceReadCommandRequest) : result (option N) _ :=
  transpose_map parse_continuation_token (rrq_continuation_token q).

(** The token of a page of [full] items at [start], [kept] of which fitted. *)
Definition token_of (start full kept total : N) : option string :=
  if start + full <? total then Some (page_token (start + full))
  else if start + kept <? total then Some (page_token (start + kept)) else None.

Lemma matching_items_elem command s i :
  i ∈ matching_items command s ↔
  i ∈ sms_items s ∧ smi_model_category i = read_category command.
Proof. unfold matching_items. rewrite elem_of_sort_by_key, list_elem_of_filter. tauto. Qed.

Lemma matching_items_length command s :
  (length (matching_items command s) ≤ length (sms_items s))%nat.
Proof. unfold matching_items. rewrite sort_by_key_length. apply length_filter. Qed.

Lemma request_page_length command s start size :
  (length (request_page command s start size) =
   N.to_nat size `min` (length (matching_items command s) - N.to_nat start))%nat.
Proof. unfold request_page. by rewrite length_fmap, length_take, length_drop. Qed.

Lemma request_size_bounds q : 1 ≤ request_size q ≤ READ_COMMAND_MAX_ITEMS.
Proof. unfold request_size, clamp, READ_COMMAND_MAX_ITEMS. lia. Qed.

Lemma page_item_spec limit i :
  smi_model_category (page_item limit i).1 = smi_model_category i ∧
  (page_item limit i).1 = truncate_refs limit i.
Proof.
  unfold page_item. case_match eqn:E; [done|]. split; [done|]. simpl.
  apply N.ltb_ge in E. unfold truncate_refs. rewrite take_ge by (unfold len in E; lia).
  by destruct i.
Qed.

(** What a response is, when there is one. *)
Record answers (command : ServiceReadCommandId) (s : CanonicalReadModelSnapshot)
    (q : ServiceReadCommandRequest) (start : N) (r : ServiceReadCommandResponse) : Prop := {
  an_snapshot : snapshot_validate s = Ok tt;
  an_start : request_start q = Ok (Some start) ∨ request_start q = Ok None ∧ start = 0;
  an_items : ∃ k, (k ≤ length (request_page command s start (request_size q)))%nat ∧
    rrs_items r = take k (request_page command s start (request_size q));
  an_token : rrs_continuation_token r =
    token_of start (len (request_page command s start (request_size q))) (len (rrs_items r))
      (len (matching_items command s));
  an_total : rrs_total_available r = len (matching_items command s);
  an_size : ∃ size, response_to_vec_len r = Some size ∧
    size ≤ READ_COMMAND_MAX_RESPONSE_BYTES;
  an_valid : validate_with_declaration r (service_read_command_declaration command) = Ok tt
}.

Lemma saturating_ltb a b total :
  total ≤ u64_max → (saturating_add u64_max a b <? total) = (a + b <? total).
Proof.
  intros Ht. unfold saturating_add. apply eq_true_iff_eq. rewrite !N.ltb_lt. lia.
Qed.

Lemma matching_total command s :
  snapshot_validate s = Ok tt → len (matching_items command s) ≤ MAX_READ_MODEL_SNAPSHOT_ITEMS.
Proof.
  intros [Hi _]%snapshot_validate_items. pose proof (matching_items_length command s).
  unfold len in *. lia.
Qed.

(** The item list of the response before the byte limit is [request_page]. *)
Lemma paged_items command s start size :
  fst <$> (page_item READ_COMMAND_MAX_REFS_PER_RECORD <$>
    take (N.to_nat size) (drop (N.to_nat start) (matching_items command s))) =
  request_page command s start size.
Proof. unfold request_page. by rewrite <- list_fmap_compose. Qed.

Lemma finish_ok declaration start total truncated r0 r :
  finish_response declaration start total truncated r0 = Ok r →
  rrs_continuation_token r0 =
    (if start + len (rrs_items r0) <? total
     then Some (page_token (start + len (rrs_items r0))) else None) →
  (∃ k, (k ≤ length (rrs_items r0))%nat ∧ rrs_items r = take k (rrs_items r0)) ∧
  rrs_continuation_token r = token_of start (len (rrs_items r0)) (len (rrs_items r)) total ∧
  rrs_total_available r = rrs_total_available r0 ∧
  validate_with_declaration r declaration = Ok tt.
Proof.
  unfold finish_response. intros Hr Htoken.
  apply res_bind_ok in Hr as ([r1 popped] & Hshrink & Hr).
  apply shrink_ok in Hshrink as (k & Hk & -> & -> & _); [|done]. cbn [orb] in Hr.
  apply res_bind_ok in Hr as ([] & Hv & [= <-]).
  rewrite Htoken in *. unfold token_of. cbn [rrs_continuation_token rrs_items set_page] in *.
  destruct (start + len (rrs_items r0) <? total) eqn:Hfull; cbn in Hv |- *.
  { rewrite andb_false_r in *. cbn in Hv |- *. split_and!; eauto. }
  destruct (start + len (take k (rrs_items r0)) <? total) eqn:Hkept; cbn in Hv |- *.
  - assert ((k =? length (rrs_items r0))%nat = false) as Hkk.
    { apply Nat.eqb_neq. intros ->. rewrite firstn_all in Hkept. congruence. }
    rewrite Hkk, !orb_true_r in *. cbn in Hv |- *. split_and!; eauto. by rewrite Hkept.
  - rewrite andb_false_r in *. cbn in Hv |- *. rewrite ?Hkept. split_and!; eauto.
Qed.

Lemma validated_size r declaration :
  validate_with_declaration r declaration = Ok tt →
  ∃ size, response_to_vec_len r = Some size ∧ size ≤ rdd_maximum_response_size declaration.
Proof.
  unfold validate_with_declaration. autorewrite with checks. intros Hv.
  repeat match type of Hv with _ ∧ _ => destruct Hv as [_ Hv] end.
  apply res_bind_ok in Hv as (v & _ & Hv). apply chain_ok in Hv as [_ Hv].
  apply res_bind_ok in Hv as (size & Hsize%ok_or_ok & Hv%refuse_if_ok).
  apply N.ltb_ge in Hv. eauto.
Qed.

Lemma build_ok command s q w r w' :
  build_service_read_command_response command s q w = (Ok r, w') →
  ∃ start, answers command s q start r ∧ w' = (now w).2.
Proof.
  unfold build_service_read_command_response.
  destruct (declaration_validate _) as [[]|e]; cbn [res_bind]; [|done].
  destruct (snapshot_validate s) as [[]|e] eqn:Hsnap; cbn [res_bind map_err]; [|done].
  destruct (read_optional_safe_text _ _) as [[]|e]; cbn [res_bind]; [|done].
  destruct (transpose_map _ _) as [ostart|e] eqn:Hstart; cbn [res_bind]; [|done].
  cbn [rdd_maximum_item_count rdd_maximum_refs_per_record service_read_command_declaration].
  fold (request_size q). rewrite paged_items.
  pose proof (matching_total command s Hsnap) as Htotal.
  rewrite !saturating_ltb by (etrans; [done|by vm_compute]).
  unfold st_bind. destruct (now w) as [t w1] eqn:Hnow.
  destruct (response_freshness _ _ _) as [[f b] d]. unfold st_ret. intros [= Hr <-].
  exists (default 0 ostart). split; [|done].
  apply finish_ok in Hr as (Hitems & Htok & Htot & Hv); [|done]. constructor; try done.
  - unfold request_start. rewrite Hstart. destruct ostart; auto.
  - by apply validated_size in Hv.
Qed.

Lemma request_page_item command s start size i :
  snapshot_validate s = Ok tt → i ∈ request_page command s start size →
  smi_model_category i = read_category command ∧ item_validate i = Ok tt ∧
  len (smi_bounded_refs i) ≤ READ_COMMAND_MAX_REFS_PER_RECORD.
Proof.
  intros (_ & _ & Hall)%snapshot_validate_items (j & -> & Hj)%list_elem_of_fmap. simpl.
  destruct (page_item_spec READ_COMMAND_MAX_REFS_PER_RECORD j) as [Hc Hi].
  apply list_elem_of_lookup in Hj as (n & [Hj _]%lookup_take_Some).
  rewrite lookup_drop in Hj. apply list_elem_of_lookup_2 in Hj.
  apply matching_items_elem in Hj as [Hin Hcat]. rewrite Forall_forall in Hall.
  split_and!; [by rewrite Hc|rewrite Hi; by apply item_validate_take_refs, Hall|].
  rewrite Hi. simpl. unfold len. rewrite length_take. lia.
Qed.

(** A response that is produced answers its command and is bounded: at most the page
    size of at most 8 items, each one valid, of the command's category and with at most 8
    references; its JSON fits 16 KiB and 8 levels; it is redacted and carries the epoch of
    the owner. *)
Theorem read_response_bounded command s q w r w'
    (Hr : build_service_read_command_response command s q w = (Ok r, w')) :
  rrs_command_id r = command ∧
  len (rrs_items r) ≤ request_size q ≤ READ_COMMAND_MAX_ITEMS ∧
  Forall (λ i, smi_model_category i = read_category command ∧ item_validate i = Ok tt ∧
                 len (smi_bounded_refs i) ≤ READ_COMMAND_MAX_REFS_PER_RECORD) (rrs_items r) ∧
  (∃ size, response_to_vec_len r = Some size ∧ size ≤ READ_COMMAND_MAX_RESPONSE_BYTES) ∧
  (∃ value, response_to_value r = Some value ∧
     json_depth value ≤ READ_COMMAND_MAX_NESTED_DEPTH) ∧
  rrs_redaction_status r ≠ RsRedactionRequired ∧ rrs_ownership_epoch r ≠ 0.
Proof.
  apply build_ok in Hr as (start & [Hs _ (k & _ & Hk) _ _ Hsize Hv] & _).
  assert (Hall : Forall (λ i, smi_model_category i = read_category command ∧
    item_validate i = Ok tt ∧ len (smi_bounded_refs i) ≤ READ_COMMAND_MAX_REFS_PER_RECORD)
    (rrs_items r)).
  { rewrite Hk. apply Forall_take, Forall_forall. intros i. by apply request_page_item. }
  unfold validate_with_declaration in Hv. autorewrite with checks in Hv.
  cbn [rdd_command_id service_read_command_declaration] in Hv.
  destruct Hv as (_ & Hcmd & _ & _ & _ & _ & _ & _ & Hepoch & _ & Hred & _ & _ & Hv).
  apply res_bind_ok in Hv as (value & Hvalue%ok_or_ok & Hv).
  apply chain_ok in Hv as [Hdepth%refuse_if_ok%N.ltb_ge _].
  pose proof (request_page_length command s start (request_size q)) as Hp.
  pose proof (request_size_bounds q). split_and!; try done; eauto.
  - rewrite Hk. unfold len. rewrite length_take. lia.
  - lia.
Qed.

(** The continuation token of a response, on every branch: the next offset when the page
    asked for is not the last one - whether or not the byte limit dropped items from it -,
    the offset after the kept items when it is the last one and was shortened, none when
    everything from the offset on was delivered. The items are a prefix of the page. *)
Theorem read_response_token command s q w r w'
    (Hr : build_service_read_command_response command s q w = (Ok r, w')) :
  ∃ start, default (Ok 0) (parse_continuation_token <$> rrq_continuation_token q) = Ok start ∧
  let page := request_page command s start (request_size q) in
  let total := len (matching_items command s) in
  rrs_total_available r = total ∧
  (∃ k, rrs_items r = take k page) ∧
  rrs_continuation_token r =
    (if start + len page <? total then Some (page_token (start + len page))
     else if start + len (rrs_items r) <? total
     then Some (page_token (start + len (rrs_items r)))
     else None).
Proof.
  apply build_ok in Hr as (start & [Hs Hstart (k & _ & Hk) Htok Htot _ _] & _).
  exists start. split; [|by eauto].
  unfold request_start, transpose_map in Hstart. destruct (rrq_continuation_token q); simpl.
  - destruct (parse_continuation_token s0); naive_solver.
  - naive_solver.
Qed.

(** ** Walking the pages *)

(** A client that follows the tokens; [fuel] bounds the number of requests. *)
Fixpoint read_pages (fuel : nat) (command : ServiceReadCommandId)
    (s : CanonicalReadModelSnapshot) (size : option N) (token : option string)
    : ST (result (list CanonicalReadModelSnapshotItem) ReadCommandContractError) :=
  match fuel with
  | O => st_ret (Ok [])
  | S fuel =>
      let$ r := build_service_read_command_response command s (mkReadRequest size token) in
      match r with
      | Err e => st_ret (Err e)
      | Ok r =>
          match rrs_continuation_token r with
          | None => st_ret (Ok (rrs_items r))
          | Some token =>
              let$ rest := read_pages fuel command s size (Some token) in
              st_ret (let? rest := rest in Ok (rrs_items r ++ rest))
          end
      end
  end.

(** The response serializes within the limits. *)
Definition fits (r : ServiceReadCommandResponse) : Prop :=
  (∃ value, response_to_value r = Some value ∧ json_depth value ≤ READ_COMMAND_MAX_NESTED_DEPTH) ∧
  (∃ size, response_to_vec_len r = Some size ∧ size ≤ READ_COMMAND_MAX_RESPONSE_BYTES).

(** The texts of the snapshot pass the filter of the read commands too. *)
Definition readable (s : CanonicalReadModelSnapshot) : Prop :=
  snapshot_validate s = Ok tt ∧
  read_safe_text "ownership_ref" (sms_ownership_ref s) = Ok tt ∧
  read_safe_text "generation_bucket" (sms_generation_bucket s) = Ok tt ∧
  read_optional_safe_text "degraded_reason" (sms_degraded_reason s) = Ok tt ∧
  read_safe_text "provenance_id" (sms_provenance_id s) = Ok tt.

Lemma freshness_allowed (f : ReadModelSnapshotFreshness) :
  f ∈ [RfFresh; RfAging; RfStale; RfUnavailable].
Proof. destruct f; set_solver. Qed.

(** All four freshness states are allowed, so only the age changes the outcome. *)
Lemma response_freshness_reason command s age :
  read_optional_safe_text "degraded_reason" (sms_degraded_reason s) = Ok tt →
  read_optional_safe_text "degraded_reason"
    (response_freshness (service_read_command_declaration command) s age).2 = Ok tt.
Proof.
  intros Hs. unfold response_freshness.
  cbn [rdd_allowed_freshness_states service_read_command_declaration].
  destruct (_ <? age)%Z; (rewrite bool_decide_eq_true_2 by apply freshness_allowed);
    [by vm_compute|done].
Qed.

Lemma validate_intro command s r :
  readable s → fits r → rrs_command_id r = command →
  rrs_protocol_version r = READ_COMMAND_PROTOCOL_VERSION →
  rrs_schema_version r = READ_COMMAND_SCHEMA_VERSION →
  rrs_ownership_ref r = sms_ownership_ref s → rrs_ownership_epoch r = sms_ownership_epoch s →
  rrs_generation_bucket r = sms_generation_bucket s →
  rrs_provenance_id r = sms_provenance_id s → rrs_redaction_status r = RsRedacted →
  read_optional_safe_text "degraded_reason" (rrs_degraded_reason r) = Ok tt →
  read_optional_safe_text "continuation_token" (rrs_continuation_token r) = Ok tt →
  len (rrs_items r) ≤ READ_COMMAND_MAX_ITEMS →
  Forall (λ i, item_validate i = Ok tt ∧
    len (smi_bounded_refs i) ≤ READ_COMMAND_MAX_REFS_PER_RECORD) (rrs_items r) →
  validate_with_declaration r (service_read_command_declaration command) = Ok tt.
Proof.
  intros (Hs & Hown & Hgen & _ & Hprov) [(v & Hv & Hdepth) (size & Hsize & Hle)].
  intros Hc Hp Hsv Ho He Hg Hpr Hred Hdeg Htok Hlen Hitems.
  apply snapshot_validate_items in Hs as (_ & Hepoch & _).
  unfold validate_with_declaration. rewrite Hv, Hsize. cbn [ok_or res_bind].
  rewrite Hp, Hsv, Ho, He, Hg, Hpr, Hred. autorewrite with checks.
  split_and!; try done.
  - apply freshness_allowed.
  - eapply Forall_impl; [done|]. intros i [Hi Hrefs]. simpl. rewrite Hi. cbn [map_err res_bind].
    by apply refuse_if_ok, N.ltb_ge.
Qed.

(** The whole page of [size] items from [start] on, of a snapshot of the given age, as it is
    before the byte limit of the response. *)
Definition page_response (command : ServiceReadCommandId) (s : CanonicalReadModelSnapshot)
    (start size : N) (age_ms : Z) : ServiceReadCommandResponse :=
  let '(freshness, partial, reason) :=
    response_freshness (service_read_command_declaration command) s age_ms in
  let items := request_page command s start size in
  let total := len (matching_items command s) in
  {| rrs_command_id := command;
     rrs_protocol_version := READ_COMMAND_PROTOCOL_VERSION;
     rrs_schema_version := READ_COMMAND_SCHEMA_VERSION;
     rrs_snapshot_id := sms_snapshot_id s;
     rrs_ownership_ref := sms_ownership_ref s; rrs_ownership_epoch := sms_ownership_epoch s;
     rrs_generation_bucket := sms_generation_bucket s;
     rrs_freshness_state := freshness; rrs_partial_state := partial; rrs_items := items;
     rrs_total_available := total;
     rrs_truncated := (0 <? start) || (start + size <? total) ||
       existsb snd (page_item READ_COMMAND_MAX_REFS_PER_RECORD <$>
         take (N.to_nat size) (drop (N.to_nat start) (matching_items command s)));
     rrs_continuation_token :=
       if start + len items <? total then Some (page_token (start + len items)) else None;
     rrs_degraded_reason := reason; rrs_provenance_id := sms_provenance_id s;
     rrs_redaction_status := RsRedacted |}.

Lemma build_succeeds command s size token start w :
  readable s → transpose_map parse_continuation_token token = Ok start →
  read_optional_safe_text "continuation_token" token = Ok tt →
  let page := request_page command s (default 0 start) (request_size (mkReadRequest size token)) in
  (∀ age, fits (page_response command s (default 0 start)
                  (request_size (mkReadRequest size token)) age)) →
  ∃ r, build_service_read_command_response command s (mkReadRequest size token) w =
    (Ok r, (now w).2) ∧ rrs_items r = page ∧
    rrs_continuation_token r =
      if default 0 start + len page <? len (matching_items command s)
      then Some (page_token (default 0 start + len page)) else None.
Proof.
  intros Hread Hstart Htok page Hfits. pose proof Hread as (Hsnap & _ & _ & Hdeg & _).
  unfold build_service_read_command_response.
  change (declaration_validate _) with (Ok (E:=ReadCommandContractError) tt). cbn [res_bind].
  rewrite Hsnap. cbn [map_err res_bind rrq_continuation_token]. rewrite Htok, Hstart.
  cbn [res_bind rdd_maximum_item_count rdd_maximum_refs_per_record
       service_read_command_declaration].
  fold (request_size (mkReadRequest size token)). rewrite paged_items. fold page.
  pose proof (matching_total command s Hsnap) as Htotal.
  assert (Hmax : len (matching_items command s) ≤ u64_max) by (etrans; [done|by vm_compute]).
  rewrite !saturating_ltb by done. unfold st_bind.
  destruct (now w) as [t w1]. cbn [fst snd].
  pose proof (response_freshness_reason command s
    (num_milliseconds (instant t - instant (sms_generated_time_bucket s))) Hdeg) as Hreason.
  change (rdd_maximum_response_size _) with READ_COMMAND_MAX_RESPONSE_BYTES.
  specialize (Hfits (num_milliseconds
    (instant t - instant (sms_generated_time_bucket s)))). unfold page_response in Hfits.
  destruct (response_freshness _ _ _) as [[f b] d]. cbn [snd] in Hreason.
  unfold st_ret, finish_response.
  match goal with |- context [shrink _ _ ?r0 _] => set (r := r0) end.
  assert (rrs_items r = page) as Hitems by done. fold page in Hfits.
  change (fits r) in Hfits. destruct Hfits as [Hval (sz & Hsz & Hle)].
  erewrite shrink_fits by done. cbn [res_bind].
  assert (validate_with_declaration r (service_read_command_declaration command) = Ok tt) as Hv.
  { pose proof (request_page_length command s (default 0 start)
      (request_size (mkReadRequest size token))) as Hpl. fold page in Hpl.
    pose proof (request_size_bounds (mkReadRequest size token)) as Hb.
    eapply validate_intro; try done.
    - split; eauto.
    - unfold r. cbn [rrs_continuation_token]. case_match eqn:Hlt; [|done].
      apply page_token_safe. apply N.ltb_lt in Hlt. lia.
    - rewrite Hitems. unfold len. lia.
    - rewrite Hitems. apply Forall_forall. intros i Hi.
      by apply request_page_item in Hi as (_ & ? & ?). }
  exists r. rewrite Hitems.
  assert (Hif : ∀ c, (c && bool_decide (rrs_continuation_token r = None) &&
    (default 0 start + len page <? len (matching_items command s))) = false).
  { intros c. unfold r. cbn [rrs_continuation_token].
    destruct (default 0 start + len page <? _); [|apply andb_false_r].
    rewrite andb_true_r, bool_decide_eq_false_2 by (by intros [=]). apply andb_false_r. }
  rewrite Hif, Hv. done.
Qed.

(** The delivered form of an item. *)
Definition delivered : CanonicalReadModelSnapshotItem → CanonicalReadModelSnapshotItem :=
  truncate_refs READ_COMMAND_MAX_REFS_PER_RECORD.

Lemma request_page_delivered command s start size :
  request_page command s start size =
  delivered <$> take (N.to_nat size) (drop (N.to_nat start) (matching_items command s)).
Proof.
  unfold request_page. apply list_fmap_ext. intros i x _. unfold compose.
  apply page_item_spec.
Qed.

Lemma page_then_rest command s start size :
  let page := request_page command s start size in
  page ++ (delivered <$> drop (N.to_nat (start + len page)) (matching_items command s)) =
  delivered <$> drop (N.to_nat start) (matching_items command s).
Proof.
  intros page. unfold page. rewrite request_page_delivered at 1. rewrite <- fmap_app. f_equal.
  unfold len. rewrite request_page_length.
  rewrite <- (take_drop (N.to_nat size) (drop (N.to_nat start) _)) at 2. f_equal.
  rewrite drop_drop. destruct (decide (N.to_nat start + N.to_nat size ≤
    length (matching_items command s))%nat).
  - f_equal. lia.
  - rewrite !drop_ge; [done|lia..].
Qed.

Lemma read_pages_from command s size :
  readable s →
  (∀ start age, start ≤ len (matching_items command s) →
    fits (page_response command s start (request_size (mkReadRequest size None)) age)) →
  ∀ fuel token ostart w,
    transpose_map parse_continuation_token token = Ok ostart →
    read_optional_safe_text "continuation_token" token = Ok tt →
    default 0 ostart ≤ len (matching_items command s) →
    (length (matching_items command s) - N.to_nat (default 0%N ostart) < fuel)%nat →
    ∃ w', read_pages fuel command s size token w =
      (Ok (delivered <$> drop (N.to_nat (default 0 ostart)) (matching_items command s)), w').
Proof.
  intros Hread Hfits. induction fuel as [|fuel IH]; intros token ostart w Hs Ht Hle Hf; [lia|].
  destruct (build_succeeds command s size token ostart w Hread Hs Ht (λ age, Hfits _ age Hle))
    as (r & Hr & Hitems & Htok).
  cbn [read_pages]. erewrite st_bind_run by exact Hr. cbv beta iota. rewrite Htok, Hitems.
  set (start := default 0 ostart) in *.
  pose proof (page_then_rest command s start (request_size (mkReadRequest size token))) as Hrest.
  pose proof (request_page_length command s start (request_size (mkReadRequest size token))) as Hl.
  pose proof (request_size_bounds (mkReadRequest size token)) as Hb.
  cbv zeta in Hrest. set (page := request_page command s start _) in *.
  destruct (start + len page <? _) eqn:Hlt; cbv beta iota.
  - apply N.ltb_lt in Hlt. assert (start + len page ≤ u64_max) as Hmax.
    { destruct Hread as [Hsnap _]. pose proof (matching_total command s Hsnap).
      assert (MAX_READ_MODEL_SNAPSHOT_ITEMS ≤ u64_max) by by vm_compute. lia. }
    destruct (IH (Some (page_token (start + len page))) (Some (start + len page)) (now w).2)
      as [w' Hw].
    { cbn [transpose_map]. by rewrite continuation_token_roundtrip. }
    { by apply page_token_safe. }
    { cbn [from_option id]. lia. }
    { cbn [from_option id]. unfold len in *. lia. }
    erewrite st_bind_run by exact Hw. cbn [from_option id]. unfold st_ret. cbn [res_bind].
    rewrite Hrest. eauto.
  - apply N.ltb_ge in Hlt. unfold st_ret. rewrite <- Hrest.
    rewrite (drop_ge (matching_items command s)) by (unfold len in *; lia).
    rewrite app_nil_r. eauto.
Qed.

(** C33. Paging is complete: a client that asks for the first page of any size and follows
    the continuation tokens ends, after at most one request per item and one more, and
    receives every item of the category, once and in order - provided the snapshot is valid
    and its texts pass the filter of the responses, and each whole page of this snapshot, at
    whatever age it is served, serializes within the 16 KiB and the depth of a response. A
    page beyond the limit is shortened, and then an item may be skipped:
    [shortened_page_skips_items]. *)
Theorem read_pages_complete command s size w (Hread : readable s)
    (Hfits : ∀ start age, start ≤ len (matching_items command s) →
      fits (page_response command s start (request_size (mkReadRequest size None)) age)) :
  st_result (read_pages (S (length (matching_items command s))) command s size None) w =
  Ok (delivered <$> matching_items command s).
Proof.
  destruct (read_pages_from command s size Hread Hfits
    (S (length (matching_items command s))) None None w) as [w' Hw]; [done|done|simpl; lia|simpl; lia|].
  unfold st_result. by rewrite Hw.
Qed.
End read.

(* ------------------------------------------------------------------ *)
(** ** Samples *)

Module ReadSample.

Definition item (category : CanonicalReadModelCategory) (ref : string) :=
  mkSnapshotItem category RclReady RhsReady ["servicehost_canonical"] ["count_one"] [ref] None
    [] "read_command_contract" RsRedacted.
Definition snapshot : CanonicalReadModelSnapshot :=
  {| sms_snapshot_id := mkId (mkUuid 1); sms_ownership_ref := "runtime-owner-ref";
     sms_ownership_epoch := 1; sms_runtime_owner := RocServiceHost;
     sms_runtime_mode := RmServiceOwned;
     sms_schema_version := READ_MODEL_SNAPSHOT_SCHEMA_VERSION;
     sms_generation_bucket := "generation_00000001";
     sms_generated_time_bucket := mkTimestamp 0; sms_freshness_state := RfFresh;
     sms_partial_state := false;
     sms_items := item CmRisk "risk_1" ::
       (item CmComponentLifecycleHealth <$> ["ref_a"; "ref_b"; "ref_c"; "ref_d"; "ref_e"]);
     sms_degraded_reason := None; sms_missing_visibility_flags := [];
     sms_provenance_id := "read_command_contract"; sms_redaction_status := RsRedacted |}.

(** A serializer of the right shape: the texts and numbers of the response with their quotes,
    [weight] bytes for each item, and 400 for the names and the fields of fixed width. *)
Definition quoted (text : string) : N := 2 + N.of_nat (String.length text).
Definition json (weight : N) : ResponseJson :=
  {| response_to_value := λ r, Some (JObject [("items", JArray ((λ _, JNull) <$> rrs_items r))]);
     response_to_vec_len := λ r, Some (400 + weight * len (rrs_items r) +
       quoted (rrs_ownership_ref r) + quoted (show_uint (rrs_ownership_epoch r)) +
       quoted (rrs_generation_bucket r) + quoted (show_uint (rrs_total_available r)) +
       quoted (default "" (rrs_continuation_token r)) +
       quoted (default "" (rrs_degraded_reason r)) + quoted (rrs_provenance_id r)) |}.

Lemma snapshot_readable : readable snapshot.
Proof. by vm_compute. Qed.

Lemma json_depth_bound r : json_depth (JObject [("items", JArray ((λ _, JNull) <$> rrs_items r))]) ≤ 8.
Proof.
  simpl. assert (∀ l : list CanonicalReadModelSnapshotItem,
    foldr N.max 0 (map json_depth ((λ _, JNull) <$> l)) ≤ 1) as Hl.
  { induction l as [|x l IH]; [done|]. cbn. lia. }
  pose proof (Hl (rrs_items r)). lia.
Qed.

Lemma continuation_token_roundtrip_witness :
  24 ≤ u64_max ∧ parse_continuation_token (page_token 24) = Ok 24.
Proof. split; [by vm_compute|]. apply (continuation_token_roundtrip 24). by vm_compute. Defined.

Definition request : ServiceReadCommandRequest := mkReadRequest (Some 4) None.

#[local] Instance small : ResponseJson := json 1000.

Lemma read_response_bounded_witness :
  ∃ r w', build_service_read_command_response RdGetComponentOwnershipSummary snapshot request
    counting_world = (Ok r, w') ∧ len (rrs_items r) ≤ request_size request ∧
  rrs_ownership_epoch r ≠ 0.
Proof.
  eexists _, _. split; [vm_compute; reflexivity|].
  edestruct (read_response_bounded RdGetComponentOwnershipSummary snapshot request
    counting_world) as (_ & [Hl _] & _ & _ & _ & _ & He); [vm_compute; reflexivity|].
  by split.
Defined.

Lemma read_response_token_witness :
  ∃ r w', build_service_read_command_response RdGetComponentOwnershipSummary snapshot request
    counting_world = (Ok r, w') ∧ rrs_continuation_token r = Some "read_page_4".
Proof.
  eexists _, _. split; [vm_compute; reflexivity|].
  edestruct (read_response_token RdGetComponentOwnershipSummary snapshot request
    counting_world) as (start & Hs & _ & _ & Ht); [vm_compute; reflexivity|].
  vm_compute in Hs. injection Hs as <-. rewrite Ht. by vm_compute.
Defined.

Lemma pages_fit start age :
  start ≤ len (matching_items RdGetComponentOwnershipSummary snapshot) →
  fits (page_response RdGetComponentOwnershipSummary snapshot start
    (request_size (mkReadRequest (Some 2) None)) age).
Proof.
  intros Hle. split; eexists; (split; [reflexivity|]); [apply json_depth_bound|].
  change (start ≤ 5) in Hle.
  assert (start = 0 ∨ start = 1 ∨ start = 2 ∨ start = 3 ∨ start = 4 ∨ start = 5) as Hs by lia.
  unfold page_response, response_freshness. cbn [rdd_snapshot_max_age_ms
    service_read_command_declaration rdd_allowed_freshness_states].
  destruct (_ <? age)%Z; repeat destruct Hs as [->|Hs]; try subst; by vm_compute.
Qed.

Lemma read_pages_complete_witness :
  readable snapshot ∧
  st_result (read_pages 6 RdGetComponentOwnershipSummary snapshot (Some 2) None)
    counting_world =
  Ok (item CmComponentLifecycleHealth <$> ["ref_a"; "ref_b"; "ref_c"; "ref_d"; "ref_e"]).
Proof.
  split; [exact snapshot_readable|].
  apply (read_pages_complete RdGetComponentOwnershipSummary snapshot (Some 2) counting_world
    snapshot_readable).
  exact pages_fit.
Defined.
End ReadSample.

(** When the byte limit shortens a page that is not the last one, the token still names the
    end of the full page: with 4 000 bytes for each item, three of the four items asked for
    fit, the token is [read_page_4], and the walk never delivers the fourth item. *)
Example shortened_page_skips_items :
  st_result (@read_pages (ReadSample.json 4000) 6 RdGetComponentOwnershipSummary
    ReadSample.snapshot (Some 4) None) counting_world =
  Ok (ReadSample.item CmComponentLifecycleHealth <$> ["ref_a"; "ref_b"; "ref_c"; "ref_e"]).
Proof. by vm_compute. Qed.
