(* ===== verification/IpcFrames.v ===== *)
(** * Frames on the pipe ([service/elevated/src/runtime_ipc.rs])

    A message is its JSON text after its length, four bytes in little-endian order. The pipe
    is the bytes still to be read, the bytes written, and how many more bytes the other end
    takes before a write fails. [serde_json] is an argument of the two functions: what it
    makes of a value, what value it reads from a text. *)

From S2P Require Import Prelude Collections RustStr Checks.
From Stdlib Require Import Strings.Byte.

#[local] Open Scope list_scope.
#[local] Open Scope N_scope.

(* [elevated/src/runtime_ipc.rs:51-51] MAX_FRAME_BYTES *)
Definition MAX_FRAME_BYTES : N := 64 * 1024.
(* [elevated/src/runtime_ipc.rs:52-52] MAX_PAYLOAD_BYTES *)
Definition MAX_PAYLOAD_BYTES : N := 48 * 1024.

(** The kinds of [std::io::Error] the service distinguishes. *)
Inductive IoErrorKind := UnexpectedEof | BrokenPipe | ConnectionReset | ConnectionAborted | OtherKind.
Record IoError := mkIoError {
  io_kind : IoErrorKind;
  io_raw_os_error : option Z;
  io_text : string
}.

(* [elevated/src/runtime_ipc.rs] IpcFrameError *)
Inductive IpcFrameError :=
  | FrameIo (error : IoError) | FrameTooLarge (frame_len frame_max : N) | FrameJson (text : string).

(* [elevated/src/runtime_ipc.rs] Display for IpcFrameError::fmt *)
Definition frame_error_to_string (e : IpcFrameError) : string :=
  match e with
  | FrameIo error => "IPC frame IO failed: " ++ io_text error
  | FrameTooLarge len max =>
      "IPC frame is too large: " ++ show_uint len ++ " > " ++ show_uint max
  | FrameJson error => "IPC frame JSON failed: " ++ error
  end%string.

(* [elevated/src/runtime_ipc.rs] ipc_frame_is_closed_pipe *)
Definition ipc_frame_is_closed_pipe (error : IpcFrameError) : bool :=
  match error with
  | FrameIo error =>
      match io_kind error with
      | UnexpectedEof | BrokenPipe | ConnectionReset | ConnectionAborted => true
      | OtherKind => false
      end || bool_decide (io_raw_os_error error = Some 232%Z)
  | _ => false
  end.

(** ** The pipe *)

Record Pipe := mkPipe {
  pipe_input : list byte;
  pipe_output : list byte;
  pipe_room : N;
  pipe_error : IoError
}.

(** [writer.write_all(bytes)]: what does not fit any more is lost, with the error. *)
Definition write_all (pipe : Pipe) (bytes : list byte) : Pipe * result unit IpcFrameError :=
  let fitting := take (N.to_nat (pipe_room pipe)) bytes in
  let pipe' := mkPipe (pipe_input pipe) (pipe_output pipe ++ fitting)
    (pipe_room pipe - len bytes) (pipe_error pipe) in
  (pipe', refuse_if (pipe_room pipe <? len bytes) (FrameIo (pipe_error pipe))).

(** [writer.flush()]: every writer of the service is a [std::fs::File] on the handle of the
    pipe, and a file keeps no buffer of its own: its [flush] does nothing and succeeds. *)
Definition flush (pipe : Pipe) : Pipe * result unit IpcFrameError := (pipe, Ok tt).

(** [reader.read_exact(&mut buffer)] for a buffer of [n] bytes. *)
Definition read_exact (pipe : Pipe) (n : N) : Pipe * result (list byte) IpcFrameError :=
  let read input := mkPipe input (pipe_output pipe) (pipe_room pipe) (pipe_error pipe) in
  if len (pipe_input pipe) <? n
  then (read [], Err (FrameIo (mkIoError UnexpectedEof None "failed to fill whole buffer")))
  else (read (drop (N.to_nat n) (pipe_input pipe)), Ok (take (N.to_nat n) (pipe_input pipe))).

(** [value.to_le_bytes()] and [u32::from_le_bytes(bytes)]. *)
Definition byte_of (n : N) : byte := default x00 (Byte.of_N (n mod 256)).
Definition u32_to_le_bytes (n : N) : list byte :=
  [byte_of n; byte_of (n / 256); byte_of (n / 65536); byte_of (n / 16777216)].
Definition u32_from_le_bytes (bytes : list byte) : N :=
  foldr (λ b acc, Byte.to_N b + 256 * acc) 0 bytes.

(* [elevated/src/runtime_ipc.rs] write_json_frame *)
Definition write_json_frame {A} (to_vec : A → result (list byte) string) (writer : Pipe)
    (value : A) : Pipe * result unit IpcFrameError :=
  match to_vec value with
  | Err error => (writer, Err (FrameJson error))
  | Ok payload =>
      if MAX_FRAME_BYTES <? len payload
      then (writer, Err (FrameTooLarge (len payload) MAX_FRAME_BYTES))
      else
        let '(writer, written) := write_all writer (u32_to_le_bytes (len payload mod 2 ^ 32)) in
        match written with
        | Err error => (writer, Err error)
        | Ok _ =>
            let '(writer, written) := write_all writer payload in
            match written with
            | Err error => (writer, Err error)
            | Ok _ => flush writer
            end
        end
  end.

(* [elevated/src/runtime_ipc.rs] read_json_frame *)
Definition read_json_frame {A} (from_slice : list byte → result A string) (reader : Pipe)
    : Pipe * result A IpcFrameError :=
  match read_exact reader 4 with
  | (reader, Err error) => (reader, Err error)
  | (reader, Ok len_bytes) =>
      let len := u32_from_le_bytes len_bytes in
      if MAX_FRAME_BYTES <? len then (reader, Err (FrameTooLarge len MAX_FRAME_BYTES))
      else
        match read_exact reader len with
        | (reader, Err error) => (reader, Err error)
        | (reader, Ok payload) => (reader, map_err FrameJson (from_slice payload))
        end
  end.

(* [elevated/src/runtime_ipc.rs] write_json_frame_or_closed *)
Definition write_json_frame_or_closed {A} (to_vec : A → result (list byte) string)
    (writer : Pipe) (value : A) : Pipe * result unit IpcFrameError :=
  match write_json_frame to_vec writer value with
  | (writer, Ok _) => (writer, Ok tt)
  | (writer, Err error) =>
      if ipc_frame_is_closed_pipe error then (writer, Ok tt) else (writer, Err error)
  end.

(* ------------------------------------------------------------------ *)
(** ** Lemmas *)

Lemma byte_of_to_N n : Byte.to_N (byte_of n) = n mod 256.
Proof.
  unfold byte_of. assert (Hn : n mod 256 < 256) by (apply N.mod_lt; lia).
  destruct (Byte.of_N (n mod 256)) as [b|] eqn:Hb.
  - by apply Byte.to_of_N in Hb.
  - apply Byte.of_N_None_iff in Hb. lia.
Qed.

Lemma u32_roundtrip n : n < 2 ^ 32 → u32_from_le_bytes (u32_to_le_bytes n) = n.
Proof.
  intros Hn. unfold u32_from_le_bytes, u32_to_le_bytes. cbn [foldr].
  rewrite !byte_of_to_N.
  pose proof (N.div_mod n 256). pose proof (N.div_mod (n / 256) 256).
  pose proof (N.div_mod (n / 65536) 256).
  replace (n / 65536) with (n / 256 / 256) in * by (rewrite N.Div0.div_div; done).
  replace (n / 16777216) with (n / 256 / 256 / 256) in * by (rewrite !N.Div0.div_div; done).
  assert (n / 256 / 256 / 256 < 256) as Hlast.
  { rewrite !N.Div0.div_div. apply N.Div0.div_lt_upper_bound. exact Hn. }
  rewrite (N.mod_small (n / 256 / 256 / 256)) by done. lia.
Qed.

Lemma write_all_room p bytes :
  len bytes ≤ pipe_room p →
  write_all p bytes = (mkPipe (pipe_input p) (pipe_output p ++ bytes)
    (pipe_room p - len bytes) (pipe_error p), Ok tt).
Proof.
  intros Hr. unfold write_all. rewrite take_ge by (unfold len in Hr; lia).
  unfold refuse_if. by replace (pipe_room p <? len bytes) with false by
    (symmetry; by apply N.ltb_ge).
Qed.

Lemma read_exact_app p a b :
  pipe_input p = a ++ b →
  read_exact p (len a) = (mkPipe b (pipe_output p) (pipe_room p) (pipe_error p), Ok a).
Proof.
  intros Hin. unfold read_exact. rewrite Hin, len_app.
  replace (len a + len b <? len a) with false by (symmetry; apply N.ltb_ge; lia).
  unfold len. rewrite Nat2N.id, drop_app_length, take_app_length. done.
Qed.

(** The bytes of a frame. *)
Definition frame (payload : list byte) : list byte := u32_to_le_bytes (len payload) ++ payload.

Lemma write_frame_room {A} (to_vec : A → result (list byte) string) p v payload :
  to_vec v = Ok payload → len payload ≤ MAX_FRAME_BYTES → 4 + len payload ≤ pipe_room p →
  write_json_frame to_vec p v =
    (mkPipe (pipe_input p) (pipe_output p ++ frame payload)
       (pipe_room p - 4 - len payload) (pipe_error p), Ok tt).
Proof.
  intros Hv Hmax Hroom. unfold write_json_frame. rewrite Hv.
  replace (MAX_FRAME_BYTES <? len payload) with false by (symmetry; by apply N.ltb_ge).
  rewrite N.mod_small by (eapply N.le_lt_trans; [exact Hmax|by vm_compute]).
  rewrite write_all_room by (change (len (u32_to_le_bytes (len payload))) with 4; lia).
  change (len (u32_to_le_bytes (len payload))) with 4.
  rewrite write_all_room by (simpl; lia). simpl. unfold frame. by rewrite app_assoc.
Qed.

Lemma read_frame_app {A} (from_slice : list byte → result A string) p payload rest :
  pipe_input p = frame payload ++ rest → len payload ≤ MAX_FRAME_BYTES →
  read_json_frame from_slice p =
    (mkPipe rest (pipe_output p) (pipe_room p) (pipe_error p),
     map_err FrameJson (from_slice payload)).
Proof.
  intros Hin Hmax. unfold read_json_frame. unfold frame in Hin. rewrite <- app_assoc in Hin.
  change 4 with (len (u32_to_le_bytes (len payload))). rewrite (read_exact_app _ _ _ Hin).
  rewrite u32_roundtrip by (eapply N.le_lt_trans; [exact Hmax|by vm_compute]).
  replace (MAX_FRAME_BYTES <? len payload) with false by (symmetry; by apply N.ltb_ge).
  by erewrite read_exact_app by reflexivity.
Qed.

(** Writing one value after the other, and reading as many. *)
Fixpoint write_frames {A} (to_vec : A → result (list byte) string) (p : Pipe) (vs : list A)
    : Pipe * result unit IpcFrameError :=
  match vs with
  | [] => (p, Ok tt)
  | v :: vs =>
      match write_json_frame to_vec p v with
      | (p, Ok _) => write_frames to_vec p vs
      | (p, Err e) => (p, Err e)
      end
  end.
Fixpoint read_frames {A} (from_slice : list byte → result A string) (p : Pipe) (n : nat)
    : Pipe * result (list A) IpcFrameError :=
  match n with
  | O => (p, Ok [])
  | S n =>
      match read_json_frame from_slice p with
      | (p, Ok v) => let '(p, vs) := read_frames from_slice p n in
                     (p, let? vs := vs in Ok (v :: vs))
      | (p, Err e) => (p, Err e)
      end
  end.
(** The bytes the frames of some values take, when they can be sent at all. *)
Definition frames_of {A} (to_vec : A → result (list byte) string) (vs : list A) : list byte :=
  concat ((λ v, match to_vec v with Ok payload => frame payload | Err _ => [] end) <$> vs).

Lemma write_frames_ok {A} (to_vec : A → result (list byte) string) p vs :
  Forall (λ v, ∃ payload, to_vec v = Ok payload ∧ len payload ≤ MAX_FRAME_BYTES) vs →
  len (frames_of to_vec vs) ≤ pipe_room p →
  ∃ p', write_frames to_vec p vs = (p', Ok tt) ∧
    pipe_output p' = pipe_output p ++ frames_of to_vec vs.
Proof.
  revert p. induction vs as [|v vs IH]; intros p Hall Hroom; cbn [write_frames].
  { exists p. by rewrite app_nil_r. }
  apply Forall_cons in Hall as [(payload & Hv & Hmax) Hall].
  unfold frames_of in *. rewrite fmap_cons in *. cbn [concat] in *. rewrite Hv in *.
  rewrite len_app in Hroom. unfold frame in Hroom at 1. rewrite len_app in Hroom.
  change (len (u32_to_le_bytes (len payload))) with 4 in Hroom.
  erewrite write_frame_room by (done || lia).
  destruct (IH (mkPipe (pipe_input p) (pipe_output p ++ frame payload)
    (pipe_room p - 4 - len payload) (pipe_error p)) Hall) as (p' & Hp & Ho); [simpl; lia|].
  exists p'. split; [done|]. rewrite Ho. simpl. by rewrite <- app_assoc.
Qed.

(** C37. Messages arrive as they were sent: for a serializer that reads back what it writes,
    values whose text fits a frame are written one after the other to a pipe with enough
    room, and the other end, which also receives whatever is sent later, reads exactly
    these values in this order and leaves the rest. *)
Theorem frames_roundtrip {A} (to_vec : A → result (list byte) string)
    (from_slice : list byte → result A string) (p q : Pipe) (vs : list A) (rest : list byte)
    (Hjson : Forall (λ v, ∃ payload, to_vec v = Ok payload ∧ from_slice payload = Ok v ∧
                                     len payload ≤ MAX_FRAME_BYTES) vs)
    (Hroom : len (frames_of to_vec vs) ≤ pipe_room p)
    (Hq : pipe_input q = frames_of to_vec vs ++ rest) :
  (∃ p', write_frames to_vec p vs = (p', Ok tt) ∧
     pipe_output p' = pipe_output p ++ frames_of to_vec vs) ∧
  ∃ q', read_frames from_slice q (length vs) = (q', Ok vs) ∧ pipe_input q' = rest.
Proof.
  split.
  { apply write_frames_ok; [|done]. eapply Forall_impl; [exact Hjson|]. naive_solver. }
  clear Hroom. revert q Hq. induction Hjson as [|v vs (payload & Hv & Hf & Hmax) Hall IH];
    intros q Hq; cbn [read_frames length].
  { by exists q. }
  unfold frames_of in *. rewrite fmap_cons in Hq. cbn [concat] in Hq. rewrite Hv in Hq.
  rewrite <- app_assoc in Hq. erewrite read_frame_app by done. rewrite Hf. cbn [map_err].
  match goal with |- context [read_frames _ ?q1 _] => destruct (IH q1) as (q' & Hr & Hi) end;
    [done|]. rewrite Hr. cbn [res_bind]. by exists q'.
Qed.

(** A frame is bounded in both directions: a text of more than 64 KiB is refused before
    a byte is written; a length of more than 64 KiB is refused when only the four bytes of
    the length have been read, whatever follows. *)
Theorem frame_size_enforced {A} (to_vec : A → result (list byte) string)
    (from_slice : list byte → result A string) (p : Pipe) (v : A) :
  (∀ payload, to_vec v = Ok payload → MAX_FRAME_BYTES < len payload →
     write_json_frame to_vec p v = (p, Err (FrameTooLarge (len payload) MAX_FRAME_BYTES))) ∧
  (∀ n rest, MAX_FRAME_BYTES < n < 2 ^ 32 → pipe_input p = u32_to_le_bytes n ++ rest →
     read_json_frame from_slice p =
       (mkPipe rest (pipe_output p) (pipe_room p) (pipe_error p),
        Err (FrameTooLarge n MAX_FRAME_BYTES))).
Proof.
  split.
  - intros payload Hv Hn%N.ltb_lt. unfold write_json_frame. by rewrite Hv, Hn.
  - intros n rest [Hn Hu] Hin. unfold read_json_frame.
    change 4 with (len (u32_to_le_bytes n)). rewrite (read_exact_app _ _ _ Hin).
    rewrite u32_roundtrip by done. by apply N.ltb_lt in Hn as ->.
Qed.

(** ** Concrete frames *)
Module FrameSample.
Definition pipe (input : list byte) (room : N) : Pipe :=
  mkPipe input [] room (mkIoError BrokenPipe None "The pipe is being closed.").
Definition texts : list (list byte) := [[x7b; x7d]; []; [x31]].

Lemma frames_roundtrip_witness :
  let p := pipe [] 100 in let q := pipe (frames_of Ok texts ++ [x00]) 0 in
  (∃ p', write_frames Ok p texts = (p', Ok tt) ∧ pipe_output p' = [] ++ frames_of Ok texts) ∧
  ∃ q', read_frames Ok q 3 = (q', Ok texts) ∧ pipe_input q' = [x00].
Proof.
  apply (frames_roundtrip Ok Ok (pipe [] 100) (pipe (frames_of Ok texts ++ [x00]) 0) texts [x00]).
  - repeat constructor; eexists; (split; [reflexivity|]); (split; [reflexivity|by vm_compute]).
  - by vm_compute.
  - reflexivity.
Defined.

Lemma frame_size_enforced_witness :
  let big := replicate (N.to_nat 65537) x20 in
  write_json_frame Ok (pipe [] 100000) big =
    (pipe [] 100000, Err (FrameTooLarge (len big) MAX_FRAME_BYTES)) ∧
  read_json_frame (A := list byte) Ok (pipe (u32_to_le_bytes 65537 ++ [x31]) 0) =
    (pipe [x31] 0, Err (FrameTooLarge 65537 MAX_FRAME_BYTES)).
Proof.
  split.
  - apply (proj1 (frame_size_enforced Ok Ok (pipe [] 100000) (replicate (N.to_nat 65537) x20)));
      [reflexivity|by vm_compute].
  - apply (proj2 (frame_size_enforced Ok Ok (pipe (u32_to_le_bytes 65537 ++ [x31]) 0) []));
      [by vm_compute|reflexivity].
Defined.
End FrameSample.
