(* ===== verification/ServiceIpc.v ===== *)
(** * Service IPC ([service/elevated/src/runtime_ipc.rs])

    What one session of the named pipe is made of: the commands and their names, the errors,
    the allow-list, the rate limiter, the nonce cache, the handshake messages, the envelopes
    and the classification of the caller's token. The dispatcher is in [ServiceDispatch].
    Instants are nanoseconds of the monotonic clock. Constructor prefixes: [Sc] command,
    [Al] access level. Field prefixes: [ie_] error, [ch_] client hello, [sh_] server hello,
    [cv_] client verify, [sv_] server verify, [env_] envelope, [ses_] session, [tk_] token,
    [cp_] caller policy. *)

From S2P Require Import Prelude Collections RustStr Effects Contracts Checks CallerVerification.
From S2P Require Import MutationPolicy ReadModels ReadCommands IpcFrames.

#[local] Open Scope string_scope.
#[local] Open Scope list_scope.
#[local] Open Scope N_scope.

(* [elevated/src/runtime_ipc.rs:49-49] IPC_PROTOCOL_VERSION *)
Definition IPC_PROTOCOL_VERSION : N := 1.
(* [elevated/src/runtime_ipc.rs:50-50] RUNTIME_IPC_SCHEMA_VERSION *)
Definition RUNTIME_IPC_SCHEMA_VERSION : SchemaVersion := mkVersion 1 0 0.
(* [elevated/src/runtime_ipc.rs:53-53] PRODUCTION_MUTATION_COMMANDS_ENABLED *)
Definition PRODUCTION_MUTATION_COMMANDS_ENABLED : bool := true.
(* [elevated/src/runtime_ipc.rs:55-55] RATE_LIMIT_WINDOW *)
Definition RATE_LIMIT_WINDOW : N := 1000000000.
(* [elevated/src/runtime_ipc.rs:56-56] READ_COMMAND_RATE_LIMIT *)
Definition READ_COMMAND_RATE_LIMIT : N := 120.
(* [elevated/src/runtime_ipc.rs:57-57] REPLAY_CACHE_LIMIT *)
Definition REPLAY_CACHE_LIMIT : nat := 256.
(* [elevated/src/runtime_ipc.rs:58-58] MAX_REQUESTS_PER_SESSION *)
Definition MAX_REQUESTS_PER_SESSION : N := 64.

(* ------------------------------------------------------------------ *)
(** ** Commands *)

(* [elevated/src/runtime_ipc.rs] ServiceCommand *)
Inductive ServiceCommand :=
  | ScPing | ScStatus | ScCaptureHealth | ScProcessSnapshot | ScEvaluateMutationIntent
  | ScActivateIpHelper | ScSampleIpHelperOnce | ScStopIpHelper | ScActivateEtw | ScPauseEtw
  | ScResumeEtw | ScStopEtw | ScActivateDnsSensing | ScPauseDnsSensing | ScResumeDnsSensing
  | ScStopDnsSensing | ScActivateAuthRemoteSensing | ScPauseAuthRemoteSensing
  | ScResumeAuthRemoteSensing | ScStopAuthRemoteSensing | ScConfigureIpHelperSchedule
  | ScEnableIpHelperSchedule | ScPauseIpHelperSchedule | ScResumeIpHelperSchedule
  | ScDisableIpHelperSchedule
  | ScRead (command : ServiceReadCommandId).
#[export] Instance ServiceCommand_eq_dec : EqDecision ServiceCommand.
Proof. solve_decision. Defined.

(* [elevated/src/runtime_ipc.rs] ServiceCommand::as_str *)
Definition command_as_str (self : ServiceCommand) : string :=
  match self with
  | ScPing => "ping"
  | ScStatus => "status"
  | ScCaptureHealth => "capture_health"
  | ScProcessSnapshot => "process_snapshot"
  | ScEvaluateMutationIntent => "evaluate_mutation_intent"
  | ScActivateIpHelper => "activate_ip_helper"
  | ScSampleIpHelperOnce => "sample_ip_helper_once"
  | ScStopIpHelper => "stop_ip_helper"
  | ScActivateEtw => "activate_etw"
  | ScPauseEtw => "pause_etw"
  | ScResumeEtw => "resume_etw"
  | ScStopEtw => "stop_etw"
  | ScActivateDnsSensing => "activate_dns_sensing"
  | ScPauseDnsSensing => "pause_dns_sensing"
  | ScResumeDnsSensing => "resume_dns_sensing"
  | ScStopDnsSensing => "stop_dns_sensing"
  | ScActivateAuthRemoteSensing => "activate_auth_remote_sensing"
  | ScPauseAuthRemoteSensing => "pause_auth_remote_sensing"
  | ScResumeAuthRemoteSensing => "resume_auth_remote_sensing"
  | ScStopAuthRemoteSensing => "stop_auth_remote_sensing"
  | ScConfigureIpHelperSchedule => "configure_ip_helper_schedule"
  | ScEnableIpHelperSchedule => "enable_ip_helper_schedule"
  | ScPauseIpHelperSchedule => "pause_ip_helper_schedule"
  | ScResumeIpHelperSchedule => "resume_ip_helper_schedule"
  | ScDisableIpHelperSchedule => "disable_ip_helper_schedule"
  | ScRead command => read_command_as_str command
  end.

(* [elevated/src/runtime_ipc.rs] IpcError *)
Record IpcError := mkIpcError {
  ie_code : string;
  ie_message : string;
  ie_retryable : bool
}.
(* [elevated/src/runtime_ipc.rs] IpcError::schema *)
Definition ipc_schema (message : string) : IpcError := mkIpcError "SCHEMA_VALIDATION_ERROR" message false.
(* [elevated/src/runtime_ipc.rs] IpcError::command_not_allowed *)
Definition ipc_command_not_allowed (message : string) : IpcError := mkIpcError "COMMAND_NOT_ALLOWED" message false.
(* [elevated/src/runtime_ipc.rs] IpcError::insufficient_level *)
Definition ipc_insufficient_level (message : string) : IpcError := mkIpcError "INSUFFICIENT_LEVEL" message false.
(* [elevated/src/runtime_ipc.rs] IpcError::rate_limited *)
Definition ipc_rate_limited (message : string) : IpcError := mkIpcError "RATE_LIMITED" message true.
(* [elevated/src/runtime_ipc.rs] IpcError::internal *)
Definition ipc_internal (message : string) : IpcError := mkIpcError "SERVICE_ERROR" message true.
(* [elevated/src/runtime_ipc.rs] IpcError::protocol *)
Definition ipc_protocol (message : string) : IpcError := mkIpcError "PROTOCOL_ERROR" message false.
(* [elevated/src/runtime_ipc.rs] IpcError::replay *)
Definition ipc_replay (message : string) : IpcError := mkIpcError "REPLAY_REJECTED" message false.
(* [elevated/src/runtime_ipc.rs] IpcError::invalid_sequence *)
Definition ipc_invalid_sequence (message : string) : IpcError := mkIpcError "INVALID_SEQUENCE" message false.
(* [elevated/src/runtime_ipc.rs] IpcError::caller_rejected *)
Definition ipc_caller_rejected (message : string) : IpcError := mkIpcError "CALLER_REJECTED" message false.

(** The arms of the [match] on the text. *)
(* [elevated/src/runtime_ipc.rs] ServiceCommand::parse *)
Definition command_arms : list (string * ServiceCommand) :=
  [("ping", ScPing);
   ("status", ScStatus);
   ("capture_health", ScCaptureHealth);
   ("process_snapshot", ScProcessSnapshot);
   ("evaluate_mutation_intent", ScEvaluateMutationIntent);
   ("activate_ip_helper", ScActivateIpHelper);
   ("sample_ip_helper_once", ScSampleIpHelperOnce);
   ("stop_ip_helper", ScStopIpHelper);
   ("activate_etw", ScActivateEtw);
   ("pause_etw", ScPauseEtw);
   ("resume_etw", ScResumeEtw);
   ("stop_etw", ScStopEtw);
   ("activate_dns_sensing", ScActivateDnsSensing);
   ("pause_dns_sensing", ScPauseDnsSensing);
   ("resume_dns_sensing", ScResumeDnsSensing);
   ("stop_dns_sensing", ScStopDnsSensing);
   ("activate_auth_remote_sensing", ScActivateAuthRemoteSensing);
   ("pause_auth_remote_sensing", ScPauseAuthRemoteSensing);
   ("resume_auth_remote_sensing", ScResumeAuthRemoteSensing);
   ("stop_auth_remote_sensing", ScStopAuthRemoteSensing);
   ("configure_ip_helper_schedule", ScConfigureIpHelperSchedule);
   ("enable_ip_helper_schedule", ScEnableIpHelperSchedule);
   ("pause_ip_helper_schedule", ScPauseIpHelperSchedule);
   ("resume_ip_helper_schedule", ScResumeIpHelperSchedule);
   ("disable_ip_helper_schedule", ScDisableIpHelperSchedule)].

(* [elevated/src/runtime_ipc.rs] ServiceCommand::parse *)
Definition command_parse (value : string) : result ServiceCommand IpcError :=
  match list_find (λ arm, value = arm.1) command_arms with
  | Some (_, (_, command)) => Ok command
  | None =>
      match read_command_parse value with
      | Ok command => Ok (ScRead command)
      | Err _ => Err (ipc_command_not_allowed "command is not allowlisted")
      end
  end.

(* [elevated/src/runtime_ipc.rs] ServiceCommand::allowed_command_class *)
Definition allowed_command_class (self : ServiceCommand) : AllowedCommandClass :=
  match self with
  | ScPing | ScStatus | ScCaptureHealth | ScProcessSnapshot => AcReadStatus
  | ScEvaluateMutationIntent => AcMutationAuthorizationEvaluation
  | ScActivateIpHelper | ScSampleIpHelperOnce | ScStopIpHelper | ScActivateEtw | ScPauseEtw
  | ScResumeEtw | ScStopEtw | ScActivateDnsSensing | ScPauseDnsSensing | ScResumeDnsSensing
  | ScStopDnsSensing | ScActivateAuthRemoteSensing | ScPauseAuthRemoteSensing
  | ScResumeAuthRemoteSensing | ScStopAuthRemoteSensing | ScConfigureIpHelperSchedule
  | ScEnableIpHelperSchedule | ScPauseIpHelperSchedule | ScResumeIpHelperSchedule
  | ScDisableIpHelperSchedule => AcFutureUserMutationCandidate
  | ScRead _ => AcReadCanonicalModels
  end.

(* [elevated/src/runtime_ipc.rs] IpcAccessLevel *)
Inductive IpcAccessLevel := AlNone | AlRead.
#[export] Instance IpcAccessLevel_eq_dec : EqDecision IpcAccessLevel.
Proof. solve_decision. Defined.
(* [elevated/src/runtime_ipc.rs] IpcAccessLevel::permits *)
Definition access_permits (self required : IpcAccessLevel) : bool :=
  match self, required with AlRead, AlRead => true | _, _ => false end.
(** [format!("{:?}", level)] *)
Definition access_debug (level : IpcAccessLevel) : string :=
  match level with AlNone => "None" | AlRead => "Read" end.

(* [elevated/src/runtime_ipc.rs] CommandAllowlist::read_only_v1 *)
Definition read_only_v1 : list (ServiceCommand * IpcAccessLevel) :=
  ((λ command, (command, AlRead)) <$>
    [ScPing; ScStatus; ScCaptureHealth; ScProcessSnapshot; ScEvaluateMutationIntent;
     ScActivateIpHelper; ScSampleIpHelperOnce; ScStopIpHelper; ScActivateEtw; ScPauseEtw;
     ScResumeEtw; ScStopEtw; ScActivateDnsSensing; ScPauseDnsSensing; ScResumeDnsSensing;
     ScStopDnsSensing; ScActivateAuthRemoteSensing; ScPauseAuthRemoteSensing;
     ScResumeAuthRemoteSensing; ScStopAuthRemoteSensing; ScConfigureIpHelperSchedule;
     ScEnableIpHelperSchedule; ScPauseIpHelperSchedule; ScResumeIpHelperSchedule;
     ScDisableIpHelperSchedule]) ++
  ((λ command, (ScRead command, AlRead)) <$> all_read_commands).

(* [elevated/src/runtime_ipc.rs] CommandAllowlist::ensure_allowed *)
Definition ensure_allowed (entries : list (ServiceCommand * IpcAccessLevel))
    (command : ServiceCommand) (caller_level : IpcAccessLevel) : result unit IpcError :=
  match list_find (λ entry, entry.1 = command) entries with
  | None =>
      Err (ipc_command_not_allowed
        ("command is not allowlisted: " ++ command_as_str command)%string)
  | Some (_, (_, required)) =>
      refuse_if (negb (access_permits caller_level required))
        (ipc_insufficient_level
          ("command requires " ++ access_debug required ++ " access")%string)
  end.

(** *** The commands that change a provider *)

(* [elevated/src/runtime_ipc.rs] ip_helper_mutation_command_id *)
Definition ip_helper_mutation_command_id (command : ServiceCommand) : option MutationCommandId :=
  match command with
  | ScActivateIpHelper => Some McActivateIpHelperProvider
  | ScSampleIpHelperOnce => Some McSampleIpHelperNow
  | ScStopIpHelper => Some McStopIpHelper
  | _ => None
  end.

(* [elevated/src/runtime_ipc.rs] etw_mutation_command_id *)
Definition etw_mutation_command_id (command : ServiceCommand) : option MutationCommandId :=
  match command with
  | ScActivateEtw => Some McActivateEtwProvider
  | ScPauseEtw => Some McPauseEtwProvider
  | ScResumeEtw => Some McResumeEtwProvider
  | ScStopEtw => Some McStopEtwProvider
  | ScActivateDnsSensing => Some McActivateDnsSensing
  | ScPauseDnsSensing => Some McPauseDnsSensing
  | ScResumeDnsSensing => Some McResumeDnsSensing
  | ScStopDnsSensing => Some McStopDnsSensing
  | ScActivateAuthRemoteSensing => Some McActivateAuthRemoteSensing
  | ScPauseAuthRemoteSensing => Some McPauseAuthRemoteSensing
  | ScResumeAuthRemoteSensing => Some McResumeAuthRemoteSensing
  | ScStopAuthRemoteSensing => Some McStopAuthRemoteSensing
  | _ => None
  end.

(* [elevated/src/runtime_ipc.rs] ip_helper_schedule_command_id *)
Definition ip_helper_schedule_command_id (command : ServiceCommand) : option MutationCommandId :=
  match command with
  | ScConfigureIpHelperSchedule => Some McConfigureIpHelperSchedule
  | ScEnableIpHelperSchedule => Some McEnableIpHelperSchedule
  | ScPauseIpHelperSchedule => Some McPauseIpHelperSchedule
  | ScResumeIpHelperSchedule => Some McResumeIpHelperSchedule
  | ScDisableIpHelperSchedule => Some McDisableIpHelperSchedule
  | _ => None
  end.

(* [elevated/src/runtime_ipc.rs] provider_authorized_event *)
Definition provider_authorized_event (command : MutationCommandId) : string :=
  match command with
  | McActivateIpHelperProvider => "ip_helper_activation_authorized"
  | McSampleIpHelperNow => "ip_helper_sample_authorized"
  | McStopIpHelper => "ip_helper_stop_authorized"
  | McActivateEtwProvider => "etw_activation_authorized"
  | McPauseEtwProvider => "etw_pause_authorized"
  | McResumeEtwProvider => "etw_resume_authorized"
  | McStopEtwProvider => "etw_stop_authorized"
  | McActivateDnsSensing => "dns_sensing_activation_authorized"
  | McPauseDnsSensing => "dns_sensing_pause_authorized"
  | McResumeDnsSensing => "dns_sensing_resume_authorized"
  | McStopDnsSensing => "dns_sensing_stop_authorized"
  | McActivateAuthRemoteSensing => "auth_remote_sensing_activation_authorized"
  | McPauseAuthRemoteSensing => "auth_remote_sensing_pause_authorized"
  | McResumeAuthRemoteSensing => "auth_remote_sensing_resume_authorized"
  | McStopAuthRemoteSensing => "auth_remote_sensing_stop_authorized"
  | McConfigureIpHelperSchedule => "ip_helper_schedule_configure_authorized"
  | McEnableIpHelperSchedule => "ip_helper_schedule_enable_authorized"
  | McPauseIpHelperSchedule => "ip_helper_schedule_pause_authorized"
  | McResumeIpHelperSchedule => "ip_helper_schedule_resume_authorized"
  | McDisableIpHelperSchedule => "ip_helper_schedule_disable_authorized"
  | _ => "provider_execution_rejected"
  end.

(* [elevated/src/runtime_ipc.rs] etw_started_event *)
Definition etw_started_event (command : MutationCommandId) : string :=
  match command with
  | McActivateEtwProvider => "etw_activation_started"
  | McPauseEtwProvider => "etw_pause_started"
  | McResumeEtwProvider => "etw_resume_started"
  | McStopEtwProvider => "etw_stop_started"
  | McActivateDnsSensing => "dns_sensing_activation_started"
  | McPauseDnsSensing => "dns_sensing_pause_started"
  | McResumeDnsSensing => "dns_sensing_resume_started"
  | McStopDnsSensing => "dns_sensing_stop_started"
  | McActivateAuthRemoteSensing => "auth_remote_sensing_activation_started"
  | McPauseAuthRemoteSensing => "auth_remote_sensing_pause_started"
  | McResumeAuthRemoteSensing => "auth_remote_sensing_resume_started"
  | McStopAuthRemoteSensing => "auth_remote_sensing_stop_started"
  | _ => "etw_execution_rejected"
  end.

(* [elevated/src/runtime_ipc.rs] etw_completed_event *)
Definition etw_completed_event (command : MutationCommandId) : string :=
  match command with
  | McActivateEtwProvider => "etw_activation_completed"
  | McPauseEtwProvider => "etw_pause_completed"
  | McResumeEtwProvider => "etw_resume_completed"
  | McStopEtwProvider => "etw_stop_completed"
  | McActivateDnsSensing => "dns_sensing_activation_completed"
  | McPauseDnsSensing => "dns_sensing_pause_completed"
  | McResumeDnsSensing => "dns_sensing_resume_completed"
  | McStopDnsSensing => "dns_sensing_stop_completed"
  | McActivateAuthRemoteSensing => "auth_remote_sensing_activation_completed"
  | McPauseAuthRemoteSensing => "auth_remote_sensing_pause_completed"
  | McResumeAuthRemoteSensing => "auth_remote_sensing_resume_completed"
  | McStopAuthRemoteSensing => "auth_remote_sensing_stop_completed"
  | _ => "etw_execution_rejected"
  end.

(* [elevated/src/runtime_ipc.rs] etw_failed_event *)
Definition etw_failed_event (command : MutationCommandId) : string :=
  match command with
  | McActivateEtwProvider => "etw_activation_failed"
  | McPauseEtwProvider => "etw_pause_failed"
  | McResumeEtwProvider => "etw_resume_failed"
  | McStopEtwProvider => "etw_stop_failed"
  | McActivateDnsSensing => "dns_sensing_activation_failed"
  | McPauseDnsSensing => "dns_sensing_pause_failed"
  | McResumeDnsSensing => "dns_sensing_resume_failed"
  | McStopDnsSensing => "dns_sensing_stop_failed"
  | McActivateAuthRemoteSensing => "auth_remote_sensing_activation_failed"
  | McPauseAuthRemoteSensing => "auth_remote_sensing_pause_failed"
  | McResumeAuthRemoteSensing => "auth_remote_sensing_resume_failed"
  | McStopAuthRemoteSensing => "auth_remote_sensing_stop_failed"
  | _ => "etw_execution_rejected"
  end.

(* [elevated/src/runtime_ipc.rs] ip_helper_started_event *)
Definition ip_helper_started_event (command : MutationCommandId) : string :=
  match command with
  | McActivateIpHelperProvider => "ip_helper_activation_started"
  | McSampleIpHelperNow => "ip_helper_sample_started"
  | McStopIpHelper => "ip_helper_stop_started"
  | _ => "ip_helper_execution_rejected"
  end.

(* [elevated/src/runtime_ipc.rs] ip_helper_completed_event *)
Definition ip_helper_completed_event (command : MutationCommandId) : string :=
  match command with
  | McActivateIpHelperProvider => "ip_helper_activation_completed"
  | McSampleIpHelperNow => "ip_helper_sample_completed"
  | McStopIpHelper => "ip_helper_stop_completed"
  | _ => "ip_helper_execution_rejected"
  end.

(* [elevated/src/runtime_ipc.rs] ip_helper_failed_event *)
Definition ip_helper_failed_event (command : MutationCommandId) : string :=
  match command with
  | McActivateIpHelperProvider => "ip_helper_activation_failed"
  | McSampleIpHelperNow => "ip_helper_sample_failed"
  | McStopIpHelper => "ip_helper_execution_rejected"
  | _ => "ip_helper_execution_rejected"
  end.

(* [elevated/src/runtime_ipc.rs] ip_helper_schedule_completed_event *)
Definition ip_helper_schedule_completed_event (command : MutationCommandId) : string :=
  match command with
  | McConfigureIpHelperSchedule => "ip_helper_schedule_configured"
  | McEnableIpHelperSchedule => "ip_helper_schedule_enabled"
  | McPauseIpHelperSchedule => "ip_helper_schedule_paused"
  | McResumeIpHelperSchedule => "ip_helper_schedule_resumed"
  | McDisableIpHelperSchedule => "ip_helper_schedule_disabled"
  | _ => "ip_helper_schedule_invalidated"
  end.

(* ------------------------------------------------------------------ *)
(** ** Text *)

(* [elevated/src/runtime_ipc.rs:3427-3441] validate_safe_ipc_text *)
Definition ipc_markers : list string :=
  ["raw_packet"; "packet_bytes"; "raw_payload"; "payload_blob"; "http_body"; "cookie";
   "session_token"; "authorization"; "api_key"; "credential"; "private_key"; "password";
   "secret"].
(* [elevated/src/runtime_ipc.rs] validate_safe_ipc_text *)
Definition safe_ipc_text (field value : string) : result unit IpcError :=
  let? _ := refuse_if (blank value || (128 <? str_len value))
    (ipc_schema (field ++ " must be non-empty and bounded")%string) in
  for_each (λ marker,
    refuse_if (contains (to_ascii_lowercase value) marker)
      (ipc_schema (field ++ " contains a forbidden sensitive marker")%string)) ipc_markers.

(* ------------------------------------------------------------------ *)
(** ** The rate limiter *)

(* [elevated/src/runtime_ipc.rs] RateLimiter *)
Record RateLimiter := mkRateLimiter {
  window_started_at : N;
  recent : list N
}.
(* [elevated/src/runtime_ipc.rs] RateLimiter::new *)
Definition rate_limiter_new (clock : N) : RateLimiter := mkRateLimiter clock [].

(** [now.duration_since(seen)]: zero for an instant that is still to come. *)
Definition duration_since (now seen : N) : N := saturating_sub now seen.

(** [while front is older than the window { pop_front }] *)
(* [elevated/src/runtime_ipc.rs:781-787] RateLimiter::check *)
Fixpoint pop_old (now : N) (recent : list N) : list N :=
  match recent with
  | seen :: rest =>
      if RATE_LIMIT_WINDOW <? duration_since now seen then pop_old now rest else recent
  | [] => []
  end.

(* [elevated/src/runtime_ipc.rs] RateLimiter::check *)
Definition rate_limiter_check (self : RateLimiter) (now : N) : RateLimiter * result unit IpcError :=
  let self :=
    if RATE_LIMIT_WINDOW <? duration_since now (window_started_at self)
    then mkRateLimiter now [] else self in
  let recent := pop_old now (recent self) in
  if READ_COMMAND_RATE_LIMIT <=? len recent mod 2 ^ 32
  then (mkRateLimiter (window_started_at self) recent,
        Err (ipc_rate_limited "read command rate limit exceeded"))
  else (mkRateLimiter (window_started_at self) (recent ++ [now]), Ok tt).

(* ------------------------------------------------------------------ *)
(** ** The nonce cache *)

(* [elevated/src/runtime_ipc.rs] ReplayProtector *)
Record ReplayProtector := mkReplayProtector {
  seen : gset string;
  order : list string
}.
(* [elevated/src/runtime_ipc.rs] ReplayProtector::new *)
Definition replay_new : ReplayProtector := mkReplayProtector ∅ [].

(** [while self.order.len() > LIMIT { pop the front; forget it }]; [fuel] is the length. *)
(* [elevated/src/runtime_ipc.rs:816-820] ReplayProtector::remember_nonce *)
Fixpoint forget_old (fuel : nat) (self : ReplayProtector) : ReplayProtector :=
  match fuel with
  | O => self
  | S fuel =>
      if (REPLAY_CACHE_LIMIT <? length (order self))%nat then
        match order self with
        | old :: rest => forget_old fuel (mkReplayProtector (seen self ∖ {[old]}) rest)
        | [] => self
        end
      else self
  end.

(* [elevated/src/runtime_ipc.rs] ReplayProtector::remember_nonce *)
Definition remember_nonce (self : ReplayProtector) (field nonce : string)
    : ReplayProtector * result unit IpcError :=
  match safe_ipc_text field nonce with
  | Err error => (self, Err error)
  | Ok _ =>
      if bool_decide (nonce ∈ seen self)
      then (self, Err (ipc_replay "IPC nonce was already used"))
      else
        let self := mkReplayProtector ({[nonce]} ∪ seen self) (order self ++ [nonce]) in
        (forget_old (length (order self)) self, Ok tt)
  end.

(* ------------------------------------------------------------------ *)
(** ** Messages *)

(* [elevated/src/runtime_ipc.rs] IpcClientHello *)
Record IpcClientHello := mkClientHello {
  ch_message_type : string;
  ch_supported_protocol_versions : list N;
  ch_schema_version : SchemaVersion;
  ch_client_nonce : string;
  ch_requested_capabilities : list string
}.
(* [elevated/src/runtime_ipc.rs] IpcServerHello *)
Record IpcServerHello := mkServerHello {
  sh_message_type : string;
  sh_protocol_version : N;
  sh_schema_version : SchemaVersion;
  sh_challenge_nonce : string;
  sh_server_nonce : string;
  sh_session_reference : string;
  sh_accepted_capabilities : list string;
  sh_max_frame_bytes : N;
  sh_max_payload_bytes : N
}.
(* [elevated/src/runtime_ipc.rs] IpcClientVerify *)
Record IpcClientVerify := mkClientVerify {
  cv_message_type : string;
  cv_protocol_version : N;
  cv_schema_version : SchemaVersion;
  cv_session_reference : string;
  cv_client_nonce : string;
  cv_server_nonce : string;
  cv_challenge_nonce : string;
  cv_sequence_number : N;
  cv_caller_kind : string
}.
(* [elevated/src/runtime_ipc.rs] IpcServerVerify *)
Record IpcServerVerify := mkServerVerify {
  sv_message_type : string;
  sv_protocol_version : N;
  sv_schema_version : SchemaVersion;
  sv_session_reference : string;
  sv_response_status : string;
  sv_caller_verification : CallerVerificationSummary;
  sv_session_nonce : string
}.
(* [elevated/src/runtime_ipc.rs] IpcSessionState *)
Record IpcSessionState := mkSession {
  ses_session_reference : string;
  ses_client_nonce : string;
  ses_server_nonce : string;
  ses_challenge_nonce : string;
  ses_caller_verification : CallerVerificationSummary
}.
(* [elevated/src/runtime_ipc.rs] PendingIpcSessionState *)
Record PendingIpcSessionState := mkPendingSession {
  pes_session_reference : string;
  pes_client_nonce : string;
  pes_server_nonce : string;
  pes_challenge_nonce : string
}.

Section messages.
Context `{Externals}.

(* [elevated/src/runtime_ipc.rs] IpcEnvelope *)
Record IpcEnvelope := mkEnvelope {
  env_protocol_version : N;
  env_schema_version : SchemaVersion;
  env_request_id : string;
  env_session_reference : string;
  env_client_nonce : string;
  env_server_nonce : string;
  env_sequence_number : N;
  env_command_id : string;
  env_response_status : string;
  env_payload : json_value
}.

(* [elevated/src/runtime_ipc.rs] IpcRequest *)
Record IpcRequest := mkRequest {
  irq_id : string;
  irq_command : string;
  irq_params : json_value;
  irq_timestamp : Timestamp
}.
(* [elevated/src/runtime_ipc.rs] IpcResponse *)
Record IpcResponse := mkResponse {
  irs_id : string;
  irs_command : string;
  irs_result : option json_value;
  irs_error : option IpcError;
  irs_timestamp : Timestamp
}.
(* [elevated/src/runtime_ipc.rs] IpcResponse::ok *)
Definition response_ok (request : IpcRequest) (value : json_value) : ST IpcResponse :=
  let$ timestamp := now in
  st_ret (mkResponse (irq_id request) (irq_command request) (Some value) None timestamp).
(* [elevated/src/runtime_ipc.rs] IpcResponse::error *)
Definition response_error (request : IpcRequest) (error : IpcError) : ST IpcResponse :=
  let$ timestamp := now in
  st_ret (mkResponse (irq_id request) (irq_command request) None (Some error) timestamp).
(* [elevated/src/runtime_ipc.rs] IpcResponse::malformed *)
Definition response_malformed (error : IpcError) : ST IpcResponse :=
  let$ timestamp := now in
  st_ret (mkResponse "malformed" "unknown" None (Some error) timestamp).

(* [elevated/src/runtime_ipc.rs] validate_client_verify *)
Definition validate_client_verify (session : IpcSessionState) (verify : IpcClientVerify)
    : result unit IpcError :=
  let? _ := refuse_if (negb (bool_decide (cv_message_type verify = "client_verify")))
    (ipc_protocol "expected client_verify") in
  let? _ := refuse_if
    (negb (cv_protocol_version verify =? IPC_PROTOCOL_VERSION) ||
     negb (bool_decide (cv_schema_version verify = RUNTIME_IPC_SCHEMA_VERSION)))
    (ipc_protocol "IPC verify version mismatch") in
  let? _ := refuse_if
    (negb (bool_decide (cv_session_reference verify = ses_session_reference session)) ||
     negb (bool_decide (cv_client_nonce verify = ses_client_nonce session)) ||
     negb (bool_decide (cv_server_nonce verify = ses_server_nonce session)) ||
     negb (bool_decide (cv_challenge_nonce verify = ses_challenge_nonce session)))
    (ipc_protocol "IPC verify session mismatch") in
  let? _ := refuse_if (negb (cv_sequence_number verify =? 0))
    (ipc_invalid_sequence "IPC verify sequence must start at zero") in
  safe_ipc_text "caller_kind" (cv_caller_kind verify).

(** [serde_json::to_vec(value)], its length only. *)
Class PayloadLength := { payload_len : json_value → result N string }.
Context `{PayloadLength}.

(* [elevated/src/runtime_ipc.rs] validate_request_envelope *)
Definition validate_request_envelope (session : IpcSessionState) (envelope : IpcEnvelope)
    (expected_sequence_number : N) : result unit IpcError :=
  let? _ := refuse_if
    (negb (env_protocol_version envelope =? IPC_PROTOCOL_VERSION) ||
     negb (bool_decide (env_schema_version envelope = RUNTIME_IPC_SCHEMA_VERSION)))
    (ipc_protocol "IPC envelope version mismatch") in
  let? _ := refuse_if
    (negb (bool_decide (env_session_reference envelope = ses_session_reference session)) ||
     negb (bool_decide (env_client_nonce envelope = ses_client_nonce session)) ||
     negb (bool_decide (env_server_nonce envelope = ses_server_nonce session)))
    (ipc_protocol "IPC envelope session mismatch") in
  let? _ := refuse_if
    (negb (env_sequence_number envelope =? expected_sequence_number) ||
     (env_sequence_number envelope =? 0) ||
     (MAX_REQUESTS_PER_SESSION <? env_sequence_number envelope))
    (ipc_invalid_sequence "IPC request sequence is outside the bounded monotonic session") in
  let? _ := refuse_if (negb (bool_decide (env_response_status envelope = "request")))
    (ipc_protocol "IPC request envelope status must be request") in
  let? _ := safe_ipc_text "request_id" (env_request_id envelope) in
  let? _ := safe_ipc_text "command_id" (env_command_id envelope) in
  let? payload_len := map_err ipc_schema (payload_len (env_payload envelope)) in
  refuse_if (MAX_PAYLOAD_BYTES <? payload_len)
    (ipc_schema ("IPC payload exceeds bounded limit: " ++ show_uint payload_len ++ " > " ++
       show_uint MAX_PAYLOAD_BYTES)%string).

(* [elevated/src/runtime_ipc.rs] enforce_payload_size_limit *)
Definition enforce_payload_size_limit (value : json_value) : result unit IpcError :=
  let? payload_len := map_err ipc_schema (payload_len value) in
  refuse_if (MAX_PAYLOAD_BYTES <? payload_len)
    (ipc_schema ("IPC response payload exceeds bounded limit: " ++ show_uint payload_len ++
       " > " ++ show_uint MAX_PAYLOAD_BYTES)%string).

(* ------------------------------------------------------------------ *)
(** ** The caller's token *)

(* [elevated/src/runtime_ipc.rs] CallerVerificationPolicy *)
Record CallerVerificationPolicy := mkCallerPolicy {
  cp_production_service_mode : bool;
  cp_allow_administrators_for_read : bool;
  cp_allow_foreground_development : bool
}.
(* [elevated/src/runtime_ipc.rs] CallerVerificationPolicy::service_mode *)
Definition service_mode : CallerVerificationPolicy := mkCallerPolicy true true false.
(* [elevated/src/runtime_ipc.rs] CallerVerificationPolicy::foreground_mode *)
Definition foreground_mode : CallerVerificationPolicy := mkCallerPolicy false true false.

(* [elevated/src/runtime_ipc.rs] BoundedTokenClassificationInput *)
Record BoundedTokenClassificationInput := mkToken {
  tk_local_connection : bool;
  tk_token_available : bool;
  tk_impersonation_token : bool;
  tk_impersonation_level_suitable : bool;
  tk_network_logon : bool;
  tk_anonymous : bool;
  tk_interactive : bool;
  tk_expected_service_identity : bool;
  tk_administrator_member : bool;
  tk_elevated : bool;
  tk_session_binding_valid : bool
}.

(* [elevated/src/runtime_ipc.rs:2955-3043] classify_bounded_token *)
Definition token_verdict (input : BoundedTokenClassificationInput)
    (policy : CallerVerificationPolicy)
    : CallerCategory * CallerVerificationState * TokenSuitabilityCategory * option string :=
  if negb (tk_local_connection input) then
    (CcUnauthorized, CvRemoteCallerRejected, TsTokenUnavailable, Some "remote_transport_rejected")
  else if negb (tk_token_available input) then
    (CcUnavailable, CvCallerIdentityUnavailable, TsTokenUnavailable, Some "token_unavailable")
  else if negb (tk_impersonation_token input) then
    (CcUnauthorized, CvTokenTypeRejected, TsUnsupportedTokenType, Some "unsupported_token_type")
  else if negb (tk_impersonation_level_suitable input) then
    (CcUnauthorized, CvTokenTypeRejected, TsIdentificationOnlyRejected,
     Some "unsupported_impersonation_level")
  else if negb (tk_session_binding_valid input) then
    (CcUnauthorized, CvSessionMismatch, TsImpersonationSuitable, Some "session_binding_failed")
  else if tk_network_logon input then
    (CcUnauthorized, CvNetworkLogonRejected, TsImpersonationSuitable,
     Some "network_logon_rejected")
  else if tk_anonymous input then
    (CcUnauthorized, CvCallerNotAuthorized, TsImpersonationSuitable, Some "anonymous_rejected")
  else if tk_expected_service_identity input then
    (CcExpectedServiceIdentity, CvVerifiedServiceIdentity, TsImpersonationSuitable, None)
  else if tk_administrator_member input && cp_allow_administrators_for_read policy then
    (CcAdministratorPolicy, CvAdministratorPolicyVerified, TsImpersonationSuitable, None)
  else if tk_interactive input && negb (cp_production_service_mode policy) &&
          cp_allow_foreground_development policy then
    (CcForegroundDevelopment, CvForegroundDevelopment, TsImpersonationSuitable, None)
  else if tk_interactive input then
    (CcInteractiveUser, CvVerifiedInteractiveUser, TsImpersonationSuitable, None)
  else
    (CcUnauthorized, CvCallerNotAuthorized, TsImpersonationSuitable, Some "policy_rejected").

(* [elevated/src/runtime_ipc.rs:3045-3071] classify_bounded_token *)
Definition classes_of_state (state : CallerVerificationState) : list AllowedCommandClass :=
  match state with
  | CvVerifiedInteractiveUser =>
      [AcReadStatus; AcReadCanonicalModels; AcMutationAuthorizationEvaluation;
       AcFutureUserMutationCandidate]
  | CvVerifiedServiceIdentity =>
      [AcReadStatus; AcReadCanonicalModels; AcMutationAuthorizationEvaluation]
  | CvAdministratorPolicyVerified =>
      [AcReadStatus; AcReadCanonicalModels; AcMutationAuthorizationEvaluation;
       AcFutureUserMutationCandidate; AcFutureAdminMutationCandidate]
  | CvForegroundDevelopment =>
      [AcReadStatus; AcReadCanonicalModels; AcMutationAuthorizationEvaluation;
       AcForegroundTestControl]
  | _ => [AcNone]
  end.

(* [elevated/src/runtime_ipc.rs] classify_bounded_token *)
Definition classify_bounded_token (input : BoundedTokenClassificationInput)
    (policy : CallerVerificationPolicy) : ST CallerVerificationSummary :=
  let '(caller_category, verification_state, token_suitability, degraded_reason) :=
    token_verdict input policy in
  let$ id := new_uuid in
  st_ret
    {| cvs_schema_version := CALLER_VERIFICATION_SCHEMA_VERSION;
       cvs_verification_ref := ("caller_verification_" ++ uuid_to_string id)%string;
       cvs_caller_category := caller_category;
       cvs_verification_state := verification_state;
       cvs_local_classification :=
         if tk_local_connection input then LrLocal else LrRemoteRejected;
       cvs_interactive_marker := tk_interactive input;
       cvs_service_marker := tk_expected_service_identity input;
       cvs_administrator_policy_marker :=
         tk_administrator_member input && cp_allow_administrators_for_read policy;
       cvs_token_suitability := token_suitability;
       cvs_elevation_category :=
         if tk_token_available input
         then if tk_elevated input then EvElevated else EvStandard else EvUnavailable;
       cvs_session_binding_state :=
         if tk_session_binding_valid input then SbBound else SbMismatch;
       cvs_freshness_bucket := VfCurrentConnection;
       cvs_allowed_command_classes := classes_of_state verification_state;
       cvs_degraded_reason := degraded_reason;
       cvs_audit_refs := ["caller_token_classified"];
       cvs_provenance_id := "windows_named_pipe_impersonation";
       cvs_redaction_status := RsRedacted;
       cvs_production_mutations_enabled := false |}.

(* [elevated/src/runtime_ipc.rs] verification_failure_summary *)
Definition verification_failure_summary (state : CallerVerificationState) (reason : string)
    : ST CallerVerificationSummary :=
  let$ id := new_uuid in
  st_ret
    {| cvs_schema_version := CALLER_VERIFICATION_SCHEMA_VERSION;
       cvs_verification_ref := ("caller_verification_" ++ uuid_to_string id)%string;
       cvs_caller_category :=
         if bool_decide (state = CvUnsupportedPlatform) then CcUnsupportedPlatform
         else CcUnavailable;
       cvs_verification_state := state;
       cvs_local_classification := LrUnavailable;
       cvs_interactive_marker := false; cvs_service_marker := false;
       cvs_administrator_policy_marker := false;
       cvs_token_suitability := TsQueryFailed;
       cvs_elevation_category := EvUnavailable;
       cvs_session_binding_state := SbFailed;
       cvs_freshness_bucket := VfUnavailable;
       cvs_allowed_command_classes := [AcNone];
       cvs_degraded_reason := Some reason;
       cvs_audit_refs := ["caller_verification_failed"];
       cvs_provenance_id := "windows_named_pipe_impersonation";
       cvs_redaction_status := RsRedacted;
       cvs_production_mutations_enabled := false |}.
End messages.

(* [elevated/src/runtime_ipc.rs] caller_verification_state_label *)
Definition caller_verification_state_label (state : CallerVerificationState) : string :=
  match state with
  | CvVerifiedInteractiveUser => "verified_interactive_user"
  | CvVerifiedServiceIdentity => "verified_service_identity"
  | CvAdministratorPolicyVerified => "administrator_policy_verified"
  | CvCallerNotAuthorized => "caller_not_authorized"
  | CvCallerIdentityUnavailable => "caller_identity_unavailable"
  | CvRemoteCallerRejected => "remote_caller_rejected"
  | CvNetworkLogonRejected => "network_logon_rejected"
  | CvTokenTypeRejected => "token_type_rejected"
  | CvImpersonationFailed => "impersonation_failed"
  | CvTokenQueryFailed => "token_query_failed"
  | CvSessionMismatch => "session_mismatch"
  | CvUnsupportedPlatform => "unsupported_platform"
  | CvForegroundDevelopment => "foreground_development"
  end.
