(* ===== verification/ServiceIpcFacts.v ===== *)
(** * What a session of the pipe guarantees ([service/elevated/src/runtime_ipc.rs])

    Command names round trip; how many requests the rate limiter lets through; the nonce
    cache is a window over the accepted nonces; which classes of commands a token is given;
    frames. *)

From S2P Require Import Prelude Collections RustStr Effects Contracts Checks CallerVerification.
From S2P Require Import MutationPolicy ReadModels ReadCommands ReadCommandsFacts IpcFrames.
From S2P Require Import ServiceIpc.

#[local] Open Scope string_scope.
#[local] Open Scope list_scope.
#[local] Open Scope N_scope.

(* ------------------------------------------------------------------ *)
(** ** Commands *)

Lemma command_parse_as_str c : command_parse (command_as_str c) = Ok c.
Proof. destruct c as [| | | | | | | | | | | | | | | | | | | | | | | | |[]]; by vm_compute. Qed.

(** The names on the wire are exactly the names of the commands: a text parses to a
    command when, and only when, it is that command's name. In particular no two commands
    share a name, and the read commands' names cannot be mistaken for the service's own. *)
Theorem command_names_roundtrip text command :
  command_parse text = Ok command ↔ text = command_as_str command.
Proof.
  split; [|by intros ->; apply command_parse_as_str].
  unfold command_parse. destruct (list_find _ _) as [[i [t c]]|] eqn:Hf.
  - intros [= <-]. apply list_find_Some in Hf as (Hi & -> & _).
    repeat (destruct i as [|i]; [by injection Hi as <- <-|]). done.
  - destruct (read_command_parse text) as [c|] eqn:Hr; [|done].
    intros [= <-]. by apply read_command_parse_ok in Hr.
Qed.

(** Every command name passes the filter of the envelopes. *)
Lemma command_names_safe c : safe_ipc_text "command_id" (command_as_str c) = Ok tt.
Proof. destruct c as [| | | | | | | | | | | | | | | | | | | | | | | | |[]]; by vm_compute. Qed.

Lemma read_only_allows c : ensure_allowed read_only_v1 c AlRead = Ok tt.
Proof. destruct c as [| | | | | | | | | | | | | | | | | | | | | | | | |[]]; by vm_compute. Qed.

(** A provider command is of exactly one family, and of the class only users have. *)
Lemma mutation_command_class c k :
  ip_helper_mutation_command_id c = Some k ∨ etw_mutation_command_id c = Some k ∨
  ip_helper_schedule_command_id c = Some k →
  allowed_command_class c = AcFutureUserMutationCandidate ∧ production_execution_enabled k = true.
Proof. destruct c; simpl; intros [[=]|[[=]|[=]]]; by subst. Qed.

(* ------------------------------------------------------------------ *)
(** ** The rate limiter *)

(** The instants at which a request passed. *)
Fixpoint accepted (l : RateLimiter) (nows : list N) : list N :=
  match nows with
  | [] => []
  | now :: nows =>
      match rate_limiter_check l now with
      | (l, Ok _) => now :: accepted l nows
      | (l, Err _) => accepted l nows
      end
  end.

(** The instants of a log in the window of one second from [t]. *)
Definition in_window (t : N) (log : list N) : list N :=
  filter (λ x, t ≤ x ∧ x ≤ t + RATE_LIMIT_WINDOW) log.
(** The ones that are at most one second old. *)
Definition current (now : N) (log : list N) : list N :=
  filter (λ x, now ≤ x + RATE_LIMIT_WINDOW) log.

Lemma duration_ltb now seen :
  (RATE_LIMIT_WINDOW <? duration_since now seen) = (seen + RATE_LIMIT_WINDOW <? now).
Proof.
  apply eq_true_iff_eq. rewrite !N.ltb_lt. unfold duration_since, saturating_sub. lia.
Qed.

Lemma pop_old_length now l : len (pop_old now l) ≤ len l.
Proof.
  unfold len. induction l as [|x l IH]; [done|]. cbn [pop_old]. case_match; simpl in *; lia.
Qed.

Lemma pop_old_current now later l :
  now ≤ later → current later (pop_old now l) = current later l.
Proof.
  intros Hl. induction l as [|x l IH]; [done|]. cbn [pop_old].
  rewrite duration_ltb. destruct (x + RATE_LIMIT_WINDOW <? now) eqn:E; [|done].
  apply N.ltb_lt in E. rewrite IH. unfold current. rewrite filter_cons_False; [done|lia].
Qed.

(** The log behind a limiter: the bursts before the previous reset, the burst before the
    last one, and the current burst. *)
Record limiter_log (l : RateLimiter) (last : N) (older prev cur : list N) : Prop := {
  ll_start : window_started_at l ≤ last;
  ll_cur : ∀ x, x ∈ cur → window_started_at l ≤ x ≤ last;
  ll_prev : ∀ x, x ∈ prev → x ≤ window_started_at l;
  ll_older : ∀ x, x ∈ older → x + RATE_LIMIT_WINDOW < window_started_at l;
  ll_recent : ∀ later, last ≤ later → current later cur = current later (recent l);
  ll_bound : len (recent l) ≤ READ_COMMAND_RATE_LIMIT;
  ll_burst_cur : ∀ t, len (in_window t cur) ≤ READ_COMMAND_RATE_LIMIT;
  ll_burst_prev : ∀ t, len (in_window t prev) ≤ READ_COMMAND_RATE_LIMIT;
  ll_before : ∀ t, len (in_window t (older ++ prev)) ≤ 2 * READ_COMMAND_RATE_LIMIT
}.

Lemma in_window_app t a b : in_window t (a ++ b) = in_window t a ++ in_window t b.
Proof. apply filter_app. Qed.

Lemma in_window_none t log :
  (∀ x, x ∈ log → ¬ (t ≤ x ∧ x ≤ t + RATE_LIMIT_WINDOW)) → in_window t log = [].
Proof.
  induction log as [|x log IH]; [done|]. intros Hx. unfold in_window.
  rewrite filter_cons_False by (apply Hx; set_solver). apply IH. set_solver.
Qed.

Lemma limiter_log_bound l last older prev cur t :
  limiter_log l last older prev cur →
  len (in_window t (older ++ prev ++ cur)) ≤ 2 * READ_COMMAND_RATE_LIMIT.
Proof.
  intros [_ Hcur _ Holder _ _ Hbc Hbp Hb].
  destruct (in_window t cur) as [|y ys] eqn:Hy.
  - rewrite app_assoc, in_window_app, Hy, app_nil_r. apply Hb.
  - assert (y ∈ in_window t cur) as Hin by (rewrite Hy; set_solver).
    apply list_elem_of_filter in Hin as [[_ Hyt] Hin]. apply Hcur in Hin as [Hws _].
    rewrite in_window_app, (in_window_none t older); [|intros x Hx%Holder; lia].
    rewrite in_window_app. specialize (Hbc t). specialize (Hbp t). cbn [app].
    rewrite len_app. lia.
Qed.

Lemma in_window_current t now log :
  now ≤ t + RATE_LIMIT_WINDOW → len (in_window t log) ≤ len (current now log).
Proof.
  intros Hn. unfold len, in_window, current. induction log as [|x log IH]; [done|].
  destruct (decide (t ≤ x ∧ x ≤ t + RATE_LIMIT_WINDOW)) as [Hx|Hx].
  - rewrite !filter_cons_True by lia. simpl. lia.
  - rewrite filter_cons_False by done. rewrite filter_cons. case_decide; simpl; lia.
Qed.

Lemma current_length now log : len (current now log) ≤ len log.
Proof. unfold len, current. pose proof (length_filter (λ x, now ≤ x + RATE_LIMIT_WINDOW) log). lia. Qed.

(** A check without a reset. *)
Lemma limiter_step l last older prev cur now :
  limiter_log l last older prev cur → last ≤ now →
  now ≤ window_started_at l + RATE_LIMIT_WINDOW →
  ∃ acc, limiter_log (rate_limiter_check l now).1 now older prev (cur ++ acc) ∧
    acc = (if is_ok (rate_limiter_check l now).2 then [now] else []).
Proof.
  intros [Hs Hcur Hprev Holder Hrecent Hbound Hbc Hbp Hb] Hlast Hwin.
  unfold rate_limiter_check. rewrite duration_ltb.
  replace (window_started_at l + RATE_LIMIT_WINDOW <? now) with false by
    (symmetry; by apply N.ltb_ge). pose proof (pop_old_length now (recent l)) as Hpop.
  rewrite N.mod_small by (eapply N.le_lt_trans; [etrans; [exact Hpop|exact Hbound]|by vm_compute]).
  destruct (READ_COMMAND_RATE_LIMIT <=? len (pop_old now (recent l))) eqn:Hfull;
    cbn [is_ok fst snd]; eexists; (split; [|reflexivity]).
  - rewrite app_nil_r. constructor; cbn [window_started_at recent]; try done; try lia.
    + intros x Hx%Hcur. lia.
    + intros later Hl. rewrite pop_old_current by lia. apply Hrecent. lia.
  - apply N.leb_gt in Hfull. constructor; cbn [window_started_at recent]; try done; try lia.
    + intros x [Hx%Hcur|Hx]%elem_of_app; [lia|]. apply list_elem_of_singleton in Hx as ->. lia.
    + intros later Hl. unfold current. rewrite !filter_app. f_equal.
      fold (current later cur) (current later (pop_old now (recent l))).
      rewrite pop_old_current by lia. apply Hrecent. lia.
    + rewrite len_app. change (len [now]) with 1. lia.
    + intros t. rewrite in_window_app, len_app. unfold in_window at 2.
      destruct (decide (t ≤ now ∧ now ≤ t + RATE_LIMIT_WINDOW)) as [Ht|Ht].
      * rewrite filter_cons_True, filter_nil by done. change (len [now]) with 1.
        pose proof (in_window_current t now cur) as Hc.
        rewrite (Hrecent now Hlast), <- (pop_old_current now now (recent l)) in Hc by lia.
        pose proof (current_length now (pop_old now (recent l))). lia.
      * rewrite filter_cons_False, filter_nil by done. specialize (Hbc t).
        change (len []) with 0. lia.
Qed.

(** A reset starts a new burst. *)
Lemma limiter_reset l last older prev cur now :
  limiter_log l last older prev cur → last ≤ now →
  window_started_at l + RATE_LIMIT_WINDOW < now →
  limiter_log (mkRateLimiter now []) now (older ++ prev) cur [].
Proof.
  intros Hlog Hlast Hwin.
  assert (∀ t, len (in_window t ((older ++ prev) ++ cur)) ≤ 2 * READ_COMMAND_RATE_LIMIT) as Htot.
  { intros t. rewrite <- app_assoc. by eapply limiter_log_bound. }
  destruct Hlog as [Hs Hcur Hprev Holder Hrecent Hbound Hbc Hbp Hb].
  constructor; cbn [window_started_at recent]; try done.
  - by intros x ?%elem_of_nil.
  - intros x Hx%Hcur. lia.
  - intros x [Hx%Holder|Hx%Hprev]%elem_of_app; lia.
Qed.

Lemma limiter_check_reset l now :
  window_started_at l + RATE_LIMIT_WINDOW < now →
  rate_limiter_check l now = rate_limiter_check (mkRateLimiter now []) now.
Proof.
  intros Hw. unfold rate_limiter_check. rewrite !duration_ltb.
  replace (window_started_at l + RATE_LIMIT_WINDOW <? now) with true by
    (symmetry; by apply N.ltb_lt).
  cbn [window_started_at]. by replace (now + RATE_LIMIT_WINDOW <? now) with false by
    (symmetry; apply N.ltb_ge; lia).
Qed.

Lemma limiter_run nows : ∀ l last older prev cur,
  limiter_log l last older prev cur → StronglySorted N.le (last :: nows) →
  ∀ t, len (in_window t (older ++ prev ++ cur ++ accepted l nows)) ≤ 2 * READ_COMMAND_RATE_LIMIT.
Proof.
  induction nows as [|now nows IH]; intros l last older prev cur Hlog Hsort t; cbn [accepted].
  { rewrite app_nil_r. by eapply limiter_log_bound. }
  apply StronglySorted_inv in Hsort as [Hsort Hle].
  assert (last ≤ now) as Hln by (rewrite Forall_forall in Hle; apply Hle; set_solver).
  destruct (decide (window_started_at l + RATE_LIMIT_WINDOW < now)) as [Hw|Hw%N.nlt_ge].
  - rewrite (limiter_check_reset l now Hw).
    pose proof (limiter_reset _ _ _ _ _ _ Hlog Hln Hw) as Hlog'.
    apply (limiter_step _ _ _ _ _ now) in Hlog' as (acc & Hlog' & Hacc);
      [|done|cbn [window_started_at]; lia].
    destruct (rate_limiter_check (mkRateLimiter now []) now) as [l' [[]|e]];
      cbn [is_ok fst snd] in *; subst acc;
      specialize (IH _ _ _ _ _ Hlog' Hsort t);
      cbn [app] in IH; by rewrite <- app_assoc in IH.
  - apply (limiter_step _ _ _ _ _ now) in Hlog as (acc & Hlog' & Hacc); [|done..].
    destruct (rate_limiter_check l now) as [l' [[]|e]]; cbn [is_ok fst snd] in *; subst acc;
      specialize (IH _ _ _ _ _ Hlog' Hsort t); rewrite <- !app_assoc in IH; by cbn [app] in IH.
Qed.

(** How many requests pass the rate limiter: at non-decreasing instants, at most 240 in
    any closed window of one second - twice the limit of 120, because the log is cleared
    when its oldest start is more than a second ago, whatever it holds. *)
Theorem rate_limit_bound clock nows (Hsort : StronglySorted N.le (clock :: nows)) t :
  len (in_window t (accepted (rate_limiter_new clock) nows)) ≤ 2 * READ_COMMAND_RATE_LIMIT.
Proof.
  assert (limiter_log (rate_limiter_new clock) clock [] [] []) as Hlog.
  { constructor; try done; cbn; by intros x ?%elem_of_nil. }
  apply (limiter_run nows _ _ _ _ _ Hlog Hsort t).
Qed.

(** The bound is reached: 120 requests one second after the start, and 120 more one
    nanosecond later. *)
Example rate_limit_doubled :
  let nows := replicate 200 1000000000 ++ replicate 200 1000000001 in
  len (in_window 1000000000 (accepted (rate_limiter_new 0) nows)) = 240.
Proof. by vm_compute. Qed.

(* ------------------------------------------------------------------ *)
(** ** The nonce cache *)

(** The abstract cache: all the nonces accepted so far; the last 256 are refused. *)
Definition last_nonces (log : list string) : list string :=
  drop (length log - REPLAY_CACHE_LIMIT) log.
Definition spec_remember (log : list string) (field nonce : string)
    : list string * result unit IpcError :=
  match safe_ipc_text field nonce with
  | Err error => (log, Err error)
  | Ok _ =>
      if bool_decide (nonce ∈ last_nonces log)
      then (log, Err (ipc_replay "IPC nonce was already used"))
      else (log ++ [nonce], Ok tt)
  end.

(** The cache holds the end of the log, once in a queue and once in a set. *)
Record cache_of (r : ReplayProtector) (log : list string) : Prop := {
  co_order : order r = last_nonces log;
  co_seen : seen r = list_to_set (order r);
  co_distinct : NoDup (order r)
}.

Lemma last_nonces_length log : (length (last_nonces log) ≤ REPLAY_CACHE_LIMIT)%nat.
Proof. unfold last_nonces. rewrite length_drop. unfold REPLAY_CACHE_LIMIT. lia. Qed.

Lemma forget_old_spec fuel r :
  (length (order r) ≤ fuel)%nat → seen r = list_to_set (order r) → NoDup (order r) →
  let r' := forget_old fuel r in
  order r' = last_nonces (order r) ∧ seen r' = list_to_set (order r') ∧ NoDup (order r').
Proof.
  revert r. induction fuel as [|fuel IH]; intros r Hf Hs Hnd; cbn [forget_old].
  { destruct (order r) eqn:Ho; [|simpl in Hf; lia]. done. }
  destruct (REPLAY_CACHE_LIMIT <? length (order r))%nat eqn:Hl.
  - apply Nat.ltb_lt in Hl. destruct (order r) as [|old rest] eqn:Ho; [simpl in Hl; lia|].
    apply NoDup_cons in Hnd as [Hold Hnd]. cbn [length] in Hf, Hl.
    destruct (IH (mkReplayProtector (seen r ∖ {[old]}) rest)) as (H1 & H2 & H3);
      cbn [order seen]; [lia| |done|].
    + rewrite Hs. cbn [list_to_set]. set_solver.
    + split_and!; [|done|done]. rewrite H1. cbn [order]. unfold last_nonces.
      simpl length. rewrite Nat.sub_succ_l by lia. done.
  - apply Nat.ltb_ge in Hl. unfold last_nonces. replace (_ - _)%nat with 0%nat by lia. done.
Qed.

Lemma last_nonces_snoc log nonce :
  last_nonces (last_nonces log ++ [nonce]) = last_nonces (log ++ [nonce]).
Proof.
  unfold last_nonces, REPLAY_CACHE_LIMIT. rewrite !length_app, length_drop. cbn [length].
  rewrite !drop_app_le by (rewrite ?length_drop; lia). rewrite drop_drop.
  do 2 f_equal. lia.
Qed.

Lemma remember_refines r log field nonce :
  cache_of r log →
  (remember_nonce r field nonce).2 = (spec_remember log field nonce).2 ∧
  cache_of (remember_nonce r field nonce).1 (spec_remember log field nonce).1.
Proof.
  intros [Ho Hs Hnd]. unfold remember_nonce, spec_remember.
  destruct (safe_ipc_text field nonce) as [[]|e]; [|by split].
  rewrite (bool_decide_ext (nonce ∈ seen r) (nonce ∈ last_nonces log)) by
    (rewrite Hs, elem_of_list_to_set, Ho; done). rewrite <- Ho.
  case_bool_decide as Hin; [by split|]. split; [done|]. cbn [fst].
  destruct (forget_old_spec (length (order r ++ [nonce]))
    (mkReplayProtector ({[nonce]} ∪ seen r) (order r ++ [nonce]))) as (H1 & H2 & H3);
    cbn [order seen].
  - done.
  - rewrite Hs, list_to_set_app_L. cbn [list_to_set]. set_solver.
  - apply NoDup_app. split_and!; [done|set_solver|]. apply NoDup_singleton.
  - constructor; [|done|done]. rewrite H1. cbn [order].
    rewrite Ho. apply last_nonces_snoc.
Qed.

(** A sequence of calls, and the results they give. *)
Fixpoint remember_all {S} (remember : S → string → string → S * result unit IpcError) (s : S)
    (calls : list (string * string)) : S * list (result unit IpcError) :=
  match calls with
  | [] => (s, [])
  | (field, nonce) :: calls =>
      let '(s, r) := remember s field nonce in
      let '(s, rs) := remember_all remember s calls in (s, r :: rs)
  end.

(** C34. The nonce cache implements its specification: whatever nonces are presented, its
    answers are those of a log that refuses a nonce exactly when it is among the last 256
    accepted ones; the cache itself never holds more than 256, its queue and its set hold
    the same nonces, each once. *)
Theorem replay_cache_refines_log calls :
  let '(cache, answers) := remember_all remember_nonce replay_new calls in
  let '(log, expected) := remember_all spec_remember [] calls in
  answers = expected ∧ order cache = last_nonces log ∧
  seen cache = list_to_set (order cache) ∧ NoDup (order cache) ∧
  (length (order cache) ≤ REPLAY_CACHE_LIMIT)%nat.
Proof.
  assert (∀ r log, cache_of r log →
    let '(cache, answers) := remember_all remember_nonce r calls in
    let '(log', expected) := remember_all spec_remember log calls in
    answers = expected ∧ cache_of cache log') as Hall.
  { induction calls as [|[field nonce] calls IH]; intros r log Hc; cbn [remember_all]; [done|].
    pose proof (remember_refines r log field nonce Hc) as [Hr Hc'].
    destruct (remember_nonce r field nonce) as [r1 a1], (spec_remember log field nonce) as [l1 e1].
    cbn [fst snd] in *. specialize (IH _ _ Hc').
    destruct (remember_all remember_nonce r1 calls), (remember_all spec_remember l1 calls).
    destruct IH as [-> ?]. by subst. }
  specialize (Hall replay_new []).
  destruct (remember_all remember_nonce replay_new calls) as [cache answers].
  destruct (remember_all spec_remember [] calls) as [log expected].
  destruct Hall as [-> [Ho Hs Hnd]]; [by repeat constructor|].
  split_and!; try done. rewrite Ho. apply last_nonces_length.
Qed.

(* ------------------------------------------------------------------ *)
(** ** Tokens *)

Section tokens.
Context `{Externals}.

(** A token that is looked at further than its transport. *)
Definition acceptable (t : BoundedTokenClassificationInput) : bool :=
  tk_local_connection t && tk_token_available t && tk_impersonation_token t &&
  tk_impersonation_level_suitable t && tk_session_binding_valid t &&
  negb (tk_network_logon t) && negb (tk_anonymous t).

(** The classes of commands an acceptable token is given under a policy. *)
Definition entitled (p : CallerVerificationPolicy) (t : BoundedTokenClassificationInput)
    (c : AllowedCommandClass) : bool :=
  let service := tk_expected_service_identity t in
  let admin := negb service && tk_administrator_member t && cp_allow_administrators_for_read p in
  let user := negb service && negb admin && tk_interactive t in
  let foreground := user && negb (cp_production_service_mode p) &&
                    cp_allow_foreground_development p in
  match c with
  | AcReadStatus | AcReadCanonicalModels | AcMutationAuthorizationEvaluation =>
      service || admin || user
  | AcFutureUserMutationCandidate => admin || (user && negb foreground)
  | AcFutureAdminMutationCandidate => admin
  | AcForegroundTestControl => foreground
  | AcNone => false
  end.

(** The token classification is the decision table it is meant to be: a class of
    commands is permitted to the caller exactly when the connection is local, the token is
    available, an impersonation token of a suitable level, bound to the session of the
    pipe, neither a network logon nor anonymous, and its identity is entitled to the class
    under the policy. In service mode nobody gets the foreground test class, and the local
    service account never gets a provider mutation. *)
Theorem token_classification_table (token : BoundedTokenClassificationInput)
    (policy : CallerVerificationPolicy) (w : World) (class : AllowedCommandClass) :
  permits_command_class (st_result (classify_bounded_token token policy) w) class =
  acceptable token && entitled policy token class.
Proof.
  destruct token as [local available imp level network anon inter service admin elevated bound].
  destruct policy as [production administrators development].
  unfold permits_command_class, acceptable, entitled, st_result, classify_bounded_token,
    token_verdict. cbn.
  destruct local; [|by destruct class].
  destruct available; [|by destruct class].
  destruct imp; [|by destruct class].
  destruct level; [|by destruct class].
  destruct bound; [|by destruct class].
  destruct network; [by destruct class|].
  destruct anon; [by destruct class|].
  by destruct service, admin, administrators, inter, production, development, class.
Qed.

(** A failed verification permits nothing. *)
Lemma failure_summary_permits_nothing state reason w class :
  permits_command_class (st_result (verification_failure_summary state reason) w) class = false.
Proof.
  unfold permits_command_class, st_result, verification_failure_summary. cbn.
  by rewrite !andb_false_r.
Qed.

Lemma classified_summary_valid token policy w :
  caller_safe_text "verification_ref"
    ("caller_verification_" ++ uuid_to_string (uuid_source w (uuids_drawn w)))%string = Ok tt →
  summary_validate (st_result (classify_bounded_token token policy) w) = Ok tt.
Proof.
  intros Hr. unfold st_result, classify_bounded_token.
  assert (let '(_, state, _, reason) := token_verdict token policy in
    caller_optional_safe_text "degraded_reason" reason = Ok tt ∧
    len (classes_of_state state) ≤ 16 ∧ classes_of_state state ≠ []) as Hv.
  { unfold token_verdict. repeat case_match; simplify_eq; by vm_compute. }
  destruct (token_verdict token policy) as [[[category state] suit] reason].
  destruct Hv as (Hd & Hl & Hn). unfold st_bind, new_uuid, st_ret. cbn [fst].
  unfold summary_validate.
  cbn [cvs_schema_version cvs_verification_ref cvs_degraded_reason cvs_audit_refs
       cvs_provenance_id cvs_allowed_command_classes cvs_production_mutations_enabled
       cvs_redaction_status].
  rewrite Hr, Hd. rewrite (bool_decide_eq_false_2 (classes_of_state state = [])) by done.
  replace (MAX_CALLER_VERIFICATION_REFS <? len (classes_of_state state)) with false by
    (symmetry; by apply N.ltb_ge). by vm_compute.
Qed.
End tokens.

(* ------------------------------------------------------------------ *)
(** ** A concrete run *)
Module IpcSample.
Lemma rate_limit_bound_witness :
  len (in_window 1000000000 (accepted (rate_limiter_new 0)
    (replicate 200 1000000000 ++ replicate 200 1000000001))) ≤ 2 * READ_COMMAND_RATE_LIMIT.
Proof.
  apply (rate_limit_bound 0 (replicate 200 1000000000 ++ replicate 200 1000000001)).
  assert (∀ n x (l : list N), StronglySorted N.le l → Forall (N.le x) l →
    StronglySorted N.le (replicate n x ++ l)) as Happ.
  { intros n x l Hl Hx. induction n as [|n IH]; [done|]. constructor; [done|].
    apply Forall_app. split; [|done]. by apply Forall_replicate. }
  constructor.
  - apply Happ; [|by apply Forall_replicate].
    rewrite <- (app_nil_r (replicate _ 1000000001)). apply Happ; by constructor.
  - apply Forall_app. split; by apply Forall_replicate.
Defined.
End IpcSample.
