(* ===== verification/MutationAuthorization.v ===== *)
(** * The mutation authorization evaluator ([app_core/src/mutation_authorization.rs])

    The state machine between the service's pipe and the providers: an intent is evaluated
    against the catalog, the verified caller and the runtime; an approval is recorded under
    a fresh reference and can be consumed once. The state [MutationAuthorizationEvaluator]
    holds three hash maps bounded by 64 records each. [Sha256::digest] is the class
    [Sha256]. [Instant] is a number of nanoseconds; [evaluate] and [consume] take the
    current reading of the monotonic clock as an argument. Field prefixes: [ctx_] runtime
    context, [ir_] idempotency record, [sr_] seen intent, [xr_] execution record. *)

From S2P Require Import Prelude Collections RustStr Effects Contracts Checks CallerVerification.
From S2P Require Import MutationPolicy RuntimeOwnership.

#[local] Open Scope string_scope.
#[local] Open Scope list_scope.
#[local] Open Scope N_scope.

(** [format!("{:x}", Sha256::digest(bytes))] *)
Class Sha256 := { sha256_hex : string → string }.

(* [app_core/src/mutation_authorization.rs:19-19] MAX_SESSION_AUTHORIZATION_RECORDS *)
Definition MAX_SESSION_AUTHORIZATION_RECORDS : nat := 64.

(* ------------------------------------------------------------------ *)
(** ** The runtime an intent is evaluated in *)

(* [app_core/src/mutation_authorization.rs] MutationAuthorizationRuntimeContext *)
Record MutationAuthorizationRuntimeContext := mkRuntimeContext {
  ctx_ipc_session_ref : string;
  ctx_protocol_schema_valid : bool;
  ctx_runtime_state : MutationRuntimeStateCategory;
  ctx_ownership_epoch : N;
  ctx_ip_helper_state : MutationCapabilityStateCategory;
  ctx_etw_state : MutationCapabilityStateCategory;
  ctx_dns_sensing_state : MutationCapabilityStateCategory;
  ctx_auth_remote_state : MutationCapabilityStateCategory;
  ctx_provider_controller_state : MutationCapabilityStateCategory;
  ctx_sampler_state : MutationCapabilityStateCategory;
  ctx_scheduler_state : MutationCapabilityStateCategory;
  ctx_scheduler_host_state : MutationCapabilityStateCategory;
  ctx_report_state : MutationCapabilityStateCategory;
  ctx_export_state : MutationCapabilityStateCategory;
  ctx_llm_state : MutationCapabilityStateCategory;
  ctx_capture_state : MutationCapabilityStateCategory;
  ctx_response_state : MutationCapabilityStateCategory
}.

(** [match value { .. }] on text: the first listed pair, or the default. *)
Fixpoint text_match {A} (table : list (string * A)) (default : A) (value : string) : A :=
  match table with
  | [] => default
  | (text, x) :: table => if bool_decide (value = text) then x else text_match table default value
  end.

(* [app_core/src/mutation_authorization.rs] map_state *)
Definition map_state : string → MutationCapabilityStateCategory :=
  text_match
    [("active", MksActive); ("running", MksActive); ("ready", MksReady); ("paused", MksPaused);
     ("degraded", MksDegraded); ("failed", MksDegraded); ("stopped", MksStopped);
     ("inactive", MksInactive); ("disabled", MksInactive); ("blocked", MksBlocked);
     ("revoked", MksBlocked)]
    MksUnavailable.

(* [app_core/src/mutation_authorization.rs] MutationAuthorizationRuntimeContext::from_runtime_summary *)
Definition from_runtime_summary (ipc_session_ref : string) (summary : RuntimeOwnershipSummary)
    : MutationAuthorizationRuntimeContext :=
  let runtime_state :=
    if bool_decide (ros_runtime_mode summary = RmServiceOwned) &&
       match ros_runtime_health summary with RhsHealthy | RhsReady => true | _ => false end &&
       bool_decide (ros_transition_state summary = RtsReady)
    then MrsServiceOwnedReady
    else if bool_decide (ros_transition_state summary = RtsShuttingDown) then MrsShuttingDown
    else MrsDegraded in
  let provider := map_state (ros_provider_controller_state summary) in
  {| ctx_ipc_session_ref := ipc_session_ref; ctx_protocol_schema_valid := true;
     ctx_runtime_state := runtime_state;
     ctx_ownership_epoch := ros_ownership_epoch summary;
     ctx_ip_helper_state := provider; ctx_etw_state := provider;
     ctx_dns_sensing_state := provider; ctx_auth_remote_state := provider;
     ctx_provider_controller_state := provider;
     ctx_sampler_state := map_state (ros_sampler_state summary);
     ctx_scheduler_state := map_state (ros_scheduler_state summary);
     ctx_scheduler_host_state := map_state (ros_scheduler_host_state summary);
     ctx_report_state := MksAvailable; ctx_export_state := MksAvailable;
     ctx_llm_state := MksUnavailable; ctx_capture_state := MksUnavailable;
     ctx_response_state := MksBlocked |}.

(* [app_core/src/mutation_authorization.rs] MutationAuthorizationRuntimeContext::unavailable *)
Definition context_unavailable (ipc_session_ref : string)
    : MutationAuthorizationRuntimeContext :=
  {| ctx_ipc_session_ref := ipc_session_ref; ctx_protocol_schema_valid := true;
     ctx_runtime_state := MrsUnavailable; ctx_ownership_epoch := 1;
     ctx_ip_helper_state := MksUnavailable; ctx_etw_state := MksUnavailable;
     ctx_dns_sensing_state := MksUnavailable; ctx_auth_remote_state := MksUnavailable;
     ctx_provider_controller_state := MksUnavailable; ctx_sampler_state := MksUnavailable;
     ctx_scheduler_state := MksUnavailable; ctx_scheduler_host_state := MksUnavailable;
     ctx_report_state := MksUnavailable; ctx_export_state := MksUnavailable;
     ctx_llm_state := MksUnavailable; ctx_capture_state := MksUnavailable;
     ctx_response_state := MksBlocked |}.

(* [app_core/src/mutation_authorization.rs] MutationAuthorizationRuntimeContext::capability_state *)
Definition context_capability_state (self : MutationAuthorizationRuntimeContext)
    (capability : MutationCapabilityCategory) : MutationCapabilityStateCategory :=
  match capability with
  | McpIpHelperProvider => ctx_ip_helper_state self
  | McpEtwProvider => ctx_etw_state self
  | McpDnsSensingProvider => ctx_dns_sensing_state self
  | McpAuthRemoteSensingProvider => ctx_auth_remote_state self
  | McpNetworkProviderController => ctx_provider_controller_state self
  | McpNativeSampler => ctx_sampler_state self
  | McpNativeScheduler => ctx_scheduler_state self
  | McpNativeSchedulerHost => ctx_scheduler_host_state self
  | McpCaptureAuthorization => ctx_capture_state self
  | McpReportGeneration => ctx_report_state self
  | McpExport => ctx_export_state self
  | McpLlmAlertStory => ctx_llm_state self
  | McpResponse => ctx_response_state self
  | McpServiceHostLifecycle | McpHostMutation => MksNotApplicable
  end.

(* ------------------------------------------------------------------ *)
(** ** State *)

(* [app_core/src/mutation_authorization.rs] IdempotencyRecord *)
Record IdempotencyRecord := mkIdempotencyRecord {
  ir_request_hash : string;
  ir_decision : MutationAuthorizationDecision;
  ir_expires_at_millis : N
}.
(* [app_core/src/mutation_authorization.rs] SeenIntentRecord *)
Record SeenIntentRecord := mkSeenIntent {
  sr_request_hash : string;
  sr_expires_at_millis : N
}.
(* [app_core/src/mutation_authorization.rs] ExecutionAuthorizationRecord *)
Record ExecutionAuthorizationRecord := mkExecutionRecord {
  xr_decision : MutationAuthorizationDecision;
  xr_request_hash : string;
  xr_session_ref : string;
  xr_command_id : MutationCommandId;
  xr_policy_ref : string;
  xr_policy_version : SchemaVersion;
  xr_ownership_epoch : N;
  xr_expires_at_millis : N;
  xr_consumed : bool
}.
(* [app_core/src/mutation_authorization.rs] DecisionEnvironment *)
Record DecisionEnvironment := mkEnvironment {
  env_caller : CallerVerificationSummary;
  env_policy : MutationCommandPolicy;
  env_runtime : MutationAuthorizationRuntimeContext;
  env_capability_state : MutationCapabilityStateCategory
}.
(* [app_core/src/mutation_authorization.rs] MutationAuthorizationEvaluator *)
Record MutationAuthorizationEvaluator := mkEvaluator {
  policies : gmap MutationCommandId MutationCommandPolicy;
  idempotency_records : gmap string IdempotencyRecord;
  seen_intents : gmap string SeenIntentRecord;
  execution_records : gmap string ExecutionAuthorizationRecord;
  clock_origin : N;
  last_decision : option MutationAuthorizationDecision;
  denied_count : N;
  expired_count : N;
  replay_count : N;
  execution_attempt_count : N
}.

Definition set_tables (self : MutationAuthorizationEvaluator)
    (idem : gmap string IdempotencyRecord) (seen : gmap string SeenIntentRecord)
    (exec : gmap string ExecutionAuthorizationRecord) : MutationAuthorizationEvaluator :=
  mkEvaluator (policies self) idem seen exec (clock_origin self) (last_decision self)
    (denied_count self) (expired_count self) (replay_count self) (execution_attempt_count self).
Definition set_counts (self : MutationAuthorizationEvaluator)
    (last : option MutationAuthorizationDecision) (denied expired replay attempts : N)
    : MutationAuthorizationEvaluator :=
  mkEvaluator (policies self) (idempotency_records self) (seen_intents self)
    (execution_records self) (clock_origin self) last denied expired replay attempts.

(** [self.replay_count = self.replay_count.saturating_add(1)] and its like. *)
Definition count_replay (self : MutationAuthorizationEvaluator) : MutationAuthorizationEvaluator :=
  set_counts self (last_decision self) (denied_count self) (expired_count self)
    (saturating_add u64_max (replay_count self) 1) (execution_attempt_count self).
Definition count_expired (self : MutationAuthorizationEvaluator) : MutationAuthorizationEvaluator :=
  set_counts self (last_decision self) (denied_count self)
    (saturating_add u64_max (expired_count self) 1) (replay_count self)
    (execution_attempt_count self).
Definition count_denied (self : MutationAuthorizationEvaluator) : MutationAuthorizationEvaluator :=
  set_counts self (last_decision self) (saturating_add u64_max (denied_count self) 1)
    (expired_count self) (replay_count self) (execution_attempt_count self).

(* [app_core/src/mutation_authorization.rs] MutationAuthorizationEvaluator::new *)
Definition evaluator_new (clock : N) : MutationAuthorizationEvaluator :=
  {| policies := list_to_map ((λ policy, (mcp_command_id policy, policy)) <$>
                                mutation_policy_catalog);
     idempotency_records := ∅; seen_intents := ∅; execution_records := ∅;
     clock_origin := clock; last_decision := None;
     denied_count := 0; expired_count := 0; replay_count := 0; execution_attempt_count := 0 |}.

(* ------------------------------------------------------------------ *)
(** ** Tests of the gates *)

(* [app_core/src/mutation_authorization.rs] caller_matches *)
Definition caller_matches (required : MutationRequiredCallerCategory)
    (caller : CallerVerificationSummary) : bool :=
  match required with
  | MrcVerifiedInteractiveUser =>
      cvs_interactive_marker caller &&
      match cvs_verification_state caller with
      | CvVerifiedInteractiveUser | CvAdministratorPolicyVerified => true
      | _ => false
      end
  | MrcAdministratorPolicyVerified =>
      cvs_administrator_policy_marker caller &&
      bool_decide (cvs_verification_state caller = CvAdministratorPolicyVerified)
  | MrcVerifiedServiceIdentity =>
      bool_decide (cvs_verification_state caller = CvVerifiedServiceIdentity)
  | MrcForegroundDevelopment =>
      bool_decide (cvs_verification_state caller = CvForegroundDevelopment)
  | MrcAnyVerifiedLocal => state_permits_read_only_commands (cvs_verification_state caller)
  | MrcNone => false
  end.

(* [app_core/src/mutation_authorization.rs] target_state_matches *)
Definition target_state_matches (required : MutationRequiredTargetState)
    (actual : MutationCapabilityStateCategory) : bool :=
  match required with
  | MtsAnyDeclared => match actual with MksUnavailable | MksBlocked => false | _ => true end
  | MtsInactiveOrReady =>
      match actual with MksInactive | MksReady | MksStopped => true | _ => false end
  | MtsActiveOrPaused => match actual with MksActive | MksPaused => true | _ => false end
  | MtsStoppedOrPaused =>
      match actual with MksStopped | MksPaused | MksInactive => true | _ => false end
  | MtsAvailable => match actual with MksAvailable | MksReady => true | _ => false end
  | MtsUnavailable => bool_decide (actual = MksUnavailable)
  | MtsNotApplicable => bool_decide (actual = MksNotApplicable)
  end.

(** [Display] of [bool]. *)
Definition show_bool (b : bool) : string := if b then "true" else "false".

(* [app_core/src/mutation_authorization.rs] bounded_request_hash *)
Definition bounded_request_hash `{Sha256} (intent : MutationIntent) : string :=
  sha256_hex (join "|"
    [mi_ipc_session_ref intent; mi_caller_verification_ref intent;
     command_debug (mi_command_id intent); mi_policy_ref intent;
     to_string (mi_policy_version intent);
     capability_debug (mi_target_capability_category intent);
     mi_target_capability_ref intent; mi_requested_operation_category intent;
     ttl_debug (mi_expiry_ttl_bucket intent); show_uint (mi_ownership_epoch intent);
     show_bool (mi_explicit_user_action intent); show_bool (mi_dry_run intent)]).

(* [app_core/src/mutation_authorization.rs] idempotency_key *)
Definition idempotency_key (intent : MutationIntent) (idempotency_ref : string) : string :=
  join "|" [mi_ipc_session_ref intent; as_str (mi_command_id intent);
            to_string (mi_policy_version intent); idempotency_ref].

(** [format!("{}|{}", intent.ipc_session_ref, intent.intent_ref)] *)
Definition seen_key (intent : MutationIntent) : string :=
  join "|" [mi_ipc_session_ref intent; mi_intent_ref intent].

(* [app_core/src/mutation_authorization.rs] decision_audit_refs *)
Definition decision_audit_refs (result : MutationAuthorizationResult) : list string :=
  let terminal :=
    match result with
    | MarApprovedDryRun => "mutation_authorization_approved_dry_run"
    | MarApprovedForExecution => "mutation_authorization_approved_for_execution"
    | MarExpired => "mutation_intent_expired"
    | MarReplayRejected => "mutation_replay_rejected"
    | MarSessionMismatch => "mutation_session_mismatch"
    | MarOwnershipEpochMismatch => "mutation_ownership_epoch_mismatch"
    | _ => "mutation_authorization_denied"
    end in
  terminal ::
    (if bool_decide (result = MarApprovedDryRun) then ["mutation_execution_blocked"]
     else if bool_decide (result = MarApprovedForExecution)
     then ["ip_helper_execution_authorized"]
     else []).

(* ------------------------------------------------------------------ *)
(** ** Decisions *)

Section evaluator.
Context `{Externals, HashOrder, Sha256}.

(* [app_core/src/mutation_authorization.rs] build_decision *)
Definition build_decision (intent : MutationIntent) (environment : DecisionEnvironment)
    (result : MutationAuthorizationResult) (degraded_reason : string)
    (ttl_state : MutationTtlState) (idempotency_state : MutationIdempotencyState)
    : ST MutationAuthorizationDecision :=
  let policy := env_policy environment in
  let$ id := new_uuid in
  st_ret
    {| mad_schema_version := MUTATION_AUTHORIZATION_SCHEMA_VERSION;
       mad_decision_ref := ("mutation_decision_" ++ uuid_to_string id)%string;
       mad_intent_ref := mi_intent_ref intent;
       mad_command_id := mi_command_id intent;
       mad_policy_ref := mcp_policy_ref policy;
       mad_policy_version := mcp_policy_version policy;
       mad_result := result;
       mad_caller_category := cvs_caller_category (env_caller environment);
       mad_command_class := mcp_required_command_class policy;
       mad_runtime_state := ctx_runtime_state (env_runtime environment);
       mad_capability_state := env_capability_state environment;
       mad_ownership_epoch := mi_ownership_epoch intent;
       mad_ttl_state := ttl_state;
       mad_idempotency_state := idempotency_state;
       mad_dry_run := negb (bool_decide (result = MarApprovedForExecution));
       mad_execution_enabled := bool_decide (result = MarApprovedForExecution);
       mad_degraded_reason := Some degraded_reason;
       mad_audit_refs := decision_audit_refs result;
       mad_provenance_id := "servicehost_mutation_authorization";
       mad_redaction_status := RsRedacted |}.

(* [app_core/src/mutation_authorization.rs] replay_decision *)
Definition replay_decision (intent : MutationIntent) (environment : DecisionEnvironment)
    (idempotency_state : MutationIdempotencyState) (reason : string)
    : ST MutationAuthorizationDecision :=
  build_decision intent environment MarReplayRejected reason MttCurrent idempotency_state.

(** The stored decision, returned again. *)
Definition reuse_decision (decision : MutationAuthorizationDecision)
    : MutationAuthorizationDecision :=
  {| mad_schema_version := mad_schema_version decision;
     mad_decision_ref := mad_decision_ref decision;
     mad_intent_ref := mad_intent_ref decision;
     mad_command_id := mad_command_id decision;
     mad_policy_ref := mad_policy_ref decision;
     mad_policy_version := mad_policy_version decision;
     mad_result := mad_result decision;
     mad_caller_category := mad_caller_category decision;
     mad_command_class := mad_command_class decision;
     mad_runtime_state := mad_runtime_state decision;
     mad_capability_state := mad_capability_state decision;
     mad_ownership_epoch := mad_ownership_epoch decision;
     mad_ttl_state := mad_ttl_state decision;
     mad_idempotency_state := MdsReused;
     mad_dry_run := mad_dry_run decision;
     mad_execution_enabled := mad_execution_enabled decision;
     mad_degraded_reason := mad_degraded_reason decision;
     mad_audit_refs := ["mutation_idempotency_reused"];
     mad_provenance_id := mad_provenance_id decision;
     mad_redaction_status := mad_redaction_status decision |}.

(* ------------------------------------------------------------------ *)
(** ** Evaluation *)

(** The gates that need no record, in the order of the code: the first that refuses gives
    the result, its reason and the time-to-live state. *)
(* [app_core/src/mutation_authorization.rs:244-375] MutationAuthorizationEvaluator::evaluate_at *)
Definition gates (intent : MutationIntent) (env : DecisionEnvironment)
    : option (MutationAuthorizationResult * string * MutationTtlState) :=
  let caller := env_caller env in
  let policy := env_policy env in
  let context := env_runtime env in
  let capability_state := env_capability_state env in
  if negb (bool_decide (mi_ipc_session_ref intent = ctx_ipc_session_ref context)) ||
     negb (bool_decide (mi_caller_verification_ref intent = cvs_verification_ref caller))
  then Some (MarSessionMismatch, "session_mismatch", MttCurrent)
  else if negb (state_permits_read_only_commands (cvs_verification_state caller)) ||
          negb (bool_decide (cvs_session_binding_state caller = SbBound)) ||
          negb (bool_decide (cvs_freshness_bucket caller = VfCurrentConnection))
  then Some (MarCallerNotAuthorized, "caller_verification_not_current", MttCurrent)
  else if negb (ctx_protocol_schema_valid context)
  then Some (MarDenied, "protocol_schema_invalid", MttCurrent)
  else if negb (bool_decide (mi_policy_ref intent = mcp_policy_ref policy))
  then Some (MarPolicyNotFound, "policy_not_found", MttCurrent)
  else if negb (bool_decide (mi_policy_version intent = mcp_policy_version policy))
  then Some (MarPolicyVersionMismatch, "policy_version_mismatch", MttCurrent)
  else if negb (caller_matches (mcp_required_caller_category policy) caller)
  then Some (if mcp_administrator_required policy
             then (MarAdministratorPolicyRequired, "administrator_policy_required", MttCurrent)
             else (MarCallerNotAuthorized, "caller_not_authorized", MttCurrent))
  else if negb (permits_command_class caller (mcp_required_command_class policy))
  then Some (MarCommandClassNotAllowed, "command_class_not_allowed", MttCurrent)
  else if mcp_interactive_session_required policy && negb (cvs_interactive_marker caller)
  then Some (MarCallerNotAuthorized, "interactive_session_required", MttCurrent)
  else if negb (mi_explicit_user_action intent)
  then Some (MarExplicitActionRequired, "explicit_action_required", MttCurrent)
  else if negb (mi_ownership_epoch intent =? ctx_ownership_epoch context)
  then Some (MarOwnershipEpochMismatch, "ownership_epoch_mismatch", MttCurrent)
  else if mcp_service_host_runtime_required policy &&
          negb (bool_decide (ctx_runtime_state context = MrsServiceOwnedReady))
  then Some (MarRuntimeStateInvalid, "runtime_state_invalid", MttCurrent)
  else if negb (bool_decide
                  (mi_target_capability_category intent = mcp_required_capability policy))
  then Some (MarCapabilityUnavailable, "capability_mismatch", MttCurrent)
  else if negb (target_state_matches (mcp_required_target_state policy) capability_state)
  then Some (if bool_decide (capability_state = MksUnavailable) ||
                bool_decide (capability_state = MksBlocked)
             then (MarCapabilityUnavailable, "capability_unavailable", MttCurrent)
             else (MarProviderStateInvalid, "target_state_invalid", MttCurrent))
  else if bool_decide (mi_created_time_bucket intent = MimExpired) ||
          negb (bool_decide (mi_expiry_ttl_bucket intent = mcp_request_ttl_bucket policy))
  then Some (MarExpired,
             if bool_decide (mi_created_time_bucket intent = MimExpired)
             then "mutation_intent_expired" else "mutation_ttl_policy_mismatch", MttExpired)
  else None.

(** What the policy itself says once every gate is passed. *)
(* [app_core/src/mutation_authorization.rs:380-419] MutationAuthorizationEvaluator::evaluate_at *)
Definition policy_verdict (policy : MutationCommandPolicy) : MutationAuthorizationResult * string :=
  if mcp_response_capable policy
  then (MarResponseCapabilityBlocked, "response_capability_blocked")
  else match mcp_implementation_state policy with
       | MisAlwaysDenied => (MarDenied, default "policy_denied" (mcp_degraded_reason policy))
       | MisNotImplemented =>
           (MarNotImplemented, default "not_implemented" (mcp_degraded_reason policy))
       | MisFrameworkReviewOnly =>
           if mcp_execution_enabled policy
           then (MarApprovedForExecution, "provider_execution_authorized")
           else (MarApprovedDryRun, "mutation_execution_blocked")
       end.

(** Whether the policy accepts an intent with, or without, an idempotency reference. *)
(* [app_core/src/mutation_authorization.rs:564-588] MutationAuthorizationEvaluator::evaluate_idempotency *)
Definition idempotency_refusal (policy : MutationCommandPolicy) (idempotency_ref : option string)
    : option (string * MutationIdempotencyState) :=
  match mcp_idempotency_policy policy, idempotency_ref with
  | (MipRequired | MipSingleUse), None => Some ("idempotency_required", MdsMissing)
  | MipForbidden, Some _ => Some ("idempotency_forbidden", MdsConflict)
  | _, _ => None
  end.

(* [app_core/src/mutation_authorization.rs] MutationAuthorizationEvaluator::evaluate_idempotency *)
Definition evaluate_idempotency (self : MutationAuthorizationEvaluator)
    (intent : MutationIntent) (environment : DecisionEnvironment) (request_hash : string)
    (now_millis : N) : ST (option MutationAuthorizationDecision) :=
  let expired :=
    let$ d := build_decision intent environment MarExpired "mutation_intent_expired" MttExpired
                MdsReused in
    st_ret (Some d) in
  match idempotency_refusal (env_policy environment) (mi_idempotency_ref intent) with
  | Some (reason, state) =>
      let$ d := build_decision intent environment MarDenied reason MttCurrent state in
      st_ret (Some d)
  | None =>
      match mi_idempotency_ref intent ≫= λ r, idempotency_records self !! idempotency_key intent r with
      | Some record =>
          if ir_expires_at_millis record <=? now_millis then expired
          else if bool_decide (ir_request_hash record = request_hash)
          then st_ret (Some (reuse_decision (ir_decision record)))
          else
            let$ d := replay_decision intent environment MdsConflict
                        "idempotency_payload_conflict" in
            st_ret (Some d)
      | None =>
          match seen_intents self !! seen_key intent with
          | Some previous =>
              if sr_expires_at_millis previous <=? now_millis then expired
              else
                let$ d := replay_decision intent environment
                            (if bool_decide (sr_request_hash previous = request_hash)
                             then MdsReused else MdsConflict)
                            "mutation_intent_replay_rejected" in
                st_ret (Some d)
          | None => st_ret None
          end
      end
  end.

(** [while map.len() > MAX { if let Some(key) = map.keys().next().cloned() {
    map.remove(&key); } }]; the map has no more than [fuel] entries. *)
(* [app_core/src/mutation_authorization.rs:707-711] MutationAuthorizationEvaluator::enforce_record_bound *)
Fixpoint evict {V} (fuel : nat) (m : gmap string V) : gmap string V :=
  match fuel with
  | O => m
  | S fuel =>
      if bool_decide (MAX_SESSION_AUTHORIZATION_RECORDS < size m)%nat then
        match hash_keys m with
        | key :: _ => evict fuel (delete key m)
        | [] => evict fuel m
        end
      else m
  end.
Definition bounded {V} (m : gmap string V) : gmap string V := evict (size m) m.

(* [app_core/src/mutation_authorization.rs] MutationAuthorizationEvaluator::enforce_record_bound *)
Definition enforce_record_bound (self : MutationAuthorizationEvaluator)
    : MutationAuthorizationEvaluator :=
  set_tables self (bounded (idempotency_records self)) (bounded (seen_intents self))
    (bounded (execution_records self)).

(** [map.entry(key).or_insert(value)] *)
Definition entry_or_insert {V} (key : string) (value : V) (m : gmap string V) : gmap string V :=
  match m !! key with Some _ => m | None => <[key := value]> m end.

(* [app_core/src/mutation_authorization.rs] MutationAuthorizationEvaluator::record_terminal *)
Definition record_terminal (self : MutationAuthorizationEvaluator) (intent : MutationIntent)
    (policy : MutationCommandPolicy) (request_hash : string)
    (decision : MutationAuthorizationDecision) (now_millis : N)
    : MutationAuthorizationEvaluator :=
  let expires_at_millis :=
    saturating_add u64_max now_millis (duration_millis (mcp_request_ttl_bucket policy)) in
  let seen := entry_or_insert (seen_key intent) (mkSeenIntent request_hash expires_at_millis)
                (seen_intents self) in
  let idem :=
    match mi_idempotency_ref intent with
    | Some idempotency_ref =>
        entry_or_insert (idempotency_key intent idempotency_ref)
          (mkIdempotencyRecord request_hash decision expires_at_millis)
          (idempotency_records self)
    | None => idempotency_records self
    end in
  let exec :=
    if bool_decide (mad_result decision = MarApprovedForExecution) then
      entry_or_insert (mad_decision_ref decision)
        {| xr_decision := decision; xr_request_hash := request_hash;
           xr_session_ref := mi_ipc_session_ref intent;
           xr_command_id := mi_command_id intent;
           xr_policy_ref := mcp_policy_ref policy;
           xr_policy_version := mcp_policy_version policy;
           xr_ownership_epoch := mi_ownership_epoch intent;
           xr_expires_at_millis := expires_at_millis; xr_consumed := false |}
        (execution_records self)
    else execution_records self in
  enforce_record_bound (set_tables self idem seen exec).

(* [app_core/src/mutation_authorization.rs] MutationAuthorizationEvaluator::observe_decision *)
Definition observe_decision (self : MutationAuthorizationEvaluator)
    (decision : MutationAuthorizationDecision) : MutationAuthorizationEvaluator :=
  let self :=
    match mad_result decision with
    | MarExpired => count_expired self
    | MarReplayRejected => count_replay self
    | MarApprovedDryRun | MarApprovedForExecution => self
    | _ => count_denied self
    end in
  set_counts self (Some decision) (denied_count self) (expired_count self) (replay_count self)
    (execution_attempt_count self).

(** The policy of a command: the catalog's, or built on the spot. *)
Definition policy_of (self : MutationAuthorizationEvaluator) (command_id : MutationCommandId)
    : MutationCommandPolicy :=
  default (policy_for_command command_id) (policies self !! command_id).

Definition environment_of (self : MutationAuthorizationEvaluator) (intent : MutationIntent)
    (caller : CallerVerificationSummary) (context : MutationAuthorizationRuntimeContext)
    : DecisionEnvironment :=
  let policy := policy_of self (mi_command_id intent) in
  mkEnvironment caller policy context
    (context_capability_state context (mcp_required_capability policy)).

(* [app_core/src/mutation_authorization.rs] MutationAuthorizationEvaluator::evaluate_at *)
Definition evaluate_at (self : MutationAuthorizationEvaluator) (intent : MutationIntent)
    (caller : CallerVerificationSummary) (context : MutationAuthorizationRuntimeContext)
    (now_millis : N) : ST (MutationAuthorizationDecision * MutationAuthorizationEvaluator) :=
  let environment := environment_of self intent caller context in
  let policy := env_policy environment in
  let request_hash := bounded_request_hash intent in
  let terminal := build_decision intent environment in
  let$ decision :=
    match gates intent environment with
    | Some (result, reason, ttl_state) => terminal result reason ttl_state MdsNotRequired
    | None =>
        let$ known := evaluate_idempotency self intent environment request_hash now_millis in
        match known with
        | Some decision => st_ret decision
        | None =>
            let '(result, reason) := policy_verdict policy in
            terminal result reason MttCurrent MdsNew
        end
    end in
  let self := record_terminal self intent policy request_hash decision now_millis in
  let self := observe_decision self decision in
  st_ret (decision, self).

(** [self.clock_origin.elapsed().as_millis() as u64] *)
Definition elapsed_millis (self : MutationAuthorizationEvaluator) (clock : N) : N :=
  (saturating_sub clock (clock_origin self) / 1000000) mod 2 ^ 64.

(* [app_core/src/mutation_authorization.rs] MutationAuthorizationEvaluator::evaluate *)
Definition evaluate (self : MutationAuthorizationEvaluator) (intent : MutationIntent)
    (caller : CallerVerificationSummary) (context : MutationAuthorizationRuntimeContext)
    (clock : N) : ST (MutationAuthorizationDecision * MutationAuthorizationEvaluator) :=
  evaluate_at self intent caller context (elapsed_millis self clock).

(* ------------------------------------------------------------------ *)
(** ** Sessions, status and execution *)

(* [app_core/src/mutation_authorization.rs] MutationAuthorizationEvaluator::invalidate_session *)
Definition invalidate_session (self : MutationAuthorizationEvaluator) (session_ref : string)
    : MutationAuthorizationEvaluator :=
  let prefix := (session_ref ++ "|")%string in
  set_tables self
    (filter (λ '(key, _), String.prefix prefix key = false) (idempotency_records self))
    (filter (λ '(key, _), String.prefix prefix key = false) (seen_intents self))
    (filter (λ '(_, record), xr_session_ref record ≠ session_ref) (execution_records self)).

(* [app_core/src/mutation_authorization.rs] MutationAuthorizationEvaluator::status *)
Definition status (self : MutationAuthorizationEvaluator)
    (caller_trust_ready ownership_runtime_ready : bool) : MutationAuthorizationStatus :=
  {| mas_schema_version := MUTATION_AUTHORIZATION_SCHEMA_VERSION;
     mas_framework_state :=
       if caller_trust_ready && ownership_runtime_ready then MfsImplementedNarrowExecution
       else MfsDegraded;
     mas_policy_catalog_version := MUTATION_POLICY_CATALOG_VERSION;
     mas_supported_command_count := len ALL;
     mas_dry_run_only := false;
     mas_production_execution_enabled := true;
     mas_last_decision_category := mad_result <$> last_decision self;
     mas_denied_count_bucket := from_count (denied_count self);
     mas_expired_count_bucket := from_count (expired_count self);
     mas_replay_count_bucket := from_count (replay_count self);
     mas_caller_trust_ready := caller_trust_ready;
     mas_ownership_runtime_ready := ownership_runtime_ready;
     mas_degraded_reasons :=
       (if caller_trust_ready then [] else ["caller_trust_unavailable"]) ++
       (if ownership_runtime_ready then [] else ["ownership_runtime_unavailable"]);
     mas_audit_refs := ["mutation_authorization_audit"];
     mas_provenance_id := "servicehost_mutation_authorization";
     mas_redaction_status := RsRedacted |}.

(* [app_core/src/mutation_authorization.rs] MutationAuthorizationEvaluator::execution_authorization_count *)
Definition execution_authorization_count (self : MutationAuthorizationEvaluator) : nat :=
  size (execution_records self).

Definition set_consumed (r : ExecutionAuthorizationRecord) : ExecutionAuthorizationRecord :=
  mkExecutionRecord (xr_decision r) (xr_request_hash r) (xr_session_ref r) (xr_command_id r)
    (xr_policy_ref r) (xr_policy_version r) (xr_ownership_epoch r) (xr_expires_at_millis r) true.

(** The checks on a record that is neither consumed nor expired nor of another session. *)
(* [app_core/src/mutation_authorization.rs:532-537] MutationAuthorizationEvaluator::consume_execution_authorization_at *)
Definition record_mismatch (record : ExecutionAuthorizationRecord)
    (request : MutationExecutionRequest) (expected_command : MutationCommandId)
    (expected_ownership_epoch : N) : bool :=
  let intent := mer_intent request in
  negb (bool_decide (xr_command_id record = expected_command)) ||
  negb (bool_decide (xr_policy_ref record = mi_policy_ref intent)) ||
  negb (bool_decide (xr_policy_version record = mi_policy_version intent)) ||
  negb (xr_ownership_epoch record =? expected_ownership_epoch) ||
  negb (xr_ownership_epoch record =? mi_ownership_epoch intent) ||
  negb (bool_decide (xr_request_hash record = bounded_request_hash intent)).

(* [app_core/src/mutation_authorization.rs] MutationAuthorizationEvaluator::consume_execution_authorization_at *)
Definition consume_execution_authorization_at (self : MutationAuthorizationEvaluator)
    (request : MutationExecutionRequest) (session_ref : string)
    (expected_command : MutationCommandId) (expected_ownership_epoch now_millis : N)
    : MutationAuthorizationEvaluator * result MutationAuthorizationDecision string :=
  match execution_request_validate request with
  | Err _ => (self, Err "execution_request_invalid")
  | Ok _ =>
      if negb (bool_decide (mi_command_id (mer_intent request) = expected_command))
      then (count_replay self, Err "ip_helper_execution_command_rejected")
      else if negb (bool_decide (mi_ipc_session_ref (mer_intent request) = session_ref))
      then (count_replay self, Err "ip_helper_execution_session_rejected")
      else
        match execution_records self !! mer_decision_ref request with
        | None => (self, Err "ip_helper_execution_decision_unavailable")
        | Some record =>
            let decision := xr_decision record in
            if xr_consumed record
            then (count_replay self, Err "ip_helper_execution_replay_rejected")
            else if xr_expires_at_millis record <=? now_millis
            then (count_expired self, Err "ip_helper_execution_timed_out")
            else if negb (bool_decide (xr_session_ref record = session_ref))
            then (count_replay self, Err "ip_helper_execution_session_rejected")
            else if record_mismatch record request expected_command expected_ownership_epoch
            then (count_replay self, Err "ip_helper_execution_epoch_rejected")
            else if negb (bool_decide (mad_result decision = MarApprovedForExecution)) ||
                    mad_dry_run decision || negb (mad_execution_enabled decision)
            then (count_denied self, Err "ip_helper_execution_not_authorized")
            else
              let self := set_tables self (idempotency_records self) (seen_intents self)
                (<[mer_decision_ref request := set_consumed record]> (execution_records self)) in
              (set_counts self (Some decision) (denied_count self) (expired_count self)
                 (replay_count self) (saturating_add u64_max (execution_attempt_count self) 1),
               Ok decision)
        end
  end.

(* [app_core/src/mutation_authorization.rs] MutationAuthorizationEvaluator::consume_execution_authorization *)
Definition consume_execution_authorization (self : MutationAuthorizationEvaluator)
    (request : MutationExecutionRequest) (session_ref : string)
    (expected_command : MutationCommandId) (expected_ownership_epoch clock : N)
    : MutationAuthorizationEvaluator * result MutationAuthorizationDecision string :=
  consume_execution_authorization_at self request session_ref expected_command
    expected_ownership_epoch (elapsed_millis self clock).

End evaluator.
