(* ===== verification/MutationAuthorizationFacts.v ===== *)
(** * Facts about mutation authorization *)

From S2P Require Import Prelude Collections RustStr Effects Contracts Checks CallerVerification.
From S2P Require Import MutationPolicy RuntimeOwnership MutationAuthorization.

#[local] Open Scope string_scope.
#[local] Open Scope list_scope.
#[local] Open Scope N_scope.

Section facts.
Context `{Externals, HashOrder, Sha256}.
Implicit Types (e : MutationAuthorizationEvaluator) (i : MutationIntent)
  (c : CallerVerificationSummary) (x : MutationAuthorizationRuntimeContext)
  (d : MutationAuthorizationDecision) (w : World).

(* ------------------------------------------------------------------ *)
(** ** The record bound *)

Lemma evict_spec {V} fuel (m : gmap string V) : (size m ≤ fuel)%nat →
  evict fuel m ⊆ m ∧ size (evict fuel m) = (size m `min` MAX_SESSION_AUTHORIZATION_RECORDS)%nat.
Proof.
  revert m. induction fuel as [|fuel IH]; intros m Hf; simpl; [split; [done|lia]|].
  case_bool_decide as Hb; [|split; [done|lia]].
  destruct (hash_keys m) as [|k ks] eqn:Hk.
  - pose proof (hash_keys_length m) as Hl. rewrite Hk in Hl. simpl in Hl. lia.
  - assert (is_Some (m !! k)) as [v Hv] by (apply elem_of_hash_keys; rewrite Hk; set_solver).
    assert (size (delete k m) = pred (size m)) as Hs by (by eapply map_size_delete_Some).
    destruct (IH (delete k m)) as [Hsub Hsize]; [lia|]. split; [|lia].
    etrans; [done|]. apply delete_subseteq.
Qed.

Lemma bounded_subseteq {V} (m : gmap string V) : bounded m ⊆ m.
Proof. by apply evict_spec. Qed.

Lemma bounded_lookup {V} (m : gmap string V) k v : bounded m !! k = Some v → m !! k = Some v.
Proof. intros Hk. eapply lookup_weaken; [done|apply bounded_subseteq]. Qed.

Lemma bounded_size {V} (m : gmap string V) :
  (size (bounded m) ≤ MAX_SESSION_AUTHORIZATION_RECORDS)%nat.
Proof. unfold bounded. destruct (evict_spec (size m) m) as [_ ->]; lia. Qed.

Lemma bounded_id {V} (m : gmap string V) :
  (size m ≤ MAX_SESSION_AUTHORIZATION_RECORDS)%nat → bounded m = m.
Proof.
  unfold bounded. destruct (size m) as [|n] eqn:Hn; [done|]. simpl. rewrite Hn.
  by case_bool_decide; [lia|].
Qed.

Lemma entry_or_insert_lookup {V} k (v : V) m k' v' :
  entry_or_insert k v m !! k' = Some v' →
  m !! k' = Some v' ∨ (k' = k ∧ v' = v ∧ m !! k = None).
Proof.
  unfold entry_or_insert. destruct (m !! k) eqn:Hk; [by left|].
  intros [[-> ->]|[_ ?]]%lookup_insert_Some; auto.
Qed.

Lemma entry_or_insert_keeps {V} k (v : V) m k' v' :
  m !! k' = Some v' → entry_or_insert k v m !! k' = Some v'.
Proof.
  unfold entry_or_insert. destruct (m !! k) eqn:Hk; [done|].
  intros Hk'. rewrite lookup_insert_ne; [done|]. intros <-. congruence.
Qed.

(* ------------------------------------------------------------------ *)
(** ** Shapes of the operations *)

(** Text that may appear in a decision. *)
Abbreviation decision_text := (validated MAX_MUTATION_AUTHORIZATION_TEXT_LEN mutation_markers).

(** A decision whose flags agree with its result and whose texts are safe; only the
    reference made from the drawn identifier is left open. *)
Record decision_typed d : Prop := {
  dt_schema : mad_schema_version d = MUTATION_AUTHORIZATION_SCHEMA_VERSION;
  dt_dry_run : mad_dry_run d = negb (bool_decide (mad_result d = MarApprovedForExecution));
  dt_execution : mad_execution_enabled d = bool_decide (mad_result d = MarApprovedForExecution);
  dt_policy : mad_policy_ref d = mcp_policy_ref (policy_for_command (mad_command_id d));
  dt_approved : mad_result d = MarApprovedForExecution →
    production_execution_enabled (mad_command_id d) = true;
  dt_dry_run_approved : mad_result d = MarApprovedDryRun →
    always_denied (mad_command_id d) = false;
  dt_epoch : mad_ownership_epoch d ≠ 0;
  dt_intent : decision_text (mad_intent_ref d);
  dt_reason : ∃ reason, mad_degraded_reason d = Some reason ∧ decision_text reason;
  dt_audit : mutation_refs "audit_refs" (mad_audit_refs d) = Ok tt;
  dt_provenance : mad_provenance_id d = "servicehost_mutation_authorization";
  dt_redacted : mad_redaction_status d = RsRedacted
}.

Lemma policies_catalog clock command_id :
  policies (evaluator_new clock) !! command_id = Some (policy_for_command command_id).
Proof.
  unfold evaluator_new, mutation_policy_catalog. cbn [policies].
  rewrite <- list_fmap_compose. apply elem_of_list_to_map.
  - rewrite <- list_fmap_compose.
    rewrite (list_fmap_ext _ id ALL), list_fmap_id; [apply NoDup_ALL|].
    intros _ y _. by destruct y.
  - apply list_elem_of_fmap. exists command_id. split; [by destruct command_id|].
    apply elem_of_ALL.
Qed.

(* ------------------------------------------------------------------ *)
(** ** The invariant *)

Record evaluator_ok e : Prop := {
  ok_policies : ∀ k, policies e !! k = Some (policy_for_command k);
  ok_idempotency_size : (size (idempotency_records e) ≤ MAX_SESSION_AUTHORIZATION_RECORDS)%nat;
  ok_seen_size : (size (seen_intents e) ≤ MAX_SESSION_AUTHORIZATION_RECORDS)%nat;
  ok_execution_size : (size (execution_records e) ≤ MAX_SESSION_AUTHORIZATION_RECORDS)%nat;
  ok_idempotency : ∀ k r, idempotency_records e !! k = Some r → decision_typed (ir_decision r);
  ok_execution : ∀ k r, execution_records e !! k = Some r →
    decision_typed (xr_decision r) ∧ mad_decision_ref (xr_decision r) = k ∧
    mad_result (xr_decision r) = MarApprovedForExecution;
  ok_last : ∀ d, last_decision e = Some d → decision_typed d
}.

(** One call of the evaluator's interface, at any time and with any fresh identifier; the
    service validates an intent before it has it evaluated. *)
Inductive step e : MutationAuthorizationEvaluator → Prop :=
  | step_evaluate i c x now w :
      intent_validate i = Ok tt → step e (evaluate_at e i c x now w).1.2
  | step_consume q session command epoch now :
      step e (consume_execution_authorization_at e q session command epoch now).1
  | step_invalidate session : step e (invalidate_session e session).

Lemma evaluator_new_ok clock : evaluator_ok (evaluator_new clock).
Proof.
  constructor; [intros k; apply policies_catalog|..];
    cbn [evaluator_new idempotency_records seen_intents execution_records last_decision];
    [rewrite map_size_empty; lia..|intros k r; by rewrite lookup_empty|
     intros k r; by rewrite lookup_empty|done].
Qed.

Lemma decision_typed_reuse d : decision_typed d → decision_typed (reuse_decision d).
Proof. intros []. by constructor. Qed.

Lemma decision_text_dec text : bool_decide (decision_text text) = true → decision_text text.
Proof. by rewrite bool_decide_eq_true. Qed.

Lemma decision_audit_refs_ok r : mutation_refs "audit_refs" (decision_audit_refs r) = Ok tt.
Proof. by destruct r; vm_compute. Qed.

Lemma verdict_reason command_id : decision_text (policy_verdict (policy_for_command command_id)).2.
Proof. apply decision_text_dec. by destruct command_id; vm_compute. Qed.

Lemma verdict_execution command_id :
  (policy_verdict (policy_for_command command_id)).1 = MarApprovedForExecution ↔
  production_execution_enabled command_id = true.
Proof. by destruct command_id. Qed.

Lemma verdict_dry_run command_id :
  (policy_verdict (policy_for_command command_id)).1 = MarApprovedDryRun →
  always_denied command_id = false.
Proof. by destruct command_id. Qed.

Lemma gates_refuse i env r reason ttl :
  gates i env = Some (r, reason, ttl) →
  r ≠ MarApprovedForExecution ∧ r ≠ MarApprovedDryRun ∧ decision_text reason.
Proof.
  unfold gates. intros Hg.
  repeat match type of Hg with
  | (if ?b then _ else _) = _ => destruct b
  | Some (if ?b then _ else _) = _ => destruct b
  | Some (_, if ?b then _ else _, _) = _ => destruct b
  end; simplify_eq; (split_and!; [done|done|apply decision_text_dec; by vm_compute]).
Qed.

Lemma if_some_none {A} (b : bool) (v : A) k :
  (if b then Some v else k) = None ↔ b = false ∧ k = None.
Proof. destruct b; naive_solver. Qed.

(** What passing the gates of a policy means. *)
Record gates_passed i c x (p : MutationCommandPolicy) (state : MutationCapabilityStateCategory)
    : Prop := {
  gp_session : mi_ipc_session_ref i = ctx_ipc_session_ref x;
  gp_caller : mi_caller_verification_ref i = cvs_verification_ref c;
  gp_schema : ctx_protocol_schema_valid x = true;
  gp_policy : mi_policy_ref i = mcp_policy_ref p ∧ mi_policy_version i = mcp_policy_version p;
  gp_category : caller_matches (mcp_required_caller_category p) c = true;
  gp_trusted : caller_trusted c ∧ mcp_required_command_class p ∈ cvs_allowed_command_classes c;
  gp_interactive : mcp_interactive_session_required p = true → cvs_interactive_marker c = true;
  gp_explicit : mi_explicit_user_action i = true;
  gp_epoch : mi_ownership_epoch i = ctx_ownership_epoch x;
  gp_runtime : mcp_service_host_runtime_required p = true →
    ctx_runtime_state x = MrsServiceOwnedReady;
  gp_capability : mi_target_capability_category i = mcp_required_capability p;
  gp_target : target_state_matches (mcp_required_target_state p) state = true;
  gp_current : mi_created_time_bucket i = MimCurrentConnection ∧
    mi_expiry_ttl_bucket i = mcp_request_ttl_bucket p
}.

Lemma gates_none i c x p state :
  gates i (mkEnvironment c p x state) = None ↔ gates_passed i c x p state.
Proof.
  unfold gates. cbn [env_caller env_policy env_runtime env_capability_state].
  rewrite !if_some_none, !orb_false_iff, !andb_false_iff, !negb_false_iff, !bool_decide_eq_true,
    !bool_decide_eq_false, N.eqb_eq, permits_command_class_true.
  split.
  - intros ([? ?] & _ & ? & ? & ? & ? & ? & Hi & ? & ? & Hr & ? & ? & [Ht ?] & _).
    constructor; try done; [by destruct Hi as [->|]|by destruct Hr as [->|]|].
    split; [|done]. by destruct (mi_created_time_bucket i).
  - intros [? ? ? [? ?] ? [[? ? ? ? ?] ?] Hi ? ? Hr ? ? [Ht ?]].
    split_and!; try done.
    + destruct (mcp_interactive_session_required p); auto.
    + destruct (mcp_service_host_runtime_required p); auto.
    + by rewrite Ht.
Qed.

Lemma policy_of_ok e k : evaluator_ok e → policy_of e k = policy_for_command k.
Proof. intros He. unfold policy_of. by rewrite (ok_policies _ He). Qed.

(* ------------------------------------------------------------------ *)
(** ** The decision *)

Definition decision_at e i c x now w : MutationAuthorizationDecision :=
  (evaluate_at e i c x now w).1.1.

Lemma evaluate_at_state e i c x now w :
  (evaluate_at e i c x now w).1.2 =
  let d := decision_at e i c x now w in
  observe_decision (record_terminal e i (policy_of e (mi_command_id i)) (bounded_request_hash i)
                      d now) d.
Proof.
  unfold decision_at, evaluate_at, st_bind, st_ret.
  match goal with |- context [let '(_, _) := ?m in _] => destruct m end. done.
Qed.

(** The record an idempotency reference leads to. *)
Definition known_decision e i : option IdempotencyRecord :=
  mi_idempotency_ref i ≫= λ r, idempotency_records e !! idempotency_key i r.

Lemma refusal_text p r reason st :
  idempotency_refusal p r = Some (reason, st) → decision_text reason.
Proof.
  unfold idempotency_refusal.
  destruct (mcp_idempotency_policy p), r; intros [= <- <-]; apply decision_text_dec; by vm_compute.
Qed.

(** Why an intent that passes the gates is refused: the policy wants, or forbids, an
    idempotency reference; the reference is used up; the intent was seen before. *)
Inductive intent_blocked e i (env : DecisionEnvironment) now : Prop :=
  | blocked_reference :
      idempotency_refusal (env_policy env) (mi_idempotency_ref i) ≠ None →
      intent_blocked e i env now
  | blocked_record rec :
      known_decision e i = Some rec →
      ir_expires_at_millis rec ≤ now ∨ ir_request_hash rec ≠ bounded_request_hash i →
      intent_blocked e i env now
  | blocked_seen rec :
      known_decision e i = None → seen_intents e !! seen_key i = Some rec →
      intent_blocked e i env now.

(** Closes a branch that refuses for a constant reason. *)
Ltac refused :=
  left; split; [done|]; eexists _, _, _, _; split; [reflexivity|];
  split; [set_solver|]; split; [apply decision_text_dec; by vm_compute|].

Lemma decision_cases e i c x now w (d := decision_at e i c x now w)
    (env := environment_of e i c x) :
  (∃ r reason ttl, gates i env = Some (r, reason, ttl) ∧
     d = (build_decision i env r reason ttl MdsNotRequired w).1) ∨
  (gates i env = None ∧ ∃ r reason ttl st, d = (build_decision i env r reason ttl st w).1 ∧
     r ∈ [MarDenied; MarExpired; MarReplayRejected] ∧ decision_text reason ∧
     intent_blocked e i env now) ∨
  (gates i env = None ∧ idempotency_refusal (env_policy env) (mi_idempotency_ref i) = None ∧
     ∃ rec, known_decision e i = Some rec ∧ now < ir_expires_at_millis rec ∧
       ir_request_hash rec = bounded_request_hash i ∧ d = reuse_decision (ir_decision rec)) ∨
  (gates i env = None ∧ idempotency_refusal (env_policy env) (mi_idempotency_ref i) = None ∧
     known_decision e i = None ∧ seen_intents e !! seen_key i = None ∧
     d = (build_decision i env (policy_verdict (env_policy env)).1
            (policy_verdict (env_policy env)).2 MttCurrent MdsNew w).1).
Proof.
  unfold d, decision_at, evaluate_at, st_bind, st_ret. fold env.
  destruct (gates i env) as [[[r reason] ttl]|]; [left; by eauto 6|right].
  unfold evaluate_idempotency, replay_decision, st_bind, st_ret. fold (known_decision e i).
  destruct (idempotency_refusal _ _) as [[reason st]|] eqn:Href.
  { left. split; [done|]. eexists _, _, _, _. split; [reflexivity|].
    split; [set_solver|]. split; [by eapply refusal_text|]. by apply blocked_reference; rewrite Href. }
  destruct (known_decision e i) as [rec|] eqn:Hk.
  - destruct (N.leb_spec (ir_expires_at_millis rec) now);
      [refused; eapply blocked_record; by eauto|].
    case_bool_decide; [right; left; by eauto 8|refused; eapply blocked_record; by eauto].
  - destruct (seen_intents e !! seen_key i) as [prev|] eqn:Hs.
    + destruct (sr_expires_at_millis prev <=? now); refused; by eapply blocked_seen.
    + right; right. by destruct (policy_verdict (env_policy env)).
Qed.

Lemma mutation_safe_fields_ok fields :
  mutation_safe_fields fields = Ok tt ↔ Forall (λ fv, decision_text fv.2) fields.
Proof.
  unfold mutation_safe_fields. rewrite for_each_ok. apply Forall_proper; [|done].
  intros [f v]. apply check_text_ok.
Qed.

Lemma intent_validate_text i : intent_validate i = Ok tt →
  decision_text (mi_intent_ref i) ∧ mi_ownership_epoch i ≠ 0.
Proof.
  unfold intent_validate, mutation_safe_fields, mutation_safe_text.
  rewrite !chain_ok, for_each_ok, !refuse_if_ok, N.eqb_neq.
  intros (_ & Hf & _ & _ & _ & ? & _). apply Forall_cons in Hf as [Hf _].
  split; [by apply check_text_ok in Hf|done].
Qed.

Lemma build_typed i env r reason ttl st w :
  intent_validate i = Ok tt → decision_text reason →
  env_policy env = policy_for_command (mi_command_id i) →
  (r = MarApprovedForExecution → production_execution_enabled (mi_command_id i) = true) →
  (r = MarApprovedDryRun → always_denied (mi_command_id i) = false) →
  decision_typed (build_decision i env r reason ttl st w).1.
Proof.
  intros [? ?]%intent_validate_text ? Hp ? ?.
  constructor; simpl; rewrite ?Hp; eauto using decision_audit_refs_ok.
Qed.

Lemma decision_at_typed e i c x now w :
  evaluator_ok e → intent_validate i = Ok tt → decision_typed (decision_at e i c x now w).
Proof.
  intros He Hi.
  assert (env_policy (environment_of e i c x) = policy_for_command (mi_command_id i)) as Hp
    by (simpl; by apply policy_of_ok).
  destruct (decision_cases e i c x now w)
    as [(r & reason & ttl & Hg & ->)|[(_ & r & reason & ttl & st & -> & Hr & Ht & _)|
        [(_ & _ & rec & Hk & _ & _ & ->)|(_ & _ & _ & _ & ->)]]].
  - apply gates_refuse in Hg as (? & ? & ?). by apply build_typed.
  - apply build_typed; [done|done|done|..]; intros ->; set_solver.
  - apply decision_typed_reuse. unfold known_decision in Hk.
    destruct (mi_idempotency_ref i); [|done]. by eapply ok_idempotency.
  - apply build_typed; rewrite ?Hp; [done|apply verdict_reason|done|apply verdict_execution|
      apply verdict_dry_run].
Qed.

(* ------------------------------------------------------------------ *)
(** ** Preservation of the invariant *)

Lemma entry_or_insert_Forall {V} (P : string → V → Prop) k v (m : gmap string V) :
  (∀ k' v', m !! k' = Some v' → P k' v') → P k v →
  ∀ k' v', bounded (entry_or_insert k v m) !! k' = Some v' → P k' v'.
Proof.
  intros Hm Hv k' v' [?|(-> & -> & _)]%bounded_lookup%entry_or_insert_lookup; auto.
Qed.

Lemma bounded_Forall {V} (P : string → V → Prop) (m : gmap string V) :
  (∀ k' v', m !! k' = Some v' → P k' v') → ∀ k' v', bounded m !! k' = Some v' → P k' v'.
Proof. intros Hm k' v' ?%bounded_lookup. auto. Qed.

Lemma record_terminal_ok e i d now :
  evaluator_ok e → decision_typed d →
  evaluator_ok (record_terminal e i (policy_of e (mi_command_id i)) (bounded_request_hash i) d now).
Proof.
  intros [Hp ? ? ? Hi Hx Hl] Hd. unfold record_terminal, enforce_record_bound, set_tables.
  constructor; cbn [policies idempotency_records seen_intents execution_records last_decision];
    [done|apply bounded_size..| | |done].
  - destruct (mi_idempotency_ref i); [|by apply bounded_Forall].
    by apply (entry_or_insert_Forall (λ _ r, decision_typed (ir_decision r))).
  - case_bool_decide; [|by apply bounded_Forall].
    by apply (entry_or_insert_Forall (λ k r, decision_typed (xr_decision r) ∧
      mad_decision_ref (xr_decision r) = k ∧ mad_result (xr_decision r) = MarApprovedForExecution)).
Qed.

Lemma set_counts_ok e last n1 n2 n3 n4 :
  evaluator_ok e → (∀ d, last = Some d → decision_typed d) →
  evaluator_ok (set_counts e last n1 n2 n3 n4).
Proof. intros [] ?. by constructor. Qed.

Lemma observe_decision_ok e d :
  evaluator_ok e → decision_typed d → evaluator_ok (observe_decision e d).
Proof.
  intros He Hd. unfold observe_decision. apply set_counts_ok; [|by intros ? [= <-]].
  destruct (mad_result d); try done; (apply set_counts_ok; [done|by apply ok_last]).
Qed.

(** The outcomes of an attempt to consume an authorization. *)
Inductive consume_spec e (q : MutationExecutionRequest) session command epoch now :
    MutationAuthorizationEvaluator * result MutationAuthorizationDecision string → Prop :=
  | consume_refused e' reason :
      idempotency_records e' = idempotency_records e → seen_intents e' = seen_intents e →
      execution_records e' = execution_records e → policies e' = policies e →
      last_decision e' = last_decision e →
      execution_attempt_count e' = execution_attempt_count e →
      consume_spec e q session command epoch now (e', Err reason)
  | consume_ok r :
      execution_records e !! mer_decision_ref q = Some r →
      execution_request_validate q = Ok tt →
      mi_command_id (mer_intent q) = command → mi_ipc_session_ref (mer_intent q) = session →
      xr_consumed r = false → now < xr_expires_at_millis r → xr_session_ref r = session →
      record_mismatch r q command epoch = false →
      mad_result (xr_decision r) = MarApprovedForExecution →
      consume_spec e q session command epoch now
        (set_counts (set_tables e (idempotency_records e) (seen_intents e)
                       (<[mer_decision_ref q := set_consumed r]> (execution_records e)))
           (Some (xr_decision r)) (denied_count e) (expired_count e) (replay_count e)
           (saturating_add u64_max (execution_attempt_count e) 1),
         Ok (xr_decision r)).

Lemma consume_sound e q session command epoch now :
  consume_spec e q session command epoch now
    (consume_execution_authorization_at e q session command epoch now).
Proof.
  unfold consume_execution_authorization_at.
  destruct (execution_request_validate q) as [[]|] eqn:Hv; [|by constructor].
  case_bool_decide; simpl; [|by constructor].
  case_bool_decide; simpl; [|by constructor].
  destruct (execution_records e !! mer_decision_ref q) as [r|] eqn:Hr; [|by constructor].
  destruct (xr_consumed r) eqn:Hc; [by constructor|].
  destruct (N.leb_spec (xr_expires_at_millis r) now); [by constructor|].
  case_bool_decide; simpl; [|by constructor].
  destruct (record_mismatch r q command epoch) eqn:Hm; [by constructor|].
  case_bool_decide; simpl; [|by constructor].
  destruct (mad_dry_run (xr_decision r)); simpl; [by constructor|].
  destruct (mad_execution_enabled (xr_decision r)); simpl; [|by constructor].
  by apply consume_ok.
Qed.

Lemma evaluator_ok_step e e' : evaluator_ok e → step e e' → evaluator_ok e'.
Proof.
  intros He [i c x now w Hi|q session command epoch now|session].
  - rewrite evaluate_at_state. pose proof (decision_at_typed e i c x now w He Hi).
    by apply observe_decision_ok; [apply record_terminal_ok|].
  - destruct (consume_sound e q session command epoch now) as [e2 reason H3 H4 H5 H6 H7|r Hr];
      destruct He as [Hp Hs1 Hs2 Hs3 Hi Hx Hl].
    + constructor; simpl; rewrite ?H3, ?H4, ?H5, ?H6, ?H7; done.
    + apply set_counts_ok; [|intros d [= <-]; by eapply Hx].
      constructor; try done; cbn [set_tables execution_records].
      * by rewrite map_size_insert_Some.
      * intros k r' [[<- <-]|[_ ?]]%lookup_insert_Some; [by apply (Hx _ r)|by apply Hx].
  - destruct He as [Hp Hs1 Hs2 Hs3 Hi Hx Hl].
    assert (∀ V (P : string * V → Prop) `{∀ y, Decision (P y)} (m : gmap string V),
      (size m ≤ MAX_SESSION_AUTHORIZATION_RECORDS)%nat →
      (size (filter P m) ≤ MAX_SESSION_AUTHORIZATION_RECORDS)%nat) as Hf.
    { intros V P HP m Hm. etrans; [|done]. by apply map_subseteq_size, map_filter_subseteq. }
    constructor; cbn [invalidate_session set_tables policies idempotency_records seen_intents
      execution_records last_decision]; try done; try (by apply Hf).
    + intros k r [? _]%map_lookup_filter_Some. by eapply Hi.
    + intros k r [? _]%map_lookup_filter_Some. by apply Hx.
Qed.

Definition reachable e : Prop := ∃ clock, rtc step (evaluator_new clock) e.

Lemma reachable_ok e : reachable e → evaluator_ok e.
Proof.
  intros [clock Hs]. pose proof (evaluator_new_ok clock) as Hok.
  induction Hs; eauto using evaluator_ok_step.
Qed.

(* ------------------------------------------------------------------ *)
(** ** The properties *)

(** In every reachable state the three record tables hold at most 64 records each, the
    policies are the catalog's, every execution record holds, under its own reference, a
    decision that approves one of the commands whose execution is enabled, and every
    recorded decision is well typed: flags agree with the result, texts are safe. *)
Theorem evaluator_invariant e : reachable e → evaluator_ok e.
Proof. apply reachable_ok. Qed.

(** Who may have a provider command executed, and when. *)
Record execution_gates i c x : Prop := {
  eg_enabled : production_execution_enabled (mi_command_id i) = true;
  eg_single_use : is_Some (mi_idempotency_ref i);
  eg_session : mi_ipc_session_ref i = ctx_ipc_session_ref x;
  eg_caller : mi_caller_verification_ref i = cvs_verification_ref c;
  eg_trusted : caller_trusted c ∧ AcFutureUserMutationCandidate ∈ cvs_allowed_command_classes c;
  eg_user : cvs_interactive_marker c = true ∧
    cvs_verification_state c ∈ [CvVerifiedInteractiveUser; CvAdministratorPolicyVerified];
  eg_explicit : mi_explicit_user_action i = true;
  eg_policy : mi_policy_ref i = ("mutation_policy_" ++ as_str (mi_command_id i))%string ∧
    mi_policy_version i = MUTATION_POLICY_CATALOG_VERSION;
  eg_schema : ctx_protocol_schema_valid x = true;
  eg_epoch : mi_ownership_epoch i = ctx_ownership_epoch x;
  eg_runtime : ctx_runtime_state x = MrsServiceOwnedReady;
  eg_provider : mi_target_capability_category i = expected_provider (mi_command_id i);
  eg_target : target_state_matches
    (mcp_required_target_state (policy_for_command (mi_command_id i)))
    (context_capability_state x (expected_provider (mi_command_id i))) = true;
  eg_current : mi_created_time_bucket i = MimCurrentConnection ∧
    mi_expiry_ttl_bucket i = MtbThirtySeconds
}.

Lemma caller_matches_user c :
  caller_matches MrcVerifiedInteractiveUser c = true ↔
  cvs_interactive_marker c = true ∧
  cvs_verification_state c ∈ [CvVerifiedInteractiveUser; CvAdministratorPolicyVerified].
Proof.
  simpl. rewrite andb_true_iff.
  destruct (cvs_verification_state c); split; intros [? ?]; (split; [done|]); set_solver.
Qed.

(** The fields every policy of the catalog shares. *)
Lemma policy_fields k :
  mcp_command_id (policy_for_command k) = k ∧
  mcp_policy_ref (policy_for_command k) = ("mutation_policy_" ++ as_str k)%string ∧
  mcp_policy_version (policy_for_command k) = MUTATION_POLICY_CATALOG_VERSION ∧
  mcp_request_ttl_bucket (policy_for_command k) = MtbThirtySeconds.
Proof. by destruct k. Qed.

Lemma execution_gates_iff i c x :
  let p := policy_for_command (mi_command_id i) in
  execution_gates i c x ↔
  production_execution_enabled (mi_command_id i) = true ∧
  idempotency_refusal p (mi_idempotency_ref i) = None ∧
  gates_passed i c x p (context_capability_state x (mcp_required_capability p)).
Proof.
  intros p. destruct (policy_fields (mi_command_id i)) as (Hid & Hpr & Hpv & Htt).
  fold p in Hid, Hpr, Hpv, Htt.
  split.
  - intros [He [r Hr] ? ? ? [? Hu] ? ? ? ? ? ? Ht ?].
    destruct (execution_policy_enabled _ He) as [X2 X3 X4 X5 X6 X7 X8 _].
    fold p in X2, X3, X4, X5, X6, X7, X8, Ht. rewrite Hid in X8.
    split_and!; [done|unfold idempotency_refusal; by rewrite X4, Hr|].
    constructor; rewrite ?X2, ?X3, ?X8, ?Hpr, ?Hpv, ?Htt; try done.
    by rewrite caller_matches_user.
  - intros (He & Href & [? ? ? ? Hm ? ? ? ? Hr ? ? ?]).
    destruct (execution_policy_enabled _ He) as [X2 X3 X4 X5 X6 X7 X8 _].
    fold p in X2, X3, X4, X5, X6, X7, X8. rewrite Hid in X8.
    rewrite ?X2, ?X3, ?X8, ?Hpr, ?Hpv, ?Htt in *. rewrite caller_matches_user in Hm.
    unfold idempotency_refusal in Href. rewrite X4 in Href.
    constructor; auto. by destruct (mi_idempotency_ref i).
Qed.

(** C2. An intent is newly approved for execution exactly when every gate is passed -- an
    enabled provider command, explicitly asked for by a verified, local, interactive user
    bound to this connection and session, under the catalog's policy, with the runtime
    ready, the ownership epoch current and the provider in the required state -- and neither
    its idempotency reference nor the intent itself has been seen. A reused approval is one
    recorded before for the same request and not expired; its gates are passed again. *)
Theorem execution_approval_gated e i c x now w :
  reachable e →
  let d := decision_at e i c x now w in
  (mad_result d = MarApprovedForExecution ∧ mad_idempotency_state d = MdsNew ↔
     execution_gates i c x ∧ known_decision e i = None ∧ seen_intents e !! seen_key i = None) ∧
  (mad_result d = MarApprovedForExecution ∧ mad_idempotency_state d = MdsReused ↔
     let p := policy_for_command (mi_command_id i) in
     gates_passed i c x p (context_capability_state x (mcp_required_capability p)) ∧
     idempotency_refusal p (mi_idempotency_ref i) = None ∧
     ∃ rec, known_decision e i = Some rec ∧ now < ir_expires_at_millis rec ∧
       ir_request_hash rec = bounded_request_hash i ∧
       mad_result (ir_decision rec) = MarApprovedForExecution).
Proof.
  intros He%reachable_ok d.
  rewrite execution_gates_iff. unfold d. clear d.
  assert (environment_of e i c x = mkEnvironment c (policy_for_command (mi_command_id i)) x
    (context_capability_state x (mcp_required_capability (policy_for_command (mi_command_id i)))))
    as Henv by (unfold environment_of; by rewrite policy_of_ok).
  pose proof (decision_cases e i c x now w) as Hc. cbv zeta in Hc. rewrite Henv in Hc.
  rewrite gates_none in Hc. cbn [env_policy] in Hc.
  pose proof (verdict_execution (mi_command_id i)) as Hv.
  destruct Hc as [(r & reason & ttl & Hg & ->)|[(Hg & r & reason & ttl & st & -> & Hr & Ht & Hb)|
        [(Hg & Href & rec & Hk & Hx & Hh & ->)|(Hg & Href & Hk & Hseen & ->)]]]; cbn [mad_result
        mad_idempotency_state build_decision reuse_decision st_bind st_ret new_uuid fst].
  - pose proof Hg as Hn. apply gates_refuse in Hn as (Hn & _ & _).
    pose proof (gates_none i c x (policy_for_command (mi_command_id i))
      (context_capability_state x (mcp_required_capability (policy_for_command (mi_command_id i))))) as Hgn.
    rewrite Hg in Hgn. split; (split; [by intros []|]); [intros ((_ & _ & Hp) & _)|intros (Hp & _)];
      by apply Hgn in Hp.
  - split; (split; [intros [-> _]; set_solver|]).
    + intros ((_ & Hnone & _) & Hk & Hs). exfalso.
      destruct Hb as [Hb|? Hb _|? _ Hb]; [by apply Hb|congruence|congruence].
    + intros (_ & Hnone & rec & Hk & Hx & Hh & _). exfalso.
      destruct Hb as [Hb|rec' Hk' [Hx'|Hx']|? Hb _];
        [by apply Hb|simplify_eq; lia|by simplify_eq|congruence].
  - split; [split; [by intros []|intros (_ & ? & _); congruence]|].
    split; [intros [? _]; by eauto 8|]. intros (_ & _ & rec' & ? & _ & _ & ?). by simplify_eq.
  - rewrite Hv. split; [split; [by intros []|by intros ((? & _) & _)]|].
    split; [by intros []|]. intros (_ & _ & rec' & ? & _). congruence.
Qed.

(** The reasons a consumption is refused for. *)
Definition consume_errors : list string :=
  ["execution_request_invalid"; "ip_helper_execution_command_rejected";
   "ip_helper_execution_session_rejected"; "ip_helper_execution_decision_unavailable";
   "ip_helper_execution_replay_rejected"; "ip_helper_execution_timed_out";
   "ip_helper_execution_epoch_rejected"].

Lemma consume_error_reason e q session command epoch now reason :
  evaluator_ok e →
  (consume_execution_authorization_at e q session command epoch now).2 = Err reason →
  reason ∈ consume_errors.
Proof.
  intros He. unfold consume_execution_authorization_at.
  destruct (execution_request_validate q) as [[]|]; [|intros [= <-]; set_solver].
  case_bool_decide; simpl; [|intros [= <-]; set_solver].
  case_bool_decide; simpl; [|intros [= <-]; set_solver].
  destruct (execution_records e !! mer_decision_ref q) as [r|] eqn:Hr; [|intros [= <-]; set_solver].
  destruct (ok_execution _ He _ _ Hr) as (Ht & _ & Hres).
  rewrite (dt_dry_run _ Ht), (dt_execution _ Ht), Hres.
  destruct (xr_consumed r); [intros [= <-]; set_solver|].
  destruct (xr_expires_at_millis r <=? now); [intros [= <-]; set_solver|].
  case_bool_decide; simpl; [|intros [= <-]; set_solver].
  destruct (record_mismatch r q command epoch); [intros [= <-]; set_solver|done].
Qed.

(** Consuming an authorization either succeeds, and then the request was valid and named
    the expected command and session, the record was unconsumed, unexpired, of this session,
    command, policy, epoch and request, and becomes consumed while the attempt is counted;
    or it fails with one of seven reasons and leaves every record, the last decision and
    the attempt count as they were. *)
Theorem consume_outcome e q session command epoch now :
  reachable e →
  match consume_execution_authorization_at e q session command epoch now with
  | (e', Ok d) =>
      ∃ r, execution_records e !! mer_decision_ref q = Some r ∧ d = xr_decision r ∧
        execution_request_validate q = Ok tt ∧ mi_command_id (mer_intent q) = command ∧
        mi_ipc_session_ref (mer_intent q) = session ∧ xr_session_ref r = session ∧
        xr_consumed r = false ∧ now < xr_expires_at_millis r ∧
        record_mismatch r q command epoch = false ∧
        execution_records e' = <[mer_decision_ref q := set_consumed r]> (execution_records e) ∧
        execution_attempt_count e' = N.min u64_max (execution_attempt_count e + 1)
  | (e', Err reason) =>
      idempotency_records e' = idempotency_records e ∧ seen_intents e' = seen_intents e ∧
      execution_records e' = execution_records e ∧ last_decision e' = last_decision e ∧
      execution_attempt_count e' = execution_attempt_count e ∧
      reason ∈ consume_errors
  end.
Proof.
  intros He%reachable_ok. pose proof (consume_sound e q session command epoch now) as Hs.
  pose proof (λ r, consume_error_reason e q session command epoch now r He) as Hr.
  destruct Hs; [by eauto 10|]. eexists. by split_and!.
Qed.

(** What happens to a session whose connection stays open: evaluations (counted by the
    index), consumptions, and the end of other sessions. *)
Inductive session_run session : nat → MutationAuthorizationEvaluator →
    MutationAuthorizationEvaluator → Prop :=
  | run_start e : session_run session 0 e e
  | run_evaluate n e e' i c x now w :
      session_run session n e e' → session_run session (S n) e (evaluate_at e' i c x now w).1.2
  | run_consume n e e' q s command epoch now :
      session_run session n e e' →
      session_run session n e (consume_execution_authorization_at e' q s command epoch now).1
  | run_invalidate n e e' other :
      session_run session n e e' → other ≠ session →
      session_run session n e (invalidate_session e' other).

Definition record_spent session k e : Prop :=
  ∃ r, execution_records e !! k = Some r ∧ xr_consumed r = true ∧ xr_session_ref r = session.

Lemma observe_decision_records e d :
  execution_records (observe_decision e d) = execution_records e.
Proof. unfold observe_decision. by destruct (mad_result d). Qed.

Lemma entry_or_insert_size {V} k (v : V) m : (size (entry_or_insert k v m) ≤ S (size m))%nat.
Proof.
  unfold entry_or_insert. destruct (m !! k) eqn:Hk; [lia|]. by rewrite map_size_insert_None.
Qed.

(** Below the bound an evaluation adds at most one execution record and removes none. *)
Lemma evaluate_keeps_execution e i c x now w :
  (size (execution_records e) < MAX_SESSION_AUTHORIZATION_RECORDS)%nat →
  let e' := (evaluate_at e i c x now w).1.2 in
  execution_records e ⊆ execution_records e' ∧
  (size (execution_records e') ≤ S (size (execution_records e)))%nat.
Proof.
  intros Hs. rewrite evaluate_at_state. cbv zeta. rewrite observe_decision_records.
  unfold record_terminal, enforce_record_bound. cbn [set_tables execution_records].
  case_bool_decide; [|by rewrite bounded_id by lia; split; [|lia]].
  match goal with |- context [entry_or_insert ?k ?v ?m] =>
    pose proof (entry_or_insert_size k v m); pose proof (entry_or_insert_keeps k v m) end.
  rewrite bounded_id by lia. split; [|done]. by apply map_subseteq_spec.
Qed.

Lemma session_run_size session n e e' :
  session_run session n e e' →
  (size (execution_records e) + n ≤ MAX_SESSION_AUTHORIZATION_RECORDS)%nat →
  (size (execution_records e') ≤ size (execution_records e) + n)%nat.
Proof.
  intros Hrun. induction Hrun as [e|n e e' i c x now w _ IH|n e e' q s command epoch now _ IH|
    n e e' other _ IH Hne]; intros Hn; [lia|..]; (specialize (IH ltac:(lia))).
  - destruct (evaluate_keeps_execution e' i c x now w) as [_ ?]; [lia|]. lia.
  - destruct (consume_sound e' q s command epoch now) as [e2 ? ? ? Hx|r2 Hr2];
      cbn [fst set_counts set_tables execution_records]; [by rewrite Hx|].
    by rewrite map_size_insert_Some by eauto.
  - cbn [invalidate_session set_tables execution_records]. etrans; [|exact IH].
    by apply map_subseteq_size, map_filter_subseteq.
Qed.

Lemma session_run_spent session k n e e' :
  session_run session n e e' → record_spent session k e →
  (size (execution_records e) + n ≤ MAX_SESSION_AUTHORIZATION_RECORDS)%nat →
  record_spent session k e'.
Proof.
  intros Hrun Hsp. induction Hrun as [e|n e e' i c x now w Hrun IH|n e e' q s command epoch now _ IH|
    n e e' other _ IH Hne]; intros Hn; [done|..];
    (destruct IH as (r & Hr & Hc & Hs); [done|lia|]).
  - apply session_run_size in Hrun; [|lia].
    destruct (evaluate_keeps_execution e' i c x now w) as [Hsub _]; [lia|].
    exists r. split; [by eapply lookup_weaken|done].
  - destruct (consume_sound e' q s command epoch now) as [e2 ? ? ? Hx|r2 Hr2 ? ? ? Hc2];
      unfold record_spent; cbn [fst set_counts set_tables execution_records].
    + rewrite Hx. by exists r.
    + exists r. rewrite lookup_insert_ne; [done|]. intros <-. congruence.
  - exists r. split; [|done]. apply map_lookup_filter_Some. split; [done|]. congruence.
Qed.

(** An execution request that names a spent record is refused, whoever asks. *)
Lemma spent_refused session k e q s command epoch now :
  record_spent session k e → mer_decision_ref q = k →
  is_ok (consume_execution_authorization_at e q s command epoch now).2 = false.
Proof.
  intros (r & Hr & Hc & _) <-.
  destruct (consume_sound e q s command epoch now) as [|r2 Hr2 ? ? ? Hc2]; [done|]. congruence.
Qed.

(** An authorization is consumed at most once: after it was consumed in a session, no
    execution request that names it succeeds again, and none is counted as an attempt,
    however the session goes on -- provided the session stays open and its evaluations
    cannot fill the table beyond its 64 records, as the service's limit of 64 requests per
    session ensures ([ServiceDispatchFacts.approval_used_once]). *)
Theorem authorization_consumed_once e q session command epoch now n e2 :
  let '(e1, res) := consume_execution_authorization_at e q session command epoch now in
  is_ok res = true → session_run session n e1 e2 →
  (size (execution_records e1) + n ≤ MAX_SESSION_AUTHORIZATION_RECORDS)%nat →
  ∀ q' session' command' epoch' now', mer_decision_ref q' = mer_decision_ref q →
  let '(e3, res') := consume_execution_authorization_at e2 q' session' command' epoch' now' in
  is_ok res' = false ∧ execution_attempt_count e3 = execution_attempt_count e2.
Proof.
  pose proof (consume_sound e q session command epoch now) as Hs.
  destruct Hs as [|r Hr _ _ _ _ _ Hsess]; [done|]. intros _ Hrun Hn q' s' command' epoch' now' Hq.
  eapply (session_run_spent session (mer_decision_ref q)) in Hrun as (r' & Hr' & Hc & _);
    [|exists (set_consumed r); cbn; by rewrite lookup_insert_eq|done].
  destruct (consume_sound e2 q' s' command' epoch' now') as [|r2 Hr2 ? ? ? Hc2]; [done|].
  rewrite Hq in Hr2. congruence.
Qed.

Lemma evict_fuel {V} fuel1 fuel2 (m : gmap string V) :
  (size m - MAX_SESSION_AUTHORIZATION_RECORDS ≤ fuel1)%nat →
  (size m - MAX_SESSION_AUTHORIZATION_RECORDS ≤ fuel2)%nat → evict fuel1 m = evict fuel2 m.
Proof.
  revert fuel2 m. induction fuel1 as [|n IH]; intros [|k] m Hf1 Hf2; simpl; try done;
    case_bool_decide; try done; try lia.
  destruct (hash_keys m) as [|key ks] eqn:Hk.
  - pose proof (hash_keys_length m) as Hl. rewrite Hk in Hl. simpl in Hl. lia.
  - assert (is_Some (m !! key)) as Hv by (apply elem_of_hash_keys; rewrite Hk; set_solver).
    pose proof (map_size_delete_Some key m Hv). apply IH; lia.
Qed.

(** A command of the catalog that is always denied -- killing processes, firewall and
    network changes, account changes, arbitrary or elevated execution, responses, service
    shutdown -- is never approved, neither for execution nor as a dry run. *)
Theorem denied_commands_never_approved e i c x now w :
  reachable e → always_denied (mi_command_id i) = true →
  mad_result (decision_at e i c x now w) ∉ [MarApprovedForExecution; MarApprovedDryRun].
Proof.
  intros He%reachable_ok Hd.
  assert (gates i (environment_of e i c x) ≠ None) as Hg.
  { unfold environment_of. rewrite policy_of_ok by done. rewrite gates_none.
    intros [? ? ? ? Hm]. by destruct (mi_command_id i). }
  destruct (decision_cases e i c x now w)
    as [(r & reason & ttl & Hr & ->)|[(? & _)|[(? & _)|(? & _)]]]; [|done..].
  apply gates_refuse in Hr as (? & ? & _). simpl. set_solver.
Qed.

(** C39. The eviction loop ends: one round per surplus record is enough, the rounds left over
    change nothing, and what it leaves is part of the table, of size at most 64, and the
    whole table when that was within the bound. *)
Theorem record_bound_terminates {V} (m : gmap string V) (fuel : nat) :
  (size m - MAX_SESSION_AUTHORIZATION_RECORDS ≤ fuel)%nat →
  evict fuel m = bounded m ∧ bounded m ⊆ m ∧
  size (bounded m) = (size m `min` MAX_SESSION_AUTHORIZATION_RECORDS)%nat ∧
  ((size m ≤ MAX_SESSION_AUTHORIZATION_RECORDS)%nat → bounded m = m).
Proof.
  intros Hf. split_and!; [|apply bounded_subseteq|by apply evict_spec|apply bounded_id].
  apply evict_fuel; lia.
Qed.

(** C40. Every decision the evaluator hands out for a validated intent is itself a valid
    contract: the flags agree with the result, an approval for execution is for an enabled
    command, every text is bounded and free of sensitive markers -- as long as the reference
    made from the drawn identifier is. *)
Theorem decisions_validate e i c x now w :
  reachable e → intent_validate i = Ok tt →
  let d := decision_at e i c x now w in
  decision_text (mad_decision_ref d) → decision_validate d = Ok tt.
Proof.
  intros He%reachable_ok Hi d Href.
  pose proof (decision_at_typed e i c x now w He Hi) as [Hs Hdr Hx Hp Ha _ He0 Hin Hre Hau Hpr Hred].
  fold d in Hs, Hdr, Hx, Hp, Ha, He0, Hin, Hre, Hau, Hpr, Hred. unfold decision_validate.
  rewrite Hs, Hpr, Hp, Hau, Hred, Hdr, Hx.
  rewrite !chain_ok, !refuse_if_ok, N.eqb_neq, mutation_safe_fields_ok.
  destruct Hre as (reason & -> & Hre). unfold mutation_optional_safe_text, mutation_safe_text.
  simpl if_some. rewrite check_text_ok.
  split_and!; try done.
  - apply Forall_cons; split; [done|]. apply Forall_cons; split; [done|].
    apply Forall_singleton, decision_text_dec. by vm_compute.
  - by destruct (mad_command_id d); vm_compute.
  - destruct (mad_result d) eqn:Hres; try done. by rewrite Ha.
  - by destruct (mad_result d).
Qed.

(** The catalog has exactly one policy per command, each of them valid; a policy enables
    execution exactly for the commands meant to execute, and then demands a verified
    interactive user, a single-use reference, the service-owned runtime and an audit. *)
Theorem policy_catalog_complete :
  mcp_command_id <$> mutation_policy_catalog = ALL ∧ NoDup ALL ∧ (∀ k, k ∈ ALL) ∧
  ∀ p, p ∈ mutation_policy_catalog →
    policy_validate p = Ok tt ∧
    mcp_execution_enabled p = production_execution_enabled (mcp_command_id p) ∧
    (mcp_execution_enabled p = true → execution_policy p).
Proof.
  split_and!; [done|apply NoDup_ALL|apply elem_of_ALL|].
  intros p (k & -> & _)%list_elem_of_fmap.
  split_and!; [apply policy_for_command_valid|by destruct k|].
  intros Hk. apply execution_policy_enabled. by destruct k.
Qed.

(** The status report is always a valid contract. *)
Lemma status_valid e trust ready : status_validate (status e trust ready) = Ok tt.
Proof. by destruct trust, ready; vm_compute. Qed.

(** A refused intent that names another session leaves a record under that session's name,
    which the end of the session it came from does not remove. *)
Lemma mismatched_intent_outlives_session e i c x now w :
  mi_ipc_session_ref i ≠ ctx_ipc_session_ref x →
  String.prefix (ctx_ipc_session_ref x ++ "|") (seen_key i) = false →
  (size (seen_intents e) < MAX_SESSION_AUTHORIZATION_RECORDS)%nat →
  mad_result (decision_at e i c x now w) = MarSessionMismatch ∧
  is_Some (seen_intents (invalidate_session (evaluate_at e i c x now w).1.2
                           (ctx_ipc_session_ref x)) !! seen_key i).
Proof.
  intros Hne Hpre Hsize. split.
  { unfold decision_at, evaluate_at, gates, environment_of, st_bind.
    cbn [env_runtime]. by rewrite (bool_decide_eq_false_2 (mi_ipc_session_ref i = _)). }
  rewrite evaluate_at_state. cbn [invalidate_session set_tables seen_intents].
  assert (∀ e d, seen_intents (observe_decision e d) = seen_intents e) as ->
    by (intros ? []; unfold observe_decision; simpl; by case_match).
  unfold record_terminal, enforce_record_bound. cbn [set_tables seen_intents].
  match goal with |- context [entry_or_insert ?k ?v ?m] =>
    pose proof (entry_or_insert_size k v m); set (t := entry_or_insert k v m);
    assert (is_Some (t !! k)) as [r Hr] end.
  { subst t. unfold entry_or_insert. destruct (seen_intents e !! seen_key i) eqn:Hs; [by rewrite Hs|].
    by rewrite lookup_insert_eq. }
  rewrite bounded_id by (subst t; lia). exists r. by apply map_lookup_filter_Some.
Qed.

End facts.
(* ------------------------------------------------------------------ *)
(** ** A concrete session *)

Module MutationSample.
#[local] Existing Instance sample_externals.
#[local] Existing Instance insertion_free_order.
#[local] Instance sample_sha256 : Sha256 := {| sha256_hex := λ s, s |}.

Definition caller : CallerVerificationSummary :=
  {| cvs_schema_version := CALLER_VERIFICATION_SCHEMA_VERSION;
     cvs_verification_ref := "caller_verification_ref";
     cvs_caller_category := CcInteractiveUser;
     cvs_verification_state := CvVerifiedInteractiveUser;
     cvs_local_classification := LrLocal; cvs_interactive_marker := true;
     cvs_service_marker := false; cvs_administrator_policy_marker := false;
     cvs_token_suitability := TsImpersonationSuitable;
     cvs_elevation_category := EvStandard; cvs_session_binding_state := SbBound;
     cvs_freshness_bucket := VfCurrentConnection;
     cvs_allowed_command_classes :=
       [AcReadStatus; AcMutationAuthorizationEvaluation; AcFutureUserMutationCandidate];
     cvs_degraded_reason := None; cvs_audit_refs := ["caller_classified"];
     cvs_provenance_id := "windows_named_pipe_impersonation";
     cvs_redaction_status := RsRedacted; cvs_production_mutations_enabled := false |}.

Definition context : MutationAuthorizationRuntimeContext :=
  {| ctx_ipc_session_ref := "ipc_session_ref"; ctx_protocol_schema_valid := true;
     ctx_runtime_state := MrsServiceOwnedReady; ctx_ownership_epoch := 7;
     ctx_ip_helper_state := MksActive; ctx_etw_state := MksInactive;
     ctx_dns_sensing_state := MksInactive; ctx_auth_remote_state := MksInactive;
     ctx_provider_controller_state := MksActive; ctx_sampler_state := MksInactive;
     ctx_scheduler_state := MksInactive; ctx_scheduler_host_state := MksStopped;
     ctx_report_state := MksAvailable; ctx_export_state := MksAvailable;
     ctx_llm_state := MksUnavailable; ctx_capture_state := MksUnavailable;
     ctx_response_state := MksBlocked |}.

Definition intent (command : MutationCommandId) (reference : string) : MutationIntent :=
  let policy := policy_for_command command in
  {| mi_schema_version := MUTATION_AUTHORIZATION_SCHEMA_VERSION;
     mi_intent_ref := reference; mi_request_ref := "mutation_request_ref";
     mi_ipc_session_ref := "ipc_session_ref";
     mi_caller_verification_ref := "caller_verification_ref"; mi_command_id := command;
     mi_policy_ref := mcp_policy_ref policy; mi_policy_version := mcp_policy_version policy;
     mi_target_capability_ref := "target_capability_ref";
     mi_target_capability_category := mcp_required_capability policy;
     mi_requested_operation_category := "explicit_operation";
     mi_created_time_bucket := MimCurrentConnection; mi_expiry_ttl_bucket := MtbThirtySeconds;
     mi_ownership_epoch := 7; mi_idempotency_ref := Some reference;
     mi_explicit_user_action := true; mi_dry_run := true;
     mi_audit_refs := ["mutation_intent_received"];
     mi_provenance_id := "servicehost_mutation_authorization";
     mi_redaction_status := RsRedacted |}.

Definition sample_intent : MutationIntent := intent McSampleIpHelperNow "mutation_intent_ref".
Definition fresh : MutationAuthorizationEvaluator := evaluator_new 0.
Definition evaluated : MutationAuthorizationEvaluator :=
  (evaluate_at fresh sample_intent caller context 10 counting_world).1.2.
Definition request : MutationExecutionRequest :=
  {| mer_schema_version := MUTATION_AUTHORIZATION_SCHEMA_VERSION;
     mer_decision_ref := "mutation_decision_0"; mer_intent := sample_intent;
     mer_explicit_user_action := true;
     mer_provenance_id := "servicehost_production_ipc"; mer_redaction_status := RsRedacted |}.
Definition consume e now :=
  consume_execution_authorization_at e request "ipc_session_ref" McSampleIpHelperNow 7 now.

Lemma fresh_reachable : reachable fresh.
Proof. by exists 0. Qed.
Lemma evaluated_reachable : reachable evaluated.
Proof.
  exists 0. eapply rtc_once. unfold evaluated. apply step_evaluate. by vm_compute.
Qed.

Lemma evaluator_invariant_witness : reachable evaluated ∧ evaluator_ok evaluated.
Proof.
  split; [exact evaluated_reachable|exact (evaluator_invariant evaluated evaluated_reachable)].
Defined.

Lemma execution_approval_gated_witness :
  execution_gates sample_intent caller context ∧
  mad_idempotency_state (decision_at evaluated sample_intent caller context 20 counting_world)
    = MdsReused.
Proof.
  split; [|vm_compute; reflexivity].
  refine (proj1 (proj1 (proj1 (execution_approval_gated fresh sample_intent caller context 10
    counting_world fresh_reachable)) (conj _ _))); vm_compute; reflexivity.
Defined.

Lemma consume_outcome_witness :
  is_ok (consume evaluated 20).2 = true ∧
  execution_attempt_count (consume evaluated 20).1 = 1 ∧
  (let '(e', res) := consume evaluated 30010 in
   match res with Ok _ => False | Err reason => reason ∈ consume_errors end).
Proof.
  split; [vm_compute; reflexivity|]. split; [vm_compute; reflexivity|].
  pose proof (consume_outcome evaluated request "ipc_session_ref" McSampleIpHelperNow 7 30010
    evaluated_reachable) as Hc. fold (consume evaluated 30010) in Hc.
  assert (is_ok (consume evaluated 30010).2 = false) as Hf by (vm_compute; reflexivity).
  destruct (consume evaluated 30010) as [e' [d|reason]]; [discriminate Hf|tauto].
Defined.

(** The session goes on with another evaluation before the approval is named again. *)
Definition later (e : MutationAuthorizationEvaluator) : MutationAuthorizationEvaluator :=
  (evaluate_at e (intent McSampleIpHelperNow "second_intent_ref") caller context 25
     counting_world).1.2.
Lemma authorization_consumed_once_witness :
  is_ok (consume evaluated 20).2 = true ∧
  is_ok (consume (later (consume evaluated 20).1) 30).2 = false.
Proof.
  assert (is_ok (consume evaluated 20).2 = true) as Hok by (vm_compute; reflexivity).
  assert (size (execution_records (consume evaluated 20).1) + 1 ≤ 64)%nat as Hn
    by (vm_compute; lia).
  split; [exact Hok|].
  pose proof (authorization_consumed_once evaluated request "ipc_session_ref"
    McSampleIpHelperNow 7 20 1 (later (consume evaluated 20).1)) as Hc.
  fold (consume evaluated 20) in Hc. destruct (consume evaluated 20) as [e1 res].
  specialize (Hc Hok (run_evaluate _ _ _ _ _ _ _ _ _ (run_start _ e1)) Hn request
    "ipc_session_ref" McSampleIpHelperNow 7 30 eq_refl).
  cbn [fst] in *. fold (consume (later e1) 30) in Hc.
  destruct (consume (later e1) 30). exact (proj1 Hc).
Defined.

Lemma denied_commands_never_approved_witness :
  always_denied McKillProcess = true ∧
  mad_result (decision_at fresh (intent McKillProcess "kill") caller context 10 counting_world)
    ∉ [MarApprovedForExecution; MarApprovedDryRun].
Proof.
  split; [vm_compute; reflexivity|].
  exact (denied_commands_never_approved fresh (intent McKillProcess "kill") caller context 10
    counting_world fresh_reachable eq_refl).
Defined.

Definition crowded : gmap string N :=
  list_to_map ((λ n, (show_uint (N.of_nat n), N.of_nat n)) <$> seq 0 70).
Lemma record_bound_terminates_witness :
  size crowded = 70%nat ∧ size (bounded crowded) = 64%nat ∧ evict 6 crowded = bounded crowded.
Proof.
  split; [vm_compute; reflexivity|].
  destruct (record_bound_terminates crowded 6) as (He & _ & Hs & _); [vm_compute; lia|].
  split; [rewrite Hs; vm_compute; reflexivity|exact He].
Defined.

Lemma decisions_validate_witness :
  decision_validate (decision_at fresh sample_intent caller context 10 counting_world) = Ok tt.
Proof.
  apply (decisions_validate fresh sample_intent caller context 10 counting_world fresh_reachable).
  - vm_compute. reflexivity.
  - apply decision_text_dec. vm_compute. reflexivity.
Defined.
End MutationSample.
