(* ===== verification/ServiceState.v ===== *)
(** * The state of the IPC service ([service/elevated/src/runtime_ipc.rs])

    The dispatcher, and the machine it runs on: the oracle of identifiers and wall-clock
    instants, the monotonic clock in nanoseconds, the audit file, the runtime container
    behind its mutex, and the scheduler's wake signal.

    - The container ([app_core/src/runtime_container.rs]) is reached through the interface
      [RuntimeContainer]: its methods, any functions of their types.
    - The process has one container; a [ContainerHandle] is an [Arc] to its mutex. Other
      threads hold the mutex between two acquisitions by the dispatcher: what they leave is
      an arbitrary function of what was there ([m_others]).
    - A computation of the dispatcher either is [Done], or is [Blocked] for ever: the standard
      mutex does not return to a thread that locks it while it holds it. A panic inside the
      container's methods is not modelled.

    Field prefixes: [sd_] dispatcher, [m_] machine, [ws_] wake signal, [sar_] audit record,
    [rc_] container. *)

From S2P Require Import Prelude Collections RustStr Effects Contracts CoreError Checks.
From S2P Require Import CallerVerification MutationPolicy RuntimeOwnership EtwLifecycle.
From S2P Require Import IpHelperSchedule ProviderController ReadModels ReadCommands IpcFrames.
From S2P Require Import ServiceIpc MutationAuthorization.

#[local] Open Scope string_scope.
#[local] Open Scope list_scope.
#[local] Open Scope N_scope.

(* ------------------------------------------------------------------ *)
(** ** The dispatcher *)

(* [elevated/src/runtime_ipc.rs] ServiceAuditLogger *)
Record ServiceAuditLogger := mkAuditLogger { al_path : string }.
(* [elevated/src/runtime_ipc.rs] ServiceAuditLogger::with_path *)
Definition with_path (path : string) : ServiceAuditLogger := mkAuditLogger path.

(** [Arc<Mutex<RuntimeContainer>>] and [Arc<ServiceSchedulerWakeSignal>]: pointers to the
    container and the signal of the machine. *)
Inductive ContainerHandle := the_container.
Inductive WakeHandle := the_wake_signal.

(* [elevated/src/runtime_ipc.rs] ServiceCommandDispatcher *)
Record ServiceCommandDispatcher := mkDispatcher {
  sd_started_at : N;
  sd_connected_clients : N;
  sd_allowlist : list (ServiceCommand * IpcAccessLevel);
  sd_caller_level : IpcAccessLevel;
  sd_audit_logger : ServiceAuditLogger;
  sd_rate_limiter : RateLimiter;
  sd_replay : ReplayProtector;
  sd_runtime_ownership_status : option RuntimeOwnershipSummary;
  sd_canonical_read_model_snapshot : option CanonicalReadModelSnapshot;
  sd_runtime_container : option ContainerHandle;
  sd_scheduler_wake_signal : option WakeHandle;
  sd_caller_verification_policy : CallerVerificationPolicy;
  sd_last_caller_verification : option CallerVerificationSummary;
  sd_active_session_reference : option string;
  sd_active_verification_ref : option string;
  sd_active_next_sequence_number : N;
  sd_mutation_authorization : MutationAuthorizationEvaluator
}.
Definition set_connected_clients (v_connected_clients : N) (d : ServiceCommandDispatcher)
    : ServiceCommandDispatcher :=
  mkDispatcher (sd_started_at d) v_connected_clients (sd_allowlist d) (sd_caller_level d)
    (sd_audit_logger d) (sd_rate_limiter d) (sd_replay d) (sd_runtime_ownership_status d)
    (sd_canonical_read_model_snapshot d) (sd_runtime_container d) (sd_scheduler_wake_signal d)
    (sd_caller_verification_policy d) (sd_last_caller_verification d)
    (sd_active_session_reference d) (sd_active_verification_ref d)
    (sd_active_next_sequence_number d) (sd_mutation_authorization d).
Definition set_rate_limiter (v_rate_limiter : RateLimiter) (d : ServiceCommandDispatcher)
    : ServiceCommandDispatcher :=
  mkDispatcher (sd_started_at d) (sd_connected_clients d) (sd_allowlist d) (sd_caller_level d)
    (sd_audit_logger d) v_rate_limiter (sd_replay d) (sd_runtime_ownership_status d)
    (sd_canonical_read_model_snapshot d) (sd_runtime_container d) (sd_scheduler_wake_signal d)
    (sd_caller_verification_policy d) (sd_last_caller_verification d)
    (sd_active_session_reference d) (sd_active_verification_ref d)
    (sd_active_next_sequence_number d) (sd_mutation_authorization d).
Definition set_replay (v_replay : ReplayProtector) (d : ServiceCommandDispatcher)
    : ServiceCommandDispatcher :=
  mkDispatcher (sd_started_at d) (sd_connected_clients d) (sd_allowlist d) (sd_caller_level d)
    (sd_audit_logger d) (sd_rate_limiter d) v_replay (sd_runtime_ownership_status d)
    (sd_canonical_read_model_snapshot d) (sd_runtime_container d) (sd_scheduler_wake_signal d)
    (sd_caller_verification_policy d) (sd_last_caller_verification d)
    (sd_active_session_reference d) (sd_active_verification_ref d)
    (sd_active_next_sequence_number d) (sd_mutation_authorization d).
Definition set_runtime_ownership_status (v_runtime_ownership_status : option RuntimeOwnershipSummary) (d : ServiceCommandDispatcher)
    : ServiceCommandDispatcher :=
  mkDispatcher (sd_started_at d) (sd_connected_clients d) (sd_allowlist d) (sd_caller_level d)
    (sd_audit_logger d) (sd_rate_limiter d) (sd_replay d) v_runtime_ownership_status
    (sd_canonical_read_model_snapshot d) (sd_runtime_container d) (sd_scheduler_wake_signal d)
    (sd_caller_verification_policy d) (sd_last_caller_verification d)
    (sd_active_session_reference d) (sd_active_verification_ref d)
    (sd_active_next_sequence_number d) (sd_mutation_authorization d).
Definition set_canonical_read_model_snapshot (v_canonical_read_model_snapshot : option CanonicalReadModelSnapshot) (d : ServiceCommandDispatcher)
    : ServiceCommandDispatcher :=
  mkDispatcher (sd_started_at d) (sd_connected_clients d) (sd_allowlist d) (sd_caller_level d)
    (sd_audit_logger d) (sd_rate_limiter d) (sd_replay d) (sd_runtime_ownership_status d)
    v_canonical_read_model_snapshot (sd_runtime_container d) (sd_scheduler_wake_signal d)
    (sd_caller_verification_policy d) (sd_last_caller_verification d)
    (sd_active_session_reference d) (sd_active_verification_ref d)
    (sd_active_next_sequence_number d) (sd_mutation_authorization d).
Definition set_runtime_container (v_runtime_container : option ContainerHandle) (d : ServiceCommandDispatcher)
    : ServiceCommandDispatcher :=
  mkDispatcher (sd_started_at d) (sd_connected_clients d) (sd_allowlist d) (sd_caller_level d)
    (sd_audit_logger d) (sd_rate_limiter d) (sd_replay d) (sd_runtime_ownership_status d)
    (sd_canonical_read_model_snapshot d) v_runtime_container (sd_scheduler_wake_signal d)
    (sd_caller_verification_policy d) (sd_last_caller_verification d)
    (sd_active_session_reference d) (sd_active_verification_ref d)
    (sd_active_next_sequence_number d) (sd_mutation_authorization d).
Definition set_scheduler_wake_signal (v_scheduler_wake_signal : option WakeHandle) (d : ServiceCommandDispatcher)
    : ServiceCommandDispatcher :=
  mkDispatcher (sd_started_at d) (sd_connected_clients d) (sd_allowlist d) (sd_caller_level d)
    (sd_audit_logger d) (sd_rate_limiter d) (sd_replay d) (sd_runtime_ownership_status d)
    (sd_canonical_read_model_snapshot d) (sd_runtime_container d) v_scheduler_wake_signal
    (sd_caller_verification_policy d) (sd_last_caller_verification d)
    (sd_active_session_reference d) (sd_active_verification_ref d)
    (sd_active_next_sequence_number d) (sd_mutation_authorization d).
Definition set_caller_verification_policy (v_caller_verification_policy : CallerVerificationPolicy) (d : ServiceCommandDispatcher)
    : ServiceCommandDispatcher :=
  mkDispatcher (sd_started_at d) (sd_connected_clients d) (sd_allowlist d) (sd_caller_level d)
    (sd_audit_logger d) (sd_rate_limiter d) (sd_replay d) (sd_runtime_ownership_status d)
    (sd_canonical_read_model_snapshot d) (sd_runtime_container d) (sd_scheduler_wake_signal d)
    v_caller_verification_policy (sd_last_caller_verification d) (sd_active_session_reference d)
    (sd_active_verification_ref d) (sd_active_next_sequence_number d)
    (sd_mutation_authorization d).
Definition set_last_caller_verification (v_last_caller_verification : option CallerVerificationSummary) (d : ServiceCommandDispatcher)
    : ServiceCommandDispatcher :=
  mkDispatcher (sd_started_at d) (sd_connected_clients d) (sd_allowlist d) (sd_caller_level d)
    (sd_audit_logger d) (sd_rate_limiter d) (sd_replay d) (sd_runtime_ownership_status d)
    (sd_canonical_read_model_snapshot d) (sd_runtime_container d) (sd_scheduler_wake_signal d)
    (sd_caller_verification_policy d) v_last_caller_verification (sd_active_session_reference d)
    (sd_active_verification_ref d) (sd_active_next_sequence_number d)
    (sd_mutation_authorization d).
Definition set_active_next_sequence_number (v_active_next_sequence_number : N) (d : ServiceCommandDispatcher)
    : ServiceCommandDispatcher :=
  mkDispatcher (sd_started_at d) (sd_connected_clients d) (sd_allowlist d) (sd_caller_level d)
    (sd_audit_logger d) (sd_rate_limiter d) (sd_replay d) (sd_runtime_ownership_status d)
    (sd_canonical_read_model_snapshot d) (sd_runtime_container d) (sd_scheduler_wake_signal d)
    (sd_caller_verification_policy d) (sd_last_caller_verification d)
    (sd_active_session_reference d) (sd_active_verification_ref d) v_active_next_sequence_number
    (sd_mutation_authorization d).
Definition set_mutation_authorization (v_mutation_authorization : MutationAuthorizationEvaluator) (d : ServiceCommandDispatcher)
    : ServiceCommandDispatcher :=
  mkDispatcher (sd_started_at d) (sd_connected_clients d) (sd_allowlist d) (sd_caller_level d)
    (sd_audit_logger d) (sd_rate_limiter d) (sd_replay d) (sd_runtime_ownership_status d)
    (sd_canonical_read_model_snapshot d) (sd_runtime_container d) (sd_scheduler_wake_signal d)
    (sd_caller_verification_policy d) (sd_last_caller_verification d)
    (sd_active_session_reference d) (sd_active_verification_ref d)
    (sd_active_next_sequence_number d) v_mutation_authorization.
Definition set_active (v_active_session_reference : option string) (v_active_verification_ref : option string) (v_active_next_sequence_number : N) (d : ServiceCommandDispatcher)
    : ServiceCommandDispatcher :=
  mkDispatcher (sd_started_at d) (sd_connected_clients d) (sd_allowlist d) (sd_caller_level d)
    (sd_audit_logger d) (sd_rate_limiter d) (sd_replay d) (sd_runtime_ownership_status d)
    (sd_canonical_read_model_snapshot d) (sd_runtime_container d) (sd_scheduler_wake_signal d)
    (sd_caller_verification_policy d) (sd_last_caller_verification d) v_active_session_reference
    v_active_verification_ref v_active_next_sequence_number (sd_mutation_authorization d).

(* ------------------------------------------------------------------ *)
(** ** The wake signal *)

(* [elevated/src/runtime_ipc.rs] ServiceSchedulerWakeSignal *)
Record ServiceSchedulerWakeSignal := mkWakeSignal {
  ws_started_at : N;
  ws_pending : bool;
  ws_poisoned : bool
}.
(* [elevated/src/runtime_ipc.rs] ServiceSchedulerWakeSignal::new *)
Definition wake_signal_new (clock : N) : ServiceSchedulerWakeSignal :=
  mkWakeSignal clock false false.
(** [self.started_at.elapsed().as_millis().min(u64::MAX)] *)
(* [elevated/src/runtime_ipc.rs] ServiceSchedulerWakeSignal::elapsed_millis *)
Definition wake_elapsed_millis (self : ServiceSchedulerWakeSignal) (clock : N) : N :=
  N.min (saturating_sub clock (ws_started_at self) / 1000000) u64_max.
(* [elevated/src/runtime_ipc.rs] ServiceSchedulerWakeSignal::notify *)
Definition wake_notify (self : ServiceSchedulerWakeSignal) : ServiceSchedulerWakeSignal :=
  if ws_poisoned self then self else mkWakeSignal (ws_started_at self) true false.
(** The scheduler's side. It sleeps unless a notification is pending (the flag of the result);
    a notification that arrives meanwhile ends the sleep and is taken with it. *)
(* [elevated/src/runtime_ipc.rs] ServiceSchedulerWakeSignal::wait *)
Definition wake_wait (self : ServiceSchedulerWakeSignal) : ServiceSchedulerWakeSignal * bool :=
  if ws_poisoned self then (self, true)
  else (mkWakeSignal (ws_started_at self) false false, negb (ws_pending self)).

(* ------------------------------------------------------------------ *)
(** ** The audit file *)

(* [elevated/src/runtime_ipc.rs] ServiceAuditRecord *)
Record ServiceAuditRecord := mkAuditRecord {
  sar_timestamp : Timestamp;
  sar_event_type : string;
  sar_command : option string;
  sar_outcome : string;
  sar_reason : option string
}.
(** How a call of the logger may fail: before the record is made, or when it is written. *)
Inductive AuditFault := AuditWritten | AuditDirectoryFails (error : string)
                      | AuditWriteFails (error : string).

(* ------------------------------------------------------------------ *)
(** ** The container *)

(* [app_core/src/runtime_container.rs] IpHelperHandoffExecutionPolicy *)
Inductive IpHelperHandoffExecutionPolicy :=
  | HpInternalServiceHostIntegrationTest | HpForegroundDevelopmentTest
  | HpDirectContainerOwnedTest | HpProductionIpc | HpScheduledServiceHost.
(* [app_core/src/runtime_container.rs] IpHelperHandoffRequest *)
Record IpHelperHandoffRequest := mkHandoffRequest {
  ihr_policy : IpHelperHandoffExecutionPolicy;
  ihr_max_records : N;
  ihr_max_bytes : N;
  ihr_timeout_ms : N;
  ihr_reason_ref : string
}.
(* [app_core/src/runtime_container.rs] IpHelperHandoffRequest::production_ipc *)
Definition production_ipc : IpHelperHandoffRequest :=
  mkHandoffRequest HpProductionIpc 128 (128 * 1024) 250 "production_ipc_sample_ip_helper_once".
(** Of the result of a hand-off the service reads the references of its batch. *)
Record HandoffBatch := mkHandoffBatch {
  hb_batch_ref : string;
  hb_fact_refs : list (Id KSecurityFactId)
}.

(** A method that takes the container by mutable reference and may fail. *)
Definition method `{Externals} (C A : Type) : Type := C → ST (C * result A CoreError).

Class RuntimeContainer `{Externals} (C : Type) := {
  rc_owner_context : C → RuntimeOwnerContext;
  rc_summary : C → RuntimeOwnershipSummary;
  rc_canonical_read_model_snapshot : C → result CanonicalReadModelSnapshot CoreError;
  rc_network_provider_status : C → NetworkProviderKind → option NetworkProviderStatus;
  rc_provider_controller_status : C → option NetworkProviderControllerStatus;
  rc_dns_sensing_lifecycle_status : C → option EtwLifecycleStatus;
  rc_auth_remote_sensing_lifecycle_status : C → option EtwLifecycleStatus;
  rc_etw_mutation_capability_state : C → MutationCapabilityStateCategory;
  rc_auth_remote_mutation_capability_state : C → MutationCapabilityStateCategory;
  rc_activate_ip_helper_provider :
    RuntimeOwnerContext → method C NetworkProviderControllerStatus;
  rc_execute_ip_helper_servicehost_handoff :
    RuntimeOwnerContext → IpHelperHandoffRequest → method C HandoffBatch;
  rc_stop_ip_helper_provider : RuntimeOwnerContext → method C NetworkProviderControllerStatus;
  rc_activate_etw_provider :
    RuntimeOwnerContext → list string → method C NetworkProviderControllerStatus;
  rc_pause_etw_provider :
    RuntimeOwnerContext → list string → method C NetworkProviderControllerStatus;
  rc_resume_etw_provider :
    RuntimeOwnerContext → list string → method C NetworkProviderControllerStatus;
  rc_stop_etw_provider :
    RuntimeOwnerContext → list string → method C NetworkProviderControllerStatus;
  rc_activate_dns_sensing :
    RuntimeOwnerContext → list string → method C NetworkProviderControllerStatus;
  rc_pause_dns_sensing :
    RuntimeOwnerContext → list string → method C NetworkProviderControllerStatus;
  rc_resume_dns_sensing :
    RuntimeOwnerContext → list string → method C NetworkProviderControllerStatus;
  rc_stop_dns_sensing :
    RuntimeOwnerContext → list string → method C NetworkProviderControllerStatus;
  rc_activate_auth_remote_sensing :
    RuntimeOwnerContext → list string → method C NetworkProviderControllerStatus;
  rc_pause_auth_remote_sensing :
    RuntimeOwnerContext → list string → method C NetworkProviderControllerStatus;
  rc_resume_auth_remote_sensing :
    RuntimeOwnerContext → list string → method C NetworkProviderControllerStatus;
  rc_stop_auth_remote_sensing :
    RuntimeOwnerContext → list string → method C NetworkProviderControllerStatus;
  rc_configure_ip_helper_schedule :
    RuntimeOwnerContext → IpHelperScheduleConfig → list string → string → SchemaVersion →
    method C NetworkProviderControllerStatus;
  rc_enable_ip_helper_schedule :
    RuntimeOwnerContext → string → list string → string → SchemaVersion →
    method C NetworkProviderControllerStatus;
  rc_resume_ip_helper_schedule :
    RuntimeOwnerContext → string → list string → string → SchemaVersion →
    method C NetworkProviderControllerStatus;
  rc_pause_ip_helper_schedule :
    RuntimeOwnerContext → list string → string → SchemaVersion →
    method C NetworkProviderControllerStatus;
  rc_disable_ip_helper_schedule :
    RuntimeOwnerContext → list string → string → SchemaVersion →
    method C NetworkProviderControllerStatus;
  rc_invalidate_ip_helper_schedule_for_session_end :
    RuntimeOwnerContext → string → string →
    method C (option NetworkProviderControllerStatus);
  rc_ip_helper_scheduler_wait_millis : C → N → option N;
  rc_run_due_ip_helper_schedule_cycle :
    RuntimeOwnerContext → N → method C IpHelperScheduledCycleRecord;
  rc_shutdown_before_ipc_close : method C RuntimeOwnershipSummary;
  rc_complete_shutdown_after_ipc_close : method C RuntimeOwnershipSummary
}.

(* ------------------------------------------------------------------ *)
(** ** The machine *)

(** The container behind its mutex, and how many pointers to it there are. *)
Record Cell (C : Type) := mkCell {
  cell_state : C;
  cell_poisoned : bool;
  cell_pointers : N
}.
Arguments mkCell {C} _ _ _.
Arguments cell_state {C} _.
Arguments cell_poisoned {C} _.
Arguments cell_pointers {C} _.

Record Machine (C : Type) := mkMachine {
  m_world : World;
  m_instants : nat → N;
  m_instants_read : nat;
  m_audit_faults : nat → AuditFault;
  m_audit_calls : nat;
  m_audit : list ServiceAuditRecord;
  m_others : nat → Cell C → Cell C;
  m_locks : nat;
  m_cell : Cell C;
  m_held : bool;
  m_wake : ServiceSchedulerWakeSignal
}.
Arguments mkMachine {C} _ _ _ _ _ _ _ _ _ _ _.
Arguments m_world {C} _.
Arguments m_instants {C} _ _.
Arguments m_instants_read {C} _.
Arguments m_audit_faults {C} _ _.
Arguments m_audit_calls {C} _.
Arguments m_audit {C} _.
Arguments m_others {C} _ _ _.
Arguments m_locks {C} _.
Arguments m_cell {C} _.
Arguments m_held {C} _.
Arguments m_wake {C} _.

Definition set_world {C} (w : World) (m : Machine C) : Machine C :=
  mkMachine w (m_instants m) (m_instants_read m) (m_audit_faults m) (m_audit_calls m)
    (m_audit m) (m_others m) (m_locks m) (m_cell m) (m_held m) (m_wake m).
Definition set_instants_read {C} (n : nat) (m : Machine C) : Machine C :=
  mkMachine (m_world m) (m_instants m) n (m_audit_faults m) (m_audit_calls m)
    (m_audit m) (m_others m) (m_locks m) (m_cell m) (m_held m) (m_wake m).
Definition set_audit {C} (calls : nat) (records : list ServiceAuditRecord) (m : Machine C)
    : Machine C :=
  mkMachine (m_world m) (m_instants m) (m_instants_read m) (m_audit_faults m) calls
    records (m_others m) (m_locks m) (m_cell m) (m_held m) (m_wake m).
Definition set_cell {C} (locks : nat) (cell : Cell C) (held : bool) (m : Machine C)
    : Machine C :=
  mkMachine (m_world m) (m_instants m) (m_instants_read m) (m_audit_faults m) (m_audit_calls m)
    (m_audit m) (m_others m) locks cell held (m_wake m).
Definition set_wake {C} (wake : ServiceSchedulerWakeSignal) (m : Machine C) : Machine C :=
  mkMachine (m_world m) (m_instants m) (m_instants_read m) (m_audit_faults m) (m_audit_calls m)
    (m_audit m) (m_others m) (m_locks m) (m_cell m) (m_held m) wake.

(* ------------------------------------------------------------------ *)
(** ** Computations of the dispatcher *)

Inductive outcome (C A : Type) :=
  | Done (value : A) (dispatcher : ServiceCommandDispatcher) (machine : Machine C)
  | Blocked (dispatcher : ServiceCommandDispatcher) (machine : Machine C).
Arguments Done {C A} _ _ _.
Arguments Blocked {C A} _ _.

Definition D (C A : Type) : Type := ServiceCommandDispatcher → Machine C → outcome C A.

Definition d_ret {C A} (x : A) : D C A := λ d m, Done x d m.
Definition d_bind {C A B} (a : D C A) (f : A → D C B) : D C B :=
  λ d m, match a d m with Done x d m => f x d m | Blocked d m => Blocked d m end.

Notation "'let!' x ':=' a 'in' k" := (d_bind a (λ x, k))
  (at level 10, x binder, a at level 100, k at level 200) : sentinel_scope.
Notation "'let!' ' x ':=' a 'in' k" := (d_bind a (λ x, k))
  (at level 10, x strict pattern, a at level 100, k at level 200) : sentinel_scope.

Section computations.
Context {C : Type}.

Definition d_self : D C ServiceCommandDispatcher := λ d m, Done d d m.
Definition d_update (f : ServiceCommandDispatcher → ServiceCommandDispatcher) : D C unit :=
  λ d m, Done tt (f d) m.
(** Identifiers and wall-clock instants. *)
Definition d_lift {A} (a : ST A) : D C A :=
  λ d m, let '(x, w) := a (m_world m) in Done x d (set_world w m).
(** [Instant::now] *)
Definition instant_now : D C N :=
  λ d m, Done (m_instants m (m_instants_read m)) d
           (set_instants_read (S (m_instants_read m)) m).

(* [elevated/src/runtime_ipc.rs] ServiceAuditLogger::log *)
Definition audit_log (event_type : string) (command : option string) (outcome : string)
    (reason : option string) : D C (result unit string) := λ d m,
  let calls := S (m_audit_calls m) in
  match m_audit_faults m (m_audit_calls m) with
  | AuditDirectoryFails error => Done (Err error) d (set_audit calls (m_audit m) m)
  | fault =>
      let '(timestamp, w) := now (m_world m) in
      let m := set_world w m in
      match fault with
      | AuditWriteFails error => Done (Err error) d (set_audit calls (m_audit m) m)
      | _ =>
          Done (Ok tt) d
            (set_audit calls
               (m_audit m ++ [mkAuditRecord timestamp event_type command outcome reason]) m)
      end
  end.

(** [mutex.lock()] for the container: [None] when it is poisoned. *)
Definition lock_container : D C (option C) := λ d m,
  if m_held m then Blocked d m
  else
    let cell := m_others m (m_locks m) (m_cell m) in
    if cell_poisoned cell then Done None d (set_cell (S (m_locks m)) cell false m)
    else Done (Some (cell_state cell)) d (set_cell (S (m_locks m)) cell true m).
(** The end of the guard's scope. *)
Definition unlock_container (container : C) : D C unit := λ d m,
  Done tt d (set_cell (m_locks m)
    (mkCell container (cell_poisoned (m_cell m)) (cell_pointers (m_cell m))) false m).

(** A block that owns the guard. *)
Definition with_container {A} (body : C → D C (C * A)) : D C (option A) :=
  let! guard := lock_container in
  match guard with
  | None => d_ret None
  | Some container =>
      let! '(container, x) := body container in
      let! _ := unlock_container container in
      d_ret (Some x)
  end.

(** A read through the dispatcher's pointer, when there is one:
    [self.runtime_container.as_ref().and_then(|container| container.lock().ok()...)]. *)
Definition read_container {A} (f : C → A) : D C (option A) :=
  let! self := d_self in
  match sd_runtime_container self with
  | None => d_ret None
  | Some _ => with_container (λ container, d_ret (container, f container))
  end.

(** [if let Some(signal) = &self.scheduler_wake_signal { signal.notify(); }] *)
Definition notify_scheduler : D C unit := λ d m,
  match sd_scheduler_wake_signal d with
  | Some _ => Done tt d (set_wake (wake_notify (m_wake m)) m)
  | None => Done tt d m
  end.
End computations.
