(* ===== verification/ServiceDispatch.v ===== *)
(** * The dispatcher of the IPC service ([service/elevated/src/runtime_ipc.rs])

    Every method of [ServiceCommandDispatcher], the hand-shake, the session loop and one
    served connection. Early returns inside a block that owns the container's guard are the
    [Err] of a [result] whose error is the reply. [serde_json] is the class [ServiceJson],
    what the process is asked for the class [Platform]. The Windows calls that open the
    pipe and read the caller's token are left out: the summary they yield is an argument.
    Field prefixes: [pir_] ping result, [str_] status result, [chr_] capture health,
    [pse_] process entry, [pce_] connection entry. *)

From Stdlib Require Import SpecFloat.
From S2P Require Import Prelude Collections RustStr Effects Contracts CoreError Checks.
From S2P Require Import CallerVerification MutationPolicy RuntimeOwnership EtwLifecycle.
From S2P Require Import IpHelperSchedule ProviderController ReadModels ReadCommands IpcFrames.
From S2P Require Import ServiceIpc MutationAuthorization ServiceState.

#[local] Open Scope string_scope.
#[local] Open Scope list_scope.
#[local] Open Scope N_scope.

(* ------------------------------------------------------------------ *)
(** ** Parameters and results of the commands *)

(* [elevated/src/runtime_ipc.rs] PingParams *)
Record PingParams := mkPingParams { pip_nonce : string }.
(* [elevated/src/runtime_ipc.rs] EmptyParams *)
Record EmptyParams := mkEmptyParams {}.
(* [elevated/src/runtime_ipc.rs] ProcessSnapshotParams *)
Record ProcessSnapshotParams := mkProcessParams { psp_pid : option N }.
(* [elevated/src/runtime_ipc.rs] PingResult *)
Record PingResult := mkPingResult {
  pir_nonce : string;
  pir_service_uptime_ms : N;
  pir_version : string
}.
(* [elevated/src/runtime_ipc.rs] StatusResult *)
Record StatusResult := mkStatusResult {
  str_service_status : string;
  str_connected_clients : N;
  str_memory_usage_mb : spec_float;
  str_runtime_ownership : option RuntimeMode;
  str_runtime_ownership_status : option RuntimeOwnershipSummary;
  str_runtime_protocol_version : option SchemaVersion;
  str_runtime_schema_version : option SchemaVersion;
  str_caller_verification_status : option CallerVerificationReadStatus;
  str_mutation_authorization_status : option MutationAuthorizationStatus;
  str_provider_controller_status : option NetworkProviderControllerStatus;
  str_dns_sensing_lifecycle_status : option EtwLifecycleStatus;
  str_auth_remote_sensing_lifecycle_status : option EtwLifecycleStatus
}.
(* [elevated/src/runtime_ipc.rs] CaptureHealthResult *)
Record CaptureHealthResult := mkCaptureHealth {
  chr_capture_active : bool;
  chr_packets_observed : N;
  chr_last_packet_at : option string;
  chr_adapter_state : string
}.
(* [elevated/src/runtime_ipc.rs] ProcessConnectionEntry *)
Record ProcessConnectionEntry := mkConnectionEntry {
  pce_local_addr : string;
  pce_remote_addr : string;
  pce_protocol : string;
  pce_state : string
}.
(* [elevated/src/runtime_ipc.rs] ProcessSnapshotEntry *)
Record ProcessSnapshotEntry := mkProcessEntry {
  pse_pid : N;
  pse_name : string;
  pse_path : string;
  pse_connections : list ProcessConnectionEntry
}.
(* [elevated/src/runtime_ipc.rs] ProcessSnapshotResult *)
Record ProcessSnapshotResult := mkProcessSnapshot { psr_processes : list ProcessSnapshotEntry }.

(* [elevated/src/runtime_ipc.rs] ServiceRuntimeError *)
Inductive ServiceRuntimeError :=
  | SreIo (error : IoError) | SreFrame (error : IpcFrameError) | SreRuntime (reason : string).
(* [elevated/src/runtime_ipc.rs] Display for ServiceRuntimeError::fmt *)
Definition runtime_error_to_string (self : ServiceRuntimeError) : string :=
  match self with
  | SreIo error => "service runtime IO failed: " ++ io_text error
  | SreFrame error => "service runtime frame failed: " ++ frame_error_to_string error
  | SreRuntime error => "service runtime initialization failed: " ++ error
  end%string.

(** What [serde_json] makes of the values, and reads from them. *)
Class ServiceJson `{Externals} := {
  json_of_error : IpcError → result json_value string;
  json_of_decision : MutationAuthorizationDecision → result json_value string;
  json_of_receipt : MutationExecutionReceipt → result json_value string;
  json_of_ping : PingResult → result json_value string;
  json_of_status : StatusResult → result json_value string;
  json_of_capture_health : CaptureHealthResult → result json_value string;
  json_of_processes : ProcessSnapshotResult → result json_value string;
  json_of_read_response : ServiceReadCommandResponse → result json_value string;
  json_unserializable_error : json_value;
  json_to_intent : json_value → result MutationIntent string;
  json_to_execution_request : json_value → result MutationExecutionRequest string;
  json_to_schedule_request : json_value → result IpHelperScheduleMutationRequest string;
  json_to_ping : json_value → result PingParams string;
  json_to_empty : json_value → result EmptyParams string;
  json_to_process_params : json_value → result ProcessSnapshotParams string;
  json_to_read_request : json_value → result ServiceReadCommandRequest string;
  json_get : json_value → string → option json_value;
  json_as_str : json_value → option string;
  json_to_request : json_value → result IpcRequest string;
  text_of_server_hello : IpcServerHello → result (list Byte.byte) string;
  text_of_server_verify : IpcServerVerify → result (list Byte.byte) string;
  text_of_envelope : IpcEnvelope → result (list Byte.byte) string;
  text_of_response : IpcResponse → result (list Byte.byte) string;
  client_hello_of_text : list Byte.byte → result IpcClientHello string;
  client_verify_of_text : list Byte.byte → result IpcClientVerify string;
  envelope_of_text : list Byte.byte → result IpcEnvelope string
}.
(** The process and its build: [cfg!(windows)], [CARGO_PKG_VERSION], the process identifier,
    the file name of the executable. *)
Class Platform := {
  cfg_windows : bool;
  SERVICE_VERSION : string;
  process_id : N;
  current_exe_name : option string
}.

(* [elevated/src/runtime_ipc.rs] service_process_name *)
Definition service_process_name `{Platform} : string :=
  match current_exe_name with
  | Some name => if blank name then "sentinel-guard-elevated.exe" else name
  | None => "sentinel-guard-elevated.exe"
  end.

(* ------------------------------------------------------------------ *)
(** ** Texts and categories *)

(** [safe.replace("__", "_")] *)
Fixpoint halve_underscores (s : string) : string :=
  match s with
  | String c ((String c' rest) as tail) =>
      if Ascii.eqb c "_" && Ascii.eqb c' "_" then String "_" (halve_underscores rest)
      else String c (halve_underscores tail)
  | s => s
  end.
(** [while safe.contains("__") { safe = safe.replace("__", "_") }] *)
(* [elevated/src/runtime_ipc.rs:2634-2636] safe_wake_assist_reason *)
Fixpoint collapse_underscores (fuel : nat) (s : string) : string :=
  match fuel with
  | O => s
  | S fuel => if contains s "__" then collapse_underscores fuel (halve_underscores s) else s
  end.
(** [safe.trim_matches('_')] *)
Fixpoint trim_underscores_start (s : string) : string :=
  match s with
  | String c rest => if Ascii.eqb c "_" then trim_underscores_start rest else s
  | EmptyString => EmptyString
  end.
Fixpoint trim_underscores_end (s : string) : string :=
  match s with
  | EmptyString => EmptyString
  | String c rest =>
      match trim_underscores_end rest with
      | EmptyString => if Ascii.eqb c "_" then EmptyString else String c EmptyString
      | rest => String c rest
      end
  end.
(** The closure over one character. *)
Definition reason_char (c : ascii) : ascii :=
  if is_ascii_digit c || is_ascii_lowercase c || is_ascii_uppercase c
  then (if is_ascii_uppercase c then ascii_of_N (code c + 32) else c) else "_"%char.
(** A byte of a character beyond ASCII becomes an underscore like the character would; the
    runs they form are collapsed all the same. *)
(* [elevated/src/runtime_ipc.rs] safe_wake_assist_reason *)
Definition safe_wake_assist_reason (value : string) : string :=
  let safe := map_chars reason_char value in
  let safe := collapse_underscores (String.length safe) safe in
  let safe := String.substring 0 48 (trim_underscores_end (trim_underscores_start safe)) in
  if bool_decide (safe = "") then "unknown" else safe.

(* [elevated/src/runtime_ipc.rs] lifecycle_category *)
Definition lifecycle_category (lifecycle : NetworkProviderLifecycleState)
    : ProviderLifecycleCategory :=
  match lifecycle with
  | NlInactive => PlcInactive
  | NlActivating => PlcActivating
  | NlReady => PlcActive
  | NlActive => PlcActive
  | NlProbing => PlcSampling
  | NlPaused => PlcPaused
  | NlDegraded => PlcDegraded
  | NlStopping => PlcStopping
  | NlStopped => PlcStopped
  | NlRevoked | NlFailed => PlcFailed
  end.

(* [elevated/src/runtime_ipc.rs] lifecycle_from_provider_status *)
Definition lifecycle_from_provider_status (status : NetworkProviderControllerStatus)
    (provider_kind : NetworkProviderKind) : ProviderLifecycleCategory :=
  default PlcUnavailable
    (lifecycle_category ∘ nps_lifecycle_state <$> status_provider status provider_kind).
(* [elevated/src/runtime_ipc.rs] lifecycle_from_status *)
Definition lifecycle_from_status (status : NetworkProviderControllerStatus)
    : ProviderLifecycleCategory :=
  lifecycle_from_provider_status status NkIpHelper.

(** The [match] on the result category in the receipts. *)
(* [elevated/src/runtime_ipc.rs:1849-1868] ServiceCommandDispatcher::execute_ip_helper_mutation *)
Definition receipt_authorization_state (result_category : MutationExecutionResultCategory)
    : MutationExecutionAuthorizationState :=
  match result_category with
  | MerCompleted => MeaExecutionCompleted
  | MerAlreadySatisfied => MeaAlreadySatisfied
  | MerTimedOut => MeaExecutionTimedOut
  | MerCancelled => MeaExecutionCancelled
  | MerRejected => MeaExecutionRejected
  | MerFailed => MeaExecutionFailed
  end.

(** The three references of a receipt every execution adds, and the fields that differ. *)
Definition execution_receipt (execution_ref : string) (request : MutationExecutionRequest)
    (decision : MutationAuthorizationDecision) (command_id : MutationCommandId)
    (provider_category : MutationCapabilityCategory)
    (previous_lifecycle resulting_lifecycle : ProviderLifecycleCategory)
    (result_category : MutationExecutionResultCategory) (counters : MutationExecutionCounters)
    (batch_refs fact_refs canonical_snapshot_refs audit_refs : list string)
    (degraded_reason : option string) (provenance_id : string) : MutationExecutionReceipt :=
  let intent := mer_intent request in
  {| mrc_schema_version := MUTATION_AUTHORIZATION_SCHEMA_VERSION;
     mrc_execution_ref := execution_ref;
     mrc_authorization_decision_ref := mad_decision_ref decision;
     mrc_intent_ref := mi_intent_ref intent;
     mrc_request_ref := mi_request_ref intent;
     mrc_command_id := command_id;
     mrc_policy_ref := mi_policy_ref intent;
     mrc_policy_version := mi_policy_version intent;
     mrc_ownership_epoch := mad_ownership_epoch decision;
     mrc_provider_category := provider_category;
     mrc_previous_lifecycle_state := previous_lifecycle;
     mrc_resulting_lifecycle_state := resulting_lifecycle;
     mrc_authorization_state := receipt_authorization_state result_category;
     mrc_result_category := result_category;
     mrc_started_time_bucket := "current_connection";
     mrc_completed_time_bucket := "current_connection";
     mrc_duration_bucket := "bounded_under_timeout";
     mrc_counters := counters;
     mrc_batch_refs := batch_refs;
     mrc_fact_refs := fact_refs;
     mrc_canonical_snapshot_refs := canonical_snapshot_refs;
     mrc_audit_refs := audit_refs;
     mrc_degraded_reason := degraded_reason;
     mrc_provenance_id := provenance_id;
     mrc_redaction_status := RsRedacted |}.
Definition no_counters : MutationExecutionCounters := MutationPolicy.mkCounters 0 0 0.

Section dispatcher.
Context `{Externals} `{!HashOrder} `{!Sha256} `{!PayloadLength} `{!ResponseJson} `{!ServiceJson}
  `{!Platform}.

(* ------------------------------------------------------------------ *)
(** ** Envelopes *)

(** The reply to a request: its identifiers, a status and a payload. *)
Definition reply (request : IpcEnvelope) (status : string) (payload : json_value)
    : IpcEnvelope :=
  {| env_protocol_version := IPC_PROTOCOL_VERSION;
     env_schema_version := RUNTIME_IPC_SCHEMA_VERSION;
     env_request_id := env_request_id request;
     env_session_reference := env_session_reference request;
     env_client_nonce := env_client_nonce request;
     env_server_nonce := env_server_nonce request;
     env_sequence_number := env_sequence_number request;
     env_command_id := env_command_id request;
     env_response_status := status;
     env_payload := payload |}.
(* [elevated/src/runtime_ipc.rs] IpcEnvelope::ok *)
Definition envelope_ok (request : IpcEnvelope) (payload : json_value) : IpcEnvelope :=
  reply request "ok" payload.
(* [elevated/src/runtime_ipc.rs] IpcEnvelope::error *)
Definition envelope_error (request : IpcEnvelope) (error : IpcError) : IpcEnvelope :=
  reply request "error"
    (match json_of_error error with Ok value => value | Err _ => json_unserializable_error end).
(* [elevated/src/runtime_ipc.rs] IpcEnvelope::request *)
Definition envelope_request (session : IpcSessionState) (command : ServiceCommand)
    (payload : json_value) : ST IpcEnvelope :=
  let$ id := new_uuid in
  st_ret
    {| env_protocol_version := IPC_PROTOCOL_VERSION;
       env_schema_version := RUNTIME_IPC_SCHEMA_VERSION;
       env_request_id := uuid_to_string id;
       env_session_reference := ses_session_reference session;
       env_client_nonce := ses_client_nonce session;
       env_server_nonce := ses_server_nonce session;
       env_sequence_number := 1;
       env_command_id := command_as_str command;
       env_response_status := "request";
       env_payload := payload |}.
(** The reply with a value that may not serialize. *)
Definition reply_with (envelope : IpcEnvelope) (payload : result json_value string)
    : IpcEnvelope :=
  match payload with
  | Ok payload => envelope_ok envelope payload
  | Err error => envelope_error envelope (ipc_internal error)
  end.

(* [elevated/src/runtime_ipc.rs] decode_params *)
Definition decode_params {A} (from_value : json_value → result A string) (params : json_value)
    : result A IpcError :=
  map_err (λ error, ipc_schema
    ("request params failed strict schema validation: " ++ error)%string) (from_value params).

(* ------------------------------------------------------------------ *)
(** ** Building a dispatcher *)

(* [elevated/src/runtime_ipc.rs] ServiceCommandDispatcher::new *)
Definition dispatcher_new (clock : N) (audit_logger : ServiceAuditLogger)
    : ServiceCommandDispatcher :=
  {| sd_started_at := clock;
     sd_connected_clients := 0;
     sd_allowlist := read_only_v1;
     sd_caller_level := AlRead;
     sd_audit_logger := audit_logger;
     sd_rate_limiter := rate_limiter_new clock;
     sd_replay := replay_new;
     sd_runtime_ownership_status := None;
     sd_canonical_read_model_snapshot := None;
     sd_runtime_container := None;
     sd_scheduler_wake_signal := None;
     sd_caller_verification_policy := service_mode;
     sd_last_caller_verification := None;
     sd_active_session_reference := None;
     sd_active_verification_ref := None;
     sd_active_next_sequence_number := 1;
     sd_mutation_authorization := evaluator_new clock |}.
(* [elevated/src/runtime_ipc.rs] ServiceCommandDispatcher::with_caller_verification_policy *)
Definition with_caller_verification_policy (self : ServiceCommandDispatcher)
    (policy : CallerVerificationPolicy) : ServiceCommandDispatcher :=
  set_caller_verification_policy policy self.
(* [elevated/src/runtime_ipc.rs] ServiceCommandDispatcher::with_runtime_ownership_status *)
Definition with_runtime_ownership_status (self : ServiceCommandDispatcher)
    (status : RuntimeOwnershipSummary) : ServiceCommandDispatcher :=
  set_runtime_ownership_status (Some status) self.
(* [elevated/src/runtime_ipc.rs] ServiceCommandDispatcher::with_canonical_read_model_snapshot *)
Definition with_canonical_read_model_snapshot (self : ServiceCommandDispatcher)
    (snapshot : CanonicalReadModelSnapshot) : ServiceCommandDispatcher :=
  set_canonical_read_model_snapshot (Some snapshot) self.
(* [elevated/src/runtime_ipc.rs] ServiceCommandDispatcher::with_scheduler_wake_signal *)
Definition with_scheduler_wake_signal (self : ServiceCommandDispatcher) (signal : WakeHandle)
    : ServiceCommandDispatcher :=
  set_scheduler_wake_signal (Some signal) self.

Section methods.
Context {C : Type} `{!RuntimeContainer C}.

(** What the dispatcher copies from the container. *)
Definition copy_snapshots (container : C) (self : ServiceCommandDispatcher)
    : ServiceCommandDispatcher :=
  let self := set_runtime_ownership_status (Some (rc_summary container)) self in
  match rc_canonical_read_model_snapshot container with
  | Ok snapshot => set_canonical_read_model_snapshot (Some snapshot) self
  | Err _ => self
  end.
(** [Arc::new(Mutex::new(container))] *)
(* [elevated/src/runtime_ipc.rs] ServiceCommandDispatcher::with_runtime_container *)
Definition with_runtime_container (self : ServiceCommandDispatcher) (container : C)
    : ServiceCommandDispatcher * Cell C :=
  (set_runtime_container (Some the_container) (copy_snapshots container self),
   mkCell container false 1).
(* [elevated/src/runtime_ipc.rs] ServiceCommandDispatcher::with_shared_runtime_container *)
Definition with_shared_runtime_container (handle : ContainerHandle) : D C unit :=
  let! _ := with_container (λ container,
    let! _ := d_update (copy_snapshots container) in d_ret (container, tt)) in
  d_update (set_runtime_container (Some handle)).

(** [Arc::try_unwrap] gives the mutex out when this pointer is the only one; a poisoned one
    yields nothing, and is gone. *)
(* [elevated/src/runtime_ipc.rs] ServiceCommandDispatcher::take_runtime_container *)
Definition take_runtime_container : D C (option C) := λ d m,
  match sd_runtime_container d with
  | None => Done None d m
  | Some _ =>
      if cell_pointers (m_cell m) =? 1
      then Done (if cell_poisoned (m_cell m) then None else Some (cell_state (m_cell m)))
             (set_runtime_container None d) m
      else Done None d m
  end.

(* [elevated/src/runtime_ipc.rs] ServiceCommandDispatcher::shutdown_runtime_container_in_place *)
Definition shutdown_runtime_container_in_place
    : D C (result (option RuntimeOwnershipSummary) string) :=
  let! self := d_self in
  match sd_runtime_container self with
  | None => d_ret (Ok None)
  | Some _ =>
      let! r := with_container (λ container,
        let! '(container, first) := d_lift (rc_shutdown_before_ipc_close container) in
        match first with
        | Err error => d_ret (container, Err (ce_message error))
        | Ok _ =>
            let! '(container, second) :=
              d_lift (rc_complete_shutdown_after_ipc_close container) in
            match second with
            | Err error => d_ret (container, Err (ce_message error))
            | Ok summary =>
                let! _ := d_update (set_runtime_ownership_status (Some summary)) in
                d_ret (container, Ok (Some summary))
            end
        end) in
      d_ret (default (Err "servicehost runtime container lock unavailable") r)
  end.

(** The reason of a failed cycle: the category in its details, else its message. *)
Definition cycle_failure_reason (error : CoreError) : string :=
  match (ce_details_redacted error ≫= λ details, json_get details "reason_category")
        ≫= json_as_str with
  | Some reason => safe_wake_assist_reason reason
  | None => safe_wake_assist_reason (ce_message error)
  end.
(* [elevated/src/runtime_ipc.rs] ServiceCommandDispatcher::kick_due_ip_helper_scheduler_cycle *)
Definition kick_due_ip_helper_scheduler_cycle : D C string :=
  let! self := d_self in
  match sd_runtime_container self, sd_scheduler_wake_signal self with
  | Some _, Some _ =>
      let! clock := instant_now in
      let! elapsed_millis := (λ d m, Done (wake_elapsed_millis (m_wake m) clock) d m) in
      let! r := with_container (λ container,
        if bool_decide (rc_ip_helper_scheduler_wait_millis container elapsed_millis = Some 0)
        then
          let! '(container, cycle) := d_lift (rc_run_due_ip_helper_schedule_cycle
            (rc_owner_context container) elapsed_millis container) in
          d_ret (container,
            match cycle with
            | Ok cycle =>
                if bool_decide (ihc_execution_result cycle = IxCompleted)
                then "ip_helper_scheduler_wake_assist_completed"
                else "ip_helper_scheduler_wake_assist_skipped"
            | Err error =>
                "ip_helper_scheduler_wake_assist_failed_" ++
                to_ascii_lowercase (error_code_to_string (ce_error_code error)) ++ "_" ++
                cycle_failure_reason error
            end%string)
        else d_ret (container, "ip_helper_scheduler_wake_assist_not_due")) in
      d_ret (default "ip_helper_scheduler_wake_assist_lock_unavailable" r)
  | _, _ => d_ret "ip_helper_scheduler_wake_assist_unavailable"
  end.

(* ------------------------------------------------------------------ *)
(** ** The hand-shake *)

(* [elevated/src/runtime_ipc.rs:1118-1132] ServiceCommandDispatcher::begin_session *)
Definition server_hello (session : PendingIpcSessionState) : IpcServerHello :=
  {| sh_message_type := "server_hello";
     sh_protocol_version := IPC_PROTOCOL_VERSION;
     sh_schema_version := RUNTIME_IPC_SCHEMA_VERSION;
     sh_challenge_nonce := pes_challenge_nonce session;
     sh_server_nonce := pes_server_nonce session;
     sh_session_reference := pes_session_reference session;
     sh_accepted_capabilities :=
       ["read_only_status"; "read_only_canonical_snapshots"; "mutation_authorization_dry_run"];
     sh_max_frame_bytes := MAX_FRAME_BYTES;
     sh_max_payload_bytes := MAX_PAYLOAD_BYTES |}.

(** [self.replay.remember_nonce(field, nonce)] *)
Definition d_remember (field nonce : string) : D C (result unit IpcError) :=
  let! self := d_self in
  let '(replay, r) := remember_nonce (sd_replay self) field nonce in
  let! _ := d_update (set_replay replay) in
  d_ret r.

(** The checks on the client's hello before its nonce is remembered. *)
Definition hello_checks (hello : IpcClientHello) : result unit IpcError :=
  let? _ := refuse_if (negb (bool_decide (ch_message_type hello = "client_hello")))
    (ipc_protocol "expected client_hello") in
  let? _ := refuse_if
    (negb (bool_decide (IPC_PROTOCOL_VERSION ∈ ch_supported_protocol_versions hello)))
    (ipc_protocol "unsupported IPC protocol version") in
  refuse_if (negb (bool_decide (ch_schema_version hello = RUNTIME_IPC_SCHEMA_VERSION)))
    (ipc_protocol "unsupported IPC schema version").

(* [elevated/src/runtime_ipc.rs] ServiceCommandDispatcher::begin_session *)
Definition begin_session (stream : Pipe)
    : D C (Pipe * result PendingIpcSessionState IpcError) :=
  match read_json_frame client_hello_of_text stream with
  | (stream, Err error) =>
      d_ret (stream, Err (ipc_protocol
        ("client hello failed: " ++ frame_error_to_string error)%string))
  | (stream, Ok hello) =>
      match hello_checks hello with
      | Err error => d_ret (stream, Err error)
      | Ok _ =>
      let! remembered := d_remember "client_nonce" (ch_client_nonce hello) in
      match let? _ := remembered in
            for_each (safe_ipc_text "requested_capability") (ch_requested_capabilities hello)
      with
      | Err error => d_ret (stream, Err error)
      | Ok _ =>
      let! session_reference := d_lift new_uuid in
      let! server_nonce := d_lift new_uuid in
      let! challenge_nonce := d_lift new_uuid in
      let session := mkPendingSession (uuid_to_string session_reference)
        (ch_client_nonce hello) (uuid_to_string server_nonce)
        (uuid_to_string challenge_nonce) in
      let! remembered := d_remember "server_nonce" (pes_server_nonce session) in
      match remembered with
      | Err error => d_ret (stream, Err error)
      | Ok _ =>
      let! remembered := d_remember "challenge_nonce" (pes_challenge_nonce session) in
      match remembered with
      | Err error => d_ret (stream, Err error)
      | Ok _ =>
      match write_json_frame text_of_server_hello stream (server_hello session) with
      | (stream, Err error) =>
          d_ret (stream, Err (ipc_protocol
            ("server hello failed: " ++ frame_error_to_string error)%string))
      | (stream, Ok _) => d_ret (stream, Ok session)
      end end end end end
  end.

(** [format!("{:?}", verification_state)] *)
Definition verification_state_debug (state : CallerVerificationState) : string :=
  match state with
  | CvVerifiedInteractiveUser => "VerifiedInteractiveUser"
  | CvVerifiedServiceIdentity => "VerifiedServiceIdentity"
  | CvAdministratorPolicyVerified => "AdministratorPolicyVerified"
  | CvCallerNotAuthorized => "CallerNotAuthorized"
  | CvCallerIdentityUnavailable => "CallerIdentityUnavailable"
  | CvRemoteCallerRejected => "RemoteCallerRejected"
  | CvNetworkLogonRejected => "NetworkLogonRejected"
  | CvTokenTypeRejected => "TokenTypeRejected"
  | CvImpersonationFailed => "ImpersonationFailed"
  | CvTokenQueryFailed => "TokenQueryFailed"
  | CvSessionMismatch => "SessionMismatch"
  | CvUnsupportedPlatform => "UnsupportedPlatform"
  | CvForegroundDevelopment => "ForegroundDevelopment"
  end.

(** What is required of the caller's summary before anything is read. *)
(* [elevated/src/runtime_ipc.rs:1148-1156] ServiceCommandDispatcher::complete_session *)
Definition summary_checks (caller_verification : CallerVerificationSummary)
    : result unit IpcError :=
  let? _ := map_err (λ error, ipc_caller_rejected (caller_error_to_string error))
    (summary_validate caller_verification) in
  refuse_if
    (negb (bool_decide (cvs_session_binding_state caller_verification = SbBound)) ||
     negb (bool_decide (cvs_freshness_bucket caller_verification = VfCurrentConnection)))
    (ipc_caller_rejected "session_binding_failed").

(* [elevated/src/runtime_ipc.rs] ServiceCommandDispatcher::complete_session *)
Definition complete_session (stream : Pipe) (pending : PendingIpcSessionState)
    (caller_verification : CallerVerificationSummary)
    : D C (Pipe * result IpcSessionState IpcError) :=
  match summary_checks caller_verification with
  | Err error => d_ret (stream, Err error)
  | Ok _ =>
      let session := mkSession (pes_session_reference pending) (pes_client_nonce pending)
        (pes_server_nonce pending) (pes_challenge_nonce pending) caller_verification in
      match read_json_frame client_verify_of_text stream with
      | (stream, Err error) =>
          d_ret (stream, Err (ipc_protocol
            ("client verify failed: " ++ frame_error_to_string error)%string))
      | (stream, Ok verify) =>
          match
            let? _ := validate_client_verify session verify in
            refuse_if (negb (permits_read_only_commands caller_verification))
              (ipc_caller_rejected ("caller verification state: " ++
                 verification_state_debug (cvs_verification_state caller_verification))%string)
          with
          | Err error => d_ret (stream, Err error)
          | Ok _ =>
              let! session_nonce := d_lift new_uuid in
              let server_verify :=
                {| sv_message_type := "server_verify";
                   sv_protocol_version := IPC_PROTOCOL_VERSION;
                   sv_schema_version := RUNTIME_IPC_SCHEMA_VERSION;
                   sv_session_reference := ses_session_reference session;
                   sv_response_status := "ok";
                   sv_caller_verification := caller_verification;
                   sv_session_nonce := uuid_to_string session_nonce |} in
              match write_json_frame text_of_server_verify stream server_verify with
              | (stream, Err error) =>
                  d_ret (stream, Err (ipc_protocol
                    ("server verify failed: " ++ frame_error_to_string error)%string))
              | (stream, Ok _) =>
                  let! _ := d_update (set_active (Some (ses_session_reference session))
                    (Some (cvs_verification_ref caller_verification)) 1) in
                  let! _ := d_update (set_last_caller_verification
                    (Some caller_verification)) in
                  d_ret (stream, Ok session)
              end
          end
      end
  end.

(* ------------------------------------------------------------------ *)
(** ** Connections *)

(** [let _ = self.audit_logger.log(...)] *)
Definition note (event_type : string) (command : option string) (outcome : string)
    (reason : option string) : D C unit :=
  let! _ := audit_log event_type command outcome reason in d_ret tt.

(* [elevated/src/runtime_ipc.rs] ServiceCommandDispatcher::connection_accepted *)
Definition connection_accepted : D C unit :=
  let! self := d_self in
  let! _ := d_update
    (set_connected_clients (saturating_add u32_max (sd_connected_clients self) 1)) in
  note "ipc_connection_accepted" None "accepted" None.

(** The end of the schedule lease of the session. *)
(* [elevated/src/runtime_ipc.rs:1408-1440] ServiceCommandDispatcher::connection_closed *)
Definition invalidate_schedule : D C unit :=
  let failed reason :=
    note "ip_helper_schedule_session_invalidation_failed" None "rejected" (Some reason) in
  let! self := d_self in
  match sd_runtime_container self with
  | None => d_ret tt
  | Some _ =>
      let! r := with_container (λ container,
        let! '(container, invalidated) :=
          d_lift (rc_invalidate_ip_helper_schedule_for_session_end
            (rc_owner_context container) "ip_helper_schedule_session_invalidated"
            "ipc_session_closed" container) in
        let! _ := match invalidated with
                  | Ok (Some _) => d_update (copy_snapshots container)
                  | Ok None => d_ret tt
                  | Err error => failed (ce_message error)
                  end in
        d_ret (container, tt)) in
      match r with
      | Some _ => d_ret tt
      | None => failed "runtime_container_lock_unavailable"
      end
  end.

(** The trust of the caller ends with the connection. *)
(* [elevated/src/runtime_ipc.rs:1447-1451] ServiceCommandDispatcher::connection_closed *)
Definition expire_summary (summary : CallerVerificationSummary) : CallerVerificationSummary :=
  {| cvs_schema_version := cvs_schema_version summary;
     cvs_verification_ref := cvs_verification_ref summary;
     cvs_caller_category := cvs_caller_category summary;
     cvs_verification_state := cvs_verification_state summary;
     cvs_local_classification := cvs_local_classification summary;
     cvs_interactive_marker := cvs_interactive_marker summary;
     cvs_service_marker := cvs_service_marker summary;
     cvs_administrator_policy_marker := cvs_administrator_policy_marker summary;
     cvs_token_suitability := cvs_token_suitability summary;
     cvs_elevation_category := cvs_elevation_category summary;
     cvs_session_binding_state := SbExpired;
     cvs_freshness_bucket := VfExpired;
     cvs_allowed_command_classes := [AcNone];
     cvs_degraded_reason := cvs_degraded_reason summary;
     cvs_audit_refs := cvs_audit_refs summary;
     cvs_provenance_id := cvs_provenance_id summary;
     cvs_redaction_status := cvs_redaction_status summary;
     cvs_production_mutations_enabled := cvs_production_mutations_enabled summary |}.

(* [elevated/src/runtime_ipc.rs] ServiceCommandDispatcher::connection_closed *)
Definition connection_closed : D C unit :=
  let! _ := d_update (λ self,
    set_connected_clients (saturating_sub (sd_connected_clients self) 1) self) in
  let! _ := d_update (λ self,
    match sd_active_session_reference self with
    | Some session_ref =>
        set_mutation_authorization
          (invalidate_session (sd_mutation_authorization self) session_ref) self
    | None => self
    end) in
  let! _ := invalidate_schedule in
  let! _ := notify_scheduler in
  let! _ := d_update (set_active None None 1) in
  let! _ := d_update (λ self,
    set_last_caller_verification (expire_summary <$> sd_last_caller_verification self) self) in
  note "caller_verification_expired" None "expired" (Some "connection_closed").

(* ------------------------------------------------------------------ *)
(** ** Status *)

(* [elevated/src/runtime_ipc.rs] ServiceCommandDispatcher::caller_verification_read_status *)
Definition caller_verification_read_status (self : ServiceCommandDispatcher)
    : CallerVerificationReadStatus :=
  let implementation := if cfg_windows then ViImplemented else ViUnsupportedPlatform in
  let policy := sd_caller_verification_policy self in
  {| cvr_schema_version := CALLER_VERIFICATION_SCHEMA_VERSION;
     cvr_caller_impersonation := implementation;
     cvr_token_classification := implementation;
     cvr_production_mutation_authorization := implementation;
     cvr_production_mutations_enabled := PRODUCTION_MUTATION_COMMANDS_ENABLED;
     cvr_production_service_mode_policy :=
       if cp_production_service_mode policy then "strict_local_token_verification"
       else "not_production_service_mode";
     cvr_foreground_development_policy :=
       if cp_allow_foreground_development policy then "explicit_test_only"
       else "disabled_by_default";
     cvr_remote_caller_rejection_enabled := true;
     cvr_network_logon_rejection_enabled := true;
     cvr_session_binding_enabled := true;
     cvr_last_verification := sd_last_caller_verification self;
     cvr_audit_refs := ["caller_verification_audit"];
     cvr_provenance_id := "servicehost_named_pipe_caller_verification";
     cvr_redaction_status := RsRedacted |}.

(* [elevated/src/runtime_ipc.rs] ServiceCommandDispatcher::mutation_authorization_status *)
Definition mutation_authorization_status (self : ServiceCommandDispatcher)
    : MutationAuthorizationStatus :=
  let caller_trust_ready :=
    match sd_last_caller_verification self with
    | Some summary =>
        bool_decide (cvs_session_binding_state summary = SbBound) &&
        bool_decide (cvs_freshness_bucket summary = VfCurrentConnection)
    | None => false
    end in
  let ownership_runtime_ready :=
    match sd_runtime_ownership_status self with
    | Some status =>
        bool_decide (ros_runtime_mode status = RmServiceOwned) &&
        (0 <? ros_ownership_epoch status)
    | None => false
    end in
  status (sd_mutation_authorization self) caller_trust_ready ownership_runtime_ready.

(* [elevated/src/runtime_ipc.rs] ServiceCommandDispatcher::refresh_runtime_snapshots_from_container *)
Definition refresh_runtime_snapshots_from_container : D C unit :=
  let! self := d_self in
  match sd_runtime_container self with
  | None => d_ret tt
  | Some _ =>
      let! _ := with_container (λ container,
        let! _ := d_update (copy_snapshots container) in d_ret (container, tt)) in
      d_ret tt
  end.

(** The life-cycle category of a provider in the container. *)
Definition provider_lifecycle (kind : NetworkProviderKind) : D C ProviderLifecycleCategory :=
  let! lifecycle := read_container (λ container,
    lifecycle_category ∘ nps_lifecycle_state <$> rc_network_provider_status container kind) in
  d_ret (default PlcUnavailable (mjoin lifecycle)).
(* [elevated/src/runtime_ipc.rs] ServiceCommandDispatcher::ip_helper_lifecycle_category *)
Definition ip_helper_lifecycle_category : D C ProviderLifecycleCategory :=
  provider_lifecycle NkIpHelper.
(* [elevated/src/runtime_ipc.rs] ServiceCommandDispatcher::etw_lifecycle_category *)
Definition etw_lifecycle_category : D C ProviderLifecycleCategory :=
  provider_lifecycle NkEtwNetwork.
(* [elevated/src/runtime_ipc.rs] ServiceCommandDispatcher::dns_sensing_lifecycle_category *)
Definition dns_sensing_lifecycle_category : D C ProviderLifecycleCategory :=
  provider_lifecycle NkWindowsDns.
(* [elevated/src/runtime_ipc.rs] ServiceCommandDispatcher::auth_remote_sensing_lifecycle_category *)
Definition auth_remote_sensing_lifecycle_category : D C ProviderLifecycleCategory :=
  provider_lifecycle NkWindowsAuthRemote.

(* ------------------------------------------------------------------ *)
(** ** The commands that read *)

(** [serde_json::to_value(result).map_err(internal)] *)
Definition internal_json (value : result json_value string) : result json_value IpcError :=
  map_err ipc_internal value.

(* [elevated/src/runtime_ipc.rs] ServiceCommandDispatcher::handle_ping *)
Definition handle_ping (params : json_value) : D C (result json_value IpcError) :=
  match
    let? params := decode_params json_to_ping params in
    let? _ := safe_ipc_text "nonce" (pip_nonce params) in
    Ok params
  with
  | Err error => d_ret (Err error)
  | Ok params =>
      let! self := d_self in
      let! clock := instant_now in
      d_ret (internal_json (json_of_ping
        {| pir_nonce := pip_nonce params;
           pir_service_uptime_ms :=
             saturating_sub clock (sd_started_at self) / 1000000 mod 2 ^ 64;
           pir_version := SERVICE_VERSION |}))
  end.

(* [elevated/src/runtime_ipc.rs] ServiceCommandDispatcher::handle_status *)
Definition handle_status (params : json_value) : D C (result json_value IpcError) :=
  match decode_params json_to_empty params with
  | Err error => d_ret (Err error)
  | Ok _ =>
      let! provider_controller_status := read_container rc_provider_controller_status in
      let! dns_sensing_lifecycle_status := read_container rc_dns_sensing_lifecycle_status in
      let! auth_remote_sensing_lifecycle_status :=
        read_container rc_auth_remote_sensing_lifecycle_status in
      let! self := d_self in
      let ownership := sd_runtime_ownership_status self in
      d_ret (internal_json (json_of_status
        {| str_service_status := "running";
           str_connected_clients := sd_connected_clients self;
           str_memory_usage_mb := S754_zero false;
           str_runtime_ownership := ros_runtime_mode <$> ownership;
           str_runtime_ownership_status := ownership;
           str_runtime_protocol_version := ros_protocol_version <$> ownership;
           str_runtime_schema_version := ros_schema_version <$> ownership;
           str_caller_verification_status := Some (caller_verification_read_status self);
           str_mutation_authorization_status := Some (mutation_authorization_status self);
           str_provider_controller_status := mjoin provider_controller_status;
           str_dns_sensing_lifecycle_status := mjoin dns_sensing_lifecycle_status;
           str_auth_remote_sensing_lifecycle_status :=
             mjoin auth_remote_sensing_lifecycle_status |}))
  end.

(* [elevated/src/runtime_ipc.rs] ServiceCommandDispatcher::handle_capture_health *)
Definition handle_capture_health (params : json_value) : result json_value IpcError :=
  let? _ := decode_params json_to_empty params in
  internal_json (json_of_capture_health (mkCaptureHealth false 0 None "stub_inactive")).

(* [elevated/src/runtime_ipc.rs] ServiceCommandDispatcher::handle_process_snapshot *)
Definition handle_process_snapshot (params : json_value) : result json_value IpcError :=
  let? params := decode_params json_to_process_params params in
  let own := match psp_pid params with None => true | Some pid => pid =? process_id end in
  internal_json (json_of_processes (mkProcessSnapshot
    (if own
     then [mkProcessEntry process_id service_process_name "redacted:sentinel-guard-elevated" []]
     else []))).

(* [elevated/src/runtime_ipc.rs] ServiceCommandDispatcher::handle_read_command *)
Definition handle_read_command (command_id : ServiceReadCommandId) (params : json_value)
    : D C (result json_value IpcError) :=
  let! self := d_self in
  match
    let? params := decode_params json_to_read_request params in
    let? snapshot := ok_or (sd_canonical_read_model_snapshot self)
      (ipc_internal "canonical read-model snapshot unavailable") in
    Ok (params, snapshot)
  with
  | Err error => d_ret (Err error)
  | Ok (params, snapshot) =>
      let! response :=
        d_lift (build_service_read_command_response command_id snapshot params) in
      d_ret
        (let? response := map_err (λ error, ipc_schema (read_error_to_string error)) response in
         let? value := internal_json (json_of_read_response response) in
         let? _ := enforce_payload_size_limit value in
         Ok value)
  end.

(** The [match] on the command. *)
(* [elevated/src/runtime_ipc.rs:1340-1375] ServiceCommandDispatcher::dispatch *)
Definition handle_command (command : ServiceCommand) (params : json_value)
    : D C (result json_value IpcError) :=
  match command with
  | ScPing => handle_ping params
  | ScStatus => handle_status params
  | ScCaptureHealth => d_ret (handle_capture_health params)
  | ScProcessSnapshot => d_ret (handle_process_snapshot params)
  | ScEvaluateMutationIntent =>
      d_ret (Err (ipc_caller_rejected
        "mutation authorization evaluation requires a verified IPC session"))
  | ScRead command_id => handle_read_command command_id params
  | ScConfigureIpHelperSchedule | ScEnableIpHelperSchedule | ScPauseIpHelperSchedule
  | ScResumeIpHelperSchedule | ScDisableIpHelperSchedule =>
      d_ret (Err (ipc_caller_rejected
        "schedule mutation requires a verified IPC session and execution authorization"))
  | _ =>
      d_ret (Err (ipc_caller_rejected
        "provider execution requires a verified IPC session and execution authorization"))
  end.

(* [elevated/src/runtime_ipc.rs] ServiceCommandDispatcher::dispatch *)
Definition dispatch (request : IpcRequest) : D C IpcResponse :=
  let rejected command_name (error : IpcError) :=
    let! _ := note "command_rejected" command_name "rejected" (Some (ie_code error)) in
    d_lift (response_error request error) in
  match command_parse (irq_command request) with
  | Err error => rejected None error
  | Ok command =>
      let command_name := Some (command_as_str command) in
      let! _ := note "command_received" command_name "received" None in
      let! self := d_self in
      match ensure_allowed (sd_allowlist self) command (sd_caller_level self) with
      | Err error => rejected command_name error
      | Ok _ =>
          let! clock := instant_now in
          let '(rate_limiter, checked) := rate_limiter_check (sd_rate_limiter self) clock in
          let! _ := d_update (set_rate_limiter rate_limiter) in
          match checked with
          | Err error => rejected command_name error
          | Ok _ =>
              let! handled := handle_command command (irq_params request) in
              match handled with
              | Ok value =>
                  let! _ := note "command_completed" command_name "ok" None in
                  d_lift (response_ok request value)
              | Err error => rejected command_name error
              end
          end
      end
  end.

(* ------------------------------------------------------------------ *)
(** ** Evaluating a mutation intent *)

(** The context of the evaluation: the runtime's summary, then what the container says now. *)
(* [elevated/src/runtime_ipc.rs:1568-1586] ServiceCommandDispatcher::evaluate_mutation_intent *)
Definition evaluation_context (session : IpcSessionState)
    : D C MutationAuthorizationRuntimeContext :=
  let! self := d_self in
  let context :=
    match sd_runtime_ownership_status self with
    | Some summary => from_runtime_summary (ses_session_reference session) summary
    | None => context_unavailable (ses_session_reference session)
    end in
  let! states := read_container (λ container,
    (rc_etw_mutation_capability_state container,
     rc_auth_remote_mutation_capability_state container)) in
  match states with
  | None => d_ret context
  | Some (etw_state, auth_remote_state) =>
      d_ret
        {| ctx_ipc_session_ref := ctx_ipc_session_ref context;
           ctx_protocol_schema_valid := ctx_protocol_schema_valid context;
           ctx_runtime_state := ctx_runtime_state context;
           ctx_ownership_epoch := ctx_ownership_epoch context;
           ctx_ip_helper_state := ctx_ip_helper_state context;
           ctx_etw_state := etw_state;
           ctx_dns_sensing_state := ctx_dns_sensing_state context;
           ctx_auth_remote_state := auth_remote_state;
           ctx_provider_controller_state := ctx_provider_controller_state context;
           ctx_sampler_state := ctx_sampler_state context;
           ctx_scheduler_state := ctx_scheduler_state context;
           ctx_scheduler_host_state := ctx_scheduler_host_state context;
           ctx_report_state := ctx_report_state context;
           ctx_export_state := ctx_export_state context;
           ctx_llm_state := ctx_llm_state context;
           ctx_capture_state := ctx_capture_state context;
           ctx_response_state := ctx_response_state context |}
  end.

(* [elevated/src/runtime_ipc.rs:1589-1607] ServiceCommandDispatcher::evaluate_mutation_intent *)
Definition terminal_event (result : MutationAuthorizationResult) : string :=
  match result with
  | MarApprovedDryRun => "mutation_authorization_approved_dry_run"
  | MarApprovedForExecution => "mutation_authorization_approved_for_execution"
  | MarExpired => "mutation_intent_expired"
  | MarReplayRejected => "mutation_replay_rejected"
  | MarSessionMismatch => "mutation_session_mismatch"
  | MarOwnershipEpochMismatch => "mutation_ownership_epoch_mismatch"
  | _ => "mutation_authorization_denied"
  end.

(* [elevated/src/runtime_ipc.rs] ServiceCommandDispatcher::evaluate_mutation_intent *)
Definition evaluate_mutation_intent (session : IpcSessionState) (envelope : IpcEnvelope)
    : D C IpcEnvelope :=
  let command := Some (command_as_str ScEvaluateMutationIntent) in
  let failed error := d_ret (envelope_error envelope error) in
  let unavailable := failed (ipc_internal "mutation authorization audit unavailable") in
  let! logged := audit_log "mutation_intent_received" command "received" None in
  match logged with
  | Err error => failed (ipc_internal error)
  | Ok _ =>
  match json_to_intent (env_payload envelope) with
  | Err _ =>
      let! _ := note "mutation_intent_rejected" command "rejected"
                  (Some "invalid_intent_contract") in
      failed (ipc_schema "mutation intent contract is invalid")
  | Ok intent =>
  match intent_validate intent with
  | Err error =>
      let! _ := note "mutation_intent_rejected" command "rejected"
                  (Some "intent_validation_failed") in
      failed (ipc_schema (mutation_error_to_string error))
  | Ok _ =>
  let intent_command := Some (as_str (mi_command_id intent)) in
  let! logged := audit_log "mutation_policy_loaded" intent_command "loaded" None in
  match logged with
  | Err _ => unavailable
  | Ok _ =>
  let! context := evaluation_context session in
  let! clock := instant_now in
  let! self := d_self in
  let! '(decision, evaluator) := d_lift
    (evaluate (sd_mutation_authorization self) intent (ses_caller_verification session)
       context clock) in
  let! _ := d_update (set_mutation_authorization evaluator) in
  let! logged := audit_log (terminal_event (mad_result decision)) intent_command "evaluated"
                   (mad_degraded_reason decision) in
  match logged with
  | Err _ => unavailable
  | Ok _ =>
  let! _ := match mad_result decision with
            | MarApprovedDryRun =>
                note "mutation_execution_blocked" intent_command "blocked"
                  (Some "dry_run_terminal_gate")
            | MarApprovedForExecution =>
                note (provider_authorized_event (mi_command_id intent)) intent_command
                  "authorized" (Some "single_use_execution_authorization")
            | _ => d_ret tt
            end in
  d_ret (reply_with envelope (json_of_decision decision))
  end end end end end.

(* ------------------------------------------------------------------ *)
(** ** Executing an authorized mutation *)

(** [self.mutation_authorization.consume_execution_authorization(...)], with the ownership
    epoch the dispatcher knows. *)
Definition consume (session : IpcSessionState) (request : MutationExecutionRequest)
    (expected_command : MutationCommandId)
    : D C (result MutationAuthorizationDecision string) :=
  let! self := d_self in
  let current_epoch := default 0 (ros_ownership_epoch <$> sd_runtime_ownership_status self) in
  let! clock := instant_now in
  let '(evaluator, consumed) := consume_execution_authorization
    (sd_mutation_authorization self) request (ses_session_reference session)
    expected_command current_epoch clock in
  let! _ := d_update (set_mutation_authorization evaluator) in
  d_ret consumed.

(** The block that owns the container: it ends early, with a reply, when there is no
    container, its mutex is poisoned, or the ownership epoch has moved on. *)
(* [elevated/src/runtime_ipc.rs:1723-1747] ServiceCommandDispatcher::execute_ip_helper_mutation *)
Definition in_container {A} (envelope : IpcEnvelope)
    (decision : MutationAuthorizationDecision) (expected_command : MutationCommandId)
    (epoch_rejected : string) (body : C → D C (C * A)) : D C (result A IpcEnvelope) :=
  let unavailable reason := Err (envelope_error envelope (ipc_internal reason)) in
  let! self := d_self in
  match sd_runtime_container self with
  | None => d_ret (unavailable "servicehost runtime container unavailable")
  | Some _ =>
      let! r := with_container (λ container,
        if negb (roc_ownership_epoch (rc_owner_context container) =?
                 mad_ownership_epoch decision)
        then
          let! _ := note epoch_rejected (Some (as_str expected_command)) "rejected"
                      (Some "ownership_epoch_changed") in
          d_ret (container,
                 Err (envelope_error envelope (ipc_caller_rejected epoch_rejected)))
        else
          let! '(container, x) := body container in
          d_ret (container, Ok x)) in
      d_ret (default (unavailable "servicehost runtime container lock unavailable") r)
  end.

(** [self.canonical_read_model_snapshot.as_ref().map(|s| vec![s.snapshot_id.to_string()])] *)
Definition snapshot_refs (self : ServiceCommandDispatcher) : list string :=
  match sd_canonical_read_model_snapshot self with
  | Some snapshot => [id_to_string (sms_snapshot_id snapshot)]
  | None => []
  end.

(** The reply with a receipt. *)
Definition reply_receipt (envelope : IpcEnvelope) (receipt : MutationExecutionReceipt)
    : IpcEnvelope :=
  match receipt_validate receipt with
  | Err error => envelope_error envelope (ipc_schema (mutation_error_to_string error))
  | Ok _ => reply_with envelope (json_of_receipt receipt)
  end.

Definition method_fmap {A B} (f : A → B) (operation : method C A) : method C B :=
  λ container, let$ '(container, r) := operation container in
               st_ret (container, let? x := r in Ok (f x)).
Definition unsupported {A} (message : string) : method C A :=
  λ container, st_ret (container, Err (core_error_new EcUnsupportedOperation message)).

(* [elevated/src/runtime_ipc.rs] ProviderExecutionOutcome *)
Inductive ProviderExecutionOutcome :=
  | PeStatus (status : NetworkProviderControllerStatus) | PeSample (batch : HandoffBatch).

(* [elevated/src/runtime_ipc.rs:1748-1765] ServiceCommandDispatcher::execute_ip_helper_mutation *)
Definition ip_helper_operation (command : MutationCommandId) (owner : RuntimeOwnerContext)
    : method C ProviderExecutionOutcome :=
  match command with
  | McActivateIpHelperProvider => method_fmap PeStatus (rc_activate_ip_helper_provider owner)
  | McSampleIpHelperNow =>
      method_fmap PeSample (rc_execute_ip_helper_servicehost_handoff owner production_ipc)
  | McStopIpHelper => method_fmap PeStatus (rc_stop_ip_helper_provider owner)
  | _ => unsupported "unsupported ip helper command"
  end.

(** What an execution contributes to its receipt. *)
Record Execution := mkExecution {
  ex_result_category : MutationExecutionResultCategory;
  ex_resulting_lifecycle : ProviderLifecycleCategory;
  ex_counters : MutationExecutionCounters;
  ex_batch_refs : list string;
  ex_fact_refs : list string;
  ex_degraded_reason : option string
}.

(** The arms on the outcome. The failed arm asks for the life cycle while the guard of the
    container is still alive. *)
(* [elevated/src/runtime_ipc.rs:1766-1808] ServiceCommandDispatcher::execute_ip_helper_mutation *)
Definition ip_helper_outcome (expected_command : MutationCommandId)
    (previous_lifecycle : ProviderLifecycleCategory)
    (execution : result ProviderExecutionOutcome CoreError) : D C Execution :=
  match execution with
  | Ok (PeStatus status) =>
      let resulting := lifecycle_from_status status in
      d_ret (mkExecution
        (if bool_decide (previous_lifecycle = resulting) &&
            match expected_command with
            | McActivateIpHelperProvider | McStopIpHelper => true | _ => false end
         then MerAlreadySatisfied else MerCompleted)
        resulting no_counters [] [] None)
  | Ok (PeSample batch) =>
      d_ret (mkExecution MerCompleted PlcActive (MutationPolicy.mkCounters 1 0 0)
        [hb_batch_ref batch]
        (id_to_string <$> take (N.to_nat MAX_MUTATION_AUTHORIZATION_REFS) (hb_fact_refs batch))
        None)
  | Err _ =>
      let! resulting := ip_helper_lifecycle_category in
      d_ret (mkExecution MerFailed resulting (MutationPolicy.mkCounters 0 0 1) [] []
        (Some "provider_execution_failed"))
  end.

(** The request of an execution: it must parse, be valid, and its authorization must be
    consumed; otherwise the reply. *)
(* [elevated/src/runtime_ipc.rs:1662-1708] ServiceCommandDispatcher::execute_ip_helper_mutation *)
Definition consumed_request (session : IpcSessionState) (envelope : IpcEnvelope)
    (service_command : ServiceCommand) (expected_command : MutationCommandId)
    (rejected_event : string)
    : D C (result (MutationExecutionRequest * MutationAuthorizationDecision) IpcEnvelope) :=
  let rejected event command reason (error : IpcError) :=
    let! _ := note event (Some command) "rejected" (Some reason) in
    d_ret (Err (envelope_error envelope error)) in
  match json_to_execution_request (env_payload envelope) with
  | Err _ =>
      rejected rejected_event (command_as_str service_command)
        "invalid_execution_request_contract"
        (ipc_schema "mutation execution request contract is invalid")
  | Ok request =>
      match execution_request_validate request with
      | Err error =>
          rejected rejected_event (command_as_str service_command)
            "execution_request_validation_failed"
            (ipc_schema (mutation_error_to_string error))
      | Ok _ =>
          let! consumed := consume session request expected_command in
          match consumed with
          | Err reason =>
              rejected reason (as_str expected_command) reason (ipc_caller_rejected reason)
          | Ok decision => d_ret (Ok (request, decision))
          end
      end
  end.

(* [elevated/src/runtime_ipc.rs] ServiceCommandDispatcher::execute_ip_helper_mutation *)
Definition execute_ip_helper_mutation (session : IpcSessionState) (envelope : IpcEnvelope)
    (service_command : ServiceCommand) : D C IpcEnvelope :=
  match ip_helper_mutation_command_id service_command with
  | None =>
      d_ret (envelope_error envelope
        (ipc_command_not_allowed "provider command is not execution-enabled"))
  | Some expected_command =>
  let! consumed := consumed_request session envelope service_command expected_command
                     "ip_helper_execution_rejected" in
  match consumed with
  | Err early => d_ret early
  | Ok (request, decision) =>
  let command := Some (as_str expected_command) in
  let! _ := note (ip_helper_started_event expected_command) command "started"
              (Some "single_use_execution_authorization_consumed") in
  let! previous_lifecycle := ip_helper_lifecycle_category in
  let! id := d_lift new_uuid in
  let execution_ref := ("ip_helper_execution_" ++ uuid_to_string id)%string in
  let! executed := in_container envelope decision expected_command
    "ip_helper_execution_epoch_rejected" (λ container,
      let! '(container, execution) := d_lift
        (ip_helper_operation expected_command (rc_owner_context container) container) in
      let! x := ip_helper_outcome expected_command previous_lifecycle execution in
      d_ret (container, x)) in
  match executed with
  | Err early => d_ret early
  | Ok x =>
  let! _ := refresh_runtime_snapshots_from_container in
  let! self := d_self in
  let audit_event :=
    match ex_result_category x with
    | MerCompleted | MerAlreadySatisfied => ip_helper_completed_event expected_command
    | MerTimedOut => "ip_helper_sample_timed_out"
    | MerCancelled => "ip_helper_sample_cancelled"
    | _ => ip_helper_failed_event expected_command
    end in
  let! _ := note audit_event command "completed" (ex_degraded_reason x) in
  let! _ := notify_scheduler in
  d_ret (reply_receipt envelope
    (execution_receipt execution_ref request decision expected_command McpIpHelperProvider
       previous_lifecycle (ex_resulting_lifecycle x) (ex_result_category x) (ex_counters x)
       (ex_batch_refs x) (ex_fact_refs x) (snapshot_refs self)
       [provider_authorized_event expected_command; ip_helper_started_event expected_command;
        audit_event]
       (ex_degraded_reason x) "servicehost_ip_helper_production_ipc"))
  end end end.

(* [elevated/src/runtime_ipc.rs:1964-1970] ServiceCommandDispatcher::execute_etw_mutation *)
Definition dns_sensing_command (command : MutationCommandId) : bool :=
  match command with
  | McActivateDnsSensing | McPauseDnsSensing | McResumeDnsSensing | McStopDnsSensing => true
  | _ => false
  end.
(* [elevated/src/runtime_ipc.rs:1971-1977] ServiceCommandDispatcher::execute_etw_mutation *)
Definition auth_remote_sensing_command (command : MutationCommandId) : bool :=
  match command with
  | McActivateAuthRemoteSensing | McPauseAuthRemoteSensing | McResumeAuthRemoteSensing
  | McStopAuthRemoteSensing => true
  | _ => false
  end.
(** The provider a command of the ETW family is about. *)
Definition etw_provider_kind (command : MutationCommandId) : NetworkProviderKind :=
  if auth_remote_sensing_command command then NkWindowsAuthRemote
  else if dns_sensing_command command then NkWindowsDns else NkEtwNetwork.
(** The life cycle read before the operation, and again when it failed. *)
Definition etw_command_lifecycle (command : MutationCommandId)
    : D C ProviderLifecycleCategory :=
  if auth_remote_sensing_command command then auth_remote_sensing_lifecycle_category
  else if dns_sensing_command command then dns_sensing_lifecycle_category
  else etw_lifecycle_category.

(* [elevated/src/runtime_ipc.rs:2018-2059] ServiceCommandDispatcher::execute_etw_mutation *)
Definition etw_operation (command : MutationCommandId) (owner : RuntimeOwnerContext)
    (authorization_refs : list string) : method C NetworkProviderControllerStatus :=
  match command with
  | McActivateEtwProvider => rc_activate_etw_provider owner authorization_refs
  | McPauseEtwProvider => rc_pause_etw_provider owner authorization_refs
  | McResumeEtwProvider => rc_resume_etw_provider owner authorization_refs
  | McStopEtwProvider => rc_stop_etw_provider owner authorization_refs
  | McActivateDnsSensing => rc_activate_dns_sensing owner authorization_refs
  | McPauseDnsSensing => rc_pause_dns_sensing owner authorization_refs
  | McResumeDnsSensing => rc_resume_dns_sensing owner authorization_refs
  | McStopDnsSensing => rc_stop_dns_sensing owner authorization_refs
  | McActivateAuthRemoteSensing => rc_activate_auth_remote_sensing owner authorization_refs
  | McPauseAuthRemoteSensing => rc_pause_auth_remote_sensing owner authorization_refs
  | McResumeAuthRemoteSensing => rc_resume_auth_remote_sensing owner authorization_refs
  | McStopAuthRemoteSensing => rc_stop_auth_remote_sensing owner authorization_refs
  | _ => unsupported "unsupported ETW command"
  end.

(* [elevated/src/runtime_ipc.rs:2060-2094] ServiceCommandDispatcher::execute_etw_mutation *)
Definition etw_outcome (expected_command : MutationCommandId)
    (previous_lifecycle : ProviderLifecycleCategory)
    (execution : result NetworkProviderControllerStatus CoreError) : D C Execution :=
  match execution with
  | Ok status =>
      let resulting :=
        lifecycle_from_provider_status status (etw_provider_kind expected_command) in
      d_ret (mkExecution
        (if bool_decide (previous_lifecycle = resulting)
         then MerAlreadySatisfied else MerCompleted)
        resulting no_counters [] [] None)
  | Err _ =>
      let! resulting := etw_command_lifecycle expected_command in
      d_ret (mkExecution MerFailed resulting (MutationPolicy.mkCounters 0 0 1) [] []
        (Some "etw_lifecycle_execution_failed"))
  end.

(* [elevated/src/runtime_ipc.rs] ServiceCommandDispatcher::execute_etw_mutation *)
Definition execute_etw_mutation (session : IpcSessionState) (envelope : IpcEnvelope)
    (service_command : ServiceCommand) : D C IpcEnvelope :=
  match etw_mutation_command_id service_command with
  | None =>
      d_ret (envelope_error envelope
        (ipc_command_not_allowed "ETW command is not execution-enabled"))
  | Some expected_command =>
  let! consumed := consumed_request session envelope service_command expected_command
                     "etw_execution_rejected" in
  match consumed with
  | Err early => d_ret early
  | Ok (request, decision) =>
  let command := Some (as_str expected_command) in
  let started_event := etw_started_event expected_command in
  let! _ := note started_event command "started"
              (Some "single_use_execution_authorization_consumed") in
  let! previous_lifecycle := etw_command_lifecycle expected_command in
  let! id := d_lift new_uuid in
  let execution_ref := ("provider_execution_" ++ uuid_to_string id)%string in
  let authorization_refs :=
    [mad_decision_ref decision; mi_intent_ref (mer_intent request)] in
  let! executed := in_container envelope decision expected_command
    "etw_execution_epoch_rejected" (λ container,
      let! '(container, execution) := d_lift
        (etw_operation expected_command (rc_owner_context container) authorization_refs
           container) in
      let! x := etw_outcome expected_command previous_lifecycle execution in
      d_ret (container, x)) in
  match executed with
  | Err early => d_ret early
  | Ok x =>
  let! _ := refresh_runtime_snapshots_from_container in
  let! self := d_self in
  let audit_event :=
    match ex_result_category x with
    | MerCompleted | MerAlreadySatisfied => etw_completed_event expected_command
    | _ => etw_failed_event expected_command
    end in
  let! _ := note audit_event command "completed" (ex_degraded_reason x) in
  d_ret (reply_receipt envelope
    (execution_receipt execution_ref request decision expected_command
       (if auth_remote_sensing_command expected_command then McpAuthRemoteSensingProvider
        else if dns_sensing_command expected_command then McpDnsSensingProvider
        else McpEtwProvider)
       previous_lifecycle (ex_resulting_lifecycle x) (ex_result_category x) (ex_counters x)
       [] [] (snapshot_refs self)
       [provider_authorized_event expected_command; started_event; audit_event]
       (ex_degraded_reason x)
       (if dns_sensing_command expected_command then "servicehost_windows_dns_sensing_ipc"
        else "servicehost_etw_lifecycle_ipc")))
  end end end.

(** The operation of a schedule command; the two that start a lease draw its reference. *)
(* [elevated/src/runtime_ipc.rs:2307-2355] ServiceCommandDispatcher::execute_ip_helper_schedule_mutation *)
Definition schedule_operation (command : MutationCommandId) (owner : RuntimeOwnerContext)
    (schedule_config : option IpHelperScheduleConfig) (authorization_refs : list string)
    (intent : MutationIntent) : method C NetworkProviderControllerStatus :=
  let policy := mi_policy_ref intent in
  let version := mi_policy_version intent in
  let with_lease operation container :=
    let$ id := new_uuid in
    operation owner ("ip_helper_schedule_lease_" ++ uuid_to_string id)%string
      authorization_refs policy version container in
  match command with
  | McConfigureIpHelperSchedule =>
      rc_configure_ip_helper_schedule owner (default schedule_config_default schedule_config)
        authorization_refs policy version
  | McEnableIpHelperSchedule => with_lease rc_enable_ip_helper_schedule
  | McPauseIpHelperSchedule =>
      rc_pause_ip_helper_schedule owner authorization_refs policy version
  | McResumeIpHelperSchedule => with_lease rc_resume_ip_helper_schedule
  | McDisableIpHelperSchedule =>
      rc_disable_ip_helper_schedule owner authorization_refs policy version
  | _ => unsupported "unsupported ip helper schedule command"
  end.

(* [elevated/src/runtime_ipc.rs:2356-2363] ServiceCommandDispatcher::execute_ip_helper_schedule_mutation *)
Definition schedule_outcome (execution : result NetworkProviderControllerStatus CoreError)
    : D C Execution :=
  match execution with
  | Ok status =>
      d_ret (mkExecution MerCompleted (lifecycle_from_status status) no_counters [] [] None)
  | Err _ =>
      let! resulting := ip_helper_lifecycle_category in
      d_ret (mkExecution MerFailed resulting no_counters [] []
        (Some "schedule_mutation_failed"))
  end.

(** The checks on a schedule request before its authorization is consumed. *)
(* [elevated/src/runtime_ipc.rs:2201-2241] ServiceCommandDispatcher::execute_ip_helper_schedule_mutation *)
Definition schedule_request_checks (envelope : IpcEnvelope) (service_command : ServiceCommand)
    (expected_command : MutationCommandId)
    : D C (result IpHelperScheduleMutationRequest IpcEnvelope) :=
  let configure := bool_decide (expected_command = McConfigureIpHelperSchedule) in
  let refused error := d_ret (Err (envelope_error envelope error)) in
  let rejected reason error :=
    let! _ := note "ip_helper_schedule_invalidated" (Some (command_as_str service_command))
                "rejected" (Some reason) in
    refused error in
  match json_to_schedule_request (env_payload envelope) with
  | Err _ =>
      rejected "invalid_schedule_request_contract"
        (ipc_schema "schedule mutation request contract is invalid")
  | Ok request =>
      match schedule_request_validate request with
      | Err error =>
          rejected "schedule_request_validation_failed"
            (ipc_schema (schedule_error_to_string error))
      | Ok _ =>
          match configure, ihm_schedule_config request with
          | true, None =>
              refused (ipc_schema "configure_ip_helper_schedule requires bounded configuration")
          | false, Some _ =>
              refused (ipc_schema "only configure_ip_helper_schedule accepts schedule_config")
          | _, _ => d_ret (Ok request)
          end
      end
  end.

(* [elevated/src/runtime_ipc.rs] ServiceCommandDispatcher::execute_ip_helper_schedule_mutation *)
Definition execute_ip_helper_schedule_mutation (session : IpcSessionState)
    (envelope : IpcEnvelope) (service_command : ServiceCommand) : D C IpcEnvelope :=
  match ip_helper_schedule_command_id service_command with
  | None =>
      d_ret (envelope_error envelope
        (ipc_command_not_allowed "schedule command is not execution-enabled"))
  | Some expected_command =>
  let! checked := schedule_request_checks envelope service_command expected_command in
  match checked with
  | Err early => d_ret early
  | Ok schedule_request =>
  let request := ihm_execution_request schedule_request in
  let command := Some (as_str expected_command) in
  let! consumed := consume session request expected_command in
  match consumed with
  | Err reason =>
      let! _ := note (if contains reason "epoch" then "ip_helper_schedule_epoch_rejected"
                      else "ip_helper_schedule_invalidated") command "rejected"
                  (Some reason) in
      d_ret (envelope_error envelope (ipc_caller_rejected reason))
  | Ok decision =>
  let! previous_lifecycle := ip_helper_lifecycle_category in
  let! id := d_lift new_uuid in
  let execution_ref := ("ip_helper_schedule_execution_" ++ uuid_to_string id)%string in
  let schedule_event := ip_helper_schedule_completed_event expected_command in
  let leased := match expected_command with
                | McEnableIpHelperSchedule | McResumeIpHelperSchedule => true | _ => false
                end in
  let! executed := in_container envelope decision expected_command
    "ip_helper_schedule_epoch_rejected" (λ container,
      let! '(container, execution) := d_lift
        (schedule_operation expected_command (rc_owner_context container)
           (ihm_schedule_config schedule_request)
           [mad_decision_ref decision; mi_intent_ref (mer_intent request)]
           (mer_intent request) container) in
      let! x := schedule_outcome execution in
      d_ret (container, x)) in
  match executed with
  | Err early => d_ret early
  | Ok x =>
  let! _ := refresh_runtime_snapshots_from_container in
  let! self := d_self in
  let! _ := note schedule_event command "completed" (ex_degraded_reason x) in
  let! _ := notify_scheduler in
  let! wake_assist_refs :=
    if leased
    then let! reason := kick_due_ip_helper_scheduler_cycle in
         d_ret ["ip_helper_schedule_lease_created"; reason]
    else d_ret [] in
  d_ret (reply_receipt envelope
    (execution_receipt execution_ref request decision expected_command McpIpHelperProvider
       previous_lifecycle (ex_resulting_lifecycle x) (ex_result_category x) no_counters
       [] [] (snapshot_refs self) (schedule_event :: wake_assist_refs)
       (ex_degraded_reason x) "servicehost_ip_helper_schedule_control_plane"))
  end end end end.

(* ------------------------------------------------------------------ *)
(** ** One request of a session *)

(** The gates of a request that look at the session only. *)
(* [elevated/src/runtime_ipc.rs:1198-1217] ServiceCommandDispatcher::dispatch_envelope *)
Definition session_gates (self : ServiceCommandDispatcher) (session : IpcSessionState)
    (envelope : IpcEnvelope) : result unit IpcError :=
  let caller := ses_caller_verification session in
  let? _ := refuse_if
    (negb (bool_decide
       (sd_active_session_reference self = Some (ses_session_reference session))) ||
     negb (bool_decide
       (sd_active_verification_ref self = Some (cvs_verification_ref caller))))
    (ipc_caller_rejected "caller verification is not active for this connection") in
  let? _ := refuse_if (negb (permits_read_only_commands caller))
    (ipc_caller_rejected "caller verification is not valid for this session") in
  validate_request_envelope session envelope (sd_active_next_sequence_number self).

(** The command of a request whose nonce is fresh, when the caller may give it. *)
(* [elevated/src/runtime_ipc.rs:1225-1240] ServiceCommandDispatcher::dispatch_envelope *)
Definition permitted_command (session : IpcSessionState) (envelope : IpcEnvelope)
    : result ServiceCommand IpcError :=
  let? command := command_parse (env_command_id envelope) in
  let? _ := refuse_if
    (negb (permits_command_class (ses_caller_verification session)
             (allowed_command_class command)))
    (ipc_caller_rejected "caller is not authorized for the command class") in
  Ok command.

(** A command that reads: through [dispatch], after the snapshots are refreshed. *)
(* [elevated/src/runtime_ipc.rs:1281-1302] ServiceCommandDispatcher::dispatch_envelope *)
Definition dispatch_read (envelope : IpcEnvelope) (command : ServiceCommand)
    : D C IpcEnvelope :=
  let! _ := match command with
            | ScStatus | ScRead _ => refresh_runtime_snapshots_from_container
            | _ => d_ret tt
            end in
  let! timestamp := d_lift now in
  let! response := dispatch
    (mkRequest (env_request_id envelope) (command_as_str command) (env_payload envelope)
       timestamp) in
  match irs_error response with
  | Some error => d_ret (envelope_error envelope error)
  | None =>
      let payload := default json_empty_object (irs_result response) in
      match enforce_payload_size_limit payload with
      | Err error => d_ret (envelope_error envelope error)
      | Ok _ => d_ret (envelope_ok envelope payload)
      end
  end.

(* [elevated/src/runtime_ipc.rs] ServiceCommandDispatcher::dispatch_envelope *)
Definition dispatch_envelope (session : IpcSessionState) (envelope : IpcEnvelope)
    : D C IpcEnvelope :=
  let! self := d_self in
  match session_gates self session envelope with
  | Err error => d_ret (envelope_error envelope error)
  | Ok _ =>
  let! _ := d_update (set_active_next_sequence_number
    (saturating_add u64_max (sd_active_next_sequence_number self) 1)) in
  let! remembered := d_remember "request_id" (env_request_id envelope) in
  match let? _ := remembered in permitted_command session envelope with
  | Err error => d_ret (envelope_error envelope error)
  | Ok command =>
      match command with
      | ScEvaluateMutationIntent => evaluate_mutation_intent session envelope
      | ScActivateIpHelper | ScSampleIpHelperOnce | ScStopIpHelper =>
          execute_ip_helper_mutation session envelope command
      | ScActivateEtw | ScPauseEtw | ScResumeEtw | ScStopEtw
      | ScActivateDnsSensing | ScPauseDnsSensing | ScResumeDnsSensing | ScStopDnsSensing
      | ScActivateAuthRemoteSensing | ScPauseAuthRemoteSensing | ScResumeAuthRemoteSensing
      | ScStopAuthRemoteSensing => execute_etw_mutation session envelope command
      | ScConfigureIpHelperSchedule | ScEnableIpHelperSchedule | ScPauseIpHelperSchedule
      | ScResumeIpHelperSchedule | ScDisableIpHelperSchedule =>
          execute_ip_helper_schedule_mutation session envelope command
      | ScPing | ScStatus | ScCaptureHealth | ScProcessSnapshot | ScRead _ =>
          dispatch_read envelope command
      end
  end end.

(* ------------------------------------------------------------------ *)
(** ** A session, a connection *)

Section connection.
(** [verify_connected_pipe_caller]: the caller's token, read through the pipe's handle and
    classified; and whether the service has been asked to stop. *)
Context (verify_connected_pipe_caller :
  CallerVerificationPolicy → ST (result CallerVerificationSummary IpcError)).
Context (stop_requested : bool).

(** [write_json_frame_or_closed(file, &response)?] *)
Definition write_frame {A} (to_vec : A → result (list Byte.byte) string) (file : Pipe)
    (value : A) : Pipe * result unit ServiceRuntimeError :=
  let '(file, written) := write_json_frame_or_closed to_vec file value in
  (file, map_err SreFrame written).

(** An error sent to the client as the last frame. *)
Definition farewell (file : Pipe) (error : IpcError)
    : D C (Pipe * result unit ServiceRuntimeError) :=
  let! response := d_lift (response_malformed error) in
  d_ret (write_frame text_of_response file response).

(** The end of the input, or of the pipe. *)
Definition end_of_pipe (error : IpcFrameError) : bool :=
  match error with
  | FrameIo error =>
      match io_kind error with
      | UnexpectedEof | BrokenPipe | ConnectionReset => true
      | _ => false
      end
  | _ => false
  end.

(** [for _ in 0..MAX_REQUESTS_PER_SESSION] *)
(* [elevated/src/runtime_ipc.rs:3774-3800] handle_pipe_session *)
Fixpoint session_loop (n : nat) (session : IpcSessionState) (file : Pipe)
    : D C (Pipe * result unit ServiceRuntimeError) :=
  match n with
  | O => d_ret (file, Ok tt)
  | S n =>
      match read_json_frame envelope_of_text file with
      | (file, Err error) =>
          if end_of_pipe error || stop_requested then d_ret (file, Ok tt)
          else farewell file (ipc_schema (frame_error_to_string error))
      | (file, Ok envelope) =>
          let! response := dispatch_envelope session envelope in
          match write_frame text_of_envelope file response with
          | (file, Err error) => d_ret (file, Err error)
          | (file, Ok _) => session_loop n session file
          end
      end
  end.

(* [elevated/src/runtime_ipc.rs] handle_pipe_session *)
Definition handle_pipe_session (file : Pipe)
    : D C (Pipe * result unit ServiceRuntimeError) :=
  let! '(file, begun) := begin_session file in
  match begun with
  | Err error =>
      let! _ := note "ipc_handshake_failed" None "rejected" (Some (ie_message error)) in
      if stop_requested then d_ret (file, Ok tt) else farewell file error
  | Ok pending =>
      let! self := d_self in
      let! verified :=
        d_lift (verify_connected_pipe_caller (sd_caller_verification_policy self)) in
      match verified with
      | Err error => farewell file error
      | Ok caller_verification =>
          let! '(file, completed) := complete_session file pending caller_verification in
          match completed with
          | Err error =>
              let! _ := note "session_binding_failed" None "rejected"
                          (Some (ie_code error)) in
              farewell file error
          | Ok session =>
              let! _ := note "session_binding_succeeded" None "verified"
                          (Some "current_connection") in
              session_loop (N.to_nat MAX_REQUESTS_PER_SESSION) session file
          end
      end
  end.

(** One connected client, from [connection_accepted] to [connection_closed]. *)
(* [elevated/src/runtime_ipc.rs:3605-3612] run_one_pipe_connection *)
Definition run_one_pipe_connection (file : Pipe)
    : D C (Pipe * result unit ServiceRuntimeError) :=
  let! _ := connection_accepted in
  let! '(file, session_result) := handle_pipe_session file in
  let! _ := connection_closed in
  d_ret (file, session_result).
End connection.

(* [elevated/src/runtime_ipc.rs] dispatch_json_request_for_tests *)
Definition dispatch_json_request_for_tests (value : json_value) : D C IpcResponse :=
  match json_to_request value with
  | Ok request => dispatch request
  | Err error => d_lift (response_malformed (ipc_schema
      ("request envelope failed strict schema validation: " ++ error)%string))
  end.
End methods.
End dispatcher.

(** The access list of the pipe. *)
(* [elevated/src/runtime_ipc.rs:3852-3858] pipe_acl_sddl *)
Definition pipe_acl_sddl (allow_administrators : bool) : string :=
  if allow_administrators
  then "D:P(A;;GA;;;SY)(A;;GA;;;LS)(A;;0x0012019B;;;IU)(A;;0x0012019B;;;BA)"
  else "D:P(A;;GA;;;SY)(A;;GA;;;LS)(A;;0x0012019B;;;IU)".
