(* ===== verification/ServiceDispatchFacts.v ===== *)
(** * What the dispatcher guarantees ([service/elevated/src/runtime_ipc.rs])

    A small program logic for the computations of the dispatcher ([run_ok]): whether they
    return, with the mutex free, what they may do to the container, and that they leave the
    session alone. With it: the container changes only under an authorization for the request
    in the envelope, which is then marked as consumed; an approval changes the container at
    most once in its session; every request is answered unless the operation it stands for
    fails on the container, and then never; replies match their requests; a session has at
    most 64 requests, in sequence and each new; a closed connection has no rights left. *)

From S2P Require Import Prelude Collections RustStr Effects Contracts CoreError Checks.
From S2P Require Import CallerVerification MutationPolicy RuntimeOwnership EtwLifecycle.
From S2P Require Import IpHelperSchedule ProviderController ReadModels ReadCommands IpcFrames.
From S2P Require Import ServiceIpc ServiceIpcFacts MutationAuthorization.
From S2P Require Import MutationAuthorizationFacts ServiceState ServiceDispatch.

#[local] Open Scope string_scope.
#[local] Open Scope list_scope.
#[local] Open Scope N_scope.

(* ------------------------------------------------------------------ *)
(** ** The program logic *)

(** The part of the dispatcher that says which session and which container are served. *)
Definition session_view (d : ServiceCommandDispatcher)
    : option string * option string * N * ReplayProtector * option ContainerHandle :=
  (sd_active_session_reference d, sd_active_verification_ref d,
   sd_active_next_sequence_number d, sd_replay d, sd_runtime_container d).

(** What a computation leaves alone of it, with the evaluator or without. *)
Definition view (full : bool) (d : ServiceCommandDispatcher) :=
  (session_view d, if full then Some (sd_mutation_authorization d) else None).

Section logic.
Context {C : Type}.
Implicit Types (full : bool) (d : ServiceCommandDispatcher) (m : Machine C) (R : Prop)
  (B : Machine C → Prop).

(** The other threads leave the container alone. *)
Definition quiet m : Prop := ∀ n cell, m_others m n cell = cell.

(** A run from [d] and [m], where the mutex is held as [held] says, gives an outcome: it is
    [Done] with a value that satisfies [P], the mutex held as before, the session and the
    other threads unchanged, and the evaluator if the run is [full]; the container is
    unchanged while the mutex is held, and while the others are quiet unless [R]; or it is
    [Blocked] in a machine of which [B] holds. *)
Definition run_ok {A} (full held : bool) R B (P : A → Prop) d m (o : outcome C A) : Prop :=
  match o with
  | Done x d' m' =>
      P x ∧ m_held m' = held ∧ m_others m' = m_others m ∧ view full d' = view full d ∧
      if held then m_cell m' = m_cell m else quiet m → m_cell m' = m_cell m ∨ R
  | Blocked _ m' => B m'
  end.

Lemma run_ok_weaken {A} full held R B R' B' (P P' : A → Prop) d m o :
  run_ok full held R B P d m o → (R → R') → (∀ m', B m' → B' m') → (∀ x, P x → P' x) →
  run_ok full held R' B' P' d m o.
Proof.
  destruct o; simpl; [|by eauto]. intros (? & ? & ? & ? & Hq) HR HB HP.
  split_and!; try done; [by apply HP|]. destruct held; [done|].
  intros Hquiet. destruct (Hq Hquiet); [by left|]. right. by apply HR.
Qed.

(** Less is known of a run that may change the evaluator. *)
Lemma run_ok_full {A} held R B (P : A → Prop) d m o :
  run_ok true held R B P d m o → run_ok false held R B P d m o.
Proof.
  destruct o; simpl; [|done]. intros (? & ? & ? & Hv & ?). split_and!; try done.
  unfold view in *. congruence.
Qed.

Lemma run_here {A} full held R B (P : A → Prop) x d m d' m' :
  m_held m' = held → P x → m_others m' = m_others m → m_cell m' = m_cell m →
  view full d' = view full d → run_ok full held R B P d m (Done x d' m').
Proof. intros. split_and!; try done. destruct held; [done|]. by left. Qed.

(** A run may be seen from an earlier state that differs in nothing that matters. *)
Lemma run_shift {A} full held R B d1 m1 (P : A → Prop) d m o :
  run_ok full held R B P d1 m1 o → view full d1 = view full d →
  m_others m1 = m_others m → m_cell m1 = m_cell m → run_ok full held R B P d m o.
Proof.
  destruct o; simpl; [|done]. intros (? & ? & Ho & ? & Hs) Hv Ho1 Hc.
  split_and!; try done; [congruence|congruence|]. unfold quiet in *.
  by rewrite <- Hc, <- Ho1.
Qed.

Lemma run_ret {A} full held R B (P : A → Prop) x d m :
  m_held m = held → P x → run_ok full held R B P d m (d_ret x d m).
Proof. intros. by apply run_here. Qed.

(** The rest of a run starts where its first part ended; when the first part does not touch
    the container, the rest knows so. *)
Lemma run_bind_cell {A A'} full held R B (P : A → Prop) (Q : A' → Prop) (a : D C A)
    (f : A → D C A') d m :
  run_ok full held False B P d m (a d m) →
  (∀ x d' m', P x → m_held m' = held → m_others m' = m_others m →
     view full d' = view full d → (quiet m → m_cell m' = m_cell m) →
     run_ok full held R B Q d' m' (f x d' m')) →
  run_ok full held R B Q d m (d_bind a f d m).
Proof.
  unfold d_bind, run_ok at 1. destruct (a d m) as [x d' m'|d' m']; [|done].
  intros (HP & Hh & Ho & Hv & Hs) Hf.
  assert (quiet m → m_cell m' = m_cell m) as Hcell.
  { destruct held; [done|]. intros Hq. by destruct (Hs Hq). }
  specialize (Hf x d' m' HP Hh Ho Hv Hcell). destruct (f x d' m') as [y d2 m2|]; [|done].
  destruct Hf as (HQ & Hh2 & Ho2 & Hv2 & Hs2). split_and!; [done|done|congruence|congruence|].
  destruct held; [congruence|]. intros Hq. rewrite <- (Hcell Hq). apply Hs2.
  intros n cell. rewrite Ho. apply Hq.
Qed.

Lemma run_bind {A A'} full held R B (P : A → Prop) (Q : A' → Prop) (a : D C A) (f : A → D C A') d m :
  run_ok full held R B P d m (a d m) →
  (∀ x d' m', P x → m_held m' = held → m_others m' = m_others m →
     view full d' = view full d → run_ok full held R B Q d' m' (f x d' m')) →
  run_ok full held R B Q d m (d_bind a f d m).
Proof.
  unfold d_bind, run_ok at 1. destruct (a d m) as [x d' m'|d' m']; [|done].
  intros (HP & Hh & Ho & Hv & Hs) Hf. specialize (Hf x d' m' HP Hh Ho Hv).
  destruct (f x d' m') as [y d2 m2|]; [|done].
  destruct Hf as (HQ & Hh2 & Ho2 & Hv2 & Hs2). split_and!; [done|done|congruence|congruence|].
  destruct held; [congruence|]. intros Hq. destruct (Hs Hq) as [Heq|]; [|by right].
  destruct Hs2 as [Heq2|]; [|left; congruence|by right].
  intros n cell. rewrite Ho. apply Hq.
Qed.

Lemma d_bind_ret {A A'} (x : A) (f : A → D C A') d m : d_bind (d_ret x) f d m = f x d m.
Proof. done. Qed.

Lemma run_self full held R B d m :
  m_held m = held → run_ok full held R B (λ x, x = d) d m (d_self d m).
Proof. intros. by apply run_here. Qed.

Lemma run_update full held R B f d m :
  m_held m = held → view full (f d) = view full d →
  run_ok full held R B (λ _, True) d m (d_update f d m).
Proof. intros. by apply run_here. Qed.

Lemma run_lift {A} full held R B (a : ST A) d m :
  m_held m = held → run_ok full held R B (λ x, x = (a (m_world m)).1) d m (d_lift a d m).
Proof. intros. unfold d_lift. destruct (a (m_world m)) as [x w]. by apply run_here. Qed.

Lemma run_instant full held R B d m :
  m_held m = held → run_ok full held R B (λ _, True) d m (instant_now d m).
Proof. intros. by apply run_here. Qed.

Lemma run_audit full held R B e c o r d m :
  m_held m = held → run_ok full held R B (λ _, True) d m (audit_log e c o r d m).
Proof.
  intros. unfold audit_log.
  destruct (m_audit_faults m (m_audit_calls m)); [destruct (now (m_world m))| |
    destruct (now (m_world m))]; by apply run_here.
Qed.

Lemma run_notify full held R B d m :
  m_held m = held → run_ok full held R B (λ _, True) d m (notify_scheduler d m).
Proof. intros. unfold notify_scheduler. case_match; by apply run_here. Qed.

(** A block that owns the guard: its body starts with the container as the others left it,
    which is the one in the cell, and what it makes of the container is [R]'s affair. *)
Lemma run_with_container {A} full R B (P : A → Prop) (body : C → D C (C * A)) d m :
  m_held m = false →
  (∀ container d' m', m_held m' = true → view full d' = view full d →
     cell_state (m_cell m') = container → (quiet m → m_cell m' = m_cell m) →
     run_ok full true R B (λ '(container', x), P x ∧ (container' = container ∨ R)) d' m'
       (body container d' m')) →
  run_ok full false R B (λ r, match r with Some x => P x | None => True end) d m
    (with_container body d m).
Proof.
  intros Hh Hbody. unfold with_container, d_bind at 1, lock_container. rewrite Hh.
  destruct (cell_poisoned _) eqn:Hp.
  { split_and!; try done. intros Hq. left. apply Hq. }
  set (m1 := set_cell _ _ true m). specialize (Hbody (cell_state (m_others m (m_locks m) (m_cell m)))
    d m1 eq_refl eq_refl eq_refl (λ Hq, Hq _ _)). unfold d_bind at 1.
  destruct (body _ d m1) as [[container x] d2 m2|]; [|done].
  destruct Hbody as ((HP & Hc) & _ & Ho & Hv & Hs). cbn. split_and!; try done.
  intros Hq. destruct Hc as [->|]; [|by right]. left.
  rewrite Hs. cbn. rewrite Hq. by destruct (m_cell m).
Qed.

Lemma run_read_container {A} full R B (f : C → A) d m :
  m_held m = false → run_ok full false R B (λ _, True) d m (read_container f d m).
Proof.
  intros Hh. unfold read_container. eapply run_bind; [by apply run_self|].
  intros self d' m' -> Hh' _ _. destruct (sd_runtime_container d); [|by apply run_ret].
  eapply run_ok_weaken; [apply (run_with_container _ _ _ (λ _, True))|done..]; [done|].
  intros container d2 m2 Hh2 _ _ _. apply run_ret; [done|]. by split; [|left].
Qed.

Lemma note_done e c o r d m :
  ∃ m', note e c o r d m = Done tt d m' ∧ m_held m' = m_held m.
Proof.
  unfold note, audit_log, d_bind.
  destruct (m_audit_faults m (m_audit_calls m)); [destruct (now (m_world m))| |
    destruct (now (m_world m))]; by eexists.
Qed.

Lemma run_note full held R B e c o r d m :
  m_held m = held → run_ok full held R B (λ _, True) d m (note e c o r d m).
Proof.
  intros. unfold note. eapply run_bind; [by apply run_audit|]. intros. by apply run_ret.
Qed.
End logic.
Arguments run_ok {C A} full held R B P d m !o /.

(** Primitive computations run by their lemma; binds run their parts. *)
Create HintDb runs.
#[export] Hint Resolve run_update run_lift run_instant run_audit run_note run_notify
  run_self run_read_container : runs.

(** One step of a computation: its first part by the database, then the rest. *)
Ltac run_bind_step :=
  first
    [ eapply run_bind; [solve [eauto with runs]|]
    | eapply (run_bind _ _ _ _ (λ _, True));
      [solve [case_match; first [by apply run_ret | eauto with runs]]|] ];
  let x := fresh "x" in let d := fresh "d" in let m := fresh "m" in
  let HP := fresh "Hval" in let Hh := fresh "Hheld" in let Ho := fresh "Hothers" in
  let Hv := fresh "Hview" in
  intros x d m HP Hh Ho Hv; cbn beta in HP.
Ltac run_step :=
  lazymatch goal with
  | |- run_ok _ _ _ _ _ _ _ (d_bind _ _ _ _) => run_bind_step
  | |- run_ok _ _ _ _ _ _ _ (d_ret _ _ _) => apply run_ret; [assumption|]
  | |- run_ok _ _ _ _ _ _ _ ((match ?x with _ => _ end) _ _) => destruct x eqn:?
  | |- run_ok _ _ _ _ _ _ _ (match ?x with _ => _ end _ _) => destruct x eqn:?
  end.
Ltac run := repeat run_step.

(* ------------------------------------------------------------------ *)
(** ** The commands that read *)

Section facts.
Context `{Externals} `{!HashOrder} `{!Sha256} `{!PayloadLength} `{!ResponseJson} `{!ServiceJson}
  `{!Platform}.
Context {C : Type} `{!RuntimeContainer C}.
Implicit Types (d : ServiceCommandDispatcher) (m : Machine C).

(** A computation that only reads: it returns, the mutex free, the container unchanged. *)
Definition reads {A} (P : A → Prop) (a : D C A) : Prop :=
  ∀ d m, m_held m = false → run_ok true false False (λ _, False) P d m (a d m).

(** What every reply is. *)
Inductive is_reply (request : IpcEnvelope) : IpcEnvelope → Prop :=
  | is_reply_ok payload : is_reply request (envelope_ok request payload)
  | is_reply_error error : is_reply request (envelope_error request error).
#[local] Hint Constructors is_reply : core.

Lemma reply_with_reply envelope payload : is_reply envelope (reply_with envelope payload).
Proof. destruct payload; simpl; auto. Qed.
Lemma reply_receipt_reply envelope receipt : is_reply envelope (reply_receipt envelope receipt).
Proof.
  unfold reply_receipt. destruct (receipt_validate receipt); auto using reply_with_reply.
Qed.
#[local] Hint Resolve reply_with_reply reply_receipt_reply : core.

Lemma copy_snapshots_view full (container : C) d :
  view full (copy_snapshots container d) = view full d.
Proof. unfold copy_snapshots. by destruct (rc_canonical_read_model_snapshot container). Qed.
#[local] Hint Resolve copy_snapshots_view : runs.

Lemma run_refresh full R B d m :
  m_held m = false →
  run_ok full false R B (λ _, True) d m (refresh_runtime_snapshots_from_container (C:=C) d m).
Proof.
  intros Hh. unfold refresh_runtime_snapshots_from_container. run; [|done].
  eapply run_bind.
  - apply (run_with_container _ _ _ (λ _, True)); [done|].
    intros container d' m' Hh' _ _ _. run. by split; [|left].
  - intros. by apply run_ret.
Qed.

Lemma run_provider_lifecycle full R B kind d m :
  m_held m = false → run_ok full false R B (λ _, True) d m (provider_lifecycle (C:=C) kind d m).
Proof. intros Hh. unfold provider_lifecycle. by run. Qed.
#[local] Hint Resolve run_refresh run_provider_lifecycle : runs.

Lemma run_etw_command_lifecycle full R B command d m :
  m_held m = false →
  run_ok full false R B (λ _, True) d m (etw_command_lifecycle (C:=C) command d m).
Proof.
  intros Hh. unfold etw_command_lifecycle. run; by apply run_provider_lifecycle.
Qed.

Lemma run_handle_command full R B command params d m :
  m_held m = false →
  run_ok full false R B (λ _, True) d m (handle_command (C:=C) command params d m).
Proof.
  intros Hh. unfold handle_command. destruct command; try (by apply run_ret).
  - unfold handle_ping. by run.
  - unfold handle_status. by run.
  - unfold handle_read_command. by run.
Qed.
#[local] Hint Resolve run_etw_command_lifecycle run_handle_command : runs.

Lemma run_dispatch full R B request d m :
  m_held m = false → run_ok full false R B (λ _, True) d m (dispatch (C:=C) request d m).
Proof.
  intros Hh. unfold dispatch. run; try done;
    (eapply run_ok_weaken; [by apply run_lift|done..]).
Qed.
#[local] Hint Resolve run_dispatch : runs.

Lemma reads_dispatch_read envelope command :
  reads (is_reply envelope) (dispatch_read (C:=C) envelope command).
Proof.
  intros d m Hh. unfold dispatch_read. run; auto.
Qed.

Lemma run_evaluation_context full R B session d m :
  m_held m = false →
  run_ok full false R B (λ _, True) d m (evaluation_context (C:=C) session d m).
Proof. intros Hh. unfold evaluation_context. by run. Qed.
#[local] Hint Resolve run_evaluation_context : runs.

(* ------------------------------------------------------------------ *)
(** ** The commands that execute *)

(** The mutation a command of the wire stands for. *)
Definition mutation_of (service_command : ServiceCommand) : option MutationCommandId :=
  match ip_helper_mutation_command_id service_command,
        etw_mutation_command_id service_command with
  | Some command, _ | None, Some command => Some command
  | None, None => ip_helper_schedule_command_id service_command
  end.

(** What an envelope asks for: the execution request in its payload, for a command on the
    schedule inside a request that may have a configuration. *)
Definition carries (envelope : IpcEnvelope) (service_command : ServiceCommand)
    (request : MutationExecutionRequest) (config : option IpHelperScheduleConfig) : Prop :=
  match ip_helper_schedule_command_id service_command with
  | None => json_to_execution_request (env_payload envelope) = Ok request ∧ config = None
  | Some _ =>
      ∃ schedule_request, json_to_schedule_request (env_payload envelope) = Ok schedule_request ∧
        ihm_execution_request schedule_request = request ∧
        ihm_schedule_config schedule_request = config
  end.

(** The session's authorization for the request of the envelope was consumed: [decision] is
    what it says, [evaluator] what is left. *)
Definition granted d (session : IpcSessionState) (envelope : IpcEnvelope)
    (service_command : ServiceCommand) (request : MutationExecutionRequest)
    (config : option IpHelperScheduleConfig) (decision : MutationAuthorizationDecision)
    (evaluator : MutationAuthorizationEvaluator) : Prop :=
  carries envelope service_command request config ∧
  ∃ command clock, mutation_of service_command = Some command ∧
    consume_execution_authorization (sd_mutation_authorization d) request
      (ses_session_reference session) command
      (default 0 (ros_ownership_epoch <$> sd_runtime_ownership_status d)) clock =
    (evaluator, Ok decision).

(** The references every operation of a provider is given. *)
Definition operation_refs (request : MutationExecutionRequest)
    (decision : MutationAuthorizationDecision) : list string :=
  [mad_decision_ref decision; mi_intent_ref (mer_intent request)].
(** The operation ran on the container and failed, leaving the world [w']. *)
Definition failed_in {A} (operation : method C A) (container : C) (w' : World) : Prop :=
  ∃ w container' error, operation container w = ((container', Err error), w').
(** A machine whose mutex is held, and whose container has just failed the operation the
    request stands for. *)
Definition operation_failed (service_command : ServiceCommand)
    (request : MutationExecutionRequest) (config : option IpHelperScheduleConfig)
    (decision : MutationAuthorizationDecision) (m' : Machine C) : Prop :=
  let container := cell_state (m_cell m') in
  let owner := rc_owner_context container in
  let refs := operation_refs request decision in
  m_held m' = true ∧
  match ip_helper_mutation_command_id service_command,
        etw_mutation_command_id service_command with
  | Some command, _ => failed_in (ip_helper_operation command owner) container (m_world m')
  | None, Some command => failed_in (etw_operation command owner refs) container (m_world m')
  | None, None =>
      ∃ command, ip_helper_schedule_command_id service_command = Some command ∧
        failed_in (schedule_operation command owner config refs (mer_intent request))
          container (m_world m')
  end.

(** What consuming does: it returns, and changes nothing but the evaluator. *)
Lemma consume_run session request command d m :
  ∃ clock e r m', consume (C:=C) session request command d m =
      Done r (set_mutation_authorization e d) m' ∧
    consume_execution_authorization (sd_mutation_authorization d) request
      (ses_session_reference session) command
      (default 0 (ros_ownership_epoch <$> sd_runtime_ownership_status d)) clock = (e, r) ∧
    m_held m' = m_held m ∧ m_cell m' = m_cell m ∧ m_others m' = m_others m.
Proof.
  exists (m_instants m (m_instants_read m)). unfold consume, d_bind, d_self, instant_now.
  destruct (consume_execution_authorization _ _ _ _ _ _) as [e r]. by exists e, r; eexists.
Qed.

(** What a request may do to the evaluator, apart from a successful consumption. *)
Inductive evaluator_move e : MutationAuthorizationEvaluator → Prop :=
  | move_none : evaluator_move e e
  | move_evaluate i c x clock w : evaluator_move e (evaluate_at e i c x clock w).1.2
  | move_consume q s command epoch clock :
      evaluator_move e (consume_execution_authorization_at e q s command epoch clock).1.

Lemma run_full_evaluator {A} held R B (P : A → Prop) d m x d' m' :
  run_ok true held R B P d m (Done x d' m') →
  sd_mutation_authorization d' = sd_mutation_authorization d.
Proof. intros (_ & _ & _ & Hv & _). unfold view in Hv. congruence. Qed.

(** How a command that executes goes: it ends with a reply, or it is granted and runs on with
    what is left of the evaluator. *)
Inductive command_run d session envelope service_command m : outcome C IpcEnvelope → Prop :=
  | command_early o :
      run_ok false false False (λ _, False) (is_reply envelope) d m o →
      (∀ answer d' m', o = Done answer d' m' →
         evaluator_move (sd_mutation_authorization d) (sd_mutation_authorization d')) →
      command_run d session envelope service_command m o
  | command_granted request config decision evaluator m1 o :
      granted d session envelope service_command request config decision evaluator →
      m_held m1 = false → m_cell m1 = m_cell m → m_others m1 = m_others m →
      run_ok true false True
        (λ m', operation_failed service_command request config decision m' ∧
               (quiet m1 → m_cell m' = m_cell m1))
        (is_reply envelope) (set_mutation_authorization evaluator d) m1 o →
      command_run d session envelope service_command m o.

Lemma command_reads d session envelope service_command m o :
  run_ok true false False (λ _, False) (is_reply envelope) d m o →
  command_run d session envelope service_command m o.
Proof.
  intros Hrun. apply command_early; [by apply run_ok_full|]. intros answer d' m' ->.
  rewrite (run_full_evaluator _ _ _ _ _ _ _ _ _ Hrun). constructor.
Qed.
(** A command that ends early after its consumption was refused. *)
Lemma command_refused d session envelope service_command m e m1 o :
  evaluator_move (sd_mutation_authorization d) e →
  m_cell m1 = m_cell m → m_others m1 = m_others m →
  run_ok true false False (λ _, False) (is_reply envelope) (set_mutation_authorization e d) m1 o →
  command_run d session envelope service_command m o.
Proof.
  intros He Hc Ho Hrun. apply command_early.
  - by eapply run_shift; [apply run_ok_full|..].
  - intros answer d' m' ->. by rewrite (run_full_evaluator _ _ _ _ _ _ _ _ _ Hrun).
Qed.

(** What holds of the evaluator when a run returns. *)
Definition leads {A} (Φ : MutationAuthorizationEvaluator → Prop) (o : outcome C A) : Prop :=
  match o with Done _ d' _ => Φ (sd_mutation_authorization d') | Blocked _ _ => True end.
Lemma leads_bind {A A'} Φ R B (P : A → Prop) (a : D C A) (f : A → D C A') d m :
  run_ok true false R B P d m (a d m) →
  (∀ x d' m', sd_mutation_authorization d' = sd_mutation_authorization d → m_held m' = false →
     leads Φ (f x d' m')) →
  leads Φ (d_bind a f d m).
Proof.
  unfold d_bind. destruct (a d m) as [x d' m'|]; [|done]. intros Hrun Hf.
  apply Hf; [by eapply run_full_evaluator|]. by destruct Hrun as (_ & ? & _).
Qed.

Lemma run_evaluate session envelope service_command d m :
  m_held m = false →
  command_run d session envelope service_command m
    (evaluate_mutation_intent (C:=C) session envelope d m).
Proof.
  intros Hh. apply command_early; [unfold evaluate_mutation_intent; run; auto|].
  set (Φ := evaluator_move (sd_mutation_authorization d)).
  assert (∀ d' m' error, sd_mutation_authorization d' = sd_mutation_authorization d →
    leads Φ (d_ret (C:=C) (envelope_error envelope error) d' m')) as Hret
    by (intros ??? He; cbn; rewrite He; constructor).
  assert (leads Φ (evaluate_mutation_intent (C:=C) session envelope d m)) as Hl;
    [|intros answer d' m' Hd; by rewrite Hd in Hl].
  unfold evaluate_mutation_intent.
  eapply leads_bind; [by apply (run_audit _ _ False (λ _, False))|]. intros [[]|] d1 m1 He1 Hh1; [|by apply Hret].
  destruct (json_to_intent _) as [intent|].
  2:{ eapply leads_bind; [by apply (run_note _ _ False (λ _, False))|]. intros. apply Hret. congruence. }
  destruct (intent_validate intent).
  2:{ eapply leads_bind; [by apply (run_note _ _ False (λ _, False))|]. intros. apply Hret. congruence. }
  eapply leads_bind; [by apply (run_audit _ _ False (λ _, False))|]. intros [[]|] d2 m2 He2 Hh2;
    [|apply Hret; congruence].
  eapply leads_bind; [by apply (run_evaluation_context _ False (λ _, False))|]. intros context d3 m3 He3 Hh3.
  eapply leads_bind; [by apply (run_instant _ _ False (λ _, False))|]. intros clock d4 m4 He4 Hh4.
  unfold d_bind at 1, d_self. unfold d_bind at 1, d_lift.
  match goal with |- context [evaluate ?e ?i ?c ?x ?t ?w] =>
    assert (Φ (evaluate e i c x t w).1.2) as HΦ
      by (replace e with (sd_mutation_authorization d) by congruence; apply move_evaluate);
    destruct (evaluate e i c x t w) as [[decision evaluator] w'] end.
  unfold d_bind at 1, d_update. cbn [fst snd] in HΦ.
  eapply leads_bind; [by apply (run_audit _ _ False (λ _, False))|]. intros [[]|] d5 m5 He5 Hh5;
    [|cbn; rewrite He5; exact HΦ].
  eapply (leads_bind _ False (λ _, False) (λ _, True)).
  { destruct (mad_result decision); first [by apply run_ret|by apply run_note]. }
  intros x d6 m6 He6 Hh6. cbn. rewrite He6, He5. exact HΦ.
Qed.

(** The reply to what is refused. *)
Lemma run_early full R B (event : string) command outcome reason envelope error d m :
  m_held m = false →
  run_ok full false R B (λ r : result (MutationExecutionRequest * MutationAuthorizationDecision) IpcEnvelope,
      ∃ early, r = Err early ∧ is_reply envelope early) d m
    ((let! _ := note (C:=C) event command outcome reason in
      d_ret (Err (envelope_error envelope error))) d m).
Proof. intros Hh. run; eauto. Qed.

Lemma consumed_run session envelope service_command command event d m
    (f : result (MutationExecutionRequest * MutationAuthorizationDecision) IpcEnvelope →
         D C IpcEnvelope) :
  m_held m = false → mutation_of service_command = Some command →
  ip_helper_schedule_command_id service_command = None →
  (∀ early, f (Err early) = d_ret early) →
  (∀ request decision d1 m1, m_held m1 = false →
     run_ok true false True
       (λ m', operation_failed service_command request None decision m' ∧
              (quiet m1 → m_cell m' = m_cell m1))
       (is_reply envelope) d1 m1 (f (Ok (request, decision)) d1 m1)) →
  command_run d session envelope service_command m
    (d_bind (consumed_request session envelope service_command command event) f d m).
Proof.
  intros Hh Hm Hsched Herr Hok.
  assert (∀ a d1 m1, m_held m1 = false →
    run_ok true false False (λ _, False) (λ r, ∃ early, r = Err early ∧ is_reply envelope early)
      d1 m1 (a d1 m1) →
    run_ok true false False (λ _, False) (is_reply envelope) d1 m1 (d_bind a f d1 m1)) as Hearly.
  { intros a d1 m1 Hh1 Hrun. eapply run_bind; [exact Hrun|].
    intros r d2 m2 (early & -> & Hr) Hh2 _ _. rewrite Herr. by apply run_ret. }
  unfold consumed_request.
  destruct (json_to_execution_request _) as [request|] eqn:Hj;
    [|by apply command_reads, Hearly, run_early].
  destruct (execution_request_validate request);
    [|by apply command_reads, Hearly, run_early].
  destruct (consume_run session request command d m)
    as (clock & e & r & m1 & Hrun & Hc & Hh1 & Hcell & Ho).
  match goal with |- command_run _ _ _ _ _ (d_bind (d_bind _ ?g) f d m) =>
    assert (d_bind (d_bind (consume session request command) g) f d m =
            d_bind (g r) f (set_mutation_authorization e d) m1) as -> end.
  { unfold d_bind. by rewrite Hrun. }
  rewrite Hh in Hh1. destruct r as [decision|reason].
  - rewrite d_bind_ret. apply (command_granted _ _ _ _ _ request None decision e m1); try done.
    + split; [unfold carries; by rewrite Hsched|]. by exists command, clock.
    + by apply Hok.
  - eapply (command_refused _ _ _ _ _ e m1); [|done..|by apply Hearly, run_early].
    apply (f_equal fst) in Hc. cbn [fst] in Hc. rewrite <- Hc. apply move_consume.
Qed.

Lemma run_in_container {A} full envelope decision command event (P : A → Prop) body d m R B :
  m_held m = false →
  (∀ container d' m', m_held m' = true → cell_state (m_cell m') = container →
     (quiet m → m_cell m' = m_cell m) →
     run_ok full true R B (λ '(container', x), P x ∧ (container' = container ∨ R)) d' m'
       (body container d' m')) →
  run_ok full false R B
    (λ r, match r with Ok x => P x | Err early => is_reply envelope early end) d m
    (in_container (C:=C) envelope decision command event body d m).
Proof.
  intros Hh Hbody. unfold in_container. eapply run_bind_cell; [by apply run_self|].
  intros self d0 m0 -> Hh0 Ho0 _ Hc0. run_step; [|run; auto].
  eapply run_bind.
  - apply run_with_container with (P := λ r, match r with
      | Ok x => P x | Err early => is_reply envelope early end); [done|].
    intros container d' m' Hh' _ Hst Hq. run_step; [run; split; auto|].
    eapply run_bind; [apply Hbody; [done|done|]|].
    + intros Hquiet. rewrite <- (Hc0 Hquiet). apply Hq. intros k cell. rewrite Ho0. apply Hquiet.
    + intros [container' x] d2 m2 [] Hh2 _ _. by apply run_ret.
  - intros r d' m' Hr Hh' _ _. apply run_ret; [done|]. destruct r; simpl; auto.
Qed.

(** Asking for a life cycle while the guard is alive blocks; there is no other way for the
    arms on the outcome to block. *)
Lemma run_provider_lifecycle_held full kind d m R B :
  m_held m = true → B m →
  run_ok full true R B (λ _, True) d m (provider_lifecycle (C:=C) kind d m).
Proof.
  intros Hh HB. unfold provider_lifecycle, read_container, with_container, lock_container,
    d_bind, d_self. destruct (sd_runtime_container d); [by rewrite Hh|by apply run_here].
Qed.

Lemma run_ip_helper_outcome full command previous execution d m R B :
  m_held m = true → (is_ok execution = false → B m) →
  run_ok full true R B (λ _, True) d m
    (ip_helper_outcome (C:=C) command previous execution d m).
Proof.
  intros Hh HB. unfold ip_helper_outcome. destruct execution as [[]|]; try by apply run_ret.
  eapply run_bind; [apply run_provider_lifecycle_held; [done|by apply HB]|].
  intros. by apply run_ret.
Qed.
Lemma run_etw_outcome full command previous execution d m R B :
  m_held m = true → (is_ok execution = false → B m) →
  run_ok full true R B (λ _, True) d m (etw_outcome (C:=C) command previous execution d m).
Proof.
  intros Hh HB. unfold etw_outcome. destruct execution; [by apply run_ret|].
  eapply (run_bind _ _ _ _ (λ _, True)).
  - unfold etw_command_lifecycle. repeat case_match;
      (apply run_provider_lifecycle_held; [done|by apply HB]).
  - intros. by apply run_ret.
Qed.
Lemma run_schedule_outcome full execution d m R B :
  m_held m = true → (is_ok execution = false → B m) →
  run_ok full true R B (λ _, True) d m (schedule_outcome (C:=C) execution d m).
Proof.
  intros Hh HB. unfold schedule_outcome. destruct execution; [by apply run_ret|].
  eapply run_bind; [apply run_provider_lifecycle_held; [done|by apply HB]|].
  intros. by apply run_ret.
Qed.

(** The cell after steps that leave it alone. *)
Ltac quiet_steps :=
  let Hq := fresh in intros Hq;
  repeat match goal with
  | Ho : m_others ?m2 = m_others ?m1, Hc : quiet ?m1 → m_cell ?m2 = m_cell ?m1,
    Hq1 : quiet ?m1 |- _ =>
      specialize (Hc Hq1);
      assert (quiet m2) by (let n := fresh in let cell := fresh in
        intros n cell; rewrite Ho; apply Hq1)
  end; split; [congruence|assumption].

(** An operation of the container, and the arms on its outcome: it may block only when the
    operation failed, on the container of the machine and in the world it left. *)
Lemma run_operation {A} full (operation : C → method C A)
    (outcome : result A CoreError → D C Execution) R B :
  R →
  (∀ execution d m, m_held m = true → (is_ok execution = false → B m) →
     run_ok full true R B (λ _, True) d m (outcome execution d m)) →
  ∀ container d m, m_held m = true →
  (∀ m', m_held m' = true → m_cell m' = m_cell m →
     failed_in (operation container) container (m_world m') → B m') →
  run_ok full true R B (λ '(container', x), True ∧ (container' = container ∨ R)) d m
    ((let! '(container, execution) := d_lift (operation container container) in
      let! x := outcome execution in d_ret (container, x)) d m).
Proof.
  intros HR Hout container d m Hh HB. unfold d_bind at 1, d_lift.
  destruct (operation container container (m_world m)) as [[container' execution] w] eqn:Hop.
  eapply (run_shift _ _ _ _ d (set_world w m)); [|done..].
  eapply run_bind; [apply Hout; [done|]|].
  - intros He. apply HB; [done..|]. destruct execution as [|error]; [done|].
    by exists (m_world m), container', error.
  - intros. apply run_ret; [done|]. by split; [|right].
Qed.

(** The scheduler's cycle, when it is due, is a part of a command that was granted. *)
Lemma run_kick full R B d m :
  R → m_held m = false →
  run_ok full false R B (λ _, True) d m (kick_due_ip_helper_scheduler_cycle (C:=C) d m).
Proof.
  intros HR Hh. unfold kick_due_ip_helper_scheduler_cycle. run_step. subst.
  run_step; [|by run]. run_step; [|by run]. run_step.
  eapply (run_bind _ _ _ _ (λ _, True)); [by apply run_here|]. intros elapsed d2 m2 _ Hh2 _ _.
  eapply run_bind.
  - apply run_with_container with (P := λ _, True); [done|].
    intros container d3 m3 Hh3 _ _ _. run_step.
    + run_step. destruct x0. apply run_ret; [done|]. by split; [|right].
    + apply run_ret; [done|]. by split; [|left].
  - intros. by apply run_ret.
Qed.

Lemma run_execute_ip_helper session envelope service_command d m :
  m_held m = false →
  command_run d session envelope service_command m
    (execute_ip_helper_mutation (C:=C) session envelope service_command d m).
Proof.
  intros Hh. unfold execute_ip_helper_mutation.
  destruct (ip_helper_mutation_command_id service_command) as [command|] eqn:Hc;
    [|apply command_reads; run; auto].
  apply consumed_run; [done| | |done|].
  { unfold mutation_of. by rewrite Hc. }
  { by destruct service_command. }
  intros request decision d1 m1 Hh1. cbn beta iota zeta.
  eapply run_bind_cell; [by apply run_note|]. intros _ d2 m2 _ Hh2 Ho2 _ Hc2.
  eapply run_bind_cell; [by apply run_provider_lifecycle|].
  intros previous d3 m3 _ Hh3 Ho3 _ Hc3.
  eapply run_bind_cell; [by apply run_lift|]. intros id d4 m4 _ Hh4 Ho4 _ Hc4.
  assert (quiet m1 → m_cell m4 = m_cell m1 ∧ quiet m4) as Hcell by quiet_steps.
  eapply run_bind.
  - apply run_in_container with (P := λ _, True); [done|]. intros container d5 m5 Hh5 Hst Hq5.
    apply (run_operation _ (λ container, ip_helper_operation command (rc_owner_context container)));
      [done|by intros; apply run_ip_helper_outcome|done|].
    intros m' Hh' Hm' Hf. split.
    + unfold operation_failed. by rewrite Hm', Hst, Hc.
    + intros Hq. destruct (Hcell Hq) as [<- Hq4]. rewrite Hm'. by apply Hq5.
  - intros [x1|early] d5 m5 Hx Hh5 _ _; [|by apply run_ret].
    run_step. run; auto.
Qed.

Lemma run_execute_etw session envelope service_command d m :
  m_held m = false →
  command_run d session envelope service_command m
    (execute_etw_mutation (C:=C) session envelope service_command d m).
Proof.
  intros Hh. unfold execute_etw_mutation.
  destruct (etw_mutation_command_id service_command) as [command|] eqn:Hc;
    [|apply command_reads; run; auto].
  assert (ip_helper_mutation_command_id service_command = None) as Hi
    by (by destruct service_command).
  apply consumed_run; [done| | |done|].
  { unfold mutation_of. by rewrite Hi, Hc. }
  { by destruct service_command. }
  intros request decision d1 m1 Hh1. cbn beta iota zeta.
  eapply run_bind_cell; [by apply run_note|]. intros _ d2 m2 _ Hh2 Ho2 _ Hc2.
  eapply run_bind_cell; [by apply run_etw_command_lifecycle|].
  intros previous d3 m3 _ Hh3 Ho3 _ Hc3.
  eapply run_bind_cell; [by apply run_lift|]. intros id d4 m4 _ Hh4 Ho4 _ Hc4.
  assert (quiet m1 → m_cell m4 = m_cell m1 ∧ quiet m4) as Hcell by quiet_steps.
  eapply run_bind.
  - apply run_in_container with (P := λ _, True); [done|]. intros container d5 m5 Hh5 Hst Hq5.
    apply (run_operation _ (λ container, etw_operation command (rc_owner_context container)
             (operation_refs request decision)));
      [done|by intros; apply run_etw_outcome|done|].
    intros m' Hh' Hm' Hf. split.
    + unfold operation_failed. by rewrite Hm', Hst, Hi, Hc.
    + intros Hq. destruct (Hcell Hq) as [<- Hq4]. rewrite Hm'. by apply Hq5.
  - intros [x1|early] d5 m5 Hx Hh5 _ _; [|by apply run_ret].
    run_step. run; auto.
Qed.

(** The checks of a schedule request pass without any effect, or end with a reply. *)
Lemma schedule_checks envelope service_command command :
  (∃ request, json_to_schedule_request (env_payload envelope) = Ok request ∧
     schedule_request_checks (C:=C) envelope service_command command = d_ret (Ok request)) ∨
  reads (λ r, ∃ early, r = Err early ∧ is_reply envelope early)
    (schedule_request_checks (C:=C) envelope service_command command).
Proof.
  unfold schedule_request_checks.
  destruct (json_to_schedule_request _) as [request|]; [|right; intros d m Hh; run; eauto].
  destruct (schedule_request_validate request); [|right; intros d m Hh; run; eauto].
  destruct (bool_decide _), (ihm_schedule_config request);
    solve [left; by eexists | right; intros d m Hh; run; eauto].
Qed.

(** A schedule command from the block that owns the container on. *)
Lemma run_execute_schedule session envelope service_command d m :
  m_held m = false →
  command_run d session envelope service_command m
    (execute_ip_helper_schedule_mutation (C:=C) session envelope service_command d m).
Proof.
  intros Hh. unfold execute_ip_helper_schedule_mutation.
  destruct (ip_helper_schedule_command_id service_command) as [command|] eqn:Hc;
    [|apply command_reads; run; auto].
  assert (ip_helper_mutation_command_id service_command = None ∧
          etw_mutation_command_id service_command = None) as [Hi He]
    by (by destruct service_command).
  destruct (schedule_checks envelope service_command command) as [(request & Hj & ->)|Hchecks];
    cycle 1.
  { apply command_reads. eapply run_bind; [by apply Hchecks|].
    intros r d1 m1 (early & -> & Hr) Hh1 _ _. by apply run_ret. }
  rewrite d_bind_ret. cbn beta zeta iota.
  destruct (consume_run session (ihm_execution_request request) command d m)
    as (clock & e & r & m1 & Hrun & Hcons & Hh1 & Hcell1 & Ho1). rewrite Hh in Hh1.
  unfold d_bind at 1. rewrite Hrun. destruct r as [decision|reason].
  2:{ eapply (command_refused _ _ _ _ _ e m1); [|done..|run; auto].
      apply (f_equal fst) in Hcons. cbn [fst] in Hcons. rewrite <- Hcons. apply move_consume. }
  eapply (command_granted _ _ _ _ _ (ihm_execution_request request)
    (ihm_schedule_config request) decision e m1); [|done..|].
  { split; [unfold carries; rewrite Hc; by exists request|]. exists command, clock.
    split; [|done]. unfold mutation_of. by rewrite Hi, He. }
  eapply run_bind_cell; [by apply run_provider_lifecycle|].
  intros previous d2 m2 _ Hh2 Ho2 _ Hc2.
  eapply run_bind_cell; [by apply run_lift|]. intros id d4 m4 _ Hh4 Ho4 _ Hc4.
  assert (quiet m1 → m_cell m4 = m_cell m1 ∧ quiet m4) as Hcell by quiet_steps.
  eapply run_bind.
  - apply run_in_container with (P := λ _, True); [done|]. intros container d5 m5 Hh5 Hst Hq5.
    apply (run_operation _ (λ container, schedule_operation command (rc_owner_context container)
             (ihm_schedule_config request)
             (operation_refs (ihm_execution_request request) decision)
             (mer_intent (ihm_execution_request request))));
      [done|by intros; apply run_schedule_outcome|done|].
    intros m' Hh' Hm' Hf. split.
    + unfold operation_failed. rewrite Hm', Hst, Hi, He. by split; [|exists command].
    + intros Hq. destruct (Hcell Hq) as [<- Hq4]. rewrite Hm'. by apply Hq5.
  - intros [x1|early] d5 m5 Hx Hh5 _ _; [|by apply run_ret].
    run_step. run_step. run_step. run_step.
    eapply (run_bind _ _ _ _ (λ _, True)).
    + destruct command; try (by apply run_ret); (eapply run_bind; [by apply run_kick|]);
        intros; by apply run_ret.
    + intros. run; auto.
Qed.

(* ------------------------------------------------------------------ *)
(** ** One request *)

(** A request that passes every gate before its command: the session is the active one, the
    caller may read, the envelope is well formed and has the next sequence number, its
    identifier is new, its command is known and of a class the caller is permitted. *)
Record admitted d (session : IpcSessionState) (envelope : IpcEnvelope)
    (service_command : ServiceCommand) : Prop := {
  ad_gates : session_gates d session envelope = Ok tt;
  ad_fresh : (remember_nonce (sd_replay d) "request_id" (env_request_id envelope)).2 = Ok tt;
  ad_command : permitted_command session envelope = Ok service_command
}.

(** The dispatcher once the gates are passed. *)
Definition numbered d (envelope : IpcEnvelope) : ServiceCommandDispatcher :=
  set_replay (remember_nonce (sd_replay d) "request_id" (env_request_id envelope)).1
    (set_active_next_sequence_number
       (saturating_add u64_max (sd_active_next_sequence_number d) 1) d).

(** How a request goes: refused by a gate, and nothing happened; refused after its number
    was taken; or admitted, and then it runs as its command does. *)
Inductive request_run d session envelope m : outcome C IpcEnvelope → Prop :=
  | run_refused error :
      session_gates d session envelope = Err error →
      request_run d session envelope m (Done (envelope_error envelope error) d m)
  | run_rejected error :
      session_gates d session envelope = Ok tt →
      (∀ service_command, ¬ admitted d session envelope service_command) →
      request_run d session envelope m
        (Done (envelope_error envelope error) (numbered d envelope) m)
  | run_admitted service_command o :
      admitted d session envelope service_command →
      command_run (numbered d envelope) session envelope service_command m o →
      request_run d session envelope m o.

(** An admitted request runs its command. *)
Definition run_command (session : IpcSessionState) (envelope : IpcEnvelope)
    (service_command : ServiceCommand) : D C IpcEnvelope :=
  match service_command with
  | ScEvaluateMutationIntent => evaluate_mutation_intent session envelope
  | ScActivateIpHelper | ScSampleIpHelperOnce | ScStopIpHelper =>
      execute_ip_helper_mutation session envelope service_command
  | ScActivateEtw | ScPauseEtw | ScResumeEtw | ScStopEtw
  | ScActivateDnsSensing | ScPauseDnsSensing | ScResumeDnsSensing | ScStopDnsSensing
  | ScActivateAuthRemoteSensing | ScPauseAuthRemoteSensing | ScResumeAuthRemoteSensing
  | ScStopAuthRemoteSensing => execute_etw_mutation session envelope service_command
  | ScConfigureIpHelperSchedule | ScEnableIpHelperSchedule | ScPauseIpHelperSchedule
  | ScResumeIpHelperSchedule | ScDisableIpHelperSchedule =>
      execute_ip_helper_schedule_mutation session envelope service_command
  | ScPing | ScStatus | ScCaptureHealth | ScProcessSnapshot | ScRead _ =>
      dispatch_read envelope service_command
  end.

Lemma dispatch_admitted session envelope service_command d m :
  admitted d session envelope service_command →
  dispatch_envelope session envelope d m =
  run_command session envelope service_command (numbered d envelope) m.
Proof.
  intros [Hg Hf Hp]. unfold dispatch_envelope, d_remember, d_bind, d_self, d_update, d_ret.
  rewrite Hg. cbn [sd_replay set_active_next_sequence_number].
  replace (numbered d envelope) with (set_replay
    (remember_nonce (sd_replay d) "request_id" (env_request_id envelope)).1
    (set_active_next_sequence_number
       (saturating_add u64_max (sd_active_next_sequence_number d) 1) d)) by done.
  destruct (remember_nonce (sd_replay d) "request_id" (env_request_id envelope)) as [cache r].
  simpl in Hf. subst r. cbn [res_bind fst]. by rewrite Hp.
Qed.

Lemma run_command_ok session envelope service_command d m :
  m_held m = false →
  command_run d session envelope service_command m
    (run_command session envelope service_command d m).
Proof.
  intros Hh. destruct service_command;
    solve [ by apply run_execute_ip_helper | by apply run_execute_etw
          | by apply run_execute_schedule | by apply run_evaluate
          | by apply command_reads, reads_dispatch_read ].
Qed.

(** What every command has in common. *)
Lemma command_run_ok d session envelope service_command m o :
  m_held m = false → command_run d session envelope service_command m o →
  run_ok false false True
    (λ m', ∃ request config decision evaluator,
       granted d session envelope service_command request config decision evaluator ∧
       operation_failed service_command request config decision m' ∧
       (quiet m → m_cell m' = m_cell m)) (is_reply envelope) d m o.
Proof.
  intros Hh [o' Hrun _|request config decision evaluator m1 o' Hg Hh1 Hc Ho Hrun].
  - by eapply run_ok_weaken.
  - eapply (run_shift _ _ _ _ (set_mutation_authorization evaluator d) m1); [|done..].
    apply run_ok_full. eapply run_ok_weaken; [exact Hrun|done| |done].
    intros m' [Hf Hq]. exists request, config, decision, evaluator. split_and!; try done.
    unfold quiet in *. by rewrite <- Hc, <- Ho.
Qed.

Lemma dispatch_envelope_run session envelope d m :
  m_held m = false →
  request_run d session envelope m (dispatch_envelope session envelope d m).
Proof.
  intros Hh. destruct (session_gates d session envelope) as [[]|error] eqn:Hg.
  2:{ unfold dispatch_envelope, d_bind, d_self. rewrite Hg. by apply run_refused. }
  destruct (remember_nonce (sd_replay d) "request_id" (env_request_id envelope)).2
    as [[]|error] eqn:Hf; [destruct (permitted_command session envelope)
    as [sc|error] eqn:Hp|].
  { assert (admitted d session envelope sc) as Ha by done.
    rewrite (dispatch_admitted _ _ _ _ _ Ha).
    apply (run_admitted _ _ _ _ sc); [done|].
    by apply run_command_ok. }
  all: assert (∃ error, dispatch_envelope session envelope d m =
    Done (envelope_error envelope error) (numbered d envelope) m) as [e ->];
    [|apply run_rejected; [done|]; intros sc [_ Hf' Hp']; congruence].
  all: unfold dispatch_envelope, d_remember, numbered, d_bind, d_self, d_update, d_ret;
    rewrite Hg; cbn [sd_replay set_active_next_sequence_number];
    destruct (remember_nonce (sd_replay d) "request_id" (env_request_id envelope))
      as [cache r]; simpl in Hf; subst r; cbn [res_bind fst]; rewrite ?Hp; by eexists.
Qed.

(** What a consumed authorization rests on: an unused approval recorded for this session,
    this command and the current ownership epoch. *)
Record authorized d (session : IpcSessionState) (command : MutationCommandId)
    (request : MutationExecutionRequest) (r : ExecutionAuthorizationRecord) : Prop := {
  au_record : execution_records (sd_mutation_authorization d) !! mer_decision_ref request =
              Some r;
  au_valid : execution_request_validate request = Ok tt;
  au_unused : xr_consumed r = false;
  au_session : xr_session_ref r = ses_session_reference session;
  au_command : xr_command_id r = command ∧ mi_command_id (mer_intent request) = command;
  au_epoch : xr_ownership_epoch r =
             default 0 (ros_ownership_epoch <$> sd_runtime_ownership_status d);
  au_approved : mad_result (xr_decision r) = MarApprovedForExecution
}.

Lemma granted_authorized d session envelope service_command request config decision evaluator :
  granted d session envelope service_command request config decision evaluator →
  ∃ command r, mutation_of service_command = Some command ∧
    authorized d session command request r ∧ decision = xr_decision r ∧
    execution_records evaluator =
      <[mer_decision_ref request := set_consumed r]>
        (execution_records (sd_mutation_authorization d)).
Proof.
  intros (_ & command & clock & Hm & Hc). unfold consume_execution_authorization in Hc.
  destruct (consume_sound (sd_mutation_authorization d) request (ses_session_reference session)
    command (default 0 (ros_ownership_epoch <$> sd_runtime_ownership_status d))
    (elapsed_millis (sd_mutation_authorization d) clock))
    as [|r Hr Hv Hcmd _ Hu _ Hs Hmis Happ]; [done|].
  simplify_eq/=. exists (mi_command_id (mer_intent request)), r. split; [done|].
  split; [|done]. unfold record_mismatch in Hmis.
  rewrite !orb_false_iff, !negb_false_iff, !bool_decide_eq_true, !N.eqb_eq in Hmis.
  destruct Hmis as (((((? & ?) & ?) & ?) & ?) & ?). by constructor.
Qed.

Lemma permitted_command_trusted session envelope service_command :
  permitted_command session envelope = Ok service_command →
  caller_trusted (ses_caller_verification session) ∧
  allowed_command_class service_command ∈
    cvs_allowed_command_classes (ses_caller_verification session).
Proof.
  unfold permitted_command. destruct (command_parse _) as [c|]; [|done]. cbn [res_bind].
  destruct (refuse_if _ _) as [[]|] eqn:Hr; [|done]. intros [= ->].
  apply refuse_if_ok, negb_false_iff, permits_command_class_true in Hr. done.
Qed.

Lemma mutation_of_class service_command command :
  mutation_of service_command = Some command →
  allowed_command_class service_command = AcFutureUserMutationCandidate.
Proof. by destruct service_command. Qed.

(** A request that changed the container was granted, and ran on with what was left of the
    evaluator. *)
Lemma change_granted session envelope d m answer d' m' :
  m_held m = false → quiet m →
  dispatch_envelope session envelope d m = Done answer d' m' → m_cell m' ≠ m_cell m →
  ∃ service_command request config decision evaluator,
    admitted d session envelope service_command ∧
    granted d session envelope service_command request config decision evaluator ∧
    sd_mutation_authorization d' = evaluator.
Proof.
  intros Hh Hq Hd Hne. destruct (dispatch_envelope_run session envelope d m Hh)
    as [error Hg|error Hg Hno|sc o Ha Hrun]; [by simplify_eq|by simplify_eq|].
  subst o. inversion Hrun as [o Hr _ Ho|request config decision evaluator m1 o Hg Hh1 Hc Ho Hr Heq].
  { destruct Hr as (_ & _ & _ & _ & Hs). by destruct (Hs Hq). }
  subst o. exists sc, request, config, decision, evaluator. split_and!; [done|exact Hg|].
  exact (run_full_evaluator _ _ _ _ _ _ _ _ _ Hr).
Qed.

(** C3. The container changes only under authority: when a request leaves the container other
    than it was, and no other thread touched it, the request passed every gate of its
    session, is a provider command whose class the verified local caller is permitted, and
    the execution request in its own payload named an unused approval for execution that was
    recorded for this session, this command and the current ownership epoch; afterwards this
    approval is marked as consumed, and no other record has changed. *)
Theorem container_change_authorized session envelope d m answer d' m' :
  m_held m = false → quiet m →
  dispatch_envelope session envelope d m = Done answer d' m' → m_cell m' ≠ m_cell m →
  ∃ service_command command request config r,
    admitted d session envelope service_command ∧
    mutation_of service_command = Some command ∧
    caller_trusted (ses_caller_verification session) ∧
    AcFutureUserMutationCandidate ∈
      cvs_allowed_command_classes (ses_caller_verification session) ∧
    carries envelope service_command request config ∧
    authorized d session command request r ∧
    execution_records (sd_mutation_authorization d') =
      <[mer_decision_ref request := set_consumed r]>
        (execution_records (sd_mutation_authorization d)) ∧
    xr_consumed (set_consumed r) = true.
Proof.
  intros Hh Hq Hd Hne. destruct (change_granted session envelope d m answer d' m' Hh Hq Hd Hne)
    as (sc & request & config & decision & evaluator & Ha & Hg & ->).
  pose proof (proj1 Hg) as Hcarries.
  apply granted_authorized in Hg as (command & r & Hm & Hau & _ & Hrec).
  exists sc, command, request, config, r. pose proof (ad_command _ _ _ _ Ha) as Hp.
  apply permitted_command_trusted in Hp as [Ht Hcl].
  rewrite (mutation_of_class _ _ Hm) in Hcl. by split_and!.
Qed.

(** C4. Every request is answered: whatever the other threads do, a request that finds the
    mutex free gets a reply, and the mutex is free again -- unless it was admitted, the
    authorization its payload names was consumed, and the operation it stands for, run on
    the container the dispatcher holds, failed: only then the dispatcher never returns. The
    container is the one the request found, when no other thread touches it. *)
Theorem requests_answered session envelope d m :
  m_held m = false →
  match dispatch_envelope session envelope d m with
  | Done answer _ m' => is_reply envelope answer ∧ m_held m' = false
  | Blocked _ m' =>
      ∃ service_command request config decision evaluator,
        admitted d session envelope service_command ∧
        granted d session envelope service_command request config decision evaluator ∧
        operation_failed service_command request config decision m' ∧
        (quiet m → m_cell m' = m_cell m)
  end.
Proof.
  intros Hh. destruct (dispatch_envelope_run session envelope d m Hh)
    as [error Hg|error Hg Hno|sc o Ha Hrun]; [by split|by split|].
  apply command_run_ok in Hrun; [|done].
  destruct o as [answer d' m'|]; [by destruct Hrun as (? & ? & _)|].
  destruct Hrun as (request & config & decision & evaluator & Hg & Hf & Hq).
  by exists sc, request, config, decision, evaluator.
Qed.

(* ------------------------------------------------------------------ *)
(** ** A failing operation *)

(** The dispatcher serves the container, its mutex is free and sound, nobody else is there. *)
Record settled (container : C) d m : Prop := {
  st_handle : sd_runtime_container d = Some the_container;
  st_free : m_held m = false;
  st_quiet : quiet m;
  st_sound : cell_poisoned (m_cell m) = false;
  st_state : cell_state (m_cell m) = container
}.

Lemma settled_run {A} full container (P : A → Prop) d m o :
  settled container d m → run_ok full false False (λ _, False) P d m o →
  ∃ x d' m', o = Done x d' m' ∧ P x ∧ settled container d' m'.
Proof.
  intros [Hc Hf Hq Hp Hs]. destruct o as [x d' m'|]; [|done].
  intros (HP & Hh & Ho & Hv & Hcell). exists x, d', m'. split_and!; [done..|].
  destruct (Hcell Hq) as [Hcell'|[]]. unfold view, session_view in Hv.
  constructor; congruence || (intros n cell; rewrite Ho; apply Hq).
Qed.

Lemma settled_bind {A A'} full container (P : A → Prop) (a : D C A) (f : A → D C A') d m
    (Q : outcome C A' → Prop) :
  settled container d m → run_ok full false False (λ _, False) P d m (a d m) →
  (∀ x d' m', P x → settled container d' m' → Q (f x d' m')) → Q (d_bind a f d m).
Proof.
  intros Hs Hr Hf. destruct (settled_run _ _ _ _ _ _ Hs Hr) as (x & d' & m' & Ha & HP & Hs').
  unfold d_bind. rewrite Ha. by apply Hf.
Qed.

Definition is_blocked {A} (o : outcome C A) : Prop :=
  match o with Done _ _ _ => False | Blocked _ _ => True end.

(** The arms on a failed outcome ask for a life cycle while the guard is alive. *)
Definition stuck_on_failure {A} (arms : result A CoreError → D C Execution) : Prop :=
  ∀ error d m, m_held m = true → sd_runtime_container d = Some the_container →
    is_blocked (arms (Err error) d m).

Lemma provider_lifecycle_stuck {A} kind (f : ProviderLifecycleCategory → D C A) d m :
  m_held m = true → sd_runtime_container d = Some the_container →
  is_blocked (d_bind (provider_lifecycle kind) f d m).
Proof.
  intros Hh Hc. unfold provider_lifecycle, read_container, with_container, lock_container,
    d_bind, d_self. by rewrite Hc, Hh.
Qed.
Lemma ip_helper_stuck command previous : stuck_on_failure (ip_helper_outcome command previous).
Proof. intros error d m Hh Hc. by apply provider_lifecycle_stuck. Qed.
Lemma etw_stuck command previous : stuck_on_failure (etw_outcome command previous).
Proof.
  intros error d m Hh Hc. unfold etw_outcome, etw_command_lifecycle.
  repeat case_match; by apply provider_lifecycle_stuck.
Qed.

Lemma in_container_stuck {A} envelope decision command event (operation : C → method C A)
    arms container d m :
  settled container d m → stuck_on_failure arms →
  roc_ownership_epoch (rc_owner_context container) = mad_ownership_epoch decision →
  (∀ w, is_ok (operation container container w).1.2 = false) →
  is_blocked (in_container envelope decision command event (λ container,
    let! '(container, execution) := d_lift (operation container container) in
    let! x := arms execution in d_ret (container, x)) d m).
Proof.
  intros [Hc Hf Hq Hp Hs] Hstuck Hepoch Hfail. unfold in_container. unfold d_bind at 1, d_self.
  rewrite Hc. unfold d_bind at 1. unfold with_container, d_bind at 1, lock_container.
  rewrite Hf, !Hq, Hp, Hs. unfold d_bind at 1. apply N.eqb_eq in Hepoch. rewrite Hepoch.
  cbn [negb]. unfold d_bind at 1. unfold d_bind at 1, d_lift. specialize (Hfail (m_world m)).
  cbn [set_cell m_world].
  destruct (operation container container (m_world m)) as [[container' [x|error]] w]; [done|].
  unfold d_bind at 1.
  match goal with |- context [arms (Err error) ?d1 ?m1] =>
    specialize (Hstuck error d1 m1 eq_refl Hc) end.
  by destruct (arms (Err error) _ _).
Qed.

(** The operation a provider command asks the container for. *)
Definition provider_operation_fails (service_command : ServiceCommand) (container : C)
    (request : MutationExecutionRequest) (decision : MutationAuthorizationDecision) : Prop :=
  let owner := rc_owner_context container in
  match ip_helper_mutation_command_id service_command,
        etw_mutation_command_id service_command with
  | Some command, _ => ∀ w, is_ok (ip_helper_operation command owner container w).1.2 = false
  | None, Some command =>
      ∀ w, is_ok (etw_operation command owner (operation_refs request decision)
                    container w).1.2 = false
  | None, None => False
  end.

(** The state in which the block that owns the container starts. *)
Lemma consumed_request_ok session envelope service_command command event request decision d m :
  json_to_execution_request (env_payload envelope) = Ok request →
  (consume_execution_authorization (sd_mutation_authorization d) request
     (ses_session_reference session) command
     (default 0 (ros_ownership_epoch <$> sd_runtime_ownership_status d))
     (m_instants m (m_instants_read m))).2 = Ok decision →
  ∃ evaluator, consumed_request session envelope service_command command event d m =
    Done (Ok (request, decision)) (set_mutation_authorization evaluator d)
      (set_instants_read (S (m_instants_read m)) m).
Proof.
  intros Hj Hc. unfold consumed_request. rewrite Hj.
  assert (execution_request_validate request = Ok tt) as ->.
  { unfold consume_execution_authorization in Hc.
    destruct (consume_sound (sd_mutation_authorization d) request
      (ses_session_reference session) command
      (default 0 (ros_ownership_epoch <$> sd_runtime_ownership_status d))
      (elapsed_millis (sd_mutation_authorization d) (m_instants m (m_instants_read m)))); done. }
  unfold consume, d_bind, d_self, instant_now, d_update, d_ret.
  destruct (consume_execution_authorization _ _ _ _ _ _) as [e r]. simpl in Hc. subst r.
  by eexists.
Qed.

Lemma blocked_bind {A A'} (a : D C A) (f : A → D C A') d m :
  is_blocked (a d m) → is_blocked (d_bind a f d m).
Proof. unfold d_bind. by destruct (a d m). Qed.

Lemma stuck_after_request {A} session envelope service_command command event request decision
    container (f : _ → D C A) d m :
  settled container d m →
  json_to_execution_request (env_payload envelope) = Ok request →
  (consume_execution_authorization (sd_mutation_authorization d) request
     (ses_session_reference session) command
     (default 0 (ros_ownership_epoch <$> sd_runtime_ownership_status d))
     (m_instants m (m_instants_read m))).2 = Ok decision →
  (∀ d m, settled container d m → is_blocked (f (Ok (request, decision)) d m)) →
  is_blocked (d_bind (consumed_request session envelope service_command command event) f d m).
Proof.
  intros Hs Hj Hc Hf. unfold d_bind.
  destruct (consumed_request_ok session envelope service_command command event request decision
    d m Hj Hc) as [e ->]. apply Hf. destruct Hs as [Hd Hh Hq Hp Hst]. by constructor.
Qed.

(** A failing provider operation hangs the service: for an admitted and authorized
    IP-helper, ETW, DNS or authentication command whose operation fails, the dispatcher
    never answers -- it asks for the provider's life cycle through the mutex of the
    container while it still holds the guard. *)
Theorem failed_operation_blocks session envelope service_command command request decision
    container d m :
  settled container d m → admitted d session envelope service_command →
  mutation_of service_command = Some command →
  json_to_execution_request (env_payload envelope) = Ok request →
  (consume_execution_authorization (sd_mutation_authorization d) request
     (ses_session_reference session) command
     (default 0 (ros_ownership_epoch <$> sd_runtime_ownership_status d))
     (m_instants m (m_instants_read m))).2 = Ok decision →
  roc_ownership_epoch (rc_owner_context container) = mad_ownership_epoch decision →
  provider_operation_fails service_command container request decision →
  is_blocked (dispatch_envelope session envelope d m).
Proof.
  intros Hs Ha Hm Hj Hc Hepoch Hfail. rewrite (dispatch_admitted _ _ _ _ _ Ha). clear Ha.
  assert (settled container (numbered d envelope) m) as Hs1 by by destruct Hs.
  unfold provider_operation_fails in Hfail. unfold mutation_of in Hm.
  destruct (ip_helper_mutation_command_id service_command) as [c|] eqn:Hi.
  - injection Hm as ->.
    assert (run_command session envelope service_command =
            execute_ip_helper_mutation session envelope service_command) as ->
      by by destruct service_command.
    unfold execute_ip_helper_mutation. rewrite Hi.
    eapply stuck_after_request; [done..|]. intros d1 m1 Hs2. cbn beta iota zeta.
    eapply (settled_bind true); [done|by apply run_note, Hs2|]. intros _ d2 m2 _ Hs3.
    eapply (settled_bind true); [done|by apply run_provider_lifecycle, Hs3|]. intros previous d3 m3 _ Hs4.
    eapply (settled_bind true); [done|by apply run_lift, Hs4|]. intros id d4 m4 _ Hs5.
    apply blocked_bind, (in_container_stuck envelope decision command _
      (λ container, ip_helper_operation command (rc_owner_context container)) _ container);
      [done|apply ip_helper_stuck|done|done].
  - destruct (etw_mutation_command_id service_command) as [c|] eqn:He; [|done].
    injection Hm as ->.
    assert (run_command session envelope service_command =
            execute_etw_mutation session envelope service_command) as ->
      by by destruct service_command.
    unfold execute_etw_mutation. rewrite He.
    eapply stuck_after_request; [done..|]. intros d1 m1 Hs2. cbn beta iota zeta.
    eapply (settled_bind true); [done|by apply run_note, Hs2|]. intros _ d2 m2 _ Hs3.
    eapply (settled_bind true); [done|by apply run_etw_command_lifecycle, Hs3|].
    intros previous d3 m3 _ Hs4.
    eapply (settled_bind true); [done|by apply run_lift, Hs4|]. intros id d4 m4 _ Hs5.
    apply blocked_bind, (in_container_stuck envelope decision command _
      (λ container, etw_operation command (rc_owner_context container)
         (operation_refs request decision)) _ container);
      [done|apply etw_stuck|done|done].
Qed.

(* ------------------------------------------------------------------ *)
(** ** The requests of a session *)

(** Requests of a session, one after the other: the sequence numbers of those that pass the
    gates, and the identifiers of those that are new as well. *)
Inductive served (session : IpcSessionState) : list N → list string →
    ServiceCommandDispatcher → Machine C → ServiceCommandDispatcher → Machine C → Prop :=
  | served_start d m : served session [] [] d m d m
  | served_request numbers ids d m d1 m1 envelope answer d2 m2 :
      served session numbers ids d m d1 m1 →
      dispatch_envelope session envelope d1 m1 = Done answer d2 m2 →
      served session
        (numbers ++ if is_ok (session_gates d1 session envelope)
                    then [env_sequence_number envelope] else [])
        (ids ++ if is_ok (session_gates d1 session envelope) &&
                   is_ok (remember_nonce (sd_replay d1) "request_id"
                            (env_request_id envelope)).2
                then [env_request_id envelope] else []) d m d2 m2.

Lemma session_gates_number d session envelope :
  session_gates d session envelope = Ok tt →
  env_sequence_number envelope = sd_active_next_sequence_number d ∧
  env_sequence_number envelope ≤ MAX_REQUESTS_PER_SESSION.
Proof.
  unfold session_gates, validate_request_envelope. rewrite !chain_ok, !refuse_if_ok.
  rewrite !orb_false_iff, !negb_false_iff, !N.eqb_eq, N.ltb_ge. tauto.
Qed.

(** After a request: the next number, and the cache. *)
Lemma request_step session envelope d m answer d' m' :
  m_held m = false → dispatch_envelope session envelope d m = Done answer d' m' →
  m_held m' = false ∧
  if is_ok (session_gates d session envelope)
  then sd_active_next_sequence_number d' =
         saturating_add u64_max (sd_active_next_sequence_number d) 1 ∧
       sd_replay d' = (remember_nonce (sd_replay d) "request_id" (env_request_id envelope)).1
  else d' = d.
Proof.
  intros Hh Hd. destruct (dispatch_envelope_run session envelope d m Hh)
    as [error Hg|error Hg _|sc o Ha Hrun].
  - simplify_eq. by rewrite Hg.
  - simplify_eq. by rewrite Hg.
  - apply command_run_ok in Hrun; [|done]. rewrite Hd in Hrun. subst o.
    destruct Hrun as (_ & Hh' & _ & Hv & _). rewrite (ad_gates _ _ _ _ Ha).
    unfold view, session_view in Hv. by injection Hv as _ _ -> -> _.
Qed.

Lemma last_nonces_suffix log ids id :
  (length ids ≤ REPLAY_CACHE_LIMIT)%nat → id ∈ ids → id ∈ last_nonces (log ++ ids).
Proof.
  intros Hl Hid. unfold last_nonces. rewrite length_app, drop_app.
  apply elem_of_app. right. by replace (_ - _ - length log)%nat with 0%nat by lia.
Qed.

(** C5. A session is bounded and its requests are distinct: the requests that pass the gates
    of a session carry the numbers 1, 2, 3, ... without a gap, there are at most 64 of them,
    and no identifier is accepted twice -- from the start of the session on, whatever else
    is sent in between. *)
Theorem session_requests_bounded session numbers ids d m d' m' log :
  served session numbers ids d m d' m' → m_held m = false →
  sd_active_next_sequence_number d = 1 → cache_of (sd_replay d) log →
  numbers = N.of_nat <$> seq 1 (length numbers) ∧ (length numbers ≤ 64)%nat ∧ NoDup ids.
Proof.
  intros Hs Hh Hn Hlog.
  assert (m_held m' = false ∧ numbers = N.of_nat <$> seq 1 (length numbers) ∧
    (length numbers ≤ 64)%nat ∧ NoDup ids ∧ (length ids ≤ length numbers)%nat ∧
    sd_active_next_sequence_number d' = N.of_nat (S (length numbers)) ∧
    cache_of (sd_replay d') (log ++ ids)) as Hinv; [|tauto].
  induction Hs as [d m|numbers ids d m d1 m1 envelope answer d2 m2 Hs IH Hd].
  { rewrite app_nil_r. split_and!; simpl; auto using NoDup_nil_2; lia. }
  destruct (IH Hh Hn Hlog) as (Hh1 & Hnum & Hlen & Hnd & Hle & Hnext & Hcache). clear IH.
  destruct (request_step _ _ _ _ _ _ _ Hh1 Hd) as [Hh2 Hstep]. split; [done|].
  destruct (session_gates d1 session envelope) as [[]|error] eqn:Hg; cbn [is_ok andb] in *.
  2:{ subst d2. by rewrite !app_nil_r. }
  destruct Hstep as [Hnext' Hreplay'].
  apply session_gates_number in Hg as [Hseq Hmax].
  rewrite Hnext in Hseq, Hnext'. rewrite Hseq in Hmax |- *. unfold MAX_REQUESTS_PER_SESSION in Hmax.
  rewrite length_app. cbn [length]. rewrite Nat.add_1_r.
  assert (numbers ++ [N.of_nat (S (length numbers))] =
          N.of_nat <$> seq 1 (S (length numbers))) as Hnum'.
  { rewrite seq_S, fmap_app, <- Hnum. done. }
  assert (sd_active_next_sequence_number d2 = N.of_nat (S (S (length numbers)))) as Hnext2.
  { rewrite Hnext'. unfold saturating_add, u64_max. lia. }
  destruct (remember_refines (sd_replay d1) (log ++ ids) "request_id"
    (env_request_id envelope) Hcache) as [Hres Hcache']. rewrite <- Hreplay' in Hcache'.
  rewrite Hres. unfold spec_remember in Hcache' |- *.
  destruct (safe_ipc_text "request_id" (env_request_id envelope)) as [[]|];
    [case_bool_decide as Hin|]; cbn [fst snd is_ok] in *;
    rewrite ?app_nil_r, <- ?app_assoc in *; split_and!; try done; try lia.
  - apply NoDup_app. split_and!; [done| |apply NoDup_singleton].
    intros id Hid ->%list_elem_of_singleton. apply Hin, last_nonces_suffix; [|done].
    unfold REPLAY_CACHE_LIMIT. lia.
  - rewrite length_app. simpl. lia.
Qed.

(* ------------------------------------------------------------------ *)
(** ** An approval is used once *)

(** A request moves the evaluator by one step, and not at all when its gates refuse it. *)
Lemma request_evaluator session envelope d m answer d' m' :
  m_held m = false → dispatch_envelope session envelope d m = Done answer d' m' →
  evaluator_move (sd_mutation_authorization d) (sd_mutation_authorization d') ∧
  m_others m' = m_others m.
Proof.
  intros Hh Hd. destruct (dispatch_envelope_run session envelope d m Hh)
    as [error Hg|error Hg _|sc o Ha Hrun].
  1,2: simplify_eq; split; [constructor|done].
  pose proof (command_run_ok _ _ _ _ _ _ Hh Hrun) as Hok. rewrite Hd in Hok. subst o.
  destruct Hok as (_ & _ & Ho & _). split; [|done].
  inversion Hrun as [o _ Hmove Heq|request config decision evaluator m1 o Hg Hh1 Hc Ho1 Hr Heq].
  { by eapply Hmove. }
  apply run_full_evaluator in Hr. cbn in Hr. rewrite Hr.
  destruct Hg as (_ & command & clock & _ & Hcons).
  apply (f_equal fst) in Hcons. cbn [fst] in Hcons. rewrite <- Hcons. apply move_consume.
Qed.

Lemma evaluator_move_run session n e e1 e2 :
  session_run session n e e1 → evaluator_move e1 e2 →
  ∃ k, (k ≤ n + 1)%nat ∧ session_run session k e e2.
Proof.
  intros Hrun [|i c x clock w|q s command epoch clock].
  - exists n. split; [lia|done].
  - exists (S n). split; [lia|by constructor].
  - exists n. split; [lia|by constructor].
Qed.

(** Requests of a session: the mutex is free after each, the other threads are the same, the
    next number counts the requests that passed the gates, and each of these evaluated at
    most once. *)
Lemma served_run session numbers ids d m d' m' start :
  served session numbers ids d m d' m' → m_held m = false →
  sd_active_next_sequence_number d = N.of_nat (S start) → (start ≤ 64)%nat →
  m_held m' = false ∧ m_others m' = m_others m ∧ (start + length numbers ≤ 64)%nat ∧
  sd_active_next_sequence_number d' = N.of_nat (S (start + length numbers)) ∧
  ∃ n, (n ≤ length numbers)%nat ∧
    session_run (ses_session_reference session) n (sd_mutation_authorization d)
      (sd_mutation_authorization d').
Proof.
  intros Hs Hh Hn Hst.
  induction Hs as [d m|numbers ids d m d1 m1 envelope answer d2 m2 Hs IH Hd].
  { simpl. rewrite Nat.add_0_r. split_and!; try done. exists 0%nat. split; [lia|constructor]. }
  destruct (IH Hh Hn) as (Hh1 & Ho1 & Hlen & Hnext & n & Hle & Hrun). clear IH.
  destruct (request_step _ _ _ _ _ _ _ Hh1 Hd) as [Hh2 Hstep].
  destruct (request_evaluator _ _ _ _ _ _ _ Hh1 Hd) as [Hmove Ho2].
  split; [done|]. split; [congruence|]. rewrite length_app.
  destruct (session_gates d1 session envelope) as [[]|error] eqn:Hg; cbn [is_ok] in *.
  2:{ subst d2. simpl. rewrite Nat.add_0_r. split_and!; try done. exists n. by split. }
  destruct Hstep as [Hnext' _]. apply session_gates_number in Hg as [Hseq Hmax].
  rewrite Hnext in Hseq, Hnext'. rewrite Hseq in Hmax. unfold MAX_REQUESTS_PER_SESSION in Hmax.
  cbn [length]. split_and!; [lia|rewrite Hnext'; unfold saturating_add, u64_max; lia|].
  destruct (evaluator_move_run _ _ _ _ _ Hrun Hmove) as (k & Hk & Hrun2).
  exists k. split; [lia|done].
Qed.

Lemma carries_same envelope service_command request config request' config' :
  carries envelope service_command request config →
  carries envelope service_command request' config' → request = request'.
Proof.
  unfold carries. destruct (ip_helper_schedule_command_id service_command); [|intros [Hj _] [Hj2 _]; congruence].
  intros (? & ? & <- & _) (? & ? & <- & _). congruence.
Qed.

(** A request that asks for what was already used is answered and leaves the container. *)
Lemma spent_request_idle session envelope service_command request config d m :
  m_held m = false → quiet m → permitted_command session envelope = Ok service_command →
  carries envelope service_command request config →
  record_spent (ses_session_reference session) (mer_decision_ref request)
    (sd_mutation_authorization d) →
  ∃ answer d' m', dispatch_envelope session envelope d m = Done answer d' m' ∧
    m_cell m' = m_cell m.
Proof.
  intros Hh Hq Hp Hc Hsp. destruct (dispatch_envelope_run session envelope d m Hh)
    as [error Hg|error Hg _|sc o Ha Hrun]; [by do 3 eexists..|].
  destruct Hrun as [o Hr _|request' config' decision evaluator m1 o Hg _ _ _ _].
  { destruct o as [answer d' m'|]; [|done]. exists answer, d', m'. split; [done|].
    destruct Hr as (_ & _ & _ & _ & Hcell). by destruct (Hcell Hq). }
  exfalso. pose proof (ad_command _ _ _ _ Ha) as Hp'.
  assert (sc = service_command) as -> by congruence.
  destruct Hg as (Hc' & command & clock & _ & Hcons).
  rewrite (carries_same _ _ _ _ _ _ Hc Hc') in Hsp.
  unfold consume_execution_authorization in Hcons.
  pose proof (spent_refused _ _ (sd_mutation_authorization d) request'
    (ses_session_reference session) command
    (default 0 (ros_ownership_epoch <$> sd_runtime_ownership_status d))
    (elapsed_millis (sd_mutation_authorization d) clock) Hsp eq_refl) as Hno.
  cbn in Hcons. rewrite Hcons in Hno. discriminate.
Qed.

(** C28. An approval changes the container at most once: in a session that starts with number
    1 and without recorded approvals, once a request has changed the container, every later
    request of the session that names the same approval is answered and leaves the container
    as it is, whatever was evaluated, executed or refused in between. (The session's limit
    of 64 requests keeps the table of approvals from evicting the used one; no other thread
    touches the container.) *)
Theorem approval_used_once session numbers ids d0 m0 d m envelope answer d1 m1
    numbers' ids' d2 m2 envelope' service_command request config
    service_command' request' config' :
  m_held m0 = false → quiet m0 → sd_active_next_sequence_number d0 = 1 →
  execution_records (sd_mutation_authorization d0) = ∅ →
  served session numbers ids d0 m0 d m →
  dispatch_envelope session envelope d m = Done answer d1 m1 → m_cell m1 ≠ m_cell m →
  permitted_command session envelope = Ok service_command →
  carries envelope service_command request config →
  served session numbers' ids' d1 m1 d2 m2 →
  permitted_command session envelope' = Ok service_command' →
  carries envelope' service_command' request' config' →
  mer_decision_ref request' = mer_decision_ref request →
  ∃ answer' d3 m3, dispatch_envelope session envelope' d2 m2 = Done answer' d3 m3 ∧
    m_cell m3 = m_cell m2.
Proof.
  intros Hh0 Hq0 Hn0 Hx0 Hs Hd Hne Hp Hc Hs' Hp' Hc' Hk.
  destruct (served_run _ _ _ _ _ _ _ 0 Hs Hh0 Hn0 ltac:(lia))
    as (Hh & Ho & Hlen & Hnext & n & Hn & Hrun).
  assert (∀ m', m_others m' = m_others m0 → quiet m') as Hquiet
    by (intros m' Heq k cell; rewrite Heq; apply Hq0).
  destruct (change_granted session envelope d m answer d1 m1 Hh (Hquiet _ Ho) Hd Hne)
    as (sc & q & config0 & decision & evaluator & Ha & Hg & Hev).
  pose proof (ad_command _ _ _ _ Ha) as Hsc.
  assert (sc = service_command) as -> by congruence.
  rewrite (carries_same _ _ _ _ _ _ Hc (proj1 Hg)) in Hk.
  apply granted_authorized in Hg as (command & r & _ & Hau & _ & Hrec).
  destruct (request_step _ _ _ _ _ _ _ Hh Hd) as [Hh1 Hstep].
  destruct (request_evaluator _ _ _ _ _ _ _ Hh Hd) as [_ Ho1].
  rewrite (ad_gates _ _ _ _ Ha) in Hstep. destruct Hstep as [Hnext1 _].
  pose proof (session_gates_number _ _ _ (ad_gates _ _ _ _ Ha)) as [Hseq Hmax].
  rewrite Hnext in Hseq, Hnext1. unfold MAX_REQUESTS_PER_SESSION in Hmax.
  destruct (served_run _ _ _ _ _ _ _ (S (length numbers)) Hs' Hh1)
    as (Hh2 & Ho2 & Hlen2 & _ & n' & Hn' & Hrun');
    [rewrite Hnext1; unfold saturating_add, u64_max; lia|lia|].
  assert (size (execution_records (sd_mutation_authorization d)) ≤ n)%nat as Hsize.
  { apply session_run_size in Hrun; rewrite Hx0, map_size_empty in *;
      unfold MAX_SESSION_AUTHORIZATION_RECORDS; lia. }
  assert (m_others m2 = m_others m0) as Ho02 by congruence.
  eapply (spent_request_idle _ _ _ _ _ _ _ Hh2 (Hquiet _ Ho02) Hp' Hc').
  rewrite Hk. eapply (session_run_spent _ _ _ _ _ Hrun').
  - exists (set_consumed r). rewrite Hev, Hrec, lookup_insert_eq. split_and!; try done.
    exact (au_session _ _ _ _ _ Hau).
  - rewrite Hev, Hrec, map_size_insert_Some by (eexists; apply (au_record _ _ _ _ _ Hau)).
    unfold MAX_SESSION_AUTHORIZATION_RECORDS. lia.
Qed.

(* ------------------------------------------------------------------ *)
(** ** The start and the end of a session *)

(** What a completed hand-shake establishes: the caller's summary is valid, bound to the
    connection, current, and permits reading; from now on a request of this session is
    checked against number 1, and a request that names another session or another
    verification is refused. An incomplete hand-shake leaves the active session as it was. *)
Theorem session_established stream pending caller d m :
  m_held m = false →
  ∃ stream' r d' m', complete_session stream pending caller d m = Done (stream', r) d' m' ∧
  m_held m' = false ∧
  match r with
  | Ok session =>
      session = mkSession (pes_session_reference pending) (pes_client_nonce pending)
        (pes_server_nonce pending) (pes_challenge_nonce pending) caller ∧
      summary_validate caller = Ok tt ∧ caller_trusted caller ∧
      AcReadStatus ∈ cvs_allowed_command_classes caller ∧
      (∀ envelope, session_gates d' session envelope =
                   validate_request_envelope session envelope 1) ∧
      (∀ other envelope,
         ses_session_reference other ≠ ses_session_reference session ∨
         cvs_verification_ref (ses_caller_verification other) ≠ cvs_verification_ref caller →
         is_ok (session_gates d' other envelope) = false)
  | Err _ => session_view d' = session_view d
  end.
Proof.
  intros Hh. unfold complete_session.
  destruct (summary_checks caller) as [[]|error] eqn:Hsum; [|by do 4 eexists].
  destruct (read_json_frame client_verify_of_text stream) as [stream1 [verify|error]];
    [|by do 4 eexists].
  destruct (res_bind (validate_client_verify _ verify) _) as [[]|error] eqn:Hver;
    [|by do 4 eexists].
  unfold d_bind at 1, d_lift, new_uuid.
  destruct (write_json_frame text_of_server_verify stream1 _) as [stream2 [[]|error]];
    [|by do 4 eexists].
  unfold d_bind, d_update, d_ret. do 4 eexists. split; [done|]. split; [done|].
  apply chain_ok in Hver as [_ Hread]. apply refuse_if_ok, negb_false_iff in Hread.
  unfold summary_checks in Hsum. apply chain_ok in Hsum as [Hval _].
  apply map_err_ok in Hval. pose proof Hread as Hperm.
  apply permits_command_class_true in Hread as [Ht Hc]. split_and!; try done.
  - intros envelope. unfold session_gates. cbn.
    rewrite !bool_decide_eq_true_2 by done. rewrite Hperm. done.
  - intros other envelope Hne. unfold session_gates. cbn.
    destruct Hne as [Hne|Hne].
    + rewrite (bool_decide_eq_false_2 (Some (pes_session_reference pending) = _)) by
        (intros [= ?]; by apply Hne). done.
    + rewrite (bool_decide_eq_false_2 (Some (cvs_verification_ref caller) = _)) by
        (intros [= ?]; by apply Hne). by rewrite orb_true_r.
Qed.

(** What the end of the schedule lease leaves alone. *)
Lemma invalidate_schedule_rights d m :
  m_held m = false →
  ∃ d' m', invalidate_schedule (C:=C) d m = Done tt d' m' ∧ m_held m' = false ∧
    sd_mutation_authorization d' = sd_mutation_authorization d ∧
    sd_last_caller_verification d' = sd_last_caller_verification d ∧
    sd_connected_clients d' = sd_connected_clients d.
Proof.
  intros Hh. unfold invalidate_schedule, d_bind, d_self.
  destruct (sd_runtime_container d); [|by do 2 eexists].
  unfold with_container, lock_container, d_bind. rewrite Hh.
  destruct (cell_poisoned _).
  { unfold d_ret. match goal with |- context [note ?e ?c ?o ?r ?d1 ?m1] =>
      destruct (note_done e c o r d1 m1) as (m2 & -> & ?) end. by do 2 eexists. }
  unfold d_lift. destruct (rc_invalidate_ip_helper_schedule_for_session_end _ _ _ _ _)
    as [[container r] w]. unfold d_ret, d_update, copy_snapshots.
  destruct r as [[status|]|error].
  - by destruct (rc_canonical_read_model_snapshot container); do 2 eexists.
  - by do 2 eexists.
  - match goal with |- context [note ?e ?c ?o ?r ?d1 ?m1] =>
      destruct (note_done e c o r d1 m1) as (m2 & -> & ?) end. by do 2 eexists.
Qed.

(** C6. A closed connection has no rights left: closing always returns; from then on every
    request of every session is refused without any effect until a new hand-shake
    completes, no authorization of the closed session is left to consume, the last caller's
    summary permits no class of commands, and the client is no longer counted. *)
Theorem closed_connection_powerless d m :
  m_held m = false →
  ∃ d' m', connection_closed (C:=C) d m = Done tt d' m' ∧ m_held m' = false ∧
    (∀ session envelope m2, ∃ error,
       dispatch_envelope (C:=C) session envelope d' m2 =
       Done (envelope_error envelope error) d' m2) ∧
    (∀ session_ref k r, sd_active_session_reference d = Some session_ref →
       execution_records (sd_mutation_authorization d') !! k = Some r →
       xr_session_ref r ≠ session_ref) ∧
    (∀ caller class, sd_last_caller_verification d' = Some caller →
       permits_command_class caller class = false) ∧
    sd_connected_clients d' = saturating_sub (sd_connected_clients d) 1.
Proof.
  intros Hh. unfold connection_closed. unfold d_bind at 1, d_update. unfold d_bind at 1.
  set (d1 := match _ with Some _ => _ | None => _ end). unfold d_bind at 1.
  destruct (invalidate_schedule_rights d1 m Hh) as (d2 & m2 & -> & Hh2 & Hauth & Hlast & Hcl).
  assert (∃ m3, notify_scheduler d2 m2 = Done tt d2 m3 ∧ m_held m3 = false) as (m3 & Hn & Hh3).
  { unfold notify_scheduler. case_match; eexists; by split. }
  unfold d_bind at 1. rewrite Hn. unfold d_bind at 1. unfold d_bind at 1.
  match goal with |- context [note _ _ _ _ ?d4 m3] => set (d4' := d4) end.
  destruct (note_done "caller_verification_expired" None "expired" (Some "connection_closed")
    d4' m3) as (m4 & Hnote & Hh4).
  exists d4', m4. split; [done|]. split; [congruence|]. split_and!.
  - intros session envelope m5. eexists. unfold dispatch_envelope, d_bind, d_self.
    unfold session_gates. cbn. done.
  - intros session_ref k r Hs. subst d4'. cbn. rewrite Hauth. subst d1. cbn. rewrite Hs. cbn.
    by intros [_ ?]%map_lookup_filter_Some.
  - intros caller class. subst d4'. cbn. intros (c & _ & ->)%fmap_Some.
    unfold permits_command_class. cbn. by rewrite !andb_false_r.
  - subst d4'. cbn. rewrite Hcl. subst d1. cbn. by destruct (sd_active_session_reference d).
Qed.

(** The status the service publishes about its callers breaks the contract of that status:
    it says that production mutations are enabled, which no valid status may. *)
Lemma read_status_never_valid d :
  read_status_validate (caller_verification_read_status d) = Err CveProductionMutationForbidden.
Proof. done. Qed.

(** A client that asks for the third capability the service advertises is refused: its name
    holds a marker that no capability name may. *)
Lemma advertised_capability_refused pending :
  "mutation_authorization_dry_run" ∈ sh_accepted_capabilities (server_hello pending) ∧
  is_ok (safe_ipc_text "requested_capability" "mutation_authorization_dry_run") = false.
Proof. split; [|by vm_compute]. simpl. set_solver. Qed.
End facts.

(* ------------------------------------------------------------------ *)
(** ** The reason of a failed cycle *)

Lemma contains_underscores c c' rest :
  contains (String c (String c' rest)) "__" =
  (Ascii.eqb c "_" && Ascii.eqb c' "_") || contains (String c' rest) "__".
Proof.
  change (contains (String c (String c' rest)) "__") with
    (String.prefix "__" (String c (String c' rest)) || contains (String c' rest) "__").
  f_equal. cbn [String.prefix].
  assert (String.prefix "" rest = true) as -> by by destruct rest.
  destruct (ascii_dec "_" c) as [<-|Hc]; [rewrite Ascii.eqb_refl|].
  - destruct (ascii_dec "_" c') as [<-|Hc']; [done|]. symmetry. simpl.
    apply Ascii.eqb_neq. congruence.
  - symmetry. apply andb_false_iff. left. apply Ascii.eqb_neq. congruence.
Qed.

Lemma halve_underscores_length n s :
  (String.length s ≤ n)%nat →
  (String.length (halve_underscores s) ≤ String.length s)%nat ∧
  (contains s "__" = true → (String.length (halve_underscores s) < String.length s)%nat).
Proof.
  revert s. induction n as [|n IH]; intros s Hn.
  { destruct s; simpl in *; [split; [lia|done]|lia]. }
  destruct s as [|c [|c' rest]].
  - split; simpl; [lia|done].
  - split; [simpl; lia|]. by destruct c as [[] [] [] [] [] [] [] []].
  - rewrite contains_underscores.
    change (halve_underscores (String c (String c' rest))) with
      (if Ascii.eqb c "_" && Ascii.eqb c' "_" then String "_" (halve_underscores rest)
       else String c (halve_underscores (String c' rest))).
    cbn [String.length] in Hn. destruct (Ascii.eqb c "_" && Ascii.eqb c' "_"); cbn [orb].
    + destruct (IH rest ltac:(lia)) as [Hl _]. cbn [String.length]. split; [lia|]. intros _. lia.
    + destruct (IH (String c' rest) ltac:(cbn [String.length]; lia)) as [Hl Hlt].
      cbn [String.length] in *. split; [lia|]. intros Hc%Hlt. lia.
Qed.

Lemma collapse_underscores_end fuel s :
  (String.length s ≤ fuel)%nat → contains (collapse_underscores fuel s) "__" = false.
Proof.
  revert s. induction fuel as [|fuel IH]; intros s Hl; cbn [collapse_underscores].
  { by destruct s; [|simpl in Hl; lia]. }
  destruct (contains s "__") eqn:Hc; [|done].
  destruct (halve_underscores_length _ s (le_n _)) as [_ Hlt]. apply IH.
  specialize (Hlt Hc). lia.
Qed.

(** A part of a text. *)
Definition part_of (r s : string) : Prop := ∃ a b, s = (a ++ r ++ b)%string.

Lemma string_app_assoc (a b c : string) : ((a ++ b) ++ c = a ++ (b ++ c))%string.
Proof. induction a as [|x a IH]; [done|]. by rewrite !str_app_cons, IH. Qed.
Lemma part_of_trans a b c : part_of a b → part_of b c → part_of a c.
Proof.
  intros (x & y & ->) (x' & y' & ->). exists (x' ++ x)%string, (y ++ y')%string.
  by rewrite !string_app_assoc.
Qed.
Lemma trim_underscores_start_part s : part_of (trim_underscores_start s) s.
Proof.
  induction s as [|c s IH]; simpl; [by exists "", ""|].
  destruct (Ascii.eqb c "_"); [|by exists "", ""; rewrite string_app_nil_r].
  eapply part_of_trans; [exact IH|]. exists (String c ""), "". by rewrite string_app_nil_r.
Qed.
Lemma trim_underscores_end_part s : part_of (trim_underscores_end s) s.
Proof.
  assert (∃ b, s = (trim_underscores_end s ++ b)%string) as [b Hb]; [|by exists "", b].
  induction s as [|c s [b IH]]; simpl; [by exists ""|].
  destruct (trim_underscores_end s) as [|c' s'].
  - destruct (Ascii.eqb c "_"); [by eexists|]. exists s. done.
  - exists b. by rewrite str_app_cons, <- IH.
Qed.
Lemma substring_part n s :
  part_of (String.substring 0 n s) s ∧ (String.length (String.substring 0 n s) ≤ n)%nat.
Proof.
  assert ((∃ b, s = (String.substring 0 n s ++ b)%string) ∧
          (String.length (String.substring 0 n s) ≤ n)%nat) as [[b Hb] Hl];
    [|split; [by exists "", b|done]].
  revert s. induction n as [|n IH]; intros [|c s]; simpl; try (split; [by eexists|lia]).
  destruct (IH s) as [[b Hb] Hl]. split; [exists b; by rewrite str_app_cons, <- Hb|lia].
Qed.
Lemma contains_part r s pat : part_of r s → contains r pat = true → contains s pat = true.
Proof.
  intros (a & b & ->). rewrite !contains_spec. intros (x & y & ->).
  exists (a ++ x)%string, (y ++ b)%string. by rewrite !string_app_assoc.
Qed.
Lemma all_chars_part p r s : part_of r s → all_chars p s = true → all_chars p r = true.
Proof. intros (a & b & ->). rewrite !all_chars_app, !andb_true_iff. tauto. Qed.

Definition reason_text (c : ascii) : bool :=
  is_ascii_digit c || is_ascii_lowercase c || Ascii.eqb c "_".

Lemma reason_text_halve n s :
  (String.length s ≤ n)%nat → all_chars reason_text s = true →
  all_chars reason_text (halve_underscores s) = true.
Proof.
  revert s. induction n as [|n IH]; intros [|c [|c' rest]] Hn Hs; simpl in Hn; try done; try lia.
  change (halve_underscores (String c (String c' rest))) with
    (if Ascii.eqb c "_" && Ascii.eqb c' "_" then String "_" (halve_underscores rest)
     else String c (halve_underscores (String c' rest))).
  cbn [all_chars] in Hs. apply andb_true_iff in Hs as [Hc Hs].
  destruct (Ascii.eqb c "_" && Ascii.eqb c' "_"); cbn [all_chars].
  - apply andb_true_iff in Hs as [_ Hs]. rewrite IH; [done|lia|done].
  - rewrite Hc, IH; [done|simpl; lia|done].
Qed.

Lemma reason_text_collapse fuel s :
  all_chars reason_text s = true → all_chars reason_text (collapse_underscores fuel s) = true.
Proof.
  revert s. induction fuel as [|fuel IH]; intros s Hs; simpl; [done|].
  destruct (contains s "__"); [|done]. by apply IH, (reason_text_halve (String.length s)).
Qed.

(** The reason of a failed scheduler cycle is fit for an audit reference: whatever the
    error says, the loop that collapses underscores ends, and the text has 1 to 48
    characters, all lower-case letters, digits or single underscores. *)
Theorem wake_reason_clean value :
  let reason := safe_wake_assist_reason value in
  reason ≠ "" ∧ (String.length reason ≤ 48)%nat ∧ all_chars reason_text reason = true ∧
  contains reason "__" = false.
Proof.
  unfold safe_wake_assist_reason. cbv zeta.
  set (mapped := map_chars reason_char value).
  set (collapsed := collapse_underscores (String.length mapped) mapped).
  case_bool_decide as Hempty; [split_and!; [done|vm_compute; lia|done|done]|].
  destruct (substring_part 48 (trim_underscores_end (trim_underscores_start collapsed)))
    as [Hpart Hlen].
  assert (part_of (String.substring 0 48 (trim_underscores_end (trim_underscores_start
    collapsed))) collapsed) as Hp.
  { eapply part_of_trans; [exact Hpart|]. eapply part_of_trans;
      [apply trim_underscores_end_part|apply trim_underscores_start_part]. }
  split_and!; [done|done| |].
  - eapply all_chars_part; [exact Hp|]. apply reason_text_collapse. subst mapped.
    clear. induction value as [|c s IH]; [done|]. cbn [map_chars all_chars]. rewrite IH.
    rewrite andb_true_r. by destruct c as [[] [] [] [] [] [] [] []]; vm_compute.
  - apply not_true_iff_false. intros Hc%(contains_part _ _ _ Hp).
    unfold collapsed in Hc. by rewrite collapse_underscores_end in Hc.
Qed.

(* ------------------------------------------------------------------ *)
(** ** A service with one provider *)

(** The container counts hand-offs: the first one succeeds, all others fail. *)
Module DispatchSample.
Import MutationAuthorizationFacts.MutationSample.
#[local] Existing Instance sample_externals.
#[local] Existing Instance insertion_free_order.
#[local] Existing Instance sample_sha256.
#[local] Instance sample_length : PayloadLength := {| payload_len := λ _, Ok 2 |}.
#[local] Instance sample_response : ResponseJson :=
  {| response_to_value := λ _, None; response_to_vec_len := λ _, None |}.
#[local] Instance sample_platform : Platform :=
  {| cfg_windows := true; SERVICE_VERSION := "0.1.0"; process_id := 4;
     current_exe_name := None |}.
(** Every payload reads as the execution request of the sample, every frame as a
    verification of the sample's session. *)
#[local] Instance sample_json : ServiceJson :=
  {| json_of_error := λ _, Ok tt; json_of_decision := λ _, Ok tt; json_of_receipt := λ _, Ok tt;
     json_of_ping := λ _, Ok tt; json_of_status := λ _, Ok tt;
     json_of_capture_health := λ _, Ok tt; json_of_processes := λ _, Ok tt;
     json_of_read_response := λ _, Ok tt; json_unserializable_error := tt;
     json_to_intent := λ _, Ok sample_intent; json_to_execution_request := λ _, Ok request;
     json_to_schedule_request := λ _, Err "not a schedule";
     json_to_ping := λ _, Ok (mkPingParams "nonce"); json_to_empty := λ _, Ok mkEmptyParams;
     json_to_process_params := λ _, Ok (mkProcessParams None);
     json_to_read_request := λ _, Err "not a read request"; json_get := λ _ _, None;
     json_as_str := λ _, None; json_to_request := λ _, Err "not a request";
     text_of_server_hello := λ _, Ok []; text_of_server_verify := λ _, Ok [];
     text_of_envelope := λ _, Ok []; text_of_response := λ _, Ok [];
     client_hello_of_text := λ _, Err "not a hello";
     client_verify_of_text := λ _, Err "not a verification";
     envelope_of_text := λ _, Err "not an envelope" |}.

Definition owner : RuntimeOwnerContext :=
  {| roc_owner_category := RocServiceHost; roc_runtime_mode := RmServiceOwned;
     roc_ownership_ref := "runtime-owner-ref"; roc_ownership_epoch := 7;
     roc_service_instance_ref := None; roc_policy_profile_ref := "policy_profile";
     roc_protocol_version := RUNTIME_IPC_SCHEMA_VERSION;
     roc_schema_version := RUNTIME_IPC_SCHEMA_VERSION;
     roc_authorization_category := RacServiceHostLocal;
     roc_provenance_id := "servicehost"; roc_redaction_status := RsRedacted |}.
Definition summary : RuntimeOwnershipSummary :=
  {| ros_ownership_ref := "runtime-owner-ref"; ros_ownership_epoch := 7;
     ros_runtime_mode := RmServiceOwned; ros_owner_category := RocServiceHost;
     ros_runtime_health := RhsReady; ros_transition_state := RtsReady;
     ros_protocol_version := RUNTIME_IPC_SCHEMA_VERSION;
     ros_schema_version := RUNTIME_IPC_SCHEMA_VERSION; ros_degraded_reason := None;
     ros_mutation_trust_state := RmtTrustedLocalService; ros_mutation_commands_enabled := true;
     ros_provider_controller_state := "active"; ros_provider_call_count := 0;
     ros_provider_zero := mkProviderZero 0 0 0 0 0 0 0; ros_scheduler_state := "inactive";
     ros_scheduler_host_state := "stopped"; ros_sampler_state := "inactive";
     ros_storage_owner_state := "inactive"; ros_canonical_read_model_owner := "servicehost";
     ros_snapshot_freshness := "fresh";
     ros_shutdown := mkShutdownSummary RsdNotStarted "thirty_seconds" false false false false
       [] [] RsRedacted;
     ros_component_summaries := []; ros_audit_refs := []; ros_provenance_id := "servicehost";
     ros_time_bucket := mkTimestamp 0; ros_redaction_status := RsRedacted |}.

Definition refuse {A} : method N A :=
  λ container, st_ret (container, Err (core_error_new EcServiceUnavailable "not available")).
Definition hand_off : method N HandoffBatch := λ container,
  if container =? 0 then st_ret (1, Ok (mkHandoffBatch "batch_ref" []))
  else refuse container.
#[local] Instance sample_container : RuntimeContainer N :=
  {| rc_owner_context := λ _, owner; rc_summary := λ _, summary;
     rc_canonical_read_model_snapshot := λ _, Err (core_error_new EcServiceUnavailable "none");
     rc_network_provider_status := λ _ _, None; rc_provider_controller_status := λ _, None;
     rc_dns_sensing_lifecycle_status := λ _, None;
     rc_auth_remote_sensing_lifecycle_status := λ _, None;
     rc_etw_mutation_capability_state := λ _, MksInactive;
     rc_auth_remote_mutation_capability_state := λ _, MksInactive;
     rc_activate_ip_helper_provider := λ _, refuse;
     rc_execute_ip_helper_servicehost_handoff := λ _ _, hand_off;
     rc_stop_ip_helper_provider := λ _, refuse;
     rc_activate_etw_provider := λ _ _, refuse; rc_pause_etw_provider := λ _ _, refuse;
     rc_resume_etw_provider := λ _ _, refuse; rc_stop_etw_provider := λ _ _, refuse;
     rc_activate_dns_sensing := λ _ _, refuse; rc_pause_dns_sensing := λ _ _, refuse;
     rc_resume_dns_sensing := λ _ _, refuse; rc_stop_dns_sensing := λ _ _, refuse;
     rc_activate_auth_remote_sensing := λ _ _, refuse;
     rc_pause_auth_remote_sensing := λ _ _, refuse;
     rc_resume_auth_remote_sensing := λ _ _, refuse;
     rc_stop_auth_remote_sensing := λ _ _, refuse;
     rc_configure_ip_helper_schedule := λ _ _ _ _ _, refuse;
     rc_enable_ip_helper_schedule := λ _ _ _ _ _, refuse;
     rc_resume_ip_helper_schedule := λ _ _ _ _ _, refuse;
     rc_pause_ip_helper_schedule := λ _ _ _ _, refuse;
     rc_disable_ip_helper_schedule := λ _ _ _ _, refuse;
     rc_invalidate_ip_helper_schedule_for_session_end := λ _ _ _, refuse;
     rc_ip_helper_scheduler_wait_millis := λ _ _, None;
     rc_run_due_ip_helper_schedule_cycle := λ _ _, refuse;
     rc_shutdown_before_ipc_close := refuse; rc_complete_shutdown_after_ipc_close := refuse |}.

Definition session : IpcSessionState :=
  mkSession "ipc_session_ref" "client_nonce" "server_nonce" "challenge_nonce" caller.
Definition dispatcher : ServiceCommandDispatcher :=
  set_mutation_authorization evaluated
    (set_active (Some "ipc_session_ref") (Some "caller_verification_ref") 1
       (set_runtime_container (Some the_container)
          (with_runtime_ownership_status (dispatcher_new 0 (with_path "audit.log")) summary))).
Definition machine (container : N) : Machine N :=
  {| m_world := counting_world; m_instants := λ _, 20 * 1000000; m_instants_read := 0;
     m_audit_faults := λ _, AuditWritten; m_audit_calls := 0; m_audit := [];
     m_others := λ _ cell, cell; m_locks := 0; m_cell := mkCell container false 2;
     m_held := false; m_wake := wake_signal_new 0 |}.
Definition envelope_of (command : ServiceCommand) (number : N) (id : string) : IpcEnvelope :=
  {| env_protocol_version := IPC_PROTOCOL_VERSION;
     env_schema_version := RUNTIME_IPC_SCHEMA_VERSION; env_request_id := id;
     env_session_reference := "ipc_session_ref"; env_client_nonce := "client_nonce";
     env_server_nonce := "server_nonce"; env_sequence_number := number;
     env_command_id := command_as_str command; env_response_status := "request";
     env_payload := tt |}.
Definition envelope : N → string → IpcEnvelope := envelope_of ScSampleIpHelperOnce.
Definition run (container : N) : outcome N IpcEnvelope :=
  dispatch_envelope session (envelope 1 "request_1") dispatcher (machine container).

Lemma sample_admitted :
  admitted dispatcher session (envelope 1 "request_1") ScSampleIpHelperOnce.
Proof. constructor; by vm_compute. Qed.
Lemma run_0_done : match run 0 with
  Done _ _ m => (cell_state (m_cell m) =? 1) = true | Blocked _ _ => False end.
Proof. by vm_compute. Qed.
Lemma run_1_blocked : match run 1 with Done _ _ _ => False | Blocked _ _ => True end.
Proof. by vm_compute. Qed.

Lemma container_change_authorized_witness :
  match run 0 with
  | Done answer d' m' =>
      cell_state (m_cell m') = 1 ∧
      ∃ r, authorized dispatcher session McSampleIpHelperNow request r ∧
        execution_records (sd_mutation_authorization d') !! mer_decision_ref request =
        Some (set_consumed r) ∧ xr_consumed (set_consumed r) = true
  | Blocked _ _ => False
  end.
Proof.
  pose proof run_0_done as Hdone.
  destruct (run 0) as [answer d' m'|] eqn:Hrun; [|exact Hdone].
  apply N.eqb_eq in Hdone as Hone. clear Hdone.
  split; [done|].
  destruct (container_change_authorized session (envelope 1 "request_1") dispatcher (machine 0)
    answer d' m' eq_refl (λ _ _, eq_refl) Hrun)
    as (sc & c & req & config & r & Ha & Hm & _ & _ & Hcarries & Hau & Hrec & Hused).
  { intros Hcell. rewrite Hcell in Hone. discriminate. }
  destruct Ha as [_ _ Hp]. vm_compute in Hp. injection Hp as <-. injection Hm as <-.
  destruct Hcarries as [Hj _]. injection Hj as <-. exists r. split; [exact Hau|].
  split; [rewrite Hrec; apply lookup_insert_eq|exact Hused].
Defined.

Lemma requests_answered_witness :
  match run 1 with
  | Done _ _ _ => False
  | Blocked _ m' =>
      ∃ decision, operation_failed ScSampleIpHelperOnce request None decision m' ∧
        cell_state (m_cell m') = 1
  end.
Proof.
  pose proof (requests_answered session (envelope 1 "request_1") dispatcher (machine 1) eq_refl)
    as Ha. fold (run 1) in Ha.
  pose proof run_1_blocked as Hb. destruct (run 1) as [|d' m']; [destruct Hb|].
  destruct Ha as (sc & req & config & decision & evaluator & Had & Hg & Hf & Hq).
  destruct Had as [_ _ Hp]. vm_compute in Hp. injection Hp as <-.
  destruct Hg as [[Hj ->] _]. injection Hj as <-. exists decision. split; [exact Hf|].
  rewrite (Hq (λ _ _, eq_refl)). reflexivity.
Defined.

Lemma failed_operation_blocks_witness :
  settled 1 dispatcher (machine 1) ∧ is_blocked (run 1).
Proof.
  assert (settled 1 dispatcher (machine 1)) as Hs by by constructor.
  split; [exact Hs|].
  assert (match (consume_execution_authorization evaluated request "ipc_session_ref"
    McSampleIpHelperNow 7 (20 * 1000000)).2 with
    Ok decision => mad_ownership_epoch decision = 7 | Err _ => False end) as Hepoch
    by by vm_compute.
  destruct (consume_execution_authorization evaluated request "ipc_session_ref"
    McSampleIpHelperNow 7 (20 * 1000000)).2 as [decision|reason] eqn:Hc; [|destruct Hepoch].
  refine (failed_operation_blocks session (envelope 1 "request_1") ScSampleIpHelperOnce
    McSampleIpHelperNow request decision 1 dispatcher (machine 1) Hs sample_admitted eq_refl
    eq_refl Hc (eq_sym Hepoch) (λ _, eq_refl)).
Defined.

Lemma session_requests_bounded_witness :
  ∃ d' m', served session [1] ["request_1"] dispatcher (machine 0) d' m' ∧ NoDup ["request_1"].
Proof.
  pose proof run_0_done as Hdone.
  destruct (run 0) as [answer d' m'|] eqn:Hrun; [|destruct Hdone].
  exists d', m'.
  assert (served session [1] ["request_1"] dispatcher (machine 0) d' m') as Hs.
  { pose proof (served_request session [] [] dispatcher (machine 0) dispatcher (machine 0)
      (envelope 1 "request_1") answer d' m' (served_start _ _ _) Hrun) as Hs.
    replace (is_ok (session_gates dispatcher session (envelope 1 "request_1"))) with true
      in Hs by (vm_compute; reflexivity).
    replace (is_ok (remember_nonce (sd_replay dispatcher) "request_id"
      (env_request_id (envelope 1 "request_1"))).2) with true in Hs
      by (vm_compute; reflexivity).
    exact Hs. }
  split; [exact Hs|].
  refine (proj2 (proj2 (session_requests_bounded session [1] ["request_1"] dispatcher (machine 0)
    d' m' [] Hs eq_refl eq_refl _))).
  split; [reflexivity|reflexivity|constructor].
Defined.

(** A session from its start: the intent is evaluated, the approval used, and named again. *)
Definition fresh_dispatcher : ServiceCommandDispatcher :=
  set_mutation_authorization fresh dispatcher.
Definition approving : outcome N IpcEnvelope :=
  dispatch_envelope session (envelope_of ScEvaluateMutationIntent 1 "request_1")
    fresh_dispatcher (machine 0).
Definition executing (o : outcome N IpcEnvelope) : outcome N IpcEnvelope :=
  match o with
  | Done _ d m => dispatch_envelope session (envelope 2 "request_2") d m
  | Blocked d m => Blocked d m
  end.
Definition state_after (o : outcome N IpcEnvelope) : option N :=
  match o with Done _ _ m => Some (cell_state (m_cell m)) | Blocked _ _ => None end.
Lemma approval_used_run : state_after approving = Some 0 ∧ state_after (executing approving) = Some 1.
Proof. split; by vm_compute. Qed.

Lemma approval_used_once_witness :
  state_after approving = Some 0 ∧ state_after (executing approving) = Some 1 ∧
  match executing approving with
  | Done _ d m =>
      ∃ answer' d' m', dispatch_envelope session (envelope 3 "request_3") d m =
        Done answer' d' m' ∧ m_cell m' = m_cell m
  | Blocked _ _ => False
  end.
Proof.
  destruct approval_used_run as [H0 H1]. split; [exact H0|]. split; [exact H1|].
  destruct approving as [answer d m|] eqn:Happ; [|discriminate H0]. cbn [executing] in *.
  destruct (dispatch_envelope session (envelope 2 "request_2") d m) as [answer1 d1 m1|] eqn:Hd;
    [|discriminate H1].
  injection H0 as H0. injection H1 as H1.
  refine (approval_used_once session _ _ fresh_dispatcher (machine 0) d m
    (envelope 2 "request_2") answer1 d1 m1 [] [] d1 m1 (envelope 3 "request_3")
    ScSampleIpHelperOnce request None ScSampleIpHelperOnce request None
    eq_refl (λ _ _, eq_refl) eq_refl eq_refl
    (served_request session [] [] fresh_dispatcher (machine 0) fresh_dispatcher (machine 0)
       _ _ _ _ (served_start _ _ _) Happ)
    Hd _ eq_refl (conj eq_refl eq_refl) (served_start _ _ _) eq_refl
    (conj eq_refl eq_refl) eq_refl).
  intros Hcell. rewrite Hcell, H0 in H1. discriminate H1.
Defined.

Lemma session_established_witness :
  ∃ stream' r d' m',
    complete_session (mkPipe [] [] 0 (mkIoError BrokenPipe None "closed"))
      (mkPendingSession "s" "c" "v" "n") caller dispatcher (machine 0) =
    Done (stream', r) d' m' ∧ is_ok r = false ∧ session_view d' = session_view dispatcher.
Proof.
  destruct (session_established (mkPipe [] [] 0 (mkIoError BrokenPipe None "closed"))
    (mkPendingSession "s" "c" "v" "n") caller dispatcher (machine 0) eq_refl)
    as (stream' & r & d' & m' & Hc & _ & Hr).
  exists stream', r, d', m'. split; [exact Hc|].
  assert (is_ok r = false) as Hf.
  { pose proof (f_equal (λ o, match o with
      Done (_, r) _ _ => is_ok r | Blocked _ _ => true end) Hc) as Hb.
    rewrite <- Hb. by vm_compute. }
  split; [exact Hf|]. by destruct r.
Defined.

Lemma closed_connection_powerless_witness :
  ∃ d' m', connection_closed dispatcher (machine 0) = Done tt d' m' ∧
    execution_records (sd_mutation_authorization d') !! "mutation_decision_0" = None ∧
    is_Some (execution_records evaluated !! "mutation_decision_0").
Proof.
  destruct (closed_connection_powerless dispatcher (machine 0) eq_refl)
    as (d' & m' & Hc & _ & _ & Hx & _).
  exists d', m'. split; [exact Hc|]. split; [|by vm_compute; eexists].
  destruct (execution_records (sd_mutation_authorization d') !! "mutation_decision_0")
    as [r|] eqn:Hr; [|done]. exfalso.
  apply (Hx "ipc_session_ref" _ _ eq_refl Hr).
  assert (match connection_closed dispatcher (machine 0) with
    Done _ d _ | Blocked d _ => negb (bool_decide (is_Some (execution_records (sd_mutation_authorization d)
      !! "mutation_decision_0"))) end = true) as Hnone by by vm_compute.
  rewrite Hc in Hnone. by rewrite Hr in Hnone.
Defined.
End DispatchSample.
