(* ===== verification/Topics.v ===== *)
(** * Topics ([platform/src/event_bus/topic.rs])

    Topic names and their grammar, layers, priority lanes, topics, and the
    table of the core topics the bus is created with. [expect] panics are
    [None]: that the table never panics is proved, not assumed. *)

From S2P Require Import Prelude Collections RustStr Effects Contracts.

#[local] Open Scope string_scope.
#[local] Open Scope N_scope.

(* ------------------------------------------------------------------ *)
(** ** The names of the core topics *)

(* [event_bus/topic.rs] RAW_PACKET_METADATA *)
Definition RAW_PACKET_METADATA : string := "raw.packet.metadata".
(* [event_bus/topic.rs] NETWORK_PACKET_RECORD *)
Definition NETWORK_PACKET_RECORD : string := "network.packet.record".
(* [event_bus/topic.rs] NETWORK_FLOW_RECORD *)
Definition NETWORK_FLOW_RECORD : string := "network.flow.record".
(* [event_bus/topic.rs] NETWORK_SESSION_RECORD *)
Definition NETWORK_SESSION_RECORD : string := "network.session.record".
(* [event_bus/topic.rs] NETWORK_DNS_OBSERVATION *)
Definition NETWORK_DNS_OBSERVATION : string := "network.dns.observation".
(* [event_bus/topic.rs] NETWORK_TLS_OBSERVATION *)
Definition NETWORK_TLS_OBSERVATION : string := "network.tls.observation".
(* [event_bus/topic.rs] NETWORK_HTTP_METADATA *)
Definition NETWORK_HTTP_METADATA : string := "network.http.metadata".
(* [event_bus/topic.rs] IDENTITY_AUTH_METADATA *)
Definition IDENTITY_AUTH_METADATA : string := "identity.auth_metadata".
(* [event_bus/topic.rs] IDENTITY_RDP_OPERATIONAL_METADATA *)
Definition IDENTITY_RDP_OPERATIONAL_METADATA : string := "identity.rdp_operational_metadata".
(* [event_bus/topic.rs] IDENTITY_SMB_OPERATIONAL_METADATA *)
Definition IDENTITY_SMB_OPERATIONAL_METADATA : string := "identity.smb_operational_metadata".
(* [event_bus/topic.rs] IDENTITY_SSH_OPERATIONAL_METADATA *)
Definition IDENTITY_SSH_OPERATIONAL_METADATA : string := "identity.ssh_operational_metadata".
(* [event_bus/topic.rs] CLOUD_SAAS_METADATA *)
Definition CLOUD_SAAS_METADATA : string := "cloud.saas_metadata".
(* [event_bus/topic.rs] DECEPTION_EVENT_METADATA *)
Definition DECEPTION_EVENT_METADATA : string := "deception.event_metadata".
(* [event_bus/topic.rs] IDENTITY_PROCESS_CONTEXT *)
Definition IDENTITY_PROCESS_CONTEXT : string := "identity.process_context".
(* [event_bus/topic.rs] IDENTITY_FLOW_ATTRIBUTION *)
Definition IDENTITY_FLOW_ATTRIBUTION : string := "identity.flow_attribution".
(* [event_bus/topic.rs] SERVICE_CAPABILITY_STATUS *)
Definition SERVICE_CAPABILITY_STATUS : string := "service.capability_status".
(* [event_bus/topic.rs] NATIVE_CAPABILITY_STATUS *)
Definition NATIVE_CAPABILITY_STATUS : string := "native.capability.status".
(* [event_bus/topic.rs] NATIVE_PERMISSION_STATUS *)
Definition NATIVE_PERMISSION_STATUS : string := "native.permission.status".
(* [event_bus/topic.rs] NATIVE_SAMPLER_CONTRACT *)
Definition NATIVE_SAMPLER_CONTRACT : string := "native.sampler.contract".
(* [event_bus/topic.rs] NATIVE_SAMPLER_READINESS *)
Definition NATIVE_SAMPLER_READINESS : string := "native.sampler.readiness".
(* [event_bus/topic.rs] NATIVE_SAMPLER_REVIEW *)
Definition NATIVE_SAMPLER_REVIEW : string := "native.sampler.review".
(* [event_bus/topic.rs] NATIVE_SAMPLER_RUNTIME_STATUS *)
Definition NATIVE_SAMPLER_RUNTIME_STATUS : string := "native.sampler.runtime_status".
(* [event_bus/topic.rs] NATIVE_SCHEDULER_STATUS *)
Definition NATIVE_SCHEDULER_STATUS : string := "native.scheduler.status".
(* [event_bus/topic.rs] NATIVE_SCHEDULER_CYCLE_STARTED *)
Definition NATIVE_SCHEDULER_CYCLE_STARTED : string := "native.scheduler.cycle_started".
(* [event_bus/topic.rs] NATIVE_SCHEDULER_CYCLE_COMPLETED *)
Definition NATIVE_SCHEDULER_CYCLE_COMPLETED : string := "native.scheduler.cycle_completed".
(* [event_bus/topic.rs] NATIVE_SCHEDULER_CYCLE_SKIPPED *)
Definition NATIVE_SCHEDULER_CYCLE_SKIPPED : string := "native.scheduler.cycle_skipped".
(* [event_bus/topic.rs] NATIVE_SCHEDULER_EXECUTION_CONTROL *)
Definition NATIVE_SCHEDULER_EXECUTION_CONTROL : string := "native.scheduler.execution_control".
(* [event_bus/topic.rs] NATIVE_SCHEDULER_BACKPRESSURE *)
Definition NATIVE_SCHEDULER_BACKPRESSURE : string := "native.scheduler.backpressure".
(* [event_bus/topic.rs] NATIVE_SCHEDULER_FRESHNESS *)
Definition NATIVE_SCHEDULER_FRESHNESS : string := "native.scheduler.freshness".
(* [event_bus/topic.rs] NATIVE_SCHEDULER_MISSED_SAMPLE *)
Definition NATIVE_SCHEDULER_MISSED_SAMPLE : string := "native.scheduler.missed_sample".
(* [event_bus/topic.rs] NATIVE_SCHEDULER_HOST_STATUS *)
Definition NATIVE_SCHEDULER_HOST_STATUS : string := "native.scheduler.host_status".
(* [event_bus/topic.rs] NATIVE_SCHEDULER_HOST_STARTED *)
Definition NATIVE_SCHEDULER_HOST_STARTED : string := "native.scheduler.host_started".
(* [event_bus/topic.rs] NATIVE_SCHEDULER_HOST_WAKE *)
Definition NATIVE_SCHEDULER_HOST_WAKE : string := "native.scheduler.host_wake".
(* [event_bus/topic.rs] NATIVE_SCHEDULER_HOST_PAUSED *)
Definition NATIVE_SCHEDULER_HOST_PAUSED : string := "native.scheduler.host_paused".
(* [event_bus/topic.rs] NATIVE_SCHEDULER_HOST_RESUMED *)
Definition NATIVE_SCHEDULER_HOST_RESUMED : string := "native.scheduler.host_resumed".
(* [event_bus/topic.rs] NATIVE_SCHEDULER_HOST_STOPPED *)
Definition NATIVE_SCHEDULER_HOST_STOPPED : string := "native.scheduler.host_stopped".
(* [event_bus/topic.rs] NATIVE_SCHEDULER_HOST_FAILED *)
Definition NATIVE_SCHEDULER_HOST_FAILED : string := "native.scheduler.host_failed".
(* [event_bus/topic.rs] NATIVE_SCHEDULER_HOST_TASK_STARTED *)
Definition NATIVE_SCHEDULER_HOST_TASK_STARTED : string := "native.scheduler.host_task_started".
(* [event_bus/topic.rs] NATIVE_SCHEDULER_HOST_TASK_WAKE *)
Definition NATIVE_SCHEDULER_HOST_TASK_WAKE : string := "native.scheduler.host_task_wake".
(* [event_bus/topic.rs] NATIVE_SCHEDULER_HOST_TASK_IDLE *)
Definition NATIVE_SCHEDULER_HOST_TASK_IDLE : string := "native.scheduler.host_task_idle".
(* [event_bus/topic.rs] NATIVE_SCHEDULER_HOST_TASK_PAUSED *)
Definition NATIVE_SCHEDULER_HOST_TASK_PAUSED : string := "native.scheduler.host_task_paused".
(* [event_bus/topic.rs] NATIVE_SCHEDULER_HOST_TASK_RESUMED *)
Definition NATIVE_SCHEDULER_HOST_TASK_RESUMED : string := "native.scheduler.host_task_resumed".
(* [event_bus/topic.rs] NATIVE_SCHEDULER_HOST_TASK_STOPPING *)
Definition NATIVE_SCHEDULER_HOST_TASK_STOPPING : string := "native.scheduler.host_task_stopping".
(* [event_bus/topic.rs] NATIVE_SCHEDULER_HOST_TASK_STOPPED *)
Definition NATIVE_SCHEDULER_HOST_TASK_STOPPED : string := "native.scheduler.host_task_stopped".
(* [event_bus/topic.rs] NATIVE_SCHEDULER_HOST_TASK_FAILED *)
Definition NATIVE_SCHEDULER_HOST_TASK_FAILED : string := "native.scheduler.host_task_failed".
(* [event_bus/topic.rs] NATIVE_SCHEDULER_HOST_TASK_JOINED *)
Definition NATIVE_SCHEDULER_HOST_TASK_JOINED : string := "native.scheduler.host_task_joined".
(* [event_bus/topic.rs] NETWORK_PROVIDER_CONTROLLER_STATUS *)
Definition NETWORK_PROVIDER_CONTROLLER_STATUS : string := "network.provider_controller.status".
(* [event_bus/topic.rs] NETWORK_PROVIDER_STATUS *)
Definition NETWORK_PROVIDER_STATUS : string := "network.provider.status".
(* [event_bus/topic.rs] NETWORK_VISIBILITY_STATUS *)
Definition NETWORK_VISIBILITY_STATUS : string := "network.visibility.status".
(* [event_bus/topic.rs] AUDIT_NETWORK_PROVIDER_CONTROLLER *)
Definition AUDIT_NETWORK_PROVIDER_CONTROLLER : string := "audit.network_provider_controller".
(* [event_bus/topic.rs] AUDIT_NETWORK_PROVIDER_EXECUTION *)
Definition AUDIT_NETWORK_PROVIDER_EXECUTION : string := "audit.network_provider_execution".
(* [event_bus/topic.rs] NATIVE_IP_HELPER_METADATA *)
Definition NATIVE_IP_HELPER_METADATA : string := "native.ip_helper.metadata".
(* [event_bus/topic.rs] NATIVE_ETW_NETWORK_METADATA *)
Definition NATIVE_ETW_NETWORK_METADATA : string := "native.etw_network.metadata".
(* [event_bus/topic.rs] NATIVE_CONNECTION_CATEGORY_FACT *)
Definition NATIVE_CONNECTION_CATEGORY_FACT : string := "native.connection.category_fact".
(* [event_bus/topic.rs] NATIVE_HEALTH_METADATA *)
Definition NATIVE_HEALTH_METADATA : string := "native.health.metadata".
(* [event_bus/topic.rs] NATIVE_SERVICE_METADATA *)
Definition NATIVE_SERVICE_METADATA : string := "native.service.metadata".
(* [event_bus/topic.rs] NATIVE_PROCESS_METADATA *)
Definition NATIVE_PROCESS_METADATA : string := "native.process.metadata".
(* [event_bus/topic.rs] NATIVE_PROCESS_PARENT_METADATA *)
Definition NATIVE_PROCESS_PARENT_METADATA : string := "native.process_parent.metadata".
(* [event_bus/topic.rs] ENDPOINT_NATIVE_HEALTH_CATEGORY_FACT *)
Definition ENDPOINT_NATIVE_HEALTH_CATEGORY_FACT : string := "endpoint.native_health.category_fact".
(* [event_bus/topic.rs] ENDPOINT_SERVICE_CATEGORY_FACT *)
Definition ENDPOINT_SERVICE_CATEGORY_FACT : string := "endpoint.service.category_fact".
(* [event_bus/topic.rs] ENDPOINT_PROCESS_CATEGORY_FACT *)
Definition ENDPOINT_PROCESS_CATEGORY_FACT : string := "endpoint.process.category_fact".
(* [event_bus/topic.rs] ENDPOINT_PROCESS_PARENT_CATEGORY_FACT *)
Definition ENDPOINT_PROCESS_PARENT_CATEGORY_FACT : string := "endpoint.process_parent.category_fact".
(* [event_bus/topic.rs] ENDPOINT_THREAT_CANDIDATE *)
Definition ENDPOINT_THREAT_CANDIDATE : string := "endpoint.threat.candidate".
(* [event_bus/topic.rs] ENDPOINT_THREAT_FINDING *)
Definition ENDPOINT_THREAT_FINDING : string := "endpoint.threat.finding".
(* [event_bus/topic.rs] ENDPOINT_THREAT_EVIDENCE *)
Definition ENDPOINT_THREAT_EVIDENCE : string := "endpoint.threat.evidence".
(* [event_bus/topic.rs] ENDPOINT_THREAT_RISK_HINT *)
Definition ENDPOINT_THREAT_RISK_HINT : string := "endpoint.threat.risk_hint".
(* [event_bus/topic.rs] ENDPOINT_VISIBILITY_ADVISORY *)
Definition ENDPOINT_VISIBILITY_ADVISORY : string := "endpoint.visibility.advisory".
(* [event_bus/topic.rs] ENDPOINT_THREAT_REJECTED *)
Definition ENDPOINT_THREAT_REJECTED : string := "endpoint.threat.rejected".
(* [event_bus/topic.rs] NATIVE_VISIBILITY_STATUS *)
Definition NATIVE_VISIBILITY_STATUS : string := "native.visibility.status".
(* [event_bus/topic.rs] SECURITY_VISIBILITY_STATUS *)
Definition SECURITY_VISIBILITY_STATUS : string := "security.visibility.status".
(* [event_bus/topic.rs] SECURITY_VISIBILITY_DEGRADED *)
Definition SECURITY_VISIBILITY_DEGRADED : string := "security.visibility.degraded".
(* [event_bus/topic.rs] AUDIT_NATIVE_PERMISSION *)
Definition AUDIT_NATIVE_PERMISSION : string := "audit.native_permission".
(* [event_bus/topic.rs] AUDIT_NATIVE_SAMPLER_REVIEW *)
Definition AUDIT_NATIVE_SAMPLER_REVIEW : string := "audit.native_sampler_review".
(* [event_bus/topic.rs] AUDIT_NATIVE_SAMPLER_RUNTIME *)
Definition AUDIT_NATIVE_SAMPLER_RUNTIME : string := "audit.native_sampler_runtime".
(* [event_bus/topic.rs] AUDIT_NATIVE_SCHEDULER *)
Definition AUDIT_NATIVE_SCHEDULER : string := "audit.native_scheduler".
(* [event_bus/topic.rs] AUDIT_NATIVE_SCHEDULER_HOST *)
Definition AUDIT_NATIVE_SCHEDULER_HOST : string := "audit.native_scheduler_host".
(* [event_bus/topic.rs] AUDIT_ENDPOINT_THREAT_ANALYSIS *)
Definition AUDIT_ENDPOINT_THREAT_ANALYSIS : string := "audit.endpoint_threat_analysis".
(* [event_bus/topic.rs] INTEL_DOMAIN_CONTEXT *)
Definition INTEL_DOMAIN_CONTEXT : string := "intel.domain_context".
(* [event_bus/topic.rs] INTEL_IP_CONTEXT *)
Definition INTEL_IP_CONTEXT : string := "intel.ip_context".
(* [event_bus/topic.rs] INTEL_CLOUD_CONTEXT *)
Definition INTEL_CLOUD_CONTEXT : string := "intel.cloud_context".
(* [event_bus/topic.rs] INTEL_CERTIFICATE_CONTEXT *)
Definition INTEL_CERTIFICATE_CONTEXT : string := "intel.certificate_context".
(* [event_bus/topic.rs] ASSET_RECORD *)
Definition ASSET_RECORD : string := "asset.record".
(* [event_bus/topic.rs] ASSET_SERVICE_RECORD *)
Definition ASSET_SERVICE_RECORD : string := "asset.service_record".
(* [event_bus/topic.rs] ASSET_PORT_EXPOSURE *)
Definition ASSET_PORT_EXPOSURE : string := "asset.port_exposure".
(* [event_bus/topic.rs] ASSET_EXPOSURE_OBSERVATION *)
Definition ASSET_EXPOSURE_OBSERVATION : string := "asset.exposure.observation".
(* [event_bus/topic.rs] ASSET_EXPOSURE *)
Definition ASSET_EXPOSURE : string := "asset.exposure".
(* [event_bus/topic.rs] NETWORK_SDN_CONTROL_PLANE_METADATA *)
Definition NETWORK_SDN_CONTROL_PLANE_METADATA : string := "network.sdn_control_plane.metadata".
(* [event_bus/topic.rs] SECURITY_FINDING_ASSET_RISK *)
Definition SECURITY_FINDING_ASSET_RISK : string := "security.finding.asset_risk".
(* [event_bus/topic.rs] SECURITY_OBSERVATION *)
Definition SECURITY_OBSERVATION : string := "security.observation".
(* [event_bus/topic.rs] SECURITY_FUSION_CONTEXT *)
Definition SECURITY_FUSION_CONTEXT : string := "security.fusion.context".
(* [event_bus/topic.rs] SECURITY_FACT *)
Definition SECURITY_FACT : string := "security.fact".
(* [event_bus/topic.rs] SECURITY_HYPOTHESIS *)
Definition SECURITY_HYPOTHESIS : string := "security.hypothesis".
(* [event_bus/topic.rs] SECURITY_FUSION_SUMMARY *)
Definition SECURITY_FUSION_SUMMARY : string := "security.fusion.summary".
(* [event_bus/topic.rs] SECURITY_FINDING *)
Definition SECURITY_FINDING : string := "security.finding".
(* [event_bus/topic.rs] SECURITY_EVIDENCE *)
Definition SECURITY_EVIDENCE : string := "security.evidence".
(* [event_bus/topic.rs] SECURITY_RISK *)
Definition SECURITY_RISK : string := "security.risk".
(* [event_bus/topic.rs] SECURITY_ALERT *)
Definition SECURITY_ALERT : string := "security.alert".
(* [event_bus/topic.rs] SECURITY_INCIDENT *)
Definition SECURITY_INCIDENT : string := "security.incident".
(* [event_bus/topic.rs] GRAPH_HINT *)
Definition GRAPH_HINT : string := "graph.hint".
(* [event_bus/topic.rs] GRAPH_UPDATE *)
Definition GRAPH_UPDATE : string := "graph.update".
(* [event_bus/topic.rs] GRAPH_PATH *)
Definition GRAPH_PATH : string := "graph.path".
(* [event_bus/topic.rs] RESPONSE_PLAN *)
Definition RESPONSE_PLAN : string := "response.plan".
(* [event_bus/topic.rs] RESPONSE_POLICY_DECISION *)
Definition RESPONSE_POLICY_DECISION : string := "response.policy.decision".
(* [event_bus/topic.rs] RESPONSE_APPROVAL_REQUEST *)
Definition RESPONSE_APPROVAL_REQUEST : string := "response.approval.request".
(* [event_bus/topic.rs] RESPONSE_APPROVAL_RESULT *)
Definition RESPONSE_APPROVAL_RESULT : string := "response.approval.result".
(* [event_bus/topic.rs] RESPONSE_RESULT *)
Definition RESPONSE_RESULT : string := "response.result".
(* [event_bus/topic.rs] RESPONSE_ROLLBACK_RESULT *)
Definition RESPONSE_ROLLBACK_RESULT : string := "response.rollback.result".
(* [event_bus/topic.rs] OPERATIONAL_HEALTH *)
Definition OPERATIONAL_HEALTH : string := "operational.health".
(* [event_bus/topic.rs] OPERATIONAL_METRIC *)
Definition OPERATIONAL_METRIC : string := "operational.metric".
(* [event_bus/topic.rs] AUDIT_EVENT *)
Definition AUDIT_EVENT : string := "audit.event".
(* [event_bus/topic.rs] REPORT_GENERATED *)
Definition REPORT_GENERATED : string := "report.generated".
(* [event_bus/topic.rs] REPORT_EXPORTED *)
Definition REPORT_EXPORTED : string := "report.exported".

(* ------------------------------------------------------------------ *)
(** ** Names, layers, lanes *)

(* [event_bus/topic.rs] TopicName *)
Record TopicName := mkTopicName { topic_str : string }.
#[export] Instance TopicName_eq_dec : EqDecision TopicName.
Proof. solve_decision. Defined.
#[export] Instance TopicName_countable : Countable TopicName.
Proof. by apply (inj_countable' topic_str mkTopicName); intros []. Defined.

(* [event_bus/topic.rs] TopicNameError *)
Record TopicNameError := mkTopicNameError { rejected_name : string }.

(* [event_bus/topic.rs] is_topic_char *)
Definition is_topic_char (c : ascii) : bool :=
  is_ascii_lowercase c || is_ascii_digit c || bool_decide (c = "_"%char).

(* [event_bus/topic.rs] TopicName::new *)
Definition TopicName_new (value : string) : result TopicName TopicNameError :=
  let valid :=
    negb (blank value) &&
    forallb (λ part, negb (bool_decide (part = "")) && all_chars is_topic_char part)
      (split is_dot value) in
  if valid then Ok (mkTopicName value) else Err (mkTopicNameError value).

(* [event_bus/topic.rs] TopicLayer *)
Inductive TopicLayer :=
  | LRaw | LNetwork | LContext | LSecurity | LGraph | LResponse
  | LOperational | LAudit | LReport.
#[export] Instance TopicLayer_eq_dec : EqDecision TopicLayer.
Proof. solve_decision. Defined.

(* [event_bus/topic.rs] PriorityLane *)
Inductive PriorityLane :=
  | P0Critical | P1High | P2Normal | P3Low | P4BestEffort | P5UiRefresh.
#[export] Instance PriorityLane_eq_dec : EqDecision PriorityLane.
Proof. solve_decision. Defined.

(* [event_bus/topic.rs] PriorityLane::can_drop_under_pressure *)
Definition can_drop_under_pressure (lane : PriorityLane) : bool :=
  match lane with
  | P3Low | P4BestEffort | P5UiRefresh => true
  | _ => false
  end.

(* [event_bus/topic.rs] PriorityLane::rank *)
Definition rank (lane : PriorityLane) : N :=
  match lane with
  | P0Critical => 0
  | P1High => 1
  | P2Normal => 2
  | P3Low => 3
  | P4BestEffort => 4
  | P5UiRefresh => 5
  end.

(* ------------------------------------------------------------------ *)
(** ** Topics *)

(* [event_bus/topic.rs] Topic *)
Record Topic := mkTopic {
  topic_name : TopicName;
  topic_layer : TopicLayer;
  topic_schema_version : SchemaVersion;
  default_priority : PriorityLane;
  protected_delivery : bool;
  topic_description : option string
}.
#[export] Instance Topic_eq_dec : EqDecision Topic.
Proof. solve_decision. Defined.

(* [event_bus/topic.rs] Topic::new *)
Definition Topic_new (name : TopicName) (layer : TopicLayer)
    (version : SchemaVersion) (priority : PriorityLane) : Topic :=
  {| topic_name := name;
     topic_layer := layer;
     topic_schema_version := version;
     default_priority := priority;
     protected_delivery := match priority with P0Critical | P1High => true | _ => false end;
     topic_description := None |}.

(* [event_bus/topic.rs] Topic::protected *)
Definition protected (t : Topic) : Topic :=
  {| topic_name := topic_name t;
     topic_layer := topic_layer t;
     topic_schema_version := topic_schema_version t;
     default_priority := default_priority t;
     protected_delivery := true;
     topic_description := topic_description t |}.

(* [event_bus/topic.rs] Topic::is_schema_compatible *)
Definition is_schema_compatible (t : Topic) (actual : SchemaVersion) : bool :=
  Schema.major (topic_schema_version t) =? Schema.major actual.

(* [event_bus/topic.rs] topic *)
Definition topic (name : string) (layer : TopicLayer) (priority : PriorityLane)
    (version : SchemaVersion) : option Topic :=
  match TopicName_new name with
  | Ok name => Some (Topic_new name layer version priority)
  | Err _ => None
  end.

(* ------------------------------------------------------------------ *)
(** ** The core table *)

Definition v1 : SchemaVersion := mkVersion 1 0 0.

(* [event_bus/topic.rs:257-401] core_v1_topics *)
Definition core_v1_topics_1 : list (option Topic) :=
  [ topic RAW_PACKET_METADATA LRaw P2Normal v1;
    topic NETWORK_PACKET_RECORD LNetwork P2Normal v1;
    topic NETWORK_FLOW_RECORD LNetwork P2Normal v1;
    topic NETWORK_SESSION_RECORD LNetwork P2Normal v1;
    topic NETWORK_DNS_OBSERVATION LNetwork P2Normal v1;
    topic NETWORK_TLS_OBSERVATION LNetwork P2Normal v1;
    topic NETWORK_HTTP_METADATA LNetwork P2Normal v1;
    topic IDENTITY_AUTH_METADATA LContext P2Normal v1;
    topic IDENTITY_RDP_OPERATIONAL_METADATA LContext P2Normal v1;
    topic IDENTITY_SMB_OPERATIONAL_METADATA LContext P2Normal v1;
    topic IDENTITY_SSH_OPERATIONAL_METADATA LContext P2Normal v1;
    topic CLOUD_SAAS_METADATA LContext P2Normal v1;
    topic DECEPTION_EVENT_METADATA LContext P2Normal v1;
    topic IDENTITY_PROCESS_CONTEXT LContext P2Normal v1;
    topic IDENTITY_FLOW_ATTRIBUTION LContext P2Normal v1;
    topic SERVICE_CAPABILITY_STATUS LContext P2Normal v1;
    topic NATIVE_CAPABILITY_STATUS LContext P2Normal v1;
    protected <$> topic NATIVE_PERMISSION_STATUS LContext P1High v1;
    topic NATIVE_SAMPLER_CONTRACT LContext P2Normal v1;
    topic NATIVE_SAMPLER_READINESS LContext P2Normal v1;
    topic NATIVE_SAMPLER_REVIEW LContext P2Normal v1;
    topic NATIVE_SAMPLER_RUNTIME_STATUS LContext P2Normal v1;
    topic NATIVE_SCHEDULER_STATUS LContext P2Normal v1;
    topic NATIVE_SCHEDULER_CYCLE_STARTED LContext P2Normal v1 ].

(* [event_bus/topic.rs:402-545] core_v1_topics *)
Definition core_v1_topics_2 : list (option Topic) :=
  [ topic NATIVE_SCHEDULER_CYCLE_COMPLETED LContext P2Normal v1;
    topic NATIVE_SCHEDULER_CYCLE_SKIPPED LContext P2Normal v1;
    topic NATIVE_SCHEDULER_EXECUTION_CONTROL LContext P2Normal v1;
    topic NATIVE_SCHEDULER_BACKPRESSURE LContext P2Normal v1;
    topic NATIVE_SCHEDULER_FRESHNESS LContext P2Normal v1;
    topic NATIVE_SCHEDULER_MISSED_SAMPLE LContext P2Normal v1;
    topic NATIVE_SCHEDULER_HOST_STATUS LContext P2Normal v1;
    topic NATIVE_SCHEDULER_HOST_STARTED LContext P2Normal v1;
    topic NATIVE_SCHEDULER_HOST_WAKE LContext P2Normal v1;
    topic NATIVE_SCHEDULER_HOST_PAUSED LContext P2Normal v1;
    topic NATIVE_SCHEDULER_HOST_RESUMED LContext P2Normal v1;
    topic NATIVE_SCHEDULER_HOST_STOPPED LContext P2Normal v1;
    topic NATIVE_SCHEDULER_HOST_FAILED LContext P2Normal v1;
    topic NATIVE_SCHEDULER_HOST_TASK_STARTED LContext P2Normal v1;
    topic NATIVE_SCHEDULER_HOST_TASK_WAKE LContext P2Normal v1;
    topic NATIVE_SCHEDULER_HOST_TASK_IDLE LContext P2Normal v1;
    topic NATIVE_SCHEDULER_HOST_TASK_PAUSED LContext P2Normal v1;
    topic NATIVE_SCHEDULER_HOST_TASK_RESUMED LContext P2Normal v1;
    topic NATIVE_SCHEDULER_HOST_TASK_STOPPING LContext P2Normal v1;
    topic NATIVE_SCHEDULER_HOST_TASK_STOPPED LContext P2Normal v1;
    topic NATIVE_SCHEDULER_HOST_TASK_FAILED LContext P2Normal v1;
    topic NATIVE_SCHEDULER_HOST_TASK_JOINED LContext P2Normal v1;
    topic NETWORK_PROVIDER_CONTROLLER_STATUS LContext P2Normal v1;
    topic NETWORK_PROVIDER_STATUS LContext P2Normal v1 ].

(* [event_bus/topic.rs:546-691] core_v1_topics *)
Definition core_v1_topics_3 : list (option Topic) :=
  [ topic NETWORK_VISIBILITY_STATUS LContext P2Normal v1;
    topic NATIVE_IP_HELPER_METADATA LContext P2Normal v1;
    topic NATIVE_ETW_NETWORK_METADATA LContext P2Normal v1;
    topic NATIVE_CONNECTION_CATEGORY_FACT LSecurity P2Normal v1;
    topic NATIVE_HEALTH_METADATA LContext P2Normal v1;
    topic NATIVE_SERVICE_METADATA LContext P2Normal v1;
    topic NATIVE_PROCESS_METADATA LContext P2Normal v1;
    topic NATIVE_PROCESS_PARENT_METADATA LContext P2Normal v1;
    topic ENDPOINT_NATIVE_HEALTH_CATEGORY_FACT LSecurity P2Normal v1;
    topic ENDPOINT_SERVICE_CATEGORY_FACT LSecurity P2Normal v1;
    topic ENDPOINT_PROCESS_CATEGORY_FACT LSecurity P2Normal v1;
    topic ENDPOINT_PROCESS_PARENT_CATEGORY_FACT LSecurity P2Normal v1;
    topic ENDPOINT_THREAT_CANDIDATE LSecurity P2Normal v1;
    protected <$> topic ENDPOINT_THREAT_FINDING LSecurity P1High v1;
    protected <$> topic ENDPOINT_THREAT_EVIDENCE LSecurity P1High v1;
    topic ENDPOINT_THREAT_RISK_HINT LSecurity P2Normal v1;
    topic ENDPOINT_VISIBILITY_ADVISORY LSecurity P2Normal v1;
    topic ENDPOINT_THREAT_REJECTED LSecurity P2Normal v1;
    topic NATIVE_VISIBILITY_STATUS LContext P2Normal v1;
    topic INTEL_DOMAIN_CONTEXT LContext P3Low v1;
    topic INTEL_IP_CONTEXT LContext P3Low v1;
    topic INTEL_CLOUD_CONTEXT LContext P3Low v1;
    topic INTEL_CERTIFICATE_CONTEXT LContext P3Low v1;
    topic ASSET_RECORD LContext P2Normal v1 ].

(* [event_bus/topic.rs:692-837] core_v1_topics *)
Definition core_v1_topics_4 : list (option Topic) :=
  [ topic ASSET_SERVICE_RECORD LContext P2Normal v1;
    topic ASSET_PORT_EXPOSURE LContext P2Normal v1;
    topic ASSET_EXPOSURE_OBSERVATION LContext P2Normal v1;
    topic ASSET_EXPOSURE LContext P2Normal v1;
    topic NETWORK_SDN_CONTROL_PLANE_METADATA LNetwork P2Normal v1;
    topic SECURITY_FINDING_ASSET_RISK LSecurity P2Normal v1;
    protected <$> topic SECURITY_OBSERVATION LSecurity P1High v1;
    topic SECURITY_VISIBILITY_DEGRADED LSecurity P2Normal v1;
    topic SECURITY_VISIBILITY_STATUS LSecurity P2Normal v1;
    topic SECURITY_FUSION_CONTEXT LSecurity P2Normal v1;
    topic SECURITY_FACT LSecurity P2Normal v1;
    protected <$> topic SECURITY_HYPOTHESIS LSecurity P1High v1;
    topic SECURITY_FUSION_SUMMARY LSecurity P2Normal v1;
    protected <$> topic SECURITY_FINDING LSecurity P1High v1;
    protected <$> topic SECURITY_EVIDENCE LSecurity P1High v1;
    protected <$> topic SECURITY_RISK LSecurity P1High v1;
    protected <$> topic SECURITY_ALERT LSecurity P1High v1;
    protected <$> topic SECURITY_INCIDENT LSecurity P0Critical v1;
    topic GRAPH_HINT LGraph P2Normal v1;
    topic GRAPH_UPDATE LGraph P3Low v1;
    topic GRAPH_PATH LGraph P3Low v1;
    protected <$> topic RESPONSE_PLAN LResponse P1High v1;
    protected <$> topic RESPONSE_POLICY_DECISION LResponse P1High v1;
    protected <$> topic RESPONSE_APPROVAL_REQUEST LResponse P1High v1;
    protected <$> topic RESPONSE_APPROVAL_RESULT LResponse P1High v1 ].

(* [event_bus/topic.rs:838-940] core_v1_topics *)
Definition core_v1_topics_5 : list (option Topic) :=
  [ protected <$> topic RESPONSE_RESULT LResponse P0Critical v1;
    protected <$> topic RESPONSE_ROLLBACK_RESULT LResponse P0Critical v1;
    protected <$> topic OPERATIONAL_HEALTH LOperational P1High v1;
    topic OPERATIONAL_METRIC LOperational P3Low v1;
    protected <$> topic AUDIT_EVENT LAudit P0Critical v1;
    protected <$> topic AUDIT_NATIVE_PERMISSION LAudit P1High v1;
    protected <$> topic AUDIT_NATIVE_SAMPLER_REVIEW LAudit P1High v1;
    protected <$> topic AUDIT_NATIVE_SAMPLER_RUNTIME LAudit P1High v1;
    protected <$> topic AUDIT_NATIVE_SCHEDULER LAudit P1High v1;
    protected <$> topic AUDIT_NATIVE_SCHEDULER_HOST LAudit P1High v1;
    protected <$> topic AUDIT_ENDPOINT_THREAT_ANALYSIS LAudit P1High v1;
    protected <$> topic AUDIT_NETWORK_PROVIDER_CONTROLLER LAudit P1High v1;
    protected <$> topic AUDIT_NETWORK_PROVIDER_EXECUTION LAudit P1High v1;
    topic REPORT_GENERATED LReport P4BestEffort v1;
    protected <$> topic REPORT_EXPORTED LReport P1High v1 ].

(* [event_bus/topic.rs:254-255] core_v1_topics *)
Definition core_v1_topics : option (list Topic) :=
  mapM id (core_v1_topics_1 ++ core_v1_topics_2 ++ core_v1_topics_3 ++ core_v1_topics_4 ++ core_v1_topics_5).

(* ------------------------------------------------------------------ *)
(** ** Lemmas *)

Definition topic_part (part : string) : Prop := part ≠ "" ∧ all_chars is_topic_char part = true.

Lemma topic_char_graphic c : is_topic_char c = true → 33 ≤ code c ≤ 126 ∧ is_dot c = false.
Proof. destruct c as [[] [] [] [] [] [] [] []]; try done; intros _; split; done || vm_compute; done. Qed.

Lemma topic_chars_no_dot s :
  all_chars is_topic_char s = true → all_chars (λ c, negb (is_dot c)) s = true.
Proof.
  induction s as [|c s IH]; simpl; [done|]. intros [Hc Hs]%andb_true_iff.
  apply topic_char_graphic in Hc as [_ ->]. by apply IH.
Qed.

Lemma split_join_parts parts :
  parts ≠ [] → Forall topic_part parts → split is_dot (join "." parts) = parts.
Proof.
  intros Hne Hp. induction parts as [|part parts IH]; [done|].
  apply Forall_cons in Hp as [[_ Hpart] Hparts]. apply topic_chars_no_dot in Hpart.
  destruct parts as [|q parts]; [by apply split_no_sep|].
  change (join "." (part :: q :: parts)) with (part ++ String "." (join "." (q :: parts)))%string.
  rewrite split_app by done. by rewrite IH.
Qed.

Lemma join_parts_not_blank parts :
  parts ≠ [] → Forall topic_part parts → blank (join "." parts) = false.
Proof.
  intros Hne Hp. destruct parts as [|part parts]; [done|].
  apply Forall_cons in Hp as [[Hpne Hpart] _]. destruct part as [|c part]; [done|].
  simpl in Hpart. apply andb_true_iff in Hpart as [Hc _].
  apply topic_char_graphic in Hc as [Hc _].
  unfold join. destruct parts; apply blank_graphic, Hc.
Qed.

Lemma topic_parts_forallb parts :
  forallb (λ part, negb (bool_decide (part = "")) && all_chars is_topic_char part) parts = true
  ↔ Forall topic_part parts.
Proof.
  induction parts as [|part parts IH]; simpl; [by split|].
  rewrite Forall_cons, !andb_true_iff, IH, negb_true_iff, bool_decide_eq_false.
  unfold topic_part. naive_solver.
Qed.

Lemma TopicName_new_Ok value n :
  TopicName_new value = Ok n → n = mkTopicName value.
Proof. unfold TopicName_new. intros Hn. split_cases. Qed.

Definition core_topic_ok (t : Topic) : Prop :=
  topic_schema_version t = v1 ∧
  (protected_delivery t = true ↔ rank (default_priority t) ≤ 1).

Definition core_topic_okb (t : Topic) : bool :=
  bool_decide (topic_schema_version t = v1) &&
  Bool.eqb (protected_delivery t) (rank (default_priority t) <=? 1).

Lemma core_topic_okb_true t : core_topic_okb t = true → core_topic_ok t.
Proof.
  unfold core_topic_okb, core_topic_ok. intros [Hv Hp]%andb_true_iff.
  apply bool_decide_eq_true in Hv. apply eqb_prop in Hp.
  by rewrite Hp, N.leb_le.
Qed.

(* ------------------------------------------------------------------ *)
(** ** Properties *)

#[local] Open Scope nat_scope.

(** The grammar of topic names: [TopicName::new] accepts exactly the
    dot-joined non-empty sequences of non-empty parts over [a-z0-9_], and
    returns the string unchanged. *)
Theorem topic_name_grammar value n :
  TopicName_new value = Ok n ↔
  n = mkTopicName value ∧
  ∃ parts, parts ≠ [] ∧ Forall topic_part parts ∧ value = join "." parts.
Proof.
  split.
  - intros Hn. split; [by apply TopicName_new_Ok|].
    exists (split is_dot value). split; [apply split_nonempty|].
    unfold TopicName_new in Hn. destruct (negb (blank value) && _) eqn:Hv; [|done].
    apply andb_true_iff in Hv as [_ Hv]. apply topic_parts_forallb in Hv.
    by rewrite split_join.
  - intros (-> & parts & Hne & Hp & ->). unfold TopicName_new.
    rewrite join_parts_not_blank, split_join_parts by done.
    by rewrite (proj2 (topic_parts_forallb parts) Hp).
Qed.

(** The core topic table never panics: its 112 topics have valid, pairwise
    distinct names, schema version 1.0.0, and protected delivery exactly for
    the two highest priority lanes. *)
Theorem core_topics_wellformed :
  ∃ l, core_v1_topics = Some l ∧ length l = 112 ∧
    NoDup (topic_name <$> l) ∧ Forall core_topic_ok l.
Proof.
  destruct core_v1_topics as [l|] eqn:Hl; [|by vm_compute in Hl].
  exists l. split; [done|]. vm_compute in Hl. injection Hl as <-.
  split; [done|]. split.
  - apply (bool_decide_unpack _). by vm_compute.
  - apply Forall_forall. intros t Ht. apply core_topic_okb_true.
    revert t Ht. apply Forall_forall. repeat constructor.
Qed.
