(* ===== verification/EventBus.v ===== *)
(** * The event bus ([platform/src/event_bus])

    [EventBus] is the record of the bus's four collections; every operation of
    [bus.rs] is a function from the bus to its result and the new bus, in [ST]
    where it draws an identifier or reads the clock. The order in which
    [publish] walks the subscriptions is the one of [HashOrder]. *)

From S2P Require Import Prelude Collections RustStr Effects Contracts Topics.

#[local] Open Scope string_scope.
#[local] Open Scope N_scope.

(* ------------------------------------------------------------------ *)
(** ** [message.rs] *)

(* [event_bus/message.rs] RetryPolicy *)
Record RetryPolicy := mkRetryPolicy {
  max_attempts : N;
  backoff_millis : N;
  route_to_dead_letter : bool
}.
#[export] Instance RetryPolicy_eq_dec : EqDecision RetryPolicy.
Proof. solve_decision. Defined.

(* [event_bus/message.rs] RetryPolicy::no_retry *)
Definition no_retry : RetryPolicy := mkRetryPolicy 1 0 true.
(* [event_bus/message.rs] Default for RetryPolicy::default *)
Definition RetryPolicy_default : RetryPolicy := mkRetryPolicy 3 250 true.

(* [event_bus/message.rs] OrderingMetadata *)
Record OrderingMetadata := mkOrdering {
  ord_trace_id : TraceId;
  ord_producer_plugin : PluginId;
  ord_producer_stream : option string;
  ord_sequence : option N
}.

(* [event_bus/message.rs] OrderingMetadata::from_envelope *)
Definition from_envelope `{Externals} (e : EventEnvelope) (stream : option string)
    : OrderingMetadata :=
  mkOrdering (Envelope.trace_id e) (Envelope.producer_plugin e) stream None.

(* [event_bus/message.rs] PublishOptions *)
Record PublishOptions := mkPublishOptions {
  opt_priority_lane : option PriorityLane;
  opt_retry_policy : RetryPolicy;
  opt_producer_stream : option string;
  opt_sequence : option N;
  opt_redacted_payload_summary : string;
  validate_schema : bool
}.

(* [event_bus/message.rs] PublishOptions::new *)
Definition PublishOptions_new (summary : string) : PublishOptions :=
  mkPublishOptions None RetryPolicy_default None None summary true.

(* [event_bus/message.rs] BusEvent *)
Record BusEvent `{Externals} := mkBusEvent {
  ev_topic : TopicName;
  envelope : EventEnvelope;
  priority_lane : PriorityLane;
  ordering : OrderingMetadata;
  redacted_payload_summary : string;
  published_at : Timestamp
}.

(* [event_bus/message.rs] BusEvent::new *)
Definition BusEvent_new `{Externals} (topic : TopicName) (e : EventEnvelope)
    (lane : PriorityLane) (options : PublishOptions) : ST BusEvent :=
  let ord := from_envelope e (opt_producer_stream options) in
  let ord := mkOrdering (ord_trace_id ord) (ord_producer_plugin ord)
               (ord_producer_stream ord) (opt_sequence options) in
  let$ t := now in
  st_ret (mkBusEvent _ topic e lane ord (opt_redacted_payload_summary options) t).

(* [event_bus/message.rs] BusEvent::is_drop_allowed *)
Definition is_drop_allowed `{Externals} (e : BusEvent) : bool :=
  can_drop_under_pressure (priority_lane e).

(* [event_bus/message.rs] EventDelivery *)
Record EventDelivery `{Externals} := mkDelivery {
  dlv_subscription_id : SubscriptionId;
  dlv_event : BusEvent;
  dlv_attempt : N;
  idempotency_key : string
}.

(* [event_bus/message.rs] EventDelivery::event_id *)
Definition delivery_event_id `{Externals} (d : EventDelivery) : EventId :=
  Envelope.event_id (envelope (dlv_event d)).

(* ------------------------------------------------------------------ *)
(** ** [dead_letter.rs] *)

(* [event_bus/dead_letter.rs] DeadLetterReason *)
Inductive DeadLetterReason :=
  | SchemaValidationFailed | PrivacyPolicyViolation | PermissionDenied
  | PluginTimeout | PluginError | StorageWriteFailed
  | UnsupportedContractVersion | QueueOverflow | HandlerError | NoSubscription.

(* [event_bus/dead_letter.rs] DeadLetterReason::as_error_code *)
Definition as_error_code (r : DeadLetterReason) : string :=
  match r with
  | SchemaValidationFailed => "schema_validation_failed"
  | PrivacyPolicyViolation => "privacy_policy_violation"
  | PermissionDenied => "permission_denied"
  | PluginTimeout => "plugin_timeout"
  | PluginError => "plugin_error"
  | StorageWriteFailed => "storage_write_failed"
  | UnsupportedContractVersion => "unsupported_contract_version"
  | QueueOverflow => "queue_overflow"
  | HandlerError => "handler_error"
  | NoSubscription => "no_subscription"
  end.

(* [event_bus/dead_letter.rs] DeadLetterRecord *)
Record DeadLetterRecord := mkDeadLetter {
  dead_letter_id : DeadLetterId;
  source_topic : TopicName;
  dl_event_id : EventId;
  dl_event_type : EventType;
  dl_schema_version : SchemaVersion;
  dl_producer_plugin : PluginId;
  error_code : string;
  error_summary_redacted : string;
  dl_trace_id : TraceId;
  dl_timestamp : Timestamp;
  dl_redacted_payload_summary : string;
  dl_subscription_id : option SubscriptionId;
  dl_attempt : N
}.

(* [event_bus/message.rs] EventHandlerResult *)
Inductive EventHandlerResult :=
  | Ack
  | Retry (error_summary : string)
  | DeadLetter (reason : DeadLetterReason) (error_summary : string).

(* ------------------------------------------------------------------ *)
(** ** [subscription.rs] *)

(* [event_bus/subscription.rs] EventRoute *)
Record EventRoute := mkRoute {
  route_source_topic : TopicName;
  consumer_name : string;
  accepted_priorities : list PriorityLane;
  require_schema_match : bool
}.

(* [event_bus/subscription.rs] SubscriptionError *)
Inductive SubscriptionError := EmptyConsumerName.

(* [event_bus/subscription.rs] EventRoute::new *)
Definition EventRoute_new (source : TopicName) (consumer : string)
    : result EventRoute SubscriptionError :=
  if blank consumer then Err EmptyConsumerName
  else Ok (mkRoute source consumer [] true).

(* [event_bus/subscription.rs] EventRoute::accepts *)
Definition accepts (r : EventRoute) (lane : PriorityLane) : bool :=
  bool_decide (accepted_priorities r = []) || bool_decide (lane ∈ accepted_priorities r).

(* [event_bus/subscription.rs] Subscription *)
Record Subscription := mkSubscription {
  subscription_id : SubscriptionId;
  route : EventRoute;
  retry_policy : RetryPolicy;
  queue_capacity : N;
  active : bool;
  idempotency_required : bool
}.

(* [event_bus/subscription.rs] Subscription::new *)
Definition Subscription_new (r : EventRoute) : ST Subscription :=
  let$ id := new_v4 in
  st_ret (mkSubscription id r RetryPolicy_default 1024 true true).

(* [event_bus/subscription.rs] Subscription::with_queue_capacity *)
Definition with_queue_capacity (s : Subscription) (capacity : N) : Subscription :=
  mkSubscription (subscription_id s) (route s) (retry_policy s) (N.max capacity 1)
    (active s) (idempotency_required s).

(* [event_bus/subscription.rs] Subscription::with_retry_policy *)
Definition with_retry_policy (s : Subscription) (p : RetryPolicy) : Subscription :=
  mkSubscription (subscription_id s) (route s) p (queue_capacity s)
    (active s) (idempotency_required s).

(* ------------------------------------------------------------------ *)
(** ** [bus.rs]: state *)

(* [event_bus/bus.rs] QueuedDelivery *)
Record QueuedDelivery `{Externals} := mkQueued { event : BusEvent; attempt : N }.

(* [event_bus/bus.rs] PublishReport *)
Record PublishReport := mkReport {
  report_topic : TopicName;
  matched_subscriptions : N;
  enqueued : N;
  dropped : N;
  rejected : N;
  dead_letter_ids : list DeadLetterId
}.

(* [event_bus/bus.rs] EventBusError *)
Inductive EventBusError :=
  | TopicNotRegistered (t : TopicName)
  | SubscriptionNotRegistered (s : SubscriptionId)
  | SchemaMismatch (t : TopicName) (expected_major actual_major : N)
  | ProtectedDeliveryRejected (t : TopicName).

(* [event_bus/bus.rs] EventBus *)
Record EventBus `{Externals} := mkBus {
  topics : gmap TopicName Topic;
  subscriptions : gmap SubscriptionId Subscription;
  queues : gmap SubscriptionId (list QueuedDelivery);
  dead_letters : list DeadLetterRecord
}.

(* [event_bus/bus.rs] EnqueueOutcome *)
Inductive EnqueueOutcome :=
  | Enqueued
  | Dropped (id : DeadLetterId)
  | Rejected (id : DeadLetterId).

Section bus.
Context `{Externals} `{HashOrder}.

Definition with_queue (b : EventBus) (id : SubscriptionId) (q : list QueuedDelivery) : EventBus :=
  mkBus _ (topics b) (subscriptions b) (<[id := q]> (queues b)) (dead_letters b).
Definition push_dead_letter (b : EventBus) (r : DeadLetterRecord) : EventBus :=
  mkBus _ (topics b) (subscriptions b) (queues b) (dead_letters b ++ [r]).

(* [event_bus/bus.rs] EventBus::new *)
Definition new : EventBus := mkBus _ ∅ ∅ ∅ [].

(* [event_bus/bus.rs] EventBus::register_topic *)
Definition register_topic (b : EventBus) (t : Topic) : EventBus :=
  mkBus _ (<[topic_name t := t]> (topics b)) (subscriptions b) (queues b) (dead_letters b).

(* [event_bus/bus.rs] EventBus::with_core_topics *)
Definition with_core_topics : option EventBus :=
  ts ← core_v1_topics; Some (foldl register_topic new ts).

(* [event_bus/bus.rs:92-94] EventBus::topic *)
Definition get_topic (b : EventBus) (name : TopicName) : option Topic := topics b !! name.

(* [event_bus/bus.rs:96-100] EventBus::topics *)
Definition list_topics (b : EventBus) : list Topic :=
  sort_by_key (λ t, topic_str (topic_name t)) (hash_values (topics b)).

(* [event_bus/bus.rs] EventBus::subscribe *)
Definition subscribe (b : EventBus) (s : Subscription)
    : result SubscriptionId EventBusError * EventBus :=
  if negb (contains_key (topics b) (route_source_topic (route s)))
  then (Err (TopicNotRegistered (route_source_topic (route s))), b)
  else
    let id := subscription_id s in
    let q := default [] (queues b !! id) in
    (Ok id, mkBus _ (topics b) (<[id := s]> (subscriptions b)) (<[id := q]> (queues b))
              (dead_letters b)).

(** [expect] on a blank consumer name panics: [None]. *)
(* [event_bus/bus.rs] EventBus::subscribe_to *)
Definition subscribe_to (b : EventBus) (name : TopicName) (consumer : string)
    : option (ST (result SubscriptionId EventBusError * EventBus)) :=
  match EventRoute_new name consumer with
  | Err _ => None
  | Ok r => Some (let$ s := Subscription_new r in st_ret (subscribe b s))
  end.

(* [event_bus/bus.rs:129-133] EventBus::subscriptions *)
Definition list_subscriptions (b : EventBus) : list Subscription :=
  sort_by_key (λ s, id_to_string (subscription_id s)) (hash_values (subscriptions b)).

(* [event_bus/bus.rs:480-488] delivery *)
Definition delivery (id : SubscriptionId) (q : QueuedDelivery) : EventDelivery :=
  let event_id := id_to_string (Envelope.event_id (envelope (event q))) in
  mkDelivery _ id (event q) (attempt q)
    (id_to_string id ++ ":" ++ topic_str (ev_topic (event q)) ++ ":" ++ event_id)%string.

(* [event_bus/bus.rs:490-512] dead_letter_record *)
Definition dead_letter_record (e : BusEvent) (sid : option SubscriptionId) (att : N)
    (reason : DeadLetterReason) (summary : string) : ST DeadLetterRecord :=
  let$ id := new_v4 in
  let$ t := now in
  st_ret {|
    dead_letter_id := id;
    source_topic := ev_topic e;
    dl_event_id := Envelope.event_id (envelope e);
    dl_event_type := Envelope.event_type (envelope e);
    dl_schema_version := Envelope.schema_version (envelope e);
    dl_producer_plugin := Envelope.producer_plugin (envelope e);
    error_code := as_error_code reason;
    error_summary_redacted := summary;
    dl_trace_id := Envelope.trace_id (envelope e);
    dl_timestamp := t;
    dl_redacted_payload_summary := redacted_payload_summary e;
    dl_subscription_id := sid;
    dl_attempt := att
  |}.

(* [event_bus/bus.rs] EventBus::dead_letter_from_envelope *)
Definition dead_letter_from_envelope (name : TopicName) (e : EventEnvelope)
    (sid : option SubscriptionId) (att : N) (reason : DeadLetterReason)
    (summary payload_summary : string) : ST DeadLetterRecord :=
  let$ id := new_v4 in
  let$ t := now in
  st_ret {|
    dead_letter_id := id;
    source_topic := name;
    dl_event_id := Envelope.event_id e;
    dl_event_type := Envelope.event_type e;
    dl_schema_version := Envelope.schema_version e;
    dl_producer_plugin := Envelope.producer_plugin e;
    error_code := as_error_code reason;
    error_summary_redacted := summary;
    dl_trace_id := Envelope.trace_id e;
    dl_timestamp := t;
    dl_redacted_payload_summary := payload_summary;
    dl_subscription_id := sid;
    dl_attempt := att
  |}.

(* [event_bus/bus.rs] EventBus::enqueue *)
Definition enqueue (b : EventBus) (id : SubscriptionId) (s : Subscription) (e : BusEvent)
    : ST (EnqueueOutcome * EventBus) :=
  let q := default [] (queues b !! id) in
  if len q <? queue_capacity s
  then st_ret (Enqueued, with_queue b id (q ++ [mkQueued _ e 1]))
  else
    match position (λ d, is_drop_allowed (event d)) q ≫= λ i, vec_remove i q with
    | Some (victim, rest) =>
        let$ r := dead_letter_record (event victim) (Some id) (attempt victim) QueueOverflow
                    "low-priority event dropped under backpressure" in
        st_ret (Dropped (dead_letter_id r),
                with_queue (push_dead_letter b r) id (rest ++ [mkQueued _ e 1]))
    | None =>
        let$ r := dead_letter_record e (Some id) 1 QueueOverflow
                    "queue capacity reached and no droppable event was available" in
        let b' := push_dead_letter (with_queue b id q) r in
        if can_drop_under_pressure (priority_lane e)
        then st_ret (Dropped (dead_letter_id r), b')
        else st_ret (Rejected (dead_letter_id r), b')
    end.

(** The subscriptions [publish] selects. *)
(* [event_bus/bus.rs:172-181] EventBus::publish *)
Definition matching (b : EventBus) (name : TopicName) (lane : PriorityLane) : list Subscription :=
  filter (λ s, active s = true ∧ route_source_topic (route s) = name ∧
               accepts (route s) lane = true)
    (hash_values (subscriptions b)).

(** The update of the report for one outcome. *)
(* [event_bus/bus.rs:210-220] EventBus::publish *)
Definition count_outcome (report : PublishReport) (o : EnqueueOutcome) : PublishReport :=
  match o with
  | Enqueued =>
      mkReport (report_topic report) (matched_subscriptions report) (enqueued report + 1)
        (dropped report) (rejected report) (dead_letter_ids report)
  | Dropped id =>
      mkReport (report_topic report) (matched_subscriptions report) (enqueued report)
        (dropped report + 1) (rejected report) (dead_letter_ids report ++ [id])
  | Rejected id =>
      mkReport (report_topic report) (matched_subscriptions report) (enqueued report)
        (dropped report) (rejected report + 1) (dead_letter_ids report ++ [id])
  end.

(** The loop of [publish] over the selected subscriptions. *)
(* [event_bus/bus.rs:205-221] EventBus::publish *)
Fixpoint deliver (subs : list Subscription) (e : BusEvent) (b : EventBus)
    (report : PublishReport) : ST (PublishReport * EventBus) :=
  match subs with
  | [] => st_ret (report, b)
  | s :: subs' =>
      let$ '(o, b') := enqueue b (subscription_id s) s e in
      deliver subs' e b' (count_outcome report o)
  end.

(* [event_bus/bus.rs] EventBus::publish *)
Definition publish (b : EventBus) (name : TopicName) (env : EventEnvelope)
    (options : PublishOptions) : ST (result PublishReport EventBusError * EventBus) :=
  match topics b !! name with
  | None => st_ret (Err (TopicNotRegistered name), b)
  | Some topic =>
      if validate_schema options &&
         negb (is_schema_compatible topic (Envelope.schema_version env))
      then
        let$ r := dead_letter_from_envelope name env None 0 UnsupportedContractVersion
                    "event schema major version is not compatible with topic"
                    (opt_redacted_payload_summary options) in
        st_ret (Ok (mkReport name 0 0 0 1 [dead_letter_id r]), push_dead_letter b r)
      else
        let priority := default (default_priority topic) (opt_priority_lane options) in
        let$ e := BusEvent_new name env priority options in
        let subs := matching b name (priority_lane e) in
        let report := mkReport name (len subs) 0 0 0 [] in
        match subs with
        | [] =>
            let$ r := dead_letter_record e None 0 NoSubscription
                        "no active subscription matched event topic" in
            st_ret (Ok (mkReport name (len subs) 0 0 0 [dead_letter_id r]),
                    push_dead_letter b r)
        | _ =>
            let$ '(report, b') := deliver subs e b report in
            if (0 <? rejected report) && protected_delivery topic
            then st_ret (Err (ProtectedDeliveryRejected name), b')
            else st_ret (Ok report, b')
        end
  end.

(* [event_bus/bus.rs] EventBus::poll *)
Definition poll (b : EventBus) (id : SubscriptionId)
    : result (option EventDelivery) EventBusError :=
  if negb (contains_key (subscriptions b) id) then Err (SubscriptionNotRegistered id)
  else Ok (delivery id <$> (queues b !! id ≫= head)).

(* [event_bus/bus.rs] EventBus::ack *)
Definition ack (b : EventBus) (id : SubscriptionId) (eid : EventId)
    : result bool EventBusError * EventBus :=
  if negb (contains_key (subscriptions b) id) then (Err (SubscriptionNotRegistered id), b)
  else
    match queues b !! id with
    | Some (d :: q) =>
        if bool_decide (Envelope.event_id (envelope (event d)) = eid)
        then (Ok true, with_queue b id q)
        else (Ok false, b)
    | _ => (Ok false, b)
    end.

(* [event_bus/bus.rs] EventBus::fail_delivery *)
Definition fail_delivery (b : EventBus) (id : SubscriptionId) (eid : EventId)
    (reason : DeadLetterReason) (summary : string)
    : ST (result (option DeadLetterId) EventBusError * EventBus) :=
  if negb (contains_key (subscriptions b) id)
  then st_ret (Err (SubscriptionNotRegistered id), b)
  else
    match queues b !! id with
    | Some (front :: q) =>
        if negb (bool_decide (Envelope.event_id (envelope (event front)) = eid))
        then st_ret (Ok None, b)
        else
          let front := mkQueued _ (event front) (saturating_add u16_max (attempt front) 1) in
          let max := default 1 ((λ s, max_attempts (retry_policy s)) <$> subscriptions b !! id) in
          if attempt front <? max
          then st_ret (Ok None, with_queue b id (front :: q))
          else
            let$ r := dead_letter_record (event front) (Some id) (attempt front) reason summary in
            st_ret (Ok (Some (dead_letter_id r)), push_dead_letter (with_queue b id q) r)
    | _ => st_ret (Ok None, b)
    end.

(* [event_bus/bus.rs] EventBus::dispatch_next *)
Definition dispatch_next (b : EventBus) (id : SubscriptionId)
    (handle : EventDelivery → EventHandlerResult)
    : ST (result (option EventHandlerResult) EventBusError * EventBus) :=
  match poll b id with
  | Err e => st_ret (Err e, b)
  | Ok None => st_ret (Ok None, b)
  | Ok (Some d) =>
      let res := handle d in
      match res with
      | Ack =>
          match ack b id (delivery_event_id d) with
          | (Err e, b') => st_ret (Err e, b')
          | (Ok _, b') => st_ret (Ok (Some res), b')
          end
      | Retry summary =>
          let$ '(r, b') := fail_delivery b id (delivery_event_id d) HandlerError summary in
          match r with
          | Err e => st_ret (Err e, b')
          | Ok _ => st_ret (Ok (Some res), b')
          end
      | DeadLetter reason summary =>
          match queues b !! id with
          | Some (queued :: q) =>
              let$ r := dead_letter_record (event queued) (Some id) (attempt queued)
                          reason summary in
              st_ret (Ok (Some res), push_dead_letter (with_queue b id q) r)
          | _ => st_ret (Ok (Some res), b)
          end
      end
  end.

(* [event_bus/bus.rs] EventBus::queue_len *)
Definition queue_len (b : EventBus) (id : SubscriptionId) : N :=
  default 0 (len <$> queues b !! id).

End bus.
