(* ===== verification/EventBusFacts.v ===== *)
(** * Facts about the event bus

    An abstract bounded queue ([admits]) that [enqueue] refines, the
    specification of the publication loop, the well-formedness invariant of
    the bus over all its operations, the first-in-first-out backlog of each
    subscription (what entered, in order, is what left and what is queued),
    and the life of a delivery that keeps failing. *)

From S2P Require Import Prelude Collections RustStr Effects Contracts Topics EventBus.

#[local] Open Scope N_scope.

(* ------------------------------------------------------------------ *)
(** ** The abstract bounded queue *)

Section admission.
Context `{Externals} `{HashOrder}.
Implicit Types (q : list QueuedDelivery) (e : BusEvent) (b : EventBus).

Definition droppable (d : QueuedDelivery) : Prop := is_drop_allowed (event d) = true.
#[global] Instance droppable_dec d : Decision (droppable d).
Proof. unfold droppable. apply _. Defined.

Inductive verdict :=
  | Accepted
  | Evicted (victim : QueuedDelivery)
  | Refused.

(** A queue of capacity [cap] is offered an event. *)
Inductive admits (cap : N) e : list QueuedDelivery → list QueuedDelivery → verdict → Prop :=
  | admits_room q :
      len q < cap → admits cap e q (q ++ [mkQueued _ e 1]) Accepted
  | admits_evict q1 d q2 :
      cap ≤ len (q1 ++ d :: q2) →
      droppable d → Forall (λ x, ¬ droppable x) q1 →
      admits cap e (q1 ++ d :: q2) (q1 ++ q2 ++ [mkQueued _ e 1]) (Evicted d)
  | admits_refuse q :
      cap ≤ len q → Forall (λ x, ¬ droppable x) q → admits cap e q q Refused.

(** What the caller of [enqueue] is told. *)
Definition reports e (v : verdict) (o : EnqueueOutcome) : Prop :=
  match v with
  | Accepted => o = Enqueued
  | Evicted _ => ∃ i, o = Dropped i
  | Refused =>
      ∃ i, o = if can_drop_under_pressure (priority_lane e) then Dropped i else Rejected i
  end.

(** The dead letter an outcome leaves. *)
Definition outcome_letters (o : EnqueueOutcome) : list DeadLetterId :=
  match o with Enqueued => [] | Dropped i | Rejected i => [i] end.

(** [b'] extends the dead-letter log of [b] by the records [recs], and keeps
    topics and subscriptions. *)
Definition extends b b' (recs : list DeadLetterRecord) : Prop :=
  topics b' = topics b ∧ subscriptions b' = subscriptions b ∧
  dead_letters b' = dead_letters b ++ recs.

Lemma extends_refl b : extends b b [].
Proof. unfold extends. by rewrite app_nil_r. Qed.
Lemma extends_with_queue b id q : extends b (with_queue b id q) [].
Proof. unfold extends. simpl. by rewrite app_nil_r. Qed.
Lemma extends_push b r : extends b (push_dead_letter b r) [r].
Proof. done. Qed.
Lemma extends_trans b1 b2 b3 r1 r2 :
  extends b1 b2 r1 → extends b2 b3 r2 → extends b1 b3 (r1 ++ r2).
Proof.
  intros (Ht & Hs & Hd1) (Ht' & Hs' & Hd2). unfold extends.
  split_and!; [congruence..|]. by rewrite Hd2, Hd1, (assoc_L (++)).
Qed.

Lemma admits_bound cap e q q' v : admits cap e q q' v → len q' ≤ N.max (len q) cap.
Proof. destruct 1; rewrite ?len_app, ?len_cons, ?len_nil in *; lia. Qed.

(** Non-droppable deliveries survive, in order; the new event is last. *)
Lemma admits_keeps cap e q q' v :
  admits cap e q q' v →
  filter (λ d, ¬ droppable d) q' =
    filter (λ d, ¬ droppable d) q ++
    match v with
    | Refused => []
    | _ => filter (λ d, ¬ droppable d) [mkQueued _ e 1]
    end.
Proof.
  destruct 1 as [q Hq|q1 d q2 Hq Hd Hq1|q Hq Hf].
  - by rewrite filter_app.
  - rewrite !filter_app, (filter_cons_False _ d) by (intros Hn; by apply Hn).
    by rewrite (assoc_L (++)).
  - by rewrite app_nil_r.
Qed.

Lemma admits_last cap e q q' v :
  admits cap e q q' v → v ≠ Refused → last q' = Some (mkQueued _ e 1).
Proof. destruct 1; intros Hv; rewrite ?(assoc_L (++)), ?last_snoc; done. Qed.

Lemma admits_refused_not_droppable cap e q q' v :
  admits cap e q q' v → v = Refused → q' = q ∧ cap ≤ len q ∧ Forall (λ x, ¬ droppable x) q.
Proof. by destruct 1. Qed.

Lemma admits_Forall (P : QueuedDelivery → Prop) cap e q q' v :
  admits cap e q q' v → Forall P q → P (mkQueued _ e 1) → Forall P q'.
Proof.
  destruct 1; rewrite ?Forall_app, ?Forall_cons; naive_solver.
Qed.

Lemma dead_letter_record_run e sid att reason summary w :
  ∃ r w', dead_letter_record e sid att reason summary w = (r, w') ∧
    error_code r = as_error_code reason ∧ dl_attempt r = att ∧
    dl_subscription_id r = sid ∧ dl_event_id r = Envelope.event_id (envelope e) ∧
    source_topic r = ev_topic e ∧ error_summary_redacted r = summary ∧
    dl_redacted_payload_summary r = redacted_payload_summary e.
Proof. eexists _, _. split; [reflexivity|done]. Qed.

(** [enqueue] refines the abstract queue. *)
Lemma enqueue_run b id s e w :
  ∃ o b' w' q' v recs,
    enqueue b id s e w = ((o, b'), w') ∧
    admits (queue_capacity s) e (default [] (queues b !! id)) q' v ∧
    reports e v o ∧ extends b b' recs ∧
    queues b' = <[id := q']> (queues b) ∧
    dead_letter_id <$> recs = outcome_letters o.
Proof.
  unfold enqueue. set (q := default [] (queues b !! id)).
  destruct (len q <? queue_capacity s) eqn:Hcap; bool_prop.
  { eexists _, _, _, _, Accepted, []. split; [reflexivity|].
    split_and!; try done; [by constructor|]. apply extends_with_queue. }
  destruct (position _ q) as [i|] eqn:Hpos; simpl.
  - apply position_Some in Hpos as (q1 & d & q2 & Hq & <- & Hd & Hq1).
    rewrite Hq, vec_remove_app. rewrite Hq in Hcap.
    eexists _, _, _, _, (Evicted d), [_]. split; [reflexivity|].
    split_and!; try done; simpl; [|by eexists].
    rewrite <- (assoc_L (++)). apply admits_evict; [done..|].
    eapply Forall_impl; [done|]. unfold droppable. simpl. congruence.
  - apply position_None in Hpos.
    assert (admits (queue_capacity s) e q q Refused).
    { constructor; [done|]. eapply Forall_impl; [done|].
      unfold droppable. simpl. congruence. }
    destruct (can_drop_under_pressure _) eqn:Hdrop;
      (eexists _, _, _, q, Refused, [_]; split; [reflexivity|];
       split_and!; try done; eexists; simpl; by rewrite Hdrop).
Qed.

(** A subscription's share of one publication. *)
Definition delivered b b' e (s : Subscription) (o : EnqueueOutcome) : Prop :=
  ∃ q' v, admits (queue_capacity s) e (default [] (queues b !! subscription_id s)) q' v ∧
    queues b' !! subscription_id s = Some q' ∧ reports e v o.

Lemma deliver_run subs e b report w :
  NoDup (subscription_id <$> subs) →
  ∃ b' w' os recs,
    deliver subs e b report w = ((foldl count_outcome report os, b'), w') ∧
    extends b b' recs ∧
    Forall2 (delivered b b' e) subs os ∧
    (∀ id, id ∉ subscription_id <$> subs → queues b' !! id = queues b !! id) ∧
    dead_letter_id <$> recs = os ≫= outcome_letters.
Proof.
  revert b report w. induction subs as [|s subs IH]; intros b report w.
  { intros _. exists b, w, [], []. split_and!; try done. apply extends_refl. }
  rewrite fmap_cons. intros [Hs Hnd]%NoDup_cons. simpl.
  destruct (enqueue_run b (subscription_id s) s e w)
    as (o & b1 & w1 & q' & v & recs1 & Hrun & Hadm & Hrep & Hext1 & Hq1 & Hrec1).
  destruct (IH b1 (count_outcome report o) w1 Hnd)
    as (b2 & w2 & os & recs2 & Hrun2 & Hext2 & Hdel & Hother & Hrec2).
  exists b2, w2, (o :: os), (recs1 ++ recs2).
  rewrite (st_bind_run _ _ _ _ _ Hrun). split; [by rewrite Hrun2|].
  split; [by eapply extends_trans|]. split; [|split].
  - constructor.
    + exists q', v. split_and!; try done. rewrite (Hother _ Hs), Hq1. by rewrite lookup_insert_eq.
    + eapply Forall2_impl_in; [exact Hdel|]. clear -Hq1 Hs.
      intros s' o' Hin (q2 & v2 & Ha & Hq & Hr). exists q2, v2.
      rewrite Hq1, lookup_insert_ne in Ha; [done|].
      intros Heq. apply Hs. rewrite Heq. by apply list_elem_of_fmap_2.
  - intros id Hid. rewrite not_elem_of_cons in Hid. destruct Hid as [Hne Hid].
    rewrite (Hother _ Hid), Hq1. by rewrite lookup_insert_ne.
  - rewrite fmap_app, Hrec1, Hrec2. done.
Qed.

(* ------------------------------------------------------------------ *)
(** ** Well-formedness and the effect of one operation *)

(** A queued delivery is of a registered topic, and its attempt counter is a
    positive [u16]. *)
Definition queued_wf b (d : QueuedDelivery) : Prop :=
  1 ≤ attempt d ≤ u16_max ∧ is_Some (topics b !! ev_topic (event d)).

Record bus_wf b : Prop := {
  wf_topics : map_Forall (λ k t, topic_name t = k) (topics b);
  wf_subs : map_Forall (λ id s, subscription_id s = id ∧
    is_Some (topics b !! route_source_topic (route s))) (subscriptions b);
  wf_dom : ∀ id, is_Some (queues b !! id) ↔ is_Some (subscriptions b !! id);
  wf_queues : map_Forall (λ _ q, Forall (queued_wf b) q) (queues b)
}.

(** What one operation may do to the queue of subscription [id]. *)
Inductive queue_step b id : option (list QueuedDelivery) → option (list QueuedDelivery) → Prop :=
  | qs_same o : queue_step b id o o
  | qs_admit s e o q' v :
      subscriptions b !! id = Some s → is_Some (topics b !! ev_topic e) →
      admits (queue_capacity s) e (default [] o) q' v →
      queue_step b id o (Some q')
  | qs_pop d q : queue_step b id (Some (d :: q)) (Some q)
  | qs_bump d q :
      queue_step b id (Some (d :: q))
        (Some (mkQueued _ (event d) (saturating_add u16_max (attempt d) 1) :: q)).

(** The effect of the operations on deliveries: queues change one by one,
    dead letters are only added. *)
Definition effect b b' : Prop :=
  (∃ recs, extends b b' recs) ∧
  ∀ id, queue_step b id (queues b !! id) (queues b' !! id).

Lemma effect_refl b : effect b b.
Proof. split; [exists []; apply extends_refl|]. intros id. constructor. Qed.

Lemma effect_push b r : effect b (push_dead_letter b r).
Proof. split; [by exists [r]|]. intros id. constructor. Qed.

Lemma effect_with_queue b id q :
  queue_step b id (queues b !! id) (Some q) → effect b (with_queue b id q).
Proof.
  intros Hq. split; [exists []; apply extends_with_queue|]. intros id'. simpl.
  destruct (decide (id = id')) as [->|Hne]; [by rewrite lookup_insert_eq|].
  rewrite lookup_insert_ne by done. constructor.
Qed.

Lemma effect_push_queue b id q r :
  queue_step b id (queues b !! id) (Some q) →
  effect b (push_dead_letter (with_queue b id q) r).
Proof.
  intros [_ Hq]%effect_with_queue. split; [by exists [r]|]. exact Hq.
Qed.

Lemma queue_step_wf b id o o' :
  queue_step b id o o' → (∀ q, o = Some q → Forall (queued_wf b) q) →
  ∀ q, o' = Some q → Forall (queued_wf b) q.
Proof.
  unfold queued_wf.
  destruct 1 as [o|s e o q' v Hs He Hadm|d q|d q]; intros Ho q0 Hq0; simplify_eq; eauto.
  - eapply admits_Forall; [done| |]; simpl.
    + destruct o; simpl; [by apply Ho|constructor].
    + split; [unfold u16_max; lia|done].
  - specialize (Ho _ eq_refl). by apply Forall_cons in Ho as [_ ?].
  - specialize (Ho _ eq_refl). apply Forall_cons in Ho as [[??] ?].
    constructor; [|done]. simpl. split; [unfold saturating_add, u16_max in *; lia|done].
Qed.

Lemma effect_wf b b' : bus_wf b → effect b b' → bus_wf b'.
Proof.
  intros [Ht Hs Hd Hq] [(recs & Het & Hes & _) Heff].
  constructor; rewrite ?Het, ?Hes; try done.
  - intros id. specialize (Hd id). revert Hd.
    destruct (Heff id) as [o|s e o q' v Hss|d q|d q]; intros Hd; [done|..].
    + rewrite Hss. by split; eauto.
    + rewrite <- Hd. by split; eauto.
    + rewrite <- Hd. by split; eauto.
  - intros id q Hid. unfold queued_wf. rewrite Het.
    eapply queue_step_wf; [apply (Heff id)| |done]. intros q0 Hq0. by apply (Hq id).
Qed.

Lemma matching_subs b name lane s :
  bus_wf b → s ∈ matching b name lane →
  subscriptions b !! subscription_id s = Some s ∧ active s = true ∧
  route_source_topic (route s) = name ∧ accepts (route s) lane = true.
Proof.
  intros Hwf. unfold matching. rewrite list_elem_of_filter, elem_of_hash_values.
  intros [(? & ? & ?) [id Hid]].
  destruct (wf_subs _ Hwf _ _ Hid) as [<- _]. done.
Qed.

Lemma matching_NoDup b name lane :
  bus_wf b → NoDup (subscription_id <$> matching b name lane).
Proof.
  intros Hwf. unfold matching.
  eapply sublist_NoDup; [apply (NoDup_hash_values_key subscription_id)|].
  - intros id s Hs. by destruct (wf_subs _ Hwf _ _ Hs).
  - apply sublist_fmap, sublist_filter.
Qed.

(** The publication of an accepted event: which subscriptions it reaches, what
    each queue does, and what the caller is told. *)
Definition publication b b' (t : Topic) e (r : result PublishReport EventBusError) : Prop :=
  let subs := matching b (topic_name t) (priority_lane e) in
  ∃ os recs,
    extends b b' recs ∧
    Forall2 (delivered b b' e) subs os ∧
    (∀ id, id ∉ subscription_id <$> subs → queues b' !! id = queues b !! id) ∧
    dead_letter_id <$> recs = os ≫= outcome_letters ∧
    let report := foldl count_outcome (mkReport (topic_name t) (len subs) 0 0 0 []) os in
    r = if (0 <? rejected report) && protected_delivery t
        then Err (ProtectedDeliveryRejected (topic_name t)) else Ok report.

(** The three ways [publish] goes. *)
Inductive publish_case b name env options : result PublishReport EventBusError → EventBus → Prop :=
  | pc_unregistered :
      topics b !! name = None →
      publish_case b name env options (Err (TopicNotRegistered name)) b
  | pc_schema t r :
      topics b !! name = Some t →
      validate_schema options = true →
      is_schema_compatible t (Envelope.schema_version env) = false →
      error_code r = as_error_code UnsupportedContractVersion →
      publish_case b name env options (Ok (mkReport name 0 0 0 1 [dead_letter_id r]))
        (push_dead_letter b r)
  | pc_unmatched t e r :
      topics b !! name = Some t → ev_topic e = name → envelope e = env →
      priority_lane e = default (default_priority t) (opt_priority_lane options) →
      matching b name (priority_lane e) = [] →
      error_code r = as_error_code NoSubscription →
      publish_case b name env options (Ok (mkReport name 0 0 0 0 [dead_letter_id r]))
        (push_dead_letter b r)
  | pc_delivered t e r b' :
      topics b !! name = Some t → ev_topic e = name → envelope e = env →
      priority_lane e = default (default_priority t) (opt_priority_lane options) →
      validate_schema options = false ∨
        is_schema_compatible t (Envelope.schema_version env) = true →
      matching b name (priority_lane e) ≠ [] →
      publication b b' t e r →
      publish_case b name env options r b'.

Lemma BusEvent_new_run name env lane options w :
  ∃ e w', BusEvent_new name env lane options w = (e, w') ∧
    ev_topic e = name ∧ envelope e = env ∧ priority_lane e = lane.
Proof. eexists _, _. split; [reflexivity|done]. Qed.

Lemma publish_run b name env options w :
  bus_wf b →
  ∃ r b' w', publish b name env options w = ((r, b'), w') ∧
    publish_case b name env options r b'.
Proof.
  intros Hwf. unfold publish.
  destruct (topics b !! name) as [t|] eqn:Ht.
  2:{ eexists _, _, _. split; [reflexivity|]. by constructor. }
  pose proof (wf_topics _ Hwf _ _ Ht) as Hname. simpl in Hname.
  destruct (validate_schema options && _) eqn:Hv.
  { bool_prop. eexists _, _, _. split; [reflexivity|]. by econstructor. }
  assert (validate_schema options = false ∨
    is_schema_compatible t (Envelope.schema_version env) = true).
  { destruct (validate_schema options); [right|by left]. simpl in Hv. by bool_prop. }
  destruct (BusEvent_new_run name env (default (default_priority t) (opt_priority_lane options))
    options w) as (e & w1 & Hnew & He1 & He2 & He3).
  erewrite st_bind_run by exact Hnew.
  destruct (matching b name (priority_lane e)) as [|s subs] eqn:Hm.
  { eexists _, _, _. split; [reflexivity|]. by eapply pc_unmatched. }
  rewrite <- Hm.
  edestruct (deliver_run (matching b name (priority_lane e)) e b) as
    (b' & w' & os & recs & Hrun & Hext & Hdel & Hother & Hrec); [by apply matching_NoDup|].
  set (report := foldl count_outcome _ os) in Hrun.
  erewrite st_bind_run by exact Hrun.
  assert (∀ r, r = (if (0 <? rejected report) && protected_delivery t
    then Err (ProtectedDeliveryRejected name) else Ok report) →
    publish_case b name env options r b') as Hcase.
  { intros r Hr. eapply (pc_delivered _ _ _ _ t e); try done; [by rewrite Hm|].
    exists os, recs. rewrite Hname. split_and!; done. }
  clear Hv. simpl. destruct (_ && _); eexists _, b', w';
    (split; [reflexivity|]); by apply Hcase.
Qed.

(* ------------------------------------------------------------------ *)
(** ** The report of a publication *)

Definition rejection (o : EnqueueOutcome) : bool :=
  match o with Rejected _ => true | _ => false end.
Definition drop (o : EnqueueOutcome) : bool :=
  match o with Dropped _ => true | _ => false end.

Ltac filter_tests :=
  repeat first
    [ rewrite filter_cons_True by done
    | rewrite filter_cons_False by (intros []) ].

Lemma report_counts report os :
  let r := foldl count_outcome report os in
  report_topic r = report_topic report ∧
  matched_subscriptions r = matched_subscriptions report ∧
  rejected r = rejected report + len (filter rejection os) ∧
  dropped r = dropped report + len (filter drop os) ∧
  enqueued r + dropped r + rejected r =
    enqueued report + dropped report + rejected report + len os ∧
  dead_letter_ids r = dead_letter_ids report ++ (os ≫= outcome_letters).
Proof.
  revert report. induction os as [|o os IH]; intros report; simpl.
  { rewrite app_nil_r. split_and!; try done; len_lia. }
  destruct (IH (count_outcome report o)) as (-> & -> & -> & -> & -> & ->).
  destruct o; simpl; split_and!; rewrite <- ?(assoc_L (++)); try done;
    filter_tests; len_lia.
Qed.

Lemma no_rejection_iff os :
  len (filter rejection os) = 0 ↔ Forall (λ o, rejection o = false) os.
Proof.
  induction os as [|o os IH]; simpl; [by split; [constructor|]|].
  rewrite Forall_cons, <- IH.
  destruct o; simpl; filter_tests; rewrite ?len_cons; naive_solver lia.
Qed.

Lemma publication_reaches b b' t e r s :
  publication b b' t e r → s ∈ matching b (topic_name t) (priority_lane e) →
  ∃ q' v o, admits (queue_capacity s) e (default [] (queues b !! subscription_id s)) q' v ∧
    queues b' !! subscription_id s = Some q' ∧ reports e v o ∧
    (is_ok r = true → protected_delivery t = true → rejection o = false).
Proof.
  intros (os & recs & _ & Hdel & _ & _ & Hr) [i Hi]%list_elem_of_lookup.
  pose proof (Forall2_lookup_l _ _ _ _ _ Hdel Hi) as (o & Ho & q' & v & Hadm & Hq & Hrep).
  exists q', v, o. split_and!; try done. intros Hok Hprot. rewrite Hr in Hok.
  destruct (report_counts (mkReport (topic_name t)
    (len (matching b (topic_name t) (priority_lane e))) 0 0 0 []) os)
    as (_ & _ & Hrej & _). simpl in *. rewrite Hrej, Hprot, andb_true_r in Hok.
  destruct (0 <? _) eqn:Hlt in Hok; [done|]. bool_prop.
  assert (len (filter rejection os) = 0) as Hnone by lia.
  apply no_rejection_iff in Hnone. by eapply Forall_lookup_1 in Hnone.
Qed.

Lemma publication_refused b b' t e err :
  publication b b' t e (Err err) →
  ∃ s q, err = ProtectedDeliveryRejected (topic_name t) ∧ protected_delivery t = true ∧
    can_drop_under_pressure (priority_lane e) = false ∧
    s ∈ matching b (topic_name t) (priority_lane e) ∧
    default [] (queues b !! subscription_id s) = q ∧
    queues b' !! subscription_id s = Some q ∧
    queue_capacity s ≤ len q ∧ Forall (λ d, ¬ droppable d) q.
Proof.
  intros (os & recs & _ & Hdel & _ & _ & Hr).
  destruct (report_counts (mkReport (topic_name t)
    (len (matching b (topic_name t) (priority_lane e))) 0 0 0 []) os) as (_ & _ & Hrej & _).
  simpl in *. rewrite Hrej in Hr.
  destruct (_ && _) eqn:Hlt; [|done]. injection Hr as ->. bool_prop.
  destruct (filter rejection os) as [|o l] eqn:Hf; [unfold len in *; simpl in *; lia|].
  assert (o ∈ filter rejection os) as Hin by (rewrite Hf; left).
  apply list_elem_of_filter in Hin as [Ho [i Hi]%list_elem_of_lookup].
  pose proof (Forall2_lookup_r _ _ _ _ _ Hdel Hi) as (s & Hs & q' & v & Hadm & Hq & Hrep).
  destruct v; simpl in Hrep; [by subst|by destruct Hrep as [? ->]|].
  destruct Hrep as [j Hj].
  apply admits_refused_not_droppable in Hadm as (-> & ? & ?); [|done].
  eexists s, _. split_and!; try done; [|by apply list_elem_of_lookup_2 in Hs].
  destruct (can_drop_under_pressure _); by subst.
Qed.

(** [publish] on a registered topic with a compatible schema. *)
Lemma publish_compatible b name t env options w r b' w' :
  bus_wf b → topics b !! name = Some t →
  is_schema_compatible t (Envelope.schema_version env) = true →
  publish b name env options w = ((r, b'), w') →
  ∃ e, envelope e = env ∧ ev_topic e = name ∧ topic_name t = name ∧
    priority_lane e = default (default_priority t) (opt_priority_lane options) ∧
    ((matching b name (priority_lane e) = [] ∧ is_ok r = true ∧ queues b' = queues b) ∨
     publication b b' t e r).
Proof.
  intros Hwf Ht Hc Hpub.
  destruct (publish_run b name env options w Hwf) as (r1 & b1 & w1 & Hrun & Hcase).
  rewrite Hpub in Hrun. injection Hrun as <- <- <-.
  pose proof (wf_topics _ Hwf _ _ Ht) as Hname. simpl in Hname.
  destruct Hcase as [|t'|t' e|t' e]; [congruence..| |];
    simplify_eq; exists e; split_and!; auto.
Qed.

(* ------------------------------------------------------------------ *)
(** ** The effect of each operation *)

Lemma publish_case_effect b name env options r b' :
  bus_wf b → publish_case b name env options r b' → effect b b'.
Proof.
  intros Hwf Hcase.
  destruct Hcase as [|t r'|t e r'|t e r b' Ht He _ _ _ _ Hpub];
    [apply effect_refl|apply effect_push..|].
  assert (topic_name t = name) as Hname by by apply (wf_topics _ Hwf).
  pose proof Hpub as (os & recs & Hext & _ & Hother & _).
  split; [by exists recs|]. intros id. rewrite Hname in Hother.
  destruct (decide (id ∈ subscription_id <$> matching b name (priority_lane e))) as [Hin|Hin];
    [|rewrite (Hother _ Hin); constructor].
  apply list_elem_of_fmap in Hin as (s & -> & Hs).
  rewrite <- Hname in Hs.
  destruct (publication_reaches _ _ _ _ _ _ Hpub Hs) as (q' & v & o & Hadm & -> & _).
  apply matching_subs in Hs as (Hs & _); [|done].
  eapply qs_admit; [done| |done]. rewrite He. by eauto.
Qed.

Lemma ack_effect b id eid : effect b (ack b id eid).2.
Proof.
  unfold ack. destruct (negb _); [apply effect_refl|].
  destruct (queues b !! id) as [[|d q]|] eqn:Hq; try apply effect_refl.
  destruct (bool_decide _); [|apply effect_refl].
  apply effect_with_queue. rewrite Hq. constructor.
Qed.

Lemma fail_delivery_effect b id eid reason summary w :
  effect b (fail_delivery b id eid reason summary w).1.2.
Proof.
  unfold fail_delivery. destruct (negb _); [apply effect_refl|].
  destruct (queues b !! id) as [[|d q]|] eqn:Hq; try apply effect_refl.
  destruct (negb _); [apply effect_refl|]. simpl.
  destruct (_ <? _); simpl.
  - apply effect_with_queue. rewrite Hq. constructor.
  - apply effect_push_queue. rewrite Hq. constructor.
Qed.

Lemma dispatch_next_effect b id handle w :
  effect b (dispatch_next b id handle w).1.2.
Proof.
  unfold dispatch_next. destruct (poll b id) as [[d|]|]; [|apply effect_refl..].
  destruct (handle d) as [|summary|reason summary].
  - pose proof (ack_effect b id (delivery_event_id d)) as Ha.
    by destruct (ack b id _) as [[] ?].
  - pose proof (fail_delivery_effect b id (delivery_event_id d) HandlerError summary w) as Hf.
    unfold st_bind. by destruct (fail_delivery _ _ _ _ _ w) as [[[] ?] ?].
  - destruct (queues b !! id) as [[|d' q]|] eqn:Hq; try apply effect_refl.
    apply effect_push_queue. rewrite Hq. constructor.
Qed.

(** Every public operation that changes the bus. *)
Inductive bus_step : EventBus → EventBus → Prop :=
  | step_register_topic b t : bus_step b (register_topic b t)
  | step_subscribe b s : bus_step b (subscribe b s).2
  | step_publish b name env options w : bus_step b (publish b name env options w).1.2
  | step_ack b id eid : bus_step b (ack b id eid).2
  | step_fail_delivery b id eid reason summary w :
      bus_step b (fail_delivery b id eid reason summary w).1.2
  | step_dispatch_next b id handle w : bus_step b (dispatch_next b id handle w).1.2.

Lemma register_topic_wf b t : bus_wf b → bus_wf (register_topic b t).
Proof.
  intros [Ht Hs Hd Hq].
  assert (∀ k, is_Some (topics b !! k) → is_Some (<[topic_name t := t]> (topics b) !! k)) as Hmono.
  { intros k Hk. by rewrite lookup_insert_is_Some; destruct (decide (topic_name t = k)); auto. }
  constructor; simpl; [|..|done|].
  - by apply map_Forall_insert_2.
  - intros id s Hid. destruct (Hs _ _ Hid). auto.
  - intros id q Hid. eapply Forall_impl; [by apply (Hq id)|].
    unfold queued_wf. simpl. naive_solver.
Qed.

Lemma subscribe_wf b s : bus_wf b → bus_wf (subscribe b s).2.
Proof.
  intros Hwf. pose proof Hwf as [Ht Hs Hd Hq]. unfold subscribe.
  destruct (contains_key _ _) eqn:Hc; simpl; [|done].
  apply contains_key_true in Hc. constructor; simpl; [done|..].
  - by apply map_Forall_insert_2.
  - intros id. rewrite !lookup_insert_is_Some, Hd. naive_solver.
  - apply map_Forall_insert_2; [|done].
    destruct (queues b !! subscription_id s) as [q|] eqn:Hid; simpl; [by apply (Hq _ _ Hid)|done].
Qed.

Lemma new_wf : bus_wf new.
Proof. constructor; simpl; try apply map_Forall_empty. intros id. by rewrite !lookup_empty. Qed.

Lemma bus_step_wf b b' : bus_step b b' → bus_wf b → bus_wf b'.
Proof.
  destruct 1 as [b t|b s|b name env options w| | |]; intros Hwf.
  - by apply register_topic_wf.
  - by apply subscribe_wf.
  - destruct (publish_run b name env options w Hwf) as (r & b' & w' & -> & Hcase).
    eapply effect_wf; [done|]. by eapply publish_case_effect.
  - eapply effect_wf; [done|]. apply ack_effect.
  - eapply effect_wf; [done|]. apply fail_delivery_effect.
  - eapply effect_wf; [done|]. apply dispatch_next_effect.
Qed.

Lemma bus_steps_wf b b' : rtc bus_step b b' → bus_wf b → bus_wf b'.
Proof. induction 1; eauto using bus_step_wf. Qed.

(** Registering changes no queue; everything else is an [effect]. *)
Lemma bus_step_queues b b' :
  bus_wf b → bus_step b b' →
  dead_letters b `prefix_of` dead_letters b' ∧
  ∀ id, default [] (queues b' !! id) = default [] (queues b !! id) ∨
    queue_step b id (queues b !! id) (queues b' !! id).
Proof.
  assert (∀ b2, effect b b2 → dead_letters b `prefix_of` dead_letters b2 ∧
    ∀ id, default [] (queues b2 !! id) = default [] (queues b !! id) ∨
    queue_step b id (queues b !! id) (queues b2 !! id)) as Heffect.
  { intros b2 [(recs & _ & _ & ->) Hq]. split; [by eexists|]. by right. }
  intros Hwf Hstep. destruct Hstep as [b t|b s|b name env options w| | |].
  - split; [done|]. by left.
  - unfold subscribe. destruct (negb _); simpl; (split; [done|]); intros id; left; [done|].
    destruct (decide (subscription_id s = id)) as [<-|Hne].
    + by rewrite lookup_insert_eq.
    + by rewrite lookup_insert_ne.
  - destruct (publish_run b name env options w Hwf) as (r & b' & w' & -> & Hcase).
    by eapply Heffect, publish_case_effect.
  - apply Heffect, ack_effect.
  - apply Heffect, fail_delivery_effect.
  - apply Heffect, dispatch_next_effect.
Qed.

(** The events of a subscription that pressure may not drop, oldest first. *)
Definition backlog b id : list BusEvent :=
  event <$> filter (λ d, ¬ droppable d) (default [] (queues b !! id)).

(* ------------------------------------------------------------------ *)
(** ** Properties of the bus *)

(** C27. Every state the bus can reach from [new] by its public operations is
    well formed: topics and subscriptions are stored under their own names, every
    subscription is to a registered topic and has exactly one queue, and every queued
    delivery is of a registered topic with an attempt counter in [1..u16::MAX]. *)
Theorem bus_invariant b : rtc bus_step new b → bus_wf b.
Proof. intros Hsteps. eapply bus_steps_wf; [done|apply new_wf]. Qed.

(** The dead-letter log is append-only. *)
Theorem dead_letters_append_only b b' :
  bus_wf b → rtc bus_step b b' → dead_letters b `prefix_of` dead_letters b'.
Proof.
  intros Hwf Hsteps. induction Hsteps as [b|b b1 b2 Hstep _ IH]; [done|].
  destruct (bus_step_queues _ _ Hwf Hstep) as [Hpre _].
  etransitivity; [exact Hpre|]. apply IH. by eapply bus_step_wf.
Qed.

(** The accounting of [publish]: the report's outcomes add up to the
    matched subscriptions (or the event was refused for its schema and nothing
    was queued), and the dead letters the call leaves are the ones it reports. *)
Theorem publish_accounting b name env options w report b' w' :
  bus_wf b → publish b name env options w = ((Ok report, b'), w') →
  (∃ recs, dead_letters b' = dead_letters b ++ recs ∧
     dead_letter_id <$> recs = dead_letter_ids report) ∧
  report_topic report = name ∧
  (enqueued report + dropped report + rejected report = matched_subscriptions report ∨
   matched_subscriptions report = 0 ∧ enqueued report = 0 ∧ rejected report = 1 ∧
   queues b' = queues b).
Proof.
  intros Hwf Hpub. destruct (publish_run b name env options w Hwf) as (r & b1 & w1 & Hrun & Hcase).
  rewrite Hpub in Hrun. simplify_eq/=. inversion Hcase as [|t r|t e r|t e r b2 Ht]; subst.
  - split; [by exists [r]|]. split; [done|]. by right.
  - split; [by exists [r]|]. split; [done|]. by left.
  - destruct select (publication _ _ _ _ _) as (os & recs & (_ & _ & Hdl) & Hdel & _ & Hids & Hr).
    assert (topic_name t = ev_topic e) as Hname by by apply (wf_topics _ Hwf).
    destruct (report_counts (mkReport (topic_name t)
      (len (matching b (topic_name t) (priority_lane e))) 0 0 0 []) os)
      as (Htop & Hm & _ & _ & Hsum & Hdlr).
    simpl in *. destruct (_ && _) in Hr; [done|]. injection Hr as ->.
    split; [exists recs; split; [done|]; by rewrite Hdlr, Hids|].
    split; [by rewrite Htop|]. left. rewrite Hsum, Hm.
    apply Forall2_length in Hdel. unfold len. lia.
Qed.

(** What a publication does to each subscription: a matching one has the
    event offered to its bounded queue, which never grows beyond the larger of its
    capacity and its former length; every other queue is left alone. *)
Theorem publish_delivers b name t env options w r b' w' :
  let lane := default (default_priority t) (opt_priority_lane options) in
  bus_wf b → topics b !! name = Some t →
  is_schema_compatible t (Envelope.schema_version env) = true →
  publish b name env options w = ((r, b'), w') →
  (∀ s, s ∈ matching b name lane →
    ∃ e q' v, envelope e = env ∧ ev_topic e = name ∧ priority_lane e = lane ∧
      admits (queue_capacity s) e (default [] (queues b !! subscription_id s)) q' v ∧
      queues b' !! subscription_id s = Some q' ∧
      len q' ≤ N.max (len (default [] (queues b !! subscription_id s))) (queue_capacity s)) ∧
  (∀ id, id ∉ subscription_id <$> matching b name lane → queues b' !! id = queues b !! id).
Proof.
  intros lane Hwf Ht Hc Hpub.
  edestruct publish_compatible as (e & He & Hte & Hname & Hlane & [(Hm & _ & Hq)|Hd]);
    [exact Hwf|exact Ht|exact Hc|exact Hpub|..]; fold lane in Hlane; rewrite <- Hlane.
  { rewrite Hm, Hq. split; [|done]. by intros s ?%elem_of_nil. }
  split.
  - intros s Hs. rewrite <- Hname in Hs.
    edestruct publication_reaches as (q' & v & o & Hadm & Hq & _); [done..|].
    exists e, q', v. split_and!; try done. by eapply admits_bound.
  - destruct Hd as (os & recs & _ & _ & Hother & _). by rewrite Hname in Hother.
Qed.

(** C29. Protected topics. An event is published to a registered topic with
    protected delivery, its schema is compatible with the topic's, and pressure may
    not drop its lane. When the publication succeeds, every matching subscription
    holds the event, last in its queue; when it fails, it reports
    [ProtectedDeliveryRejected], and some matching subscription's queue was full of
    deliveries that may not be dropped, and kept them. (On a lane that pressure may
    drop the event can be lost: [droppable_lane_bypasses_protection].) *)
Theorem publish_protected b name t env options w r b' w' :
  let lane := default (default_priority t) (opt_priority_lane options) in
  bus_wf b → topics b !! name = Some t → protected_delivery t = true →
  is_schema_compatible t (Envelope.schema_version env) = true →
  can_drop_under_pressure lane = false →
  publish b name env options w = ((r, b'), w') →
  match r with
  | Ok _ => ∀ s, s ∈ matching b name lane →
      ∃ d, default [] (queues b' !! subscription_id s) !! pred (length
             (default [] (queues b' !! subscription_id s))) = Some d ∧
        envelope (event d) = env ∧ attempt d = 1
  | Err err => err = ProtectedDeliveryRejected name ∧
      ∃ s q, s ∈ matching b name lane ∧ default [] (queues b !! subscription_id s) = q ∧
        queues b' !! subscription_id s = Some q ∧
        queue_capacity s ≤ len q ∧ Forall (λ d, ¬ droppable d) q
  end.
Proof.
  intros lane Hwf Ht Hp Hc Hdrop Hpub.
  edestruct publish_compatible as (e & He & Hte & Hname & Hlane & [(Hm & Hok & _)|Hd]);
    [exact Hwf|exact Ht|exact Hc|exact Hpub|..]; fold lane in Hlane; rewrite <- Hlane in *.
  { destruct r; [|done]. rewrite Hm. by intros s ?%elem_of_nil. }
  destruct r as [report|err].
  - intros s Hs. rewrite <- Hname in Hs.
    edestruct publication_reaches as (q' & v & o & Hadm & Hq & Hrep & Hno); [done..|].
    specialize (Hno eq_refl Hp). rewrite Hq. simpl.
    exists (mkQueued _ e 1). rewrite <- last_lookup. split; [|done].
    eapply admits_last; [done|]. intros ->. destruct Hrep as [i ->].
    rewrite Hdrop in Hno. done.
  - edestruct publication_refused as (s & q & ?); [done..|].
    rewrite <- Hname. split; [naive_solver|]. exists s, q. naive_solver.
Qed.

(** ** Dispatch and retries *)

(** The front delivery after one more failed attempt. *)
Definition failed_once (d : QueuedDelivery) : QueuedDelivery :=
  mkQueued _ (event d) (saturating_add u16_max (attempt d) 1).

(** [b'] is [b] with the front of [id]'s queue moved to the dead letters. *)
Definition dead_lettered b b' id (d : QueuedDelivery) q (att : N) reason summary : Prop :=
  ∃ rec, b' = push_dead_letter (with_queue b id q) rec ∧
    error_code rec = as_error_code reason ∧ dl_attempt rec = att ∧
    dl_subscription_id rec = Some id ∧ error_summary_redacted rec = summary ∧
    dl_event_id rec = Envelope.event_id (envelope (event d)).

Lemma fail_delivery_front b id s d q reason summary w :
  subscriptions b !! id = Some s → queues b !! id = Some (d :: q) →
  ∃ r b' w',
    fail_delivery b id (Envelope.event_id (envelope (event d))) reason summary w = ((Ok r, b'), w') ∧
    if attempt (failed_once d) <? max_attempts (retry_policy s)
    then r = None ∧ b' = with_queue b id (failed_once d :: q)
    else dead_lettered b b' id d q (attempt (failed_once d)) reason summary.
Proof.
  intros Hs Hq. unfold fail_delivery.
  rewrite (proj2 (contains_key_true _ _)) by eauto. rewrite Hq, Hs. simpl.
  rewrite bool_decide_eq_true_2 by done. simpl.
  destruct (_ <? _); eexists _, _, _; (split; [reflexivity|]); [done|].
  by eexists.
Qed.

Lemma dispatch_next_run b id s d q handle w :
  subscriptions b !! id = Some s → queues b !! id = Some (d :: q) →
  ∃ b' w', dispatch_next b id handle w = ((Ok (Some (handle (delivery id d))), b'), w') ∧
    match handle (delivery id d) with
    | Ack => b' = with_queue b id q
    | Retry summary =>
        if attempt (failed_once d) <? max_attempts (retry_policy s)
        then b' = with_queue b id (failed_once d :: q)
        else dead_lettered b b' id d q (attempt (failed_once d)) HandlerError summary
    | DeadLetter reason summary => dead_lettered b b' id d q (attempt d) reason summary
    end.
Proof.
  intros Hs Hq. unfold dispatch_next, poll.
  rewrite (proj2 (contains_key_true _ _)) by eauto. rewrite Hq. simpl.
  destruct (handle _) as [|summary|reason summary] eqn:Hh.
  - unfold ack. rewrite (proj2 (contains_key_true _ _)) by eauto. rewrite Hq. simpl.
    rewrite bool_decide_eq_true_2 by done. by eexists _, _.
  - destruct (fail_delivery_front b id s d q HandlerError summary w Hs Hq)
      as (r & b' & w' & Hf & Hcase).
    rewrite (st_bind_run _ _ _ _ _ Hf). eexists _, _. split; [reflexivity|].
    destruct (_ <? _); naive_solver.
  - eexists _, _. split; [reflexivity|]. by eexists.
Qed.

(* ------------------------------------------------------------------ *)
(** ** Each backlog is a first-in-first-out queue *)

(** The calls on the bus. *)
Inductive bus_op :=
  | OpRegisterTopic (t : Topic)
  | OpSubscribe (s : Subscription)
  | OpPublish (name : TopicName) (env : EventEnvelope) (options : PublishOptions)
  | OpAck (id : SubscriptionId) (eid : EventId)
  | OpFail (id : SubscriptionId) (eid : EventId) (reason : DeadLetterReason) (summary : string)
  | OpDispatch (id : SubscriptionId) (handle : EventDelivery → EventHandlerResult).

Definition perform (op : bus_op) b : ST EventBus :=
  match op with
  | OpRegisterTopic t => st_ret (register_topic b t)
  | OpSubscribe s => st_ret (subscribe b s).2
  | OpPublish name env options => let$ '(_, b) := publish b name env options in st_ret b
  | OpAck id eid => st_ret (ack b id eid).2
  | OpFail id eid reason summary =>
      let$ '(_, b) := fail_delivery b id eid reason summary in st_ret b
  | OpDispatch id handle => let$ '(_, b) := dispatch_next b id handle in st_ret b
  end.

(** What a consumer can tell of a queued event, and the backlog of a subscription as it. *)
Definition message : Type := TopicName * PriorityLane * EventEnvelope.
Definition message_of e : message := (ev_topic e, priority_lane e, envelope e).
Definition messages b id : list message := message_of <$> backlog b id.

(** What a call should add to the backlog of [id]: a publication adds its message when the
    topic is registered and its schema fits, the subscription is active and takes the topic
    and the lane, pressure may not drop the lane, and the queue has room or a victim. *)
Definition entering b id (op : bus_op) : list message :=
  match op with
  | OpPublish name env options =>
      match topics b !! name, subscriptions b !! id with
      | Some t, Some s =>
          let lane := default (default_priority t) (opt_priority_lane options) in
          let q := default [] (queues b !! id) in
          if bool_decide
               ((validate_schema options = false ∨
                 is_schema_compatible t (Envelope.schema_version env) = true) ∧
                (active s = true ∧ route_source_topic (route s) = name ∧
                 accepts (route s) lane = true) ∧
                can_drop_under_pressure lane = false ∧
                (len q < queue_capacity s ∨ Exists droppable q))
          then [(name, lane, env)] else []
      | _, _ => []
      end
  | _ => []
  end.

(** The verdict of a call on the front delivery of [id]. *)
Definition front_verdict id (d : QueuedDelivery) (op : bus_op) : option EventHandlerResult :=
  let eid := Envelope.event_id (envelope (event d)) in
  match op with
  | OpAck id' eid' => if bool_decide (id' = id ∧ eid' = eid) then Some Ack else None
  | OpFail id' eid' _ summary =>
      if bool_decide (id' = id ∧ eid' = eid) then Some (Retry summary) else None
  | OpDispatch id' handle =>
      if bool_decide (id' = id) then Some (handle (delivery id d)) else None
  | _ => None
  end.

(** What a call should take from the backlog of [id], and whether it is done with: the front
    when it is acknowledged, rejected, or failed for the last time. *)
Definition leaving b id (op : bus_op) : list (message * bool) :=
  match subscriptions b !! id, queues b !! id with
  | Some s, Some (d :: _) =>
      if bool_decide (droppable d) then []
      else
        match front_verdict id d op with
        | Some Ack => [(message_of (event d), true)]
        | Some (Retry _) =>
            if attempt (failed_once d) <? max_attempts (retry_policy s) then []
            else [(message_of (event d), false)]
        | Some (DeadLetter _ _) => [(message_of (event d), false)]
        | None => []
        end
  | _, _ => []
  end.

(** The log of a run for [id]: what should enter, what should leave, and the last bus. *)
Fixpoint run_log id (ops : list bus_op) b : ST (list message * list (message * bool) * EventBus) :=
  match ops with
  | [] => st_ret ([], [], b)
  | op :: ops =>
      let$ b1 := perform op b in
      let$ '(ins, outs, b2) := run_log id ops b1 in
      st_ret (entering b id op ++ ins, leaving b id op ++ outs, b2)
  end.

(** The dead letter of a message that left [id] without an acknowledgement. *)
Definition lettered b id (m : message) : Prop :=
  ∃ r, r ∈ dead_letters b ∧ dl_event_id r = Envelope.event_id m.2 ∧
    dl_subscription_id r = Some id.

Lemma perform_step op b w : bus_step b (perform op b w).1.
Proof.
  destruct op as [t|s|name env options|id eid|id eid reason summary|id handle]; simpl;
    try constructor; unfold st_bind.
  - pose proof (step_publish b name env options w) as Hs. by destruct (publish _ _ _ _ w) as [[]].
  - pose proof (step_fail_delivery b id eid reason summary w) as Hs.
    by destruct (fail_delivery _ _ _ _ _ w) as [[]].
  - pose proof (step_dispatch_next b id handle w) as Hs.
    by destruct (dispatch_next _ _ _ w) as [[]].
Qed.

Lemma backlog_queue b b' id :
  default [] (queues b' !! id) = default [] (queues b !! id) → messages b' id = messages b id.
Proof. unfold messages, backlog. by intros ->. Qed.

Lemma backlog_front b id d q :
  queues b !! id = Some (d :: q) →
  messages b id = (if bool_decide (droppable d) then [] else [message_of (event d)]) ++
    (message_of <$> (event <$> filter (λ d, ¬ droppable d) q)).
Proof.
  intros Hq. unfold messages, backlog. rewrite Hq. simpl. rewrite filter_cons.
  destruct (decide (droppable d)) as [Hd|Hd].
  - rewrite bool_decide_eq_true_2 by done. by destruct (decide (¬ droppable d)).
  - rewrite bool_decide_eq_false_2 by done. by destruct (decide (¬ droppable d)).
Qed.

(** A publication: [entering] says what the loop does to each queue. *)
Lemma publish_messages b name env options r b' id :
  bus_wf b → publish_case b name env options r b' →
  messages b id ++ entering b id (OpPublish name env options) = messages b' id.
Proof.
  intros Hwf Hcase. unfold entering.
  destruct Hcase as [Ht|t r' Ht Hv Hc _|t e r' Ht He1 He2 Hlane Hm _|t e r b' Ht He1 He2 Hlane Hv Hm Hpub];
    rewrite Ht; [by rewrite app_nil_r|..];
    destruct (subscriptions b !! id) as [s|] eqn:Hs; try (by rewrite app_nil_r).
  - rewrite bool_decide_eq_false_2; [by rewrite app_nil_r|]. intros ([|] & _); congruence.
  - rewrite bool_decide_eq_false_2; [by rewrite app_nil_r|].
    rewrite <- Hlane. intros (_ & Hms & _). apply (elem_of_nil s). rewrite <- Hm.
    unfold matching. apply list_elem_of_filter. split; [done|]. apply elem_of_hash_values. eauto.
  - assert (topic_name t = name) as Hname by by apply (wf_topics _ Hwf).
    assert (subscription_id s = id) as Hid by by apply (wf_subs _ Hwf _ _ Hs).
    rewrite <- Hlane. pose proof Hpub as (os & recs & _ & _ & Hother & _).
    destruct (decide (active s = true ∧ route_source_topic (route s) = name ∧
      accepts (route s) (priority_lane e) = true)) as [Hms|Hms].
    + assert (s ∈ matching b (topic_name t) (priority_lane e)) as Hin.
      { rewrite Hname. apply list_elem_of_filter. split; [done|].
        apply elem_of_hash_values. eauto. }
      destruct (publication_reaches _ _ _ _ _ _ Hpub Hin) as (q' & v & o & Hadm & Hq' & _).
      rewrite Hid in Hadm, Hq'. unfold messages, backlog. rewrite Hq'. simpl.
      rewrite (admits_keeps _ _ _ _ _ Hadm), !fmap_app. f_equal.
      assert (droppable (mkQueued _ e 1) ↔ can_drop_under_pressure (priority_lane e) = true)
        as Hdrop by done.
      destruct (can_drop_under_pressure (priority_lane e)) eqn:Hlow.
      * rewrite bool_decide_eq_false_2 by naive_solver.
        rewrite filter_cons_False by naive_solver. by destruct v.
      * rewrite filter_cons_True by naive_solver.
        inversion Hadm; subst; simpl.
        -- by rewrite bool_decide_eq_true_2 by naive_solver.
        -- rewrite bool_decide_eq_true_2; [done|].
           split_and!; try done; [naive_solver..|]. right. apply Exists_app. right. by left.
        -- rewrite bool_decide_eq_false_2; [done|]. intros (_ & _ & _ & [Hlt|Hex]); [lia|].
           apply Exists_exists in Hex as (d & Hd & Hdrop').
           match goal with Hf : Forall _ _ |- _ =>
             by apply (proj1 (Forall_forall _ _) Hf d Hd) end.
    + rewrite bool_decide_eq_false_2 by tauto. rewrite app_nil_r. symmetry.
      apply backlog_queue. rewrite Hother; [done|].
      intros (s' & Hid' & Hs')%list_elem_of_fmap.
      rewrite Hname in Hs'. apply matching_subs in Hs' as (Hs' & Hms'); [|done].
      rewrite <- Hid' in Hs'. rewrite Hs in Hs'. naive_solver.
  - rewrite app_nil_r. symmetry. apply backlog_queue.
    assert (topic_name t = name) as Hname by by apply (wf_topics _ Hwf).
    destruct Hpub as (os & recs & _ & _ & Hother & _). rewrite Hother; [done|].
    intros (s' & Hid' & Hs')%list_elem_of_fmap.
    apply matching_subs in Hs' as (Hs' & _); [|done]. congruence.
Qed.

(** Only the calls on [id] itself give a verdict, and on its front delivery alone. *)
Definition consumes (op : bus_op) : Prop :=
  match op with OpAck _ _ | OpFail _ _ _ _ | OpDispatch _ _ => True | _ => False end.

Lemma consume_other b id op w :
  consumes op → (∀ d q, queues b !! id = Some (d :: q) → front_verdict id d op = None) →
  queues (perform op b w).1 !! id = queues b !! id.
Proof.
  intros Hop Hno.
  assert (∀ id' q q' b1, queues b1 !! id = queues b !! id → queues b !! id' = Some q →
    id' ≠ id → queues (with_queue b1 id' q') !! id = queues b !! id) as Hwith.
  { intros id' q q' b1 Hb1 _ Hne. simpl. by rewrite lookup_insert_ne. }
  destruct op as [| | |id' eid|id' eid reason summary|id' handle]; try done; simpl.
  - unfold ack. destruct (negb _); [done|].
    destruct (queues b !! id') as [[|d q]|] eqn:Hq; try done.
    case_bool_decide as Heid; [|done]. eapply Hwith; [done..|]. intros ->.
    specialize (Hno _ _ Hq). simpl in Hno. by rewrite bool_decide_eq_true_2 in Hno by done.
  - unfold fail_delivery, st_bind. destruct (negb _); [done|].
    destruct (queues b !! id') as [[|d q]|] eqn:Hq; try done.
    case_bool_decide as Heid; [|done]. cbn [negb].
    assert (id' ≠ id) as Hne.
    { intros ->. specialize (Hno _ _ Hq). simpl in Hno.
      by rewrite bool_decide_eq_true_2 in Hno by done. }
    destruct (_ <? _); by eapply Hwith.
  - destruct (decide (id' = id)) as [->|Hne].
    + assert (queues b !! id = None ∨ queues b !! id = Some []) as Hq.
      { destruct (queues b !! id) as [[|d q]|] eqn:Hq; [by right| |by left].
        specialize (Hno _ _ eq_refl). simpl in Hno.
        by rewrite bool_decide_eq_true_2 in Hno by done. }
      unfold st_bind, dispatch_next, poll. destruct (negb _); [done|].
      by destruct Hq as [Hq|Hq]; rewrite Hq.
    + unfold st_bind, dispatch_next, poll. destruct (negb _) eqn:Hk; [done|].
      destruct (queues b !! id') as [[|d q]|] eqn:Hq; try done. simpl.
      destruct (handle _) as [|summary|reason summary].
      * unfold ack. rewrite Hk, Hq. simpl. rewrite bool_decide_eq_true_2 by done.
        by eapply Hwith.
      * unfold fail_delivery, st_bind. rewrite Hk, Hq. simpl.
        rewrite bool_decide_eq_true_2 by done. simpl. destruct (_ <? _); by eapply Hwith.
      * by eapply Hwith.
Qed.

(** A call with a verdict on the front does what [dispatch_next] does with that verdict. *)
Lemma consume_front b id s d q op res w :
  subscriptions b !! id = Some s → queues b !! id = Some (d :: q) →
  front_verdict id d op = Some res →
  let b' := (perform op b w).1 in
  match res with
  | Ack => b' = with_queue b id q
  | Retry summary =>
      if attempt (failed_once d) <? max_attempts (retry_policy s)
      then b' = with_queue b id (failed_once d :: q)
      else ∃ reason, dead_lettered b b' id d q (attempt (failed_once d)) reason summary
  | DeadLetter reason summary => dead_lettered b b' id d q (attempt d) reason summary
  end.
Proof.
  intros Hs Hq Hv.
  destruct op as [| | |id' eid|id' eid reason summary|id' handle]; try done; simpl in Hv |- *;
    case_bool_decide as Heq; try done; injection Hv as <-.
  - destruct Heq as [-> ->]. unfold ack. rewrite (proj2 (contains_key_true _ _)) by eauto.
    rewrite Hq. simpl. by rewrite bool_decide_eq_true_2 by done.
  - destruct Heq as [-> ->].
    destruct (fail_delivery_front b id s d q reason summary w Hs Hq) as (r & b' & w' & Hf & Hc).
    unfold st_bind. rewrite Hf. simpl. destruct (_ <? _); [tauto|by exists reason].
  - subst id'. destruct (dispatch_next_run b id s d q handle w Hs Hq) as (b' & w' & Hd & Hc).
    unfold st_bind. rewrite Hd. simpl. destruct (handle _); [done| |done].
    destruct (_ <? _); [done|by exists HandlerError].
Qed.

(** One call that consumes, on the backlog of one subscription. *)
Lemma consume_messages b id op w :
  bus_wf b → consumes op →
  let b' := (perform op b w).1 in
  messages b id = (leaving b id op).*1 ++ messages b' id ∧
  ∀ m, (m, false) ∈ leaving b id op → lettered b' id m.
Proof.
  intros Hwf Hop b'. unfold leaving.
  assert ((∀ d q, queues b !! id = Some (d :: q) → front_verdict id d op = None) →
    messages b id = messages b' id) as Hsame.
  { intros Hno. symmetry. apply backlog_queue. subst b'. by rewrite consume_other. }
  assert (∀ m, (m, false) ∈ [] → lettered b' id m) as Hnone by by intros m ?%elem_of_nil.
  destruct (subscriptions b !! id) as [s|] eqn:Hs.
  2:{ split; [|done]. apply Hsame. intros d q Hq.
      assert (is_Some (subscriptions b !! id)) as [s Hs'] by (rewrite <- (wf_dom _ Hwf); eauto).
      congruence. }
  destruct (queues b !! id) as [[|d q]|] eqn:Hq; [split; [by apply Hsame|done]| |
    split; [by apply Hsame|done]].
  destruct (front_verdict id d op) as [res|] eqn:Hv.
  2:{ rewrite Hsame by (intros d' q' [= <- <-]; done).
      by destruct (bool_decide (droppable d)). }
  pose proof (consume_front b id s d q op res w Hs Hq Hv) as Hf. fold b' in Hf. simpl in Hf.
  rewrite (backlog_front b id d q Hq). clear Hsame.
  assert (queues b' !! id = Some q → messages b' id =
    message_of <$> (event <$> filter (λ d, ¬ droppable d) q)) as Hpop
    by (intros Hq'; unfold messages, backlog; by rewrite Hq').
  assert (∀ att reason summary, dead_lettered b b' id d q att reason summary →
    queues b' !! id = Some q ∧ lettered b' id (message_of (event d))) as Hdl.
  { intros att reason summary (r & -> & _ & _ & Hid & _ & He). simpl.
    split; [by rewrite lookup_insert_eq|]. exists r. split; [|done].
    simpl. apply elem_of_app. right. by left. }
  assert (queues b' !! id = Some (failed_once d :: q) → messages b' id =
    (if bool_decide (droppable d) then [] else [message_of (event d)]) ++
    (message_of <$> (event <$> filter (λ d, ¬ droppable d) q))) as Hbump
    by apply (backlog_front b' id (failed_once d) q).
  assert (∀ m, (m, false) ∈ [(message_of (event d), false)] →
    lettered b' id (message_of (event d)) → lettered b' id m) as Hone
    by by intros m [= ->]%list_elem_of_singleton.
  destruct res as [|summary|reason summary].
  - rewrite Hpop by (rewrite Hf; simpl; apply lookup_insert_eq).
    case_bool_decide; (split; [done|]); [done|]. by intros m [=]%list_elem_of_singleton.
  - destruct (_ <? _).
    + rewrite Hbump by (rewrite Hf; simpl; apply lookup_insert_eq).
      by destruct (bool_decide (droppable d)).
    + destruct Hf as [reason Hf]. apply Hdl in Hf as [Hq' Hl]. rewrite Hpop by done.
      case_bool_decide; (split; [done|]); [done|]. intros m Hm. by apply Hone.
  - apply Hdl in Hf as [Hq' Hl]. rewrite Hpop by done.
    case_bool_decide; (split; [done|]); [done|]. intros m Hm. by apply Hone.
Qed.

(** One call, on the backlog of one subscription. *)
Lemma perform_messages b id op w :
  bus_wf b →
  let b' := (perform op b w).1 in
  messages b id ++ entering b id op = (leaving b id op).*1 ++ messages b' id ∧
  ∀ m, (m, false) ∈ leaving b id op → lettered b' id m.
Proof.
  intros Hwf b'.
  assert ((∀ d, front_verdict id d op = None) →
    messages b id ++ entering b id op = messages b' id →
    messages b id ++ entering b id op = (leaving b id op).*1 ++ messages b' id ∧
    ∀ m, (m, false) ∈ leaving b id op → lettered b' id m) as Hidle.
  { intros Hv ->. assert (leaving b id op = []) as ->; [|split; [done|by intros m ?%elem_of_nil]].
    unfold leaving. destruct (subscriptions b !! id); [|done].
    destruct (queues b !! id) as [[|d q]|]; [done| |done]. rewrite Hv. by case_bool_decide. }
  destruct op as [t|s|name env options|id' eid|id' eid reason summary|id' handle].
  4,5,6: cbn [entering]; rewrite app_nil_r; by apply consume_messages.
  all: apply Hidle; [done|]; subst b'; simpl.
  - by rewrite app_nil_r.
  - rewrite app_nil_r. symmetry. apply backlog_queue. unfold subscribe.
    destruct (negb _); [done|]. simpl. destruct (decide (subscription_id s = id)) as [->|Hne];
      [by rewrite lookup_insert_eq|by rewrite lookup_insert_ne].
  - destruct (publish_run b name env options w Hwf) as (r & b' & w' & Hrun & Hcase).
    unfold st_bind. rewrite Hrun. simpl. by eapply publish_messages.
Qed.

Lemma lettered_step b b' id m : bus_wf b → bus_step b b' → lettered b id m → lettered b' id m.
Proof.
  intros Hwf Hstep (r & Hr & Hid). destruct (bus_step_queues _ _ Hwf Hstep) as [[l Hl] _].
  exists r. rewrite Hl. split; [apply elem_of_app; by left|done].
Qed.

(** The dead letters of what has left are still there at the end of a run. *)
Lemma run_log_lettered id ops b w ins outs b' w' m :
  bus_wf b → run_log id ops b w = ((ins, outs, b'), w') → lettered b id m → lettered b' id m.
Proof.
  revert b w ins outs. induction ops as [|op ops IH]; intros b w ins outs Hwf; simpl.
  { by intros [= <- <- <- <-]. }
  unfold st_bind. destruct (perform op b w) as [b1 w1] eqn:Hp.
  destruct (run_log id ops b1 w1) as [[[ins1 outs1] b2] w2] eqn:Hr.
  intros [= <- <- <- <-] Hl. pose proof (perform_step op b w) as Hstep. rewrite Hp in Hstep.
  eapply IH; [by eapply bus_step_wf|exact Hr|by eapply lettered_step].
Qed.

(** C1. The backlog of a subscription is a first-in-first-out queue: over any run of calls on
    the bus, what was queued at the start followed by what the publications had to add is
    what left followed by what is still queued. Messages leave in the order they entered,
    none is lost, repeated or overtaken; each enters when its publication is fit for the
    subscription and the queue has room or a victim, each leaves when the front is
    acknowledged, rejected or failed for the last time; and whatever left without an
    acknowledgement has its dead letter. (The backlog holds the deliveries on lanes that
    pressure may not drop.) *)
Theorem backlog_refines_fifo id ops b w ins outs b' w' :
  bus_wf b → run_log id ops b w = ((ins, outs, b'), w') →
  messages b id ++ ins = outs.*1 ++ messages b' id ∧
  ∀ m, (m, false) ∈ outs → lettered b' id m.
Proof.
  revert b w ins outs. induction ops as [|op ops IH]; intros b w ins outs Hwf; simpl.
  { intros [= <- <- <- <-]. rewrite app_nil_r. split; [done|]. by intros m ?%elem_of_nil. }
  unfold st_bind. destruct (perform op b w) as [b1 w1] eqn:Hp.
  destruct (run_log id ops b1 w1) as [[[ins1 outs1] b2] w2] eqn:Hr.
  intros [= <- <- <- <-]. pose proof (perform_step op b w) as Hstep.
  destruct (perform_messages b id op w Hwf) as [Hm Hl]. rewrite Hp in Hstep, Hm, Hl.
  cbn [fst] in *. assert (bus_wf b1) as Hwf1 by by eapply bus_step_wf.
  destruct (IH b1 w1 ins1 outs1 Hwf1 Hr) as [Hm1 Hl1].
  rewrite fmap_app, (assoc_L (++)), Hm, <- !(assoc_L (++)), Hm1. split; [done|].
  intros m [Hin|Hin]%elem_of_app; [|by apply Hl1].
  eapply run_log_lettered; [exact Hwf1|exact Hr|by apply Hl].
Qed.

(** A handler that answers [Retry] is called [n] times. *)
Fixpoint redeliver (n : nat) b id (summary : string) : ST EventBus :=
  match n with
  | O => st_ret b
  | S n' =>
      let$ '(_, b') := dispatch_next b id (λ _, Retry summary) in
      redeliver n' b' id summary
  end.

Lemma redeliver_pending n b id s e q a summary w :
  subscriptions b !! id = Some s → queues b !! id = Some (mkQueued _ e a :: q) →
  max_attempts (retry_policy s) ≤ u16_max →
  a + N.of_nat n < max_attempts (retry_policy s) ∨ n = 0%nat →
  ∃ b' w', redeliver n b id summary w = (b', w') ∧ extends b b' [] ∧
    queues b' !! id = Some (mkQueued _ e (a + N.of_nat n) :: q).
Proof.
  intros Hs Hq Hm. revert b a w Hs Hq. induction n as [|n IH]; intros b a w Hs Hq Hn.
  { exists b, w. rewrite N.add_0_r. split_and!; [done|apply extends_refl|done]. }
  destruct Hn as [Hn|]; [|done]. simpl.
  edestruct dispatch_next_run as (b1 & w1 & Hd & Hcase); [exact Hs|exact Hq|].
  erewrite st_bind_run by exact Hd. clear Hd. simpl in Hcase.
  unfold failed_once in Hcase. simpl in Hcase.
  replace (saturating_add u16_max a 1) with (a + 1) in Hcase
    by (unfold saturating_add, u16_max in *; lia).
  rewrite (proj2 (N.ltb_lt _ _)) in Hcase by lia. subst b1.
  edestruct (IH (with_queue b id (mkQueued _ e (a + 1) :: q)) (a + 1) w1) as (b' & w' & Hr & Hext & Hq');
    [done|by simpl; rewrite lookup_insert_eq|lia|].
  exists b', w'. split; [done|]. split.
  - by eapply (extends_trans _ _ _ [] []); [apply extends_with_queue|].
  - rewrite Hq'. do 3 f_equal. lia.
Qed.

Lemma redeliver_app n1 n2 b id summary w :
  redeliver (n1 + n2) b id summary w =
  let '(b', w') := redeliver n1 b id summary w in redeliver n2 b' id summary w'.
Proof.
  revert b w. induction n1 as [|n1 IH]; intros b w; simpl; [done|]. unfold st_bind.
  destruct (dispatch_next _ _ _ w) as [[r b1] w1]. apply IH.
Qed.

(** How often a failing handler is called under a retry policy of at most
    [m] attempts: the delivery stays at the front, its counter growing by one per
    call, until call [max 1 (m - 1)], which moves it to the dead letters with the
    counter [max 2 m]. *)
Theorem retry_exhaustion b id s e q summary w :
  let m := max_attempts (retry_policy s) in
  subscriptions b !! id = Some s → queues b !! id = Some (mkQueued _ e 1 :: q) →
  m ≤ u16_max →
  (∀ k, k < N.max 1 (m - 1) → ∃ b' w',
     redeliver (N.to_nat k) b id summary w = (b', w') ∧
     queues b' !! id = Some (mkQueued _ e (1 + k) :: q) ∧
     dead_letters b' = dead_letters b) ∧
  (∃ b' w' rec,
     redeliver (N.to_nat (N.max 1 (m - 1))) b id summary w = (b', w') ∧
     queues b' !! id = Some q ∧ dead_letters b' = dead_letters b ++ [rec] ∧
     dl_event_id rec = Envelope.event_id (envelope e) ∧ dl_attempt rec = N.max 2 m).
Proof.
  intros m Hs Hq Hm.
  assert (∀ k, k < N.max 1 (m - 1) → ∃ b' w',
    redeliver (N.to_nat k) b id summary w = (b', w') ∧ extends b b' [] ∧
    queues b' !! id = Some (mkQueued _ e (1 + k) :: q)) as Hpend.
  { intros k Hk.
    edestruct (redeliver_pending (N.to_nat k) b id s e q 1 summary w) as (b' & w' & Hr);
      [done..|fold m; lia|].
    exists b', w'. by rewrite N2Nat.id in Hr. }
  split.
  - intros k Hk. destruct (Hpend k Hk) as (b' & w' & ? & (_ & _ & Hdl) & ?).
    exists b', w'. rewrite app_nil_r in Hdl. done.
  - destruct (Hpend (N.max 1 (m - 1) - 1) ltac:(lia)) as (b1 & w1 & Hr & (_ & Hs1 & Hdl) & Hq1).
    rewrite <- Hs1 in Hs. rewrite app_nil_r in Hdl.
    edestruct dispatch_next_run as (b' & w' & Hd & Hcase); [exact Hs|exact Hq1|].
    replace (N.to_nat (N.max 1 (m - 1))) with (N.to_nat (N.max 1 (m - 1) - 1) + 1)%nat by lia.
    rewrite redeliver_app, Hr. simpl. erewrite st_bind_run by exact Hd.
    simpl in Hcase. fold m in Hcase. unfold failed_once, saturating_add in Hcase. simpl in Hcase.
    rewrite (proj2 (N.ltb_ge _ _)) in Hcase by (unfold u16_max in *; lia).
    destruct Hcase as (rec & -> & _ & Hatt & _ & _ & Hid).
    eexists _, _, rec. split; [reflexivity|]. simpl.
    rewrite lookup_insert_eq, Hdl, Hatt. split_and!; try done.
    unfold u16_max in *. lia.
Qed.

(** [dispatch_next] on a subscription with a pending delivery answers with
    the handler's verdict on the oldest one and removes it on [Ack], keeps it at the
    front with its counter raised on [Retry] while the policy allows, and moves it to
    the dead letters otherwise. *)
Theorem dispatch_next_cases b id s d q handle w :
  subscriptions b !! id = Some s → queues b !! id = Some (d :: q) →
  ∃ b' w', dispatch_next b id handle w = ((Ok (Some (handle (delivery id d))), b'), w') ∧
    match handle (delivery id d) with
    | Ack => b' = with_queue b id q
    | Retry summary =>
        if attempt (failed_once d) <? max_attempts (retry_policy s)
        then b' = with_queue b id (failed_once d :: q)
        else dead_lettered b b' id d q (attempt (failed_once d)) HandlerError summary
    | DeadLetter reason summary => dead_lettered b b' id d q (attempt d) reason summary
    end.
Proof. apply dispatch_next_run. Qed.

(** The lane override of [PublishOptions] switches the protection of a
    topic off: an event published on a droppable lane is never reported as
    [ProtectedDeliveryRejected], even on a protected topic. *)
Theorem droppable_lane_bypasses_protection b name env options w lane :
  bus_wf b → opt_priority_lane options = Some lane → can_drop_under_pressure lane = true →
  is_Some (topics b !! name) → is_ok (publish b name env options w).1.1 = true.
Proof.
  intros Hwf Hl Hd [t Ht].
  destruct (publish_run b name env options w Hwf) as (r & b' & w' & -> & Hcase). simpl.
  destruct Hcase as [|t' r|t' e r|t' e r b' ? He ? Hlane]; simpl; [congruence|done..|].
  destruct r as [|err]; [done|].
  edestruct publication_refused as (s & q & _ & _ & Hno & _); [done|].
  rewrite Hl in Hlane. simpl in Hlane. congruence.
Qed.

End admission.

(* ------------------------------------------------------------------ *)
(** ** A concrete bus *)

Module Sample.
#[local] Existing Instance sample_externals.
#[local] Existing Instance insertion_free_order.

Definition topic_a : Topic := Topic_new (mkTopicName "security.alert") LSecurity v1 P0Critical.
Definition sub_a : Subscription :=
  mkSubscription (mkId (mkUuid 7)) (mkRoute (topic_name topic_a) "consumer" [] true)
    RetryPolicy_default 2 true true.
Definition bus0 : EventBus := (subscribe (register_topic new topic_a) sub_a).2.

Definition envelope_a : EventEnvelope :=
  (Envelope.new (Envelope.mkEventType "alert") v1 (mkId (mkUuid 3))
     (Envelope.TraceContext_new (mkId (mkUuid 4))) counting_world).1.
Definition options_a : PublishOptions := PublishOptions_new "summary".
Definition options_low : PublishOptions :=
  mkPublishOptions (Some P4BestEffort) RetryPolicy_default None None "summary" true.
Definition publish_a (b : EventBus) : EventBus :=
  (publish b (topic_name topic_a) envelope_a options_a counting_world).1.2.

Definition bus1 : EventBus := publish_a bus0.
Definition queue1 : list QueuedDelivery := default [] (queues bus1 !! subscription_id sub_a).
Definition event1 : BusEvent :=
  (BusEvent_new (topic_name topic_a) envelope_a P0Critical options_a counting_world).1.

Lemma bus0_steps : rtc bus_step new bus0.
Proof.
  apply rtc_l with (register_topic new topic_a); [constructor|]. apply rtc_once, step_subscribe.
Qed.
Lemma bus0_wf : bus_wf bus0.
Proof. eapply bus_steps_wf; [apply bus0_steps|apply new_wf]. Qed.
Lemma bus1_step : bus_step bus0 bus1.
Proof. apply step_publish. Qed.
Definition report1 : PublishReport := mkReport (topic_name topic_a) 1 1 0 0 [].
Definition world1 : World :=
  (publish bus0 (topic_name topic_a) envelope_a options_a counting_world).2.
Lemma bus1_run :
  publish bus0 (topic_name topic_a) envelope_a options_a counting_world
  = ((Ok report1, bus1), world1).
Proof. vm_compute. reflexivity. Qed.
Lemma bus1_sub : subscriptions bus1 !! subscription_id sub_a = Some sub_a.
Proof. vm_compute. reflexivity. Qed.
Lemma bus1_queue : queues bus1 !! subscription_id sub_a = Some [mkQueued _ event1 1].
Proof. vm_compute. reflexivity. Qed.

Lemma bus_invariant_witness : bus_wf bus0.
Proof. apply (bus_invariant bus0), bus0_steps. Defined.

(** Two publications, one on a lane that may be dropped, one more that finds the queue full,
    evicts it and enters; the first message is acknowledged, the second failed twice, so that
    its three attempts are used up. *)
Definition id_a : SubscriptionId := subscription_id sub_a.
Definition envelope_b : EventEnvelope :=
  (Envelope.new (Envelope.mkEventType "alert") v1 (mkId (mkUuid 3))
     (Envelope.TraceContext_new (mkId (mkUuid 4)))
     (new_uuid (now counting_world).2).2).1.
Definition ops_a : list bus_op :=
  [OpPublish (topic_name topic_a) envelope_a options_a;
   OpPublish (topic_name topic_a) envelope_b options_low;
   OpPublish (topic_name topic_a) envelope_b options_a;
   OpAck id_a (Envelope.event_id envelope_a);
   OpFail id_a (Envelope.event_id envelope_b) HandlerError "failed";
   OpDispatch id_a (λ _, Retry "again")].
Definition log_a := run_log id_a ops_a bus0 counting_world.
Definition message_a : message := (topic_name topic_a, P0Critical, envelope_a).
Definition message_b : message := (topic_name topic_a, P0Critical, envelope_b).
Lemma log_a_run :
  log_a.1.1.1 = [message_a; message_b] ∧ log_a.1.1.2 = [(message_a, true); (message_b, false)] ∧
  bool_decide (Envelope.event_id envelope_a = Envelope.event_id envelope_b) = false.
Proof. split_and!; vm_compute; reflexivity. Qed.

Lemma backlog_refines_fifo_witness :
  log_a.1.1.1 = [message_a; message_b] ∧ messages log_a.1.2 id_a = [] ∧
  lettered log_a.1.2 id_a message_b.
Proof.
  destruct log_a_run as (Hi & Ho & _). split; [exact Hi|].
  destruct log_a as [[[ins outs] b'] w'] eqn:Hrun. cbn [fst snd] in *.
  destruct (backlog_refines_fifo id_a ops_a bus0 counting_world ins outs b' w' bus0_wf Hrun)
    as [Hm Hl].
  rewrite Hi, Ho in Hm. split; [|apply Hl; rewrite Ho; right; left].
  injection Hm as Hm. symmetry. exact Hm.
Defined.

Lemma dead_letters_append_only_witness : dead_letters bus0 `prefix_of` dead_letters bus1.
Proof. apply dead_letters_append_only; [apply bus0_wf|apply rtc_once, bus1_step]. Defined.

Lemma publish_accounting_witness :
  (∃ recs, dead_letters bus1 = dead_letters bus0 ++ recs ∧ dead_letter_id <$> recs = []) ∧
  1 + 0 + 0 = matched_subscriptions report1.
Proof.
  destruct (publish_accounting bus0 (topic_name topic_a) envelope_a options_a counting_world
    report1 bus1 world1 bus0_wf bus1_run) as [Hd _].
  split; [exact Hd|reflexivity].
Defined.

Lemma sub_a_matches : sub_a ∈ matching bus0 (topic_name topic_a) P0Critical.
Proof. vm_compute. left. Qed.

Lemma publish_delivers_witness :
  ∃ q, queues bus1 !! subscription_id sub_a = Some q ∧ len q ≤ 2.
Proof.
  destruct (publish_delivers bus0 (topic_name topic_a) topic_a envelope_a options_a counting_world
    (Ok report1) bus1 world1 bus0_wf eq_refl eq_refl bus1_run) as [Hd _].
  destruct (Hd sub_a sub_a_matches) as (e & q & v & _ & _ & _ & _ & Hq & Hlen).
  exists q. split; [exact Hq|exact Hlen].
Defined.

Lemma publish_protected_witness :
  ∃ d, default [] (queues bus1 !! subscription_id sub_a) !! 0%nat = Some d ∧
    envelope (event d) = envelope_a ∧ attempt d = 1.
Proof.
  exact (publish_protected bus0 (topic_name topic_a) topic_a envelope_a options_a
    counting_world (Ok report1) bus1 world1 bus0_wf eq_refl eq_refl eq_refl eq_refl bus1_run
    sub_a sub_a_matches).
Defined.

Lemma retry_exhaustion_witness :
  ∃ b' w' rec, redeliver 2 bus1 (subscription_id sub_a) "failed" counting_world = (b', w') ∧
    queues b' !! subscription_id sub_a = Some [] ∧ dead_letters b' = [rec] ∧
    dl_event_id rec = Envelope.event_id envelope_a ∧ dl_attempt rec = 3.
Proof.
  exact (proj2 (retry_exhaustion bus1 (subscription_id sub_a) sub_a event1 [] "failed"
    counting_world bus1_sub bus1_queue ltac:(vm_compute; done))).
Defined.

Lemma dispatch_next_cases_witness :
  ∃ b' w', dispatch_next bus1 (subscription_id sub_a) (λ _, Ack) counting_world
      = ((Ok (Some Ack), b'), w') ∧ b' = with_queue bus1 (subscription_id sub_a) [].
Proof.
  exact (dispatch_next_cases bus1 (subscription_id sub_a) sub_a (mkQueued _ event1 1) []
    (λ _, Ack) counting_world bus1_sub bus1_queue).
Defined.

Lemma droppable_lane_bypasses_protection_witness :
  protected_delivery topic_a = true ∧
  is_ok (publish bus0 (topic_name topic_a) envelope_a options_low counting_world).1.1 = true.
Proof.
  split; [reflexivity|].
  apply droppable_lane_bypasses_protection with P4BestEffort;
    [apply bus0_wf|reflexivity|reflexivity|by exists topic_a].
Defined.
End Sample.
