(* ===== verification/Query.v ===== *)
(** * Queries and pages ([contracts/src/common/{query,pagination}.rs])

    The paging and filtering data shared by every read interface, with the
    bounds their constructors enforce. *)

From S2P Require Import Prelude Collections RustStr Effects.
From Stdlib Require Import SpecFloat.

#[local] Open Scope N_scope.

(* ------------------------------------------------------------------ *)
(** ** Pages *)

(* [common/pagination.rs] DEFAULT_PAGE_LIMIT *)
Definition DEFAULT_PAGE_LIMIT : N := 100.
(* [common/pagination.rs] MAX_PAGE_LIMIT *)
Definition MAX_PAGE_LIMIT : N := 1000.
(* [common/pagination.rs] MAX_CURSOR_LENGTH *)
Definition MAX_CURSOR_LENGTH : N := 2048.

(* [common/pagination.rs] Cursor *)
Record Cursor := mkCursor { cursor_str : string }.
(* [common/pagination.rs] CursorError *)
Inductive CursorError :=
  | CursorEmpty
  | CursorTooLong (max actual : N).

(* [common/pagination.rs] Display for CursorError::fmt *)
Definition cursor_error_to_string (self : CursorError) : string :=
  match self with
  | CursorEmpty => "cursor must not be empty"
  | CursorTooLong max actual =>
      "cursor length " ++ show_uint actual ++ " exceeds maximum length " ++ show_uint max
  end%string.

(* [common/pagination.rs] Cursor::new *)
Definition Cursor_new (value : string) : result Cursor CursorError :=
  if blank value then Err CursorEmpty
  else if MAX_CURSOR_LENGTH <? N.of_nat (String.length value)
  then Err (CursorTooLong MAX_CURSOR_LENGTH (N.of_nat (String.length value)))
  else Ok (mkCursor value).

(* [common/pagination.rs] PageRequestError *)
Inductive PageRequestError :=
  | LimitTooSmall
  | LimitTooLarge (max actual : N).

(* [common/pagination.rs] Display for PageRequestError::fmt *)
Definition page_error_to_string (self : PageRequestError) : string :=
  match self with
  | LimitTooSmall => "page limit must be greater than zero"
  | LimitTooLarge max actual =>
      "page limit " ++ show_uint actual ++ " exceeds maximum page limit " ++
      show_uint max
  end%string.

(* [common/pagination.rs] validate_limit *)
Definition validate_limit (limit : N) : result unit PageRequestError :=
  if limit =? 0 then Err LimitTooSmall
  else if MAX_PAGE_LIMIT <? limit then Err (LimitTooLarge MAX_PAGE_LIMIT limit)
  else Ok tt.

(* [common/pagination.rs] PageRequest *)
Record PageRequest := mkPageRequest { page_limit : N; page_cursor : option Cursor }.

(* [common/pagination.rs] PageRequest::new *)
Definition PageRequest_new (limit : N) (cursor : option Cursor)
    : result PageRequest PageRequestError :=
  let? _ := validate_limit limit in
  Ok (mkPageRequest limit cursor).

(* [common/pagination.rs] PageRequest::first *)
Definition PageRequest_first (limit : N) : result PageRequest PageRequestError :=
  PageRequest_new limit None.

(* [common/pagination.rs] PageRequest::validate *)
Definition PageRequest_validate (r : PageRequest) : result unit PageRequestError :=
  validate_limit (page_limit r).

(* [common/pagination.rs] Default for PageRequest::default *)
Definition PageRequest_default : PageRequest := mkPageRequest DEFAULT_PAGE_LIMIT None.

(* [common/pagination.rs] PageResponse *)
Record PageResponse (T : Type) := mkPageResponse {
  items : list T;
  response_limit : N;
  response_cursor : option Cursor;
  next_cursor : option Cursor;
  has_more : bool
}.
Arguments mkPageResponse {T}.
Arguments items {T}.
Arguments response_limit {T}.
Arguments response_cursor {T}.
Arguments next_cursor {T}.
Arguments has_more {T}.

(* [common/pagination.rs] PageResponse::new *)
Definition PageResponse_new {T} (items : list T) (limit : N)
    (cursor next_cursor : option Cursor) (has_more : bool)
    : result (PageResponse T) PageRequestError :=
  let? _ := validate_limit limit in
  Ok (mkPageResponse items limit cursor next_cursor has_more).

(* [common/pagination.rs] PageResponse::from_request *)
Definition PageResponse_from_request {T} (items : list T) (request : PageRequest)
    (next_cursor : option Cursor) (has_more : bool) : PageResponse T :=
  mkPageResponse items (page_limit request) (page_cursor request) next_cursor has_more.

(* [common/pagination.rs] PageResponse::empty *)
Definition PageResponse_empty {T} (request : PageRequest) : PageResponse T :=
  PageResponse_from_request [] request None false.

(* ------------------------------------------------------------------ *)
(** ** Queries *)

(* [common/query.rs] TimeRange *)
Record TimeRange := mkTimeRange { range_start : option Timestamp; range_end : option Timestamp }.
(* [common/query.rs] TimeRange::all *)
Definition TimeRange_all : TimeRange := mkTimeRange None None.
(* [common/query.rs] TimeRangeError *)
Inductive TimeRangeError := StartAfterEnd.

(* [common/query.rs] TimeRange::validate *)
Definition TimeRange_validate (r : TimeRange) : result unit TimeRangeError :=
  match range_start r, range_end r with
  | Some s, Some e => if (instant e <? instant s)%Z then Err StartAfterEnd else Ok tt
  | _, _ => Ok tt
  end.

(* [common/query.rs] TimeRange::new *)
Definition TimeRange_new (s e : option Timestamp) : result TimeRange TimeRangeError :=
  let range := mkTimeRange s e in
  let? _ := TimeRange_validate range in
  Ok range.

(* [common/query.rs] TimeRange::is_bounded *)
Definition is_bounded (r : TimeRange) : bool :=
  bool_decide (is_Some (range_start r)) || bool_decide (is_Some (range_end r)).

(* [common/query.rs] QueryFieldError *)
Inductive QueryFieldError := EmptyQueryField.
(* [common/query.rs] validate_query_field *)
Definition validate_query_field (field : string) : result string QueryFieldError :=
  if blank field then Err EmptyQueryField else Ok field.

(* [common/query.rs] SortDirection *)
Inductive SortDirection := Asc | Desc.
(* [common/query.rs] SortSpec *)
Record SortSpec := mkSortSpec { sort_field : string; sort_direction : SortDirection }.
(* [common/query.rs] SortSpec::new *)
Definition SortSpec_new (field : string) (d : SortDirection) : result SortSpec QueryFieldError :=
  let? field := validate_query_field field in
  Ok (mkSortSpec field d).

(* [common/query.rs] FilterOperator *)
Inductive FilterOperator :=
  | OpEq | OpNotEq | OpContains | OpStartsWith | OpEndsWith | OpIn | OpNotIn
  | OpGreaterThan | OpGreaterThanOrEqual | OpLessThan | OpLessThanOrEqual | OpExists.

(** [f64] is IEEE binary64, in the Standard Library's specification format. *)
(* [common/query.rs] FilterValue *)
Inductive FilterValue :=
  | FString (s : string)
  | FNumber (x : spec_float)
  | FBool (b : bool)
  | FStrings (l : list string)
  | FNull.

(* [common/query.rs] FilterSpec *)
Record FilterSpec := mkFilterSpec {
  filter_field : string;
  filter_operator : FilterOperator;
  filter_value : option FilterValue
}.
(* [common/query.rs] FilterSpec::new *)
Definition FilterSpec_new (field : string) (op : FilterOperator) (value : option FilterValue)
    : result FilterSpec QueryFieldError :=
  let? field := validate_query_field field in
  Ok (mkFilterSpec field op value).
(* [common/query.rs] FilterSpec::exists *)
Definition FilterSpec_exists (field : string) : result FilterSpec QueryFieldError :=
  FilterSpec_new field OpExists None.

(* [common/query.rs] QueryScope *)
Inductive QueryScope :=
  | ScopeGlobal
  | ScopeLocalHost
  | ScopePlugin (i : PluginId)
  | ScopeCapability (i : CapabilityId)
  | ScopeEntity (i : EntityId)
  | ScopeTrace (i : TraceId)
  | ScopeCorrelation (i : CorrelationId)
  | ScopeFinding (i : Id KFindingId)
  | ScopeAlert (i : Id KAlertId)
  | ScopeIncident (i : Id KIncidentId)
  | ScopeReport (i : Id KReportId)
  | ScopeCustom (s : string).

(* [common/query.rs] QueryRequest *)
Record QueryRequest := mkQueryRequest {
  request_page : PageRequest;
  request_time_range : option TimeRange;
  request_filters : list FilterSpec;
  request_sort : list SortSpec;
  request_scope : QueryScope
}.
(* [common/query.rs] QueryRequest::new *)
Definition QueryRequest_new (scope : QueryScope) : QueryRequest :=
  mkQueryRequest PageRequest_default None [] [] scope.
(* [common/query.rs] QueryRequest::with_page *)
Definition with_page (r : QueryRequest) (page : PageRequest) : QueryRequest :=
  mkQueryRequest page (request_time_range r) (request_filters r) (request_sort r)
    (request_scope r).
(* [common/query.rs] QueryRequest::with_time_range *)
Definition with_time_range (r : QueryRequest) (range : TimeRange) : QueryRequest :=
  mkQueryRequest (request_page r) (Some range) (request_filters r) (request_sort r)
    (request_scope r).
(* [common/query.rs] QueryRequest::with_filters *)
Definition with_filters (r : QueryRequest) (filters : list FilterSpec) : QueryRequest :=
  mkQueryRequest (request_page r) (request_time_range r) filters (request_sort r)
    (request_scope r).
(* [common/query.rs] QueryRequest::with_sort *)
Definition with_sort (r : QueryRequest) (sort : list SortSpec) : QueryRequest :=
  mkQueryRequest (request_page r) (request_time_range r) (request_filters r) sort
    (request_scope r).
