(* ===== verification/StorageTypes.v ===== *)
(** * Storage: errors, privacy classes, kinds of stores
    ([storage/src/error.rs], [ids.rs], [privacy.rs], the types of [store.rs])

    Prefixes: [Se] errors, [Dc] data classes, [Rt] retention classes, [Fp] field
    protection, [Sk] kinds of stores, [Rec] states of a record, [spc_] fields of a storage
    privacy class, [lr_] of a logical record, [snap_] of a snapshot. *)

From S2P Require Import Prelude Collections RustStr Effects Contracts Json.

#[local] Open Scope string_scope.
#[local] Open Scope list_scope.
#[local] Open Scope N_scope.

(* ------------------------------------------------------------------ *)
(** ** Errors and identifiers *)

(* [storage/src/error.rs] StorageError *)
Inductive StorageError :=
  | SeSqlite (message : string)
  | SeIo (message : string)
  | SeSerialization (message : string)
  | SeInvalidCursor (message : string)
  | SeInvalidRecord (store_kind reason : string)
  | SeInvalidMigration (migration_key reason : string)
  | SeMigrationFailed (migration_key reason : string)
  | SeInvalidIdentifier (value : string)
  | SeStoreKindMismatch (expected actual : string)
  | SeStorageOwnershipConflict (message : string)
  | SeUnsupportedQuery (message : string).

(* [storage/src/error.rs] Display for StorageError::fmt *)
Definition storage_error_to_string (self : StorageError) : string :=
  match self with
  | SeSqlite message => "sqlite error: " ++ message
  | SeIo message => "io error: " ++ message
  | SeSerialization message => "serialization error: " ++ message
  | SeInvalidCursor message => "invalid store cursor: " ++ message
  | SeInvalidRecord store_kind reason => "invalid " ++ store_kind ++ " record: " ++ reason
  | SeInvalidMigration key reason => "invalid migration " ++ key ++ ": " ++ reason
  | SeMigrationFailed key reason => "migration " ++ key ++ " failed: " ++ reason
  | SeInvalidIdentifier value => "invalid sqlite identifier: " ++ value
  | SeStoreKindMismatch expected actual =>
      "store snapshot kind mismatch: expected " ++ expected ++ ", got " ++ actual
  | SeStorageOwnershipConflict message => "storage ownership conflict: " ++ message
  | SeUnsupportedQuery message => "unsupported store query: " ++ message
  end%string.

Abbreviation IntelligenceCacheId := (Id KIntelligenceCacheId).
Abbreviation ComponentRecordId := (Id KComponentRecordId).
Abbreviation SettingsRecordId := (Id KSettingsRecordId).
Abbreviation StoreSnapshotId := (Id KStoreSnapshotId).
Abbreviation MigrationId := (Id KMigrationId).

(* [storage/src/ids.rs] StorageIdParseError *)
Record StorageIdParseError := mkIdParseError { sip_id_type : string; sip_value : string }.
(* [storage/src/ids.rs] Display for StorageIdParseError::fmt *)
Definition id_parse_error_to_string (self : StorageIdParseError) : string :=
  ("invalid " ++ sip_id_type self ++ " UUID: " ++ sip_value self)%string.

(* ------------------------------------------------------------------ *)
(** ** Privacy classes *)

(* [storage/src/privacy.rs] DataClass *)
Inductive DataClass :=
  | DcD0OperationalMetadata | DcD1SecurityMetadata | DcD2EndpointIdentityMetadata
  | DcD3NetworkBehavioralMetadata | DcD4SensitiveApplicationMetadata | DcD5RawContentPayload
  | DcEphemeralSessionOnly.
#[export] Instance DataClass_eq_dec : EqDecision DataClass.
Proof. solve_decision. Defined.

(* [storage/src/privacy.rs] RetentionClass *)
Inductive RetentionClass :=
  | RtLongLived | RtDays14 | RtDays30 | RtDays90 | RtDays180 | RtDays365 | RtUserControlled
  | RtFeedExpiry | RtShortestPossible | RtForensicOnlyTimeLimited | RtNotStored.
#[export] Instance RetentionClass_eq_dec : EqDecision RetentionClass.
Proof. solve_decision. Defined.

(* [storage/src/privacy.rs] FieldProtection *)
Inductive FieldProtection := FpNone | FpRedactBeforeExport | FpTokenize | FpHash | FpEncrypt.
#[export] Instance FieldProtection_eq_dec : EqDecision FieldProtection.
Proof. solve_decision. Defined.

(* [storage/src/privacy.rs] DataClass::default_retention_class *)
Definition default_retention_class (self : DataClass) : RetentionClass :=
  match self with
  | DcD0OperationalMetadata => RtLongLived
  | DcD1SecurityMetadata => RtDays90
  | DcD2EndpointIdentityMetadata => RtDays30
  | DcD3NetworkBehavioralMetadata => RtDays30
  | DcD4SensitiveApplicationMetadata => RtShortestPossible
  | DcD5RawContentPayload => RtForensicOnlyTimeLimited
  | DcEphemeralSessionOnly => RtNotStored
  end.
(* [storage/src/privacy.rs] DataClass::normal_mode_persistence_allowed *)
Definition data_class_persistence_allowed (self : DataClass) : bool :=
  match self with DcD5RawContentPayload | DcEphemeralSessionOnly => false | _ => true end.
(* [storage/src/privacy.rs] DataClass::fts_index_allowed *)
Definition data_class_fts_index_allowed (self : DataClass) : bool :=
  match self with
  | DcD0OperationalMetadata | DcD1SecurityMetadata | DcD3NetworkBehavioralMetadata => true
  | _ => false
  end.

(* [storage/src/privacy.rs] RetentionClass::retention_days *)
Definition retention_days (self : RetentionClass) : option N :=
  match self with
  | RtDays14 => Some 14 | RtDays30 => Some 30 | RtDays90 => Some 90 | RtDays180 => Some 180
  | RtDays365 => Some 365
  | RtLongLived | RtUserControlled | RtFeedExpiry | RtShortestPossible
  | RtForensicOnlyTimeLimited | RtNotStored => None
  end.
(* [storage/src/privacy.rs] RetentionClass::normal_mode_persistence_allowed *)
Definition retention_class_persistence_allowed (self : RetentionClass) : bool :=
  match self with RtForensicOnlyTimeLimited | RtNotStored => false | _ => true end.

(* [storage/src/privacy.rs] StoragePrivacyClass *)
Record StoragePrivacyClass := mkStorageClass {
  spc_data_class : DataClass;
  spc_retention_class : RetentionClass;
  spc_privacy_class : PrivacyClass;
  spc_field_protection : list FieldProtection;
  spc_normal_mode_persistence_allowed : bool;
  spc_fts_index_allowed : bool
}.
#[export] Instance StoragePrivacyClass_eq_dec : EqDecision StoragePrivacyClass.
Proof. solve_decision. Defined.

(* [storage/src/privacy.rs] StoragePrivacyClass::new *)
Definition storage_class_new (data_class : DataClass) (retention_class : RetentionClass)
    (privacy_class : PrivacyClass) (field_protection : list FieldProtection)
    : StoragePrivacyClass :=
  let normal_mode_persistence_allowed :=
    data_class_persistence_allowed data_class &&
    retention_class_persistence_allowed retention_class in
  {| spc_data_class := data_class;
     spc_retention_class := retention_class;
     spc_privacy_class := privacy_class;
     spc_field_protection := field_protection;
     spc_normal_mode_persistence_allowed := normal_mode_persistence_allowed;
     spc_fts_index_allowed :=
       data_class_fts_index_allowed data_class &&
       negb (bool_decide (privacy_class = Privacy.Secret)) &&
       normal_mode_persistence_allowed |}.
(* [storage/src/privacy.rs] StoragePrivacyClass::operational_metadata *)
Definition operational_metadata : StoragePrivacyClass :=
  storage_class_new DcD0OperationalMetadata RtLongLived Privacy.Internal [FpNone].
(* [storage/src/privacy.rs] StoragePrivacyClass::security_metadata *)
Definition security_metadata : StoragePrivacyClass :=
  storage_class_new DcD1SecurityMetadata RtDays90 Privacy.Sensitive
    [FpEncrypt; FpRedactBeforeExport].
(* [storage/src/privacy.rs] StoragePrivacyClass::network_behavioral_metadata *)
Definition network_behavioral_metadata : StoragePrivacyClass :=
  storage_class_new DcD3NetworkBehavioralMetadata RtDays30 Privacy.Sensitive
    [FpEncrypt; FpRedactBeforeExport].
(* [storage/src/privacy.rs] StoragePrivacyClass::raw_content_forensic_only *)
Definition raw_content_forensic_only : StoragePrivacyClass :=
  storage_class_new DcD5RawContentPayload RtForensicOnlyTimeLimited Privacy.Secret
    [FpEncrypt; FpRedactBeforeExport].
(* [storage/src/privacy.rs] StoragePrivacyClass::ephemeral_session_only *)
Definition ephemeral_session_only : StoragePrivacyClass :=
  storage_class_new DcEphemeralSessionOnly RtNotStored Privacy.Sensitive
    [FpRedactBeforeExport].

(* ------------------------------------------------------------------ *)
(** ** Kinds of stores *)

(* [storage/src/store.rs] StoreKind *)
Inductive StoreKind :=
  | SkEvent | SkPlugin | SkComponent | SkFlow | SkSession | SkDns | SkTls | SkHttpMetadata
  | SkProcessContext | SkIntelligenceCache | SkAsset | SkFinding | SkEvidence | SkRisk | SkAlert
  | SkIncident | SkGraphNode | SkGraphEdge | SkGraphPath | SkResponsePlan | SkResponseAction
  | SkResponseResult | SkRollbackResult | SkReport | SkExportHistory | SkExportPolicyViolation
  | SkAudit | SkSettings | SkMigration.
#[export] Instance StoreKind_eq_dec : EqDecision StoreKind.
Proof. solve_decision. Defined.

(* [storage/src/store.rs] StoreKind::as_str *)
Definition kind_as_str (self : StoreKind) : string :=
  match self with
  | SkEvent => "event" | SkPlugin => "plugin" | SkComponent => "component" | SkFlow => "flow"
  | SkSession => "session" | SkDns => "dns" | SkTls => "tls"
  | SkHttpMetadata => "http_metadata" | SkProcessContext => "process_context"
  | SkIntelligenceCache => "intelligence_cache" | SkAsset => "asset" | SkFinding => "finding"
  | SkEvidence => "evidence" | SkRisk => "risk" | SkAlert => "alert" | SkIncident => "incident"
  | SkGraphNode => "graph_node" | SkGraphEdge => "graph_edge" | SkGraphPath => "graph_path"
  | SkResponsePlan => "response_plan" | SkResponseAction => "response_action"
  | SkResponseResult => "response_result" | SkRollbackResult => "rollback_result"
  | SkReport => "report" | SkExportHistory => "export_history"
  | SkExportPolicyViolation => "export_policy_violation" | SkAudit => "audit"
  | SkSettings => "settings" | SkMigration => "migration"
  end.

#[export] Instance kind_as_str_inj : Inj (=) (=) kind_as_str.
Proof. intros [] []; by vm_compute. Qed.

Definition sensitive_for (data_class : DataClass) (retention_class : RetentionClass)
    : StoragePrivacyClass :=
  storage_class_new data_class retention_class Privacy.Sensitive
    [FpEncrypt; FpRedactBeforeExport].
(* [storage/src/store.rs] StoreKind::default_storage_privacy_class *)
Definition default_storage_privacy_class (self : StoreKind) : StoragePrivacyClass :=
  match self with
  | SkEvent | SkPlugin | SkComponent | SkSettings | SkMigration | SkIntelligenceCache =>
      operational_metadata
  | SkFlow | SkSession | SkDns | SkProcessContext => network_behavioral_metadata
  | SkTls => sensitive_for DcD3NetworkBehavioralMetadata RtDays90
  | SkHttpMetadata => sensitive_for DcD3NetworkBehavioralMetadata RtDays14
  | SkAsset | SkFinding | SkEvidence | SkRisk | SkGraphPath => security_metadata
  | SkAlert => sensitive_for DcD1SecurityMetadata RtDays180
  | SkIncident => sensitive_for DcD1SecurityMetadata RtDays365
  | SkGraphNode | SkGraphEdge => sensitive_for DcD1SecurityMetadata RtDays90
  | SkResponsePlan | SkResponseAction | SkResponseResult | SkRollbackResult =>
      sensitive_for DcD1SecurityMetadata RtDays365
  | SkReport => sensitive_for DcD1SecurityMetadata RtUserControlled
  | SkExportHistory | SkExportPolicyViolation | SkAudit =>
      storage_class_new DcD0OperationalMetadata RtDays365 Privacy.Internal [FpNone]
  end.

(* ------------------------------------------------------------------ *)
(** ** Records *)

(* [storage/src/store.rs] RecordState *)
Inductive RecordState :=
  | RecNew | RecActive | RecUpdated | RecSuppressed | RecPromoted | RecDismissed | RecExpired
  | RecArchived | RecDeleted.
#[export] Instance RecordState_eq_dec : EqDecision RecordState.
Proof. solve_decision. Defined.

(* [storage/src/store.rs] LogicalRecord *)
Record LogicalRecord (kind : IdKind) := mkRecord {
  lr_id : Id kind;
  lr_schema_version : SchemaVersion;
  lr_created_at : Timestamp;
  lr_updated_at : Timestamp;
  lr_record_time : Timestamp;
  lr_entity_refs : list EntityRef;
  lr_privacy_class : PrivacyClass;
  lr_storage_privacy_class : StoragePrivacyClass;
  lr_state : RecordState;
  lr_metadata : JsonTree
}.
Arguments mkRecord {kind} _ _ _ _ _ _ _ _ _ _.
Arguments lr_id {kind} _.
Arguments lr_schema_version {kind} _.
Arguments lr_created_at {kind} _.
Arguments lr_updated_at {kind} _.
Arguments lr_record_time {kind} _.
Arguments lr_entity_refs {kind} _.
Arguments lr_privacy_class {kind} _.
Arguments lr_storage_privacy_class {kind} _.
Arguments lr_state {kind} _.
Arguments lr_metadata {kind} _.

(* [storage/src/store.rs] LogicalRecord::metadata_only *)
Definition metadata_only {kind} (id : Id kind) (schema_version : SchemaVersion)
    (storage_privacy_class : StoragePrivacyClass) (metadata : JsonTree)
    : ST (LogicalRecord kind) :=
  let$ now := now in
  st_ret (mkRecord id schema_version now now now [] (spc_privacy_class storage_privacy_class)
    storage_privacy_class RecActive metadata).
(* [storage/src/store.rs] LogicalRecord::with_entity_refs *)
Definition with_entity_refs {kind} (self : LogicalRecord kind) (entity_refs : list EntityRef)
    : LogicalRecord kind :=
  mkRecord (lr_id self) (lr_schema_version self) (lr_created_at self) (lr_updated_at self)
    (lr_record_time self) entity_refs (lr_privacy_class self) (lr_storage_privacy_class self)
    (lr_state self) (lr_metadata self).
(* [storage/src/store.rs] LogicalRecord::with_record_time *)
Definition with_record_time {kind} (self : LogicalRecord kind) (record_time : Timestamp)
    : LogicalRecord kind :=
  mkRecord (lr_id self) (lr_schema_version self) (lr_created_at self) (lr_updated_at self)
    record_time (lr_entity_refs self) (lr_privacy_class self) (lr_storage_privacy_class self)
    (lr_state self) (lr_metadata self).
(** [record.state = state; record.updated_at = now] *)
Definition with_state {kind} (self : LogicalRecord kind) (state : RecordState)
    (updated_at : Timestamp) : LogicalRecord kind :=
  mkRecord (lr_id self) (lr_schema_version self) (lr_created_at self) updated_at
    (lr_record_time self) (lr_entity_refs self) (lr_privacy_class self)
    (lr_storage_privacy_class self) state (lr_metadata self).

(* [storage/src/store.rs] StoreSnapshot *)
Record StoreSnapshot (kind : IdKind) := mkSnapshot {
  snap_snapshot_id : StoreSnapshotId;
  snap_store_kind : StoreKind;
  snap_created_at : Timestamp;
  snap_record_count : N;
  snap_storage_privacy_class : StoragePrivacyClass;
  snap_records : list (LogicalRecord kind)
}.
Arguments mkSnapshot {kind} _ _ _ _ _ _.
Arguments snap_snapshot_id {kind} _.
Arguments snap_store_kind {kind} _.
Arguments snap_created_at {kind} _.
Arguments snap_record_count {kind} _.
Arguments snap_storage_privacy_class {kind} _.
Arguments snap_records {kind} _.

(* [storage/src/store.rs] RetentionDeleteRequest *)
Record RetentionDeleteRequest := mkDeleteRequest {
  rdr_older_than : Timestamp;
  rdr_dry_run : bool;
  rdr_preserve_audit_records : bool
}.
(* [storage/src/store.rs] RetentionDeleteRequest::dry_run *)
Definition delete_dry_run (older_than : Timestamp) : RetentionDeleteRequest :=
  mkDeleteRequest older_than true true.
(* [storage/src/store.rs] RetentionDeleteRequest::delete_expired *)
Definition delete_expired (older_than : Timestamp) : RetentionDeleteRequest :=
  mkDeleteRequest older_than false true.
(* [storage/src/store.rs] RetentionDeleteSummary *)
Record RetentionDeleteSummary := mkDeleteSummary {
  rds_store_kind : StoreKind;
  rds_matched_count : N;
  rds_deleted_count : N;
  rds_dry_run : bool;
  rds_preserve_reason : option string
}.

(* ------------------------------------------------------------------ *)
(** ** The texts of the enumerations in columns

    The names [serde] derives with [rename_all = "snake_case"], which [enum_to_storage]
    reads back from the JSON string. *)

Definition privacy_class_text (c : PrivacyClass) : string :=
  match c with
  | Privacy.Public => "public" | Privacy.Internal => "internal"
  | Privacy.Sensitive => "sensitive" | Privacy.Secret => "secret"
  | Privacy.Redacted => "redacted" | Privacy.Tokenized => "tokenized"
  end.
Definition retention_class_text (c : RetentionClass) : string :=
  match c with
  | RtLongLived => "long_lived" | RtDays14 => "days14" | RtDays30 => "days30"
  | RtDays90 => "days90" | RtDays180 => "days180" | RtDays365 => "days365"
  | RtUserControlled => "user_controlled" | RtFeedExpiry => "feed_expiry"
  | RtShortestPossible => "shortest_possible"
  | RtForensicOnlyTimeLimited => "forensic_only_time_limited" | RtNotStored => "not_stored"
  end.
Definition data_class_text (c : DataClass) : string :=
  match c with
  | DcD0OperationalMetadata => "d0_operational_metadata"
  | DcD1SecurityMetadata => "d1_security_metadata"
  | DcD2EndpointIdentityMetadata => "d2_endpoint_identity_metadata"
  | DcD3NetworkBehavioralMetadata => "d3_network_behavioral_metadata"
  | DcD4SensitiveApplicationMetadata => "d4_sensitive_application_metadata"
  | DcD5RawContentPayload => "d5_raw_content_payload"
  | DcEphemeralSessionOnly => "ephemeral_session_only"
  end.
Definition record_state_text (s : RecordState) : string :=
  match s with
  | RecNew => "new" | RecActive => "active" | RecUpdated => "updated"
  | RecSuppressed => "suppressed" | RecPromoted => "promoted" | RecDismissed => "dismissed"
  | RecExpired => "expired" | RecArchived => "archived" | RecDeleted => "deleted"
  end.
