(* ===== verification/StorageDb.v ===== *)
(** * The storage database and its statements ([storage/src/store.rs], [migration.rs])

    The SQLite database behind a connection of the crate [rusqlite], as the SQL texts of
    the storage crate use it: the logical records and the three tables of the migration
    runner, with their keys, and whatever other tables migrations create.

    - A statement may fail for a reason of its own (no such table, a unique key), and any
      statement may fail for a reason of the machine: the oracle [sql_faults]. A statement
      that fails changes nothing.
    - A computation [Q A] returns a result; an error ends it, what it did so far stays done.
    - The SQL of a migration is a text of the caller: what it does to the database is a
      parameter ([SqlEngine]). It does not end the transaction it runs in.

    Prefixes: [row_] columns of a logical record, [sm_] of the schema metadata, [mg_] of a
    migration, [ma_] of a migration audit, [db_] tables, [sql_] machine. *)

From S2P Require Import Prelude Collections RustStr Effects Contracts Json StorageTypes.

#[local] Open Scope string_scope.
#[local] Open Scope list_scope.
#[local] Open Scope N_scope.

(* ------------------------------------------------------------------ *)
(** ** Tables *)

(** A row of [sg_logical_records], without its key [(store_kind, record_id)]. *)
(* [storage/src/store.rs] logical_store_migration *)
Record LogicalRow := mkRow {
  row_schema_version : string;
  row_created_at : string;
  row_updated_at : string;
  row_record_time : string;
  row_privacy_class : string;
  row_retention_class : string;
  row_data_class : string;
  row_state : string;
  row_entity_refs_json : string;
  row_record_json : string
}.
#[export] Instance LogicalRow_eq_dec : EqDecision LogicalRow.
Proof. solve_decision. Defined.

(** A row of [sg_schema_metadata], without its key [schema_version]. *)
(* [storage/src/migration.rs:11-18] INTERNAL_SCHEMA_SQL *)
Record SchemaRow := mkSchemaRow {
  sm_created_at : string;
  sm_updated_at : string;
  sm_privacy_class : string;
  sm_retention_class : string;
  sm_data_class : string
}.
(** A row of [sg_migrations], without its key [migration_id]. *)
(* [storage/src/migration.rs:20-32] INTERNAL_SCHEMA_SQL *)
Record MigrationRow := mkMigrationRow {
  mg_migration_key : string;
  mg_schema_version : string;
  mg_name : string;
  mg_status : string;
  mg_created_at : string;
  mg_updated_at : string;
  mg_applied_at : string;
  mg_privacy_class : string;
  mg_retention_class : string;
  mg_data_class : string
}.
(** A row of [sg_migration_audit], without its key [audit_id]. *)
(* [storage/src/migration.rs:34-46] INTERNAL_SCHEMA_SQL *)
Record AuditRow := mkAuditRow {
  ma_migration_id : string;
  ma_migration_key : string;
  ma_schema_version : string;
  ma_status : string;
  ma_started_at : string;
  ma_finished_at : string;
  ma_dry_run : string;
  ma_statement_count : string;
  ma_row_count_verifications : string;
  ma_error_message : string
}.

(** The tables of the migration runner. *)
Record Internal := mkInternal {
  in_schema_metadata : gmap string SchemaRow;
  in_migrations : gmap string MigrationRow;
  in_migration_audit : gmap string AuditRow
}.
Definition no_internal : Internal := mkInternal ∅ ∅ ∅.

(** Each table or group of tables is there once it has been created; [O] is all the rest. *)
Record Database (O : Type) := mkDatabase {
  db_records : option (gmap (string * string) LogicalRow);
  db_internal : option Internal;
  db_other : O
}.
Arguments mkDatabase {O} _ _ _.
Arguments db_records {O} _.
Arguments db_internal {O} _.
Arguments db_other {O} _.

Inductive SqlError := NoSuchTable (table : string) | UniqueFailed (columns : string).

Class SqlEngine (O : Type) := {
  sql_error_text : SqlError → string;
  sql_batch : string → Database O → Database O * result unit string;
  sql_has_table : Database O → string → bool;
  sql_count : Database O → string → result N string
}.

(** [serde_json] of the types that are stored, [Display] of the types of other crates, and
    [Debug] of a filter value. *)
Class StorageText := {
  record_to_text : ∀ {kind}, LogicalRecord kind → result string string;
  record_of_text : ∀ {kind}, string → result (LogicalRecord kind) string;
  refs_to_text : list EntityRef → result string string;
  timestamp_to_string : Timestamp → string
}.

(* ------------------------------------------------------------------ *)
(** ** Computations *)

Record Sql (O : Type) := mkSql {
  sql_world : World;
  sql_faults : nat → option string;
  sql_calls : nat;
  sql_db : Database O
}.
Arguments mkSql {O} _ _ _ _.
Arguments sql_world {O} _.
Arguments sql_faults {O} _ _.
Arguments sql_calls {O} _.
Arguments sql_db {O} _.

Definition Q (O A : Type) : Type := Sql O → result A StorageError * Sql O.

Definition q_ret {O A} (x : A) : Q O A := λ s, (Ok x, s).
Definition q_bind {O A B} (a : Q O A) (f : A → Q O B) : Q O B :=
  λ s, match a s with (Ok x, s) => f x s | (Err e, s) => (Err e, s) end.
Notation "'let@' x ':=' a 'in' k" := (q_bind a (λ x, k))
  (at level 10, x binder, a at level 100, k at level 200) : sentinel_scope.
Notation "'let@' ' x ':=' a 'in' k" := (q_bind a (λ x, k))
  (at level 10, x strict pattern, a at level 100, k at level 200) : sentinel_scope.

Section computations.
Context {O : Type}.

Definition q_fail {A} (error : StorageError) : Q O A := λ s, (Err error, s).
(** [result?] *)
Definition q_of {A} (r : result A StorageError) : Q O A := λ s, (r, s).
(** Identifiers and instants. *)
Definition q_lift {A} (a : ST A) : Q O A :=
  λ s, let '(x, w) := a (sql_world s) in
       (Ok x, mkSql w (sql_faults s) (sql_calls s) (sql_db s)).
(** The result of a computation, without ending on an error. *)
Definition q_try {A} (a : Q O A) : Q O (result A StorageError) :=
  λ s, let '(r, s) := a s in (Ok r, s).

(** [for x in l { f(x)?; }] *)
Fixpoint q_each {A} (f : A → Q O unit) (l : list A) : Q O unit :=
  match l with
  | [] => q_ret tt
  | x :: l => let@ _ := f x in q_each f l
  end.
(** The same with results. *)
Fixpoint q_map {A B} (f : A → Q O B) (l : list A) : Q O (list B) :=
  match l with
  | [] => q_ret []
  | x :: l => let@ y := f x in let@ ys := q_map f l in q_ret (y :: ys)
  end.

(** One statement: [f] is what the engine does when nothing is in the way. *)
Definition statement {A} (f : Database O → Database O * result A string) : Q O A := λ s,
  let calls := S (sql_calls s) in
  match sql_faults s (sql_calls s) with
  | Some error => (Err (SeSqlite error), mkSql (sql_world s) (sql_faults s) calls (sql_db s))
  | None =>
      match f (sql_db s) with
      | (db, Ok x) => (Ok x, mkSql (sql_world s) (sql_faults s) calls db)
      | (_, Err error) =>
          (Err (SeSqlite error), mkSql (sql_world s) (sql_faults s) calls (sql_db s))
      end
  end.
(** A statement that only reads. *)
Definition select {A} (f : Database O → result A string) : Q O A :=
  statement (λ db, (db, f db)).

(** [let tx = connection.transaction()?; body; tx.commit()?] or [tx.rollback()?]. An error
    drops the transaction, which rolls it back. *)
Definition in_transaction {A} (commit : bool) (body : Q O A) : Q O A := λ s,
  let undone (s' : Sql O) := mkSql (sql_world s') (sql_faults s') (sql_calls s') (sql_db s) in
  match select (λ _, Ok tt) s with
  | (Err error, s') => (Err error, s')
  | (Ok _, s') =>
      match body s' with
      | (Err error, s') => (Err error, undone s')
      | (Ok x, s') =>
          match select (λ _, Ok tt) s' with
          | (Err error, s') => (Err error, undone s')
          | (Ok _, s') => (Ok x, if commit then s' else undone s')
          end
      end
  end.

Context `{SqlEngine O}.

(** A batch of statements without parameters. What it did before an error stays: only a
    transaction undoes it. *)
Definition execute_batch (sql : string) : Q O unit := λ s,
  let calls := S (sql_calls s) in
  match sql_faults s (sql_calls s) with
  | Some error => (Err (SeSqlite error), mkSql (sql_world s) (sql_faults s) calls (sql_db s))
  | None =>
      let '(db, r) := sql_batch sql (sql_db s) in
      (map_err SeSqlite r, mkSql (sql_world s) (sql_faults s) calls db)
  end.

(** A statement on the table of logical records. *)
Definition on_records {A}
    (f : gmap (string * string) LogicalRow →
         result (gmap (string * string) LogicalRow * A) string) : Q O A :=
  statement (λ db,
    match db_records db with
    | None => (db, Err (sql_error_text (NoSuchTable "sg_logical_records")))
    | Some rows =>
        match f rows with
        | Err error => (db, Err error)
        | Ok (rows, x) => (mkDatabase (Some rows) (db_internal db) (db_other db), Ok x)
        end
    end).
(** A statement on one of the tables of the migration runner. *)
Definition on_internal {A} (table : string)
    (f : Internal → result (Internal * A) string) : Q O A :=
  statement (λ db,
    match db_internal db with
    | None => (db, Err (sql_error_text (NoSuchTable table)))
    | Some tables =>
        match f tables with
        | Err error => (db, Err error)
        | Ok (tables, x) => (mkDatabase (db_records db) (Some tables) (db_other db), Ok x)
        end
    end).

End computations.

(** [enum_to_storage] of an enumeration of unit variants: its name. *)
(* [storage/src/store.rs] enum_to_storage *)
Definition enum_to_storage (text : string) : result string StorageError := Ok text.
