(* ===== verification/LogicalStore.v ===== *)
(** * Logical stores ([storage/src/store.rs])

    A store keeps the records of one kind in the table of logical records: appending,
    reading, querying a page, changing a state, deleting what is too old, snapshots. The SQL
    text a query builds is a list of [Condition]s; its order and its limit are written out. *)

From S2P Require Import Prelude Collections RustStr Effects Contracts Checks Json.
From S2P Require Import Query StorageTypes StorageDb.
From Stdlib Require Import SpecFloat.

#[local] Open Scope string_scope.
#[local] Open Scope list_scope.
#[local] Open Scope N_scope.

(* ------------------------------------------------------------------ *)
(** ** Validation of a record *)

(* [storage/src/store.rs:20-46] FORBIDDEN_METADATA_KEYS *)
Definition FORBIDDEN_METADATA_KEYS : list string :=
  ["raw_packet"; "raw_packets"; "packet_bytes"; "payload"; "raw_payload"; "payload_blob";
   "http_body"; "request_body"; "response_body"; "cookie"; "cookies"; "authorization";
   "authorization_header"; "api_key"; "password"; "credential"; "credentials"; "private_key";
   "session_token"; "access_token"; "refresh_token"; "token"; "tokens"; "secret"; "secrets"].

Definition is_json_false (value : JsonTree) : bool :=
  match value with JBool false => true | _ => false end.

(** [normalized == *forbidden || normalized.contains(&format!("_{forbidden}"))] *)
Definition forbidden_key (key : string) : bool :=
  let normalized := to_ascii_lowercase key in
  existsb (λ forbidden, bool_decide (normalized = forbidden) ||
                        contains normalized (String "_" forbidden)) FORBIDDEN_METADATA_KEYS.
(* [storage/src/store.rs] validate_metadata_key *)
Definition validate_metadata_key (store_kind : StoreKind) (path key : string)
    (value : JsonTree) : result unit StorageError :=
  if forbidden_key key && negb (is_json_false value)
  then Err (SeInvalidRecord (kind_as_str store_kind)
    ("metadata key `" ++ path ++ "." ++ key ++ "` is not allowed in normal-mode storage")%string)
  else Ok tt.

(* [storage/src/store.rs] validate_metadata_value *)
Fixpoint validate_metadata_value (store_kind : StoreKind) (path : string) (value : JsonTree)
    : result unit StorageError :=
  match value with
  | JObject fields =>
      (fix go fields :=
        match fields with
        | [] => Ok tt
        | (key, nested) :: fields =>
            let? _ := validate_metadata_key store_kind path key nested in
            let? _ := validate_metadata_value store_kind (path ++ "." ++ key)%string nested in
            go fields
        end) fields
  | JArray values =>
      (fix go index values :=
        match values with
        | [] => Ok tt
        | nested :: values =>
            let? _ := validate_metadata_value store_kind
              (path ++ "[" ++ show_uint index ++ "]")%string nested in
            go (index + 1) values
        end) 0 values
  | _ => Ok tt
  end.

(* [storage/src/store.rs] validate_logical_record *)
Definition validate_logical_record {kind} (store_kind : StoreKind) (record : LogicalRecord kind)
    : result unit StorageError :=
  if negb (spc_normal_mode_persistence_allowed (lr_storage_privacy_class record))
  then Err (SeInvalidRecord (kind_as_str store_kind)
    "normal-mode logical stores cannot persist forensic-only or raw content classes")
  else validate_metadata_value store_kind "$" (lr_metadata record).

(* ------------------------------------------------------------------ *)
(** ** Queries *)

Inductive Column := ColState | ColPrivacyClass | ColDataClass | ColRetentionClass.
Definition column_value (column : Column) (row : LogicalRow) : string :=
  match column with
  | ColState => row_state row
  | ColPrivacyClass => row_privacy_class row
  | ColDataClass => row_data_class row
  | ColRetentionClass => row_retention_class row
  end.

(** What is pushed after [" AND "], with the values bound to it. *)
Inductive Condition :=
  | TimeAtLeast (start : string)
  | TimeAtMost (end_ : string)
  | AfterCursor (record_time record_id : string)
  | RefsLike (text : string)
  | ColumnEq (column : Column) (value : string)
  | ColumnNotEq (column : Column) (value : string).

Definition str_lt (s t : string) : bool := negb (key_le t s).

(** Text compares byte by byte. [LIKE '%text%'] finds a text without wildcards in any place,
    in any case of its ASCII letters. *)
(* [storage/src/store.rs:483-508] SqliteLogicalStore::query *)
Definition holds (condition : Condition) (record_id : string) (row : LogicalRow) : bool :=
  match condition with
  | TimeAtLeast start => key_le start (row_record_time row)
  | TimeAtMost end_ => key_le (row_record_time row) end_
  | AfterCursor time id =>
      str_lt (row_record_time row) time ||
      (bool_decide (row_record_time row = time) && str_lt id record_id)
  | RefsLike text =>
      contains (to_ascii_lowercase (row_entity_refs_json row)) (to_ascii_lowercase text)
  | ColumnEq column value => bool_decide (column_value column row = value)
  | ColumnNotEq column value => negb (bool_decide (column_value column row = value))
  end.

(** [ORDER BY ... DESC] *)
Record Descending := descending { ascending : string }.
#[export] Program Instance descending_order : KeyOrder Descending :=
  {| key_le := λ x y, key_le (ascending y) (ascending x) |}.
Next Obligation. intros x y z Hxy Hyz. exact (key_le_trans _ _ _ Hyz Hxy). Qed.
Next Obligation. intros x y. apply key_le_total. Qed.
Next Obligation. intros [x] [y] Hxy Hyx. f_equal. exact (key_le_antisym x y Hyx Hxy). Qed.

(** The rows of a store that satisfy the conditions,
    [ORDER BY record_time DESC, record_id ASC]. *)
Definition page_key (entry : string * LogicalRow) : Descending * string :=
  (descending (row_record_time entry.2), entry.1).
Definition rows_of (store_kind : StoreKind) (rows : gmap (string * string) LogicalRow)
    : list (string * LogicalRow) :=
  omap (λ '((kind, id), row), if bool_decide (kind = kind_as_str store_kind)
                              then Some (id, row) else None) (map_to_list rows).
(* [storage/src/store.rs:519-519] SqliteLogicalStore::query *)
Definition matching_rows (store_kind : StoreKind) (conditions : list Condition)
    (rows : gmap (string * string) LogicalRow) : list (string * LogicalRow) :=
  sort_by_key page_key
    (filter (λ entry, forallb (λ c, holds c entry.1 entry.2) conditions = true)
       (rows_of store_kind rows)).

(* [storage/src/store.rs] filter_column *)
Definition filter_column (field : string) : result Column StorageError :=
  if bool_decide (field = "state") then Ok ColState
  else if bool_decide (field = "privacy_class") then Ok ColPrivacyClass
  else if bool_decide (field = "data_class") then Ok ColDataClass
  else if bool_decide (field = "retention_class") then Ok ColRetentionClass
  else Err (SeUnsupportedQuery
    ("field `" ++ field ++ "` is not indexed by logical stores")%string).

(** [Display] of [f64] and [Debug] of the filter values and operators. *)
Class FilterText := {
  f64_to_string : spec_float → string;
  filter_value_debug : FilterValue → string;
  filter_operator_debug : FilterOperator → string
}.

(* [storage/src/store.rs] push_time_range *)
Definition time_conditions `{StorageText} (time_range : TimeRange) : list Condition :=
  match range_start time_range with
  | Some start => [TimeAtLeast (timestamp_to_string start)] | None => []
  end ++
  match range_end time_range with
  | Some end_ => [TimeAtMost (timestamp_to_string end_)] | None => []
  end.

(* [storage/src/store.rs] filter_value_to_storage *)
Definition filter_value_to_storage `{FilterText} (value : option FilterValue)
    : result string StorageError :=
  match value with
  | Some (FString value) => Ok value
  | Some (FBool value) => Ok (if value then "true" else "false")
  | Some (FNumber value) => Ok (f64_to_string value)
  | Some other => Err (SeUnsupportedQuery
      ("filter value " ++ filter_value_debug other ++
       " is not supported by logical stores yet")%string)
  | None => Err (SeUnsupportedQuery "filter value is required for logical store filters")
  end.

(* [storage/src/store.rs] DecodedCursor *)
Record DecodedCursor := mkDecodedCursor { dc_record_time : string; dc_record_id : string }.
(* [storage/src/store.rs] LOGICAL_STORE_CURSOR_PREFIX *)
Definition LOGICAL_STORE_CURSOR_PREFIX : string := "logical_store:v1".

(* [storage/src/store.rs] decode_cursor *)
Definition decode_cursor (cursor : Cursor) : result DecodedCursor StorageError :=
  let invalid := Err (SeInvalidCursor
    "cursor was not produced by the logical store facade") in
  match split_once "|" (cursor_str cursor) with
  | Some (prefix, rest) =>
      if bool_decide (prefix = LOGICAL_STORE_CURSOR_PREFIX)
      then match split_once "|" rest with
           | Some (record_time, record_id) => Ok (mkDecodedCursor record_time record_id)
           | None => invalid
           end
      else invalid
  | None => invalid
  end.

Section text.
Context `{Externals} `{StorageText} `{FilterText}.

(* [storage/src/store.rs] encode_cursor *)
Definition encode_cursor {kind} (record_time : Timestamp) (record_id : Id kind)
    : result Cursor StorageError :=
  map_err (λ error, SeInvalidCursor (cursor_error_to_string error))
    (Cursor_new (LOGICAL_STORE_CURSOR_PREFIX ++ "|" ++ timestamp_to_string record_time ++ "|" ++
                 id_to_string record_id)%string).

(** The loop over the filters. *)
(* [storage/src/store.rs:494-516] SqliteLogicalStore::query *)
Definition filter_condition (filter : FilterSpec) : result Condition StorageError :=
  let? column := filter_column (filter_field filter) in
  let? value := filter_value_to_storage (filter_value filter) in
  match filter_operator filter with
  | OpEq => Ok (ColumnEq column value)
  | OpNotEq => Ok (ColumnNotEq column value)
  | operator => Err (SeUnsupportedQuery
      ("filter operator " ++ filter_operator_debug operator ++
       " is not supported by logical stores yet")%string)
  end.

(** Everything a query pushes after the kind of the store. *)
(* [storage/src/store.rs:477-516] SqliteLogicalStore::query *)
Definition query_conditions (request : QueryRequest) : result (list Condition) StorageError :=
  let time := match request_time_range request with
              | Some time_range => time_conditions time_range | None => []
              end in
  let? cursor :=
    match page_cursor (request_page request) with
    | Some cursor =>
        let? decoded := decode_cursor cursor in
        Ok [AfterCursor (dc_record_time decoded) (dc_record_id decoded)]
    | None => Ok []
    end in
  let scope := match request_scope request with
               | ScopeEntity entity_id => [RefsLike (id_to_string entity_id)]
               | _ => []
               end in
  let? filters := try_map filter_condition (request_filters request) in
  Ok (time ++ cursor ++ scope ++ filters).

(* ------------------------------------------------------------------ *)
(** ** The operations of a store *)

(* [storage/src/store.rs] SqliteLogicalStore *)
Record SqliteLogicalStore (kind : IdKind) := mkStore {
  st_store_kind : StoreKind;
  st_storage_privacy_class : StoragePrivacyClass
}.
Arguments st_store_kind {kind} _.
Arguments st_storage_privacy_class {kind} _.

Context {O : Type} `{SqlEngine O} {kind : IdKind}.
Implicit Types (self : SqliteLogicalStore kind) (record : LogicalRecord kind).

(** The columns of a record. *)
(* [storage/src/store.rs:929-942] insert_record *)
Definition row_of_record record : result LogicalRow StorageError :=
  let? privacy_class := enum_to_storage (privacy_class_text (lr_privacy_class record)) in
  let? retention_class := enum_to_storage
    (retention_class_text (spc_retention_class (lr_storage_privacy_class record))) in
  let? data_class := enum_to_storage
    (data_class_text (spc_data_class (lr_storage_privacy_class record))) in
  let? state := enum_to_storage (record_state_text (lr_state record)) in
  let? entity_refs_json := map_err SeSerialization (refs_to_text (lr_entity_refs record)) in
  let? record_json := map_err SeSerialization (record_to_text record) in
  Ok {| row_schema_version := Schema.to_string (lr_schema_version record);
        row_created_at := timestamp_to_string (lr_created_at record);
        row_updated_at := timestamp_to_string (lr_updated_at record);
        row_record_time := timestamp_to_string (lr_record_time record);
        row_privacy_class := privacy_class; row_retention_class := retention_class;
        row_data_class := data_class; row_state := state;
        row_entity_refs_json := entity_refs_json; row_record_json := record_json |}.
(* [storage/src/store.rs] insert_record *)
Definition insert_record (store_kind : StoreKind) record : Q O unit :=
  let@ row := q_of (row_of_record record) in
  let key := (kind_as_str store_kind, id_to_string (lr_id record)) in
  on_records (λ rows,
    match rows !! key with
    | Some _ => Err (sql_error_text
        (UniqueFailed "sg_logical_records.store_kind, sg_logical_records.record_id"))
    | None => Ok (<[key := row]> rows, tt)
    end).

(* [storage/src/store.rs] SqliteLogicalStore::append *)
Definition append self record : Q O unit :=
  let@ _ := q_of (validate_logical_record (st_store_kind self) record) in
  insert_record (st_store_kind self) record.

(** [serde_json::from_str] of a column [record_json]. *)
Definition parse_record (text : string) : result (LogicalRecord kind) StorageError :=
  map_err SeSerialization (record_of_text text).
(* [storage/src/store.rs] SqliteLogicalStore::get_by_id *)
Definition get_by_id self (id : Id kind) : Q O (option (LogicalRecord kind)) :=
  let@ record_json := on_records (λ rows,
    Ok (rows, row_record_json <$> rows !! (kind_as_str (st_store_kind self), id_to_string id))) in
  match record_json with
  | Some value => let@ record := q_of (parse_record value) in q_ret (Some record)
  | None => q_ret None
  end.

(** [request.page.limit + 1], a [u32]. *)
Definition row_limit (page : PageRequest) : N := (page_limit page + 1) mod (u32_max + 1).
(** [if has_more { records.pop(); }] *)
Definition pop_extra {A} (has_more : bool) (records : list A) : list A :=
  if has_more then removelast records else records.
(* [storage/src/store.rs] SqliteLogicalStore::query *)
Definition query self (request : QueryRequest) : Q O (PageResponse (LogicalRecord kind)) :=
  let@ conditions := q_of (query_conditions request) in
  let@ record_jsons := on_records (λ rows,
    Ok (rows, (λ entry, row_record_json entry.2) <$>
      take (N.to_nat (row_limit (request_page request)))
        (matching_rows (st_store_kind self) conditions rows))) in
  let@ records := q_of (try_map parse_record record_jsons) in
  let has_more := page_limit (request_page request) <? len records in
  let records := pop_extra has_more records in
  let@ next_cursor :=
    if has_more
    then match last records with
         | Some record =>
             let@ cursor := q_of (encode_cursor (lr_record_time record) (lr_id record)) in
             q_ret (Some cursor)
         | None => q_ret None
         end
    else q_ret None in
  q_ret (PageResponse_from_request records (request_page request) next_cursor has_more).

(* [storage/src/store.rs] SqliteLogicalStore::query_by_time_range *)
Definition query_by_time_range self (time_range : TimeRange) (page : PageRequest)
    : Q O (PageResponse (LogicalRecord kind)) :=
  query self (with_time_range (with_page (QueryRequest_new ScopeGlobal) page) time_range).
(* [storage/src/store.rs] SqliteLogicalStore::query_by_entity *)
Definition query_by_entity self (entity_ref : EntityRef) (page : PageRequest)
    : Q O (PageResponse (LogicalRecord kind)) :=
  query self (with_page (QueryRequest_new (ScopeEntity (entity_id entity_ref))) page).

(** [UPDATE ... SET updated_at, state, record_json]: a row that is gone is no error. *)
Definition set_state_columns (updated_at state record_json : string) (row : LogicalRow)
    : LogicalRow :=
  mkRow (row_schema_version row) (row_created_at row) updated_at (row_record_time row)
    (row_privacy_class row) (row_retention_class row) (row_data_class row) state
    (row_entity_refs_json row) record_json.
(* [storage/src/store.rs] SqliteLogicalStore::update_state *)
Definition update_state self (id : Id kind) (state : RecordState) : Q O unit :=
  let@ found := get_by_id self id in
  let@ record := q_of (ok_or found (SeInvalidRecord (kind_as_str (st_store_kind self))
    ("record " ++ id_to_string id ++ " does not exist")%string)) in
  let@ updated_at := q_lift now in
  let record := with_state record state updated_at in
  let@ _ := q_of (validate_logical_record (st_store_kind self) record) in
  let@ state_text := q_of (enum_to_storage (record_state_text (lr_state record))) in
  let@ record_json := q_of (map_err SeSerialization (record_to_text record)) in
  on_records (λ rows,
    Ok (alter (set_state_columns (timestamp_to_string (lr_updated_at record)) state_text
                 record_json) (kind_as_str (st_store_kind self), id_to_string id) rows, tt)).

(** The stores whose records are preserved by default. *)
Definition preserved_kind (store_kind : StoreKind) : bool :=
  match store_kind with
  | SkAudit | SkExportHistory | SkExportPolicyViolation | SkMigration => true
  | _ => false
  end.
(** [WHERE store_kind = ?1 AND record_time < ?2] *)
Definition expired_row (store_kind : StoreKind) (older_than : string)
    (entry : (string * string) * LogicalRow) : Prop :=
  entry.1.1 = kind_as_str store_kind ∧ str_lt (row_record_time entry.2) older_than = true.
#[export] Instance expired_row_dec store_kind older_than entry :
  Decision (expired_row store_kind older_than entry).
Proof. unfold expired_row. apply _. Defined.

(* [storage/src/store.rs] SqliteLogicalStore::delete_by_retention *)
Definition delete_by_retention self (request : RetentionDeleteRequest)
    : Q O RetentionDeleteSummary :=
  let store_kind := st_store_kind self in
  if rdr_preserve_audit_records request && preserved_kind store_kind
  then q_ret (mkDeleteSummary store_kind 0 0 (rdr_dry_run request)
    (Some "audit, export history, and migration records are preserved by default"))
  else
    let older_than := timestamp_to_string (rdr_older_than request) in
    let@ matched_count := on_records (λ rows,
      Ok (rows, N.of_nat (size (filter (expired_row store_kind older_than) rows)))) in
    let@ deleted_count :=
      if rdr_dry_run request then q_ret 0
      else on_records (λ rows,
        Ok (filter (λ entry, ¬ expired_row store_kind older_than entry) rows,
            N.of_nat (size (filter (expired_row store_kind older_than) rows)))) in
    q_ret (mkDeleteSummary store_kind matched_count deleted_count (rdr_dry_run request) None).

(* [storage/src/store.rs] SqliteLogicalStore::delete_by_id *)
Definition delete_by_id self (id : Id kind) : Q O bool :=
  let key := (kind_as_str (st_store_kind self), id_to_string id) in
  on_records (λ rows, Ok (delete key rows, bool_decide (is_Some (rows !! key)))).

(** [DELETE ... WHERE store_kind = ?1] *)
Definition kind_row (store_kind : StoreKind) (entry : (string * string) * LogicalRow) : Prop :=
  entry.1.1 = kind_as_str store_kind.
#[export] Instance kind_row_dec store_kind entry : Decision (kind_row store_kind entry).
Proof. unfold kind_row. apply _. Defined.
(* [storage/src/store.rs] SqliteLogicalStore::delete_all *)
Definition delete_all self : Q O N :=
  on_records (λ rows,
    Ok (filter (λ entry, ¬ kind_row (st_store_kind self) entry) rows,
        N.of_nat (size (filter (kind_row (st_store_kind self)) rows)))).

(* [storage/src/store.rs] SqliteLogicalStore::create_snapshot *)
Definition create_snapshot self : Q O (StoreSnapshot kind) :=
  let@ page := q_of (map_err (λ error, SeUnsupportedQuery (page_error_to_string error))
                       (PageRequest_first MAX_PAGE_LIMIT)) in
  let@ response := query self (with_page (QueryRequest_new ScopeGlobal) page) in
  let@ snapshot_id := q_lift new_v4 in
  let@ created_at := q_lift now in
  q_ret (mkSnapshot snapshot_id (st_store_kind self) created_at (len (items response))
           (st_storage_privacy_class self) (items response)).

(* [storage/src/store.rs] SqliteLogicalStore::restore_snapshot *)
Definition restore_snapshot self (snapshot : StoreSnapshot kind) : Q O unit :=
  if negb (bool_decide (snap_store_kind snapshot = st_store_kind self))
  then q_fail (SeStoreKindMismatch (kind_as_str (st_store_kind self))
                 (kind_as_str (snap_store_kind snapshot)))
  else
    let@ _ := delete_all self in
    q_each (λ record,
      let@ _ := q_of (validate_logical_record (st_store_kind self) record) in
      insert_record (st_store_kind self) record) (snap_records snapshot).

End text.
Arguments mkStore {kind} _ _.
Arguments st_store_kind {kind} _.
Arguments st_storage_privacy_class {kind} _.

(* ------------------------------------------------------------------ *)
(** ** The stores of the program *)

(* [storage/src/store.rs] SqliteStoreFactory::store *)
Definition factory_store (kind : IdKind) (store_kind : StoreKind) : SqliteLogicalStore kind :=
  mkStore store_kind (default_storage_privacy_class store_kind).

(* [storage/src/store.rs] SqliteStoreFactory::event_store *)
Definition event_store := factory_store KEventId SkEvent.
(* [storage/src/store.rs] SqliteStoreFactory::plugin_store *)
Definition plugin_store := factory_store KPluginId SkPlugin.
(* [storage/src/store.rs] SqliteStoreFactory::component_store *)
Definition component_store := factory_store KComponentRecordId SkComponent.
(* [storage/src/store.rs] SqliteStoreFactory::flow_store *)
Definition flow_store := factory_store KFlowId SkFlow.
(* [storage/src/store.rs] SqliteStoreFactory::session_store *)
Definition session_store := factory_store KSessionId SkSession.
(* [storage/src/store.rs] SqliteStoreFactory::dns_store *)
Definition dns_store := factory_store KDnsObservationId SkDns.
(* [storage/src/store.rs] SqliteStoreFactory::tls_store *)
Definition tls_store := factory_store KTlsObservationId SkTls.
(* [storage/src/store.rs] SqliteStoreFactory::http_metadata_store *)
Definition http_metadata_store := factory_store KHttpMetadataId SkHttpMetadata.
(* [storage/src/store.rs] SqliteStoreFactory::process_context_store *)
Definition process_context_store := factory_store KProcessContextId SkProcessContext.
(* [storage/src/store.rs] SqliteStoreFactory::intelligence_cache_store *)
Definition intelligence_cache_store := factory_store KIntelligenceCacheId SkIntelligenceCache.
(* [storage/src/store.rs] SqliteStoreFactory::asset_store *)
Definition asset_store := factory_store KAssetIdentityId SkAsset.
(* [storage/src/store.rs] SqliteStoreFactory::finding_store *)
Definition finding_store := factory_store KFindingId SkFinding.
(* [storage/src/store.rs] SqliteStoreFactory::evidence_store *)
Definition evidence_store := factory_store KEvidenceId SkEvidence.
(* [storage/src/store.rs] SqliteStoreFactory::risk_store *)
Definition risk_store := factory_store KRiskEventId SkRisk.
(* [storage/src/store.rs] SqliteStoreFactory::alert_store *)
Definition alert_store := factory_store KAlertId SkAlert.
(* [storage/src/store.rs] SqliteStoreFactory::incident_store *)
Definition incident_store := factory_store KIncidentId SkIncident.
(* [storage/src/store.rs] SqliteStoreFactory::report_store *)
Definition report_store := factory_store KReportId SkReport.
(* [storage/src/store.rs] SqliteStoreFactory::export_history_store *)
Definition export_history_store := factory_store KExportResultId SkExportHistory.
(* [storage/src/store.rs] SqliteStoreFactory::export_policy_violation_store *)
Definition export_policy_violation_store := factory_store KAuditId SkExportPolicyViolation.
(* [storage/src/store.rs] SqliteStoreFactory::audit_store *)
Definition audit_store := factory_store KAuditId SkAudit.
(* [storage/src/store.rs] SqliteStoreFactory::settings_store *)
Definition settings_store := factory_store KSettingsRecordId SkSettings.
(* [storage/src/store.rs] SqliteStoreFactory::migration_store *)
Definition migration_store := factory_store KMigrationId SkMigration.

(* [storage/src/store.rs] SqliteGraphStore *)
Record SqliteGraphStore := mkGraphStore {
  gs_nodes : SqliteLogicalStore KGraphNodeId;
  gs_edges : SqliteLogicalStore KGraphEdgeId;
  gs_paths : SqliteLogicalStore KGraphPathId
}.
(* [storage/src/store.rs] SqliteStoreFactory::graph_store *)
Definition graph_store : SqliteGraphStore :=
  mkGraphStore (factory_store KGraphNodeId SkGraphNode) (factory_store KGraphEdgeId SkGraphEdge)
    (factory_store KGraphPathId SkGraphPath).
(* [storage/src/store.rs] SqliteResponseStore *)
Record SqliteResponseStore := mkResponseStore {
  rs_plans : SqliteLogicalStore KResponsePlanId;
  rs_actions : SqliteLogicalStore KResponseActionId;
  rs_results : SqliteLogicalStore KResponseResultId;
  rs_rollback_results : SqliteLogicalStore KRollbackResultId
}.
(* [storage/src/store.rs] SqliteStoreFactory::response_store *)
Definition response_store : SqliteResponseStore :=
  mkResponseStore (factory_store KResponsePlanId SkResponsePlan)
    (factory_store KResponseActionId SkResponseAction)
    (factory_store KResponseResultId SkResponseResult)
    (factory_store KRollbackResultId SkRollbackResult).
