(* ===== verification/LogicalStoreFacts.v ===== *)
(** * What a logical store guarantees ([storage/src/store.rs])

    The records a store accepts; the refinement of a store to a finite map from identifiers
    to records, operation by operation; paging; retention; snapshots. *)

From S2P Require Import Prelude Collections RustStr Effects Contracts Checks Json.
From S2P Require Import Query StorageTypes StorageDb LogicalStore.

#[local] Open Scope string_scope.
#[local] Open Scope list_scope.
#[local] Open Scope N_scope.

(* ------------------------------------------------------------------ *)
(** ** The metadata of a record *)

(** A field of an object, at any depth of a value. *)
Inductive field_of : JsonTree → string → JsonTree → Prop :=
  | field_here fields key v : (key, v) ∈ fields → field_of (JObject fields) key v
  | field_below fields key' v' key v :
      (key', v') ∈ fields → field_of v' key v → field_of (JObject fields) key v
  | field_element values v' key v :
      v' ∈ values → field_of v' key v → field_of (JArray values) key v.

Lemma is_json_false_true v : is_json_false v = true ↔ v = JBool false.
Proof. destruct v as [|[]| | | |]; simpl; naive_solver. Qed.

Lemma metadata_key_ok sk path key v :
  validate_metadata_key sk path key v = Ok tt ↔ (forbidden_key key = true → v = JBool false).
Proof.
  unfold validate_metadata_key. rewrite <- is_json_false_true.
  destruct (forbidden_key key), (is_json_false v); simpl; naive_solver.
Qed.

Lemma field_of_leaf v key nested :
  match v with JArray _ | JObject _ => False | _ => True end → ¬ field_of v key nested.
Proof. by intros Hv Hf; inversion Hf; subst. Qed.
Lemma field_of_array v values key nested :
  field_of (JArray (v :: values)) key nested ↔
  field_of v key nested ∨ field_of (JArray values) key nested.
Proof.
  split.
  - intros Hf. inversion Hf as [| |? v' ?? Hin Hb]; subst.
    apply elem_of_cons in Hin as [->|Hin]; [by left|right; by eapply field_element].
  - intros [Hf|Hf]; [eapply field_element; [apply list_elem_of_here|done]|].
    inversion Hf as [| |? v' ?? Hin Hb]; subst.
    eapply field_element; [by apply list_elem_of_further|done].
Qed.
Lemma field_of_object k v fields key nested :
  field_of (JObject ((k, v) :: fields)) key nested ↔
  (key = k ∧ nested = v) ∨ field_of v key nested ∨ field_of (JObject fields) key nested.
Proof.
  split.
  - intros Hf. inversion Hf as [??? Hin|???? ? Hin Hb|]; subst;
      apply elem_of_cons in Hin as [[= -> ->]|Hin].
    + by left.
    + right; right. by apply field_here.
    + by right; left.
    + right; right. by eapply field_below.
  - intros [[-> ->]|[Hf|Hf]]; [apply field_here, list_elem_of_here| |].
    + eapply field_below; [apply list_elem_of_here|done].
    + inversion Hf as [??? Hin|???? ? Hin Hb|]; subst;
        [by apply field_here, list_elem_of_further|].
      eapply field_below; [by apply list_elem_of_further|done].
Qed.
Lemma field_of_nil v key nested :
  v = JArray [] ∨ v = JObject [] → ¬ field_of v key nested.
Proof.
  by intros [->| ->] Hf; inversion Hf as [??? Hin|???? ? Hin|? ??? Hin]; subst; inversion Hin.
Qed.

(** Valid metadata have no forbidden key at any depth, whatever the path of the error would
    be, unless its value is [false]. *)
Lemma metadata_value_ok sk v : ∀ path,
  validate_metadata_value sk path v = Ok tt ↔
  ∀ key nested, field_of v key nested → forbidden_key key = true → nested = JBool false.
Proof.
  induction v as [| | | |values IH|fields IH] using json_induction; intros path;
    [split; [intros _ ?? Hf; by apply field_of_leaf in Hf|done]..| |].
  - simpl. generalize 0. induction IH as [|v values Hv _ IHvalues]; intros i.
    { split; [|done]. intros _ ?? Hf. apply field_of_nil in Hf; tauto. }
    rewrite chain_ok, Hv, IHvalues. setoid_rewrite field_of_array. naive_solver.
  - simpl. induction IH as [|[k v] fields Hv _ IHfields].
    { split; [|done]. intros _ ?? Hf. apply field_of_nil in Hf; tauto. }
    rewrite !chain_ok, metadata_key_ok, (Hv _), IHfields. setoid_rewrite field_of_object.
    naive_solver.
Qed.

(** What a store accepts: exactly the records of a class that normal mode may persist
    whose metadata have no forbidden key -- a whole word like [payload] or [cookie], or one
    that follows an underscore -- at any depth, except with the value [false]. *)
Theorem record_accepted_iff {kind} sk (record : LogicalRecord kind) :
  validate_logical_record sk record = Ok tt ↔
  spc_normal_mode_persistence_allowed (lr_storage_privacy_class record) = true ∧
  ∀ key nested, field_of (lr_metadata record) key nested → forbidden_key key = true →
    nested = JBool false.
Proof.
  unfold validate_logical_record. rewrite <- (metadata_value_ok sk (lr_metadata record) "$").
  destruct (spc_normal_mode_persistence_allowed _); simpl; naive_solver.
Qed.

(* ------------------------------------------------------------------ *)
(** ** Statements *)

Section statements.
Context {O : Type} `{SqlEngine O}.
Implicit Types s : Sql O.
Abbreviation Rows := (gmap (string * string) LogicalRow).

(** After a statement that leaves the database as [db]. *)
Definition advance s (db : Database O) : Sql O :=
  mkSql (sql_world s) (sql_faults s) (S (sql_calls s)) db.
Definition with_records (db : Database O) rows : Database O :=
  mkDatabase (Some rows) (db_internal db) (db_other db).
(** No statement fails for a reason of the machine. *)
Definition quiet s : Prop := ∀ n, sql_faults s n = None.

(** What a statement on the records gives. *)
Inductive on_records_gives {A} (f : Rows → result (Rows * A) string) s rows : result A StorageError * Sql O → Prop :=
  | gives_fault e :
      sql_faults s (sql_calls s) = Some e →
      on_records_gives f s rows (Err (SeSqlite e), advance s (sql_db s))
  | gives_error e :
      f rows = Err e → on_records_gives f s rows (Err (SeSqlite e), advance s (sql_db s))
  | gives_ok rows' x :
      f rows = Ok (rows', x) →
      on_records_gives f s rows (Ok x, advance s (with_records (sql_db s) rows')).

Lemma on_records_run {A} (f : Rows → result (Rows * A) string) s rows :
  db_records (sql_db s) = Some rows → on_records_gives f s rows (on_records f s).
Proof.
  intros Hr. unfold on_records, statement. rewrite Hr.
  destruct (sql_faults s (sql_calls s)) as [e|] eqn:Hf; [by apply gives_fault|].
  destruct (f rows) as [[rows' x]|e] eqn:Hfr; [by apply gives_ok|by apply gives_error].
Qed.

Lemma on_records_quiet {A} (f : Rows → result (Rows * A) string) s rows :
  quiet s → db_records (sql_db s) = Some rows →
  on_records f s =
  match f rows with
  | Ok (rows', x) => (Ok x, advance s (with_records (sql_db s) rows'))
  | Err e => (Err (SeSqlite e), advance s (sql_db s))
  end.
Proof.
  intros Hq Hr. unfold on_records, statement. rewrite Hq, Hr.
  by destruct (f rows) as [[rows' x]|e].
Qed.
End statements.

(* ------------------------------------------------------------------ *)
(** ** A store as a map *)

Section refinement.
Context `{Externals} `{StorageText} `{FilterText} {O : Type} `{SqlEngine O} {kind : IdKind}.
Implicit Types (s : Sql O) (self : SqliteLogicalStore kind) (r : LogicalRecord kind).

Abbreviation Contents := (gmap (Id kind) (LogicalRecord kind)).
Abbreviation Rows := (gmap (string * string) LogicalRow).

(** A record whose texts can be made and read back. *)
Definition storable r : Prop :=
  ∃ row, row_of_record r = Ok row ∧ record_of_text (row_record_json row) = Ok r.
Definition no_row : LogicalRow := mkRow "" "" "" "" "" "" "" "" "" "".
Definition the_row r : LogicalRow :=
  match row_of_record r with Ok row => row | Err _ => no_row end.

Record stored (sk : StoreKind) (id : Id kind) r : Prop := {
  sd_id : lr_id r = id;
  sd_valid : validate_logical_record sk r = Ok tt;
  sd_storable : storable r
}.

(** The rows of the store are the records of [c], under the texts of their identifiers. *)
Record represents self s (c : Contents) : Prop := {
  rep_rows : ∃ rows, db_records (sql_db s) = Some rows ∧
    ∀ t, rows !! (kind_as_str (st_store_kind self), t) =
         (kmap id_to_string (the_row <$> c) : gmap string LogicalRow) !! t;
  rep_stored : map_Forall (stored (st_store_kind self)) c
}.

(** What belongs to other stores, and all other tables, are as they were. *)
Definition elsewhere self s s' : Prop :=
  (∀ key, key.1 ≠ kind_as_str (st_store_kind self) →
     (db_records (sql_db s') ≫= (.!! key)) = (db_records (sql_db s) ≫= (.!! key))) ∧
  db_internal (sql_db s') = db_internal (sql_db s) ∧
  db_other (sql_db s') = db_other (sql_db s) ∧ sql_faults s' = sql_faults s.

Lemma the_row_storable r : storable r → row_of_record r = Ok (the_row r).
Proof. intros (row & Hr & _). unfold the_row. by rewrite Hr. Qed.
Lemma parse_the_row r : storable r → parse_record (row_record_json (the_row r)) = Ok r.
Proof.
  intros (row & Hr & Hp). unfold the_row, parse_record. by rewrite Hr, Hp.
Qed.
Lemma the_row_time r : storable r → row_record_time (the_row r) = timestamp_to_string (lr_record_time r).
Proof.
  intros Hs. pose proof (the_row_storable _ Hs) as Hr. revert Hr. unfold row_of_record.
  cbn [enum_to_storage res_bind]. destruct (refs_to_text _); [|done].
  destruct (record_to_text r); [|done]. cbn [map_err res_bind]. by intros [= <-].
Qed.

(** The row of an identifier. *)
Lemma rows_lookup (c : Contents) (id : Id kind) :
  (kmap id_to_string (the_row <$> c) : gmap string LogicalRow) !! id_to_string id =
  the_row <$> c !! id.
Proof. by rewrite lookup_kmap, lookup_fmap by apply _. Qed.

(** Statements that write the row of one identifier, or of none. *)
Lemma represents_advance self s c : represents self s c → represents self (advance s (sql_db s)) c.
Proof. intros [Hr Hs]. by constructor. Qed.
Lemma elsewhere_refl self s : elsewhere self s (advance s (sql_db s)).
Proof. done. Qed.
Lemma elsewhere_trans self s1 s2 s3 :
  elsewhere self s1 s2 → elsewhere self s2 s3 → elsewhere self s1 s3.
Proof.
  intros (Ha & ? & ? & ?) (Hb & ? & ? & ?). split_and!; try congruence.
  intros key Hk. by rewrite Hb, Ha.
Qed.

Lemma represents_write self s c rows rows' c' :
  db_records (sql_db s) = Some rows →
  (∀ t, rows' !! (kind_as_str (st_store_kind self), t) =
        (kmap id_to_string (the_row <$> c') : gmap string LogicalRow) !! t) →
  (∀ key, key.1 ≠ kind_as_str (st_store_kind self) → rows' !! key = rows !! key) →
  map_Forall (stored (st_store_kind self)) c' →
  represents self s c →
  represents self (advance s (with_records (sql_db s) rows')) c' ∧
  elsewhere self s (advance s (with_records (sql_db s) rows')).
Proof.
  intros Hr Ht Hk Hst [Hrows _]. split; [constructor; [by exists rows'|done]|].
  split_and!; [|done..]. intros key Hkey. simpl. rewrite Hr. simpl. by apply Hk.
Qed.

(** ** Operations *)

Inductive StoreOp :=
  | OpAppend r
  | OpGet (id : Id kind)
  | OpUpdate (id : Id kind) (state : RecordState)
  | OpDelete (id : Id kind)
  | OpDeleteAll
  | OpRetention (request : RetentionDeleteRequest).
Inductive Answer :=
  | Done
  | Found (record : option (LogicalRecord kind))
  | Deleted (was_there : bool)
  | Count (n : N)
  | Summary (summary : RetentionDeleteSummary).

Definition run_op self (op : StoreOp) : Q O Answer :=
  match op with
  | OpAppend r => let@ _ := append self r in q_ret Done
  | OpGet id => let@ record := get_by_id self id in q_ret (Found record)
  | OpUpdate id state => let@ _ := update_state self id state in q_ret Done
  | OpDelete id => let@ b := delete_by_id self id in q_ret (Deleted b)
  | OpDeleteAll => let@ n := delete_all self in q_ret (Count n)
  | OpRetention request => let@ summary := delete_by_retention self request in
                           q_ret (Summary summary)
  end.

(** The records that retention deletes. *)
Definition expired (older_than : Timestamp) (entry : Id kind * LogicalRecord kind) : Prop :=
  str_lt (timestamp_to_string (lr_record_time entry.2)) (timestamp_to_string older_than) = true.
#[local] Instance expired_dec older_than entry : Decision (expired older_than entry).
Proof. unfold expired. apply _. Defined.

(** What an operation is on a map. *)
Inductive map_op (sk : StoreKind) (c : Contents) : StoreOp → Answer → Contents → Prop :=
  | map_append r :
      validate_logical_record sk r = Ok tt → c !! lr_id r = None →
      map_op sk c (OpAppend r) Done (<[lr_id r := r]> c)
  | map_get id : map_op sk c (OpGet id) (Found (c !! id)) c
  | map_update id state r t :
      c !! id = Some r → map_op sk c (OpUpdate id state) Done (<[id := with_state r state t]> c)
  | map_delete id :
      map_op sk c (OpDelete id) (Deleted (bool_decide (is_Some (c !! id)))) (delete id c)
  | map_delete_all : map_op sk c OpDeleteAll (Count (N.of_nat (size c))) ∅
  | map_preserved request :
      rdr_preserve_audit_records request = true → preserved_kind sk = true →
      map_op sk c (OpRetention request) (Summary (mkDeleteSummary sk 0 0 (rdr_dry_run request)
        (Some "audit, export history, and migration records are preserved by default"))) c
  | map_retention request :
      rdr_preserve_audit_records request && preserved_kind sk = false →
      let matched := N.of_nat (size (filter (expired (rdr_older_than request)) c)) in
      map_op sk c (OpRetention request)
        (Summary (mkDeleteSummary sk matched (if rdr_dry_run request then 0 else matched)
           (rdr_dry_run request) None))
        (if rdr_dry_run request then c
         else filter (λ entry, ¬ expired (rdr_older_than request) entry) c).

(** What an operation needs of the texts. *)
Definition op_storable (c : Contents) (op : StoreOp) : Prop :=
  match op with
  | OpAppend r => storable r
  | OpUpdate id state => ∀ r t, c !! id = Some r → storable (with_state r state t)
  | _ => True
  end.
(** When an operation is refused. *)
Definition refused (sk : StoreKind) (c : Contents) (op : StoreOp) : Prop :=
  match op with
  | OpAppend r => validate_logical_record sk r ≠ Ok tt ∨ is_Some (c !! lr_id r)
  | OpUpdate id _ => c !! id = None
  | _ => False
  end.

(** The result of an operation on a store that represents [c]. *)
Definition refines self s c (op : StoreOp) (r : result Answer StorageError * Sql O) : Prop :=
  elsewhere self s r.2 ∧
  match r.1 with
  | Ok answer => ∃ c', map_op (st_store_kind self) c op answer c' ∧ represents self r.2 c'
  | Err _ => represents self r.2 c ∧ (quiet s → refused (st_store_kind self) c op)
  end.

(** ** Rows and records *)

Definition key_of (sk : StoreKind) (id : Id kind) : string * string :=
  (kind_as_str sk, id_to_string id).
#[local] Instance key_of_inj sk : Inj (=) (=) (key_of sk).
Proof. intros x y [= Hxy]. by apply (inj id_to_string). Qed.

Lemma represented_row self s c rows t row :
  represents self s c → db_records (sql_db s) = Some rows →
  rows !! (kind_as_str (st_store_kind self), t) = Some row ↔
  ∃ id r, t = id_to_string id ∧ c !! id = Some r ∧ row = the_row r.
Proof.
  intros [(rows' & Hr & Ht) _] Hrows. simplify_eq. rewrite Ht, lookup_kmap_Some by apply _.
  setoid_rewrite lookup_fmap_Some. naive_solver.
Qed.

(** The rows of the store that satisfy a condition, when the condition is one on records. *)
Lemma filter_rows self s c rows (P : (string * string) * LogicalRow → Prop)
    (P' : Id kind * LogicalRecord kind → Prop) `{!∀ x, Decision (P x)} `{!∀ x, Decision (P' x)} :
  represents self s c → db_records (sql_db s) = Some rows →
  (∀ key row, P (key, row) → key.1 = kind_as_str (st_store_kind self)) →
  (∀ id r, c !! id = Some r → P (key_of (st_store_kind self) id, the_row r) ↔ P' (id, r)) →
  filter P rows = kmap (key_of (st_store_kind self)) (the_row <$> filter P' c).
Proof.
  intros Hrep Hrows Hkey HP. apply map_eq. intros [k t]. apply option_eq. intros row.
  rewrite map_lookup_filter_Some, lookup_kmap_Some by apply _.
  setoid_rewrite lookup_fmap_Some. setoid_rewrite map_lookup_filter_Some. split.
  - intros [Hr Hp]. pose proof (Hkey _ _ Hp) as Hk. simpl in Hk. subst k.
    apply (represented_row _ _ _ _ _ _ Hrep Hrows) in Hr as (id & r & -> & Hc & ->).
    exists id. split; [done|]. exists r. split; [done|]. split; [done|]. by apply HP.
  - intros (id & [= -> ->] & r & <- & Hc & Hp). split; [|by apply HP].
    by apply (represented_row _ _ _ _ _ _ Hrep Hrows); eexists _, _.
Qed.
Lemma filter_rows_size self s c rows (P : (string * string) * LogicalRow → Prop)
    (P' : Id kind * LogicalRecord kind → Prop) `{!∀ x, Decision (P x)} `{!∀ x, Decision (P' x)} :
  represents self s c → db_records (sql_db s) = Some rows →
  (∀ key row, P (key, row) → key.1 = kind_as_str (st_store_kind self)) →
  (∀ id r, c !! id = Some r → P (key_of (st_store_kind self) id, the_row r) ↔ P' (id, r)) →
  size (filter P rows) = size (filter P' c).
Proof.
  intros. erewrite filter_rows by done. rewrite <- (map_size_fmap the_row (filter P' c)).
  rewrite <- !length_map_to_list. by rewrite map_to_list_kmap, length_fmap by apply _.
Qed.
(** Deleting those rows. *)
Lemma represents_without self s c rows (P : (string * string) * LogicalRow → Prop)
    (P' : Id kind * LogicalRecord kind → Prop) `{!∀ x, Decision (P x)} `{!∀ x, Decision (P' x)} :
  represents self s c → db_records (sql_db s) = Some rows →
  (∀ key row, P (key, row) → key.1 = kind_as_str (st_store_kind self)) →
  (∀ id r, c !! id = Some r → P (key_of (st_store_kind self) id, the_row r) ↔ P' (id, r)) →
  let s' := advance s (with_records (sql_db s) (filter (λ entry, ¬ P entry) rows)) in
  represents self s' (filter (λ entry, ¬ P' entry) c) ∧ elsewhere self s s'.
Proof.
  intros Hrep Hrows Hkey HP. eapply represents_write; [done| | | |done].
  - intros t. apply option_eq. intros row.
    rewrite map_lookup_filter_Some, lookup_kmap_Some by apply _.
    setoid_rewrite lookup_fmap_Some. setoid_rewrite map_lookup_filter_Some. split.
    + intros [Hr Hp]. apply (represented_row _ _ _ _ _ _ Hrep Hrows) in Hr
        as (id & r & -> & Hc & ->).
      exists id. split; [done|]. exists r. split; [done|]. split; [done|]. by rewrite <- HP.
    + intros (id & -> & r & <- & Hc & Hp). split; [|by rewrite <- HP in Hp].
      by apply (represented_row _ _ _ _ _ _ Hrep Hrows); eexists _, _.
  - intros [k t] Hk. simpl in Hk. apply option_eq. intros row.
    rewrite map_lookup_filter_Some. split; [by intros [? _]|]. intros Hr. split; [done|].
    intros Hp. by apply Hk, (Hkey (k, t) row).
  - intros id r [Hc _]%map_lookup_filter_Some. by apply Hrep.
Qed.

Lemma expired_rows self s c older :
  represents self s c →
  (∀ key row, expired_row (st_store_kind self) (timestamp_to_string older) (key, row) →
     key.1 = kind_as_str (st_store_kind self)) ∧
  (∀ id r, c !! id = Some r →
     expired_row (st_store_kind self) (timestamp_to_string older)
       (key_of (st_store_kind self) id, the_row r) ↔ expired older (id, r)).
Proof.
  intros Hrep. split; [by intros key row [? _]|]. intros id r Hc. unfold expired_row, expired.
  simpl. rewrite the_row_time; [naive_solver|]. by apply (rep_stored _ _ _ Hrep) in Hc as [].
Qed.
Lemma kind_rows self (c : Contents) :
  (∀ key row, kind_row (st_store_kind self) (key, row) →
     key.1 = kind_as_str (st_store_kind self)) ∧
  (∀ (id : Id kind) r, c !! id = Some r →
     kind_row (st_store_kind self) (key_of (st_store_kind self) id, the_row r) ↔ True).
Proof. split; [done|]. intros id r _. by unfold kind_row. Qed.

(** ** Each operation *)

(** A statement that fails leaves the store as it was. *)
Lemma refines_error self s c op e :
  represents self s c → (quiet s → refused (st_store_kind self) c op) →
  refines self s c op (Err e, advance s (sql_db s)).
Proof.
  intros Hrep Hq. split; [apply elsewhere_refl|]. split; [by apply represents_advance|done].
Qed.
Lemma refines_refused self s c op e :
  represents self s c → refused (st_store_kind self) c op → refines self s c op (Err e, s).
Proof. intros Hrep Hr. split; [done|]. by split. Qed.
Lemma fault_not_quiet s e : sql_faults s (sql_calls s) = Some e → quiet s → False.
Proof. intros Hf Hq. by rewrite Hq in Hf. Qed.

Lemma rows_key self (c : Contents) (rows : Rows) (id : Id kind) :
  (∀ t, rows !! (kind_as_str (st_store_kind self), t) =
        (kmap id_to_string (the_row <$> c) : gmap string LogicalRow) !! t) →
  rows !! (kind_as_str (st_store_kind self), id_to_string id) = the_row <$> c !! id.
Proof. intros ->. apply rows_lookup. Qed.

(** Changing the row of one identifier. *)
Lemma represents_partial_alter self s c rows (f : option LogicalRow → option LogicalRow)
    (g : option (LogicalRecord kind) → option (LogicalRecord kind)) id :
  represents self s c → db_records (sql_db s) = Some rows →
  the_row <$> g (c !! id) = f (the_row <$> c !! id) →
  (∀ r, g (c !! id) = Some r → stored (st_store_kind self) id r) →
  let rows' := partial_alter f (key_of (st_store_kind self) id) rows in
  represents self (advance s (with_records (sql_db s) rows')) (partial_alter g id c) ∧
  elsewhere self s (advance s (with_records (sql_db s) rows')).
Proof.
  intros Hrep Hrows Hfg Hst. pose proof Hrep as [(rows0 & Hr & Ht) Hstored]. simplify_eq.
  eapply represents_write; [done| | | |done].
  - intros t. destruct (decide (t = id_to_string id)) as [->|Hne].
    + rewrite rows_lookup. change (kind_as_str (st_store_kind self), id_to_string id)
        with (key_of (st_store_kind self) id).
      rewrite !lookup_partial_alter_eq. unfold key_of. by rewrite (rows_key self c).
    + rewrite lookup_partial_alter_ne, Ht by (intros [= ?]; congruence).
      apply option_eq. intros row. rewrite !lookup_kmap_Some by apply _.
      split; intros (id' & -> & Hid); exists id'; (split; [done|]);
        rewrite lookup_fmap in *; rewrite lookup_partial_alter_ne in *; congruence.
  - intros [k t] Hk. apply lookup_partial_alter_ne. by intros [= ? ?].
  - intros id' r. destruct (decide (id' = id)) as [->|Hne].
    + rewrite lookup_partial_alter_eq. apply Hst.
    + rewrite lookup_partial_alter_ne by done. apply Hstored.
Qed.

Lemma refines_append self s c r :
  represents self s c → storable r → refines self s c (OpAppend r) (run_op self (OpAppend r) s).
Proof.
  intros Hrep Hsr. pose proof Hrep as [(rows & Hrows & Ht) Hst].
  unfold run_op, append, q_bind, q_of.
  destruct (validate_logical_record (st_store_kind self) r) as [[]|e] eqn:Hv;
    [|apply refines_refused; [done|]; left; congruence].
  unfold insert_record, q_bind, q_of. rewrite (the_row_storable _ Hsr).
  set (f := λ rows : Rows, _).
  destruct (on_records_run f s rows Hrows) as [e Hf|e Hf|rows' [] Hf].
  - apply refines_error; [done|]. intros Hq. by destruct (fault_not_quiet _ _ Hf Hq).
  - apply refines_error; [done|]. intros _. right. subst f. cbn beta in Hf.
    rewrite (rows_key self c) in Hf by done. by destruct (c !! lr_id r).
  - subst f. cbn beta in Hf. rewrite (rows_key self c) in Hf by done.
    destruct (c !! lr_id r) eqn:Hc; [done|]. injection Hf as <-.
    destruct (represents_partial_alter self s c rows (λ _, Some (the_row r)) (λ _, Some r)
      (lr_id r) Hrep Hrows) as [Hrep' Hel]; [done|by intros ? [= <-]|].
    split; [done|]. eexists. split; [by apply map_append|done].
Qed.

Lemma with_records_same (s : Sql O) rows :
  db_records (sql_db s) = Some rows → with_records (sql_db s) rows = sql_db s.
Proof. destruct s as [? ? ? []]. simpl. intros ->. done. Qed.

Lemma get_by_id_run self s c id :
  represents self s c →
  (∃ e, sql_faults s (sql_calls s) = Some e ∧
        get_by_id self id s = (Err (SeSqlite e), advance s (sql_db s))) ∨
  get_by_id self id s = (Ok (c !! id), advance s (sql_db s)).
Proof.
  intros Hrep. pose proof Hrep as [(rows & Hrows & Ht) Hst].
  unfold get_by_id, q_bind. set (f := λ rows : Rows, _).
  destruct (on_records_run f s rows Hrows) as [e Hf|e Hf|rows' x Hf];
    [by left; exists e|done|right].
  injection Hf as <- <-. rewrite (rows_key self c), with_records_same by done.
  destruct (c !! id) as [r|] eqn:Hc; simpl; [|done].
  unfold q_bind, q_of, q_ret. rewrite parse_the_row; [done|]. by apply Hst in Hc as [].
Qed.

Lemma refines_get self s c id :
  represents self s c → refines self s c (OpGet id) (run_op self (OpGet id) s).
Proof.
  intros Hrep. unfold run_op, q_bind.
  destruct (get_by_id_run self s c id Hrep) as [(e & Hf & ->)| ->].
  - apply refines_error; [done|]. intros Hq. by destruct (fault_not_quiet _ _ Hf Hq).
  - split; [apply elsewhere_refl|]. exists c. split; [constructor|by apply represents_advance].
Qed.

(** A record that changes its state. *)
Lemma with_state_valid sk r state t :
  validate_logical_record sk (with_state r state t) = validate_logical_record sk r.
Proof. done. Qed.
Lemma row_of_record_texts r row :
  row_of_record r = Ok row →
  ∃ refs text, refs_to_text (lr_entity_refs r) = Ok refs ∧ record_to_text r = Ok text ∧
    row = mkRow (Schema.to_string (lr_schema_version r)) (timestamp_to_string (lr_created_at r))
      (timestamp_to_string (lr_updated_at r)) (timestamp_to_string (lr_record_time r))
      (privacy_class_text (lr_privacy_class r))
      (retention_class_text (spc_retention_class (lr_storage_privacy_class r)))
      (data_class_text (spc_data_class (lr_storage_privacy_class r)))
      (record_state_text (lr_state r)) refs text.
Proof.
  unfold row_of_record. cbn [enum_to_storage res_bind].
  destruct (refs_to_text _) as [refs|]; [|done].
  destruct (record_to_text r) as [text|]; [|done].
  cbn [map_err res_bind]. intros [= <-]. by eexists _, _.
Qed.
Lemma the_row_with_state r state t :
  storable r → storable (with_state r state t) →
  ∃ text, record_to_text (with_state r state t) = Ok text ∧
    set_state_columns (timestamp_to_string t) (record_state_text state) text (the_row r) =
    the_row (with_state r state t).
Proof.
  intros (refs & text & Hrefs & _ & ->)%the_row_storable%row_of_record_texts.
  intros (refs' & text' & Hrefs' & Ht & ->)%the_row_storable%row_of_record_texts.
  exists text'. split; [done|]. change (lr_entity_refs _) with (lr_entity_refs r) in Hrefs'.
  rewrite Hrefs in Hrefs'. by injection Hrefs' as <-.
Qed.

Lemma refines_update self s c id state :
  represents self s c → op_storable c (OpUpdate id state) →
  refines self s c (OpUpdate id state) (run_op self (OpUpdate id state) s).
Proof.
  intros Hrep Hsr. unfold run_op, update_state, q_bind.
  destruct (get_by_id_run self s c id Hrep) as [(e & Hf & ->)| ->].
  { apply refines_error; [done|]. intros Hq. by destruct (fault_not_quiet _ _ Hf Hq). }
  destruct (c !! id) as [r|] eqn:Hc; cbn [ok_or q_of]; [|by apply refines_error].
  unfold q_lift. destruct (now (sql_world (advance s (sql_db s)))) as [t w] eqn:Hnow.
  pose proof Hrep as [(rows & Hrows & Ht) Hst].
  pose proof (Hst _ _ Hc) as [Hid Hv Hstr].
  rewrite (with_state_valid (st_store_kind self) r), Hv. cbn [enum_to_storage].
  destruct (the_row_with_state r state t Hstr) as (text & -> & Hrow); [by apply Hsr|].
  cbn [map_err]. set (s1 := mkSql w _ _ _). set (f := λ rows : Rows, _).
  assert (represents self s1 c) as Hrep1 by (by destruct Hrep; constructor).
  destruct (on_records_run f s1 rows Hrows) as [e Hf|e Hf|rows' [] Hf]; [|done|].
  - split; [done|]. split; [by apply represents_advance|].
    intros Hq. by destruct (fault_not_quiet s1 _ Hf Hq).
  - injection Hf as <-.
    destruct (represents_partial_alter self s1 c rows
      (fmap (set_state_columns (timestamp_to_string t) (record_state_text state) text))
      (λ _, Some (with_state r state t)) id Hrep1 Hrows) as [Hrep' Hel].
    + rewrite Hc. simpl. by rewrite Hrow.
    + intros ? [= <-]. constructor; [done..|by apply Hsr].
    + split; [exact Hel|]. eexists. split; [by apply map_update|exact Hrep'].
Qed.

Lemma refines_delete self s c id :
  represents self s c → refines self s c (OpDelete id) (run_op self (OpDelete id) s).
Proof.
  intros Hrep. pose proof Hrep as [(rows & Hrows & Ht) Hst].
  unfold run_op, delete_by_id, q_bind. set (f := λ rows : Rows, _).
  destruct (on_records_run f s rows Hrows) as [e Hf|e Hf|rows' x Hf]; [|done|].
  - apply refines_error; [done|]. intros Hq. by destruct (fault_not_quiet _ _ Hf Hq).
  - injection Hf as <- <-. erewrite (bool_decide_ext _ (is_Some (c !! id)))
      by (by rewrite (rows_key self c), fmap_is_Some).
    destruct (represents_partial_alter self s c rows (λ _, None) (λ _, None) id Hrep Hrows)
      as [Hrep' Hel]; [done..|].
    split; [exact Hel|]. eexists. split; [apply map_delete|exact Hrep'].
Qed.

Lemma refines_delete_all self s c :
  represents self s c → refines self s c OpDeleteAll (run_op self OpDeleteAll s).
Proof.
  intros Hrep. pose proof Hrep as [(rows & Hrows & Ht) Hst].
  unfold run_op, delete_all, q_bind. set (f := λ rows : Rows, _).
  destruct (on_records_run f s rows Hrows) as [e Hf|e Hf|rows' x Hf]; [|done|].
  - apply refines_error; [done|]. intros Hq. by destruct (fault_not_quiet _ _ Hf Hq).
  - injection Hf as <- <-. destruct (kind_rows self c) as [Hk HP].
    destruct (represents_without self s c rows _ (λ _, True) Hrep Hrows Hk HP) as [Hrep' Hel].
    rewrite (filter_rows_size self s c rows _ (λ _, True) Hrep Hrows Hk HP).
    split; [exact Hel|]. exists ∅.
    rewrite (map_filter_id (λ _ : Id kind * LogicalRecord kind, True) c) by done.
    split; [apply map_delete_all|].
    replace (∅ : Contents) with (filter (λ _ : Id kind * LogicalRecord kind, ¬ True) c);
      [exact Hrep'|]. apply map_empty_filter. intros ???. tauto.
Qed.

Lemma refines_retention self s c request :
  represents self s c →
  refines self s c (OpRetention request) (run_op self (OpRetention request) s).
Proof.
  intros Hrep. unfold run_op, delete_by_retention, q_bind.
  destruct (rdr_preserve_audit_records request && preserved_kind (st_store_kind self)) eqn:Hpre.
  { split; [done|]. exists c. split; [|done].
    apply andb_true_iff in Hpre as [??]. by apply map_preserved. }
  pose proof Hrep as [(rows & Hrows & Ht) Hst]. set (f := λ rows : Rows, _).
  destruct (expired_rows self s c (rdr_older_than request) Hrep) as [Hk HP].
  destruct (on_records_run f s rows Hrows) as [e Hf|e Hf|rows' x Hf]; [|done|].
  { apply refines_error; [done|]. intros Hq. by destruct (fault_not_quiet _ _ Hf Hq). }
  injection Hf as <- <-. rewrite with_records_same by done.
  rewrite (filter_rows_size self s c rows _ _ Hrep Hrows Hk HP).
  pose proof (map_retention _ c request Hpre) as Hop.
  destruct (rdr_dry_run request) eqn:Hdry; rewrite ?Hdry in Hop.
  - split; [apply elsewhere_refl|]. exists c. split; [exact Hop|by apply represents_advance].
  - set (s1 := advance s (sql_db s)). set (g := λ rows : Rows, _).
    pose proof (represents_advance _ _ _ Hrep : represents self s1 c) as Hrep1.
    destruct (on_records_run g s1 rows Hrows) as [e Hf|e Hf|rows' x Hf]; [|done|].
    + split; [done|]. split; [by apply represents_advance|].
      intros Hq. by destruct (fault_not_quiet s1 _ Hf Hq).
    + injection Hf as <- <-. rewrite (filter_rows_size self s1 c rows _ _ Hrep1 Hrows Hk HP).
      destruct (represents_without self s1 c rows _ _ Hrep1 Hrows Hk HP) as [Hrep' Hel].
      split; [exact Hel|]. eexists. split; [exact Hop|exact Hrep'].
Qed.

(** Any valid contents are represented by a database. *)
Lemma represents_store self w faults calls c internal other :
  map_Forall (stored (st_store_kind self)) c →
  represents self (mkSql w faults calls (mkDatabase
    (Some (kmap (key_of (st_store_kind self)) (the_row <$> c))) internal other)) c.
Proof.
  intros Hst. constructor; [|done]. eexists. split; [done|]. intros t.
  apply option_eq. intros row. rewrite !lookup_kmap_Some by apply _. split.
  - intros (id & [= ->] & Hr). by exists id.
  - intros (id & -> & Hr). by exists id.
Qed.

(** C7. A store is a finite map from identifiers to records. On a database whose rows of
    the store are the records of a map, every operation either answers and changes as the
    same operation on the map -- appending a valid record under a new identifier, reading,
    changing the state, deleting one, all, or the expired -- or fails and leaves the records
    as they were; without faults of the machine it fails only when the map operation is
    refused. The rows of other stores and the tables of migrations never change. *)
Theorem store_refines_map self s c op :
  represents self s c → op_storable c op → refines self s c op (run_op self op s).
Proof.
  destruct op; intros Hrep Hs.
  - by apply refines_append.
  - by apply refines_get.
  - by apply refines_update.
  - by apply refines_delete.
  - by apply refines_delete_all.
  - by apply refines_retention.
Qed.
End refinement.

(* ------------------------------------------------------------------ *)
(** ** Examples *)

Module StoreSample.

#[export] Existing Instance sample_externals.

Definition sample_record (kind : IdKind) (n : N) : LogicalRecord kind :=
  let time := mkTimestamp (Z.of_N n) in
  mkRecord (mkId (mkUuid n)) (Schema.mkVersion 1 0 0) time time time [] Privacy.Internal
    operational_metadata RecActive (JObject [("label", JString "a"); ("payload", JBool false)]).
(** The text of a record of the examples is that of its number. *)
#[export] Instance sample_text : StorageText := {
  record_to_text := λ _ r, Ok (id_to_string (lr_id r));
  record_of_text := λ kind text,
    if bool_decide (text = uuid_to_string (mkUuid 1)) then Ok (sample_record kind 1)
    else if bool_decide (text = uuid_to_string (mkUuid 2)) then Ok (sample_record kind 2)
    else if bool_decide (text = uuid_to_string (mkUuid 3)) then Ok (sample_record kind 3)
    else Err "no record";
  refs_to_text := λ _, Ok "[]";
  timestamp_to_string := λ t, show_uint (Z.to_N (instant t))
}.
#[export] Instance sample_engine : SqlEngine unit := {
  sql_error_text := λ e, match e with NoSuchTable t => t | UniqueFailed c => c end;
  sql_batch := λ _ db, (db, Ok tt);
  sql_has_table := λ _ _, false;
  sql_count := λ _ _, Ok 0
}.
#[export] Instance sample_filter_text : FilterText := {
  f64_to_string := λ _, "";
  filter_value_debug := λ _, "";
  filter_operator_debug := λ _, ""
}.

Definition events : SqliteLogicalStore KEventId := event_store.
Definition contents : gmap EventId (LogicalRecord KEventId) :=
  <[mkId (mkUuid 1) := sample_record KEventId 1]>
    (<[mkId (mkUuid 2) := sample_record KEventId 2]> ∅).
Definition database : Sql unit :=
  mkSql counting_world (λ _, None) 0 (mkDatabase
    (Some (kmap (key_of SkEvent) (the_row <$> contents))) None tt).

Lemma sample_stored n :
  n ∈ [1; 2; 3] → stored SkEvent (mkId (mkUuid n)) (sample_record KEventId n).
Proof.
  intros Hn. constructor; [done| |exists (the_row (sample_record KEventId n))].
  all: assert (n = 1 ∨ n = 2 ∨ n = 3) as [->|[->| ->]] by set_solver.
  all: by vm_compute.
Qed.
Lemma contents_stored : map_Forall (stored SkEvent) contents.
Proof.
  apply map_Forall_insert_2; [by apply sample_stored; set_solver|].
  apply map_Forall_insert_2; [by apply sample_stored; set_solver|apply map_Forall_empty].
Qed.
Lemma database_represents : represents events database contents.
Proof. apply (represents_store events). exact contents_stored. Qed.

Lemma store_refines_map_witness :
  refines events database contents (OpAppend (sample_record KEventId 3))
    (run_op events (OpAppend (sample_record KEventId 3)) database).
Proof.
  apply store_refines_map; [apply database_represents|].
  apply sample_stored. set_solver.
Defined.

End StoreSample.
