(* ===== verification/LogicalStorePaging.v ===== *)
(** * Paging through a logical store ([storage/src/store.rs])

    The records a query is about, in the order of the store; a page of them; following the
    cursors from page to page; snapshots. *)

From S2P Require Import Prelude Collections RustStr Effects Contracts Checks Json.
From S2P Require Import Query StorageTypes StorageDb LogicalStore LogicalStoreFacts.

#[local] Open Scope string_scope.
#[local] Open Scope list_scope.
#[local] Open Scope N_scope.

Section paging.
Context `{Externals} `{StorageText} `{FilterText} {O : Type} `{SqlEngine O} {kind : IdKind}.
Implicit Types (s : Sql O) (self : SqliteLogicalStore kind) (r : LogicalRecord kind).

Abbreviation Contents := (gmap (Id kind) (LogicalRecord kind)).

(* ------------------------------------------------------------------ *)
(** ** The listing of a query *)

Definition meets (conditions : list Condition) r : Prop :=
  forallb (λ c, holds c (id_to_string (lr_id r)) (the_row r)) conditions = true.
#[local] Instance meets_dec conditions r : Decision (meets conditions r).
Proof. unfold meets. apply _. Defined.

(** The latest first; records of one instant by the texts of their identifiers. *)
Definition record_key r : Descending * string :=
  (descending (timestamp_to_string (lr_record_time r)), id_to_string (lr_id r)).
Definition records_of (c : Contents) : list (LogicalRecord kind) := (map_to_list c).*2.
(** The records of [c] that meet the conditions, in the order of the store. *)
Definition listing (conditions : list Condition) (c : Contents) : list (LogicalRecord kind) :=
  sort_by_key record_key (filter (meets conditions) (records_of c)).

Definition entry_of r : string * LogicalRow := (id_to_string (lr_id r), the_row r).

Lemma elem_of_records sk (c : Contents) r :
  map_Forall (stored sk) c → r ∈ records_of c ↔ c !! lr_id r = Some r.
Proof.
  intros Hst. unfold records_of. rewrite list_elem_of_fmap. split.
  - intros ([id r'] & -> & Hin%elem_of_map_to_list). simpl.
    by rewrite (sd_id _ _ _ (Hst _ _ Hin)).
  - intros Hc. exists (lr_id r, r). split; [done|]. by apply elem_of_map_to_list.
Qed.
Lemma records_ids sk (c : Contents) :
  map_Forall (stored sk) c → lr_id <$> records_of c = (map_to_list c).*1.
Proof.
  intros Hst. unfold records_of. rewrite <- list_fmap_compose.
  apply list_fmap_ext. intros ? [id r] Hin%list_elem_of_lookup_2%elem_of_map_to_list. by apply (Hst _ _ Hin).
Qed.
Lemma records_keys_NoDup sk (c : Contents) :
  map_Forall (stored sk) c → NoDup (record_key <$> records_of c).
Proof.
  intros Hst. apply (NoDup_fmap_1 snd). rewrite <- list_fmap_compose.
  change (snd ∘ record_key) with (id_to_string (kind:=kind) ∘ lr_id).
  rewrite list_fmap_compose, (records_ids sk) by done.
  apply NoDup_fmap_2; [apply _|]. apply NoDup_fst_map_to_list.
Qed.
Lemma NoDup_filter_key {A K} (key : A → K) (P : A → Prop) `{∀ x, Decision (P x)} l :
  NoDup (key <$> l) → NoDup (key <$> filter P l).
Proof.
  intros Hnd. eapply sublist_NoDup; [exact Hnd|]. apply sublist_fmap, sublist_filter.
Qed.

Lemma map_to_list_filter_perm {K A} `{Countable K} (P : K * A → Prop) `{∀ x, Decision (P x)}
    (m : gmap K A) : map_to_list (filter P m) ≡ₚ filter P (map_to_list m).
Proof.
  apply NoDup_Permutation; [apply NoDup_map_to_list|apply NoDup_filter, NoDup_map_to_list|].
  intros [i x]. rewrite list_elem_of_filter, !elem_of_map_to_list, map_lookup_filter_Some. tauto.
Qed.
Lemma rows_of_filter (sk : StoreKind) (rows : gmap (string * string) LogicalRow) :
  rows_of sk rows = (λ e, (e.1.2, e.2)) <$> filter (kind_row sk) (map_to_list rows).
Proof.
  unfold rows_of. induction (map_to_list rows) as [|[[k t] row] l IH]; [done|].
  rewrite filter_cons.
  destruct (decide (kind_row sk (k, t, row))) as [Hk|Hk]; unfold kind_row in Hk; simpl in Hk;
    simpl; [rewrite bool_decide_true by done|rewrite bool_decide_false by done];
    [by f_equal|exact IH].
Qed.
Lemma rows_of_records self s c rows :
  represents self s c → db_records (sql_db s) = Some rows →
  rows_of (st_store_kind self) rows ≡ₚ entry_of <$> records_of c.
Proof.
  intros Hrep Hrows. rewrite rows_of_filter, <- map_to_list_filter_perm.
  destruct (kind_rows self c) as [Hk HP].
  rewrite (filter_rows self s c rows _ (λ _, True) Hrep Hrows Hk HP), map_filter_id by done.
  rewrite map_to_list_kmap, map_to_list_fmap by apply _. unfold records_of.
  rewrite <- !list_fmap_compose. apply reflexive_eq, list_fmap_ext.
  intros ? [id r] Hin%list_elem_of_lookup_2%elem_of_map_to_list. unfold entry_of. simpl.
  by rewrite (sd_id _ _ _ (rep_stored _ _ _ Hrep _ _ Hin)).
Qed.

Lemma filter_fmap_entries conditions (l : list (LogicalRecord kind)) :
  filter (λ entry, forallb (λ c, holds c entry.1 entry.2) conditions = true) (entry_of <$> l) =
  entry_of <$> filter (meets conditions) l.
Proof.
  induction l as [|r l IH]; [done|]. rewrite fmap_cons, !filter_cons, IH.
  destruct (decide (meets conditions r)) as [Hr|Hr]; [by rewrite decide_True|].
  by rewrite decide_False.
Qed.

(** The rows of a query are those of its listing. *)
Lemma matching_rows_listing self s c rows conditions :
  represents self s c → db_records (sql_db s) = Some rows →
  matching_rows (st_store_kind self) conditions rows = entry_of <$> listing conditions c.
Proof.
  intros Hrep Hrows. pose proof (rep_stored _ _ _ Hrep) as Hst.
  assert (∀ r, r ∈ filter (meets conditions) (records_of c) →
               page_key (entry_of r) = record_key r) as Hkey.
  { intros r [_ Hr]%list_elem_of_filter. rewrite (elem_of_records _ _ _ Hst) in Hr.
    unfold page_key, entry_of, record_key. simpl. rewrite the_row_time; [done|].
    by apply Hst in Hr as []. }
  unfold matching_rows, listing. rewrite <- (sort_by_key_fmap entry_of record_key page_key)
    by exact Hkey.
  symmetry. rewrite <- filter_fmap_entries. apply sort_by_key_unique.
  - rewrite filter_fmap_entries, <- list_fmap_compose.
    rewrite (list_fmap_ext _ record_key)
      by (intros ?? Hin%list_elem_of_lookup_2; by apply Hkey).
    apply NoDup_filter_key. by apply (records_keys_NoDup (st_store_kind self)).
  - by rewrite (rows_of_records self s c rows).
Qed.

(* ------------------------------------------------------------------ *)
(** ** Cursors *)

Definition cursor_text r : string :=
  (LOGICAL_STORE_CURSOR_PREFIX ++ "|" ++ timestamp_to_string (lr_record_time r) ++ "|" ++
   id_to_string (lr_id r))%string.
Definition cursor_of r : Cursor := mkCursor (cursor_text r).
(** The texts of instants have no bar, and cursors are not too long. *)
Definition pageable r : Prop :=
  all_chars (λ c, negb (Ascii.eqb c "|")) (timestamp_to_string (lr_record_time r)) = true ∧
  N.of_nat (String.length (cursor_text r)) ≤ MAX_CURSOR_LENGTH.

Lemma encode_cursor_of r :
  pageable r → encode_cursor (lr_record_time r) (lr_id r) = Ok (cursor_of r).
Proof.
  intros [_ Hlen]. unfold encode_cursor, Cursor_new. fold (cursor_text r).
  replace (blank (cursor_text r)) with false by (symmetry; by apply blank_graphic).
  by rewrite (proj2 (N.ltb_ge _ _) Hlen).
Qed.
Lemma decode_cursor_of r :
  pageable r →
  decode_cursor (cursor_of r) =
  Ok (mkDecodedCursor (timestamp_to_string (lr_record_time r)) (id_to_string (lr_id r))).
Proof.
  intros [Hbar _]. unfold decode_cursor, cursor_of. cbn [cursor_str].
  change (cursor_text r) with (LOGICAL_STORE_CURSOR_PREFIX ++
    String "|" (timestamp_to_string (lr_record_time r) ++ String "|" (id_to_string (lr_id r))))%string.
  rewrite (split_once_app "|" LOGICAL_STORE_CURSOR_PREFIX) by done.
  rewrite bool_decide_true by done. by rewrite (split_once_app "|") by done.
Qed.

(** What a cursor selects is what comes after its record in the listing. *)
Lemma after_cursor_key r y :
  storable y →
  holds (AfterCursor (timestamp_to_string (lr_record_time r)) (id_to_string (lr_id r)))
    (id_to_string (lr_id y)) (the_row y) = true ↔ key_le (record_key y) (record_key r) = false.
Proof.
  intros Hy. unfold holds, record_key. rewrite the_row_time by done. cbn [key_le pair_key_order].
  unfold pair_le, str_lt. cbn [fst snd key_le descending_order ascending].
  generalize (timestamp_to_string (lr_record_time r)), (timestamp_to_string (lr_record_time y)),
    (id_to_string (lr_id r)), (id_to_string (lr_id y)). intros tr ty ir iy.
  change (String.leb tr ty) with (key_le tr ty). change (String.leb ty tr) with (key_le ty tr).
  change (String.leb iy ir) with (key_le iy ir).
  destruct (key_le tr ty) eqn:H1', (key_le ty tr) eqn:H2'; simpl.
  - rewrite bool_decide_true by by apply key_le_antisym. simpl. apply negb_true_iff.
  - rewrite bool_decide_false by (intros ->; congruence). done.
  - done.
  - done.
Qed.

(** The condition of a cursor comes on top of the others. *)
Lemma query_conditions_cursor request conditions cursor d :
  page_cursor (request_page request) = None → query_conditions request = Ok conditions →
  decode_cursor cursor = Ok d →
  ∃ conditions', query_conditions (with_page request
      (mkPageRequest (page_limit (request_page request)) (Some cursor))) = Ok conditions' ∧
    ∀ r, meets conditions' r ↔
      holds (AfterCursor (dc_record_time d) (dc_record_id d)) (id_to_string (lr_id r))
        (the_row r) = true ∧ meets conditions r.
Proof.
  unfold query_conditions. intros -> Hq Hd. cbn [with_page request_page page_cursor
    request_time_range request_scope request_filters]. rewrite Hd. cbn [res_bind] in *.
  destruct (try_map filter_condition (request_filters request)) as [filters|]; [|done].
  cbn [res_bind] in *. injection Hq as <-. eexists. split; [done|]. intros r.
  unfold meets. rewrite !forallb_app. simpl. rewrite !andb_true_iff. tauto.
Qed.

Lemma listing_after conditions conditions' (c : Contents) sk l1 r l2 :
  map_Forall (stored sk) c →
  listing conditions c = l1 ++ r :: l2 →
  (∀ y, meets conditions' y ↔
    holds (AfterCursor (timestamp_to_string (lr_record_time r)) (id_to_string (lr_id r)))
      (id_to_string (lr_id y)) (the_row y) = true ∧ meets conditions y) →
  listing conditions' c = l2.
Proof.
  intros Hst Hl Hm. set (P := λ y, key_le (record_key y) (record_key r) = false).
  pose proof (NoDup_filter_key record_key (meets conditions) _ (records_keys_NoDup sk c Hst))
    as Hnd.
  assert (filter (meets conditions') (records_of c) =
          filter P (filter (meets conditions) (records_of c))) as Hf.
  { rewrite list_filter_filter. apply list_filter_iff_in. intros y Hy.
    rewrite Hm, after_cursor_key; [done|]. rewrite (elem_of_records sk) in Hy by done.
    by apply Hst in Hy as []. }
  unfold listing. rewrite Hf, sort_by_key_filter by done. fold (listing conditions c).
  rewrite Hl. apply (sorted_after record_key); [| |done].
  - rewrite <- Hl. apply sort_by_key_sorted.
  - rewrite <- Hl. unfold listing. by rewrite sort_by_key_perm.
Qed.

(* ------------------------------------------------------------------ *)
(** ** A page *)

Definition page_items (limit : N) (l : list (LogicalRecord kind)) : list (LogicalRecord kind) :=
  take (N.to_nat limit) l.
Definition page_next (limit : N) (l : list (LogicalRecord kind)) : option Cursor :=
  if limit <? len l then cursor_of <$> last (page_items limit l) else None.

Lemma pop_extra_page limit (l : list (LogicalRecord kind)) :
  let records := take (S (N.to_nat limit)) l in
  (limit <? len records) = (limit <? len l) ∧
  pop_extra (limit <? len l) records = page_items limit l.
Proof.
  unfold len, pop_extra, page_items. rewrite length_take.
  destruct (N.ltb_spec limit (N.of_nat (length l))) as [Hl|Hl].
  - split; [apply N.ltb_lt; lia|]. apply removelast_firstn. lia.
  - split; [apply N.ltb_ge; lia|]. rewrite !take_ge by lia. done.
Qed.

Definition pageable_store (c : Contents) : Prop := map_Forall (λ _ r, pageable r) c.

Lemma listing_members sk conditions (c : Contents) r :
  map_Forall (stored sk) c → r ∈ listing conditions c → c !! lr_id r = Some r.
Proof.
  intros Hst. unfold listing.
  rewrite elem_of_sort_by_key, list_elem_of_filter, (elem_of_records sk) by done. tauto.
Qed.
Lemma parse_listing sk l :
  (∀ r, r ∈ l → stored sk (lr_id r) r) →
  try_map parse_record ((λ entry, row_record_json entry.2) <$> (entry_of <$> l)) = Ok l.
Proof.
  intros Hl. apply try_map_ok. rewrite <- list_fmap_compose. apply Forall2_fmap_l.
  apply Forall_Forall2_diag, Forall_forall. intros r Hr. simpl.
  by apply parse_the_row, Hl.
Qed.

(** A query without faults gives the first records of its listing, and a cursor exactly when
    there are more. *)
Lemma query_run self s c request conditions :
  represents self s c → quiet s → pageable_store c →
  query_conditions request = Ok conditions →
  let limit := page_limit (request_page request) in
  let l := listing conditions c in
  0 < limit < u32_max →
  query self request s =
  (Ok (PageResponse_from_request (page_items limit l) (request_page request)
         (page_next limit l) (limit <? len l)), advance s (sql_db s)).
Proof.
  intros Hrep Hq Hpg Hc limit l Hlimit. pose proof Hrep as [(rows & Hrows & _) Hst].
  unfold query, q_bind at 1, q_of at 1. rewrite Hc. cbn beta iota.
  unfold q_bind at 1. rewrite (on_records_quiet _ s rows) by done. cbn beta iota.
  rewrite with_records_same, (matching_rows_listing self s c) by done. fold l.
  replace (N.to_nat (row_limit (request_page request))) with (S (N.to_nat limit)).
  2:{ unfold row_limit. fold limit. rewrite N.mod_small; lia. }
  destruct (pop_extra_page limit l) as [Hmore Hpop].
  rewrite <- fmap_take. unfold q_bind at 1, q_of at 1.
  assert (∀ r, r ∈ l → c !! lr_id r = Some r) as Hl
    by (intros r; by apply (listing_members (st_store_kind self))).
  rewrite (parse_listing (st_store_kind self)).
  2:{ intros r (i & Hi & _)%elem_of_take. by eapply Hst, Hl, list_elem_of_lookup_2. }
  cbn beta iota. fold limit. cbn zeta in Hmore, Hpop. rewrite Hmore, Hpop.
  unfold page_next. destruct (limit <? len l) eqn:Hmore'; [|done].
  destruct (last (page_items limit l)) as [r|] eqn:Hlast; [|done].
  unfold q_bind, q_of. rewrite encode_cursor_of; [done|].
  apply (Hpg (lr_id r)), Hl. 
  apply last_Some_elem_of, elem_of_take in Hlast as (i & Hi & _).
  by eapply list_elem_of_lookup_2.
Qed.

(* ------------------------------------------------------------------ *)
(** ** From page to page *)

(** A client that follows the cursors; [None] when the fuel is used up. *)
Fixpoint read_all (fuel : nat) self request : Q O (option (list (LogicalRecord kind))) :=
  match fuel with
  | 0%nat => q_ret None
  | S fuel =>
      let@ response := query self request in
      match next_cursor response with
      | None => q_ret (Some (items response))
      | Some cursor =>
          let@ rest := read_all fuel self (with_page request
            (mkPageRequest (page_limit (request_page request)) (Some cursor))) in
          q_ret (app (items response) <$> rest)
      end
  end.

(** The cursor after [l1]. *)
Definition cursor_after (l1 : list (LogicalRecord kind)) : option Cursor := cursor_of <$> last l1.

Lemma page_conditions sk (c : Contents) request conditions l1 l2 limit :
  map_Forall (stored sk) c → pageable_store c →
  page_cursor (request_page request) = None → page_limit (request_page request) = limit →
  query_conditions request = Ok conditions → listing conditions c = l1 ++ l2 →
  ∃ conditions', query_conditions (with_page request (mkPageRequest limit (cursor_after l1))) =
    Ok conditions' ∧ listing conditions' c = l2.
Proof.
  intros Hst Hpg Hcur <- Hq Hl. unfold cursor_after. destruct (last l1) as [r|] eqn:Hlast.
  - apply last_Some in Hlast as [l1' ->]. rewrite <- app_assoc in Hl. simpl in Hl.
    assert (pageable r) as Hr.
    { apply (Hpg (lr_id r)). apply (listing_members sk conditions); [done|].
      rewrite Hl. apply elem_of_app. right. left. }
    destruct (query_conditions_cursor request conditions (cursor_of r) _ Hcur Hq
      (decode_cursor_of r Hr)) as (conditions' & Hq' & Hm).
    exists conditions'. split; [exact Hq'|]. by eapply listing_after.
  - apply last_None in Hlast as ->. exists conditions. split; [|done].
    destruct request as [[] ?? ?]. simpl in *. by subst.
Qed.

(** Reading on from a cursor. *)
Lemma read_all_from self c request conditions l :
  pageable_store c → page_cursor (request_page request) = None →
  let limit := page_limit (request_page request) in
  0 < limit < u32_max → query_conditions request = Ok conditions → listing conditions c = l →
  ∀ fuel l1 l2 s, represents self s c → quiet s → l = l1 ++ l2 → (length l2 < fuel)%nat →
    ∃ s', read_all fuel self (with_page request (mkPageRequest limit (cursor_after l1))) s =
          (Ok (Some l2), s') ∧ sql_db s' = sql_db s.
Proof.
  intros Hpg Hcur limit Hlimit Hc Hlisting.
  induction fuel as [|fuel IH]; intros l1 l2 s Hrep Hq Hl Hfuel; [lia|].
  destruct (page_conditions (st_store_kind self) c request conditions l1 l2 limit)
    as (conditions' & Hc' & Hl2); [apply Hrep|done..|by rewrite Hlisting|].
  cbn [read_all]. unfold q_bind at 1.
  rewrite (query_run self s c _ conditions') by done. rewrite Hl2.
  cbn [with_page request_page page_limit next_cursor items PageResponse_from_request].
  unfold page_next. destruct (N.ltb_spec limit (len l2)) as [Hmore|Hdone]; unfold len in *.
  2:{ exists (advance s (sql_db s)). split; [|done]. unfold page_items. by rewrite take_ge by lia. }
  set (page := page_items limit l2).
  assert (l2 = page ++ drop (N.to_nat limit) l2) as Hl2' by (symmetry; apply take_drop).
  assert (length page = N.to_nat limit) as Hpage
    by (subst page; unfold page_items; rewrite length_take; lia).
  destruct (last page) as [r|] eqn:Hlast.
  2:{ apply last_None in Hlast. rewrite Hlast in Hpage. simpl in Hpage. lia. }
  cbn [fmap option_fmap option_map]. unfold q_bind at 1.
  destruct (IH (l1 ++ page) (drop (N.to_nat limit) l2) (advance s (sql_db s)))
    as (s' & Hrun & Hdb);
    [by apply represents_advance|done|by rewrite <- app_assoc, <- Hl2'|rewrite length_drop; lia|].
  unfold cursor_after in Hrun. rewrite last_app, Hlast in Hrun. simpl in Hrun.
  unfold with_page in *. cbn [request_page request_time_range request_filters request_sort
    request_scope page_limit] in *. rewrite Hrun. exists s'. split; [|done].
  simpl. by rewrite <- Hl2'.
Qed.

(** C21. Following the cursors of a query from page to page gives every record that meets its
    conditions exactly once, the latest first, whatever the page limit, and changes
    nothing: no record is lost or read twice at the edge of a page. One page more than there
    are records is enough. *)
Theorem paging_complete self s c request conditions :
  represents self s c → quiet s → pageable_store c →
  page_cursor (request_page request) = None →
  0 < page_limit (request_page request) < u32_max →
  query_conditions request = Ok conditions →
  let l := listing conditions c in
  ∃ s', read_all (S (length l)) self request s = (Ok (Some l), s') ∧ sql_db s' = sql_db s.
Proof.
  intros Hrep Hq Hpg Hcur Hlimit Hc l.
  destruct (read_all_from self c request conditions l Hpg Hcur Hlimit Hc eq_refl
    (S (length l)) [] l s Hrep Hq eq_refl ltac:(lia)) as (s' & Hrun & Hdb).
  exists s'. split; [|done]. rewrite <- Hrun.
  destruct request as [[] ?? ?]. simpl in *. by subst.
Qed.

(* ------------------------------------------------------------------ *)
(** ** Snapshots *)

Definition by_id (l : list (LogicalRecord kind)) : Contents :=
  list_to_map ((λ r, (lr_id r, r)) <$> l).

Lemma append_run self s c r :
  represents self s c → quiet s → stored (st_store_kind self) (lr_id r) r → c !! lr_id r = None →
  ∃ s', append self r s = (Ok tt, s') ∧ represents self s' (<[lr_id r := r]> c) ∧ quiet s'.
Proof.
  intros Hrep Hq [_ Hv Hs] Hc.
  pose proof (refines_append self s c r Hrep Hs) as [Hel Hop].
  unfold run_op, q_bind in *. destruct (append self r s) as [[[]|e] s']; simpl in *.
  - destruct Hop as (c' & Hop & Hrep'). inversion Hop; subst. exists s'. split; [done|].
    split; [done|]. destruct Hel as (_ & _ & _ & Hf). intros n. by rewrite Hf.
  - destruct Hop as [_ [Hr|[? Hr]]]; [done|congruence|congruence].
Qed.

Lemma q_each_app {A} (f : A → Q O unit) l1 l2 s :
  q_each f (l1 ++ l2) s = (let@ _ := q_each f l1 in q_each f l2) s.
Proof.
  revert s. induction l1 as [|x l1 IH]; intros s; [done|]. simpl. unfold q_bind in *.
  destruct (f x s) as [[[]|] s']; [apply IH|done].
Qed.
(** Inserting records one after the other. *)
Lemma append_each self l : ∀ s c,
  represents self s c → quiet s →
  Forall (λ r, stored (st_store_kind self) (lr_id r) r) l → NoDup (lr_id <$> l) →
  (∀ r, r ∈ l → c !! lr_id r = None) →
  ∃ s', q_each (append self) l s = (Ok tt, s') ∧ represents self s' (by_id l ∪ c) ∧ quiet s'.
Proof.
  induction l as [|r l IH]; intros s c Hrep Hq Hst Hnd Hc.
  { exists s. unfold by_id. simpl. by rewrite map_empty_union. }
  apply Forall_cons in Hst as [Hr Hst]. rewrite fmap_cons in Hnd. apply NoDup_cons in Hnd as [Hn Hnd].
  destruct (append_run self s c r Hrep Hq Hr) as (s1 & Hrun & Hrep1 & Hq1);
    [apply Hc; left|].
  destruct (IH s1 (<[lr_id r := r]> c)) as (s' & Hrun' & Hrep' & Hq'); [done..| |].
  { intros r' Hr'. rewrite lookup_insert_ne; [by apply Hc; right|].
    intros Heq. apply Hn. rewrite Heq. by apply list_elem_of_fmap_2. }
  exists s'. split; [cbn [q_each]; unfold q_bind; by rewrite Hrun|]. split; [|done].
  rewrite <- insert_union_r in Hrep'
    by (apply not_elem_of_list_to_map; rewrite <- list_fmap_compose; done).
  change (by_id (r :: l)) with (<[lr_id r := r]> (by_id l)). by rewrite <- insert_union_l.
Qed.

Lemma by_id_lookup l id r :
  NoDup (lr_id <$> l) → by_id l !! id = Some r ↔ r ∈ l ∧ lr_id r = id.
Proof.
  intros Hnd. unfold by_id. rewrite <- elem_of_list_to_map, list_elem_of_fmap
    by by rewrite <- list_fmap_compose.
  split; [by intros (r' & [= -> ->] & ?)|]. intros [Hr <-]. by exists r.
Qed.

Lemma delete_all_run self s c :
  represents self s c → quiet s →
  ∃ n s', delete_all self s = (Ok n, s') ∧ represents self s' ∅ ∧ quiet s'.
Proof.
  intros Hrep Hq. pose proof (refines_delete_all self s c Hrep) as [Hel Hop].
  unfold run_op, q_bind in *. destruct (delete_all self s) as [[n|e] s']; simpl in *.
  - destruct Hop as (c' & Hop & Hrep'). inversion Hop; subst. eexists _, s'. split; [done|].
    split; [done|]. destruct Hel as (_ & _ & _ & Hf). intros m. by rewrite Hf.
  - by destruct Hop as [_ Hr]; destruct (Hr Hq).
Qed.

(** What a snapshot keeps: the first [MAX_PAGE_LIMIT] records of the whole listing. *)
Definition kept (c : Contents) : list (LogicalRecord kind) :=
  page_items MAX_PAGE_LIMIT (listing [] c).

Lemma create_snapshot_run self s c :
  represents self s c → quiet s → pageable_store c →
  ∃ snapshot s', create_snapshot self s = (Ok snapshot, s') ∧
    snap_records snapshot = kept c ∧ snap_store_kind snapshot = st_store_kind self ∧
    represents self s' c ∧ quiet s'.
Proof.
  intros Hrep Hq Hpg. unfold create_snapshot, q_bind at 1, q_of.
  change (PageRequest_first MAX_PAGE_LIMIT) with
    (Ok (mkPageRequest MAX_PAGE_LIMIT None) : result PageRequest PageRequestError).
  cbn [map_err]. unfold q_bind at 1.
  rewrite (query_run self s c _ []) by done. unfold q_bind, q_lift. cbn beta iota.
  destruct (new_v4 (sql_world (advance s (sql_db s)))) as [id w].
  cbn [sql_world]. destruct (now w) as [t w']. eexists _, _. split; [done|].
  split; [done|]. split; [done|]. split; [|done]. by destruct Hrep; constructor.
Qed.

Lemma kept_members self s c r :
  represents self s c → r ∈ kept c → c !! lr_id r = Some r.
Proof.
  intros Hrep (i & Hi & _)%elem_of_take.
  by eapply listing_members, list_elem_of_lookup_2; [apply Hrep|].
Qed.
Lemma listing_ids self s c :
  represents self s c → lr_id <$> listing [] c ≡ₚ (map_to_list c).*1.
Proof.
  intros Hrep. unfold listing. rewrite sort_by_key_perm, (list_filter_all _ (records_of c)).
  - by rewrite (records_ids (st_store_kind self)) by apply Hrep.
  - by apply Forall_forall.
Qed.
Lemma kept_NoDup self s c : represents self s c → NoDup (lr_id <$> kept c).
Proof.
  intros Hrep. eapply sublist_NoDup; [|apply sublist_fmap, sublist_take].
  rewrite (listing_ids self s) by done. apply NoDup_fst_map_to_list.
Qed.
Lemma listing_length self s c : represents self s c → length (listing [] c) = size c.
Proof.
  intros Hrep. rewrite <- length_map_to_list, <- (length_fmap fst (map_to_list c)).
  by rewrite <- (listing_ids self s), length_fmap by done.
Qed.

(** The snapshot is the whole store exactly up to [MAX_PAGE_LIMIT] records. *)
Lemma kept_all self s c :
  represents self s c → by_id (kept c) = c ↔ N.of_nat (size c) ≤ MAX_PAGE_LIMIT.
Proof.
  intros Hrep. pose proof (kept_NoDup self s c Hrep) as Hnd.
  pose proof (listing_length self s c Hrep) as Hlen. split.
  - intros Hall. rewrite <- Hall, <- length_map_to_list. unfold by_id.
    rewrite map_to_list_to_map, length_fmap by by rewrite <- list_fmap_compose.
    unfold kept, page_items. rewrite length_take. lia.
  - intros Hsize. apply map_eq. intros id. apply option_eq. intros r.
    rewrite by_id_lookup by done. split.
    + intros [Hr <-]. by eapply kept_members.
    + intros Hc. assert (lr_id r = id) as Hid by by apply Hrep in Hc as [].
      split; [|done]. unfold kept, page_items. rewrite take_ge by lia.
      unfold listing. rewrite elem_of_sort_by_key, list_elem_of_filter,
        (elem_of_records (st_store_kind self)) by apply Hrep.
      by rewrite Hid.
Qed.

(** A snapshot can always be taken, leaves the store as it is, and restoring it into any
    state of the store gives its records again: the first thousand of the listing. It is a
    round trip exactly when the store has no more than a thousand records; beyond, restoring
    deletes the rest. *)
Theorem snapshot_restores self s c :
  represents self s c → quiet s → pageable_store c →
  ∃ snapshot s1, create_snapshot self s = (Ok snapshot, s1) ∧ represents self s1 c ∧
    ∀ s2 c2, represents self s2 c2 → quiet s2 →
      ∃ s', restore_snapshot self snapshot s2 = (Ok tt, s') ∧
        represents self s' (by_id (kept c)) ∧
        (by_id (kept c) = c ↔ N.of_nat (size c) ≤ MAX_PAGE_LIMIT).
Proof.
  intros Hrep Hq Hpg.
  destruct (create_snapshot_run self s c Hrep Hq Hpg) as (snap & s1 & Hrun & Hrec & Hsk & Hrep1 & _).
  exists snap, s1. split; [done|]. split; [done|]. intros s2 c2 Hrep2 Hq2.
  destruct (delete_all_run self s2 c2 Hrep2 Hq2) as (n & s3 & Hdel & Hrep3 & Hq3).
  destruct (append_each self (kept c) s3 ∅ Hrep3 Hq3) as (s' & Happ & Hrep' & _).
  - apply Forall_forall. intros r Hr. apply (rep_stored _ _ _ Hrep).
    by eapply kept_members.
  - by eapply kept_NoDup.
  - done.
  - rewrite map_union_empty in Hrep'. exists s'. unfold restore_snapshot.
    rewrite bool_decide_true by done. simpl. unfold q_bind at 1. rewrite Hdel, Hrec.
    split; [exact Happ|]. split; [done|by eapply kept_all].
Qed.

(** Restoring is not one transaction: the records of the store are deleted first, so a
    snapshot whose [n]-th record is refused leaves only the records before it. *)
Theorem failed_restore_loses self s c snapshot l1 r l2 e :
  represents self s c → quiet s → snap_store_kind snapshot = st_store_kind self →
  snap_records snapshot = l1 ++ r :: l2 →
  Forall (λ r, stored (st_store_kind self) (lr_id r) r) l1 → NoDup (lr_id <$> l1) →
  validate_logical_record (st_store_kind self) r = Err e →
  ∃ s', restore_snapshot self snapshot s = (Err e, s') ∧ represents self s' (by_id l1).
Proof.
  intros Hrep Hq Hsk Hrec Hst Hnd Hr.
  destruct (delete_all_run self s c Hrep Hq) as (n & s1 & Hdel & Hrep1 & Hq1).
  destruct (append_each self l1 s1 ∅ Hrep1 Hq1 Hst Hnd) as (s' & Happ & Hrep' & _); [done|].
  rewrite map_union_empty in Hrep'. exists s'. split; [|done]. unfold restore_snapshot.
  rewrite bool_decide_true by done. simpl. unfold q_bind at 1. rewrite Hdel, Hrec.
  change (q_each (append self) (l1 ++ r :: l2) s1 = (Err e, s')).
  rewrite q_each_app. unfold q_bind at 1. rewrite Happ. cbn [q_each]. unfold q_bind, append, q_of.
  by rewrite Hr.
Qed.

End paging.

(* ------------------------------------------------------------------ *)
(** ** Examples *)

Module PagingSample.
Import StoreSample.

Definition one_by_one : QueryRequest :=
  with_page (QueryRequest_new ScopeGlobal) (mkPageRequest 1 None).

Lemma contents_pageable : pageable_store contents.
Proof.
  apply map_Forall_insert_2; [by vm_compute|].
  apply map_Forall_insert_2; [by vm_compute|apply map_Forall_empty].
Qed.
Lemma contents_listing :
  listing [] contents = [sample_record KEventId 2; sample_record KEventId 1].
Proof. vm_compute. reflexivity. Qed.

Lemma paging_complete_witness :
  ∃ s', read_all 3 events one_by_one database =
    (Ok (Some [sample_record KEventId 2; sample_record KEventId 1]), s') ∧
    sql_db s' = sql_db database.
Proof.
  rewrite <- contents_listing.
  exact (paging_complete events database contents one_by_one [] database_represents
    (λ _, eq_refl) contents_pageable eq_refl (conj eq_refl eq_refl) eq_refl).
Defined.

Lemma snapshot_restores_witness :
  ∃ snapshot s1, create_snapshot events database = (Ok snapshot, s1) ∧
    represents events s1 contents ∧
    ∀ s2 c2, represents events s2 c2 → quiet s2 →
      ∃ s', restore_snapshot events snapshot s2 = (Ok tt, s') ∧
        represents events s' (by_id (kept contents)) ∧
        (by_id (kept contents) = contents ↔ N.of_nat (size contents) ≤ MAX_PAGE_LIMIT).
Proof.
  exact (snapshot_restores events database contents database_represents (λ _, eq_refl)
    contents_pageable).
Defined.

(** A record with a forbidden key. *)
Definition refused_record : LogicalRecord KEventId :=
  let r := sample_record KEventId 3 in
  mkRecord (lr_id r) (lr_schema_version r) (lr_created_at r) (lr_updated_at r)
    (lr_record_time r) [] Privacy.Internal operational_metadata RecActive
    (JObject [("session_token", JString "t")]).
Definition bad_snapshot : StoreSnapshot KEventId :=
  mkSnapshot (mkId (mkUuid 9)) SkEvent (mkTimestamp 5) 2 operational_metadata
    [sample_record KEventId 1; refused_record].

Lemma failed_restore_loses_witness :
  ∃ e s', restore_snapshot events bad_snapshot database = (Err e, s') ∧
    represents events s' (by_id [sample_record KEventId 1]).
Proof.
  destruct (validate_logical_record SkEvent refused_record) as [|e] eqn:He; [by vm_compute in He|].
  exists e. apply (failed_restore_loses events database contents bad_snapshot
    [sample_record KEventId 1] refused_record [] e database_represents (λ _, eq_refl));
    [done|done| |by apply NoDup_singleton|done].
  apply Forall_singleton. apply (sample_stored 1). set_solver.
Defined.

End PagingSample.
