(* ===== verification/Migration.v ===== *)
(** * Migrations of the storage database ([storage/src/migration.rs])

    A migration is a list of SQL batches with checks on their text; the runner applies each
    one in a transaction of its own and keeps an audit of what it did. The batches run
    through [sql_batch]; the tables of the runner are those of [StorageDb].

    Field prefixes: [mig_] migration, [mar_] audit record, [rep_] run report. *)

From S2P Require Import Prelude Collections RustStr Effects Contracts Checks Json.
From S2P Require Import StorageTypes StorageDb.

#[local] Open Scope string_scope.
#[local] Open Scope list_scope.
#[local] Open Scope N_scope.

(* [storage/src/migration.rs:49-67] FORBIDDEN_STORAGE_TOKENS *)
Definition FORBIDDEN_STORAGE_TOKENS : list string :=
  ["raw_packet"; "raw_packets"; "raw_payload"; "payload_blob"; "http_body"; "request_body";
   "response_body"; "cookie"; "authorization"; "api_key"; "password"; "credential";
   "private_key"; "session_token"; "access_token"; "refresh_token"; "token_value"].
(* [storage/src/migration.rs] MAX_MIGRATION_STATEMENT_COUNT *)
Definition MAX_MIGRATION_STATEMENT_COUNT : N := 32.

(* ------------------------------------------------------------------ *)
(** ** Data *)

(* [storage/src/migration.rs] SchemaMetadata *)
Record SchemaMetadata := mkSchemaMetadata {
  smd_schema_version : SchemaVersion;
  smd_created_at : Timestamp;
  smd_updated_at : Timestamp;
  smd_privacy_class : PrivacyClass;
  smd_retention_class : RetentionClass;
  smd_data_class : DataClass
}.
(* [storage/src/migration.rs] SchemaMetadata::new *)
Definition schema_metadata_new (schema_version : SchemaVersion) (class : StoragePrivacyClass)
    : ST SchemaMetadata :=
  let$ now := now in
  st_ret (mkSchemaMetadata schema_version now now (spc_privacy_class class)
    (spc_retention_class class) (spc_data_class class)).
(* [storage/src/migration.rs] SchemaMetadata::storage_foundation *)
Definition storage_foundation : ST SchemaMetadata :=
  schema_metadata_new (mkVersion 0 1 0) operational_metadata.

(* [storage/src/migration.rs] MigrationStatus *)
Inductive MigrationStatus := MsPending | MsApplied | MsFailed | MsSkipped | MsDryRun.
#[export] Instance MigrationStatus_eq_dec : EqDecision MigrationStatus.
Proof. solve_decision. Defined.
(** The names [serde] derives. *)
Definition migration_status_text (status : MigrationStatus) : string :=
  match status with
  | MsPending => "pending" | MsApplied => "applied" | MsFailed => "failed"
  | MsSkipped => "skipped" | MsDryRun => "dry_run"
  end.

(* [storage/src/migration.rs] MigrationStatement *)
Record MigrationStatement := mkStatement { stm_label : string; stm_sql : string }.
(* [storage/src/migration.rs] RowCountVerificationHook *)
Record RowCountVerificationHook := mkRowCountHook { rch_table_name : string }.
(* [storage/src/migration.rs] RowCountVerificationResult *)
Record RowCountVerificationResult := mkRowCountResult {
  rcr_table_name : string;
  rcr_before_count : option N;
  rcr_after_count : option N
}.
(* [storage/src/migration.rs] FtsRebuildHook *)
Record FtsRebuildHook := mkFtsHook { fts_table_name : string; fts_rebuild_sql : string }.

(* [storage/src/migration.rs] Migration *)
Record Migration := mkMigration {
  mig_migration_id : MigrationId;
  mig_migration_key : string;
  mig_name : string;
  mig_schema_version : SchemaVersion;
  mig_statements : list MigrationStatement;
  mig_storage_privacy_class : StoragePrivacyClass;
  mig_created_at : Timestamp;
  mig_updated_at : Timestamp;
  mig_row_count_verifications : list RowCountVerificationHook;
  mig_fts_rebuild_hooks : list FtsRebuildHook
}.

(* [storage/src/migration.rs] MigrationAuditRecord *)
Record MigrationAuditRecord := mkMigrationAudit {
  mar_audit_id : AuditId;
  mar_migration_id : MigrationId;
  mar_migration_key : string;
  mar_schema_version : SchemaVersion;
  mar_status : MigrationStatus;
  mar_started_at : Timestamp;
  mar_finished_at : option Timestamp;
  mar_dry_run : bool;
  mar_statement_count : N;
  mar_row_count_verifications : list RowCountVerificationResult;
  mar_error_message : option string
}.

(* [storage/src/migration.rs] MigrationRunReport *)
Record MigrationRunReport := mkRunReport {
  rep_applied : N;
  rep_skipped : N;
  rep_dry_run : N;
  rep_failed : N;
  rep_audit_records : list MigrationAuditRecord
}.
Definition empty_report : MigrationRunReport := mkRunReport 0 0 0 0 [].

(* ------------------------------------------------------------------ *)
(** ** Checks *)

Definition is_identifier_char (c : ascii) : bool :=
  is_ascii_digit c || is_ascii_lowercase c || is_ascii_uppercase c || Ascii.eqb c "_".
(* [storage/src/migration.rs] validate_sql_identifier *)
Definition validate_sql_identifier (value : string) : result unit StorageError :=
  refuse_if (negb (negb (bool_decide (value = "")) && all_chars is_identifier_char value))
    (SeInvalidIdentifier value).
(* [storage/src/migration.rs] quote_identifier *)
Definition quote_identifier (value : string) : result string StorageError :=
  let? _ := validate_sql_identifier value in
  Ok (String "034" (value ++ String "034" ""))%string.
(* [storage/src/migration.rs] validate_sql_privacy *)
Definition validate_sql_privacy (migration_key sql : string) : result unit StorageError :=
  let normalized := to_ascii_lowercase sql in
  for_each (λ forbidden,
    refuse_if (contains normalized forbidden) (SeInvalidMigration migration_key
      ("SQL contains forbidden sensitive storage token `" ++ forbidden ++ "`")%string))
    FORBIDDEN_STORAGE_TOKENS.
(** The error names the field where the key of the migration belongs. *)
(* [storage/src/migration.rs] require_non_empty *)
Definition migration_require_non_empty (field value : string) : result unit StorageError :=
  refuse_if (blank value) (SeInvalidMigration field "value must not be empty").

(* [storage/src/migration.rs] Migration::validate *)
Definition migration_validate (self : Migration) : result unit StorageError :=
  let key := mig_migration_key self in
  let invalid reason := SeInvalidMigration key reason in
  let? _ := migration_require_non_empty "migration_key" key in
  let? _ := migration_require_non_empty "name" (mig_name self) in
  let? _ := refuse_if (bool_decide (mig_statements self = []))
    (invalid "migration must contain at least one SQL statement") in
  let? _ := refuse_if
    (MAX_MIGRATION_STATEMENT_COUNT <?
       len (mig_statements self) + len (mig_fts_rebuild_hooks self))
    (invalid "migration statement count exceeds bounded limit") in
  let? _ := refuse_if
    (negb (spc_normal_mode_persistence_allowed (mig_storage_privacy_class self)))
    (invalid "normal-mode migrations cannot persist raw content or forensic-only classes") in
  let? _ := for_each (λ statement,
    let? _ := migration_require_non_empty "statement.label" (stm_label statement) in
    let? _ := migration_require_non_empty "statement.sql" (stm_sql statement) in
    validate_sql_privacy key (stm_sql statement)) (mig_statements self) in
  let? _ := for_each (λ hook, validate_sql_identifier (rch_table_name hook))
    (mig_row_count_verifications self) in
  for_each (λ hook,
    let? _ := validate_sql_identifier (fts_table_name hook) in
    validate_sql_privacy (fts_table_name hook) (fts_rebuild_sql hook))
    (mig_fts_rebuild_hooks self).

(* [storage/src/migration.rs] RowCountVerificationHook::new *)
Definition row_count_hook_new (table_name : string)
    : result RowCountVerificationHook StorageError :=
  let? _ := validate_sql_identifier table_name in
  Ok (mkRowCountHook table_name).
(* [storage/src/migration.rs] FtsRebuildHook::new *)
Definition fts_hook_new (table_name rebuild_sql : string) : result FtsRebuildHook StorageError :=
  let? _ := validate_sql_identifier table_name in
  let? _ := validate_sql_privacy table_name rebuild_sql in
  Ok (mkFtsHook table_name rebuild_sql).

(* [storage/src/migration.rs] Migration::new *)
Definition migration_new (migration_key name : string) (schema_version : SchemaVersion)
    (statements : list MigrationStatement) (class : StoragePrivacyClass)
    : ST (result Migration StorageError) :=
  let$ now := now in
  let$ migration_id := new_v4 in
  let migration := mkMigration migration_id migration_key name schema_version statements class
                     now now [] [] in
  st_ret (let? _ := migration_validate migration in Ok migration).
(* [storage/src/migration.rs] Migration::with_row_count_verification *)
Definition with_row_count_verification (self : Migration) (hook : RowCountVerificationHook)
    : result Migration StorageError :=
  let? _ := validate_sql_identifier (rch_table_name hook) in
  Ok (mkMigration (mig_migration_id self) (mig_migration_key self) (mig_name self)
    (mig_schema_version self) (mig_statements self) (mig_storage_privacy_class self)
    (mig_created_at self) (mig_updated_at self) (mig_row_count_verifications self ++ [hook])
    (mig_fts_rebuild_hooks self)).
(* [storage/src/migration.rs] Migration::with_fts_rebuild_hook *)
Definition with_fts_rebuild_hook (self : Migration) (hook : FtsRebuildHook)
    : result Migration StorageError :=
  let? _ := validate_sql_privacy (fts_table_name hook) (fts_rebuild_sql hook) in
  Ok (mkMigration (mig_migration_id self) (mig_migration_key self) (mig_name self)
    (mig_schema_version self) (mig_statements self) (mig_storage_privacy_class self)
    (mig_created_at self) (mig_updated_at self) (mig_row_count_verifications self)
    (mig_fts_rebuild_hooks self ++ [hook])).

(* ------------------------------------------------------------------ *)
(** ** The audit of the runner *)

(** The length of a vector as a [u32]. *)
Definition as_u32 (n : N) : N := n mod (u32_max + 1).

(* [storage/src/migration.rs] MigrationAuditRecord::skipped *)
Definition audit_skipped (migration : Migration) : ST MigrationAuditRecord :=
  let$ now := now in
  let$ audit_id := new_v4 in
  st_ret (mkMigrationAudit audit_id (mig_migration_id migration) (mig_migration_key migration)
    (mig_schema_version migration) MsSkipped now (Some now) false 0 [] None).
(* [storage/src/migration.rs] MigrationAuditRecord::failed *)
Definition audit_failed (migration : Migration) (reason : string) : ST MigrationAuditRecord :=
  let$ now := now in
  let$ audit_id := new_v4 in
  st_ret (mkMigrationAudit audit_id (mig_migration_id migration) (mig_migration_key migration)
    (mig_schema_version migration) MsFailed now (Some now) false
    (as_u32 (len (mig_statements migration))) [] (Some reason)).

(** The sink of the caller: a state of its own. *)
(* [storage/src/migration.rs] MigrationAuditSink *)
Class MigrationAuditSink (S : Type) := {
  sink_record : S → MigrationAuditRecord → S * result unit StorageError
}.
(* [storage/src/migration.rs] InMemoryMigrationAuditSink *)
Record InMemoryMigrationAuditSink := mkMemorySink { sink_records : list MigrationAuditRecord }.
(* [storage/src/migration.rs] MigrationAuditSink for InMemoryMigrationAuditSink::record *)
#[export] Instance memory_sink : MigrationAuditSink InMemoryMigrationAuditSink :=
  {| sink_record := λ self record, (mkMemorySink (sink_records self ++ [record]), Ok tt) |}.

(* ------------------------------------------------------------------ *)
(** ** The statements of the runner *)

(** [serde_json] of the row counts. *)
Class RowCountText := {
  row_counts_to_text : list RowCountVerificationResult → result string string
}.

Section runner.
Context `{Externals} `{StorageText} `{RowCountText} {O : Type} `{SqlEngine O}.

(** Creating the tables of the runner, where they are not there. *)
(* [storage/src/migration.rs:10-47] INTERNAL_SCHEMA_SQL *)
Definition create_internal_schema : Q O unit :=
  statement (λ db,
    (mkDatabase (db_records db) (Some (default no_internal (db_internal db))) (db_other db),
     Ok tt)).
(** A pragma changes no table. *)
Definition pragma_update (name value : string) : Q O unit := select (λ _, Ok tt).
(* [storage/src/migration.rs] MigrationRunner::configure_sqlite *)
Definition configure_sqlite : Q O unit :=
  let@ _ := pragma_update "journal_mode" "WAL" in
  let@ _ := pragma_update "busy_timeout" "5000" in
  let@ _ := pragma_update "foreign_keys" "ON" in
  let@ _ := pragma_update "secure_delete" "ON" in
  pragma_update "synchronous" "NORMAL".

(** [INSERT ... ON CONFLICT(schema_version) DO UPDATE SET ...]: the creation time stays. *)
(* [storage/src/migration.rs] upsert_schema_metadata *)
Definition upsert_schema_metadata (metadata : SchemaMetadata) : Q O unit :=
  let@ privacy_class := q_of (enum_to_storage (privacy_class_text (smd_privacy_class metadata))) in
  let@ retention_class :=
    q_of (enum_to_storage (retention_class_text (smd_retention_class metadata))) in
  let@ data_class := q_of (enum_to_storage (data_class_text (smd_data_class metadata))) in
  on_internal "sg_schema_metadata" (λ tables,
    let key := Schema.to_string (smd_schema_version metadata) in
    let created_at := match in_schema_metadata tables !! key with
                      | Some row => sm_created_at row
                      | None => timestamp_to_string (smd_created_at metadata)
                      end in
    Ok (mkInternal
      (<[key := mkSchemaRow created_at (timestamp_to_string (smd_updated_at metadata))
                  privacy_class retention_class data_class]> (in_schema_metadata tables))
      (in_migrations tables) (in_migration_audit tables), tt)).

(* [storage/src/migration.rs] MigrationRunner::initialize *)
Definition initialize (metadata : SchemaMetadata) : Q O unit :=
  let@ _ := configure_sqlite in
  let@ _ := create_internal_schema in
  upsert_schema_metadata metadata.

(** The row of a migration, by its unique key. *)
Definition migration_row (migrations : gmap string MigrationRow) (migration_key : string)
    : option (string * MigrationRow) :=
  List.find (λ entry, bool_decide (mg_migration_key entry.2 = migration_key))
    (map_to_list migrations).
(* [storage/src/migration.rs] MigrationRunner::is_applied *)
Definition is_applied (migration_key : string) : Q O bool :=
  let@ status := on_internal "sg_migrations" (λ tables,
    Ok (tables, mg_status ∘ snd <$> migration_row (in_migrations tables) migration_key)) in
  q_ret (bool_decide (status = Some "applied")).

(* [storage/src/migration.rs] insert_migration_record *)
Definition insert_migration_record (migration : Migration) : Q O unit :=
  let class := mig_storage_privacy_class migration in
  let@ applied_at := q_lift now in
  let@ privacy_class := q_of (enum_to_storage (privacy_class_text (spc_privacy_class class))) in
  let@ retention_class :=
    q_of (enum_to_storage (retention_class_text (spc_retention_class class))) in
  let@ data_class := q_of (enum_to_storage (data_class_text (spc_data_class class))) in
  on_internal "sg_migrations" (λ tables,
    let id := id_to_string (mig_migration_id migration) in
    match in_migrations tables !! id,
          migration_row (in_migrations tables) (mig_migration_key migration) with
    | Some _, _ => Err (sql_error_text (UniqueFailed "sg_migrations.migration_id"))
    | None, Some _ => Err (sql_error_text (UniqueFailed "sg_migrations.migration_key"))
    | None, None =>
        let row := mkMigrationRow (mig_migration_key migration)
          (Schema.to_string (mig_schema_version migration)) (mig_name migration) "applied"
          (timestamp_to_string (mig_created_at migration))
          (timestamp_to_string (mig_updated_at migration)) (timestamp_to_string applied_at)
          privacy_class retention_class data_class in
        Ok (mkInternal (in_schema_metadata tables) (<[id := row]> (in_migrations tables))
              (in_migration_audit tables), tt)
    end).

(* [storage/src/migration.rs] audit_insert_params *)
Definition audit_insert_params (record : MigrationAuditRecord)
    : result (string * AuditRow) StorageError :=
  let? status := enum_to_storage (migration_status_text (mar_status record)) in
  let? row_counts :=
    map_err SeSerialization (row_counts_to_text (mar_row_count_verifications record)) in
  Ok (id_to_string (mar_audit_id record),
      mkAuditRow (id_to_string (mar_migration_id record)) (mar_migration_key record)
        (Schema.to_string (mar_schema_version record)) status
        (timestamp_to_string (mar_started_at record))
        (default "" (timestamp_to_string <$> mar_finished_at record))
        (if mar_dry_run record then "1" else "0") (show_uint (mar_statement_count record))
        row_counts (default "" (mar_error_message record))).
(** [insert_audit_record] and [insert_audit_record_tx]: the same statement. *)
(* [storage/src/migration.rs] insert_audit_record *)
Definition insert_audit_record (record : MigrationAuditRecord) : Q O unit :=
  let@ '(id, row) := q_of (audit_insert_params record) in
  on_internal "sg_migration_audit" (λ tables,
    match in_migration_audit tables !! id with
    | Some _ => Err (sql_error_text (UniqueFailed "sg_migration_audit.audit_id"))
    | None => Ok (mkInternal (in_schema_metadata tables) (in_migrations tables)
                    (<[id := row]> (in_migration_audit tables)), tt)
    end).
(* [storage/src/migration.rs] insert_audit_record_tx *)
Definition insert_audit_record_tx (record : MigrationAuditRecord) : Q O unit :=
  insert_audit_record record.

(* [storage/src/migration.rs] table_exists *)
Definition table_exists (table_name : string) : Q O bool :=
  select (λ db, Ok (sql_has_table db table_name)).
(* [storage/src/migration.rs] collect_row_counts *)
Definition collect_row_counts (hooks : list RowCountVerificationHook)
    : Q O (list (string * option N)) :=
  q_map (λ hook,
    let@ found := table_exists (rch_table_name hook) in
    if found
    then
      let@ table_name := q_of (quote_identifier (rch_table_name hook)) in
      let@ count := select (λ db, sql_count db table_name) in
      q_ret (rch_table_name hook, Some count)
    else q_ret (rch_table_name hook, None)) hooks.
(* [storage/src/migration.rs] merge_row_count_results *)
Definition merge_row_count_results (before after : list (string * option N))
    : list RowCountVerificationResult :=
  zip_with (λ b a, mkRowCountResult b.1 b.2 a.2) before after.

(* ------------------------------------------------------------------ *)
(** ** Running migrations *)

(* [storage/src/migration.rs] apply_one *)
Definition apply_one (migration : Migration) (dry_run : bool) : Q O MigrationAuditRecord :=
  let@ started_at := q_lift now in
  in_transaction (negb dry_run)
    (let@ before_counts := collect_row_counts (mig_row_count_verifications migration) in
     let@ _ := q_each (λ statement, execute_batch (stm_sql statement))
                 (mig_statements migration) in
     let@ _ := q_each (λ hook, execute_batch (fts_rebuild_sql hook))
                 (mig_fts_rebuild_hooks migration) in
     let@ after_counts := collect_row_counts (mig_row_count_verifications migration) in
     let@ audit_id := q_lift new_v4 in
     let@ finished_at := q_lift now in
     let record := mkMigrationAudit audit_id (mig_migration_id migration)
       (mig_migration_key migration) (mig_schema_version migration)
       (if dry_run then MsDryRun else MsApplied) started_at (Some finished_at) dry_run
       (as_u32 (len (mig_statements migration) + len (mig_fts_rebuild_hooks migration)))
       (merge_row_count_results before_counts after_counts) None in
     if dry_run then q_ret record
     else
       let@ _ := insert_migration_record migration in
       let@ _ := insert_audit_record_tx record in
       q_ret record).

(** The run also changes the sink. *)
Context {S : Type} `{!MigrationAuditSink S}.

Definition R (A : Type) : Type := S → Sql O → result A StorageError * S * Sql O.
Definition r_bind {A B} (a : R A) (f : A → R B) : R B :=
  λ sink s, match a sink s with
            | (Ok x, sink, s) => f x sink s
            | (Err e, sink, s) => (Err e, sink, s)
            end.
Definition r_q {A} (a : Q O A) : R A :=
  λ sink s, let '(r, s) := a s in (r, sink, s).
Definition r_sink (record : MigrationAuditRecord) : R unit :=
  λ sink s, let '(sink, r) := sink_record sink record in (r, sink, s).

(** The record of an outcome, in the audit table and in the sink. *)
Definition audited (record : ST MigrationAuditRecord) : R MigrationAuditRecord :=
  r_bind (r_q (q_lift record)) (λ record,
  r_bind (r_q (insert_audit_record record)) (λ _,
  r_bind (r_sink record) (λ _, r_q (q_ret record)))).

Definition report_push (report : MigrationRunReport) (record : MigrationAuditRecord)
    : MigrationRunReport :=
  let records := rep_audit_records report ++ [record] in
  match mar_status record with
  | MsApplied => mkRunReport (rep_applied report + 1) (rep_skipped report)
                   (rep_dry_run report) (rep_failed report) records
  | MsDryRun => mkRunReport (rep_applied report) (rep_skipped report)
                  (rep_dry_run report + 1) (rep_failed report) records
  | MsSkipped => mkRunReport (rep_applied report) (rep_skipped report + 1)
                   (rep_dry_run report) (rep_failed report) records
  | MsFailed => mkRunReport (rep_applied report) (rep_skipped report)
                  (rep_dry_run report) (rep_failed report + 1) records
  | MsPending => mkRunReport (rep_applied report) (rep_skipped report)
                   (rep_dry_run report) (rep_failed report) records
  end.

(** The body of the loop: the record of a migration that did not fail. *)
(* [storage/src/migration.rs:422-464] MigrationRunner::run *)
Definition run_one (migration : Migration) (dry_run : bool) : R MigrationAuditRecord :=
  match migration_validate migration with
  | Err error =>
      r_bind (audited (audit_failed migration (storage_error_to_string error))) (λ _,
        r_q (q_fail error))
  | Ok _ =>
      r_bind (r_q (is_applied (mig_migration_key migration))) (λ applied,
        if applied then audited (audit_skipped migration)
        else
          r_bind (r_q (q_try (apply_one migration dry_run))) (λ outcome,
            match outcome with
            | Ok record => r_bind (r_sink record) (λ _, r_q (q_ret record))
            | Err error =>
                r_bind (audited (audit_failed migration (storage_error_to_string error)))
                  (λ _, r_q (q_fail (SeMigrationFailed (mig_migration_key migration)
                                       (storage_error_to_string error))))
            end))
  end.
Fixpoint run_from (report : MigrationRunReport) (migrations : list Migration) (dry_run : bool)
    : R MigrationRunReport :=
  match migrations with
  | [] => r_q (q_ret report)
  | migration :: migrations =>
      r_bind (run_one migration dry_run) (λ record,
        run_from (report_push report record) migrations dry_run)
  end.
(* [storage/src/migration.rs] MigrationRunner::run *)
Definition run (migrations : list Migration) (dry_run : bool) : R MigrationRunReport :=
  run_from empty_report migrations dry_run.
(* [storage/src/migration.rs] MigrationRunner::apply_all *)
Definition apply_all (migrations : list Migration) : R MigrationRunReport :=
  run migrations false.
(* [storage/src/migration.rs] MigrationRunner::dry_run *)
Definition dry_run (migrations : list Migration) : R MigrationRunReport :=
  run migrations true.

End runner.

(* ------------------------------------------------------------------ *)
(** ** The table of logical records *)

(** The text of the batch, as it stands in the source. *)
(* [storage/src/store.rs:872-897] logical_store_migration *)
Definition LOGICAL_STORE_SQL : string := "
            CREATE TABLE IF NOT EXISTS sg_logical_records (
                store_kind TEXT NOT NULL,
                record_id TEXT NOT NULL,
                schema_version TEXT NOT NULL,
                created_at TEXT NOT NULL,
                updated_at TEXT NOT NULL,
                record_time TEXT NOT NULL,
                privacy_class TEXT NOT NULL,
                retention_class TEXT NOT NULL,
                data_class TEXT NOT NULL,
                state TEXT NOT NULL,
                entity_refs_json TEXT NOT NULL,
                record_json TEXT NOT NULL,
                PRIMARY KEY (store_kind, record_id)
            );

            CREATE INDEX IF NOT EXISTS idx_sg_logical_records_time
                ON sg_logical_records (store_kind, record_time DESC, record_id ASC);

            CREATE INDEX IF NOT EXISTS idx_sg_logical_records_state
                ON sg_logical_records (store_kind, state);

            CREATE INDEX IF NOT EXISTS idx_sg_logical_records_privacy
                ON sg_logical_records (store_kind, privacy_class, retention_class, data_class);
".

(* [storage/src/store.rs] logical_store_migration *)
Definition logical_store_migration : ST (result Migration StorageError) :=
  let$ migration := migration_new "090_logical_store_records"
    "create logical store record facades" (mkVersion 0 2 0)
    [mkStatement "create_logical_store_records" LOGICAL_STORE_SQL] operational_metadata in
  st_ret
    (let? migration := migration in
     let? hook := row_count_hook_new "sg_logical_records" in
     with_row_count_verification migration hook).
