(* ===== verification/MigrationFacts.v ===== *)
(** * What the migration runner guarantees ([storage/src/migration.rs])

    One migration is all or nothing; a run is a sequence of such steps that stops at the
    first failure; what is applied is never applied again; a dry run changes nothing but the
    audit. *)

From S2P Require Import Prelude Collections RustStr Effects Contracts Checks Json.
From S2P Require Import StorageTypes StorageDb LogicalStore LogicalStoreFacts Migration.

#[local] Open Scope string_scope.
#[local] Open Scope list_scope.
#[local] Open Scope N_scope.

Section facts.
Context `{Externals} `{StorageText} `{RowCountText} {O : Type} `{SqlEngine O}.
Implicit Types (s : Sql O) (db : Database O) (m : Migration).

(* ------------------------------------------------------------------ *)
(** ** Computations that only read *)

Definition reads {A} (a : Q O A) : Prop := ∀ s, sql_db (a s).2 = sql_db s.

Lemma reads_ret {A} (x : A) : reads (q_ret x).
Proof. done. Qed.
Lemma reads_of {A} (r : result A StorageError) : reads (q_of r).
Proof. done. Qed.
Lemma reads_lift {A} (a : ST A) : reads (q_lift a).
Proof. intros s. unfold q_lift. by destruct (a (sql_world s)). Qed.
Lemma reads_select {A} (f : Database O → result A string) : reads (select f).
Proof.
  intros s. unfold select, statement. destruct (sql_faults s _); [done|].
  by destruct (f (sql_db s)).
Qed.
Lemma reads_bind {A B} (a : Q O A) (f : A → Q O B) :
  reads a → (∀ x, reads (f x)) → reads (q_bind a f).
Proof.
  intros Ha Hf s. unfold q_bind. specialize (Ha s). destruct (a s) as [[x|e] s1]; [|done].
  simpl in Ha. by rewrite Hf.
Qed.
Lemma reads_map {A B} (f : A → Q O B) l : (∀ x, reads (f x)) → reads (q_map f l).
Proof.
  intros Hf. induction l as [|x l IH]; [apply reads_ret|]. simpl.
  apply reads_bind; [done|]. intros y. apply reads_bind; [done|]. intros ys. apply reads_ret.
Qed.
Lemma reads_row_counts hooks : reads (collect_row_counts hooks).
Proof.
  apply reads_map. intros hook. apply reads_bind; [apply reads_select|]. intros []; [|done].
  apply reads_bind; [apply reads_of|]. intros name.
  apply reads_bind; [apply reads_select|]. done.
Qed.

(** The result of a bind. *)
Lemma q_bind_inv {A B} (a : Q O A) (f : A → Q O B) s r s' :
  q_bind a f s = (r, s') →
  (∃ x s1, a s = (Ok x, s1) ∧ f x s1 = (r, s')) ∨ (∃ e, a s = (Err e, s') ∧ r = Err e).
Proof.
  unfold q_bind. destruct (a s) as [[x|e] s1]; [|intros [= <- <-]]; eauto.
Qed.
Lemma reads_run {A} (a : Q O A) s r s' : reads a → a s = (r, s') → sql_db s' = sql_db s.
Proof. intros Ha Hs. specialize (Ha s). by rewrite Hs in Ha. Qed.

Lemma in_transaction_inv {A} commit (body : Q O A) s r s' :
  in_transaction commit body s = (r, s') →
  (∃ x s1 s2, r = Ok x ∧ body s1 = (Ok x, s2) ∧ sql_db s1 = sql_db s ∧
     sql_db s' = if commit then sql_db s2 else sql_db s) ∨
  (∃ e, r = Err e ∧ sql_db s' = sql_db s).
Proof.
  unfold in_transaction.
  destruct (select (λ _, Ok tt) s) as [[[]|e] s1] eqn:H1'; apply reads_run in H1' as Hdb1;
    try apply reads_select; [|intros [= <- <-]; right; by eexists].
  destruct (body s1) as [[x|e] s2] eqn:Hbody; [|intros [= <- <-]; right; by eexists].
  destruct (select (λ _, Ok tt) s2) as [[[]|e] s3] eqn:H3'; apply reads_run in H3' as Hdb3;
    try apply reads_select; [|intros [= <- <-]; right; by eexists].
  intros [= <- <-]. left. exists x, s1, s2. split_and!; [done..|]. by destruct commit.
Qed.

(* ------------------------------------------------------------------ *)
(** ** One migration *)

(** What batches do one after the other, when none fails. *)
Fixpoint batches (l : list string) db : option (Database O) :=
  match l with
  | [] => Some db
  | sql :: l => match sql_batch sql db with (db, Ok _) => batches l db | (_, Err _) => None end
  end.
Definition texts m : list string :=
  (stm_sql <$> mig_statements m) ++ (fts_rebuild_sql <$> mig_fts_rebuild_hooks m).

Lemma batches_app l1 l2 db db1 :
  batches l1 db = Some db1 → batches (l1 ++ l2) db = batches l2 db1.
Proof.
  revert db. induction l1 as [|sql l1 IH]; intros db; simpl; [by intros [= ->]|].
  destruct (sql_batch sql db) as [db' [|]]; [apply IH|done].
Qed.
Lemma batches_run {A} (f : A → string) l : ∀ s s',
  q_each (λ x, execute_batch (f x)) l s = (Ok tt, s') →
  batches (f <$> l) (sql_db s) = Some (sql_db s').
Proof.
  induction l as [|x l IH]; intros s s'; simpl; [by intros [= <-]|].
  intros [(u & s1 & Hx & Hl)|(e & _ & ?)]%q_bind_inv; [|done].
  apply IH in Hl. revert Hx. unfold execute_batch. destruct (sql_faults s _); [done|].
  destruct (sql_batch (f x) (sql_db s)) as [db' [|]]; [|done]. by intros [= _ <-].
Qed.

Definition applied_in db (key : string) : Prop :=
  ∃ tables entry, db_internal db = Some tables ∧
    migration_row (in_migrations tables) key = Some entry ∧ mg_status entry.2 = "applied".
(** Only the audit table has grown. *)
Definition audit_only db db' : Prop :=
  db_records db' = db_records db ∧ db_other db' = db_other db ∧
  match db_internal db, db_internal db' with
  | Some t, Some t' =>
      in_schema_metadata t' = in_schema_metadata t ∧ in_migrations t' = in_migrations t ∧
      in_migration_audit t ⊆ in_migration_audit t'
  | None, None => True
  | _, _ => False
  end.

(** Applying a migration, on databases: its batches in order, all of them, then its row and
    its audit. *)
Inductive migrates m db : Database O → Prop :=
  | migrates_intro db1 tables row audit_id audit :
      batches (texts m) db = Some db1 → db_internal db1 = Some tables →
      migration_row (in_migrations tables) (mig_migration_key m) = None →
      in_migrations tables !! id_to_string (mig_migration_id m) = None →
      in_migration_audit tables !! audit_id = None →
      mg_migration_key row = mig_migration_key m → mg_status row = "applied" →
      ma_status audit = "applied" →
      migrates m db (mkDatabase (db_records db1) (Some (mkInternal (in_schema_metadata tables)
        (<[id_to_string (mig_migration_id m) := row]> (in_migrations tables))
        (<[audit_id := audit]> (in_migration_audit tables)))) (db_other db1)).

Lemma on_internal_inv {A} table (f : Internal → result (Internal * A) string) s x s' :
  on_internal table f s = (Ok x, s') →
  ∃ tables tables', db_internal (sql_db s) = Some tables ∧ f tables = Ok (tables', x) ∧
    sql_db s' = mkDatabase (db_records (sql_db s)) (Some tables') (db_other (sql_db s)).
Proof.
  unfold on_internal, statement. destruct (sql_faults s _); [done|].
  destruct (db_internal (sql_db s)) as [tables|]; [|done].
  destruct (f tables) as [[tables' y]|] eqn:Hf; [|done]. intros [= <- <-]. eauto.
Qed.

Lemma insert_migration_record_inv m s s' :
  insert_migration_record m s = (Ok tt, s') →
  ∃ tables row, db_internal (sql_db s) = Some tables ∧
    migration_row (in_migrations tables) (mig_migration_key m) = None ∧
    in_migrations tables !! id_to_string (mig_migration_id m) = None ∧
    mg_migration_key row = mig_migration_key m ∧ mg_status row = "applied" ∧
    sql_db s' = mkDatabase (db_records (sql_db s)) (Some (mkInternal (in_schema_metadata tables)
      (<[id_to_string (mig_migration_id m) := row]> (in_migrations tables))
      (in_migration_audit tables))) (db_other (sql_db s)).
Proof.
  unfold insert_migration_record.
  intros [(t & s1 & Hnow & Hrun)|(e & _ & ?)]%q_bind_inv; [|done].
  apply reads_run in Hnow; [|apply reads_lift]. unfold q_bind, q_of, enum_to_storage in Hrun.
  apply on_internal_inv in Hrun as (tables & tables' & Ht & Hf & Hdb). rewrite Hnow in *.
  destruct (in_migrations tables !! id_to_string (mig_migration_id m)) eqn:Hid; [done|].
  destruct (migration_row (in_migrations tables) (mig_migration_key m)) eqn:Hkey; [done|].
  injection Hf as <-.
  eexists tables, _. split_and!; [exact Ht|exact Hkey|exact Hid| | |exact Hdb]; done.
Qed.
Lemma insert_audit_record_inv record s s' :
  insert_audit_record record s = (Ok tt, s') →
  ∃ tables id row, db_internal (sql_db s) = Some tables ∧
    in_migration_audit tables !! id = None ∧
    ma_status row = migration_status_text (mar_status record) ∧
    sql_db s' = mkDatabase (db_records (sql_db s)) (Some (mkInternal (in_schema_metadata tables)
      (in_migrations tables) (<[id := row]> (in_migration_audit tables)))) (db_other (sql_db s)).
Proof.
  unfold insert_audit_record, audit_insert_params, q_bind, q_of. cbn [enum_to_storage res_bind].
  destruct (row_counts_to_text _); [|done]. cbn [map_err res_bind].
  intros (tables & tables' & Ht & Hf & Hdb)%on_internal_inv.
  destruct (in_migration_audit tables !! _) eqn:Hid; [done|]. injection Hf as <-.
  eexists tables, _, _. split_and!; [exact Ht|exact Hid| |exact Hdb]. done.
Qed.
Lemma insert_audit_record_err record s e s' :
  insert_audit_record record s = (Err e, s') → sql_db s' = sql_db s.
Proof.
  unfold insert_audit_record, q_bind, q_of.
  destruct (audit_insert_params record) as [[id row]|]; [|by intros [= _ <-]].
  unfold on_internal, statement. destruct (sql_faults s _); [by intros [= _ <-]|].
  destruct (db_internal (sql_db s)) as [tables|]; [|by intros [= _ <-]].
  destruct (in_migration_audit tables !! id); by intros [= _ <-].
Qed.

(** C23. A migration is all or nothing: when it is applied, every batch of it has run to its
    end, in order, and the database has the row that says so and an audit; when anything
    fails on the way -- a batch, a count, the row of the migration, its audit, the commit --
    the database is as it was. A dry run always leaves it as it was. *)
Theorem migration_atomic m dry_run s r s' :
  apply_one m dry_run s = (r, s') →
  (∃ record, r = Ok record ∧ dry_run = false ∧ mar_status record = MsApplied ∧
     migrates m (sql_db s) (sql_db s')) ∨
  (sql_db s' = sql_db s ∧ ∀ record, r = Ok record → dry_run = true ∧ mar_status record = MsDryRun).
Proof.
  unfold apply_one. intros [(t & s0 & Hnow & Htx)|(e & ? & ->)]%q_bind_inv.
  2:{ right. split; [by eapply reads_run; [apply reads_lift|]|done]. }
  apply reads_run in Hnow; [|apply reads_lift].
  apply in_transaction_inv in Htx as [(x & s1 & s2 & -> & Hbody & Hs1 & Hs')|(e & -> & Hs')].
  2:{ right. split; [congruence|done]. }
  apply q_bind_inv in Hbody as [(before & s3 & Hbefore & Hbody)|(e & _ & ?)]; [|done].
  apply reads_run in Hbefore; [|apply reads_row_counts].
  apply q_bind_inv in Hbody as [([] & s4 & Hstm & Hbody)|(e & _ & ?)]; [|done].
  apply q_bind_inv in Hbody as [([] & s5 & Hfts & Hbody)|(e & _ & ?)]; [|done].
  apply batches_run in Hstm, Hfts.
  apply q_bind_inv in Hbody as [(after & s6 & Hafter & Hbody)|(e & _ & ?)]; [|done].
  apply reads_run in Hafter; [|apply reads_row_counts].
  apply q_bind_inv in Hbody as [(id & s7 & Hid & Hbody)|(e & _ & ?)]; [|done].
  apply reads_run in Hid; [|apply reads_lift].
  apply q_bind_inv in Hbody as [(t' & s8 & Ht' & Hbody)|(e & _ & ?)]; [|done].
  apply reads_run in Ht'; [|apply reads_lift]. cbv zeta in Hbody.
  destruct dry_run; [right; simpl in Hs'; split; [congruence|]; intros record [= ->];
                     by injection Hbody as <-|left].
  apply q_bind_inv in Hbody as [([] & s9 & Hrow & Hbody)|(e & _ & ?)]; [|done].
  apply insert_migration_record_inv in Hrow as (tables & row & Ht & Hkey & Hmid & ? & ? & Hdb9).
  apply q_bind_inv in Hbody as [([] & s10 & Haud & Hbody)|(e & _ & ?)]; [|done].
  apply insert_audit_record_inv in Haud as (tables' & aid & arow & Ht9 & Ha & ? & Hdb10).
  injection Hbody as <- <-. eexists. split_and!; [done..|]. simpl in Hs'.
  rewrite Hs', Hdb10. rewrite Hdb9 in Ht9 |- *. injection Ht9 as <-. simpl in *.
  assert (sql_db s8 = sql_db s5) as Hs8 by congruence. rewrite Hs8 in *.
  eapply (migrates_intro m (sql_db s) (sql_db s5) tables row aid arow); [|done..].
  unfold texts. erewrite batches_app; [exact Hfts|]. rewrite <- Hstm. congruence.
Qed.

(* ------------------------------------------------------------------ *)
(** ** The audit *)

Context {S : Type} `{!MigrationAuditSink S}.
Implicit Types sink : S.

#[local] Instance audit_only_refl : Reflexive audit_only.
Proof. intros [? [t|] ?]; by unfold audit_only. Qed.
#[local] Instance audit_only_trans : Transitive audit_only.
Proof.
  intros [? [t1|] ?] [? [t2|] ?] [? [t3|] ?] (? & ? & Ha) (? & ? & Hb); simpl in *; try done;
    split_and!; simpl; try congruence.
  destruct Ha as (? & ? & Ha), Hb as (? & ? & Hb).
  split_and!; [congruence|congruence|by transitivity (in_migration_audit t2)].
Qed.
Lemma audit_only_eq db db' : db' = db → audit_only db db'.
Proof. by intros ->. Qed.

Lemma r_bind_inv {A B} (a : R A) (f : A → R B) sink s r sink' s' :
  r_bind a f sink s = (r, sink', s') →
  (∃ x sink1 s1, a sink s = (Ok x, sink1, s1) ∧ f x sink1 s1 = (r, sink', s')) ∨
  (∃ e, a sink s = (Err e, sink', s') ∧ r = Err e).
Proof.
  unfold r_bind. destruct (a sink s) as [[[x|e] sink1] s1]; [|intros [= <- <- <-]]; eauto 8.
Qed.
Lemma r_q_inv {A} (a : Q O A) sink s r sink' s' :
  r_q a sink s = (r, sink', s') → a s = (r, s') ∧ sink' = sink.
Proof. unfold r_q. destruct (a s). by intros [= -> -> ->]. Qed.
Lemma r_sink_inv record sink s r sink' s' : r_sink record sink s = (r, sink', s') → s' = s.
Proof. unfold r_sink. destruct (sink_record sink record). by intros [= _ _ ->]. Qed.

Lemma insert_audit_only record s r s' :
  insert_audit_record record s = (r, s') → audit_only (sql_db s) (sql_db s').
Proof.
  destruct r as [[]|e].
  - intros (tables & id & row & Ht & Hid & _ & ->)%insert_audit_record_inv.
    unfold audit_only. rewrite Ht. simpl. split_and!; [done..|]. by apply insert_subseteq.
  - intros ->%insert_audit_record_err. done.
Qed.
Lemma audited_inv record sink s r sink' s' :
  audited record sink s = (r, sink', s') →
  audit_only (sql_db s) (sql_db s') ∧ ∀ x, r = Ok x → ∃ w, x = (record w).1.
Proof.
  intros [(x & sink1 & s1 & Hx & Hrun)|(e & Hx & ->)]%r_bind_inv; apply r_q_inv in Hx as [Hx ->];
    pose proof (reads_run _ _ _ _ (reads_lift record) Hx) as Hdb; [|split; [by rewrite Hdb|done]].
  rewrite <- Hdb. assert (x = (record (sql_world s)).1) as Hrec.
  { revert Hx. unfold q_lift. destruct (record (sql_world s)). by intros [= <- _]. }
  apply r_bind_inv in Hrun as [([] & sink2 & s2 & Hi & Hrun)|(e & Hi & ->)];
    apply r_q_inv in Hi as [Hi%insert_audit_only ->]; [|done].
  apply r_bind_inv in Hrun as [([] & sink3 & s3 & ->%r_sink_inv & Hrun)|(e & ->%r_sink_inv & ->)];
    [|done].
  apply r_q_inv in Hrun as [Hrun ->]. injection Hrun as <- <-.
  split; [done|]. intros ? [= <-]. eauto.
Qed.

(* ------------------------------------------------------------------ *)
(** ** One step of a run *)

Lemma is_applied_inv key s b s' :
  is_applied key s = (Ok b, s') → sql_db s' = sql_db s ∧ (b = true ↔ applied_in (sql_db s) key).
Proof.
  unfold is_applied. intros [(st & s1 & Hon & [= <- <-])|(e & _ & ?)]%q_bind_inv; [|done].
  apply on_internal_inv in Hon as (tables & tables' & Ht & [= <- <-] & ->). split.
  { destruct (sql_db s). simpl in *. by rewrite Ht. }
  rewrite bool_decide_eq_true. unfold applied_in. setoid_rewrite fmap_Some. split.
  - intros (entry & He & Hst). exists tables, entry. done.
  - intros (tables' & entry & Ht' & He & Hst). simplify_eq. by exists entry.
Qed.
Lemma is_applied_err key s e s' : is_applied key s = (Err e, s') → sql_db s' = sql_db s.
Proof.
  unfold is_applied. intros [(st & s1 & Hon & ?)|(e' & Hon & _)]%q_bind_inv; [done|].
  revert Hon. unfold on_internal, statement. destruct (sql_faults s _); [by intros [= _ <-]|].
  destruct (db_internal (sql_db s)); by intros [= _ <-].
Qed.

(** What the body of the loop does. *)
Inductive run_one_result m (dry_run : bool) db : result MigrationAuditRecord StorageError →
    Database O → Prop :=
  | one_applied record db' :
      dry_run = false → mar_status record = MsApplied → ¬ applied_in db (mig_migration_key m) →
      migrates m db db' → run_one_result m dry_run db (Ok record) db'
  | one_skipped record db' :
      mar_status record = MsSkipped → applied_in db (mig_migration_key m) → audit_only db db' →
      run_one_result m dry_run db (Ok record) db'
  | one_dry_run record :
      dry_run = true → mar_status record = MsDryRun → ¬ applied_in db (mig_migration_key m) →
      run_one_result m dry_run db (Ok record) db
  | one_failed e db' : audit_only db db' → run_one_result m dry_run db (Err e) db'
  | one_unheard e db' :
      (** applied, but the sink of the caller refused its record *)
      dry_run = false → ¬ applied_in db (mig_migration_key m) → migrates m db db' →
      run_one_result m dry_run db (Err e) db'.

Lemma run_one_inv m dry_run sink s r sink' s' :
  run_one m dry_run sink s = (r, sink', s') →
  run_one_result m dry_run (sql_db s) r (sql_db s').
Proof.
  unfold run_one. destruct (migration_validate m).
  2:{ intros [(x & sink1 & s1 & [Hau _]%audited_inv & [[= <- <-] _]%r_q_inv)
             |(e' & [Hau _]%audited_inv & ->)]%r_bind_inv; by apply one_failed. }
  intros [(b & sink1 & s1 & [Happ ->]%r_q_inv & Hrun)
         |(e & [Happ%is_applied_err ->]%r_q_inv & ->)]%r_bind_inv;
    [|by apply one_failed, audit_only_eq].
  apply is_applied_inv in Happ as [Hdb1 Happ]. rewrite <- Hdb1 in *. destruct b.
  { apply audited_inv in Hrun as [Hau Hrec]. destruct r as [record|e]; [|by apply one_failed].
    destruct (Hrec record eq_refl) as [w ->]. apply one_skipped; [done|by apply Happ|done]. }
  assert (¬ applied_in (sql_db s1) (mig_migration_key m)) as Hnot by (intros Ha%Happ; done).
  apply r_bind_inv in Hrun as [(outcome & sink2 & s2 & Htry & Hrun)|(e & Htry & ->)];
    apply r_q_inv in Htry as [Htry ->]; revert Htry; unfold q_try;
    destruct (apply_one m dry_run s1) as [res s2'] eqn:Hone; [|done].
  intros [= <- <-]. apply migration_atomic in Hone.
  destruct res as [record|e].
  - apply r_bind_inv in Hrun as [([] & sink3 & s3 & ->%r_sink_inv & Hrun)|(e & ->%r_sink_inv & ->)].
    + apply r_q_inv in Hrun as [Hrun ->]. injection Hrun as <- <-.
      destruct Hone as [(? & [= <-] & ? & ? & ?)|[-> Hd]]; [by apply one_applied|].
      destruct (Hd _ eq_refl) as [? ?]. by apply one_dry_run.
    + destruct Hone as [(? & [= <-] & ? & ? & ?)|[-> Hd]]; [by apply one_unheard|].
      by apply one_failed.
  - destruct Hone as [(? & ? & _)|[Hdb _]]; [done|].
    apply r_bind_inv in Hrun as [(x & sink1' & s1' & [Hau _]%audited_inv & Hrun)
                                |(e' & [Hau _]%audited_inv & ->)].
    + apply r_q_inv in Hrun as [Hrun ->]. injection Hrun as <- <-. apply one_failed.
      by rewrite <- Hdb.
    + apply one_failed. by rewrite <- Hdb.
Qed.

(* ------------------------------------------------------------------ *)
(** ** A run *)

(** A run as a relation on databases: each migration is applied, or is already there. *)
Inductive run_steps : list Migration → Database O → Database O → Prop :=
  | steps_nil db : run_steps [] db db
  | steps_apply m ms db db1 db2 :
      ¬ applied_in db (mig_migration_key m) → migrates m db db1 → run_steps ms db1 db2 →
      run_steps (m :: ms) db db2
  | steps_skip m ms db db1 db2 :
      applied_in db (mig_migration_key m) → audit_only db db1 → run_steps ms db1 db2 →
      run_steps (m :: ms) db db2.

Definition counted (report : MigrationRunReport) : Prop :=
  rep_failed report = 0 ∧ rep_dry_run report = 0 ∧
  rep_applied report + rep_skipped report = len (rep_audit_records report).

Lemma report_push_counted report record :
  counted report → mar_status record = MsApplied ∨ mar_status record = MsSkipped →
  counted (report_push report record) ∧
  len (rep_audit_records (report_push report record)) = len (rep_audit_records report) + 1.
Proof.
  unfold counted, report_push, len. intros (? & ? & ?) [-> | ->];
    cbn [rep_failed rep_dry_run rep_applied rep_skipped rep_audit_records];
    rewrite length_app; simpl; split_and!; lia.
Qed.

Lemma run_from_steps ms : ∀ report sink s r sink' s',
  counted report → run_from report ms false sink s = (r, sink', s') →
  match r with
  | Ok report' => run_steps ms (sql_db s) (sql_db s') ∧ counted report' ∧
      len (rep_audit_records report') = len (rep_audit_records report) + len ms
  | Err _ => ∃ done m rest db, ms = done ++ m :: rest ∧ run_steps done (sql_db s) db ∧
      (audit_only db (sql_db s') ∨ migrates m db (sql_db s'))
  end.
Proof.
  induction ms as [|m ms IH]; intros report sink s r sink' s' Hc.
  { intros [[= <- <-] _]%r_q_inv. split; [constructor|]. split; [done|]. rewrite len_nil. lia. }
  intros [(record & sink1 & s1 & Hone%run_one_inv & Hrun)|(e & Hone%run_one_inv & ->)]%r_bind_inv.
  - assert (counted (report_push report record) ∧
            len (rep_audit_records (report_push report record)) =
            len (rep_audit_records report) + 1 ∧
            ∀ ms' db, run_steps ms' (sql_db s1) db → run_steps (m :: ms') (sql_db s) db)
      as (Hc' & Hlen & Hsteps).
    { inversion Hone; subst; [| |done];
        (edestruct report_push_counted as [? ?]; [done|by eauto|split_and!; [done..|]]);
        intros ms' db Hms'; [by eapply steps_apply|by eapply steps_skip]. }
    apply IH in Hrun; [|done]. destruct r as [report'|e].
    + destruct Hrun as (Hs & ? & Hl). split; [by apply Hsteps|]. split; [done|].
      rewrite len_cons. lia.
    + destruct Hrun as (before & m' & rest & db & -> & Hs & Hlast).
      exists (m :: before), m', rest, db. split; [done|]. split; [by apply Hsteps|done].
  - exists [], m, ms, (sql_db s). split; [done|]. split; [constructor|].
    inversion Hone; subst; [by left|by right].
Qed.

(** C22. A run is a sequence of whole migrations that stops at the first failure. It succeeds
    exactly when every migration of the list has been applied or was already there, in
    order, and its report counts each one once. When it fails, some first part of the list
    has been applied or skipped, and of the next migration there is nothing but an audit --
    or all of it, when only the sink of the caller refused the news. *)
Theorem run_is_steps ms sink s r sink' s' :
  apply_all ms sink s = (r, sink', s') →
  match r with
  | Ok report => run_steps ms (sql_db s) (sql_db s') ∧ rep_failed report = 0 ∧
      rep_applied report + rep_skipped report = len ms ∧
      len (rep_audit_records report) = len ms
  | Err _ => ∃ done m rest db, ms = done ++ m :: rest ∧ run_steps done (sql_db s) db ∧
      (audit_only db (sql_db s') ∨ migrates m db (sql_db s'))
  end.
Proof.
  intros Hrun%run_from_steps; [|done]. destruct r as [report|]; [|done].
  destruct Hrun as (Hs & (? & ? & ?) & Hl).
  cbn [rep_audit_records empty_report] in Hl. rewrite len_nil in Hl. split_and!; [done..|lia|lia].
Qed.

(** A dry run, whatever comes of it, changes no table but the audit: not the records, not
    the tables of the migrations, not the list of what is applied. *)
Theorem dry_run_only_audits ms sink s r sink' s' :
  dry_run ms sink s = (r, sink', s') → audit_only (sql_db s) (sql_db s').
Proof.
  unfold dry_run, run. generalize empty_report. revert sink s r sink' s'.
  induction ms as [|m ms IH]; intros sink s r sink' s' report.
  { by intros [[= _ <-] _]%r_q_inv. }
  intros [(record & sink1 & s1 & Hone%run_one_inv & Hrun)|(e & Hone%run_one_inv & ->)]%r_bind_inv.
  - apply IH in Hrun. transitivity (sql_db s1); [|done].
    by inversion Hone.
  - by inversion Hone.
Qed.

(* ------------------------------------------------------------------ *)
(** ** What is applied stays applied *)

(** The [UNIQUE] of the column [migration_key]. *)
Definition unique_keys db : Prop :=
  ∀ tables, db_internal db = Some tables →
  ∀ id1 id2 row1 row2, in_migrations tables !! id1 = Some row1 →
    in_migrations tables !! id2 = Some row2 →
    mg_migration_key row1 = mg_migration_key row2 → id1 = id2.
(** The SQL of a migration does not write the tables of the runner. *)
Definition keeps_internal m : Prop :=
  ∀ db db', batches (texts m) db = Some db' → db_internal db' = db_internal db.

Lemma migration_row_some (migrations : gmap string MigrationRow) key e :
  migration_row migrations key = Some e →
  migrations !! e.1 = Some e.2 ∧ mg_migration_key e.2 = key.
Proof.
  intros [Hin Hk]%List.find_some. apply bool_decide_eq_true in Hk. split; [|done].
  apply elem_of_map_to_list. rewrite <- surjective_pairing. by apply list_elem_of_In.
Qed.
Lemma migration_row_none (migrations : gmap string MigrationRow) key id row :
  migration_row migrations key = None → migrations !! id = Some row →
  mg_migration_key row ≠ key.
Proof.
  intros Hn Hrow%elem_of_map_to_list%list_elem_of_In Hk.
  pose proof (List.find_none _ _ Hn _ Hrow) as Hf. simpl in Hf.
  by apply bool_decide_eq_false in Hf.
Qed.

Lemma applied_row db key :
  unique_keys db →
  applied_in db key ↔ ∃ tables id row, db_internal db = Some tables ∧
    in_migrations tables !! id = Some row ∧ mg_migration_key row = key ∧ mg_status row = "applied".
Proof.
  intros Hu. split.
  - intros (tables & e & Ht & [Hin Hk]%migration_row_some & Hst). by exists tables, e.1, e.2.
  - intros (tables & id & row & Ht & Hrow & Hk & Hst).
    destruct (migration_row (in_migrations tables) key) as [e|] eqn:He.
    + exists tables, e. split_and!; [done..|]. apply migration_row_some in He as [Hin Hk'].
      assert (e.1 = id) as Hid by (eapply Hu; [done..|congruence]). congruence.
    + by pose proof (migration_row_none _ _ _ _ He Hrow).
Qed.

Lemma migrates_unique m db db' :
  keeps_internal m → migrates m db db' → unique_keys db → unique_keys db'.
Proof.
  intros Hk Hm Hu. inversion Hm as [db1 tables row aid audit Hb Ht Hkey Hid Haid Hrk]; subst.
  rewrite (Hk _ _ Hb) in Ht. intros ? [= <-] id1 id2 row1 row2. simpl.
  rewrite !lookup_insert_Some. intros [[<- <-]|[? H1']] [[<- <-]|[? H2']] Heq; [done| | |].
  - destruct (migration_row_none _ _ _ _ Hkey H2'). congruence.
  - destruct (migration_row_none _ _ _ _ Hkey H1'). congruence.
  - by eapply Hu.
Qed.
Lemma migrates_applied m db db' :
  keeps_internal m → unique_keys db → migrates m db db' → applied_in db' (mig_migration_key m).
Proof.
  intros Hk Hu Hm. apply applied_row; [by eapply migrates_unique|].
  inversion Hm; subst. eexists _, _, _. split; [done|]. simpl.
  split; [apply lookup_insert_eq|done].
Qed.
Lemma migrates_keeps_applied m db db' key :
  keeps_internal m → unique_keys db → migrates m db db' → applied_in db key → applied_in db' key.
Proof.
  intros Hk Hu Hm Ha. apply applied_row; [by eapply migrates_unique|].
  apply applied_row in Ha as (tables & id & row & Ht & Hrow & Hrk & Hst); [|done].
  inversion Hm as [db1 tables' row' aid audit Hb Ht' Hkey Hid Haid Hrk']; subst.
  rewrite (Hk _ _ Hb) in Ht'. simplify_eq. eexists _, id, row. split; [done|]. simpl.
  rewrite lookup_insert_ne by congruence. done.
Qed.
Lemma audit_only_internal db db' :
  audit_only db db' → (unique_keys db → unique_keys db') ∧
  ∀ key, applied_in db key → applied_in db' key.
Proof.
  intros (_ & _ & Hi). unfold unique_keys, applied_in.
  destruct (db_internal db) as [t|], (db_internal db') as [t'|]; try done.
  destruct Hi as (_ & Hi & _). split.
  - intros Hu ? [= <-]. rewrite Hi. by apply Hu.
  - intros key (? & e & [= <-] & ?). exists t', e. by rewrite Hi.
Qed.

Lemma steps_all_applied ms db db' :
  run_steps ms db db' → Forall keeps_internal ms → unique_keys db →
  unique_keys db' ∧ (∀ key, applied_in db key → applied_in db' key) ∧
  ∀ m, m ∈ ms → applied_in db' (mig_migration_key m).
Proof.
  induction 1 as [db|m ms db db1 db2 _ Hm _ IH|m ms db db1 db2 Ha Hau _ IH];
    intros Hk Hu; [by split_and!; [..|intros ??%elem_of_nil]| |];
    apply Forall_cons in Hk as [Hm' Hk].
  - destruct IH as (Hu2 & Hkeep & Hall); [done|by eapply migrates_unique|].
    split; [done|]. split.
    + intros key Hkey. by apply Hkeep, (migrates_keeps_applied m db db1).
    + intros m' [->|Hin]%elem_of_cons; [by apply Hkeep, (migrates_applied m db db1)|by apply Hall].
  - apply audit_only_internal in Hau as [Hu1 Ha1].
    destruct IH as (Hu2 & Hkeep & Hall); [done|by apply Hu1|]. split; [done|]. split.
    + intros key Hkey. by apply Hkeep, Ha1.
    + intros m' [->|Hin]%elem_of_cons; [by apply Hkeep, Ha1|by apply Hall].
Qed.

Lemma run_from_applied ms : ∀ report dry sink s r sink' s',
  (∀ m, m ∈ ms → applied_in (sql_db s) (mig_migration_key m)) →
  run_from report ms dry sink s = (r, sink', s') →
  audit_only (sql_db s) (sql_db s') ∧
  ∀ report', r = Ok report' → rep_applied report' = rep_applied report.
Proof.
  induction ms as [|m ms IH]; intros report dry sink s r sink' s' Ha.
  { intros [[= <- <-] _]%r_q_inv. split; [done|]. by intros ? [= ->]. }
  assert (applied_in (sql_db s) (mig_migration_key m)) as Hm by (apply Ha; left).
  intros [(record & sink1 & s1 & Hone%run_one_inv & Hrun)|(e & Hone%run_one_inv & ->)]%r_bind_inv.
  - inversion Hone as [|? ? Hst _ Hau| | |]; subst; try done.
    apply IH in Hrun as [Hau' Hrep].
    + split; [by transitivity (sql_db s1)|]. intros report' Hr. rewrite (Hrep _ Hr).
      unfold report_push. by rewrite Hst.
    + intros m' Hm'. by apply (audit_only_internal _ _ Hau), Ha; right.
  - split; [|done]. by inversion Hone.
Qed.

(** Migrations are applied once. After a run that succeeded, another run of the same
    migrations on the database, even with another sink, other faults and another clock,
    applies none of them and changes no table but the audit. *)
Theorem second_run_applies_nothing ms sink s report sink1 s1 sink2 s2 r sink3 s3 :
  unique_keys (sql_db s) → Forall keeps_internal ms →
  apply_all ms sink s = (Ok report, sink1, s1) → sql_db s2 = sql_db s1 →
  apply_all ms sink2 s2 = (r, sink3, s3) →
  audit_only (sql_db s2) (sql_db s3) ∧ ∀ report', r = Ok report' → rep_applied report' = 0.
Proof.
  intros Hu Hk (Hs & _ & _)%run_from_steps Hdb Hrun; [|done].
  apply run_from_applied in Hrun; [done|]. intros m Hm. rewrite Hdb.
  by apply (steps_all_applied ms (sql_db s)).
Qed.
End facts.

(* ------------------------------------------------------------------ *)
(** ** Examples *)

Module MigrationSample.
Import StoreSample.

#[export] Instance sample_row_counts : RowCountText := {
  row_counts_to_text := λ _, Ok "[]"
}.
(** The other tables are a list of names: a batch is the name of a table it creates, which
    must not be there. *)
#[export] Instance name_engine : SqlEngine (list string) := {
  sql_error_text := λ e, match e with NoSuchTable t => t | UniqueFailed c => c end;
  sql_batch := λ sql db,
    if bool_decide (sql ∈ db_other db) then (db, Err "table exists")
    else (mkDatabase (db_records db) (db_internal db) (db_other db ++ [sql]), Ok tt);
  sql_has_table := λ db name, bool_decide (name ∈ db_other db);
  sql_count := λ _ _, Ok 0
}.

Definition create (n : N) (key : string) (tables : list string) : Migration :=
  mkMigration (mkId (mkUuid n)) key "create" (mkVersion 1 0 0)
    (mkStatement "create" <$> tables) operational_metadata (mkTimestamp 0) (mkTimestamp 0) [] [].
Definition create_a := create 1 "001" ["a"].
(** The second batch fails after the first has run. *)
Definition create_b_and_a := create 2 "002" ["b"; "a"].
Definition create_c := create 3 "003" ["c"].

Definition start : Sql (list string) :=
  mkSql counting_world (λ _, None) 0 (mkDatabase None (Some no_internal) []).
Definition silent : InMemoryMigrationAuditSink := mkMemorySink [].

Lemma keeps_create n key tables : keeps_internal (create n key tables).
Proof.
  unfold keeps_internal, texts. simpl. rewrite app_nil_r.
  induction tables as [|table tables IH]; intros db db'; [by intros [= ->]|]. simpl.
  destruct (bool_decide (table ∈ db_other db)); [done|]. intros Hdb. by rewrite (IH _ _ Hdb).
Qed.

Lemma migration_atomic_witness :
  ∃ e s1 s', apply_one create_a false start = (Ok e, s1) ∧ mar_status e = MsApplied ∧
    apply_one create_b_and_a false s1 = (Err (SeSqlite "table exists"), s') ∧
    sql_db s' = sql_db s1.
Proof.
  destruct (apply_one create_a false start) as [r s1] eqn:H1.
  pose proof H1 as H1'. apply migration_atomic in H1' as [(e & -> & _ & Hst & _)|[_ Hr]].
  - exists e, s1. destruct (apply_one create_b_and_a false s1) as [r2 s2] eqn:H2.
    pose proof H2 as H2'.
    assert (r2 = Err (SeSqlite "table exists")) as ->.
    { change r2 with (r2, s2).1. rewrite <- H2. replace s1 with (apply_one create_a false start).2
        by by rewrite H1. vm_compute. reflexivity. }
    apply migration_atomic in H2' as [(? & ? & _)|[Hdb _]]; [done|]. by exists s2.
  - assert (is_ok (apply_one create_a false start).1 = true) as Hok by (vm_compute; reflexivity).
    rewrite H1 in Hok. destruct r as [record|]; [|done]. by destruct (Hr _ eq_refl).
Defined.

Lemma dry_run_only_audits_witness :
  audit_only (sql_db start) (sql_db (dry_run [create_a; create_c] silent start).2).
Proof.
  destruct (dry_run [create_a; create_c] silent start) as [[r sink'] s'] eqn:Hrun.
  exact (dry_run_only_audits _ _ _ _ _ _ Hrun).
Defined.

Definition first_run := apply_all [create_a; create_c] silent start.
Lemma first_run_ok : is_ok first_run.1.1 = true.
Proof. vm_compute. reflexivity. Qed.
Lemma start_unique : unique_keys (sql_db start).
Proof. intros ? [= <-] ???? Hrow _ _. simpl in Hrow. by rewrite lookup_empty in Hrow. Qed.

Lemma run_is_steps_witness :
  run_steps [create_a; create_c] (sql_db start) (sql_db first_run.2) ∧
  ∃ report, first_run.1.1 = Ok report ∧ rep_failed report = 0 ∧
    rep_applied report + rep_skipped report = 2.
Proof.
  pose proof first_run_ok as Hok. destruct first_run as [[r sink'] s'] eqn:Hrun.
  destruct r as [report|]; [|done]. simpl.
  destruct (run_is_steps _ _ _ _ _ _ Hrun) as (Hs & Hf & Hn & _). split; [exact Hs|].
  exists report. split_and!; [done|exact Hf|exact Hn].
Defined.

Lemma second_run_applies_nothing_witness :
  audit_only (sql_db first_run.2) (sql_db (apply_all [create_a; create_c] silent first_run.2).2).
Proof.
  pose proof first_run_ok as Hok. destruct first_run as [[r sink1] s1] eqn:Hrun.
  destruct r as [report|]; [|done]. simpl.
  destruct (apply_all [create_a; create_c] silent s1) as [[r sink3] s3] eqn:Hrun2. simpl.
  apply (second_run_applies_nothing [create_a; create_c] silent start report sink1 s1 silent s1
    r sink3 s3 start_unique); [|exact Hrun|reflexivity|exact Hrun2].
  repeat constructor; apply keeps_create.
Defined.

End MigrationSample.
