(* ===== verification/Manifest.v ===== *)
(** * Plugin and capability manifests ([contracts/src/plugin])

    What a plugin declares about itself: contracts, dependencies, permissions,
    health and metric schemas, actions and user-interface contributions, with
    the checks of their constructors and [PluginManifest::validate]. *)

From S2P Require Import Prelude Collections RustStr Effects Contracts Query.

#[local] Open Scope string_scope.
#[local] Open Scope N_scope.

(* ------------------------------------------------------------------ *)
(** ** Enumerations *)

(* [plugin/mod.rs] PluginType *)
Inductive PluginType :=
  | PTSource | PTTransform | PTProtocol | PTEnrichment | PTDetection
  | PTPlatformDetection | PTGraph | PTResponse | PTReport | PTUtility.
#[export] Instance PluginType_eq_dec : EqDecision PluginType.
Proof. solve_decision. Defined.

(* [plugin/mod.rs] RuntimeMode *)
Inductive RuntimeMode := Streaming | Batch | Periodic | OnDemand | Replay | Hybrid.
#[export] Instance RuntimeMode_eq_dec : EqDecision RuntimeMode.
Proof. solve_decision. Defined.

(* [plugin/mod.rs] MaturityLevel *)
Inductive MaturityLevel :=
  | L1Observable | L2Detectable | L3Modeling | L4Reasoning | Experimental | Stable.
#[export] Instance MaturityLevel_eq_dec : EqDecision MaturityLevel.
Proof. solve_decision. Defined.

(* [plugin/mod.rs] PluginStatefulness *)
Inductive PluginStatefulness :=
  | Stateless | MemoryState | PersistentState | Checkpointed | Cached | Baseline | ModelState.

(* [plugin/mod.rs] SupportLevel *)
Inductive SupportLevel := SupportNone | SupportOptional | SupportRequired.

(* ------------------------------------------------------------------ *)
(** ** Errors *)

(* [plugin/mod.rs] ManifestValidationError *)
Inductive ManifestValidationError :=
  | EmptyField (field : string)
  | InvalidPermission (value : string)
  | MissingContractDeclarations
  | UnsupportedRendererType (value : string).

(* [plugin/mod.rs] Display for ManifestValidationError::fmt *)
Definition manifest_error_to_string (e : ManifestValidationError) : string :=
  match e with
  | EmptyField field => field ++ " must not be empty"
  | InvalidPermission value => "permission must be a namespaced identifier: " ++ value
  | MissingContractDeclarations =>
      "manifest must declare at least one input or output contract"
  | UnsupportedRendererType value => "unsupported renderer type: " ++ value
  end%string.

(* [plugin/mod.rs] require_non_empty *)
Definition require_non_empty (field value : string) : result string ManifestValidationError :=
  if blank value then Err (EmptyField field) else Ok value.

(* ------------------------------------------------------------------ *)
(** ** Version ranges and contracts *)

(* [plugin/mod.rs] VersionRange *)
Record VersionRange := mkVersionRange {
  vr_min : option string;
  vr_max : option string;
  vr_exact : option string
}.
#[export] Instance VersionRange_eq_dec : EqDecision VersionRange.
Proof. solve_decision. Defined.

(* [plugin/mod.rs] VersionRange::any *)
Definition VersionRange_any : VersionRange := mkVersionRange None None None.
(* [plugin/mod.rs] VersionRange::exact *)
Definition VersionRange_exact (version : string) : result VersionRange ManifestValidationError :=
  let? version := require_non_empty "version" version in
  Ok (mkVersionRange None None (Some version)).

(* [plugin/mod.rs] ContractCompatibilityRequirement *)
Inductive ContractCompatibilityRequirement :=
  | ReqStrict | ReqBackwardCompatible | ReqMigrationRequired.
#[export] Instance ContractCompatibilityRequirement_eq_dec :
  EqDecision ContractCompatibilityRequirement.
Proof. solve_decision. Defined.

(* [plugin/mod.rs] ContractDescriptor *)
Record ContractDescriptor := mkContract {
  contract_id : ContractId;
  contract_name : string;
  contract_schema_version : SchemaVersion;
  contract_topic : option string;
  contract_required : bool;
  contract_compatibility : ContractCompatibilityRequirement
}.
#[export] Instance ContractDescriptor_eq_dec : EqDecision ContractDescriptor.
Proof. solve_decision. Defined.

(* [plugin/mod.rs] ContractDescriptor::new *)
Definition ContractDescriptor_new (name : string) (version : SchemaVersion)
    : ST (result ContractDescriptor ManifestValidationError) :=
  let$ id := new_v4 in
  st_ret (
    let? name := require_non_empty "contract_name" name in
    Ok (mkContract id name version None true ReqBackwardCompatible)).

(* ------------------------------------------------------------------ *)
(** ** Dependencies *)

(* [plugin/mod.rs] PluginDependencyType *)
Inductive PluginDependencyType :=
  | RequiredPlugin | OptionalPlugin | RequiredCapability | OptionalCapability
  | RequiredContract | RequiredInfrastructure | RequiredEngine | Conflict.
#[export] Instance PluginDependencyType_eq_dec : EqDecision PluginDependencyType.
Proof. solve_decision. Defined.

(* [plugin/mod.rs] PluginDependency *)
Record PluginDependency := mkDependency {
  dep_type : PluginDependencyType;
  dep_plugin_id : option PluginId;
  dep_capability_id : option CapabilityId;
  dep_contract : option ContractDescriptor;
  dep_name : option string;
  dep_version_requirement : VersionRange;
  dep_startup_order : option N;
  dep_reason : option string
}.
#[export] Instance PluginDependency_eq_dec : EqDecision PluginDependency.
Proof. solve_decision. Defined.

(* ------------------------------------------------------------------ *)
(** ** Permissions *)

(* [plugin/mod.rs] PermissionKey *)
Record PermissionKey := mkPermissionKey { permission_str : string }.
#[export] Instance PermissionKey_eq_dec : EqDecision PermissionKey.
Proof. solve_decision. Defined.
#[export] Instance PermissionKey_countable : Countable PermissionKey.
Proof. by apply (inj_countable' permission_str mkPermissionKey); intros []. Defined.

(* [plugin/mod.rs] is_permission_char *)
Definition is_permission_char (c : ascii) : bool :=
  is_ascii_lowercase c || is_ascii_digit c || bool_decide (c = "_"%char)
  || bool_decide (c = "-"%char).

(* [plugin/mod.rs] PermissionKey::new *)
Definition PermissionKey_new (value : string) : result PermissionKey ManifestValidationError :=
  let? value := require_non_empty "permission" value in
  let valid :=
    forallb (λ part, negb (bool_decide (part = "")) && all_chars is_permission_char part)
      (split is_dot value) in
  if negb (contains value ".") || negb valid then Err (InvalidPermission value)
  else Ok (mkPermissionKey value).

(* [plugin/mod.rs] PermissionCategory *)
Inductive PermissionCategory :=
  | DataAccess | SystemAccess | ResponseAccess | ExportAccess | DesktopAccess | PolicyAccess.
#[export] Instance PermissionCategory_eq_dec : EqDecision PermissionCategory.
Proof. solve_decision. Defined.

(* [plugin/mod.rs] PermissionRiskLevel *)
Inductive PermissionRiskLevel := RiskLow | RiskMedium | RiskHigh | RiskCritical.
#[export] Instance PermissionRiskLevel_eq_dec : EqDecision PermissionRiskLevel.
Proof. solve_decision. Defined.

(* [plugin/mod.rs] PermissionDescriptor *)
Record PermissionDescriptor := mkPermission {
  permission : PermissionKey;
  permission_category : PermissionCategory;
  permission_risk_level : PermissionRiskLevel;
  permission_description : string;
  permission_required : bool;
  permission_scopes : list string
}.
#[export] Instance PermissionDescriptor_eq_dec : EqDecision PermissionDescriptor.
Proof. solve_decision. Defined.

(* [plugin/mod.rs] PermissionDescriptor::new *)
Definition PermissionDescriptor_new (permission : PermissionKey) (category : PermissionCategory)
    (risk : PermissionRiskLevel) (description : string)
    : result PermissionDescriptor ManifestValidationError :=
  let? description := require_non_empty "permission description" description in
  Ok (mkPermission permission category risk description true []).

(* [plugin/mod.rs] PermissionDescriptor::is_high_risk *)
Definition is_high_risk (p : PermissionDescriptor) : bool :=
  match permission_risk_level p with RiskHigh | RiskCritical => true | _ => false end.

(* ------------------------------------------------------------------ *)
(** ** Health and metrics *)

(* [plugin/mod.rs] HealthSignalDescriptor *)
Record HealthSignalDescriptor := mkSignal {
  signal_name : string;
  signal_description : option string;
  signal_unit : option string;
  signal_critical : bool
}.
(* [plugin/mod.rs] HealthSignalDescriptor::new *)
Definition HealthSignalDescriptor_new (name : string) : HealthSignalDescriptor :=
  mkSignal name None None false.

(* [plugin/mod.rs] HealthSchema *)
Record HealthSchema := mkHealthSchema {
  liveness : HealthSignalDescriptor;
  readiness : HealthSignalDescriptor;
  dependency_health : list HealthSignalDescriptor;
  data_freshness : option HealthSignalDescriptor;
  processing_latency : option HealthSignalDescriptor;
  error_rate : option HealthSignalDescriptor;
  queue_lag : option HealthSignalDescriptor
}.
(* [plugin/mod.rs] Default for HealthSchema::default *)
Definition HealthSchema_default : HealthSchema :=
  mkHealthSchema (HealthSignalDescriptor_new "liveness") (HealthSignalDescriptor_new "readiness")
    [] None None None None.

(* [plugin/mod.rs] MetricKind *)
Inductive MetricKind := Counter | Gauge | Histogram | Distribution.
#[export] Instance MetricKind_eq_dec : EqDecision MetricKind.
Proof. solve_decision. Defined.

(* [plugin/mod.rs] MetricSchema *)
Record MetricSchema := mkMetricSchema {
  metric_schema_name : string;
  metric_kind : MetricKind;
  metric_unit : option string;
  metric_description : string;
  metric_labels : list string;
  metric_schema_privacy : PrivacyClass
}.
(* [plugin/mod.rs] MetricSchema::new *)
Definition MetricSchema_new (name : string) (kind : MetricKind) (description : string)
    : result MetricSchema ManifestValidationError :=
  let? name := require_non_empty "metric_name" name in
  let? description := require_non_empty "metric description" description in
  Ok (mkMetricSchema name kind None description [] Privacy.Internal).

(* ------------------------------------------------------------------ *)
(** ** Actions *)

(* [plugin/mod.rs] ActionKind *)
Inductive ActionKind :=
  | ActionRead | MutationRequest | ResponseRecommendation | SettingsUpdate | ExportRequest.
#[export] Instance ActionKind_eq_dec : EqDecision ActionKind.
Proof. solve_decision. Defined.

(* [plugin/mod.rs] ActionDescriptor *)
Record ActionDescriptor `{Externals} := mkAction {
  action_id : Id KActionDescriptorId;
  action_key : string;
  action_title : string;
  action_description : string;
  action_kind : ActionKind;
  action_required_permissions : list PermissionDescriptor;
  confirmation_required : bool;
  high_impact : bool;
  input_schema : option json_value;
  output_contract : option ContractDescriptor
}.
(* [plugin/mod.rs] ActionDescriptor::new *)
Definition ActionDescriptor_new `{Externals} (key title description : string) (kind : ActionKind)
    : ST (result ActionDescriptor ManifestValidationError) :=
  let$ id := new_v4 in
  st_ret (
    let? key := require_non_empty "action_key" key in
    let? title := require_non_empty "action title" title in
    let? description := require_non_empty "action description" description in
    Ok (mkAction _ id key title description kind [] false false None None)).

(* ------------------------------------------------------------------ *)
(** ** User-interface contributions *)

(* [plugin/mod.rs] UiContributionSlot *)
Inductive UiContributionSlot :=
  | OverviewRiskMap | ComponentCenterCard | ComponentCenterDetailPanel
  | CapabilityAnalysisPanel | InvestigationEvidencePanel | SlotGraphProjection
  | NetworkPanel | ResponseActionPanel | SlotReportSection | SettingsPluginConfig.
#[export] Instance UiContributionSlot_eq_dec : EqDecision UiContributionSlot.
Proof. solve_decision. Defined.

(* [plugin/mod.rs] RendererType *)
Inductive RendererType :=
  | HealthBadge | MetricCard | KeyValuePanel | Table | Timeline | EvidenceList
  | RiskBreakdown | GraphProjection | DependencyGraph | PipelineGraph
  | ResponseActionCard | SettingsForm | ReportSection
  | UnsupportedRenderer (value : string).
#[export] Instance RendererType_eq_dec : EqDecision RendererType.
Proof. solve_decision. Defined.

(** The names [parse] and [as_str] translate. *)
(* [plugin/mod.rs] RendererType::parse *)
Definition renderer_names : list (string * RendererType) :=
  [("health_badge", HealthBadge); ("metric_card", MetricCard);
   ("key_value_panel", KeyValuePanel); ("table", Table); ("timeline", Timeline);
   ("evidence_list", EvidenceList); ("risk_breakdown", RiskBreakdown);
   ("graph_projection", GraphProjection); ("dependency_graph", DependencyGraph);
   ("pipeline_graph", PipelineGraph); ("response_action_card", ResponseActionCard);
   ("settings_form", SettingsForm); ("report_section", ReportSection)].

(* [plugin/mod.rs] RendererType::parse *)
Definition RendererType_parse (value : string) : RendererType :=
  match find (λ p, bool_decide (p.1 = value)) renderer_names with
  | Some (_, r) => r
  | None => UnsupportedRenderer value
  end.

(* [plugin/mod.rs] RendererType::as_str *)
Definition RendererType_as_str (r : RendererType) : string :=
  match r with
  | HealthBadge => "health_badge"
  | MetricCard => "metric_card"
  | KeyValuePanel => "key_value_panel"
  | Table => "table"
  | Timeline => "timeline"
  | EvidenceList => "evidence_list"
  | RiskBreakdown => "risk_breakdown"
  | GraphProjection => "graph_projection"
  | DependencyGraph => "dependency_graph"
  | PipelineGraph => "pipeline_graph"
  | ResponseActionCard => "response_action_card"
  | SettingsForm => "settings_form"
  | ReportSection => "report_section"
  | UnsupportedRenderer value => value
  end.

(* [plugin/mod.rs] RendererType::is_supported *)
Definition is_supported (r : RendererType) : bool :=
  match r with UnsupportedRenderer _ => false | _ => true end.

(* [plugin/mod.rs] FallbackRendererType *)
Inductive FallbackRendererType :=
  | GenericKeyValue | GenericTable | GenericFinding | GenericEvidence | GenericGraphNode
  | GenericMetricList | UnsupportedContribution.

(* [plugin/mod.rs] RendererType::fallback_renderer *)
Definition fallback_renderer (r : RendererType) : FallbackRendererType :=
  match r with
  | HealthBadge | MetricCard => GenericMetricList
  | Table => GenericTable
  | EvidenceList => GenericEvidence
  | GraphProjection | DependencyGraph | PipelineGraph => GenericGraphNode
  | UnsupportedRenderer _ => UnsupportedContribution
  | _ => GenericKeyValue
  end.

(* [plugin/mod.rs] DataSourceKind *)
Inductive DataSourceKind :=
  | CoreQuery | CoreEventStream | LogicalStoreView | StaticManifestData | CapabilityView
  | PluginCatalog.

(* [plugin/mod.rs] DataSourceDescriptor *)
Record DataSourceDescriptor `{Externals} := mkDataSource {
  data_source_id : Id KDataSourceId;
  data_source_kind : DataSourceKind;
  data_source_contract : option ContractDescriptor;
  query_scope : option QueryScope;
  data_source_topic : option string;
  data_source_page : option PageRequest;
  parameters_schema : option json_value
}.
(* [plugin/mod.rs] DataSourceDescriptor::new *)
Definition DataSourceDescriptor_new `{Externals} (kind : DataSourceKind) : ST DataSourceDescriptor :=
  let$ id := new_v4 in
  st_ret (mkDataSource _ id kind None None None None None).

(* [plugin/mod.rs] RefreshMode *)
Inductive RefreshMode := RefreshManual | RefreshPolling | RefreshEventDriven | RefreshOnDemand.

(* [plugin/mod.rs] UiContribution *)
Record UiContribution `{Externals} := mkContribution {
  contribution_id : UiContributionId;
  contribution_plugin_id : PluginId;
  contribution_slot : UiContributionSlot;
  renderer_type : RendererType;
  contribution_title : string;
  data_source : DataSourceDescriptor;
  contribution_schema : json_value;
  default_filters : list FilterSpec;
  refresh_mode : RefreshMode;
  contribution_permissions : list PermissionDescriptor
}.
(* [plugin/mod.rs] UiContribution::new *)
Definition UiContribution_new `{Externals} (plugin : PluginId) (slot : UiContributionSlot)
    (renderer : RendererType) (title : string) (source : DataSourceDescriptor)
    : ST (result UiContribution ManifestValidationError) :=
  let$ id := new_v4 in
  st_ret (
    let? title := require_non_empty "contribution title" title in
    Ok (mkContribution _ id plugin slot renderer title source json_empty_object []
          RefreshOnDemand [])).

(* [plugin/mod.rs] UiContribution::validate *)
Definition UiContribution_validate `{Externals} (c : UiContribution)
    : result unit ManifestValidationError :=
  if negb (is_supported (renderer_type c))
  then Err (UnsupportedRendererType (RendererType_as_str (renderer_type c)))
  else
    let? _ := require_non_empty "contribution title" (contribution_title c) in
    Ok tt.

(* ------------------------------------------------------------------ *)
(** ** Capability manifests *)

(* [plugin/mod.rs] CapabilityManifest *)
Record CapabilityManifest `{Externals} := mkCapabilityManifest {
  capability_id : CapabilityId;
  capability_domain : string;
  capability_title : string;
  capability_description : string;
  capability_maturity : MaturityLevel;
  capability_plugin_ids : list PluginId;
  capability_input_contracts : list ContractDescriptor;
  capability_output_contracts : list ContractDescriptor;
  capability_required_permissions : list PermissionDescriptor;
  capability_ui_contributions : list UiContribution
}.
(* [plugin/mod.rs] CapabilityManifest::new *)
Definition CapabilityManifest_new `{Externals} (domain title description : string)
    : ST (result CapabilityManifest ManifestValidationError) :=
  let$ id := new_v4 in
  st_ret (
    let? domain := require_non_empty "capability_domain" domain in
    let? title := require_non_empty "capability title" title in
    let? description := require_non_empty "capability description" description in
    Ok (mkCapabilityManifest _ id domain title description L1Observable [] [] [] [] [])).

(* ------------------------------------------------------------------ *)
(** ** Plugin manifests *)

(* [plugin/mod.rs] PluginManifest *)
Record PluginManifest `{Externals} := mkPluginManifest {
  plugin_id : PluginId;
  plugin_name : string;
  plugin_type : PluginType;
  plugin_capability_domain : string;
  plugin_description : string;
  plugin_version : string;
  contract_version_range : VersionRange;
  platform_version_range : VersionRange;
  plugin_capability_tags : list string;
  plugin_maturity : MaturityLevel;
  plugin_runtime_mode : RuntimeMode;
  enabled_by_default : bool;
  input_contracts : list ContractDescriptor;
  output_contracts : list ContractDescriptor;
  dependencies : list PluginDependency;
  required_permissions : list PermissionDescriptor;
  required_capabilities : list CapabilityId;
  optional_capabilities : list CapabilityId;
  metrics_schema : list MetricSchema;
  health_schema : HealthSchema;
  finding_types : list string;
  graph_hint_types : list string;
  actions : list ActionDescriptor;
  ui_contributions : list UiContribution;
  statefulness : PluginStatefulness;
  checkpoint_support : SupportLevel;
  replay_support : SupportLevel
}.

(* [plugin/mod.rs] PluginManifest::new *)
Definition PluginManifest_new `{Externals} (id : PluginId) (name version domain : string)
    (ty : PluginType) (mode : RuntimeMode) : result PluginManifest ManifestValidationError :=
  let? name := require_non_empty "plugin_name" name in
  let? domain := require_non_empty "capability_domain" domain in
  let? version := require_non_empty "version" version in
  Ok {|
    plugin_id := id;
    plugin_name := name;
    plugin_type := ty;
    plugin_capability_domain := domain;
    plugin_description := "";
    plugin_version := version;
    contract_version_range := VersionRange_any;
    platform_version_range := VersionRange_any;
    plugin_capability_tags := [];
    plugin_maturity := L1Observable;
    plugin_runtime_mode := mode;
    enabled_by_default := false;
    input_contracts := [];
    output_contracts := [];
    dependencies := [];
    required_permissions := [];
    required_capabilities := [];
    optional_capabilities := [];
    metrics_schema := [];
    health_schema := HealthSchema_default;
    finding_types := [];
    graph_hint_types := [];
    actions := [];
    ui_contributions := [];
    statefulness := Stateless;
    checkpoint_support := SupportNone;
    replay_support := SupportNone
  |}.

(* [plugin/mod.rs] PluginManifest::validate *)
Definition PluginManifest_validate `{Externals} (m : PluginManifest)
    : result unit ManifestValidationError :=
  let? _ := require_non_empty "plugin_name" (plugin_name m) in
  let? _ := require_non_empty "version" (plugin_version m) in
  let? _ := require_non_empty "capability_domain" (plugin_capability_domain m) in
  if bool_decide (input_contracts m = []) && bool_decide (output_contracts m = [])
  then Err MissingContractDeclarations
  else for_each UiContribution_validate (ui_contributions m).

(* ------------------------------------------------------------------ *)
(** ** Lemmas *)

Lemma require_non_empty_ok field value v :
  require_non_empty field value = Ok v ↔ blank value = false ∧ v = value.
Proof. unfold require_non_empty. destruct (blank value); naive_solver. Qed.

Section manifest.
Context `{Externals}.

Definition contribution_ok (c : UiContribution) : Prop :=
  is_supported (renderer_type c) = true ∧ blank (contribution_title c) = false.

Lemma UiContribution_validate_ok c : UiContribution_validate c = Ok tt ↔ contribution_ok c.
Proof.
  unfold UiContribution_validate, contribution_ok.
  destruct (is_supported _); simpl; [|naive_solver].
  rewrite res_bind_ok. setoid_rewrite require_non_empty_ok. naive_solver.
Qed.

(** What [PluginManifest::validate] accepts. *)
Definition manifest_ok (m : PluginManifest) : Prop :=
  blank (plugin_name m) = false ∧ blank (plugin_version m) = false ∧
  blank (plugin_capability_domain m) = false ∧
  (input_contracts m ≠ [] ∨ output_contracts m ≠ []) ∧
  Forall contribution_ok (ui_contributions m).

Lemma PluginManifest_validate_ok m : PluginManifest_validate m = Ok tt ↔ manifest_ok m.
Proof.
  unfold PluginManifest_validate, manifest_ok.
  rewrite !res_bind_ok. setoid_rewrite require_non_empty_ok.
  setoid_rewrite res_bind_ok. setoid_rewrite require_non_empty_ok.
  setoid_rewrite res_bind_ok. setoid_rewrite require_non_empty_ok.
  rewrite <- (Forall_iff _ _ _ UiContribution_validate_ok), <- for_each_ok.
  destruct (bool_decide_reflect (input_contracts m = [])), 
    (bool_decide_reflect (output_contracts m = [])); simpl; naive_solver.
Qed.

End manifest.
