(* ===== verification/Component.v ===== *)
(** * Components and their life cycle ([platform/src/component])

    Component definitions with their bindings, component instances, and the
    life-cycle state machine: which transitions are direct, what a transition's
    context must provide, and how an instance records them. *)

From S2P Require Import Prelude Collections RustStr Effects Contracts Manifest.

#[local] Open Scope string_scope.
#[local] Open Scope list_scope.
#[local] Open Scope N_scope.

(* ------------------------------------------------------------------ *)
(** ** States *)

(* [component/mod.rs] ComponentType *)
Inductive ComponentType :=
  | PlatformKernel | Plugin | Capability | ServiceAdapter | Store | InfrastructureAdapter
  | PermissionResolver | DependencyResolver | ContractResolver | HealthReporter
  | MetricsReporter | Visualization | Settings | OtherComponent (s : string).
#[export] Instance ComponentType_eq_dec : EqDecision ComponentType.
Proof. solve_decision. Defined.

(* [component/mod.rs] ComponentState *)
Inductive ComponentState :=
  | Unknown | Discovered | Validated | Registered | Initialized | Enabled | Starting
  | Running | Degraded | Paused | Stopping | Stopped | Disabled | Failed | Incompatible
  | Upgrading | RollingBack.
#[export] Instance ComponentState_eq_dec : EqDecision ComponentState.
Proof. solve_decision. Defined.

(** [{:?}], used in reasons. *)
(* [component/mod.rs] ComponentState *)
Definition state_debug (s : ComponentState) : string :=
  match s with
  | Unknown => "Unknown" | Discovered => "Discovered" | Validated => "Validated"
  | Registered => "Registered" | Initialized => "Initialized" | Enabled => "Enabled"
  | Starting => "Starting" | Running => "Running" | Degraded => "Degraded"
  | Paused => "Paused" | Stopping => "Stopping" | Stopped => "Stopped"
  | Disabled => "Disabled" | Failed => "Failed" | Incompatible => "Incompatible"
  | Upgrading => "Upgrading" | RollingBack => "RollingBack"
  end.

(* [component/mod.rs] ComponentState::allows_direct_transition_to *)
Definition allows_direct_transition_to (self target : ComponentState) : bool :=
  match self, target with
  | Unknown, Discovered => true
  | Discovered, (Validated | Incompatible | Disabled | Failed) => true
  | Validated, (Registered | Incompatible | Disabled | Failed) => true
  | Registered, (Initialized | Disabled | Failed) => true
  | Initialized, (Enabled | Disabled | Failed) => true
  | Enabled, (Starting | Disabled | Failed) => true
  | Starting, (Running | Degraded | Stopped | Failed) => true
  | Running, (Degraded | Paused | Stopping | Upgrading | Disabled | Failed) => true
  | Degraded, (Running | Paused | Stopping | Disabled | Failed) => true
  | Paused, (Running | Stopping | Stopped | Disabled | Failed) => true
  | Stopping, (Stopped | Failed) => true
  | Stopped, (Starting | Disabled | Failed) => true
  | Disabled, (Enabled | Discovered | Failed) => true
  | Failed, (Starting | Disabled | Discovered) => true
  | Incompatible, (Disabled | Discovered | Validated | Failed) => true
  | Upgrading, (Running | RollingBack | Failed) => true
  | RollingBack, (Running | Disabled | Failed) => true
  | current, next => bool_decide (current = next)
  end.

(* [component/mod.rs] ComponentState::is_operational *)
Definition is_operational (s : ComponentState) : bool :=
  match s with Running | Degraded => true | _ => false end.

(* [component/mod.rs] ComponentState::is_failure *)
Definition is_failure (s : ComponentState) : bool :=
  match s with Failed | Incompatible => true | _ => false end.

(* [component/mod.rs] HealthStatus *)
Inductive HealthStatus := Healthy | HDegraded | HFailed | HUnknown.
#[export] Instance HealthStatus_eq_dec : EqDecision HealthStatus.
Proof. solve_decision. Defined.

(* ------------------------------------------------------------------ *)
(** ** Definitions of components *)

(* [component/mod.rs] ComponentLifecycleError *)
Inductive ComponentLifecycleError :=
  | InvalidDefinition (field : string)
  | InvalidTransition (from to : ComponentState) (reasons : list string).

(* [component/mod.rs] Display for ComponentLifecycleError::fmt *)
Definition lifecycle_error_to_string (e : ComponentLifecycleError) : string :=
  match e with
  | InvalidDefinition field => "invalid component definition field: " ++ field
  | InvalidTransition from to reasons =>
      "invalid component transition from " ++ state_debug from ++ " to " ++ state_debug to
      ++ ": " ++ join "; " reasons
  end%string.

(* [component/mod.rs] require_non_empty *)
Definition require_non_empty (field value : string) : result string ComponentLifecycleError :=
  if blank value then Err (InvalidDefinition field) else Ok value.

(* [component/mod.rs] ComponentMetadata *)
Record ComponentMetadata := mkMetadata {
  name : string;
  version : string;
  meta_schema_version : SchemaVersion;
  owner : option string;
  description : option string;
  capability_tags : list string;
  runtime_mode : RuntimeMode;
  maturity_level : option MaturityLevel;
  meta_privacy_class : PrivacyClass;
  contract_refs : list ContractId;
  permission_refs : list PermissionKey;
  dependency_refs : list string;
  metric_refs : list string;
  health_refs : list string;
  visualization_refs : list UiContributionId
}.

(* [component/mod.rs] ComponentMetadata::new *)
Definition ComponentMetadata_new (nm ver : string) (mode : RuntimeMode)
    : result ComponentMetadata ComponentLifecycleError :=
  let? nm := require_non_empty "component name" nm in
  let? ver := require_non_empty "component version" ver in
  Ok (mkMetadata nm ver (mkVersion 1 0 0) None None [] mode None Privacy.Internal
        [] [] [] [] [] []).

(* [component/mod.rs] CapabilityBinding *)
Record CapabilityBinding := mkCapabilityBinding {
  cb_capability_id : CapabilityId;
  cb_capability_name : string;
  cb_required : bool;
  cb_contract_refs : list ContractId;
  cb_binding_reason : option string
}.

(* [component/mod.rs] ContractBinding *)
Record ContractBinding := mkContractBinding {
  bound_contract : ContractDescriptor;
  bound_contract_required : bool;
  compatibility_reason : option string
}.

(* [component/mod.rs] DependencyBinding *)
Record DependencyBinding := mkDependencyBinding {
  db_type : PluginDependencyType;
  db_component_id : option ComponentId;
  db_plugin_id : option PluginId;
  db_capability_id : option CapabilityId;
  db_name : option string;
  db_version_requirement : VersionRange;
  db_required : bool;
  db_resolved : bool;
  db_resolution_reason : option string;
  db_incompatibility_reason : option string
}.

(* [component/mod.rs] PermissionBinding *)
Record PermissionBinding := mkPermissionBinding {
  bound_permission : PermissionDescriptor;
  bound_permission_required : bool;
  granted : bool;
  grant_reason : option string;
  denial_reason : option string
}.

(* [component/mod.rs] HealthReference *)
Record HealthReference := mkHealthReference {
  ref_status : HealthStatus;
  ref_schema : option HealthSchema;
  liveness_ref : option string;
  readiness_ref : option string;
  degraded_reasons : list string;
  failure_reasons : list string;
  last_reported_at : option Timestamp
}.
(* [component/mod.rs] Default for HealthReference::default *)
Definition HealthReference_default : HealthReference :=
  mkHealthReference HUnknown None None None [] [] None.

(* [component/mod.rs] MetricReference *)
Record MetricReference := mkMetricReference {
  ref_metric_name : string;
  ref_metric_schema : option MetricSchema;
  ref_source : option string;
  ref_privacy_class : PrivacyClass
}.

(* [component/mod.rs] VisualizationBinding *)
Record VisualizationBinding := mkVisualization {
  vis_contribution_id : option UiContributionId;
  vis_slot : option UiContributionSlot;
  vis_renderer_type : RendererType;
  vis_title : string;
  vis_description : option string;
  vis_fallback_allowed : bool
}.
(* [component/mod.rs] VisualizationBinding::fallback_allowed *)
Definition visualization_fallback (r : RendererType) (title : string) : VisualizationBinding :=
  mkVisualization None None r title None true.

(* [component/mod.rs] ComponentDefinition *)
Record ComponentDefinition := mkDefinition {
  component_id : ComponentId;
  component_type : ComponentType;
  metadata : ComponentMetadata;
  capability_bindings : list CapabilityBinding;
  contract_bindings : list ContractBinding;
  dependency_bindings : list DependencyBinding;
  permission_bindings : list PermissionBinding;
  health_reference : HealthReference;
  metric_references : list MetricReference;
  visualization_bindings : list VisualizationBinding;
  def_compatibility_reasons : list string;
  created_at : Timestamp;
  def_updated_at : Timestamp
}.

(* [component/mod.rs] ComponentDefinition::new *)
Definition ComponentDefinition_new (ty : ComponentType) (nm ver : string) (mode : RuntimeMode)
    : ST (result ComponentDefinition ComponentLifecycleError) :=
  let$ t := now in
  let$ id := new_v4 in
  st_ret (
    let? meta := ComponentMetadata_new nm ver mode in
    Ok (mkDefinition id ty meta [] [] [] [] HealthReference_default [] [] [] t t)).

(** Field updates of [metadata]: the reference lists the builders extend. *)
Definition push_contract_ref (m : ComponentMetadata) (r : ContractId) : ComponentMetadata :=
  mkMetadata (name m) (version m) (meta_schema_version m) (owner m) (description m)
    (capability_tags m) (runtime_mode m) (maturity_level m) (meta_privacy_class m)
    (contract_refs m ++ [r]) (permission_refs m) (dependency_refs m) (metric_refs m)
    (health_refs m) (visualization_refs m).
Definition push_permission_ref (m : ComponentMetadata) (r : PermissionKey) : ComponentMetadata :=
  mkMetadata (name m) (version m) (meta_schema_version m) (owner m) (description m)
    (capability_tags m) (runtime_mode m) (maturity_level m) (meta_privacy_class m)
    (contract_refs m) (permission_refs m ++ [r]) (dependency_refs m) (metric_refs m)
    (health_refs m) (visualization_refs m).
Definition push_dependency_refs (m : ComponentMetadata) (r : list string) : ComponentMetadata :=
  mkMetadata (name m) (version m) (meta_schema_version m) (owner m) (description m)
    (capability_tags m) (runtime_mode m) (maturity_level m) (meta_privacy_class m)
    (contract_refs m) (permission_refs m) (dependency_refs m ++ r) (metric_refs m)
    (health_refs m) (visualization_refs m).
Definition push_metric_ref (m : ComponentMetadata) (r : string) : ComponentMetadata :=
  mkMetadata (name m) (version m) (meta_schema_version m) (owner m) (description m)
    (capability_tags m) (runtime_mode m) (maturity_level m) (meta_privacy_class m)
    (contract_refs m) (permission_refs m) (dependency_refs m) (metric_refs m ++ [r])
    (health_refs m) (visualization_refs m).
Definition push_health_refs (m : ComponentMetadata) (r : list string) : ComponentMetadata :=
  mkMetadata (name m) (version m) (meta_schema_version m) (owner m) (description m)
    (capability_tags m) (runtime_mode m) (maturity_level m) (meta_privacy_class m)
    (contract_refs m) (permission_refs m) (dependency_refs m) (metric_refs m)
    (health_refs m ++ r) (visualization_refs m).
Definition push_visualization_refs (m : ComponentMetadata) (r : list UiContributionId)
    : ComponentMetadata :=
  mkMetadata (name m) (version m) (meta_schema_version m) (owner m) (description m)
    (capability_tags m) (runtime_mode m) (maturity_level m) (meta_privacy_class m)
    (contract_refs m) (permission_refs m) (dependency_refs m) (metric_refs m)
    (health_refs m) (visualization_refs m ++ r).

(* [component/mod.rs] ComponentDefinition::add_contract_binding *)
Definition add_contract_binding (d : ComponentDefinition) (b : ContractBinding)
    : ST ComponentDefinition :=
  let$ t := now in
  st_ret (mkDefinition (component_id d) (component_type d)
    (push_contract_ref (metadata d) (contract_id (bound_contract b)))
    (capability_bindings d) (contract_bindings d ++ [b]) (dependency_bindings d)
    (permission_bindings d) (health_reference d) (metric_references d)
    (visualization_bindings d) (def_compatibility_reasons d) (created_at d) t).

(* [component/mod.rs] ComponentDefinition::add_dependency_binding *)
Definition add_dependency_binding (d : ComponentDefinition) (b : DependencyBinding)
    : ST ComponentDefinition :=
  let$ t := now in
  st_ret (mkDefinition (component_id d) (component_type d)
    (push_dependency_refs (metadata d) (option_list (db_name b)))
    (capability_bindings d) (contract_bindings d) (dependency_bindings d ++ [b])
    (permission_bindings d) (health_reference d) (metric_references d)
    (visualization_bindings d) (def_compatibility_reasons d) (created_at d) t).

(* [component/mod.rs] ComponentDefinition::add_permission_binding *)
Definition add_permission_binding (d : ComponentDefinition) (b : PermissionBinding)
    : ST ComponentDefinition :=
  let$ t := now in
  st_ret (mkDefinition (component_id d) (component_type d)
    (push_permission_ref (metadata d) (permission (bound_permission b)))
    (capability_bindings d) (contract_bindings d) (dependency_bindings d)
    (permission_bindings d ++ [b]) (health_reference d) (metric_references d)
    (visualization_bindings d) (def_compatibility_reasons d) (created_at d) t).

(* [component/mod.rs] ComponentDefinition::add_metric_reference *)
Definition add_metric_reference (d : ComponentDefinition) (r : MetricReference)
    : ST ComponentDefinition :=
  let$ t := now in
  st_ret (mkDefinition (component_id d) (component_type d)
    (push_metric_ref (metadata d) (ref_metric_name r))
    (capability_bindings d) (contract_bindings d) (dependency_bindings d)
    (permission_bindings d) (health_reference d) (metric_references d ++ [r])
    (visualization_bindings d) (def_compatibility_reasons d) (created_at d) t).

(* [component/mod.rs] ComponentDefinition::set_health_reference *)
Definition set_health_reference (d : ComponentDefinition) (r : HealthReference)
    : ST ComponentDefinition :=
  let$ t := now in
  st_ret (mkDefinition (component_id d) (component_type d)
    (push_health_refs (metadata d) (option_list (liveness_ref r) ++ option_list (readiness_ref r)))
    (capability_bindings d) (contract_bindings d) (dependency_bindings d)
    (permission_bindings d) r (metric_references d)
    (visualization_bindings d) (def_compatibility_reasons d) (created_at d) t).

(* [component/mod.rs] ComponentDefinition::add_visualization_binding *)
Definition add_visualization_binding (d : ComponentDefinition) (b : VisualizationBinding)
    : ST ComponentDefinition :=
  let$ t := now in
  st_ret (mkDefinition (component_id d) (component_type d)
    (push_visualization_refs (metadata d) (option_list (vis_contribution_id b)))
    (capability_bindings d) (contract_bindings d) (dependency_bindings d)
    (permission_bindings d) (health_reference d) (metric_references d)
    (visualization_bindings d ++ [b]) (def_compatibility_reasons d) (created_at d) t).

(* ------------------------------------------------------------------ *)
(** ** Transitions *)

(* [component/mod.rs] TransitionValidation *)
Record TransitionValidation := mkValidation {
  allowed : bool;
  denied_reasons : list string;
  val_dependency_reasons : list string;
  val_permission_reasons : list string;
  val_compatibility_reasons : list string
}.
(* [component/mod.rs] TransitionValidation::allowed *)
Definition validation_allowed : TransitionValidation := mkValidation true [] [] [] [].

(* [component/mod.rs] TransitionContext *)
Record TransitionContext := mkContext {
  ctx_reason : option string;
  dependencies_satisfied : bool;
  permissions_granted : bool;
  compatible : bool;
  ctx_health_status : HealthStatus;
  ctx_dependency_reasons : list string;
  ctx_permission_reasons : list string;
  ctx_compatibility_reasons : list string
}.
(* [component/mod.rs] Default for TransitionContext::default *)
Definition TransitionContext_default : TransitionContext :=
  mkContext None true true true HUnknown [] [] [].
(* [component/mod.rs] TransitionContext::with_reason *)
Definition with_reason (reason : string) : TransitionContext :=
  mkContext (Some reason) true true true HUnknown [] [] [].

(* [component/mod.rs] requires_dependencies *)
Definition requires_dependencies (s : ComponentState) : bool :=
  match s with
  | Registered | Initialized | Enabled | Starting | Running | Degraded | Paused | Upgrading => true
  | _ => false
  end.
(* [component/mod.rs] requires_permissions *)
Definition requires_permissions (s : ComponentState) : bool :=
  match s with
  | Enabled | Starting | Running | Degraded | Paused | Upgrading => true
  | _ => false
  end.
(* [component/mod.rs] allows_incompatible_target *)
Definition allows_incompatible_target (s : ComponentState) : bool :=
  match s with Incompatible | Disabled | Failed | Stopped => true | _ => false end.

(* [component/mod.rs] push_reasons_or_default *)
Definition push_reasons_or_default (target reasons : list string) (fallback : string)
    : list string :=
  match reasons with
  | [] => target ++ [fallback]
  | _ => target ++ reasons
  end.

(* [component/mod.rs] next_health_status *)
Definition next_health_status (target : ComponentState) (requested : HealthStatus) : HealthStatus :=
  match requested with
  | HUnknown =>
      match target with
      | Running => Healthy
      | Degraded => HDegraded
      | Failed => HFailed
      | _ => HUnknown
      end
  | _ => requested
  end.

(* [component/mod.rs] validate_lifecycle_transition *)
Definition validate_lifecycle_transition (from to : ComponentState) (c : TransitionContext)
    : TransitionValidation :=
  let denied : list string := [] in
  let denied :=
    if negb (allows_direct_transition_to from to)
    then denied ++ [("invalid transition from " ++ state_debug from ++ " to " ++ state_debug to)%string]
    else denied in
  let denied :=
    if negb (compatible c) && negb (allows_incompatible_target to)
    then push_reasons_or_default denied (ctx_compatibility_reasons c) "component is incompatible"
    else denied in
  let denied :=
    if negb (dependencies_satisfied c) && requires_dependencies to
    then push_reasons_or_default denied (ctx_dependency_reasons c)
           "component dependencies are not satisfied"
    else denied in
  let denied :=
    if negb (permissions_granted c) && requires_permissions to
    then push_reasons_or_default denied (ctx_permission_reasons c)
           "component permissions are not granted"
    else denied in
  let denied :=
    if bool_decide (to = Running) && bool_decide (ctx_health_status c = HFailed)
    then denied ++ ["component health is failed"] else denied in
  mkValidation (bool_decide (denied = [])) denied (ctx_dependency_reasons c)
    (ctx_permission_reasons c) (ctx_compatibility_reasons c).

(* ------------------------------------------------------------------ *)
(** ** Instances *)

(* [component/mod.rs] LifecycleTransition *)
Record LifecycleTransition := mkTransition {
  from : ComponentState;
  to : ComponentState;
  requested_at : Timestamp;
  reason : option string;
  validation : TransitionValidation;
  new_health_status : HealthStatus
}.

(* [component/mod.rs] ComponentInstance *)
Record ComponentInstance := mkInstance {
  instance_id : ComponentId;
  inst_component_id : ComponentId;
  inst_component_type : ComponentType;
  state : ComponentState;
  health_status : HealthStatus;
  lifecycle_history : list LifecycleTransition;
  dependency_reasons : list string;
  permission_reasons : list string;
  compatibility_reasons : list string;
  last_error_redacted : option string;
  started_at : option Timestamp;
  stopped_at : option Timestamp;
  updated_at : Timestamp
}.

(* [component/mod.rs] ComponentInstance::from_definition *)
Definition from_definition (d : ComponentDefinition) : ST ComponentInstance :=
  let$ t := now in
  let$ id := new_v4 in
  st_ret (mkInstance id (component_id d) (component_type d) Discovered HUnknown [] [] []
    (def_compatibility_reasons d) None None None t).

(* [component/mod.rs] ComponentInstance::transition_to *)
Definition transition_to (self : ComponentInstance) (target : ComponentState)
    (context : TransitionContext)
    : ST (result LifecycleTransition ComponentLifecycleError * ComponentInstance) :=
  let v := validate_lifecycle_transition (state self) target context in
  let$ t0 := now in
  let transition := mkTransition (state self) target t0 (ctx_reason context) v
    (next_health_status target (ctx_health_status context)) in
  if negb (allowed v)
  then st_ret (Err (InvalidTransition (state self) target (denied_reasons v)), self)
  else
    let$ t := now in
    let started := match target with Running => Some t | _ => started_at self end in
    let stopped :=
      match target with Stopped | Disabled | Failed => Some t | _ => stopped_at self end in
    st_ret (Ok transition,
      mkInstance (instance_id self) (inst_component_id self) (inst_component_type self)
        target (new_health_status transition) (lifecycle_history self ++ [transition])
        (ctx_dependency_reasons context) (ctx_permission_reasons context)
        (ctx_compatibility_reasons context) (last_error_redacted self) started stopped t).

(* [component/mod.rs] ComponentInstance::record_failure *)
Definition record_failure (self : ComponentInstance) (error_redacted why : string)
    : ST ComponentInstance :=
  let$ t0 := now in
  let transition := mkTransition (state self) Failed t0 (Some why) validation_allowed HFailed in
  let$ t := now in
  st_ret (mkInstance (instance_id self) (inst_component_id self) (inst_component_type self)
    Failed HFailed (lifecycle_history self ++ [transition]) [] [] []
    (Some error_redacted) (started_at self) (Some t) t).

(* [component/mod.rs] ComponentInstance::mark_degraded *)
Definition mark_degraded (self : ComponentInstance) (why : string)
    : ST (result LifecycleTransition ComponentLifecycleError * ComponentInstance) :=
  transition_to self Degraded (mkContext (Some why) true true true HDegraded [why] [] []).
