(* ===== verification/ComponentFacts.v ===== *)
(** * Facts about the component life cycle

    When a transition is accepted, what it leaves in the instance, and the
    invariant of the recorded history over every run. *)

From S2P Require Import Prelude Collections RustStr Effects Contracts Manifest Component.

#[local] Open Scope string_scope.
#[local] Open Scope list_scope.
#[local] Open Scope N_scope.

(** The guard of a transition, as a proposition. *)
Record permitted (s t : ComponentState) (c : TransitionContext) : Prop := {
  permitted_edge : allows_direct_transition_to s t = true;
  permitted_compatible : compatible c = true ∨ allows_incompatible_target t = true;
  permitted_dependencies : dependencies_satisfied c = true ∨ requires_dependencies t = false;
  permitted_permissions : permissions_granted c = true ∨ requires_permissions t = false;
  permitted_health : t = Running → ctx_health_status c ≠ HFailed
}.

Lemma push_reasons_nonempty target reasons fallback :
  push_reasons_or_default target reasons fallback ≠ [].
Proof.
  unfold push_reasons_or_default. destruct reasons; intros [??]%app_nil; done.
Qed.

(** One reason per failed check: the list is empty when all pass. *)
Lemma denied_iff s t c :
  denied_reasons (validate_lifecycle_transition s t c) = [] ↔ permitted s t c.
Proof.
  unfold validate_lifecycle_transition. simpl. split.
  - intros Hd. repeat (case_match;
      first [by apply push_reasons_nonempty in Hd | by apply app_nil in Hd as [? ?]|idtac]);
      bool_prop; try done.
    all: constructor; try done;
      repeat match goal with
      | H : _ && _ = false |- _ => apply andb_false_iff in H as [H|H]
      end; bool_prop; auto; naive_solver.
  - intros [He Hc Hd Hp Hh]. rewrite He. simpl.
    assert (negb (compatible c) && negb (allows_incompatible_target t) = false) as ->
      by (destruct Hc as [-> | ->]; [done|by rewrite andb_false_r]).
    assert (negb (dependencies_satisfied c) && requires_dependencies t = false) as ->
      by (destruct Hd as [-> | ->]; [done|by rewrite andb_false_r]).
    assert (negb (permissions_granted c) && requires_permissions t = false) as ->
      by (destruct Hp as [-> | ->]; [done|by rewrite andb_false_r]).
    destruct (bool_decide_reflect (t = Running)) as [Ht|Ht]; simpl; [|done].
    by rewrite bool_decide_eq_false_2 by auto.
Qed.

Lemma allowed_iff s t c :
  allowed (validate_lifecycle_transition s t c) = true ↔ permitted s t c.
Proof. rewrite <- denied_iff. apply bool_decide_eq_true. Qed.

(** The instance after an accepted transition. *)
Definition moved (i i' : ComponentInstance) (tr : LifecycleTransition) (c : TransitionContext)
    : Prop :=
  instance_id i' = instance_id i ∧ inst_component_id i' = inst_component_id i ∧
  state i' = to tr ∧ health_status i' = new_health_status tr ∧
  lifecycle_history i' = lifecycle_history i ++ [tr] ∧
  last_error_redacted i' = last_error_redacted i ∧
  started_at i' = (if bool_decide (to tr = Running) then Some (updated_at i') else started_at i) ∧
  stopped_at i' = (if bool_decide (to tr ∈ [Stopped; Disabled; Failed])
                   then Some (updated_at i') else stopped_at i).

Lemma transition_to_run i t c w :
  ∃ r i' w', transition_to i t c w = ((r, i'), w') ∧
    match r with
    | Ok tr => permitted (state i) t c ∧ from tr = state i ∧ to tr = t ∧
        allowed (validation tr) = true ∧
        new_health_status tr = next_health_status t (ctx_health_status c) ∧ moved i i' tr c
    | Err e => ¬ permitted (state i) t c ∧ i' = i ∧
        ∃ reasons, reasons ≠ [] ∧ e = InvalidTransition (state i) t reasons
    end.
Proof.
  unfold transition_to, st_bind, now.
  destruct (allowed (validate_lifecycle_transition (state i) t c)) eqn:Ha; simpl.
  - pose proof (proj1 (allowed_iff _ _ _) Ha). eexists (Ok _), _, _.
    split; [reflexivity|]. simpl. split_and!; try done.
    unfold moved. simpl. split_and!; try done; by destruct t.
  - eexists (Err _), _, _. split; [reflexivity|]. simpl. split_and!; try done.
    + rewrite <- allowed_iff. congruence.
    + eexists. split; [|done]. intros Hd%denied_iff%allowed_iff. congruence.
Qed.

(* ------------------------------------------------------------------ *)
(** ** Reachable instances *)

Inductive instance_step : ComponentInstance → ComponentInstance → Prop :=
  | step_transition i t c w : instance_step i (transition_to i t c w).1.2
  | step_failure i err why w : instance_step i (record_failure i err why w).1
  | step_degraded i why w : instance_step i (mark_degraded i why w).1.2.

(** The recorded edges are composable: [s --> ... --> t]. *)
Fixpoint trace (s : ComponentState) (h : list LifecycleTransition) (t : ComponentState) : Prop :=
  match h with
  | [] => s = t
  | tr :: h' => from tr = s ∧ trace (to tr) h' t
  end.

(** An edge is a direct transition, or a failure. *)
Definition edge_ok (tr : LifecycleTransition) : Prop :=
  allowed (validation tr) = true ∧
  (allows_direct_transition_to (from tr) (to tr) = true ∨
   to tr = Failed ∧ new_health_status tr = HFailed).

Record instance_wf (i : ComponentInstance) : Prop := {
  wf_trace : trace Discovered (lifecycle_history i) (state i);
  wf_edges : Forall edge_ok (lifecycle_history i);
  wf_started : is_Some (started_at i) ↔ Exists (λ tr, to tr = Running) (lifecycle_history i);
  wf_stopped : is_Some (stopped_at i) ↔
    Exists (λ tr, to tr ∈ [Stopped; Disabled; Failed]) (lifecycle_history i);
  wf_error : is_Some (last_error_redacted i) →
    Exists (λ tr, to tr = Failed) (lifecycle_history i)
}.

Lemma trace_snoc s h t tr : trace s h t → from tr = t → trace s (h ++ [tr]) (to tr).
Proof. revert s. induction h as [|tr' h IH]; intros s; simpl; naive_solver. Qed.

Lemma wf_snoc i i' tr :
  instance_wf i → edge_ok tr → from tr = state i → state i' = to tr →
  lifecycle_history i' = lifecycle_history i ++ [tr] →
  started_at i' = (if bool_decide (to tr = Running) then Some (updated_at i') else started_at i) →
  stopped_at i' = (if bool_decide (to tr ∈ [Stopped; Disabled; Failed])
                   then Some (updated_at i') else stopped_at i) →
  (is_Some (last_error_redacted i') → is_Some (last_error_redacted i) ∨ to tr = Failed) →
  instance_wf i'.
Proof.
  intros [Ht He Hsa Hso Hle] Hok Hf Hs Hh Hsa' Hso' Hle'.
  constructor; rewrite Hh, ?Exists_app, ?Exists_cons, ?Exists_nil.
  - rewrite Hs. by eapply trace_snoc.
  - apply Forall_app. auto.
  - rewrite Hsa'. destruct (bool_decide_reflect (to tr = Running)); [split; eauto|].
    rewrite Hsa. tauto.
  - rewrite Hso'. destruct (bool_decide_reflect (to tr ∈ [Stopped; Disabled; Failed]));
      [split; eauto|].
    rewrite Hso. tauto.
  - intros [He'|He']%Hle'; auto.
Qed.

Lemma instance_step_wf i i' : instance_step i i' → instance_wf i → instance_wf i'.
Proof.
  assert (∀ i t c w, instance_wf i → instance_wf (transition_to i t c w).1.2) as Htr.
  { intros j t c w Hwf. destruct (transition_to_run j t c w) as (r & j' & w' & -> & Hr).
    destruct r as [tr|e]; simpl; [|by destruct Hr as (_ & -> & _)].
    destruct Hr as (Hp & Hf & Ht & Ha & _ & (_ & _ & Hs & _ & Hh & He & Hsa & Hso)).
    eapply (wf_snoc j j' tr); try done.
    - split; [done|left]. rewrite Hf, Ht. apply Hp.
    - rewrite He. auto. }
  destruct 1 as [i t c w|i err why w|i why w]; intros Hwf; [by apply Htr| |by apply Htr].
  eapply (wf_snoc i _ (mkTransition (state i) Failed _ (Some why) validation_allowed HFailed));
    try done; simpl; [|by auto]. split; [done|by right].
Qed.

Lemma from_definition_wf d w : instance_wf (from_definition d w).1.
Proof. constructor; simpl; rewrite ?Exists_nil; try done; by split; [intros []|]. Qed.

(* ------------------------------------------------------------------ *)
(** ** Properties *)

(** [transition_to] succeeds exactly when the edge is a direct transition and
    the context satisfies the target's guards; it then moves the instance to the target
    and appends that transition to the history. Otherwise it answers
    [InvalidTransition] with at least one reason and leaves the instance as it was. *)
Theorem transition_to_spec i t c w :
  ∃ r i' w', transition_to i t c w = ((r, i'), w') ∧
    (is_ok r = true ↔ permitted (state i) t c) ∧
    match r with
    | Ok tr => from tr = state i ∧ to tr = t ∧ moved i i' tr c
    | Err e => i' = i ∧ ∃ reasons, reasons ≠ [] ∧ e = InvalidTransition (state i) t reasons
    end.
Proof.
  destruct (transition_to_run i t c w) as (r & i' & w' & Hrun & Hr).
  exists r, i', w'. split; [done|]. destruct r; simpl; naive_solver.
Qed.

(** C30. The history of every instance, whatever is asked of it: it starts at
    [Discovered], each entry leaves the state the previous one entered and the last one
    entered the current state; every entry is a direct transition or a recorded failure;
    and [started_at]/[stopped_at] are set exactly when the history says so. *)
Theorem lifecycle_invariant d w i :
  rtc instance_step (from_definition d w).1 i → instance_wf i.
Proof.
  intros Hrun. pose proof (from_definition_wf d w) as Hwf.
  induction Hrun; eauto using instance_step_wf.
Qed.

(** One direct transition with every guard satisfied. *)
Definition edge (s t : ComponentState) : Prop := allows_direct_transition_to s t = true.

(** The state machine has no dead end and never returns to [Unknown]: from
    every state a component can be brought back to [Discovered] and to [Running] by direct
    transitions, and no transition enters [Unknown] from another state. *)
Theorem lifecycle_recoverable s :
  rtc edge s Discovered ∧ rtc edge s Running ∧ (∀ t, edge t Unknown → t = Unknown).
Proof.
  assert (rtc edge Discovered Running) as Hrun.
  { apply (rtc_l _ _ Validated); [done|]. apply (rtc_l _ _ Registered); [done|].
    apply (rtc_l _ _ Initialized); [done|]. apply (rtc_l _ _ Enabled); [done|].
    apply (rtc_l _ _ Starting); [done|]. by apply rtc_once. }
  assert (rtc edge s Discovered) as Hdisc.
  { destruct s;
      first [ done | by apply rtc_once
            | apply (rtc_l _ _ Failed); [done|]; by apply rtc_once ]. }
  split_and!; [done|by transitivity Discovered|]. by intros [].
Qed.

(** An instance that is validated and then fails. *)
Definition sample_definition : ComponentDefinition :=
  mkDefinition (mkId (mkUuid 1)) Plugin
    (mkMetadata "collector" "1.0.0" (mkVersion 1 0 0) None None [] Streaming None Privacy.Internal
       [] [] [] [] [] [])
    [] [] [] [] HealthReference_default [] [] [] (mkTimestamp 0) (mkTimestamp 0).
Definition sample_instance : ComponentInstance :=
  (from_definition sample_definition counting_world).1.
Definition sample_failed : ComponentInstance :=
  (record_failure (transition_to sample_instance Validated TransitionContext_default
    counting_world).1.2 "error" "reason" counting_world).1.

Lemma lifecycle_invariant_witness :
  trace Discovered (lifecycle_history sample_failed) Failed ∧
  length (lifecycle_history sample_failed) = 2%nat.
Proof.
  split; [|reflexivity].
  apply (wf_trace sample_failed), (lifecycle_invariant sample_definition counting_world).
  apply (rtc_l _ _ (transition_to sample_instance Validated TransitionContext_default
    counting_world).1.2); [apply step_transition|]. apply rtc_once, step_failure.
Defined.
