(* ===== verification/Registry.v ===== *)
(** * The registries ([platform/src/registry])

    Every registry is a record of hash maps; [register] is a function to the
    new registry or the error that leaves it as it was. Listings are sorted by the
    key the code sorts by. *)

From S2P Require Import Prelude Collections RustStr Effects Contracts Query Manifest Component.

#[local] Open Scope string_scope.
#[local] Open Scope list_scope.
#[local] Open Scope N_scope.

(* [registry/mod.rs] RegistryError *)
Inductive RegistryError :=
  | DuplicateRegistration (registry key : string)
  | MissingRegistration (registry key : string)
  | InvalidRegistration (registry reason : string).
#[export] Instance RegistryError_eq_dec : EqDecision RegistryError.
Proof. solve_decision. Defined.

(* [registry/mod.rs] Display for RegistryError::fmt *)
Definition registry_error_to_string (e : RegistryError) : string :=
  match e with
  | DuplicateRegistration registry key => "duplicate registration in " ++ registry ++ ": " ++ key
  | MissingRegistration registry key => "missing registration in " ++ registry ++ ": " ++ key
  | InvalidRegistration registry reason => "invalid registration in " ++ registry ++ ": " ++ reason
  end%string.

(* [registry/mod.rs] RegistryValidation *)
Record RegistryValidation := mkRegistryValidation { valid : bool; issues : list string }.
(* [registry/mod.rs] RegistryValidation::valid *)
Definition registry_valid : RegistryValidation := mkRegistryValidation true [].
(* [registry/mod.rs] RegistryValidation::from_issues *)
Definition from_issues (l : list string) : RegistryValidation :=
  mkRegistryValidation (bool_decide (l = [])) l.

(** The error of a [Result], for the [if let Err(error)] loops. *)
Definition err_list {T E} (r : result T E) : list E :=
  match r with Ok _ => [] | Err e => [e] end.

(* ------------------------------------------------------------------ *)
(** ** [ComponentRegistry] *)

(* [registry/mod.rs] validate_component_definition *)
Definition validate_component_definition (d : ComponentDefinition) : result unit RegistryError :=
  if blank (name (metadata d))
  then Err (InvalidRegistration "component_registry" "component name must not be empty")
  else if blank (version (metadata d))
  then Err (InvalidRegistration "component_registry" "component version must not be empty")
  else Ok tt.

(* [registry/mod.rs] ComponentRegistry *)
Record ComponentRegistry := mkComponentRegistry {
  components : gmap ComponentId ComponentDefinition;
  instances : gmap ComponentId ComponentInstance
}.

Section component_registry.
Context `{Externals} `{HashOrder}.
Implicit Types r : ComponentRegistry.

(* [registry/mod.rs] ComponentRegistry::new *)
Definition component_registry_new : ComponentRegistry := mkComponentRegistry ∅ ∅.

(* [registry/mod.rs] ComponentRegistry::register *)
Definition register_component r (d : ComponentDefinition)
    : result unit RegistryError * ComponentRegistry :=
  match validate_component_definition d with
  | Err e => (Err e, r)
  | Ok _ =>
      let id := component_id d in
      if contains_key (components r) id
      then (Err (DuplicateRegistration "component_registry" (id_to_string id)), r)
      else (Ok tt, mkComponentRegistry (<[id := d]> (components r)) (instances r))
  end.

(* [registry/mod.rs] ComponentRegistry::register_instance *)
Definition register_instance r (i : ComponentInstance)
    : result unit RegistryError * ComponentRegistry :=
  if negb (contains_key (components r) (inst_component_id i))
  then (Err (MissingRegistration "component_registry" (id_to_string (inst_component_id i))), r)
  else if contains_key (instances r) (instance_id i)
  then (Err (DuplicateRegistration "component_instance_registry" (id_to_string (instance_id i))), r)
  else (Ok tt, mkComponentRegistry (components r) (<[instance_id i := i]> (instances r))).

(* [registry/mod.rs] ComponentRegistry::get *)
Definition get_component r (id : ComponentId) : option ComponentDefinition := components r !! id.
(* [registry/mod.rs] ComponentRegistry::get_instance *)
Definition get_instance r (id : ComponentId) : option ComponentInstance := instances r !! id.
(* [registry/mod.rs] ComponentRegistry::contains *)
Definition contains_component r (id : ComponentId) : bool := contains_key (components r) id.

(* [registry/mod.rs] ComponentRegistry::list *)
Definition list_components r : list ComponentDefinition :=
  sort_by_key (λ d, id_to_string (component_id d)) (hash_values (components r)).
(* [registry/mod.rs] ComponentRegistry::list_instances *)
Definition list_instances r : list ComponentInstance :=
  sort_by_key (λ i, id_to_string (instance_id i)) (hash_values (instances r)).

(* [registry/mod.rs] ComponentRegistry::find_by_name *)
Definition find_components_by_name r (nm : string) : list ComponentDefinition :=
  sort_by_key (λ d, id_to_string (component_id d))
    (filter (λ d, name (metadata d) = nm) (hash_values (components r))).

(* [registry/mod.rs] ComponentRegistry::validate *)
Definition validate_components r : RegistryValidation :=
  from_issues (
    (hash_values (components r) ≫= λ d,
       registry_error_to_string <$> err_list (validate_component_definition d)) ++
    (hash_values (instances r) ≫= λ i,
       if negb (contains_key (components r) (inst_component_id i))
       then [("instance " ++ id_to_string (instance_id i) ++ " references missing component "
              ++ id_to_string (inst_component_id i))%string]
       else [])).

End component_registry.

(* ------------------------------------------------------------------ *)
(** ** [PluginRegistry] *)

(* [registry/mod.rs] PluginRegistry *)
Record PluginRegistry `{Externals} := mkPluginRegistry {
  plugins : gmap PluginId PluginManifest;
  component_by_plugin : gmap PluginId ComponentId;
  plugin_by_component : gmap ComponentId PluginId
}.

Section plugin_registry.
Context `{Externals} `{HashOrder}.
Implicit Types r : PluginRegistry.

(* [registry/mod.rs] PluginRegistry::new *)
Definition plugin_registry_new : PluginRegistry := mkPluginRegistry _ ∅ ∅ ∅.

(* [registry/mod.rs] PluginRegistry::register *)
Definition register_plugin r (m : PluginManifest) (component : option ComponentId)
    : result unit RegistryError * PluginRegistry :=
  match PluginManifest_validate m with
  | Err e => (Err (InvalidRegistration "plugin_registry" (manifest_error_to_string e)), r)
  | Ok _ =>
      let id := plugin_id m in
      if contains_key (plugins r) id
      then (Err (DuplicateRegistration "plugin_registry" (id_to_string id)), r)
      else
        match component with
        | Some cid =>
            if contains_key (plugin_by_component r) cid
            then (Err (DuplicateRegistration "plugin_component_binding" (id_to_string cid)), r)
            else (Ok tt, mkPluginRegistry _ (<[id := m]> (plugins r))
                    (<[id := cid]> (component_by_plugin r))
                    (<[cid := id]> (plugin_by_component r)))
        | None => (Ok tt, mkPluginRegistry _ (<[id := m]> (plugins r))
                     (component_by_plugin r) (plugin_by_component r))
        end
  end.

(* [registry/mod.rs] PluginRegistry::get *)
Definition get_plugin r (id : PluginId) : option PluginManifest := plugins r !! id.
(* [registry/mod.rs] PluginRegistry::contains *)
Definition contains_plugin r (id : PluginId) : bool := contains_key (plugins r) id.
(* [registry/mod.rs] PluginRegistry::list *)
Definition list_plugins r : list PluginManifest :=
  sort_by_key (λ m, id_to_string (plugin_id m)) (hash_values (plugins r)).
(* [registry/mod.rs] PluginRegistry::component_id_for_plugin *)
Definition component_id_for_plugin r (id : PluginId) : option ComponentId :=
  component_by_plugin r !! id.
(* [registry/mod.rs] PluginRegistry::plugin_id_for_component *)
Definition plugin_id_for_component r (id : ComponentId) : option PluginId :=
  plugin_by_component r !! id.
(* [registry/mod.rs] PluginRegistry::find_by_name *)
Definition find_plugin_by_name r (nm : string) : option PluginManifest :=
  find (λ m, bool_decide (plugin_name m = nm)) (hash_values (plugins r)).
(* [registry/mod.rs] PluginRegistry::validate *)
Definition validate_plugins r : RegistryValidation :=
  from_issues (hash_values (plugins r) ≫= λ m,
    (λ e, ("plugin " ++ id_to_string (plugin_id m) ++ ": " ++ manifest_error_to_string e)%string)
      <$> err_list (PluginManifest_validate m)).

End plugin_registry.

(* ------------------------------------------------------------------ *)
(** ** [CapabilityRegistry] *)

(* [registry/mod.rs] CapabilityRegistry *)
Record CapabilityRegistry `{Externals} := mkCapabilityRegistry {
  capabilities : gmap CapabilityId CapabilityManifest
}.

Section capability_registry.
Context `{Externals} `{HashOrder}.
Implicit Types r : CapabilityRegistry.

(* [registry/mod.rs] validate_capability_manifest *)
Definition validate_capability_manifest (m : CapabilityManifest) : result unit RegistryError :=
  if blank (capability_domain m)
  then Err (InvalidRegistration "capability_registry" "capability_domain must not be empty")
  else if blank (capability_title m)
  then Err (InvalidRegistration "capability_registry" "capability title must not be empty")
  else Ok tt.

(* [registry/mod.rs] CapabilityRegistry::new *)
Definition capability_registry_new : CapabilityRegistry := mkCapabilityRegistry _ ∅.

(* [registry/mod.rs] CapabilityRegistry::register *)
Definition register_capability r (m : CapabilityManifest)
    : result unit RegistryError * CapabilityRegistry :=
  match validate_capability_manifest m with
  | Err e => (Err e, r)
  | Ok _ =>
      let id := capability_id m in
      if contains_key (capabilities r) id
      then (Err (DuplicateRegistration "capability_registry" (id_to_string id)), r)
      else (Ok tt, mkCapabilityRegistry _ (<[id := m]> (capabilities r)))
  end.

(* [registry/mod.rs] CapabilityRegistry::get *)
Definition get_capability r (id : CapabilityId) : option CapabilityManifest := capabilities r !! id.
(* [registry/mod.rs] CapabilityRegistry::contains *)
Definition contains_capability r (id : CapabilityId) : bool := contains_key (capabilities r) id.
(* [registry/mod.rs] CapabilityRegistry::list *)
Definition list_capabilities r : list CapabilityManifest :=
  sort_by_key (λ m, id_to_string (capability_id m)) (hash_values (capabilities r)).
(* [registry/mod.rs] CapabilityRegistry::find_by_domain *)
Definition find_capability_by_domain r (domain : string) : option CapabilityManifest :=
  find (λ m, bool_decide (capability_domain m = domain)) (hash_values (capabilities r)).
(* [registry/mod.rs] CapabilityRegistry::validate *)
Definition validate_capabilities r : RegistryValidation :=
  from_issues (hash_values (capabilities r) ≫= λ m,
    registry_error_to_string <$> err_list (validate_capability_manifest m)).

End capability_registry.

(* ------------------------------------------------------------------ *)
(** ** [ContractRegistry] *)

(* [registry/mod.rs] ContractRegistry *)
Record ContractRegistry := mkContractRegistry {
  contracts : gmap ContractId ContractDescriptor;
  contracts_by_name : gmap string (list ContractId)
}.

Section contract_registry.
Context `{Externals} `{HashOrder}.
Implicit Types r : ContractRegistry.

(* [registry/mod.rs] ContractRegistry::new *)
Definition contract_registry_new : ContractRegistry := mkContractRegistry ∅ ∅.

(* [registry/mod.rs] ContractRegistry::register *)
Definition register_contract r (d : ContractDescriptor)
    : result unit RegistryError * ContractRegistry :=
  if blank (contract_name d)
  then (Err (InvalidRegistration "contract_registry" "contract_name must not be empty"), r)
  else
    let id := contract_id d in
    if contains_key (contracts r) id
    then (Err (DuplicateRegistration "contract_registry" (id_to_string id)), r)
    else
      let ids := default [] (contracts_by_name r !! contract_name d) in
      (Ok tt, mkContractRegistry (<[id := d]> (contracts r))
                (<[contract_name d := ids ++ [id]]> (contracts_by_name r))).

(* [registry/mod.rs] ContractRegistry::get *)
Definition get_contract r (id : ContractId) : option ContractDescriptor := contracts r !! id.
(* [registry/mod.rs] ContractRegistry::contains *)
Definition contains_contract r (id : ContractId) : bool := contains_key (contracts r) id.

(** The sort keys of contracts. *)
Definition version_key (d : ContractDescriptor) : N * (N * N) :=
  let v := contract_schema_version d in (Schema.major v, (Schema.minor v, Schema.patch v)).
Definition contract_key (d : ContractDescriptor) : string * (N * (N * N)) :=
  (contract_name d, version_key d).

(* [registry/mod.rs] ContractRegistry::find_by_name *)
Definition find_contracts_by_name r (nm : string) : list ContractDescriptor :=
  match contracts_by_name r !! nm with
  | Some ids => sort_by_key version_key (omap (λ id, contracts r !! id) ids)
  | None => []
  end.

(* [registry/mod.rs] ContractRegistry::list *)
Definition list_contracts r : list ContractDescriptor :=
  sort_by_key contract_key (hash_values (contracts r)).

End contract_registry.

(* ------------------------------------------------------------------ *)
(** ** [DependencyRegistry] *)

(* [registry/mod.rs] DependencyRegistry *)
Record DependencyRegistry := mkDependencyRegistry {
  component_dependencies : gmap ComponentId (list DependencyBinding);
  plugin_dependencies : gmap PluginId (list PluginDependency)
}.

Section dependency_registry.
Context `{Externals} `{HashOrder}.
Implicit Types r : DependencyRegistry.

(* [registry/mod.rs] DependencyRegistry::new *)
Definition dependency_registry_new : DependencyRegistry := mkDependencyRegistry ∅ ∅.
(* [registry/mod.rs] DependencyRegistry::register_component_definition *)
Definition register_component_definition r (d : ComponentDefinition) : DependencyRegistry :=
  mkDependencyRegistry (<[component_id d := dependency_bindings d]> (component_dependencies r))
    (plugin_dependencies r).
(* [registry/mod.rs] DependencyRegistry::register_plugin_manifest *)
Definition register_plugin_manifest r (m : PluginManifest) : DependencyRegistry :=
  mkDependencyRegistry (component_dependencies r)
    (<[plugin_id m := dependencies m]> (plugin_dependencies r)).
(* [registry/mod.rs] DependencyRegistry::dependencies_for_component *)
Definition dependencies_for_component r (id : ComponentId) : list DependencyBinding :=
  default [] (component_dependencies r !! id).
(* [registry/mod.rs] DependencyRegistry::dependencies_for_plugin *)
Definition dependencies_for_plugin r (id : PluginId) : list PluginDependency :=
  default [] (plugin_dependencies r !! id).
(* [registry/mod.rs] DependencyRegistry::component_entries *)
Definition component_entries r : list (ComponentId * list DependencyBinding) :=
  sort_by_key (λ e, id_to_string e.1) (hash_entries (component_dependencies r)).
(* [registry/mod.rs] DependencyRegistry::plugin_entries *)
Definition plugin_entries r : list (PluginId * list PluginDependency) :=
  sort_by_key (λ e, id_to_string e.1) (hash_entries (plugin_dependencies r)).

End dependency_registry.

(* ------------------------------------------------------------------ *)
(** ** [RouteRegistry], [PolicyRegistry], [RuntimeRegistry] *)

(* [registry/mod.rs] RouteBinding *)
Record RouteBinding := mkRouteBinding {
  route_key : string;
  source_component_id : ComponentId;
  target_component_id : option ComponentId;
  route_topic : string;
  route_contract_id : option ContractId;
  route_required_permissions : list PermissionKey;
  route_enabled : bool
}.
(* [registry/mod.rs] RouteRegistry *)
Record RouteRegistry := mkRouteRegistry { routes : gmap string RouteBinding }.

(* [registry/mod.rs] PolicyBinding *)
Record PolicyBinding := mkPolicyBinding {
  policy_key : string;
  policy_component_id : option ComponentId;
  policy_plugin_id : option PluginId;
  policy_permission_refs : list PermissionKey;
  policy_enabled : bool;
  policy_reason : option string
}.
(* [registry/mod.rs] PolicyRegistry *)
Record PolicyRegistry := mkPolicyRegistry { policies : gmap string PolicyBinding }.

(* [registry/mod.rs] RuntimeMetadata *)
Record RuntimeMetadata := mkRuntimeMetadata {
  rt_component_id : ComponentId;
  rt_plugin_id : option PluginId;
  rt_runtime_mode : RuntimeMode;
  rt_component_state : ComponentState;
  rt_health_status : HealthStatus;
  rt_metadata_version : SchemaVersion;
  rt_last_resolved_at : option Timestamp
}.
(* [registry/mod.rs] RuntimeRegistry *)
Record RuntimeRegistry := mkRuntimeRegistry { runtimes : gmap ComponentId RuntimeMetadata }.

Section route_registry.
Context `{Externals} `{HashOrder}.

(* [registry/mod.rs] RouteRegistry::new *)
Definition route_registry_new : RouteRegistry := mkRouteRegistry ∅.
(* [registry/mod.rs] RouteRegistry::register *)
Definition register_route (r : RouteRegistry) (b : RouteBinding)
    : result unit RegistryError * RouteRegistry :=
  if blank (route_key b) || blank (route_topic b)
  then (Err (InvalidRegistration "route_registry" "route_key and topic must not be empty"), r)
  else if contains_key (routes r) (route_key b)
  then (Err (DuplicateRegistration "route_registry" (route_key b)), r)
  else (Ok tt, mkRouteRegistry (<[route_key b := b]> (routes r))).
(* [registry/mod.rs] RouteRegistry::get *)
Definition get_route (r : RouteRegistry) (key : string) : option RouteBinding := routes r !! key.
(* [registry/mod.rs] RouteRegistry::list *)
Definition list_routes (r : RouteRegistry) : list RouteBinding :=
  sort_by_key route_key (hash_values (routes r)).

(* [registry/mod.rs] PolicyRegistry::new *)
Definition policy_registry_new : PolicyRegistry := mkPolicyRegistry ∅.
(* [registry/mod.rs] PolicyRegistry::register *)
Definition register_policy (r : PolicyRegistry) (b : PolicyBinding)
    : result unit RegistryError * PolicyRegistry :=
  if blank (policy_key b)
  then (Err (InvalidRegistration "policy_registry" "policy_key must not be empty"), r)
  else if contains_key (policies r) (policy_key b)
  then (Err (DuplicateRegistration "policy_registry" (policy_key b)), r)
  else (Ok tt, mkPolicyRegistry (<[policy_key b := b]> (policies r))).
(* [registry/mod.rs] PolicyRegistry::get *)
Definition get_policy (r : PolicyRegistry) (key : string) : option PolicyBinding := policies r !! key.
(* [registry/mod.rs] PolicyRegistry::list *)
Definition list_policies (r : PolicyRegistry) : list PolicyBinding :=
  sort_by_key policy_key (hash_values (policies r)).

(* [registry/mod.rs] RuntimeRegistry::new *)
Definition runtime_registry_new : RuntimeRegistry := mkRuntimeRegistry ∅.
(* [registry/mod.rs] RuntimeRegistry::register *)
Definition register_runtime (r : RuntimeRegistry) (m : RuntimeMetadata)
    : result unit RegistryError * RuntimeRegistry :=
  if contains_key (runtimes r) (rt_component_id m)
  then (Err (DuplicateRegistration "runtime_registry" (id_to_string (rt_component_id m))), r)
  else (Ok tt, mkRuntimeRegistry (<[rt_component_id m := m]> (runtimes r))).
(* [registry/mod.rs] RuntimeRegistry::get *)
Definition get_runtime (r : RuntimeRegistry) (id : ComponentId) : option RuntimeMetadata :=
  runtimes r !! id.
(* [registry/mod.rs] RuntimeRegistry::list *)
Definition list_runtimes (r : RuntimeRegistry) : list RuntimeMetadata :=
  sort_by_key (λ m, id_to_string (rt_component_id m)) (hash_values (runtimes r)).

End route_registry.
