(* ===== verification/RegistryFacts.v ===== *)
(** * Facts about the registries

    Invariants of the plugin, component and contract registries over every
    sequence of registrations. *)

From S2P Require Import Prelude Collections RustStr Effects Contracts Query Manifest Component Registry.

#[local] Open Scope string_scope.
#[local] Open Scope list_scope.
#[local] Open Scope N_scope.

Lemma from_issues_valid l : from_issues l = registry_valid ↔ l = [].
Proof. unfold from_issues, registry_valid. case_bool_decide; naive_solver. Qed.

Lemma bind_nil {A B} (f : A → list B) l : (∀ x, x ∈ l → f x = []) → l ≫= f = [].
Proof.
  induction l as [|x l IH]; intros Hf; [done|]. simpl.
  rewrite Hf by set_solver. apply IH. set_solver.
Qed.

Section facts.
Context `{Externals} `{HashOrder}.

(* ------------------------------------------------------------------ *)
(** ** The plugin registry *)

Record plugin_registry_wf (r : PluginRegistry) : Prop := {
  plugins_keyed : map_Forall (λ id m, plugin_id m = id ∧ manifest_ok m) (plugins r);
  plugins_bound : ∀ id cid, component_by_plugin r !! id = Some cid ↔
    plugin_by_component r !! cid = Some id;
  plugins_known : ∀ id, is_Some (component_by_plugin r !! id) → is_Some (plugins r !! id)
}.

(** One registration. *)
Definition plugin_step (r r' : PluginRegistry) : Prop :=
  ∃ m cid, r' = (register_plugin r m cid).2.

Lemma register_plugin_cases r m cid :
  let r' := (register_plugin r m cid).2 in
  match (register_plugin r m cid).1 with
  | Ok _ =>
      manifest_ok m ∧ plugins r !! plugin_id m = None ∧
      plugins r' = <[plugin_id m := m]> (plugins r) ∧
      match cid with
      | Some c => plugin_by_component r !! c = None ∧
          component_by_plugin r' = <[plugin_id m := c]> (component_by_plugin r) ∧
          plugin_by_component r' = <[c := plugin_id m]> (plugin_by_component r)
      | None => component_by_plugin r' = component_by_plugin r ∧
          plugin_by_component r' = plugin_by_component r
      end
  | Err _ => r' = r
  end.
Proof.
  unfold register_plugin.
  destruct (PluginManifest_validate m) as [[]|e] eqn:Hm; simpl; [|done].
  apply PluginManifest_validate_ok in Hm.
  destruct (contains_key (plugins r) _) eqn:Hc; simpl; [done|].
  apply contains_key_false in Hc. destruct cid as [c|]; simpl; [|done].
  destruct (contains_key (plugin_by_component r) c) eqn:Hb; simpl; [done|].
  by apply contains_key_false in Hb.
Qed.

Lemma plugin_step_wf r r' : plugin_step r r' → plugin_registry_wf r → plugin_registry_wf r'.
Proof.
  intros (m & cid & ->) Hwf. pose proof (register_plugin_cases r m cid) as Hcase. simpl in Hcase.
  destruct (register_plugin r m cid) as [[[]|e] r'] eqn:Hrun; simpl in *; [|by subst].
  destruct Hcase as (Hm & Hnone & Hp & Hb). destruct Hwf as [Hk Hbij Hknown].
  assert (component_by_plugin r !! plugin_id m = None) as Hcb.
  { apply eq_None_not_Some. intros [v Hv]%Hknown. congruence. }
  destruct cid as [c|].
  - destruct Hb as (Hc & Hcp & Hpc). constructor; rewrite ?Hp, ?Hcp, ?Hpc.
    + by apply map_Forall_insert_2.
    + intros id cid. rewrite !lookup_insert_Some, <- Hbij. naive_solver.
    + intros id. rewrite !lookup_insert_is_Some. naive_solver.
  - destruct Hb as [Hcp Hpc]. constructor; rewrite ?Hp, ?Hcp, ?Hpc.
    + by apply map_Forall_insert_2.
    + done.
    + intros id. rewrite !lookup_insert_is_Some.
      destruct (decide (plugin_id m = id)); naive_solver.
Qed.

Lemma plugin_registry_new_wf : plugin_registry_wf plugin_registry_new.
Proof.
  constructor; simpl; [apply map_Forall_empty| |].
  - intros id cid. by rewrite !lookup_empty.
  - intros id [? Hid]. by rewrite lookup_empty in Hid.
Qed.

Lemma plugin_registry_wf_valid r : plugin_registry_wf r → validate_plugins r = registry_valid.
Proof.
  intros [Hk _ _]. apply from_issues_valid, bind_nil. intros m [id Hm]%elem_of_hash_values.
  destruct (Hk _ _ Hm) as [_ Hok%PluginManifest_validate_ok]. by rewrite Hok.
Qed.

(** After any sequence of registrations the plugin registry holds only valid
    manifests under their own ids, its two component maps are inverse to each other and
    bind only registered plugins, and [validate] reports no issue. *)
Theorem plugin_registry_invariant r :
  rtc plugin_step plugin_registry_new r →
  plugin_registry_wf r ∧ validate_plugins r = registry_valid.
Proof.
  intros Hrun. assert (plugin_registry_wf r) as Hwf.
  { pose proof plugin_registry_new_wf as Hwf. induction Hrun; eauto using plugin_step_wf. }
  split; [done|]. by apply plugin_registry_wf_valid.
Qed.

(* ------------------------------------------------------------------ *)
(** ** The component registry *)

Definition definition_ok (d : ComponentDefinition) : Prop :=
  blank (name (metadata d)) = false ∧ blank (version (metadata d)) = false.

Lemma validate_component_definition_ok d :
  validate_component_definition d = Ok tt ↔ definition_ok d.
Proof. unfold validate_component_definition, definition_ok. repeat case_match; naive_solver. Qed.

Record component_registry_wf (r : ComponentRegistry) : Prop := {
  components_keyed : map_Forall (λ id d, component_id d = id ∧ definition_ok d) (components r);
  instances_keyed : map_Forall (λ id i, instance_id i = id ∧
    is_Some (components r !! inst_component_id i)) (instances r)
}.

Inductive component_step : ComponentRegistry → ComponentRegistry → Prop :=
  | step_register_component r d : component_step r (register_component r d).2
  | step_register_instance r i : component_step r (register_instance r i).2.

Lemma component_step_wf r r' :
  component_step r r' → component_registry_wf r → component_registry_wf r'.
Proof.
  destruct 1 as [r d|r i]; intros Hwf; pose proof Hwf as [Hc Hi].
  - unfold register_component.
    destruct (validate_component_definition d) as [[]|e] eqn:Hd; simpl; [|done].
    apply validate_component_definition_ok in Hd.
    destruct (contains_key _ _) eqn:Hk; simpl; [done|].
    constructor; simpl; [by apply map_Forall_insert_2|].
    intros id i Hid. destruct (Hi _ _ Hid) as [-> Hs]. split; [done|].
    apply lookup_insert_is_Some'. auto.
  - unfold register_instance. destruct (contains_key _ _) eqn:Hk; simpl; [|done].
    apply contains_key_true in Hk.
    destruct (contains_key (instances r) _); simpl; [done|].
    constructor; simpl; [done|]. by apply map_Forall_insert_2.
Qed.

Lemma component_registry_wf_valid r :
  component_registry_wf r → validate_components r = registry_valid.
Proof.
  intros [Hc Hi]. apply from_issues_valid.
  rewrite !bind_nil; [done|..].
  - intros i [id Hid]%elem_of_hash_values. destruct (Hi _ _ Hid) as [_ Hs].
    by rewrite (proj2 (contains_key_true _ _) Hs).
  - intros d [id Hd]%elem_of_hash_values.
    destruct (Hc _ _ Hd) as [_ Hok%validate_component_definition_ok]. by rewrite Hok.
Qed.

(** After any sequence of registrations every stored component has a name and
    a version, every instance belongs to a registered component, [validate] reports no
    issue, and [list] is the registered components, each once, in the order of their ids,
    whatever order the hash map is walked in. *)
Theorem component_registry_invariant r :
  rtc component_step component_registry_new r →
  component_registry_wf r ∧ validate_components r = registry_valid ∧
  NoDup (component_id <$> list_components r) ∧
  StronglySorted (by_key (λ d, id_to_string (component_id d))) (list_components r) ∧
  ∀ d, d ∈ list_components r ↔ components r !! component_id d = Some d.
Proof.
  intros Hrun. assert (component_registry_wf r) as Hwf.
  { assert (component_registry_wf component_registry_new) as Hwf
      by (constructor; apply map_Forall_empty).
    induction Hrun; eauto using component_step_wf. }
  split; [done|]. split; [by apply component_registry_wf_valid|].
  destruct Hwf as [Hc _]. unfold list_components. split; [|split].
  - rewrite sort_by_key_perm. apply NoDup_hash_values_key.
    intros id d Hd. by destruct (Hc _ _ Hd).
  - apply sort_by_key_sorted.
  - intros d. rewrite elem_of_sort_by_key, elem_of_hash_values. split; [|by eauto].
    intros [id Hd]. by destruct (Hc _ _ Hd) as [<- _].
Qed.

(* ------------------------------------------------------------------ *)
(** ** The contract registry *)

Record contract_registry_wf (r : ContractRegistry) : Prop := {
  contracts_keyed : map_Forall (λ id d, contract_id d = id) (contracts r);
  contracts_indexed : ∀ nm id, id ∈ default [] (contracts_by_name r !! nm) ↔
    ∃ d, contracts r !! id = Some d ∧ contract_name d = nm;
  contracts_once : ∀ nm, NoDup (default [] (contracts_by_name r !! nm))
}.

Definition contract_step (r r' : ContractRegistry) : Prop :=
  ∃ d, r' = (register_contract r d).2.

Lemma contract_step_wf r r' :
  contract_step r r' → contract_registry_wf r → contract_registry_wf r'.
Proof.
  intros [d ->] Hwf. unfold register_contract.
  destruct (blank _); simpl; [done|].
  destruct (contains_key _ _) eqn:Hk; simpl; [done|]. apply contains_key_false in Hk.
  destruct Hwf as [Hkey Hidx Honce].
  assert (∀ nm, contract_id d ∉ default [] (contracts_by_name r !! nm)) as Hfresh.
  { intros nm. rewrite Hidx. intros (? & ? & _). congruence. }
  constructor; simpl.
  - by apply map_Forall_insert_2.
  - intros nm id. setoid_rewrite lookup_insert_Some.
    destruct (decide (contract_name d = nm)) as [<-|Hne].
    + rewrite lookup_insert_eq. simpl. rewrite elem_of_app, list_elem_of_singleton, Hidx.
      split; [|naive_solver].
      intros [(d' & Hd' & Hnm)| ->]; [|naive_solver].
      exists d'. split; [|done]. right. split; [congruence|done].
    + rewrite lookup_insert_ne by done. rewrite Hidx.
      split; [|naive_solver]. intros (d' & Hd' & Hnm). exists d'.
      split; [|done]. right. split; [congruence|done].
  - intros nm. destruct (decide (contract_name d = nm)) as [<-|Hne].
    + rewrite lookup_insert_eq. simpl. apply NoDup_app. split; [done|]. split.
      * intros id Hid ->%list_elem_of_singleton. by eapply Hfresh.
      * apply NoDup_singleton.
    + by rewrite lookup_insert_ne.
Qed.

(** The name index of the contract registry is complete: after any sequence of
    registrations [find_by_name] returns exactly the registered contracts of that name, each
    once, ordered by version. *)
Theorem contract_index_complete r nm :
  rtc contract_step contract_registry_new r →
  (∀ d, d ∈ find_contracts_by_name r nm ↔
     contracts r !! contract_id d = Some d ∧ contract_name d = nm) ∧
  NoDup (find_contracts_by_name r nm) ∧
  StronglySorted (by_key version_key) (find_contracts_by_name r nm).
Proof.
  intros Hrun. assert (contract_registry_wf r) as [Hkey Hidx Honce].
  { assert (contract_registry_wf contract_registry_new) as Hwf.
    { constructor; simpl; [apply map_Forall_empty|..].
      - intros nm' id. rewrite lookup_empty. simpl. setoid_rewrite lookup_empty.
        rewrite elem_of_nil. naive_solver.
      - intros nm'. rewrite lookup_empty. constructor. }
    induction Hrun; eauto using contract_step_wf. }
  assert (find_contracts_by_name r nm = sort_by_key version_key
    (omap (λ id, contracts r !! id) (default [] (contracts_by_name r !! nm)))) as ->.
  { unfold find_contracts_by_name. by destruct (contracts_by_name r !! nm). }
  split; [|split; [|apply sort_by_key_sorted]].
  - intros d. rewrite elem_of_sort_by_key, list_elem_of_omap. setoid_rewrite Hidx. split.
    + intros (id & (d' & Hd & Hnm) & Hd'). assert (d' = d) as -> by congruence.
      by rewrite (Hkey _ _ Hd).
    + intros [Hd Hnm]. by eauto.
  - rewrite sort_by_key_perm. specialize (Honce nm). revert Honce. clear -Hkey.
    induction (default [] (contracts_by_name r !! nm)) as [|id l IH]; simpl; [by constructor|].
    intros [Hid Hl]%NoDup_cons. destruct (contracts r !! id) as [d|] eqn:Hd; [|by apply IH].
    constructor; [|by apply IH]. rewrite list_elem_of_omap. intros (id' & Hid' & Hd').
    apply Hid. rewrite <- (Hkey _ _ Hd), (Hkey _ _ Hd'). done.
Qed.

End facts.

(* ------------------------------------------------------------------ *)
(** ** Concrete registries *)

Module RegistrySample.
#[local] Existing Instance sample_externals.
#[local] Existing Instance insertion_free_order.

Definition contract_a : ContractDescriptor :=
  mkContract (mkId (mkUuid 1)) "network.flow" (mkVersion 1 2 0) None true ReqBackwardCompatible.
Definition contract_b : ContractDescriptor :=
  mkContract (mkId (mkUuid 2)) "network.flow" (mkVersion 1 0 0) None true ReqBackwardCompatible.
Definition contracts_ab : ContractRegistry :=
  (register_contract (register_contract contract_registry_new contract_a).2 contract_b).2.

Lemma contract_index_complete_witness :
  StronglySorted (by_key version_key) (find_contracts_by_name contracts_ab "network.flow") ∧
  find_contracts_by_name contracts_ab "network.flow" = [contract_b; contract_a].
Proof.
  split; [|vm_compute; reflexivity].
  eapply (contract_index_complete contracts_ab "network.flow").
  apply (rtc_l _ _ (register_contract contract_registry_new contract_a).2); [by exists contract_a|].
  apply rtc_once. by exists contract_b.
Defined.

Definition manifest_a : PluginManifest :=
  mkPluginManifest _ (mkId (mkUuid 3)) "flow" PTDetection "network" "" "1.0.0" VersionRange_any
    VersionRange_any [] L1Observable Streaming true [contract_a] [] [] [] [] [] []
    HealthSchema_default [] [] [] [] Stateless SupportNone SupportNone.
Definition plugins_a : PluginRegistry :=
  (register_plugin plugin_registry_new manifest_a (Some (mkId (mkUuid 9)))).2.

Lemma plugin_registry_invariant_witness :
  validate_plugins plugins_a = registry_valid ∧ size (plugins plugins_a) = 1%nat.
Proof.
  split; [|vm_compute; reflexivity].
  apply (plugin_registry_invariant plugins_a), rtc_once.
  by exists manifest_a, (Some (mkId (mkUuid 9))).
Defined.

Definition definition_a : ComponentDefinition :=
  mkDefinition (mkId (mkUuid 1)) Plugin
    (mkMetadata "collector" "1.0.0" (mkVersion 1 0 0) None None [] Streaming None Privacy.Internal
       [] [] [] [] [] [])
    [] [] [] [] HealthReference_default [] [] [] (mkTimestamp 0) (mkTimestamp 0).
Definition components_a : ComponentRegistry :=
  (register_component component_registry_new definition_a).2.

Lemma component_registry_invariant_witness :
  validate_components components_a = registry_valid ∧ list_components components_a = [definition_a].
Proof.
  split; [|vm_compute; reflexivity].
  apply (component_registry_invariant components_a), rtc_once, step_register_component.
Defined.
End RegistrySample.
