(* ===== verification/Kahn.v ===== *)
(** * Topological sorting by indegrees

    The loop that [PipelineDag::topological_order] and the resolver's
    [compute_startup_order] share: a queue of nodes without unmet dependencies, a map
    of remaining indegrees, and a graph that yields the dependents of a node. The two
    differ in how the graph yields the dependents ([take]) and in whether the queue is
    sorted again after each node ([reorder]); both are parameters here.

    The section proves, for any such instance: the fuel suffices, the result has every
    dependency before its dependents, and it contains every node exactly when the
    dependency relation has no cycle. *)

From S2P Require Import Prelude Collections.

#[local] Open Scope N_scope.

Section kahn.
Context {K : Type} `{Countable K} {G : Type}.
Variable take : G → K → list K * G.
Variable reorder : list K → list K.

(** The inner loop: one indegree less for each dependent; at zero it is queued. *)
(* [pipeline/dag.rs:285-292] PipelineDag::topological_order *)
Fixpoint release (dependents : list K) (indegree : gmap K N) (queue : list K)
    : gmap K N * list K :=
  match dependents with
  | [] => (indegree, queue)
  | d :: ds =>
      match indegree !! d with
      | None => release ds indegree queue
      | Some count =>
          let count := saturating_sub count 1 in
          release ds (<[d := count]> indegree) (if count =? 0 then queue ++ [d] else queue)
      end
  end.

(** The outer loop; [None] when the fuel runs out. *)
(* [pipeline/dag.rs:280-293] PipelineDag::topological_order *)
Fixpoint drain (fuel : nat) (g : G) (indegree : gmap K N) (queue ordered : list K)
    : option (list K) :=
  match queue with
  | [] => Some ordered
  | n :: queue =>
      match fuel with
      | O => None
      | S fuel' =>
          let '(dependents, g') := take g n in
          let '(indegree', queue') := release dependents indegree queue in
          drain fuel' g' indegree' (reorder queue') (ordered ++ [n])
      end
  end.

(* ------------------------------------------------------------------ *)
(** ** Counting edges *)

(** An edge [(d, k)]: [k] depends on [d]. Edges may be repeated. *)
Variable E : list (K * K).
Variable keys : gset K.

Definition remaining (done : list K) (k : K) : N :=
  len (filter (λ p, p.2 = k ∧ p.1 ∉ done) E).
Definition occurrences (k : K) (l : list K) : N := len (filter (λ x, x = k) l).
Definition targets (n : K) : list K := (filter (λ p, p.1 = n) E).*2.

Lemma occurrences_cons k x l :
  occurrences k (x :: l) = (if decide (x = k) then 1 else 0) + occurrences k l.
Proof. unfold occurrences. rewrite filter_cons. case_decide; by rewrite ?len_cons. Qed.

Lemma occurrences_perm k l1 l2 : l1 ≡ₚ l2 → occurrences k l1 = occurrences k l2.
Proof. unfold occurrences, len. by intros ->. Qed.

Lemma remaining_snoc done n k :
  n ∉ done → remaining done k = remaining (done ++ [n]) k + occurrences k (targets n).
Proof.
  intros Hn. unfold remaining, targets. induction E as [|[d t] E' IH]; [done|].
  destruct (decide (d = n)) as [->|Hdn].
  - rewrite (filter_cons_False (λ p, p.2 = k ∧ p.1 ∉ done ++ [n])) by set_solver.
    rewrite (filter_cons_True (λ p, p.1 = n)) by done.
    rewrite fmap_cons, occurrences_cons. simpl. destruct (decide (t = k)) as [->|Htk].
    + rewrite filter_cons_True by done. rewrite len_cons, IH. lia.
    + rewrite filter_cons_False by (intros [??]; done). rewrite IH. lia.
  - rewrite (filter_cons_False (λ p, p.1 = n)) by done.
    destruct (decide (t = k ∧ d ∉ done)) as [Hin|Hout].
    + rewrite !filter_cons_True by (simpl; set_solver). rewrite !len_cons, IH. lia.
    + rewrite !filter_cons_False by (simpl; set_solver). done.
Qed.

Lemma remaining_zero done k : remaining done k = 0 ↔ ∀ d, (d, k) ∈ E → d ∈ done.
Proof.
  unfold remaining, len. split.
  - intros Hz d Hd. destruct (decide (d ∈ done)) as [|Hnd]; [done|].
    assert ((d, k) ∈ filter (λ p, p.2 = k ∧ p.1 ∉ done) E) as Hin
      by (apply list_elem_of_filter; split_and!; done).
    destruct (filter _ E); [by apply elem_of_nil in Hin|]. simpl in Hz. lia.
  - intros Hd. destruct (filter _ E) as [|[d t] l] eqn:Hf; [done|].
    assert ((d, t) ∈ filter (λ p, p.2 = k ∧ p.1 ∉ done) E) as Hin by (rewrite Hf; left).
    apply list_elem_of_filter in Hin as [[??] ?]. simpl in *. subst. exfalso. auto.
Qed.
(* ------------------------------------------------------------------ *)
(** ** The invariant *)

(** [good g done]: the graph still yields the dependents of every node not in
    [done]. *)
Variable good : G → list K → Prop.
Hypothesis take_targets : ∀ g done n, good g done → n ∉ done →
  (take g n).1 ≡ₚ targets n ∧ good (take g n).2 (done ++ [n]).
Hypothesis reorder_perm : ∀ l, reorder l ≡ₚ l.
Hypothesis targets_known : ∀ d k, (d, k) ∈ E → k ∈ keys.

Record queued_inv (count : K → N) (indegree : gmap K N) (queue ordered : list K) : Prop := {
  inv_keys : ∀ k, is_Some (indegree !! k) ↔ k ∈ keys;
  inv_count : ∀ k c, indegree !! k = Some c → c = count k;
  inv_NoDup : NoDup (ordered ++ queue);
  inv_zero : ∀ k, k ∈ ordered ++ queue ↔ indegree !! k = Some 0
}.

Lemma queued_inv_ext f f' indegree queue ordered :
  (∀ k, f k = f' k) → queued_inv f indegree queue ordered → queued_inv f' indegree queue ordered.
Proof. intros Hf [? Hc ? ?]. constructor; try done. intros k c Hk. rewrite <- Hf. auto. Qed.

Lemma release_inv ds indegree queue ordered f :
  Forall (λ d, d ∈ keys) ds →
  queued_inv (λ k, f k + occurrences k ds) indegree queue ordered →
  queued_inv f (release ds indegree queue).1 (release ds indegree queue).2 ordered.
Proof.
  revert indegree queue. induction ds as [|d ds IH]; intros indegree queue Hds Hinv; simpl.
  { eapply queued_inv_ext; [|done]. intros k. unfold occurrences, len. simpl. lia. }
  apply Forall_cons in Hds as [Hd Hds].
  destruct Hinv as [Hk Hc Hnd Hz].
  destruct (proj2 (Hk d) Hd) as [c Hdc]. rewrite Hdc.
  pose proof (Hc _ _ Hdc) as Hcd. rewrite occurrences_cons, decide_True in Hcd by done.
  assert (d ∉ ordered ++ queue) as Hnew.
  { rewrite Hz, Hdc. intros [= ->]. lia. }
  unfold saturating_sub. apply IH; [done|]. constructor.
  - intros k. rewrite lookup_insert_is_Some, <- Hk.
    destruct (decide (d = k)) as [<-|]; naive_solver.
  - intros k c'. rewrite lookup_insert_Some. intros [[<- <-]|[Hne Hkc]]; [lia|].
    rewrite (Hc _ _ Hkc), occurrences_cons, decide_False by done. lia.
  - destruct (c - 1 =? 0); [|done]. rewrite (assoc_L (++)). apply NoDup_app.
    split; [done|]. split; [|apply NoDup_singleton]. set_solver.
  - intros k. destruct (decide (d = k)) as [<-|Hne].
    + rewrite lookup_insert_eq. destruct (c - 1 =? 0) eqn:Hc0; bool_prop.
      * split; [by intros _; rewrite Hc0|]. intros _. set_solver.
      * split; [done|]. intros [= Hc1]. done.
    + rewrite lookup_insert_ne by done. rewrite <- Hz.
      destruct (c - 1 =? 0); [|done]. set_solver.
Qed.

(** Dependencies come first. *)
Definition respects (ordered : list K) : Prop :=
  ∀ l1 k l2, ordered = l1 ++ k :: l2 → ∀ d, (d, k) ∈ E → d ∈ l1.

Lemma respects_snoc ordered n :
  respects ordered → (∀ d, (d, n) ∈ E → d ∈ ordered) → respects (ordered ++ [n]).
Proof.
  intros Hr Hn l1 k l2 Heq d Hd.
  destruct l2 as [|x l2] using rev_ind.
  - apply app_inj_tail in Heq as [-> ->]. auto.
  - rewrite app_comm_cons, (assoc_L (++)) in Heq. apply app_inj_tail in Heq as [-> ->].
    by eapply Hr.
Qed.

Lemma drain_spec fuel g indegree queue ordered :
  queued_inv (remaining ordered) indegree queue ordered →
  good g ordered → respects ordered →
  (size keys ≤ length ordered + fuel)%nat →
  ∃ out, drain fuel g indegree queue ordered = Some out ∧
    NoDup out ∧ respects out ∧ (∀ k, k ∈ out ↔ k ∈ keys ∧ ∀ d, (d, k) ∈ E → d ∈ out).
Proof.
  revert g indegree queue ordered.
  induction fuel as [|fuel IH]; intros g indegree [|n queue] ordered Hinv Hgood Hresp Hfuel.
  1, 3: exists ordered; destruct Hinv as [Hk Hc Hnd Hz]; rewrite app_nil_r in *;
    split_and!; try done; intros k; rewrite Hz, <- Hk; split;
    [ intros Hk0; split; [by eauto|]; apply remaining_zero; symmetry; by apply Hc
    | intros [[c Hkc] Hd%remaining_zero]; rewrite Hkc, (Hc _ _ Hkc); by f_equal ].
  - exfalso. destruct Hinv as [Hk Hc Hnd Hz].
    assert (list_to_set (ordered ++ n :: queue) ⊆ keys) as Hsub%subseteq_size.
    { intros k. rewrite elem_of_list_to_set, Hz, <- Hk. eauto. }
    rewrite size_list_to_set, length_app in Hsub by done. simpl in Hsub. lia.
  - simpl. assert (n ∉ ordered) as Hn.
    { pose proof (inv_NoDup _ _ _ _ Hinv) as Hnd. apply NoDup_app in Hnd. set_solver. }
    destruct (take_targets g ordered n Hgood Hn) as [Hperm Hgood'].
    destruct (take g n) as [ds g']. simpl in *.
    assert (queued_inv (remaining (ordered ++ [n])) (release ds indegree queue).1
      (release ds indegree queue).2 (ordered ++ [n])) as Hrel.
    { apply release_inv.
      - rewrite Hperm. apply Forall_forall. intros k. unfold targets.
        rewrite list_elem_of_fmap. intros ([d k'] & -> & [_ Hin]%list_elem_of_filter).
        by eapply targets_known.
      - destruct Hinv as [Hk Hc Hnd Hz]. constructor; try done.
        + intros k c Hkc. rewrite (Hc _ _ Hkc), (remaining_snoc _ _ _ Hn).
          by rewrite (occurrences_perm _ _ _ Hperm).
        + by rewrite <- (assoc_L (++)).
        + intros k. rewrite <- (assoc_L (++)). apply Hz. }
    destruct (release ds indegree queue) as [indegree' queue']. simpl in *.
    apply IH; [|done| |rewrite length_app; simpl; lia].
    + destruct Hrel as [Hk Hc Hnd Hz]. constructor; [done..| |].
      * by rewrite reorder_perm.
      * intros k. by rewrite reorder_perm.
    + apply respects_snoc; [done|]. apply remaining_zero. symmetry.
      destruct Hinv as [Hk Hc Hnd Hz]. apply Hc, Hz. set_solver.
Qed.

End kahn.

(* ------------------------------------------------------------------ *)
(** ** Completeness: every node is ordered iff there is no cycle *)

Section completeness.
Context {K : Type} `{Countable K}.
Variable E : list (K * K).
Variable keys : gset K.
Hypothesis targets_known : ∀ d k, (d, k) ∈ E → k ∈ keys.

Definition depends_on (k d : K) : Prop := (d, k) ∈ E.
Definition acyclic : Prop := ∀ k, ¬ tc depends_on k k.

Lemma respects_tc out l1 k l2 d :
  respects E out → out = l1 ++ k :: l2 → tc depends_on k d → d ∈ l1.
Proof.
  intros Hr Heq Htc. revert l1 l2 Heq.
  induction Htc as [k d Hd|k c d Hc _ IH]; intros l1 l2 Heq; [by eapply Hr|].
  pose proof (Hr _ _ _ Heq _ Hc) as Hin.
  apply list_elem_of_split in Hin as (m1 & m2 & ->).
  rewrite <- (assoc_L (++)) in Heq. simpl in Heq. apply elem_of_app. left. by eapply IH.
Qed.

Lemma respects_irreflexive out k :
  NoDup out → respects E out → k ∈ out → ¬ tc depends_on k k.
Proof.
  intros Hnd Hr Hk Htc. apply list_elem_of_split in Hk as (l1 & l2 & ->).
  pose proof (respects_tc _ _ _ _ _ Hr eq_refl Htc) as Hin.
  apply NoDup_app in Hnd. set_solver.
Qed.

Lemma complete_iff out :
  NoDup out → respects E out →
  (∀ k, k ∈ out ↔ k ∈ keys ∧ ∀ d, (d, k) ∈ E → d ∈ out) →
  (∀ d k, (d, k) ∈ E → d ∈ keys) →
  (∀ k, k ∈ keys → k ∈ out) ↔ acyclic.
Proof.
  intros Hnd Hr Hmax Hclosed. split.
  - intros Hall k Htc. assert (∀ a b, tc depends_on a b → a ∈ keys) as Hk.
    { intros a b [? ? Hd|? ? ? Hd _]; eapply targets_known, Hd. }
    eapply respects_irreflexive; eauto.
  - intros Hac k Hk. assert (sn depends_on k) as Hsn.
    { apply tc_finite_sn; [exact Hac|]. exists (E.*1). intros d Hd. clear Hk.
      induction Hd as [k d Hd|k c d _ _ IH]; [|apply IH].
      apply list_elem_of_fmap. by exists (d, k). }
    induction Hsn as [k _ IH]. apply Hmax. split; [done|]. intros d Hd.
    apply IH; [done|]. by eapply Hclosed.
Qed.

Lemma length_size_iff out :
  NoDup out → (∀ k, k ∈ out → k ∈ keys) →
  length out = size keys ↔ ∀ k, k ∈ keys → k ∈ out.
Proof.
  intros Hnd Hsub. rewrite <- (size_list_to_set (C:=gset K) out) by done. split.
  - intros Hsz k Hk. apply (elem_of_list_to_set (C:=gset K)).
    rewrite (set_subseteq_size_eq (list_to_set out) keys); [done| |lia].
    intros x. rewrite elem_of_list_to_set. apply Hsub.
  - intros Hall. f_equal. apply leibniz_equiv. intros x. rewrite elem_of_list_to_set.
    split; auto.
Qed.

End completeness.

(* ------------------------------------------------------------------ *)
(** ** One more edge *)

Section one_edge.
Context {K : Type} `{Countable K}.
Implicit Types E : list (K * K).

Lemma remaining_snoc_edge E dep n k :
  remaining (E ++ [(dep, n)]) [] k = remaining E [] k + (if decide (n = k) then 1 else 0).
Proof.
  unfold remaining. rewrite filter_app, len_app. f_equal. case_decide.
  - rewrite filter_cons_True; [done|]. split; [done|apply not_elem_of_nil].
  - rewrite filter_cons_False; [done|]. by intros [??].
Qed.

Lemma targets_snoc_edge E dep n k :
  targets (E ++ [(dep, n)]) k = targets E k ++ (if decide (dep = k) then [n] else []).
Proof.
  unfold targets. rewrite filter_app, fmap_app. f_equal.
  rewrite filter_cons. simpl. by case_decide.
Qed.

End one_edge.

(** The nodes without dependencies, as both callers collect them. *)
Lemma elem_of_zero_keys {K} `{Countable K} `{HashOrder} (ind : gmap K N) k :
  k ∈ (filter (λ e, e.2 = 0) (hash_entries ind)).*1 ↔ ind !! k = Some 0.
Proof.
  rewrite list_elem_of_fmap. setoid_rewrite list_elem_of_filter. split.
  - intros ([k' c] & -> & Hc0 & Hin). simpl in *. subst.
    by apply elem_of_hash_entries in Hin.
  - intros Hin. exists (k, 0). by rewrite elem_of_hash_entries.
Qed.
