(* ===== verification/Pipeline.v ===== *)
(** * The pipeline ([platform/src/pipeline])

    Stages, the DAG of pipeline nodes with its validation, topological order and
    execution plan, backpressure levels, checkpoints, replay contexts and the
    scheduler's readiness decision. *)

From S2P Require Import Prelude Collections RustStr Effects Contracts Topics EventBus Manifest Component.
From S2P Require Import Kahn.
From Stdlib Require Import SpecFloat.

#[local] Open Scope string_scope.
#[local] Open Scope list_scope.
#[local] Open Scope N_scope.

(* ------------------------------------------------------------------ *)
(** ** [stage.rs] *)

(* [pipeline/stage.rs] PipelineStage *)
Inductive PipelineStage :=
  | StSource | StIngest | StTransform | StNormalize | StPrivacy | StProtocol | StEnrichment
  | StContext | StDetection | StEvidence | StRisk | StCorrelation | StGraph | StResponse
  | StReport.
#[export] Instance PipelineStage_eq_dec : EqDecision PipelineStage.
Proof. solve_decision. Defined.

(* [pipeline/stage.rs] PipelineStage::can_emit_response_execution *)
Definition can_emit_response_execution (s : PipelineStage) : bool := false.

(* [pipeline/stage.rs] StageReadiness *)
Inductive StageReadiness := NotReady | Ready | Blocked | StagePaused.
(* [pipeline/stage.rs] IdempotencyScope *)
Inductive IdempotencyScope :=
  | ByEventId | TraceAndStage | ProducerStreamSequence | CheckpointCursor.

(* [pipeline/stage.rs] StageBinding *)
Record StageBinding := mkStageBinding {
  sb_component_id : option ComponentId;
  sb_plugin_id : option PluginId;
  sb_input_topics : list TopicName;
  sb_output_topics : list TopicName;
  sb_required_permissions : list PermissionKey;
  sb_retry_policy : RetryPolicy;
  sb_priority_lane : PriorityLane;
  sb_idempotency_scope : IdempotencyScope;
  sb_checkpoint_required : bool
}.
(* [pipeline/stage.rs] StageBinding::metadata_only *)
Definition metadata_only (inputs outputs : list TopicName) : StageBinding :=
  mkStageBinding None None inputs outputs [] RetryPolicy_default P2Normal ByEventId false.

(* [pipeline/stage.rs] PipelineNodeRuntimeState *)
Record PipelineNodeRuntimeState := mkNodeState {
  ns_component_state : ComponentState;
  ns_readiness : StageReadiness;
  ns_health_status : HealthStatus;
  ns_blocked_reasons_redacted : list string
}.
(* [pipeline/stage.rs] Default for PipelineNodeRuntimeState::default *)
Definition PipelineNodeRuntimeState_default : PipelineNodeRuntimeState :=
  mkNodeState Discovered NotReady HUnknown [].

(* ------------------------------------------------------------------ *)
(** ** [dag.rs]: nodes and plans *)

(* [pipeline/dag.rs] PipelineDagError *)
Inductive PipelineDagError :=
  | DagEmptyField (field : string)
  | DuplicateNode (id : PipelineNodeId)
  | MissingNode (id : PipelineNodeId)
  | CycleDetected (cycle : list PipelineNodeId).
#[export] Instance PipelineDagError_eq_dec : EqDecision PipelineDagError.
Proof. solve_decision. Defined.

(* [pipeline/dag.rs] Display for PipelineDagError::fmt *)
Definition dag_error_to_string `{Externals} (e : PipelineDagError) : string :=
  match e with
  | DagEmptyField field => field ++ " must not be empty"
  | DuplicateNode id => "duplicate pipeline node: " ++ id_to_string id
  | MissingNode id => "missing pipeline node: " ++ id_to_string id
  | CycleDetected _ => "pipeline DAG contains a cycle"
  end%string.

(* [pipeline/dag.rs] require_non_empty *)
Definition require_non_empty (field value : string) : result string PipelineDagError :=
  if blank value then Err (DagEmptyField field) else Ok value.

(* [pipeline/dag.rs] PipelineNode *)
Record PipelineNode := mkNode {
  node_id : PipelineNodeId;
  node_name : string;
  node_stage : PipelineStage;
  node_binding : StageBinding;
  node_dependencies : list PipelineNodeId;
  node_optional : bool;
  node_enabled : bool;
  node_runtime_state : PipelineNodeRuntimeState
}.
(* [pipeline/dag.rs] PipelineNode::new *)
Definition PipelineNode_new (nm : string) (stage : PipelineStage) (binding : StageBinding)
    : ST (result PipelineNode PipelineDagError) :=
  let$ id := new_v4 in
  st_ret (
    let? nm := require_non_empty "pipeline node name" nm in
    Ok (mkNode id nm stage binding [] false true PipelineNodeRuntimeState_default)).

(** A node with other dependencies. *)
Definition with_dependencies (n : PipelineNode) (deps : list PipelineNodeId) : PipelineNode :=
  mkNode (node_id n) (node_name n) (node_stage n) (node_binding n) deps (node_optional n)
    (node_enabled n) (node_runtime_state n).
(* [pipeline/dag.rs] PipelineNode::depends_on *)
Definition node_depends_on (n : PipelineNode) (d : PipelineNodeId) : PipelineNode :=
  with_dependencies n (node_dependencies n ++ [d]).

(* [pipeline/dag.rs] ExecutionPlanStep *)
Record ExecutionPlanStep := mkStep {
  step_node_id : PipelineNodeId;
  step_stage : PipelineStage;
  order_index : N;
  step_input_topics : list TopicName;
  step_output_topics : list TopicName;
  step_priority_lane : PriorityLane;
  step_retry_policy : RetryPolicy;
  idempotency_required : bool;
  step_checkpoint_required : bool
}.
(* [pipeline/dag.rs] ExecutionPlan *)
Record ExecutionPlan := mkPlan {
  plan_pipeline_id : PipelineId;
  steps : list ExecutionPlanStep;
  plan_routes : list EventRoute;
  plan_created_at : Timestamp
}.
(* [pipeline/dag.rs] ExecutionPlan::step_for *)
Definition step_for (p : ExecutionPlan) (id : PipelineNodeId) : option ExecutionPlanStep :=
  find (λ s, bool_decide (step_node_id s = id)) (steps p).

(* [pipeline/dag.rs] PipelineDag *)
Record PipelineDag := mkDag {
  dag_pipeline_id : PipelineId;
  dag_name : string;
  nodes : list PipelineNode;
  dag_created_at : Timestamp;
  dag_updated_at : Timestamp
}.

(* [pipeline/dag.rs] PipelineDag::new *)
Definition PipelineDag_new (nm : string) : ST (result PipelineDag PipelineDagError) :=
  let$ t := now in
  let$ id := new_v4 in
  st_ret (
    let? nm := require_non_empty "pipeline name" nm in
    Ok (mkDag id nm [] t t)).

(* [pipeline/dag.rs] PipelineDag::node *)
Definition dag_node (d : PipelineDag) (id : PipelineNodeId) : option PipelineNode :=
  find (λ n, bool_decide (node_id n = id)) (nodes d).

Definition with_nodes (d : PipelineDag) (ns : list PipelineNode) (t : Timestamp) : PipelineDag :=
  mkDag (dag_pipeline_id d) (dag_name d) ns (dag_created_at d) t.

(* [pipeline/dag.rs] PipelineDag::add_node *)
Definition add_node (d : PipelineDag) (n : PipelineNode)
    : ST (result PipelineNodeId PipelineDagError * PipelineDag) :=
  if existsb (λ e, bool_decide (node_id e = node_id n)) (nodes d)
  then st_ret (Err (DuplicateNode (node_id n)), d)
  else
    let$ t := now in
    st_ret (Ok (node_id n), with_nodes d (nodes d ++ [n]) t).

(** [iter_mut().find(p)] and an update of the element found. *)
Fixpoint update_first {A} (p : A → bool) (f : A → A) (l : list A) : list A :=
  match l with
  | [] => []
  | x :: l' => if p x then f x :: l' else x :: update_first p f l'
  end.

(* [pipeline/dag.rs] PipelineDag::add_dependency *)
Definition add_dependency (d : PipelineDag) (id dep : PipelineNodeId)
    : ST (result unit PipelineDagError * PipelineDag) :=
  match dag_node d dep with
  | None => st_ret (Err (MissingNode dep), d)
  | Some _ =>
      match dag_node d id with
      | None => st_ret (Err (MissingNode id), d)
      | Some n =>
          if bool_decide (dep ∈ node_dependencies n) then st_ret (Ok tt, d)
          else
            let$ t := now in
            st_ret (Ok tt, with_nodes d
              (update_first (λ n, bool_decide (node_id n = id)) (λ n, node_depends_on n dep)
                 (nodes d)) t)
      end
  end.

(* ------------------------------------------------------------------ *)
(** ** [dag.rs]: order and plan *)

Section dag.
Context `{Externals} `{HashOrder}.

(** The maps [indegree] and [reverse], built node by node. *)
(* [pipeline/dag.rs:262-268] PipelineDag::topological_order *)
Definition add_edge (n : PipelineNodeId)
    (s : gmap PipelineNodeId N * gmap PipelineNodeId (list PipelineNodeId)) (dep : PipelineNodeId)
    : gmap PipelineNodeId N * gmap PipelineNodeId (list PipelineNodeId) :=
  let '(indegree, reverse) := s in
  (<[n := default 0 (indegree !! n) + 1]> indegree,
   <[dep := default [] (reverse !! dep) ++ [n]]> reverse).
(* [pipeline/dag.rs:260-269] PipelineDag::topological_order *)
Definition add_node_edges
    (s : gmap PipelineNodeId N * gmap PipelineNodeId (list PipelineNodeId)) (n : PipelineNode)
    : gmap PipelineNodeId N * gmap PipelineNodeId (list PipelineNodeId) :=
  let '(indegree, reverse) := s in
  foldl (add_edge (node_id n))
    (<[node_id n := default 0 (indegree !! node_id n)]> indegree, reverse)
    (node_dependencies n).

(** [reverse.remove(&node_id).unwrap_or_default()], sorted. *)
(* [pipeline/dag.rs:282-283] PipelineDag::topological_order *)
Definition take_dependents (reverse : gmap PipelineNodeId (list PipelineNodeId))
    (n : PipelineNodeId)
    : list PipelineNodeId * gmap PipelineNodeId (list PipelineNodeId) :=
  (sort_by_key id_to_string (default [] (reverse !! n)), delete n reverse).

(* [pipeline/dag.rs] PipelineDag::topological_order *)
Definition topological_order (d : PipelineDag) : result (list PipelineNodeId) PipelineDagError :=
  let '(indegree, reverse) := foldl add_node_edges (∅, ∅) (nodes d) in
  let ready := sort_by_key id_to_string
    (filter (λ e, e.2 = 0) (hash_entries indegree)).*1 in
  match drain take_dependents (λ q, q) (size indegree) reverse indegree ready [] with
  | Some ordered =>
      if negb (len ordered =? len (nodes d)) then Err (CycleDetected []) else Ok ordered
  | None => Err (CycleDetected [])
  end.

(* [pipeline/dag.rs] PipelineDag::detect_cycle *)
Definition detect_cycle (d : PipelineDag) : option (list PipelineNodeId) :=
  match topological_order d with
  | Err (CycleDetected cycle) => Some cycle
  | _ => None
  end.

(* [pipeline/dag.rs] PipelineDag::validate *)
Definition dag_validate (d : PipelineDag) : result unit PipelineDagError :=
  let ids : gset PipelineNodeId := list_to_set (node_id <$> nodes d) in
  let? _ := for_each (λ n,
    if blank (node_name n) then Err (DagEmptyField "pipeline node name")
    else for_each (λ dep, if bool_decide (dep ∈ ids) then Ok tt else Err (MissingNode dep))
           (node_dependencies n)) (nodes d) in
  match detect_cycle d with
  | Some cycle => Err (CycleDetected cycle)
  | None => Ok tt
  end.

(** The routes of one node, one dependency at a time. *)
(* [pipeline/dag.rs:239-251] PipelineDag::routes *)
Definition dependency_routes (d : PipelineDag) (n : PipelineNode) (dep : PipelineNodeId)
    : result (list EventRoute) PipelineDagError :=
  match dag_node d dep with
  | None => Err (MissingNode dep)
  | Some dependency =>
      try_map (λ topic, map_err (λ _, DagEmptyField "route consumer")
                 (EventRoute_new topic (node_name n)))
        (filter (λ topic, topic ∈ sb_input_topics (node_binding n))
           (sb_output_topics (node_binding dependency)))
  end.
(* [pipeline/dag.rs] PipelineDag::routes *)
Definition dag_routes (d : PipelineDag) : result (list EventRoute) PipelineDagError :=
  let? per_node := try_map (λ n,
    let? per_dep := try_map (dependency_routes d n) (node_dependencies n) in
    Ok (mjoin per_dep)) (nodes d) in
  Ok (mjoin per_node).

(** The step of the node at position [order_index], if it is enabled. *)
(* [pipeline/dag.rs:208-226] PipelineDag::build_execution_plan *)
Definition plan_step (d : PipelineDag) (e : N * PipelineNodeId)
    : result (option ExecutionPlanStep) PipelineDagError :=
  match dag_node d e.2 with
  | None => Err (MissingNode e.2)
  | Some n =>
      if negb (node_enabled n) then Ok None
      else Ok (Some (mkStep (node_id n) (node_stage n) e.1
        (sb_input_topics (node_binding n)) (sb_output_topics (node_binding n))
        (sb_priority_lane (node_binding n)) (sb_retry_policy (node_binding n)) true
        (sb_checkpoint_required (node_binding n))))
  end.

(* [pipeline/dag.rs] PipelineDag::build_execution_plan *)
Definition build_execution_plan (d : PipelineDag) : ST (result ExecutionPlan PipelineDagError) :=
  match (let? _ := dag_validate d in
         let? ordered := topological_order d in
         let? steps := try_map (plan_step d) (enumerate ordered) in
         let? routes := dag_routes d in
         Ok (omap id steps, routes)) with
  | Err e => st_ret (Err e)
  | Ok (steps, routes) =>
      let$ t := now in
      st_ret (Ok (mkPlan (dag_pipeline_id d) steps routes t))
  end.

End dag.

(* ------------------------------------------------------------------ *)
(** ** [backpressure.rs] *)

(** [f32] arithmetic: binary32 of the Standard Library's [SpecFloat], rounding to
    the nearest even. *)
Definition f32_of_usize (n : N) : Quality.f32 := binary_normalize 24 128 (Z.of_N n) 0 false.
Definition f32_div : Quality.f32 → Quality.f32 → Quality.f32 := SFdiv 24 128.
(** [a >= b] on [f32]. *)
Definition f32_ge (a b : Quality.f32) : bool := SFleb b a.

(** The thresholds' literals, as the nearest [f32]. *)
Definition f32_095 : Quality.f32 := S754_finite false 15938355 (-24).
Definition f32_085 : Quality.f32 := S754_finite false 14260634 (-24).
Definition f32_070 : Quality.f32 := S754_finite false 11744051 (-24).
Definition f32_050 : Quality.f32 := S754_finite false 8388608 (-24).

(* [pipeline/backpressure.rs] BackpressureLevel *)
Inductive BackpressureLevel := LNormal | LWarning | LDegraded | LCritical | LShutdownProtection.
#[export] Instance BackpressureLevel_eq_dec : EqDecision BackpressureLevel.
Proof. solve_decision. Defined.

(* [pipeline/backpressure.rs] BackpressureAction *)
Inductive BackpressureAction :=
  | DisableExpensiveEnrichment | SampleLowPriorityEvents | DelayBatchJobs
  | ReduceGraphUpdateFrequency | SkipOptionalPlugins | PreserveCriticalDetection
  | StopNonCriticalWork.

(* [pipeline/backpressure.rs] BackpressureState *)
Record BackpressureState := mkBackpressure {
  level : BackpressureLevel;
  bp_queue_depth : N;
  bp_max_queue_depth : N;
  dropped_low_priority_events : N;
  active_actions : list BackpressureAction
}.
(* [pipeline/backpressure.rs] BackpressureState::normal *)
Definition backpressure_normal (max : N) : BackpressureState := mkBackpressure LNormal 0 max 0 [].

(** The fraction both [utilization] and [classify] compute. *)
(* [pipeline/backpressure.rs:51-55] BackpressureState::utilization *)
Definition utilization_of (depth max : N) : Quality.f32 :=
  if max =? 0 then Quality.f32_zero
  else f32_div (f32_of_usize depth) (f32_of_usize max).
(* [pipeline/backpressure.rs] BackpressureState::utilization *)
Definition utilization (s : BackpressureState) : Quality.f32 :=
  utilization_of (bp_queue_depth s) (bp_max_queue_depth s).

(* [pipeline/backpressure.rs] BackpressurePolicy *)
Record BackpressurePolicy := mkBackpressurePolicy {
  max_queue_depth : N;
  protected_topics : list TopicName;
  protected_priorities : list PriorityLane;
  droppable_priorities : list PriorityLane;
  degradation_actions : list BackpressureAction
}.

(** [expect] on an invalid name panics: [None]. *)
(* [pipeline/backpressure.rs] BackpressurePolicy::v1_default *)
Definition v1_default : option BackpressurePolicy :=
  ts ← mapM (λ s, match TopicName_new s with Ok t => Some t | Err _ => None end)
         [AUDIT_EVENT; RESPONSE_RESULT; RESPONSE_ROLLBACK_RESULT; SECURITY_INCIDENT;
          SECURITY_ALERT; SECURITY_FINDING];
  Some (mkBackpressurePolicy 4096 ts [P0Critical; P1High] [P3Low; P4BestEffort; P5UiRefresh]
    [DisableExpensiveEnrichment; SampleLowPriorityEvents; DelayBatchJobs;
     ReduceGraphUpdateFrequency; SkipOptionalPlugins; PreserveCriticalDetection]).

(* [pipeline/backpressure.rs] BackpressurePolicy::protects_topic *)
Definition protects_topic (p : BackpressurePolicy) (t : TopicName) : bool :=
  bool_decide (t ∈ protected_topics p).
(* [pipeline/backpressure.rs] BackpressurePolicy::may_drop *)
Definition may_drop (p : BackpressurePolicy) (t : TopicName) (lane : PriorityLane) : bool :=
  negb (protects_topic p t) && negb (bool_decide (lane ∈ protected_priorities p))
  && bool_decide (lane ∈ droppable_priorities p).

(* [pipeline/backpressure.rs:114-124] BackpressurePolicy::classify *)
Definition level_of (u : Quality.f32) : BackpressureLevel :=
  if f32_ge u f32_095 then LShutdownProtection
  else if f32_ge u f32_085 then LCritical
  else if f32_ge u f32_070 then LDegraded
  else if f32_ge u f32_050 then LWarning
  else LNormal.
(* [pipeline/backpressure.rs:126-139] BackpressurePolicy::classify *)
Definition actions_of (p : BackpressurePolicy) (l : BackpressureLevel) : list BackpressureAction :=
  match l with
  | LNormal => []
  | LWarning => [SampleLowPriorityEvents]
  | LDegraded => [DisableExpensiveEnrichment; SampleLowPriorityEvents]
  | LCritical => degradation_actions p
  | LShutdownProtection => degradation_actions p ++ [StopNonCriticalWork]
  end.
(* [pipeline/backpressure.rs] BackpressurePolicy::classify *)
Definition classify (p : BackpressurePolicy) (depth : N) : BackpressureState :=
  let l := level_of (utilization_of depth (max_queue_depth p)) in
  mkBackpressure l depth (max_queue_depth p) 0 (actions_of p l).

(* ------------------------------------------------------------------ *)
(** ** [checkpoint.rs] *)

(* [pipeline/checkpoint.rs] CheckpointScope *)
Inductive CheckpointScope :=
  | CSPipeline (pipeline : PipelineId)
  | CSNode (pipeline : PipelineId) (node : PipelineNodeId)
  | CSStage (pipeline : PipelineId) (stage : PipelineStage)
  | CSPlugin (pipeline : PipelineId) (plugin : PluginId)
  | CSPluginStage (pipeline : PipelineId) (plugin : PluginId) (stage : PipelineStage).

(* [pipeline/checkpoint.rs] CheckpointError *)
Inductive CheckpointError :=
  | CheckpointEmptyField (field : string)
  | ForbiddenMetadataKey (key : string).

(* [pipeline/checkpoint.rs] CheckpointHandle *)
Record CheckpointHandle := mkHandle {
  handle_checkpoint_id : CheckpointId;
  handle_scope : CheckpointScope;
  cursor_key : string
}.
(* [pipeline/checkpoint.rs] CheckpointHandle::new *)
Definition CheckpointHandle_new (scope : CheckpointScope) (key : string)
    : ST (result CheckpointHandle CheckpointError) :=
  if blank key then st_ret (Err (CheckpointEmptyField "cursor_key"))
  else
    let$ id := new_v4 in
    st_ret (Ok (mkHandle id scope key)).

(** A [BTreeMap] in key order is the list of its entries. *)
(* [pipeline/checkpoint.rs] CheckpointRecord *)
Record CheckpointRecord := mkCheckpoint {
  checkpoint_id : CheckpointId;
  checkpoint_scope : CheckpointScope;
  checkpoint_cursor : string;
  checkpoint_timestamp : Timestamp;
  metadata_redacted : list (string * string);
  checkpoint_privacy : PrivacyClass;
  stores_raw_payload : bool;
  stores_raw_packet : bool;
  stores_http_body : bool
}.

(* [pipeline/checkpoint.rs:146-153] validate_metadata_keys *)
Definition forbidden_fragments : list string :=
  ["raw_packet"; "payload"; "http_body"; "cookie"; "token"; "credential"; "api_key"].
(* [pipeline/checkpoint.rs] validate_metadata_keys *)
Definition validate_metadata_keys (metadata : list (string * string))
    : result unit CheckpointError :=
  for_each (λ key,
    let normalized := to_ascii_lowercase key in
    if existsb (contains normalized) forbidden_fragments
    then Err (ForbiddenMetadataKey key) else Ok tt) metadata.*1.

(* [pipeline/checkpoint.rs] CheckpointRecord::new *)
Definition CheckpointRecord_new (h : CheckpointHandle) (cursor : string)
    (metadata : list (string * string)) : ST (result CheckpointRecord CheckpointError) :=
  if blank cursor then st_ret (Err (CheckpointEmptyField "cursor"))
  else
    match validate_metadata_keys metadata with
    | Err e => st_ret (Err e)
    | Ok _ =>
        let$ t := now in
        st_ret (Ok (mkCheckpoint (handle_checkpoint_id h) (handle_scope h) cursor t metadata
          Privacy.Internal false false false))
    end.

(* ------------------------------------------------------------------ *)
(** ** [replay.rs] *)

(* [pipeline/replay.rs] ReplayScope *)
Inductive ReplayScope :=
  | RSEvent | RSFinding | RSAlert | RSIncident | RSGraph | RSReport | RSPipeline | RSAttackStory.

(* [pipeline/replay.rs] ReplayContext *)
Record ReplayContext := mkReplay {
  ctx_replay_id : ReplayId;
  replay_scope : ReplayScope;
  replay_started_at : Timestamp;
  source_checkpoint : option CheckpointHandle;
  reason_redacted : string;
  response_execution_disabled : bool;
  firewall_qos_isolation_disabled : bool;
  online_lookup_disabled : bool;
  external_upload_disabled : bool
}.
(* [pipeline/replay.rs] ReplayContext::new *)
Definition ReplayContext_new (scope : ReplayScope) (why : string) : ST ReplayContext :=
  let$ id := new_v4 in
  let$ t := now in
  st_ret (mkReplay id scope t None why true true true true).
(* [pipeline/replay.rs] ReplayContext::with_checkpoint *)
Definition with_checkpoint (c : ReplayContext) (h : CheckpointHandle) : ReplayContext :=
  mkReplay (ctx_replay_id c) (replay_scope c) (replay_started_at c) (Some h) (reason_redacted c)
    (response_execution_disabled c) (firewall_qos_isolation_disabled c)
    (online_lookup_disabled c) (external_upload_disabled c).
(* [pipeline/replay.rs] ReplayContext::real_response_forbidden *)
Definition real_response_forbidden (c : ReplayContext) : bool :=
  response_execution_disabled c || firewall_qos_isolation_disabled c.

(* ------------------------------------------------------------------ *)
(** ** [scheduler.rs] *)

(* [pipeline/scheduler.rs] SchedulerKind *)
Inductive SchedulerKind := Realtime | SkBatch | SkPeriodic | Priority | Resource | SkReplay.

(* [pipeline/scheduler.rs] SchedulerMetadata *)
Record SchedulerMetadata := mkSchedulerMetadata {
  kind : SchedulerKind;
  max_concurrency : N;
  interval_seconds : option N;
  at_least_once_delivery : bool;
  local_in_process : bool
}.
(* [pipeline/scheduler.rs] SchedulerMetadata::new *)
Definition SchedulerMetadata_new (k : SchedulerKind) : SchedulerMetadata :=
  mkSchedulerMetadata k 1 None true true.

(* [pipeline/scheduler.rs] ScheduleDecision *)
Record ScheduleDecision := mkDecision {
  ready_nodes : list PipelineNodeId;
  delayed_nodes : list PipelineNodeId;
  backpressure_state : BackpressureState;
  replay_context : option ReplayContext;
  decided_at : Timestamp
}.

(* [pipeline/scheduler.rs] Scheduler *)
Record Scheduler := mkScheduler {
  sched_metadata : SchedulerMetadata;
  backpressure_policy : BackpressurePolicy
}.
(* [pipeline/scheduler.rs] Scheduler::new *)
Definition Scheduler_new (k : SchedulerKind) : option Scheduler :=
  p ← v1_default; Some (mkScheduler (SchedulerMetadata_new k) p).

(* [pipeline/scheduler.rs] Scheduler::should_delay_for_backpressure *)
Definition should_delay_for_backpressure (priority : PriorityLane) (s : BackpressureState) : bool :=
  match level s with
  | LCritical | LShutdownProtection => can_drop_under_pressure priority
  | _ => false
  end.

(** One step of the plan: skipped, delayed or ready. *)
(* [pipeline/scheduler.rs:80-90] Scheduler::decide_ready *)
Definition sort_step (completed : gset PipelineNodeId) (bp : BackpressureState)
    (acc : list PipelineNodeId * list PipelineNodeId) (s : ExecutionPlanStep)
    : list PipelineNodeId * list PipelineNodeId :=
  let '(ready, delayed) := acc in
  if bool_decide (step_node_id s ∈ completed) then (ready, delayed)
  else if should_delay_for_backpressure (step_priority_lane s) bp
  then (ready, delayed ++ [step_node_id s])
  else (ready ++ [step_node_id s], delayed).

(* [pipeline/scheduler.rs] Scheduler::decide_ready *)
Definition decide_ready (s : Scheduler) (plan : ExecutionPlan)
    (completed_nodes : list PipelineNodeId) (queue_depth : N) (replay : option ReplayContext)
    : ST ScheduleDecision :=
  let completed : gset PipelineNodeId := list_to_set completed_nodes in
  let bp := classify (backpressure_policy s) queue_depth in
  let '(ready, delayed) := foldl (sort_step completed bp) ([], []) (steps plan) in
  let ready := take (N.to_nat (N.max (max_concurrency (sched_metadata s)) 1)) ready in
  let$ t := now in
  st_ret (mkDecision ready delayed bp replay t).

Section scheduler.
Context `{Externals} `{HashOrder}.

(* [pipeline/scheduler.rs] Scheduler::build_plan *)
Definition scheduler_build_plan (s : Scheduler) (d : PipelineDag)
    : ST (result ExecutionPlan PipelineDagError) := build_execution_plan d.

(* [pipeline/scheduler.rs] ReplayScheduler *)
Record ReplayScheduler := mkReplayScheduler {
  replay_inner : Scheduler;
  replay_of : ReplayContext
}.
(* [pipeline/scheduler.rs] Scheduler::replay *)
Definition scheduler_replay (c : ReplayContext) : option ReplayScheduler :=
  s ← Scheduler_new SkReplay; Some (mkReplayScheduler s c).
(* [pipeline/scheduler.rs] ReplayScheduler::build_plan *)
Definition replay_build_plan (r : ReplayScheduler) (d : PipelineDag)
    : ST (result ExecutionPlan PipelineDagError) := scheduler_build_plan (replay_inner r) d.
(* [pipeline/scheduler.rs] ReplayScheduler::response_execution_disabled *)
Definition replay_response_execution_disabled (r : ReplayScheduler) : bool :=
  real_response_forbidden (replay_of r).

End scheduler.
