(* ===== verification/PipelineFacts.v ===== *)
(** * Facts about the pipeline

    The topological order of a DAG and what [validate] decides, the execution
    plan and its routes, the scheduler's decision, the backpressure levels and the
    privacy of checkpoints. *)

From S2P Require Import Prelude Collections RustStr Effects Contracts Topics EventBus Manifest Component.
From S2P Require Import Kahn Pipeline.
From Stdlib Require Import SpecFloat.

#[local] Open Scope string_scope.
#[local] Open Scope list_scope.
#[local] Open Scope N_scope.

Section dag_facts.
Context `{Externals} `{HashOrder}.
Implicit Types (d : PipelineDag) (n : PipelineNode).

(** ** The graph of a DAG *)

(** [(dep, n)]: node [n] declares the dependency [dep]. *)
Definition node_edges n : list (PipelineNodeId * PipelineNodeId) :=
  (λ dep, (dep, node_id n)) <$> node_dependencies n.
Definition dag_edges d : list (PipelineNodeId * PipelineNodeId) := nodes d ≫= node_edges.
Definition dag_ids d : list PipelineNodeId := node_id <$> nodes d.
Definition dag_keys d : gset PipelineNodeId := list_to_set (dag_ids d).

Lemma elem_of_dag_edges d dep k :
  (dep, k) ∈ dag_edges d ↔ ∃ n, n ∈ nodes d ∧ node_id n = k ∧ dep ∈ node_dependencies n.
Proof.
  unfold dag_edges, node_edges. rewrite list_elem_of_bind.
  setoid_rewrite list_elem_of_fmap. naive_solver.
Qed.

(** [built E ks s]: the maps hold the indegrees and dependents of the edges [E]
    between the nodes [ks]. *)
Record built (E : list (PipelineNodeId * PipelineNodeId)) (ks : gset PipelineNodeId)
    (s : gmap PipelineNodeId N * gmap PipelineNodeId (list PipelineNodeId)) : Prop := {
  built_keys : ∀ k, is_Some (s.1 !! k) ↔ k ∈ ks;
  built_count : ∀ k, default 0 (s.1 !! k) = remaining E [] k;
  built_reverse : ∀ k, default [] (s.2 !! k) = targets E k
}.

Lemma add_edge_built E ks s (n : PipelineNodeId) dep :
  n ∈ ks → built E ks s → built (E ++ [(dep, n)]) ks (add_edge n s dep).
Proof.
  intros Hn [Hk Hc Hr]. destruct s as [ind rev]. simpl in *. constructor; simpl.
  - intros k. rewrite lookup_insert_is_Some, <- Hk. rewrite <- Hk in Hn.
    destruct (decide (n = k)) as [<-|]; naive_solver.
  - intros k. rewrite remaining_snoc_edge. destruct (decide (n = k)) as [<-|Hne].
    + rewrite lookup_insert_eq. simpl. by rewrite Hc.
    + rewrite lookup_insert_ne by done. rewrite Hc. lia.
  - intros k. rewrite targets_snoc_edge. destruct (decide (dep = k)) as [<-|Hne].
    + rewrite lookup_insert_eq. simpl. by rewrite Hr.
    + rewrite lookup_insert_ne by done. by rewrite Hr, app_nil_r.
Qed.

Lemma add_edges_built deps E ks s (n : PipelineNodeId) :
  n ∈ ks → built E ks s →
  built (E ++ ((λ dep, (dep, n)) <$> deps)) ks (foldl (add_edge n) s deps).
Proof.
  intros Hn. revert E s. induction deps as [|dep deps IH]; intros E s Hb; simpl.
  { by rewrite app_nil_r. }
  rewrite cons_middle, (assoc_L (++)). apply IH. by apply add_edge_built.
Qed.

Lemma add_node_edges_built E ks s n :
  built E ks s → (∀ dep k, (dep, k) ∈ E → k ∈ ks) →
  built (E ++ node_edges n) ({[node_id n]} ∪ ks) (add_node_edges s n).
Proof.
  intros [Hk Hc Hr] Hknown. destruct s as [ind rev]. simpl in *.
  apply add_edges_built; [set_solver|]. constructor; simpl; [|..|done].
  - intros k. rewrite lookup_insert_is_Some, elem_of_union, elem_of_singleton, <- Hk.
    destruct (decide (node_id n = k)); naive_solver.
  - intros k. destruct (decide (node_id n = k)) as [<-|Hne].
    + rewrite lookup_insert_eq. simpl. apply Hc.
    + rewrite lookup_insert_ne by done. apply Hc.
Qed.

Lemma built_dag d : built (dag_edges d) (dag_keys d) (foldl add_node_edges (∅, ∅) (nodes d)).
Proof.
  unfold dag_edges, dag_keys, dag_ids.
  induction (nodes d) as [|n ns IH] using rev_ind.
  { constructor; simpl; intros k; by rewrite ?lookup_empty. }
  rewrite foldl_app, bind_app, fmap_app, list_to_set_app_L. simpl.
  rewrite app_nil_r, union_empty_r_L, (comm_L (∪)).
  apply add_node_edges_built; [done|]. intros dep k.
  rewrite list_elem_of_bind, elem_of_list_to_set.
  intros (n' & Hin & Hn'). unfold node_edges in Hin.
  apply list_elem_of_fmap in Hin as (dep' & [= -> ->] & _). by apply list_elem_of_fmap_2.
Qed.

Lemma dag_targets_known d dep k : (dep, k) ∈ dag_edges d → k ∈ dag_keys d.
Proof.
  rewrite elem_of_dag_edges. intros (n & Hn & <- & _).
  apply elem_of_list_to_set. by apply list_elem_of_fmap_2.
Qed.

(** The dependents still in [reverse]. *)
Definition unremoved E (g : gmap PipelineNodeId (list PipelineNodeId)) (done : list PipelineNodeId)
    : Prop := ∀ k, k ∉ done → default [] (g !! k) = targets E k.

Lemma take_dependents_targets E g done k :
  unremoved E g done → k ∉ done →
  (take_dependents g k).1 ≡ₚ targets E k ∧ unremoved E (take_dependents g k).2 (done ++ [k]).
Proof.
  intros Hg Hk. split; simpl.
  - rewrite sort_by_key_perm. by rewrite (Hg _ Hk).
  - intros k' Hk'. rewrite lookup_delete_ne by set_solver. apply Hg. set_solver.
Qed.

(** What the loop of [topological_order] returns. *)
Lemma order_run d :
  ∃ out, NoDup out ∧ respects (dag_edges d) out ∧
    (∀ k, k ∈ out ↔ k ∈ dag_keys d ∧ ∀ dep, (dep, k) ∈ dag_edges d → dep ∈ out) ∧
    topological_order d =
      if negb (len out =? len (nodes d)) then Err (CycleDetected []) else Ok out.
Proof.
  pose proof (built_dag d) as [Hk Hc Hr]. unfold topological_order.
  destruct (foldl add_node_edges (∅, ∅) (nodes d)) as [ind rev]. simpl in *.
  edestruct (drain_spec take_dependents (λ q, q) (dag_edges d) (dag_keys d)
    (unremoved (dag_edges d)) (take_dependents_targets _) (λ q, Permutation_refl _)
    (dag_targets_known d) (size ind) rev ind
    (sort_by_key id_to_string (filter (λ e, e.2 = 0) (hash_entries ind)).*1) [])
    as (out & Hrun & Hnd & Hresp & Hmax).
  - assert (∀ k, k ∈ (filter (λ e, e.2 = 0) (hash_entries ind)).*1 ↔ ind !! k = Some 0) as Hz
      by apply elem_of_zero_keys.
    constructor; simpl; [done|..].
    + intros k c Hkc. specialize (Hc k). by rewrite Hkc in Hc.
    + rewrite sort_by_key_perm. eapply sublist_NoDup; [apply (NoDup_hash_keys ind)|].
      apply sublist_fmap, sublist_filter.
    + intros k. by rewrite elem_of_sort_by_key, Hz.
  - intros k _. apply Hr.
  - intros l1 k l2 Hl. by destruct l1.
  - simpl. rewrite <- (size_dom (D:=gset PipelineNodeId) ind).
    apply subseteq_size. intros k Hk'. by apply elem_of_dom, Hk.
  - exists out. split_and!; try done. by rewrite Hrun.
Qed.

Lemma order_length d out :
  NoDup out → (∀ k, k ∈ out → k ∈ dag_keys d) →
  length out = length (nodes d) ↔
  NoDup (dag_ids d) ∧ ∀ k, k ∈ dag_keys d → k ∈ out.
Proof.
  intros Hnd Hsub. rewrite <- (length_size_iff (dag_keys d) out Hnd Hsub).
  unfold dag_keys. rewrite NoDup_size_list_to_set. unfold dag_ids at 2. rewrite length_fmap.
  pose proof (size_list_to_set_le (dag_ids d)) as Hle. unfold dag_ids in Hle at 2.
  rewrite length_fmap in Hle.
  assert (length out ≤ size (list_to_set (dag_ids d) : gset PipelineNodeId))%nat as Hle'.
  { rewrite <- (size_list_to_set (C:=gset PipelineNodeId) out) by done.
    apply subseteq_size. intros k. rewrite elem_of_list_to_set. apply Hsub. }
  lia.
Qed.

(** ** [validate] *)

Lemma topological_order_Ok d out :
  topological_order d = Ok out →
  NoDup (dag_ids d) ∧ out ≡ₚ dag_ids d ∧ respects (dag_edges d) out.
Proof.
  destruct (order_run d) as (l & Hnd & Hresp & Hmax & ->).
  destruct (_ =? _) eqn:Hlen; simpl; [|done]. intros [= <-]. bool_prop.
  assert (∀ k, k ∈ l → k ∈ dag_keys d) as Hsub by (intros k; rewrite Hmax; tauto).
  assert (length l = length (nodes d)) as Hleq by (unfold len in *; lia).
  apply (order_length d l Hnd Hsub) in Hleq as [Hids Hall].
  split; [done|]. split; [|done]. apply NoDup_Permutation; [done..|].
  intros k. unfold dag_keys in *. setoid_rewrite elem_of_list_to_set in Hall.
  split; [|apply Hall]. rewrite Hmax, elem_of_list_to_set. tauto.
Qed.

Lemma topological_order_Ok_iff d :
  (∀ dep k, (dep, k) ∈ dag_edges d → dep ∈ dag_ids d) →
  (∃ out, topological_order d = Ok out) ↔ NoDup (dag_ids d) ∧ acyclic (dag_edges d).
Proof.
  intros Hclosed. destruct (order_run d) as (l & Hnd & Hresp & Hmax & ->).
  assert (∀ k, k ∈ l → k ∈ dag_keys d) as Hsub by (intros k; rewrite Hmax; tauto).
  rewrite <- (complete_iff (dag_edges d) (dag_keys d) (dag_targets_known d) l); try done.
  2: { intros dep k Hd. apply elem_of_list_to_set. by eapply Hclosed. }
  rewrite <- (order_length d l Hnd Hsub).
  destruct (len l =? len (nodes d)) eqn:Hlen; bool_prop; simpl.
  - split; [|by eauto]. intros _. unfold len in *. lia.
  - split; [by intros [? ?]|]. intros Heq. unfold len in *. lia.
Qed.

Lemma topological_order_Err d e : topological_order d = Err e → e = CycleDetected [].
Proof.
  destruct (order_run d) as (l & _ & _ & _ & ->). destruct (negb _); naive_solver.
Qed.

Definition dag_ok d : Prop :=
  Forall (λ n, blank (node_name n) = false) (nodes d) ∧
  (∀ dep k, (dep, k) ∈ dag_edges d → dep ∈ dag_ids d) ∧
  NoDup (dag_ids d) ∧ acyclic (dag_edges d).

Lemma dag_validate_ok d : dag_validate d = Ok tt ↔ dag_ok d.
Proof.
  unfold dag_validate, dag_ok. rewrite res_bind_ok.
  assert (∀ u, for_each (λ n : PipelineNode,
      if blank (node_name n) then Err (DagEmptyField "pipeline node name")
      else for_each (λ dep, if bool_decide (dep ∈ (list_to_set (node_id <$> nodes d) : gset _))
             then Ok tt else Err (MissingNode dep)) (node_dependencies n)) (nodes d) = Ok u ↔
    Forall (λ n, blank (node_name n) = false) (nodes d) ∧
    (∀ dep k, (dep, k) ∈ dag_edges d → dep ∈ dag_ids d)) as Hchecks.
  { intros []. rewrite for_each_ok, !Forall_forall. setoid_rewrite elem_of_dag_edges. split.
    - intros Hn. split.
      + intros n Hin. specialize (Hn n Hin). by destruct (blank _).
      + intros dep k (n & Hin & _ & Hdep). specialize (Hn n Hin).
        destruct (blank _); [done|]. rewrite for_each_ok, Forall_forall in Hn.
        specialize (Hn dep Hdep). case_bool_decide as Hd; [|done].
        by apply elem_of_list_to_set in Hd.
    - intros [Hn Hdeps] n Hin. rewrite (Hn n Hin). apply for_each_ok, Forall_forall.
      intros dep Hdep. rewrite bool_decide_eq_true_2; [done|].
      apply elem_of_list_to_set. eapply Hdeps. eauto. }
  setoid_rewrite Hchecks. unfold detect_cycle. split.
  - intros ([] & [Hn Hd] & Hcyc). split; [done|]. split; [done|].
    apply (topological_order_Ok_iff d Hd).
    destruct (topological_order d) as [out|e] eqn:Hto; [by eauto|].
    by rewrite (topological_order_Err _ _ Hto) in Hcyc.
  - intros (Hn & Hd & Hok). exists tt. split; [done|].
    apply (topological_order_Ok_iff d Hd) in Hok as [out ->]. done.
Qed.

(** ** The execution plan *)

Lemma dag_node_of d n : NoDup (dag_ids d) → n ∈ nodes d → dag_node d (node_id n) = Some n.
Proof. apply (find_key_NoDup node_id). Qed.

Lemma dag_node_Some d k n : dag_node d k = Some n → n ∈ nodes d ∧ node_id n = k.
Proof. intros [Hin Hk]%find_Some. split; [done|]. by apply bool_decide_eq_true in Hk. Qed.

(** A route of the DAG: from a dependency's output to the node that reads it. *)
Definition dag_route d (r : EventRoute) : Prop :=
  ∃ n dep, n ∈ nodes d ∧ dep ∈ nodes d ∧ node_id dep ∈ node_dependencies n ∧
    route_source_topic r ∈ sb_output_topics (node_binding dep) ∧
    route_source_topic r ∈ sb_input_topics (node_binding n) ∧
    consumer_name r = node_name n ∧ accepted_priorities r = [] ∧ require_schema_match r = true.

Lemma EventRoute_new_Ok t c : blank c = false → EventRoute_new t c = Ok (mkRoute t c [] true).
Proof. unfold EventRoute_new. by intros ->. Qed.

Lemma dag_routes_ok d :
  dag_ok d → ∃ rs, dag_routes d = Ok rs ∧ ∀ r, r ∈ rs ↔ dag_route d r.
Proof.
  intros (Hn & Hd & Hnd & _). rewrite Forall_forall in Hn.
  assert (∀ n dep, n ∈ nodes d → dep ∈ nodes d → dependency_routes d n (node_id dep) =
    Ok ((λ t, mkRoute t (node_name n) [] true) <$>
      filter (λ t, t ∈ sb_input_topics (node_binding n)) (sb_output_topics (node_binding dep))))
    as Hdep.
  { intros n dep Hin Hdin. unfold dependency_routes. rewrite dag_node_of by done.
    induction (filter _ _) as [|t ts IH]; simpl; [done|].
    rewrite EventRoute_new_Ok by auto. simpl. by rewrite IH. }
  assert (∀ n, n ∈ nodes d → ∃ rs, try_map (dependency_routes d n) (node_dependencies n) = Ok rs)
    as Hper.
  { intros n Hin. apply try_map_total. intros k Hk.
    assert (k ∈ dag_ids d) as Hkd by (eapply Hd, elem_of_dag_edges; eauto).
    apply list_elem_of_fmap in Hkd as (dep & -> & Hdin). eauto. }
  unfold dag_routes. edestruct (try_map_total (λ n,
    let? per_dep := try_map (dependency_routes d n) (node_dependencies n) in
    Ok (mjoin per_dep)) (nodes d)) as [rss Hrss].
  { intros n Hin. destruct (Hper n Hin) as [rs ->]. simpl. eauto. }
  rewrite Hrss. eexists. split; [reflexivity|].
  apply try_map_ok in Hrss. intros r. rewrite list_elem_of_join. split.
  - intros (rs & Hr & [i Hi]%list_elem_of_lookup).
    pose proof (Forall2_lookup_r _ _ _ _ _ Hrss Hi) as (n & Hni & Hcat).
    apply res_bind_ok in Hcat as (per & Hper' & [= <-]). apply list_elem_of_lookup_2 in Hni.
    apply list_elem_of_join in Hr as (l & Hr & [j Hj]%list_elem_of_lookup).
    apply try_map_ok in Hper'.
    pose proof (Forall2_lookup_r _ _ _ _ _ Hper' Hj) as (k & Hk%list_elem_of_lookup_2 & Hrun).
    assert (k ∈ dag_ids d) as Hkd by (eapply Hd, elem_of_dag_edges; eauto).
    apply list_elem_of_fmap in Hkd as (dep & -> & Hdin).
    rewrite Hdep in Hrun by done. injection Hrun as <-.
    apply list_elem_of_fmap in Hr as (t & -> & [Ht1 Ht2]%list_elem_of_filter).
    by exists n, dep.
  - intros (n & dep & Hin & Hdin & Hk & Ht1 & Ht2 & Hc & Ha & Hs).
    pose proof Hin as [i Hi]%list_elem_of_lookup.
    pose proof (Forall2_lookup_l _ _ _ _ _ Hrss Hi) as (rs & Hrs & Hcat).
    exists rs. split; [|by eapply list_elem_of_lookup_2].
    apply res_bind_ok in Hcat as (per & Hper' & [= <-]). apply try_map_ok in Hper'.
    apply list_elem_of_lookup in Hk as [j Hj].
    pose proof (Forall2_lookup_l _ _ _ _ _ Hper' Hj) as (l & Hl & Hrun).
    apply list_elem_of_join. exists l. split; [|by eapply list_elem_of_lookup_2].
    rewrite Hdep in Hrun by done. injection Hrun as <-.
    apply list_elem_of_fmap. exists (route_source_topic r).
    split; [by destruct r; simpl in *; subst|]. by apply list_elem_of_filter.
Qed.

Definition node_is_enabled d k : bool :=
  match dag_node d k with Some n => node_enabled n | None => false end.

(** A step carries its node's stage and binding. *)
Definition step_of n (s : ExecutionPlanStep) : Prop :=
  step_node_id s = node_id n ∧ step_stage s = node_stage n ∧
  step_input_topics s = sb_input_topics (node_binding n) ∧
  step_output_topics s = sb_output_topics (node_binding n) ∧
  step_priority_lane s = sb_priority_lane (node_binding n) ∧
  step_retry_policy s = sb_retry_policy (node_binding n) ∧
  idempotency_required s = true ∧
  step_checkpoint_required s = sb_checkpoint_required (node_binding n).

Lemma plan_steps_ids d es osteps :
  Forall2 (λ e o, plan_step d e = Ok o) es osteps →
  step_node_id <$> omap id osteps = filter (λ k, node_is_enabled d k = true) es.*2.
Proof.
  induction 1 as [|[i k] o es osteps Hstep _ IH]; [done|].
  rewrite fmap_cons, filter_cons. simpl.
  unfold plan_step, node_is_enabled in *. simpl in Hstep.
  destruct (dag_node d k) as [n|] eqn:Hn; [|done].
  apply dag_node_Some in Hn as [_ <-].
  destruct (node_enabled n); simpl in Hstep; injection Hstep as <-; csimpl; by rewrite IH.
Qed.

Lemma plan_steps_of d es osteps s :
  Forall2 (λ e o, plan_step d e = Ok o) es osteps → s ∈ omap id osteps →
  ∃ n, n ∈ nodes d ∧ node_enabled n = true ∧ step_of n s ∧ (order_index s, node_id n) ∈ es.
Proof.
  intros Hes (o & [i Hi]%list_elem_of_lookup & Ho)%list_elem_of_omap. simpl in Ho. subst o.
  pose proof (Forall2_lookup_r _ _ _ _ _ Hes Hi) as ([j k] & Hj & Hstep).
  unfold plan_step in Hstep. simpl in Hstep.
  destruct (dag_node d k) as [n|] eqn:Hn; [|done]. apply dag_node_Some in Hn as [Hn <-].
  destruct (node_enabled n) eqn:He; [|done]. simpl in Hstep. injection Hstep as <-.
  exists n. split_and!; try done. by eapply list_elem_of_lookup_2.
Qed.

(** What a plan of [d] is. *)
Definition plan_of d (p : ExecutionPlan) : Prop :=
  plan_pipeline_id p = dag_pipeline_id d ∧
  (∃ order, order ≡ₚ dag_ids d ∧ respects (dag_edges d) order ∧
    step_node_id <$> steps p = filter (λ k, node_is_enabled d k = true) order ∧
    ∀ s, s ∈ steps p → ∃ n, n ∈ nodes d ∧ step_of n s ∧
      order !! N.to_nat (order_index s) = Some (node_id n)) ∧
  ∀ r, r ∈ plan_routes p ↔ dag_route d r.

Lemma build_execution_plan_run d w :
  match (build_execution_plan d w).1 with
  | Ok p => dag_ok d ∧ plan_of d p
  | Err e => ¬ dag_ok d ∧ dag_validate d = Err e
  end.
Proof.
  unfold build_execution_plan. destruct (dag_validate d) as [[]|e] eqn:Hv; simpl.
  2:{ split; [|done]. intros Hok%dag_validate_ok. congruence. }
  apply dag_validate_ok in Hv as Hok. pose proof Hok as (_ & Hclosed & Hnd & Hac).
  destruct (proj2 (topological_order_Ok_iff d Hclosed) (conj Hnd Hac)) as [order Hto].
  pose proof (topological_order_Ok d order Hto) as (_ & Hperm & Hresp). rewrite Hto. simpl.
  destruct (dag_routes_ok d Hok) as (rs & Hrs & Hroutes). rewrite Hrs.
  assert (∃ osteps, try_map (plan_step d) (enumerate order) = Ok osteps) as [osteps Hsteps].
  { apply try_map_total. intros [i k] Hik. unfold plan_step. simpl.
    apply (list_elem_of_fmap_2 snd) in Hik. fold (fmap snd (enumerate order)) in Hik.
    rewrite enumerate_snd, Hperm in Hik. simpl in Hik. apply list_elem_of_fmap in Hik as (n & -> & Hn).
    simpl. rewrite dag_node_of by done. destruct (node_enabled n); simpl; eauto. }
  rewrite Hsteps. simpl. apply try_map_ok in Hsteps. split; [done|].
  split; [done|]. split; [|done]. exists order. split_and!; try done; simpl.
  - rewrite (plan_steps_ids _ _ _ Hsteps). by rewrite enumerate_snd.
  - intros s Hs. destruct (plan_steps_of _ _ _ _ Hsteps Hs) as (n & Hn & _ & Hsn & Hin).
    exists n. split_and!; try done. apply list_elem_of_lookup in Hin as [i Hi].
    rewrite enumerate_lookup in Hi. destruct (order !! i) as [k|] eqn:Hk; [|done].
    simpl in Hi. injection Hi as <- ->. by rewrite Nat2N.id.
Qed.

(* ------------------------------------------------------------------ *)
(** ** The scheduler *)

(** The steps that are neither completed nor held back, and those held back. *)
Definition runnable (completed : gset PipelineNodeId) (bp : BackpressureState)
    (delay : bool) (ss : list ExecutionPlanStep) : list PipelineNodeId :=
  step_node_id <$> filter (λ s, (step_node_id s ∉ completed) ∧
    should_delay_for_backpressure (step_priority_lane s) bp = delay) ss.

Lemma runnable_cons completed bp delay s ss :
  runnable completed bp delay (s :: ss) =
  (if decide ((step_node_id s ∉ completed) ∧
       should_delay_for_backpressure (step_priority_lane s) bp = delay)
   then [step_node_id s] else []) ++ runnable completed bp delay ss.
Proof. unfold runnable. rewrite filter_cons. by case_decide. Qed.

Lemma sort_steps completed bp ss ready delayed :
  foldl (sort_step completed bp) (ready, delayed) ss =
  (ready ++ runnable completed bp false ss, delayed ++ runnable completed bp true ss).
Proof.
  revert ready delayed. induction ss as [|s ss IH]; intros ready delayed.
  { unfold runnable. simpl. by rewrite !app_nil_r. }
  rewrite !runnable_cons. simpl. case_bool_decide as Hc.
  { rewrite IH, !decide_False by tauto. done. }
  destruct (should_delay_for_backpressure _ _); rewrite IH;
    repeat case_decide; try (exfalso; naive_solver); by rewrite <- ?(assoc_L (++)).
Qed.

Lemma decide_ready_run s p completed depth replay w :
  let bp := classify (backpressure_policy s) depth in
  let dec := (decide_ready s p completed depth replay w).1 in
  let done : gset PipelineNodeId := list_to_set completed in
  ready_nodes dec = take (N.to_nat (N.max (max_concurrency (sched_metadata s)) 1))
    (runnable done bp false (steps p)) ∧
  delayed_nodes dec = runnable done bp true (steps p) ∧
  backpressure_state dec = bp.
Proof. unfold decide_ready. rewrite sort_steps. simpl. done. Qed.

Lemma app_cons_NoDup_inj {A} (l1 l2 k1 k2 : list A) x :
  NoDup (l1 ++ x :: l2) → l1 ++ x :: l2 = k1 ++ x :: k2 → l1 = k1.
Proof.
  revert k1. induction l1 as [|y l1 IH]; intros [|z k1] Hnd Heq; simplify_eq/=; [done|..].
  - apply NoDup_cons in Hnd as [Hx _]. set_solver.
  - apply NoDup_cons in Hnd as [Hx _]. set_solver.
  - apply NoDup_cons in Hnd as [_ Hnd]. f_equal. eauto.
Qed.

(** The first runnable step of a plan comes after steps that are not runnable. *)
Lemma runnable_first completed bp delay ss k :
  head (runnable completed bp delay ss) = Some k →
  ∃ s1 s s2, ss = s1 ++ s :: s2 ∧ step_node_id s = k ∧ runnable completed bp delay s1 = [].
Proof.
  induction ss as [|s ss IH]; [done|]. rewrite runnable_cons. case_decide as Hd; simpl.
  - intros [= <-]. by exists [], s, ss.
  - intros (s1 & s' & s2 & -> & <- & Hr)%IH. exists (s :: s1), s', s2.
    split_and!; [done..|]. rewrite runnable_cons, decide_False by done. done.
Qed.

Lemma not_runnable completed bp ss s :
  runnable completed bp false ss = [] → s ∈ ss →
  step_node_id s ∈ completed ∨ step_node_id s ∈ runnable completed bp true ss.
Proof.
  intros Hr Hs. destruct (decide (step_node_id s ∈ completed)) as [|Hnc]; [by left|].
  right. unfold runnable. apply list_elem_of_fmap_2, list_elem_of_filter. split; [|done].
  split; [done|]. destruct (should_delay_for_backpressure _ _) eqn:Hd; [done|].
  assert (step_node_id s ∈ runnable completed bp false ss) as Hin.
  { by apply list_elem_of_fmap_2, list_elem_of_filter. }
  rewrite Hr in Hin. by apply elem_of_nil in Hin.
Qed.

Lemma runnable_app completed bp delay s1 s2 :
  runnable completed bp delay (s1 ++ s2) =
  runnable completed bp delay s1 ++ runnable completed bp delay s2.
Proof. unfold runnable. by rewrite filter_app, fmap_app. Qed.

(* ------------------------------------------------------------------ *)
(** ** Properties *)

(** C26. [topological_order] terminates and is right: when it answers an order, that
    is every node once, each after all its dependencies; when it reports a cycle, then (the
    nodes having distinct ids and known dependencies) the dependencies are not acyclic. *)
Theorem topological_order_correct d :
  match topological_order d with
  | Ok order => order ≡ₚ dag_ids d ∧ NoDup order ∧ respects (dag_edges d) order
  | Err e => e = CycleDetected [] ∧
      (NoDup (dag_ids d) ∧ (∀ dep k, (dep, k) ∈ dag_edges d → dep ∈ dag_ids d) →
       ¬ acyclic (dag_edges d))
  end.
Proof.
  destruct (topological_order d) as [order|e] eqn:Hto.
  - apply topological_order_Ok in Hto as (Hnd & Hperm & Hresp). by rewrite Hperm at 2.
  - split; [by eapply topological_order_Err|]. intros [Hnd Hclosed] Hac.
    destruct (proj2 (topological_order_Ok_iff d Hclosed) (conj Hnd Hac)). congruence.
Qed.

(** [PipelineDag::validate] accepts exactly the DAGs whose nodes have names and
    distinct ids, depend on nodes of the DAG, and have no dependency cycle. *)
Theorem dag_validate_iff d :
  dag_validate d = Ok tt ↔
  Forall (λ n, blank (node_name n) = false) (nodes d) ∧
  (∀ dep k, (dep, k) ∈ dag_edges d → dep ∈ dag_ids d) ∧
  NoDup (dag_ids d) ∧ acyclic (dag_edges d).
Proof. apply dag_validate_ok. Qed.

(** [build_execution_plan] succeeds exactly on the valid DAGs. Its steps are the
    enabled nodes in a dependency-respecting order of all nodes, each with its node's stage
    and binding and its position in that order; its routes are exactly the topics a node
    reads that one of its dependencies writes. *)
Theorem execution_plan_spec d w :
  match (build_execution_plan d w).1 with
  | Ok p => dag_ok d ∧ plan_of d p
  | Err e => ¬ dag_ok d ∧ dag_validate d = Err e
  end.
Proof. apply build_execution_plan_run. Qed.

(** With the default concurrency of one, the scheduler is safe: the node it
    declares ready has each of its enabled dependencies completed, or held back by the same
    decision for backpressure. *)
Theorem sequential_schedule_safe d w p s completed depth replay w' n dep :
  (build_execution_plan d w).1 = Ok p →
  max_concurrency (sched_metadata s) ≤ 1 →
  n ∈ nodes d → node_id n ∈ ready_nodes (decide_ready s p completed depth replay w').1 →
  dep ∈ node_dependencies n → node_is_enabled d dep = true →
  dep ∈ completed ∨ dep ∈ delayed_nodes (decide_ready s p completed depth replay w').1.
Proof.
  intros Hp Hc Hn Hready Hdep Hen.
  pose proof (build_execution_plan_run d w) as Hplan. rewrite Hp in Hplan.
  destruct Hplan as [(_ & _ & Hnd & _) (_ & (order & Hperm & Hresp & Hids & _) & _)].
  destruct (decide_ready_run s p completed depth replay w') as (Hr & -> & _).
  rewrite Hr in Hready.
  set (done := list_to_set completed) in *. set (bp := classify _ depth) in *.
  replace (N.to_nat (N.max (max_concurrency (sched_metadata s)) 1)) with 1%nat in Hready by lia.
  destruct (runnable done bp false (steps p)) as [|k rest] eqn:Hrun;
    [by apply elem_of_nil in Hready|].
  simpl in Hready. apply list_elem_of_singleton in Hready as <-.
  edestruct (runnable_first done bp false (steps p) (node_id n)) as (s1 & st & s2 & Hss & Hid & Hs1);
    [by rewrite Hrun|].
  assert (node_id n ∈ order) as (l1 & l2 & Horder)%list_elem_of_split.
  { rewrite Hperm. by apply list_elem_of_fmap_2. }
  pose proof (Hresp _ _ _ Horder dep) as Hbefore.
  assert (dep ∈ l1) as Hl1 by (apply Hbefore, elem_of_dag_edges; eauto).
  assert (dep ∈ step_node_id <$> s1) as (s' & -> & Hs')%list_elem_of_fmap.
  { rewrite Hss, fmap_app, fmap_cons, Hid, Horder, filter_app in Hids.
    rewrite filter_cons in Hids. case_decide as Hne.
    - assert (NoDup ((step_node_id <$> s1) ++ node_id n :: (step_node_id <$> s2))) as Hnds.
      { rewrite Hids, <- (filter_cons_True (λ k, node_is_enabled d k = true)) by done.
        rewrite <- filter_app, <- Horder. apply NoDup_filter. by rewrite Hperm. }
      rewrite (app_cons_NoDup_inj _ _ _ _ _ Hnds Hids). by apply list_elem_of_filter.
    - exfalso. assert (node_id n ∈ (step_node_id <$> s1) ++ node_id n :: (step_node_id <$> s2))
        as Hin by set_solver.
      rewrite Hids, <- filter_app in Hin. apply list_elem_of_filter in Hin. tauto. }
  rewrite Hss, runnable_app.
  destruct (not_runnable _ _ _ _ Hs1 Hs') as [Hd|Hd]; [left|right; set_solver].
  by apply elem_of_list_to_set in Hd.
Qed.

(** Backpressure delays exactly the uncompleted steps on droppable lanes, and
    only at the [Critical] and [ShutdownProtection] levels: a step on lane P0, P1 or P2 is
    never delayed. *)
Theorem backpressure_delays_only_droppable s p completed depth replay w k :
  let dec := (decide_ready s p completed depth replay w).1 in
  k ∈ delayed_nodes dec ↔
  ∃ st, st ∈ steps p ∧ step_node_id st = k ∧ (k ∉ completed) ∧
    (level (backpressure_state dec) = LCritical ∨
     level (backpressure_state dec) = LShutdownProtection) ∧
    3 ≤ rank (step_priority_lane st).
Proof.
  simpl. destruct (decide_ready_run s p completed depth replay w) as (_ & -> & ->).
  unfold runnable. rewrite list_elem_of_fmap. setoid_rewrite list_elem_of_filter.
  setoid_rewrite elem_of_list_to_set.
  assert (∀ lane bp, should_delay_for_backpressure lane bp = true ↔
    (level bp = LCritical ∨ level bp = LShutdownProtection) ∧ 3 ≤ rank lane) as Hdelay.
  { intros lane bp. unfold should_delay_for_backpressure.
    destruct (level bp), lane; simpl; naive_solver lia. }
  setoid_rewrite Hdelay. naive_solver.
Qed.

End dag_facts.

(* ------------------------------------------------------------------ *)
(** ** Backpressure levels and checkpoints *)

(** The exact thresholds of the default queue of 4096 entries: 95%, 85%, 70%, 50%. *)
Definition level_by_depth (depth : N) : BackpressureLevel :=
  if 3892 <=? depth then LShutdownProtection
  else if 3482 <=? depth then LCritical
  else if 2868 <=? depth then LDegraded
  else if 2048 <=? depth then LWarning
  else LNormal.

Lemma levels_checked :
  forallb (λ i, bool_decide (level_of (utilization_of (N.of_nat i) 4096) =
                             level_by_depth (N.of_nat i))) (seq 0 (N.to_nat 8193)) = true.
Proof. vm_compute. reflexivity. Qed.

(** The single-precision arithmetic of [classify] is exact for the default policy:
    up to a depth of twice the queue's maximum, the level is the one of the integer
    thresholds 2048, 2868, 3482 and 3892 of 4096. *)
Theorem classify_default_thresholds p depth :
  v1_default = Some p → depth ≤ 8192 → level (classify p depth) = level_by_depth depth.
Proof.
  intros Hp Hd. assert (max_queue_depth p = 4096) as Hmax.
  { vm_compute in Hp. by injection Hp as <-. }
  unfold classify. rewrite Hmax. simpl.
  pose proof (proj1 (forallb_forall _ _) levels_checked (N.to_nat depth)) as Hl.
  cbv beta in Hl. rewrite N2Nat.id in Hl.
  apply (bool_decide_eq_true_1 _), Hl, in_seq. lia.
Qed.

(** A checkpoint record is built only from metadata none of whose keys contains,
    in any case, one of the forbidden fragments (raw packets, payloads, bodies, cookies,
    tokens, credentials, keys); it is then [Internal] and marked as storing none of them. *)
Theorem checkpoint_privacy_safe h cursor metadata w :
  match (CheckpointRecord_new h cursor metadata w).1 with
  | Ok r =>
      metadata_redacted r = metadata ∧ checkpoint_privacy r = Privacy.Internal ∧
      stores_raw_payload r = false ∧ stores_raw_packet r = false ∧ stores_http_body r = false ∧
      ∀ k v f, (k, v) ∈ metadata → f ∈ forbidden_fragments →
        ¬ ∃ a b, to_ascii_lowercase k = (a ++ f ++ b)%string
  | Err (CheckpointEmptyField _) => blank cursor = true
  | Err (ForbiddenMetadataKey k) =>
      k ∈ metadata.*1 ∧ ∃ f a b, f ∈ forbidden_fragments ∧
        to_ascii_lowercase k = (a ++ f ++ b)%string
  end.
Proof.
  unfold CheckpointRecord_new. destruct (blank cursor); [done|].
  assert (∀ k, existsb (contains (to_ascii_lowercase k)) forbidden_fragments = true ↔
    ∃ f a b, f ∈ forbidden_fragments ∧ to_ascii_lowercase k = (a ++ f ++ b)%string) as Hk.
  { intros k. rewrite existsb_exists. setoid_rewrite contains_spec.
    setoid_rewrite <- list_elem_of_In. naive_solver. }
  destruct (validate_metadata_keys metadata) as [[]|e] eqn:Hv; simpl.
  - split_and!; try done. intros k v f Hin Hf Hex.
    unfold validate_metadata_keys in Hv. rewrite for_each_ok, Forall_forall in Hv.
    specialize (Hv k (list_elem_of_fmap_2 fst _ (k, v) Hin)).
    rewrite (proj2 (Hk k)) in Hv; [done|]. naive_solver.
  - unfold validate_metadata_keys in Hv. apply for_each_err in Hv as (l1 & k & l2 & Hl & _ & Hk').
    destruct (existsb _ _) eqn:Hex in Hk'; [|done]. injection Hk' as <-.
    split; [rewrite Hl; set_solver|]. by apply Hk.
Qed.

(* ------------------------------------------------------------------ *)
(** ** A concrete pipeline *)

Module PipelineSample.
#[local] Existing Instance sample_externals.
#[local] Existing Instance insertion_free_order.

Definition topic_x : TopicName := mkTopicName "network.flow".
Definition node_a : PipelineNode :=
  mkNode (mkId (mkUuid 2)) "capture" StSource (metadata_only [] [topic_x]) [] false true
    PipelineNodeRuntimeState_default.
Definition node_b : PipelineNode :=
  mkNode (mkId (mkUuid 1)) "detect" StDetection (metadata_only [topic_x] []) [mkId (mkUuid 2)]
    false true PipelineNodeRuntimeState_default.
Definition dag_ab : PipelineDag :=
  mkDag (mkId (mkUuid 5)) "pipeline" [node_b; node_a] (mkTimestamp 0) (mkTimestamp 0).

Definition policy_a : BackpressurePolicy :=
  mkBackpressurePolicy 4096 [] [P0Critical; P1High] [P3Low; P4BestEffort; P5UiRefresh] [].
Definition scheduler_of (concurrency : N) : Scheduler :=
  mkScheduler (mkSchedulerMetadata Realtime concurrency None true true) policy_a.

Definition plan_ab : ExecutionPlan :=
  match (build_execution_plan dag_ab counting_world).1 with
  | Ok p => p
  | Err _ => mkPlan (mkId (mkUuid 0)) [] [] (mkTimestamp 0)
  end.
Lemma plan_ab_ok : (build_execution_plan dag_ab counting_world).1 = Ok plan_ab.
Proof. vm_compute. reflexivity. Qed.

(** Once the dependency is completed, the detector is the ready node. *)
Lemma sequential_schedule_safe_witness :
  node_id node_b ∈
    ready_nodes (decide_ready (scheduler_of 1) plan_ab [node_id node_a] 0 None counting_world).1 ∧
  (node_id node_a ∈ [node_id node_a] ∨ node_id node_a ∈
    delayed_nodes (decide_ready (scheduler_of 1) plan_ab [node_id node_a] 0 None counting_world).1).
Proof.
  split; [vm_compute; left|].
  apply (sequential_schedule_safe dag_ab counting_world plan_ab (scheduler_of 1) [node_id node_a]
    0 None counting_world node_b (node_id node_a)).
  - apply plan_ab_ok.
  - simpl. lia.
  - simpl. left.
  - vm_compute. left.
  - simpl. left.
  - vm_compute. reflexivity.
Defined.

Lemma classify_default_thresholds_witness :
  ∃ p, v1_default = Some p ∧ level (classify p 3482) = LCritical.
Proof.
  eexists. split; [vm_compute; reflexivity|].
  apply classify_default_thresholds; [vm_compute; reflexivity|lia].
Defined.

(** With a concurrency of two the scheduler is not safe: it declares a node ready
    although its only dependency is neither completed nor delayed (both are declared ready
    together). *)
Theorem concurrent_schedule_ignores_dependencies :
  dag_validate dag_ab = Ok tt ∧
  node_id node_a ∈ node_dependencies node_b ∧
  ready_nodes (decide_ready (scheduler_of 2) plan_ab [] 0 None counting_world).1
    = [node_id node_a; node_id node_b] ∧
  delayed_nodes (decide_ready (scheduler_of 2) plan_ab [] 0 None counting_world).1 = [].
Proof. repeat split; vm_compute; done || left. Qed.
End PipelineSample.
