(* ===== verification/Resolver.v ===== *)
(** * The resolver ([platform/src/resolver])

    Resolution issues and reports, the dependency resolver (edges, startup order,
    cycles), contract and version compatibility, capability resolution, and the impact
    analysis of disabling a component. *)

From S2P Require Import Prelude Collections RustStr Effects Contracts Query Manifest.
From S2P Require Import Component Registry Kahn.

#[local] Open Scope string_scope.
#[local] Open Scope list_scope.
#[local] Open Scope N_scope.

(* ------------------------------------------------------------------ *)
(** ** Issues and reports *)

(* [resolver/mod.rs] ResolutionSeverity *)
Inductive ResolutionSeverity := SevInfo | SevWarning | SevBlocker.
#[export] Instance ResolutionSeverity_eq_dec : EqDecision ResolutionSeverity.
Proof. solve_decision. Defined.

(* [resolver/mod.rs] ResolutionIssueKind *)
Inductive ResolutionIssueKind :=
  | MissingDependency | DependencyCycle | IncompatibleVersion | KConflict | MissingPermission
  | UnsupportedContract | CoreVersionMismatch | MissingCapability | MissingComponent
  | InvalidManifest | StartupOrdering.
#[export] Instance ResolutionIssueKind_eq_dec : EqDecision ResolutionIssueKind.
Proof. solve_decision. Defined.

(* [resolver/mod.rs] ResolutionIssue *)
Record ResolutionIssue := mkIssue {
  severity : ResolutionSeverity;
  issue_kind : ResolutionIssueKind;
  issue_component_id : option ComponentId;
  issue_plugin_id : option PluginId;
  issue_capability_id : option CapabilityId;
  issue_contract_name : option string;
  issue_dependency_name : option string;
  message : string
}.

(* [resolver/mod.rs] ResolutionIssue::new *)
Definition issue_new (s : ResolutionSeverity) (k : ResolutionIssueKind) (msg : string)
    : ResolutionIssue := mkIssue s k None None None None None msg.
(* [resolver/mod.rs] ResolutionIssue::blocker *)
Definition blocker (k : ResolutionIssueKind) (msg : string) : ResolutionIssue :=
  issue_new SevBlocker k msg.
(* [resolver/mod.rs] ResolutionIssue::warning *)
Definition warning (k : ResolutionIssueKind) (msg : string) : ResolutionIssue :=
  issue_new SevWarning k msg.
(* [resolver/mod.rs] ResolutionIssue::info *)
Definition info (k : ResolutionIssueKind) (msg : string) : ResolutionIssue :=
  issue_new SevInfo k msg.
(* [resolver/mod.rs] ResolutionIssue::for_component *)
Definition for_component (c : ComponentId) (i : ResolutionIssue) : ResolutionIssue :=
  mkIssue (severity i) (issue_kind i) (Some c) (issue_plugin_id i) (issue_capability_id i)
    (issue_contract_name i) (issue_dependency_name i) (message i).
(* [resolver/mod.rs] ResolutionIssue::for_plugin *)
Definition for_plugin (p : PluginId) (i : ResolutionIssue) : ResolutionIssue :=
  mkIssue (severity i) (issue_kind i) (issue_component_id i) (Some p) (issue_capability_id i)
    (issue_contract_name i) (issue_dependency_name i) (message i).
(* [resolver/mod.rs] ResolutionIssue::for_capability *)
Definition for_capability (c : CapabilityId) (i : ResolutionIssue) : ResolutionIssue :=
  mkIssue (severity i) (issue_kind i) (issue_component_id i) (issue_plugin_id i) (Some c)
    (issue_contract_name i) (issue_dependency_name i) (message i).
(* [resolver/mod.rs] ResolutionIssue::for_contract *)
Definition for_contract (nm : string) (i : ResolutionIssue) : ResolutionIssue :=
  mkIssue (severity i) (issue_kind i) (issue_component_id i) (issue_plugin_id i)
    (issue_capability_id i) (Some nm) (issue_dependency_name i) (message i).
(* [resolver/mod.rs] ResolutionIssue::for_dependency *)
Definition for_dependency (nm : string) (i : ResolutionIssue) : ResolutionIssue :=
  mkIssue (severity i) (issue_kind i) (issue_component_id i) (issue_plugin_id i)
    (issue_capability_id i) (issue_contract_name i) (Some nm) (message i).

(* [resolver/mod.rs] ResolutionStatus *)
Inductive ResolutionStatus := Compatible | RDegraded | RIncompatible.
#[export] Instance ResolutionStatus_eq_dec : EqDecision ResolutionStatus.
Proof. solve_decision. Defined.

Definition has_severity (s : ResolutionSeverity) (i : ResolutionIssue) : bool :=
  bool_decide (severity i = s).
(* [resolver/mod.rs] ResolutionStatus::from_issues *)
Definition status_from_issues (l : list ResolutionIssue) : ResolutionStatus :=
  if existsb (has_severity SevBlocker) l then RIncompatible
  else if existsb (has_severity SevWarning) l then RDegraded
  else Compatible.

(* [resolver/mod.rs] ResolutionReport *)
Record ResolutionReport := mkResolutionReport {
  report_status : ResolutionStatus;
  report_issues : list ResolutionIssue
}.
(* [resolver/mod.rs] ResolutionReport::from_issues *)
Definition report_from_issues (l : list ResolutionIssue) : ResolutionReport :=
  mkResolutionReport (status_from_issues l) l.

(* [resolver/mod.rs] ResolvedStartupItem *)
Record ResolvedStartupItem := mkStartupItem {
  item_component_id : ComponentId;
  item_order_index : N;
  explicit_startup_order : option N
}.
(* [resolver/mod.rs] DependencyResolution *)
Record DependencyResolution := mkResolution {
  res_status : ResolutionStatus;
  res_issues : list ResolutionIssue;
  startup_order : list ResolvedStartupItem
}.

(* ------------------------------------------------------------------ *)
(** ** Versions *)

Definition is_version_separator (c : ascii) : bool :=
  bool_decide (c = "."%char) || bool_decide (c = "-"%char).

Fixpoint take_while {A} (p : A → bool) (l : list A) : list A :=
  match l with
  | [] => []
  | x :: l' => if p x then x :: take_while p l' else []
  end.

(* [resolver/mod.rs] parse_version *)
Definition parse_version (value : string) : option (list N) :=
  mapM (parse_uint u64_max)
    (take_while (all_chars is_ascii_digit) (split is_version_separator value)).

(** [Vec<u64>::cmp]. *)
Fixpoint compare_lists (l r : list N) : comparison :=
  match l, r with
  | [], [] => Eq
  | [], _ => Lt
  | _, [] => Gt
  | x :: l', y :: r' =>
      match (x ?= y) with
      | Eq => compare_lists l' r'
      | c => c
      end
  end.

(* [resolver/mod.rs] compare_versions *)
Definition compare_versions (left right : string) : option comparison :=
  l ← parse_version left;
  r ← parse_version right;
  Some (compare_lists l r).
(* [resolver/mod.rs] version_at_least *)
Definition version_at_least (version min : string) : bool :=
  match compare_versions version min with Some Eq | Some Gt => true | _ => false end.
(* [resolver/mod.rs] version_at_most *)
Definition version_at_most (version max : string) : bool :=
  match compare_versions version max with Some Lt | Some Eq => true | _ => false end.

(* [resolver/mod.rs] VersionResolution *)
Record VersionResolution := mkVersionResolution {
  version_compatible : bool;
  version_status : ResolutionStatus;
  version_issues : list ResolutionIssue
}.

(* [resolver/mod.rs] VersionResolver::version_satisfies *)
Definition version_satisfies (version : string) (range : VersionRange) : VersionResolution :=
  let issues : list ResolutionIssue := [] in
  let issues :=
    match vr_exact range with
    | Some exact =>
        if negb (bool_decide (version = exact))
        then issues ++ [blocker IncompatibleVersion
               ("version " ++ version ++ " does not match required exact version " ++ exact)%string]
        else issues
    | None => issues
    end in
  let issues :=
    match vr_min range with
    | Some min =>
        if negb (version_at_least version min)
        then issues ++ [blocker IncompatibleVersion
               ("version " ++ version ++ " is lower than required minimum " ++ min)%string]
        else issues
    | None => issues
    end in
  let issues :=
    match vr_max range with
    | Some max =>
        if negb (version_at_most version max)
        then issues ++ [blocker IncompatibleVersion
               ("version " ++ version ++ " is higher than supported maximum " ++ max)%string]
        else issues
    | None => issues
    end in
  mkVersionResolution (bool_decide (length issues = 0%nat)) (status_from_issues issues) issues.

(* [resolver/mod.rs] VersionResolver::schema_compatibility *)
Definition schema_compatibility (registered requested : SchemaVersion)
    (requirement : ContractCompatibilityRequirement) : ResolutionStatus :=
  if bool_decide (requirement = ReqStrict) && negb (bool_decide (registered = requested))
  then RIncompatible
  else if bool_decide (requirement = ReqMigrationRequired) then RIncompatible
  else
    match Schema.compatibility_with registered requested with
    | Schema.Unsupported | Schema.MigrationRequired => RIncompatible
    | Schema.Deprecated => RDegraded
    | Schema.Strict | Schema.BackwardCompatible => Compatible
    end.

(* ------------------------------------------------------------------ *)
(** ** Contracts and capabilities *)

(* [resolver/mod.rs] contract_is_compatible *)
Definition contract_is_compatible (registered requested : ContractDescriptor) : bool :=
  if negb (bool_decide (contract_name registered = contract_name requested)) then false
  else if bool_decide (contract_compatibility requested = ReqMigrationRequired) then false
  else if bool_decide (contract_compatibility requested = ReqStrict)
          && negb (bool_decide (contract_schema_version registered
                                = contract_schema_version requested)) then false
  else
    match Schema.compatibility_with (contract_schema_version registered)
            (contract_schema_version requested) with
    | Schema.Unsupported | Schema.MigrationRequired => false
    | _ => true
    end.

Section contract_resolver.
Context `{Externals} `{HashOrder}.

(** The issues of one declared contract. *)
(* [resolver/mod.rs:469-496] ContractResolver::resolve_plugin_manifest *)
Definition contract_issues (m : PluginManifest) (r : ContractRegistry) (c : ContractDescriptor)
    : list ResolutionIssue :=
  match find_contracts_by_name r (contract_name c) with
  | [] =>
      if contract_required c
      then [for_contract (contract_name c) (for_plugin (plugin_id m)
              (blocker UnsupportedContract "required contract is not registered"))]
      else []
  | candidates =>
      if forallb (λ candidate, negb (contract_is_compatible candidate c)) candidates
      then [for_contract (contract_name c) (for_plugin (plugin_id m)
              (blocker UnsupportedContract "registered contract schema is incompatible"))]
      else []
  end.
(* [resolver/mod.rs] ContractResolver::resolve_plugin_manifest *)
Definition resolve_contracts (m : PluginManifest) (r : ContractRegistry) : ResolutionReport :=
  report_from_issues ((input_contracts m ++ output_contracts m) ≫= contract_issues m r).

(* [resolver/mod.rs] ContractResolver::resolve_descriptor *)
Definition resolve_descriptor (registered requested : ContractDescriptor) : ResolutionReport :=
  if negb (bool_decide (contract_name registered = contract_name requested))
  then report_from_issues [for_contract (contract_name requested)
         (blocker UnsupportedContract "contract names do not match")]
  else if contract_is_compatible registered requested then report_from_issues []
  else report_from_issues [for_contract (contract_name requested)
         (blocker UnsupportedContract "contract schema is incompatible")].

(* [resolver/mod.rs] CapabilityResolution *)
Record CapabilityResolution := mkCapabilityResolution {
  cap_status : ResolutionStatus;
  cap_issues : list ResolutionIssue;
  cap_required : list CapabilityId;
  cap_optional : list CapabilityId
}.
(* [resolver/mod.rs] CapabilityResolver::resolve_plugin_manifest *)
Definition resolve_capabilities (m : PluginManifest) (r : CapabilityRegistry)
    : CapabilityResolution :=
  let missing (issue : ResolutionIssue) (ids : list CapabilityId) :=
    (λ id, for_capability id (for_plugin (plugin_id m) issue)) <$>
      filter (λ id, contains_capability r id = false) ids in
  let issues :=
    missing (blocker MissingCapability "required capability is missing") (required_capabilities m)
    ++ missing (warning MissingCapability "optional capability is missing")
         (optional_capabilities m) in
  mkCapabilityResolution (status_from_issues issues) issues (required_capabilities m)
    (optional_capabilities m).

End contract_resolver.

(* ------------------------------------------------------------------ *)
(** ** Dependency targets *)

(** The dependency graph: the components each component waits for. *)
Abbreviation Edges := (gmap ComponentId (gset ComponentId)).

(** [edges.entry(source).or_default().insert(target)] *)
Definition insert_edge (source target : ComponentId) (edges : Edges) : Edges :=
  <[source := {[target]} ∪ default ∅ (edges !! source)]> edges.

Section targets.
Context `{Externals} `{HashOrder}.

(* [resolver/mod.rs] DependencyTarget *)
Record DependencyTarget := mkTarget {
  target_component : option ComponentId;
  target_plugin : option PluginManifest;
  capability_exists : bool
}.

Definition plugin_of_component (pr : PluginRegistry) (c : ComponentId) : option PluginManifest :=
  plugin_id_for_component pr c ≫= get_plugin pr.

(* [resolver/mod.rs] resolve_component_dependency_target *)
Definition resolve_component_dependency_target (d : DependencyBinding) (cr : ComponentRegistry)
    (pr : PluginRegistry) (kr : CapabilityRegistry) : DependencyTarget :=
  match db_component_id d with
  | Some c =>
      mkTarget (if contains_component cr c then Some c else None) (plugin_of_component pr c) false
  | None =>
  match db_plugin_id d with
  | Some p => mkTarget (component_id_for_plugin pr p) (get_plugin pr p) false
  | None =>
  match db_capability_id d with
  | Some k => mkTarget None None (contains_capability kr k)
  | None =>
  match db_name d with
  | Some nm =>
      match head (find_components_by_name cr nm) with
      | Some c => mkTarget (Some (component_id c)) (plugin_of_component pr (component_id c)) false
      | None =>
          match find_plugin_by_name pr nm with
          | Some p => mkTarget (component_id_for_plugin pr (plugin_id p)) (Some p) false
          | None =>
              mkTarget None None (bool_decide (is_Some (find_capability_by_domain kr nm)))
          end
      end
  | None => mkTarget None None false
  end end end end.

(* [resolver/mod.rs] resolve_plugin_target *)
Definition resolve_plugin_target (d : PluginDependency) (pr : PluginRegistry)
    : option PluginManifest :=
  match dep_plugin_id d ≫= get_plugin pr with
  | Some p => Some p
  | None => dep_name d ≫= find_plugin_by_name pr
  end.

(** [or_else] on options, and the first label of a list. *)
Definition or_else {A} (x y : option A) : option A :=
  match x with Some _ => x | None => y end.

(* [resolver/mod.rs] dependency_label *)
Definition dependency_label (d : DependencyBinding) : string :=
  default "unnamed dependency"
    (or_else (db_name d)
      (or_else (id_to_string <$> db_component_id d)
        (or_else (id_to_string <$> db_plugin_id d)
          (id_to_string <$> db_capability_id d)))).
(* [resolver/mod.rs] plugin_dependency_label *)
Definition plugin_dependency_label (d : PluginDependency) : string :=
  default "unnamed dependency"
    (or_else (dep_name d)
      (or_else (id_to_string <$> dep_plugin_id d)
        (or_else (id_to_string <$> dep_capability_id d)
          (contract_name <$> dep_contract d)))).

(* [resolver/mod.rs] push_missing_plugin_dependency *)
Definition missing_plugin_dependency (d : PluginDependency) (source : ComponentId)
    (plugin : PluginId) : ResolutionIssue :=
  let issue :=
    if bool_decide (dep_type d = RequiredPlugin)
    then blocker MissingDependency "required plugin dependency is missing"
    else warning MissingDependency "optional plugin dependency is missing" in
  for_dependency (plugin_dependency_label d) (for_plugin plugin (for_component source issue)).
(* [resolver/mod.rs] push_missing_capability_dependency *)
Definition missing_capability_dependency (d : PluginDependency) (source : ComponentId)
    (plugin : PluginId) : ResolutionIssue :=
  let issue :=
    if bool_decide (dep_type d = RequiredCapability)
    then blocker MissingCapability "required capability dependency is missing"
    else warning MissingCapability "optional capability dependency is missing" in
  for_dependency (plugin_dependency_label d) (for_plugin plugin (for_component source issue)).

(* ------------------------------------------------------------------ *)
(** ** Bindings and dependencies *)

(** One binding of a component: the graph and the issues after it. *)
(* [resolver/mod.rs:254-312] DependencyResolver::resolve_component_bindings *)
Definition resolve_binding (c : ComponentDefinition) (cr : ComponentRegistry)
    (pr : PluginRegistry) (kr : CapabilityRegistry)
    (s : Edges * list ResolutionIssue) (d : DependencyBinding) : Edges * list ResolutionIssue :=
  let '(edges, issues) := s in
  let target := resolve_component_dependency_target d cr pr kr in
  if bool_decide (db_type d = Conflict)
  then
    if bool_decide (is_Some (target_component target)) || capability_exists target
    then (edges, issues ++ [for_dependency (dependency_label d)
            (for_component (component_id c) (blocker KConflict "conflicting dependency is present"))])
    else (edges, issues)
  else
    match target_component target with
    | Some t =>
        let edges := insert_edge (component_id c) t edges in
        match target_plugin target with
        | Some p =>
            let v := version_satisfies (plugin_version p) (db_version_requirement d) in
            if negb (version_compatible v) && db_required d
            then (edges, issues ++ ((λ i, for_plugin (plugin_id p) (for_component (component_id c) i))
                                     <$> version_issues v))
            else (edges, issues)
        | None => (edges, issues)
        end
    | None =>
        if db_required d && negb (capability_exists target)
        then (edges, issues ++ [for_dependency (dependency_label d)
                (for_component (component_id c)
                  (blocker MissingDependency "required component dependency is missing"))])
        else if negb (db_required d)
        then (edges, issues ++ [for_dependency (dependency_label d)
                (for_component (component_id c)
                  (warning MissingDependency "optional component dependency is missing"))])
        else (edges, issues)
    end.
(* [resolver/mod.rs] DependencyResolver::resolve_component_bindings *)
Definition resolve_component_bindings (cr : ComponentRegistry) (pr : PluginRegistry)
    (kr : CapabilityRegistry) (s : Edges * list ResolutionIssue) (c : ComponentDefinition)
    : Edges * list ResolutionIssue :=
  foldl (resolve_binding c cr pr kr) s (dependency_bindings c).

(* [resolver/mod.rs] DependencyResolver::resolve_plugin_dependency *)
Definition resolve_plugin_dependency (source : ComponentId) (plugin : PluginId)
    (cr : ComponentRegistry) (pr : PluginRegistry) (kr : CapabilityRegistry)
    (tr : ContractRegistry) (s : Edges * list ResolutionIssue) (d : PluginDependency)
    : Edges * list ResolutionIssue :=
  let '(edges, issues) := s in
  match dep_type d with
  | RequiredPlugin | OptionalPlugin =>
      match resolve_plugin_target d pr with
      | Some p =>
          let edges :=
            match component_id_for_plugin pr (plugin_id p) with
            | Some t => insert_edge source t edges
            | None => edges
            end in
          let v := version_satisfies (plugin_version p) (dep_version_requirement d) in
          if negb (version_compatible v)
          then (edges, issues ++ ((λ i, for_plugin (plugin_id p) (for_component source i))
                                   <$> version_issues v))
          else (edges, issues)
      | None => (edges, issues ++ [missing_plugin_dependency d source plugin])
      end
  | RequiredCapability | OptionalCapability =>
      let target :=
        match dep_capability_id d ≫= get_capability kr with
        | Some k => Some k
        | None => dep_name d ≫= find_capability_by_domain kr
        end in
      match target with
      | Some k =>
          (foldl (λ edges p,
             match component_id_for_plugin pr p with
             | Some t => insert_edge source t edges
             | None => edges
             end) edges (capability_plugin_ids k), issues)
      | None => (edges, issues ++ [missing_capability_dependency d source plugin])
      end
  | RequiredContract =>
      match dep_contract d with
      | Some contract =>
          if bool_decide (find_contracts_by_name tr (contract_name contract) = [])
          then (edges, issues ++ [for_contract (contract_name contract)
                  (for_plugin plugin (for_component source
                    (blocker UnsupportedContract "required contract dependency is missing")))])
          else (edges, issues)
      | None => (edges, issues)
      end
  | RequiredInfrastructure | RequiredEngine =>
      let present :=
        match dep_name d with
        | Some nm => bool_decide (length (find_components_by_name cr nm) ≠ 0%nat)
        | None => false
        end in
      if negb present
      then (edges, issues ++ [for_dependency (plugin_dependency_label d)
              (for_plugin plugin (for_component source
                (blocker MissingDependency "required platform component dependency is missing")))])
      else (edges, issues)
  | Conflict =>
      let present :=
        bool_decide (is_Some (resolve_plugin_target d pr)) ||
        match dep_name d with
        | Some nm => bool_decide (length (find_components_by_name cr nm) ≠ 0%nat)
                     || bool_decide (is_Some (find_capability_by_domain kr nm))
        | None => false
        end in
      if present
      then (edges, issues ++ [for_dependency (plugin_dependency_label d)
              (for_plugin plugin (for_component source
                (blocker KConflict "conflicting plugin dependency is present")))])
      else (edges, issues)
  end.

End targets.

(* ------------------------------------------------------------------ *)
(** ** Cycles *)

(** A loop over a list whose body may run out of fuel. *)
Fixpoint fold_opt {A S} (f : A → S → option S) (l : list A) (s : S) : option S :=
  match l with
  | [] => Some s
  | x :: l' => s' ← f x s; fold_opt f l' s'
  end.

(** The variables [visit_for_cycles] shares between its calls. *)
Record DfsState := mkDfs {
  visiting : gset ComponentId;
  visited : gset ComponentId;
  path : list ComponentId;
  cycles : list (list ComponentId)
}.

(** The components of a graph: the fuel of its traversals. *)
Definition graph_nodes (edges : Edges) : gset ComponentId :=
  dom edges ∪ ⋃ (map_to_list edges).*2.

Section graph.
Context `{Externals} `{HashOrder}.
Implicit Types (edges : Edges) (explicit_orders : gmap ComponentId N).

(* [resolver/mod.rs:1046-1050] visit_for_cycles *)
Definition dependencies_of edges (node : ComponentId) : list ComponentId :=
  sort_by_key id_to_string (hash_elements (default ∅ (edges !! node))).

(* [resolver/mod.rs] visit_for_cycles *)
Fixpoint visit_for_cycles (fuel : nat) edges (node : ComponentId) (s : DfsState)
    : option DfsState :=
  if bool_decide (node ∈ visited s) then Some s
  else if bool_decide (node ∈ visiting s) then
    match position (λ existing, bool_decide (existing = node)) (path s) with
    | Some index =>
        Some (mkDfs (visiting s) (visited s) (path s) (cycles s ++ [drop index (path s)]))
    | None => Some s
    end
  else
    match fuel with
    | O => None
    | S fuel' =>
        s' ← fold_opt (visit_for_cycles fuel' edges) (dependencies_of edges node)
               (mkDfs ({[node]} ∪ visiting s) (visited s) (path s ++ [node]) (cycles s));
        Some (mkDfs (visiting s' ∖ {[node]}) ({[node]} ∪ visited s') (removelast (path s'))
                (cycles s'))
    end.

(* [resolver/mod.rs] detect_cycles *)
Definition detect_cycles edges : list (list ComponentId) :=
  let nodes := sort_by_key id_to_string (hash_keys edges) in
  match fold_opt (visit_for_cycles (size (graph_nodes edges)) edges) nodes (mkDfs ∅ ∅ [] []) with
  | Some s => cycles s
  | None => []
  end.

(* ------------------------------------------------------------------ *)
(** ** Startup order *)

(* [resolver/mod.rs] sort_ready *)
Definition sort_ready explicit_orders (values : list ComponentId) : list ComponentId :=
  sort_by_key (λ c, (default u32_max (explicit_orders !! c), id_to_string c)) values.

(** [indegree.entry(c).or_insert(0)] *)
Definition or_insert_zero (c : ComponentId) (indegree : gmap ComponentId N)
    : gmap ComponentId N := <[c := default 0 (indegree !! c)]> indegree.

(* [resolver/mod.rs:1071-1076] compute_startup_order *)
Definition startup_edge (c : ComponentId)
    (s : gmap ComponentId N * gmap ComponentId (gset ComponentId)) (dep : ComponentId)
    : gmap ComponentId N * gmap ComponentId (gset ComponentId) :=
  let '(indegree, reverse) := s in
  let indegree := or_insert_zero dep indegree in
  (<[c := default 0 (indegree !! c) + 1]> indegree,
   <[dep := {[c]} ∪ default ∅ (reverse !! dep)]> reverse).
(* [resolver/mod.rs:1068-1078] compute_startup_order *)
Definition startup_node
    (s : gmap ComponentId N * gmap ComponentId (gset ComponentId))
    (e : ComponentId * gset ComponentId)
    : gmap ComponentId N * gmap ComponentId (gset ComponentId) :=
  let '(indegree, reverse) := s in
  foldl (startup_edge e.1) (or_insert_zero e.1 indegree, reverse) (hash_elements e.2).

(** [reverse.get(&component_id)], sorted; the map is kept. *)
(* [resolver/mod.rs:1092-1096] compute_startup_order *)
Definition get_dependents explicit_orders
    (reverse : gmap ComponentId (gset ComponentId)) (c : ComponentId)
    : list ComponentId * gmap ComponentId (gset ComponentId) :=
  (sort_ready explicit_orders (hash_elements (default ∅ (reverse !! c))), reverse).

(** The components in startup order. *)
(* [resolver/mod.rs:1065-1110] compute_startup_order *)
Definition startup_components edges explicit_orders : list ComponentId :=
  let '(indegree, reverse) := foldl startup_node (∅, ∅) (hash_entries edges) in
  let ready := sort_ready explicit_orders (filter (λ e, e.2 = 0) (hash_entries indegree)).*1 in
  default [] (drain (get_dependents explicit_orders) (sort_ready explicit_orders) (size indegree)
    reverse indegree ready []).

(* [resolver/mod.rs] compute_startup_order *)
Definition compute_startup_order edges explicit_orders : list ResolvedStartupItem :=
  (λ e, mkStartupItem e.2 e.1 (explicit_orders !! e.2))
    <$> enumerate (startup_components edges explicit_orders).

(* ------------------------------------------------------------------ *)
(** ** [DependencyResolver::resolve] *)

(** [entry(c).and_modify(min).or_insert] *)
Definition note_startup_order (c : ComponentId) (order : option N) explicit_orders
    : gmap ComponentId N :=
  match order with
  | None => explicit_orders
  | Some o =>
      <[c := match explicit_orders !! c with Some current => N.min current o | None => o end]>
        explicit_orders
  end.

(** The dependencies of one plugin: graph, issues and explicit orders after them. *)
(* [resolver/mod.rs:195-220] DependencyResolver::resolve *)
Definition resolve_plugin_entry (cr : ComponentRegistry) (pr : PluginRegistry)
    (kr : CapabilityRegistry) (tr : ContractRegistry)
    (s : (Edges * list ResolutionIssue) * gmap ComponentId N)
    (e : PluginId * list PluginDependency)
    : (Edges * list ResolutionIssue) * gmap ComponentId N :=
  match component_id_for_plugin pr e.1 with
  | None => s
  | Some c =>
      foldl (λ s d,
        (resolve_plugin_dependency c e.1 cr pr kr tr s.1 d,
         note_startup_order c (dep_startup_order d) s.2)) s e.2
  end.

(** The graph, the issues found while building it, and the explicit orders. *)
(* [resolver/mod.rs:177-220] DependencyResolver::resolve *)
Definition build_graph (cr : ComponentRegistry) (pr : PluginRegistry) (kr : CapabilityRegistry)
    (tr : ContractRegistry) (dr : DependencyRegistry)
    : (Edges * list ResolutionIssue) * gmap ComponentId N :=
  let s := foldl (λ s c,
    let '(edges, issues) := s in
    resolve_component_bindings cr pr kr
      (<[component_id c := default ∅ (edges !! component_id c)]> edges, issues) c)
    (∅, []) (list_components cr) in
  foldl (resolve_plugin_entry cr pr kr tr) (s, ∅) (plugin_entries dr).

(* [resolver/mod.rs:223-231] DependencyResolver::resolve *)
Definition cycle_issue (cycle : list ComponentId) : ResolutionIssue :=
  blocker DependencyCycle
    ("dependency cycle detected: " ++ join " -> " (id_to_string <$> cycle))%string.

(* [resolver/mod.rs] DependencyResolver::resolve *)
Definition resolve (cr : ComponentRegistry) (pr : PluginRegistry) (kr : CapabilityRegistry)
    (tr : ContractRegistry) (dr : DependencyRegistry) : DependencyResolution :=
  let '((edges, issues), explicit_orders) := build_graph cr pr kr tr dr in
  let issues := issues ++ (cycle_issue <$> detect_cycles edges) in
  mkResolution (status_from_issues issues) issues (compute_startup_order edges explicit_orders).

(* [resolver/mod.rs] ConflictResolver::resolve *)
Definition resolve_conflicts (cr : ComponentRegistry) (pr : PluginRegistry)
    (kr : CapabilityRegistry) (dr : DependencyRegistry) : ResolutionReport :=
  report_from_issues (filter (λ i, issue_kind i = KConflict)
    (res_issues (resolve cr pr kr contract_registry_new dr))).

(* ------------------------------------------------------------------ *)
(** ** Impact analysis *)

(* [resolver/mod.rs] ImpactLevel *)
Inductive ImpactLevel := ImpactNone | ImpactLow | ImpactMedium | ImpactHigh.
(* [resolver/mod.rs] ImpactAnalysis *)
Record ImpactAnalysis := mkImpact {
  disabled_component_id : ComponentId;
  affected_components : list ComponentId;
  affected_plugins : list PluginId;
  affected_capabilities : list CapabilityId;
  impact_issues : list ResolutionIssue;
  impact_level : ImpactLevel
}.

(* [resolver/mod.rs] dependency_targets_component *)
Definition dependency_targets_component (d : DependencyBinding) (target : ComponentId)
    (cr : ComponentRegistry) (pr : PluginRegistry) : bool :=
  if bool_decide (db_component_id d = Some target) then true
  else if match db_plugin_id d with
          | Some p => bool_decide (component_id_for_plugin pr p = Some target)
          | None => false
          end then true
  else
    match db_name d with
    | Some nm =>
        existsb (λ c, bool_decide (component_id c = target)) (find_components_by_name cr nm)
        || match find_plugin_by_name pr nm with
           | Some p => bool_decide (component_id_for_plugin pr (plugin_id p) = Some target)
           | None => false
           end
    | None => false
    end.

(** The state of the loop: affected components, issues, [changed]. *)
(* [resolver/mod.rs:737-769] ImpactAnalysis::for_disable_component *)
Definition impact_component (disabled : ComponentId) (cr : ComponentRegistry)
    (pr : PluginRegistry) (s : gset ComponentId * list ResolutionIssue * bool)
    (c : ComponentDefinition) : gset ComponentId * list ResolutionIssue * bool :=
  let '(affected, issues, changed) := s in
  if bool_decide (component_id c = disabled) || bool_decide (component_id c ∈ affected) then s
  else
    let depends_on_disabled := existsb (λ d,
      dependency_targets_component d disabled cr pr ||
      existsb (λ a, dependency_targets_component d a cr pr) (hash_elements affected))
      (dependency_bindings c) in
    if depends_on_disabled
    then ({[component_id c]} ∪ affected,
          issues ++ [for_component (component_id c)
            (warning MissingDependency "component depends on disabled component")], true)
    else s.
(* [resolver/mod.rs:729-771] ImpactAnalysis::for_disable_component *)
Fixpoint impact_loop (fuel : nat) (disabled : ComponentId) (cr : ComponentRegistry)
    (pr : PluginRegistry) (affected : gset ComponentId) (issues : list ResolutionIssue)
    : option (gset ComponentId * list ResolutionIssue) :=
  match fuel with
  | O => None
  | S fuel' =>
      let '(affected', issues', changed) :=
        foldl (impact_component disabled cr pr) (affected, issues, false) (list_components cr) in
      if changed then impact_loop fuel' disabled cr pr affected' issues'
      else Some (affected', issues')
  end.

(** [dedup_by_key]: consecutive equal keys are merged. *)
Fixpoint dedup_by_key {A} (key : A → string) (l : list A) : list A :=
  match l with
  | [] => []
  | x :: l' =>
      match dedup_by_key key l' with
      | y :: r => if bool_decide (key x = key y) then x :: r else x :: y :: r
      | [] => [x]
      end
  end.

(* [resolver/mod.rs:798-803] ImpactAnalysis::for_disable_component *)
Definition impact_level_of (n : N) : ImpactLevel :=
  if n =? 0 then ImpactNone
  else if n =? 1 then ImpactLow
  else if n <=? 3 then ImpactMedium
  else ImpactHigh.

(* [resolver/mod.rs] ImpactAnalysis::for_disable_component *)
Definition for_disable_component (disabled : ComponentId) (cr : ComponentRegistry)
    (pr : PluginRegistry) (kr : CapabilityRegistry) : option ImpactAnalysis :=
  '(affected, issues) ← impact_loop (S (size (components cr))) disabled cr pr ∅ [];
  let affected := sort_by_key id_to_string (hash_elements affected) in
  let plugins := dedup_by_key id_to_string
    (sort_by_key id_to_string (omap (plugin_id_for_component pr) affected)) in
  let caps := dedup_by_key id_to_string
    (sort_by_key id_to_string (capability_id <$>
      filter (λ k, existsb (λ p, bool_decide (p ∈ plugins)) (capability_plugin_ids k) = true)
        (list_capabilities kr))) in
  Some (mkImpact disabled affected plugins caps issues (impact_level_of (len affected))).

End graph.
