(* ===== verification/ResolverFacts.v ===== *)
(** * Facts about the resolver

    The startup order and the cycle detection of the dependency graph, version
    ranges, contract compatibility, resolution statuses and the impact analysis. *)

From S2P Require Import Prelude Collections RustStr Effects Contracts Query Manifest.
From S2P Require Import Component Registry Kahn Resolver.

#[local] Open Scope string_scope.
#[local] Open Scope list_scope.
#[local] Open Scope N_scope.

Section graph_facts.
Context `{Externals} `{HashOrder}.
Implicit Types (edges : Edges) (explicit : gmap ComponentId N).

(* ------------------------------------------------------------------ *)
(** ** The edges of a dependency graph *)

(** [(dep, c)]: component [c] waits for [dep]. *)
Definition entry_edges (e : ComponentId * gset ComponentId) : list (ComponentId * ComponentId) :=
  (λ dep, (dep, e.1)) <$> hash_elements e.2.
Definition edge_list edges : list (ComponentId * ComponentId) := hash_entries edges ≫= entry_edges.

Lemma elem_of_edge_list edges dep c :
  (dep, c) ∈ edge_list edges ↔ dep ∈ default ∅ (edges !! c).
Proof.
  unfold edge_list, entry_edges. rewrite list_elem_of_bind.
  setoid_rewrite list_elem_of_fmap. split.
  - intros ([c' deps] & (dep' & [= <- ->] & Hdep) & Hin). simpl in *.
    apply elem_of_hash_entries in Hin. rewrite Hin. by apply elem_of_hash_elements.
  - destruct (edges !! c) as [deps|] eqn:Hc; simpl; [|set_solver].
    intros Hdep. exists (c, deps). split; [|by apply elem_of_hash_entries].
    exists dep. split; [done|]. by apply elem_of_hash_elements.
Qed.

Lemma elem_of_graph_nodes edges c :
  c ∈ graph_nodes edges ↔
  is_Some (edges !! c) ∨ ∃ k, c ∈ default ∅ (edges !! k).
Proof.
  unfold graph_nodes. rewrite elem_of_union, elem_of_dom, elem_of_union_list.
  setoid_rewrite list_elem_of_fmap. split; (intros [?|Hex]; [by left|right]).
  - destruct Hex as (s & ([k s'] & -> & Hin%elem_of_map_to_list) & Hc). exists k. by rewrite Hin.
  - destruct Hex as [k Hk]. destruct (edges !! k) as [s|] eqn:Hs; simpl in Hk; [|set_solver].
    exists s. split; [|done]. exists (k, s). by rewrite elem_of_map_to_list.
Qed.

Lemma edge_nodes edges dep c :
  (dep, c) ∈ edge_list edges → c ∈ graph_nodes edges ∧ dep ∈ graph_nodes edges.
Proof.
  rewrite elem_of_edge_list, !elem_of_graph_nodes. intros Hd. split; [left|right; eauto].
  destruct (edges !! c); [eauto|set_solver].
Qed.

Lemma NoDup_edges (l : list (ComponentId * gset ComponentId)) :
  NoDup l.*1 → NoDup (l ≫= entry_edges).
Proof.
  induction l as [|[c deps] l IH]; csimpl; [by constructor|]. intros [Hc Hl]%NoDup_cons.
  apply NoDup_app. split_and!; [| |by apply IH].
  - unfold entry_edges. apply NoDup_fmap_2; [by intros ?? [=]|]. apply NoDup_hash_elements.
  - intros [dep c'] Hin0 Hin. unfold entry_edges in Hin0.
    apply list_elem_of_fmap in Hin0 as (dep' & [= <- ->] & _). apply list_elem_of_bind in Hin as ([c' deps'] & Hin & Hl').
    unfold entry_edges in Hin. apply list_elem_of_fmap in Hin as (? & Heq & _).
    simplify_eq/=. apply Hc. by apply (list_elem_of_fmap_2 fst _ (c', deps')).
Qed.

(* ------------------------------------------------------------------ *)
(** ** The startup order *)

Record startup_built (E : list (ComponentId * ComponentId)) (ks : gset ComponentId)
    (s : gmap ComponentId N * gmap ComponentId (gset ComponentId)) : Prop := {
  sb_keys : ∀ k, is_Some (s.1 !! k) ↔ k ∈ ks;
  sb_count : ∀ k, default 0 (s.1 !! k) = remaining E [] k;
  sb_reverse : ∀ k x, x ∈ default ∅ (s.2 !! k) ↔ (k, x) ∈ E
}.

Lemma or_insert_zero_default c (m : gmap ComponentId N) k :
  default 0 (or_insert_zero c m !! k) = default 0 (m !! k).
Proof.
  unfold or_insert_zero. destruct (decide (c = k)) as [<-|Hne].
  - by rewrite lookup_insert_eq.
  - by rewrite lookup_insert_ne.
Qed.

Lemma or_insert_zero_is_Some c (m : gmap ComponentId N) k :
  is_Some (or_insert_zero c m !! k) ↔ c = k ∨ is_Some (m !! k).
Proof.
  unfold or_insert_zero. rewrite lookup_insert_is_Some. destruct (decide (c = k)); tauto.
Qed.

Lemma startup_edge_built E ks s c dep :
  c ∈ ks → startup_built E ks s →
  startup_built (E ++ [(dep, c)]) ({[dep]} ∪ ks) (startup_edge c s dep).
Proof.
  intros Hc [Hk Hn Hr]. destruct s as [ind rev]. simpl in *. constructor; simpl.
  - intros k. rewrite lookup_insert_is_Some, or_insert_zero_is_Some, Hk, elem_of_union,
      elem_of_singleton.
    destruct (decide (c = k)) as [<-|]; naive_solver.
  - intros k. rewrite remaining_snoc_edge. destruct (decide (c = k)) as [<-|Hne].
    + rewrite lookup_insert_eq. simpl. by rewrite or_insert_zero_default, Hn.
    + rewrite lookup_insert_ne by done. rewrite or_insert_zero_default, Hn. lia.
  - intros k x. rewrite elem_of_app, list_elem_of_singleton.
    destruct (decide (dep = k)) as [<-|Hne].
    + rewrite lookup_insert_eq. simpl. rewrite elem_of_union, elem_of_singleton, Hr. naive_solver.
    + rewrite lookup_insert_ne by done. rewrite Hr. naive_solver.
Qed.

Lemma startup_edges_built deps E ks s c :
  c ∈ ks → startup_built E ks s →
  startup_built (E ++ ((λ dep, (dep, c)) <$> deps)) (list_to_set deps ∪ ks)
    (foldl (startup_edge c) s deps).
Proof.
  revert E ks s. induction deps as [|dep deps IH]; intros E ks s Hc Hb; csimpl.
  { by rewrite app_nil_r, (left_id_L ∅ (∪)). }
  rewrite cons_middle, (assoc_L (++)).
  replace ({[dep]} ∪ list_to_set deps ∪ ks) with (list_to_set deps ∪ ({[dep]} ∪ ks)) by set_solver.
  apply IH; [set_solver|]. by apply startup_edge_built.
Qed.

Lemma startup_node_built E ks s e :
  startup_built E ks s → 
  startup_built (E ++ entry_edges e) (e.2 ∪ {[e.1]} ∪ ks) (startup_node s e).
Proof.
  intros [Hk Hn Hr]. destruct s as [ind rev], e as [c deps]. simpl in *.
  replace (deps ∪ {[c]} ∪ ks) with (list_to_set (hash_elements deps) ∪ ({[c]} ∪ ks)).
  2:{ apply set_eq. intros x. rewrite !elem_of_union, elem_of_list_to_set, elem_of_hash_elements.
      tauto. }
  apply startup_edges_built; [set_solver|]. constructor; simpl; [|..|done].
  - intros k. rewrite or_insert_zero_is_Some, Hk. set_solver.
  - intros k. by rewrite or_insert_zero_default.
Qed.

Lemma startup_nodes_built l :
  startup_built (l ≫= entry_edges) (⋃ ((λ e, e.2 ∪ {[e.1]}) <$> l)) (foldl startup_node (∅, ∅) l).
Proof.
  induction l as [|e l IH] using rev_ind.
  { constructor; csimpl; intros; rewrite ?lookup_empty; simpl; [|done|set_solver].
    split; [intros Hk; by apply is_Some_None in Hk|set_solver]. }
  rewrite bind_app, foldl_app, fmap_app, union_list_app_L. simpl.
  rewrite app_nil_r, (right_id_L ∅ (∪)), (comm_L (∪)). by apply startup_node_built.
Qed.

Lemma startup_keys edges :
  ⋃ ((λ e, e.2 ∪ {[e.1]}) <$> hash_entries edges) = graph_nodes edges.
Proof.
  apply set_eq. intros c. rewrite elem_of_graph_nodes, elem_of_union_list.
  setoid_rewrite list_elem_of_fmap. split.
  - intros (s & ([k deps] & -> & Hin%elem_of_hash_entries) & Hc). simpl in Hc.
    apply elem_of_union in Hc as [Hc| ->%elem_of_singleton]; [right; exists k; by rewrite Hin|eauto].
  - intros [[deps Hc]|[k Hc]].
    + exists (deps ∪ {[c]}). split; [|set_solver]. exists (c, deps). by rewrite elem_of_hash_entries.
    + destruct (edges !! k) as [deps|] eqn:Hk; simpl in Hc; [|set_solver].
      exists (deps ∪ {[k]}). split; [|set_solver]. exists (k, deps). by rewrite elem_of_hash_entries.
Qed.

Lemma startup_targets E (rev : gmap ComponentId (gset ComponentId)) k :
  NoDup E → (∀ k x, x ∈ default ∅ (rev !! k) ↔ (k, x) ∈ E) →
  hash_elements (default ∅ (rev !! k)) ≡ₚ targets E k.
Proof.
  intros Hnd Hr. apply NoDup_Permutation.
  - apply NoDup_hash_elements.
  - unfold targets. apply (NoDup_fmap_2_strong snd); [|by apply NoDup_filter].
    intros [a b] [c d] [Ha _]%list_elem_of_filter [Hc _]%list_elem_of_filter Heq.
    simpl in *. congruence.
  - intros x. rewrite elem_of_hash_elements, Hr. unfold targets. rewrite list_elem_of_fmap.
    setoid_rewrite list_elem_of_filter. split.
    + intros Hin. by exists (k, x).
    + by intros ([k' x'] & -> & <- & Hin).
Qed.

Lemma sort_ready_perm explicit l : sort_ready explicit l ≡ₚ l.
Proof. apply sort_by_key_perm. Qed.

(** What [compute_startup_order] orders. *)
Lemma startup_run edges explicit :
  let out := startup_components edges explicit in
  NoDup out ∧ respects (edge_list edges) out ∧
  ∀ k, k ∈ out ↔ k ∈ graph_nodes edges ∧ ∀ dep, (dep, k) ∈ edge_list edges → dep ∈ out.
Proof.
  pose proof (startup_nodes_built (hash_entries edges)) as [Hk Hc Hr].
  rewrite startup_keys in Hk. fold (edge_list edges) in Hc, Hr. unfold startup_components.
  destruct (foldl startup_node (∅, ∅) (hash_entries edges)) as [ind rev]. simpl in *.
  assert (NoDup (edge_list edges)) as Hnd by apply NoDup_edges, NoDup_hash_keys.
  edestruct (drain_spec (get_dependents explicit) (sort_ready explicit) (edge_list edges)
    (graph_nodes edges) (λ g _, g = rev)) with (fuel := size ind) (g := rev) (indegree := ind)
    (queue := sort_ready explicit (filter (λ e, e.2 = 0) (hash_entries ind)).*1)
    (ordered := @nil ComponentId) as (out & Hrun & Hout).
  - intros g done n -> _. split; [|done]. simpl. rewrite sort_ready_perm. by apply startup_targets.
  - apply sort_ready_perm.
  - intros dep c Hdep. by apply edge_nodes in Hdep as [? _].
  - assert (∀ k, k ∈ (filter (λ e, e.2 = 0) (hash_entries ind)).*1 ↔ ind !! k = Some 0) as Hz
      by apply elem_of_zero_keys.
    constructor; simpl; [done|..].
    + intros k c Hkc. specialize (Hc k). by rewrite Hkc in Hc.
    + rewrite sort_ready_perm. eapply sublist_NoDup; [apply (NoDup_hash_keys ind)|].
      apply sublist_fmap, sublist_filter.
    + intros k. by rewrite sort_ready_perm, Hz.
  - done.
  - intros l1 k l2 Hl. by destruct l1.
  - simpl. rewrite <- (size_dom (D:=gset ComponentId) ind).
    apply subseteq_size. intros k Hk'. by apply elem_of_dom, Hk.
  - rewrite Hrun. done.
Qed.

(* ------------------------------------------------------------------ *)
(** ** Cycle detection *)

(** Each component of the list depends on the next one. *)
Definition linked edges (l : list ComponentId) : Prop :=
  ∀ l1 a b l2, l = l1 ++ a :: b :: l2 → depends_on (edge_list edges) a b.
(** A closed walk: each component depends on the next one, the last on the first. *)
Definition dependency_cycle edges (l : list ComponentId) : Prop :=
  match l with [] => False | x :: _ => linked edges (l ++ [x]) end.

Lemma linked_suffix edges l1 l2 : linked edges (l1 ++ l2) → linked edges l2.
Proof. intros Hl m1 a b m2 ->. apply (Hl (l1 ++ m1) a b m2). by rewrite (assoc_L (++)). Qed.

Lemma linked_snoc edges l a b :
  linked edges (l ++ [a]) → depends_on (edge_list edges) a b → linked edges (l ++ [a; b]).
Proof.
  intros Hl Hab l1 x y l2 Heq. destruct l2 as [|z l2 _] using rev_ind.
  - change [a; b] with ([a] ++ [b]) in Heq. change [x; y] with ([x] ++ [y]) in Heq.
    rewrite !(assoc_L (++)) in Heq. apply app_inj_tail in Heq as [Heq ->].
    by apply app_inj_tail in Heq as [_ ->].
  - change [a; b] with ([a] ++ [b]) in Heq.
    rewrite !app_comm_cons, !(assoc_L (++)) in Heq. apply app_inj_tail in Heq as [Heq ->].
    by apply (Hl _ _ _ _ Heq).
Qed.

Lemma linked_tc edges a l b : linked edges (a :: l ++ [b]) → tc (depends_on (edge_list edges)) a b.
Proof.
  revert a. induction l as [|c l IH]; intros a Hl; simpl in *.
  - apply tc_once, (Hl [] a b []). done.
  - eapply tc_l; [apply (Hl [] a c (l ++ [b])); done|]. apply IH, (linked_suffix _ [a]), Hl.
Qed.

Lemma dependency_cycle_tc edges l :
  dependency_cycle edges l → ∃ c, tc (depends_on (edge_list edges)) c c.
Proof. destruct l as [|x l]; [done|]. intros Hl. exists x. by apply linked_tc in Hl. Qed.

(** What the traversal maintains: [path] is a simple walk and [visiting] its set; every
    reported list is a cycle; as long as none is reported, the finished components can
    be started in an order that respects the dependencies. *)
Record dfs_inv edges (s : DfsState) : Prop := {
  dfs_path : NoDup (path s);
  dfs_nodes : Forall (.∈ graph_nodes edges) (path s);
  dfs_visiting : visiting s = list_to_set (path s);
  dfs_disjoint : ∀ k, k ∈ path s → k ∉ visited s;
  dfs_cycles : Forall (dependency_cycle edges) (cycles s);
  dfs_order : cycles s = [] → ∃ order, NoDup order ∧ respects (edge_list edges) order ∧
    ∀ k, k ∈ order ↔ k ∈ visited s
}.

(** What one visit of the nodes [ns] does to the state. *)
Record dfs_step edges (ns : list ComponentId) (s s' : DfsState) : Prop := {
  step_inv : dfs_inv edges s';
  step_path : path s' = path s;
  step_visited : visited s ⊆ visited s';
  step_cycles : cycles s `prefix_of` cycles s';
  step_done : cycles s' = [] → Forall (.∈ visited s') ns
}.

Lemma fold_visit edges fuel ns s :
  (∀ n t, n ∈ ns → dfs_inv edges t → path t = path s →
    ∃ t', visit_for_cycles fuel edges n t = Some t' ∧ dfs_step edges [n] t t') →
  dfs_inv edges s →
  ∃ s', fold_opt (visit_for_cycles fuel edges) ns s = Some s' ∧ dfs_step edges ns s s'.
Proof.
  revert s. induction ns as [|n ns IH]; intros s Hvisit Hinv; simpl.
  { exists s. split; [done|]. by constructor. }
  destruct (Hvisit n s) as (t & Ht & [Hi Hp Hv Hc Hd]); [left|done..|]. rewrite Ht. simpl.
  destruct (IH t) as (s' & Hs' & [Hi' Hp' Hv' Hc' Hd']); [|done|].
  { intros m u Hm Hu Hpu. apply Hvisit; [by right|done|congruence]. }
  exists s'. split; [done|]. constructor; [done|congruence|set_solver|by trans (cycles t)|].
  intros Hnil. constructor; [|by apply Hd'].
  assert (cycles t = []) as Ht0 by (rewrite Hnil in Hc'; by apply prefix_nil_inv in Hc').
  apply Hv'. apply Hd in Ht0. by rewrite Forall_singleton in Ht0.
Qed.

Lemma dfs_push edges node s :
  dfs_inv edges s → node ∈ graph_nodes edges → node ∉ visited s → node ∉ path s →
  dfs_inv edges (mkDfs ({[node]} ∪ visiting s) (visited s) (path s ++ [node]) (cycles s)).
Proof.
  intros [Hp Hn Hvi Hd Hc Ho] Hnode Hnv Hnp. constructor; simpl; [| | | |done|done].
  - apply NoDup_app. split_and!; [done|set_solver|apply NoDup_singleton].
  - by apply Forall_app_2; [|apply Forall_singleton].
  - rewrite Hvi, list_to_set_app_L. set_solver.
  - set_solver.
Qed.

Lemma dfs_pop edges node s t :
  dfs_inv edges s → path s = path t ++ [node] →
  (cycles s = [] → Forall (.∈ visited s) (dependencies_of edges node)) →
  dfs_inv edges (mkDfs (visiting s ∖ {[node]}) ({[node]} ∪ visited s) (removelast (path s)) (cycles s)).
Proof.
  intros [Hp Hn Hvi Hd Hc Ho] Heq Hdeps. rewrite Heq, removelast_last in *.
  apply NoDup_app in Hp as (Hp & Hnp & _). constructor; simpl; [done| | | |done|].
  - by apply Forall_app in Hn as [? _].
  - rewrite Hvi, list_to_set_app_L. set_solver.
  - set_solver.
  - intros Hnil. destruct (Ho Hnil) as (order & Hnd & Hr & Hin).
    exists (order ++ [node]). split_and!.
    + apply NoDup_app. split_and!; [done| |apply NoDup_singleton]. set_solver.
    + apply respects_snoc; [done|]. intros d Hd'. apply Hin.
      apply (proj1 (Forall_forall _ _) (Hdeps Hnil)). unfold dependencies_of.
      rewrite elem_of_sort_by_key, elem_of_hash_elements. by apply elem_of_edge_list.
    + set_solver.
Qed.

(** A node that is on the path closes a cycle. *)
Lemma visit_back_edge edges node s :
  dfs_inv edges s → node ∈ visiting s → linked edges (path s ++ [node]) →
  ∃ s', match position (λ existing, bool_decide (existing = node)) (path s) with
        | Some index =>
            Some (mkDfs (visiting s) (visited s) (path s) (cycles s ++ [drop index (path s)]))
        | None => Some s
        end = Some s' ∧ dfs_step edges [node] s s'.
Proof.
  intros [Hp Hn Hvi Hd Hc Ho] Hnode Hl. rewrite Hvi, elem_of_list_to_set in Hnode.
  destruct (position _ (path s)) as [i|] eqn:Hi.
  - apply position_Some in Hi as (l1 & x & l2 & Hs & <- & Hx & _). bool_prop. subst x.
    eexists. split; [done|]. rewrite Hs, drop_app_length.
    constructor; simpl; [|done|done|by eexists|intros Hnil; by destruct (cycles s)].
    constructor; simpl; rewrite <- ?Hs; try done; [|intros Hnil; by destruct (cycles s)].
    apply Forall_app_2; [done|]. apply Forall_singleton. simpl.
    rewrite Hs, <- (assoc_L (++)) in Hl. by apply linked_suffix in Hl.
  - exfalso. rewrite position_None, Forall_forall in Hi.
    specialize (Hi _ Hnode). by bool_prop.
Qed.

Lemma path_room edges node s :
  dfs_inv edges s → node ∈ graph_nodes edges → node ∉ visiting s →
  ¬ (size (graph_nodes edges) ≤ length (path s) + 0)%nat.
Proof.
  intros [Hp Hn Hvi _ _ _] Hnode Hnv. rewrite Hvi, elem_of_list_to_set in Hnv.
  assert (list_to_set (node :: path s) ⊆ graph_nodes edges) as Hsub%subseteq_size.
  { rewrite Forall_forall in Hn. set_solver. }
  rewrite size_list_to_set in Hsub by (by constructor). simpl in Hsub. lia.
Qed.

Lemma visit_spec edges fuel node s :
  dfs_inv edges s → node ∈ graph_nodes edges → linked edges (path s ++ [node]) →
  (size (graph_nodes edges) ≤ length (path s) + fuel)%nat →
  ∃ s', visit_for_cycles fuel edges node s = Some s' ∧ dfs_step edges [node] s s'.
Proof.
  revert node s. induction fuel as [|fuel IH]; intros node s Hinv Hnode Hl Hfuel; simpl;
    (destruct (bool_decide_reflect (node ∈ visited s)) as [Hv|Hv];
      [exists s; split; [done|]; constructor; auto; by rewrite Forall_singleton|]);
    destruct (bool_decide_reflect (node ∈ visiting s)) as [Hvi|Hvi].
  1, 3: by apply visit_back_edge.
  - exfalso. by eapply path_room.
  - rewrite (dfs_visiting _ _ Hinv), elem_of_list_to_set in Hvi.
    destruct (fold_visit edges fuel (dependencies_of edges node)
      (mkDfs ({[node]} ∪ visiting s) (visited s) (path s ++ [node]) (cycles s)))
      as (s' & Hs' & [Hi Hp Hvs Hcs Hd]); [|by apply dfs_push|]; simpl in *.
    { intros n t Hn Ht Hpt. unfold dependencies_of in Hn.
      rewrite elem_of_sort_by_key, elem_of_hash_elements, <- elem_of_edge_list in Hn.
      apply IH; [done|by apply edge_nodes in Hn as [_ ?]| |].
      - rewrite Hpt, <- (assoc_L (++)). by apply linked_snoc.
      - rewrite Hpt, length_app. simpl. lia. }
    rewrite Hs'. simpl. eexists. split; [done|]. constructor; simpl; [|..|done|].
    + by eapply dfs_pop.
    + by rewrite Hp, removelast_last.
    + set_solver.
    + intros _. apply Forall_singleton. set_solver.
Qed.

Lemma detect_run edges :
  ∃ s, fold_opt (visit_for_cycles (size (graph_nodes edges)) edges)
         (sort_by_key id_to_string (hash_keys edges)) (mkDfs ∅ ∅ [] []) = Some s ∧
    dfs_step edges (sort_by_key id_to_string (hash_keys edges)) (mkDfs ∅ ∅ [] []) s.
Proof.
  apply fold_visit.
  - intros n t Hn Ht Hpt. simpl in Hpt. apply visit_spec; [done| | |by rewrite Hpt].
    + rewrite elem_of_sort_by_key, elem_of_hash_keys in Hn. apply elem_of_graph_nodes. by left.
    + rewrite Hpt. intros [|? [|??]] a b l2; by intros [=].
  - constructor; simpl; [constructor|constructor|done|set_solver|constructor|].
    intros _. exists []. split_and!; [constructor| |set_solver]. intros l1 k l2 Hl. by destruct l1.
Qed.

(** No cycle is reported exactly when there is none. *)
Lemma detect_nil_iff edges : detect_cycles edges = [] ↔ acyclic (edge_list edges).
Proof.
  unfold detect_cycles. destruct (detect_run edges) as (s & -> & [Hi _ _ _ Hd]).
  destruct Hi as [_ _ _ _ Hc Ho]. split.
  - intros Hnil k Htc. destruct (Ho Hnil) as (order & Hnd & Hr & Hin).
    assert (∃ dep, (dep, k) ∈ edge_list edges) as [dep Hdep]
      by (inversion Htc; subst; eauto).
    revert Htc. apply (respects_irreflexive (edge_list edges) (graph_nodes edges)) with (out := order);
      [intros d c Hdc; by apply edge_nodes in Hdc as [? _]|done..|]. apply Hin.
    apply (proj1 (Forall_forall _ _) (Hd Hnil)). rewrite elem_of_sort_by_key, elem_of_hash_keys.
    apply elem_of_edge_list in Hdep. destruct (edges !! k); [eauto|set_solver].
  - intros Hac. destruct (cycles s) as [|l ls]; [done|]. apply Forall_cons in Hc as [Hl _].
    apply dependency_cycle_tc in Hl as [c Hc]. by destruct (Hac c).
Qed.

(** C35. Cycle detection is sound and complete: every list [detect_cycles] reports is a
    closed walk of the dependency graph (each component depends on the next one, the last
    on the first), and it reports none exactly when no component depends on itself
    transitively. The traversal never runs out of fuel: the recursion is at most as deep
    as the graph has components. *)
Theorem detect_cycles_correct edges :
  Forall (dependency_cycle edges) (detect_cycles edges) ∧
  (detect_cycles edges = [] ↔ acyclic (edge_list edges)) ∧
  is_Some (fold_opt (visit_for_cycles (size (graph_nodes edges)) edges)
    (sort_by_key id_to_string (hash_keys edges)) (mkDfs ∅ ∅ [] [])).
Proof.
  split_and!; [|apply detect_nil_iff|].
  - unfold detect_cycles. destruct (detect_run edges) as (s & -> & [Hi _ _ _ _]). apply Hi.
  - destruct (detect_run edges) as (s & -> & _). eauto.
Qed.

(** [a] comes before [b] in the list. *)
Definition precedes (l : list ComponentId) (a b : ComponentId) : Prop :=
  ∃ l1 l2, l = l1 ++ b :: l2 ∧ a ∈ l1.

Lemma startup_ids edges explicit :
  item_component_id <$> compute_startup_order edges explicit = startup_components edges explicit.
Proof.
  unfold compute_startup_order. rewrite <- list_fmap_compose. apply enumerate_snd.
Qed.

Lemma startup_precedes edges explicit dep c :
  c ∈ startup_components edges explicit → (dep, c) ∈ edge_list edges →
  precedes (startup_components edges explicit) dep c.
Proof.
  destruct (startup_run edges explicit) as (_ & Hr & _).
  intros (l1 & l2 & Hl)%list_elem_of_split Hdep. exists l1, l2. split; [done|]. by eapply Hr.
Qed.

Lemma startup_complete_iff edges explicit :
  (∀ k, k ∈ graph_nodes edges → k ∈ startup_components edges explicit) ↔
  acyclic (edge_list edges).
Proof.
  destruct (startup_run edges explicit) as (Hnd & Hr & Hin).
  apply (complete_iff _ (graph_nodes edges)); [|done..|];
    intros d k Hd; by apply edge_nodes in Hd as [??].
Qed.

(** C36. The startup order lists no component twice, numbers its items consecutively from
    zero, starts every component after all components it depends on, and contains every
    component of the graph exactly when the dependencies have no cycle. *)
Theorem startup_order_correct edges explicit :
  let items := compute_startup_order edges explicit in
  let out := item_component_id <$> items in
  NoDup out ∧
  (∀ i item, items !! i = Some item →
    item_order_index item = N.of_nat i ∧
    explicit_startup_order item = explicit !! item_component_id item) ∧
  (∀ dep c, c ∈ out → dep ∈ default ∅ (edges !! c) → precedes out dep c) ∧
  ((∀ c, c ∈ graph_nodes edges → c ∈ out) ↔ acyclic (edge_list edges)).
Proof.
  intros items out. unfold out, items. rewrite startup_ids. split_and!.
  - apply startup_run.
  - intros i item. unfold compute_startup_order. rewrite list_lookup_fmap, enumerate_lookup.
    destruct (startup_components edges explicit !! i); [|done]. by intros [= <-].
  - intros dep c Hc Hdep. apply startup_precedes; [done|]. by apply elem_of_edge_list.
  - apply startup_complete_iff.
Qed.

End graph_facts.

(* ------------------------------------------------------------------ *)
(** ** Statuses and versions *)

Lemma status_incompatible l :
  status_from_issues l = RIncompatible ↔ ∃ i, i ∈ l ∧ severity i = SevBlocker.
Proof.
  unfold status_from_issues. destruct (existsb (has_severity SevBlocker) l) eqn:Hb.
  - split; [intros _|done]. apply existsb_exists in Hb as (i & Hi & Hs).
    exists i. rewrite list_elem_of_In. by apply bool_decide_eq_true in Hs.
  - split; [by destruct (existsb (has_severity SevWarning) l)|]. intros (i & Hi & Hs). exfalso.
    apply not_true_iff_false in Hb. apply Hb, existsb_exists. exists i.
    split; [by apply list_elem_of_In|]. by apply bool_decide_eq_true.
Qed.

Lemma no_blocker l i :
  status_from_issues l ≠ RIncompatible → i ∈ l → severity i ≠ SevBlocker.
Proof. intros Hs Hi Hb. apply Hs, status_incompatible. eauto. Qed.

Lemma version_issues_blockers v r i : i ∈ version_issues (version_satisfies v r) → severity i = SevBlocker.
Proof.
  unfold version_satisfies. simpl.
  destruct (vr_exact r); destruct (vr_min r); destruct (vr_max r);
    repeat (destruct (negb _); csimpl); set_solver.
Qed.

Lemma version_compatible_nil v r :
  version_compatible (version_satisfies v r) = true ↔ version_issues (version_satisfies v r) = [].
Proof.
  assert (∀ l : list ResolutionIssue, bool_decide (length l = 0%nat) = true ↔ l = []) as Hl.
  { intros l. rewrite bool_decide_eq_true. by rewrite length_zero_iff_nil. }
  apply Hl.
Qed.

(** The bounds a version range asks for. *)
Definition in_range (v : string) (r : VersionRange) : Prop :=
  (∀ e, vr_exact r = Some e → v = e) ∧
  (∀ m, vr_min r = Some m → ∃ a b, parse_version v = Some a ∧ parse_version m = Some b ∧
    compare_lists a b ≠ Lt) ∧
  (∀ m, vr_max r = Some m → ∃ a b, parse_version v = Some a ∧ parse_version m = Some b ∧
    compare_lists a b ≠ Gt).

Lemma version_at_least_iff v m :
  version_at_least v m = true ↔
  ∃ a b, parse_version v = Some a ∧ parse_version m = Some b ∧ compare_lists a b ≠ Lt.
Proof.
  unfold version_at_least, compare_versions.
  destruct (parse_version v) as [a|]; [|split; [done|by intros (?&?&?&_)]].
  destruct (parse_version m) as [b|]; [|split; [done|by intros (?&?&?&?&_)]]. simpl.
  split; [intros Hc; exists a, b; by destruct (compare_lists a b)|].
  intros (?&?&[= <-]&[= <-]&?). by destruct (compare_lists a b).
Qed.

Lemma version_at_most_iff v m :
  version_at_most v m = true ↔
  ∃ a b, parse_version v = Some a ∧ parse_version m = Some b ∧ compare_lists a b ≠ Gt.
Proof.
  unfold version_at_most, compare_versions.
  destruct (parse_version v) as [a|]; [|split; [done|by intros (?&?&?&_)]].
  destruct (parse_version m) as [b|]; [|split; [done|by intros (?&?&?&?&_)]]. simpl.
  split; [intros Hc; exists a, b; by destruct (compare_lists a b)|].
  intros (?&?&[= <-]&[= <-]&?). by destruct (compare_lists a b).
Qed.

(** The component order on parsed versions is a total order. *)
Lemma compare_lists_refl l : compare_lists l l = Eq.
Proof. induction l; simpl; [done|]. by rewrite N.compare_refl. Qed.

Lemma compare_lists_eq l r : compare_lists l r = Eq → l = r.
Proof.
  revert r. induction l as [|x l IH]; intros [|y r]; simpl; try done.
  destruct (N.compare_spec x y) as [->| |]; try done. intros Heq. f_equal. auto.
Qed.

Lemma compare_lists_antisym l r : compare_lists r l = CompOpp (compare_lists l r).
Proof.
  revert r. induction l as [|x l IH]; intros [|y r]; simpl; try done.
  rewrite (N.compare_antisym x y). destruct (x ?= y); simpl; auto.
Qed.

Lemma compare_lists_trans a b c :
  compare_lists a b ≠ Gt → compare_lists b c ≠ Gt → compare_lists a c ≠ Gt.
Proof.
  revert b c. induction a as [|x a IH]; intros [|y b] [|z c]; simpl; try done.
  destruct (N.compare_spec x y), (N.compare_spec y z), (N.compare_spec x z); try done; try lia.
  intros. by eapply IH.
Qed.

Lemma version_issues_nil v r : version_issues (version_satisfies v r) = [] ↔ in_range v r.
Proof.
  unfold version_satisfies, in_range. simpl.
  setoid_rewrite <- version_at_least_iff. setoid_rewrite <- version_at_most_iff.
  destruct (vr_exact r) as [e|]; destruct (vr_min r) as [m|]; destruct (vr_max r) as [x|];
    try (destruct (bool_decide_reflect (v = e)));
    try (destruct (version_at_least v m) eqn:?); try (destruct (version_at_most v x) eqn:?); simpl.
  all: split; [intros ?; split_and!; intros; simplify_eq; done|].
  all: intros (He & Hm & Hx); try done; exfalso.
  all: try (specialize (He _ eq_refl)); try (specialize (Hm _ eq_refl));
    try (specialize (Hx _ eq_refl)); congruence.
Qed.

Lemma version_blocker v r issues f :
  version_compatible (version_satisfies v r) = false → (∀ i, severity (f i) = severity i) →
  ∃ i, i ∈ issues ++ (f <$> version_issues (version_satisfies v r)) ∧ severity i = SevBlocker.
Proof.
  intros Hv Hf. destruct (version_issues (version_satisfies v r)) as [|i l] eqn:Hi.
  { apply version_compatible_nil in Hi. congruence. }
  exists (f i). rewrite Hf. split; [set_solver|]. eapply version_issues_blockers.
  rewrite Hi. left.
Qed.

(** A version range means what it says: a version is compatible exactly when it equals
    the exact version, is at least the minimum and at most the maximum (those that are
    given), comparing the numeric components; the status is [Incompatible] otherwise.
    The comparison is a total order on parsed versions. *)
Theorem version_range_semantics v r :
  (version_compatible (version_satisfies v r) = true ↔ in_range v r) ∧
  version_status (version_satisfies v r) =
    (if version_compatible (version_satisfies v r) then Compatible else RIncompatible) ∧
  (∀ a b, compare_lists a b = Eq ↔ a = b) ∧
  (∀ a b, compare_lists b a = CompOpp (compare_lists a b)) ∧
  (∀ a b c, compare_lists a b ≠ Gt → compare_lists b c ≠ Gt → compare_lists a c ≠ Gt).
Proof.
  split_and!; [| | |apply compare_lists_antisym|apply compare_lists_trans].
  - by rewrite version_compatible_nil, version_issues_nil.
  - pose proof (version_compatible_nil v r) as Hc. pose proof (version_issues_blockers v r) as Hb.
    change (version_status (version_satisfies v r))
      with (status_from_issues (version_issues (version_satisfies v r))).
    destruct (version_issues (version_satisfies v r)) as [|i l].
    + by rewrite (proj2 Hc).
    + destruct (version_compatible (version_satisfies v r)); [by specialize (proj1 Hc eq_refl)|].
      apply status_incompatible. exists i. split; [left|]. apply Hb. left.
  - intros a b. split; [apply compare_lists_eq|intros ->; apply compare_lists_refl].
Qed.

(* ------------------------------------------------------------------ *)
(** ** Resolution *)

(** Resolution only adds edges and issues. *)
Record grows (s s' : Edges * list ResolutionIssue) : Prop := {
  grows_dom : dom s.1 ⊆ dom s'.1;
  grows_edges : ∀ k, default ∅ (s.1 !! k) ⊆ default ∅ (s'.1 !! k);
  grows_issues : s.2 `prefix_of` s'.2
}.
#[export] Instance grows_preorder : PreOrder grows.
Proof.
  split.
  - intros s. by constructor.
  - intros s1 s2 s3 [Hd He Hi] [Hd' He' Hi']. constructor; [by etrans| |by etrans].
    intros k. by rewrite (He k).
Qed.

Lemma foldl_grows {A} (f : Edges * list ResolutionIssue → A → Edges * list ResolutionIssue) l s :
  (∀ s x, grows s (f s x)) → grows s (foldl f s l).
Proof.
  intros Hf. revert s. induction l as [|x l IH]; intros s; simpl; [done|].
  trans (f s x); [apply Hf|apply IH].
Qed.

(** The state of a fold when it handles a given element, and what follows. *)
Lemma foldl_grows_at {A} (f : Edges * list ResolutionIssue → A → Edges * list ResolutionIssue) l s x :
  (∀ s x, grows s (f s x)) → x ∈ l → ∃ t, grows (f t x) (foldl f s l).
Proof.
  intros Hf (l1 & l2 & ->)%list_elem_of_split. exists (foldl f s l1).
  rewrite foldl_app. simpl. by apply foldl_grows.
Qed.

Lemma grows_insert_edge a b edges issues :
  grows (edges, issues) (insert_edge a b edges, issues).
Proof.
  constructor; simpl; [set_solver| |done]. intros k. unfold insert_edge.
  destruct (decide (a = k)) as [<-|].
  - rewrite lookup_insert_eq. simpl. set_solver.
  - by rewrite lookup_insert_ne.
Qed.

Lemma grows_issue edges issues l : grows (edges, issues) (edges, issues ++ l).
Proof. constructor; simpl; [done|done|by apply prefix_app_r]. Qed.

Lemma insert_edge_in a b edges : b ∈ default ∅ (insert_edge a b edges !! a).
Proof. unfold insert_edge. rewrite lookup_insert_eq. simpl. set_solver. Qed.

Lemma grows_then_issue edges edges' issues l :
  grows (edges, issues) (edges', issues) → grows (edges, issues) (edges', issues ++ l).
Proof. intros Hg. trans (edges', issues); [done|apply grows_issue]. Qed.

Lemma grows_foldl_edges {A} (f : Edges → A → Edges) l edges issues :
  (∀ edges x, grows (edges, issues) (f edges x, issues)) →
  grows (edges, issues) (foldl f edges l, issues).
Proof.
  intros Hf. revert edges. induction l as [|x l IH]; intros edges; simpl; [done|].
  trans (f edges x, issues); [apply Hf|apply IH].
Qed.

Create HintDb sentinel_grows.
#[local] Hint Resolve grows_insert_edge grows_issue grows_then_issue grows_foldl_edges
  : sentinel_grows.
#[local] Hint Extern 1 (grows ?s ?s) => reflexivity : sentinel_grows.
#[local] Hint Extern 2 (grows _ (match ?x with _ => _ end, _)) => destruct x : sentinel_grows.

Section resolution.
Context `{Externals} `{HashOrder}.

Lemma resolve_binding_grows c cr pr kr s d : grows s (resolve_binding c cr pr kr s d).
Proof.
  destruct s as [edges issues]. unfold resolve_binding.
  repeat case_match; simplify_eq/=; eauto with sentinel_grows.
Qed.

Lemma resolve_plugin_dependency_grows source plugin cr pr kr tr s d :
  grows s (resolve_plugin_dependency source plugin cr pr kr tr s d).
Proof.
  destruct s as [edges issues]. unfold resolve_plugin_dependency.
  repeat case_match; simplify_eq/=; eauto with sentinel_grows.
Qed.

(** One registered component: its node, then its bindings. *)
Definition component_pass cr pr kr (s : Edges * list ResolutionIssue) (c : ComponentDefinition)
    : Edges * list ResolutionIssue :=
  let '(edges, issues) := s in
  resolve_component_bindings cr pr kr
    (<[component_id c := default ∅ (edges !! component_id c)]> edges, issues) c.

Lemma component_pass_grows cr pr kr s c : grows s (component_pass cr pr kr s c).
Proof.
  destruct s as [edges issues]. simpl.
  trans (<[component_id c := default ∅ (edges !! component_id c)]> edges, issues).
  - constructor; simpl; [set_solver| |done]. intros k. destruct (decide (component_id c = k)) as [<-|].
    + by rewrite lookup_insert_eq.
    + by rewrite lookup_insert_ne.
  - apply foldl_grows. intros. apply resolve_binding_grows.
Qed.

Lemma component_pass_dom cr pr kr s c : component_id c ∈ dom (component_pass cr pr kr s c).1.
Proof.
  destruct s as [edges issues]. simpl.
  edestruct (foldl_grows (resolve_binding c cr pr kr) (dependency_bindings c)) as [Hd _ _];
    [intros; apply resolve_binding_grows|]. apply Hd. simpl. set_solver.
Qed.

(** The dependencies of one plugin. *)
Definition plugin_step c p cr pr kr tr (s : Edges * list ResolutionIssue * gmap ComponentId N)
    (d : PluginDependency) : Edges * list ResolutionIssue * gmap ComponentId N :=
  (resolve_plugin_dependency c p cr pr kr tr s.1 d,
   note_startup_order c (dep_startup_order d) s.2).

Lemma plugin_steps_grow c p cr pr kr tr l s :
  grows s.1 (foldl (plugin_step c p cr pr kr tr) s l).1.
Proof.
  revert s. induction l as [|d l IH]; intros s; simpl; [done|].
  etrans; [|apply IH]. apply resolve_plugin_dependency_grows.
Qed.

Lemma resolve_plugin_entry_grows cr pr kr tr s e :
  grows s.1 (resolve_plugin_entry cr pr kr tr s e).1.
Proof.
  unfold resolve_plugin_entry. destruct (component_id_for_plugin pr e.1); [|done].
  apply plugin_steps_grow.
Qed.

Lemma resolve_plugin_entry_at cr pr kr tr s p deps c d :
  component_id_for_plugin pr p = Some c → d ∈ deps →
  ∃ t, grows (resolve_plugin_dependency c p cr pr kr tr t d)
         (resolve_plugin_entry cr pr kr tr s (p, deps)).1.
Proof.
  intros Hc (d1 & d2 & ->)%list_elem_of_split. unfold resolve_plugin_entry. simpl.
  rewrite Hc, foldl_app. simpl. eexists. apply (plugin_steps_grow c p cr pr kr tr d2 (_, _)).
Qed.

Lemma plugin_pass_grows cr pr kr tr l s :
  grows s.1 (foldl (resolve_plugin_entry cr pr kr tr) s l).1.
Proof.
  revert s. induction l as [|e l IH]; intros s; simpl; [done|].
  etrans; [apply resolve_plugin_entry_grows|apply IH].
Qed.

(** Every component and every binding was handled on the way to the final graph. *)
Lemma build_graph_component cr pr kr tr dr c :
  c ∈ list_components cr →
  ∃ s, grows (component_pass cr pr kr s c) (build_graph cr pr kr tr dr).1.
Proof.
  intros Hc. unfold build_graph.
  destruct (foldl_grows_at (component_pass cr pr kr) (list_components cr) (∅, []) c) as [t Ht];
    [apply component_pass_grows|done|]. exists t. etrans; [exact Ht|].
  apply (plugin_pass_grows cr pr kr tr (plugin_entries dr)
    (foldl (component_pass cr pr kr) (∅, []) (list_components cr), ∅)).
Qed.

Lemma build_graph_binding cr pr kr tr dr c d :
  c ∈ list_components cr → d ∈ dependency_bindings c →
  ∃ s, grows (resolve_binding c cr pr kr s d) (build_graph cr pr kr tr dr).1.
Proof.
  intros Hc Hd. destruct (build_graph_component cr pr kr tr dr c Hc) as [[edges issues] Hs].
  simpl in Hs. unfold resolve_component_bindings in Hs.
  destruct (foldl_grows_at (resolve_binding c cr pr kr) (dependency_bindings c)
    (<[component_id c := default ∅ (edges !! component_id c)]> edges, issues) d) as [t Ht];
    [apply resolve_binding_grows|done|]. exists t. by etrans.
Qed.

Lemma build_graph_plugin cr pr kr tr dr p deps c d :
  (p, deps) ∈ plugin_entries dr → component_id_for_plugin pr p = Some c → d ∈ deps →
  ∃ s, grows (resolve_plugin_dependency c p cr pr kr tr s d) (build_graph cr pr kr tr dr).1.
Proof.
  intros (l1 & l2 & Hl)%list_elem_of_split Hc Hd.
  unfold build_graph. rewrite Hl, foldl_app. simpl.
  match goal with |- context [resolve_plugin_entry _ _ _ _ ?s0 _] =>
    destruct (resolve_plugin_entry_at cr pr kr tr s0 p deps c d Hc Hd) as [t Ht] end.
  exists t. etrans; [exact Ht|apply plugin_pass_grows].
Qed.

(** ** Accepted resolutions *)

Definition startup_ids_of (r : DependencyResolution) : list ComponentId :=
  item_component_id <$> startup_order r.

Lemma resolve_unfold cr pr kr tr dr :
  resolve cr pr kr tr dr =
  let g := build_graph cr pr kr tr dr in
  let issues := g.1.2 ++ (cycle_issue <$> detect_cycles g.1.1) in
  mkResolution (status_from_issues issues) issues (compute_startup_order g.1.1 g.2).
Proof. unfold resolve. by destruct (build_graph cr pr kr tr dr) as [[??]?]. Qed.

Lemma accepted_issue cr pr kr tr dr s i :
  res_status (resolve cr pr kr tr dr) ≠ RIncompatible →
  grows s (build_graph cr pr kr tr dr).1 → i ∈ s.2 → severity i ≠ SevBlocker.
Proof.
  rewrite resolve_unfold. simpl. intros Hst [_ _ [k Hk]] Hi.
  apply (no_blocker _ _ Hst). rewrite Hk. set_solver.
Qed.

Lemma accepted_acyclic cr pr kr tr dr :
  res_status (resolve cr pr kr tr dr) ≠ RIncompatible →
  acyclic (edge_list (build_graph cr pr kr tr dr).1.1).
Proof.
  rewrite resolve_unfold. simpl. intros Hst. apply detect_nil_iff.
  destruct (detect_cycles _) as [|l ls]; [done|]. exfalso.
  apply Hst, status_incompatible. exists (cycle_issue l). split; [|done]. set_solver.
Qed.

(** An edge of an accepted graph is an order of its startup. *)
Lemma accepted_edge cr pr kr tr dr s dep c :
  res_status (resolve cr pr kr tr dr) ≠ RIncompatible →
  grows s (build_graph cr pr kr tr dr).1 → dep ∈ default ∅ (s.1 !! c) →
  precedes (startup_ids_of (resolve cr pr kr tr dr)) dep c.
Proof.
  intros Hst [_ He _] Hdep. apply accepted_acyclic in Hst. apply He, elem_of_edge_list in Hdep.
  rewrite resolve_unfold. unfold startup_ids_of. simpl. rewrite startup_ids.
  apply startup_precedes; [|done]. apply (startup_complete_iff _ _ ); [done|].
  by apply edge_nodes in Hdep as [? _].
Qed.

(** A resolution that is not [Incompatible] can be started: its startup order lists
    every registered component, none twice. *)
Theorem resolve_startup_complete cr pr kr tr dr c :
  res_status (resolve cr pr kr tr dr) ≠ RIncompatible →
  c ∈ list_components cr →
  NoDup (startup_ids_of (resolve cr pr kr tr dr)) ∧
  component_id c ∈ startup_ids_of (resolve cr pr kr tr dr).
Proof.
  intros Hst Hc. apply accepted_acyclic in Hst.
  destruct (build_graph_component cr pr kr tr dr c Hc) as [s [Hd _ _]].
  rewrite resolve_unfold. unfold startup_ids_of. simpl. rewrite startup_ids.
  split; [apply startup_run|]. apply startup_complete_iff; [done|].
  apply elem_of_union_l, Hd, component_pass_dom.
Qed.

(** C31. A resolution that is not [Incompatible] honours every binding of every registered
    component: nothing it conflicts with is present, what it requires is a known component
    or capability, a required component's plugin has a version in range, and every
    component it is bound to starts before it. *)
Theorem resolve_honours_bindings cr pr kr tr dr c d :
  res_status (resolve cr pr kr tr dr) ≠ RIncompatible →
  c ∈ list_components cr → d ∈ dependency_bindings c →
  let target := resolve_component_dependency_target d cr pr kr in
  if decide (db_type d = Conflict)
  then target_component target = None ∧ capability_exists target = false
  else
    (db_required d = true → is_Some (target_component target) ∨ capability_exists target = true) ∧
    (∀ t, target_component target = Some t →
      precedes (startup_ids_of (resolve cr pr kr tr dr)) t (component_id c) ∧
      ∀ p, db_required d = true → target_plugin target = Some p →
        in_range (plugin_version p) (db_version_requirement d)).
Proof.
  intros Hst Hc Hd target. destruct (build_graph_binding cr pr kr tr dr c d Hc Hd) as [s Hs].
  pose proof (λ i, accepted_issue _ _ _ _ _ _ i Hst Hs) as Hno.
  pose proof (λ t, accepted_edge _ _ _ _ _ _ t (component_id c) Hst Hs) as Hedge.
  clear Hs Hst. destruct s as [edges issues]. unfold resolve_binding in Hno, Hedge.
  fold target in Hno, Hedge. case_decide as Hty.
  - rewrite bool_decide_true in Hno by done.
    destruct (target_component target); simpl in Hno.
    { edestruct Hno; [apply elem_of_app; right; left|done]. }
    destruct (capability_exists target); [|done].
    edestruct Hno; [apply elem_of_app; right; left|done].
  - rewrite bool_decide_false in Hno, Hedge by done.
    destruct (target_component target) as [t|].
    + split; [eauto|]. intros t' [= <-]. split.
      * apply Hedge. destruct (target_plugin target); [case_match|]; apply insert_edge_in.
      * intros p Hreq Hp. rewrite Hp, Hreq, andb_true_r in Hno.
        apply version_issues_nil, version_compatible_nil.
        destruct (version_compatible _) eqn:Hv; [done|]. exfalso.
        destruct (version_blocker _ _ issues (λ i, for_plugin (plugin_id p)
          (for_component (component_id c) i)) Hv) as (i & Hi & Hb); [done|]. by apply (Hno i).
    + split; [|done]. intros Hreq. rewrite Hreq in Hno. right.
      destruct (capability_exists target); [done|]. simpl in Hno.
      edestruct Hno; [apply elem_of_app; right; left|done].
Qed.

(** The capability a dependency names. *)
Definition capability_target (d : PluginDependency) (kr : CapabilityRegistry) : option CapabilityManifest :=
  match dep_capability_id d ≫= get_capability kr with
  | Some k => Some k
  | None => dep_name d ≫= find_capability_by_domain kr
  end.

(** What a plugin dependency of component [c] asks of an accepted resolution whose
    startup order is [out]. *)
Definition plugin_dependency_honoured (cr : ComponentRegistry) (pr : PluginRegistry)
    (kr : CapabilityRegistry) (tr : ContractRegistry) (out : list ComponentId) (c : ComponentId)
    (d : PluginDependency) : Prop :=
  match dep_type d with
  | RequiredPlugin | OptionalPlugin =>
      (dep_type d = RequiredPlugin → is_Some (resolve_plugin_target d pr)) ∧
      ∀ q, resolve_plugin_target d pr = Some q →
        in_range (plugin_version q) (dep_version_requirement d) ∧
        ∀ t, component_id_for_plugin pr (plugin_id q) = Some t → precedes out t c
  | RequiredCapability | OptionalCapability =>
      (dep_type d = RequiredCapability → is_Some (capability_target d kr)) ∧
      ∀ k q t, capability_target d kr = Some k → q ∈ capability_plugin_ids k →
        component_id_for_plugin pr q = Some t → precedes out t c
  | RequiredContract =>
      ∀ contract, dep_contract d = Some contract →
        find_contracts_by_name tr (contract_name contract) ≠ []
  | RequiredInfrastructure | RequiredEngine =>
      ∃ nm, dep_name d = Some nm ∧ find_components_by_name cr nm ≠ []
  | Conflict =>
      resolve_plugin_target d pr = None ∧
      ∀ nm, dep_name d = Some nm →
        find_components_by_name cr nm = [] ∧ find_capability_by_domain kr nm = None
  end.

Lemma foldl_edges_at (f : PluginId → option ComponentId) c l edges q t :
  q ∈ l → f q = Some t →
  t ∈ default ∅ (foldl (λ edges p, match f p with Some t => insert_edge c t edges | None => edges end)
    edges l !! c).
Proof.
  intros (l1 & l2 & ->)%list_elem_of_split Hq. rewrite foldl_app. simpl. rewrite Hq.
  match goal with |- context [foldl ?g (insert_edge c t ?e) l2] =>
    pose proof (grows_foldl_edges g l2 (insert_edge c t e) []) as Hg; simpl in Hg;
    destruct Hg as [_ Hg _]; [intros; destruct (f x); eauto with sentinel_grows|];
    apply (Hg c), insert_edge_in end.
Qed.

Lemma length_ne_nil {A} (l : list A) : bool_decide (length l ≠ 0%nat) = true ↔ l ≠ [].
Proof. rewrite bool_decide_eq_true. by destruct l. Qed.

(** A step of the resolution that left no blocker and whose edges are in [out]. *)
Definition step_accepted (out : list ComponentId) (c : ComponentId)
    (s : Edges * list ResolutionIssue) : Prop :=
  (∀ i, i ∈ s.2 → severity i ≠ SevBlocker) ∧
  (∀ t, t ∈ default ∅ (s.1 !! c) → precedes out t c).

Lemma step_blocked {A : Prop} out c edges issues i :
  step_accepted out c (edges, issues ++ [i]) → severity i = SevBlocker → A.
Proof. intros [Hi _] Hb. destruct (Hi i); [set_solver|done]. Qed.

Lemma honoured_plugin out c p cr pr kr tr s d :
  dep_type d = RequiredPlugin ∨ dep_type d = OptionalPlugin →
  step_accepted out c (resolve_plugin_dependency c p cr pr kr tr s d) →
  plugin_dependency_honoured cr pr kr tr out c d.
Proof.
  destruct s as [edges issues]. unfold resolve_plugin_dependency, plugin_dependency_honoured.
  intros Hty Hacc. assert (dep_type d = RequiredPlugin → is_Some (resolve_plugin_target d pr)) as Hsome.
  { intros Hreq. rewrite Hreq in Hacc. destruct (resolve_plugin_target d pr); [eauto|].
    eapply step_blocked; [done|]. unfold missing_plugin_dependency. by rewrite Hreq. }
  assert (∀ q, resolve_plugin_target d pr = Some q →
    in_range (plugin_version q) (dep_version_requirement d) ∧
    ∀ t, component_id_for_plugin pr (plugin_id q) = Some t → precedes out t c) as Hq.
  { intros q Hq. rewrite Hq in Hacc. split.
    - apply version_issues_nil, version_compatible_nil.
      destruct (version_compatible _) eqn:Hv; [done|]. exfalso.
      destruct (version_blocker _ _ issues (λ i, for_plugin (plugin_id q)
        (for_component c i)) Hv) as (i & Hi & Hb); [done|].
      destruct Hty as [Hty|Hty]; rewrite Hty in Hacc; by apply (proj1 Hacc i).
    - intros t Ht. apply Hacc. rewrite Ht.
      destruct Hty as [-> | ->]; destruct (negb _); apply insert_edge_in. }
  destruct Hty as [Hty|Hty]; rewrite Hty in *; auto.
Qed.

Lemma honoured_capability out c p cr pr kr tr s d :
  dep_type d = RequiredCapability ∨ dep_type d = OptionalCapability →
  step_accepted out c (resolve_plugin_dependency c p cr pr kr tr s d) →
  plugin_dependency_honoured cr pr kr tr out c d.
Proof.
  destruct s as [edges issues]. unfold resolve_plugin_dependency, plugin_dependency_honoured.
  fold (capability_target d kr). intros Hty Hacc.
  assert (dep_type d = RequiredCapability → is_Some (capability_target d kr)) as Hsome.
  { intros Hreq. rewrite Hreq in Hacc. destruct (capability_target d kr); [eauto|].
    eapply step_blocked; [done|]. unfold missing_capability_dependency. by rewrite Hreq. }
  assert (∀ k q t, capability_target d kr = Some k → q ∈ capability_plugin_ids k →
    component_id_for_plugin pr q = Some t → precedes out t c) as Hk.
  { intros k q t Hk Hq Ht. rewrite Hk in Hacc. apply Hacc.
    destruct Hty as [-> | ->]; by apply (foldl_edges_at (component_id_for_plugin pr) c _ _ q). }
  destruct Hty as [Hty|Hty]; rewrite Hty in *; auto.
Qed.

Lemma honoured_other out c p cr pr kr tr s d :
  dep_type d ∈ [RequiredContract; RequiredInfrastructure; RequiredEngine; Conflict] →
  step_accepted out c (resolve_plugin_dependency c p cr pr kr tr s d) →
  plugin_dependency_honoured cr pr kr tr out c d.
Proof.
  destruct s as [edges issues]. unfold resolve_plugin_dependency, plugin_dependency_honoured.
  intros Hty Hacc. destruct (dep_type d); try (exfalso; set_solver).
  - intros contract Hk. rewrite Hk in Hacc. case_bool_decide; [|done].
    by apply (step_blocked _ _ _ _ _ Hacc).
  - destruct (dep_name d) as [nm|]; [|by apply (step_blocked _ _ _ _ _ Hacc)].
    exists nm. split; [done|]. apply length_ne_nil.
    destruct (bool_decide _); [done|by apply (step_blocked _ _ _ _ _ Hacc)].
  - destruct (dep_name d) as [nm|]; [|by apply (step_blocked _ _ _ _ _ Hacc)].
    exists nm. split; [done|]. apply length_ne_nil.
    destruct (bool_decide _); [done|by apply (step_blocked _ _ _ _ _ Hacc)].
  - destruct (resolve_plugin_target d pr); [by apply (step_blocked _ _ _ _ _ Hacc)|]. split; [done|].
    intros nm Hnm. rewrite Hnm in Hacc. simpl in Hacc.
    destruct (find_components_by_name cr nm); [|by apply (step_blocked _ _ _ _ _ Hacc)].
    destruct (find_capability_by_domain kr nm); [by apply (step_blocked _ _ _ _ _ Hacc)|done].
Qed.

(** A resolution that is not [Incompatible] honours every dependency that a plugin with
    a component declares: required plugins, capabilities, contracts and platform
    components are there, no conflicting one is, the version of each resolved plugin is
    in range, and the components of the plugins and capability providers it depends on
    start before it. *)
Theorem resolve_honours_plugin_dependencies cr pr kr tr dr p deps c d :
  res_status (resolve cr pr kr tr dr) ≠ RIncompatible →
  (p, deps) ∈ plugin_entries dr → component_id_for_plugin pr p = Some c → d ∈ deps →
  plugin_dependency_honoured cr pr kr tr (startup_ids_of (resolve cr pr kr tr dr)) c d.
Proof.
  intros Hst Hp Hc Hd.
  destruct (build_graph_plugin cr pr kr tr dr p deps c d Hp Hc Hd) as [s Hs].
  assert (step_accepted (startup_ids_of (resolve cr pr kr tr dr)) c
    (resolve_plugin_dependency c p cr pr kr tr s d)) as Hacc.
  { split; [intros i|intros t]; [by eapply accepted_issue|by eapply accepted_edge]. }
  destruct (dep_type d) eqn:Hty;
    first [ eapply honoured_plugin; [by eauto|exact Hacc]
          | eapply honoured_capability; [by eauto|exact Hacc]
          | eapply honoured_other; [rewrite Hty; set_solver|exact Hacc] ].
Qed.

End resolution.

(* ------------------------------------------------------------------ *)
(** ** Impact analysis *)

Section impact.
Context `{Externals} `{HashOrder}.
Variables (disabled : ComponentId) (cr : ComponentRegistry) (pr : PluginRegistry).
#[local] Abbreviation impact_state := (gset ComponentId * list ResolutionIssue * bool)%type.

(** Definition [def] has a binding that targets [t]. *)
Definition targets_directly (def : ComponentDefinition) (t : ComponentId) : Prop :=
  ∃ d, d ∈ dependency_bindings def ∧ dependency_targets_component d t cr pr = true.
(** A registered component other than the disabled one, bound to [t]. *)
Definition bound_to (c t : ComponentId) : Prop :=
  ∃ def, def ∈ list_components cr ∧ component_id def = c ∧ c ≠ disabled ∧ targets_directly def t.

(** Affected components: registered, and bound to the disabled one through a chain; the
    issues name each of them once. *)
Record impact_inv (affected : gset ComponentId) (issues : list ResolutionIssue) : Prop := {
  ii_reach : ∀ c, c ∈ affected → tc bound_to c disabled;
  ii_registered : affected ⊆ list_to_set (component_id <$> list_components cr);
  ii_issues : omap issue_component_id issues ≡ₚ elements affected
}.

Lemma depends_test def affected :
  existsb (λ d, dependency_targets_component d disabled cr pr ||
      existsb (λ a, dependency_targets_component d a cr pr) (hash_elements affected))
      (dependency_bindings def) = true ↔
  ∃ t, (t = disabled ∨ t ∈ affected) ∧ targets_directly def t.
Proof.
  rewrite existsb_exists. setoid_rewrite orb_true_iff. setoid_rewrite existsb_exists.
  setoid_rewrite <- list_elem_of_In. setoid_rewrite elem_of_hash_elements.
  unfold targets_directly. naive_solver.
Qed.

(** One registered component. *)
Lemma impact_component_inv def s :
  def ∈ list_components cr → impact_inv s.1.1 s.1.2 →
  let s' := impact_component disabled cr pr s def in
  impact_inv s'.1.1 s'.1.2 ∧
  (s' = s ∧ (component_id def ≠ disabled → ∀ t, t = disabled ∨ t ∈ s.1.1 →
      targets_directly def t → component_id def ∈ s.1.1) ∨
   s'.2 = true ∧ s.1.1 ⊂ s'.1.1).
Proof.
  destruct s as [[affected issues] changed]. simpl. intros Hdef Hinv.
  destruct (bool_decide_reflect (component_id def = disabled)) as [Hdis|Hdis]; simpl.
  { split; [done|]. left. split; [done|]. by intros. }
  destruct (bool_decide_reflect (component_id def ∈ affected)) as [Hin|Hnin].
  { split; [done|]. left. by split. }
  destruct (existsb _ _) eqn:Hdep; simpl.
  - apply depends_test in Hdep as (t & Ht & Hdt). split; [|right; set_solver].
    assert (bound_to (component_id def) t) as Hb by by exists def.
    destruct Hinv as [Hr Hg Hi]. constructor.
    + intros c [->%elem_of_singleton|Hc]%elem_of_union; [|by apply Hr].
      destruct Ht as [->|Ht]; [by apply tc_once|]. eapply tc_l; [done|by apply Hr].
    + apply union_subseteq. split; [|done]. apply singleton_subseteq_l, elem_of_list_to_set.
      by apply list_elem_of_fmap_2.
    + rewrite omap_app, elements_union_singleton by done. simpl. rewrite Hi.
      by rewrite Permutation_app_comm.
  - split; [done|]. left. split; [done|]. intros _ t Ht Hdt. exfalso.
    apply not_true_iff_false in Hdep. apply Hdep, depends_test. eauto.
Qed.

(** One pass over registered components. *)
Lemma impact_pass_inv l s :
  l ⊆ list_components cr → impact_inv s.1.1 s.1.2 →
  let s' := foldl (impact_component disabled cr pr) s l in
  impact_inv s'.1.1 s'.1.2 ∧ s.1.1 ⊆ s'.1.1 ∧
  (s'.2 = true → s.2 = true ∨ s.1.1 ⊂ s'.1.1) ∧
  (s'.2 = false → s' = s ∧ Forall (λ def, component_id def ≠ disabled →
      ∀ t, t = disabled ∨ t ∈ s.1.1 → targets_directly def t → component_id def ∈ s.1.1) l).
Proof.
  revert s. induction l as [|def l IH]; intros s Hl Hinv; simpl.
  { split_and!; auto. }
  destruct (impact_component_inv def s) as [Hinv' Hcase]; [set_solver|done|].
  destruct (IH (impact_component disabled cr pr s def)) as (Hi & Hsub & Hch & Hno);
    [set_solver|done|]. split; [done|].
  destruct Hcase as [[Heq Hcl]|[Htrue Hlt]].
  - rewrite Heq in *. split_and!; [done..|]. intros Hf. destruct (Hno Hf) as [Hs Hall].
    split; [done|]. by constructor.
  - split_and!; [set_solver|intros _; right; set_solver|].
    intros Hf. destruct (Hno Hf) as [Hs _]. rewrite Hs in Hf. congruence.
Qed.

Lemma impact_loop_spec fuel affected issues :
  impact_inv affected issues →
  (size (list_to_set (component_id <$> list_components cr) : gset ComponentId)
    < size affected + fuel)%nat →
  ∃ out issues', impact_loop fuel disabled cr pr affected issues = Some (out, issues') ∧
    impact_inv out issues' ∧
    ∀ def, def ∈ list_components cr → component_id def ≠ disabled →
      ∀ t, t = disabled ∨ t ∈ out → targets_directly def t → component_id def ∈ out.
Proof.
  revert affected issues. induction fuel as [|fuel IH]; intros affected issues Hinv Hfuel; simpl.
  { exfalso. pose proof (subseteq_size _ _ (ii_registered _ _ Hinv)). lia. }
  destruct (impact_pass_inv (list_components cr) (affected, issues, false))
    as (Hi & Hsub & Hch & Hno); [done|done|].
  destruct (foldl _ _ _) as [[affected' issues'] changed]. simpl in *. destruct changed.
  - destruct (Hch eq_refl) as [?|Hlt]; [done|]. apply IH; [done|].
    pose proof (subset_size _ _ Hlt). lia.
  - destruct (Hno eq_refl) as [[= -> ->] Hall]. exists affected, issues. split_and!; [done..|].
    by rewrite Forall_forall in Hall.
Qed.

Lemma impact_loop_exact :
  ∃ out issues, impact_loop (S (size (components cr))) disabled cr pr ∅ [] = Some (out, issues) ∧
    (∀ c, c ∈ out ↔ tc bound_to c disabled) ∧ omap issue_component_id issues ≡ₚ elements out.
Proof.
  destruct (impact_loop_spec (S (size (components cr))) ∅ []) as (out & issues & Hrun & Hinv & Hcl).
  - constructor; set_solver.
  - rewrite size_empty. pose proof (size_list_to_set_le (component_id <$> list_components cr)) as Hsz.
    rewrite length_fmap in Hsz. unfold list_components in *.
    rewrite sort_by_key_length, hash_values_length in Hsz. lia.
  - exists out, issues. split_and!; [done| |apply Hinv]. intros c. split; [apply Hinv|].
    assert (∀ c t, bound_to c t → t = disabled ∨ t ∈ out → c ∈ out) as Hstep.
    { intros c' t (def & Hdef & <- & Hne & Ht) Hto. by eapply Hcl. }
    assert (∀ t, tc bound_to c t → t = disabled → c ∈ out) as Hind; [|eauto].
    intros t Htc. induction Htc; intros ->; eauto.
Qed.

(** Every issue of the analysis is a warning about a missing dependency. *)
Definition impact_warning (i : ResolutionIssue) : Prop :=
  severity i = SevWarning ∧ issue_kind i = MissingDependency.
Lemma impact_fold_warnings cs affected issues changed :
  Forall impact_warning issues →
  Forall impact_warning (foldl (impact_component disabled cr pr) (affected, issues, changed) cs).1.2.
Proof.
  revert affected issues changed. induction cs as [|c cs IH]; intros affected issues changed Hi;
    [done|]. simpl. destruct (_ || _); [by apply IH|].
  destruct (existsb _ _); apply IH; [|done]. apply Forall_app. split; [done|].
  by apply Forall_singleton.
Qed.
Lemma impact_loop_warnings fuel affected issues out issues' :
  Forall impact_warning issues →
  impact_loop fuel disabled cr pr affected issues = Some (out, issues') →
  Forall impact_warning issues'.
Proof.
  revert affected issues. induction fuel as [|fuel IH]; intros affected issues Hi; [done|].
  simpl. pose proof (impact_fold_warnings (list_components cr) affected issues false Hi) as Hf.
  destruct (foldl _ _ _) as [[affected1 issues1] []]; [by apply IH|]. by intros [= _ <-].
Qed.

(** C38. The impact analysis terminates with exactly the components that cannot keep their
    dependencies: the registered components, other than the disabled one, that are bound
    to it directly or through a chain of affected components. Each is listed once and gets
    one issue, a warning that a dependency is missing, and the impact level is the count's. *)
Theorem impact_analysis_exact kr :
  ∃ a, for_disable_component disabled cr pr kr = Some a ∧
    (∀ c, c ∈ affected_components a ↔ tc bound_to c disabled) ∧
    NoDup (affected_components a) ∧
    omap issue_component_id (impact_issues a) ≡ₚ affected_components a ∧
    Forall impact_warning (impact_issues a) ∧
    (disabled ∉ affected_components a) ∧
    impact_level a = impact_level_of (len (affected_components a)).
Proof.
  destruct impact_loop_exact as (out & issues & Hrun & Hin & Hiss).
  unfold for_disable_component. rewrite Hrun. eexists. split; [done|]. simpl.
  apply impact_loop_warnings in Hrun; [|done].
  assert (∀ c, c ∈ sort_by_key id_to_string (hash_elements out) ↔ tc bound_to c disabled) as Hs.
  { intros c. by rewrite elem_of_sort_by_key, elem_of_hash_elements. }
  split_and!; [done|apply NoDup_sort_by_key, NoDup_hash_elements| |done| |done].
  - rewrite Hiss, sort_by_key_perm. apply NoDup_Permutation;
      [apply NoDup_elements|apply NoDup_hash_elements|].
    intros c. by rewrite elem_of_elements, elem_of_hash_elements.
  - rewrite Hs. intros Htc. assert (∀ a b, tc bound_to a b → a ≠ disabled) as Hne.
    { intros a b [? ? (? & _ & _ & ? & _)|? ? ? (? & _ & _ & ? & _) _]; done. }
    by apply Hne in Htc.
Qed.

End impact.

(** An optional binding to a capability that is registered is reported as missing: the
    warning of [resolve_component_bindings] does not look at the capability registry, so
    the resolution is [Degraded] although nothing is missing. *)
Theorem optional_capability_reported_missing `{Externals} `{HashOrder} c cr pr kr edges issues d k :
  db_required d = false → db_type d ≠ Conflict →
  db_component_id d = None → db_plugin_id d = None →
  db_capability_id d = Some k → contains_capability kr k = true →
  ∃ i, resolve_binding c cr pr kr (edges, issues) d = (edges, issues ++ [i]) ∧
    severity i = SevWarning ∧ issue_kind i = MissingDependency.
Proof.
  intros Hreq Hty Hc Hp Hk Hin. unfold resolve_binding, resolve_component_dependency_target.
  rewrite bool_decide_false by done. rewrite Hc, Hp, Hk, Hin, Hreq. simpl. eauto.
Qed.

(* ------------------------------------------------------------------ *)
(** ** A concrete resolution *)

Module ResolverSample.
#[local] Existing Instance sample_externals.
#[local] Existing Instance insertion_free_order.

Definition id {kind} (n : N) : Id kind := mkId (mkUuid n).
Definition definition (n : N) (nm : string) (deps : list DependencyBinding) : ComponentDefinition :=
  mkDefinition (id n) Plugin
    (mkMetadata nm "1.0.0" (mkVersion 1 0 0) None None [] Streaming None Privacy.Internal
       [] [] [] [] [] [])
    [] [] deps [] HealthReference_default [] [] [] (mkTimestamp 0) (mkTimestamp 0).
Definition binding (ty : PluginDependencyType) (c : option N) (k : option N) (required : bool)
    : DependencyBinding :=
  mkDependencyBinding ty (id <$> c) None (id <$> k) None
    (mkVersionRange (Some "1.0.0") (Some "1.9.0") None) required false None None.
Definition flows : ContractDescriptor :=
  mkContract (id 20) "network.flow" (mkVersion 1 2 0) None true ReqBackwardCompatible.
Definition plugin (n : N) (nm : string) (deps : list PluginDependency) : PluginManifest :=
  mkPluginManifest _ (id n) nm PTDetection "network" "" "1.2.0" VersionRange_any
    VersionRange_any [] L1Observable Streaming true [flows] [] deps [] [] [] []
    HealthSchema_default [] [] [] [] Stateless SupportNone SupportNone.
Definition on_plugin (n : N) : PluginDependency :=
  mkDependency RequiredPlugin (Some (id n)) None None None
    (mkVersionRange (Some "1.0") None None) None None.

(** The detector (2) is bound to the collector (1); the plugin of the reporter (3)
    requires the plugin of the detector. *)
Definition to_collector : DependencyBinding := binding RequiredPlugin (Some 1) None true.
Definition collector : ComponentDefinition := definition 1 "collector" [].
Definition detector : ComponentDefinition := definition 2 "detector" [to_collector].
Definition reporter : ComponentDefinition := definition 3 "reporter" [].
Definition registered : ComponentRegistry :=
  foldl (λ r d, (register_component r d).2) component_registry_new [reporter; detector; collector].
Definition detector_plugin : PluginManifest := plugin 12 "detector-plugin" [].
Definition reporter_plugin : PluginManifest := plugin 13 "reporter-plugin" [on_plugin 12].
Definition plugins : PluginRegistry :=
  (register_plugin (register_plugin plugin_registry_new detector_plugin (Some (id 2))).2
    reporter_plugin (Some (id 3))).2.
Definition dependencies : DependencyRegistry :=
  register_plugin_manifest (register_plugin_manifest dependency_registry_new detector_plugin)
    reporter_plugin.
Definition resolution : DependencyResolution :=
  resolve registered plugins capability_registry_new contract_registry_new dependencies.

Lemma resolution_startup :
  res_status resolution = Compatible ∧ startup_ids_of resolution = [id 1; id 2; id 3].
Proof. vm_compute. done. Qed.

Lemma resolution_accepted : res_status resolution ≠ RIncompatible.
Proof. destruct resolution_startup as [-> _]. done. Qed.

Lemma registered_list : list_components registered = [collector; detector; reporter].
Proof. vm_compute. reflexivity. Qed.

Lemma resolve_startup_complete_witness : id 2 ∈ startup_ids_of resolution.
Proof.
  refine (proj2 (resolve_startup_complete registered plugins capability_registry_new
    contract_registry_new dependencies detector resolution_accepted _)).
  rewrite registered_list. right. left.
Defined.

Lemma resolve_honours_bindings_witness : precedes (startup_ids_of resolution) (id 1) (id 2).
Proof.
  assert (detector ∈ list_components registered) as Hdet by (rewrite registered_list; right; left).
  pose proof (resolve_honours_bindings registered plugins capability_registry_new
    contract_registry_new dependencies detector to_collector resolution_accepted Hdet
    (list_elem_of_here _ _)) as [_ Hb].
  apply (Hb (id 1)). vm_compute. reflexivity.
Defined.

Lemma resolve_honours_plugin_dependencies_witness :
  precedes (startup_ids_of resolution) (id 2) (id 3).
Proof.
  assert ((id 13, [on_plugin 12]) ∈ plugin_entries dependencies) as Hin.
  { replace (plugin_entries dependencies) with [((id 12 : PluginId), []); (id 13, [on_plugin 12])]
      by (vm_compute; reflexivity). right. left. }
  pose proof (resolve_honours_plugin_dependencies registered plugins capability_registry_new
    contract_registry_new dependencies (id 13) [on_plugin 12] (id 3) (on_plugin 12)
    resolution_accepted Hin ltac:(vm_compute; reflexivity) (list_elem_of_here _ _)) as [_ Hb].
  apply (Hb detector_plugin); vm_compute; reflexivity.
Defined.

Definition capability : CapabilityManifest :=
  mkCapabilityManifest _ (id 7) "network" "Network" "flows" L1Observable [] [] [] [] [].
Definition capabilities : CapabilityRegistry :=
  (register_capability capability_registry_new capability).2.

Lemma optional_capability_reported_missing_witness :
  ∃ i, resolve_binding collector registered plugins capabilities (∅, [])
         (binding OptionalCapability None (Some 7) false) = (∅, [i]) ∧ severity i = SevWarning.
Proof.
  destruct (optional_capability_reported_missing collector registered plugins capabilities ∅ []
    (binding OptionalCapability None (Some 7) false) (id 7)) as (i & Hi & Hs & _);
    [reflexivity|done|reflexivity|reflexivity|reflexivity|vm_compute; reflexivity|].
  exists i. by split.
Defined.

(** Two components that require each other: the cycle is found, nothing starts. *)
Definition ping : ComponentDefinition :=
  definition 1 "ping" [binding RequiredPlugin (Some 2) None true].
Definition pong : ComponentDefinition :=
  definition 2 "pong" [binding RequiredPlugin (Some 1) None true].
Lemma mutual_dependency :
  let r := resolve (foldl (λ r d, (register_component r d).2) component_registry_new [ping; pong])
    plugin_registry_new capability_registry_new contract_registry_new dependency_registry_new in
  res_status r = RIncompatible ∧ startup_order r = [] ∧
  res_issues r = [cycle_issue [id 1; id 2]].
Proof. vm_compute. done. Qed.
End ResolverSample.
