(* ===== verification/Settings.v ===== *)
(** * Runtime profiles ([contracts/src/settings/mod.rs], [contracts/src/report/mod.rs])

    The settings a runtime profile groups, their safe defaults and validations, settings
    change requests and their impact. The language-model story types of the same source
    file are not used by the platform and are left out. Field names carry a prefix per
    record: [fm_] forensic mode, [pp_] privacy, [cs_] capture, [is_] intelligence, [as_]
    API security, [ws_] web firewall, [rp_] response, [xp_] report export. *)

From S2P Require Import Prelude Collections RustStr Effects Contracts.

#[local] Open Scope string_scope.
#[local] Open Scope list_scope.
#[local] Open Scope N_scope.

(* ------------------------------------------------------------------ *)
(** ** Constants and errors *)

(* [settings/mod.rs:9-9] SETTINGS_SCHEMA_VERSION *)
Definition SETTINGS_SCHEMA_VERSION : SchemaVersion := mkVersion 1 0 0.
(* [settings/mod.rs:10-10] DEFAULT_FORENSIC_TTL_SECONDS *)
Definition DEFAULT_FORENSIC_TTL_SECONDS : N := 10 * 60.
(* [settings/mod.rs:11-11] MAX_FORENSIC_TTL_SECONDS *)
Definition MAX_FORENSIC_TTL_SECONDS : N := 30 * 60.
(* [settings/mod.rs:12-12] DEFAULT_AUTO_CONTAINMENT_TTL_SECONDS *)
Definition DEFAULT_AUTO_CONTAINMENT_TTL_SECONDS : N := 10 * 60.
(* [settings/mod.rs:13-13] MAX_AUTO_CONTAINMENT_TTL_SECONDS *)
Definition MAX_AUTO_CONTAINMENT_TTL_SECONDS : N := 30 * 60.

(* [settings/mod.rs] SettingsContractError *)
Inductive SettingsContractError :=
  | SEmptyField (field : string)
  | UnsafeDefault (field : string)
  | ForensicModeMissing (field : string)
  | SensitiveMarker (field : string)
  | BoundedFieldTooLarge (field : string)
  | InvalidHash (field : string)
  | InvalidTtl (field : string) (max_seconds actual_seconds : N)
  | UnsupportedExportFormat (format : string).

(* [settings/mod.rs] Display for SettingsContractError::fmt *)
Definition settings_error_to_string (e : SettingsContractError) : string :=
  match e with
  | SEmptyField field => field ++ " must not be empty"
  | UnsafeDefault field => field ++ " is not allowed by safe defaults"
  | ForensicModeMissing field => "forensic mode requires explicit " ++ field
  | SensitiveMarker field => field ++ " contains a forbidden sensitive marker"
  | BoundedFieldTooLarge field => field ++ " exceeds its bounded limit"
  | InvalidHash field => field ++ " must be a sha256 hex digest"
  | InvalidTtl field max actual =>
      field ++ " TTL " ++ show_uint actual ++ "s exceeds max " ++ show_uint max ++ "s"
  | UnsupportedExportFormat format => "export format " ++ format ++ " is not supported by settings"
  end%string.

(** [if cond { return Err(..) }] *)
Definition reject_if (cond : bool) (e : SettingsContractError) : result unit SettingsContractError :=
  if cond then Err e else Ok tt.

(* ------------------------------------------------------------------ *)
(** ** Text and time limits *)

(* [settings/mod.rs:1312-1331] validate_safe_text *)
Definition sensitive_markers : list string :=
  ["raw_packet"; "raw_payload"; "payload"; "http_body"; "authorization"; "api_key"; "cookie";
   "credential"; "password"; "private_key"; "session_token"; "access_token"; "refresh_token";
   "token"; "secret"; "command_line"; "filepath"; "username"].
(* [settings/mod.rs:1309-1311] validate_safe_text *)
Definition normalized (value : string) : string :=
  replace_with_underscore ["-"%char; "."%char; " "%char; "/"%char; "="%char]
    (to_ascii_lowercase value).
(* [settings/mod.rs] validate_safe_text *)
Definition validate_safe_text (field value : string) : result unit SettingsContractError :=
  for_each (λ marker, reject_if (contains (normalized value) marker) (SensitiveMarker field))
    sensitive_markers.

(* [settings/mod.rs] require_non_empty *)
Definition require_safe_text (field value : string) : result string SettingsContractError :=
  if blank value then Err (SEmptyField field)
  else let? _ := validate_safe_text field value in Ok value.

(* [settings/mod.rs] validate_ttl *)
Definition validate_ttl (field : string) (actual max : N) : result unit SettingsContractError :=
  if (actual =? 0) || (max <? actual) then Err (InvalidTtl field max actual) else Ok tt.

(* ------------------------------------------------------------------ *)
(** ** Forensic mode *)

(* [settings/mod.rs] ForensicScopeKind *)
Inductive ForensicScopeKind := SelectedFlow | SelectedProcess | SelectedDestination | CaseScoped.
(* [settings/mod.rs] ForensicScope *)
Record ForensicScope := mkScope { scope_kind : ForensicScopeKind; scope_ref : string }.
(* [settings/mod.rs] ForensicScope::new *)
Definition ForensicScope_new (k : ForensicScopeKind) (r : string)
    : result ForensicScope SettingsContractError :=
  let? r := require_safe_text "forensic scope_ref" r in Ok (mkScope k r).

(* [settings/mod.rs] ForensicModeSettings *)
Record ForensicModeSettings := mkForensic {
  fm_enabled : bool;
  fm_reason_redacted : option string;
  fm_scope : option ForensicScope;
  fm_ttl_seconds : option N;
  fm_max_ttl_seconds : N;
  fm_local_encryption_required : bool;
  fm_visible_active_indicator_required : bool;
  fm_audit_required : bool;
  fm_export_requires_redaction : bool;
  fm_export_requires_confirmation : bool;
  fm_raw_packet_persistence_allowed : bool;
  fm_payload_persistence_allowed : bool;
  fm_http_body_persistence_allowed : bool
}.
(* [settings/mod.rs] ForensicModeSettings::disabled *)
Definition forensic_disabled : ForensicModeSettings :=
  mkForensic false None None None MAX_FORENSIC_TTL_SECONDS true true true true true
    false false false.

(* [settings/mod.rs] ForensicModeSettings::validate *)
Definition forensic_validate (s : ForensicModeSettings) : result unit SettingsContractError :=
  let? _ := reject_if (fm_raw_packet_persistence_allowed s)
              (UnsafeDefault "forensic raw_packet_persistence_allowed") in
  let? _ := reject_if (fm_payload_persistence_allowed s)
              (UnsafeDefault "forensic payload_persistence_allowed") in
  let? _ := reject_if (fm_http_body_persistence_allowed s)
              (UnsafeDefault "forensic http_body_persistence_allowed") in
  if fm_enabled s then
    let? _ := reject_if (match fm_reason_redacted s with Some r => blank r | None => true end)
                (ForensicModeMissing "reason") in
    let? _ := reject_if (bool_decide (fm_scope s = None)) (ForensicModeMissing "scope") in
    let? ttl := match fm_ttl_seconds s with
                | Some t => Ok t | None => Err (ForensicModeMissing "TTL") end in
    let? _ := validate_ttl "forensic ttl_seconds" ttl (fm_max_ttl_seconds s) in
    let? _ := reject_if (negb (fm_local_encryption_required s))
                (UnsafeDefault "forensic local_encryption_required") in
    let? _ := reject_if (negb (fm_visible_active_indicator_required s))
                (UnsafeDefault "forensic visible_active_indicator_required") in
    reject_if (negb (fm_audit_required s)) (UnsafeDefault "forensic audit_required")
  else Ok tt.

(* [settings/mod.rs] ForensicModeSettings::manual_schema_reserved *)
Definition manual_schema_reserved (reason : string) (scope : ForensicScope)
    : result ForensicModeSettings SettingsContractError :=
  let? reason := require_safe_text "forensic reason_redacted" reason in
  let d := forensic_disabled in
  let settings := mkForensic true (Some reason) (Some scope) (Some DEFAULT_FORENSIC_TTL_SECONDS)
    (fm_max_ttl_seconds d) (fm_local_encryption_required d)
    (fm_visible_active_indicator_required d) (fm_audit_required d)
    (fm_export_requires_redaction d) (fm_export_requires_confirmation d)
    (fm_raw_packet_persistence_allowed d) (fm_payload_persistence_allowed d)
    (fm_http_body_persistence_allowed d) in
  let? _ := forensic_validate settings in
  Ok settings.

(* ------------------------------------------------------------------ *)
(** ** Privacy, capture, attribution, intelligence *)

(* [settings/mod.rs] StorageMode *)
Inductive StorageMode := LocalOnly.
(* [settings/mod.rs] PrivacyPolicy *)
Record PrivacyPolicy := mkPrivacy {
  pp_policy_version : SchemaVersion;
  pp_storage_mode : StorageMode;
  pp_cloud_sync_enabled : bool;
  pp_security_telemetry_enabled : bool;
  pp_raw_packet_storage_enabled : bool;
  pp_payload_storage_enabled : bool;
  pp_http_body_storage_enabled : bool;
  pp_cookie_token_credential_storage_enabled : bool;
  pp_authorization_header_storage_enabled : bool;
  pp_api_key_storage_enabled : bool;
  pp_forensic_mode : ForensicModeSettings
}.
(* [settings/mod.rs] PrivacyPolicy::safe_default *)
Definition privacy_safe_default : PrivacyPolicy :=
  mkPrivacy SETTINGS_SCHEMA_VERSION LocalOnly false false false false false false false false
    forensic_disabled.
(* [settings/mod.rs] PrivacyPolicy::validate *)
Definition privacy_validate (p : PrivacyPolicy) : result unit SettingsContractError :=
  let? _ := reject_if (pp_cloud_sync_enabled p) (UnsafeDefault "cloud_sync_enabled") in
  let? _ := reject_if (pp_security_telemetry_enabled p)
              (UnsafeDefault "security_telemetry_enabled") in
  let? _ := reject_if (pp_raw_packet_storage_enabled p)
              (UnsafeDefault "raw_packet_storage_enabled") in
  let? _ := reject_if (pp_payload_storage_enabled p) (UnsafeDefault "payload_storage_enabled") in
  let? _ := reject_if (pp_http_body_storage_enabled p)
              (UnsafeDefault "http_body_storage_enabled") in
  let? _ := reject_if (pp_cookie_token_credential_storage_enabled p)
              (UnsafeDefault "cookie_token_credential_storage_enabled") in
  let? _ := reject_if (pp_authorization_header_storage_enabled p)
              (UnsafeDefault "authorization_header_storage_enabled") in
  let? _ := reject_if (pp_api_key_storage_enabled p) (UnsafeDefault "api_key_storage_enabled") in
  forensic_validate (pp_forensic_mode p).

(* [settings/mod.rs] CaptureAdapterPreference *)
Inductive CaptureAdapterPreference :=
  | AutoMetadataOnly | WinDivert | PktmonDiagnostic | ImportedOnly | CaptureDisabled.
(* [settings/mod.rs] CaptureDirectionSetting *)
Inductive CaptureDirectionSetting := Inbound | Outbound | Both.
(* [settings/mod.rs] CaptureSettings *)
Record CaptureSettings := mkCapture {
  cs_enabled : bool;
  cs_adapter_preference : CaptureAdapterPreference;
  cs_direction : CaptureDirectionSetting;
  cs_protocol_filters : list string;
  cs_interface_allowlist : list string;
  cs_store_packet_metadata : bool;
  cs_store_raw_packets : bool;
  cs_store_payloads : bool;
  cs_store_http_bodies : bool;
  cs_reduced_visibility_warning_enabled : bool;
  cs_capture_health_visible : bool;
  cs_drop_rate_visible : bool
}.
(* [settings/mod.rs] CaptureSettings::safe_default *)
Definition capture_safe_default : CaptureSettings :=
  mkCapture true AutoMetadataOnly Both [] [] true false false false true true true.
(* [settings/mod.rs] CaptureSettings::validate *)
Definition capture_validate (c : CaptureSettings) : result unit SettingsContractError :=
  let? _ := reject_if (cs_store_raw_packets c) (UnsafeDefault "store_raw_packets") in
  let? _ := reject_if (cs_store_payloads c) (UnsafeDefault "store_payloads") in
  reject_if (cs_store_http_bodies c) (UnsafeDefault "store_http_bodies").

(* [settings/mod.rs] ProcessAttributionCollectionMode *)
Inductive ProcessAttributionCollectionMode := StandardUser | ElevatedService | AdvancedFuture.
(* [settings/mod.rs] ProcessAttributionSettings *)
Record ProcessAttributionSettings := mkAttribution {
  collection_mode : ProcessAttributionCollectionMode;
  allow_unknown_attribution : bool;
  show_udp_limitation_warning : bool;
  show_vpn_proxy_limitation_warning : bool;
  show_protected_process_limitation_warning : bool;
  attribution_confidence_visible : bool
}.
(* [settings/mod.rs] ProcessAttributionSettings::safe_default *)
Definition attribution_safe_default : ProcessAttributionSettings :=
  mkAttribution ElevatedService true true true true true.

(* [settings/mod.rs] IntelligenceSettings *)
Record IntelligenceSettings := mkIntelligence {
  is_local_bundled_intelligence_enabled : bool;
  is_signed_updates_enabled : bool;
  is_user_ioc_import_enabled : bool;
  is_online_lookup_enabled : bool;
  is_commercial_feed_configured : bool;
  is_source_provenance_required : bool;
  is_stale_feed_allowed_with_reduced_confidence : bool;
  is_online_lookup_warning_enabled : bool
}.
(* [settings/mod.rs] IntelligenceSettings::safe_default *)
Definition intelligence_safe_default : IntelligenceSettings :=
  mkIntelligence true true true false false true true true.
(* [settings/mod.rs] IntelligenceSettings::validate *)
Definition intelligence_validate (i : IntelligenceSettings) : result unit SettingsContractError :=
  reject_if (is_online_lookup_enabled i) (UnsafeDefault "online_lookup_enabled").

(* ------------------------------------------------------------------ *)
(** ** API security, web firewall, response *)

(* [settings/mod.rs] ApiSecurityMode *)
Inductive ApiSecurityMode :=
  | PacketOnlyApiHint | ImportedLogsMonitorOnly | FullApiSecurityNotConfigured.
(* [settings/mod.rs] ApiSecuritySettings *)
Record ApiSecuritySettings := mkApiSecurity {
  as_mode : ApiSecurityMode;
  as_packet_only_hints_enabled : bool;
  as_full_api_security_configured : bool;
  as_local_tls_inspection_enabled : bool;
  as_browser_extension_visibility_enabled : bool;
  as_api_policy_response_enabled : bool;
  as_import_logs_available : bool;
  as_packet_only_warning_enabled : bool
}.
(* [settings/mod.rs] ApiSecuritySettings::safe_default *)
Definition api_security_safe_default : ApiSecuritySettings :=
  mkApiSecurity PacketOnlyApiHint true false false false false true true.
(* [settings/mod.rs] ApiSecuritySettings::validate *)
Definition api_security_validate (a : ApiSecuritySettings) : result unit SettingsContractError :=
  let? _ := reject_if (as_local_tls_inspection_enabled a)
              (UnsafeDefault "local_tls_inspection_enabled") in
  let? _ := reject_if (as_browser_extension_visibility_enabled a)
              (UnsafeDefault "browser_extension_visibility_enabled") in
  reject_if (as_api_policy_response_enabled a) (UnsafeDefault "api_policy_response_enabled").

(* [settings/mod.rs] WafIntegrationSettings *)
Record WafIntegrationSettings := mkWaf {
  ws_security_enabled : bool;
  ws_import_modsecurity_audit_log_available : bool;
  ws_import_generic_json_event_available : bool;
  ws_import_generic_csv_event_available : bool;
  ws_access_log_as_web_access_log_available : bool;
  ws_cloud_waf_connectors_enabled : bool;
  ws_enforcement_response_enabled : bool;
  ws_disabled_by_default_warning_enabled : bool;
  ws_access_log_not_waf_warning_enabled : bool
}.
(* [settings/mod.rs] WafIntegrationSettings::safe_default *)
Definition waf_safe_default : WafIntegrationSettings :=
  mkWaf false true true true true false false true true.
(* [settings/mod.rs] WafIntegrationSettings::validate *)
Definition waf_validate (w : WafIntegrationSettings) : result unit SettingsContractError :=
  let? _ := reject_if (ws_cloud_waf_connectors_enabled w)
              (UnsafeDefault "cloud_waf_connectors_enabled") in
  reject_if (ws_enforcement_response_enabled w) (UnsafeDefault "waf enforcement_response_enabled").

(* [settings/mod.rs] ResponseMode *)
Inductive ResponseMode := RecommendOnly | AutoContainmentLite | ModeApprovalRequired.
#[export] Instance ResponseMode_eq_dec : EqDecision ResponseMode.
Proof. solve_decision. Defined.
(* [settings/mod.rs] ResponsePolicy *)
Record ResponsePolicy := mkResponsePolicy {
  rp_mode : ResponseMode;
  rp_auto_containment_ttl_seconds : N;
  rp_auto_containment_max_ttl_seconds : N;
  rp_allowed_auto_actions : list string;
  rp_approval_required_for_high_impact : bool;
  rp_approval_required_for_broad_scope : bool;
  rp_waf_api_enforcement_requires_approval : bool;
  rp_permanent_block_requires_approval : bool;
  rp_rollback_required : bool;
  rp_audit_required : bool;
  rp_replay_execution_disabled : bool
}.
Definition with_mode (m : ResponseMode) (actions : list string) (p : ResponsePolicy)
    : ResponsePolicy :=
  mkResponsePolicy m (rp_auto_containment_ttl_seconds p) (rp_auto_containment_max_ttl_seconds p)
    actions (rp_approval_required_for_high_impact p) (rp_approval_required_for_broad_scope p)
    (rp_waf_api_enforcement_requires_approval p) (rp_permanent_block_requires_approval p)
    (rp_rollback_required p) (rp_audit_required p) (rp_replay_execution_disabled p).
(* [settings/mod.rs] ResponsePolicy::recommend_only *)
Definition recommend_only : ResponsePolicy :=
  mkResponsePolicy RecommendOnly DEFAULT_AUTO_CONTAINMENT_TTL_SECONDS
    MAX_AUTO_CONTAINMENT_TTL_SECONDS [] true true true true true true true.
(* [settings/mod.rs] ResponsePolicy::auto_containment_lite *)
Definition auto_containment_lite : ResponsePolicy :=
  with_mode AutoContainmentLite ["malicious_destination_auto_block"; "exfiltration_auto_throttle"]
    recommend_only.
(* [settings/mod.rs] ResponsePolicy::approval_required *)
Definition approval_required_policy : ResponsePolicy :=
  with_mode ModeApprovalRequired (rp_allowed_auto_actions recommend_only) recommend_only.
(* [settings/mod.rs] ResponsePolicy::validate *)
Definition response_validate (p : ResponsePolicy) : result unit SettingsContractError :=
  let? _ := validate_ttl "auto_containment_ttl_seconds" (rp_auto_containment_ttl_seconds p)
              (rp_auto_containment_max_ttl_seconds p) in
  let? _ := reject_if (negb (rp_rollback_required p)) (UnsafeDefault "rollback_required") in
  reject_if (negb (rp_audit_required p)) (UnsafeDefault "audit_required").

(* ------------------------------------------------------------------ *)
(** ** Report export *)

(* [report/mod.rs] ExportFormat *)
Inductive ExportFormat := Markdown | Html | RedactedJson | Unsupported (value : string).
#[export] Instance ExportFormat_eq_dec : EqDecision ExportFormat.
Proof. solve_decision. Defined.
(* [report/mod.rs] ExportFormat::parse *)
Definition format_parse (value : string) : ExportFormat :=
  if bool_decide (value = "markdown") then Markdown
  else if bool_decide (value = "html") then Html
  else if bool_decide (value = "redacted_json") then RedactedJson
  else Unsupported value.
(* [report/mod.rs] ExportFormat::as_str *)
Definition format_as_str (f : ExportFormat) : string :=
  match f with
  | Markdown => "markdown" | Html => "html" | RedactedJson => "redacted_json"
  | Unsupported v => v
  end.
(* [report/mod.rs] ExportFormat::is_supported_v1 *)
Definition is_supported_v1 (f : ExportFormat) : bool :=
  match f with Unsupported _ => false | _ => true end.
(* [report/mod.rs] ExportFormat::deferred_reason *)
Definition deferred_reason (f : ExportFormat) : option string :=
  match f with
  | Unsupported v =>
      if bool_decide (v = "pdf") then Some "PDF is deferred to a later renderer/export adapter"
      else Some "format is not supported in V1"
  | _ => None
  end.

(* [settings/mod.rs] ReportExportPolicy *)
Record ReportExportPolicy := mkExportPolicy {
  xp_allowed_formats : list ExportFormat;
  xp_require_redaction : bool;
  xp_require_user_confirmation : bool;
  xp_audit_required : bool;
  xp_local_export_only : bool;
  xp_export_history_enabled : bool
}.
(* [settings/mod.rs] ReportExportPolicy::safe_default *)
Definition export_safe_default : ReportExportPolicy :=
  mkExportPolicy [Markdown; Html; RedactedJson] true true true true true.
(* [settings/mod.rs] ReportExportPolicy::validate *)
Definition export_validate (p : ReportExportPolicy) : result unit SettingsContractError :=
  let? _ := for_each (λ f, reject_if (negb (is_supported_v1 f))
              (UnsupportedExportFormat (format_as_str f))) (xp_allowed_formats p) in
  let? _ := reject_if (negb (xp_require_redaction p)) (UnsafeDefault "require_redaction") in
  let? _ := reject_if (negb (xp_require_user_confirmation p))
              (UnsafeDefault "require_user_confirmation") in
  reject_if (negb (xp_audit_required p)) (UnsafeDefault "export audit_required").

(* ------------------------------------------------------------------ *)
(** ** Retention, status, detection, risk *)

(* [settings/mod.rs] RetentionPolicy *)
Record RetentionPolicy := mkRetention {
  flows_days : N; sessions_days : N; dns_observations_days : N; tls_observations_days : N;
  http_metadata_days : N; process_context_days : N; asset_exposure_days : N; findings_days : N;
  alerts_days : N; incidents_days : N; audit_events_days_minimum : N;
  reports_user_controlled : bool;
  preserve_incident_related_evidence : bool;
  preserve_audit_events : bool
}.
(* [settings/mod.rs] RetentionPolicy::safe_default *)
Definition retention_safe_default : RetentionPolicy :=
  mkRetention 30 30 30 90 14 30 90 90 180 365 365 true true true.

(* [settings/mod.rs] ServiceStatusSettings *)
Record ServiceStatusSettings := mkServiceStatus {
  show_elevated_service_status : bool;
  show_capture_health : bool;
  show_process_attribution_quality : bool;
  show_storage_status : bool;
  show_intelligence_status : bool;
  show_response_executor_status : bool;
  show_ipc_status : bool;
  degraded_state_banner_enabled : bool
}.
(* [settings/mod.rs] ServiceStatusSettings::safe_default *)
Definition service_status_safe_default : ServiceStatusSettings :=
  mkServiceStatus true true true true true true true true.

(* [settings/mod.rs] DetectionPolicy *)
Record DetectionPolicy := mkDetection {
  c2_detection_enabled : bool;
  exfiltration_detection_enabled : bool;
  lateral_movement_lite_enabled : bool;
  intelligence_hit_can_create_alert_directly : bool;
  low_confidence_single_signal_alerts_allowed : bool
}.
(* [settings/mod.rs] DetectionPolicy::safe_default *)
Definition detection_safe_default : DetectionPolicy := mkDetection true true true false false.

(* [settings/mod.rs] RiskPolicy *)
Record RiskPolicy := mkRisk {
  risk_based_alerting_enabled : bool;
  require_evidence_for_finding : bool;
  require_alert_traceability : bool;
  require_incident_traceability : bool
}.
(* [settings/mod.rs] RiskPolicy::safe_default *)
Definition risk_safe_default : RiskPolicy := mkRisk true true true true.

(* ------------------------------------------------------------------ *)
(** ** Runtime profiles *)

(* [settings/mod.rs] RuntimeProfileName *)
Inductive RuntimeProfileName :=
  | SafeDefault | LowResource | Balanced | HighPerformance | ForensicManual | ReplayMode
  | DeveloperTest.

(* [settings/mod.rs] RuntimeProfile *)
Record RuntimeProfile := mkProfile {
  profile_id : RuntimeProfileId;
  profile_name : RuntimeProfileName;
  display_name : string;
  profile_schema_version : SchemaVersion;
  profile_created_at : Timestamp;
  profile_updated_at : Timestamp;
  is_default : bool;
  privacy_policy : PrivacyPolicy;
  capture_settings : CaptureSettings;
  process_attribution_settings : ProcessAttributionSettings;
  intelligence_settings : IntelligenceSettings;
  api_security_settings : ApiSecuritySettings;
  waf_integration_settings : WafIntegrationSettings;
  response_policy : ResponsePolicy;
  report_export_policy : ReportExportPolicy;
  retention_policy : RetentionPolicy;
  service_status_settings : ServiceStatusSettings;
  detection_policy : DetectionPolicy;
  risk_policy : RiskPolicy
}.

(* [settings/mod.rs] RuntimeProfile::base *)
Definition profile_base (nm : RuntimeProfileName) (display : string) (default : bool)
    : ST RuntimeProfile :=
  let$ t := now in
  let$ id := new_v4 in
  st_ret (mkProfile id nm display SETTINGS_SCHEMA_VERSION t t default
    privacy_safe_default capture_safe_default attribution_safe_default intelligence_safe_default
    api_security_safe_default waf_safe_default recommend_only export_safe_default
    retention_safe_default service_status_safe_default detection_safe_default risk_safe_default).

(** Assignments to fields of a profile. *)
Definition set_privacy (f : PrivacyPolicy → PrivacyPolicy) (p : RuntimeProfile) : RuntimeProfile :=
  mkProfile (profile_id p) (profile_name p) (display_name p) (profile_schema_version p)
    (profile_created_at p) (profile_updated_at p) (is_default p) (f (privacy_policy p))
    (capture_settings p) (process_attribution_settings p) (intelligence_settings p)
    (api_security_settings p) (waf_integration_settings p) (response_policy p)
    (report_export_policy p) (retention_policy p) (service_status_settings p)
    (detection_policy p) (risk_policy p).
Definition set_capture (f : CaptureSettings → CaptureSettings) (p : RuntimeProfile)
    : RuntimeProfile :=
  mkProfile (profile_id p) (profile_name p) (display_name p) (profile_schema_version p)
    (profile_created_at p) (profile_updated_at p) (is_default p) (privacy_policy p)
    (f (capture_settings p)) (process_attribution_settings p) (intelligence_settings p)
    (api_security_settings p) (waf_integration_settings p) (response_policy p)
    (report_export_policy p) (retention_policy p) (service_status_settings p)
    (detection_policy p) (risk_policy p).
Definition set_response (f : ResponsePolicy → ResponsePolicy) (p : RuntimeProfile)
    : RuntimeProfile :=
  mkProfile (profile_id p) (profile_name p) (display_name p) (profile_schema_version p)
    (profile_created_at p) (profile_updated_at p) (is_default p) (privacy_policy p)
    (capture_settings p) (process_attribution_settings p) (intelligence_settings p)
    (api_security_settings p) (waf_integration_settings p) (f (response_policy p))
    (report_export_policy p) (retention_policy p) (service_status_settings p)
    (detection_policy p) (risk_policy p).
Definition set_status (f : ServiceStatusSettings → ServiceStatusSettings) (p : RuntimeProfile)
    : RuntimeProfile :=
  mkProfile (profile_id p) (profile_name p) (display_name p) (profile_schema_version p)
    (profile_created_at p) (profile_updated_at p) (is_default p) (privacy_policy p)
    (capture_settings p) (process_attribution_settings p) (intelligence_settings p)
    (api_security_settings p) (waf_integration_settings p) (response_policy p)
    (report_export_policy p) (retention_policy p) (f (service_status_settings p))
    (detection_policy p) (risk_policy p).

Definition with_visibility_warning (c : CaptureSettings) : CaptureSettings :=
  mkCapture (cs_enabled c) (cs_adapter_preference c) (cs_direction c) (cs_protocol_filters c)
    (cs_interface_allowlist c) (cs_store_packet_metadata c) (cs_store_raw_packets c)
    (cs_store_payloads c) (cs_store_http_bodies c) true (cs_capture_health_visible c)
    (cs_drop_rate_visible c).
Definition with_adapter (a : CaptureAdapterPreference) (c : CaptureSettings) : CaptureSettings :=
  mkCapture (cs_enabled c) a (cs_direction c) (cs_protocol_filters c)
    (cs_interface_allowlist c) (cs_store_packet_metadata c) (cs_store_raw_packets c)
    (cs_store_payloads c) (cs_store_http_bodies c) (cs_reduced_visibility_warning_enabled c)
    (cs_capture_health_visible c) (cs_drop_rate_visible c).
Definition with_degraded_banner (s : ServiceStatusSettings) : ServiceStatusSettings :=
  mkServiceStatus (show_elevated_service_status s) (show_capture_health s)
    (show_process_attribution_quality s) (show_storage_status s) (show_intelligence_status s)
    (show_response_executor_status s) (show_ipc_status s) true.
Definition with_replay_disabled (p : ResponsePolicy) : ResponsePolicy :=
  mkResponsePolicy (rp_mode p) (rp_auto_containment_ttl_seconds p)
    (rp_auto_containment_max_ttl_seconds p)
    (rp_allowed_auto_actions p) (rp_approval_required_for_high_impact p)
    (rp_approval_required_for_broad_scope p) (rp_waf_api_enforcement_requires_approval p)
    (rp_permanent_block_requires_approval p) (rp_rollback_required p) (rp_audit_required p) true.
Definition with_forensic (f : ForensicModeSettings) (p : PrivacyPolicy) : PrivacyPolicy :=
  mkPrivacy (pp_policy_version p) (pp_storage_mode p) (pp_cloud_sync_enabled p)
    (pp_security_telemetry_enabled p) (pp_raw_packet_storage_enabled p)
    (pp_payload_storage_enabled p) (pp_http_body_storage_enabled p)
    (pp_cookie_token_credential_storage_enabled p) (pp_authorization_header_storage_enabled p)
    (pp_api_key_storage_enabled p) f.

(* [settings/mod.rs] RuntimeProfile::validate *)
Definition profile_validate (p : RuntimeProfile) : result unit SettingsContractError :=
  let? _ := require_safe_text "display_name" (display_name p) in
  let? _ := privacy_validate (privacy_policy p) in
  let? _ := capture_validate (capture_settings p) in
  let? _ := intelligence_validate (intelligence_settings p) in
  let? _ := api_security_validate (api_security_settings p) in
  let? _ := waf_validate (waf_integration_settings p) in
  let? _ := response_validate (response_policy p) in
  export_validate (report_export_policy p).

(* [settings/mod.rs] RuntimeProfile::safe_default *)
Definition profile_safe_default : ST RuntimeProfile := profile_base SafeDefault "Safe Default" true.
(* [settings/mod.rs] RuntimeProfile::balanced *)
Definition profile_balanced : ST RuntimeProfile := profile_base Balanced "Balanced" false.
(* [settings/mod.rs] RuntimeProfile::low_resource *)
Definition profile_low_resource : ST RuntimeProfile :=
  let$ p := profile_base LowResource "Low Resource" false in
  st_ret (set_status with_degraded_banner (set_capture with_visibility_warning p)).
(* [settings/mod.rs] RuntimeProfile::high_performance *)
Definition profile_high_performance : ST RuntimeProfile :=
  let$ p := profile_base HighPerformance "High Performance" false in
  st_ret (set_response (λ _, auto_containment_lite) p).
(* [settings/mod.rs] RuntimeProfile::forensic_manual *)
Definition profile_forensic_manual (reason : string) (scope : ForensicScope)
    : ST (result RuntimeProfile SettingsContractError) :=
  let$ p := profile_base ForensicManual "Forensic Manual" false in
  st_ret (
    let? f := manual_schema_reserved reason scope in
    let p := set_privacy (with_forensic f) p in
    let? _ := profile_validate p in
    Ok p).
(* [settings/mod.rs] RuntimeProfile::replay_mode *)
Definition profile_replay_mode : ST RuntimeProfile :=
  let$ p := profile_base ReplayMode "Replay Mode" false in
  st_ret (set_response (λ r, let r := with_replay_disabled r in
    with_mode RecommendOnly (rp_allowed_auto_actions r) r) p).
(* [settings/mod.rs] RuntimeProfile::developer_test *)
Definition profile_developer_test : ST RuntimeProfile :=
  let$ p := profile_base DeveloperTest "Developer Test" false in
  st_ret (set_response (λ r, with_mode RecommendOnly (rp_allowed_auto_actions r) r)
    (set_capture (with_adapter ImportedOnly) p)).
(* [settings/mod.rs] RuntimeProfile::default_profiles *)
Definition default_profiles : ST (list RuntimeProfile) :=
  let$ a := profile_safe_default in
  let$ b := profile_low_resource in
  let$ c := profile_balanced in
  let$ d := profile_high_performance in
  let$ e := profile_replay_mode in
  let$ f := profile_developer_test in
  st_ret [a; b; c; d; e; f].

(* ------------------------------------------------------------------ *)
(** ** Change requests and their impact *)

(* [settings/mod.rs] SettingsChangeKind *)
Inductive SettingsChangeKind :=
  | ChangeRuntimeProfile | ChangePrivacyPolicy | ChangeCaptureSettings
  | ChangeAttributionSettings | ChangeIntelligenceSettings | ChangeApiSecuritySettings
  | ChangeWafIntegrationSettings | ChangeResponsePolicy | ChangeReportExportPolicy
  | ChangeRetentionPolicy | ChangeServiceStatusSettings.

(* [settings/mod.rs] SettingsChangeRequest *)
Record SettingsChangeRequest := mkChangeRequest {
  request_id : SettingsChangeRequestId;
  change_kind : SettingsChangeKind;
  requested_profile : RuntimeProfile;
  cr_reason_redacted : string;
  cr_requested_by : option string;
  cr_created_at : Timestamp;
  validate_before_apply : bool;
  impact_analysis_required : bool;
  cr_audit_required : bool;
  cr_rollback_supported : bool
}.
(* [settings/mod.rs] SettingsChangeRequest::validate *)
Definition change_request_validate (r : SettingsChangeRequest) : result unit SettingsContractError :=
  let? _ := reject_if (negb (validate_before_apply r)) (UnsafeDefault "validate_before_apply") in
  let? _ := reject_if (negb (impact_analysis_required r))
              (UnsafeDefault "impact_analysis_required") in
  let? _ := reject_if (negb (cr_audit_required r)) (UnsafeDefault "settings audit_required") in
  profile_validate (requested_profile r).
(* [settings/mod.rs] SettingsChangeRequest::new *)
Definition SettingsChangeRequest_new (kind : SettingsChangeKind) (profile : RuntimeProfile)
    (reason : string) : ST (result SettingsChangeRequest SettingsContractError) :=
  let$ id := new_v4 in
  match require_safe_text "reason_redacted" reason with
  | Err e => st_ret (Err e)
  | Ok reason =>
      let$ t := now in
      let request := mkChangeRequest id kind profile reason None t true true true true in
      st_ret (let? _ := change_request_validate request in Ok request)
  end.

(* [settings/mod.rs] SettingsImpactLevel *)
Inductive SettingsImpactLevel := SImpactLow | SImpactMedium | SImpactHigh | SImpactCritical.
(* [settings/mod.rs] SettingsImpactAnalysis *)
Record SettingsImpactAnalysis := mkSettingsImpact {
  analysis_id : Id KSettingsImpactAnalysisId;
  sia_request_id : SettingsChangeRequestId;
  sia_profile_name : RuntimeProfileName;
  sia_impact_level : SettingsImpactLevel;
  warnings_redacted : list string;
  forbidden_changes : list string;
  confirmation_required : bool;
  sia_audit_required : bool;
  sia_rollback_supported : bool;
  sia_audit_ref : option AuditId;
  sia_created_at : Timestamp
}.
(* [settings/mod.rs] SettingsImpactAnalysis::from_request *)
Definition impact_from_request (r : SettingsChangeRequest) : ST SettingsImpactAnalysis :=
  let p := requested_profile r in
  let forensic := fm_enabled (pp_forensic_mode (privacy_policy p)) in
  let warnings :=
    if forensic
    then ["Forensic mode is explicit, time-limited, audited, and schema-reserved in V1"]
    else [] in
  let forbidden :=
    (if is_online_lookup_enabled (intelligence_settings p)
     then ["online lookup is disabled by default"] else []) ++
    (if as_api_policy_response_enabled (api_security_settings p)
     then ["API policy response is disabled in personal PC V1"] else []) ++
    (if ws_enforcement_response_enabled (waf_integration_settings p)
     then ["WAF enforcement response is disabled in personal PC V1"] else []) in
  let level :=
    if negb (bool_decide (forbidden = [])) then SImpactCritical
    else if forensic then SImpactHigh
    else if bool_decide (rp_mode (response_policy p) = AutoContainmentLite) then SImpactMedium
    else SImpactLow in
  let$ id := new_v4 in
  let$ t := now in
  st_ret (mkSettingsImpact id (request_id r) (profile_name p) level warnings forbidden true
    (cr_audit_required r) (cr_rollback_supported r) None t).
