(* ===== verification/SettingsFacts.v ===== *)
(** * Facts about runtime profiles *)

From S2P Require Import Prelude Collections RustStr Effects Contracts Settings.

#[local] Open Scope string_scope.
#[local] Open Scope list_scope.
#[local] Open Scope N_scope.

Lemma reject_if_ok b e : reject_if b e = Ok tt ↔ b = false.
Proof. unfold reject_if. by destruct b. Qed.

(** A sequence of checks passes when each does. *)
Lemma check_then {E} (m k : result unit E) :
  (let? _ := m in k) = Ok tt ↔ m = Ok tt ∧ k = Ok tt.
Proof. destruct m as [[]|e]; simpl; naive_solver. Qed.

Lemma validate_ttl_ok field actual max :
  validate_ttl field actual max = Ok tt ↔ 0 < actual ≤ max.
Proof.
  unfold validate_ttl. destruct (N.eqb_spec actual 0), (N.ltb_spec max actual); simpl;
    (split; [intros ?; try done; lia|intros ?; try done; lia]).
Qed.

(** Text without a sensitive marker, after normalization. *)
Definition text_safe (value : string) : Prop :=
  ∀ marker, marker ∈ sensitive_markers → contains (normalized value) marker = false.

Lemma validate_safe_text_ok field value :
  validate_safe_text field value = Ok tt ↔ text_safe value.
Proof.
  unfold validate_safe_text. rewrite for_each_ok, Forall_forall. unfold text_safe.
  by setoid_rewrite reject_if_ok.
Qed.

Lemma require_safe_text_ok field value v :
  require_safe_text field value = Ok v ↔ v = value ∧ blank value = false ∧ text_safe value.
Proof.
  unfold require_safe_text. rewrite <- (validate_safe_text_ok field value).
  destruct (blank value); [naive_solver|].
  destruct (validate_safe_text field value) as [[]|e]; simpl; naive_solver.
Qed.

(** What [ForensicModeSettings::validate] asks for. *)
Record forensic_safe (f : ForensicModeSettings) : Prop := {
  fs_no_persistence :
    fm_raw_packet_persistence_allowed f = false ∧ fm_payload_persistence_allowed f = false ∧
    fm_http_body_persistence_allowed f = false;
  fs_enabled : fm_enabled f = true →
    (∃ r, fm_reason_redacted f = Some r ∧ blank r = false) ∧ is_Some (fm_scope f) ∧
    (∃ t, fm_ttl_seconds f = Some t ∧ 0 < t ≤ fm_max_ttl_seconds f) ∧
    fm_local_encryption_required f = true ∧ fm_visible_active_indicator_required f = true ∧
    fm_audit_required f = true
}.

Lemma forensic_validate_ok f : forensic_validate f = Ok tt ↔ forensic_safe f.
Proof.
  unfold forensic_validate. rewrite !check_then, !reject_if_ok.
  destruct (fm_enabled f) eqn:Hen.
  - rewrite !check_then, !reject_if_ok. destruct (fm_ttl_seconds f) as [t|] eqn:Ht; simpl.
    + rewrite !check_then, !reject_if_ok, validate_ttl_ok, !negb_false_iff, bool_decide_eq_false.
      split.
      * intros (? & ? & ? & Hr & Hs & ? & ? & ? & ?). constructor; [done|]. intros _.
        destruct (fm_reason_redacted f); [|done]. destruct (fm_scope f); [|done]. naive_solver.
      * intros [(?&?&?) Hon]. destruct (Hon Hen) as ((r & -> & ?) & [sc ->] & (t' & Ht' & ?) & ?).
        simplify_eq. naive_solver.
    + split; [naive_solver|]. intros [_ Hon]. naive_solver.
  - split; [|by intros [(?&?&?) _]]. intros (? & ? & ? & _). constructor; [done|]. congruence.
Qed.

(** What [RuntimeProfile::validate] asks for: nothing sensitive is stored or leaves the
    machine, responses are bounded, audited and can be rolled back, exports are redacted,
    confirmed, audited and in a supported format. *)
Record profile_safe (p : RuntimeProfile) : Prop := {
  ps_name : blank (display_name p) = false ∧ text_safe (display_name p);
  ps_privacy : let s := privacy_policy p in
    pp_cloud_sync_enabled s = false ∧ pp_security_telemetry_enabled s = false ∧
    pp_raw_packet_storage_enabled s = false ∧ pp_payload_storage_enabled s = false ∧
    pp_http_body_storage_enabled s = false ∧
    pp_cookie_token_credential_storage_enabled s = false ∧
    pp_authorization_header_storage_enabled s = false ∧ pp_api_key_storage_enabled s = false;
  ps_forensic : forensic_safe (pp_forensic_mode (privacy_policy p));
  ps_capture : let s := capture_settings p in
    cs_store_raw_packets s = false ∧ cs_store_payloads s = false ∧ cs_store_http_bodies s = false;
  ps_offline :
    is_online_lookup_enabled (intelligence_settings p) = false ∧
    as_local_tls_inspection_enabled (api_security_settings p) = false ∧
    as_browser_extension_visibility_enabled (api_security_settings p) = false ∧
    as_api_policy_response_enabled (api_security_settings p) = false ∧
    ws_cloud_waf_connectors_enabled (waf_integration_settings p) = false ∧
    ws_enforcement_response_enabled (waf_integration_settings p) = false;
  ps_response : let s := response_policy p in
    0 < rp_auto_containment_ttl_seconds s ≤ rp_auto_containment_max_ttl_seconds s ∧
    rp_rollback_required s = true ∧ rp_audit_required s = true;
  ps_export : let s := report_export_policy p in
    Forall (λ f, is_supported_v1 f = true) (xp_allowed_formats s) ∧
    xp_require_redaction s = true ∧ xp_require_user_confirmation s = true ∧
    xp_audit_required s = true
}.

Lemma export_formats_ok l :
  for_each (λ f, reject_if (negb (is_supported_v1 f)) (UnsupportedExportFormat (format_as_str f))) l
    = Ok tt ↔ Forall (λ f, is_supported_v1 f = true) l.
Proof.
  rewrite for_each_ok. apply Forall_proper; [|done]. intros f.
  by rewrite reject_if_ok, negb_false_iff.
Qed.

Lemma display_name_ok nm (k : result unit SettingsContractError) :
  (let? _ := require_safe_text "display_name" nm in k) = Ok tt ↔
  (blank nm = false ∧ text_safe nm) ∧ k = Ok tt.
Proof.
  rewrite res_bind_ok. split.
  - intros (x & Hx & ?). by apply require_safe_text_ok in Hx as (_ & ?).
  - intros [Hn ?]. exists nm. split; [|done]. by apply require_safe_text_ok.
Qed.

Lemma profile_validate_ok p : profile_validate p = Ok tt ↔ profile_safe p.
Proof.
  unfold profile_validate, privacy_validate, capture_validate, intelligence_validate,
    api_security_validate, waf_validate, response_validate, export_validate.
  rewrite display_name_ok, !check_then, !reject_if_ok, !negb_false_iff, validate_ttl_ok,
    export_formats_ok, forensic_validate_ok.
  split; [intros; constructor; simpl; tauto|intros [? ? ? ? ? ? ?]; simpl in *; tauto].
Qed.

(** [RuntimeProfile::validate] accepts exactly the safe profiles, and every profile the
    program constructs itself is accepted: the six default profiles whatever the clock and
    the identifiers are, and the forensic profile for every reason that is not blank and
    has no sensitive marker. *)
Theorem profile_validation (w : World) :
  (∀ p, profile_validate p = Ok tt ↔ profile_safe p) ∧
  Forall (λ p, profile_validate p = Ok tt) (default_profiles w).1 ∧
  (∀ reason scope, blank reason = false → text_safe reason →
    ∃ p, (profile_forensic_manual reason scope w).1 = Ok p ∧
      fm_reason_redacted (pp_forensic_mode (privacy_policy p)) = Some reason ∧
      fm_ttl_seconds (pp_forensic_mode (privacy_policy p)) = Some DEFAULT_FORENSIC_TTL_SECONDS).
Proof.
  split_and!; [apply profile_validate_ok| |].
  { unfold default_profiles, profile_safe_default, profile_low_resource, profile_balanced,
      profile_high_performance, profile_replay_mode, profile_developer_test, profile_base,
      st_bind, st_ret, now. simpl.
    repeat (apply Forall_cons; split; [vm_compute; reflexivity|]). by apply Forall_nil. }
  intros reason scope Hb Hs. unfold profile_forensic_manual, st_bind, st_ret, profile_base. simpl.
  unfold manual_schema_reserved.
  rewrite (proj2 (require_safe_text_ok "forensic reason_redacted" reason reason)) by done.
  unfold profile_validate, privacy_validate, forensic_validate. simpl. rewrite Hb. simpl. rewrite Hb.
  simpl. eexists. by split_and!.
Qed.

(** The limit of a forensic session is the one the profile itself declares: for every
    duration a [u64] can hold there is a valid profile whose forensic mode is enabled for
    that long, so [MAX_FORENSIC_TTL_SECONDS] bounds nothing but the default. *)
Theorem forensic_limit_self_declared (w : World) ttl :
  0 < ttl ≤ u64_max →
  ∃ p, profile_validate p = Ok tt ∧
    fm_enabled (pp_forensic_mode (privacy_policy p)) = true ∧
    fm_ttl_seconds (pp_forensic_mode (privacy_policy p)) = Some ttl.
Proof.
  intros Httl.
  exists (set_privacy (with_forensic (mkForensic true (Some "case review")
    (Some (mkScope SelectedFlow "flow")) (Some ttl) u64_max true true true true true
    false false false)) (profile_safe_default w).1).
  split; [|done]. unfold profile_validate. simpl. unfold privacy_validate, forensic_validate. simpl.
  rewrite (proj2 (validate_ttl_ok _ ttl u64_max)) by done. done.
Qed.

Lemma forensic_limit_self_declared_witness :
  ∃ p, profile_validate p = Ok tt ∧
    fm_ttl_seconds (pp_forensic_mode (privacy_policy p)) = Some 31536000.
Proof.
  destruct (forensic_limit_self_declared counting_world 31536000) as (p & Hp & _ & Ht);
    [vm_compute; done|]. by exists p.
Defined.
