(* ===== verification/PrivacyService.v ===== *)
(** * The privacy services ([storage/src/privacy_service.rs])

    Which fields are sensitive, redaction of JSON and of text, tokens and hashes, the key
    hook, the export gate, retention plans and the job that runs them over stores.

    [sha256_hex] is the class [Sha256] of the crate [sha2]; DPAPI is the class [Dpapi].

    Prefixes: [Sf] kinds of fields, [Pa] actions, [Ts] scopes of tokens, [Rc] redacted
    categories, [sfc_] classification, [rsm_] redaction summary, [arf_] audit reference,
    [rps_] step of a retention plan, [rar_] retention audit record. *)

From S2P Require Import Prelude Collections RustStr Effects Contracts Checks Json.
From S2P Require Import MutationAuthorization Settings StorageTypes StorageDb LogicalStore.

#[local] Open Scope string_scope.
#[local] Open Scope list_scope.
#[local] Open Scope N_scope.

(* ------------------------------------------------------------------ *)
(** ** Contracts *)

(* [report/mod.rs] RedactedDataCategory *)
Inductive RedactedDataCategory :=
  | RcRawPacket | RcPayload | RcHttpBody | RcCookie | RcToken | RcCredential | RcApiKey
  | RcPrivateKey | RcFullQueryString | RcFormContent | RcCommandLine | RcLocalPath
  | RcUsername | RcSid.
#[export] Instance RedactedDataCategory_eq_dec : EqDecision RedactedDataCategory.
Proof. solve_decision. Defined.

(* [report/mod.rs] RedactionSummary *)
Record RedactionSummary := mkRedactionSummary {
  rsm_redaction_summary_id : Id KRedactionSummaryId;
  rsm_passed : bool;
  rsm_redacted_categories : list RedactedDataCategory;
  rsm_redacted_field_count : N;
  rsm_suppressed_section_count : N;
  rsm_reviewer : option string;
  rsm_completed_at : option Timestamp;
  rsm_notes_redacted : list string
}.
(* [report/mod.rs] RedactionSummary::passed *)
Definition redaction_passed (categories : list RedactedDataCategory) : ST RedactionSummary :=
  let$ id := new_v4 in
  let$ now := now in
  st_ret (mkRedactionSummary id true categories 0 0 None (Some now) []).

(* [response/mod.rs] ResponseContractError *)
Inductive ResponseContractError := ResponseEmptyField (field : string).
(* [response/mod.rs] Display for ResponseContractError::fmt *)
Definition response_error_to_string (e : ResponseContractError) : string :=
  match e with ResponseEmptyField field => (field ++ " must not be empty")%string end.
(* [response/mod.rs] AuditRef *)
Record AuditRef := mkAuditRef {
  arf_audit_id : AuditId;
  arf_event_type : string;
  arf_trace_id : option (Id KTraceId);
  arf_timestamp : Timestamp
}.
(** The identifier is drawn before the event type is checked, the time after it. *)
(* [response/mod.rs] AuditRef::new *)
Definition audit_ref_new (event_type : string) : ST (result AuditRef ResponseContractError) :=
  let$ audit_id := new_v4 in
  if blank event_type then st_ret (Err (ResponseEmptyField "event_type"))
  else
    let$ timestamp := now in
    st_ret (Ok (mkAuditRef audit_id event_type None timestamp)).

(* ------------------------------------------------------------------ *)
(** ** Sensitive fields *)

(* [privacy_service.rs] SensitiveFieldKind *)
Inductive SensitiveFieldKind :=
  | SfPublicMetadata | SfInternalMetadata | SfUsername | SfSid | SfLocalPath | SfCommandLine
  | SfUrl | SfQueryString | SfHeader | SfAuthorizationHeader | SfCookie | SfToken
  | SfCredential | SfApiKey | SfPrivateKey | SfHttpBody | SfPayload | SfRawPacket
  | SfFormContent | SfFileContent | SfIpAddress | SfHostName | SfAlreadyRedacted
  | SfAlreadyTokenized.
#[export] Instance SensitiveFieldKind_eq_dec : EqDecision SensitiveFieldKind.
Proof. solve_decision. Defined.

(* [privacy_service.rs] SensitiveFieldKind::redacted_category *)
Definition redacted_category (self : SensitiveFieldKind) : option RedactedDataCategory :=
  match self with
  | SfRawPacket => Some RcRawPacket
  | SfPayload => Some RcPayload
  | SfHttpBody => Some RcHttpBody
  | SfCookie => Some RcCookie
  | SfToken | SfAuthorizationHeader => Some RcToken
  | SfCredential => Some RcCredential
  | SfApiKey => Some RcApiKey
  | SfPrivateKey => Some RcPrivateKey
  | SfQueryString => Some RcFullQueryString
  | SfFormContent => Some RcFormContent
  | SfCommandLine => Some RcCommandLine
  | SfLocalPath => Some RcLocalPath
  | SfUsername => Some RcUsername
  | SfSid => Some RcSid
  | _ => None
  end.

(* [privacy_service.rs] PrivacyAction *)
Inductive PrivacyAction := PaKeep | PaRedact | PaTokenize | PaHash | PaDenyExport.
#[export] Instance PrivacyAction_eq_dec : EqDecision PrivacyAction.
Proof. solve_decision. Defined.

(* [privacy_service.rs] SensitiveFieldClassification *)
Record SensitiveFieldClassification := mkClassification {
  sfc_field_path : string;
  sfc_field_kind : SensitiveFieldKind;
  sfc_privacy_class : PrivacyClass;
  sfc_action : PrivacyAction;
  sfc_export_allowed_after_action : bool
}.

(* [privacy_service.rs] SensitiveFieldClassifier::classify_privacy_class *)
Definition classify_privacy_class (field_path : string) (privacy_class : PrivacyClass)
    : SensitiveFieldClassification :=
  let '(field_kind, action, allowed) :=
    match privacy_class with
    | Privacy.Public => (SfPublicMetadata, PaKeep, true)
    | Privacy.Internal => (SfInternalMetadata, PaKeep, true)
    | Privacy.Sensitive => (SfInternalMetadata, PaRedact, true)
    | Privacy.Secret => (SfCredential, PaDenyExport, false)
    | Privacy.Redacted => (SfAlreadyRedacted, PaKeep, true)
    | Privacy.Tokenized => (SfAlreadyTokenized, PaKeep, true)
    end in
  mkClassification field_path field_kind privacy_class action allowed.

(* [privacy_service.rs] contains_any *)
Definition contains_any (value : string) (needles : list string) : bool :=
  existsb (contains value) needles.

(** The branches of the chain: the words of a kind, and what is done with its fields. *)
(* [privacy_service.rs:159-284] SensitiveFieldClassifier::classify_field *)
Definition FIELD_RULES
    : list (list string * (SensitiveFieldKind * PrivacyClass * PrivacyAction * bool)) :=
  let secret kind := (kind, Privacy.Secret, PaDenyExport, false) in
  let redact kind := (kind, Privacy.Sensitive, PaRedact, true) in
  let tokenize kind := (kind, Privacy.Sensitive, PaTokenize, true) in
  [(["raw_packet"; "packet_bytes"], secret SfRawPacket);
   (["payload"; "raw_payload"], secret SfPayload);
   (["http_body"; "request_body"; "response_body"], secret SfHttpBody);
   (["authorization"; "auth_header"], secret SfAuthorizationHeader);
   (["cookie"], secret SfCookie);
   (["api_key"; "apikey"], secret SfApiKey);
   (["private_key"], secret SfPrivateKey);
   (["token"; "credential"; "password"; "secret"], secret SfCredential);
   (["query"], redact SfQueryString);
   (["command"], redact SfCommandLine);
   (["path"; "local_file"], redact SfLocalPath);
   (["username"; "user_name"; "account_name"], tokenize SfUsername);
   (["sid"], tokenize SfSid);
   (["url"], redact SfUrl);
   (["header"], redact SfHeader)].
(* [privacy_service.rs] SensitiveFieldClassifier::classify_field *)
Definition classify_field (field_path : string) : SensitiveFieldClassification :=
  let normalized := to_ascii_lowercase field_path in
  let '(field_kind, privacy_class, action, allowed) :=
    match List.find (λ rule, contains_any normalized rule.1) FIELD_RULES with
    | Some rule => rule.2
    | None => (SfInternalMetadata, Privacy.Internal, PaKeep, true)
    end in
  mkClassification field_path field_kind privacy_class action allowed.

(* ------------------------------------------------------------------ *)
(** ** Tokens and hashes *)

(* [privacy_service.rs] TokenizationScope *)
Inductive TokenizationScope := TsLocalInstallation | TsExportSession | TsRecordScoped.
(* [privacy_service.rs] TokenizedValue *)
Record TokenizedValue := mkTokenized {
  tkv_token : string; tkv_scope : TokenizationScope; tkv_key_ref : string
}.
(* [privacy_service.rs] Tokenizer *)
Record Tokenizer := mkTokenizer { tkz_scope : TokenizationScope; tkz_key_ref : string }.
(* [privacy_service.rs] HashingPolicy *)
Record HashingPolicy := mkHashing {
  hsh_algorithm : string; hsh_key_ref : option string; hsh_not_for_production : bool
}.

(* [privacy_service.rs:15-15] TOKEN_DIGEST_KEY_REF *)
Definition TOKEN_DIGEST_KEY_REF : string := "local-installation-token-key:v1".
(* [privacy_service.rs:16-16] HASH_DIGEST_KEY_REF *)
Definition HASH_DIGEST_KEY_REF : string := "local-correlation-hash-key:v1".
(* [privacy_service.rs:17-17] DPAPI_MASTER_KEY_REF *)
Definition DPAPI_MASTER_KEY_REF : string := "dpapi-current-user-local-master-key:v1".
(* [privacy_service.rs:18-18] SHA256_ALGORITHM *)
Definition SHA256_ALGORITHM : string := "sha256".
(* [privacy_service.rs:19-19] DPAPI_CURRENT_USER_METHOD *)
Definition DPAPI_CURRENT_USER_METHOD : string := "windows-dpapi-current-user".

(* [privacy_service.rs] Tokenizer::local_installation *)
Definition local_installation : Tokenizer := mkTokenizer TsLocalInstallation TOKEN_DIGEST_KEY_REF.
(* [privacy_service.rs] HashingPolicy::local_correlation_sha256 *)
Definition local_correlation_sha256 : HashingPolicy :=
  mkHashing SHA256_ALGORITHM (Some HASH_DIGEST_KEY_REF) false.

Section digests.
Context `{Sha256}.

(* [privacy_service.rs] privacy_digest *)
Definition privacy_digest (purpose key_ref label value : string) : string :=
  sha256_hex ("sentinel-guard:" ++ purpose ++ ":v1:" ++ key_ref ++ ":" ++ label ++ ":" ++
              value)%string.
(* [privacy_service.rs] Tokenizer::tokenize *)
Definition tokenize (self : Tokenizer) (label value : string) : TokenizedValue :=
  let digest := privacy_digest "privacy-token" (tkz_key_ref self) label value in
  mkTokenized (label ++ "#" ++ digest)%string (tkz_scope self) (tkz_key_ref self).
(* [privacy_service.rs] HashingPolicy::hash *)
Definition hash_value (self : HashingPolicy) (label value : string) : string :=
  let key_ref := default "unkeyed" (hsh_key_ref self) in
  (label ++ "#" ++ privacy_digest "privacy-hash" key_ref label value)%string.
End digests.

(* ------------------------------------------------------------------ *)
(** ** The key hook *)

(** The data protection interface of Windows; elsewhere every call fails. *)
Class Dpapi := {
  dpapi_hook_status : string;
  dpapi_protect : string → result string StorageError;
  dpapi_unprotect : string → result string StorageError
}.

(* [privacy_service.rs] EncryptionKeyHook *)
Record EncryptionKeyHook := mkKeyHook {
  ekh_key_ref : string; ekh_key_version : N; ekh_protection_method : string; ekh_status : string
}.
(* [privacy_service.rs] ProtectedLocalMasterKey *)
Record ProtectedLocalMasterKey := mkProtectedKey {
  plk_key_ref : string; plk_key_version : N; plk_protection_method : string;
  plk_protected_key : string; plk_created_at : Timestamp
}.
(* [privacy_service.rs] key_protection_error *)
Definition key_protection_error (reason : string) : StorageError :=
  SeInvalidRecord "privacy_key" reason.

Section key_hook.
Context `{Dpapi}.

(* [privacy_service.rs] EncryptionKeyHook::local_dpapi_current_user *)
Definition local_dpapi_current_user : EncryptionKeyHook :=
  mkKeyHook DPAPI_MASTER_KEY_REF 1 DPAPI_CURRENT_USER_METHOD dpapi_hook_status.
(* [privacy_service.rs] EncryptionKeyHook::protect_local_master_key *)
Definition protect_local_master_key (self : EncryptionKeyHook) (plaintext_key : string)
    : ST (result ProtectedLocalMasterKey StorageError) :=
  if bool_decide (plaintext_key = "")
  then st_ret (Err (key_protection_error "local master key material must not be empty"))
  else match dpapi_protect plaintext_key with
       | Err error => st_ret (Err error)
       | Ok protected_key =>
           let$ created_at := now in
           st_ret (Ok (mkProtectedKey (ekh_key_ref self) (ekh_key_version self)
             (ekh_protection_method self) protected_key created_at))
       end.
(* [privacy_service.rs] EncryptionKeyHook::unprotect_local_master_key *)
Definition unprotect_local_master_key (self : EncryptionKeyHook)
    (protected : ProtectedLocalMasterKey) : result string StorageError :=
  let? _ := refuse_if (negb (bool_decide (plk_key_ref protected = ekh_key_ref self)))
    (key_protection_error "protected key reference mismatch") in
  let? _ := refuse_if (negb (plk_key_version protected =? ekh_key_version self))
    (key_protection_error "protected key version mismatch") in
  let? _ := refuse_if
    (negb (bool_decide (plk_protection_method protected = ekh_protection_method self)))
    (key_protection_error "protected key method mismatch") in
  let? _ := refuse_if (bool_decide (plk_protected_key protected = ""))
    (key_protection_error "protected key blob must not be empty") in
  dpapi_unprotect (plk_protected_key protected).
End key_hook.

(* ------------------------------------------------------------------ *)
(** ** Redaction *)

(** What comes before the first place of a text: [value.find(text)] and the slice. *)
Fixpoint before_first (text value : string) : option string :=
  if String.prefix text value then Some ""
  else match value with
       | "" => None
       | String c rest => String c <$> before_first text rest
       end.
(* [privacy_service.rs] redact_local_path *)
Definition redact_local_path (value : string) : string :=
  match before_first "\Users\" value with
  | Some prefix => prefix ++ "\Users\%USERPROFILE%\..."
  | None => if contains value "/Users/" then "/Users/%USERPROFILE%/..."
            else "[REDACTED_LOCAL_PATH]"
  end%string.
(* [privacy_service.rs] redact_url *)
Definition redact_url (value : string) : string :=
  match split_once "?" value with
  | Some (base, _) => (base ++ "?[REDACTED_QUERY_STRING]")%string
  | None => value
  end.

(* [privacy_service.rs] push_unique_category *)
Definition push_unique_category (categories : list RedactedDataCategory)
    (category : RedactedDataCategory) : list RedactedDataCategory :=
  if bool_decide (category ∈ categories) then categories else categories ++ [category].
(* [privacy_service.rs] value_as_text *)
Definition value_as_text (value : JsonTree) : string :=
  default "[structured_value]" (json_text value).

(* [privacy_service.rs] RedactionEngine *)
Record RedactionEngine := mkEngine {
  eng_tokenizer : Tokenizer; eng_hashing_policy : HashingPolicy
}.
(* [privacy_service.rs] Default for RedactionEngine::default *)
Definition engine_default : RedactionEngine :=
  mkEngine local_installation local_correlation_sha256.
(* [privacy_service.rs] RedactionResult *)
Record RedactionResult := mkRedactionResult {
  red_value : JsonTree; red_redaction_summary : RedactionSummary; red_audit_ref : AuditRef
}.

Section redaction.
Context `{Sha256}.
Implicit Types (self : RedactionEngine) (categories : list RedactedDataCategory).

(* [privacy_service.rs] RedactionEngine::redact_text *)
Definition redact_text self (field_kind : SensitiveFieldKind) (value : string) : string :=
  match field_kind with
  | SfUsername => tkv_token (tokenize (eng_tokenizer self) "user:local" value)
  | SfSid => tkv_token (tokenize (eng_tokenizer self) "sid:local" value)
  | SfLocalPath => redact_local_path value
  | SfUrl => redact_url value
  | SfQueryString => "[REDACTED_QUERY_STRING]"
  | SfHeader => "[REDACTED_HEADER_METADATA]"
  | SfAuthorizationHeader => "[REDACTED_AUTHORIZATION_HEADER]"
  | SfCookie => "[REDACTED_COOKIE]"
  | SfToken => "[REDACTED_TOKEN]"
  | SfCredential => "[REDACTED_CREDENTIAL]"
  | SfApiKey => "[REDACTED_API_KEY]"
  | SfPrivateKey => "[REDACTED_PRIVATE_KEY]"
  | SfHttpBody => "[REDACTED_HTTP_BODY]"
  | SfPayload => "[REDACTED_PAYLOAD]"
  | SfRawPacket => "[REDACTED_RAW_PACKET]"
  | SfFormContent => "[REDACTED_FORM_CONTENT]"
  | SfFileContent => "[REDACTED_FILE_CONTENT]"
  | SfCommandLine => "[REDACTED_COMMAND_LINE]"
  | SfIpAddress => hash_value (eng_hashing_policy self) "ip" value
  | SfHostName => hash_value (eng_hashing_policy self) "host" value
  | SfPublicMetadata | SfInternalMetadata | SfAlreadyRedacted | SfAlreadyTokenized => value
  end.

(** The value of a field whose kind is known, unless it is kept. *)
Definition replaced self (classification : SensitiveFieldClassification) (value : JsonTree)
    : option JsonTree :=
  match sfc_action classification with
  | PaKeep => None
  | PaRedact | PaDenyExport =>
      Some (JString (redact_text self (sfc_field_kind classification) (value_as_text value)))
  | PaTokenize =>
      Some (JString (tkv_token (tokenize (eng_tokenizer self) "tokenized" (value_as_text value))))
  | PaHash => Some (JString (hash_value (eng_hashing_policy self) "hash" (value_as_text value)))
  end.

(** With the categories found so far. *)
(* [privacy_service.rs] RedactionEngine::redact_json_value *)
Fixpoint redact_json_value self (path : string) (value : JsonTree) categories
    : JsonTree * list RedactedDataCategory :=
  match value with
  | JObject fields =>
      let '(redacted, categories) :=
        (fix go fields categories :=
          match fields with
          | [] => ([], categories)
          | (key, nested) :: fields =>
              let field_path := (path ++ "." ++ key)%string in
              let classification := classify_field field_path in
              let categories :=
                match redacted_category (sfc_field_kind classification) with
                | Some category => push_unique_category categories category
                | None => categories
                end in
              let '(value, categories) :=
                match replaced self classification nested with
                | Some value => (value, categories)
                | None => redact_json_value self field_path nested categories
                end in
              let '(rest, categories) := go fields categories in
              ((key, value) :: rest, categories)
          end) fields categories in
      (JObject redacted, categories)
  | JArray values =>
      let '(redacted, categories) :=
        (fix go index values categories :=
          match values with
          | [] => ([], categories)
          | nested :: values =>
              let '(value, categories) :=
                redact_json_value self (path ++ "[" ++ show_uint index ++ "]")%string nested
                  categories in
              let '(rest, categories) := go (index + 1) values categories in
              (value :: rest, categories)
          end) 0 values categories in
      (JArray redacted, categories)
  | _ => (value, categories)
  end.

(** [len() as u32]: there are fourteen categories. *)
(* [privacy_service.rs] redaction_summary *)
Definition redaction_summary categories (passed : bool) : ST RedactionSummary :=
  let$ id := new_v4 in
  let$ now := now in
  st_ret (mkRedactionSummary id passed categories (len categories) 0 None (Some now) []).
(* [privacy_service.rs] RedactionEngine::redact_json *)
Definition redact_json self (value : JsonTree) : ST (result RedactionResult StorageError) :=
  let '(redacted, categories) := redact_json_value self "$" value [] in
  let$ summary := redaction_summary categories true in
  let$ audit_ref := audit_ref_new "privacy.redaction" in
  st_ret
    (let? audit_ref := map_err (λ error, SeSerialization (response_error_to_string error))
                         audit_ref in
     Ok (mkRedactionResult redacted summary audit_ref)).

(* [privacy_service.rs] GraphLabelRedactor::redact_label *)
Definition redact_label self (label : string) : string :=
  if contains label "\Users\" || contains label "/Users/"
  then redact_text self SfLocalPath label
  else if String.prefix "http://" label || String.prefix "https://" label
  then redact_text self SfUrl label
  else if contains label "@" then redact_text self SfUsername label
  else label.
End redaction.

(* ------------------------------------------------------------------ *)
(** ** The export gate *)

(* [privacy_service.rs] ExportPrivacyCheckRequest *)
Record ExportPrivacyCheckRequest := mkExportCheck {
  exc_format : ExportFormat;
  exc_redaction_summary : RedactionSummary;
  exc_user_confirmed : bool;
  exc_audit_ref : option AuditRef
}.
(* [privacy_service.rs] ExportPrivacyDecision *)
Record ExportPrivacyDecision := mkExportDecision {
  exd_allowed : bool; exd_denied_reasons : list string; exd_audit_ref : option AuditRef
}.

Definition is_none {A} (o : option A) : bool := match o with None => true | Some _ => false end.
(** [if condition { denied_reasons.push(reason) }] *)
Definition deny_if (condition : bool) (reason : string) : list string :=
  if condition then [reason] else [].
(* [privacy_service.rs] ExportPrivacyGate::evaluate *)
Definition export_gate_evaluate (policy : ReportExportPolicy) (request : ExportPrivacyCheckRequest)
    : result ExportPrivacyDecision StorageError :=
  let? _ := map_err (λ error, SeSerialization
    ("invalid report export policy: " ++ settings_error_to_string error)%string)
    (export_validate policy) in
  let denied_reasons :=
    deny_if (negb (existsb (λ f, bool_decide (f = exc_format request)) (xp_allowed_formats policy)))
      "export format is not allowed by policy" ++
    deny_if (xp_require_redaction policy && negb (rsm_passed (exc_redaction_summary request)))
      "redaction summary did not pass" ++
    deny_if (xp_require_user_confirmation policy && negb (exc_user_confirmed request))
      "user confirmation is required" ++
    deny_if (xp_audit_required policy && is_none (exc_audit_ref request))
      "audit reference is required" in
  Ok (mkExportDecision (bool_decide (denied_reasons = [])) denied_reasons (exc_audit_ref request)).

(* ------------------------------------------------------------------ *)
(** ** Retention plans *)

(* [privacy_service.rs] RetentionPlanStep *)
Record RetentionPlanStep := mkPlanStep {
  rps_store_kind : StoreKind;
  rps_data_class : DataClass;
  rps_retention_class : RetentionClass;
  rps_privacy_class : PrivacyClass;
  rps_older_than : option Timestamp;
  rps_preserve_audit_records : bool;
  rps_delete_allowed : bool;
  rps_reason : string
}.
(* [privacy_service.rs] RetentionPlan *)
Record RetentionPlan := mkPlan {
  rpl_created_at : Timestamp; rpl_steps : list RetentionPlanStep
}.

(** In nanoseconds. *)
(* [privacy_service.rs] subtract_days *)
Definition subtract_days (now : Timestamp) (days : N) : Timestamp :=
  mkTimestamp (instant now - Z.of_N days * 86400 * 1000000000)%Z.

(* [privacy_service.rs] RetentionPlanner::step *)
Definition planner_step (store_kind : StoreKind) (days : N) (preserve_audit_records : bool)
    (now : Timestamp) : RetentionPlanStep :=
  let storage_class := default_storage_privacy_class store_kind in
  mkPlanStep store_kind (spc_data_class storage_class) (spc_retention_class storage_class)
    (spc_privacy_class storage_class) (Some (subtract_days now days)) preserve_audit_records
    (negb preserve_audit_records)
    ("delete records older than " ++ show_uint days ++ " days through logical store boundary")%string.
(* [privacy_service.rs] RetentionPlanner::plan *)
Definition planner_plan (policy : RetentionPolicy) (now : Timestamp) : RetentionPlan :=
  let step store_kind days preserve := planner_step store_kind days preserve now in
  mkPlan now
    [step SkFlow (flows_days policy) false;
     step SkSession (sessions_days policy) false;
     step SkDns (dns_observations_days policy) false;
     step SkTls (tls_observations_days policy) false;
     step SkHttpMetadata (http_metadata_days policy) false;
     step SkProcessContext (process_context_days policy) false;
     step SkAsset (asset_exposure_days policy) false;
     step SkFinding (findings_days policy) false;
     step SkAlert (alerts_days policy) false;
     step SkIncident (incidents_days policy) false;
     step SkGraphPath (incidents_days policy) false;
     step SkAudit (audit_events_days_minimum policy) true;
     mkPlanStep SkReport DcD1SecurityMetadata RtUserControlled Privacy.Sensitive None true false
       "reports are user controlled by default";
     step SkExportHistory (audit_events_days_minimum policy) true;
     step SkExportPolicyViolation (audit_events_days_minimum policy) true].

(* [privacy_service.rs] RetentionStoreAdapter *)
Record RetentionStoreAdapter (O : Type) := mkAdapter {
  rsa_store_kind : StoreKind;
  rsa_delete_by_retention : RetentionDeleteRequest → Q O RetentionDeleteSummary
}.
Arguments mkAdapter {O} _ _.
Arguments rsa_store_kind {O} _.
Arguments rsa_delete_by_retention {O} _ _.
(* [privacy_service.rs:716-731] RetentionStoreAdapter for SqliteLogicalStore *)
Definition store_adapter `{StorageText} {O} `{SqlEngine O} {kind}
    (self : SqliteLogicalStore kind) : RetentionStoreAdapter O :=
  mkAdapter (st_store_kind self) (delete_by_retention self).

(* [privacy_service.rs] RetentionDryRun *)
Record RetentionDryRun := mkDryRun {
  rdn_plan : RetentionPlan; rdn_summaries : list RetentionDeleteSummary
}.
(* [privacy_service.rs] RetentionAuditRecord *)
Record RetentionAuditRecord := mkRetentionAudit {
  rar_audit_id : AuditId;
  rar_created_at : Timestamp;
  rar_dry_run : bool;
  rar_summaries : list RetentionDeleteSummary;
  rar_preserved_store_kinds : list StoreKind;
  rar_total_matched_count : N;
  rar_total_deleted_count : N
}.

(** The counts are [u64] and their sums are of rows that exist. *)
(* [privacy_service.rs] retention_audit_record *)
Definition retention_audit_record (dry_run : bool) (summaries : list RetentionDeleteSummary)
    : ST RetentionAuditRecord :=
  let sum f := foldr (λ s n, f s + n) 0 summaries in
  let preserved := 
    omap (λ s, (λ _, rds_store_kind s) <$> rds_preserve_reason s) summaries in
  let$ audit_id := new_v4 in
  let$ created_at := now in
  st_ret (mkRetentionAudit audit_id created_at dry_run summaries preserved
    (sum rds_matched_count) (sum rds_deleted_count)).

Section job.
Context {O : Type}.
Implicit Types (stores : list (RetentionStoreAdapter O)).

(** [None]: the step has no limit of age, or its store is not among those given. *)
Definition step_store (step : RetentionPlanStep) stores
    : option (Timestamp * RetentionStoreAdapter O) :=
  match rps_older_than step with
  | None => None
  | Some older_than =>
      match List.find (λ store, bool_decide (rsa_store_kind store = rps_store_kind step)) stores with
      | None => None
      | Some store => Some (older_than, store)
      end
  end.
(* [privacy_service.rs] RetentionJob::execute_steps *)
Fixpoint execute_steps (steps : list RetentionPlanStep) stores (dry_run : bool)
    : Q O (list RetentionDeleteSummary) :=
  match steps with
  | [] => q_ret []
  | step :: steps =>
      match step_store step stores with
      | None => execute_steps steps stores dry_run
      | Some (older_than, store) =>
          if negb (rps_delete_allowed step) && negb dry_run
          then q_fail (SeInvalidRecord (kind_as_str (rps_store_kind step))
                 "retention plan does not allow deletion for this store")
          else
            let@ summary := rsa_delete_by_retention store
              (mkDeleteRequest older_than dry_run (rps_preserve_audit_records step)) in
            let@ summaries := execute_steps steps stores dry_run in
            q_ret (summary :: summaries)
      end
  end.
(* [privacy_service.rs] RetentionJob::dry_run *)
Definition retention_dry_run (plan : RetentionPlan) stores : Q O RetentionDryRun :=
  let@ summaries := execute_steps (rpl_steps plan) stores true in
  q_ret (mkDryRun plan summaries).
(* [privacy_service.rs] RetentionJob::apply *)
Definition retention_apply (plan : RetentionPlan) stores : Q O RetentionAuditRecord :=
  let@ summaries := execute_steps (rpl_steps plan) stores false in
  q_lift (retention_audit_record false summaries).
End job.

(** The parts that have no state are the functions above. *)
(* [privacy_service.rs] PrivacyEngine *)
Record PrivacyEngine := mkPrivacyEngine {
  pen_redaction_engine : RedactionEngine;
  pen_tokenizer : Tokenizer;
  pen_hashing_policy : HashingPolicy;
  pen_graph_label_redactor : RedactionEngine;
  pen_encryption_key_hook : EncryptionKeyHook
}.
(* [privacy_service.rs] PrivacyEngine::new *)
Definition privacy_engine_new `{Dpapi} : PrivacyEngine :=
  mkPrivacyEngine engine_default local_installation local_correlation_sha256 engine_default
    local_dpapi_current_user.
