(* ===== verification/StorageSettings.v ===== *)
(** * The settings repository ([storage/src/settings.rs])

    Documents of the settings -- profiles, change requests, impact analyses -- kept as
    records of the settings store. The JSON of a document is the class [SettingsJson]. *)

From S2P Require Import Prelude Collections RustStr Effects Contracts Checks Json.
From S2P Require Import Query Settings StorageTypes StorageDb LogicalStore LogicalStoreFacts.
From S2P Require Import LogicalStorePaging.

#[local] Open Scope string_scope.
#[local] Open Scope list_scope.
#[local] Open Scope N_scope.

(* [storage/src/settings.rs] SettingsDocumentType *)
Inductive SettingsDocumentType := SdtRuntimeProfile | SdtChangeRequest | SdtImpactAnalysis.
(* [storage/src/settings.rs] SettingsDocumentType::as_str *)
Definition document_type_as_str (self : SettingsDocumentType) : string :=
  match self with
  | SdtRuntimeProfile => "runtime_profile"
  | SdtChangeRequest => "change_request"
  | SdtImpactAnalysis => "impact_analysis"
  end.
(** The derived [Debug]. *)
Definition document_type_debug (self : SettingsDocumentType) : string :=
  match self with
  | SdtRuntimeProfile => "RuntimeProfile"
  | SdtChangeRequest => "ChangeRequest"
  | SdtImpactAnalysis => "ImpactAnalysis"
  end.

(* [storage/src/settings.rs] SettingsDocument *)
Inductive SettingsDocument :=
  | SdRuntimeProfile (profile : RuntimeProfile)
  | SdChangeRequest (request : SettingsChangeRequest)
  | SdImpactAnalysis (analysis : SettingsImpactAnalysis).
(* [storage/src/settings.rs] SettingsDocument::document_type *)
Definition document_type (self : SettingsDocument) : SettingsDocumentType :=
  match self with
  | SdRuntimeProfile _ => SdtRuntimeProfile
  | SdChangeRequest _ => SdtChangeRequest
  | SdImpactAnalysis _ => SdtImpactAnalysis
  end.
Definition settings_invalid (reason : string) : StorageError :=
  SeInvalidRecord (kind_as_str SkSettings) reason.
(* [storage/src/settings.rs] SettingsDocument::validate *)
Definition document_validate (self : SettingsDocument) : result unit StorageError :=
  let invalid error := settings_invalid (settings_error_to_string error) in
  match self with
  | SdRuntimeProfile profile => map_err invalid (profile_validate profile)
  | SdChangeRequest request => map_err invalid (change_request_validate request)
  | SdImpactAnalysis _ => Ok tt
  end.

(** [serde_json::to_value] and [from_value] of a document. *)
Class SettingsJson := {
  document_to_json : SettingsDocument → result JsonTree string;
  document_of_json : JsonTree → result SettingsDocument string
}.
(* [storage/src/settings.rs] SETTINGS_DOCUMENT_TYPE_FIELD *)
Definition SETTINGS_DOCUMENT_TYPE_FIELD : string := "settings_document_type".

Section repository.
Context `{SettingsJson} `{Externals} `{StorageText} {O : Type} `{SqlEngine O}.

(** The fields of an object of [serde_json] are sorted. *)
(* [storage/src/settings.rs] document_to_metadata *)
Definition document_to_metadata (document : SettingsDocument) : result JsonTree StorageError :=
  let? value := map_err SeSerialization (document_to_json document) in
  Ok (JObject
    [("settings_document", value);
     (SETTINGS_DOCUMENT_TYPE_FIELD, JString (document_type_as_str (document_type document)));
     ("settings_schema_version", JString (Schema.to_string SETTINGS_SCHEMA_VERSION))]).
(* [storage/src/settings.rs] document_from_record *)
Definition document_from_record (record : LogicalRecord KSettingsRecordId)
    : result SettingsDocument StorageError :=
  let? payload := ok_or (json_field (lr_metadata record) "settings_document")
    (settings_invalid "settings_document is missing") in
  map_err SeSerialization (document_of_json payload).

(* [storage/src/settings.rs] SettingsConfigRepository *)
Record SettingsConfigRepository := mkSettingsRepository {
  repo_settings_store : SqliteLogicalStore KSettingsRecordId
}.

(* [storage/src/settings.rs] SettingsConfigRepository::append_document *)
Definition append_document (self : SettingsConfigRepository) (document : SettingsDocument)
    : Q O SettingsRecordId :=
  let@ _ := q_of (document_validate document) in
  let@ record_id := q_lift new_v4 in
  let@ metadata := q_of (document_to_metadata document) in
  let@ record := q_lift (metadata_only record_id SETTINGS_SCHEMA_VERSION operational_metadata
                           metadata) in
  let@ _ := append (repo_settings_store self) record in
  q_ret record_id.
(* [storage/src/settings.rs] SettingsConfigRepository::save_runtime_profile *)
Definition save_runtime_profile self (profile : RuntimeProfile) : Q O SettingsRecordId :=
  append_document self (SdRuntimeProfile profile).
(* [storage/src/settings.rs] SettingsConfigRepository::save_change_request *)
Definition save_change_request self (request : SettingsChangeRequest) : Q O SettingsRecordId :=
  append_document self (SdChangeRequest request).
(* [storage/src/settings.rs] SettingsConfigRepository::save_impact_analysis *)
Definition save_impact_analysis self (analysis : SettingsImpactAnalysis) : Q O SettingsRecordId :=
  append_document self (SdImpactAnalysis analysis).

(* [storage/src/settings.rs] SettingsConfigRepository::get_document *)
Definition get_document (self : SettingsConfigRepository) (record_id : SettingsRecordId)
    : Q O (option SettingsDocument) :=
  let@ record := get_by_id (repo_settings_store self) record_id in
  match record with
  | Some record => let@ document := q_of (document_from_record record) in q_ret (Some document)
  | None => q_ret None
  end.
(* [storage/src/settings.rs] SettingsConfigRepository::get_runtime_profile *)
Definition get_runtime_profile self (record_id : SettingsRecordId)
    : Q O (option RuntimeProfile) :=
  let@ document := get_document self record_id in
  match document with
  | Some (SdRuntimeProfile profile) => q_ret (Some profile)
  | Some other => q_fail (settings_invalid
      ("expected runtime profile, got " ++ document_type_debug (document_type other))%string)
  | None => q_ret None
  end.
(* [storage/src/settings.rs] SettingsConfigRepository::archive_document *)
Definition archive_document (self : SettingsConfigRepository) (record_id : SettingsRecordId)
    : Q O unit :=
  update_state (repo_settings_store self) record_id RecArchived.
End repository.

(* [storage/src/settings.rs] default_runtime_profile_documents *)
Definition default_runtime_profile_documents : ST (list SettingsDocument) :=
  let$ profiles := default_profiles in
  st_ret (SdRuntimeProfile <$> profiles).

(* ------------------------------------------------------------------ *)
(** ** What the repository guarantees *)

Section facts.
Context `{SettingsJson} `{Externals} `{StorageText} {O : Type} `{SqlEngine O}.
Implicit Types (s : Sql O) (self : SettingsConfigRepository).

(** The record an append stores. *)
Definition settings_record s (metadata : JsonTree) : LogicalRecord KSettingsRecordId :=
  let '(record_id, w) := new_v4 (sql_world s) in
  (metadata_only record_id SETTINGS_SCHEMA_VERSION operational_metadata metadata w).1.

Lemma save_document_run self s c document metadata :
  let record := settings_record s metadata in
  represents (repo_settings_store self) s c → quiet s →
  document_validate document = Ok tt → document_to_metadata document = Ok metadata →
  validate_metadata_value (st_store_kind (repo_settings_store self)) "$" metadata = Ok tt →
  storable record → c !! lr_id record = None →
  ∃ s', append_document self document s = (Ok (lr_id record), s') ∧
    represents (repo_settings_store self) s' (<[lr_id record := record]> c) ∧ quiet s'.
Proof.
  intros record Hrep Hq Hv Hm Hmeta Hst Hc. unfold append_document, q_bind at 1, q_of.
  rewrite Hv. unfold q_bind at 1, q_lift. subst record. unfold settings_record in *.
  destruct (new_v4 (sql_world s)) as [record_id w]. unfold q_bind at 1. rewrite Hm.
  unfold q_bind at 1. destruct (metadata_only record_id SETTINGS_SCHEMA_VERSION
    operational_metadata metadata w) as [record w'] eqn:Hrecord.
  cbn [sql_world]. rewrite Hrecord in *. cbn [fst] in *. cbn beta iota.
  set (s1 := mkSql w' _ _ _). assert (lr_id record = record_id ∧
    lr_storage_privacy_class record = operational_metadata ∧ lr_metadata record = metadata)
    as (Hid & Hclass & Hmd).
  { revert Hrecord. unfold metadata_only, st_bind, st_ret. destruct (now w). by intros [= <- _]. }
  destruct (append_run (repo_settings_store self) s1 c record) as (s' & Hrun & Hrep' & Hq');
    [by destruct Hrep; constructor|exact Hq| |done|].
  - constructor; [done| |done]. unfold validate_logical_record. by rewrite Hclass, Hmd.
  - exists s'. unfold q_bind. rewrite Hrun. rewrite Hid in *. done.
Qed.

Lemma settings_record_metadata s metadata : lr_metadata (settings_record s metadata) = metadata.
Proof.
  unfold settings_record, metadata_only, st_bind, st_ret.
  destruct (new_v4 (sql_world s)) as [? w]. by destruct (now w).
Qed.

(** A document that is saved is read again under the identifier it got, and what was in
    the repository stays; an invalid document is refused before anything is written. *)
Theorem settings_roundtrip self s c document :
  represents (repo_settings_store self) s c → quiet s →
  (∀ e, document_validate document = Err e → append_document self document s = (Err e, s)) ∧
  (∀ value metadata, document_validate document = Ok tt →
    document_to_json document = Ok value → document_of_json value = Ok document →
    document_to_metadata document = Ok metadata →
    validate_metadata_value (st_store_kind (repo_settings_store self)) "$" metadata = Ok tt →
    let record := settings_record s metadata in
    storable record → c !! lr_id record = None →
    ∃ s' s2, append_document self document s = (Ok (lr_id record), s') ∧
      represents (repo_settings_store self) s' (<[lr_id record := record]> c) ∧
      get_document self (lr_id record) s' = (Ok (Some document), s2)).
Proof.
  intros Hrep Hq. split.
  { intros e He. unfold append_document, q_bind, q_of. by rewrite He. }
  intros value metadata Hv Hto Hof Hm Hmeta record Hst Hc.
  destruct (save_document_run self s c document metadata Hrep Hq Hv Hm Hmeta Hst Hc)
    as (s' & Hrun & Hrep' & Hq').
  exists s', (advance s' (sql_db s')). split; [exact Hrun|]. split; [exact Hrep'|].
  unfold get_document, q_bind.
  destruct (get_by_id_run _ _ _ (lr_id record) Hrep') as [(e & Hf & _)| ->];
    [by rewrite Hq' in Hf|].
  rewrite lookup_insert_eq. cbn beta iota. unfold q_of, document_from_record.
  unfold document_to_metadata in Hm. rewrite Hto in Hm. injection Hm as Hm.
  subst record. rewrite settings_record_metadata, <- Hm. cbn.
  rewrite bool_decide_true by done. cbn. by rewrite Hof.
Qed.
End facts.

(* ------------------------------------------------------------------ *)
(** ** Examples *)

Module SettingsSample.

#[export] Existing Instance sample_externals.
#[export] Existing Instance StoreSample.sample_engine.

Definition analysis : SettingsImpactAnalysis :=
  mkSettingsImpact (mkId (mkUuid 5)) (mkId (mkUuid 6)) SafeDefault SImpactLow [] [] false true true
    None (mkTimestamp 0).
#[export] Instance sample_settings_json : SettingsJson := {|
  document_to_json := λ _, Ok JNull;
  document_of_json := λ _, Ok (SdImpactAnalysis analysis)
|}.
Definition sample_metadata : JsonTree :=
  JObject
    [("settings_document", JNull);
     (SETTINGS_DOCUMENT_TYPE_FIELD, JString "impact_analysis");
     ("settings_schema_version", JString (Schema.to_string SETTINGS_SCHEMA_VERSION))].
Definition stored_record (kind : IdKind) : LogicalRecord kind :=
  let time := mkTimestamp 0 in
  mkRecord (mkId (mkUuid 0)) SETTINGS_SCHEMA_VERSION time time time []
    (spc_privacy_class operational_metadata) operational_metadata RecActive sample_metadata.
Definition sample_text : StorageText := {|
  record_to_text := λ _ _, Ok "record";
  record_of_text := λ kind _, Ok (stored_record kind);
  refs_to_text := λ _, Ok "[]";
  timestamp_to_string := λ t, show_uint (Z.to_N (instant t))
|}.
#[local] Existing Instance sample_text.

Definition repository : SettingsConfigRepository := mkSettingsRepository settings_store.
Definition empty_database : Sql unit :=
  mkSql counting_world (λ _, None) 0 (mkDatabase (Some ∅) None tt).

Lemma empty_represents : represents (repo_settings_store repository) empty_database ∅.
Proof.
  constructor; [|apply map_Forall_empty]. exists ∅. split; [done|]. intros t.
  by rewrite fmap_empty, kmap_empty, !lookup_empty.
Qed.

Lemma settings_roundtrip_witness :
  ∃ id s' s2, append_document repository (SdImpactAnalysis analysis) empty_database = (Ok id, s') ∧
    get_document repository id s' = (Ok (Some (SdImpactAnalysis analysis)), s2).
Proof.
  destruct (settings_roundtrip repository empty_database ∅ (SdImpactAnalysis analysis)
    empty_represents (λ _, eq_refl)) as [_ Hsave].
  destruct (Hsave JNull sample_metadata) as (s' & s2 & Hrun & _ & Hget); try reflexivity.
  - eexists. split; [reflexivity|]. vm_compute. reflexivity.
  - eexists _, s', s2. split; [exact Hrun|exact Hget].
Defined.

End SettingsSample.
