(* ===== verification/RustText.v ===== *)
(** * More text of the standard library, and its IP addresses

    What the parsers of imported logs call: [find], [trim_matches], [split_whitespace],
    [lines], [rsplit_once], [chars().take(n)], slices at byte offsets, [parse::<f64>], and
    [std::net::IpAddr] with its parser and [Display]. *)

From S2P Require Import Prelude RustStr.
From Stdlib Require Import SpecFloat.

#[local] Open Scope string_scope.
#[local] Open Scope list_scope.
#[local] Open Scope N_scope.

(* ------------------------------------------------------------------ *)
(** ** Characters *)

Definition is_ascii_alphabetic (c : ascii) : bool := is_ascii_lowercase c || is_ascii_uppercase c.
Definition is_ascii_alphanumeric (c : ascii) : bool := is_ascii_alphabetic c || is_ascii_digit c.
Definition is_ascii_hexdigit (c : ascii) : bool :=
  is_ascii_digit c || ((97 <=? code c) && (code c <=? 102)) || ((65 <=? code c) && (code c <=? 70)).
Definition any_char (p : ascii → bool) (s : string) : bool := negb (all_chars (λ c, negb (p c)) s).
Definition one_of (chars : list ascii) (c : ascii) : bool := bool_decide (c ∈ chars).
Definition double_quote : ascii := ascii_of_N 34.

(* ------------------------------------------------------------------ *)
(** ** Searching and slicing *)

(** [s.find(pat)]: the byte offset of the first occurrence. *)
Fixpoint find_str (s pat : string) : option nat :=
  if String.prefix pat s then Some 0%nat
  else match s with
       | "" => None
       | String _ s' => S <$> find_str s' pat
       end.
(** [s[..n]] and [s[n..]] at a character boundary. *)
Fixpoint str_first (n : nat) (s : string) : string :=
  match n, s with
  | S n', String c s' => String c (str_first n' s')
  | _, _ => ""
  end.
Fixpoint str_skip (n : nat) (s : string) : string :=
  match n, s with
  | S n', String _ s' => str_skip n' s'
  | _, _ => s
  end.
(** A byte that is not the first of its character. *)
Definition continues (c : ascii) : bool := (128 <=? code c) && (code c <? 192).
(** [s.is_char_boundary(n)] *)
Definition is_char_boundary (s : string) (n : nat) : bool :=
  match n with
  | O => true
  | _ => match str_skip n s with
         | "" => (n =? String.length s)%nat
         | String c _ => negb (continues c)
         end
  end.
(** [s.get(..n)]; the slice [&s[..n]] panics where this is [None]. *)
Definition get_to (s : string) (n : nat) : option string :=
  if is_char_boundary s n then Some (str_first n s) else None.

Definition starts_with (s pat : string) : bool := String.prefix pat s.
(** [s.strip_prefix(pat)] *)
Definition strip_prefix (s pat : string) : option string :=
  if String.prefix pat s then Some (str_skip (String.length pat) s) else None.
(** [s.strip_suffix(c)] *)
Fixpoint strip_suffix (s : string) (c : ascii) : option string :=
  match s with
  | "" => None
  | String d "" => if Ascii.eqb d c then Some "" else None
  | String d s' => String d <$> strip_suffix s' c
  end.
(** [s.rsplit_once(c)] *)
Fixpoint rsplit_once (c : ascii) (s : string) : option (string * string) :=
  match s with
  | "" => None
  | String d s' =>
      match rsplit_once c s' with
      | Some (before, after) => Some (String d before, after)
      | None => if Ascii.eqb d c then Some ("", s') else None
      end
  end.
(** [s.split_once(pat)] *)
Definition split_once_str (s pat : string) : option (string * string) :=
  offset ← find_str s pat;
  Some (str_first offset s, str_skip (offset + String.length pat) s).

(** [s.trim_matches(p)] and its halves. *)
Fixpoint trim_start_matches (p : ascii → bool) (s : string) : string :=
  match s with
  | String c s' => if p c then trim_start_matches p s' else s
  | "" => ""
  end.
Fixpoint trim_end_matches (p : ascii → bool) (s : string) : string :=
  if all_chars p s then ""
  else match s with
       | "" => ""
       | String c s' => String c (trim_end_matches p s')
       end.
Definition trim_matches (p : ascii → bool) (s : string) : string :=
  trim_end_matches p (trim_start_matches p s).

(** [s.chars().take(n).collect()] *)
Fixpoint take_chars (n : nat) (s : string) : string :=
  match s with
  | "" => ""
  | String c s' =>
      if continues c then String c (take_chars n s')
      else match n with
           | O => ""
           | S n' => String c (take_chars n' s')
           end
  end.
(** [s.chars().filter(p).collect()] where [p] holds of ASCII characters only. *)
Fixpoint filter_chars (p : ascii → bool) (s : string) : string :=
  match s with
  | "" => ""
  | String c s' => if p c then String c (filter_chars p s') else filter_chars p s'
  end.
(** [s.chars().map(|c| if p(c) { c } else { d }).collect()] where [p] holds of ASCII
    characters only: one [d] for a character of several bytes. *)
Fixpoint replace_chars (p : ascii → bool) (d : ascii) (s : string) : string :=
  match s with
  | "" => ""
  | String c s' =>
      if continues c then replace_chars p d s'
      else String (if p c then c else d) (replace_chars p d s')
  end.

Definition to_ascii_uppercase : string → string :=
  map_chars (λ c, if is_ascii_lowercase c then ascii_of_N (code c - 32) else c).
Definition eq_ignore_ascii_case (a b : string) : bool :=
  bool_decide (to_ascii_lowercase a = to_ascii_lowercase b).

(** [value.parse::<i64>()]: an optional sign, at least one digit, no overflow. *)
Definition parse_i64 (s : string) : option Z :=
  match s with
  | String "-" "" => None
  | String "-" s' =>
      n ← parse_digits 0 s'; if n <=? 9223372036854775808 then Some (- Z.of_N n)%Z else None
  | _ => Z.of_N <$> parse_uint 9223372036854775807 s
  end.

(* ------------------------------------------------------------------ *)
(** ** Words and lines *)

Definition onto_first (c : ascii) (parts : list string) : list string :=
  match parts with
  | [] => []
  | part :: parts => String c part :: parts
  end.
(** [s.split(char::is_whitespace)] *)
Fixpoint split_space (s : string) : list string :=
  match s with
  | "" => [""]
  | String a s1 =>
      if space1 (code a) then "" :: split_space s1
      else match s1 with
           | "" => [s]
           | String b s2 =>
               if space2 (code a) (code b) then "" :: split_space s2
               else match s2 with
                    | "" => onto_first a (split_space s1)
                    | String c s3 =>
                        if space3 (code a) (code b) (code c) then "" :: split_space s3
                        else onto_first a (split_space s1)
                    end
           end
  end.
Definition is_empty (s : string) : bool := match s with "" => true | _ => false end.
(** [s.split_whitespace()] *)
Definition split_whitespace (s : string) : list string :=
  List.filter (λ word, negb (is_empty word)) (split_space s).

Definition newline : ascii := ascii_of_N 10.
Definition carriage_return : ascii := ascii_of_N 13.
Fixpoint drop_returns (parts : list string) : list string :=
  match parts with
  | [] => []
  | [rest] => if is_empty rest then [] else [rest]
  | part :: parts => default part (strip_suffix part carriage_return) :: drop_returns parts
  end.
(** [s.lines()] *)
Definition lines (s : string) : list string := drop_returns (split (Ascii.eqb newline) s).

(* ------------------------------------------------------------------ *)
(** ** IP addresses *)

Inductive IpAddr :=
  | V4 (a b c d : N)
  | V6 (segments : list N).
#[export] Instance IpAddr_eq_dec : EqDecision IpAddr.
Proof. solve_decision. Defined.

(** [char::to_digit] *)
Definition to_digit (radix : N) (c : ascii) : option N :=
  let v := if is_ascii_digit c then Some (code c - 48)
           else if (97 <=? code c) && (code c <=? 122) then Some (code c - 87)
           else if (65 <=? code c) && (code c <=? 90) then Some (code c - 55)
           else None in
  v ← v; if v <? radix then Some v else None.

(** [Parser::read_number]: at most [max_digits] digits, no more than [max]. *)
Fixpoint read_digits (radix max : N) (max_digits count : nat) (acc : N) (s : string) :
    option (N * nat * string) :=
  match s with
  | "" => Some (acc, count, "")
  | String c s' =>
      match to_digit radix c with
      | None => Some (acc, count, s)
      | Some d =>
          if max <? acc * radix + d then None
          else if (max_digits <=? count)%nat then None
          else read_digits radix max max_digits (S count) (acc * radix + d) s'
      end
  end.
Definition read_number (radix max : N) (max_digits : nat) (allow_zero_prefix : bool) (s : string) :
    option (N * string) :=
  '(n, count, rest) ← read_digits radix max max_digits 0%nat 0 s;
  if (count =? 0)%nat then None
  else if negb allow_zero_prefix && starts_with s "0" && (1 <? count)%nat then None
  else Some (n, rest).
(** [Parser::read_given_char] *)
Definition read_given_char (c : ascii) (s : string) : option string :=
  match s with
  | String d s' => if Ascii.eqb d c then Some s' else None
  | "" => None
  end.
(** [Parser::read_separator] *)
Definition read_separator {A : Type} (sep : ascii) (index : nat) (inner : string → option A)
    (s : string) : option A :=
  match index with
  | O => inner s
  | _ => s' ← read_given_char sep s; inner s'
  end.

Definition read_octet : string → option (N * string) := read_number 10 255 3 false.
(** [Parser::read_ipv4_addr] *)
Definition read_ipv4_addr (s : string) : option (N * N * N * N * string) :=
  '(a, s) ← read_octet s;
  '(b, s) ← read_separator "."%char 1 read_octet s;
  '(c, s) ← read_separator "."%char 1 read_octet s;
  '(d, s) ← read_separator "."%char 1 read_octet s;
  Some (a, b, c, d, s).
(** [read_groups]: as many groups as fit in [slots], the number [i] first; the flag says
    that the last two are an IPv4 address. *)
Fixpoint read_groups (slots i : nat) (s : string) : list N * bool * string :=
  match slots with
  | O => ([], false, s)
  | S slots' =>
      match (if (1 <=? slots')%nat then read_separator ":"%char i read_ipv4_addr s else None) with
      | Some (a, b, c, d, rest) => ([a * 256 + b; c * 256 + d], true, rest)
      | None =>
          match read_separator ":"%char i (read_number 16 65535 4 true) s with
          | None => ([], false, s)
          | Some (g, rest) =>
              let '(gs, v4, rest) := read_groups slots' (S i) rest in (g :: gs, v4, rest)
          end
      end
  end.
(** [Parser::read_ipv6_addr] *)
Definition read_ipv6_addr (s : string) : option (list N * string) :=
  let '(head, head_ipv4, rest) := read_groups 8 0 s in
  if (length head =? 8)%nat then Some (head, rest)
  else if head_ipv4 then None
  else
    rest ← read_given_char ":"%char rest;
    rest ← read_given_char ":"%char rest;
    let '(tail, _, rest) := read_groups (8 - (length head + 1)) 0 rest in
    Some (head ++ replicate (8 - length head - length tail) 0 ++ tail, rest).
(** [value.parse::<IpAddr>()] *)
Definition parse_ip_addr (s : string) : option IpAddr :=
  '(address, rest) ←
    match read_ipv4_addr s with
    | Some (a, b, c, d, rest) => Some (V4 a b c d, rest)
    | None => '(segments, rest) ← read_ipv6_addr s; Some (V6 segments, rest)
    end;
  if is_empty rest then Some address else None.

Definition show_ipv4 (a b c d : N) : string :=
  (show_uint a ++ "." ++ show_uint b ++ "." ++ show_uint c ++ "." ++ show_uint d)%string.
Definition hex_digit (n : N) : string :=
  String (if n <? 10 then ascii_of_N (48 + n) else ascii_of_N (87 + n)) "".
(** [{:x}] of a [u16] *)
Definition hex_digit_from (least d n : N) : string :=
  if n <? least then "" else hex_digit (n / d mod 16).
Definition show_hex (n : N) : string :=
  (hex_digit_from 4096 4096 n ++ hex_digit_from 256 256 n ++ hex_digit_from 16 16 n ++
   hex_digit_from 0 1 n)%string.
(** The longest run of zeros, the first of them: its start and length. *)
Fixpoint zero_run (segments : list N) : nat :=
  match segments with
  | 0 :: rest => S (zero_run rest)
  | _ => O
  end.
Fixpoint longest_run (i : nat) (segments : list N) : nat * nat :=
  match segments with
  | [] => (i, O)
  | _ :: rest =>
      let '(start, size) := longest_run (S i) rest in
      if (size <=? zero_run segments)%nat then (i, zero_run segments) else (start, size)
  end.
Definition show_segments (segments : list N) : string := join ":" (map show_hex segments).
(** [Display for IpAddr] *)
Definition show_ip_addr (address : IpAddr) : string :=
  match address with
  | V4 a b c d => show_ipv4 a b c d
  | V6 [0; 0; 0; 0; 0; 65535; x; y] =>
      ("::ffff:" ++ show_ipv4 (x / 256) (x mod 256) (y / 256) (y mod 256))%string
  | V6 segments =>
      let '(start, size) := longest_run 0 segments in
      if (1 <? size)%nat
      then (show_segments (firstn start segments) ++ "::" ++
            show_segments (skipn (start + size) segments))%string
      else show_segments segments
  end.

Example ip_texts :
  map (λ s, show_ip_addr <$> parse_ip_addr s)
    ["192.0.2.7"; "192.0.2.07"; "1.2.3"; "2001:DB8:0:0:1:0:0:1"; "::"; "::ffff:10.0.0.1";
     "1:2:3:4:5:6:7:8"; "1:2:3:4:5:6:7::"; "fe80::1%eth0"; "1.2.3.4:80"; "::1.2.3.4"]
  = [Some "192.0.2.7"; None; None; Some "2001:db8::1:0:0:1"; Some "::"; Some "::ffff:10.0.0.1";
     Some "1:2:3:4:5:6:7:8"; Some "1:2:3:4:5:6:7:0"; None; None; Some "::102:304"].
Proof. vm_compute. reflexivity. Qed.

(* ------------------------------------------------------------------ *)
(** ** Decimal texts of [f64] *)

(** The digits at the front: their value, their number, the rest. *)
Fixpoint read_decimals (acc : N) (count : nat) (s : string) : N * nat * string :=
  match s with
  | String c s' =>
      if is_ascii_digit c then read_decimals (10 * acc + digit_value c) (S count) s'
      else (acc, count, s)
  | "" => (acc, count, "")
  end.
(** [digits * 10^exponent], rounded to the nearest [f64]. *)
Definition f64_of_decimal (negative : bool) (digits : N) (exponent : Z) : spec_float :=
  match digits with
  | 0 => S754_zero negative
  | Npos m =>
      if (0 <=? exponent)%Z
      then binary_normalize 53 1024 (SpecFloat.cond_Zopp negative (Zpos m * 10 ^ exponent)) 0 negative
      else SFdiv 53 1024 (S754_finite negative m 0) (S754_finite false (Z.to_pos (10 ^ (- exponent))) 0)
  end.
Definition read_sign (s : string) : bool * string :=
  match s with
  | String "-" s' => (true, s')
  | String "+" s' => (false, s')
  | _ => (false, s)
  end.
(** The exponent: nothing, or [e] or [E] with a number. *)
Definition read_exponent (s : string) : option Z :=
  match s with
  | "" => Some 0%Z
  | String c s' =>
      if Ascii.eqb c "e" || Ascii.eqb c "E" then
        let '(negative, s') := read_sign s' in
        let '(n, count, rest) := read_decimals 0 0%nat s' in
        if (count =? 0)%nat || negb (is_empty rest) then None
        else Some (if negative then (- Z.of_N n)%Z else Z.of_N n)
      else None
  end.
(** [value.parse::<f64>()] *)
Definition parse_f64 (s : string) : option spec_float :=
  let '(negative, s) := read_sign s in
  if eq_ignore_ascii_case s "nan" then Some S754_nan
  else if eq_ignore_ascii_case s "inf" || eq_ignore_ascii_case s "infinity"
  then Some (S754_infinity negative)
  else
    let '(whole, whole_count, rest) := read_decimals 0 0%nat s in
    let '(digits, count, fraction, rest) :=
      match rest with
      | String "." rest' =>
          let '(digits, fraction, rest'') := read_decimals whole 0%nat rest' in
          (digits, (whole_count + fraction)%nat, fraction, rest'')
      | _ => (whole, whole_count, 0%nat, rest)
      end in
    if (count =? 0)%nat then None
    else e ← read_exponent rest; Some (f64_of_decimal negative digits (e - Z.of_nat fraction)).

Example f64_texts :
  map parse_f64 ["0.25"; "-2"; "1e1"; "5."; ".5"; "."; "1e"; "0.1"; "inf"]
  = [Some (S754_finite false 4503599627370496 (-54)); Some (S754_finite true 4503599627370496 (-51));
     Some (S754_finite false 5629499534213120 (-49)); Some (S754_finite false 5629499534213120 (-50));
     Some (S754_finite false 4503599627370496 (-53)); None; None;
     Some (S754_finite false 7205759403792794 (-56)); Some (S754_infinity false)].
Proof. vm_compute. reflexivity. Qed.
