(* ===== verification/FileSystem.v ===== *)
(** * Files and directories ([std::fs], [std::path])

    What the storage crate uses of the file system of the standard library: a map from
    canonical paths to folders, documents with a text, and symbolic links. A call may fail
    for a reason of the machine: the oracle [io_faults]. A failed removal may have removed a
    part of what it was to remove, a failed write may leave the document empty (a failed
    append, as it was), a failed creation of folders leaves none.

    - Paths are absolute lists of names; names are valid UTF-8. The root is a folder.
    - Other programs do not change files while a call runs.
    - The order in which a directory lists its names is a parameter. *)

From S2P Require Import Prelude Collections RustStr Effects Contracts.

#[local] Open Scope string_scope.
#[local] Open Scope list_scope.

(* ------------------------------------------------------------------ *)
(** ** Paths and nodes *)

Abbreviation Path := (list string).
(** [path.join(name)], [path.parent()], [path.file_name()], [path.starts_with(root)] *)
Definition path_join (path : Path) (name : string) : Path := path ++ [name].
Definition path_parent (path : Path) : option Path :=
  match path with [] => None | _ => Some (removelast path) end.
Definition path_file_name (path : Path) : option string := last path.
Definition path_starts_with (path root : Path) : bool := bool_decide (root `prefix_of` path).

Inductive Node := Folder | Document (text : string) | Link (target : Path).
#[export] Instance Node_eq_dec : EqDecision Node.
Proof. solve_decision. Defined.

Abbreviation FileSystem := (gmap (list string) Node).
Definition node_of (fs : FileSystem) (path : Path) : option Node :=
  match path with [] => Some Folder | _ => fs !! path end.

Inductive IoError :=
  | IoNotFound | IoNotADirectory | IoIsADirectory | IoAlreadyExists | IoTooManyLinks
  | IoFault (message : string).
(** [Display] of an error of the system. *)
Class IoText := { io_error_to_string : IoError → string }.
Class DirOrder := {
  dir_order : list string → list string;
  dir_order_perm : ∀ l, dir_order l ≡ₚ l
}.

(** How many links are followed. *)
Definition MAX_LINKS : nat := 63.

(** [fs::canonicalize]: every link on the way followed. *)
Fixpoint resolve_from (links : nat) (fs : FileSystem) : Path → Path → result Path IoError :=
  fix walk (resolved rest : Path) : result Path IoError :=
    match rest with
    | [] => Ok resolved
    | name :: rest =>
        match node_of fs resolved with
        | Some Folder =>
            let next := path_join resolved name in
            match node_of fs next with
            | None => Err IoNotFound
            | Some (Link target) =>
                match links with
                | O => Err IoTooManyLinks
                | S links =>
                    match resolve_from links fs [] target with
                    | Ok resolved => walk resolved rest
                    | Err error => Err error
                    end
                end
            | Some _ => walk next rest
            end
        | _ => Err IoNotADirectory
        end
    end.
Definition resolve (fs : FileSystem) (path : Path) : result Path IoError :=
  resolve_from MAX_LINKS fs [] path.
(** Where the last name of a path is, itself not followed. *)
Definition locate_from (links : nat) (fs : FileSystem) (path : Path) : result Path IoError :=
  match path_parent path, path_file_name path with
  | Some parent, Some name =>
      let? parent := resolve_from links fs [] parent in
      if bool_decide (node_of fs parent = Some Folder) then Ok (path_join parent name)
      else Err IoNotADirectory
  | _, _ => Ok []
  end.
Definition locate (fs : FileSystem) (path : Path) : result Path IoError :=
  locate_from MAX_LINKS fs path.
(** [fs::symlink_metadata] *)
Definition node_at (fs : FileSystem) (path : Path) : result Node IoError :=
  let? place := locate fs path in
  match node_of fs place with Some node => Ok node | None => Err IoNotFound end.

(** The names in a folder. *)
Definition names_in `{DirOrder} (fs : FileSystem) (folder : Path) : list string :=
  dir_order (omap (λ '(path, _),
    match path_file_name path with
    | Some name => if bool_decide (path = path_join folder name) then Some name else None
    | None => None
    end) (map_to_list fs)).

(** [fs::create_dir_all]: the folders that are missing. *)
Fixpoint create_from (fs : FileSystem) (resolved rest : Path) : result FileSystem IoError :=
  match rest with
  | [] => Ok fs
  | name :: rest =>
      let next := path_join resolved name in
      match node_of fs next with
      | None => create_from (<[next := Folder]> fs) next rest
      | Some Folder => create_from fs next rest
      | Some (Document _) =>
          Err (match rest with [] => IoAlreadyExists | _ => IoNotADirectory end)
      | Some (Link _) =>
          match resolve_from MAX_LINKS fs resolved [name] with
          | Ok place =>
              if bool_decide (node_of fs place = Some Folder) then create_from fs place rest
              else Err IoAlreadyExists
          | Err _ => Err IoAlreadyExists
          end
      end
  end.
(** Where a document opened for writing is: through links, whether it is there or not. *)
Fixpoint write_place (links : nat) (fs : FileSystem) (path : Path) : result Path IoError :=
  let? place := locate_from links fs path in
  match node_of fs place with
  | Some Folder => Err IoIsADirectory
  | Some (Link target) =>
      match links with O => Err IoTooManyLinks | S links => write_place links fs target end
  | _ => Ok place
  end.
Definition text_of (node : option Node) : string :=
  match node with Some (Document text) => text | _ => "" end.
(** Without what is at a place and below it. *)
Definition without (fs : FileSystem) (place : Path) : FileSystem :=
  filter (λ entry, ¬ place `prefix_of` entry.1) fs.

(* ------------------------------------------------------------------ *)
(** ** Computations *)

Record Fault := mkFault { fault_message : string; fault_left : Path → bool }.
Record Io := mkIo {
  io_world : World;
  io_faults : nat → option Fault;
  io_calls : nat;
  io_fs : FileSystem
}.

Definition IO (E A : Type) : Type := Io → result A E * Io.
Definition io_ret {E A} (x : A) : IO E A := λ s, (Ok x, s).
Definition io_fail {E A} (error : E) : IO E A := λ s, (Err error, s).
Definition io_of {E A} (r : result A E) : IO E A := λ s, (r, s).
Definition io_bind {E A B} (a : IO E A) (f : A → IO E B) : IO E B :=
  λ s, match a s with (Ok x, s) => f x s | (Err e, s) => (Err e, s) end.
Notation "'let~' x ':=' a 'in' k" := (io_bind a (λ x, k))
  (at level 10, x binder, a at level 100, k at level 200) : sentinel_scope.
Notation "'let~' ' x ':=' a 'in' k" := (io_bind a (λ x, k))
  (at level 10, x strict pattern, a at level 100, k at level 200) : sentinel_scope.
(** [a.map_err(f)?] *)
Definition io_map_err {E E' A} (f : E → E') (a : IO E A) : IO E' A :=
  λ s, let '(r, s) := a s in (map_err f r, s).
(** The result itself. *)
Definition io_try {E E' A} (a : IO E A) : IO E' (result A E) :=
  λ s, let '(r, s) := a s in (Ok r, s).
Definition io_lift {E A} (a : ST A) : IO E A :=
  λ s, let '(x, w) := a (io_world s) in
       (Ok x, mkIo w (io_faults s) (io_calls s) (io_fs s)).
Fixpoint io_each {E A} (f : A → IO E unit) (l : list A) : IO E unit :=
  match l with
  | [] => io_ret tt
  | x :: l => let~ _ := f x in io_each f l
  end.
Fixpoint io_map {E A B} (f : A → IO E B) (l : list A) : IO E (list B) :=
  match l with
  | [] => io_ret []
  | x :: l => let~ y := f x in let~ ys := io_map f l in io_ret (y :: ys)
  end.

(** A call of the system; [failed] is what a fault leaves. *)
Definition called (s : Io) (fs : FileSystem) : Io :=
  mkIo (io_world s) (io_faults s) (S (io_calls s)) fs.
Definition call {A : Type} (failed : Fault → FileSystem → FileSystem)
    (f : FileSystem → result (FileSystem * A) IoError) : IO IoError A := λ s,
  match io_faults s (io_calls s) with
  | Some fault => (Err (IoFault (fault_message fault)), called s (failed fault (io_fs s)))
  | None =>
      match f (io_fs s) with
      | Ok (fs, x) => (Ok x, called s fs)
      | Err error => (Err error, called s (io_fs s))
      end
  end.
(** A call that only reads. *)
Definition inspect {A : Type} (f : FileSystem → result A IoError) : IO IoError A :=
  call (λ _ fs, fs) (λ fs, let? x := f fs in Ok (fs, x)).

Definition fs_canonicalize (path : Path) : IO IoError Path := inspect (λ fs, resolve fs path).
(** [path.exists()]: a failure is a no. *)
Definition path_exists {E} (path : Path) : IO E bool :=
  let~ r := io_try (fs_canonicalize path) in io_ret (is_ok r).
Definition fs_symlink_metadata (path : Path) : IO IoError Node :=
  inspect (λ fs, node_at fs path).
Definition fs_read_to_string (path : Path) : IO IoError string := inspect (λ fs,
  let? place := resolve fs path in
  match node_of fs place with
  | Some (Document text) => Ok text
  | _ => Err IoIsADirectory
  end).
Definition fs_read_dir `{DirOrder} (path : Path) : IO IoError (list string) := inspect (λ fs,
  let? place := resolve fs path in
  match node_of fs place with
  | Some Folder => Ok (names_in fs place)
  | _ => Err IoNotADirectory
  end).
(** The next entry of a directory. *)
Definition next_entry (name : string) : IO IoError string := inspect (λ _, Ok name).

Definition fs_create_dir_all (path : Path) : IO IoError unit :=
  call (λ _ fs, fs) (λ fs, let? fs := create_from fs [] path in Ok (fs, tt)).
Definition fs_write (path : Path) (text : string) : IO IoError unit :=
  call (λ fault fs,
    match write_place MAX_LINKS fs path with
    | Ok place => if fault_left fault place then fs else <[place := Document ""]> fs
    | Err _ => fs
    end)
    (λ fs, let? place := write_place MAX_LINKS fs path in
           Ok (<[place := Document text]> fs, tt)).
(** Opening with [create] and [append], and [writeln!]. *)
Definition fs_append_line (path : Path) (line : string) : IO IoError unit :=
  call (λ fault fs,
    match write_place MAX_LINKS fs path with
    | Ok place => if fault_left fault place then fs
                  else <[place := Document (text_of (node_of fs place))]> fs
    | Err _ => fs
    end) (λ fs,
    let? place := write_place MAX_LINKS fs path in
    Ok (<[place := Document (text_of (node_of fs place) ++ line ++ String "010" "")%string]> fs,
        tt)).
(** Links are removed, not followed. *)
Definition fs_remove_dir_all (path : Path) : IO IoError unit :=
  call (λ fault fs,
    match locate fs path with
    | Ok place => filter (λ entry, ¬ place `prefix_of` entry.1 ∨ fault_left fault entry.1 = true) fs
    | Err _ => fs
    end)
    (λ fs,
      let? place := locate fs path in
      match node_of fs place with
      | None => Err IoNotFound
      | Some (Document _) => Err IoNotADirectory
      | Some (Link _) => Ok (delete place fs, tt)
      | Some Folder => Ok (without fs place, tt)
      end).

(** [OpenOptions::new().write(true).create_new(true).open(path)] *)
Definition fs_create_new (path : Path) : IO IoError unit :=
  call (λ _ fs, fs) (λ fs,
    let? place := locate fs path in
    match node_of fs place with
    | Some _ => Err IoAlreadyExists
    | None => Ok (<[place := Document ""]> fs, tt)
    end).
(** [fs::remove_file]: a link is removed, not followed. *)
Definition fs_remove_file (path : Path) : IO IoError unit :=
  call (λ _ fs, fs) (λ fs,
    let? place := locate fs path in
    match node_of fs place with
    | None => Err IoNotFound
    | Some Folder => Err IoIsADirectory
    | Some _ => Ok (delete place fs, tt)
    end).
