(* ===== verification/FileSystemFacts.v ===== *)
(** * Laws of the file system ([std::fs])

    What a written document reads back as, and what a call leaves alone. *)

From S2P Require Import Prelude Collections RustStr Effects Contracts FileSystem.

#[local] Open Scope string_scope.
#[local] Open Scope list_scope.

(** So that simplification does not count down the links. *)
#[global] Opaque MAX_LINKS.

(* ------------------------------------------------------------------ *)
(** ** Resolving *)

Definition is_plain (node : option Node) : Prop :=
  match node with None | Some (Document _) => True | _ => False end.

Lemma resolve_cons links fs resolved name rest :
  resolve_from links fs resolved (name :: rest) =
  match node_of fs resolved with
  | Some Folder =>
      match node_of fs (path_join resolved name) with
      | None => Err IoNotFound
      | Some (Link target) =>
          match links with
          | O => Err IoTooManyLinks
          | S links' =>
              match resolve_from links' fs [] target with
              | Ok resolved => resolve_from links fs resolved rest
              | Err error => Err error
              end
          end
      | Some _ => resolve_from links fs (path_join resolved name) rest
      end
  | _ => Err IoNotADirectory
  end.
Proof. by destruct links. Qed.
Lemma resolve_nil links fs resolved : resolve_from links fs resolved [] = Ok resolved.
Proof. by destruct links. Qed.

Lemma resolve_app links fs p2 : ∀ p1 resolved,
  resolve_from links fs resolved (p1 ++ p2) =
  let? place := resolve_from links fs resolved p1 in resolve_from links fs place p2.
Proof.
  induction p1 as [|name p1 IH]; intros resolved; [by rewrite resolve_nil|].
  rewrite <- app_comm_cons, !resolve_cons.
  destruct (node_of fs resolved) as [[]|]; try done.
  destruct (node_of fs (path_join resolved name)) as [[| |target]|]; try done; try apply IH.
  destruct links as [|links]; [done|].
  destruct (resolve_from links fs [] target); [apply IH|done].
Qed.

Lemma path_join_not_nil path name : path_join path name ≠ [].
Proof. by destruct path. Qed.
Lemma node_of_join fs path name : node_of fs (path_join path name) = fs !! path_join path name.
Proof. by destruct path. Qed.
Lemma node_of_insert fs place node path :
  place ≠ [] → node_of (<[place := node]> fs) path =
  if decide (path = place) then Some node else node_of fs path.
Proof.
  intros Hp. destruct path as [|c path]; [by rewrite decide_False by congruence|]. unfold node_of.
  destruct (decide (c :: path = place)) as [Heq|Hne]; [by rewrite Heq, lookup_insert_eq|].
  by rewrite lookup_insert_ne.
Qed.

(** What is at one place, if it is no folder and no link, is on no way to a folder. *)
Lemma resolve_plain fs fs' place : place ≠ [] →
  is_plain (node_of fs place) → is_plain (node_of fs' place) →
  (∀ path, path ≠ place → node_of fs' path = node_of fs path) →
  ∀ links path resolved q, resolve_from links fs resolved path = Ok q →
  node_of fs q = Some Folder → resolve_from links fs' resolved path = Ok q.
Proof.
  intros Hne Hplain Hplain' Hsame. induction links as [links IHlinks] using lt_wf_ind.
  induction path as [|name path IH]; intros resolved q; [by rewrite !resolve_nil|].
  rewrite !resolve_cons.
  destruct (node_of fs resolved) as [[]|] eqn:Hres; try done.
  rewrite (Hsame resolved), Hres by (intros ->; by rewrite Hres in Hplain).
  destruct (decide (path_join resolved name = place)) as [Heq|Hne'].
  - rewrite Heq. destruct (node_of fs place) as [[|old|]|] eqn:Hplace; try done.
    destruct path as [|name' path].
    + rewrite resolve_nil. intros [= <-]. congruence.
    + rewrite resolve_cons, Hplace. done.
  - rewrite (Hsame (path_join resolved name)) by done.
    destruct (node_of fs (path_join resolved name)) as [[| |target]|]; try done; try apply IH.
    destruct links as [|links]; [done|].
    destruct (resolve_from links fs [] target) as [r|] eqn:Htarget; [|done].
    intros Hrest Hq. destruct (decide (node_of fs r = Some Folder)) as [Hr|Hr].
    + rewrite (IHlinks links) with (q := r) by (done || lia). by apply IH.
    + destruct path as [|name' path]; [rewrite resolve_nil in Hrest; congruence|].
      rewrite resolve_cons in Hrest. by destruct (node_of fs r) as [[]|].
Qed.
(** A document is written. *)
Lemma resolve_insert fs place text : place ≠ [] → is_plain (node_of fs place) →
  ∀ links path resolved q, resolve_from links fs resolved path = Ok q →
  node_of fs q = Some Folder → resolve_from links (<[place := Document text]> fs) resolved path = Ok q.
Proof.
  intros Hne Hplain. apply (resolve_plain _ _ place); [done|done| |].
  - by rewrite node_of_insert, decide_True.
  - intros path Hpath. by rewrite node_of_insert, decide_False.
Qed.
(** A document is removed. *)
Lemma resolve_delete fs place : place ≠ [] → is_plain (node_of fs place) →
  ∀ links path resolved q, resolve_from links fs resolved path = Ok q →
  node_of fs q = Some Folder → resolve_from links (delete place fs) resolved path = Ok q.
Proof.
  intros Hne Hplain. apply (resolve_plain _ _ place); [done|done| |].
  - destruct place; [done|]. cbn [node_of]. by rewrite lookup_delete_eq.
  - intros path Hpath. destruct path; [done|]. cbn [node_of]. by rewrite lookup_delete_ne.
Qed.

Lemma locate_from_inv links fs path place :
  locate_from links fs path = Ok place →
  (path = [] ∧ place = []) ∨
  ∃ dir name folder, path = path_join dir name ∧ resolve_from links fs [] dir = Ok folder ∧
    node_of fs folder = Some Folder ∧ place = path_join folder name.
Proof.
  unfold locate_from, path_parent, path_file_name.
  destruct path as [|name path] using rev_ind; [intros [= <-]; by left|].
  destruct (path ++ [name]) eqn:Heq; [by destruct path|]. rewrite <- Heq, last_snoc, removelast_last.
  destruct (resolve_from links fs [] path) as [folder|] eqn:Hf; [|done]. simpl.
  case_bool_decide as Hfolder; [|done]. intros [= <-]. right. by exists path, name, folder.
Qed.

Lemma resolve_join links fs dir name resolved :
  resolve_from links fs resolved (path_join dir name) =
  let? place := resolve_from links fs resolved dir in resolve_from links fs place [name].
Proof. apply resolve_app. Qed.

(** Where a document is written it is found again. *)
Lemma write_place_resolves text : ∀ links fs path place,
  write_place links fs path = Ok place →
  place ≠ [] ∧ is_plain (node_of fs place) ∧
  resolve_from links (<[place := Document text]> fs) [] path = Ok place.
Proof.
  intros links. induction links as [|links IH]; intros fs path place; cbn [write_place];
    rewrite res_bind_ok;
    intros (q & Hq & Hrest);
    apply locate_from_inv in Hq as [[-> ->]|(dir & name & folder & -> & Hdir & Hfolder & ->)];
    try done.
  all: assert (∀ links, resolve_from links fs [] dir = Ok folder →
    is_plain (node_of fs (path_join folder name)) → path_join folder name ≠ [] ∧
    is_plain (node_of fs (path_join folder name)) ∧
    resolve_from links (<[path_join folder name := Document text]> fs) [] (path_join dir name) =
      Ok (path_join folder name)) as Hplain.
  1,3: intros l Hd Hn; pose proof (path_join_not_nil folder name) as Hne;
    (split; [done|split; [done|]]);
    rewrite resolve_join, (resolve_insert fs _ text Hne Hn l dir [] folder Hd Hfolder);
    cbn [res_bind]; rewrite resolve_cons, !node_of_insert by done;
    rewrite decide_False by (intros Heq; rewrite <- Heq, Hfolder in Hn; done);
    by rewrite Hfolder, decide_True, resolve_nil.
  - destruct (node_of fs (path_join folder name)) as [[]|] eqn:Hn; try done;
      injection Hrest as <-; rewrite ?Hn; by apply Hplain.
  - destruct (node_of fs (path_join folder name)) as [[| |target]|] eqn:Hn; try done;
      [injection Hrest as <-; rewrite ?Hn; by apply Hplain| |injection Hrest as <-; rewrite ?Hn; by apply Hplain].
    apply IH in Hrest as (Hne & Hp & Hres). split; [done|]. split; [done|].
    rewrite resolve_join, (resolve_insert fs _ text Hne Hp _ dir [] folder Hdir Hfolder).
    cbn [res_bind]. rewrite resolve_cons, !node_of_insert by done.
    rewrite decide_False by (intros Heq; rewrite <- Heq, Hfolder in Hp; done).
    rewrite Hfolder, decide_False by (intros Heq; rewrite <- Heq, Hn in Hp; done).
    by rewrite Hn, Hres, resolve_nil.
Qed.

(* ------------------------------------------------------------------ *)
(** ** Calls *)

(** No call fails for a reason of the machine. *)
Definition calm (s : Io) : Prop := ∀ n, io_faults s n = None.
(** A computation that only looks. *)
Definition looks {E A} (a : IO E A) : Prop :=
  ∀ s, io_fs (a s).2 = io_fs s ∧ io_faults (a s).2 = io_faults s.

Lemma io_bind_inv {E A B} (a : IO E A) (f : A → IO E B) s r s' :
  io_bind a f s = (r, s') →
  (∃ x s1, a s = (Ok x, s1) ∧ f x s1 = (r, s')) ∨ (∃ e, a s = (Err e, s') ∧ r = Err e).
Proof.
  unfold io_bind. destruct (a s) as [[x|e] s1]; [|intros [= <- <-]]; eauto.
Qed.
Lemma io_map_err_inv {E E' A} (f : E → E') (a : IO E A) s r s' :
  io_map_err f a s = (r, s') → ∃ r0, a s = (r0, s') ∧ r = map_err f r0.
Proof. unfold io_map_err. destruct (a s) as [r0 s1]. intros [= <- <-]. eauto. Qed.

Lemma looks_ret {E A} (x : A) : looks (io_ret x : IO E A).
Proof. done. Qed.
Lemma looks_of {E A} (r : result A E) : looks (io_of r).
Proof. done. Qed.
Lemma looks_lift {E A} (a : ST A) : looks (io_lift a : IO E A).
Proof. intros s. unfold io_lift. by destruct (a (io_world s)). Qed.
Lemma looks_bind {E A B} (a : IO E A) (f : A → IO E B) :
  looks a → (∀ x, looks (f x)) → looks (io_bind a f).
Proof.
  intros Ha Hf s. unfold io_bind. specialize (Ha s). destruct (a s) as [[x|e] s1]; [|done].
  destruct (Hf x s1) as [-> ->]. done.
Qed.
Lemma looks_try {E E' A} (a : IO E A) : looks a → looks (io_try a : IO E' _).
Proof. intros Ha s. unfold io_try. specialize (Ha s). by destruct (a s). Qed.
Lemma looks_map_err {E E' A} (f : E → E') (a : IO E A) : looks a → looks (io_map_err f a).
Proof. intros Ha s. unfold io_map_err. specialize (Ha s). by destruct (a s). Qed.
Lemma looks_inspect {A : Type} (f : FileSystem → result A IoError) : looks (inspect f).
Proof.
  intros s. unfold inspect, call. destruct (io_faults s _); [done|].
  by destruct (f (io_fs s)).
Qed.
Lemma looks_run {E A} (a : IO E A) s r s' :
  looks a → a s = (r, s') → io_fs s' = io_fs s ∧ io_faults s' = io_faults s.
Proof. intros Ha Hs. specialize (Ha s). by rewrite Hs in Ha. Qed.
Lemma looks_exists {E} path : looks (path_exists path : IO E bool).
Proof. apply looks_bind; [apply looks_try, looks_inspect|done]. Qed.

Lemma inspect_ok {A : Type} (f : FileSystem → result A IoError) s x s' :
  inspect f s = (Ok x, s') → f (io_fs s) = Ok x.
Proof.
  unfold inspect, call. destruct (io_faults s _); [done|].
  destruct (f (io_fs s)); [|done]. by intros [= -> _].
Qed.
Lemma inspect_calm {A : Type} (f : FileSystem → result A IoError) s :
  calm s → inspect f s = (f (io_fs s), called s (io_fs s)).
Proof. intros Hs. unfold inspect, call. rewrite Hs. by destruct (f (io_fs s)). Qed.
Lemma calm_called s fs : calm s → calm (called s fs).
Proof. done. Qed.

Lemma looks_each {E A : Type} (f : A → IO E unit) l : (∀ x, looks (f x)) → looks (io_each f l).
Proof. intros Hf. induction l; [apply looks_ret|apply looks_bind; [apply Hf|done]]. Qed.
Lemma looks_map {E A B : Type} (f : A → IO E B) l : (∀ x, looks (f x)) → looks (io_map f l).
Proof.
  intros Hf. induction l; [apply looks_ret|]. apply looks_bind; [apply Hf|]. intros y.
  apply looks_bind; [done|]. intros ys. apply looks_ret.
Qed.
(** [io_try] always goes on. *)
Lemma io_try_inv {E E' A B : Type} (a : IO E A) (f : result A E → IO E' B) s r s' :
  io_bind (io_try a) f s = (r, s') → ∃ x s1, a s = (x, s1) ∧ f x s1 = (r, s').
Proof. unfold io_bind, io_try. destruct (a s) as [x s1]. eauto. Qed.

Lemma io_bind_ok {E A B : Type} (a : IO E A) (f : A → IO E B) s x s1 :
  a s = (Ok x, s1) → io_bind a f s = f x s1.
Proof. intros Ha. unfold io_bind. by rewrite Ha. Qed.
Lemma io_bind_err {E A B : Type} (a : IO E A) (f : A → IO E B) s e s1 :
  a s = (Err e, s1) → io_bind a f s = (Err e, s1).
Proof. intros Ha. unfold io_bind. by rewrite Ha. Qed.
Lemma io_try_run {E E' A B : Type} (a : IO E A) (f : result A E → IO E' B) s r s1 :
  a s = (r, s1) → io_bind (io_try a) f s = f r s1.
Proof. intros Ha. unfold io_bind, io_try. by rewrite Ha. Qed.
Lemma io_map_err_run {E E' A : Type} (g : E → E') (a : IO E A) s r s1 :
  a s = (r, s1) → io_map_err g a s = (map_err g r, s1).
Proof. intros Ha. unfold io_map_err. by rewrite Ha. Qed.

(** That a computation only looks follows its shape. *)
Ltac looks :=
  lazymatch goal with
  | |- looks (io_bind _ _) => apply looks_bind; [looks | intros ?; looks]
  | |- looks (io_ret _) => apply looks_ret
  | |- looks (io_of _) => apply looks_of
  | |- looks (io_lift _) => apply looks_lift
  | |- looks (io_try _) => apply looks_try; looks
  | |- looks (io_map_err _ _) => apply looks_map_err; looks
  | |- looks (inspect _) => apply looks_inspect
  | |- looks (path_exists _) => apply looks_exists
  | |- looks (io_each _ _) => apply looks_each; intros ?; looks
  | |- looks (io_map _ _) => apply looks_map; intros ?; looks
  | |- looks (if ?b then _ else _) => destruct b; looks
  | |- looks (match ?x with _ => _ end) => destruct x; looks
  | |- looks ?a => let h := head_of a in progress unfold h; looks
  end
with head_of a :=
  lazymatch a with
  | ?f _ => head_of f
  | _ => a
  end.

(** Writing: one document. *)
Lemma fs_write_inv path text s r s' :
  fs_write path text s = (r, s') →
  io_faults s' = io_faults s ∧
  match r with
  | Ok _ => ∃ place, write_place MAX_LINKS (io_fs s) path = Ok place ∧
              io_fs s' = <[place := Document text]> (io_fs s)
  | Err _ => io_fs s' = io_fs s ∨
      ∃ place, write_place MAX_LINKS (io_fs s) path = Ok place ∧
        io_fs s' = <[place := Document ""]> (io_fs s)
  end.
Proof.
  unfold fs_write, call. destruct (io_faults s _) as [fault|].
  - intros [= <- <-]. split; [done|]. simpl.
    destruct (write_place MAX_LINKS (io_fs s) path) as [place|]; [|by left].
    destruct (fault_left fault place); [by left|right]. by exists place.
  - destruct (write_place MAX_LINKS (io_fs s) path) as [place|]; intros [= <- <-];
      (split; [done|]); [by exists place|by left].
Qed.

(** What was written is read. *)
Lemma read_written path text s s' : calm s →
  fs_write path text s = (Ok tt, s') →
  calm s' ∧
  (∀ E, path_exists path s' = (Ok true, called s' (io_fs s')) :> result bool E * Io) ∧
  fs_read_to_string path (called s' (io_fs s')) =
    (Ok text, called (called s' (io_fs s')) (io_fs s')).
Proof.
  intros Hs [Hf (place & Hplace & Hfs)]%fs_write_inv.
  assert (calm s') as Hs' by (intros n; by rewrite Hf).
  destruct (write_place_resolves text _ _ _ _ Hplace) as (Hne & _ & Hres).
  split; [done|]. split.
  - intros E. unfold path_exists, io_bind, io_try, fs_canonicalize.
    rewrite inspect_calm by done. unfold resolve. by rewrite Hfs, Hres.
  - unfold fs_read_to_string. rewrite inspect_calm by done. simpl. unfold resolve.
    rewrite Hfs, Hres. cbn [res_bind]. by rewrite node_of_insert, decide_True.
Qed.

(** Creating folders only adds folders. *)
Definition more_folders (fs fs' : FileSystem) : Prop :=
  ∀ path, fs' !! path = fs !! path ∨ (fs !! path = None ∧ fs' !! path = Some Folder).
#[export] Instance more_folders_refl : Reflexive more_folders.
Proof. intros fs path. by left. Qed.
#[export] Instance more_folders_trans : Transitive more_folders.
Proof.
  intros fs1 fs2 fs3 H1 H2 path.
  destruct (H1 path) as [Ha|[? Ha]], (H2 path) as [Hb|[Hb ?]]; rewrite ?Ha in Hb; auto.
Qed.
Lemma create_from_more rest : ∀ fs resolved fs',
  create_from fs resolved rest = Ok fs' → more_folders fs fs'.
Proof.
  induction rest as [|name rest IH]; intros fs resolved fs'; simpl; [by intros [= ->]|].
  destruct (node_of fs (path_join resolved name)) as [[| |target]|] eqn:Hn; [apply IH|done| |].
  - destruct (resolve_from MAX_LINKS fs resolved [name]) as [place|]; [|done].
    case_bool_decide; [apply IH|done].
  - intros Hc%IH. transitivity (<[path_join resolved name := Folder]> fs); [|done].
    intros path. rewrite node_of_join in Hn.
    destruct (decide (path = path_join resolved name)) as [->|Hne];
      [right; by rewrite lookup_insert_eq|left; by rewrite lookup_insert_ne].
Qed.
Lemma fs_create_dir_all_inv path s r s' :
  fs_create_dir_all path s = (r, s') →
  io_faults s' = io_faults s ∧ more_folders (io_fs s) (io_fs s').
Proof.
  unfold fs_create_dir_all, call. destruct (io_faults s _); [by intros [= <- <-]|].
  destruct (create_from (io_fs s) [] path) as [fs|] eqn:Hc; intros [= <- <-]; (split; [done|]);
    [by eapply create_from_more|done].
Qed.

(* ------------------------------------------------------------------ *)
(** ** More and less *)

Lemma node_of_weaken fs1 fs2 path node :
  fs1 ⊆ fs2 → node_of fs1 path = Some node → node_of fs2 path = Some node.
Proof. intros Hsub. destruct path; [done|]. intros Hn. by eapply lookup_weaken. Qed.
(** What is found is found where there is more. *)
Lemma resolve_weaken fs1 fs2 : fs1 ⊆ fs2 → ∀ links path resolved q,
  resolve_from links fs1 resolved path = Ok q → resolve_from links fs2 resolved path = Ok q.
Proof.
  intros Hsub. induction links as [links IHlinks] using lt_wf_ind.
  induction path as [|name path IH]; intros resolved q; [by rewrite !resolve_nil|].
  rewrite !resolve_cons.
  destruct (node_of fs1 resolved) as [[]|] eqn:Hres; try done.
  rewrite (node_of_weaken _ _ _ _ Hsub Hres).
  destruct (node_of fs1 (path_join resolved name)) as [node|] eqn:Hnode; [|done].
  rewrite (node_of_weaken _ _ _ _ Hsub Hnode).
  destruct node as [| |target]; try apply IH.
  destruct links as [|links]; [done|].
  destruct (resolve_from links fs1 [] target) as [r|] eqn:Htarget; [|done].
  rewrite (IHlinks links) with (q := r) by (done || lia). apply IH.
Qed.
Lemma locate_weaken fs1 fs2 path place :
  fs1 ⊆ fs2 → locate fs1 path = Ok place → locate fs2 path = Ok place.
Proof.
  intros Hsub [[-> ->]|(dir & name & folder & -> & Hdir & Hfolder & ->)]%locate_from_inv; [done|].
  unfold locate, locate_from, path_parent, path_file_name.
  destruct (path_join dir name) eqn:Heq; [by destruct dir|]. rewrite <- Heq. unfold path_join.
  rewrite last_snoc, removelast_last, (resolve_weaken _ _ Hsub _ _ _ _ Hdir). simpl.
  by rewrite (node_of_weaken _ _ _ _ Hsub Hfolder), bool_decide_eq_true_2.
Qed.
Lemma more_folders_subseteq fs1 fs2 : more_folders fs1 fs2 → fs1 ⊆ fs2.
Proof.
  intros Hmore. apply map_subseteq_spec. intros path node Hnode.
  destruct (Hmore path) as [->|[Hnone _]]; [done|congruence].
Qed.
Lemma without_subseteq fs place : without fs place ⊆ fs.
Proof. apply map_filter_subseteq. Qed.

(** A path with a last name: where it is located, and where it resolves to. *)
Lemma locate_join fs dir name :
  locate fs (path_join dir name) =
  let? folder := resolve fs dir in
  if bool_decide (node_of fs folder = Some Folder) then Ok (path_join folder name)
  else Err IoNotADirectory.
Proof.
  unfold locate, locate_from, path_parent, path_file_name, resolve.
  destruct (path_join dir name) eqn:Heq; [by destruct dir|]. rewrite <- Heq. unfold path_join.
  by rewrite last_snoc, removelast_last.
Qed.
Lemma resolve_located fs dir name place :
  locate fs (path_join dir name) = Ok place →
  resolve fs (path_join dir name) =
  match node_of fs place with
  | None => Err IoNotFound
  | Some (Link target) =>
      match MAX_LINKS with
      | O => Err IoTooManyLinks
      | S links => resolve_from links fs [] target
      end
  | Some _ => Ok place
  end.
Proof.
  rewrite locate_join. unfold resolve. rewrite resolve_join.
  destruct (resolve_from MAX_LINKS fs [] dir) as [folder|]; [|done]. cbn [res_bind].
  case_bool_decide as Hfolder; [|done]. intros [= <-].
  rewrite resolve_cons, Hfolder. destruct (node_of fs (path_join folder name)) as [[]|];
    rewrite ?resolve_nil; try done.
  destruct MAX_LINKS as [|links]; [done|].
  destruct (resolve_from links fs [] target); [by rewrite resolve_nil|done].
Qed.

(** What a step on the file system does, whatever the result and the faults. *)
Definition changes {E A : Type} (R : relation FileSystem) (a : IO E A) : Prop :=
  ∀ s, R (io_fs s) (io_fs (a s).2).
Lemma changes_looks {E A : Type} (R : relation FileSystem) `{!Reflexive R} (a : IO E A) :
  looks a → changes R a.
Proof. intros Ha s. destruct (Ha s) as [-> _]. done. Qed.
Lemma changes_bind {E A B : Type} (R : relation FileSystem) `{!Transitive R} (a : IO E A) (f : A → IO E B) :
  changes R a → (∀ x, changes R (f x)) → changes R (io_bind a f).
Proof.
  intros Ha Hf s. unfold io_bind. specialize (Ha s). destruct (a s) as [[x|e] s1]; [|done].
  etransitivity; [exact Ha|apply (Hf x s1)].
Qed.
Lemma changes_try {E E' A : Type} (R : relation FileSystem) (a : IO E A) :
  changes R a → changes R (io_try a : IO E' _).
Proof. intros Ha s. unfold io_try. specialize (Ha s). by destruct (a s). Qed.
Lemma changes_map_err {E E' A : Type} (R : relation FileSystem) (f : E → E') (a : IO E A) :
  changes R a → changes R (io_map_err f a).
Proof. intros Ha s. unfold io_map_err. specialize (Ha s). by destruct (a s). Qed.
Lemma changes_run {E A : Type} (R : relation FileSystem) (a : IO E A) s r s' :
  changes R a → a s = (r, s') → R (io_fs s) (io_fs s').
Proof. intros Ha Hs. specialize (Ha s). by rewrite Hs in Ha. Qed.

(** Nothing but what is at a place and below it is removed. *)
Definition removed_below (place : Path) (fs fs' : FileSystem) : Prop :=
  ∀ path, fs' !! path = fs !! path ∨ (place `prefix_of` path ∧ fs' !! path = None).
Lemma removed_filter place (P : Path * Node → Prop) `{!∀ entry, Decision (P entry)} fs :
  (∀ path node, ¬ place `prefix_of` path → P (path, node)) → removed_below place fs (filter P fs).
Proof.
  intros HP path. destruct (fs !! path) as [node|] eqn:Hnode.
  - destruct (decide (P (path, node))) as [Hp|Hp].
    + left. by apply map_lookup_filter_Some.
    + right. split.
      * destruct (decide (place `prefix_of` path)); [done|]. by destruct Hp; apply HP.
      * apply map_lookup_filter_None. right. intros node' Hnode'. congruence.
  - left. apply map_lookup_filter_None. by left.
Qed.
Lemma removed_subseteq place fs fs' : removed_below place fs fs' → fs' ⊆ fs.
Proof.
  intros Hbelow. apply map_subseteq_spec. intros path node Hnode.
  destruct (Hbelow path) as [<-|[_ Hnone]]; [done|congruence].
Qed.
Lemma fs_remove_dir_all_inv path s r s' :
  fs_remove_dir_all path s = (r, s') →
  io_faults s' = io_faults s ∧
  match locate (io_fs s) path with
  | Ok place => removed_below place (io_fs s) (io_fs s') ∧
      match r with
      | Ok _ => node_of (io_fs s) place = Some Folder ∧ io_fs s' = without (io_fs s) place ∨
          (∃ target, node_of (io_fs s) place = Some (Link target)) ∧
          io_fs s' = delete place (io_fs s)
      | Err _ => True
      end
  | Err _ => io_fs s' = io_fs s ∧ is_ok r = false
  end.
Proof.
  unfold fs_remove_dir_all, call. destruct (io_faults s _) as [fault|].
  - intros [= <- <-]. split; [done|]. simpl. destruct (locate (io_fs s) path) as [place|]; [|done].
    split; [|done]. apply removed_filter. by left.
  - destruct (locate (io_fs s) path) as [place|]; cbn [res_bind]; [|by intros [= <- <-]].
    destruct (node_of (io_fs s) place) as [[| |target]|] eqn:Hnode; intros [= <- <-];
      (split; [done|]); simpl.
    + split; [|by left]. by apply removed_filter.
    + split; [|done]. intros p. by left.
    + split; [|right; split; [by exists target|done]]. intros p.
      destruct (decide (p = place)) as [->|Hp];
        [right; split; [done|apply lookup_delete_eq]|left; by rewrite lookup_delete_ne].
    + split; [|done]. intros p. by left.
Qed.

(** Appending a line. *)
Lemma fs_append_line_inv path line s r s' :
  fs_append_line path line s = (r, s') →
  io_faults s' = io_faults s ∧
  (io_fs s' = io_fs s ∧ is_ok r = false ∨
   ∃ place text, write_place MAX_LINKS (io_fs s) path = Ok place ∧
     io_fs s' = <[place := Document (text_of (node_of (io_fs s) place) ++ text)%string]> (io_fs s) ∧
     (is_ok r = true → text = (line ++ String "010" "")%string)).
Proof.
  unfold fs_append_line, call. destruct (io_faults s _) as [fault|].
  - intros [= <- <-]. split; [done|]. simpl.
    destruct (write_place MAX_LINKS (io_fs s) path) as [place|]; [|by left].
    destruct (fault_left fault place); [by left|right]. exists place, "".
    by rewrite string_app_nil_r.
  - destruct (write_place MAX_LINKS (io_fs s) path) as [place|]; intros [= <- <-];
      (split; [done|]); [right; by exists place, (line ++ String "010" "")%string|by left].
Qed.

(** Folders that were created are there. *)
Lemma create_from_resolves rest : ∀ fs resolved fs',
  node_of fs resolved = Some Folder → create_from fs resolved rest = Ok fs' →
  ∃ place, resolve_from MAX_LINKS fs' resolved rest = Ok place ∧ node_of fs' place = Some Folder.
Proof.
  induction rest as [|name rest IH]; intros fs resolved fs' Hfolder; simpl.
  { intros [= <-]. exists resolved. by rewrite resolve_nil. }
  assert (∀ fs0 place, fs0 ⊆ fs' → resolve_from MAX_LINKS fs0 resolved [name] = Ok place →
    resolve_from MAX_LINKS fs' resolved (name :: rest) = resolve_from MAX_LINKS fs' place rest)
    as Hgo.
  { intros fs0 place Hsub Hr. change (name :: rest) with ([name] ++ rest).
    by rewrite resolve_app, (resolve_weaken _ _ Hsub _ _ _ _ Hr). }
  assert (∀ fs0 place, node_of fs0 place = Some Folder →
    resolve_from MAX_LINKS fs0 resolved [name] = Ok place → create_from fs0 place rest = Ok fs' →
    ∃ place, resolve_from MAX_LINKS fs' resolved (name :: rest) = Ok place ∧
      node_of fs' place = Some Folder) as Hstep.
  { intros fs0 place Hp Hr Hc. destruct (IH _ _ _ Hp Hc) as (q & Hq & Hf). exists q.
    by rewrite (Hgo fs0 place (more_folders_subseteq _ _ (create_from_more _ _ _ _ Hc)) Hr). }
  destruct (node_of fs (path_join resolved name)) as [[| |target]|] eqn:Hn; [| done | |].
  - apply Hstep; [done|]. by rewrite resolve_cons, Hfolder, Hn, resolve_nil.
  - destruct (resolve_from MAX_LINKS fs resolved [name]) as [q|] eqn:Hq; [|done].
    case_bool_decide as Hqf; [|done]. by apply Hstep.
  - assert (node_of (<[path_join resolved name:=Folder]> fs) (path_join resolved name) =
      Some Folder) as Hnew
      by (rewrite node_of_insert by apply path_join_not_nil; by rewrite decide_True).
    apply Hstep; [done|]. rewrite resolve_cons, Hnew, resolve_nil.
    rewrite node_of_insert by apply path_join_not_nil. case_decide; [|by rewrite Hfolder].
    done.
Qed.
Lemma fs_create_dir_all_ok path s s' :
  fs_create_dir_all path s = (Ok tt, s') →
  ∃ place, resolve (io_fs s') path = Ok place ∧ node_of (io_fs s') place = Some Folder.
Proof.
  unfold fs_create_dir_all, call. destruct (io_faults s _); [done|].
  destruct (create_from (io_fs s) [] path) as [fs|] eqn:Hc; [|done]. intros [= <-].
  by apply create_from_resolves in Hc.
Qed.

(* ------------------------------------------------------------------ *)
(** ** What a computation has seen when it succeeds *)

(** It has changed no file, and what it returns is related to the files. *)
Definition sees {E A : Type} (a : IO E A) (P : FileSystem → A → Prop) : Prop :=
  ∀ s x s', a s = (Ok x, s') → io_fs s' = io_fs s ∧ P (io_fs s) x.
Lemma sees_ret {E A : Type} (x : A) : sees (io_ret x : IO E A) (λ _ y, y = x).
Proof. by intros s y s' [= <- <-]. Qed.
Lemma sees_of {E A : Type} (r : result A E) : sees (io_of r) (λ _ x, r = Ok x).
Proof. by intros s y s' [= -> <-]. Qed.
Lemma sees_bind {E A B : Type} (a : IO E A) (f : A → IO E B) P Q :
  sees a P → (∀ x, sees (f x) (Q x)) → sees (io_bind a f) (λ fs y, ∃ x, P fs x ∧ Q x fs y).
Proof.
  intros Ha Hf s y s' [(x & s1 & [Hfs HP]%Ha & [Hfs' HQ]%Hf)|(e & _ & ?)]%io_bind_inv; [|done].
  rewrite Hfs in Hfs', HQ. eauto.
Qed.
Lemma sees_map_err {E E' A : Type} (g : E → E') (a : IO E A) P :
  sees a P → sees (io_map_err g a) P.
Proof. intros Ha s x s' ([y|] & Hs & [= ->])%io_map_err_inv. by apply Ha. Qed.
Lemma sees_inspect {A : Type} (f : FileSystem → result A IoError) :
  sees (inspect f) (λ fs x, f fs = Ok x).
Proof.
  intros s x s' Hs. split; [by apply (looks_run _ _ _ _ (looks_inspect f)) in Hs as [? _]|].
  by apply inspect_ok in Hs.
Qed.
Lemma sees_exists {E} path :
  sees (path_exists path : IO E bool) (λ fs found, found = true → is_ok (resolve fs path) = true).
Proof.
  intros s x s' Hs.
  split; [by apply (looks_run _ _ _ _ (looks_exists path)) in Hs as [? _]|].
  unfold path_exists, io_bind, io_try in Hs.
  destruct (fs_canonicalize path s) as [[q|e] s1] eqn:Hc; injection Hs as <- _; [|done].
  apply inspect_ok in Hc. by rewrite Hc.
Qed.
Lemma sees_each {E A : Type} (f : A → IO E unit) P l :
  (∀ x, sees (f x) (λ fs _, P fs x)) → sees (io_each f l) (λ fs _, Forall (P fs) l).
Proof.
  intros Hf. induction l as [|x l IH]; [intros s u s' [= <- <-]; split; [done|constructor]|].
  cbn [io_each]. intros s u s' (Hfs & [] & Hx & Hl)%(sees_bind _ _ _ _ (Hf x) (λ _, IH)).
  split; [done|]. by constructor.
Qed.
Lemma sees_map {E A B : Type} (f : A → IO E B) P l :
  (∀ x, sees (f x) (λ fs y, P fs x y)) → sees (io_map f l) (λ fs ys, Forall2 (P fs) l ys).
Proof.
  intros Hf. induction l as [|x l IH]; [intros s u s' [= <- <-]; split; [done|constructor]|].
  cbn [io_map]. intros s u s' Hrun.
  destruct (sees_bind _ _ _ _ (Hf x) (λ y, sees_bind _ _ _ _ IH (λ ys, sees_ret (y :: ys)))
    s u s' Hrun) as (Hfs & y & Hy & ys & Hys & ->).
  split; [done|]. by constructor.
Qed.

Lemma elem_of_names_in `{DirOrder} fs folder name :
  name ∈ names_in fs folder ↔ is_Some (fs !! path_join folder name).
Proof.
  unfold names_in. rewrite dir_order_perm, list_elem_of_omap. split.
  - intros ([path node] & Hin%elem_of_map_to_list & Hname).
    destruct (path_file_name path) as [last|]; [|done]. case_bool_decide as Hp; [|done].
    injection Hname as ->. rewrite <- Hp. by exists node.
  - intros [node Hnode%elem_of_map_to_list]. exists (path_join folder name, node).
    split; [done|]. unfold path_file_name, path_join. rewrite last_snoc. by rewrite bool_decide_eq_true_2.
Qed.
Lemma names_in_NoDup `{DirOrder} fs folder : NoDup (names_in fs folder).
Proof.
  unfold names_in. rewrite dir_order_perm.
  apply (NoDup_fmap_1 (path_join folder)).
  assert (∀ l : list (Path * Node), NoDup l.*1 → NoDup (path_join folder <$> omap (λ '(path, _),
    match path_file_name path with
    | Some name => if bool_decide (path = path_join folder name) then Some name else None
    | None => None
    end) l)) as Hall; [|apply Hall, NoDup_fst_map_to_list].
  induction l as [|[path node] l IH]; [constructor|]. rewrite fmap_cons, NoDup_cons.
  intros [Hnin Hl]. cbn [omap list_omap]. destruct (path_file_name path) as [name|]; [|auto].
  case_bool_decide as Hp; [|auto]. rewrite fmap_cons, NoDup_cons. split; [|auto].
  intros (other & Heq & Hin)%list_elem_of_fmap. apply Hnin.
  apply list_elem_of_omap in Hin as ([path' node'] & Hin & Hsome).
  destruct (path_file_name path') as [name'|]; [|done]. case_bool_decide as Hp'; [|done].
  injection Hsome as ->. apply list_elem_of_fmap. exists (path', node'). split; [|done].
  simpl. congruence.
Qed.

(* ------------------------------------------------------------------ *)
(** ** Directories that stay *)

(** A path leads to a directory. *)
Definition dir_at (fs : FileSystem) (path place : Path) : Prop :=
  resolve fs path = Ok place ∧ node_of fs place = Some Folder.
Lemma dir_at_weaken fs1 fs2 path place : fs1 ⊆ fs2 → dir_at fs1 path place → dir_at fs2 path place.
Proof.
  intros Hsub [Hplace Hnode].
  split; [exact (resolve_weaken _ _ Hsub _ _ _ _ Hplace)|by eapply node_of_weaken].
Qed.
(** What keeps every directory where it is. *)
Definition keeps_dirs (fs fs' : FileSystem) : Prop :=
  (∀ path place, dir_at fs path place → dir_at fs' path place) ∧
  (∀ path, fs !! path = Some Folder → fs' !! path = Some Folder).
#[export] Instance keeps_dirs_preorder : PreOrder keeps_dirs.
Proof.
  split; [by intros fs|]. intros fs1 fs2 fs3 [H1' H1f] [H2' H2f]. split; [|auto].
  intros path place ?. auto.
Qed.
Lemma keeps_more fs fs' : fs ⊆ fs' → keeps_dirs fs fs'.
Proof.
  intros Hsub. split; [intros path place; by apply dir_at_weaken|].
  intros path Hnode. by apply (lookup_weaken _ _ _ _ Hnode).
Qed.
Lemma keeps_written fs links log place text :
  write_place links fs log = Ok place → keeps_dirs fs (<[place := Document text]> fs).
Proof.
  intros Hwrite. destruct (write_place_resolves text _ _ _ _ Hwrite) as (Hne & Hplain & _). split.
  - intros path q [Hq Hnode]. split; [by apply resolve_insert|]. rewrite node_of_insert by done.
    rewrite decide_False; [done|]. intros ->. by rewrite Hnode in Hplain.
  - intros path Hnode. rewrite lookup_insert_ne; [done|]. intros <-.
    unfold node_of in Hplain. destruct place; [done|]. by rewrite Hnode in Hplain.
Qed.
Lemma keeps_create_dir path : changes keeps_dirs (fs_create_dir_all path).
Proof.
  intros s. destruct (fs_create_dir_all path s) as [r s'] eqn:Hrun.
  apply fs_create_dir_all_inv in Hrun as [_ Hmore%more_folders_subseteq]. by apply keeps_more.
Qed.
Lemma keeps_write path text : changes keeps_dirs (fs_write path text).
Proof.
  intros s. destruct (fs_write path text s) as [r s'] eqn:Hrun.
  apply fs_write_inv in Hrun as [_ Hrun]. simpl.
  destruct r as [u|e]; [|destruct Hrun as [->|Hrun]; [done|]];
    destruct Hrun as (place & Hplace & ->); by eapply keeps_written.
Qed.
Lemma keeps_append path line : changes keeps_dirs (fs_append_line path line).
Proof.
  intros s. destruct (fs_append_line path line s) as [r s'] eqn:Hrun. cbn [snd].
  apply fs_append_line_inv in Hrun as [_ [[-> _]|(place & text & Hplace & -> & _)]]; [done|].
  by eapply keeps_written.
Qed.
(** A directory that is removed is gone. *)
Lemma removed_dir_gone fs fs' path name place :
  locate fs (path_join path name) = Ok place → fs' ⊆ fs → node_of fs' place = None →
  is_ok (resolve fs' (path_join path name)) = false.
Proof.
  intros Hplace Hsub Hnone.
  destruct (locate fs' (path_join path name)) as [place'|e] eqn:Hloc.
  - pose proof (locate_weaken _ _ _ _ Hsub Hloc) as Hloc'. rewrite Hplace in Hloc'.
    injection Hloc' as <-. by rewrite (resolve_located _ _ _ _ Hloc), Hnone.
  - rewrite locate_join in Hloc. unfold resolve in *. rewrite resolve_join.
    destruct (resolve_from MAX_LINKS fs' [] path) as [folder|]; [|done]. cbn [res_bind] in *.
    case_bool_decide as Hfolder; [done|]. rewrite resolve_cons.
    by destruct (node_of fs' folder) as [[]|].
Qed.
Lemma dir_at_located fs path name q :
  dir_at fs (path_join path name) q → ∃ place, locate fs (path_join path name) = Ok place ∧
    (node_of fs place = Some Folder ∧ q = place ∨ ∃ target, node_of fs place = Some (Link target)).
Proof.
  intros (Hq & Hnode). destruct (locate fs (path_join path name)) as [place|e] eqn:Hloc.
  - exists place. split; [done|]. rewrite (resolve_located _ _ _ _ Hloc) in Hq.
    destruct (node_of fs place) as [[]|] eqn:Hp; simplify_eq; eauto.
  - rewrite locate_join in Hloc. unfold resolve in *. rewrite resolve_join in Hq.
    destruct (resolve_from MAX_LINKS fs [] path) as [folder|]; [|done]. cbn [res_bind] in *.
    case_bool_decide as Hfolder; [done|]. rewrite resolve_cons in Hq.
    by destruct (node_of fs folder) as [[]|].
Qed.
(** A directory, or the link to one, is removed. *)
Lemma remove_dir_all_gone path name q s :
  calm s → dir_at (io_fs s) (path_join path name) q →
  ∃ s', fs_remove_dir_all (path_join path name) s = (Ok tt, s') ∧
    is_ok (resolve (io_fs s') (path_join path name)) = false ∧
    ∃ place, locate (io_fs s) (path_join path name) = Ok place ∧
      removed_below place (io_fs s) (io_fs s') ∧
      (node_of (io_fs s) place = Some Folder →
       ∀ path, place `prefix_of` path → io_fs s' !! path = None).
Proof.
  intros Hs (place & Hplace & Hnode)%dir_at_located.
  destruct (fs_remove_dir_all (path_join path name) s) as [r s'] eqn:Hrun.
  pose proof Hrun as Hrun'. apply fs_remove_dir_all_inv in Hrun' as [_ Hrem].
  rewrite Hplace in Hrem. destruct Hrem as [Hbelow Hr].
  assert (r = Ok tt) as ->.
  { unfold fs_remove_dir_all, call in Hrun. rewrite Hs, Hplace in Hrun. cbn [res_bind] in Hrun.
    destruct Hnode as [[Hn _]|(target & Hn)]; rewrite Hn in Hrun; by injection Hrun. }
  assert (place ≠ []) as Hne.
  { rewrite locate_join in Hplace. apply res_bind_ok in Hplace as (folder & _ & Hplace).
    case_bool_decide; [|done]. injection Hplace as <-. apply path_join_not_nil. }
  assert (io_fs s' !! place = None) as Hnone.
  { destruct Hr as [[_ ->]|[_ ->]]; [|apply lookup_delete_eq].
    apply map_lookup_filter_None. right. intros node _ Hnot. by apply Hnot. }
  exists s'. split; [done|]. split.
  - eapply removed_dir_gone; [exact Hplace|by eapply removed_subseteq|].
    unfold node_of. by destruct place.
  - exists place. split_and!; [done..|]. intros Hfolder p Hp.
    destruct Hr as [[_ ->]|[(target & Hlink) _]]; [|congruence].
    apply map_lookup_filter_None. right. intros node _ Hnot. by apply Hnot.
Qed.

Lemma keeps_deleted fs place :
  place ≠ [] → is_plain (node_of fs place) → keeps_dirs fs (delete place fs).
Proof.
  intros Hne Hplain. split.
  - intros path q [Hq Hnode]. split; [by apply resolve_delete|].
    destruct (decide (q = place)) as [->|Hqp]; [by rewrite Hnode in Hplain|].
    destruct q; [done|]. cbn [node_of] in *. by rewrite lookup_delete_ne.
  - intros path Hnode. rewrite lookup_delete_ne; [done|]. intros <-.
    unfold node_of in Hplain. destruct place; [done|]. by rewrite Hnode in Hplain.
Qed.

(* ------------------------------------------------------------------ *)
(** ** Documents that stay where they are *)

(** The path names a document, itself not a link, at the place. *)
Definition doc_at (fs : FileSystem) (path place : Path) : Prop :=
  ∃ parent name folder text, path = path_join parent name ∧ dir_at fs parent folder ∧
    place = path_join folder name ∧ fs !! place = Some (Document text).
Lemma doc_at_inj fs path place1 place2 :
  doc_at fs path place1 → doc_at fs path place2 → place1 = place2.
Proof.
  intros (p1 & n1 & f1 & t1 & -> & [Hd1 _] & -> & _) (p2 & n2 & f2 & t2 & Heq & [Hd2 _] & -> & _).
  apply app_inj_tail in Heq as [<- <-]. congruence.
Qed.
Lemma doc_at_keeps fs fs' path place : keeps_dirs fs fs' →
  (∃ text, fs' !! place = Some (Document text)) → doc_at fs path place → doc_at fs' path place.
Proof.
  intros [Hkeep _] [text' Hdoc] (parent & name & folder & text & -> & Hdir & -> & _).
  exists parent, name, folder, text'. auto.
Qed.
Lemma doc_at_locate fs path place : doc_at fs path place →
  locate fs path = Ok place ∧ place ≠ [] ∧ ∃ text, node_of fs place = Some (Document text).
Proof.
  intros (parent & name & folder & text & -> & [Hres Hnode] & -> & Hdoc).
  rewrite locate_join, Hres. cbn [res_bind]. rewrite bool_decide_eq_true_2 by done.
  split; [done|]. split; [apply path_join_not_nil|]. exists text. by rewrite node_of_join.
Qed.

(** Creating a new document. *)
Lemma fs_create_new_inv path s r s' : fs_create_new path s = (r, s') →
  match r with
  | Ok _ => ∃ place, io_fs s !! place = None ∧ place ≠ [] ∧
      io_fs s' = <[place := Document ""]> (io_fs s) ∧
      keeps_dirs (io_fs s) (io_fs s') ∧ doc_at (io_fs s') path place
  | Err _ => io_fs s' = io_fs s
  end.
Proof.
  unfold fs_create_new, call. destruct (io_faults s _); [by intros [= <- <-]|].
  destruct (locate (io_fs s) path) as [place|] eqn:Hplace; cbn [res_bind]; [|by intros [= <- <-]].
  destruct (node_of (io_fs s) place) eqn:Hnode; intros [= <- <-]; [done|]. simpl.
  assert (place ≠ []) as Hne by (by intros ->).
  assert (io_fs s !! place = None) as Hnone by (destruct place; [done|exact Hnode]).
  assert (keeps_dirs (io_fs s) (<[place:=Document ""]> (io_fs s))) as Hkeeps.
  { split.
    - intros p q [Hq Hn]. split; [apply resolve_insert; [done|by rewrite Hnode|done|done]|].
      rewrite node_of_insert, decide_False by (done || intros ->; congruence). done.
    - intros p Hp. rewrite lookup_insert_ne; [done|]. intros <-. congruence. }
  exists place. split_and!; [done..|].
  apply locate_from_inv in Hplace as [[_ ?]|(dir & name & folder & -> & Hdir & Hfolder & ->)]; [done|].
  exists dir, name, folder, "". rewrite lookup_insert_eq. split_and!; [done| |done..].
  by apply Hkeeps.
Qed.
(** Removing a document. *)
Lemma fs_remove_file_inv path place s r s' :
  doc_at (io_fs s) path place → fs_remove_file path s = (r, s') →
  keeps_dirs (io_fs s) (io_fs s') ∧
  (io_fs s' = io_fs s ∨ io_fs s' = delete place (io_fs s)).
Proof.
  intros (Hplace & Hne & text & Hnode)%doc_at_locate. unfold fs_remove_file, call.
  destruct (io_faults s _); [intros [= <- <-]; split; [done|by left]|].
  cbv beta. rewrite Hplace. cbn [res_bind]. rewrite Hnode. intros [= <- <-]. simpl.
  split; [|by right]. apply keeps_deleted; [done|by rewrite Hnode].
Qed.
(** Documents that stay documents. *)
Definition keeps_docs (fs fs' : FileSystem) : Prop :=
  keeps_dirs fs fs' ∧ ∀ place text, fs !! place = Some (Document text) →
    ∃ text', fs' !! place = Some (Document text').
#[export] Instance keeps_docs_preorder : PreOrder keeps_docs.
Proof.
  split; [intros fs; split; [done|eauto]|]. intros fs1 fs2 fs3 [H1 D1] [H2 D2].
  split; [by etransitivity|]. intros place text (text' & Ht)%D1. by apply D2 in Ht.
Qed.
Lemma keeps_docs_doc_at fs fs' path place : keeps_docs fs fs' → doc_at fs path place → doc_at fs' path place.
Proof.
  intros [Hkeep Hdocs] Hdoc. apply (doc_at_keeps fs); [done| |done].
  destruct Hdoc as (? & ? & ? & text & _ & _ & _ & Ht). by apply Hdocs in Ht.
Qed.
Lemma create_dir_keeps_docs path : changes keeps_docs (fs_create_dir_all path).
Proof.
  intros s. destruct (fs_create_dir_all path s) as [r s'] eqn:Hrun.
  apply fs_create_dir_all_inv in Hrun as [_ Hmore%more_folders_subseteq].
  split; [by apply keeps_more|]. intros place text Ht. exists text. simpl.
  by apply (lookup_weaken _ _ _ _ Ht).
Qed.
Lemma write_keeps_docs path text : changes keeps_docs (fs_write path text).
Proof.
  intros s. split; [apply keeps_write|]. intros place text' Ht.
  destruct (fs_write path text s) as [r s'] eqn:Hrun. cbn [snd].
  apply fs_write_inv in Hrun as [_ Hrun].
  assert (∀ q new, io_fs s' = <[q := Document new]> (io_fs s) →
    ∃ t, io_fs s' !! place = Some (Document t)) as Hins.
  { intros q new ->. destruct (decide (place = q)) as [->|Hp]; [rewrite lookup_insert_eq; eauto|].
    rewrite lookup_insert_ne by done. eauto. }
  destruct r; [|destruct Hrun as [->|Hrun]; [by exists text'|]]; destruct Hrun as (q & _ & Hq); eauto.
Qed.

(** On a machine without faults, what is there already is not created again. *)
Lemma create_from_existing fs rest : ∀ resolved q,
  resolve_from MAX_LINKS fs resolved rest = Ok q → node_of fs q = Some Folder →
  create_from fs resolved rest = Ok fs.
Proof.
  induction rest as [|name rest IH]; intros resolved q; [done|].
  change (name :: rest) with ([name] ++ rest) at 1. rewrite resolve_app. intros Hres Hq.
  destruct (resolve_from MAX_LINKS fs resolved [name]) as [next|] eqn:Hnext; [|done].
  cbn [res_bind] in Hres.
  assert (node_of fs next = Some Folder) as Hfolder.
  { destruct rest as [|name' rest]; [rewrite resolve_nil in Hres; congruence|].
    rewrite resolve_cons in Hres. by destruct (node_of fs next) as [[]|]. }
  cbn [create_from]. pose proof Hnext as Hn. rewrite resolve_cons in Hn.
  destruct (node_of fs resolved) as [[]|]; try done.
  destruct (node_of fs (path_join resolved name)) as [[| |target]|] eqn:Hnode; [| | |done].
  - rewrite resolve_nil in Hn. injection Hn as <-. by apply (IH _ q).
  - rewrite resolve_nil in Hn. injection Hn as <-. congruence.
  - rewrite Hnext, bool_decide_eq_true_2 by done. by apply (IH _ q).
Qed.
Lemma create_existing path place s : calm s → dir_at (io_fs s) path place →
  fs_create_dir_all path s = (Ok tt, called s (io_fs s)).
Proof.
  intros Hs [Hres Hnode]. unfold fs_create_dir_all, call. rewrite Hs.
  by rewrite (create_from_existing _ _ _ _ Hres Hnode).
Qed.
(** A document is written where it is. *)
Lemma write_at path place text s : calm s → doc_at (io_fs s) path place →
  fs_write path text s = (Ok tt, called s (<[place := Document text]> (io_fs s))).
Proof.
  intros Hs (Hplace & Hne & old & Hnode)%doc_at_locate. unfold fs_write, call. rewrite Hs.
  assert (write_place MAX_LINKS (io_fs s) path = Ok place) as ->; [|done].
  unfold locate in Hplace. destruct MAX_LINKS; cbn [write_place]; rewrite Hplace;
    cbn [res_bind]; by rewrite Hnode.
Qed.
Lemma doc_at_inserted fs parent folder name text :
  dir_at fs parent folder → is_plain (node_of fs (path_join folder name)) →
  doc_at (<[path_join folder name := Document text]> fs) (path_join parent name)
    (path_join folder name).
Proof.
  intros [Hres Hn] Hplain. pose proof (path_join_not_nil folder name) as Hne.
  exists parent, name, folder, text. rewrite lookup_insert_eq. split_and!; [done| |done|done].
  split; [by apply resolve_insert|]. rewrite node_of_insert, decide_False; [done| |done].
  intros Heq. by rewrite <- Heq, Hn in Hplain.
Qed.
Lemma create_new_at s parent folder name : calm s → dir_at (io_fs s) parent folder →
  fs_create_new (path_join parent name) s =
  match io_fs s !! path_join folder name with
  | Some _ => (Err IoAlreadyExists, called s (io_fs s))
  | None => (Ok tt, called s (<[path_join folder name := Document ""]> (io_fs s)))
  end.
Proof.
  intros Hs [Hres Hn]. unfold fs_create_new, call. rewrite Hs, locate_join, Hres. cbn [res_bind].
  rewrite bool_decide_eq_true_2 by done. cbn [res_bind]. rewrite node_of_join.
  by destruct (io_fs s !! path_join folder name).
Qed.
