(* ===== verification/PortablePreferences.v ===== *)
(** * Preferences of the portable profile ([storage/src/portable_preferences.rs])

    A store of UI preferences in a file under the portable root: which keys and values are
    accepted, loading, setting, removing and saving.

    [serde_json] is the class [JsonText], its numbers as [f64] the class [JsonNumber];
    [f64] is [spec_float] with 53 bits. Prefix: [pps_] store. *)

From S2P Require Import Prelude Collections RustStr RustText Effects Contracts Checks Json FileSystem.
From Stdlib Require Import SpecFloat.

#[local] Open Scope string_scope.
#[local] Open Scope list_scope.
#[local] Open Scope N_scope.

(** [serde_json::from_str], [to_string] and [to_string_pretty] of a value. *)
Class JsonText := {
  json_parse : string → result JsonTree string;
  json_to_text : JsonTree → string;
  json_to_text_pretty : JsonTree → string
}.
(** [Number::as_f64] *)
Class JsonNumber := { number_as_f64 : string → option spec_float }.

(** [type PortablePreferences = BTreeMap<String, Value>] *)
Abbreviation PortablePreferences := (gmap string JsonTree).

(* ------------------------------------------------------------------ *)
(** ** Constants and errors *)

(* [portable_preferences.rs:7-7] PORTABLE_DATA_DIR_NAME *)
Definition PORTABLE_DATA_DIR_NAME : string := "data".
(* [portable_preferences.rs:8-8] PORTABLE_PREFERENCES_DIR_NAME *)
Definition PORTABLE_PREFERENCES_DIR_NAME : string := "preferences".
(* [portable_preferences.rs:9-9] PORTABLE_UI_PREFERENCES_FILE_NAME *)
Definition PORTABLE_UI_PREFERENCES_FILE_NAME : string := "ui_preferences.json".
(* [portable_preferences.rs] ALLOWED_PORTABLE_PREFERENCE_KEYS *)
Definition ALLOWED_PORTABLE_PREFERENCE_KEYS : list string :=
  ["theme"; "layout"; "pane_sizes"; "last_route"; "column_widths"; "reduced_motion";
   "graph_viewport_defaults"].
(* [portable_preferences.rs:21-75] FORBIDDEN_PORTABLE_PREFERENCE_KEYS *)
Definition FORBIDDEN_PORTABLE_PREFERENCE_KEYS : list string :=
  ["findings"; "alerts"; "incidents"; "evidence"; "evidence_bundles"; "graph_data";
   "graph_nodes"; "graph_edges"; "graph_paths"; "graph_snapshots"; "response_plans";
   "response_results"; "rollback_state"; "report_drafts"; "report_sections";
   "export_history"; "raw_packets"; "payloads"; "http_bodies"; "cookies"; "tokens";
   "credentials"; "api_keys"; "process_snapshots"; "connection_snapshots";
   "flow_attribution"; "intelligence_packs"; "ioc_lists"; "allowlists"; "blocklists";
   "network_metadata"; "dns_observations"; "tls_observations"; "http_metadata";
   "runtime_profiles"; "privacy_policies"; "response_policies"; "session_state";
   "stream_state"; "checkpoint_cursors"; "settings_change_history"; "audit_records";
   "raw_packet"; "payload"; "http_body"; "cookie"; "token"; "credential"; "api_key";
   "private_key"; "hostname"; "machine_guid"; "mac_address"].

(* [portable_preferences.rs] PreferenceError *)
Inductive PreferenceError :=
  | PreferenceRejected (reason : string)
  | PreferenceIo (reason : string)
  | PreferenceSerialization (reason : string).
(* [portable_preferences.rs] PreferenceError::reason *)
Definition preference_reason (self : PreferenceError) : string :=
  match self with
  | PreferenceRejected reason | PreferenceIo reason | PreferenceSerialization reason => reason
  end.
(* [portable_preferences.rs] Display for PreferenceError::fmt *)
Definition preference_error_to_string (self : PreferenceError) : string :=
  match self with
  | PreferenceRejected reason => "portable preference rejected: " ++ reason
  | PreferenceIo reason => "portable preference io error: " ++ reason
  | PreferenceSerialization reason => "portable preference serialization error: " ++ reason
  end%string.
Definition rejected_if (cond : bool) (reason : string) : result unit PreferenceError :=
  refuse_if cond (PreferenceRejected reason).

(* ------------------------------------------------------------------ *)
(** ** Texts that look like security data *)


(** Bytes outside ASCII are never kept, so bytes are as good as characters. *)
(* [portable_preferences.rs] tokens *)
Definition tokens (value : string) (keep : ascii → bool) : list string :=
  List.filter (λ token, negb (bool_decide (token = ""))) (split (λ c, negb (keep c)) value).

(* [portable_preferences.rs] contains_forbidden_marker *)
Definition contains_forbidden_marker (value : string) : bool :=
  existsb (contains (to_ascii_lowercase value)) FORBIDDEN_PORTABLE_PREFERENCE_KEYS.
Definition ipv4_part (part : string) : bool :=
  negb (bool_decide (part = "")) && (str_len part <=? 3) && all_chars is_ascii_digit part &&
  bool_decide (is_Some (parse_uint 255 part)).
Definition ipv4_text (token : string) : bool :=
  let parts := split is_dot token in
  (len parts =? 4) && forallb ipv4_part parts.
(* [portable_preferences.rs] looks_like_ipv4 *)
Definition looks_like_ipv4 (value : string) : bool :=
  existsb ipv4_text (tokens value (λ c, is_ascii_digit c || is_dot c)).
(* [portable_preferences.rs] looks_like_domain *)
Definition looks_like_domain (value : string) : bool :=
  existsb (λ token,
    let parts := split is_dot token in
    (str_len token <=? 253) && any_char is_dot token && any_char is_ascii_alphabetic token &&
    forallb (λ part, negb (bool_decide (part = "")) && (str_len part <=? 63)) parts &&
    match last parts with
    | Some tld => (2 <=? str_len tld) && all_chars is_ascii_alphabetic tld
    | None => false
    end)
    (tokens value (λ c, is_ascii_alphanumeric c || one_of ["."; "-"]%char c)).
(* [portable_preferences.rs] contains_windows_drive_path *)
Fixpoint contains_windows_drive_path (value : string) : bool :=
  match value with
  | String a rest =>
      match rest with
      | String b (String c _) =>
          (is_ascii_alphabetic a && Ascii.eqb b ":" && one_of ["\"; "/"]%char c) ||
          contains_windows_drive_path rest
      | _ => false
      end
  | "" => false
  end.
(* [portable_preferences.rs] contains_hash_like_token *)
Definition contains_hash_like_token (value : string) : bool :=
  existsb (λ token, (32 <=? str_len token) && all_chars is_ascii_hexdigit token)
    (tokens value is_ascii_hexdigit).
Definition is_base64_char (c : ascii) : bool :=
  is_ascii_alphanumeric c || one_of ["+"; "/"; "="; "_"; "-"]%char c.
(* [portable_preferences.rs] contains_base64_like_token *)
Definition contains_base64_like_token (value : string) : bool :=
  existsb (λ token,
    (32 <? str_len token) && all_chars is_base64_char token && any_char is_ascii_uppercase token &&
    any_char is_ascii_lowercase token && any_char is_ascii_digit token)
    (tokens value is_base64_char).
(* [portable_preferences.rs] value_contains_potential_security_data *)
Definition contains_potential_security_data (value : string) : bool :=
  contains_forbidden_marker value || looks_like_ipv4 value || looks_like_domain value ||
  contains_windows_drive_path value || contains_hash_like_token value ||
  contains_base64_like_token value.
(* [portable_preferences.rs] value_contains_potential_security_data_value *)
Fixpoint value_contains_potential_security_data (value : JsonTree) : bool :=
  match value with
  | JString value => contains_potential_security_data value
  | JArray values =>
      (fix go values :=
        match values with
        | [] => false
        | value :: values => value_contains_potential_security_data value || go values
        end) values
  | JObject fields =>
      (fix go fields :=
        match fields with
        | [] => false
        | (key, value) :: fields =>
            (contains_potential_security_data key || value_contains_potential_security_data value)
            || go fields
        end) fields
  | _ => false
  end.

(* ------------------------------------------------------------------ *)
(** ** Numbers *)

Definition f64 : Type := spec_float.
(** The doubles next to the literals: 1.0, 2.0, 0.02, 100.0, 0.1, 4.0, 64.0, 1200.0, 10000.0. *)
Definition f64_1 : f64 := S754_finite false 4503599627370496 (-52).
Definition f64_2 : f64 := S754_finite false 4503599627370496 (-51).
Definition f64_002 : f64 := S754_finite false 5764607523034235 (-58).
Definition f64_100 : f64 := S754_finite false 7036874417766400 (-46).
Definition f64_01 : f64 := S754_finite false 7205759403792794 (-56).
Definition f64_4 : f64 := S754_finite false 4503599627370496 (-50).
Definition f64_64 : f64 := S754_finite false 4503599627370496 (-46).
Definition f64_1200 : f64 := S754_finite false 5277655813324800 (-42).
Definition f64_10000 : f64 := S754_finite false 5497558138880000 (-39).
Definition f64_add : f64 → f64 → f64 := SFadd 53 1024.
Definition f64_sub : f64 → f64 → f64 := SFsub 53 1024.
Definition is_finite (x : f64) : bool :=
  match x with S754_zero _ | S754_finite _ _ _ => true | _ => false end.

(* [portable_preferences.rs] approximately *)
Definition approximately (value target tolerance : f64) : bool :=
  SFleb (SFabs (f64_sub value target)) tolerance.

Section validation.
Context `{JsonText} `{JsonNumber}.

Definition as_f64 (value : JsonTree) : option f64 :=
  match value with JNumber text => number_as_f64 text | _ => None end.

(* [portable_preferences.rs] validate_theme *)
Definition validate_theme (value : JsonTree) : result unit PreferenceError :=
  rejected_if (negb (match json_text value with
                     | Some text => bool_decide (text ∈ ["dark"; "light"; "system"; "deep-dark"])
                     | None => false
                     end)) "theme value is invalid".
(* [portable_preferences.rs] validate_boolean *)
Definition validate_boolean (key : string) (value : JsonTree) : result unit PreferenceError :=
  match value with
  | JBool _ => Ok tt
  | _ => Err (PreferenceRejected (key ++ " must be boolean")%string)
  end.

(** The values of an object, and inside arrays. *)
(* [portable_preferences.rs:443-478] validate_json_value_shape *)
Fixpoint validate_json_entry (value : JsonTree) : result unit PreferenceError :=
  match value with
  | JNull | JBool _ => Ok tt
  | JNumber text =>
      match number_as_f64 text with
      | None => Err (PreferenceRejected "number is invalid")
      | Some number => rejected_if (negb (is_finite number) || SFltb f64_10000 (SFabs number))
                         "number is out of range"
      end
  | JString value => rejected_if (256 <? str_len value) "string value is too long"
  | JArray values =>
      let? _ := rejected_if (32 <? len values) "array value is too large" in
      (fix go values :=
        match values with
        | [] => Ok tt
        | value :: values => let? _ := validate_json_leaf value in go values
        end) values
  | JObject child =>
      (fix go fields :=
        match fields with
        | [] => Ok tt
        | (key, value) :: fields =>
            let? _ := rejected_if (contains_forbidden_marker key)
              "value contains potential security data" in
            let? _ := validate_json_entry value in
            go fields
        end) child
  end
with validate_json_leaf (value : JsonTree) : result unit PreferenceError :=
  match value with
  | JNull | JBool _ | JNumber _ | JString _ => Ok tt
  | JArray values =>
      (fix go values :=
        match values with
        | [] => Ok tt
        | value :: values => let? _ := validate_json_leaf value in go values
        end) values
  | JObject child =>
      (fix go fields :=
        match fields with
        | [] => Ok tt
        | (key, value) :: fields =>
            let? _ := rejected_if (contains_forbidden_marker key)
              "value contains potential security data" in
            let? _ := validate_json_entry value in
            go fields
        end) child
  end.
(* [portable_preferences.rs] validate_json_value_shape *)
Definition validate_json_value_shape (object : list (string * JsonTree))
    : result unit PreferenceError := validate_json_entry (JObject object).
(* [portable_preferences.rs] validate_object_like *)
Definition validate_object_like (key : string) (value : JsonTree) : result unit PreferenceError :=
  match value with
  | JObject object =>
      let? _ := rejected_if (4096 <? str_len (json_to_text value)) (key ++ " is too large")%string in
      validate_json_value_shape object
  | _ => Err (PreferenceRejected (key ++ " must be object")%string)
  end.

(* [portable_preferences.rs] validate_numeric_group_sum *)
Definition validate_numeric_group_sum (object : list (string * JsonTree))
    : result unit PreferenceError :=
  let? _ := rejected_if (bool_decide (object.*1 = [])) "pane_sizes group must not be empty" in
  let positive value :=
    match as_f64 value with
    | Some number => if negb (is_finite number) || SFleb number (S754_zero false)
                     then Err (PreferenceRejected "pane_sizes values must be positive numbers")
                     else Ok number
    | None => Err (PreferenceRejected "pane_sizes values must be positive numbers")
    end in
  let? numbers := try_map (λ entry, positive entry.2) object in
  let sum := foldl f64_add (S754_zero false) numbers in
  rejected_if (negb (approximately sum f64_1 f64_002 || approximately sum f64_100 f64_2))
    "pane_sizes values must sum to approximately 1.0 or 100".
(* [portable_preferences.rs] validate_pane_sizes *)
Definition validate_pane_sizes (value : JsonTree) : result unit PreferenceError :=
  match value with
  | JObject object =>
      let? _ := rejected_if (bool_decide (object.*1 = [])) "pane_sizes must not be empty" in
      if forallb (λ entry, match entry.2 with JNumber _ => true | _ => false end) object
      then validate_numeric_group_sum object
      else for_each (λ entry,
        match entry.2 with
        | JObject group => validate_numeric_group_sum group
        | _ => Err (PreferenceRejected "pane_sizes groups must contain numeric objects")
        end) object
  | _ => Err (PreferenceRejected "pane_sizes must be object")
  end.

(* [portable_preferences.rs] validate_last_route *)
Definition validate_last_route (value : JsonTree) : result unit PreferenceError :=
  match json_text value with
  | None => Err (PreferenceRejected "last_route must be string")
  | Some route =>
      rejected_if
        (bool_decide (route = "") || (160 <? str_len route) || negb (String.prefix "/" route) ||
         contains route ".." ||
         negb (all_chars (λ c, is_ascii_alphanumeric c || one_of ["/"; "-"; "_"]%char c) route))
        "last_route is not a safe app route"
  end.

(** The numbers in an object and in the objects in it. *)
(* [portable_preferences.rs] validate_positive_number_leaves *)
Fixpoint number_leaves (context : string) (low high : f64) (value : JsonTree)
    : result unit PreferenceError :=
  match value with
  | JNumber text =>
      let number := default S754_nan (number_as_f64 text) in
      rejected_if (negb (is_finite number) || SFltb number low || SFltb high number)
        (context ++ " values must be positive numbers")%string
  | JObject child =>
      (fix go fields :=
        match fields with
        | [] => Ok tt
        | (key, value) :: fields =>
            let? _ := rejected_if (contains_forbidden_marker key)
              "value contains potential security data" in
            let? _ := number_leaves context low high value in
            go fields
        end) child
  | _ => Err (PreferenceRejected (context ++ " values must be positive numbers")%string)
  end.
(* [portable_preferences.rs] validate_column_widths *)
Definition validate_column_widths (value : JsonTree) : result unit PreferenceError :=
  match value with
  | JObject _ => number_leaves "column_widths" f64_64 f64_1200 value
  | _ => Err (PreferenceRejected "column_widths must be object")
  end.

(* [portable_preferences.rs:407-439] validate_graph_viewport_defaults *)
Definition viewport_entry (entry : string * JsonTree) : result unit PreferenceError :=
  let '(key, value) := entry in
  match value with
  | JNumber text =>
      if bool_decide (key = "zoom") then
        let zoom := default (S754_zero false) (number_as_f64 text) in
        rejected_if (negb (SFleb f64_01 zoom && SFleb zoom f64_4))
          "graph_viewport_defaults zoom is out of range"
      else if bool_decide (key = "x" ∨ key = "y") then
        let offset := default S754_nan (number_as_f64 text) in
        rejected_if (negb (is_finite offset) || SFltb f64_10000 (SFabs offset))
          "graph_viewport_defaults offset is out of range"
      else Ok tt
  | JString layout =>
      rejected_if (bool_decide (key = "layout") &&
                   negb (bool_decide (layout ∈ ["force"; "grid"; "dagre"; "radial"])))
        "graph_viewport_defaults layout is invalid"
  | JBool _ => Ok tt
  | _ => Err (PreferenceRejected "graph_viewport_defaults contains unsupported value")
  end.
(* [portable_preferences.rs] validate_graph_viewport_defaults *)
Definition validate_graph_viewport_defaults (value : JsonTree) : result unit PreferenceError :=
  match value with
  | JObject object =>
      let? _ := rejected_if (2048 <? str_len (json_to_text value))
        "graph_viewport_defaults is too large" in
      for_each viewport_entry object
  | _ => Err (PreferenceRejected "graph_viewport_defaults must be object")
  end.
End validation.

(* ------------------------------------------------------------------ *)
(** ** The validator *)

Section store.
Context `{JsonText} `{JsonNumber} `{IoText}.

Definition not_whitelisted : PreferenceError :=
  PreferenceRejected "key not in allowed portable preference whitelist".
(* [portable_preferences.rs] PortablePreferenceValidator::validate_key *)
Definition preference_validate_key (key : string) : result unit PreferenceError :=
  let? _ := refuse_if (blank key || (96 <? str_len key)) not_whitelisted in
  refuse_if (negb (bool_decide (key ∈ ALLOWED_PORTABLE_PREFERENCE_KEYS)) ||
             contains_forbidden_marker key) not_whitelisted.
(* [portable_preferences.rs] PortablePreferenceValidator::validate_key_value *)
Definition preference_validate (key : string) (value : JsonTree) : result unit PreferenceError :=
  let? _ := preference_validate_key key in
  let? _ := rejected_if
    (contains_potential_security_data key || value_contains_potential_security_data value)
    "value contains potential security data" in
  if bool_decide (key = "theme") then validate_theme value
  else if bool_decide (key = "layout") then validate_object_like key value
  else if bool_decide (key = "pane_sizes") then validate_pane_sizes value
  else if bool_decide (key = "last_route") then validate_last_route value
  else if bool_decide (key = "column_widths") then validate_column_widths value
  else if bool_decide (key = "reduced_motion") then validate_boolean key value
  else if bool_decide (key = "graph_viewport_defaults")
  then validate_graph_viewport_defaults value
  else Err not_whitelisted.

(* ------------------------------------------------------------------ *)
(** ** The store *)

(* [portable_preferences.rs] PortablePreferenceStore *)
Record PortablePreferenceStore := mkPreferenceStore {
  pps_portable_root : Path;
  pps_preferences_path : Path;
  pps_preferences : PortablePreferences
}.
Definition with_preferences (self : PortablePreferenceStore) (preferences : PortablePreferences)
    : PortablePreferenceStore :=
  mkPreferenceStore (pps_portable_root self) (pps_preferences_path self) preferences.
Definition preferences_folder (portable_root : Path) : Path :=
  path_join (path_join portable_root PORTABLE_DATA_DIR_NAME) PORTABLE_PREFERENCES_DIR_NAME.
(* [portable_preferences.rs] PortablePreferenceStore::new *)
Definition preference_store_new (portable_root : Path) : PortablePreferenceStore :=
  mkPreferenceStore portable_root
    (path_join (preferences_folder portable_root) PORTABLE_UI_PREFERENCES_FILE_NAME) ∅.

(** [From<std::io::Error> for PreferenceError] *)
Definition preference_io {A} (a : IO IoError A) : IO PreferenceError A :=
  io_map_err (λ error, PreferenceIo (io_error_to_string error)) a.

(** [content.trim_start_matches('\u{feff}')]: the bytes of a byte order mark. *)
Fixpoint trim_bom (content : string) : string :=
  match content with
  | String a (String b (String c rest)) =>
      if (code a =? 239) && (code b =? 187) && (code c =? 191) then trim_bom rest else content
  | _ => content
  end.
(** The loop over the object of the file: everything, or nothing. *)
(* [portable_preferences.rs:228-235] PortablePreferenceStore::load *)
Fixpoint load_entries (object : list (string * JsonTree)) (loaded : PortablePreferences)
    : PortablePreferences :=
  match object with
  | [] => loaded
  | (key, value) :: object =>
      if is_ok (preference_validate key value) then load_entries object (<[key := value]> loaded)
      else ∅
  end.
(* [portable_preferences.rs] PortablePreferenceStore::load *)
Definition preferences_load (self : PortablePreferenceStore)
    : IO PreferenceError PortablePreferenceStore :=
  let~ found := path_exists (pps_preferences_path self) in
  if negb found then io_ret (with_preferences self ∅)
  else
    let~ content := preference_io (fs_read_to_string (pps_preferences_path self)) in
    let content := trim_bom content in
    io_ret (with_preferences self
      (if blank content then ∅
       else match json_parse content with
            | Ok (JObject object) => load_entries object ∅
            | _ => ∅
            end)).
(* [portable_preferences.rs] PortablePreferenceStore::set *)
Definition preferences_set (self : PortablePreferenceStore) (key : string) (value : JsonTree)
    : result PortablePreferenceStore PreferenceError :=
  let? _ := preference_validate key value in
  Ok (with_preferences self (<[key := value]> (pps_preferences self))).
(* [portable_preferences.rs] PortablePreferenceStore::remove *)
Definition preferences_remove (self : PortablePreferenceStore) (key : string)
    : result PortablePreferenceStore PreferenceError :=
  let? _ := preference_validate_key key in
  Ok (with_preferences self (delete key (pps_preferences self))).
(** The entries of the map, by key. *)
Definition preference_entries (preferences : PortablePreferences) : list (string * JsonTree) :=
  sort_by_key fst (map_to_list preferences).
(* [portable_preferences.rs] PortablePreferenceStore::validate_preferences_path *)
Definition validate_preferences_path (self : PortablePreferenceStore) : IO PreferenceError unit :=
  let~ _ := preference_io (fs_create_dir_all (pps_portable_root self)) in
  let~ parent := io_of (ok_or (path_parent (pps_preferences_path self))
    (PreferenceRejected "preferences path has no parent")) in
  let~ _ := preference_io (fs_create_dir_all parent) in
  let~ portable_root := preference_io (fs_canonicalize (pps_portable_root self)) in
  let~ parent := preference_io (fs_canonicalize parent) in
  io_of (rejected_if (negb (path_starts_with parent portable_root))
    "preferences path escapes portable root").
(* [portable_preferences.rs] PortablePreferenceStore::save *)
Definition preferences_save (self : PortablePreferenceStore) : IO PreferenceError unit :=
  let~ _ := validate_preferences_path self in
  let~ _ := io_of (for_each (λ entry, preference_validate entry.1 entry.2)
    (preference_entries (pps_preferences self))) in
  let~ _ := match path_parent (pps_preferences_path self) with
            | Some parent => preference_io (fs_create_dir_all parent)
            | None => io_ret tt
            end in
  preference_io (fs_write (pps_preferences_path self)
    (json_to_text_pretty (JObject (preference_entries (pps_preferences self))))).
End store.
