(* ===== verification/PortablePreferencesFacts.v ===== *)
(** * What the portable preferences guarantee ([storage/src/portable_preferences.rs])

    Only accepted preferences are ever held or written, whatever the file says; what is saved
    is loaded again. *)

From S2P Require Import Prelude Collections RustStr Effects Contracts Checks Json.
From S2P Require Import FileSystem FileSystemFacts PortablePreferences.
From stdpp Require Import relations.

#[local] Open Scope string_scope.
#[local] Open Scope list_scope.
#[local] Open Scope N_scope.

Section facts.
Context `{JsonText} `{JsonNumber} `{IoText}.
Implicit Types (self : PortablePreferenceStore) (preferences : PortablePreferences).

Definition valid_preferences preferences : Prop :=
  map_Forall (λ key value, preference_validate key value = Ok tt) preferences.

(** What is accepted is on the list of keys and free of security data. *)
Lemma preference_validate_safe key value :
  preference_validate key value = Ok tt →
  key ∈ ALLOWED_PORTABLE_PREFERENCE_KEYS ∧ value_contains_potential_security_data value = false.
Proof.
  unfold preference_validate, preference_validate_key, rejected_if.
  rewrite !chain_ok, !refuse_if_ok, !orb_false_iff, negb_false_iff, bool_decide_eq_true. tauto.
Qed.

Lemma load_entries_valid object : ∀ loaded,
  valid_preferences loaded → valid_preferences (load_entries object loaded).
Proof.
  induction object as [|[key value] object IH]; intros loaded Hl; simpl; [done|].
  destruct (preference_validate key value) as [[]|] eqn:Hv; simpl; [|apply map_Forall_empty].
  apply IH. by apply map_Forall_insert_2.
Qed.
Lemma load_entries_all object : ∀ loaded,
  Forall (λ entry, preference_validate entry.1 entry.2 = Ok tt) object → NoDup object.*1 →
  load_entries object loaded = list_to_map object ∪ loaded.
Proof.
  induction object as [|[key value] object IH]; intros loaded Hv Hnd; simpl.
  { by rewrite map_empty_union. }
  apply Forall_cons in Hv as [Hkey Hv]. apply NoDup_cons in Hnd as [Hn Hnd].
  simpl in Hkey. rewrite Hkey. simpl. rewrite IH by done.
  rewrite <- insert_union_r by by apply not_elem_of_list_to_map. by rewrite insert_union_l.
Qed.

Lemma load_looks self : looks (preferences_load self).
Proof.
  unfold preferences_load. apply looks_bind; [apply looks_exists|]. intros [|]; simpl; [|done].
  apply looks_bind; [apply looks_map_err, looks_inspect|]. done.
Qed.
Lemma load_valid self s self' s' :
  preferences_load self s = (Ok self', s') →
  valid_preferences (pps_preferences self') ∧
  pps_preferences_path self' = pps_preferences_path self.
Proof.
  unfold preferences_load. intros [(b & s1 & _ & Hrun)|(e & _ & ?)]%io_bind_inv; [|done].
  destruct b; simpl in Hrun; [|injection Hrun as <- <-; split; [apply map_Forall_empty|done]].
  apply io_bind_inv in Hrun as [(content & s2 & _ & Hrun)|(e & _ & ?)]; [|done].
  injection Hrun as <- <-. split; [|done]. simpl.
  destruct (blank (trim_bom content)); [apply map_Forall_empty|].
  destruct (json_parse (trim_bom content)) as [[]|]; try apply map_Forall_empty.
  apply load_entries_valid, map_Forall_empty.
Qed.

(* ------------------------------------------------------------------ *)
(** ** Every state of the store *)

(** What may happen to a store and the file system: its operations, successful or not, and
    anything other programs do to the files. *)
Inductive preference_step : PortablePreferenceStore * Io → PortablePreferenceStore * Io → Prop :=
  | step_load self s self' s' :
      preferences_load self s = (Ok self', s') → preference_step (self, s) (self', s')
  | step_set self s key value self' :
      preferences_set self key value = Ok self' → preference_step (self, s) (self', s)
  | step_remove self s key self' :
      preferences_remove self key = Ok self' → preference_step (self, s) (self', s)
  | step_save self s r s' :
      preferences_save self s = (r, s') → preference_step (self, s) (self, s')
  | step_elsewhere self s s' : preference_step (self, s) (self, s').

(** C13. In every reachable state of a preference store -- whatever the file contains and
    whoever writes it -- all preferences are accepted: their keys are on the list and their
    values hold nothing that looks like security data. *)
Theorem preferences_invariant root s self s' :
  rtc preference_step (preference_store_new root, s) (self, s') →
  map_Forall (λ key value, preference_validate key value = Ok tt ∧
    key ∈ ALLOWED_PORTABLE_PREFERENCE_KEYS ∧
    value_contains_potential_security_data value = false) (pps_preferences self).
Proof.
  intros Hrtc. assert (valid_preferences (pps_preferences self)) as Hv.
  { change (valid_preferences (pps_preferences (self, s').1)). revert Hrtc.
    apply (rtc_ind_r (λ c, valid_preferences (pps_preferences c.1))); [apply map_Forall_empty|].
    intros x y _ Hstep Hv. destruct Hstep as [self0 ? self1 ? Hl|self0 ? key value self1 Hs
      |self0 ? key self1 Hr|self0|self0]; simpl in *; try done.
    - by eapply load_valid.
    - apply res_bind_ok in Hs as ([] & Hkey & [= <-]). by apply map_Forall_insert_2.
    - apply res_bind_ok in Hr as ([] & Hkey & [= <-]). by apply map_Forall_delete. }
  intros key value Hkey. pose proof (Hv _ _ Hkey) as Hkv. split; [done|].
  by apply preference_validate_safe.
Qed.

(* ------------------------------------------------------------------ *)
(** ** Saving and loading *)

Lemma entries_NoDup preferences : NoDup (preference_entries preferences).*1.
Proof. unfold preference_entries. rewrite sort_by_key_perm. apply NoDup_fst_map_to_list. Qed.
Lemma entries_map preferences : list_to_map (preference_entries preferences) = preferences.
Proof.
  rewrite <- (list_to_map_to_list preferences) at 2. apply list_to_map_proper;
    [apply entries_NoDup|apply sort_by_key_perm].
Qed.

(** A save that succeeds has checked every preference and written them all. *)
Lemma save_inv self s s' :
  preferences_save self s = (Ok tt, s') →
  valid_preferences (pps_preferences self) ∧
  ∃ s1, io_faults s1 = io_faults s ∧ fs_write (pps_preferences_path self)
    (json_to_text_pretty (JObject (preference_entries (pps_preferences self)))) s1 = (Ok tt, s').
Proof.
  unfold preferences_save, preference_io.
  assert (∀ a s r s', io_map_err (A:=unit) (λ error, PreferenceIo (io_error_to_string error))
    (fs_create_dir_all a) s = (r, s') → io_faults s' = io_faults s) as Hcreate.
  { intros a t r t' (r0 & Hc & _)%io_map_err_inv. by apply fs_create_dir_all_inv in Hc as [? _]. }
  intros [([] & s1 & Hpath & Hrun)|(e & _ & ?)]%io_bind_inv; [|done].
  assert (io_faults s1 = io_faults s) as Hf1.
  { unfold validate_preferences_path, preference_io in Hpath.
    apply io_bind_inv in Hpath as [([] & t1 & Ht1%Hcreate & Hpath)|(e & _ & ?)]; [|done].
    apply io_bind_inv in Hpath as [(parent & t2 & Ht2 & Hpath)|(e & _ & ?)]; [|done].
    apply (looks_run _ _ _ _ (looks_of _)) in Ht2 as [_ Ht2].
    apply io_bind_inv in Hpath as [([] & t3 & Ht3%Hcreate & Hpath)|(e & _ & ?)]; [|done].
    apply looks_run in Hpath as [_ Hpath]; [congruence|].
    repeat (apply looks_bind; [apply looks_map_err, looks_inspect|intros ?]). apply looks_of. }
  apply io_bind_inv in Hrun as [([] & s2 & [= Hall ->] & Hrun)|(e & _ & ?)]; [|done].
  split.
  - intros key value Hkey. apply for_each_ok in Hall. rewrite Forall_forall in Hall.
    apply (Hall (key, value)). unfold preference_entries.
    rewrite elem_of_sort_by_key. by apply elem_of_map_to_list.
  - apply io_bind_inv in Hrun as [([] & s3 & Hs3 & Hrun)|(e & _ & ?)]; [|done].
    apply io_map_err_inv in Hrun as ([[]|] & Hw & ?); [|done]. exists s3. split; [|done].
    destruct (path_parent _); [apply Hcreate in Hs3; congruence|by injection Hs3 as <-].
Qed.

(** C12. Saving and loading is a round trip. After a save that succeeded, on a machine without
    faults, any store of the same file loads exactly the preferences that were saved, and
    loading changes no file. *)
Theorem save_load_roundtrip self other s s' :
  (** the documented behaviour of [serde_json] on this object *)
  let object := preference_entries (pps_preferences self) in
  let content := json_to_text_pretty (JObject object) in
  json_parse content = Ok (JObject object) → trim_bom content = content →
  blank content = false →
  calm s → preferences_save self s = (Ok tt, s') →
  pps_preferences_path other = pps_preferences_path self →
  ∃ s2, preferences_load other s' = (Ok (with_preferences other (pps_preferences self)), s2) ∧
    io_fs s2 = io_fs s'.
Proof.
  intros object content Hparse Hbom Hblank Hs Hsave Hpath.
  apply save_inv in Hsave as [Hv (s1 & Hf & Hw)]. fold object content in Hw.
  assert (calm s1) as Hs1 by (intros n; by rewrite Hf).
  destruct (read_written _ _ _ _ Hs1 Hw) as (Hs' & Hexists & Hread).
  unfold preferences_load. rewrite Hpath. unfold io_bind at 1. rewrite Hexists. simpl.
  unfold io_bind, preference_io, io_map_err. rewrite Hread. simpl.
  rewrite Hbom, Hblank, Hparse.
  rewrite load_entries_all, map_union_empty; [|
    |apply entries_NoDup].
  - subst object. rewrite entries_map. eexists. split; [done|done].
  - apply Forall_forall. intros [key value] Hin. apply Hv. subst object.
    unfold preference_entries in Hin. rewrite elem_of_sort_by_key in Hin.
    by apply elem_of_map_to_list.
Qed.
End facts.

(* ------------------------------------------------------------------ *)
(** ** Examples *)

Module PreferenceSample.

#[export] Instance sample_io_text : IoText := {| io_error_to_string := λ _, "io" |}.
#[export] Instance sample_number : JsonNumber := {| number_as_f64 := λ _, None |}.
Definition dark : JsonTree := JObject [("theme", JString "dark")].
#[export] Instance sample_json : JsonText := {|
  json_parse := λ text, if bool_decide (text = "{}") then Ok dark else Err "no json";
  json_to_text := λ _, "{}";
  json_to_text_pretty := λ _, "{}"
|}.

Definition portable_root : Path := ["portable"].
Definition dark_store : PortablePreferenceStore :=
  with_preferences (preference_store_new portable_root) {[ "theme" := JString "dark" ]}.
Definition empty_disk : Io := mkIo counting_world (λ _, None) 0 ∅.

Lemma dark_saved : is_ok (preferences_save dark_store empty_disk).1 = true.
Proof. vm_compute. reflexivity. Qed.

Lemma preferences_invariant_witness :
  ∃ self s, rtc preference_step (preference_store_new portable_root, empty_disk) (self, s) ∧
    pps_preferences self = {[ "theme" := JString "dark" ]} ∧
    map_Forall (λ key value, preference_validate key value = Ok tt ∧
      key ∈ ALLOWED_PORTABLE_PREFERENCE_KEYS ∧
      value_contains_potential_security_data value = false) (pps_preferences self).
Proof.
  assert (rtc preference_step (preference_store_new portable_root, empty_disk)
    (dark_store, empty_disk)) as Hrtc.
  { eapply rtc_once, (step_set _ _ "theme" (JString "dark")). vm_compute. reflexivity. }
  exists dark_store, empty_disk. split; [exact Hrtc|]. split; [reflexivity|].
  exact (preferences_invariant portable_root empty_disk dark_store empty_disk Hrtc).
Defined.

Lemma save_load_roundtrip_witness :
  ∃ s' s2, preferences_save dark_store empty_disk = (Ok tt, s') ∧
    preferences_load (preference_store_new portable_root) s' = (Ok dark_store, s2).
Proof.
  pose proof dark_saved as Hok.
  destruct (preferences_save dark_store empty_disk) as [[[]|e] s'] eqn:Hsave; [|done].
  destruct (save_load_roundtrip dark_store (preference_store_new portable_root) empty_disk s')
    as (s2 & Hload & _);
    [vm_compute; reflexivity|vm_compute; reflexivity|vm_compute; reflexivity|intros n; reflexivity
     |exact Hsave|reflexivity|].
  exists s', s2. split; [reflexivity|exact Hload].
Defined.

End PreferenceSample.
