(* ===== verification/Session.v ===== *)
(** * Sessions ([storage/src/session.rs])

    A session has a directory with a marker; ephemeral and portable sessions lose theirs when
    they end, and what an earlier session left behind is removed at the next start, if it is
    recognised as such. Beside them the small preference store of the installed profile.

    Parameters: the parser of the crate [uuid] ([UuidText]), the JSON of the marker and of the
    preference document ([SessionText]), the environment ([SessionEnv]), [serde_json] of
    values ([JsonText]). A poisoned lock of the life cycle is left out: nothing panics while
    it is held.

    Prefixes: [Sm] session modes, [Dm] database modes, [ssc_] session configuration, [clr_]
    cleanup report, [srr_] root resolver, [mrk_] marker. *)

From S2P Require Import Prelude Collections RustStr RustText Effects Contracts Checks Json.
From S2P Require Import StorageTypes StorageDb FileSystem PortablePreferences.

#[local] Open Scope string_scope.
#[local] Open Scope list_scope.
#[local] Open Scope N_scope.

(* ------------------------------------------------------------------ *)
(** ** Constants *)

(* [storage/src/session.rs] APP_DIR_NAME *)
Definition APP_DIR_NAME : string := "SentinelGuard".
(* [storage/src/session.rs] SESSIONS_DIR_NAME *)
Definition SESSIONS_DIR_NAME : string := "sessions".
(* [storage/src/session.rs] PREFERENCES_FILE_NAME *)
Definition PREFERENCES_FILE_NAME : string := "preferences.json".
(* [storage/src/session.rs] PORTABLE_EXPORTS_DIR_NAME *)
Definition PORTABLE_EXPORTS_DIR_NAME : string := "exports".
(* [storage/src/session.rs] PORTABLE_REPORTS_DIR_NAME *)
Definition PORTABLE_REPORTS_DIR_NAME : string := "reports".
(* [storage/src/session.rs] PORTABLE_LOGS_DIR_NAME *)
Definition PORTABLE_LOGS_DIR_NAME : string := "logs".
(* [storage/src/session.rs] PORTABLE_TEMP_DIR_NAME *)
Definition PORTABLE_TEMP_DIR_NAME : string := "temp".
(* [storage/src/session.rs] SESSION_AUDIT_FILE_NAME *)
Definition SESSION_AUDIT_FILE_NAME : string := "session_audit.log".
(* [storage/src/session.rs] CLEANUP_AUDIT_FILE_NAME *)
Definition CLEANUP_AUDIT_FILE_NAME : string := "audit.log".
(* [storage/src/session.rs] SESSION_MARKER_FILE_NAME *)
Definition SESSION_MARKER_FILE_NAME : string := ".sentinel_session".
(* [storage/src/session.rs] SESSION_MARKER_VALUE *)
Definition SESSION_MARKER_VALUE : string := "SENTINEL_GUARD_SESSION".
(* [storage/src/session.rs] SESSION_MARKER_VERSION *)
Definition SESSION_MARKER_VERSION : N := 1.
(* [storage/src/session.rs] CAPTURE_IMPORT_PREVIEW_FILE_PREFIX *)
Definition CAPTURE_IMPORT_PREVIEW_FILE_PREFIX : string := "capture_import_preview-".
(* [storage/src/session.rs] CAPTURE_IMPORT_PREVIEW_FILE_SUFFIX *)
Definition CAPTURE_IMPORT_PREVIEW_FILE_SUFFIX : string := ".json".
(* [storage/src/session.rs] FORBIDDEN_PREFERENCE_MARKERS *)
Definition FORBIDDEN_PREFERENCE_MARKERS : list string :=
  ["session_id"; "observation"; "finding"; "alert"; "incident"; "ip_address"; "hostname";
   "process"; "raw_packet"; "payload"; "http_body"; "cookie"; "token"; "credential"; "api_key";
   "private_key"; "command_line"].

(** [s.strip_prefix(p)], [s.strip_suffix(p)], [s.ends_with(p)] *)
Definition strip_prefix (p s : string) : option string :=
  if String.prefix p s
  then Some (String.substring (String.length p) (String.length s - String.length p) s) else None.
Definition strip_suffix (p s : string) : option string :=
  let n := (String.length s - String.length p)%nat in
  if bool_decide (String.length p ≤ String.length s)%nat &&
     bool_decide (String.substring n (String.length p) s = p)
  then Some (String.substring 0 n s) else None.
Definition ends_with (s p : string) : bool := bool_decide (is_Some (strip_suffix p s)).

(* ------------------------------------------------------------------ *)
(** ** Modes and configuration *)

(* [storage/src/session.rs] SessionMode *)
Inductive SessionMode := SmEphemeral | SmInstalled | SmDemo | SmPortableNoRetention.
#[export] Instance SessionMode_eq_dec : EqDecision SessionMode.
Proof. solve_decision. Defined.
(* [storage/src/session.rs] SessionMode::as_str *)
Definition session_mode_as_str (self : SessionMode) : string :=
  match self with
  | SmEphemeral => "ephemeral" | SmInstalled => "installed" | SmDemo => "demo"
  | SmPortableNoRetention => "portable-no-retention"
  end.
(* [storage/src/session.rs] SessionMode::effective *)
Definition effective (self : SessionMode) : SessionMode :=
  match self with SmDemo => SmInstalled | mode => mode end.
(* [storage/src/session.rs] SessionMode::discards_on_shutdown *)
Definition discards_on_shutdown (self : SessionMode) : bool :=
  match effective self with SmEphemeral | SmPortableNoRetention => true | _ => false end.
(* [storage/src/session.rs] SessionMode::profile_mode *)
Definition profile_mode (self : SessionMode) : string := session_mode_as_str (effective self).
(* [storage/src/session.rs] SessionMode::for_demo_flag *)
Definition for_demo_flag (demo_enabled : bool) : SessionMode :=
  if demo_enabled then SmInstalled else SmEphemeral.

(* [storage/src/session.rs] SessionDatabaseMode *)
Inductive SessionDatabaseMode := DmInMemory | DmTempFile | DmPersistent.
(* [storage/src/session.rs] SessionDatabaseMode::as_str *)
Definition database_mode_as_str (self : SessionDatabaseMode) : string :=
  match self with
  | DmInMemory => "in_memory" | DmTempFile => "temp_file" | DmPersistent => "persistent"
  end.

(* [storage/src/session.rs] SessionConfig *)
Record SessionConfig := mkSessionConfig {
  ssc_session_mode : SessionMode;
  ssc_session_id : Uuid;
  ssc_session_root : Path;
  ssc_session_root_redacted : string;
  ssc_database_mode : SessionDatabaseMode;
  ssc_preferences_path : Path;
  ssc_preferences_path_redacted : string;
  ssc_portable_root : option Path;
  ssc_portable_root_redacted : option string;
  ssc_portable_preferences_loaded : option N;
  ssc_cleaned_abandoned_sessions : list Uuid;
  ssc_skipped_unknown_entries : list string
}.

(* [storage/src/session.rs] CleanupEntry *)
Record CleanupEntry := mkCleanupEntry {
  cle_path : Path; cle_session_id : Uuid; cle_dry_run : bool; cle_files_deleted : list string
}.
(* [storage/src/session.rs] SkippedEntry *)
Record SkippedEntry := mkSkipped { ske_path : Path; ske_reason : string }.
(* [storage/src/session.rs] CleanupError *)
Record CleanupError := mkCleanupError { cer_path : Path; cer_reason : string }.
(* [storage/src/session.rs] CleanupReport *)
Record CleanupReport := mkCleanupReport {
  clr_cleaned : list CleanupEntry;
  clr_skipped : list SkippedEntry;
  clr_errors : list CleanupError
}.
(* [storage/src/session.rs] CleanupReport::empty *)
Definition cleanup_empty : CleanupReport := mkCleanupReport [] [] [].
(* [storage/src/session.rs] CleanupReport::cleaned_session_ids *)
Definition cleaned_session_ids (self : CleanupReport) : list Uuid :=
  cle_session_id <$> clr_cleaned self.
(* [storage/src/session.rs] CleanupReport::skipped_entry_names *)
Definition skipped_entry_names (self : CleanupReport) : list string :=
  let name path := default "[unknown]" (path_file_name path) in
  (name ∘ ske_path <$> clr_skipped self) ++ (name ∘ cer_path <$> clr_errors self).
Definition push_cleaned (self : CleanupReport) (entry : CleanupEntry) : CleanupReport :=
  mkCleanupReport (clr_cleaned self ++ [entry]) (clr_skipped self) (clr_errors self).
Definition push_skipped (self : CleanupReport) (path : Path) (reason : string) : CleanupReport :=
  mkCleanupReport (clr_cleaned self) (clr_skipped self ++ [mkSkipped path reason])
    (clr_errors self).
Definition push_error (self : CleanupReport) (error : CleanupError) : CleanupReport :=
  mkCleanupReport (clr_cleaned self) (clr_skipped self) (clr_errors self ++ [error]).

(* [storage/src/session.rs] SentinelSessionMarker *)
Record SentinelSessionMarker := mkMarker {
  mrk_marker : string;
  mrk_version : N;
  mrk_session_id : Uuid;
  mrk_created_at : Timestamp;
  mrk_app_version : string;
  mrk_session_mode : string
}.
(* [storage/src/session.rs] PreferenceRecord *)
Record PreferenceRecord := mkPreference {
  prf_key : string; prf_value : string; prf_updated_at : string
}.
(* [storage/src/session.rs] PreferencesDocument *)
Record PreferencesDocument := mkPreferencesDocument {
  pfd_schema_version : N; pfd_records : gmap string PreferenceRecord
}.
(* [storage/src/session.rs] Default for PreferencesDocument::default *)
Definition preferences_document_default : PreferencesDocument := mkPreferencesDocument 1 ∅.

(** [Uuid::parse_str] and [get_version_num] *)
Class UuidText := {
  uuid_parse : string → option Uuid;
  uuid_version : Uuid → N
}.
Class SessionText := {
  marker_to_text : SentinelSessionMarker → result string string;
  marker_of_text : string → result SentinelSessionMarker string;
  preferences_to_text : PreferencesDocument → result string string;
  preferences_of_text : string → result PreferencesDocument string
}.
(** [env::temp_dir()], the variable [LOCALAPPDATA] and the version of the package. *)
Class SessionEnv := {
  temp_dir : Path;
  local_app_data : option Path;
  cargo_pkg_version : string
}.

(* [storage/src/session.rs] redact_configured_path *)
Definition redact_configured_path (path : Path) (label : string) : string :=
  match path_file_name path with
  | Some name => "[" ++ label ++ ":" ++ name ++ "]"
  | None => "[" ++ label ++ "]"
  end%string.

(* ------------------------------------------------------------------ *)
(** ** Names *)

Section session.
Context `{Externals} `{StorageText} `{UuidText} `{SessionText} `{SessionEnv} `{IoText}
  `{DirOrder} `{JsonText} `{JsonNumber}.

(* [storage/src/session.rs] parse_uuid_v4 *)
Definition parse_uuid_v4 (value : string) : option Uuid :=
  match uuid_parse value with
  | Some id => if uuid_version id =? 4 then Some id else None
  | None => None
  end.
(* [storage/src/session.rs] is_known_session_db_sidecar *)
Definition is_known_session_db_sidecar (name : string) : bool :=
  match strip_prefix "session.db-mj" name with
  | Some suffix => negb (bool_decide (suffix = "")) && all_chars is_ascii_alphanumeric suffix
  | None => false
  end.
(* [storage/src/session.rs] is_known_capture_import_preview_file *)
Definition is_known_capture_import_preview_file (name : string) : bool :=
  match strip_prefix CAPTURE_IMPORT_PREVIEW_FILE_PREFIX name with
  | None => false
  | Some suffix =>
      match strip_suffix CAPTURE_IMPORT_PREVIEW_FILE_SUFFIX suffix with
      | None => false
      | Some preview_id => bool_decide (is_Some (parse_uuid_v4 preview_id))
      end
  end.
(* [storage/src/session.rs] is_known_session_file *)
Definition is_known_session_file (name : string) : bool :=
  bool_decide (name ∈ [SESSION_MARKER_FILE_NAME; "session.db"; "session.db-wal";
    "session.db-shm"; "session.db-journal"; "audit.log"; SESSION_AUDIT_FILE_NAME]) ||
  is_known_session_db_sidecar name || is_known_capture_import_preview_file name.

(** [From<std::io::Error> for StorageError] *)
Definition storage_io {A} (a : IO IoError A) : IO StorageError A :=
  io_map_err (λ error, SeIo (io_error_to_string error)) a.

(* [storage/src/session.rs] validate_existing_path_within_root *)
Definition validate_existing_path_within_root (path allowed_root : Path) : IO StorageError unit :=
  let~ path := storage_io (fs_canonicalize path) in
  let~ allowed_root := storage_io (fs_canonicalize allowed_root) in
  io_of (refuse_if (negb (path_starts_with path allowed_root))
    (SeInvalidRecord "session_root"
       "resolved path escapes the allowed Sentinel Guard root")).

(* ------------------------------------------------------------------ *)
(** ** The marker *)

(* [storage/src/session.rs] SentinelSessionMarker::new *)
Definition marker_new (session_id : Uuid) (session_mode : SessionMode)
    : ST SentinelSessionMarker :=
  let$ created_at := now in
  st_ret (mkMarker SESSION_MARKER_VALUE SESSION_MARKER_VERSION session_id created_at
    cargo_pkg_version (session_mode_as_str session_mode)).
(* [storage/src/session.rs] SentinelSessionMarker::write_to_dir *)
Definition marker_write_to_dir (self : SentinelSessionMarker) (session_root : Path)
    : IO StorageError unit :=
  let~ _ := storage_io (fs_create_dir_all session_root) in
  let marker_path := path_join session_root SESSION_MARKER_FILE_NAME in
  let~ text := io_of (map_err SeSerialization (marker_to_text self)) in
  storage_io (fs_write marker_path text).
(* [storage/src/session.rs] SentinelSessionMarker::read_from_dir *)
Definition marker_read_from_dir (session_root : Path) : IO StorageError SentinelSessionMarker :=
  let~ text := storage_io (fs_read_to_string (path_join session_root SESSION_MARKER_FILE_NAME)) in
  let~ marker := io_of (map_err SeSerialization (marker_of_text text)) in
  let~ _ := io_of (refuse_if
    (negb (bool_decide (mrk_marker marker = SESSION_MARKER_VALUE)) ||
     negb (mrk_version marker =? SESSION_MARKER_VERSION))
    (SeInvalidRecord "session_marker" "marker format is not recognized")) in
  io_ret marker.
(* [storage/src/session.rs] SentinelSessionMarker::is_valid_for_dir *)
Definition marker_is_valid_for_dir (self : SentinelSessionMarker) (session_root : Path) : bool :=
  bool_decide (path_file_name session_root = Some (uuid_to_string (mrk_session_id self))) &&
  bool_decide (mrk_marker self = SESSION_MARKER_VALUE) &&
  (mrk_version self =? SESSION_MARKER_VERSION) &&
  bool_decide (mrk_session_mode self ∈ ["ephemeral"; "portable-no-retention"]).

(* ------------------------------------------------------------------ *)
(** ** Recognising a session directory *)

(* [storage/src/session.rs] cleanup_error *)
Definition cleanup_error (path : Path) (reason : string) : CleanupError :=
  mkCleanupError path reason.
(** [a.map_err(|_| cleanup_error(path, reason))?] *)
Definition or_cleanup_error {E A} (path : Path) (reason : string) (a : IO E A)
    : IO CleanupError A := io_map_err (λ _, cleanup_error path reason) a.

(* [storage/src/session.rs] ValidatedSessionDirectory *)
Record ValidatedSessionDirectory := mkValidated {
  vsd_marker : SentinelSessionMarker;
  vsd_files : list Path;
  vsd_file_names : list string
}.

(* [storage/src/session.rs] validate_cleanup_paths *)
Definition validate_cleanup_paths (session_root session_dir : Path) (files : list Path)
    : IO CleanupError unit :=
  let traversal := cleanup_error session_dir "path_traversal" in
  let~ root := or_cleanup_error session_dir "path_traversal" (fs_canonicalize session_root) in
  let~ session_dir_canonical :=
    or_cleanup_error session_dir "path_traversal" (fs_canonicalize session_dir) in
  let~ _ := io_of (refuse_if (negb (path_starts_with session_dir_canonical root)) traversal) in
  io_each (λ file,
    let~ canonical := or_cleanup_error session_dir "path_traversal" (fs_canonicalize file) in
    io_of (refuse_if (negb (path_starts_with canonical root)) traversal)) files.

(** [slice.swap(i, j)], in bounds *)
Definition swap {A : Type} (l : list A) (i j : nat) : list A :=
  match l !! i, l !! j with
  | Some x, Some y => <[i := y]> (<[j := x]> l)
  | _, _ => l
  end.
(* [storage/src/session.rs] marker_file_last *)
Definition marker_file_last (files : list Path) (file_names : list string)
    : list Path * list string :=
  match list_find (λ name, name = SESSION_MARKER_FILE_NAME) file_names with
  | Some (marker_index, _) =>
      let last_index := (length file_names - 1)%nat in
      (swap files marker_index last_index, swap file_names marker_index last_index)
  | None => (files, file_names)
  end.

(** One entry of the directory. *)
(* [storage/src/session.rs:774-794] SessionCleanup::validate_session_directory_with_root *)
Definition validate_child (path : Path) (name : string) : IO CleanupError (Path * string) :=
  let~ child_name := or_cleanup_error path "read_dir_entry_failed" (next_entry name) in
  let child_path := path_join path child_name in
  let~ metadata := or_cleanup_error path "metadata_failed" (fs_symlink_metadata child_path) in
  let~ _ := io_of (refuse_if (bool_decide (metadata = Folder))
    (cleanup_error path "unknown_file")) in
  let~ _ := io_of (refuse_if (negb (is_known_session_file child_name))
    (cleanup_error path "unknown_file")) in
  io_ret (child_path, child_name).
(* [storage/src/session.rs] SessionCleanup::validate_session_directory_with_root *)
Definition validate_session_directory_with_root (session_root path : Path)
    : IO CleanupError ValidatedSessionDirectory :=
  let invalid := cleanup_error path "invalid_session_id_format" in
  let~ dir_name := io_of (ok_or (path_file_name path) invalid) in
  let~ session_id := io_of (ok_or (parse_uuid_v4 dir_name) invalid) in
  let~ found := path_exists (path_join path SESSION_MARKER_FILE_NAME) in
  let~ _ := io_of (refuse_if (negb found) (cleanup_error path "no_marker_file")) in
  let~ marker := or_cleanup_error path "invalid_marker" (marker_read_from_dir path) in
  let~ _ := io_of (refuse_if (negb (bool_decide (mrk_session_id marker = session_id)))
    (cleanup_error path "session_id_mismatch")) in
  let~ _ := io_of (refuse_if (negb (marker_is_valid_for_dir marker path))
    (cleanup_error path "invalid_marker")) in
  let~ names := or_cleanup_error path "read_dir_failed" (fs_read_dir path) in
  let~ children := io_map (validate_child path) names in
  let~ _ := validate_cleanup_paths session_root path children.*1 in
  let '(files, file_names) := marker_file_last children.*1 children.*2 in
  io_ret (mkValidated marker files file_names).
(* [storage/src/session.rs] SessionCleanup::validate_session_directory *)
Definition validate_session_directory (path : Path) : IO CleanupError SentinelSessionMarker :=
  let session_root := default path (path_parent path) in
  let~ validated := validate_session_directory_with_root session_root path in
  io_ret (vsd_marker validated).
(* [storage/src/session.rs] SessionCleanup::delete_session_directory *)
Definition delete_session_directory (path : Path) : IO CleanupError unit :=
  or_cleanup_error path "deletion_failed" (fs_remove_dir_all path).

(* ------------------------------------------------------------------ *)
(** ** Audit *)

(* [storage/src/session.rs] CleanupAuditEvent *)
Record CleanupAuditEvent := mkCleanupAudit {
  cla_timestamp : string;
  cla_event : string;
  cla_session_id : string;
  cla_directory_path : string;
  cla_files_deleted : list string;
  cla_reason : string
}.
(** The derived serializer: the fields as they are declared. *)
Definition cleanup_audit_json (event : CleanupAuditEvent) : JsonTree :=
  JObject
    [("timestamp", JString (cla_timestamp event));
     ("event", JString (cla_event event));
     ("session_id", JString (cla_session_id event));
     ("directory_path", JString (cla_directory_path event));
     ("files_deleted", JArray (JString <$> cla_files_deleted event));
     ("reason", JString (cla_reason event))].
(* [storage/src/session.rs] cleanup_audit_event *)
Definition cleanup_audit_event (entry : CleanupEntry) : ST CleanupAuditEvent :=
  let$ timestamp := now in
  st_ret (mkCleanupAudit (timestamp_to_string timestamp) "abandoned_session_cleaned"
    (uuid_to_string (cle_session_id entry)) (redact_configured_path (cle_path entry) "session")
    (cle_files_deleted entry) "found_on_startup").
(* [storage/src/session.rs] append_cleanup_audit *)
Definition append_cleanup_audit (audit_root : Path) (event : CleanupAuditEvent)
    : IO StorageError unit :=
  let~ _ := storage_io (fs_create_dir_all audit_root) in
  storage_io (fs_append_line (path_join audit_root CLEANUP_AUDIT_FILE_NAME)
    (json_to_text (cleanup_audit_json event))).
(* [storage/src/session.rs] append_session_audit *)
Definition append_session_audit (local_app_root : Path) (event : JsonTree)
    : IO StorageError unit :=
  let~ _ := storage_io (fs_create_dir_all local_app_root) in
  storage_io (fs_append_line (path_join local_app_root SESSION_AUDIT_FILE_NAME)
    (json_to_text event)).
(* [storage/src/session.rs] sanitized_cleanup_error_reason *)
Definition sanitized_cleanup_error_reason (reason detail : string) : string := reason.

(* ------------------------------------------------------------------ *)
(** ** Cleaning up *)

(** The body of the loop: one entry of the root. *)
(* [storage/src/session.rs:664-741] SessionCleanup::cleanup_abandoned_sessions_impl *)
Definition cleanup_entry {E} (session_root : Path) (audit_root : option Path) (dry_run : bool)
    (report : CleanupReport) (name : string) : IO E CleanupReport :=
  let~ entry := io_try (next_entry name) in
  match entry with
  | Err _ => io_ret (push_error report (mkCleanupError session_root "read_dir_entry_failed"))
  | Ok name =>
      let path := path_join session_root name in
      let~ file_type := io_try (fs_symlink_metadata path) in
      match file_type with
      | Err error => io_ret (push_error report
          (mkCleanupError path ("file_type_failed: " ++ io_error_to_string error)))
      | Ok Folder =>
          let~ validated := io_try (validate_session_directory_with_root session_root path) in
          match validated with
          | Err error =>
              io_ret (if bool_decide (cer_reason error = "path_traversal")
                      then push_error report error
                      else push_skipped report (cer_path error) (cer_reason error))
          | Ok validated =>
              let entry := mkCleanupEntry path (mrk_session_id (vsd_marker validated)) dry_run
                (vsd_file_names validated) in
              if dry_run then io_ret (push_cleaned report entry)
              else
                let~ deleted := io_try (delete_session_directory path) in
                match deleted with
                | Err error => io_ret (push_error report error)
                | Ok _ =>
                    let~ report :=
                      match audit_root with
                      | None => io_ret report
                      | Some audit_root =>
                          let~ event := io_lift (cleanup_audit_event entry) in
                          let~ written := io_try (append_cleanup_audit audit_root event) in
                          io_ret
                            match written with
                            | Ok _ => report
                            | Err error => push_error report (mkCleanupError path
                                (sanitized_cleanup_error_reason "audit_write_failed"
                                   (storage_error_to_string error)))
                            end
                      end in
                    io_ret (push_cleaned report entry)
                end
          end
      | Ok _ => io_ret (push_skipped report path "not_a_directory")
      end
  end%string.
Fixpoint cleanup_entries {E} (session_root : Path) (audit_root : option Path) (dry_run : bool)
    (report : CleanupReport) (names : list string) : IO E CleanupReport :=
  match names with
  | [] => io_ret report
  | name :: names =>
      let~ report := cleanup_entry session_root audit_root dry_run report name in
      cleanup_entries session_root audit_root dry_run report names
  end.
(* [storage/src/session.rs:644-745] SessionCleanup::cleanup_abandoned_sessions_impl *)
Definition cleanup_abandoned_sessions_impl {E} (session_root : Path) (audit_root : option Path)
    (dry_run : bool) : IO E CleanupReport :=
  let report := cleanup_empty in
  let~ found := path_exists session_root in
  if negb found then io_ret report
  else
    let~ entries := io_try (fs_read_dir session_root) in
    match entries with
    | Err _ => io_ret (push_error report (mkCleanupError session_root "read_dir_failed"))
    | Ok names => cleanup_entries session_root audit_root dry_run report names
    end.
(* [storage/src/session.rs] SessionCleanup::cleanup_abandoned_sessions *)
Definition cleanup_without_audit {E} (session_root : Path) (dry_run : bool)
    : IO E CleanupReport := cleanup_abandoned_sessions_impl session_root None dry_run.
(* [storage/src/session.rs] SessionCleanup::cleanup_abandoned_sessions_with_audit *)
Definition cleanup_with_audit {E} (session_root audit_root : Path) (dry_run : bool)
    : IO E CleanupReport :=
  cleanup_abandoned_sessions_impl session_root (Some audit_root) dry_run.
End session.
