(* ===== verification/SessionLifecycle.v ===== *)
(** * Starting and ending a session ([storage/src/session.rs])

    Where a session has its directory, what a start cleans up and creates, what the end
    discards, and the preferences of the installed profile.

    Prefixes: [srr_] root resolver, [srn_] resolution, [slc_] life cycle, [pst_] store of
    preferences. *)

From S2P Require Import Prelude Collections RustStr RustText Effects Contracts Checks Json.
From S2P Require Import StorageTypes StorageDb FileSystem PortablePreferences Session.

#[local] Open Scope string_scope.
#[local] Open Scope list_scope.
#[local] Open Scope N_scope.

(* [storage/src/session.rs] SessionRootResolver *)
Record SessionRootResolver := mkResolver {
  srr_sessions_root : Path;
  srr_local_app_root : Path;
  srr_portable_root : option Path
}.
(* [storage/src/session.rs] SessionResolution *)
Record SessionResolution := mkResolution {
  srn_config : SessionConfig;
  srn_local_app_root : Path
}.
(* [storage/src/session.rs:481-485] SessionLifecycleInner *)
Record SessionLifecycle := mkLifecycle {
  slc_config : SessionConfig;
  slc_local_app_root : Path;
  slc_ended : bool
}.
(* [storage/src/session.rs:897-900] PreferencesStore *)
Record PreferencesStore := mkPreferencesStore { pst_path : Path }.

(** A path written out: [path.join(a).join(b)] *)
Definition path_joins (path : Path) (names : list string) : Path := path ++ names.

(* ------------------------------------------------------------------ *)
(** ** The resolver *)

(* [storage/src/session.rs] SessionRootResolver::for_roots *)
Definition for_roots (sessions_root local_app_root : Path) : SessionRootResolver :=
  mkResolver sessions_root local_app_root None.
(* [storage/src/session.rs] SessionRootResolver::for_portable_root *)
Definition for_portable_root (portable_root : Path) : SessionRootResolver :=
  mkResolver (path_joins portable_root [PORTABLE_TEMP_DIR_NAME; SESSIONS_DIR_NAME])
    (path_join portable_root PORTABLE_LOGS_DIR_NAME) (Some portable_root).
(* [storage/src/session.rs] SessionRootResolver::preferences_path *)
Definition resolver_preferences_path (self : SessionRootResolver) : Path :=
  match srr_portable_root self with
  | Some portable_root => path_joins portable_root
      [PORTABLE_DATA_DIR_NAME; PORTABLE_PREFERENCES_DIR_NAME; PORTABLE_UI_PREFERENCES_FILE_NAME]
  | None => path_join (srr_local_app_root self) PREFERENCES_FILE_NAME
  end.

Section resolver.
Context `{Externals} `{StorageText} `{UuidText} `{SessionText} `{SessionEnv} `{IoText}
  `{DirOrder} `{JsonText} `{JsonNumber}.

(* [storage/src/session.rs] SessionRootResolver::platform_default *)
Definition platform_default : SessionRootResolver :=
  for_roots (path_joins temp_dir [APP_DIR_NAME; SESSIONS_DIR_NAME])
    (path_join (default temp_dir local_app_data) APP_DIR_NAME).
(* [storage/src/session.rs] SessionRootResolver::redacted_portable_root *)
Definition redacted_portable_root (self : SessionRootResolver) : string :=
  match srr_portable_root self with
  | Some path => redact_configured_path path "portable-root"
  | None => "[portable-root]"
  end.
(* [storage/src/session.rs] SessionRootResolver::redacted_sessions_root *)
Definition redacted_sessions_root (self : SessionRootResolver) : string :=
  if bool_decide (is_Some (srr_portable_root self))
  then (redacted_portable_root self ++ "/temp/" ++ SESSIONS_DIR_NAME)%string
  else if bool_decide (srr_sessions_root self =
                       path_joins temp_dir [APP_DIR_NAME; SESSIONS_DIR_NAME])
  then ("%TEMP%/" ++ APP_DIR_NAME ++ "/" ++ SESSIONS_DIR_NAME)%string
  else redact_configured_path (srr_sessions_root self) "sessions-root".
(* [storage/src/session.rs] SessionRootResolver::redacted_local_app_root *)
Definition redacted_local_app_root (self : SessionRootResolver) : string :=
  let configured := redact_configured_path (srr_local_app_root self) "local-app-root" in
  match local_app_data with
  | Some local_app_data =>
      if bool_decide (srr_local_app_root self = path_join local_app_data APP_DIR_NAME)
      then "%LOCALAPPDATA%/" ++ APP_DIR_NAME else configured
  | None => configured
  end%string.
(* [storage/src/session.rs] SessionRootResolver::redacted_preferences_path *)
Definition redacted_preferences_path (self : SessionRootResolver) : string :=
  let configured := (redacted_local_app_root self ++ "/" ++ PREFERENCES_FILE_NAME)%string in
  if bool_decide (is_Some (srr_portable_root self))
  then (redacted_portable_root self ++ "/data/preferences/" ++
        PORTABLE_UI_PREFERENCES_FILE_NAME)%string
  else
    match local_app_data with
    | Some local_app_data =>
        if bool_decide (resolver_preferences_path self =
                        path_joins local_app_data [APP_DIR_NAME; PREFERENCES_FILE_NAME])
        then "%LOCALAPPDATA%/" ++ APP_DIR_NAME ++ "/" ++ PREFERENCES_FILE_NAME else configured
    | None => configured
    end%string.

(* [storage/src/session.rs] SessionRootResolver::cleanup_abandoned_sessions *)
Definition resolver_cleanup (self : SessionRootResolver) : IO StorageError CleanupReport :=
  let~ _ := storage_io (fs_create_dir_all (srr_sessions_root self)) in
  let~ _ := validate_existing_path_within_root (srr_sessions_root self)
    (srr_sessions_root self) in
  cleanup_with_audit (srr_sessions_root self) (srr_local_app_root self) false.

(** A new directory with its marker; common to the modes that discard. *)
(* [storage/src/session.rs:286-291] SessionRootResolver::resolve_ephemeral *)
Definition create_session_dir (self : SessionRootResolver) (mode : SessionMode)
    : IO StorageError (Uuid * Path) :=
  let~ session_id := io_lift new_uuid in
  let session_root := path_join (srr_sessions_root self) (uuid_to_string session_id) in
  let~ _ := storage_io (fs_create_dir_all session_root) in
  let~ _ := validate_existing_path_within_root session_root (srr_sessions_root self) in
  let~ marker := io_lift (marker_new session_id mode) in
  let~ _ := marker_write_to_dir marker session_root in
  io_ret (session_id, session_root).
(* [storage/src/session.rs] SessionRootResolver::resolve_ephemeral *)
Definition resolve_ephemeral (self : SessionRootResolver) : IO StorageError SessionResolution :=
  let~ cleanup_report := resolver_cleanup self in
  let~ ' (session_id, session_root) := create_session_dir self SmEphemeral in
  io_ret (mkResolution
    {| ssc_session_mode := SmEphemeral;
       ssc_session_id := session_id;
       ssc_session_root := session_root;
       ssc_session_root_redacted := redacted_sessions_root self;
       ssc_database_mode := DmInMemory;
       ssc_preferences_path := resolver_preferences_path self;
       ssc_preferences_path_redacted := redacted_preferences_path self;
       ssc_portable_root := None;
       ssc_portable_root_redacted := None;
       ssc_portable_preferences_loaded := None;
       ssc_cleaned_abandoned_sessions := cleaned_session_ids cleanup_report;
       ssc_skipped_unknown_entries := skipped_entry_names cleanup_report |}
    (srr_local_app_root self)).

(* [storage/src/session.rs] SessionRootResolver::create_portable_layout *)
Definition create_portable_layout (portable_root : Path) : IO StorageError unit :=
  let~ _ := storage_io (fs_create_dir_all portable_root) in
  let~ _ := validate_existing_path_within_root portable_root portable_root in
  io_each (λ directory,
    let~ _ := storage_io (fs_create_dir_all directory) in
    validate_existing_path_within_root directory portable_root)
    [path_joins portable_root [PORTABLE_DATA_DIR_NAME; PORTABLE_PREFERENCES_DIR_NAME];
     path_joins portable_root [PORTABLE_DATA_DIR_NAME; PORTABLE_EXPORTS_DIR_NAME];
     path_joins portable_root [PORTABLE_DATA_DIR_NAME; PORTABLE_REPORTS_DIR_NAME];
     path_join portable_root PORTABLE_LOGS_DIR_NAME;
     path_joins portable_root [PORTABLE_TEMP_DIR_NAME; SESSIONS_DIR_NAME]].
(* [storage/src/session.rs] portable_preference_storage_error *)
Definition portable_preference_storage_error (error : PreferenceError) : StorageError :=
  SeInvalidRecord "portable_preferences" (preference_error_to_string error).
(** The fields of [json!] are sorted. *)
(* [storage/src/session.rs:331-337] SessionRootResolver::resolve_portable *)
Definition app_started_event (self : SessionRootResolver) (session_id : Uuid)
    (timestamp : Timestamp) : JsonTree :=
  JObject
    [("event_type", JString "app_started");
     ("portable_root_redacted", JString (redacted_portable_root self));
     ("profile_mode", JString (profile_mode SmPortableNoRetention));
     ("session_id", JString (uuid_to_string session_id));
     ("timestamp", JString (timestamp_to_string timestamp))].
(* [storage/src/session.rs] SessionRootResolver::resolve_portable *)
Definition resolve_portable (self : SessionRootResolver) : IO StorageError SessionResolution :=
  let~ portable_root := io_of (ok_or (srr_portable_root self)
    (SeInvalidRecord "portable_root"
       "portable mode requires an executable directory portable root")) in
  let~ _ := create_portable_layout portable_root in
  let~ cleanup_report := resolver_cleanup self in
  let~ ' (session_id, session_root) := create_session_dir self SmPortableNoRetention in
  let~ timestamp := io_lift now in
  let~ _ := append_session_audit session_root (app_started_event self session_id timestamp) in
  let~ preference_store := io_map_err portable_preference_storage_error
    (preferences_load (preference_store_new portable_root)) in
  io_ret (mkResolution
    {| ssc_session_mode := SmPortableNoRetention;
       ssc_session_id := session_id;
       ssc_session_root := session_root;
       ssc_session_root_redacted := redacted_sessions_root self;
       ssc_database_mode := DmInMemory;
       ssc_preferences_path := resolver_preferences_path self;
       ssc_preferences_path_redacted := redacted_preferences_path self;
       ssc_portable_root := Some portable_root;
       ssc_portable_root_redacted := Some (redacted_portable_root self);
       ssc_portable_preferences_loaded :=
         Some (N.of_nat (size (pps_preferences preference_store)));
       ssc_cleaned_abandoned_sessions := cleaned_session_ids cleanup_report;
       ssc_skipped_unknown_entries := skipped_entry_names cleanup_report |}
    (srr_local_app_root self)).
(* [storage/src/session.rs] SessionRootResolver::resolve_installed *)
Definition resolve_installed (self : SessionRootResolver) : IO StorageError SessionResolution :=
  let~ _ := storage_io (fs_create_dir_all (srr_local_app_root self)) in
  let~ _ := validate_existing_path_within_root (srr_local_app_root self)
    (srr_local_app_root self) in
  let~ session_id := io_lift new_uuid in
  io_ret (mkResolution
    {| ssc_session_mode := SmInstalled;
       ssc_session_id := session_id;
       ssc_session_root := srr_local_app_root self;
       ssc_session_root_redacted := redacted_local_app_root self;
       ssc_database_mode := DmPersistent;
       ssc_preferences_path := resolver_preferences_path self;
       ssc_preferences_path_redacted := redacted_preferences_path self;
       ssc_portable_root := None;
       ssc_portable_root_redacted := None;
       ssc_portable_preferences_loaded := None;
       ssc_cleaned_abandoned_sessions := [];
       ssc_skipped_unknown_entries := [] |}
    (srr_local_app_root self)).
(* [storage/src/session.rs:257-269] SessionRootResolver::resolve *)
Definition resolver_resolve (self : SessionRootResolver) (requested_mode : SessionMode)
    : IO StorageError SessionResolution :=
  match effective requested_mode with
  | SmEphemeral =>
      let~ _ := storage_io (fs_create_dir_all (srr_local_app_root self)) in
      let~ _ := validate_existing_path_within_root (srr_local_app_root self)
        (srr_local_app_root self) in
      resolve_ephemeral self
  | SmPortableNoRetention => resolve_portable self
  | SmInstalled | SmDemo => resolve_installed self
  end.

(* ------------------------------------------------------------------ *)
(** ** The life cycle *)

(* [storage/src/session.rs] SessionLifecycle::start *)
Definition lifecycle_start (mode : SessionMode) (resolver : SessionRootResolver)
    : IO StorageError SessionLifecycle :=
  let~ resolution := resolver_resolve resolver mode in
  io_ret (mkLifecycle (srn_config resolution) (srn_local_app_root resolution) false).
(* [storage/src/session.rs] SessionLifecycle::preferences_store *)
Definition lifecycle_preferences_store (self : SessionLifecycle) : PreferencesStore :=
  mkPreferencesStore (ssc_preferences_path (slc_config self)).
(* [storage/src/session.rs] SessionLifecycle::portable_preferences_store *)
Definition portable_preferences_store (self : SessionLifecycle)
    : option PortablePreferenceStore :=
  preference_store_new <$> ssc_portable_root (slc_config self).
(* [storage/src/session.rs:514-518] SessionLifecycle::append_session_audit_event *)
Definition session_audit_root (self : SessionLifecycle) : Path :=
  if bool_decide (ssc_session_mode (slc_config self) = SmPortableNoRetention)
  then ssc_session_root (slc_config self) else slc_local_app_root self.
(* [storage/src/session.rs] SessionLifecycle::append_session_audit_event *)
Definition append_session_audit_event (self : SessionLifecycle) (event : JsonTree)
    : IO StorageError unit := append_session_audit (session_audit_root self) event.
(* [storage/src/session.rs:558-565] SessionLifecycleInner::finish *)
Definition session_ended_event (config : SessionConfig) (timestamp : Timestamp) : JsonTree :=
  JObject
    [("disposition", JString "discarded");
     ("event_type", JString "session_ended");
     ("profile_mode", JString (profile_mode (ssc_session_mode config)));
     ("session_id", JString (uuid_to_string (ssc_session_id config)));
     ("session_mode", JString (session_mode_as_str (ssc_session_mode config)));
     ("timestamp", JString (timestamp_to_string timestamp))].
(** What fails is only printed. *)
(* [storage/src/session.rs] SessionLifecycleInner::finish *)
Definition lifecycle_finish {E} (self : SessionLifecycle) : IO E SessionLifecycle :=
  let config := slc_config self in
  if slc_ended self then io_ret self
  else
    let ended := mkLifecycle config (slc_local_app_root self) true in
    if negb (discards_on_shutdown (ssc_session_mode config)) then io_ret ended
    else
      let~ timestamp := io_lift now in
      let~ _ := io_try (append_session_audit (session_audit_root self)
        (session_ended_event config timestamp)) in
      let~ removed := io_try (fs_remove_dir_all (ssc_session_root config)) in
      let~ _ := match removed with
                | Ok _ => io_ret tt
                | Err _ =>
                    let~ _ := path_exists (ssc_session_root config) in
                    io_ret tt
                end in
      io_ret ended.
(* [storage/src/session.rs] SessionLifecycle::end *)
Definition lifecycle_end {E} (self : SessionLifecycle) : IO E SessionLifecycle :=
  lifecycle_finish self.

(* ------------------------------------------------------------------ *)
(** ** Preferences of the installed profile *)

(* [storage/src/session.rs] invalid_preference *)
Definition invalid_preference (reason : string) : StorageError :=
  SeInvalidRecord "preferences" reason.
(* [storage/src/session.rs] contains_forbidden_preference_marker *)
Definition contains_forbidden_preference_marker (value : string) : bool :=
  existsb (contains (to_ascii_lowercase value)) FORBIDDEN_PREFERENCE_MARKERS.
(* [storage/src/session.rs] looks_like_ipv4 *)
Definition preference_looks_like_ipv4 (value : string) : bool := ipv4_text value.
(* [storage/src/session.rs] looks_like_hostname *)
Definition looks_like_hostname (value : string) : bool :=
  any_char is_dot value && any_char is_ascii_alphabetic value &&
  all_chars (λ c, is_ascii_alphanumeric c || one_of ["."; "-"]%char c) value.
(* [storage/src/session.rs] validate_preference_key *)
Definition validate_preference_key (key : string) : result unit StorageError :=
  let? _ := refuse_if (blank key || (128 <? str_len key))
    (invalid_preference "preference key is empty or too long") in
  let allowed :=
    bool_decide (key ∈ ["theme"; "ui.theme"; "ui.layout"; "ui.font_size"; "ui.last_view";
      "notifications.enabled"]) ||
    (String.prefix "plugin." key && ends_with key ".enabled") in
  refuse_if (negb allowed || contains_forbidden_preference_marker key)
    (invalid_preference "preference key is outside the UI-only allowlist").
(* [storage/src/session.rs] validate_preference_value *)
Definition validate_preference_value (key value : string) : result unit StorageError :=
  let? _ := refuse_if (512 <? str_len value)
    (invalid_preference "preference value is too long") in
  refuse_if (contains_forbidden_preference_marker value || preference_looks_like_ipv4 value ||
             looks_like_hostname value)
    (invalid_preference ("preference `" ++ key ++ "` contains security-relevant data")%string).
(* [storage/src/session.rs] validate_preference *)
Definition validate_preference (key value : string) : result unit StorageError :=
  let? _ := validate_preference_key key in
  validate_preference_value key value.

(* [storage/src/session.rs] PreferencesStore::read_document *)
Definition read_document (self : PreferencesStore) : IO StorageError PreferencesDocument :=
  let~ found := path_exists (pst_path self) in
  if negb found then io_ret preferences_document_default
  else
    let~ content := storage_io (fs_read_to_string (pst_path self)) in
    if blank content then io_ret preferences_document_default
    else io_of (map_err SeSerialization (preferences_of_text content)).
(* [storage/src/session.rs] PreferencesStore::write_document *)
Definition write_document (self : PreferencesStore) (document : PreferencesDocument)
    : IO StorageError unit :=
  let~ _ := match path_parent (pst_path self) with
            | Some parent => storage_io (fs_create_dir_all parent)
            | None => io_ret tt
            end in
  let~ text := io_of (map_err SeSerialization (preferences_to_text document)) in
  storage_io (fs_write (pst_path self) text).
Definition with_record (document : PreferencesDocument) (key value updated_at : string)
    : PreferencesDocument :=
  mkPreferencesDocument (pfd_schema_version document)
    (<[key := mkPreference key value updated_at]> (pfd_records document)).
(* [storage/src/session.rs] PreferencesStore::set *)
Definition preference_set (self : PreferencesStore) (key value : string)
    : IO StorageError unit :=
  let~ _ := io_of (validate_preference key value) in
  let~ document := read_document self in
  let~ updated_at := io_lift now in
  write_document self (with_record document key value (timestamp_to_string updated_at)).
(* [storage/src/session.rs] PreferencesStore::get *)
Definition preference_get (self : PreferencesStore) (key : string)
    : IO StorageError (option string) :=
  let~ _ := io_of (validate_preference_key key) in
  let~ document := read_document self in
  io_ret (prf_value <$> pfd_records document !! key).
End resolver.
