(* ===== verification/SessionFacts.v ===== *)
(** * What the clean-up of sessions may remove, and what the end of a session leaves

    [session_directory]: what the clean-up has to recognise before it removes a directory.
    The clean-up removes nothing else ([cleanup_safe], [cleanup_removes_only_sessions]); a
    session that ends leaves no directory ([ended_session_is_gone]); the preferences of the
    installed profile read back as they were set ([preference_set_get]). *)

From S2P Require Import Prelude Collections RustStr Effects Contracts Checks Json.
From S2P Require Import StorageTypes StorageDb FileSystem FileSystemFacts PortablePreferences.
From S2P Require Import Session SessionLifecycle.

#[local] Open Scope string_scope.
#[local] Open Scope list_scope.
#[local] Open Scope N_scope.

Section facts.
Context `{Externals} `{StorageText} `{UuidText} `{SessionText} `{SessionEnv} `{IoText}
  `{DirOrder} `{JsonText} `{JsonNumber}.

(* ------------------------------------------------------------------ *)
(** ** Session directories *)

(** A document with the marker of a session that is to be discarded. *)
Definition session_marker (fs : FileSystem) (path : Path) (id : Uuid) : Prop :=
  ∃ place text marker, resolve fs path = Ok place ∧ node_of fs place = Some (Document text) ∧
    marker_of_text text = Ok marker ∧ mrk_session_id marker = id ∧
    mrk_marker marker = SESSION_MARKER_VALUE ∧ mrk_version marker = SESSION_MARKER_VERSION ∧
    mrk_session_mode marker ∈ ["ephemeral"; "portable-no-retention"].
(** The directory [dir] is at [place], under the root; its name is the identifier of its
    marker, in version 4; all it holds are files of a session, none of them elsewhere. *)
Record session_directory (fs : FileSystem) (root dir place : Path) (id : Uuid) : Prop := {
  sdir_name : path_file_name dir = Some (uuid_to_string id) ∧
              parse_uuid_v4 (uuid_to_string id) = Some id;
  sdir_marker : session_marker fs (path_join dir SESSION_MARKER_FILE_NAME) id;
  sdir_children : ∀ name, is_Some (fs !! path_join place name) →
    is_known_session_file name = true ∧ fs !! path_join place name ≠ Some Folder;
  sdir_within : ∃ r, resolve fs root = Ok r ∧ r `prefix_of` place ∧
    ∀ name, is_Some (fs !! path_join place name) →
      ∃ q, resolve fs (path_join dir name) = Ok q ∧ r `prefix_of` q
}.

Lemma refuse_unless_ok {E} (b : bool) (e : E) : refuse_if (negb b) e = Ok tt → b = true.
Proof. by destruct b. Qed.
Lemma sees_read_text path : sees (fs_read_to_string path) (λ fs text,
  ∃ place, resolve fs path = Ok place ∧ node_of fs place = Some (Document text)).
Proof.
  intros s text s' [Hfs Hread]%sees_inspect. split; [done|].
  apply res_bind_ok in Hread as (place & Hplace & Hread). exists place. split; [done|].
  destruct (node_of (io_fs s) place) as [[]|]; simplify_eq. done.
Qed.
Lemma sees_marker dir : sees (marker_read_from_dir dir) (λ fs marker,
  mrk_marker marker = SESSION_MARKER_VALUE ∧ mrk_version marker = SESSION_MARKER_VERSION ∧
  ∃ place text, resolve fs (path_join dir SESSION_MARKER_FILE_NAME) = Ok place ∧
    node_of fs place = Some (Document text) ∧ marker_of_text text = Ok marker).
Proof.
  intros s marker s' Hrun.
  destruct (sees_bind _ _ _ _ (sees_map_err _ _ _ (sees_read_text _)) (λ text,
    sees_bind _ _ _ _ (sees_of _) (λ marker, sees_bind _ _ _ _ (sees_of _)
      (λ _, sees_ret marker))) _ _ _ Hrun)
    as (Hfs & text & (place & Hplace & Hnode) & parsed & Hparse & [] & Hcheck & ->).
  split; [done|].
  destruct (marker_of_text text) as [marker'|] eqn:Htext; [|done]. injection Hparse as ->.
  unfold refuse_if in Hcheck. case_bool_decide as Hvalue; [|done].
  destruct (N.eqb_spec (mrk_version parsed) SESSION_MARKER_VERSION) as [Hversion|]; [|done].
  eauto 10.
Qed.
Lemma sees_child dir name : sees (validate_child dir name) (λ fs child,
  child = (path_join dir name, name) ∧ is_known_session_file name = true ∧
  node_at fs (path_join dir name) ≠ Ok Folder).
Proof.
  intros s child s' Hrun.
  destruct (sees_bind _ _ _ _ (sees_map_err _ _ _ (sees_inspect _)) (λ child,
    sees_bind _ _ _ _ (sees_map_err _ _ _ (sees_inspect _)) (λ metadata,
      sees_bind _ _ _ _ (sees_of _) (λ _, sees_bind _ _ _ _ (sees_of _)
        (λ _, sees_ret (path_join dir child, child))))) _ _ _ Hrun)
    as (Hfs & read & [= <-] & metadata & Hmeta & [] & Hfolder & [] & Hknown & ->).
  apply refuse_unless_ok in Hknown. unfold refuse_if in Hfolder.
  case_bool_decide; [done|]. split; [done|]. split_and!; [done|done|]. congruence.
Qed.
(** [canonicalize(file)?.starts_with(&root)] *)
Lemma sees_within_root (dir r file : Path) :
  sees (let~ canonical := or_cleanup_error dir "path_traversal" (fs_canonicalize file) in
        io_of (refuse_if (negb (path_starts_with canonical r))
          (cleanup_error dir "path_traversal")))
    (λ fs _, ∃ q, resolve fs file = Ok q ∧ r `prefix_of` q).
Proof.
  intros s [] s' (Hfs & q & Hq & Hpre)%(sees_bind _ _ _ _
    (sees_map_err _ _ _ (sees_inspect _)) (λ q, sees_of _)).
  apply refuse_unless_ok, bool_decide_eq_true in Hpre. eauto.
Qed.
Lemma sees_within root dir files : sees (validate_cleanup_paths root dir files) (λ fs _,
  ∃ r place, resolve fs root = Ok r ∧ resolve fs dir = Ok place ∧ r `prefix_of` place ∧
    Forall (λ file, ∃ q, resolve fs file = Ok q ∧ r `prefix_of` q) files).
Proof.
  intros s [] s' Hrun.
  destruct (sees_bind _ _ _ _ (sees_map_err _ _ _ (sees_inspect _)) (λ r,
    sees_bind _ _ _ _ (sees_map_err _ _ _ (sees_inspect _)) (λ place,
      sees_bind _ _ _ _ (sees_of _) (λ _, sees_each _ _ _ (sees_within_root dir r))))
    _ _ _ Hrun) as (Hfs & r & Hr & place & Hplace & [] & Hpre & Hfiles).
  apply refuse_unless_ok, bool_decide_eq_true in Hpre. split; [done|]. by exists r, place.
Qed.

Lemma sees_validated {E} marker files names :
  sees (let '(files, file_names) := marker_file_last files names in
        io_ret (mkValidated marker files file_names) : IO E ValidatedSessionDirectory)
    (λ _ validated, vsd_marker validated = marker).
Proof.
  intros s v s'. destruct (marker_file_last files names) as [files' names'].
  by intros [= <- <-].
Qed.

(** Every name was checked. *)
Lemma children_checked fs r dir names (children : list (Path * string)) :
  Forall2 (λ name child, child = (path_join dir name, name) ∧
    is_known_session_file name = true ∧ node_at fs (path_join dir name) ≠ Ok Folder)
    names children →
  Forall (λ file, ∃ q, resolve fs file = Ok q ∧ r `prefix_of` q) children.*1 →
  ∀ name, name ∈ names → is_known_session_file name = true ∧
    node_at fs (path_join dir name) ≠ Ok Folder ∧
    ∃ q, resolve fs (path_join dir name) = Ok q ∧ r `prefix_of` q.
Proof.
  induction 1 as [|name child names children (-> & Hknown & Hnode) _ IH]; [by inversion 2|].
  rewrite fmap_cons, Forall_cons. intros [Hq Hfiles] other [->|Hin]%elem_of_cons; auto.
Qed.
Lemma node_at_join fs dir place name :
  resolve fs dir = Ok place → node_of fs place = Some Folder →
  node_at fs (path_join dir name) =
  match fs !! path_join place name with Some node => Ok node | None => Err IoNotFound end.
Proof.
  intros Hdir Hfolder. unfold node_at. rewrite locate_join, Hdir. cbn [res_bind].
  rewrite bool_decide_eq_true_2 by done. cbn [res_bind]. by rewrite node_of_join.
Qed.

(** What was validated is a session directory. *)
Lemma validated_directory root dir place s validated s' :
  locate (io_fs s) dir = Ok place → node_of (io_fs s) place = Some Folder →
  validate_session_directory_with_root root dir s = (Ok validated, s') →
  io_fs s' = io_fs s ∧
  session_directory (io_fs s) root dir place (mrk_session_id (vsd_marker validated)).
Proof.
  intros Hplace Hfolder Hrun.
  pose proof (sees_bind _ _ _ _ (sees_of _) (λ dir_name,
    sees_bind _ _ _ _ (sees_of _) (λ session_id,
    sees_bind _ _ _ _ (sees_exists _) (λ found,
    sees_bind _ _ _ _ (sees_of _) (λ _,
    sees_bind _ _ _ _ (sees_map_err _ _ _ (sees_marker dir)) (λ marker,
    sees_bind _ _ _ _ (sees_of _) (λ _,
    sees_bind _ _ _ _ (sees_of _) (λ _,
    sees_bind _ _ _ _ (sees_map_err _ _ _ (sees_inspect _)) (λ names,
    sees_bind _ _ _ _ (sees_map _ _ _ (sees_child dir)) (λ children,
    sees_bind _ _ _ _ (sees_within root dir _) (λ _,
    sees_validated marker children.*1 children.*2)))))))))) _ _ _ Hrun)
    as (Hfs & name & Hname & id & Hid & found & _ & [] & _ & marker
        & (Hval & Hver & mplace & text & Hmplace & Hmnode & Hparse) & [] & Hsame & [] & Hvalid
        & names & Hnames & children & Hchildren & [] & (r & place' & Hr & Hp & Hpre & Hfiles)
        & ->).
  split; [done|].
  assert (path_file_name dir = Some name) as Hlast by (destruct (path_file_name dir); by simplify_eq/=).
  destruct (parse_uuid_v4 name) as [id'|] eqn:Hparsed; [|done]. injection Hid as ->.
  apply refuse_unless_ok, bool_decide_eq_true in Hsame as <-.
  apply refuse_unless_ok in Hvalid. unfold marker_is_valid_for_dir in Hvalid.
  rewrite !andb_true_iff, !bool_decide_eq_true in Hvalid.
  destruct Hvalid as [[[Hdir _] _] Hmode]. rewrite Hlast in Hdir. injection Hdir as ->.
  apply last_Some in Hlast as [parent ->].
  pose proof (resolve_located _ _ _ _ Hplace) as Hres. rewrite Hfolder in Hres.
  unfold path_join in Hres at 1. rewrite Hp in Hres. injection Hres as ->.
  rewrite Hp in Hnames. cbn [res_bind] in Hnames. rewrite Hfolder in Hnames.
  injection Hnames as <-.
  pose proof (children_checked _ _ _ _ _ Hchildren Hfiles) as Hchecked.
  assert (∀ name, is_Some (io_fs s !! path_join place name) →
    name ∈ names_in (io_fs s) place) as Hin by (intros name; apply elem_of_names_in).
  split.
  - split; [apply last_snoc|done].
  - by exists mplace, text, marker.
  - intros name [Hknown [Hnode _]]%Hin%Hchecked. split; [done|].
    rewrite (node_at_join _ _ _ _ Hp Hfolder) in Hnode. destruct (_ !! _); congruence.
  - exists r. split_and!; [done..|]. by intros name (_ & _ & Hq)%Hin%Hchecked.
Qed.

(* ------------------------------------------------------------------ *)
(** ** Cleaning up *)

(** The audit log grew, its folders being created where they were missing. *)
Definition log_grows (log : Path) (fs fs' : FileSystem) : Prop :=
  ∃ fs1, more_folders fs fs1 ∧
    (fs' = fs1 ∨ ∃ place text, write_place MAX_LINKS fs1 log = Ok place ∧
      fs' = <[place := Document (text_of (node_of fs1 place) ++ text)%string]> fs1).
Definition audited (audit_root : option Path) (fs fs' : FileSystem) : Prop :=
  match audit_root with
  | Some audit_root => log_grows (path_join audit_root CLEANUP_AUDIT_FILE_NAME) fs fs'
  | None => fs' = fs
  end.
Definition at_session (fs : FileSystem) (root dir place : Path) (id : Uuid) : Prop :=
  locate fs dir = Ok place ∧ node_of fs place = Some Folder ∧
  session_directory fs root dir place id.

(** What happens with one entry of the root. *)
Inductive entry_outcome (root : Path) (audit_root : option Path) (dry_run : bool) (dir : Path)
    (fs fs' : FileSystem) (cleaned : list CleanupEntry) : list CleanupEntry → Prop :=
  | outcome_left : fs' = fs → entry_outcome root audit_root dry_run dir fs fs' cleaned cleaned
  | outcome_planned place entry :
      dry_run = true → fs' = fs → cle_path entry = dir →
      at_session fs root dir place (cle_session_id entry) →
      entry_outcome root audit_root dry_run dir fs fs' cleaned (cleaned ++ [entry])
  | outcome_failed place id :
      dry_run = false → at_session fs root dir place id → removed_below place fs fs' →
      entry_outcome root audit_root dry_run dir fs fs' cleaned cleaned
  | outcome_removed place entry :
      dry_run = false → cle_path entry = dir →
      at_session fs root dir place (cle_session_id entry) →
      audited audit_root (without fs place) fs' →
      entry_outcome root audit_root dry_run dir fs fs' cleaned (cleaned ++ [entry]).

Lemma append_cleanup_audit_grows audit_root event s r s' :
  append_cleanup_audit audit_root event s = (r, s') →
  log_grows (path_join audit_root CLEANUP_AUDIT_FILE_NAME) (io_fs s) (io_fs s').
Proof.
  unfold append_cleanup_audit, storage_io.
  intros [([] & s1 & Hc & Hrun)|(e & Hc & ->)]%io_bind_inv;
    apply io_map_err_inv in Hc as (r0 & Hc & _);
    apply fs_create_dir_all_inv in Hc as [_ Hmore]; [|by exists (io_fs s'); auto].
  exists (io_fs s1). split; [done|]. apply io_map_err_inv in Hrun as (r1 & Ha & _).
  apply fs_append_line_inv in Ha as [_ [[-> _]|(place & text & Hp & Hfs & _)]]; [by left|].
  right. by exists place, text.
Qed.
Lemma looks_entry {E} (name : string) : looks (io_try (next_entry name) : IO E _).
Proof. apply looks_try, looks_inspect. Qed.
Lemma looks_validate root dir : looks (validate_session_directory_with_root root dir).
Proof. unfold validate_session_directory_with_root. looks. Qed.

Lemma node_at_inv fs path node :
  node_at fs path = Ok node → ∃ place, locate fs path = Ok place ∧ node_of fs place = Some node.
Proof.
  intros (place & Hplace & Hnode)%res_bind_ok. exists place. split; [done|].
  by destruct (node_of fs place); simplify_eq.
Qed.

(** After a removal: the audit and the report. *)
Lemma removal_audited {E} audit_root report path entry s (r : result CleanupReport E) s' :
  (let~ report :=
     match audit_root with
     | None => io_ret report
     | Some audit_root =>
         let~ event := io_lift (cleanup_audit_event entry) in
         let~ written := io_try (append_cleanup_audit audit_root event) in
         io_ret
           match written with
           | Ok _ => report
           | Err error => push_error report (mkCleanupError path
               (sanitized_cleanup_error_reason "audit_write_failed"
                  (storage_error_to_string error)))
           end
     end in
   io_ret (push_cleaned report entry)) s = (r, s') →
  ∃ report', r = Ok report' ∧ clr_cleaned report' = clr_cleaned report ++ [entry] ∧
    audited audit_root (io_fs s) (io_fs s').
Proof.
  destruct audit_root as [audit_root|]; [|intros [= <- <-]; by eexists].
  intros [(report1 & s1 & Haudit & [= <- <-])|(e & Haudit & _)]%io_bind_inv.
  - apply io_bind_inv in Haudit as [(event & s2 & Hevent & Haudit)|(e & Hevent & ?)]; [|done].
    pose proof (looks_run _ _ _ _ (looks_lift _) Hevent) as [<- _].
    apply io_try_inv in Haudit as (written & s3 & Hwritten & [= <- <-]).
    apply append_cleanup_audit_grows in Hwritten.
    eexists. split; [done|]. by destruct written.
  - apply io_bind_inv in Haudit as [(event & s2 & Hevent & Haudit)|(e' & Hevent & ?)].
    + by apply io_try_inv in Haudit as (written & s3 & Hwritten & [= ?]).
    + unfold io_lift in Hevent. by destruct (cleanup_audit_event entry _).
Qed.

(** One entry. *)
Lemma cleanup_entry_outcome {E} root audit_root dry_run report name s (r : result CleanupReport E) s' :
  cleanup_entry root audit_root dry_run report name s = (r, s') →
  ∃ report', r = Ok report' ∧
    entry_outcome root audit_root dry_run (path_join root name) (io_fs s) (io_fs s')
      (clr_cleaned report) (clr_cleaned report').
Proof.
  unfold cleanup_entry. intros (x & s1 & Hentry & Hrun)%io_try_inv.
  pose proof (looks_run _ _ _ _ (looks_inspect _) Hentry) as [Hfs1 _].
  destruct x as [name'|]; [|injection Hrun as <- <-; eexists; split; [done|by constructor]].
  apply inspect_ok in Hentry as [= <-].
  apply io_try_inv in Hrun as (file_type & s2 & Hmeta & Hrun).
  pose proof (looks_run _ _ _ _ (looks_inspect _) Hmeta) as [Hfs2 _].
  rewrite Hfs1 in Hfs2.
  destruct file_type as [[| |]|];
    try (injection Hrun as <- <-; eexists; split; [done|by constructor]).
  apply inspect_ok, node_at_inv in Hmeta as (place & Hplace & Hfolder).
  rewrite Hfs1 in Hplace, Hfolder.
  apply io_try_inv in Hrun as (validated & s3 & Hvalid & Hrun).
  pose proof (looks_run _ _ _ _ (looks_validate _ _) Hvalid) as [Hfs3 _].
  rewrite Hfs2 in Hfs3.
  destruct validated as [validated|error].
  2:{ injection Hrun as <- <-. eexists. split; [done|]. case_bool_decide; by constructor. }
  assert (at_session (io_fs s) root (path_join root name) place
    (mrk_session_id (vsd_marker validated))) as Hat.
  { rewrite <- Hfs2 in Hplace, Hfolder.
    destruct (validated_directory _ _ _ _ _ _ Hplace Hfolder Hvalid) as [_ Hdir].
    by rewrite Hfs2 in Hplace, Hfolder, Hdir. }
  destruct dry_run.
  { injection Hrun as <- <-. eexists. split; [done|]. by eapply outcome_planned. }
  apply io_try_inv in Hrun as (deleted & s4 & Hdel & Hrun).
  apply io_map_err_inv in Hdel as (r0 & Hdel & ->).
  apply fs_remove_dir_all_inv in Hdel as [_ Hdel]. rewrite Hfs3, Hplace in Hdel.
  destruct Hdel as [Hbelow Hdel], r0 as [[]|e]; simpl in Hrun.
  2:{ injection Hrun as <- <-. eexists. split; [done|]. by eapply outcome_failed. }
  destruct Hdel as [[_ Hwithout]|[(target & Hlink) _]]; [|congruence].
  apply removal_audited in Hrun as (report' & -> & Hcleaned & Haudited).
  rewrite Hwithout in Haudited. eexists. split; [done|]. rewrite Hcleaned.
  by eapply outcome_removed.
Qed.

(** The loop. *)
Inductive entries_outcome (root : Path) (audit_root : option Path) (dry_run : bool)
    : list string → FileSystem → list CleanupEntry → FileSystem → list CleanupEntry → Prop :=
  | entries_nil fs cleaned : entries_outcome root audit_root dry_run [] fs cleaned fs cleaned
  | entries_cons name names fs1 fs2 fs3 cleaned1 cleaned2 cleaned3 :
      entry_outcome root audit_root dry_run (path_join root name) fs1 fs2 cleaned1 cleaned2 →
      entries_outcome root audit_root dry_run names fs2 cleaned2 fs3 cleaned3 →
      entries_outcome root audit_root dry_run (name :: names) fs1 cleaned1 fs3 cleaned3.
Lemma cleanup_entries_outcome {E} root audit_root dry_run names :
  ∀ report s (r : result CleanupReport E) s',
  cleanup_entries root audit_root dry_run report names s = (r, s') →
  ∃ report', r = Ok report' ∧ entries_outcome root audit_root dry_run names
    (io_fs s) (clr_cleaned report) (io_fs s') (clr_cleaned report').
Proof.
  induction names as [|name names IH]; intros report s r s'; cbn [cleanup_entries].
  { intros [= <- <-]. eexists. split; [done|constructor]. }
  intros [(report1 & s1 & He & Hrun)|(e & He & _)]%io_bind_inv;
    apply cleanup_entry_outcome in He as (report2 & Hr & He); [|done].
  injection Hr as ->. apply IH in Hrun as (report' & -> & Hrun).
  eexists. split; [done|]. by econstructor.
Qed.
(** What the whole clean-up comes to. *)
Lemma cleanup_outcome {E} root audit_root dry_run s (r : result CleanupReport E) s' :
  cleanup_abandoned_sessions_impl root audit_root dry_run s = (r, s') →
  ∃ report names, r = Ok report ∧ NoDup names ∧ entries_outcome root audit_root dry_run names
    (io_fs s) [] (io_fs s') (clr_cleaned report).
Proof.
  unfold cleanup_abandoned_sessions_impl.
  intros [(found & s1 & Hfound & Hrun)|(e & Hfound & _)]%io_bind_inv.
  2:{ unfold path_exists, io_bind, io_try in Hfound. by destruct (fs_canonicalize root s). }
  apply (looks_run _ _ _ _ (looks_exists _)) in Hfound as [<- _].
  destruct found; simpl in Hrun;
    [|injection Hrun as <- <-; eexists _, []; split_and!; [done|constructor|constructor]].
  apply io_try_inv in Hrun as (entries & s2 & Hread & Hrun).
  pose proof (looks_run _ _ _ _ (looks_inspect _) Hread) as [<- _].
  destruct entries as [names|];
    [|injection Hrun as <- <-; eexists _, []; split_and!; [done|constructor|constructor]].
  apply inspect_ok in Hread. apply cleanup_entries_outcome in Hrun as (report & -> & Hrun).
  exists report, names. split_and!; [done| |done].
  apply res_bind_ok in Hread as (place & _ & Hnames).
  destruct (node_of (io_fs s1) place) as [[]|]; simplify_eq. apply names_in_NoDup.
Qed.

(** The removal of (a part of) one session directory, and its record in the audit. *)
Definition session_removed (root : Path) (audit_root : option Path) (fs fs' : FileSystem) : Prop :=
  ∃ name place id fs1, at_session fs root (path_join root name) place id ∧
    removed_below place fs fs1 ∧ (fs' = fs1 ∨ audited audit_root fs1 fs').

(** The clean-up at a start is safe, whatever the files and links under the root, whatever
    calls fail and at whatever point it stops: every change to the files is the removal of
    files below a directory that at that moment is recognised as the directory of a session
    that is to be discarded -- and a line in the audit log. A dry run changes nothing. The
    clean-up always returns a report. *)
Theorem cleanup_safe {E} root audit_root dry_run s (r : result CleanupReport E) s' :
  cleanup_abandoned_sessions_impl root audit_root dry_run s = (r, s') →
  rtc (session_removed root audit_root) (io_fs s) (io_fs s') ∧
  (dry_run = true → io_fs s' = io_fs s) ∧ is_ok r = true.
Proof.
  intros (report & names & -> & _ & Hout)%cleanup_outcome. split_and!; [| |done].
  - induction Hout as [|name names fs1 fs2 fs3 c1 c2 c3 Hentry _ IH]; [done|].
    etransitivity; [|exact IH]. destruct Hentry as [->| ? ? _ -> _ _|place id _ Hat Hbelow
      |place entry _ _ Hat Haudit]; try done; apply rtc_once; exists name.
    + exists place, id, fs2. auto.
    + exists place, (cle_session_id entry), (without fs1 place). split_and!; [done| |auto].
      by apply removed_filter.
  - intros ->. induction Hout as [|name names fs1 fs2 fs3 c1 c2 c3 Hentry _ IH]; [done|].
    rewrite IH. by destruct Hentry.
Qed.

(* ------------------------------------------------------------------ *)
(** ** Against the disk before the clean-up *)

Lemma session_marker_weaken fs1 fs2 path id :
  fs1 ⊆ fs2 → session_marker fs1 path id → session_marker fs2 path id.
Proof.
  intros Hsub (place & text & marker & Hplace & Hnode & Hrest). exists place, text, marker.
  split; [exact (resolve_weaken _ _ Hsub _ _ _ _ Hplace)|].
  split; [exact (node_of_weaken _ _ _ _ Hsub Hnode)|done].
Qed.
Lemma at_session_weaken fs1 fs2 root dir place id :
  fs1 ⊆ fs2 → (∀ name, fs1 !! path_join place name = fs2 !! path_join place name) →
  at_session fs1 root dir place id → at_session fs2 root dir place id.
Proof.
  intros Hsub Hsame (Hplace & Hfolder & [Hname Hmarker Hchildren (r & Hr & Hpre & Hfiles)]).
  split; [by eapply locate_weaken|]. split; [by eapply node_of_weaken|]. split.
  - done.
  - by eapply session_marker_weaken.
  - intros name. rewrite <- Hsame. apply Hchildren.
  - exists r. split; [by apply (resolve_weaken _ _ Hsub)|]. split; [done|].
    intros name. rewrite <- Hsame. intros (q & Hq & Hin)%Hfiles. exists q.
    split; [by apply (resolve_weaken _ _ Hsub)|done].
Qed.

(** What was removed so far, of [fs0], and what was not looked at. *)
Record removal_invariant (root : Path) (fs0 : FileSystem) (names : list string)
    (fs : FileSystem) (cleaned : list CleanupEntry) : Prop := {
  ri_changed : ∀ path, fs !! path = fs0 !! path ∨ ((fs !! path = None) ∧
    ∃ name place id, (name ∉ names) ∧ at_session fs0 root (path_join root name) place id ∧
      (place `prefix_of` path));
  ri_cleaned : Forall (λ entry, ∃ place,
    at_session fs0 root (cle_path entry) place (cle_session_id entry) ∧
    ∀ path, place `prefix_of` path → fs !! path = None) cleaned
}.
Lemma ri_subseteq root fs0 names fs cleaned :
  removal_invariant root fs0 names fs cleaned → fs ⊆ fs0.
Proof.
  intros [Hchanged _]. apply map_subseteq_spec. intros path node Hnode.
  destruct (Hchanged path) as [<-|[Hnone _]]; [done|congruence].
Qed.
(** The place of a session directory is below the place of the root. *)
Lemma at_session_place fs root name place id :
  at_session fs root (path_join root name) place id →
  ∃ r, resolve fs root = Ok r ∧ place = path_join r name.
Proof.
  intros (Hplace & _). rewrite locate_join in Hplace.
  apply res_bind_ok in Hplace as (r & Hr & Hplace). case_bool_decide; [|done].
  injection Hplace as <-. eauto.
Qed.
Lemma ri_weaken root fs0 names name fs cleaned :
  removal_invariant root fs0 (name :: names) fs cleaned →
  removal_invariant root fs0 names fs cleaned.
Proof.
  intros [Hchanged Hcleaned]. split; [|done]. intros path.
  destruct (Hchanged path) as [?|(? & other & place & id & Hnin & ?)]; [by left|right].
  split; [done|]. exists other, place, id. split; [|done]. intros Hin. apply Hnin. by right.
Qed.
(** A directory whose turn it is is as it was. *)
Lemma ri_at_session root fs0 names name fs cleaned place id :
  removal_invariant root fs0 (name :: names) fs cleaned →
  at_session fs root (path_join root name) place id →
  at_session fs0 root (path_join root name) place id.
Proof.
  intros Hinv Hat. pose proof (ri_subseteq _ _ _ _ _ Hinv) as Hsub.
  apply (at_session_weaken _ _ _ _ _ _ Hsub); [|done]. intros child.
  apply at_session_place in Hat as (r & Hr & ->).
  destruct (ri_changed _ _ _ _ _ Hinv (path_join (path_join r name) child))
    as [?|(_ & other & place & id' & Hnin & Hat' & Hpre)]; [done|].
  apply at_session_place in Hat' as (r' & Hr' & ->).
  apply (resolve_weaken _ _ Hsub) in Hr. unfold resolve in Hr'.
  rewrite Hr in Hr'. injection Hr' as <-.
  destruct Hnin. unfold path_join in Hpre. rewrite <- app_assoc in Hpre.
  apply prefix_app_inv, prefix_cons_inv_1 in Hpre as ->. by left.
Qed.
Lemma ri_removed root fs0 names name fs fs' cleaned place id :
  removal_invariant root fs0 (name :: names) fs cleaned → name ∉ names →
  at_session fs0 root (path_join root name) place id →
  removed_below place fs fs' → removal_invariant root fs0 names fs' cleaned.
Proof.
  intros Hinv Hnin Hat Hbelow. pose proof (removed_subseteq _ _ _ Hbelow) as Hsub.
  apply ri_weaken in Hinv. destruct Hinv as [Hchanged Hcleaned]. split.
  - intros path. destruct (Hbelow path) as [->|[Hpre Hnone]]; [apply Hchanged|].
    right. split; [done|]. by exists name, place, id.
  - eapply Forall_impl; [exact Hcleaned|]. intros entry (q & Hq & Hgone). exists q. split; [done|].
    intros path Hpath%Hgone. destruct (fs' !! path) as [node|] eqn:Hnode; [|done].
    apply (lookup_weaken _ _ _ _ Hnode) in Hsub. congruence.
Qed.
Lemma entries_outcome_invariant root fs0 dry_run names fs cleaned fs' cleaned' :
  dry_run = false →
  entries_outcome root None dry_run names fs cleaned fs' cleaned' → NoDup names →
  removal_invariant root fs0 names fs cleaned → removal_invariant root fs0 [] fs' cleaned'.
Proof.
  intros Hdry. induction 1 as [|name names fs1 fs2 fs3 c1 c2 c3 Hentry _ IH]; [done|].
  rewrite NoDup_cons. intros [Hnin Hnd] Hinv. apply IH; [done|].
  destruct Hentry as [->| ? ? ? |place id _ Hat Hbelow|place entry _ Hpath Hat Haudit];
    [by eapply ri_weaken|congruence| |].
  - pose proof (ri_at_session _ _ _ _ _ _ _ _ Hinv Hat) as Hat0. by eapply ri_removed.
  - pose proof (ri_at_session _ _ _ _ _ _ _ _ Hinv Hat) as Hat0. simpl in Haudit. subst fs2.
    assert (removed_below place fs1 (without fs1 place)) as Hbelow by by apply removed_filter.
    destruct (ri_removed _ _ _ _ _ _ _ _ _ Hinv Hnin Hat0 Hbelow) as [Hchanged Hcleaned].
    split; [done|]. apply Forall_app. split; [done|]. apply Forall_singleton.
    exists place. rewrite Hpath. split; [done|]. intros path Hpre.
    apply map_lookup_filter_None. right. intros node _ Hnot. by apply Hnot.
Qed.

(** C10. Compared with the disk before it, a clean-up without audit has removed nothing but
    what was in directories of sessions to be discarded, and every directory its report calls
    cleaned was one and is gone, with all that was below it. *)
Theorem cleanup_removes_only_sessions {E} root s (report : CleanupReport) s' :
  cleanup_without_audit root false s = (Ok report : result _ E, s') →
  (∀ path, io_fs s' !! path = io_fs s !! path ∨ (io_fs s' !! path = None ∧
    ∃ name place id, at_session (io_fs s) root (path_join root name) place id ∧
      place `prefix_of` path)) ∧
  Forall (λ entry, ∃ place,
    at_session (io_fs s) root (cle_path entry) place (cle_session_id entry) ∧
    ∀ path, place `prefix_of` path → io_fs s' !! path = None) (clr_cleaned report).
Proof.
  intros (report' & names & [= <-] & Hnd & Hout)%cleanup_outcome.
  apply (entries_outcome_invariant root (io_fs s)) in Hout as [Hchanged Hcleaned]; [|done..|].
  - split; [|done]. intros path.
    destruct (Hchanged path) as [?|(Hnone & name & place & id & _ & Hat)]; [by left|right].
    split; [done|]. by exists name, place, id.
  - split; [by left|constructor].
Qed.

(* ------------------------------------------------------------------ *)
(** ** Starting and ending *)

Lemma keeps_audit root event : changes keeps_dirs (append_session_audit root event).
Proof.
  apply changes_bind; [apply _|apply changes_map_err, keeps_create_dir|].
  intros _. apply changes_map_err, keeps_append.
Qed.
Lemma faults_audit root event s r s' :
  append_session_audit root event s = (r, s') → io_faults s' = io_faults s.
Proof.
  intros [([] & s1 & Hc & Hrun)|(e & Hc & _)]%io_bind_inv;
    apply io_map_err_inv in Hc as (r0 & [Hf _]%fs_create_dir_all_inv & _); [|done].
  apply io_map_err_inv in Hrun as (r1 & [Hf' _]%fs_append_line_inv & _). congruence.
Qed.

(** What an audit entry does to the disk: folders may be made on the way to the log, and the
    document the log's path leads to may get longer; nothing else changes. *)
Definition audit_appended (log : Path) (fs fs' : FileSystem) : Prop :=
  ∃ fs1, more_folders fs fs1 ∧
    (fs' = fs1 ∨ ∃ place text, write_place MAX_LINKS fs1 log = Ok place ∧
       fs' = <[place := Document (text_of (node_of fs1 place) ++ text)%string]> fs1).
Lemma audit_run root event s r s' :
  append_session_audit root event s = (r, s') →
  audit_appended (path_join root SESSION_AUDIT_FILE_NAME) (io_fs s) (io_fs s').
Proof.
  intros [([] & s1 & Hc & Hrun)|(e & Hc & _)]%io_bind_inv;
    apply io_map_err_inv in Hc as (r0 & [_ Hmore]%fs_create_dir_all_inv & _);
    [|exists (io_fs s'); split; [done|by left]].
  exists (io_fs s1). split; [done|].
  apply io_map_err_inv in Hrun as (r1 & [_ Hrun]%fs_append_line_inv & _).
  destruct Hrun as [[-> _]|(place & text & Hplace & -> & _)]; [by left|right].
  by exists place, text.
Qed.

(** The end of a session that is to be discarded. *)
Lemma end_discards {E} self parent name q s :
  calm s → slc_ended self = false →
  discards_on_shutdown (ssc_session_mode (slc_config self)) = true →
  ssc_session_root (slc_config self) = path_join parent name →
  dir_at (io_fs s) (path_join parent name) q →
  ∃ ended s' place,
    lifecycle_end self s = (Ok ended : result _ E, s') ∧
    slc_config ended = slc_config self ∧
    is_ok (resolve (io_fs s') (path_join parent name)) = false ∧
    locate (io_fs s) (path_join parent name) = Ok place ∧
    (node_of (io_fs s) place = Some Folder →
     ∀ path, place `prefix_of` path → io_fs s' !! path = None) ∧
    (∃ logged, audit_appended (path_join (session_audit_root self) SESSION_AUDIT_FILE_NAME)
       (io_fs s) logged ∧
     ∀ path, ¬ place `prefix_of` path → io_fs s' !! path = logged !! path) ∧
    (∀ s'', lifecycle_end ended s'' = (Ok ended : result _ E, s'')).
Proof.
  intros Hs Hended Hdiscard Hroot Hdir. unfold lifecycle_end at 1, lifecycle_finish.
  rewrite Hended, Hdiscard, Hroot. cbn [negb].
  unfold io_bind at 1, io_lift, now.
  set (s1 := mkIo _ _ _ _). unfold io_bind at 1, io_try at 1.
  destruct (append_session_audit _ _ s1) as [ra s2] eqn:Haudit.
  pose proof (changes_run _ _ _ _ _ (keeps_audit _ _) Haudit) as [Hkeep _].
  assert (calm s2) as Hs2 by (intros n; rewrite (faults_audit _ _ _ _ _ Haudit); apply Hs).
  destruct (remove_dir_all_gone _ _ _ _ Hs2 (Hkeep _ _ Hdir))
    as (s' & Hremove & Hgone & place & Hplace & Hbelow & Hall).
  unfold io_bind, io_try. rewrite Hremove. cbn.
  destruct (dir_at_located _ _ _ _ Hdir) as (place0 & Hplace0 & _).
  assert (place = place0) as ->.
  { rewrite locate_join in Hplace0. apply res_bind_ok in Hplace0 as (folder & Hfolder & Hplace0).
    case_bool_decide as Hn; [|done]. destruct (Hkeep parent folder) as [Hres Hnode]; [done|].
    rewrite locate_join, Hres in Hplace. cbn [res_bind] in Hplace.
    rewrite bool_decide_eq_true_2 in Hplace by done. congruence. }
  eexists _, s', place0. split_and!; try done.
  - intros Hnode. apply Hall.
    destruct (Hkeep (path_join parent name) place0) as [_ Hn]; [|done]. split; [|done].
    change (resolve (io_fs s) (path_join parent name) = Ok place0).
    by rewrite (resolve_located _ _ _ _ Hplace0), Hnode.
  - exists (io_fs s2). split; [exact (audit_run _ _ _ _ _ Haudit)|].
    intros path Hnot. by destruct (Hbelow path) as [->|[? _]].
Qed.

(** A new session has a directory. *)
Lemma create_session_dir_inv self mode s id root s' :
  create_session_dir self mode s = (Ok (id, root), s') →
  root = path_join (srr_sessions_root self) (uuid_to_string id) ∧
  ∃ q, dir_at (io_fs s') root q.
Proof.
  unfold create_session_dir.
  intros [(id' & s1 & _ & Hrun)|(e & _ & ?)]%io_bind_inv; [|done].
  apply io_bind_inv in Hrun as [([] & s2 & Hcreate & Hrun)|(e & _ & ?)]; [|done].
  apply io_map_err_inv in Hcreate as ([[]|] & Hcreate & ?); [|done].
  apply fs_create_dir_all_ok in Hcreate as (q & Hq & Hnode).
  assert (dir_at (io_fs s2) (path_join (srr_sessions_root self) (uuid_to_string id')) q)
    as Hdir by done.
  apply io_bind_inv in Hrun as [([] & s3 & Hvalid & Hrun)|(e & _ & ?)]; [|done].
  apply (looks_run (validate_existing_path_within_root _ _)) in Hvalid as [Hfs3 _];
    [|unfold validate_existing_path_within_root; looks]. rewrite <- Hfs3 in Hdir.
  apply io_bind_inv in Hrun as [(marker & s4 & Hmarker & Hrun)|(e & _ & ?)]; [|done].
  apply (looks_run _ _ _ _ (looks_lift _)) in Hmarker as [Hfs _]. rewrite <- Hfs in Hdir.
  apply io_bind_inv in Hrun as [([] & s5 & Hwrite & [= <- <- <-])|(e & _ & ?)]; [|done].
  split; [done|]. exists q.
  assert (changes keeps_dirs (marker_write_to_dir marker
    (path_join (srr_sessions_root self) (uuid_to_string id')))) as Hkeeps.
  { apply changes_bind; [apply _|apply changes_map_err, keeps_create_dir|]. intros _.
    apply changes_bind; [apply _|apply changes_looks; [apply _|apply looks_of]|].
    intros text. apply changes_map_err, keeps_write. }
  by apply (changes_run _ _ _ _ _ Hkeeps) in Hwrite as [Hwrite _]; apply Hwrite.
Qed.
Lemma started_session mode resolver s self s' :
  lifecycle_start mode resolver s = (Ok self, s') → discards_on_shutdown mode = true →
  slc_ended self = false ∧ discards_on_shutdown (ssc_session_mode (slc_config self)) = true ∧
  ssc_database_mode (slc_config self) = DmInMemory ∧
  ssc_session_root (slc_config self) =
    path_join (srr_sessions_root resolver) (uuid_to_string (ssc_session_id (slc_config self))) ∧
  ∃ q, dir_at (io_fs s') (ssc_session_root (slc_config self)) q.
Proof.
  unfold lifecycle_start, resolver_resolve, discards_on_shutdown. intros Hstart Hmode.
  apply io_bind_inv in Hstart as [(resolution & s1 & Hrun & [= <- <-])|(e & _ & ?)]; [|done].
  destruct (effective mode); try done.
  - apply io_bind_inv in Hrun as [([] & s2 & _ & Hrun)|(e & _ & ?)]; [|done].
    apply io_bind_inv in Hrun as [([] & s3 & _ & Hrun)|(e & _ & ?)]; [|done].
    apply io_bind_inv in Hrun as [(report & s4 & _ & Hrun)|(e & _ & ?)]; [|done].
    apply io_bind_inv in Hrun as [([id root] & s5 & Hdir & [= <- <-])|(e & _ & ?)]; [|done].
    by apply create_session_dir_inv in Hdir as [-> Hdir].
  - apply io_bind_inv in Hrun as [(portable_root & s2 & _ & Hrun)|(e & _ & ?)]; [|done].
    apply io_bind_inv in Hrun as [([] & s3 & _ & Hrun)|(e & _ & ?)]; [|done].
    apply io_bind_inv in Hrun as [(report & s4 & _ & Hrun)|(e & _ & ?)]; [|done].
    apply io_bind_inv in Hrun as [([id root] & s5 & Hdir & Hrun)|(e & _ & ?)]; [|done].
    apply io_bind_inv in Hrun as [(now & s6 & Hnow & Hrun)|(e & _ & ?)]; [|done].
    apply io_bind_inv in Hrun as [([] & s7 & Haudit & Hrun)|(e & _ & ?)]; [|done].
    apply io_bind_inv in Hrun as [(store & s8 & Hload & [= <- <-])|(e & _ & ?)]; [|done].
    apply create_session_dir_inv in Hdir as [-> [q Hdir]].
    split_and!; [done..|]. exists q.
    apply (looks_run _ _ _ _ (looks_lift _)) in Hnow as [Hfs _]. rewrite <- Hfs in Hdir.
    apply (changes_run _ _ _ _ _ (keeps_audit _ _)) in Haudit as [Haudit _].
    apply Haudit in Hdir. simpl.
    apply (looks_run (io_map_err _ _)) in Hload as [-> _]; [done|].
    unfold preferences_load. looks.
Qed.

(** C11. An ephemeral or portable session leaves nothing. A start that succeeds has made it a
    directory of its own, and its database is in memory; when the session ends on a machine
    without faults, whatever was written in between (directories that were there still are),
    the directory is gone with all that is below it (a link put in its place is removed, not
    followed), and everything elsewhere -- documents,
    links, folders, the preferences among them -- is what it was, but for the audit log,
    which may get longer, and the folders made on the way to it; ending the session again
    does nothing. *)
Theorem session_leaves_nothing {E} mode resolver s self s1 :
  discards_on_shutdown mode = true → lifecycle_start mode resolver s = (Ok self, s1) →
  let root := ssc_session_root (slc_config self) in
  root = path_join (srr_sessions_root resolver)
    (uuid_to_string (ssc_session_id (slc_config self))) ∧
  ssc_database_mode (slc_config self) = DmInMemory ∧
  (∃ q, dir_at (io_fs s1) root q) ∧
  ∀ s2, calm s2 → (∀ path q, dir_at (io_fs s1) path q → dir_at (io_fs s2) path q) →
    ∃ ended s' place,
      lifecycle_end self s2 = (Ok ended : result _ E, s') ∧
      is_ok (resolve (io_fs s') root) = false ∧
      locate (io_fs s2) root = Ok place ∧
      (node_of (io_fs s2) place = Some Folder →
       ∀ path, place `prefix_of` path → io_fs s' !! path = None) ∧
      (∃ logged, audit_appended (path_join (session_audit_root self) SESSION_AUDIT_FILE_NAME)
         (io_fs s2) logged ∧
       ∀ path, ¬ place `prefix_of` path → io_fs s' !! path = logged !! path) ∧
      (∀ s'', lifecycle_end ended s'' = (Ok ended : result _ E, s'')).
Proof.
  intros Hmode Hstart root.
  destruct (started_session _ _ _ _ _ Hstart Hmode) as (Hended & Hdiscard & Hdb & Hroot & q & Hdir).
  split_and!; [done|done|by exists q|]. intros s2 Hs2 Hkept.
  subst root. rewrite Hroot in *.
  destruct (end_discards (E := E) _ _ _ _ _ Hs2 Hended Hdiscard Hroot (Hkept _ _ Hdir))
    as (ended & s' & place & Hend & _ & Hrest). by exists ended, s', place.
Qed.

(* ------------------------------------------------------------------ *)
(** ** Preferences of the installed profile *)

(** The documented behaviour of [serde_json] on the document. *)
Definition document_text_roundtrip : Prop := ∀ document text,
  preferences_to_text document = Ok text →
  preferences_of_text text = Ok document ∧ blank text = false.

(** A document that was written is read. *)
Lemma read_document_written self document s s' :
  document_text_roundtrip → calm s → write_document self document s = (Ok tt, s') →
  ∃ s'', read_document self s' = (Ok document, s'').
Proof.
  intros Htext Hs. unfold write_document.
  intros [([] & s1 & Hcreate & Hrun)|(e & _ & ?)]%io_bind_inv; [|done].
  assert (calm s1) as Hs1.
  { destruct (path_parent (pst_path self)) as [parent|]; [|by injection Hcreate as <-].
    apply io_map_err_inv in Hcreate as (r & [Hf _]%fs_create_dir_all_inv & _).
    intros n. rewrite Hf. apply Hs. }
  apply io_bind_inv in Hrun as [(text & s2 & [= Hto <-] & Hrun)|(e & _ & ?)]; [|done].
  destruct (preferences_to_text document) as [text'|] eqn:Hto'; [|done].
  injection Hto as ->. apply Htext in Hto' as [Hof Hblank].
  apply io_map_err_inv in Hrun as ([[]|] & Hwrite & ?); [|done].
  destruct (read_written _ _ _ _ Hs1 Hwrite) as (_ & Hexists & Hread).
  eexists. unfold read_document, io_bind at 1. rewrite Hexists. cbn [negb].
  unfold io_bind, storage_io, io_map_err. rewrite Hread. cbn. by rewrite Hblank, Hof.
Qed.

(** A preference that was set, without a fault of the machine, is accepted by the
    validation and is read back with the value it was given, also by a later process; every
    other preference reads as before. *)
Theorem preference_set_get self key value s s' :
  document_text_roundtrip → calm s → preference_set self key value s = (Ok tt, s') →
  validate_preference key value = Ok tt ∧
  (preference_get self key s').1 = Ok (Some value) ∧
  ∀ other, other ≠ key → (preference_get self other s').1 = (preference_get self other s).1.
Proof.
  intros Htext Hs Hset. unfold preference_set in Hset.
  apply io_bind_inv in Hset as [([] & s0 & [= Hvalid <-] & Hset)|(e & _ & ?)]; [|done].
  apply io_bind_inv in Hset as [(document & s1 & Hread & Hset)|(e & _ & ?)]; [|done].
  assert (looks (read_document self)) as Hlooks by (unfold read_document; looks).
  pose proof (looks_run _ _ _ _ Hlooks Hread) as [_ Hf1].
  apply io_bind_inv in Hset as [(time & s2 & Htime & Hset)|(e & _ & ?)]; [|done].
  pose proof (looks_run _ _ _ _ (looks_lift _) Htime) as [_ Hf2].
  assert (calm s2) as Hs2 by (intros n; rewrite Hf2, Hf1; apply Hs).
  destruct (read_document_written _ _ _ _ Htext Hs2 Hset) as [s3 Hread'].
  assert (validate_preference_key key = Ok tt) as Hkey.
  { unfold validate_preference in Hvalid. by apply res_bind_ok in Hvalid as ([] & ? & _). }
  split_and!; [done| |].
  - unfold preference_get, io_bind, io_of. rewrite Hkey, Hread'. cbn.
    by rewrite lookup_insert_eq.
  - intros other Hother. unfold preference_get, io_bind, io_of.
    destruct (validate_preference_key other) as [[]|e]; [|done]. rewrite Hread, Hread'. cbn.
    by rewrite lookup_insert_ne.
Qed.
End facts.

(* ------------------------------------------------------------------ *)
(** ** Examples *)

Module SessionSample.

#[export] Existing Instance sample_externals.
#[export] Instance PreferenceRecord_eq_dec : EqDecision PreferenceRecord.
Proof. solve_decision. Defined.
#[export] Instance PreferencesDocument_eq_dec : EqDecision PreferencesDocument.
Proof. solve_decision. Defined.
#[export] Instance sample_storage_text : StorageText := {|
  record_to_text := λ _ _, Err "none"; record_of_text := λ _ _, Err "none";
  refs_to_text := λ _, Err "none"; timestamp_to_string := λ _, "now"
|}.
#[export] Instance sample_uuid_text : UuidText := {|
  uuid_parse := λ text, mkUuid <$> parse_uint 1000 text; uuid_version := λ _, 4
|}.
Definition dark_document : PreferencesDocument :=
  with_record preferences_document_default "theme" "dark" "now".
#[export] Instance sample_session_text : SessionText := {|
  marker_to_text := λ marker, Ok (uuid_to_string (mrk_session_id marker));
  marker_of_text := λ text,
    match uuid_parse text with
    | Some id => Ok (mkMarker SESSION_MARKER_VALUE SESSION_MARKER_VERSION id (mkTimestamp 0) "1"
                       "ephemeral")
    | None => Err "no marker"
    end;
  preferences_to_text := λ document,
    if bool_decide (document = dark_document) then Ok "dark" else Err "other";
  preferences_of_text := λ text,
    if bool_decide (text = "dark") then Ok dark_document else Err "other"
|}.
#[export] Instance sample_session_env : SessionEnv := {|
  temp_dir := ["tmp"]; local_app_data := None; cargo_pkg_version := "1"
|}.
#[export] Instance sample_io_text : IoText := {| io_error_to_string := λ _, "io" |}.
#[export] Instance sample_dir_order : DirOrder := {|
  dir_order := λ names, names; dir_order_perm := λ names, reflexivity names
|}.
#[export] Instance sample_json_text : JsonText := {|
  json_parse := λ _, Err "none"; json_to_text := λ _, "{}"; json_to_text_pretty := λ _, "{}"
|}.
#[export] Instance sample_json_number : JsonNumber := {| number_as_f64 := λ _, None |}.

Definition empty_disk : Io := mkIo counting_world (λ _, None) 0 ∅.
Definition resolver : SessionRootResolver := for_roots ["tmp"; "sessions"] ["app"].
Definition first_start : result SessionLifecycle StorageError * Io :=
  lifecycle_start SmEphemeral resolver empty_disk.
Definition first_root : Path := ["tmp"; "sessions"; "0"].

(** What is at the root of the first session. *)
Definition present (s : Io) : bool := is_ok (resolve (io_fs s) first_root).

(** A second start in the same profile takes the session that runs for an abandoned one: its
    directory is removed under it. *)
Example live_session_cleaned :
  match first_start with
  | (Ok first, s1) =>
      match lifecycle_start SmEphemeral resolver s1 with
      | (Ok second, s2) =>
          slc_ended first = false ∧ ssc_session_root (slc_config first) = first_root ∧
          present s1 = true ∧ present s2 = false ∧
          ssc_cleaned_abandoned_sessions (slc_config second) = [ssc_session_id (slc_config first)]
      | _ => False
      end
  | _ => False
  end.
Proof. vm_compute. split_and!; reflexivity. Qed.

Lemma first_start_ok : is_ok first_start.1 = true.
Proof. vm_compute. reflexivity. Qed.
Lemma cleanup_runs : present first_start.2 = true ∧
  present (cleanup_without_audit (E := StorageError) ["tmp"; "sessions"] false first_start.2).2
    = false.
Proof. vm_compute. split; reflexivity. Qed.

Lemma cleanup_safe_witness : ∃ r s',
  cleanup_abandoned_sessions_impl (E := StorageError) ["tmp"; "sessions"] None false
    first_start.2 = (r, s') ∧ present first_start.2 = true ∧ present s' = false ∧
  rtc (session_removed ["tmp"; "sessions"] None) (io_fs first_start.2) (io_fs s').
Proof.
  pose proof cleanup_runs as [Hbefore Hafter]. unfold cleanup_without_audit in Hafter.
  destruct (cleanup_abandoned_sessions_impl ["tmp"; "sessions"] None false first_start.2)
    as [r s'] eqn:Hrun.
  exists r, s'. split; [reflexivity|]. split; [exact Hbefore|]. split; [exact Hafter|].
  apply (cleanup_safe _ _ _ _ _ _ Hrun).
Defined.

Lemma cleanup_removes_only_sessions_witness : ∃ report s',
  cleanup_without_audit (E := StorageError) ["tmp"; "sessions"] false first_start.2 =
    (Ok report, s') ∧ present s' = false ∧
  ∀ path, io_fs s' !! path = io_fs first_start.2 !! path ∨ io_fs s' !! path = None.
Proof.
  pose proof cleanup_runs as [_ Hafter].
  assert (is_ok (cleanup_without_audit (E := StorageError) ["tmp"; "sessions"] false
    first_start.2).1 = true) as Hok by (vm_compute; reflexivity).
  destruct (cleanup_without_audit ["tmp"; "sessions"] false first_start.2)
    as [[report|] s'] eqn:Hrun; [|discriminate Hok].
  exists report, s'. split; [reflexivity|]. split; [exact Hafter|]. intros path.
  destruct (proj1 (cleanup_removes_only_sessions _ _ _ _ Hrun) path) as [?|[? _]]; auto.
Defined.

Lemma session_leaves_nothing_witness : ∃ self s1,
  first_start = (Ok self, s1) ∧ present s1 = true ∧
  ∃ ended s', lifecycle_end self s1 = (Ok ended : result _ StorageError, s') ∧
    is_ok (resolve (io_fs s') (ssc_session_root (slc_config self))) = false ∧
    ∃ logged, audit_appended (path_join (session_audit_root self) SESSION_AUDIT_FILE_NAME)
      (io_fs s1) logged ∧ io_fs s' !! ["app"] = logged !! ["app"].
Proof.
  pose proof first_start_ok as Hok. pose proof (proj1 cleanup_runs) as Hthere.
  assert (calm first_start.2) as Hcalm by (intros n; vm_compute; reflexivity).
  assert (locate (io_fs first_start.2) first_root = Ok first_root) as Hloc
    by (vm_compute; reflexivity).
  assert (match first_start.1 with
    Ok self => bool_decide (ssc_session_root (slc_config self) = first_root) | _ => false end
    = true) as Hroot by (vm_compute; reflexivity).
  destruct first_start as [[self|] s1] eqn:Hstart; [|discriminate Hok]. cbn [fst snd] in *.
  apply bool_decide_eq_true in Hroot.
  exists self, s1. split; [reflexivity|]. split; [exact Hthere|].
  destruct (session_leaves_nothing (E := StorageError) SmEphemeral _ _ _ _ eq_refl Hstart)
    as (_ & _ & _ & Hend).
  destruct (Hend s1 Hcalm (λ path q Hdir, Hdir))
    as (ended & s' & place & Hrun & Hgone & Hplace & _ & (logged & Hlog & Hsame) & _).
  exists ended, s'. split; [exact Hrun|]. split; [exact Hgone|]. exists logged.
  split; [exact Hlog|]. apply Hsame. rewrite Hroot, Hloc in Hplace. injection Hplace as <-.
  intros [rest Hrest]. discriminate Hrest.
Defined.

Definition preferences : PreferencesStore := mkPreferencesStore ["app"; "preferences.json"].
Lemma preference_saved : is_ok (preference_set preferences "theme" "dark" empty_disk).1 = true.
Proof. vm_compute. reflexivity. Qed.
Lemma preference_set_get_witness : ∃ s',
  preference_set preferences "theme" "dark" empty_disk = (Ok tt, s') ∧
  (preference_get preferences "theme" s').1 = Ok (Some "dark").
Proof.
  pose proof preference_saved as Hok.
  destruct (preference_set preferences "theme" "dark" empty_disk) as [[[]|] s'] eqn:Hset;
    [|discriminate Hok].
  exists s'. split; [reflexivity|].
  assert (document_text_roundtrip) as Htext.
  { intros document text. simpl. case_bool_decide as Hd; [|discriminate].
    intros [= <-]. rewrite Hd. split; vm_compute; reflexivity. }
  assert (calm empty_disk) as Hcalm by (intros n; reflexivity).
  exact (proj1 (proj2 (preference_set_get _ _ _ _ _ Htext Hcalm Hset))).
Defined.

End SessionSample.
