(* ===== verification/StorageOwnership.v ===== *)
(** * Who may write the storage ([storage/src/runtime.rs])

    The lease of the one writer of a database: a registry within the process, a lock file
    between processes. The manifest of what the service may keep, and what a recovery
    reports. The configuration of a database. Opening it is [StorageRuntime].

    - The registry is a static of the process: the functions take it and return it. Its
      mutex, and the one of [released], are left out: nothing panics while they are held.
    - A lease is shared by its clones: the value of [StorageWriterLeaseInner].
    - The environment and the text of a path are the class [RuntimeEnv].

    Prefixes: [Wo] owners, [Ws] states of the writer, [Sp] classes of persistence, [Db]
    modes and locations, [sos_] ownership status, [dsp_] durable state policy, [ssp_] split
    state policy, [dsm_] manifest, [rcv_] recovery report, [swl_] lease, [dpr_] pragmas,
    [dbc_] database configuration. *)

From S2P Require Import Prelude Collections RustStr Effects Contracts Checks CallerVerification.
From S2P Require Import StorageTypes StorageDb FileSystem Session.

#[local] Open Scope string_scope.
#[local] Open Scope list_scope.
#[local] Open Scope N_scope.

(* ------------------------------------------------------------------ *)
(** ** Constants and data *)

(* [storage/src/runtime.rs] DATABASE_DIR_NAME *)
Definition DATABASE_DIR_NAME : string := "SentinelGuard".
(* [storage/src/runtime.rs] DATABASE_FILE_NAME *)
Definition DATABASE_FILE_NAME : string := "sentinel_guard.db".
(* [storage/src/runtime.rs] DB_PATH_ENV *)
Definition DB_PATH_ENV : string := "SENTINEL_DB_PATH".
(* [storage/src/runtime.rs] DEMO_DB_PATH_ENV *)
Definition DEMO_DB_PATH_ENV : string := "SENTINEL_DEMO_DB_PATH".
(* [storage/src/runtime.rs] DEFAULT_BUSY_TIMEOUT_MS *)
Definition DEFAULT_BUSY_TIMEOUT_MS : N := 5000.
(* [storage/src/runtime.rs] STORAGE_WRITER_LOCK_FILE_NAME *)
Definition STORAGE_WRITER_LOCK_FILE_NAME : string := ".sentinel_storage_writer.lock".
(* [storage/src/runtime.rs] SERVICEHOST_DURABLE_ALLOWED_FIELDS *)
Definition SERVICEHOST_DURABLE_ALLOWED_FIELDS : list string :=
  ["ids_refs"; "categories"; "buckets"; "schema_versions"; "bounded_counters";
   "lifecycle_health"; "degraded_reasons"; "provenance_audit_refs"; "redaction_status";
   "ownership_epoch_metadata"].
(* [storage/src/runtime.rs] FORBIDDEN_DURABLE_STATE_MARKERS *)
Definition FORBIDDEN_DURABLE_STATE_MARKERS : list string :=
  ["raw_log"; "raw_logs"; "raw_file"; "raw_files"; "path"; "filename"; "process_name";
   "service_name"; "pid"; "ppid"; "command_line"; "ip"; "port"; "packet"; "payload";
   "raw_provider"; "nonce"; "caller_token"; "credential"; "api_key"; "secret";
   "private_marker"].

(* [storage/src/runtime.rs] DatabaseMode *)
Inductive DatabaseMode := DbNormal | DbDemo.
(* [storage/src/runtime.rs] DatabaseMode::as_str *)
Definition db_mode_as_str (self : DatabaseMode) : string :=
  match self with DbNormal => "normal" | DbDemo => "demo" end.
#[export] Instance DatabaseMode_eq_dec : EqDecision DatabaseMode.
Proof. solve_decision. Defined.
(* [storage/src/runtime.rs] DatabaseLocation *)
Inductive DatabaseLocation := DbFile (path : Path) | DbInMemory.
(* [storage/src/runtime.rs] DatabaseLocation::is_in_memory *)
Definition is_in_memory (self : DatabaseLocation) : bool :=
  match self with DbInMemory => true | DbFile _ => false end.

(* [storage/src/runtime.rs] StorageWriterOwnerCategory *)
Inductive StorageWriterOwnerCategory := WoServiceHost | WoDesktopPortable | WoTestHarness.
#[export] Instance StorageWriterOwnerCategory_eq_dec : EqDecision StorageWriterOwnerCategory.
Proof. solve_decision. Defined.
(* [storage/src/runtime.rs] StorageWriterOwnerCategory::as_str *)
Definition writer_owner_as_str (self : StorageWriterOwnerCategory) : string :=
  match self with
  | WoServiceHost => "service_host"
  | WoDesktopPortable => "desktop_portable"
  | WoTestHarness => "test_harness"
  end.
(* [storage/src/runtime.rs] StorageWriterState *)
Inductive StorageWriterState := WsOwned | WsConflict | WsReleased.
#[export] Instance StorageWriterState_eq_dec : EqDecision StorageWriterState.
Proof. solve_decision. Defined.
(* [storage/src/runtime.rs] StorageWriterState::as_str *)
Definition writer_state_as_str (self : StorageWriterState) : string :=
  match self with WsOwned => "owned" | WsConflict => "conflict" | WsReleased => "released" end.

(* [storage/src/runtime.rs] StorageOwnershipStatus *)
Record StorageOwnershipStatus := mkOwnershipStatus {
  sos_owner_category : StorageWriterOwnerCategory;
  sos_writer_state : StorageWriterState;
  sos_storage_scope : string;
  sos_canonical_writer : bool;
  sos_path_exposed : bool;
  sos_llm_key_transferred : bool;
  sos_degraded_reason : option string
}.
(* [storage/src/runtime.rs] StorageOwnershipStatus::redacted_for_conflict *)
Definition redacted_for_conflict (owner_category : StorageWriterOwnerCategory)
    (storage_scope : string) : StorageOwnershipStatus :=
  mkOwnershipStatus owner_category WsConflict storage_scope false false false
    (Some "writer_already_owned").

(* [storage/src/runtime.rs] StoragePersistenceClassification *)
Inductive StoragePersistenceClassification :=
  | SpRequiredRuntimeState | SpBoundedTraceability | SpBoundedConfiguration | SpSessionOnly
  | SpNotPersisted | SpForbidden.
#[export] Instance StoragePersistenceClassification_eq_dec :
  EqDecision StoragePersistenceClassification.
Proof. solve_decision. Defined.

(* [storage/src/runtime.rs] ServiceHostDurableStatePolicy *)
Record ServiceHostDurableStatePolicy := mkStatePolicy {
  dsp_state_name : string;
  dsp_owner_category : StorageWriterOwnerCategory;
  dsp_classification : StoragePersistenceClassification;
  dsp_allowed_fields : list string;
  dsp_restored_on_restart : bool;
  dsp_servicehost_canonical : bool;
  dsp_redaction_status : RedactionStatus
}.
(* [storage/src/runtime.rs] SplitOwnedStatePolicy *)
Record SplitOwnedStatePolicy := mkSplitPolicy {
  ssp_state_name : string;
  ssp_owner_category : string;
  ssp_classification : StoragePersistenceClassification;
  ssp_transferred_to_servicehost : bool;
  ssp_persisted_by_servicehost : bool;
  ssp_redaction_status : RedactionStatus
}.
(* [storage/src/runtime.rs] ServiceHostDurableStorageManifest *)
Record ServiceHostDurableStorageManifest := mkStorageManifest {
  dsm_owner_category : StorageWriterOwnerCategory;
  dsm_canonical_writer_required : bool;
  dsm_desktop_writer_allowed : bool;
  dsm_cross_process_sqlite_connection_allowed : bool;
  dsm_schema_version : SchemaVersion;
  dsm_durable_state : list ServiceHostDurableStatePolicy;
  dsm_split_owned_state : list SplitOwnedStatePolicy;
  dsm_forbidden_markers_rejected : list string;
  dsm_redaction_status : RedactionStatus
}.

(* ------------------------------------------------------------------ *)
(** ** What the service may keep *)

Definition manifest_invalid (reason : string) : StorageError :=
  SeInvalidRecord "servicehost_durable_storage_manifest" reason.
Definition unbounded_text (field value : string) : result unit StorageError :=
  refuse_if (bool_decide (trim value = "") || (96 <? str_len (trim value)))
    (manifest_invalid (field ++ " is empty or unbounded")%string).
(* [storage/src/runtime.rs] validate_durable_safe_text *)
Definition validate_durable_safe_text (field value : string) : result unit StorageError :=
  let? _ := unbounded_text field value in
  let normalized := to_ascii_lowercase (trim value) in
  for_each (λ marker,
    refuse_if (bool_decide (normalized = marker) || contains normalized (marker ++ "_raw")%string)
      (manifest_invalid (field ++ " contains forbidden durable marker")%string))
    FORBIDDEN_DURABLE_STATE_MARKERS.
(* [storage/src/runtime.rs] validate_durable_marker_text *)
Definition validate_durable_marker_text (field value : string) : result unit StorageError :=
  unbounded_text field value.

(** The loops of [validate]. *)
(* [storage/src/runtime.rs:258-273] ServiceHostDurableStorageManifest::validate *)
Definition validate_state_policy (policy : ServiceHostDurableStatePolicy)
    : result unit StorageError :=
  let? _ := validate_durable_safe_text "state_name" (dsp_state_name policy) in
  let? _ := refuse_if
    (negb (bool_decide (dsp_owner_category policy = WoServiceHost)) ||
     bool_decide (dsp_classification policy = SpForbidden) ||
     bool_decide (dsp_allowed_fields policy = []) ||
     bool_decide (dsp_redaction_status policy = RsRedactionRequired))
    (SeInvalidRecord (dsp_state_name policy) "durable state policy is unsafe") in
  for_each (validate_durable_safe_text "allowed_field") (dsp_allowed_fields policy).
(* [storage/src/runtime.rs:274-286] ServiceHostDurableStorageManifest::validate *)
Definition validate_split_policy (policy : SplitOwnedStatePolicy) : result unit StorageError :=
  let? _ := validate_durable_safe_text "split_state_name" (ssp_state_name policy) in
  let? _ := validate_durable_safe_text "split_owner_category" (ssp_owner_category policy) in
  refuse_if (ssp_transferred_to_servicehost policy || ssp_persisted_by_servicehost policy ||
             bool_decide (ssp_redaction_status policy = RsRedactionRequired))
    (SeInvalidRecord (ssp_state_name policy) "split-owned state crossed the ServiceHost boundary").
(* [storage/src/runtime.rs] ServiceHostDurableStorageManifest::validate *)
Definition storage_manifest_validate (self : ServiceHostDurableStorageManifest)
    : result unit StorageError :=
  let? _ := refuse_if
    (negb (bool_decide (dsm_owner_category self = WoServiceHost)) ||
     negb (dsm_canonical_writer_required self) || dsm_desktop_writer_allowed self ||
     dsm_cross_process_sqlite_connection_allowed self ||
     bool_decide (dsm_redaction_status self = RsRedactionRequired))
    (manifest_invalid "manifest ownership boundary is unsafe") in
  let? _ := for_each validate_state_policy (dsm_durable_state self) in
  let? _ := for_each validate_split_policy (dsm_split_owned_state self) in
  for_each (validate_durable_marker_text "forbidden_marker") (dsm_forbidden_markers_rejected self).
(* [storage/src/runtime.rs] ServiceHostDurableStorageManifest::policy *)
Definition storage_manifest_policy (self : ServiceHostDurableStorageManifest)
    (state_name : string) : option ServiceHostDurableStatePolicy :=
  List.find (λ policy, bool_decide (dsp_state_name policy = state_name)) (dsm_durable_state self).

(* [storage/src/runtime.rs] state_policy *)
Definition state_policy (state_name : string) (classification : StoragePersistenceClassification)
    (restored_on_restart servicehost_canonical : bool) (allowed_fields : list string)
    : ServiceHostDurableStatePolicy :=
  {| dsp_state_name := state_name;
     dsp_owner_category := WoServiceHost;
     dsp_classification := classification;
     dsp_allowed_fields := allowed_fields;
     dsp_restored_on_restart := restored_on_restart;
     dsp_servicehost_canonical := servicehost_canonical;
     dsp_redaction_status := RsRedacted |}.
(* [storage/src/runtime.rs] split_policy *)
Definition split_policy (state_name owner_category : string) : SplitOwnedStatePolicy :=
  {| ssp_state_name := state_name;
     ssp_owner_category := owner_category;
     ssp_classification := SpNotPersisted;
     ssp_transferred_to_servicehost := false;
     ssp_persisted_by_servicehost := false;
     ssp_redaction_status := RsRedacted |}.
(* [storage/src/runtime.rs] service_host_durable_storage_manifest *)
Definition service_host_durable_storage_manifest : ServiceHostDurableStorageManifest :=
  let fields := SERVICEHOST_DURABLE_ALLOWED_FIELDS in
  {| dsm_owner_category := WoServiceHost;
     dsm_canonical_writer_required := true;
     dsm_desktop_writer_allowed := false;
     dsm_cross_process_sqlite_connection_allowed := false;
     dsm_schema_version := Schema.mkVersion 1 0 0;
     dsm_durable_state :=
       [state_policy "runtime_session_state" SpRequiredRuntimeState true true fields;
        state_policy "scheduler_state" SpBoundedConfiguration true true
          ["ids_refs"; "schema_versions"; "lifecycle_health"; "degraded_reasons";
           "ownership_epoch_metadata"; "safe_scheduler_settings"];
        state_policy "sampler_state" SpRequiredRuntimeState true true fields;
        state_policy "permission_readiness_state" SpBoundedConfiguration true true fields;
        state_policy "baseline_state" SpBoundedTraceability true true fields;
        state_policy "incident_linked_state" SpBoundedTraceability true true fields;
        state_policy "canonical_read_model_snapshots" SpBoundedTraceability true true fields;
        state_policy "report_traceability" SpBoundedTraceability true true fields;
        state_policy "export_traceability_history_metadata" SpBoundedTraceability true true
          fields;
        state_policy "portable_reader_cursor_state" SpRequiredRuntimeState true true
          ["ids_refs"; "categories"; "schema_versions"; "bounded_counters"; "lifecycle_health";
           "degraded_reasons"; "provenance_audit_refs"; "redaction_status";
           "ownership_epoch_metadata"; "opaque_cursor"]];
     dsm_split_owned_state :=
       [split_policy "tauri_window_state" "desktop";
        split_policy "ui_preferences" "desktop";
        split_policy "export_destination_picker" "desktop";
        split_policy "connection_state" "desktop";
        split_policy "temporary_llm_key" "desktop_memory_only_write_only"];
     dsm_forbidden_markers_rejected := FORBIDDEN_DURABLE_STATE_MARKERS;
     dsm_redaction_status := RsRedacted |}.

(* [storage/src/runtime.rs] ServiceHostStorageRecoveryReport *)
Record ServiceHostStorageRecoveryReport := mkRecovery {
  rcv_owner_category : StorageWriterOwnerCategory;
  rcv_writer_state : StorageWriterState;
  rcv_schema_validated : bool;
  rcv_ownership_validated : bool;
  rcv_allowed_state_restored_count : N;
  rcv_new_ownership_epoch_established : bool;
  rcv_canonical_snapshots_rebuilt : bool;
  rcv_scheduler_activated : bool;
  rcv_sampler_activated : bool;
  rcv_provider_executed : bool;
  rcv_stale_findings_replayed : bool;
  rcv_llm_invoked : bool;
  rcv_cross_process_sqlite_connection_shared : bool;
  rcv_storage_path_exposed : bool;
  rcv_degraded : bool;
  rcv_degraded_reason : option string;
  rcv_redaction_status : RedactionStatus
}.
(* [storage/src/runtime.rs] ServiceHostStorageRecoveryReport::from_status *)
Definition recovery_from_status (status : StorageOwnershipStatus)
    (manifest : ServiceHostDurableStorageManifest) (ownership_epoch : N) (schema_validated : bool)
    (degraded_reason : option string) : ServiceHostStorageRecoveryReport :=
  let ownership_validated :=
    bool_decide (sos_owner_category status = WoServiceHost) &&
    bool_decide (sos_writer_state status = WsOwned) &&
    sos_canonical_writer status && negb (sos_path_exposed status) &&
    negb (sos_llm_key_transferred status) && is_ok (storage_manifest_validate manifest) in
  let degraded :=
    negb ownership_validated || negb schema_validated || bool_decide (is_Some degraded_reason) in
  {| rcv_owner_category := sos_owner_category status;
     rcv_writer_state := sos_writer_state status;
     rcv_schema_validated := schema_validated;
     rcv_ownership_validated := ownership_validated;
     rcv_allowed_state_restored_count :=
       if ownership_validated && schema_validated
       then len (List.filter dsp_restored_on_restart (dsm_durable_state manifest)) else 0;
     rcv_new_ownership_epoch_established := (0 <? ownership_epoch) && ownership_validated;
     rcv_canonical_snapshots_rebuilt :=
       (0 <? ownership_epoch) && ownership_validated && schema_validated;
     rcv_scheduler_activated := false;
     rcv_sampler_activated := false;
     rcv_provider_executed := false;
     rcv_stale_findings_replayed := false;
     rcv_llm_invoked := false;
     rcv_cross_process_sqlite_connection_shared := false;
     rcv_storage_path_exposed := false;
     rcv_degraded := degraded;
     rcv_degraded_reason := degraded_reason;
     rcv_redaction_status := RsRedacted |}.
(* [storage/src/runtime.rs:369-389] ServiceHostStorageRecoveryReport::degraded *)
Definition recovery_degraded (reason : string) : ServiceHostStorageRecoveryReport :=
  {| rcv_owner_category := WoServiceHost;
     rcv_writer_state := WsConflict;
     rcv_schema_validated := false;
     rcv_ownership_validated := false;
     rcv_allowed_state_restored_count := 0;
     rcv_new_ownership_epoch_established := false;
     rcv_canonical_snapshots_rebuilt := false;
     rcv_scheduler_activated := false;
     rcv_sampler_activated := false;
     rcv_provider_executed := false;
     rcv_stale_findings_replayed := false;
     rcv_llm_invoked := false;
     rcv_cross_process_sqlite_connection_shared := false;
     rcv_storage_path_exposed := false;
     rcv_degraded := true;
     rcv_degraded_reason := Some reason;
     rcv_redaction_status := RsRedacted |}.

(* ------------------------------------------------------------------ *)
(** ** Configuration *)

(* [storage/src/runtime.rs] DatabasePragmas *)
Record DatabasePragmas := mkPragmas {
  dpr_journal_mode : string;
  dpr_busy_timeout_ms : N;
  dpr_foreign_keys : bool;
  dpr_secure_delete : bool
}.
#[export] Instance DatabasePragmas_eq_dec : EqDecision DatabasePragmas.
Proof. solve_decision. Defined.
(* [storage/src/runtime.rs] Default for DatabasePragmas::default *)
Definition pragmas_default : DatabasePragmas := mkPragmas "WAL" DEFAULT_BUSY_TIMEOUT_MS true true.
(* [storage/src/runtime.rs] DatabaseConfig *)
Record DatabaseConfig := mkDatabaseConfig {
  dbc_mode : DatabaseMode;
  dbc_location : DatabaseLocation;
  dbc_app_version : string;
  dbc_pragmas : DatabasePragmas;
  dbc_session_config : option SessionConfig;
  dbc_writer_owner : StorageWriterOwnerCategory
}.
(* [storage/src/runtime.rs] DatabaseConfig::normal *)
Definition config_normal (app_version : string) (path : Path) : DatabaseConfig :=
  mkDatabaseConfig DbNormal (DbFile path) app_version pragmas_default None WoDesktopPortable.
(* [storage/src/runtime.rs] DatabaseConfig::demo_in_memory *)
Definition config_demo_in_memory (app_version : string) : DatabaseConfig :=
  mkDatabaseConfig DbDemo DbInMemory app_version pragmas_default None WoTestHarness.
(* [storage/src/runtime.rs] DatabaseConfig::demo_file *)
Definition config_demo_file (app_version : string) (path : Path) : DatabaseConfig :=
  mkDatabaseConfig DbDemo (DbFile path) app_version pragmas_default None WoTestHarness.
(* [storage/src/runtime.rs] DatabaseConfig::for_session *)
Definition config_for_session (app_version : string) (session_config : SessionConfig)
    : DatabaseConfig :=
  let location :=
    match ssc_database_mode session_config with
    | DmInMemory => DbInMemory
    | DmTempFile => DbFile (path_join (ssc_session_root session_config) "session.db")
    | DmPersistent => DbFile (path_join (ssc_session_root session_config) DATABASE_FILE_NAME)
    end in
  let mode := if bool_decide (ssc_session_mode session_config = SmInstalled)
              then DbDemo else DbNormal in
  mkDatabaseConfig mode location app_version pragmas_default (Some session_config)
    WoDesktopPortable.
(* [storage/src/runtime.rs] DatabaseConfig::with_writer_owner *)
Definition with_writer_owner (self : DatabaseConfig) (writer_owner : StorageWriterOwnerCategory)
    : DatabaseConfig :=
  mkDatabaseConfig (dbc_mode self) (dbc_location self) (dbc_app_version self) (dbc_pragmas self)
    (dbc_session_config self) writer_owner.

(** [env::var_os], [PathBuf::from] and [to_string_lossy]. *)
Class RuntimeEnv := {
  env_var : string → option string;
  path_of_string : string → Path;
  path_to_string : Path → string
}.

Definition hex_digit (n : N) : ascii :=
  ascii_of_N (if n <? 10 then 48 + n else 87 + n).
(** [format!("{n:016x}")] of a [u64]. *)
Fixpoint hex_digits (width : nat) (n : N) (rest : string) : string :=
  match width with
  | O => rest
  | S width => hex_digits width (n / 16) (String (hex_digit (n mod 16)) rest)
  end.
(** One byte of the hash of Fowler, Noll and Vo. *)
Definition hash_byte (hash : N) (byte : ascii) : N :=
  (N.lxor hash (N_of_ascii byte) * 0x100000001b3) mod 2 ^ 64.
Fixpoint hash_bytes (hash : N) (input : string) : N :=
  match input with
  | "" => hash
  | String byte input => hash_bytes (hash_byte hash byte) input
  end.
(* [storage/src/runtime.rs] stable_checksum *)
Definition stable_checksum (input : string) : string :=
  hex_digits 16 (hash_bytes 0xcbf29ce484222325 input) "".

Section environment.
Context `{RuntimeEnv} `{SessionEnv}.

(* [storage/src/runtime.rs] env_path *)
Definition env_path (name : string) : option Path :=
  match env_var name with
  | Some value => if blank value then None else Some (path_of_string value)
  | None => None
  end.
(* [storage/src/runtime.rs] default_database_path *)
Definition default_database_path : Path :=
  path_join (path_join (default temp_dir local_app_data) DATABASE_DIR_NAME) DATABASE_FILE_NAME.
(* [storage/src/runtime.rs] DatabaseConfig::for_startup_mode *)
Definition config_for_startup_mode (app_version : string) (demo_mode : bool) : DatabaseConfig :=
  if demo_mode then
    match env_path DEMO_DB_PATH_ENV with
    | Some path => config_demo_file app_version path
    | None =>
        match env_path DB_PATH_ENV with
        | Some path => config_demo_file app_version path
        | None => config_demo_in_memory app_version
        end
    end
  else config_normal app_version (default default_database_path (env_path DB_PATH_ENV)).
(* [storage/src/runtime.rs] redact_directory *)
Definition redact_directory (path : Path) : string :=
  let configured :=
    match path_file_name path with
    | Some name => "[configured-db-dir:" ++ name ++ "]"
    | None => "[configured-db-dir]"
    end%string in
  match local_app_data with
  | Some local_app_data =>
      if path_starts_with path local_app_data then
        if bool_decide (path_file_name path = Some DATABASE_DIR_NAME)
        then ("%LOCALAPPDATA%/" ++ DATABASE_DIR_NAME)%string
        else "%LOCALAPPDATA%/[redacted]"
      else configured
  | None => configured
  end.
(* [storage/src/runtime.rs] redacted_database_directory *)
Definition redacted_database_directory (location : DatabaseLocation) : string :=
  match location with
  | DbInMemory => ":memory:"
  | DbFile path =>
      match path_parent path with
      | Some parent => redact_directory parent
      | None => "[configured-db-dir]"
      end
  end.
(* [storage/src/runtime.rs] DatabaseConfig::db_directory_redacted *)
Definition db_directory_redacted (self : DatabaseConfig) : string :=
  redacted_database_directory (dbc_location self).
End environment.

(* ------------------------------------------------------------------ *)
(** ** The lease *)

(** The entries of [storage_writer_registry]. *)
Abbreviation WriterRegistry := (gmap string StorageWriterOwnerCategory).
(* [storage/src/runtime.rs] StorageWriterLeaseInner *)
Record StorageWriterLease := mkLease {
  swl_key : string;
  swl_lock_path : option Path;
  swl_status : StorageOwnershipStatus;
  swl_released : bool
}.
(** The text in the lock file. *)
Definition lock_text (owner_category : StorageWriterOwnerCategory) : string :=
  let newline := String "010" "" in
  ("sentinel_guard_storage_writer" ++ newline ++ "owner=" ++ writer_owner_as_str owner_category ++
   newline)%string.
Definition already_owned : StorageError := SeStorageOwnershipConflict "writer_already_owned".

Section lease.
Context `{Externals} `{IoText} `{RuntimeEnv}.

(** The lock file, created by whoever comes first. *)
(* [storage/src/runtime.rs:670-692] StorageWriterLease::acquire *)
Definition create_lock (owner_category : StorageWriterOwnerCategory) (path : Path)
    : IO StorageError unit :=
  let~ _ := match path_parent path with
            | Some parent => storage_io (fs_create_dir_all parent)
            | None => io_ret tt
            end in
  let~ created := io_try (fs_create_new path) in
  match created with
  | Ok _ => storage_io (fs_write path (lock_text owner_category))
  | Err IoAlreadyExists => io_fail already_owned
  | Err error => io_fail (SeIo (io_error_to_string error))
  end.
(** The entry in the registry. *)
(* [storage/src/runtime.rs:694-722] StorageWriterLease::acquire *)
Definition register_lease (registry : WriterRegistry) (owner_category : StorageWriterOwnerCategory)
    (key : string) (lock_path : option Path) (storage_scope : string) (canonical_writer : bool)
    : IO StorageError (StorageWriterLease * WriterRegistry) :=
  if contains_key registry key then
    match lock_path with
    | Some path =>
        let~ _ := io_try (fs_remove_file path) in
        io_fail already_owned
    | None => io_fail already_owned
    end
  else
    let registry := <[key := owner_category]> registry in
    io_ret (mkLease key lock_path
      {| sos_owner_category := owner_category;
         sos_writer_state := WsOwned;
         sos_storage_scope := storage_scope;
         sos_canonical_writer := canonical_writer;
         sos_path_exposed := false;
         sos_llm_key_transferred := false;
         sos_degraded_reason := None |} false, registry).
(* [storage/src/runtime.rs] StorageWriterLease::acquire *)
Definition lease_acquire (registry : WriterRegistry) (owner_category : StorageWriterOwnerCategory)
    (key : string) (lock_path : option Path) (storage_scope : string) (canonical_writer : bool)
    : IO StorageError (StorageWriterLease * WriterRegistry) :=
  let~ _ := match lock_path with
            | Some path => create_lock owner_category path
            | None => io_ret tt
            end in
  register_lease registry owner_category key lock_path storage_scope canonical_writer.
(* [storage/src/runtime.rs] StorageWriterLease::acquire_service_host_runtime *)
Definition acquire_service_host_runtime (registry : WriterRegistry) (ownership_epoch : N)
    : IO StorageError (StorageWriterLease * WriterRegistry) :=
  lease_acquire registry WoServiceHost
    ("service_host_runtime_epoch_" ++ show_uint ownership_epoch)%string None
    "service_owned_runtime_stores" true.
(* [storage/src/runtime.rs] StorageWriterLease::acquire_for_database *)
Definition acquire_for_database (registry : WriterRegistry) (config : DatabaseConfig)
    : IO StorageError (StorageWriterLease * WriterRegistry) :=
  match dbc_location config with
  | DbInMemory =>
      let~ id := io_lift new_uuid in
      lease_acquire registry (dbc_writer_owner config) ("in_memory_" ++ uuid_to_string id)%string
        None "in_memory_session_store" true
  | DbFile path =>
      let key := ("file_" ++ stable_checksum (path_to_string path))%string in
      let lock_path := (λ parent, path_join parent STORAGE_WRITER_LOCK_FILE_NAME) <$>
        path_parent path in
      lease_acquire registry (dbc_writer_owner config) key lock_path "sqlite_session_store" true
  end.
(* [storage/src/runtime.rs] StorageWriterLease::acquire_for_test_scope *)
Definition acquire_for_test_scope (registry : WriterRegistry)
    (owner_category : StorageWriterOwnerCategory) (scope : string)
    : IO StorageError (StorageWriterLease * WriterRegistry) :=
  lease_acquire registry owner_category ("test_scope_" ++ scope)%string None scope true.
(* [storage/src/runtime.rs] StorageWriterLease::status *)
Definition lease_status (self : StorageWriterLease) : StorageOwnershipStatus :=
  let status := swl_status self in
  if swl_released self then
    mkOwnershipStatus (sos_owner_category status) WsReleased (sos_storage_scope status) false
      (sos_path_exposed status) (sos_llm_key_transferred status) (sos_degraded_reason status)
  else status.
(* [storage/src/runtime.rs] release_storage_writer_inner *)
Definition release_storage_writer_inner {E} (registry : WriterRegistry) (self : StorageWriterLease)
    : IO E (StorageWriterLease * WriterRegistry) :=
  if swl_released self then io_ret (self, registry)
  else
    let released := mkLease (swl_key self) (swl_lock_path self) (swl_status self) true in
    let registry := delete (swl_key self) registry in
    let~ _ := match swl_lock_path self with
              | Some path =>
                  let~ _ := io_try (fs_remove_file path) in
                  io_ret tt
              | None => io_ret tt
              end in
    io_ret (released, registry).
(* [storage/src/runtime.rs] StorageWriterLease::release *)
Definition lease_release {E} (registry : WriterRegistry) (self : StorageWriterLease)
    : IO E (StorageWriterLease * WriterRegistry) := release_storage_writer_inner registry self.
(* [storage/src/runtime.rs] Drop for StorageWriterLeaseInner::drop *)
Definition lease_drop {E} (registry : WriterRegistry) (self : StorageWriterLease)
    : IO E (StorageWriterLease * WriterRegistry) := release_storage_writer_inner registry self.
End lease.
