(* ===== verification/StorageOwnershipFacts.v ===== *)
(** * One writer at a time ([storage/src/runtime.rs])

    Processes acquire, release and lose the lease of a database in any order, with any of
    their calls failing: two leases that are held never share a lock file ([one_writer]). A
    released lock can be taken again; the lock of a process that died cannot. *)

From S2P Require Import Prelude Collections RustStr Effects Contracts Checks CallerVerification.
From S2P Require Import StorageTypes StorageDb FileSystem FileSystemFacts Session.
From S2P Require Import StorageOwnership.

#[local] Open Scope string_scope.
#[local] Open Scope list_scope.
#[local] Open Scope N_scope.

Section facts.
Context `{Externals} `{IoText} `{RuntimeEnv}.

(* ------------------------------------------------------------------ *)
(** ** The lock file *)

(** A new document that nobody else had. *)
Definition fresh_doc (fs fs' : FileSystem) (path place : Path) : Prop :=
  doc_at fs' path place ∧ fs !! place = None.
Lemma create_lock_inv owner path s r s' :
  create_lock owner path s = (r, s') →
  keeps_docs (io_fs s) (io_fs s') ∧
  (is_ok r = true → ∃ place, fresh_doc (io_fs s) (io_fs s') path place).
Proof.
  unfold create_lock. intros Hrun.
  assert (∃ s1, keeps_docs (io_fs s) (io_fs s1) ∧
    (∀ place, io_fs s1 !! place = None → io_fs s !! place = None) ∧
    (s' = s1 ∧ is_ok r = false ∨
     (let~ created := io_try (fs_create_new path) in
      match created with
      | Ok _ => storage_io (fs_write path (lock_text owner))
      | Err IoAlreadyExists => io_fail already_owned
      | Err error => io_fail (SeIo (io_error_to_string error))
      end) s1 = (r, s'))) as (s1 & Hkeep1 & Hnone & [[-> Hr]|Hrun1]).
  { assert (∀ place, io_fs s !! place = None → io_fs s !! place = None) as Hid by done.
    apply io_bind_inv in Hrun as [([] & s1 & Hc & Hrun)|(e & Hc & ->)];
      (destruct (path_parent path) as [parent|];
       [|first [injection Hc as <-; exists s; split; [done|by auto] | done]]);
      apply io_map_err_inv in Hc as (r0 & Hc & _);
      pose proof (changes_run _ _ _ _ _ (create_dir_keeps_docs _) Hc) as Hkeep;
      apply fs_create_dir_all_inv in Hc as [_ Hmore%more_folders_subseteq].
    - exists s1. split_and!; [done| |by right]. intros place Hp.
      by eapply lookup_weaken_None.
    - exists s'. split_and!; [done| |by left]. intros place Hp. by eapply lookup_weaken_None. }
  { split; [done|]. by rewrite Hr. }
  apply io_try_inv in Hrun1 as (created & s2 & Hcreate & Hrun1).
  apply fs_create_new_inv in Hcreate. destruct created as [[]|error].
  - destruct Hcreate as (place & Hnew & Hne & Hfs2 & Hkeep2 & Hdoc).
    assert (keeps_docs (io_fs s1) (io_fs s2)) as Hdocs2.
    { split; [done|]. intros q text Hq. exists text. rewrite Hfs2, lookup_insert_ne; [done|].
      intros <-. congruence. }
    apply io_map_err_inv in Hrun1 as (r1 & Hwrite & ->).
    pose proof (changes_run _ _ _ _ _ (write_keeps_docs _ _) Hwrite) as Hkeep3.
    split; [by repeat (etransitivity; [eassumption|])|].
    intros _. exists place. split; [|by apply Hnone]. by eapply keeps_docs_doc_at.
  - assert (r = Err (match error with IoAlreadyExists => already_owned
      | _ => SeIo (io_error_to_string error) end) ∧ s' = s2) as [-> ->]
      by (by destruct error; injection Hrun1 as <- <-).
    rewrite Hcreate. by split.
Qed.
(** Removing one document leaves the others. *)
Lemma remove_file_keeps path place s r s' other place' :
  doc_at (io_fs s) path place → fs_remove_file path s = (r, s') →
  doc_at (io_fs s) other place' → place' ≠ place → doc_at (io_fs s') other place'.
Proof.
  intros Hdoc Hrun Hother Hne. apply (fs_remove_file_inv _ _ _ _ _ Hdoc) in Hrun as [Hkeep Hfs].
  apply (doc_at_keeps (io_fs s)); [done| |done].
  destruct Hother as (? & ? & ? & text & _ & _ & _ & Ht). exists text.
  destruct Hfs as [->| ->]; [done|by rewrite lookup_delete_ne].
Qed.
Lemma register_lease_inv registry owner key lock scope canonical s r s' :
  register_lease registry owner key lock scope canonical s = (r, s') →
  match r with
  | Ok (lease, registry') =>
      registry !! key = None ∧ registry' = <[key := owner]> registry ∧ io_fs s' = io_fs s ∧
      swl_key lease = key ∧ swl_lock_path lease = lock ∧ swl_released lease = false ∧
      sos_owner_category (lease_status lease) = owner ∧
      sos_writer_state (lease_status lease) = WsOwned
  | Err _ =>
      ∀ mine, (∀ path, lock = Some path → doc_at (io_fs s) path mine) →
        ∀ other place, doc_at (io_fs s) other place → (is_Some lock → place ≠ mine) →
        doc_at (io_fs s') other place
  end.
Proof.
  unfold register_lease, contains_key. case_bool_decide as Hkey.
  - intros Hrun.
    assert (is_ok r = false ∧ (lock = None ∧ s' = s ∨
      ∃ path removed, lock = Some path ∧ fs_remove_file path s = (removed, s'))) as [Hr Hs].
    { destruct lock as [path|]; [|by injection Hrun as <- <-; auto].
      apply io_try_inv in Hrun as (removed & s1 & Hrem & [= <- <-]). split; [done|]. right. eauto. }
    destruct r as [|e]; [done|]. intros mine Hmine other place Hother Hne.
    destruct Hs as [[_ ->]|(path & removed & -> & Hrem)]; [done|].
    apply (remove_file_keeps path mine _ _ _ _ _ (Hmine path eq_refl) Hrem); auto.
  - intros [= <- <-]. split_and!; try done. by apply eq_None_not_Some.
Qed.
Lemma lease_acquire_inv registry owner key lock scope canonical s r s' :
  lease_acquire registry owner key lock scope canonical s = (r, s') →
  (∀ path place, doc_at (io_fs s) path place → doc_at (io_fs s') path place) ∧
  match r with
  | Ok (lease, registry') =>
      registry !! key = None ∧ registry' = <[key := owner]> registry ∧
      swl_key lease = key ∧ swl_lock_path lease = lock ∧ swl_released lease = false ∧
      sos_owner_category (lease_status lease) = owner ∧
      sos_writer_state (lease_status lease) = WsOwned ∧
      ∀ path, lock = Some path → ∃ place, fresh_doc (io_fs s) (io_fs s') path place
  | Err _ => True
  end.
Proof.
  unfold lease_acquire. intros [([] & s1 & Hl & Hrun)|(e & Hl & ->)]%io_bind_inv.
  2:{ destruct lock as [path|]; [|done]. apply create_lock_inv in Hl as [Hk _].
      split; [|done]. intros other place. by apply keeps_docs_doc_at. }
  assert (keeps_docs (io_fs s) (io_fs s1) ∧
    ∀ path, lock = Some path → ∃ place, fresh_doc (io_fs s) (io_fs s1) path place) as [Hk Hfresh].
  { destruct lock as [path|]; [|by injection Hl as <-].
    apply create_lock_inv in Hl as [Hk Hf]. split; [done|]. intros p [= <-]. by apply Hf. }
  assert (∀ path place, doc_at (io_fs s) path place → doc_at (io_fs s1) path place) as Hdocs
    by (intros path place; by apply keeps_docs_doc_at).
  apply register_lease_inv in Hrun. destruct r as [[lease registry']|e].
  - destruct Hrun as (Hkey & -> & Hfs & Hrest). unfold fresh_doc. rewrite Hfs.
    split; [done|]. destruct Hrest as (? & ? & ? & ? & ?). by split_and!.
  - split; [|done]. intros other place Hother. destruct lock as [path|].
    + destruct (Hfresh path eq_refl) as (mine & Hmine & Hnew).
      apply (Hrun mine); [by intros ? [= <-]|by apply Hdocs|]. intros _ ->.
      destruct Hother as (? & ? & ? & text & _ & _ & _ & Ht). congruence.
    + apply (Hrun []); [done|by apply Hdocs|]. by intros [].
Qed.
Lemma lease_release_inv {E} registry lease place s (r : result _ E) s' :
  release_storage_writer_inner registry lease s = (r, s') → swl_released lease = false →
  (∀ path, swl_lock_path lease = Some path → doc_at (io_fs s) path place) →
  r = Ok (mkLease (swl_key lease) (swl_lock_path lease) (swl_status lease) true,
          delete (swl_key lease) registry) ∧
  ∀ other place', doc_at (io_fs s) other place' →
    (is_Some (swl_lock_path lease) → place' ≠ place) → doc_at (io_fs s') other place'.
Proof.
  unfold release_storage_writer_inner. intros Hrun Hlive Hplace. rewrite Hlive in Hrun.
  apply io_bind_inv in Hrun as [([] & s1 & Hrem & [= <- <-])|(e & Hrem & ->)];
    (destruct (swl_lock_path lease) as [path|];
     [apply io_try_inv in Hrem as (removed & s2 & Hrem & Hret)|]).
  - injection Hret as <-. split; [done|]. intros other place' Hother Hne.
    apply (remove_file_keeps path place _ _ _ _ _ (Hplace path eq_refl) Hrem); auto.
  - injection Hrem as <-. split; [done|]. auto.
  - discriminate Hret.
  - discriminate Hrem.
Qed.

(* ------------------------------------------------------------------ *)
(** ** When a lease is given *)

Lemma path_parent_join parent name : path_parent (path_join parent name) = Some parent.
Proof.
  unfold path_parent. destruct (path_join parent name) eqn:Heq; [by destruct parent|].
  rewrite <- Heq. unfold path_join. by rewrite removelast_last.
Qed.
Lemma create_lock_at owner parent folder name s :
  calm s → dir_at (io_fs s) parent folder →
  let place := path_join folder name in
  ∃ s', create_lock owner (path_join parent name) s =
    (match io_fs s !! place with Some _ => Err already_owned | None => Ok tt end, s') ∧
  io_fs s' = match io_fs s !! place with
             | Some _ => io_fs s
             | None => <[place := Document (lock_text owner)]> (io_fs s)
             end.
Proof.
  intros Hs Hdir place. unfold create_lock. rewrite path_parent_join.
  set (s1 := called s (io_fs s)). assert (calm s1) as Hs1 by done.
  assert (storage_io (fs_create_dir_all parent) s = (Ok tt, s1)) as Hcreate
    by (unfold storage_io; by rewrite (io_map_err_run _ _ _ _ _ (create_existing _ _ _ Hs Hdir))).
  rewrite (io_bind_ok _ _ _ _ _ Hcreate).
  pose proof (create_new_at s1 parent folder name Hs1 Hdir) as Hnew.
  fold place in Hnew. change (io_fs s1) with (io_fs s) in Hnew.
  destruct (io_fs s !! place) as [node|] eqn:Hnode; rewrite (io_try_run _ _ _ _ _ Hnew);
    [by eexists|].
  set (s2 := called s1 (<[place := Document EmptyString]> (io_fs s))).
  assert (calm s2) as Hs2 by done.
  assert (doc_at (io_fs s2) (path_join parent name) place) as Hdoc.
  { apply doc_at_inserted; [done|]. by rewrite node_of_join; fold place; rewrite Hnode. }
  unfold storage_io. rewrite (io_map_err_run _ _ _ _ _ (write_at _ _ _ _ Hs2 Hdoc)).
  eexists. split; [done|]. simpl. by rewrite insert_insert_eq.
Qed.

(** When a lease is given. On a machine without faults, for a lock file in a directory that
    is there and a key the process does not have: the lease is given exactly when nothing has
    the name of the lock file, which then has it; otherwise the answer is that there is a
    writer, and no file changes. *)
Lemma acquire_cases registry owner key parent folder name scope canonical s :
  calm s → dir_at (io_fs s) parent folder → registry !! key = None →
  let path := path_join parent name in
  let place := path_join folder name in
  match io_fs s !! place with
  | Some _ => ∃ s',
      lease_acquire registry owner key (Some path) scope canonical s = (Err already_owned, s') ∧
      io_fs s' = io_fs s
  | None => ∃ lease s',
      lease_acquire registry owner key (Some path) scope canonical s =
        (Ok (lease, <[key := owner]> registry), s') ∧
      swl_lock_path lease = Some path ∧ swl_released lease = false ∧
      io_fs s' = <[place := Document (lock_text owner)]> (io_fs s)
  end.
Proof.
  intros Hs Hdir Hkey path place.
  destruct (create_lock_at owner parent folder name s Hs Hdir) as (s' & Hlock & Hfs).
  fold path place in Hlock, Hfs. unfold lease_acquire.
  destruct (io_fs s !! place) as [node|] eqn:Hnode.
  - exists s'. by rewrite (io_bind_err _ _ _ _ _ Hlock).
  - rewrite (io_bind_ok _ _ _ _ _ Hlock). unfold register_lease, contains_key. rewrite Hkey.
    rewrite bool_decide_eq_false_2 by (by intros []). eexists _, s'. by split.
Qed.

(** C9. A released lock is free. On a machine without faults, after the release of a lease the
    name of its lock file is free again and nothing else has changed: the lease can be
    acquired anew, by any process; a second release of the old lease does nothing then. *)
Theorem released_lock_is_free registry lease parent folder name text s registry2 owner key scope :
  let path := path_join parent name in
  let place := path_join folder name in
  calm s → dir_at (io_fs s) parent folder → io_fs s !! place = Some (Document text) →
  swl_lock_path lease = Some path → swl_released lease = false → registry2 !! key = None →
  ∃ released s1 lease' s2,
    lease_release (E := StorageError) registry lease s =
      (Ok (released, delete (swl_key lease) registry), s1) ∧
    io_fs s1 = delete place (io_fs s) ∧
    lease_acquire registry2 owner key (Some path) scope true s1 =
      (Ok (lease', <[key := owner]> registry2), s2) ∧
    lease_release (E := StorageError) registry released s2 = (Ok (released, registry), s2).
Proof.
  intros path place Hs Hdir Hnode Hpath Hlive Hkey.
  assert (doc_at (io_fs s) path place) as Hdoc by by exists parent, name, folder, text.
  apply doc_at_locate in Hdoc as Hloc. destruct Hloc as (Hlocate & Hne & _).
  assert (fs_remove_file path s = (Ok tt, called s (delete place (io_fs s)))) as Hremove.
  { unfold fs_remove_file, call. rewrite Hs, Hlocate. cbn [res_bind]. unfold place.
    rewrite node_of_join. fold place. by rewrite Hnode. }
  set (s1 := called s (delete place (io_fs s))). assert (calm s1) as Hs1 by done.
  assert (dir_at (io_fs s1) parent folder) as Hdir1.
  { apply (keeps_deleted (io_fs s) place); [done| |done].
    unfold place. rewrite node_of_join. fold place. by rewrite Hnode. }
  pose proof (acquire_cases registry2 owner key parent folder name scope true s1 Hs1 Hdir1 Hkey)
    as Hacquire. cbn zeta in Hacquire. fold path place in Hacquire.
  replace (io_fs s1 !! place) with (@None Node) in Hacquire by (simpl; by rewrite lookup_delete_eq).
  destruct Hacquire as (lease' & s2 & Hacquire & _).
  eexists _, s1, lease', s2. split_and!; [|done|exact Hacquire|].
  - unfold lease_release, release_storage_writer_inner. rewrite Hlive, Hpath.
    rewrite (io_bind_ok _ _ s tt s1); [done|]. by rewrite (io_try_run _ _ _ _ _ Hremove).
  - done.
Qed.
(* ------------------------------------------------------------------ *)
(** ** Processes *)

(** A process: its registry, and the leases it got, held or released. *)
Record Process := mkProcess {
  prc_registry : WriterRegistry;
  prc_leases : list StorageWriterLease
}.
Abbreviation Processes := (gmap N Process).
(** A lease that is held. *)
Definition held (procs : Processes) (p : N) (i : nat) (lease : StorageWriterLease) : Prop :=
  ∃ process, procs !! p = Some process ∧ prc_leases process !! i = Some lease ∧
    swl_released lease = false.

(** Processes start, acquire and release leases -- more than once, and when a lease is
    dropped --, and die without a word. Other programs leave the locks that are held alone. *)
Inductive machine_step : Processes * Io → Processes * Io → Prop :=
  | step_start procs s p :
      procs !! p = None → machine_step (procs, s) (<[p := mkProcess ∅ []]> procs, s)
  | step_acquire procs s p process owner key lock scope canonical lease registry s' :
      procs !! p = Some process →
      lease_acquire (prc_registry process) owner key lock scope canonical s =
        (Ok (lease, registry), s') →
      machine_step (procs, s) (<[p := mkProcess registry (prc_leases process ++ [lease])]> procs, s')
  | step_refused procs s p process owner key lock scope canonical error s' :
      procs !! p = Some process →
      lease_acquire (prc_registry process) owner key lock scope canonical s = (Err error, s') →
      machine_step (procs, s) (procs, s')
  | step_release procs s p process i lease lease' registry s' :
      procs !! p = Some process → prc_leases process !! i = Some lease →
      lease_release (E := StorageError) (prc_registry process) lease s =
        (Ok (lease', registry), s') →
      machine_step (procs, s)
        (<[p := mkProcess registry (<[i := lease']> (prc_leases process))]> procs, s')
  | step_die procs s p : machine_step (procs, s) (delete p procs, s)
  | step_elsewhere procs s s' :
      (∀ p i lease path place, held procs p i lease → swl_lock_path lease = Some path →
        doc_at (io_fs s) path place → doc_at (io_fs s') path place) →
      machine_step (procs, s) (procs, s').

Record writers_ok (procs : Processes) (fs : FileSystem) : Prop := {
  wok_locked : ∀ p i lease path, held procs p i lease → swl_lock_path lease = Some path →
    ∃ place, doc_at fs path place;
  wok_exclusive : ∀ p i lease path q j lease' path' place,
    held procs p i lease → held procs q j lease' →
    swl_lock_path lease = Some path → swl_lock_path lease' = Some path' →
    doc_at fs path place → doc_at fs path' place → p = q ∧ i = j;
  wok_registered : ∀ p process i lease, procs !! p = Some process → held procs p i lease →
    is_Some (prc_registry process !! swl_key lease);
  wok_keys : ∀ p i lease j lease', held procs p i lease → held procs p j lease' →
    swl_key lease = swl_key lease' → i = j
}.

(** The files may change as long as the locks that are held stay. *)
Lemma writers_ok_files procs fs fs' : writers_ok procs fs →
  (∀ p i lease path place, held procs p i lease → swl_lock_path lease = Some path →
    doc_at fs path place → doc_at fs' path place) → writers_ok procs fs'.
Proof.
  intros Hok Hkeep. split; [| |apply (wok_registered _ _ Hok)|apply (wok_keys _ _ Hok)].
  - intros p i lease path Hheld Hlock. destruct (wok_locked _ _ Hok _ _ _ _ Hheld Hlock) as [place ?].
    exists place. eauto.
  - intros p i lease path q j lease' path' place Hp Hq Hlp Hlq Hdp Hdq.
    destruct (wok_locked _ _ Hok _ _ _ _ Hp Hlp) as [place1 Hd1].
    destruct (wok_locked _ _ Hok _ _ _ _ Hq Hlq) as [place2 Hd2].
    assert (place1 = place) as ->
      by (apply (doc_at_inj fs' path); [exact (Hkeep _ _ _ _ _ Hp Hlp Hd1)|done]).
    assert (place2 = place) as ->
      by (apply (doc_at_inj fs' path'); [exact (Hkeep _ _ _ _ _ Hq Hlq Hd2)|done]).
    exact (wok_exclusive _ _ Hok _ _ _ _ _ _ _ _ _ Hp Hq Hlp Hlq Hd1 Hd2).
Qed.
(** Fewer leases held, with the same registries. *)
Lemma writers_ok_fewer procs procs' fs : writers_ok procs fs →
  (∀ p i lease, held procs' p i lease → held procs p i lease) →
  (∀ p process i lease, procs' !! p = Some process → held procs' p i lease →
    is_Some (prc_registry process !! swl_key lease)) →
  writers_ok procs' fs.
Proof.
  intros Hok Hheld Hreg. split; [| |exact Hreg|].
  - intros p i lease path Hp%Hheld. exact (wok_locked _ _ Hok _ _ _ _ Hp).
  - intros p i lease path q j lease' path' place Hp%Hheld Hq%Hheld.
    exact (wok_exclusive _ _ Hok _ _ _ _ _ _ _ _ _ Hp Hq).
  - intros p i lease j lease' Hp%Hheld Hq%Hheld. exact (wok_keys _ _ Hok _ _ _ _ _ Hp Hq).
Qed.
Lemma held_insert procs p process' q j lease :
  held (<[p := process']> procs) q j lease →
  (q ≠ p ∧ held procs q j lease) ∨
  (q = p ∧ prc_leases process' !! j = Some lease ∧ swl_released lease = false).
Proof.
  intros (process & Hq & Hrest). destruct (decide (q = p)) as [->|Hne].
  - rewrite lookup_insert_eq in Hq. injection Hq as <-. by right.
  - rewrite lookup_insert_ne in Hq by done. left. split; [done|]. by exists process.
Qed.

(** A new lease, with a lock nobody had. *)
Lemma writers_ok_acquired procs fs fs' p process lease registry :
  writers_ok procs fs →
  (∀ path place, doc_at fs path place → doc_at fs' path place) →
  procs !! p = Some process →
  prc_registry process !! swl_key lease = None →
  (∃ owner, registry = <[swl_key lease := owner]> (prc_registry process)) →
  (∀ path, swl_lock_path lease = Some path → ∃ place, fresh_doc fs fs' path place) →
  writers_ok (<[p := mkProcess registry (prc_leases process ++ [lease])]> procs) fs'.
Proof.
  intros Hok0 Hkeep Hp Hkey [owner ->] Hfresh.
  assert (writers_ok procs fs') as Hok by (apply (writers_ok_files _ _ _ Hok0); eauto).
  set (process' := mkProcess _ _).
  assert (∀ q j l, held (<[p := process']> procs) q j l →
    held procs q j l ∨ q = p ∧ j = length (prc_leases process) ∧ l = lease) as Hheld.
  { intros q j l [[_ ?]|(-> & Hj & Hl)]%held_insert; [by left|].
    apply lookup_app_Some in Hj as [Hj|[Hlen Hj]]; [left; by exists process|right].
    apply list_lookup_singleton_Some in Hj as [Hj <-]. split_and!; [done|lia|done]. }
  assert (∀ q j l path path' place, held procs q j l → swl_lock_path l = Some path →
    swl_lock_path lease = Some path' → doc_at fs' path place → ¬ doc_at fs' path' place) as Hnew.
  { intros q j l path path' place Hq Hl Hlease Hd Hd'.
    destruct (wok_locked _ _ Hok0 _ _ _ _ Hq Hl) as [place0 Hd0].
    destruct (Hfresh _ Hlease) as (mine & Hmine & Hnone).
    assert (place0 = place) as -> by (apply (doc_at_inj fs' path); auto).
    assert (mine = place) as -> by by apply (doc_at_inj fs' path').
    destruct Hd0 as (? & ? & ? & text & _ & _ & _ & Ht). congruence. }
  split.
  - intros q j l path [Hq|(-> & -> & ->)]%Hheld Hl; [by apply (wok_locked _ _ Hok _ _ _ _ Hq)|].
    destruct (Hfresh _ Hl) as (mine & Hmine & _). by exists mine.
  - intros q j l path q' j' l' path' place [Hq|(-> & -> & ->)]%Hheld
      [Hq'|(-> & -> & ->)]%Hheld Hl Hl' Hd Hd'.
    + exact (wok_exclusive _ _ Hok _ _ _ _ _ _ _ _ _ Hq Hq' Hl Hl' Hd Hd').
    + by destruct (Hnew _ _ _ _ _ _ Hq Hl Hl' Hd).
    + by destruct (Hnew _ _ _ _ _ _ Hq' Hl' Hl Hd').
    + done.
  - intros q process0 j l Hq Hl. destruct (decide (q = p)) as [->|Hne].
    + rewrite lookup_insert_eq in Hq. injection Hq as <-. simpl.
      apply Hheld in Hl as [Hl|(_ & _ & ->)]; [|rewrite lookup_insert_eq; eauto].
      destruct (decide (swl_key l = swl_key lease)) as [->|Hk]; [rewrite lookup_insert_eq; eauto|].
      rewrite lookup_insert_ne by done. by apply (wok_registered _ _ Hok _ _ _ _ Hp Hl).
    + rewrite lookup_insert_ne in Hq by done. apply Hheld in Hl as [Hl|(-> & _)]; [|done].
      by apply (wok_registered _ _ Hok _ _ _ _ Hq Hl).
  - assert (∀ j l, held procs p j l → swl_key l ≠ swl_key lease) as Hnokey.
    { intros j l Hl Heq. destruct (wok_registered _ _ Hok _ _ _ _ Hp Hl) as [? Hsome]. congruence. }
    intros q j l j' l' [Hq|(Heq & -> & ->)]%Hheld [Hq'|(Heq' & -> & ->)]%Hheld Hkeys.
    + by apply (wok_keys _ _ Hok _ _ _ _ _ Hq Hq').
    + subst q. by destruct (Hnokey _ _ Hq).
    + subst q. by destruct (Hnokey _ _ Hq').
    + done.
Qed.
(** A release. *)
Lemma writers_ok_released procs s p process i lease lease' registry s' :
  writers_ok procs (io_fs s) → procs !! p = Some process → prc_leases process !! i = Some lease →
  lease_release (E := StorageError) (prc_registry process) lease s =
    (Ok (lease', registry), s') →
  writers_ok (<[p := mkProcess registry (<[i := lease']> (prc_leases process))]> procs) (io_fs s').
Proof.
  intros Hok Hp Hi Hrun. unfold lease_release in Hrun.
  destruct (swl_released lease) eqn:Hreleased.
  { unfold release_storage_writer_inner in Hrun. rewrite Hreleased in Hrun.
    injection Hrun as <- <- <-. rewrite list_insert_id by done. destruct process as [reg leases].
    simpl. by rewrite insert_id. }
  assert (held procs p i lease) as Hheld by by exists process.
  assert (∃ place, ∀ path, swl_lock_path lease = Some path → doc_at (io_fs s) path place)
    as [place Hplace].
  { destruct (swl_lock_path lease) as [path|] eqn:Hl; [|by exists []].
    destruct (wok_locked _ _ Hok _ _ _ _ Hheld Hl) as [place Hd]. exists place.
    by intros ? [= <-]. }
  apply (lease_release_inv _ _ place) in Hrun as [[= -> ->] Hkeep]; [|done|done].
  set (released := mkLease _ _ _ true). set (process' := mkProcess _ _).
  assert (∀ q j l, held (<[p := process']> procs) q j l →
    held procs q j l ∧ (q, j) ≠ (p, i)) as Hfewer.
  { intros q j l [[Hne ?]|(-> & Hj & Hl)]%held_insert; [split; [done|congruence]|].
    apply list_lookup_insert_Some in Hj as [(<- & <- & _)|[Hne Hj]]; [done|].
    split; [by exists process|congruence]. }
  apply (writers_ok_files _ (io_fs s)).
  - apply (writers_ok_fewer procs); [done|by intros q j l [? _]%Hfewer|].
    intros q process0 j l Hq Hl. destruct (Hfewer _ _ _ Hl) as [Hold Hne].
    destruct (decide (q = p)) as [->|Hqp].
    + rewrite lookup_insert_eq in Hq. injection Hq as <-. simpl. rewrite lookup_delete_ne.
      * by apply (wok_registered _ _ Hok _ _ _ _ Hp Hold).
      * intros Hkey. destruct Hne.
        by rewrite (wok_keys _ _ Hok _ _ _ _ _ Hheld Hold Hkey).
    + rewrite lookup_insert_ne in Hq by done. by apply (wok_registered _ _ Hok _ _ _ _ Hq Hold).
  - intros q j l path place' [Hold Hne]%Hfewer Hl Hd. apply Hkeep; [done|].
    intros [mine Hmine] ->. destruct Hne.
    destruct (wok_exclusive _ _ Hok _ _ _ _ _ _ _ _ place Hold Hheld Hl Hmine) as [-> ->]; auto.
Qed.

Lemma reachable_writers_ok s procs s' :
  rtc machine_step (∅, s) (procs, s') → writers_ok procs (io_fs s').
Proof.
  intros Hrtc. change (writers_ok (procs, s').1 (io_fs (procs, s').2)). revert Hrtc.
  apply (rtc_ind_r (λ m, writers_ok m.1 (io_fs m.2))).
  { simpl. split; intros *; intros;
      match goal with Hh : held ∅ _ _ _ |- _ => by destruct Hh as (? & ? & ?) end. }
  clear. intros m m' _ Hstep Hok.
  destruct Hstep as [procs0 s0 p Hp
      |procs0 s0 p process owner key lock scope canonical lease registry s1 Hp Hrun
      |procs0 s0 p process owner key lock scope canonical error s1 Hp Hrun
      |procs0 s0 p process i lease lease' registry s1 Hp Hi Hrun|procs0 s0 p
      |procs0 s0 s1 Hkeep]; simpl in *.
  - apply (writers_ok_fewer procs0); [done| |].
    + by intros q j l [[_ ?]|(_ & ? & _)]%held_insert.
    + intros q process j l Hq [[Hne Hl]|(_ & ? & _)]%held_insert; [|done].
      rewrite lookup_insert_ne in Hq by done. by apply (wok_registered _ _ Hok _ _ _ _ Hq Hl).
  - apply lease_acquire_inv in Hrun as (Hkeep & Hkey & -> & <- & <- & _ & _ & _ & Hfresh).
    eapply writers_ok_acquired; eauto.
  - apply lease_acquire_inv in Hrun as [Hkeep _].
    apply (writers_ok_files _ _ _ Hok). eauto.
  - by eapply writers_ok_released.
  - apply (writers_ok_fewer procs0); [done| |].
    + intros q j l (process & Hq%lookup_delete_Some & Hrest). exists process. by destruct Hq.
    + intros q process j l Hq (process' & Hq' & Hrest). apply lookup_delete_Some in Hq as [Hne Hq].
      apply (wok_registered _ _ Hok _ _ j _ Hq). exists process.
      rewrite lookup_delete_ne in Hq' by done. by simplify_eq.
  - by apply (writers_ok_files _ _ _ Hok).
Qed.

(** C8. At most one writer. Processes start, acquire leases, release or drop them once or more
    and die, their calls failing at will: whenever two leases are held whose lock files are
    the same document -- by whatever paths, through whatever links -- they are the same lease
    of the same process; and the lock file of every held lease is there. *)
Theorem one_writer s procs s' :
  rtc machine_step (∅, s) (procs, s') →
  (∀ p i lease path, held procs p i lease → swl_lock_path lease = Some path →
    ∃ place, doc_at (io_fs s') path place) ∧
  (∀ p i lease path q j lease' path' place,
    held procs p i lease → held procs q j lease' →
    swl_lock_path lease = Some path → swl_lock_path lease' = Some path' →
    doc_at (io_fs s') path place → doc_at (io_fs s') path' place → p = q ∧ i = j) ∧
  (∀ p i lease j lease', held procs p i lease → held procs p j lease' →
    swl_key lease = swl_key lease' → i = j).
Proof. by intros [? ? _ ?]%reachable_writers_ok. Qed.

(** The lock of a process that died stays: from then on nobody is given a lease for it, on a
    machine without faults, until something else removes the file. *)
Theorem dead_writer_blocks s procs s1 p i lease parent name :
  rtc machine_step (∅, s) (procs, s1) → held procs p i lease →
  swl_lock_path lease = Some (path_join parent name) → calm s1 →
  machine_step (procs, s1) (delete p procs, s1) ∧
  ∀ registry owner key scope, registry !! key = None → ∃ s2,
    lease_acquire registry owner key (Some (path_join parent name)) scope true s1 =
      (Err already_owned, s2) ∧ io_fs s2 = io_fs s1.
Proof.
  intros Hok%reachable_writers_ok Hheld Hlock Hs. split; [constructor|].
  intros registry owner key scope Hkey.
  destruct (wok_locked _ _ Hok _ _ _ _ Hheld Hlock)
    as (place & parent' & name' & folder & text & Heq & Hdir & -> & Hnode).
  apply app_inj_tail in Heq as [<- <-].
  pose proof (acquire_cases registry owner key parent folder name scope true s1 Hs Hdir Hkey)
    as Hcase. cbn zeta in Hcase. by rewrite Hnode in Hcase.
Qed.


(* ------------------------------------------------------------------ *)
(** ** What the service keeps *)

(** The manifest of the service is valid. *)
Lemma service_manifest_valid :
  storage_manifest_validate service_host_durable_storage_manifest = Ok tt.
Proof. vm_compute. reflexivity. Qed.

(** A recovery is not degraded exactly when the service holds the lease of the canonical
    writer, nothing was exposed, the schema was validated and there is no reason against it;
    then all ten kinds of state are restored, otherwise, if lease or schema fail, none. *)
Theorem recovery_exact status epoch schema_validated reason :
  let report := recovery_from_status status service_host_durable_storage_manifest epoch
    schema_validated reason in
  let owned := sos_owner_category status = WoServiceHost ∧ sos_writer_state status = WsOwned ∧
    sos_canonical_writer status = true ∧ sos_path_exposed status = false ∧
    sos_llm_key_transferred status = false in
  (rcv_degraded report = false ↔ owned ∧ schema_validated = true ∧ reason = None) ∧
  (owned ∧ schema_validated = true → rcv_allowed_state_restored_count report = 10) ∧
  (¬ (owned ∧ schema_validated = true) → rcv_allowed_state_restored_count report = 0) ∧
  (rcv_new_ownership_epoch_established report = true ↔ 0 < epoch ∧ owned).
Proof.
  cbn zeta. set (owned := sos_owner_category status = WoServiceHost ∧ _).
  unfold recovery_from_status. cbn [rcv_degraded rcv_allowed_state_restored_count
    rcv_new_ownership_epoch_established].
  set (b := _ && is_ok _). assert (b = true ↔ owned) as Hb.
  { unfold b, owned. rewrite service_manifest_valid.
    rewrite !andb_true_iff, !bool_decide_eq_true, !negb_true_iff. cbn [is_ok]. tauto. }
  clearbody b owned. rewrite <- Hb. split_and!.
  - destruct b, schema_validated, reason; simpl; naive_solver.
  - intros [-> ->]. reflexivity.
  - destruct b, schema_validated; simpl; naive_solver.
  - by rewrite andb_true_iff, N.ltb_lt.
Qed.
End facts.

(* ------------------------------------------------------------------ *)
(** ** Examples *)

Module OwnershipSample.

#[export] Existing Instance sample_externals.
#[export] Instance sample_io_text : IoText := {| io_error_to_string := λ _, "io" |}.

Definition lock : Path := ["db"; STORAGE_WRITER_LOCK_FILE_NAME].
Definition empty_disk : Io := mkIo counting_world (λ _, None) 0 ∅.
Definition acquired : result (StorageWriterLease * WriterRegistry) StorageError * Io :=
  lease_acquire ∅ WoServiceHost "file" (Some lock) "sqlite_session_store" true empty_disk.

Lemma acquired_ok : is_ok acquired.1 = true.
Proof. vm_compute. reflexivity. Qed.
Lemma acquired_lease : match acquired with
  | (Ok (lease, registry), s) => swl_lock_path lease = Some lock ∧ swl_released lease = false ∧
      calm s ∧ dir_at (io_fs s) ["db"] ["db"] ∧
      io_fs s !! lock = Some (Document (lock_text WoServiceHost))
  | _ => False
  end.
Proof. vm_compute. repeat split. Qed.

(** A process that has the lease. *)
Lemma running : ∃ lease registry s, acquired = (Ok (lease, registry), s) ∧
  rtc machine_step (∅, empty_disk) (<[1 := mkProcess registry [lease]]> ∅, s) ∧
  held (<[1 := mkProcess registry [lease]]> ∅) 1 0 lease ∧
  swl_lock_path lease = Some lock ∧ calm s.
Proof.
  pose proof acquired_lease as Hlease.
  destruct acquired as [[[lease registry]|] s] eqn:Hrun; [|destruct Hlease].
  destruct Hlease as (Hlock & Hlive & Hcalm & _). exists lease, registry, s.
  split; [reflexivity|]. split; [|split; [|split; [exact Hlock|exact Hcalm]]].
  - eapply rtc_l; [apply (step_start ∅ empty_disk 1); reflexivity|].
    eapply rtc_l; [|apply rtc_refl].
    rewrite <- (insert_insert_eq (∅ : gmap N Process) 1 (mkProcess registry [lease]) (mkProcess ∅ [])).
    eapply (step_acquire _ _ 1 (mkProcess ∅ []) WoServiceHost "file" (Some lock)
      "sqlite_session_store" true); [apply lookup_insert_eq|exact Hrun].
  - exists (mkProcess registry [lease]). split; [apply lookup_insert_eq|]. by split.
Qed.

Lemma one_writer_witness : ∃ procs s' lease,
  rtc machine_step (∅, empty_disk) (procs, s') ∧ held procs 1 0 lease ∧
  ∃ place, doc_at (io_fs s') lock place.
Proof.
  destruct running as (lease & registry & s & _ & Hrtc & Hheld & Hlock & _).
  exists (<[1 := mkProcess registry [lease]]> ∅), s, lease.
  split; [exact Hrtc|]. split; [exact Hheld|].
  exact (proj1 (one_writer _ _ _ Hrtc) _ _ _ _ Hheld Hlock).
Defined.

Lemma dead_writer_blocks_witness : ∃ s lease registry s2,
  acquired = (Ok (lease, registry), s) ∧
  lease_acquire ∅ WoDesktopPortable "file" (Some lock) "sqlite_session_store" true s =
    (Err already_owned, s2).
Proof.
  destruct running as (lease & registry & s & Hrun & Hrtc & Hheld & Hlock & Hcalm).
  destruct (proj2 (dead_writer_blocks _ _ _ _ _ _ ["db"] STORAGE_WRITER_LOCK_FILE_NAME
    Hrtc Hheld Hlock Hcalm) ∅ WoDesktopPortable "file" "sqlite_session_store" (lookup_empty _))
    as (s2 & Hrefused & _).
  exists s, lease, registry, s2. exact (conj Hrun Hrefused).
Defined.

Lemma released_lock_is_free_witness : ∃ lease registry s released s1 lease' registry' s2,
  acquired = (Ok (lease, registry), s) ∧
  lease_release (E := StorageError) registry lease s = (Ok (released, delete "file" registry), s1) ∧
  lease_acquire ∅ WoDesktopPortable "file" (Some lock) "sqlite_session_store" true s1 =
    (Ok (lease', registry'), s2).
Proof.
  pose proof acquired_lease as Hlease.
  assert (match acquired with (Ok (lease, _), _) => swl_key lease = "file" | _ => True end) as Hkey
    by (vm_compute; reflexivity).
  destruct acquired as [[[lease registry]|] s] eqn:Hrun; [|destruct Hlease].
  destruct Hlease as (Hlock & Hlive & Hcalm & Hdir & Hnode).
  destruct (released_lock_is_free registry lease ["db"] ["db"] STORAGE_WRITER_LOCK_FILE_NAME _ s
    ∅ WoDesktopPortable "file" "sqlite_session_store" Hcalm Hdir Hnode Hlock Hlive (lookup_empty _))
    as (released & s1 & lease' & s2 & Hrelease & _ & Hacquire & _).
  rewrite Hkey in Hrelease.
  exists lease, registry, s, released, s1, lease', (<["file" := WoDesktopPortable]> ∅), s2.
  exact (conj eq_refl (conj Hrelease Hacquire)).
Defined.

End OwnershipSample.
