(* ===== verification/Permissions.v ===== *)
(** * Permissions and policies ([platform/src/permissions/mod.rs])

    Permissions, requests and decisions, the resolver that keeps registered permissions,
    grants and unavailable permissions, the guardrails, and the evaluation of permissions
    and of response policies. *)

From S2P Require Import Prelude Collections RustStr Effects Contracts Manifest.
From S2P Require Import Component Registry Resolver Settings.

#[local] Open Scope string_scope.
#[local] Open Scope list_scope.
#[local] Open Scope N_scope.

(* ------------------------------------------------------------------ *)
(** ** Sensitive keys *)

(* [permissions/mod.rs] contains_secret_token *)
Definition contains_secret_token (value : string) : bool :=
  contains value "cookie" || contains value "token" || contains value "credential"
  || contains value "authorization_header" || contains value "api_key" || contains value "secret".

(* [permissions/mod.rs] is_sensitive_permission_key *)
Definition is_sensitive_permission_key (k : PermissionKey) : bool :=
  let key := permission_str k in
  contains key "raw_packet" || contains key "payload" || contains key "http_body"
  || contains key "raw_event" || contains key "firewall.write" || contains key "qos.write"
  || contains key "process.control" || contains key "export.raw" || contains_secret_token key.

(* ------------------------------------------------------------------ *)
(** ** Permissions *)

(* [permissions/mod.rs] PermissionDomain *)
Inductive PermissionDomain := DData | DSystem | DResponse | DExport | DDesktop | DPolicy.
#[export] Instance PermissionDomain_eq_dec : EqDecision PermissionDomain.
Proof. solve_decision. Defined.
(* [permissions/mod.rs] PermissionDomain::from_category *)
Definition from_category (c : PermissionCategory) : PermissionDomain :=
  match c with
  | DataAccess => DData | SystemAccess => DSystem | ResponseAccess => DResponse
  | ExportAccess => DExport | DesktopAccess => DDesktop | PolicyAccess => DPolicy
  end.

(* [permissions/mod.rs] Permission *)
Record Permission := mkPerm {
  key : PermissionKey;
  domain : PermissionDomain;
  category : PermissionCategory;
  risk_level : PermissionRiskLevel;
  description_redacted : string;
  default_grant : bool;
  audit_required : bool;
  approval_required : bool
}.
(* [permissions/mod.rs] Permission::from_descriptor *)
Definition from_descriptor (d : PermissionDescriptor) : Permission :=
  let high := match permission_risk_level d with RiskHigh | RiskCritical => true | _ => false end in
  let sensitive := is_sensitive_permission_key (permission d) || high in
  mkPerm (permission d) (from_category (permission_category d)) (permission_category d)
    (permission_risk_level d) (permission_description d) (negb sensitive) sensitive high.

(* [permissions/mod.rs] PermissionSubject *)
Inductive PermissionSubject :=
  | SPlugin (id : PluginId)
  | SComponent (id : ComponentId)
  | TauriCommand (name : string)
  | ServiceIpcCommand (name : string)
  | SUiContribution (id : UiContributionId)
  | LocalCore.
#[export] Instance PermissionSubject_eq_dec : EqDecision PermissionSubject.
Proof. solve_decision. Defined.
#[export] Instance PermissionSubject_countable : Countable PermissionSubject.
Proof.
  refine (inj_countable'
    (λ s, match s with
      | SPlugin i => inl (inl i) | SComponent i => inl (inr i)
      | TauriCommand n => inr (inl (inl n)) | ServiceIpcCommand n => inr (inl (inr n))
      | SUiContribution i => inr (inr (inl i)) | LocalCore => inr (inr (inr tt)) end)
    (λ c, match c with
      | inl (inl i) => SPlugin i | inl (inr i) => SComponent i
      | inr (inl (inl n)) => TauriCommand n | inr (inl (inr n)) => ServiceIpcCommand n
      | inr (inr (inl i)) => SUiContribution i | inr (inr (inr _)) => LocalCore end) _).
  by intros [].
Defined.

(* [response/mod.rs] ResponseActionType *)
Inductive ResponseActionType :=
  | RecommendProcessReview | RecommendDestinationWatchlist | RecommendFirewallBlock
  | RecommendQosThrottle | MaliciousDestinationAutoBlock | ExfiltrationAutoThrottle
  | DecoyOutboundAutoBlock | ApiPolicyRecommendation | WafPolicyRecommendation
  | CustomAction (name : string).

(* [permissions/mod.rs] PermissionScope *)
Inductive PermissionScope :=
  | ScopeData (resource operation : string) (metadata_only : bool)
  | ScopeSystem (command : string) (elevated_service_required : bool)
  | ScopeResponse (action_type : ResponseActionType) (execute : bool)
  | ScopeExport (export_kind : string) (redaction_required : bool)
  | ScopeDesktop (surface : string)
  | ScopePolicy (policy_key : string) (mutation : bool).

(* [permissions/mod.rs] PermissionScope::domain *)
Definition scope_domain (s : PermissionScope) : PermissionDomain :=
  match s with
  | ScopeData _ _ _ => DData | ScopeSystem _ _ => DSystem | ScopeResponse _ _ => DResponse
  | ScopeExport _ _ => DExport | ScopeDesktop _ => DDesktop | ScopePolicy _ _ => DPolicy
  end.
(* [permissions/mod.rs] PermissionScope::requires_audit *)
Definition requires_audit (s : PermissionScope) : bool :=
  match s with
  | ScopeSystem _ _ | ScopeResponse _ _ | ScopeExport _ _ => true
  | ScopePolicy _ mutation => mutation
  | ScopeData _ _ metadata_only => negb metadata_only
  | ScopeDesktop _ => false
  end.
(* [permissions/mod.rs] PermissionScope::requires_policy_evaluation *)
Definition requires_policy_evaluation (s : PermissionScope) : bool :=
  match s with
  | ScopeResponse _ true | ScopeExport _ _ | ScopePolicy _ true | ScopeSystem _ true => true
  | _ => false
  end.

(* [permissions/mod.rs] PolicyScope *)
Inductive PolicyScope :=
  | PSPlugin | TauriReadCommand | TauriMutationCommand | ServiceIpc | ResponsePlanning
  | ResponseExecution | PSExport | SettingsMutation | PSUiContribution.
#[export] Instance PolicyScope_eq_dec : EqDecision PolicyScope.
Proof. solve_decision. Defined.

(* [permissions/mod.rs] PermissionDecisionKind *)
Inductive PermissionDecisionKind := Allow | Deny | NeedsApproval | Unavailable | NotApplicable.
#[export] Instance PermissionDecisionKind_eq_dec : EqDecision PermissionDecisionKind.
Proof. solve_decision. Defined.

(* [permissions/mod.rs] DeniedReasonCode *)
Inductive DeniedReasonCode :=
  | CMissingPermission | SensitiveDataForbidden | RawPacketForbidden | PayloadForbidden
  | HttpBodyForbidden | CredentialSecretForbidden | FrontendServiceBypassForbidden
  | FrontendSqliteBypassForbidden | DirectResponseExecutionForbidden | ResponsePolicyRequired
  | CApprovalRequired | CAuditRequired | RollbackRequired | ServiceUnavailable
  | ExportRedactionRequired | SettingsPolicyViolation | PermissionUnavailable
  | CNotApplicable | UnknownPermission.
#[export] Instance DeniedReasonCode_eq_dec : EqDecision DeniedReasonCode.
Proof. solve_decision. Defined.

(* [permissions/mod.rs] DeniedReason *)
Record DeniedReason := mkReason {
  code : DeniedReasonCode;
  reason_redacted : string;
  detail_redacted : option string
}.
(* [permissions/mod.rs] DeniedReason::new *)
Definition denied (c : DeniedReasonCode) (reason : string) : DeniedReason := mkReason c reason None.
(* [permissions/mod.rs] DeniedReason::with_detail *)
Definition with_detail (r : DeniedReason) (detail : string) : DeniedReason :=
  mkReason (code r) (reason_redacted r) (Some detail).

(* [permissions/mod.rs] AuditRequirement *)
Record AuditRequirement := mkAudit {
  ar_audit_required : bool;
  event_type : string;
  reason_codes : list DeniedReasonCode;
  sensitive_data_touched : bool;
  rollback_required : bool;
  ar_approval_required : bool;
  audit_ref : option AuditId
}.
(* [permissions/mod.rs] AuditRequirement::none *)
Definition audit_none : AuditRequirement :=
  mkAudit false "permission.no_audit_required" [] false false false None.
(* [permissions/mod.rs] AuditRequirement::required *)
Definition audit_needed (ty : string) : AuditRequirement := mkAudit true ty [] false false false None.
Definition set_reason_codes (l : list DeniedReason) (a : AuditRequirement) : AuditRequirement :=
  mkAudit (ar_audit_required a) (event_type a) (code <$> l) (sensitive_data_touched a)
    (rollback_required a) (ar_approval_required a) (audit_ref a).

(* [permissions/mod.rs] audit_event_type *)
Definition audit_event_type (s : PolicyScope) : string :=
  match s with
  | PSPlugin => "permission.plugin.evaluate"
  | TauriReadCommand => "permission.tauri.read.evaluate"
  | TauriMutationCommand => "permission.tauri.mutation.evaluate"
  | ServiceIpc => "permission.service_ipc.evaluate"
  | ResponsePlanning => "permission.response.plan.evaluate"
  | ResponseExecution => "permission.response.execute.evaluate"
  | PSExport => "permission.export.evaluate"
  | SettingsMutation => "permission.settings.evaluate"
  | PSUiContribution => "permission.ui_contribution.evaluate"
  end.

(* ------------------------------------------------------------------ *)
(** ** Requests, decisions and policy contexts *)

(* [permissions/mod.rs] PermissionRequest *)
Record PermissionRequest := mkRequest {
  subject : PermissionSubject;
  requested : PermissionKey;
  scope : PermissionScope;
  policy_scope : PolicyScope;
  request_reason_redacted : string;
  requested_at : Timestamp;
  policy_evaluation_required : bool;
  audit_requested : bool
}.
(* [permissions/mod.rs] PermissionRequest::new *)
Definition PermissionRequest_new (s : PermissionSubject) (k : PermissionKey) (sc : PermissionScope)
    (ps : PolicyScope) (reason : string) : ST PermissionRequest :=
  let$ t := now in
  st_ret (mkRequest s k sc ps reason t (requires_policy_evaluation sc) (requires_audit sc)).

(* [permissions/mod.rs] PermissionDecision *)
Record PermissionDecision := mkDecision {
  decision : PermissionDecisionKind;
  d_permission : PermissionKey;
  d_subject : PermissionSubject;
  d_scope : PermissionScope;
  d_policy_scope : PolicyScope;
  reasons : list DeniedReason;
  audit_requirement : AuditRequirement;
  d_policy_evaluation_required : bool;
  policy_evaluated : bool;
  d_created_at : Timestamp
}.
(* [permissions/mod.rs] PermissionDecision::is_ready *)
Definition is_ready (d : PermissionDecision) : bool := bool_decide (decision d = Allow).
Definition status_of_kind (k : PermissionDecisionKind) : ResolutionStatus :=
  match k with
  | Allow | NotApplicable => Compatible
  | NeedsApproval | Unavailable => RDegraded
  | Deny => RIncompatible
  end.
(* [permissions/mod.rs] PermissionDecision::resolution_status *)
Definition resolution_status (d : PermissionDecision) : ResolutionStatus :=
  status_of_kind (decision d).

(* [permissions/mod.rs] PolicyEvaluationContext *)
Record PolicyEvaluationContext := mkContext {
  ctx_policy_scope : PolicyScope;
  ctx_subject : PermissionSubject;
  ctx_permission : PermissionKey;
  permission_scope : PermissionScope;
  runtime_profile : RuntimeProfile;
  ctx_response_policy : ResponsePolicy;
  ctx_policy_version : SchemaVersion;
  service_available : bool;
  policy_hook_available : bool;
  approval_already_granted : bool;
  rollback_available : bool;
  redaction_confirmed : bool;
  is_replay : bool;
  ctx_detail_redacted : option string
}.
(* [permissions/mod.rs] PolicyEvaluationContext::new *)
Definition PolicyEvaluationContext_new (ps : PolicyScope) (s : PermissionSubject)
    (k : PermissionKey) (sc : PermissionScope) (p : RuntimeProfile) : PolicyEvaluationContext :=
  mkContext ps s k sc p (response_policy p) (profile_schema_version p) true true false false false
    false None.

(* [permissions/mod.rs] PolicyEvaluationResult *)
Record PolicyEvaluationResult := mkPolicyResult {
  pr_decision : PermissionDecisionKind;
  pr_status : ResolutionStatus;
  pr_reasons : list DeniedReason;
  pr_audit_requirement : AuditRequirement;
  pr_policy_version : SchemaVersion;
  evaluated_at : Timestamp
}.
(* [permissions/mod.rs] PolicyEvaluationResult::from_decision *)
Definition from_decision (k : PermissionDecisionKind) (l : list DeniedReason)
    (a : AuditRequirement) (v : SchemaVersion) : ST PolicyEvaluationResult :=
  let$ t := now in st_ret (mkPolicyResult k (status_of_kind k) l a v t).

(* ------------------------------------------------------------------ *)
(** ** Guardrails *)

(* [permissions/mod.rs] sensitive_permission_reason *)
Definition sensitive_permission_reason (k : PermissionKey) : DeniedReason :=
  let key := permission_str k in
  if contains key "raw_packet"
  then denied RawPacketForbidden "raw packet permission is not granted by default"
  else if contains key "payload"
  then denied PayloadForbidden "payload permission is not granted by default"
  else if contains key "http_body"
  then denied HttpBodyForbidden "HTTP body permission is not granted by default"
  else if contains_secret_token key
  then denied CredentialSecretForbidden "secret-bearing permission is not granted by default"
  else if contains key "firewall.write" || contains key "qos.write"
          || contains key "process.control"
  then denied DirectResponseExecutionForbidden
         "sensitive response or system action requires policy evaluation"
  else denied SensitiveDataForbidden "sensitive permission is not granted by default".

Definition is_tauri_command (s : PermissionSubject) : bool :=
  match s with TauriCommand _ => true | _ => false end.
Definition executes_response (s : PermissionScope) : bool :=
  match s with ScopeResponse _ true => true | _ => false end.

(** [if cond { reasons.push(reason) }] *)
Definition push_if (cond : bool) (r : DeniedReason) : list DeniedReason :=
  if cond then [r] else [].

(* [permissions/mod.rs] static_guardrails *)
Definition static_guardrails (r : PermissionRequest) : list DeniedReason :=
  let key := permission_str (requested r) in
  push_if (is_tauri_command (subject r) && contains key "elevated_service.direct")
    (denied FrontendServiceBypassForbidden "frontend must not directly call the elevated service")
  ++ push_if (is_tauri_command (subject r) && contains key "sqlite.direct")
    (denied FrontendSqliteBypassForbidden "frontend must not directly read SQLite")
  ++ push_if (is_sensitive_permission_key (requested r)) (sensitive_permission_reason (requested r))
  ++ push_if (executes_response (scope r) && negb (policy_evaluation_required r))
    (denied DirectResponseExecutionForbidden "response execution requires policy evaluation").

(* [permissions/mod.rs] profile_guardrails *)
Definition profile_guardrails (c : PolicyEvaluationContext) : list DeniedReason :=
  let privacy := privacy_policy (runtime_profile c) in
  let key := permission_str (ctx_permission c) in
  push_if (contains key "raw_packet" || pp_raw_packet_storage_enabled privacy)
    (denied RawPacketForbidden "raw packet access or persistence is forbidden in normal mode")
  ++ push_if (contains key "payload" || pp_payload_storage_enabled privacy)
    (denied PayloadForbidden "payload access or persistence is forbidden in normal mode")
  ++ push_if (contains key "http_body" || pp_http_body_storage_enabled privacy)
    (denied HttpBodyForbidden "HTTP body access or persistence is forbidden in normal mode")
  ++ push_if (pp_cookie_token_credential_storage_enabled privacy
              || pp_authorization_header_storage_enabled privacy
              || pp_api_key_storage_enabled privacy || contains_secret_token key)
    (denied CredentialSecretForbidden
      "cookies, tokens, credentials, Authorization headers, API keys, and secrets are forbidden")
  ++ push_if (bool_decide (ctx_policy_scope c = SettingsMutation)
              && negb (is_ok (profile_validate (runtime_profile c))))
    (denied SettingsPolicyViolation "requested settings profile violates safe policy defaults").

(* [permissions/mod.rs:931-936] is_allowed_auto_action *)
Definition auto_action_key (a : ResponseActionType) : option string :=
  match a with
  | MaliciousDestinationAutoBlock => Some "malicious_destination_auto_block"
  | ExfiltrationAutoThrottle => Some "exfiltration_auto_throttle"
  | DecoyOutboundAutoBlock => Some "decoy_outbound_auto_block"
  | _ => None
  end.
(* [permissions/mod.rs] is_allowed_auto_action *)
Definition is_allowed_auto_action (a : ResponseActionType) (p : ResponsePolicy) : bool :=
  match auto_action_key a with
  | None => false
  | Some key => existsb (λ value, bool_decide (value = key)) (rp_allowed_auto_actions p)
  end.

Definition require_rollback (a : AuditRequirement) : AuditRequirement :=
  mkAudit true (event_type a) (reason_codes a) (sensitive_data_touched a) true
    (ar_approval_required a) (audit_ref a).
Definition require_approval (a : AuditRequirement) : AuditRequirement :=
  mkAudit (ar_audit_required a) (event_type a) (reason_codes a) (sensitive_data_touched a)
    (rollback_required a) true (audit_ref a).

(** The reasons appended, and the audit requirement after. *)
(* [permissions/mod.rs] evaluate_response_policy *)
Definition evaluate_response_policy (a : ResponseActionType) (execute : bool)
    (c : PolicyEvaluationContext) (audit : AuditRequirement)
    : list DeniedReason * AuditRequirement :=
  if negb execute then ([], audit)
  else
    let audit := require_rollback audit in
    let p := ctx_response_policy c in
    let guards :=
      push_if (is_replay c && rp_replay_execution_disabled p)
        (denied DirectResponseExecutionForbidden "response execution is disabled in replay mode")
      ++ push_if (negb (rollback_available c) || negb (rp_rollback_required p))
        (denied RollbackRequired "response execution requires rollback metadata")
      ++ push_if (negb (rp_audit_required p))
        (denied CAuditRequired "response execution requires audit metadata") in
    match rp_mode p with
    | RecommendOnly =>
        (guards ++ [denied ResponsePolicyRequired "current response policy is recommend-only"], audit)
    | ModeApprovalRequired =>
        if negb (approval_already_granted c)
        then (guards ++ [denied CApprovalRequired "response policy requires approval"],
              require_approval audit)
        else (guards, audit)
    | AutoContainmentLite =>
        if negb (is_allowed_auto_action a p)
        then
          if approval_already_granted c then (guards, require_approval audit)
          else (guards ++ [denied CApprovalRequired
                  "response action is outside auto-containment allowlist"], require_approval audit)
        else (guards, audit)
    end.

(* ------------------------------------------------------------------ *)
(** ** [PermissionResolver] *)

(* [permissions/mod.rs] PermissionResolver *)
Record PermissionResolver := mkPermissionResolver {
  permissions : gmap PermissionKey Permission;
  grants : gmap PermissionSubject (gset PermissionKey);
  unavailable_permissions : gset PermissionKey
}.
(* [permissions/mod.rs] PermissionResolver::new *)
Definition permission_resolver_new : PermissionResolver := mkPermissionResolver ∅ ∅ ∅.

Section resolver.
Context `{Externals}.
Implicit Types r : PermissionResolver.

(* [permissions/mod.rs] PermissionResolver::register_permission *)
Definition register_permission r (p : Permission) : PermissionResolver :=
  mkPermissionResolver (<[key p := p]> (permissions r)) (grants r) (unavailable_permissions r).
(* [permissions/mod.rs] PermissionResolver::register_descriptor *)
Definition register_descriptor r (d : PermissionDescriptor) : PermissionResolver :=
  register_permission r (from_descriptor d).
(* [permissions/mod.rs] PermissionResolver::grant *)
Definition grant r (s : PermissionSubject) (k : PermissionKey) : PermissionResolver :=
  mkPermissionResolver (permissions r) (<[s := {[k]} ∪ default ∅ (grants r !! s)]> (grants r))
    (unavailable_permissions r).
(* [permissions/mod.rs] PermissionResolver::mark_unavailable *)
Definition mark_unavailable r (k : PermissionKey) : PermissionResolver :=
  mkPermissionResolver (permissions r) (grants r) ({[k]} ∪ unavailable_permissions r).

(** One declared permission: registered, and granted when that is its default. *)
(* [permissions/mod.rs:438-443] PermissionResolver::register_plugin_manifest_permissions *)
Definition register_and_grant (s : PermissionSubject) r (d : PermissionDescriptor)
    : PermissionResolver :=
  let r := register_descriptor r d in
  if default_grant (from_descriptor d) then grant r s (permission d) else r.
(* [permissions/mod.rs] PermissionResolver::register_plugin_manifest_permissions *)
Definition register_plugin_manifest_permissions r (m : PluginManifest) : PermissionResolver :=
  foldl (register_and_grant (SPlugin (plugin_id m))) r (required_permissions m).
(* [permissions/mod.rs] PermissionResolver::register_ui_contribution_permissions *)
Definition register_ui_contribution_permissions r (u : UiContribution) : PermissionResolver :=
  foldl (register_and_grant (SUiContribution (contribution_id u))) r (contribution_permissions u).

Definition is_granted r (s : PermissionSubject) (k : PermissionKey) : bool :=
  match grants r !! s with Some g => bool_decide (k ∈ g) | None => false end.

(* [permissions/mod.rs] PermissionResolver::make_decision *)
Definition make_decision (q : PermissionRequest) (k : PermissionDecisionKind)
    (l : list DeniedReason) (a : AuditRequirement) (evaluated : bool) : ST PermissionDecision :=
  let a := if bool_decide (reason_codes a = []) then set_reason_codes l a else a in
  let$ t := now in
  st_ret (mkDecision k (requested q) (subject q) (scope q) (policy_scope q) l a
    (policy_evaluation_required q) evaluated t).

Definition join_audit (audit approval rollback sensitive : bool) (a : AuditRequirement)
    : AuditRequirement :=
  mkAudit (ar_audit_required a || audit) (event_type a) (reason_codes a)
    (sensitive_data_touched a || sensitive) (rollback_required a || rollback)
    (ar_approval_required a || approval) (audit_ref a).

(* [permissions/mod.rs] PermissionResolver::evaluate_permission *)
Definition evaluate_permission r (q : PermissionRequest)
    (policy_result : option PolicyEvaluationResult) : ST PermissionDecision :=
  let audit :=
    if audit_requested q then audit_needed (audit_event_type (policy_scope q)) else audit_none in
  if bool_decide (requested q ∈ unavailable_permissions r)
  then make_decision q Unavailable
         [denied PermissionUnavailable "permission is currently unavailable"] audit false
  else
    match permissions r !! requested q with
    | None =>
        make_decision q Deny [denied UnknownPermission "permission is not registered"] audit false
    | Some p =>
        if negb (bool_decide (domain p = scope_domain (scope q)))
        then make_decision q NotApplicable
               [denied CNotApplicable "permission domain does not apply to requested scope"] audit false
        else
          let audit := join_audit (audit_required p) (approval_required p) false false audit in
          let reasons := static_guardrails q in
          if negb (bool_decide (length reasons = 0%nat))
          then make_decision q Deny reasons (set_reason_codes reasons audit) false
          else if negb (is_granted r (subject q) (requested q))
          then
            let reasons := reasons ++
              [denied CMissingPermission "required permission has not been granted"] in
            make_decision q Deny reasons (set_reason_codes reasons audit) false
          else if policy_evaluation_required q
          then
            match policy_result with
            | None =>
                let reasons := reasons ++
                  [denied ResponsePolicyRequired
                     "policy evaluation is required before this permission can be used"] in
                make_decision q NeedsApproval reasons (set_reason_codes reasons audit) false
            | Some pr =>
                let pa := pr_audit_requirement pr in
                let audit := join_audit (ar_audit_required pa) (ar_approval_required pa)
                  (rollback_required pa) (sensitive_data_touched pa) audit in
                if negb (bool_decide (pr_decision pr = Allow))
                then
                  let reasons := reasons ++ pr_reasons pr in
                  make_decision q (pr_decision pr) reasons (set_reason_codes reasons audit) true
                else make_decision q Allow reasons audit (bool_decide (is_Some policy_result))
            end
          else make_decision q Allow reasons audit (bool_decide (is_Some policy_result))
    end.

(** What the scope asks for: the reasons appended, and the audit requirement after. *)
(* [permissions/mod.rs:618-666] PermissionResolver::evaluate_policy *)
Definition scope_policy (c : PolicyEvaluationContext) (audit : AuditRequirement)
    : list DeniedReason * AuditRequirement :=
  match permission_scope c with
  | ScopeResponse action execute =>
      evaluate_response_policy action execute c
        (mkAudit true (event_type audit) (reason_codes audit) (sensitive_data_touched audit)
           execute (ar_approval_required audit) (audit_ref audit))
  | ScopeExport _ redaction_required =>
      (push_if (redaction_required && negb (redaction_confirmed c))
         (denied ExportRedactionRequired "export requires redaction confirmation"),
       mkAudit true (event_type audit) (reason_codes audit) true
         (rollback_required audit) (ar_approval_required audit) (audit_ref audit))
  | ScopeSystem _ elevated =>
      (push_if (elevated && negb (service_available c))
         (denied ServiceUnavailable "required elevated service is unavailable"),
       mkAudit true (event_type audit) (reason_codes audit) (sensitive_data_touched audit)
         (rollback_required audit) (ar_approval_required audit) (audit_ref audit))
  | ScopePolicy _ mutation =>
      ([], if mutation
           then mkAudit true (event_type audit) (reason_codes audit)
                  (sensitive_data_touched audit) (rollback_required audit)
                  (ar_approval_required audit) (audit_ref audit)
           else audit)
  | ScopeData _ _ metadata_only =>
      ([], mkAudit (ar_audit_required audit) (event_type audit) (reason_codes audit)
             (negb metadata_only) (rollback_required audit) (ar_approval_required audit)
             (audit_ref audit))
  | ScopeDesktop _ => ([], audit)
  end.

(* [permissions/mod.rs] PermissionResolver::evaluate_policy *)
Definition evaluate_policy (c : PolicyEvaluationContext) : ST PolicyEvaluationResult :=
  let audit :=
    if requires_audit (permission_scope c)
    then audit_needed (audit_event_type (ctx_policy_scope c)) else audit_none in
  if negb (policy_hook_available c)
  then from_decision Unavailable
         [denied ResponsePolicyRequired "policy hook is unavailable"] audit (ctx_policy_version c)
  else
    let '(more, audit) := scope_policy c audit in
    let reasons := profile_guardrails c ++ more in
    let audit := set_reason_codes reasons audit in
    let decision :=
      if existsb (λ x, negb (bool_decide (code x = CApprovalRequired))) reasons then Deny
      else if existsb (λ x, bool_decide (code x = CApprovalRequired)) reasons then NeedsApproval
      else Allow in
    from_decision decision reasons audit (ctx_policy_version c).

Definition permission_issue (m : PluginManifest) (d : PermissionDescriptor) (msg : string)
    : ResolutionIssue :=
  mkIssue SevBlocker MissingPermission None (Some (plugin_id m)) None None
    (Some (permission_str (permission d))) msg.
(* [permissions/mod.rs] PermissionResolver::resolve_plugin_manifest *)
Definition resolve_manifest_permissions r (m : PluginManifest) (pr : PluginRegistry)
    : ResolutionReport :=
  report_from_issues (
    (if bool_decide (get_plugin pr (plugin_id m) = None)
     then [for_plugin (plugin_id m) (warning InvalidManifest
             "plugin manifest has not been registered before permission resolution")]
     else []) ++
    (required_permissions m ≫= λ d,
      (if negb (contains_key (permissions r) (permission d))
       then [permission_issue m d "required permission is not registered"] else []) ++
      (if permission_required d && negb (is_granted r (SPlugin (plugin_id m)) (permission d))
       then [permission_issue m d "required permission has not been granted"] else []))).

(* ------------------------------------------------------------------ *)
(** ** Scopes of descriptors and of settings changes *)

(* [permissions/mod.rs] permission_scope_for_descriptor *)
Definition permission_scope_for_descriptor (d : PermissionDescriptor) : PermissionScope :=
  let key := permission_str (permission d) in
  match permission_category d with
  | DataAccess => ScopeData key "metadata" (negb (is_sensitive_permission_key (permission d)))
  | SystemAccess => ScopeSystem key true
  | ResponseAccess => ScopeResponse (CustomAction key) (contains key "execute")
  | ExportAccess => ScopeExport key true
  | DesktopAccess => ScopeDesktop key
  | PolicyAccess =>
      ScopePolicy key (contains key "write" || contains key "update" || contains key "change")
  end.

(* [permissions/mod.rs] policy_scope_for_settings_change *)
Definition policy_scope_for_settings_change (k : SettingsChangeKind) : PolicyScope :=
  match k with
  | ChangeRuntimeProfile | ChangePrivacyPolicy | ChangeCaptureSettings
  | ChangeAttributionSettings | ChangeIntelligenceSettings | ChangeApiSecuritySettings
  | ChangeWafIntegrationSettings | ChangeResponsePolicy | ChangeReportExportPolicy
  | ChangeRetentionPolicy | ChangeServiceStatusSettings => SettingsMutation
  end.

End resolver.
