(* ===== verification/PermissionsFacts.v ===== *)
(** * Facts about permissions and policies *)

From S2P Require Import Prelude Collections RustStr Effects Contracts Manifest.
From S2P Require Import Component Registry Resolver Settings SettingsFacts Permissions.

#[local] Open Scope string_scope.
#[local] Open Scope list_scope.
#[local] Open Scope N_scope.

(* ------------------------------------------------------------------ *)
(** ** Reasons *)

Lemma push_if_nil b r : push_if b r = [] ↔ b = false.
Proof. unfold push_if. by destruct b. Qed.

Lemma app_nil_iff {A} (l k : list A) : l ++ k = [] ↔ l = [] ∧ k = [].
Proof. destruct l, k; naive_solver. Qed.

(** What the static guardrails forbid. *)
Record request_guarded (q : PermissionRequest) : Prop := {
  rg_no_bypass : ∀ nm, subject q = TauriCommand nm →
    contains (permission_str (requested q)) "elevated_service.direct" = false ∧
    contains (permission_str (requested q)) "sqlite.direct" = false;
  rg_not_sensitive : is_sensitive_permission_key (requested q) = false;
  rg_policy : executes_response (scope q) = true → policy_evaluation_required q = true
}.

Lemma static_guardrails_nil q : static_guardrails q = [] ↔ request_guarded q.
Proof.
  unfold static_guardrails. rewrite !app_nil_iff, !push_if_nil, !andb_false_iff, negb_false_iff.
  split.
  - intros (Hs & Hq & Hk & Hp). constructor; [|done|].
    + intros nm Heq. unfold is_tauri_command in *. rewrite Heq in *. naive_solver.
    + intros He. rewrite He in Hp. naive_solver.
  - intros [Hb Hk Hp]. unfold is_tauri_command. split_and!; [| |done|].
    + destruct (subject q) eqn:Heq; auto. by destruct (Hb _ eq_refl); right.
    + destruct (subject q) eqn:Heq; auto. by destruct (Hb _ eq_refl); right.
    + destruct (executes_response (scope q)); auto.
Qed.

Section facts.
Context `{Externals}.
Implicit Types (r : PermissionResolver) (q : PermissionRequest) (w : World).

Lemma evaluate_allow r q pol w :
  decision (evaluate_permission r q pol w).1 = Allow ↔
  (requested q ∉ unavailable_permissions r) ∧
  (∃ p, permissions r !! requested q = Some p ∧ domain p = scope_domain (scope q)) ∧
  request_guarded q ∧ is_granted r (subject q) (requested q) = true ∧
  (policy_evaluation_required q = true → ∃ res, pol = Some res ∧ pr_decision res = Allow).
Proof.
  unfold evaluate_permission.
  destruct (bool_decide_reflect (requested q ∈ unavailable_permissions r)) as [Hu|Hu].
  { simpl. naive_solver. }
  destruct (permissions r !! requested q) as [p|]; [|simpl; naive_solver].
  destruct (bool_decide_reflect (domain p = scope_domain (scope q))) as [Hd|Hd];
    simpl; [|simpl; naive_solver].
  rewrite <- static_guardrails_nil.
  destruct (static_guardrails q) as [|x l]; simpl; [|naive_solver].
  destruct (is_granted r (subject q) (requested q)); simpl; [|naive_solver].
  destruct (policy_evaluation_required q); [|simpl; naive_solver].
  destruct pol as [res|]; [|naive_solver].
  destruct (bool_decide_reflect (pr_decision res = Allow)); simpl; naive_solver.
Qed.

(** A permission is allowed exactly when it is available, registered in the domain of
    the requested scope, passes the guardrails (no front-end bypass, no sensitive key, no
    response execution without policy), has been granted to the subject, and, where a
    policy evaluation is required, that evaluation allowed it. *)
Theorem permission_allowed_iff r q pol w :
  is_ready (evaluate_permission r q pol w).1 = true ↔
  (requested q ∉ unavailable_permissions r) ∧
  (∃ p, permissions r !! requested q = Some p ∧ domain p = scope_domain (scope q)) ∧
  request_guarded q ∧ is_granted r (subject q) (requested q) = true ∧
  (policy_evaluation_required q = true → ∃ res, pol = Some res ∧ pr_decision res = Allow).
Proof. unfold is_ready. rewrite bool_decide_eq_true. apply evaluate_allow. Qed.

(* ------------------------------------------------------------------ *)
(** ** Grants *)

Lemma is_granted_spec r s k : is_granted r s k = true ↔ k ∈ default ∅ (grants r !! s).
Proof.
  unfold is_granted. destruct (grants r !! s); simpl; [by rewrite bool_decide_eq_true|].
  split; [done|set_solver].
Qed.

Lemma is_granted_grant r s k s' k' :
  is_granted (grant r s k) s' k' = true ↔ (s = s' ∧ k = k') ∨ is_granted r s' k' = true.
Proof.
  rewrite !is_granted_spec. simpl. destruct (decide (s = s')) as [<-|Hne].
  - rewrite lookup_insert_eq. simpl. set_solver.
  - rewrite lookup_insert_ne by done. naive_solver.
Qed.

(** A descriptor whose permission is granted without asking. *)
Definition harmless (d : PermissionDescriptor) : Prop :=
  is_sensitive_permission_key (permission d) = false ∧ is_high_risk d = false.

Lemma default_grant_spec d : default_grant (from_descriptor d) = true ↔ harmless d.
Proof.
  unfold from_descriptor, harmless, is_high_risk. simpl. rewrite negb_true_iff, orb_false_iff. done.
Qed.

Lemma register_and_grant_granted s l r s' k :
  is_granted (foldl (register_and_grant s) r l) s' k = true ↔
  is_granted r s' k = true ∨ (s = s' ∧ ∃ d, d ∈ l ∧ permission d = k ∧ harmless d).
Proof.
  revert r. induction l as [|d l IH]; intros r; simpl; [set_solver|]. rewrite IH.
  unfold register_and_grant. destruct (default_grant (from_descriptor d)) eqn:Hd.
  - apply default_grant_spec in Hd. rewrite is_granted_grant. setoid_rewrite elem_of_cons.
    change (is_granted (register_descriptor r d) s' k) with (is_granted r s' k). naive_solver.
  - change (is_granted (register_descriptor r d) s' k) with (is_granted r s' k).
    assert (¬ harmless d) by (rewrite <- default_grant_spec; congruence).
    setoid_rewrite elem_of_cons. naive_solver.
Qed.

(** Registering a plugin grants it exactly the declared permissions that are neither
    sensitive nor of high or critical risk; every other grant, of this and of all other
    subjects, is as before. *)
Theorem manifest_grants_exact r m s k :
  is_granted (register_plugin_manifest_permissions r m) s k = true ↔
  is_granted r s k = true ∨
  (s = SPlugin (plugin_id m) ∧
   ∃ d, d ∈ required_permissions m ∧ permission d = k ∧ harmless d).
Proof. unfold register_plugin_manifest_permissions. rewrite register_and_grant_granted. naive_solver. Qed.

(* ------------------------------------------------------------------ *)
(** ** Policies *)

(** The reasons [evaluate_policy] collects. *)
Definition policy_reasons (c : PolicyEvaluationContext) : list DeniedReason :=
  profile_guardrails c ++
  (scope_policy c (if requires_audit (permission_scope c)
     then audit_needed (audit_event_type (ctx_policy_scope c)) else audit_none)).1.

Lemma decision_of_reasons (l : list DeniedReason) :
  (if existsb (λ x, negb (bool_decide (code x = CApprovalRequired))) l then Deny
   else if existsb (λ x, bool_decide (code x = CApprovalRequired)) l then NeedsApproval
   else Allow) = Allow ↔ l = [].
Proof.
  destruct l as [|x l]; simpl; [done|].
  destruct (bool_decide (code x = CApprovalRequired)); simpl; [|done].
  by destruct (existsb _ l).
Qed.

Lemma evaluate_policy_allow c w :
  pr_decision (evaluate_policy c w).1 = Allow ↔
  policy_hook_available c = true ∧ policy_reasons c = [].
Proof.
  unfold evaluate_policy, policy_reasons.
  destruct (policy_hook_available c); simpl; [|naive_solver].
  destruct (scope_policy _ _) as [more a]. simpl. rewrite decision_of_reasons. naive_solver.
Qed.

(** What the policy asks before a response action is executed. *)
Record execution_permitted (action : ResponseActionType) (c : PolicyEvaluationContext) : Prop := {
  ep_hook : policy_hook_available c = true;
  ep_profile : profile_guardrails c = [];
  ep_replay : is_replay c = true → rp_replay_execution_disabled (ctx_response_policy c) = false;
  ep_rollback : rollback_available c = true ∧ rp_rollback_required (ctx_response_policy c) = true;
  ep_audit : rp_audit_required (ctx_response_policy c) = true;
  ep_mode :
    match rp_mode (ctx_response_policy c) with
    | RecommendOnly => False
    | ModeApprovalRequired => approval_already_granted c = true
    | AutoContainmentLite =>
        is_allowed_auto_action action (ctx_response_policy c) = true ∨
        approval_already_granted c = true
    end
}.

Lemma response_reasons_nil action c a :
  (evaluate_response_policy action true c a).1 = [] ↔
  (is_replay c = true → rp_replay_execution_disabled (ctx_response_policy c) = false) ∧
  (rollback_available c = true ∧ rp_rollback_required (ctx_response_policy c) = true) ∧
  rp_audit_required (ctx_response_policy c) = true ∧
  match rp_mode (ctx_response_policy c) with
  | RecommendOnly => False
  | ModeApprovalRequired => approval_already_granted c = true
  | AutoContainmentLite =>
      is_allowed_auto_action action (ctx_response_policy c) = true ∨
      approval_already_granted c = true
  end.
Proof.
  unfold evaluate_response_policy. simpl.
  destruct (is_replay c), (rp_replay_execution_disabled (ctx_response_policy c)),
    (rollback_available c), (rp_rollback_required (ctx_response_policy c)),
    (rp_audit_required (ctx_response_policy c)); simpl;
    destruct (rp_mode (ctx_response_policy c)); simpl;
    try destruct (is_allowed_auto_action action (ctx_response_policy c)); simpl;
    destruct (approval_already_granted c); simpl; naive_solver.
Qed.

Lemma execution_policy action c w :
  permission_scope c = ScopeResponse action true →
  pr_decision (evaluate_policy c w).1 = Allow ↔ execution_permitted action c.
Proof.
  intros Hs. rewrite evaluate_policy_allow. unfold policy_reasons, scope_policy. rewrite Hs.
  rewrite app_nil_iff, response_reasons_nil.
  split; [intros (? & ? & ? & ? & ? & ?); by constructor|intros [? ? ? [? ?] ? ?]; by split_and!].
Qed.

Lemma response_audit action c a :
  let a' := (evaluate_response_policy action true c a).2 in
  ar_audit_required a' = true ∧ rollback_required a' = true.
Proof.
  unfold evaluate_response_policy. simpl. destruct (rp_mode _); simpl; [done|..];
    [destruct (negb (is_allowed_auto_action _ _)); [|done]|];
    by destruct (approval_already_granted c).
Qed.

Lemma execution_audit action c w :
  permission_scope c = ScopeResponse action true → policy_hook_available c = true →
  ar_audit_required (pr_audit_requirement (evaluate_policy c w).1) = true ∧
  rollback_required (pr_audit_requirement (evaluate_policy c w).1) = true.
Proof.
  intros Hs Hh. unfold evaluate_policy, scope_policy. rewrite Hs, Hh. simpl.
  match goal with |- context [evaluate_response_policy ?x true c ?a] =>
    pose proof (response_audit x c a) as Ha; destruct (evaluate_response_policy x true c a) end.
  done.
Qed.

(** The audit requirement of an allowed decision includes that of the policy result. *)
Lemma allowed_audit r q res w :
  policy_evaluation_required q = true →
  is_ready (evaluate_permission r q (Some res) w).1 = true →
  let a := audit_requirement (evaluate_permission r q (Some res) w).1 in
  (ar_audit_required (pr_audit_requirement res) = true → ar_audit_required a = true) ∧
  (rollback_required (pr_audit_requirement res) = true → rollback_required a = true).
Proof.
  intros Hp. unfold is_ready, evaluate_permission. rewrite Hp.
  destruct (bool_decide (requested q ∈ unavailable_permissions r)); [done|].
  destruct (permissions r !! requested q) as [p|]; [|done].
  destruct (bool_decide (domain p = _)); [|done]. simpl.
  destruct (static_guardrails q); simpl; [|done].
  destruct (is_granted r (subject q) (requested q)); [|done]. simpl.
  destruct (bool_decide_reflect (pr_decision res = Allow)) as [|Hne]; simpl.
  - intros _. destruct (bool_decide (reason_codes _ = [])); simpl;
      (split; intros ->; by rewrite !orb_true_r).
  - rewrite bool_decide_eq_true. done.
Qed.

(** C32. A response action is executed only behind every gate: if a request to execute it is
    allowed on the strength of a policy evaluation of the same action, then the permission
    was granted and is not sensitive, the profile stores nothing forbidden, replay does
    not forbid it, rollback metadata and audit are there, and the response mode permits it
    (never under recommend-only; with approval, or on the auto-containment allowlist). The
    decision demands audit and rollback. A policy that permits all this is allowed. *)
Theorem response_execution_gated r q c action w w' :
  scope q = ScopeResponse action true → permission_scope c = ScopeResponse action true →
  let policy := (evaluate_policy c w).1 in
  let d := (evaluate_permission r q (Some policy) w').1 in
  (is_ready d = true →
    execution_permitted action c ∧ request_guarded q ∧
    is_granted r (subject q) (requested q) = true ∧
    ar_audit_required (audit_requirement d) = true ∧ rollback_required (audit_requirement d) = true) ∧
  (pr_decision policy = Allow ↔ execution_permitted action c).
Proof.
  intros Hq Hc policy d. split; [|by apply execution_policy].
  intros Hr. pose proof Hr as Ha. unfold is_ready in Ha. apply bool_decide_eq_true in Ha.
  apply evaluate_allow in Ha as (_ & _ & Hg & Hgr & Hpol).
  assert (policy_evaluation_required q = true) as Hreq by (apply Hg; by rewrite Hq).
  destruct (Hpol Hreq) as (res & [= <-] & Hal). unfold policy in Hal.
  rewrite (execution_policy action c w Hc) in Hal.
  destruct (allowed_audit r q policy w' Hreq Hr) as [Haud Hroll].
  destruct (execution_audit action c w Hc (ep_hook _ _ Hal)) as [Ha1 Ha2].
  split_and!; try done; [by apply Haud|by apply Hroll].
Qed.

End facts.

(* ------------------------------------------------------------------ *)
(** ** A concrete response execution *)

Module PermissionsSample.
#[local] Existing Instance sample_externals.

Definition execute_key : PermissionKey := mkPermissionKey "response.execute".
Definition descriptor : PermissionDescriptor :=
  mkPermission execute_key ResponseAccess RiskHigh "execute a response" true [].
Definition responder : PermissionSubject := TauriCommand "respond".
Definition granted : PermissionResolver :=
  grant (register_descriptor permission_resolver_new descriptor) responder execute_key.
Definition block : PermissionScope := ScopeResponse MaliciousDestinationAutoBlock true.
Definition request : PermissionRequest :=
  (PermissionRequest_new responder execute_key block ResponseExecution "contain" counting_world).1.
Definition profile : RuntimeProfile := (profile_high_performance counting_world).1.
Definition context (rollback : bool) : PolicyEvaluationContext :=
  mkContext ResponseExecution responder execute_key block profile (response_policy profile)
    (mkVersion 1 0 0) true true false rollback false false None.

(** Allowed with rollback metadata, denied without. *)
Lemma response_execution_gated_witness :
  execution_permitted MaliciousDestinationAutoBlock (context true) ∧
  is_ready (evaluate_permission granted request
    (Some (evaluate_policy (context false) counting_world).1) counting_world).1 = false.
Proof.
  split; [|vm_compute; reflexivity].
  refine (proj1 (proj1 (response_execution_gated granted request (context true)
    MaliciousDestinationAutoBlock counting_world counting_world eq_refl eq_refl) _)).
  vm_compute. reflexivity.
Defined.
End PermissionsSample.
