(* ===== verification/Observability.v ===== *)
(** * Observability ([platform/src/observability])

    Privacy-safe text ([diagnostics.rs]), audit events and the in-memory audit sink
    ([audit.rs]), health snapshots ([health.rs]), metrics and their sink ([metrics.rs]).
    Field prefixes: [tl_] trace link, [ds_] diagnostics summary, [ae_] audit event, [hp_]
    probe, [hd_] health dependency, [hs_] health snapshot, [md_] metric descriptor, [ms_]
    metric sample. Constructors that clash with those of other files start with [A] (audit)
    or [O] (observed health). Floating-point metric values are opaque to this code; they
    are kept as [spec_float]. *)

From Stdlib Require Import SpecFloat.
From S2P Require Import Prelude Collections RustStr Effects Contracts Topics Manifest.
From S2P Require Import Pipeline Settings.

#[local] Open Scope string_scope.
#[local] Open Scope list_scope.
#[local] Open Scope N_scope.

(* ------------------------------------------------------------------ *)
(** ** Diagnostics *)

(* [observability/diagnostics.rs] TraceLink *)
Record TraceLink := mkTraceLink {
  tl_trace_id : TraceId;
  tl_correlation_id : option CorrelationId;
  tl_causality_id : option CausalityId;
  tl_parent_trace_id : option TraceId;
  tl_source_event_id : option EventId;
  tl_pipeline_id : option PipelineId;
  tl_replay_id : option ReplayId
}.
(* [observability/diagnostics.rs] TraceLink::new *)
Definition TraceLink_new (id : TraceId) : TraceLink :=
  mkTraceLink id None None None None None None.
(* [observability/diagnostics.rs] TraceLink::from_context *)
Definition TraceLink_from_context (c : Envelope.TraceContext) : TraceLink :=
  mkTraceLink (Envelope.tc_trace_id c) (Envelope.tc_correlation_id c)
    (Envelope.tc_causality_id c) None None (Envelope.tc_pipeline_id c) (Envelope.tc_replay_id c).

(* [observability/diagnostics.rs] DiagnosticsValidationError *)
Inductive DiagnosticsValidationError :=
  | DEmptyField (field : string)
  | DSensitiveMarker (field marker : string).
(* [observability/diagnostics.rs] Display for DiagnosticsValidationError::fmt *)
Definition diagnostics_error_to_string (e : DiagnosticsValidationError) : string :=
  match e with
  | DEmptyField field => field ++ " must not be empty"
  | DSensitiveMarker field marker => field ++ " contains forbidden sensitive marker: " ++ marker
  end%string.

(* [observability/diagnostics.rs:161-173] SENSITIVE_MARKERS *)
Definition SENSITIVE_MARKERS : list string :=
  ["raw_packet"; "payload"; "http_body"; "cookie"; "token"; "credential"; "authorization";
   "api_key"; "secret"; "private_key"; "password"].

(* [observability/diagnostics.rs] forbidden_sensitive_marker *)
Definition forbidden_sensitive_marker (value : string) : option string :=
  let normalized :=
    replace_with_underscore ["-"%char; "."%char; " "%char; "/"%char] (to_ascii_lowercase value) in
  find (contains normalized) SENSITIVE_MARKERS.
(* [observability/diagnostics.rs] validate_privacy_safe_text *)
Definition validate_privacy_safe_text (field value : string)
    : result unit DiagnosticsValidationError :=
  match forbidden_sensitive_marker value with
  | Some marker => Err (DSensitiveMarker field marker)
  | None => Ok tt
  end.
(* [observability/diagnostics.rs] require_non_empty *)
Definition require_text (field value : string) : result string DiagnosticsValidationError :=
  if blank value then Err (DEmptyField field) else Ok value.
(* [observability/diagnostics.rs] require_privacy_safe_text *)
Definition require_privacy_safe_text (field value : string)
    : result string DiagnosticsValidationError :=
  let? value := require_text field value in
  let? _ := validate_privacy_safe_text field value in
  Ok value.
(** [Result::expect]: a panic is [None]. *)
Definition expect {T E} (m : result T E) : option T :=
  match m with Ok v => Some v | Err _ => None end.
(** [if let Some(text) = ..] *)
Definition check_optional {E} (check : string → result unit E) (o : option string)
    : result unit E :=
  match o with Some text => check text | None => Ok tt end.

(* ------------------------------------------------------------------ *)
(** ** Health *)

(* [observability/health.rs] HealthStatus *)
Inductive HealthStatus :=
  | OHealthy | ODegraded | OUnavailable | ODisconnected | OUnauthorized | OStale | OFailed
  | OUnknown.
(* [observability/health.rs] HealthStatus::is_healthy *)
Definition is_healthy (s : HealthStatus) : bool := match s with OHealthy => true | _ => false end.
(* [observability/health.rs] HealthStatus::is_failure_like *)
Definition is_failure_like (s : HealthStatus) : bool :=
  match s with OUnavailable | ODisconnected | OUnauthorized | OFailed => true | _ => false end.

(* [observability/health.rs] HealthSubject *)
Inductive HealthSubject :=
  | HComponent (component_id : ComponentId)
  | HPlugin (plugin_id : PluginId)
  | HPipeline (pipeline_id : PipelineId)
  | HPipelineStage (pipeline_id : PipelineId) (node_id : PipelineNodeId) (stage : PipelineStage)
  | HServiceAdapter (component_id : ComponentId) (adapter_name : string)
  | HStorage (store_name : string)
  | HCapture (adapter_name : string).

(* [observability/health.rs] HealthProbeKind *)
Inductive HealthProbeKind :=
  | ProbeLiveness | ProbeReadiness | ProbeDependency | ProbeDataFreshness | ProbeLatency
  | ProbeErrorRate | ProbeQueueLag | ProbeCustom (name : string).
(* [observability/health.rs] HealthProbe *)
Record HealthProbe := mkProbe {
  hp_name : string;
  hp_kind : HealthProbeKind;
  hp_required : bool;
  hp_critical : bool;
  hp_timeout_ms : option N;
  hp_description_redacted : option string
}.

(** [HealthValidationError] has the single variant [Diagnostics(..)]. *)
(* [observability/health.rs] HealthValidationError *)
Inductive HealthValidationError := HealthDiagnostics (e : DiagnosticsValidationError).
(* [observability/health.rs] validate_health_text *)
Definition validate_health_text (field value : string) : result unit HealthValidationError :=
  map_err HealthDiagnostics (validate_privacy_safe_text field value).
(* [observability/health.rs] require_health_text *)
Definition require_health_text (field value : string) : result string HealthValidationError :=
  if blank value then Err (HealthDiagnostics (DEmptyField field))
  else let? _ := validate_health_text field value in Ok value.

(* [observability/health.rs] HealthProbe::new *)
Definition HealthProbe_new (nm : string) (k : HealthProbeKind)
    : result HealthProbe HealthValidationError :=
  let? nm := require_health_text "name" nm in
  Ok (mkProbe nm k true false None None).

(* [observability/health.rs] HealthProbeResult *)
Record HealthProbeResult := mkProbeResult {
  probe : HealthProbe;
  probe_status : HealthStatus;
  probe_observed_at : Timestamp;
  probe_detail_redacted : option string
}.
(* [observability/health.rs] HealthProbeResult::new *)
Definition HealthProbeResult_new (p : HealthProbe) (s : HealthStatus) : ST HealthProbeResult :=
  let$ t := now in st_ret (mkProbeResult p s t None).

(* [observability/health.rs] HealthDependencyStatus *)
Record HealthDependencyStatus := mkHealthDependency {
  hd_dependency_name : string;
  hd_status : HealthStatus;
  hd_required : bool;
  hd_reason_redacted : option string
}.

(* [observability/health.rs] HealthSnapshot *)
Record HealthSnapshot := mkSnapshot {
  hs_subject : HealthSubject;
  hs_status : HealthStatus;
  hs_liveness : HealthStatus;
  hs_readiness : HealthStatus;
  hs_probes : list HealthProbeResult;
  hs_dependencies : list HealthDependencyStatus;
  hs_message_redacted : option string;
  hs_observed_at : Timestamp;
  hs_stale_after_ms : option N;
  hs_schema_version : SchemaVersion;
  hs_trace_link : option TraceLink;
  hs_privacy_class : PrivacyClass
}.
(* [observability/health.rs] HealthSnapshot::new *)
Definition HealthSnapshot_new (subject : HealthSubject) (s : HealthStatus) : ST HealthSnapshot :=
  let$ t := now in
  st_ret (mkSnapshot subject s s s [] [] None t None (mkVersion 1 0 0) None Privacy.Internal).
(* [observability/health.rs] HealthSnapshot::topic_name *)
Definition health_topic_name : option TopicName := expect (TopicName_new OPERATIONAL_HEALTH).
(* [observability/health.rs] HealthSnapshot::priority_lane *)
Definition health_priority_lane (h : HealthSnapshot) : PriorityLane :=
  if is_failure_like (hs_status h) || match hs_status h with ODegraded => true | _ => false end
  then P1High else P2Normal.
(* [observability/health.rs] HealthSnapshot::with_message_redacted *)
Definition with_message_redacted (h : HealthSnapshot) (msg : string)
    : result HealthSnapshot HealthValidationError :=
  let? msg := require_health_text "message_redacted" msg in
  Ok (mkSnapshot (hs_subject h) (hs_status h) (hs_liveness h) (hs_readiness h) (hs_probes h)
    (hs_dependencies h) (Some msg) (hs_observed_at h) (hs_stale_after_ms h)
    (hs_schema_version h) (hs_trace_link h) (hs_privacy_class h)).
(* [observability/health.rs] HealthSnapshot::validate *)
Definition health_validate (h : HealthSnapshot) : result unit HealthValidationError :=
  let? _ := check_optional (validate_health_text "message_redacted") (hs_message_redacted h) in
  let? _ := for_each (λ p,
      let? _ := check_optional (validate_health_text "description_redacted")
                  (hp_description_redacted (probe p)) in
      check_optional (validate_health_text "detail_redacted") (probe_detail_redacted p))
    (hs_probes h) in
  for_each (λ d,
      let? _ := validate_health_text "dependency_name" (hd_dependency_name d) in
      check_optional (validate_health_text "reason_redacted") (hd_reason_redacted d))
    (hs_dependencies h).

(* [observability/diagnostics.rs] DiagnosticsSummary *)
Record DiagnosticsSummary := mkDiagnostics {
  ds_status : HealthStatus;
  ds_summary_redacted : string;
  ds_trace_links : list TraceLink;
  ds_health_subjects : list HealthSubject;
  ds_metric_names : list string;
  ds_audit_event_count : N;
  ds_audit_failures_redacted : list string;
  ds_warnings_redacted : list string;
  ds_generated_at : Timestamp;
  ds_privacy_class : PrivacyClass
}.
(* [observability/diagnostics.rs] DiagnosticsSummary::new *)
Definition DiagnosticsSummary_new (s : HealthStatus) (summary : string)
    : ST (result DiagnosticsSummary DiagnosticsValidationError) :=
  match require_privacy_safe_text "summary_redacted" summary with
  | Err e => st_ret (Err e)
  | Ok summary =>
      let$ t := now in
      st_ret (Ok (mkDiagnostics s summary [] [] [] 0 [] [] t Privacy.Internal))
  end.
(* [observability/diagnostics.rs] DiagnosticsSummary::validate *)
Definition diagnostics_validate (d : DiagnosticsSummary) : result unit DiagnosticsValidationError :=
  let? _ := validate_privacy_safe_text "summary_redacted" (ds_summary_redacted d) in
  let? _ := for_each (validate_privacy_safe_text "warnings_redacted") (ds_warnings_redacted d) in
  for_each (validate_privacy_safe_text "audit_failures_redacted") (ds_audit_failures_redacted d).

(* ------------------------------------------------------------------ *)
(** ** Audit events *)

(* [report/mod.rs] RedactedDataCategory *)
Inductive RedactedDataCategory :=
  | RcRawPacket | RcPayload | RcHttpBody | RcCookie | RcToken | RcCredential | RcApiKey
  | RcPrivateKey | RcFullQueryString | RcFormContent | RcCommandLine | RcLocalPath | RcUsername
  | RcSid.
(* [report/mod.rs] RedactionSummary *)
Record RedactionSummary := mkRedaction {
  redaction_summary_id : RedactionSummaryId;
  passed : bool;
  redacted_categories : list RedactedDataCategory;
  redacted_field_count : N;
  suppressed_section_count : N;
  reviewer : option string;
  completed_at : option Timestamp;
  notes_redacted : list string
}.
(* [report/mod.rs] RedactionSummary::passed *)
Definition RedactionSummary_passed (l : list RedactedDataCategory) : ST RedactionSummary :=
  let$ id := new_v4 in
  let$ t := now in
  st_ret (mkRedaction id true l 0 0 None (Some t) []).

(* [observability/audit.rs] AuditCategory *)
Inductive AuditCategory :=
  | ASettings | ACapture | AExport | AReport | AResponse | ARollback | AService
  | APluginLifecycle | ASecurityCase | AMigration | APrivacyViolation.
#[export] Instance AuditCategory_eq_dec : EqDecision AuditCategory.
Proof. solve_decision. Defined.

(* [observability/audit.rs] AuditActionType *)
Inductive AuditActionType :=
  | SettingsChanged | CaptureStarted | CaptureStopped | ExportRequested | ExportCompleted
  | ExportFailed | ResponsePlanCreated | ResponsePolicyDecision | ResponseApprovalRequested
  | ResponseApprovalApproved | ResponseApprovalRejected | ResponseActionStarted
  | ResponseActionCompleted | ResponseActionFailed | ResponseRollbackStarted
  | ResponseRollbackCompleted | ResponseRollbackFailed | ServiceCommandRequested
  | ServiceCommandCompleted | ServiceCommandFailed | PluginLifecycleChanged | MigrationApplied
  | PrivacyViolation | ForensicModeEnabled | ForensicModeDisabled | ACustom (name : string).

(* [observability/audit.rs] AuditDecision *)
Inductive AuditDecision :=
  | AAllowed | ADenied | ANeedsApproval | ACompleted | AFailed | ARolledBack | ANotApplicable.

(* [observability/audit.rs] ExportAuditMetadata *)
Record ExportAuditMetadata := mkExportMetadata {
  format : ExportFormat;
  destination_metadata_redacted : option string;
  file_hash : option string
}.

(* [observability/audit.rs] AuditEvent *)
Record AuditEvent := mkAuditEvent {
  ae_audit_id : AuditId;
  ae_category : AuditCategory;
  ae_action_type : AuditActionType;
  ae_timestamp : Timestamp;
  ae_actor_redacted : string;
  ae_target_redacted : string;
  ae_decision : AuditDecision;
  ae_policy_version : option string;
  ae_trace_id : option TraceId;
  ae_trace_link : option TraceLink;
  ae_result_redacted : string;
  ae_rollback_ref : option string;
  ae_sensitive_data_touched : bool;
  ae_reason_codes : list string;
  ae_redaction_summary : option RedactionSummary;
  ae_export_metadata : option ExportAuditMetadata;
  ae_privacy_class : PrivacyClass;
  ae_schema_version : SchemaVersion
}.

(* [observability/audit.rs] AuditValidationError *)
Inductive AuditValidationError :=
  | ADiagnostics (e : DiagnosticsValidationError)
  | MissingResponseField (field : string)
  | MissingExportField (field : string).
(* [observability/audit.rs] Display for AuditValidationError::fmt *)
Definition audit_error_to_string (e : AuditValidationError) : string :=
  match e with
  | ADiagnostics e => diagnostics_error_to_string e
  | MissingResponseField field => "response audit event is missing required field: " ++ field
  | MissingExportField field => "export audit event is missing required field: " ++ field
  end%string.

(* [observability/audit.rs] require_audit_text *)
Definition require_audit_text (field value : string) : result string AuditValidationError :=
  map_err ADiagnostics (require_privacy_safe_text field value).
(* [observability/audit.rs] validate_audit_text *)
Definition validate_audit_text (field value : string) : result unit AuditValidationError :=
  map_err ADiagnostics (validate_privacy_safe_text field value).

Definition missing_if {A} (o : option A) (e : AuditValidationError)
    : result unit AuditValidationError :=
  match o with None => Err e | Some _ => Ok tt end.

(* [observability/audit.rs] AuditEvent::validate *)
Definition audit_validate (e : AuditEvent) : result unit AuditValidationError :=
  let? _ := validate_audit_text "actor_redacted" (ae_actor_redacted e) in
  let? _ := validate_audit_text "target_redacted" (ae_target_redacted e) in
  let? _ := validate_audit_text "result_redacted" (ae_result_redacted e) in
  let? _ := check_optional (validate_audit_text "policy_version") (ae_policy_version e) in
  let? _ := check_optional (validate_audit_text "rollback_ref") (ae_rollback_ref e) in
  let? _ := for_each (validate_audit_text "reason_codes") (ae_reason_codes e) in
  let? _ := check_optional (validate_audit_text "destination_metadata_redacted")
              (ae_export_metadata e ≫= destination_metadata_redacted) in
  let? _ :=
    match ae_category e with
    | AResponse | ARollback =>
        let? _ := missing_if (ae_policy_version e) (MissingResponseField "policy_version") in
        let? _ := missing_if (ae_trace_id e) (MissingResponseField "trace_id") in
        missing_if (ae_rollback_ref e) (MissingResponseField "rollback_ref")
    | _ => Ok tt
    end in
  match ae_category e with
  | AExport =>
      let? _ := missing_if (ae_redaction_summary e) (MissingExportField "redaction_summary") in
      missing_if (ae_export_metadata e) (MissingExportField "export_metadata")
  | _ => Ok tt
  end.

(* [observability/audit.rs] AuditEvent::new *)
Definition AuditEvent_new (c : AuditCategory) (a : AuditActionType) (actor target : string)
    (d : AuditDecision) (res : string) : ST (result AuditEvent AuditValidationError) :=
  let$ id := new_v4 in
  let$ t := now in
  st_ret (
    let? actor := require_audit_text "actor_redacted" actor in
    let? target := require_audit_text "target_redacted" target in
    let? res := require_audit_text "result_redacted" res in
    Ok (mkAuditEvent id c a t actor target d None None None res None false [] None None
      Privacy.Internal (mkVersion 1 0 0))).

(* [observability/audit.rs:145-154] AuditEvent::response_event *)
Definition response_category (a : AuditActionType) : AuditCategory :=
  match a with
  | ResponseRollbackStarted | ResponseRollbackCompleted | ResponseRollbackFailed => ARollback
  | _ => AResponse
  end.
(* [observability/audit.rs] AuditEvent::response_event *)
Definition response_event (a : AuditActionType) (actor target : string) (d : AuditDecision)
    (policy_version : string) (trace : TraceId) (res rollback_ref : string) (sensitive : bool)
    : ST (result AuditEvent AuditValidationError) :=
  let$ made := AuditEvent_new (response_category a) a actor target d res in
  st_ret (
    let? e := made in
    let? policy_version := require_audit_text "policy_version" policy_version in
    let? rollback_ref := require_audit_text "rollback_ref" rollback_ref in
    let e := mkAuditEvent (ae_audit_id e) (ae_category e) (ae_action_type e) (ae_timestamp e)
      (ae_actor_redacted e) (ae_target_redacted e) (ae_decision e) (Some policy_version)
      (Some trace) (ae_trace_link e) (ae_result_redacted e) (Some rollback_ref) sensitive
      (ae_reason_codes e) (ae_redaction_summary e) (ae_export_metadata e) (ae_privacy_class e)
      (ae_schema_version e) in
    let? _ := audit_validate e in
    Ok e).

(* [observability/audit.rs] AuditEvent::export_event *)
Definition export_event (a : AuditActionType) (actor target : string) (d : AuditDecision)
    (res : string) (summary : RedactionSummary) (metadata : ExportAuditMetadata)
    : ST (result AuditEvent AuditValidationError) :=
  let$ made := AuditEvent_new AExport a actor target d res in
  st_ret (
    let? e := made in
    let e := mkAuditEvent (ae_audit_id e) (ae_category e) (ae_action_type e) (ae_timestamp e)
      (ae_actor_redacted e) (ae_target_redacted e) (ae_decision e) (ae_policy_version e)
      (ae_trace_id e) (ae_trace_link e) (ae_result_redacted e) (ae_rollback_ref e) true
      (ae_reason_codes e) (Some summary) (Some metadata) (ae_privacy_class e)
      (ae_schema_version e) in
    let? _ := audit_validate e in
    Ok e).

(* [observability/audit.rs] AuditEvent::topic_name *)
Definition audit_topic_name : option TopicName := expect (TopicName_new AUDIT_EVENT).
(* [observability/audit.rs] AuditEvent::priority_lane *)
Definition audit_priority_lane (e : AuditEvent) : PriorityLane := P0Critical.
(* [observability/audit.rs] AuditEvent::can_drop_under_pressure *)
Definition audit_can_drop (e : AuditEvent) : bool := false.

(* ------------------------------------------------------------------ *)
(** ** The audit sink *)

(* [observability/audit.rs] AuditReceipt *)
Record AuditReceipt := mkReceipt {
  receipt_audit_id : AuditId;
  sequence : N;
  appended_at : Timestamp
}.
(* [observability/audit.rs] AuditSinkError *)
Inductive AuditSinkError :=
  | SinkUnavailable (action_type : AuditActionType)
  | SinkValidation (e : AuditValidationError).

(** [trait AuditSink]. *)
(* [observability/audit.rs] AuditSink *)
Class AuditSink (S : Type) := {
  append : S → AuditEvent → ST (result AuditReceipt AuditSinkError * S)
}.

(* [observability/audit.rs] InMemoryAuditSink *)
Record InMemoryAuditSink := mkAuditSink {
  records : list AuditEvent;
  available : bool;
  next_sequence : N
}.
(* [observability/audit.rs] InMemoryAuditSink::new *)
Definition audit_sink_new : InMemoryAuditSink := mkAuditSink [] true 1.
(* [observability/audit.rs] InMemoryAuditSink::unavailable *)
Definition audit_sink_unavailable : InMemoryAuditSink := mkAuditSink [] false 1.
(* [observability/audit.rs] AuditSink for InMemoryAuditSink::append *)
Definition memory_append (s : InMemoryAuditSink) (e : AuditEvent)
    : ST (result AuditReceipt AuditSinkError * InMemoryAuditSink) :=
  if negb (available s) then st_ret (Err (SinkUnavailable (ae_action_type e)), s)
  else
    match audit_validate e with
    | Err err => st_ret (Err (SinkValidation err), s)
    | Ok _ =>
        let$ t := now in
        st_ret (Ok (mkReceipt (ae_audit_id e) (next_sequence s) t),
          mkAuditSink (records s ++ [e]) (available s)
            (saturating_add u64_max (next_sequence s) 1))
    end.
#[export] Instance memory_audit_sink : AuditSink InMemoryAuditSink := {| append := memory_append |}.

(* ------------------------------------------------------------------ *)
(** ** Metrics *)

(* [observability/metrics.rs] MetricValidationError *)
Inductive MetricValidationError :=
  | MetricDiagnostics (e : DiagnosticsValidationError)
  | DescriptorMismatch (expected actual : string).
(* [observability/metrics.rs] Display for MetricValidationError::fmt *)
Definition metric_error_to_string (e : MetricValidationError) : string :=
  match e with
  | MetricDiagnostics e => diagnostics_error_to_string e
  | DescriptorMismatch expected actual =>
      "metric descriptor mismatch: expected " ++ expected ++ ", got " ++ actual
  end%string.

(* [observability/metrics.rs] validate_metric_text *)
Definition validate_metric_text (field value : string) : result unit MetricValidationError :=
  map_err MetricDiagnostics (validate_privacy_safe_text field value).
(* [observability/metrics.rs] require_metric_text *)
Definition require_metric_text (field value : string) : result string MetricValidationError :=
  if blank value then Err (MetricDiagnostics (DEmptyField field))
  else let? _ := validate_metric_text field value in Ok value.

(* [observability/metrics.rs] MetricDescriptor *)
Record MetricDescriptor := mkMetric {
  md_metric_name : string;
  md_kind : MetricKind;
  md_unit : option string;
  md_description_redacted : string;
  md_labels : list string;
  md_privacy_class : PrivacyClass;
  md_schema_version : SchemaVersion
}.
(* [observability/metrics.rs] MetricDescriptor::new *)
Definition MetricDescriptor_new (nm : string) (k : MetricKind) (description : string)
    : result MetricDescriptor MetricValidationError :=
  let? nm := require_metric_text "metric_name" nm in
  let? description := require_metric_text "description_redacted" description in
  Ok (mkMetric nm k None description [] Privacy.Internal (mkVersion 1 0 0)).
(* [observability/metrics.rs] MetricDescriptor::with_labels *)
Definition with_labels (m : MetricDescriptor) (labels : list string)
    : result MetricDescriptor MetricValidationError :=
  let? _ := for_each (validate_metric_text "label") labels in
  Ok (mkMetric (md_metric_name m) (md_kind m) (md_unit m) (md_description_redacted m) labels
    (md_privacy_class m) (md_schema_version m)).

Definition set_unit (unit_name : string) (m : MetricDescriptor) : MetricDescriptor :=
  mkMetric (md_metric_name m) (md_kind m) (Some unit_name) (md_description_redacted m)
    (md_labels m) (md_privacy_class m) (md_schema_version m).
(* [observability/metrics.rs] counter *)
Definition counter (nm description : string) : option MetricDescriptor :=
  expect (MetricDescriptor_new nm Counter description).
(* [observability/metrics.rs] gauge *)
Definition gauge (nm description : string) : option MetricDescriptor :=
  expect (MetricDescriptor_new nm Gauge description).
(* [observability/metrics.rs] gauge_ms *)
Definition gauge_ms (nm description : string) : option MetricDescriptor :=
  set_unit "ms" <$> gauge nm description.
(* [observability/metrics.rs] gauge_ratio *)
Definition gauge_ratio (nm description : string) : option MetricDescriptor :=
  set_unit "ratio" <$> gauge nm description.
(* [observability/metrics.rs] MetricDescriptor::core_v1_catalog *)
Definition core_v1_catalog : option (list MetricDescriptor) :=
  mapM id [
    counter "plugin_throughput" "Plugin event throughput";
    gauge_ms "plugin_latency" "Plugin processing latency";
    gauge_ratio "plugin_error_rate" "Plugin error rate";
    gauge "queue_lag" "Event queue lag";
    gauge "queue_depth" "Event queue depth";
    counter "dropped_events" "Dropped low priority events";
    counter "schema_validation_failure" "Schema validation failures";
    counter "finding_count" "Findings emitted";
    counter "alert_count" "Alerts emitted";
    counter "incident_count" "Incidents emitted";
    gauge_ratio "risk_score_distribution" "Risk score distribution summary";
    gauge "model_staleness" "Model staleness indicator";
    gauge_ratio "replay_success_rate" "Replay success rate";
    counter "response_success" "Successful response results";
    counter "rollback_success" "Successful rollback results"].

(* [observability/metrics.rs] MetricBucket *)
Record MetricBucket := mkBucket { upper_bound : spec_float; bucket_count : N }.
(* [observability/metrics.rs] MetricValue *)
Inductive MetricValue :=
  | VCounter (count : N)
  | VGauge (value : spec_float)
  | VHistogram (buckets : list MetricBucket) (count : N) (sum : spec_float)
  | VDistribution (values : list spec_float).
(* [observability/metrics.rs] MetricSample *)
Record MetricSample := mkSample {
  ms_metric_name : string;
  ms_value : MetricValue;
  ms_labels : gmap string string;
  ms_observed_at : Timestamp;
  ms_privacy_class : PrivacyClass;
  ms_trace_link : option TraceLink
}.
(* [observability/metrics.rs] MetricSample::new *)
Definition MetricSample_new (nm : string) (v : MetricValue)
    : ST (result MetricSample MetricValidationError) :=
  match require_metric_text "metric_name" nm with
  | Err e => st_ret (Err e)
  | Ok nm => let$ t := now in st_ret (Ok (mkSample nm v ∅ t Privacy.Internal None))
  end.
(* [observability/metrics.rs] MetricSample::topic_name *)
Definition metric_topic_name : option TopicName := expect (TopicName_new OPERATIONAL_METRIC).
(* [observability/metrics.rs] MetricSample::priority_lane *)
Definition metric_priority_lane (m : MetricSample) : PriorityLane := P3Low.

(** A [BTreeMap] iterates in the order of its keys. *)
Definition btree_entries (m : gmap string string) : list (string * string) :=
  sort_by_key fst (map_to_list m).
(* [observability/metrics.rs] MetricSample::validate *)
Definition metric_validate (m : MetricSample) (descriptor : option MetricDescriptor)
    : result unit MetricValidationError :=
  let? _ := validate_metric_text "metric_name" (ms_metric_name m) in
  let? _ := for_each (λ e,
      let? _ := validate_metric_text "label_key" e.1 in
      validate_metric_text "label_value" e.2) (btree_entries (ms_labels m)) in
  match descriptor with
  | Some d =>
      if negb (bool_decide (md_metric_name d = ms_metric_name m))
      then Err (DescriptorMismatch (md_metric_name d) (ms_metric_name m)) else Ok tt
  | None => Ok tt
  end.

(* [observability/metrics.rs] MetricSinkError *)
Inductive MetricSinkError := MetricSinkValidation (e : MetricValidationError).
(* [observability/metrics.rs] MetricsSink *)
Class MetricsSink (S : Type) := {
  record : S → MetricSample → result unit MetricSinkError * S
}.
(* [observability/metrics.rs] InMemoryMetricsSink *)
Record InMemoryMetricsSink := mkMetricsSink { samples : list MetricSample }.
(* [observability/metrics.rs] MetricsSink for InMemoryMetricsSink::record *)
Definition memory_record (s : InMemoryMetricsSink) (m : MetricSample)
    : result unit MetricSinkError * InMemoryMetricsSink :=
  match metric_validate m None with
  | Err e => (Err (MetricSinkValidation e), s)
  | Ok _ => (Ok tt, mkMetricsSink (samples s ++ [m]))
  end.
#[export] Instance memory_metrics_sink : MetricsSink InMemoryMetricsSink :=
  {| record := memory_record |}.
