(* ===== verification/ObservabilityFacts.v ===== *)
(** * Facts about audit, health and metrics *)

From S2P Require Import Prelude Collections RustStr Effects Contracts Topics Manifest.
From S2P Require Import Pipeline Settings SettingsFacts Observability.

#[local] Open Scope string_scope.
#[local] Open Scope list_scope.
#[local] Open Scope N_scope.

(** Text in which no sensitive marker occurs, whatever the case and the separators. *)
Definition privacy_safe (text : string) : Prop := forbidden_sensitive_marker text = None.

Lemma validate_privacy_safe_ok field text :
  validate_privacy_safe_text field text = Ok tt ↔ privacy_safe text.
Proof. unfold validate_privacy_safe_text, privacy_safe. by destruct (forbidden_sensitive_marker text). Qed.

Lemma validate_audit_text_ok field text : validate_audit_text field text = Ok tt ↔ privacy_safe text.
Proof. unfold validate_audit_text. rewrite map_err_ok. apply validate_privacy_safe_ok. Qed.

Lemma check_optional_ok {E} (check : string → result unit E) o :
  check_optional check o = Ok tt ↔ ∀ text, o = Some text → check text = Ok tt.
Proof. destruct o; simpl; naive_solver. Qed.

Lemma missing_if_ok {A} (o : option A) e : missing_if o e = Ok tt ↔ is_Some o.
Proof. destruct o; simpl; [by split|]. split; [done|by intros [??]]. Qed.

(** What the audit log guarantees of each of its events: every text is privacy safe,
    responses and rollbacks can be traced and undone, exports were redacted. *)
Record accountable (e : AuditEvent) : Prop := {
  acc_texts : privacy_safe (ae_actor_redacted e) ∧ privacy_safe (ae_target_redacted e) ∧
    privacy_safe (ae_result_redacted e);
  acc_optional : ∀ text, ae_policy_version e = Some text ∨ ae_rollback_ref e = Some text ∨
    (ae_export_metadata e ≫= destination_metadata_redacted) = Some text → privacy_safe text;
  acc_reasons : Forall privacy_safe (ae_reason_codes e);
  acc_response : ae_category e = AResponse ∨ ae_category e = ARollback →
    is_Some (ae_policy_version e) ∧ is_Some (ae_trace_id e) ∧ is_Some (ae_rollback_ref e);
  acc_export : ae_category e = AExport →
    is_Some (ae_redaction_summary e) ∧ is_Some (ae_export_metadata e)
}.

Lemma audit_validate_ok e : audit_validate e = Ok tt ↔ accountable e.
Proof.
  unfold audit_validate. rewrite !check_then, !validate_audit_text_ok, !check_optional_ok, for_each_ok.
  setoid_rewrite validate_audit_text_ok. split.
  - intros (? & ? & ? & ? & ? & ? & ? & Hr & Hx). constructor; [done| | | |].
    + naive_solver.
    + by eapply Forall_impl; [done|].
    + intros [Hc|Hc]; rewrite Hc, !check_then, !missing_if_ok in Hr; done.
    + intros Hc; rewrite Hc, check_then, !missing_if_ok in Hx; done.
  - intros [(? & ? & ?) Ho ? Hr Hx]. split_and!; try done; [naive_solver..| |].
    + destruct (ae_category e); try done; rewrite !check_then, !missing_if_ok; apply Hr; auto.
    + destruct (ae_category e); try done; rewrite check_then, !missing_if_ok; by apply Hx.
Qed.

(** The appends of a sink. *)
Definition sink_step (s s' : InMemoryAuditSink) : Prop :=
  ∃ e w, s' = (memory_append s e w).1.2.

Lemma memory_append_cases s e w :
  (available s = true ∧ accountable e ∧ ∃ t,
    (memory_append s e w).1 = (Ok (mkReceipt (ae_audit_id e) (next_sequence s) t),
      mkAuditSink (records s ++ [e]) true (saturating_add u64_max (next_sequence s) 1))) ∨
  (∃ err, (memory_append s e w).1 = (Err err, s) ∧ ¬ (available s = true ∧ accountable e)).
Proof.
  unfold memory_append. destruct (available s) eqn:Ha; simpl; [|right; naive_solver].
  pose proof (audit_validate_ok e) as Hok. destruct (audit_validate e) as [[]|err]; simpl.
  - left. split_and!; [done|by apply Hok|]. by eexists.
  - right. eexists. split; [done|]. intros [_ Hacc%Hok]. done.
Qed.

(** What holds of every sink that starts as [InMemoryAuditSink::new]. *)
Record sink_inv (s : InMemoryAuditSink) : Prop := {
  si_available : available s = true;
  si_records : Forall accountable (records s);
  si_sequence : next_sequence s = N.min u64_max (1 + len (records s))
}.

Lemma sink_step_inv s s' : sink_inv s → sink_step s s' → sink_inv s'.
Proof.
  intros [Ha Hr Hs] (e & w & ->).
  destruct (memory_append_cases s e w) as [(_ & He & t & ->)|(err & -> & _)]; [|done].
  constructor; simpl; [done| |].
  - by apply Forall_app_2; [|apply Forall_singleton].
  - rewrite len_app, Hs. unfold saturating_add, len. simpl. lia.
Qed.

Lemma sink_reachable_inv s : rtc sink_step audit_sink_new s → sink_inv s.
Proof.
  intros Hrun. assert (sink_inv audit_sink_new) as Hnew by (by constructor).
  induction Hrun; eauto using sink_step_inv.
Qed.

(** The audit log is accountable and append-only: an available sink accepts exactly the
    accountable events, keeps all earlier records and adds the event at the end, and
    answers with its identifier and its position (saturating at the width of the
    counter); a refused event changes nothing. Every record of a reachable sink is
    accountable. *)
Theorem audit_sink_log s e w :
  rtc sink_step audit_sink_new s →
  Forall accountable (records s) ∧
  match memory_append s e w with
  | (Ok receipt, s', _) =>
      accountable e ∧ records s' = records s ++ [e] ∧ receipt_audit_id receipt = ae_audit_id e ∧
      sequence receipt = N.min u64_max (1 + len (records s))
  | (Err err, s', _) => ¬ accountable e ∧ s' = s ∧ ∃ v, err = SinkValidation v
  end.
Proof.
  intros Hs%sink_reachable_inv. split; [apply Hs|].
  destruct Hs as [Ha Hr Hq]. unfold memory_append. rewrite Ha. simpl.
  destruct (audit_validate e) as [[]|err] eqn:Hv; simpl.
  - apply audit_validate_ok in Hv. by split_and!.
  - rewrite <- audit_validate_ok, Hv. split_and!; [done..|eauto].
Qed.

(** An accountable response event, appended as the first record. *)
Definition sample_event : AuditEvent :=
  mkAuditEvent (mkId (mkUuid 1)) AResponse ResponseActionStarted (mkTimestamp 0) "operator"
    "destination" AAllowed (Some "1.0.0") (Some (mkId (mkUuid 2))) None "started" (Some "undo-1")
    false [] None None Privacy.Internal (mkVersion 1 0 0).
Lemma audit_sink_log_witness :
  Forall accountable (records (memory_append audit_sink_new sample_event counting_world).1.2) ∧
  records (memory_append audit_sink_new sample_event counting_world).1.2 = [sample_event].
Proof.
  split; [|vm_compute; reflexivity].
  refine (proj1 (audit_sink_log _ sample_event counting_world _)).
  apply rtc_once. by exists sample_event, counting_world.
Defined.

(** The metric catalogue and the three observability topics never panic. *)
Lemma observability_tables_total :
  is_Some core_v1_catalog ∧ is_Some health_topic_name ∧ is_Some audit_topic_name ∧
  is_Some metric_topic_name.
Proof. vm_compute. eauto 10. Qed.
