(* ===== verification/PluginRuntime.v ===== *)
(** * The plugin runtime ([platform/src/plugin_runtime])

    Quotas and policies ([policy.rs]), runtime contexts and scopes ([context.rs]), the
    plugin interface ([traits.rs]), the runtime registry with startup validation
    ([registry.rs]) and the runtime that starts, stops and feeds plugins ([runtime.rs]).

    A plugin is any type with an instance of [InternalPlugin]: its methods may change the
    plugin, the context and the oracle, and fail. [Box<dyn InternalPlugin>] is one such
    type, [P], for all plugins of a runtime; the sinks a context refers to are of any types
    [MS] and [AS]. Field prefixes: [rq_] quota, [tp_] timeouts, [fp_] failure policy, [ck_]
    checkpoint support, [rs_] replay support, [rc_] runtime context, [pv_] privacy context,
    [pc_] plugin context, [rd_] runtime descriptor, [sv_] startup validation. *)

From S2P Require Import Prelude Collections RustStr Effects Contracts Topics Manifest.
From S2P Require Import Component Registry Pipeline Resolver Settings Permissions Observability.

#[local] Open Scope string_scope.
#[local] Open Scope list_scope.
#[local] Open Scope N_scope.

(* ------------------------------------------------------------------ *)
(** ** Policies *)

(* [plugin_runtime/policy.rs] ResourceQuota *)
Record ResourceQuota := mkQuota {
  rq_max_memory_mb : N;
  rq_max_queue_depth : N;
  rq_max_events_per_batch : N;
  rq_max_concurrency : N;
  rq_allow_online_lookup : bool;
  rq_allow_external_upload : bool;
  rq_allow_raw_filesystem : bool;
  rq_allow_elevated_service : bool;
  rq_allow_response_execution : bool
}.
(* [plugin_runtime/policy.rs] ResourceQuota::static_internal_default *)
Definition static_internal_default (m : RuntimeMode) : ResourceQuota :=
  mkQuota 256 1024 (match m with Batch | Hybrid => 256 | _ => 1 end) 1
    false false false false false.
(* [plugin_runtime/policy.rs] ResourceQuota::replay_safe *)
Definition quota_replay_safe (q : ResourceQuota) : ResourceQuota :=
  mkQuota (rq_max_memory_mb q) (rq_max_queue_depth q) (rq_max_events_per_batch q)
    (rq_max_concurrency q) false false (rq_allow_raw_filesystem q) (rq_allow_elevated_service q)
    false.

(* [plugin_runtime/policy.rs] TimeoutPolicy *)
Record TimeoutPolicy := mkTimeouts {
  tp_initialize_timeout_ms : N; tp_start_timeout_ms : N; tp_event_timeout_ms : N;
  tp_batch_timeout_ms : N; tp_checkpoint_timeout_ms : N; tp_stop_timeout_ms : N;
  tp_health_timeout_ms : N
}.
(* [plugin_runtime/policy.rs] Default for TimeoutPolicy::default *)
Definition TimeoutPolicy_default : TimeoutPolicy := mkTimeouts 5000 5000 2000 10000 3000 5000 1000.

(* [plugin_runtime/policy.rs] FailureMode *)
Inductive FailureMode := MarkDegraded | DisablePlugin | RestartWithinLimit | MarkFailed.
(* [plugin_runtime/policy.rs] FailurePolicy *)
Record FailurePolicy := mkFailurePolicy {
  fp_mode : FailureMode;
  fp_max_failures_before_disable : N;
  fp_restart_backoff_ms : N;
  fp_degrade_on_error : bool
}.
(* [plugin_runtime/policy.rs] FailurePolicy::degrade *)
Definition FailurePolicy_degrade : FailurePolicy := mkFailurePolicy MarkDegraded 3 1000 true.

(* [plugin_runtime/policy.rs] CheckpointSupport *)
Record CheckpointSupport := mkCheckpointSupport {
  ck_support_level : SupportLevel;
  ck_handle : option CheckpointHandle;
  ck_interval_seconds : option N;
  ck_before_shutdown : bool;
  ck_before_upgrade : bool;
  ck_before_replay : bool
}.
(* [plugin_runtime/policy.rs] CheckpointSupport::none *)
Definition CheckpointSupport_none : CheckpointSupport :=
  mkCheckpointSupport SupportNone None None false false false.
(* [plugin_runtime/policy.rs] CheckpointSupport::from_manifest_level *)
Definition CheckpointSupport_from_level (l : SupportLevel) : CheckpointSupport :=
  let supported := match l with SupportNone => false | _ => true end in
  mkCheckpointSupport l None None supported supported supported.

(* [plugin_runtime/policy.rs] ReplaySupport *)
Record ReplaySupport := mkReplaySupport {
  rs_support_level : SupportLevel;
  rs_context : option ReplayContext;
  rs_response_execution_disabled_by_default : bool;
  rs_online_lookup_disabled_by_default : bool;
  rs_firewall_qos_isolation_disabled_by_default : bool;
  rs_external_upload_disabled_by_default : bool
}.
(* [plugin_runtime/policy.rs] ReplaySupport::from_manifest_level *)
Definition ReplaySupport_from_level (l : SupportLevel) : ReplaySupport :=
  mkReplaySupport l None true true true true.
(* [plugin_runtime/policy.rs] ReplaySupport::with_context *)
Definition replay_with_context (r : ReplaySupport) (c : ReplayContext) : ReplaySupport :=
  mkReplaySupport (rs_support_level r) (Some c) true true true true.
(* [plugin_runtime/policy.rs] ReplaySupport::real_response_forbidden *)
Definition support_real_response_forbidden (r : ReplaySupport) : bool :=
  rs_response_execution_disabled_by_default r || rs_firewall_qos_isolation_disabled_by_default r
  || match rs_context r with Some c => real_response_forbidden c | None => false end.
(* [plugin_runtime/policy.rs] ReplaySupport::online_lookup_forbidden *)
Definition online_lookup_forbidden (r : ReplaySupport) : bool :=
  rs_online_lookup_disabled_by_default r
  || match rs_context r with Some c => online_lookup_disabled c | None => false end.

(* ------------------------------------------------------------------ *)
(** ** Contexts *)

(* [plugin_runtime/context.rs] PluginLifecycleState *)
Inductive PluginLifecycleState :=
  | PDiscovered | PRegistered | PInitialized | PStarting | PRunning | PDegraded | PStopping
  | PStopped | PDisabled | PFailed | PIncompatible.
#[export] Instance PluginLifecycleState_eq_dec : EqDecision PluginLifecycleState.
Proof. solve_decision. Defined.

(* [plugin_runtime/context.rs] RuntimeContext *)
Record RuntimeContext := mkRuntimeContext {
  rc_plugin_id : PluginId;
  rc_runtime_mode : RuntimeMode;
  rc_lifecycle_state : PluginLifecycleState;
  rc_resource_quota : ResourceQuota;
  rc_timeout_policy : TimeoutPolicy;
  rc_failure_policy : FailurePolicy;
  rc_schema_version : SchemaVersion;
  rc_created_at : Timestamp;
  rc_updated_at : Timestamp
}.
(* [plugin_runtime/context.rs] RuntimeContext::new *)
Definition RuntimeContext_new (id : PluginId) (m : RuntimeMode) : ST RuntimeContext :=
  let$ t := now in
  st_ret (mkRuntimeContext id m PDiscovered (static_internal_default m) TimeoutPolicy_default
    FailurePolicy_degrade (mkVersion 1 0 0) t t).
(* [plugin_runtime/context.rs] RuntimeContext::transition_to *)
Definition context_transition (s : PluginLifecycleState) (c : RuntimeContext) : ST RuntimeContext :=
  let$ t := now in
  st_ret (mkRuntimeContext (rc_plugin_id c) (rc_runtime_mode c) s (rc_resource_quota c)
    (rc_timeout_policy c) (rc_failure_policy c) (rc_schema_version c) (rc_created_at c) t).

(* [plugin_runtime/context.rs] TopicScope *)
Record TopicScope := mkTopicScope {
  subscribe_topics : gset TopicName;
  publish_topics : gset TopicName
}.
(* [plugin_runtime/context.rs] TopicScope::can_subscribe *)
Definition can_subscribe (s : TopicScope) (t : TopicName) : bool :=
  bool_decide (t ∈ subscribe_topics s).
(* [plugin_runtime/context.rs] TopicScope::can_publish *)
Definition can_publish (s : TopicScope) (t : TopicName) : bool := bool_decide (t ∈ publish_topics s).

(* [plugin_runtime/context.rs] StorageScope *)
Record StorageScope := mkStorageScope {
  logical_store_names : gset string;
  ss_metadata_only : bool;
  raw_sql_allowed : bool;
  unscoped_filesystem_allowed : bool
}.
(* [plugin_runtime/context.rs] StorageScope::metadata_only *)
Definition storage_metadata_only (names : list string) : StorageScope :=
  mkStorageScope (list_to_set names) true false false.

(* [plugin_runtime/context.rs] PermissionGrantScope *)
Record PermissionGrantScope := mkGrantScope {
  gs_required_permissions : gset PermissionKey;
  gs_granted_permissions : gset PermissionKey
}.
(* [plugin_runtime/context.rs] PermissionGrantScope::has_grant *)
Definition has_grant (s : PermissionGrantScope) (k : PermissionKey) : bool :=
  bool_decide (k ∈ gs_granted_permissions s).

(* [plugin_runtime/context.rs] PluginPrivacyContext *)
Record PluginPrivacyContext := mkPluginPrivacy {
  pv_privacy_class : PrivacyClass;
  pv_metadata_only : bool;
  pv_normal_mode : bool;
  pv_raw_packet_persistence_allowed : bool;
  pv_payload_persistence_allowed : bool;
  pv_http_body_persistence_allowed : bool;
  pv_secret_material_persistence_allowed : bool;
  pv_export_gate_required : bool
}.
(* [plugin_runtime/context.rs] PluginPrivacyContext::normal_metadata_only *)
Definition normal_metadata_only : PluginPrivacyContext :=
  mkPluginPrivacy Privacy.Internal true true false false false false true.
(* [plugin_runtime/context.rs] PluginPrivacyContext::raw_content_persistence_forbidden *)
Definition raw_content_persistence_forbidden (p : PluginPrivacyContext) : bool :=
  negb (pv_raw_packet_persistence_allowed p) && negb (pv_payload_persistence_allowed p)
  && negb (pv_http_body_persistence_allowed p) && negb (pv_secret_material_persistence_allowed p).

(* [plugin_runtime/context.rs] PluginContext *)
Record PluginContext (MS AS : Type) := mkPluginContext {
  pc_runtime : RuntimeContext;
  pc_topic_scope : TopicScope;
  pc_storage_scope : StorageScope;
  pc_permission_scope : PermissionGrantScope;
  pc_policy_scope : PolicyScope;
  pc_current_permission_scope : option PermissionScope;
  pc_trace_context : Envelope.TraceContext;
  pc_metrics_sink : option MS;
  pc_audit_sink : option AS;
  pc_checkpoint : CheckpointSupport;
  pc_replay : ReplaySupport;
  pc_privacy : PluginPrivacyContext
}.
Arguments mkPluginContext {MS AS}.
Arguments pc_runtime {MS AS}.
Arguments pc_topic_scope {MS AS}.
Arguments pc_storage_scope {MS AS}.
Arguments pc_permission_scope {MS AS}.
Arguments pc_policy_scope {MS AS}.
Arguments pc_current_permission_scope {MS AS}.
Arguments pc_trace_context {MS AS}.
Arguments pc_metrics_sink {MS AS}.
Arguments pc_audit_sink {MS AS}.
Arguments pc_checkpoint {MS AS}.
Arguments pc_replay {MS AS}.
Arguments pc_privacy {MS AS}.

(* [plugin_runtime/context.rs] PluginContext::new *)
Definition PluginContext_new {MS AS} (id : PluginId) (m : RuntimeMode)
    (trace : Envelope.TraceContext) : ST (PluginContext MS AS) :=
  let$ r := RuntimeContext_new id m in
  st_ret (mkPluginContext r (mkTopicScope ∅ ∅) (storage_metadata_only []) (mkGrantScope ∅ ∅)
    PSPlugin None trace None None CheckpointSupport_none (ReplaySupport_from_level SupportNone)
    normal_metadata_only).
(* [plugin_runtime/context.rs] PluginContext::replay_safe *)
Definition context_replay_safe {MS AS} (c : PluginContext MS AS) : bool :=
  support_real_response_forbidden (pc_replay c) && online_lookup_forbidden (pc_replay c)
  && negb (rq_allow_response_execution (rc_resource_quota (pc_runtime c)))
  && negb (rq_allow_online_lookup (rc_resource_quota (pc_runtime c))).

(* ------------------------------------------------------------------ *)
(** ** The plugin interface *)

(* [plugin_runtime/traits.rs] PluginRuntimeError *)
Inductive PluginRuntimeError :=
  | DuplicatePlugin (plugin_id : PluginId)
  | MissingPlugin (plugin_id : PluginId)
  | ManifestInvalid (error : string)
  | StartupBlocked (plugin_id : PluginId) (reasons : list string)
  | LifecycleFailed (plugin_id : PluginId) (phase error_redacted : string)
  | BatchLimitExceeded (max_events : N).

Section runtime.
Context `{Externals} `{HashOrder}.

(* [plugin_runtime/traits.rs] Display for PluginRuntimeError::fmt *)
Definition runtime_error_to_string (e : PluginRuntimeError) : string :=
  match e with
  | DuplicatePlugin id => "duplicate plugin: " ++ id_to_string id
  | MissingPlugin id => "missing plugin: " ++ id_to_string id
  | ManifestInvalid error => "plugin manifest is invalid: " ++ error
  | StartupBlocked id reasons =>
      "plugin startup blocked for " ++ id_to_string id ++ ": " ++ join "; " reasons
  | LifecycleFailed id phase error =>
      "plugin lifecycle phase " ++ phase ++ " failed for " ++ id_to_string id ++ ": " ++ error
  | BatchLimitExceeded n => "plugin event batch exceeded max_events=" ++ show_uint n
  end%string.

(* [plugin_runtime/traits.rs] PluginOutput *)
Record PluginOutput := mkOutput {
  out_events : list EventEnvelope;
  out_health : list HealthSnapshot;
  out_metrics : list MetricSample;
  out_audit_events : list AuditEvent
}.
Definition PluginOutput_default : PluginOutput := mkOutput [] [] [] [].
(* [plugin_runtime/traits.rs] PluginOutput::extend *)
Definition output_extend (o other : PluginOutput) : PluginOutput :=
  mkOutput (out_events o ++ out_events other) (out_health o ++ out_health other)
    (out_metrics o ++ out_metrics other) (out_audit_events o ++ out_audit_events other).

(* [plugin_runtime/traits.rs] PluginEventBatch *)
Record PluginEventBatch := mkBatch {
  batch_plugin_id : PluginId;
  batch_events : list EventEnvelope;
  batch_received_at : Timestamp;
  batch_max_events : N
}.
(* [plugin_runtime/traits.rs] PluginEventBatch::new *)
Definition PluginEventBatch_new (id : PluginId) (max_events : N) : ST PluginEventBatch :=
  let$ t := now in st_ret (mkBatch id [] t max_events).
(* [plugin_runtime/traits.rs] PluginEventBatch::push *)
Definition batch_push (b : PluginEventBatch) (e : EventEnvelope)
    : result unit PluginRuntimeError * PluginEventBatch :=
  if batch_max_events b <=? len (batch_events b)
  then (Err (BatchLimitExceeded (batch_max_events b)), b)
  else (Ok tt, mkBatch (batch_plugin_id b) (batch_events b ++ [e]) (batch_received_at b)
                 (batch_max_events b)).

(** A method of a plugin: its result, and the plugin and the context after it. *)
Definition method (P MS AS T : Type) : Type :=
  P → PluginContext MS AS → ST (result T PluginRuntimeError * P * PluginContext MS AS).

(** [trait InternalPlugin: PluginLifecycle] *)
(* [plugin_runtime/traits.rs] InternalPlugin *)
Class InternalPlugin (P MS AS : Type) := {
  plugin_manifest : P → PluginManifest;
  capability_manifest_of : P → option CapabilityManifest;
  initialize : method P MS AS unit;
  start : method P MS AS unit;
  stop : method P MS AS unit;
  process_batch : PluginEventBatch → method P MS AS PluginOutput
}.

(** The default body of [process_batch]: one event after the other, until one fails. *)
(* [plugin_runtime/traits.rs] InternalPlugin::process_batch *)
Fixpoint default_process_events {P MS AS} (process_event : EventEnvelope → method P MS AS PluginOutput)
    (events : list EventEnvelope) (output : PluginOutput) : method P MS AS PluginOutput :=
  λ p c,
  match events with
  | [] => st_ret (Ok output, p, c)
  | e :: events' =>
      let$ '(r, p, c) := process_event e p c in
      match r with
      | Err err => st_ret (Err err, p, c)
      | Ok other => default_process_events process_event events' (output_extend output other) p c
      end
  end.

(* ------------------------------------------------------------------ *)
(** ** The runtime registry *)

(* [plugin_runtime/registry.rs] PluginRuntimeKind *)
Inductive PluginRuntimeKind := StaticInternal.
(* [plugin_runtime/registry.rs] PluginRuntimeDescriptor *)
Record PluginRuntimeDescriptor := mkRuntimeDescriptor {
  rd_runtime_kind : PluginRuntimeKind;
  rd_manifest : PluginManifest;
  rd_capability_manifest : option CapabilityManifest;
  rd_component_id : option ComponentId;
  rd_runtime_context : RuntimeContext;
  rd_resource_quota : ResourceQuota;
  rd_timeout_policy : TimeoutPolicy;
  rd_failure_policy : FailurePolicy;
  rd_checkpoint : CheckpointSupport;
  rd_replay : ReplaySupport;
  rd_failure_count : N
}.
(* [plugin_runtime/registry.rs] PluginRuntimeDescriptor::static_internal *)
Definition static_internal (m : PluginManifest) (k : option CapabilityManifest)
    (c : option ComponentId) : ST PluginRuntimeDescriptor :=
  let$ rc := RuntimeContext_new (plugin_id m) (plugin_runtime_mode m) in
  st_ret (mkRuntimeDescriptor StaticInternal m k c rc
    (static_internal_default (plugin_runtime_mode m)) TimeoutPolicy_default FailurePolicy_degrade
    (CheckpointSupport_from_level (checkpoint_support m))
    (ReplaySupport_from_level (replay_support m)) 0).

Definition set_runtime (d : PluginRuntimeDescriptor) (rc : RuntimeContext) (failures : N)
    : PluginRuntimeDescriptor :=
  mkRuntimeDescriptor (rd_runtime_kind d) (rd_manifest d) (rd_capability_manifest d)
    (rd_component_id d) rc (rd_resource_quota d) (rd_timeout_policy d) (rd_failure_policy d)
    (rd_checkpoint d) (rd_replay d) failures.

(* [plugin_runtime/registry.rs] PluginRuntimeRegistry *)
Record PluginRuntimeRegistry := mkRuntimeRegistry {
  descriptors : gmap PluginId PluginRuntimeDescriptor
}.
Definition runtime_registry_new : PluginRuntimeRegistry := mkRuntimeRegistry ∅.

(* [plugin_runtime/registry.rs] PluginRuntimeRegistry::register_static *)
Definition register_static (r : PluginRuntimeRegistry) (d : PluginRuntimeDescriptor)
    : result unit PluginRuntimeError * PluginRuntimeRegistry :=
  match PluginManifest_validate (rd_manifest d) with
  | Err e => (Err (ManifestInvalid (manifest_error_to_string e)), r)
  | Ok _ =>
      let id := plugin_id (rd_manifest d) in
      if contains_key (descriptors r) id then (Err (DuplicatePlugin id), r)
      else (Ok tt, mkRuntimeRegistry (<[id := d]> (descriptors r)))
  end.
(* [plugin_runtime/registry.rs] PluginRuntimeRegistry::get *)
Definition get_descriptor (r : PluginRuntimeRegistry) (id : PluginId)
    : option PluginRuntimeDescriptor := descriptors r !! id.
(* [plugin_runtime/registry.rs] PluginRuntimeRegistry::list *)
Definition list_descriptors (r : PluginRuntimeRegistry) : list PluginRuntimeDescriptor :=
  sort_by_key (λ d, id_to_string (plugin_id (rd_manifest d))) (hash_values (descriptors r)).

(* [plugin_runtime/registry.rs] PluginStartupValidation *)
Record PluginStartupValidation := mkStartupValidation {
  sv_plugin_id : PluginId;
  sv_allowed : bool;
  sv_status : ResolutionStatus;
  sv_contract_report : ResolutionReport;
  sv_permission_decisions : list PermissionDecision;
  sv_issues : list ResolutionIssue
}.
(* [plugin_runtime/registry.rs] PluginStartupValidation::allowed *)
Definition startup_allowed (id : PluginId) : PluginStartupValidation :=
  mkStartupValidation id true Compatible (report_from_issues []) [] [].
(* [plugin_runtime/registry.rs] PluginStartupValidation::blocker_reasons *)
Definition blocker_reasons (v : PluginStartupValidation) : list string :=
  message <$> filter (λ i, severity i = SevBlocker) (sv_issues v).

(* [plugin_runtime/registry.rs] permission_issue *)
Definition startup_permission_issue (id : PluginId) (d : PermissionDecision) : ResolutionIssue :=
  for_dependency (permission_str (d_permission d)) (for_plugin id
    (blocker MissingPermission
      ("plugin permission " ++ permission_str (d_permission d) ++ " is not granted for startup"))).

(** The decision on one declared permission at startup. *)
(* [plugin_runtime/registry.rs:122-129] PluginRuntimeRegistry::validate_startup *)
Definition startup_decision (pr : PermissionResolver) (id : PluginId) (d : PermissionDescriptor)
    : ST PermissionDecision :=
  let$ q := PermissionRequest_new (SPlugin id) (permission d) (permission_scope_for_descriptor d)
    PSPlugin "plugin startup permission validation" in
  evaluate_permission pr q None.
(* [plugin_runtime/registry.rs:121-134] PluginRuntimeRegistry::validate_startup *)
Fixpoint startup_permissions (pr : PermissionResolver) (id : PluginId)
    (l : list PermissionDescriptor) (issues : list ResolutionIssue)
    (decisions : list PermissionDecision)
    : ST (list ResolutionIssue * list PermissionDecision) :=
  match l with
  | [] => st_ret (issues, decisions)
  | d :: l' =>
      let$ dec := startup_decision pr id d in
      startup_permissions pr id l'
        (if bool_decide (decision dec = Allow) then issues
         else issues ++ [startup_permission_issue id dec])
        (decisions ++ [dec])
  end.
(* [plugin_runtime/registry.rs] PluginRuntimeRegistry::validate_startup *)
Definition validate_startup (r : PluginRuntimeRegistry) (id : PluginId) (cr : ContractRegistry)
    (pr : PermissionResolver) : ST (result PluginStartupValidation PluginRuntimeError) :=
  match get_descriptor r id with
  | None => st_ret (Err (MissingPlugin id))
  | Some d =>
      let m := rd_manifest d in
      let report := resolve_contracts m cr in
      let$ '(issues, decisions) := startup_permissions pr (plugin_id m) (required_permissions m)
        (report_issues report) [] in
      let status := status_from_issues issues in
      st_ret (Ok (mkStartupValidation (plugin_id m) (bool_decide (status = Compatible)) status
        report decisions issues))
  end.

(* [plugin_runtime/registry.rs] PluginRuntimeRegistry::transition *)
Definition transition (r : PluginRuntimeRegistry) (id : PluginId) (s : PluginLifecycleState)
    : ST (result unit PluginRuntimeError * PluginRuntimeRegistry) :=
  match get_descriptor r id with
  | None => st_ret (Err (MissingPlugin id), r)
  | Some d =>
      let$ rc := context_transition s (rd_runtime_context d) in
      st_ret (Ok tt, mkRuntimeRegistry (<[id := set_runtime d rc (rd_failure_count d)]>
        (descriptors r)))
  end.

(** The state after a failure, given the new count. *)
(* [plugin_runtime/registry.rs:169-180] PluginRuntimeRegistry::record_failure *)
Definition failure_state (p : FailurePolicy) (count : N) : PluginLifecycleState :=
  match fp_mode p with
  | MarkDegraded | RestartWithinLimit =>
      if count <? fp_max_failures_before_disable p then PDegraded else PFailed
  | DisablePlugin => PDisabled
  | MarkFailed => PFailed
  end.
(* [plugin_runtime/registry.rs] PluginRuntimeRegistry::record_failure *)
Definition record_plugin_failure (r : PluginRuntimeRegistry) (id : PluginId)
    : ST (result PluginLifecycleState PluginRuntimeError * PluginRuntimeRegistry) :=
  match get_descriptor r id with
  | None => st_ret (Err (MissingPlugin id), r)
  | Some d =>
      let count := saturating_add u32_max (rd_failure_count d) 1 in
      let next := failure_state (rd_failure_policy d) count in
      let$ rc := context_transition next (rd_runtime_context d) in
      st_ret (Ok next, mkRuntimeRegistry (<[id := set_runtime d rc count]> (descriptors r)))
  end.

(* [plugin_runtime/registry.rs] scheduler_kind_for_runtime_mode *)
Definition scheduler_kind_for_runtime_mode (m : RuntimeMode) : SchedulerKind :=
  match m with
  | Streaming | Hybrid => Realtime
  | Batch => SkBatch
  | Periodic => SkPeriodic
  | OnDemand => Priority
  | Replay => SkReplay
  end.

(* ------------------------------------------------------------------ *)
(** ** Batches *)

(* [plugin_runtime/runtime.rs] processing_error *)
Definition processing_error (id : PluginId) (error : string) : PluginRuntimeError :=
  LifecycleFailed id "process_batch" error.
(* [event_bus/topic.rs] Display for TopicNameError::fmt *)
Definition topic_name_error_to_string (e : TopicNameError) : string :=
  ("invalid topic name: " ++ rejected_name e)%string.
(* [plugin_runtime/runtime.rs] event_topic *)
Definition event_topic (id : PluginId) (value : string) : result TopicName PluginRuntimeError :=
  map_err (λ e, processing_error id (topic_name_error_to_string e)) (TopicName_new value).
(* [plugin_runtime/runtime.rs] declared_topics *)
Definition declared_topics (contracts : list ContractDescriptor) (id : PluginId)
    : result (gset TopicName) PluginRuntimeError :=
  let? l := try_map (λ c, event_topic id (default (contract_name c) (contract_topic c))) contracts in
  Ok (list_to_set l).

Section batches.
Context {MS AS : Type}.
Implicit Types c : PluginContext MS AS.

Definition event_type_str_of (e : EventEnvelope) : string :=
  Envelope.event_type_str (Envelope.event_type e).

(* [plugin_runtime/runtime.rs:172-186] validate_batch_inputs *)
Definition validate_input (id : PluginId) c (declared : gset TopicName) (e : EventEnvelope)
    : result unit PluginRuntimeError :=
  let? topic := event_topic id (event_type_str_of e) in
  if negb (bool_decide (topic ∈ declared))
  then Err (processing_error id
         ("input topic " ++ topic_str topic ++ " is not declared by manifest")%string)
  else if negb (can_subscribe (pc_topic_scope c) topic)
  then Err (processing_error id
         ("input topic " ++ topic_str topic ++ " is outside the runtime subscribe scope")%string)
  else Ok tt.
(* [plugin_runtime/runtime.rs] validate_batch_inputs *)
Definition validate_batch_inputs (id : PluginId) c (b : PluginEventBatch)
    (declared : gset TopicName) : result unit PluginRuntimeError :=
  for_each (validate_input id c declared) (batch_events b).

(* [plugin_runtime/runtime.rs:197-217] validate_batch_outputs *)
Definition validate_output (id : PluginId) c (declared : gset TopicName) (e : EventEnvelope)
    : result unit PluginRuntimeError :=
  if negb (bool_decide (Envelope.producer_plugin e = id))
  then Err (processing_error id "output event producer does not match the runtime plugin")
  else
    let? topic := event_topic id (event_type_str_of e) in
    if negb (bool_decide (topic ∈ declared))
    then Err (processing_error id
           ("output topic " ++ topic_str topic ++ " is not declared by manifest")%string)
    else if negb (can_publish (pc_topic_scope c) topic)
    then Err (processing_error id
           ("output topic " ++ topic_str topic ++ " is outside the runtime publish scope")%string)
    else Ok tt.
(* [plugin_runtime/runtime.rs] validate_batch_outputs *)
Definition validate_batch_outputs (id : PluginId) c (o : PluginOutput)
    (declared : gset TopicName) : result unit PluginRuntimeError :=
  for_each (validate_output id c declared) (out_events o).
End batches.

(* ------------------------------------------------------------------ *)
(** ** The runtime *)

(* [plugin_runtime/runtime.rs] PluginRuntime *)
Record PluginRuntime (P : Type) := mkRuntime {
  registry : PluginRuntimeRegistry;
  running_plugins : gmap PluginId P
}.
Arguments mkRuntime {P}.
Arguments registry {P}.
Arguments running_plugins {P}.

Section operations.
Context {P MS AS : Type} `{!InternalPlugin P MS AS}.
Implicit Types (rt : PluginRuntime P) (c : PluginContext MS AS) (id : PluginId).

Definition set_registry rt (r : PluginRuntimeRegistry) : PluginRuntime P :=
  mkRuntime r (running_plugins rt).
Definition set_plugin rt id (p : P) : PluginRuntime P :=
  mkRuntime (registry rt) (<[id := p]> (running_plugins rt)).

(* [plugin_runtime/runtime.rs] PluginRuntime::register_static_plugin *)
Definition register_static_plugin rt (p : P)
    : ST (result PluginId PluginRuntimeError * PluginRuntime P) :=
  let m := plugin_manifest (InternalPlugin := _) p in
  let$ d := static_internal m (capability_manifest_of p) None in
  match register_static (registry rt) d with
  | (Err e, r) => st_ret (Err e, set_registry rt r)
  | (Ok _, r) => st_ret (Ok (plugin_id m), set_plugin (set_registry rt r) (plugin_id m) p)
  end.

(* [plugin_runtime/runtime.rs] PluginRuntime::manifest *)
Definition runtime_manifest rt id : option PluginManifest :=
  rd_manifest <$> get_descriptor (registry rt) id.

(** One phase of the startup: the state is entered, then the plugin's method is called; a
    failure is recorded. *)
(* [plugin_runtime/runtime.rs:73-82] PluginRuntime::start_plugin *)
Definition startup_phase (s : PluginLifecycleState) (phase : string) (body : method P MS AS unit)
    rt id (p : P) c : ST (result P PluginRuntimeError * PluginRuntime P * PluginContext MS AS) :=
  let$ '(entered, r) := transition (registry rt) id s in
  let rt := set_registry rt r in
  match entered with
  | Err e => st_ret (Err e, rt, c)
  | Ok _ =>
      let$ '(res, p, c) := body p c in
      let rt := set_plugin rt id p in
      match res with
      | Ok _ => st_ret (Ok p, rt, c)
      | Err e =>
          let$ '(recorded, r) := record_plugin_failure (registry rt) id in
          let rt := set_registry rt r in
          match recorded with
          | Err e' => st_ret (Err e', rt, c)
          | Ok _ => st_ret (Err (LifecycleFailed id phase (runtime_error_to_string e)), rt, c)
          end
      end
  end.

(* [plugin_runtime/runtime.rs] PluginRuntime::start_plugin *)
Definition start_plugin rt id (v : PluginStartupValidation) c
    : ST (result unit PluginRuntimeError * PluginRuntime P * PluginContext MS AS) :=
  if negb (sv_allowed v)
  then
    let$ '(t, r) := transition (registry rt) id PIncompatible in
    let rt := set_registry rt r in
    match t with
    | Err e => st_ret (Err e, rt, c)
    | Ok _ => st_ret (Err (StartupBlocked id (blocker_reasons v)), rt, c)
    end
  else
    match running_plugins rt !! id with
    | None => st_ret (Err (MissingPlugin id), rt, c)
    | Some p =>
        let$ '(r1, rt, c) := startup_phase PInitialized "initialize" initialize rt id p c in
        match r1 with
        | Err e => st_ret (Err e, rt, c)
        | Ok p =>
            let$ '(r2, rt, c) := startup_phase PStarting "start" start rt id p c in
            match r2 with
            | Err e => st_ret (Err e, rt, c)
            | Ok _ =>
                let$ '(t, r) := transition (registry rt) id PRunning in
                st_ret (t, set_registry rt r, c)
            end
        end
    end.

(* [plugin_runtime/runtime.rs] PluginRuntime::stop_plugin *)
Definition stop_plugin rt id c
    : ST (result unit PluginRuntimeError * PluginRuntime P * PluginContext MS AS) :=
  match running_plugins rt !! id with
  | None => st_ret (Err (MissingPlugin id), rt, c)
  | Some p =>
      let$ '(t, r) := transition (registry rt) id PStopping in
      let rt := set_registry rt r in
      match t with
      | Err e => st_ret (Err e, rt, c)
      | Ok _ =>
          let$ '(res, p, c) := stop p c in
          let rt := set_plugin rt id p in
          match res with
          | Err e => st_ret (Err e, rt, c)
          | Ok _ =>
              let$ '(t, r) := transition (registry rt) id PStopped in
              st_ret (t, set_registry rt r, c)
          end
      end
  end.

(** The checks before the plugin is called, and the topics it may publish to. *)
(* [plugin_runtime/runtime.rs:123-155] PluginRuntime::process_batch *)
Definition batch_guards rt id c (b : PluginEventBatch)
    : result (gset TopicName) PluginRuntimeError :=
  if negb (bool_decide (batch_plugin_id b = id))
  then Err (processing_error id "event batch was created for a different plugin")
  else if negb (bool_decide (rc_plugin_id (pc_runtime c) = id))
  then Err (processing_error id "runtime context belongs to a different plugin")
  else if negb (raw_content_persistence_forbidden (pc_privacy c))
  then Err (processing_error id "plugin runtime refuses unsafe persistence context")
  else
    match get_descriptor (registry rt) id with
    | None => Err (MissingPlugin id)
    | Some d =>
        if negb (bool_decide (rc_lifecycle_state (rd_runtime_context d) = PRunning))
        then Err (processing_error id "plugin must be running before batch processing")
        else
          let? inputs := declared_topics (input_contracts (rd_manifest d)) id in
          let? outputs := declared_topics (output_contracts (rd_manifest d)) id in
          let? _ := validate_batch_inputs id c b inputs in
          Ok outputs
    end.

(* [plugin_runtime/runtime.rs] PluginRuntime::process_batch *)
Definition runtime_process_batch rt id c (b : PluginEventBatch)
    : ST (result PluginOutput PluginRuntimeError * PluginRuntime P * PluginContext MS AS) :=
  match batch_guards rt id c b with
  | Err e => st_ret (Err e, rt, c)
  | Ok outputs =>
      match running_plugins rt !! id with
      | None => st_ret (Err (MissingPlugin id), rt, c)
      | Some p =>
          let$ '(res, p, c) := process_batch b p c in
          let rt := set_plugin rt id p in
          match res with
          | Err e => st_ret (Err e, rt, c)
          | Ok output =>
              match validate_batch_outputs id c output outputs with
              | Err e => st_ret (Err e, rt, c)
              | Ok _ => st_ret (Ok output, rt, c)
              end
          end
      end
  end.

End operations.
End runtime.

Arguments mkRuntime {_ _}.
Arguments registry {_ _}.
Arguments running_plugins {_ _}.
