(* ===== verification/PluginRuntimeFacts.v ===== *)
(** * Facts about the plugin runtime *)

From S2P Require Import Prelude Collections RustStr Effects Contracts Topics Manifest.
From S2P Require Import Component Registry Pipeline Resolver ResolverFacts Settings.
From S2P Require Import Permissions PermissionsFacts Observability ObservabilityFacts PluginRuntime.

#[local] Open Scope string_scope.
#[local] Open Scope list_scope.
#[local] Open Scope N_scope.

(* ------------------------------------------------------------------ *)
(** ** Startup validation *)

Section startup.
Context `{Externals} `{HashOrder}.

(** A declared contract that does not stop the plugin. *)
Definition contract_satisfied (cr : ContractRegistry) (k : ContractDescriptor) : Prop :=
  match find_contracts_by_name cr (contract_name k) with
  | [] => contract_required k = false
  | candidates => ∃ x, x ∈ candidates ∧ contract_is_compatible x k = true
  end.

Lemma forallb_negb {A} (p : A → bool) l : forallb (λ x, negb (p x)) l = negb (existsb p l).
Proof. induction l as [|x l IH]; simpl; [done|]. by rewrite IH, negb_orb. Qed.

Lemma contract_issues_nil m cr k : contract_issues m cr k = [] ↔ contract_satisfied cr k.
Proof.
  unfold contract_issues, contract_satisfied.
  destruct (find_contracts_by_name cr (contract_name k)) as [|x l].
  { by destruct (contract_required k). }
  rewrite (forallb_negb (λ y, contract_is_compatible y k)).
  setoid_rewrite list_elem_of_In. rewrite <- existsb_exists. by destruct (existsb _ _).
Qed.

(** The conditions on one declared permission. *)
Record startup_permitted (pr : PermissionResolver) (id : PluginId) (d : PermissionDescriptor)
    : Prop := {
  sp_available : permission d ∉ unavailable_permissions pr;
  sp_registered : ∃ p, permissions pr !! permission d = Some p ∧
    domain p = from_category (permission_category d);
  sp_not_sensitive : is_sensitive_permission_key (permission d) = false;
  sp_granted : is_granted pr (SPlugin id) (permission d) = true;
  sp_no_policy : requires_policy_evaluation (permission_scope_for_descriptor d) = false
}.

Lemma scope_for_descriptor_domain d :
  scope_domain (permission_scope_for_descriptor d) = from_category (permission_category d).
Proof. unfold permission_scope_for_descriptor. by destruct (permission_category d). Qed.

Lemma executes_requires_policy s : executes_response s = true → requires_policy_evaluation s = true.
Proof. by destruct s as [| |? []| | |]. Qed.

Lemma startup_decision_allow pr id d w :
  decision (startup_decision pr id d w).1 = Allow ↔ startup_permitted pr id d.
Proof.
  unfold startup_decision, st_bind, PermissionRequest_new. simpl. rewrite evaluate_allow. simpl.
  rewrite scope_for_descriptor_domain. split.
  - intros (? & ? & [_ ? _] & ? & Hpol). constructor; try done. simpl in *.
    destruct (requires_policy_evaluation _); [|done]. by destruct (Hpol eq_refl) as (? & ? & _).
  - intros [? ? ? ? Hp]. rewrite Hp. split_and!; try done. constructor; simpl; [done|done|].
    intros He%executes_requires_policy. congruence.
Qed.

(** The issues of the permissions: none exactly when each is permitted; all are blockers. *)
Lemma startup_permissions_issues pr id l issues decisions w :
  let out := (startup_permissions pr id l issues decisions w).1.1 in
  ∃ more, out = issues ++ more ∧ Forall (λ i, severity i = SevBlocker) more ∧
    (more = [] ↔ Forall (startup_permitted pr id) l).
Proof.
  revert issues decisions w. induction l as [|d l IH]; intros issues decisions w; simpl.
  { exists []. rewrite app_nil_r. split_and!; [done|constructor|by split]. }
  unfold st_bind. pose proof (startup_decision_allow pr id d w) as Hd.
  destruct (startup_decision pr id d w) as [dec w']. simpl in *.
  destruct (bool_decide_reflect (decision dec = Allow)) as [Ha|Ha].
  - destruct (IH issues (decisions ++ [dec]) w') as (more & -> & Hb & Hn).
    exists more. split_and!; [done|done|]. rewrite Hn, Forall_cons. tauto.
  - destruct (IH (issues ++ [startup_permission_issue id dec]) (decisions ++ [dec]) w')
      as (more & -> & Hb & Hn).
    exists (startup_permission_issue id dec :: more). rewrite <- (assoc_L (++)).
    split_and!; [done|by constructor|]. rewrite Forall_cons. split; [done|tauto].
Qed.

Lemma status_compatible_blockers l :
  Forall (λ i, severity i = SevBlocker) l → status_from_issues l = Compatible ↔ l = [].
Proof.
  destruct l as [|i l]; [done|]. intros [Hi _]%Forall_cons. split; [|done].
  unfold status_from_issues. simpl. unfold has_severity at 1. by rewrite bool_decide_true.
Qed.

Lemma contract_issues_blockers m cr l :
  Forall (λ i, severity i = SevBlocker) (l ≫= contract_issues m cr).
Proof.
  induction l as [|k l IH]; csimpl; [constructor|]. apply Forall_app_2; [|done].
  unfold contract_issues. repeat case_match; by repeat constructor.
Qed.

Lemma bind_nil_iff {A B} (f : A → list B) l : l ≫= f = [] ↔ Forall (λ x, f x = []) l.
Proof.
  induction l as [|x l IH]; csimpl; [by split|]. rewrite app_nil_iff, IH, Forall_cons. done.
Qed.

(** Startup validation allows a registered plugin exactly when each contract it declares
    has a compatible registration (or is optional and not registered), and each permission
    it declares is available, registered in its domain, not sensitive, granted to the
    plugin and usable without a policy evaluation. An unknown plugin is an error. *)
Theorem startup_allowed_iff r id cr pr w :
  match get_descriptor r id with
  | None => (validate_startup r id cr pr w).1 = Err (MissingPlugin id)
  | Some d =>
      let m := rd_manifest d in
      ∃ v, (validate_startup r id cr pr w).1 = Ok v ∧ sv_plugin_id v = plugin_id m ∧
        (sv_allowed v = true ↔
          Forall (contract_satisfied cr) (input_contracts m ++ output_contracts m) ∧
          Forall (startup_permitted pr (plugin_id m)) (required_permissions m))
  end.
Proof.
  unfold validate_startup. destruct (get_descriptor r id) as [d|]; [|done]. simpl. unfold st_bind.
  set (m := rd_manifest d).
  pose proof (startup_permissions_issues pr (plugin_id m) (required_permissions m)
    (report_issues (resolve_contracts m cr)) [] w) as (more & Hout & Hb & Hn).
  destruct (startup_permissions _ _ _ _ _ _) as [[issues decs] w']. simpl in *. subst issues.
  eexists. split; [done|]. simpl. split; [done|].
  rewrite bool_decide_eq_true, status_compatible_blockers.
  - rewrite app_nil_iff, Hn, bind_nil_iff. setoid_rewrite contract_issues_nil. done.
  - apply Forall_app_2; [apply contract_issues_blockers|done].
Qed.

End startup.

(* ------------------------------------------------------------------ *)
(** ** The registry's transitions *)

Section lifecycle.
Context `{Externals} `{HashOrder}.
Implicit Types (r : PluginRuntimeRegistry) (id : PluginId).

Definition plugin_state (d : PluginRuntimeDescriptor) : PluginLifecycleState :=
  rc_lifecycle_state (rd_runtime_context d).

(** [r'] is [r] with plugin [id] in state [s] after [n] failures; its other data and all
    other plugins are as they were. *)
Record moved r r' id (s : PluginLifecycleState) (n : N) : Prop := {
  mv_descriptor : ∃ d rc, descriptors r !! id = Some d ∧
    descriptors r' !! id = Some (set_runtime d rc n) ∧ rc_lifecycle_state rc = s;
  mv_others : ∀ other, other ≠ id → descriptors r' !! other = descriptors r !! other
}.

Lemma transition_moves r id s w :
  match descriptors r !! id with
  | None => transition r id s w = (Err (MissingPlugin id), r, w)
  | Some d => ∃ r' w', transition r id s w = (Ok tt, r', w') ∧
      moved r r' id s (rd_failure_count d)
  end.
Proof.
  unfold transition, get_descriptor. destruct (descriptors r !! id) as [d|] eqn:Hd; [|done].
  unfold st_bind. destruct (context_transition s (rd_runtime_context d) w) as [rc w'] eqn:Hrc.
  eexists _, _. split; [done|]. constructor; simpl.
  - exists d, rc. rewrite lookup_insert_eq. split_and!; [done..|].
    unfold context_transition, st_bind, st_ret, now in Hrc. by simplify_eq/=.
  - intros other Hne. by rewrite lookup_insert_ne.
Qed.

Lemma record_failure_moves r id w :
  match descriptors r !! id with
  | None => record_plugin_failure r id w = (Err (MissingPlugin id), r, w)
  | Some d =>
      let n := saturating_add u32_max (rd_failure_count d) 1 in
      let s := failure_state (rd_failure_policy d) n in
      ∃ r' w', record_plugin_failure r id w = (Ok s, r', w') ∧ moved r r' id s n
  end.
Proof.
  unfold record_plugin_failure, get_descriptor.
  destruct (descriptors r !! id) as [d|] eqn:Hd; [|done]. simpl. unfold st_bind.
  destruct (context_transition _ (rd_runtime_context d) w) as [rc w'] eqn:Hrc.
  eexists _, _. split; [done|]. constructor; simpl.
  - exists d, rc. rewrite lookup_insert_eq. split_and!; [done..|].
    unfold context_transition, st_bind, st_ret, now in Hrc. by simplify_eq/=.
  - intros other Hne. by rewrite lookup_insert_ne.
Qed.

Lemma moved_trans r1 r2 r3 id s s' n m : moved r1 r2 id s n → moved r2 r3 id s' m → moved r1 r3 id s' m.
Proof.
  intros [(d & rc & Hd & Hd' & _) Ho] [(d' & rc' & H1 & H2 & Hs) Ho'].
  constructor; [|intros other Hne; by rewrite Ho', Ho].
  assert (d' = set_runtime d rc n) as -> by congruence.
  exists d, rc'. by split_and!.
Qed.

Lemma moved_lookup r r' id s n :
  moved r r' id s n → ∃ d d', descriptors r !! id = Some d ∧ descriptors r' !! id = Some d' ∧
    plugin_state d' = s ∧ rd_failure_count d' = n ∧
    rd_failure_policy d' = rd_failure_policy d ∧ rd_manifest d' = rd_manifest d.
Proof. intros [(d & rc & ? & ? & ?) _]. by exists d, (set_runtime d rc n). Qed.

(** [k] failures of one plugin, one after the other. *)
Fixpoint fail_times (k : nat) r id : ST PluginRuntimeRegistry :=
  match k with
  | O => st_ret r
  | S k' => let$ '(_, r') := record_plugin_failure r id in fail_times k' r' id
  end.

(** Failures are counted without overflow and decide the state: after [k] failures the
    count is that of before plus [k], saturating at 32 bits, and a plugin whose policy
    tolerates failures is degraded as long as the count is below the limit and failed from
    then on; the other plugins are not touched. *)
Theorem failure_threshold r id d k w :
  descriptors r !! id = Some d → rd_failure_count d ≤ u32_max → (0 < k)%nat →
  let r' := (fail_times k r id w).1 in
  let n := N.min u32_max (rd_failure_count d + N.of_nat k) in
  ∃ d', descriptors r' !! id = Some d' ∧ rd_failure_count d' = n ∧
    plugin_state d' = failure_state (rd_failure_policy d) n ∧
    (fp_mode (rd_failure_policy d) = MarkDegraded ∨
     fp_mode (rd_failure_policy d) = RestartWithinLimit →
      plugin_state d' =
        if n <? fp_max_failures_before_disable (rd_failure_policy d) then PDegraded else PFailed) ∧
    ∀ other, other ≠ id → descriptors r' !! other = descriptors r !! other.
Proof.
  revert r d w. induction k as [|k IH]; intros r d w Hd Hc Hk; [lia|]. simpl. unfold st_bind.
  pose proof (record_failure_moves r id w) as Hm. rewrite Hd in Hm. simpl in Hm.
  destruct Hm as (r1 & w1 & -> & Hm).
  destruct (moved_lookup _ _ _ _ _ Hm) as (d0 & d1 & Hd0 & Hd1 & Hs1 & Hn1 & Hp1 & _).
  assert (d0 = d) as -> by congruence. unfold saturating_add in *.
  destruct k as [|k].
  - simpl. exists d1. rewrite Hd1, Hs1, Hn1.
    replace (N.min u32_max (rd_failure_count d + 1))
      with (N.min u32_max (rd_failure_count d + N.of_nat 1)) by lia.
    split_and!; [done..| |apply Hm]. intros Hmode. unfold failure_state.
    by destruct Hmode as [-> | ->].
  - destruct (IH r1 d1 w1 Hd1) as (d' & Hd' & Hn & Hs & Hmode & Ho); [lia|lia|].
    exists d'. rewrite Hp1, Hn1 in *.
    replace (N.min u32_max (N.min u32_max (rd_failure_count d + 1) + N.of_nat (S k)))
      with (N.min u32_max (rd_failure_count d + N.of_nat (S (S k)))) in * by lia.
    split_and!; [done..|]. intros other Hne. rewrite Ho by done. by apply Hm.
Qed.

End lifecycle.

(* ------------------------------------------------------------------ *)
(** ** Starting plugins *)

Section start.
Context `{Externals} `{HashOrder} {P MS AS : Type} `{!InternalPlugin P MS AS}.
Implicit Types (rt : PluginRuntime P) (c : PluginContext MS AS) (id : PluginId).

(** The registry after a failure that follows [r]. *)
Definition failed_from (r r' : PluginRuntimeRegistry) (id : PluginId) : Prop :=
  ∃ d, descriptors r !! id = Some d ∧
    let n := saturating_add u32_max (rd_failure_count d) 1 in
    moved r r' id (failure_state (rd_failure_policy d) n) n.

(** A phase enters its state; if its method fails, the failure is recorded. *)
Lemma startup_phase_cases s phase body rt id p c w d :
  descriptors (registry rt) !! id = Some d →
  ∃ res rt' c' w', startup_phase s phase body rt id p c w = (res, rt', c', w') ∧
    match res with
    | Ok p' => moved (registry rt) (registry rt') id s (rd_failure_count d)
    | Err e => (∃ err, e = LifecycleFailed id phase err) ∧
        failed_from (registry rt) (registry rt') id
    end.
Proof.
  intros Hd. unfold startup_phase, st_bind.
  pose proof (transition_moves (registry rt) id s w) as Ht. rewrite Hd in Ht.
  destruct Ht as (r1 & w1 & -> & Hm1).
  destruct (body p c w1) as [[[res p'] c'] w2]. destruct res as [u|e].
  { eexists _, _, _, _. split; [done|]. done. }
  simpl. destruct (moved_lookup _ _ _ _ _ Hm1) as (d0 & d1 & Hd0 & Hd1 & _ & Hn & Hpol & _).
  assert (d0 = d) as -> by congruence.
  pose proof (record_failure_moves r1 id w2) as Hr. rewrite Hd1 in Hr. simpl in Hr.
  destruct Hr as (r2 & w3 & -> & Hm2). eexists _, _, _, _. split; [done|]. split; [by eexists|].
  exists d. split; [done|]. rewrite Hn, Hpol in Hm2. by eapply moved_trans.
Qed.

Lemma failed_after_move r1 r2 r3 id s d :
  descriptors r1 !! id = Some d → moved r1 r2 id s (rd_failure_count d) →
  failed_from r2 r3 id → failed_from r1 r3 id.
Proof.
  intros Hd Hm (d2 & Hd2 & Hf). exists d. split; [done|].
  destruct (moved_lookup _ _ _ _ _ Hm) as (d0 & d1 & Hd0 & Hd1 & _ & Hn & Hpol & _).
  assert (d0 = d) as -> by congruence. assert (d2 = d1) as -> by congruence.
  rewrite Hn, Hpol in Hf. simpl in *. by eapply moved_trans.
Qed.

(** Starting a plugin has exactly these outcomes: it runs, with its failure count kept;
    it was not allowed, is marked incompatible and the blockers are reported; it is not
    known, and the registry is unchanged; or a lifecycle method failed, the failure is
    counted and the failure policy decides its state. No other plugin is affected. *)
Theorem start_plugin_outcome rt id v c w :
  let '(res, rt', c', w') := start_plugin rt id v c w in
  match res with
  | Ok _ => sv_allowed v = true ∧ ∃ d, descriptors (registry rt) !! id = Some d ∧
      moved (registry rt) (registry rt') id PRunning (rd_failure_count d)
  | Err (StartupBlocked i reasons) =>
      i = id ∧ sv_allowed v = false ∧ reasons = blocker_reasons v ∧
      ∃ d, descriptors (registry rt) !! id = Some d ∧
        moved (registry rt) (registry rt') id PIncompatible (rd_failure_count d)
  | Err (MissingPlugin i) => i = id ∧ registry rt' = registry rt ∧
      (descriptors (registry rt) !! id = None ∨ running_plugins rt !! id = None)
  | Err (LifecycleFailed i phase _) =>
      i = id ∧ sv_allowed v = true ∧ (phase = "initialize" ∨ phase = "start") ∧
      failed_from (registry rt) (registry rt') id
  | Err _ => False
  end.
Proof.
  unfold start_plugin, st_bind. destruct (sv_allowed v) eqn:Hv; simpl.
  2:{ pose proof (transition_moves (registry rt) id PIncompatible w) as Ht.
      destruct (descriptors (registry rt) !! id) as [d|] eqn:Hd.
      - destruct Ht as (r1 & w1 & -> & Hm). simpl. split_and!; eauto.
      - rewrite Ht. simpl. auto. }
  destruct (running_plugins rt !! id) as [p|] eqn:Hp; [|by simpl; auto].
  destruct (descriptors (registry rt) !! id) as [d|] eqn:Hd.
  2:{ unfold startup_phase, st_bind.
      pose proof (transition_moves (registry rt) id PInitialized w) as Ht. rewrite Hd in Ht.
      rewrite Ht. simpl. auto. }
  destruct (startup_phase_cases PInitialized "initialize" initialize rt id p c w d Hd)
    as (res & rt1 & c1 & w1 & -> & H1). destruct res as [p1|e].
  2:{ destruct H1 as [[err ->] Hf]. simpl. auto. }
  destruct (moved_lookup _ _ _ _ _ H1) as (d0 & d1 & Hd0 & Hd1 & _ & Hn1 & Hpol1 & _).
  destruct (startup_phase_cases PStarting "start" start rt1 id p1 c1 w1 d1 Hd1)
    as (res & rt2 & c2 & w2 & -> & H2). destruct res as [p2|e].
  2:{ destruct H2 as [[err ->] Hf]. simpl. split_and!; auto. exact (failed_after_move _ _ _ _ _ _ Hd H1 Hf). }
  destruct (moved_lookup _ _ _ _ _ H2) as (d1' & d2 & Hd1' & Hd2 & _ & Hn2 & _ & _).
  pose proof (transition_moves (registry rt2) id PRunning w2) as Ht. rewrite Hd2 in Ht.
  destruct Ht as (r3 & w3 & -> & H3). simpl. split; [done|]. exists d. split; [done|].
  rewrite Hn2, Hn1 in *. eapply moved_trans; [exact H1|]. eapply moved_trans; [exact H2|exact H3].
Qed.

End start.

(* ------------------------------------------------------------------ *)
(** ** Processing batches *)

Section batches.
Context `{Externals} `{HashOrder} {P MS AS : Type} `{!InternalPlugin P MS AS}.
Implicit Types (rt : PluginRuntime P) (c : PluginContext MS AS) (id : PluginId).

(** The topic of an event, and the topics a list of contracts declares. *)
Definition has_topic (e : EventEnvelope) (t : TopicName) : Prop :=
  TopicName_new (event_type_str_of e) = Ok t.
Definition declares (contracts : list ContractDescriptor) (t : TopicName) : Prop :=
  ∃ k, k ∈ contracts ∧ TopicName_new (default (contract_name k) (contract_topic k)) = Ok t.

Lemma event_topic_ok id value t : event_topic id value = Ok t ↔ TopicName_new value = Ok t.
Proof. unfold event_topic. apply map_err_ok. Qed.

Lemma declared_topics_spec contracts id topics t :
  declared_topics contracts id = Ok topics → t ∈ topics → declares contracts t.
Proof.
  unfold declared_topics. rewrite res_bind_ok. intros (l & Hl & [= <-]) Ht.
  apply elem_of_list_to_set in Ht. apply try_map_ok in Hl.
  apply list_elem_of_lookup in Ht as [i Hi].
  destruct (Forall2_lookup_r _ _ _ _ _ Hl Hi) as (k & Hk & Htopic).
  apply event_topic_ok in Htopic. exists k. split; [by eapply list_elem_of_lookup_2|done].
Qed.

Lemma validate_input_ok id c declared e :
  validate_input id c declared e = Ok tt →
  ∃ t, has_topic e t ∧ t ∈ declared ∧ t ∈ subscribe_topics (pc_topic_scope c).
Proof.
  unfold validate_input. rewrite res_bind_ok. intros (t & Ht%event_topic_ok & Hc). exists t.
  split; [done|]. destruct (bool_decide_reflect (t ∈ declared)); [|done]. simpl in Hc.
  unfold can_subscribe in Hc.
  by destruct (bool_decide_reflect (t ∈ subscribe_topics (pc_topic_scope c))).
Qed.

Lemma validate_output_ok id c declared e :
  validate_output id c declared e = Ok tt →
  Envelope.producer_plugin e = id ∧
  ∃ t, has_topic e t ∧ t ∈ declared ∧ t ∈ publish_topics (pc_topic_scope c).
Proof.
  unfold validate_output. destruct (bool_decide_reflect (Envelope.producer_plugin e = id));
    simpl; [|done].
  rewrite res_bind_ok. intros (t & Ht%event_topic_ok & Hc). split; [done|]. exists t.
  split; [done|]. destruct (bool_decide_reflect (t ∈ declared)); [|done]. simpl in Hc.
  unfold can_publish in Hc.
  by destruct (bool_decide_reflect (t ∈ publish_topics (pc_topic_scope c))).
Qed.

(** What has been checked before a plugin sees a batch. *)
Record batch_admissible rt id c (b : PluginEventBatch) (d : PluginRuntimeDescriptor) : Prop := {
  ba_registered : descriptors (registry rt) !! id = Some d;
  ba_running : plugin_state d = PRunning;
  ba_owner : batch_plugin_id b = id ∧ rc_plugin_id (pc_runtime c) = id;
  ba_privacy : raw_content_persistence_forbidden (pc_privacy c) = true;
  ba_inputs : Forall (λ e, ∃ t, has_topic e t ∧ declares (input_contracts (rd_manifest d)) t ∧
    t ∈ subscribe_topics (pc_topic_scope c)) (batch_events b)
}.

Lemma batch_guards_ok rt id c b outputs :
  batch_guards rt id c b = Ok outputs →
  ∃ d, batch_admissible rt id c b d ∧
    declared_topics (output_contracts (rd_manifest d)) id = Ok outputs.
Proof.
  unfold batch_guards. destruct (bool_decide_reflect (batch_plugin_id b = id)) as [Hb|]; [|done].
  destruct (bool_decide_reflect (rc_plugin_id (pc_runtime c) = id)) as [Hc|]; [|done].
  destruct (raw_content_persistence_forbidden (pc_privacy c)) eqn:Hp; [|done]. simpl.
  unfold get_descriptor. destruct (descriptors (registry rt) !! id) as [d|] eqn:Hd; [|done].
  destruct (bool_decide_reflect (rc_lifecycle_state (rd_runtime_context d) = PRunning)) as [Hr|];
    [|done]. simpl. rewrite res_bind_ok. intros (inputs & Hin & Hout).
  apply res_bind_ok in Hout as (outputs' & Hout & Hv).
  apply res_bind_ok in Hv as ([] & Hv & [= ->]). exists d. split; [|done].
  constructor; try done. unfold validate_batch_inputs in Hv. apply for_each_ok in Hv.
  eapply Forall_impl; [exact Hv|]. intros e (t & Ht & Hdec & Hs)%validate_input_ok.
  exists t. split_and!; [done| |done]. by eapply declared_topics_spec.
Qed.

(** A batch is processed only inside its bounds: a plugin is called only when it runs,
    the batch and the context are its own, the context persists no raw content and every
    event is on a topic its manifest declares as input and its scope lets it subscribe to;
    an output is returned only when every event was produced by this plugin, on a topic
    its manifest declares as output and the scope of the context lets it publish to. The
    registry does not change, and without the checks neither plugin nor context does. *)
Theorem process_batch_guarded rt id c b w :
  let '(res, rt', c', w') := runtime_process_batch rt id c b w in
  registry rt' = registry rt ∧
  ((rt' = rt ∧ c' = c) ∨ ∃ d, batch_admissible rt id c b d) ∧
  (∀ output, res = Ok output → ∃ d, batch_admissible rt id c b d ∧
    Forall (λ e, Envelope.producer_plugin e = id ∧
      ∃ t, has_topic e t ∧ declares (output_contracts (rd_manifest d)) t ∧
        t ∈ publish_topics (pc_topic_scope c')) (out_events output)).
Proof.
  unfold runtime_process_batch, st_bind.
  destruct (batch_guards rt id c b) as [outputs|e] eqn:Hg; simpl; [|by split_and!; auto].
  apply batch_guards_ok in Hg as (d & Hadm & Hout).
  destruct (running_plugins rt !! id) as [p|]; simpl; [|by split_and!; eauto].
  destruct (process_batch b p c w) as [[[res p'] c'] w']. destruct res as [output|e]; simpl;
    [|by split_and!; eauto].
  destruct (validate_batch_outputs id c' output outputs) as [[]|e] eqn:Hv; simpl;
    split_and!; eauto; [|done]. intros output' [= <-]. exists d. split; [done|].
  unfold validate_batch_outputs in Hv. apply for_each_ok in Hv. eapply Forall_impl; [exact Hv|].
  intros e [Hprod (t & Ht & Hdec & Hs)]%validate_output_ok. split; [done|]. exists t.
  split_and!; [done| |done]. by eapply declared_topics_spec.
Qed.

End batches.

(* ------------------------------------------------------------------ *)
(** ** Concrete plugins *)

Module RuntimeSample.
#[local] Existing Instance sample_externals.
#[local] Existing Instance insertion_free_order.

Definition pid : PluginId := mkId (mkUuid 5).
Definition contract (nm : string) : ContractDescriptor :=
  mkContract (mkId (mkUuid 6)) nm (mkVersion 1 0 0) None true ReqBackwardCompatible.
Definition manifest : PluginManifest :=
  mkPluginManifest _ pid "flow" PTDetection "network" "" "1.0.0" VersionRange_any
    VersionRange_any [] L1Observable Streaming true [contract "network.flow"]
    [contract "security.finding"] [] [] [] [] [] HealthSchema_default [] [] [] []
    Stateless SupportNone SupportNone.
Definition descriptor : PluginRuntimeDescriptor :=
  (static_internal manifest None None counting_world).1.
Definition registered : PluginRuntimeRegistry :=
  (register_static runtime_registry_new descriptor).2.

(** Under the default policy the third failure is final. *)
Lemma failure_threshold_witness :
  ∃ d', descriptors (fail_times 3 registered pid counting_world).1 !! pid = Some d' ∧
    plugin_state d' = PFailed.
Proof.
  destruct (failure_threshold registered pid descriptor 3 counting_world) as (d' & Hd & _ & Hs & _).
  - vm_compute. reflexivity.
  - vm_compute. discriminate.
  - lia.
  - exists d'. split; [exact Hd|]. rewrite Hs. vm_compute. reflexivity.
Defined.

(** A plugin that publishes findings and first grants itself the scope to do so. *)
Definition finding_topic : TopicName := mkTopicName "security.finding".
Definition finding : EventEnvelope :=
  (Envelope.new (Envelope.mkEventType "security.finding") (mkVersion 1 0 0) pid
    (Envelope.TraceContext_new (mkId (mkUuid 8))) counting_world).1.
Definition widen (c : PluginContext unit unit) : PluginContext unit unit :=
  mkPluginContext (pc_runtime c)
    (mkTopicScope (subscribe_topics (pc_topic_scope c))
      ({[finding_topic]} ∪ publish_topics (pc_topic_scope c)))
    (pc_storage_scope c) (pc_permission_scope c) (pc_policy_scope c)
    (pc_current_permission_scope c) (pc_trace_context c) (pc_metrics_sink c) (pc_audit_sink c)
    (pc_checkpoint c) (pc_replay c) (pc_privacy c).
#[local] Instance widening_plugin : InternalPlugin unit unit unit := {|
  plugin_manifest _ := manifest;
  capability_manifest_of _ := None;
  initialize p c := st_ret (Ok tt, p, c);
  start p c := st_ret (Ok tt, p, c);
  stop p c := st_ret (Ok tt, p, c);
  process_batch _ p c := st_ret (Ok (mkOutput [finding] [] [] []), p, widen c)
|}.

Definition context : PluginContext unit unit :=
  (PluginContext_new pid Streaming (Envelope.TraceContext_new (mkId (mkUuid 8))) counting_world).1.
Definition started : PluginRuntime unit :=
  let rt := (register_static_plugin (mkRuntime runtime_registry_new ∅) tt counting_world).1.2 in
  (start_plugin rt pid (startup_allowed pid) context counting_world).1.1.2.
Definition batch : PluginEventBatch := (PluginEventBatch_new pid 1 counting_world).1.

(** The publish scope is checked in the context the plugin has just been able to change: a
    plugin whose context lets it publish nothing returns a finding that is accepted. *)
Lemma plugin_widens_its_scope :
  publish_topics (pc_topic_scope context) = ∅ ∧
  ∃ rt' c' w', runtime_process_batch started pid context batch counting_world =
    (Ok (mkOutput [finding] [] [] []), rt', c', w') ∧ has_topic finding finding_topic.
Proof.
  split; [vm_compute; reflexivity|]. eexists _, _, _. split; [|vm_compute; reflexivity].
  vm_compute. reflexivity.
Qed.
End RuntimeSample.
