(* ===== verification/ImportContracts.v ===== *)
(** * The records of imported metadata ([contracts/src/network/mod.rs], [identity/mod.rs])

    What an import of log files produces: the provenance of a batch and the records of
    authentication, cloud, deception and network-control metadata, with their categories
    and constructors. Constructor prefixes: [Pc] provider, [Pr] risk, [Pb] confidence, [Pm]
    method, [Ps] status, [Pu] ratio, [Dp] deception protocol, [Di] interaction count, [Sc]
    controller, [Se] control-plane event, [Ss] scope, [Sr] reliability, [Ar] authentication
    result, [Am] second factor, [Aa] attempts. Field prefixes: [rc_] counts, [pv_]
    provenance, [sc_] cloud, [de_] deception, [sd_] control plane, [am_] authentication. *)

From S2P Require Import Prelude Collections RustStr RustText Effects Contracts CallerVerification.

#[local] Open Scope string_scope.
#[local] Open Scope list_scope.
#[local] Open Scope N_scope.

Abbreviation DataSourceId := (Id KDataSourceId).
Abbreviation SaasCloudMetadataId := (Id KSaasCloudMetadataId).
Abbreviation DeceptionEventId := (Id KDeceptionEventId).
Abbreviation SdnControlPlaneMetadataId := (Id KSdnControlPlaneMetadataId).
Abbreviation AuthMetadataId := (Id KAuthMetadataId).
Abbreviation EvidenceId := (Id KEvidenceId).

(* ------------------------------------------------------------------ *)
(** ** Addresses *)

(* [network/mod.rs] IpAddress *)
Record IpAddress := mkIpAddress { as_ip_addr : IpAddr }.
(* [network/mod.rs] IpAddressParseError *)
Record IpAddressParseError := mkIpAddressParseError { ipe_value : string }.
(* [network/mod.rs] Display for IpAddressParseError::fmt *)
Definition ip_error_to_string (e : IpAddressParseError) : string :=
  "invalid IP address: " ++ ipe_value e.
(* [network/mod.rs] IpAddress::parse_str *)
Definition IpAddress_parse_str (value : string) : result IpAddress IpAddressParseError :=
  match parse_ip_addr value with
  | Some address => Ok (mkIpAddress address)
  | None => Err (mkIpAddressParseError value)
  end.
(* [network/mod.rs] Display for IpAddress::fmt *)
Definition ip_address_to_string (self : IpAddress) : string := show_ip_addr (as_ip_addr self).

(* ------------------------------------------------------------------ *)
(** ** Categories *)

(* [network/mod.rs] PortableCaptureInputSourceType *)
Inductive PortableCaptureInputSourceType :=
  | ImportedHar | ImportedJsonlNetworkMetadata | ImportedDnsResolverLog | ImportedApiGatewayLog
  | ImportedWafLog | ImportedCdnEdgeLog | ImportedSdnControlPlaneLog
  | ImportedObjectStorageAuditLog | ImportedWebAccessLog | ImportedAuthSecurityLog
  | ImportedSaasCloudMetadata | ImportedDeceptionEventLog | LocalProxyMetadata.
#[export] Instance PortableCaptureInputSourceType_eq_dec :
  EqDecision PortableCaptureInputSourceType.
Proof. solve_decision. Defined.

(* [network/mod.rs] PortableProviderCategory *)
Inductive PortableProviderCategory :=
  | PcSaas | PcCloud | PcCdn | PcObjectStorage | PcTunnelProxy | PcAnonymizing | PcUnknown.
#[export] Instance PortableProviderCategory_eq_dec : EqDecision PortableProviderCategory.
Proof. solve_decision. Defined.

(* [network/mod.rs] PortableProviderRiskCategory *)
Inductive PortableProviderRiskCategory :=
  | PrLow | PrMedium | PrHigh | PrUnknown.
#[export] Instance PortableProviderRiskCategory_eq_dec : EqDecision PortableProviderRiskCategory.
Proof. solve_decision. Defined.

(* [network/mod.rs] PortableProviderConfidenceBucket *)
Inductive PortableProviderConfidenceBucket :=
  | PbHigh | PbMedium | PbLow | PbUnknown.
#[export] Instance PortableProviderConfidenceBucket_eq_dec :
  EqDecision PortableProviderConfidenceBucket.
Proof. solve_decision. Defined.

(* [network/mod.rs] PortableApiMethodCategory *)
Inductive PortableApiMethodCategory :=
  | PmRead | PmWrite | PmDelete | PmAdmin | PmAuth | PmOther | PmUnknown.
#[export] Instance PortableApiMethodCategory_eq_dec : EqDecision PortableApiMethodCategory.
Proof. solve_decision. Defined.

(* [network/mod.rs] PortableStatusBucket *)
Inductive PortableStatusBucket :=
  | PsSuccess | PsRedirect | PsAuthError | PsNotFound | PsRateLimited | PsClientError
  | PsServerError | PsUnknown.
#[export] Instance PortableStatusBucket_eq_dec : EqDecision PortableStatusBucket.
Proof. solve_decision. Defined.

(* [network/mod.rs] PortableUploadDownloadRatioBucket *)
Inductive PortableUploadDownloadRatioBucket :=
  | PuDownloadHeavy | PuBalanced | PuUploadHeavy | PuUploadBurst | PuUnknown.
#[export] Instance PortableUploadDownloadRatioBucket_eq_dec :
  EqDecision PortableUploadDownloadRatioBucket.
Proof. solve_decision. Defined.

(* [network/mod.rs] PortableDeceptionProtocolCategory *)
Inductive PortableDeceptionProtocolCategory :=
  | DpHttp | DpDns | DpSsh | DpSmb | DpRdp | DpFtp | DpTelnet | DpDatabase | DpIcs | DpOther
  | DpUnknown.
#[export] Instance PortableDeceptionProtocolCategory_eq_dec :
  EqDecision PortableDeceptionProtocolCategory.
Proof. solve_decision. Defined.

(* [network/mod.rs] PortableDecoyInteractionCountBucket *)
Inductive PortableDecoyInteractionCountBucket :=
  | DiSingle | DiLow | DiMedium | DiHigh | DiBurst | DiUnknown.
#[export] Instance PortableDecoyInteractionCountBucket_eq_dec :
  EqDecision PortableDecoyInteractionCountBucket.
Proof. solve_decision. Defined.

(* [network/mod.rs] PortableSdnControllerCategory *)
Inductive PortableSdnControllerCategory :=
  | ScOpenFlow | ScOvsdb | ScOnos | ScOpenDaylight | ScSdWan | ScCloudNetworkController
  | ScKubernetesCni | ScGenericController | ScUnknown.
#[export] Instance PortableSdnControllerCategory_eq_dec :
  EqDecision PortableSdnControllerCategory.
Proof. solve_decision. Defined.

(* [network/mod.rs] PortableSdnControlPlaneEventCategory *)
Inductive PortableSdnControlPlaneEventCategory :=
  | SeTopologyChange | SeRouteChange | SePolicyChange | SeAclChange | SeControllerHealth
  | SeFlowRuleChange | SeUnknown.
#[export] Instance PortableSdnControlPlaneEventCategory_eq_dec :
  EqDecision PortableSdnControlPlaneEventCategory.
Proof. solve_decision. Defined.

(* [network/mod.rs] PortableSdnImpactScopeBucket *)
Inductive PortableSdnImpactScopeBucket :=
  | SsSingleSegment | SsMultipleSegments | SsEdge | SsDatacenter | SsGlobal | SsUnknown.
#[export] Instance PortableSdnImpactScopeBucket_eq_dec : EqDecision PortableSdnImpactScopeBucket.
Proof. solve_decision. Defined.

(* [network/mod.rs] PortableSdnReliabilityBucket *)
Inductive PortableSdnReliabilityBucket :=
  | SrHigh | SrMedium | SrLow | SrUnknown.
#[export] Instance PortableSdnReliabilityBucket_eq_dec : EqDecision PortableSdnReliabilityBucket.
Proof. solve_decision. Defined.

(* [identity/mod.rs] PortableAuthResultCategory *)
Inductive PortableAuthResultCategory :=
  | ArSuccess | ArFailure | ArBlocked | ArChallenge | ArTimeout | ArUnknown.
#[export] Instance PortableAuthResultCategory_eq_dec : EqDecision PortableAuthResultCategory.
Proof. solve_decision. Defined.

(* [identity/mod.rs] PortableMfaResultCategory *)
Inductive PortableMfaResultCategory :=
  | AmSatisfied | AmFailed | AmDenied | AmPrompted | AmTimeout | AmNotPresent | AmUnknown.
#[export] Instance PortableMfaResultCategory_eq_dec : EqDecision PortableMfaResultCategory.
Proof. solve_decision. Defined.

(* [identity/mod.rs] PortableAuthAttemptCountBucket *)
Inductive PortableAuthAttemptCountBucket :=
  | AaOne | AaFew | AaBurst | AaMany.
#[export] Instance PortableAuthAttemptCountBucket_eq_dec :
  EqDecision PortableAuthAttemptCountBucket.
Proof. solve_decision. Defined.

(* ------------------------------------------------------------------ *)
(** ** Records *)

(* [common/quality.rs:30-34] Default for QualityScore *)
Definition default_quality : Quality.QualityScore := Quality.unknown.

(* [network/mod.rs] PortableCaptureRecordCounts *)
Record PortableCaptureRecordCounts := mkRecordCounts {
  rc_flow_records : N;
  rc_session_records : N;
  rc_dns_records : N;
  rc_tls_records : N;
  rc_http_metadata_records : N;
  rc_auth_metadata_records : N;
  rc_saas_cloud_metadata_records : N;
  rc_deception_event_records : N;
  rc_sdn_control_plane_records : N
}.

(* [network/mod.rs] PortableCaptureProvenance *)
Record PortableCaptureProvenance := mkProvenance {
  pv_provenance_id : DataSourceId;
  pv_source_type : PortableCaptureInputSourceType;
  pv_record_counts : PortableCaptureRecordCounts;
  pv_redaction_status : RedactionStatus
}.

(* [network/mod.rs] PortableCaptureProvenance::new *)
Definition Provenance_new (source_type : PortableCaptureInputSourceType)
    (record_counts : PortableCaptureRecordCounts) (redaction_status : RedactionStatus) :
    ST PortableCaptureProvenance :=
  let$ id := new_v4 in st_ret (mkProvenance id source_type record_counts redaction_status).

(* [network/mod.rs] PortableSaasCloudMetadata *)
Record PortableSaasCloudMetadata := mkSaasCloud {
  sc_saas_cloud_metadata_id : SaasCloudMetadataId;
  sc_provenance_id : DataSourceId;
  sc_provider_category : PortableProviderCategory;
  sc_service_category : option string;
  sc_provider_risk_category : PortableProviderRiskCategory;
  sc_provider_confidence : PortableProviderConfidenceBucket;
  sc_endpoint_fingerprint : option string;
  sc_api_method_category : PortableApiMethodCategory;
  sc_status_bucket : PortableStatusBucket;
  sc_upload_download_ratio_bucket : PortableUploadDownloadRatioBucket;
  sc_auth_result_category : option string;
  sc_identity_label_redacted : option string;
  sc_source_session_label : option string;
  sc_destination_category : option string;
  sc_time_bucket_start : Timestamp;
  sc_redaction_status : RedactionStatus;
  sc_evidence_refs : list EvidenceId;
  sc_quality_score : Quality.QualityScore
}.

(* [network/mod.rs] PortableSaasCloudMetadata::new *)
Definition SaasCloud_new (provider_category : PortableProviderCategory)
    (time_bucket_start : Timestamp) : ST PortableSaasCloudMetadata :=
  let$ id := new_v4 in
  let$ provenance := new_v4 in
  st_ret (mkSaasCloud id provenance provider_category None PrUnknown PbUnknown None PmUnknown
    PsUnknown PuUnknown None None None None time_bucket_start RsRedacted [] default_quality).

(* [network/mod.rs] PortableDeceptionEventMetadata *)
Record PortableDeceptionEventMetadata := mkDeceptionEvent {
  de_deception_event_id : DeceptionEventId;
  de_provenance_id : DataSourceId;
  de_decoy_sensor_ref : option string;
  de_event_category : string;
  de_source_context_category : option string;
  de_destination_service_category : option string;
  de_interaction_count_bucket : PortableDecoyInteractionCountBucket;
  de_protocol_category : PortableDeceptionProtocolCategory;
  de_time_bucket_start : Timestamp;
  de_redaction_status : RedactionStatus;
  de_evidence_refs : list EvidenceId;
  de_quality_score : Quality.QualityScore
}.

(* [network/mod.rs] PortableDeceptionEventMetadata::new *)
Definition DeceptionEvent_new (event_category : string)
    (protocol_category : PortableDeceptionProtocolCategory) (time_bucket_start : Timestamp) :
    ST PortableDeceptionEventMetadata :=
  let$ id := new_v4 in
  let$ provenance := new_v4 in
  st_ret (mkDeceptionEvent id provenance None event_category None None DiUnknown
    protocol_category time_bucket_start RsRedacted [] default_quality).

(* [network/mod.rs] PortableSdnControlPlaneMetadata *)
Record PortableSdnControlPlaneMetadata := mkSdnControl {
  sd_sdn_control_plane_metadata_id : SdnControlPlaneMetadataId;
  sd_provenance_id : DataSourceId;
  sd_controller_category : PortableSdnControllerCategory;
  sd_event_category : PortableSdnControlPlaneEventCategory;
  sd_impact_scope_bucket : PortableSdnImpactScopeBucket;
  sd_reliability_bucket : PortableSdnReliabilityBucket;
  sd_policy_action_category : option string;
  sd_route_change_category : option string;
  sd_topology_change_category : option string;
  sd_affected_asset_category : option string;
  sd_exposure_category : option string;
  sd_status_bucket : PortableStatusBucket;
  sd_count_bucket : option string;
  sd_time_bucket_start : Timestamp;
  sd_redaction_status : RedactionStatus;
  sd_missing_visibility_flags : list string;
  sd_evidence_refs : list EvidenceId;
  sd_quality_score : Quality.QualityScore
}.

(* [network/mod.rs] PortableSdnControlPlaneMetadata::new *)
Definition SdnControl_new (controller_category : PortableSdnControllerCategory)
    (event_category : PortableSdnControlPlaneEventCategory) (time_bucket_start : Timestamp) :
    ST PortableSdnControlPlaneMetadata :=
  let$ id := new_v4 in
  let$ provenance := new_v4 in
  st_ret (mkSdnControl id provenance controller_category event_category SsUnknown SrUnknown
    None None None None None PsUnknown None time_bucket_start RsRedacted
    ["metadata_only_visibility"; "no_packet_content_visibility";
     "no_live_controller_api_visibility"] [] default_quality).

(* [identity/mod.rs] PortableAuthMetadata *)
Record PortableAuthMetadata := mkAuth {
  am_auth_metadata_id : AuthMetadataId;
  am_provenance_id : DataSourceId;
  am_provider_category : string;
  am_identity_label_redacted : option string;
  am_source_session_label : option string;
  am_auth_result : PortableAuthResultCategory;
  am_mfa_result : option PortableMfaResultCategory;
  am_role_privilege_class : option string;
  am_device_client_category : option string;
  am_destination_service_category : option string;
  am_time_bucket_start : Timestamp;
  am_attempt_count_bucket : PortableAuthAttemptCountBucket;
  am_failure_reason_category : option string;
  am_redaction_status : RedactionStatus;
  am_quality_score : Quality.QualityScore
}.

(* [identity/mod.rs] PortableAuthMetadata::new *)
Definition Auth_new (provider_category : string) (auth_result : PortableAuthResultCategory)
    (time_bucket_start : Timestamp) : ST PortableAuthMetadata :=
  let$ id := new_v4 in
  let$ provenance := new_v4 in
  st_ret (mkAuth id provenance provider_category None None auth_result None None None None
    time_bucket_start AaOne None RsRedacted default_quality).
