(* ===== verification/ImportRedaction.v ===== *)
(** * Redaction of imported logs ([capabilities/src/portable_capture_lite.rs])

    The checks and rewritings by which the importer keeps private data out of its records:
    markers of secrets and of local paths, the sanitizing of URLs and paths, the shape of
    JSON records that are refused, the labels made of hashes. A URL's parser and the
    accessors of JSON paths are here too. Error prefix: [Pe].

    [Sha256] is the class of the crate [sha2]; [serde_json]'s parser is the class
    [JsonText], its numbers as [f64] the class [JsonNumber]. *)

From S2P Require Import Prelude Collections RustStr RustText Effects Contracts Checks Json.
From S2P Require Import CallerVerification MutationAuthorization PortablePreferences ImportContracts.
From Stdlib Require Import SpecFloat.

#[local] Open Scope string_scope.
#[local] Open Scope list_scope.
#[local] Open Scope N_scope.

(* [portable_capture_lite.rs] PortableCaptureLiteError *)
Inductive PortableCaptureLiteError :=
  | PeOversizedFile | PeUnsupportedSourceType | PeTooManyRecords | PeEmptyInput
  | PeMalformed (kind : string)
  | PeParse (reason : string)
  | PeContract (reason : string)
  | PeRuntime (reason : string).
(* [portable_capture_lite.rs] Display for PortableCaptureLiteError::fmt *)
Definition capture_error_to_string (e : PortableCaptureLiteError) : string :=
  match e with
  | PeOversizedFile => "portable capture import exceeds the bounded metadata size limit"
  | PeUnsupportedSourceType => "portable capture import source type is unsupported"
  | PeTooManyRecords => "portable capture import exceeds the bounded record limit"
  | PeEmptyInput => "portable capture import input must not be empty"
  | PeMalformed kind => "portable capture import " ++ kind ++ " is malformed"
  | PeParse reason => "portable capture import parse error: " ++ reason
  | PeContract reason => "portable capture import contract error: " ++ reason
  | PeRuntime reason => "portable capture import runtime error: " ++ reason
  end%string.

(* ------------------------------------------------------------------ *)
(** ** Markers *)

Definition PRIVATE_MARKERS : list string :=
  ["authorization"; "api_key"; "cookie"; "credential"; "password"; "private_key";
   "session_token"; "access_token"; "refresh_token"; "token"; "secret"; "form_content"].
Definition marker_text (value : string) : string :=
  replace_with_underscore ["-"; "."; " "; "/"; "="; ":"; "\"]%char (to_ascii_lowercase value).
(* [portable_capture_lite.rs] contains_private_marker *)
Definition contains_private_marker (value : string) : bool :=
  existsb (contains (marker_text value)) PRIVATE_MARKERS.

Definition LOCAL_PATHS : list string :=
  ["file:///"; ":\"; "\users\"; "/users/"; "/home/"; "/var/"; "%appdata%"; "%localappdata%"].
(* [portable_capture_lite.rs] contains_local_path *)
Definition contains_local_path (value : string) : bool :=
  existsb (contains (to_ascii_lowercase value)) LOCAL_PATHS.

(** A character outside ASCII is several bytes, none of them a digit. *)
(* [portable_capture_lite.rs] looks_like_hex_identifier *)
Definition looks_like_hex_identifier (value : string) : bool :=
  (12 <=? str_len value) && all_chars is_ascii_hexdigit value.
(* [portable_capture_lite.rs] looks_like_secret_token *)
Definition looks_like_secret_token (value : string) : bool :=
  let trimmed := trim_matches (one_of [double_quote; "'"; ";"; ","]%char) value in
  (24 <? str_len trimmed) &&
  any_char is_ascii_lowercase trimmed &&
  any_char is_ascii_uppercase trimmed &&
  any_char is_ascii_digit trimmed &&
  all_chars (λ c, is_ascii_alphanumeric c || one_of ["-"; "_"; "="]%char c) trimmed.

(* ------------------------------------------------------------------ *)
(** ** Hashes and labels *)

Section hashes.
Context `{Sha256}.

(** The hexadecimal text of the digest; a [limit] cuts it. *)
(* [portable_capture_lite.rs:7125-7142] stable_hash_hex *)
Definition stable_hash_hex (value : string) (limit : nat) : string :=
  take_chars limit (sha256_hex value).
(* [portable_capture_lite.rs] redact_host *)
Definition redact_host (host : string) : string * bool :=
  match parse_ip_addr host with
  | Some _ => (to_ascii_lowercase host, false)
  | None => (("host#" ++ stable_hash_hex host 12)%string, true)
  end.
(* [portable_capture_lite.rs] redact_domain *)
Definition redact_domain (value : string) : string := "domain#" ++ stable_hash_hex value 12.
(* [portable_capture_lite.rs] redact_text *)
Definition redact_text (label value : string) : string :=
  (label ++ "#" ++ stable_hash_hex value 12)%string.
(** Six bytes are twelve digits. *)
(* [portable_capture_lite.rs] redact_auth_label *)
Definition redact_auth_label (prefix value : string) : string :=
  (prefix ++ "#" ++ str_first 12 (sha256_hex ("portable-auth-label" ++ prefix ++ value)))%string.
(* [portable_capture_lite.rs] normalize_endpoint_fingerprint *)
Definition normalize_endpoint_fingerprint (value : option string) : option string :=
  value ← value;
  if starts_with value "endpoint#" || starts_with value "route#" then Some value
  else Some ("endpoint#" ++ stable_hash_hex value 12)%string.
(* [portable_capture_lite.rs] normalize_deception_ref *)
Definition normalize_deception_ref (value : option string) : option string :=
  value ← value;
  if starts_with value "sensor#" || starts_with value "decoy#" then Some value
  else Some ("sensor#" ++ stable_hash_hex value 12)%string.
End hashes.

(* ------------------------------------------------------------------ *)
(** ** URLs and paths *)

(** The first part of [value.split(c)] *)
Definition first_part (c : ascii) (value : string) : string :=
  default "" (head (split (Ascii.eqb c) value)).

Definition sanitize_segment (segment : string) : string :=
  if bool_decide (is_Some (parse_uint u64_max segment)) || looks_like_hex_identifier segment ||
     looks_like_secret_token segment
  then "{id}" else segment.
(* [portable_capture_lite.rs] sanitize_path_input *)
Definition sanitize_path_input (path_and_query : option string) : option string * bool :=
  match path_and_query with
  | None => (None, false)
  | Some path_and_query =>
      let path := first_part "#" path_and_query in
      let had_query := contains path "?" in
      let stripped := first_part "?" path in
      let private := contains_local_path stripped || contains_private_marker stripped in
      (Some (if private then "/redacted/{id}"
             else join "/" (map sanitize_segment (split (Ascii.eqb "/") stripped))),
       had_query || private)
  end.

(* [portable_capture_lite.rs] ParsedUrlParts *)
Record ParsedUrlParts := mkUrlParts {
  pu_scheme : string;
  pu_host : string;
  pu_port : option N;
  pu_path_and_query : option string;
  pu_redaction_applied : bool
}.
(* [portable_capture_lite.rs] parse_url_parts *)
Definition parse_url_parts (value : string) : result ParsedUrlParts PortableCaptureLiteError :=
  match split_once_str value "://" with
  | None => Err (PeMalformed "har")
  | Some (scheme, remainder) =>
      if eq_ignore_ascii_case scheme "file" then Err (PeMalformed "har") else
      let slash_index := default (String.length remainder) (find_str remainder "/") in
      let host_port_and_userinfo := str_first slash_index remainder in
      let path_and_query :=
        if (slash_index <? String.length remainder)%nat
        then Some (str_skip slash_index remainder) else None in
      let had_userinfo := contains host_port_and_userinfo "@" in
      let host_port :=
        match rsplit_once "@" host_port_and_userinfo with
        | Some (_, host) => host
        | None => host_port_and_userinfo
        end in
      let? '(host, port) :=
        (if starts_with host_port "[" then
           match find_str host_port "]" with
           | None => Err (PeMalformed "har")
           | Some closing =>
               Ok (str_skip 1 (str_first closing host_port),
                   port ← strip_prefix (str_skip (closing + 1) host_port) ":";
                   parse_uint u16_max port)
           end
         else match rsplit_once ":" host_port with
              | Some (host, port) =>
                  if all_chars is_ascii_digit port then Ok (host, parse_uint u16_max port)
                  else Ok (host_port, None)
              | None => Ok (host_port, None)
              end) in
      if blank host then Err (PeMalformed "har")
      else Ok (mkUrlParts (to_ascii_lowercase scheme) host port path_and_query
                 (had_userinfo || contains value "?"))
  end.

(** [normalized[1..]] is a slice after the ASCII character [v]. *)
(* [portable_capture_lite.rs] gateway_safe_path_segment *)
Definition gateway_safe_path_segment (segment : string) : string :=
  let normalized :=
    to_ascii_lowercase (trim_matches (one_of ["{"; "}"; ":"; double_quote; "'"]%char) segment) in
  if is_empty normalized then "{segment}"
  else if starts_with normalized "v" && all_chars is_ascii_digit (str_skip 1 normalized)
  then normalized
  else if bool_decide (normalized ∈ ["api"; "prod"; "stage"; "dev"; "test"; "graphql"; "rest"])
  then normalized
  else "{segment}".
(* [portable_capture_lite.rs] gateway_safe_path *)
Definition gateway_safe_path (raw : string) : option string :=
  let value := trim raw in
  if is_empty value then None else
  let value := match split_once " " value with Some (_, path) => trim path | None => value end in
  value ← (if contains value "://"
           then match parse_url_parts value with
                | Ok parts => pu_path_and_query parts
                | Err _ => None
                end
           else Some value);
  let stripped := first_part "?" (first_part "#" value) in
  if blank stripped then Some "/" else
  let segments :=
    map gateway_safe_path_segment
      (List.filter (λ segment, negb (is_empty segment))
         (split (Ascii.eqb "/") (trim_start_matches (Ascii.eqb "/") stripped))) in
  match segments with
  | [] => Some "/"
  | _ => Some ("/" ++ join "/" segments)%string
  end.

(* ------------------------------------------------------------------ *)
(** ** The shape of JSON records *)

Definition SAAS_BLOCKED_KEYS : list string :=
  ["url"; "full_url"; "query"; "query_params"; "headers"; "authorization"; "cookie";
   "set_cookie"; "token"; "access_token"; "refresh_token"; "api_key"; "username"; "email";
   "tenant"; "tenant_id"; "source_ip"; "src_ip"; "destination_ip"; "dst_ip"; "path"; "file";
   "filename"; "command"; "command_line"; "body"; "payload"; "raw"].
(** [Value] is a JSON tree. *)
(* [portable_capture_lite.rs] saas_cloud_value_has_sensitive_shape *)
Fixpoint saas_cloud_value_has_sensitive_shape (value : JsonTree) : bool :=
  match value with
  | JObject fields =>
      existsb (λ field, bool_decide (to_ascii_lowercase field.1 ∈ SAAS_BLOCKED_KEYS) ||
                        saas_cloud_value_has_sensitive_shape field.2) fields
  | JArray items => existsb saas_cloud_value_has_sensitive_shape items
  | JString value =>
      contains_private_marker value || contains_local_path value || contains value "@"
  | _ => false
  end.

Definition OBJECT_STORAGE_BLOCKED_KEYS : list string :=
  ["authorization"; "cookie"; "cookies"; "headers"; "password"; "passwd"; "secret";
   "client_secret"; "api_key"; "apikey"; "access_token"; "refresh_token"; "id_token"; "token";
   "credential"; "private_key"; "certificate"; "payload"; "body"; "raw"; "raw_event";
   "raw_message"; "requestparameters"; "request_parameters"; "responseelements";
   "response_elements"; "useridentity"; "user_identity"; "principal"; "principalid";
   "principal_id"; "userid"; "user_id"; "user"; "username"; "email"; "account"; "accountid";
   "account_id"; "tenant"; "tenant_id"; "recipientaccountid"; "recipient_account_id";
   "sourceipaddress"; "source_ip"; "src_ip"; "client_ip"; "destination_ip"; "dst_ip"; "ip";
   "host"; "hostname"; "domain"; "url"; "uri"; "full_url"; "path"; "object"; "object_key";
   "key"; "bucket"; "bucket_name"; "bucketname"; "resource"; "resource_arn"; "arn"; "filename";
   "filepath"; "file_path"; "command"; "command_line"].
(* [portable_capture_lite.rs] is_object_storage_json_key_blocked *)
Definition is_object_storage_json_key_blocked (key : string) : bool :=
  bool_decide (to_ascii_lowercase key ∈ OBJECT_STORAGE_BLOCKED_KEYS).
Definition object_storage_text_is_sensitive (value : string) : bool :=
  let lower := to_ascii_lowercase value in
  contains_private_marker value || contains_local_path value || contains value "@" ||
  bool_decide (is_Some (parse_ip_addr value)) ||
  existsb (contains lower)
    ["arn:"; "s3://"; "https://"; "http://"; "password"; "credential"; "secret"; "token";
     "private_key"; "-----begin"].
(* [portable_capture_lite.rs] object_storage_value_has_sensitive_shape *)
Fixpoint object_storage_value_has_sensitive_shape (value : JsonTree) : bool :=
  match value with
  | JObject fields =>
      existsb (λ field, is_object_storage_json_key_blocked field.1 ||
                        object_storage_value_has_sensitive_shape field.2) fields
  | JArray items => existsb object_storage_value_has_sensitive_shape items
  | JString value => object_storage_text_is_sensitive value
  | _ => false
  end.

Definition DECEPTION_ALLOWED_KEYS : list string :=
  ["timestamp"; "time"; "ts"; "decoy_sensor_ref"; "decoy_ref"; "sensor_ref"; "sensor"; "decoy";
   "event_category"; "event"; "interaction_category"; "source_context_category";
   "source_context"; "source_category"; "destination_service_category"; "destination_category";
   "service_category"; "service"; "interaction_count_bucket"; "interaction_count"; "count";
   "protocol_category"; "protocol"].
(* [portable_capture_lite.rs] is_deception_json_key_allowed *)
Definition is_deception_json_key_allowed (key : string) : bool :=
  bool_decide (key ∈ DECEPTION_ALLOWED_KEYS).
Definition deception_text_is_sensitive (value : string) : bool :=
  contains_private_marker value || contains_local_path value || contains value "@" ||
  bool_decide (is_Some (parse_ip_addr value)) ||
  existsb (contains (to_ascii_lowercase value))
    ["password"; "credential"; "malware"; "payload"; "cookie"; "token"; "secret"].
(* [portable_capture_lite.rs] deception_value_has_sensitive_shape *)
Fixpoint deception_value_has_sensitive_shape (value : JsonTree) : bool :=
  match value with
  | JObject fields =>
      existsb (λ field, negb (is_deception_json_key_allowed (to_ascii_lowercase field.1)) ||
                        deception_value_has_sensitive_shape field.2) fields
  | JArray items => existsb deception_value_has_sensitive_shape items
  | JString value => deception_text_is_sensitive value
  | _ => false
  end.

Definition SDN_BLOCKED_KEYS : list string :=
  ["authorization"; "cookie"; "cookies"; "headers"; "password"; "passwd"; "secret";
   "client_secret"; "api_key"; "apikey"; "access_token"; "refresh_token"; "id_token"; "token";
   "credential"; "private_key"; "certificate"; "payload"; "body"; "raw"; "raw_event";
   "raw_message"; "raw_topology"; "full_topology"; "topology_snapshot"; "raw_path";
   "path_detail"; "acl_text"; "acl_rule"; "rule_body"; "packet"; "payload_bytes"; "command";
   "command_line"; "tenant"; "tenant_id"; "username"; "email"; "filename"; "filepath";
   "file_path"].
(* [portable_capture_lite.rs] is_sdn_json_key_blocked *)
Definition is_sdn_json_key_blocked (key : string) : bool :=
  bool_decide (to_ascii_lowercase key ∈ SDN_BLOCKED_KEYS).
Definition sdn_text_is_sensitive (value : string) : bool :=
  contains_private_marker value || contains_local_path value || contains value "@" ||
  existsb (contains (to_ascii_lowercase value))
    ["password"; "credential"; "secret"; "token"; "private_key"; "-----begin"].
(* [portable_capture_lite.rs] sdn_value_has_sensitive_shape *)
Fixpoint sdn_value_has_sensitive_shape (value : JsonTree) : bool :=
  match value with
  | JObject fields =>
      existsb (λ field, is_sdn_json_key_blocked field.1 ||
                        sdn_value_has_sensitive_shape field.2) fields
  | JArray items => existsb sdn_value_has_sensitive_shape items
  | JString value => sdn_text_is_sensitive value
  | _ => false
  end.

Section shapes.
Context `{JsonText}.

(** The four checks parse the line and refuse a sensitive shape, with the name of the
    format. *)
Definition reject_shape (sensitive : JsonTree → bool) (format line : string) :
    result unit PortableCaptureLiteError :=
  match json_parse line with
  | Err _ => Err (PeMalformed format)
  | Ok value => if sensitive value then Err (PeMalformed format) else Ok tt
  end.
(* [portable_capture_lite.rs] reject_saas_cloud_sensitive_json *)
Definition reject_saas_cloud_sensitive_json : string → result unit PortableCaptureLiteError :=
  reject_shape saas_cloud_value_has_sensitive_shape "saas_cloud_metadata".
(* [portable_capture_lite.rs] reject_object_storage_sensitive_json *)
Definition reject_object_storage_sensitive_json : string → result unit PortableCaptureLiteError :=
  reject_shape object_storage_value_has_sensitive_shape "object_storage_audit_log".
(* [portable_capture_lite.rs] reject_deception_sensitive_json *)
Definition reject_deception_sensitive_json : string → result unit PortableCaptureLiteError :=
  reject_shape deception_value_has_sensitive_shape "deception_event_log".
(* [portable_capture_lite.rs] reject_sdn_sensitive_json *)
Definition reject_sdn_sensitive_json : string → result unit PortableCaptureLiteError :=
  reject_shape sdn_value_has_sensitive_shape "sdn_control_plane_log".
End shapes.

(* ------------------------------------------------------------------ *)
(** ** Fields of JSON records *)

(** [current.get(index)] and [current.get(segment)] *)
Definition json_get (value : JsonTree) (segment : string) : option JsonTree :=
  match parse_uint u64_max segment with
  | Some index => match value with JArray items => items !! N.to_nat index | _ => None end
  | None => json_field value segment
  end.
(* [portable_capture_lite.rs] json_at_path *)
Fixpoint json_at_path (value : JsonTree) (path : list string) : option JsonTree :=
  match path with
  | [] => Some value
  | segment :: path => current ← json_get value segment; json_at_path current path
  end.
(** [paths.iter().find_map(f)] *)
Fixpoint find_map {A B : Type} (f : A → option B) (l : list A) : option B :=
  match l with
  | [] => None
  | x :: l => match f x with Some y => Some y | None => find_map f l end
  end.
(* [portable_capture_lite.rs] json_string_any *)
Definition json_string_any (value : JsonTree) (paths : list (list string)) : option string :=
  find_map (λ path, value ← json_at_path value path; json_text value) paths.
(** [Value::as_u64]: the text of a number that is a [u64] is its digits. *)
Definition json_u64 (value : JsonTree) : option N :=
  match value with JNumber text => parse_uint u64_max text | _ => None end.
(* [portable_capture_lite.rs] json_u64_any *)
Definition json_u64_any (value : JsonTree) (paths : list (list string)) : option N :=
  find_map (λ path,
    value ← json_at_path value path;
    match json_u64 value with
    | Some n => Some n
    | None => raw ← json_text value; parse_uint u64_max raw
    end) paths.
(* [portable_capture_lite.rs] json_u16_any *)
Definition json_u16_any (value : JsonTree) (paths : list (list string)) : option N :=
  n ← json_u64_any value paths; if n <=? u16_max then Some n else None.
(* [portable_capture_lite.rs] json_f64_any *)
Definition json_f64_any `{JsonNumber} (value : JsonTree) (paths : list (list string)) :
    option spec_float :=
  find_map (λ path,
    value ← json_at_path value path;
    match value with
    | JNumber text => number_as_f64 text
    | JString raw => parse_f64 raw
    | _ => None
    end) paths.
(* [portable_capture_lite.rs] json_bool_any *)
Definition json_bool_any (value : JsonTree) (paths : list (list string)) : option bool :=
  find_map (λ path,
    value ← json_at_path value path;
    match value with
    | JBool b => Some b
    | JString raw =>
        let text := to_ascii_lowercase (trim raw) in
        if bool_decide (text ∈ ["true"; "yes"; "1"]) then Some true
        else if bool_decide (text ∈ ["false"; "no"; "0"]) then Some false
        else None
    | _ => None
    end) paths.
