(* ===== verification/ImportRedactionFacts.v ===== *)
(** * Properties of the redaction of imported logs *)

From S2P Require Import Prelude Collections RustStr RustText Effects Contracts Checks Json.
From S2P Require Import CallerVerification MutationAuthorization PortablePreferences.
From S2P Require Import ImportContracts ImportRedaction.

#[local] Open Scope string_scope.
#[local] Open Scope list_scope.
#[local] Open Scope N_scope.

(* ------------------------------------------------------------------ *)
(** ** Occurrences of a pattern that avoids a separator *)

Definition avoids (p : ascii → bool) (s : string) : bool := all_chars (λ c, negb (p c)) s.

Lemma prefix_sep p pat a c b :
  avoids p pat = true → p c = true →
  String.prefix pat (a ++ String c b)%string = String.prefix pat a.
Proof.
  revert a. induction pat as [|d pat IH]; intros a Hpat Hc; [by destruct a|].
  apply andb_true_iff in Hpat as [Hd%negb_true_iff Hpat].
  destruct a as [|e a].
  - change (("" ++ String c b)%string) with (String c b). cbn [String.prefix].
    destruct (ascii_dec d c) as [->|]; [congruence|done].
  - rewrite str_app_cons. cbn [String.prefix]. destruct (ascii_dec d e); [by apply IH|done].
Qed.

(** A pattern without the separator is on one side of it. *)
Lemma contains_sep p pat a c b :
  avoids p pat = true → p c = true →
  contains (a ++ String c b)%string pat = contains a pat || contains b pat.
Proof.
  intros Hpat Hc. induction a as [|d a IH].
  - change (("" ++ String c b)%string) with (String c b). cbn [contains].
    pose proof (prefix_sep p pat "" c b Hpat Hc) as Hp.
    change (("" ++ String c b)%string) with (String c b) in Hp. by rewrite Hp, orb_false_r.
  - rewrite str_app_cons. cbn [contains]. rewrite IH, <- str_app_cons, (prefix_sep p) by done.
    by rewrite orb_assoc.
Qed.

Lemma string_app_assoc_rev (a b c : string) : (a ++ (b ++ c) = (a ++ b) ++ c)%string.
Proof. induction a as [|x a IH]; [done|]. by rewrite !str_app_cons, IH. Qed.

Lemma contains_app_l a b pat : contains a pat = true → contains (a ++ b)%string pat = true.
Proof. rewrite !contains_spec. intros (x & y & ->). exists x, (y ++ b)%string. by rewrite !string_app_assoc_rev. Qed.
Lemma contains_app_r a b pat : contains b pat = true → contains (a ++ b)%string pat = true.
Proof. rewrite !contains_spec. intros (x & y & ->). exists (a ++ x)%string, y. by rewrite !string_app_assoc_rev. Qed.

Lemma map_chars_app f a b : map_chars f (a ++ b)%string = (map_chars f a ++ map_chars f b)%string.
Proof. induction a as [|c a IH]; [done|]. rewrite !str_app_cons. cbn [map_chars]. by rewrite IH. Qed.

(** The joined parts of a list, as a right fold. *)
Lemma join_cons sep a b l : join sep (a :: b :: l) = (a ++ sep ++ join sep (b :: l))%string.
Proof. done. Qed.

Lemma map_chars_join f sep l : map_chars f (join sep l) = join (map_chars f sep) (map (map_chars f) l).
Proof.
  induction l as [|a [|b l] IH]; [done..|].
  cbn [map] in *. rewrite !join_cons, !map_chars_app. by rewrite IH.
Qed.

Lemma all_chars_join p sep l :
  all_chars p sep = true → Forall (λ s, all_chars p s = true) l → all_chars p (join sep l) = true.
Proof.
  intros Hsep. induction 1 as [|a [|b l] Ha Hl IH]; [done..|].
  by rewrite join_cons, !all_chars_app, Ha, Hsep, IH.
Qed.

(** Splitting at a separator what was joined with it. *)
Lemma split_joined p c l :
  p c = true → l ≠ [] → Forall (λ s, avoids p s = true) l → split p (join (String c "") l) = l.
Proof.
  intros Hc. induction l as [|a [|b l] IH]; intros Hne Hl; [done|..].
  - apply Forall_cons in Hl as [Ha _]. by apply split_no_sep.
  - apply Forall_cons in Hl as [Ha Hl].
    rewrite join_cons, str_app_char. rewrite split_app by done. f_equal. by apply IH.
Qed.

(* ------------------------------------------------------------------ *)
(** ** Replacing parts by a placeholder *)

Definition is_brace : ascii → bool := one_of ["{"; "}"]%char.
(** A pattern that no placeholder can be part of. *)
Definition unplaced (pat : string) : bool := avoids is_brace pat && negb (contains "id" pat).

Lemma unplaced_replace pat pre seg post :
  unplaced pat = true → contains (pre ++ "{id}" ++ post)%string pat = true →
  contains (pre ++ seg ++ post)%string pat = true.
Proof.
  intros [Hpat Hid%negb_true_iff]%andb_true_iff.
  change (("{id}" ++ post)%string) with (String "{" ("id" ++ String "}" post)).
  rewrite (contains_sep is_brace), (contains_sep is_brace), Hid by done.
  cbn [orb]. rewrite orb_true_iff. intros [Hc|Hc].
  - by apply contains_app_l.
  - by apply contains_app_r, contains_app_r.
Qed.

(** [b] is [a] or the placeholder. *)
Definition kept_or_placed (a b : string) : Prop := b = a ∨ b = "{id}".

Lemma unplaced_join pat sep l l' pre :
  unplaced pat = true → Forall2 kept_or_placed l l' →
  contains (pre ++ join sep l')%string pat = true → contains (pre ++ join sep l)%string pat = true.
Proof.
  intros Hpat Hl. revert pre.
  induction Hl as [|a b l l' Hab Hl IH]; intros pre; [done|].
  destruct Hl as [|a2 b2 l l' Hab2 Hl].
  - destruct Hab as [->| ->]; [done|]. cbn [join String.concat].
    rewrite <- (string_app_nil_r "{id}"), <- (string_app_nil_r a). by apply unplaced_replace.
  - rewrite !join_cons. intros Hc.
    assert (contains (pre ++ a ++ sep ++ join sep (b2 :: l'))%string pat = true) as Hc'.
    { destruct Hab as [->| ->]; [done|]. by apply unplaced_replace. }
    rewrite !string_app_assoc_rev in Hc' |- *. by apply IH.
Qed.

(** A test on the characters of a text that maps the placeholder to itself finds nothing
    new where parts were replaced by placeholders. *)
Lemma placed_search f pats sep l l' :
  map_chars f "{id}" = "{id}" → forallb unplaced pats = true → Forall2 kept_or_placed l l' →
  existsb (contains (map_chars f (join sep l))) pats = false →
  existsb (contains (map_chars f (join sep l'))) pats = false.
Proof.
  intros Hf Hpats Hl. rewrite <- !not_true_iff_false. intros Hno (pat & Hin & Hc)%existsb_exists.
  apply Hno, existsb_exists. exists pat. split; [done|].
  rewrite forallb_forall in Hpats. specialize (Hpats _ Hin).
  rewrite map_chars_join in Hc |- *.
  refine (unplaced_join pat _ _ (map (map_chars f) l') "" Hpats _ Hc).
  clear -Hl Hf. induction Hl as [|a b l l' Hab Hl IH]; simpl; constructor; [|done].
  destruct Hab as [->| ->]; [by left|by right].
Qed.

(* ------------------------------------------------------------------ *)
(** ** Paths *)

Lemma first_part_avoids c s : avoids (Ascii.eqb c) (first_part c s) = true.
Proof.
  unfold first_part. pose proof (split_parts (Ascii.eqb c) s) as Hp.
  destruct (split _ s) as [|part parts]; [done|]. by apply Forall_cons in Hp as [Hp _].
Qed.

Lemma first_part_alphabet p c s : all_chars p s = true → all_chars p (first_part c s) = true.
Proof.
  unfold first_part. induction s as [|d s IH]; [done|]. intros [Hd Hs]%andb_true_iff.
  cbn [split]. destruct (split _ s) as [|part parts]; [done|].
  destruct (Ascii.eqb c d); [done|]. simpl in *. by rewrite Hd, IH.
Qed.

Lemma first_part_id c s : avoids (Ascii.eqb c) s = true → first_part c s = s.
Proof. intros Hs. unfold first_part. by rewrite split_no_sep. Qed.

Lemma split_alphabet p q s :
  all_chars p s = true → Forall (λ part, all_chars p part = true) (split q s).
Proof.
  induction s as [|d s IH]; [by repeat constructor|]. intros [Hd Hs]%andb_true_iff.
  cbn [split]. specialize (IH Hs). destruct (split q s) as [|part parts]; [done|].
  apply Forall_cons in IH as [Hp Hps].
  destruct (q d); repeat (constructor; try done). simpl. by rewrite Hd, Hp.
Qed.

Lemma avoids_contains c s : avoids (Ascii.eqb c) s = true → contains s (String c "") = false.
Proof.
  intros Hs. apply not_true_iff_false. intros Hc%(contains_alphabet _ _ _ Hs).
  cbn [all_chars] in Hc. by rewrite Ascii.eqb_refl in Hc.
Qed.

Definition private_path (path : string) : bool :=
  contains_local_path path || contains_private_marker path.
(** What a segment of a sanitized path is not: a number, a hexadecimal identifier, a token. *)
Definition anonymous (segment : string) : Prop :=
  parse_uint u64_max segment = None ∧ looks_like_hex_identifier segment = false ∧
  looks_like_secret_token segment = false.
#[export] Instance anonymous_dec segment : Decision (anonymous segment).
Proof. unfold anonymous. apply _. Defined.

Lemma sanitize_segment_spec segment :
  kept_or_placed segment (sanitize_segment segment) ∧ anonymous (sanitize_segment segment).
Proof.
  unfold sanitize_segment.
  destruct (_ || looks_like_secret_token segment) eqn:Hs.
  - split; [by right|]. by apply (bool_decide_unpack (anonymous "{id}")).
  - apply orb_false_iff in Hs as [Hs Ht]. apply orb_false_iff in Hs as [Hn Hh].
    split; [by left|]. split_and!; [|done..].
    apply bool_decide_eq_false in Hn. by apply eq_None_not_Some.
Qed.

Lemma sanitize_segment_id segment : anonymous segment → sanitize_segment segment = segment.
Proof. unfold sanitize_segment. intros (-> & -> & ->). done. Qed.

Lemma placed_segments l : Forall2 kept_or_placed l (map sanitize_segment l).
Proof. induction l as [|s l IH]; simpl; constructor; [|done]. apply sanitize_segment_spec. Qed.

Lemma map_chars_compose f g s : map_chars g (map_chars f s) = map_chars (λ c, g (f c)) s.
Proof. induction s as [|c s IH]; [done|]. cbn [map_chars]. by rewrite IH. Qed.

(** A path without private text has none after its segments were sanitized. *)
Lemma sanitize_segments_private l :
  private_path (join "/" l) = false →
  private_path (join "/" (map sanitize_segment l)) = false.
Proof.
  unfold private_path, contains_local_path, contains_private_marker, marker_text.
  unfold replace_with_underscore, to_ascii_lowercase. rewrite !orb_false_iff, !map_chars_compose.
  intros [Hpath Hmarker]. split; [revert Hpath|revert Hmarker]; by apply placed_search, placed_segments.
Qed.

(** What is left of a path. *)
Definition sanitized (path : string) : Prop :=
  avoids (Ascii.eqb "?") path = true ∧ avoids (Ascii.eqb "#") path = true ∧
  private_path path = false ∧ Forall anonymous (split (Ascii.eqb "/") path).

Lemma sanitize_avoids c l :
  negb (Ascii.eqb c "/") && avoids (Ascii.eqb c) "{id}" = true →
  Forall (λ s, avoids (Ascii.eqb c) s = true) l →
  avoids (Ascii.eqb c) (join "/" (map sanitize_segment l)) = true.
Proof.
  intros [Hc Hid]%andb_true_iff Hl. apply all_chars_join; [by cbn; rewrite Hc|].
  apply Forall_map. eapply Forall_impl; [exact Hl|]. intros s Hs.
  destruct (sanitize_segment_spec s) as [[->| ->] _]; done.
Qed.

Lemma split_sanitized l :
  l ≠ [] → Forall (λ s, avoids (Ascii.eqb "/") s = true) l →
  split (Ascii.eqb "/") (join "/" (map sanitize_segment l)) = map sanitize_segment l.
Proof.
  intros Hne Hl. apply split_joined; [done| |].
  - by destruct l.
  - apply Forall_map. eapply Forall_impl; [exact Hl|]. intros s Hs.
    destruct (sanitize_segment_spec s) as [[->| ->] _]; done.
Qed.

Lemma join_split c s : join (String c "") (split (Ascii.eqb c) s) = s.
Proof.
  induction s as [|d s IH]; [done|]. cbn [split].
  destruct (split (Ascii.eqb c) s) as [|part parts] eqn:Hs; [by apply split_nonempty in Hs|].
  destruct (Ascii.eqb c d) eqn:Hc.
  - apply Ascii.eqb_eq in Hc as <-. rewrite join_cons, IH. done.
  - rewrite <- IH. by destruct parts.
Qed.

Lemma sanitize_join_id path :
  Forall anonymous (split (Ascii.eqb "/") path) →
  join "/" (map sanitize_segment (split (Ascii.eqb "/") path)) = path.
Proof.
  intros Hs. rewrite <- (join_split "/" path) at 2. f_equal.
  induction Hs as [|s l Hs Hl IH]; [done|]. cbn [map]. by rewrite IH, sanitize_segment_id.
Qed.

(** C14. Whatever the path of an imported request is, the path that is kept has no query and
    no fragment, no local path and no marker of a secret, and no segment that is a number,
    a hexadecimal identifier or a token; sanitizing it again changes nothing. *)
Theorem sanitized_path_safe raw :
  ∃ path, (sanitize_path_input (Some raw)).1 = Some path ∧ sanitized path ∧
    sanitize_path_input (Some path) = (Some path, false).
Proof.
  assert (∃ path, (sanitize_path_input (Some raw)).1 = Some path ∧ sanitized path)
    as (path & Hpath & Hs).
  { cbn [sanitize_path_input fst]. eexists; split; [done|].
    set (stripped := first_part "?" (first_part "#" raw)).
    fold (private_path stripped). destruct (private_path stripped) eqn:Hp.
    { unfold sanitized. split_and!; [done..|].
      apply (bool_decide_unpack (Forall anonymous ["" ; "redacted"; "{id}"])). by vm_compute. }
    assert (Hfrag : avoids (Ascii.eqb "#") stripped = true)
      by apply first_part_alphabet, first_part_avoids.
    assert (Hquery : avoids (Ascii.eqb "?") stripped = true) by apply first_part_avoids.
    unfold sanitized. split_and!.
    - apply sanitize_avoids; [done|]. by apply split_alphabet.
    - apply sanitize_avoids; [done|]. by apply split_alphabet.
    - apply sanitize_segments_private. by rewrite join_split.
    - rewrite split_sanitized by (apply split_nonempty || apply split_parts).
      apply Forall_map, Forall_true. intros s. apply sanitize_segment_spec. }
  exists path. split; [done|]. split; [done|]. destruct Hs as (Hq & Hf & Hp & Hs).
  cbn [sanitize_path_input]. rewrite (first_part_id "#"), (first_part_id "?") by done.
  fold (private_path path). rewrite Hp, sanitize_join_id by done.
  by rewrite (avoids_contains "?").
Qed.

(* ------------------------------------------------------------------ *)
(** ** JSON records *)

(** The values inside a value, at any depth. *)
Inductive within : JsonTree → JsonTree → Prop :=
  | within_here v : within v v
  | within_array x v items : x ∈ items → within v x → within v (JArray items)
  | within_object key x v fields : (key, x) ∈ fields → within v x → within v (JObject fields).

(** Every key and every text inside a value is accepted. *)
Definition clean (key_ok text_ok : string → bool) (value : JsonTree) : Prop :=
  ∀ v, within v value →
    match v with
    | JObject fields => ∀ key x, (key, x) ∈ fields → key_ok key = true
    | JString text => text_ok text = true
    | _ => True
    end.

Section clean.
Context (key_ok text_ok : string → bool) (sensitive : JsonTree → bool).
Hypothesis sensitive_object : ∀ fields, sensitive (JObject fields) =
  existsb (λ field, negb (key_ok field.1) || sensitive field.2) fields.
Hypothesis sensitive_array : ∀ items, sensitive (JArray items) = existsb sensitive items.
Hypothesis sensitive_text : ∀ text, sensitive (JString text) = negb (text_ok text).
Hypothesis sensitive_null : sensitive JNull = false.
Hypothesis sensitive_bool : ∀ b, sensitive (JBool b) = false.
Hypothesis sensitive_number : ∀ text, sensitive (JNumber text) = false.

Lemma existsb_false {A} (f : A → bool) l : existsb f l = false ↔ ∀ x, x ∈ l → f x = false.
Proof.
  rewrite <- not_true_iff_false, existsb_exists. split.
  - intros Hno x Hx. apply not_true_iff_false. intros Hf. apply Hno. exists x.
    by rewrite <- list_elem_of_In.
  - intros Hall (x & Hx%list_elem_of_In & Hf). by rewrite Hall in Hf.
Qed.

Lemma sensitive_clean value : sensitive value = false ↔ clean key_ok text_ok value.
Proof.
  unfold clean. induction value as [| | |text|items IH|fields IH] using json_induction.
  1-3: rewrite ?sensitive_null, ?sensitive_bool, ?sensitive_number;
    split; [|done]; intros _ v Hv; inversion Hv; subst; done.
  - rewrite sensitive_text, negb_false_iff. split.
    + intros Ht v Hv. inversion Hv; by subst.
    + intros Hall. apply (Hall _ (within_here _)).
  - rewrite sensitive_array, existsb_false. rewrite Forall_forall in IH. split.
    + intros Hall v Hv. inversion Hv as [|x v' items' Hx Hin|]; subst; [done|].
      clear Hv. revert v Hin. apply IH; auto.
    + intros Hall x Hx. apply IH; [done|]. intros v Hv. apply Hall. by eapply within_array.
  - rewrite sensitive_object, existsb_false. rewrite Forall_forall in IH. split.
    + intros Hall v Hv. inversion Hv as [| |key x v' fields' Hx Hin]; subst.
      * intros key x Hx. specialize (Hall _ Hx). simpl in Hall.
        by apply orb_false_iff in Hall as [?%negb_false_iff _].
      * specialize (Hall _ Hx). apply orb_false_iff in Hall as [_ Hs].
        clear Hv. revert v Hin. by apply (IH (key, x)).
    + intros Hall [key x] Hx. apply orb_false_iff. split.
      * simpl. by rewrite (Hall _ (within_here _) key x Hx).
      * apply (IH (key, x)); [done|]. intros v Hv. apply Hall. by eapply within_object.
Qed.
End clean.

Definition unmarked (text : string) : bool :=
  negb (contains_private_marker text || contains_local_path text || contains text "@").

Definition saas_clean : JsonTree → Prop :=
  clean (λ key, negb (bool_decide (to_ascii_lowercase key ∈ SAAS_BLOCKED_KEYS))) unmarked.
Definition object_storage_clean : JsonTree → Prop :=
  clean (λ key, negb (is_object_storage_json_key_blocked key))
        (λ text, negb (object_storage_text_is_sensitive text)).
Definition deception_clean : JsonTree → Prop :=
  clean (λ key, is_deception_json_key_allowed (to_ascii_lowercase key))
        (λ text, negb (deception_text_is_sensitive text)).
Definition sdn_clean : JsonTree → Prop :=
  clean (λ key, negb (is_sdn_json_key_blocked key)) (λ text, negb (sdn_text_is_sensitive text)).

Lemma existsb_ext {A} (f g : A → bool) l : (∀ x, f x = g x) → existsb f l = existsb g l.
Proof. intros Hfg. induction l as [|x l IH]; [done|]. simpl. by rewrite Hfg, IH. Qed.

Ltac shape_clean :=
  intros value; apply sensitive_clean; try done; intros; simpl; unfold unmarked; rewrite ?negb_involutive;
  try done; apply existsb_ext; intros; by rewrite negb_involutive.

Lemma saas_shape value : saas_cloud_value_has_sensitive_shape value = false ↔ saas_clean value.
Proof. revert value. shape_clean. Qed.
Lemma object_storage_shape value :
  object_storage_value_has_sensitive_shape value = false ↔ object_storage_clean value.
Proof. revert value. shape_clean. Qed.
Lemma deception_shape value : deception_value_has_sensitive_shape value = false ↔ deception_clean value.
Proof. revert value. shape_clean. Qed.
Lemma sdn_shape value : sdn_value_has_sensitive_shape value = false ↔ sdn_clean value.
Proof. revert value. shape_clean. Qed.

Section shapes.
Context `{JsonText}.

Lemma reject_shape_ok sensitive P format line :
  (∀ value, sensitive value = false ↔ P value) →
  reject_shape sensitive format line = Ok tt ↔ ∃ value, json_parse line = Ok value ∧ P value.
Proof.
  intros HP. unfold reject_shape. destruct (json_parse line) as [value|e]; [|naive_solver].
  destruct (sensitive value) eqn:Hs; split; intros Hv; try done.
  - destruct Hv as (v & [= <-] & Hv). apply HP in Hv. congruence.
  - exists value. by rewrite <- HP.
Qed.

(** C15. A line of a cloud, object-storage, deception or network-control log is accepted
    exactly when it is JSON without a blocked key, a marker of a secret, a local path or an
    address at any depth. *)
Theorem accepted_json_clean line :
  (reject_saas_cloud_sensitive_json line = Ok tt ↔
     ∃ value, json_parse line = Ok value ∧ saas_clean value) ∧
  (reject_object_storage_sensitive_json line = Ok tt ↔
     ∃ value, json_parse line = Ok value ∧ object_storage_clean value) ∧
  (reject_deception_sensitive_json line = Ok tt ↔
     ∃ value, json_parse line = Ok value ∧ deception_clean value) ∧
  (reject_sdn_sensitive_json line = Ok tt ↔
     ∃ value, json_parse line = Ok value ∧ sdn_clean value).
Proof.
  split_and!; apply reject_shape_ok.
  - apply saas_shape.
  - apply object_storage_shape.
  - apply deception_shape.
  - apply sdn_shape.
Qed.
End shapes.

(* ------------------------------------------------------------------ *)
(** ** Gateway paths *)

(** The words a gateway's path may keep. *)
Definition gateway_word (segment : string) : Prop :=
  segment ∈ ["{segment}"; "api"; "prod"; "stage"; "dev"; "test"; "graphql"; "rest"] ∨
  ∃ version, segment = String "v" version ∧ all_chars is_ascii_digit version = true.

Lemma gateway_segment_word segment : gateway_word (gateway_safe_path_segment segment).
Proof.
  unfold gateway_safe_path_segment.
  set (n := to_ascii_lowercase _). clearbody n.
  destruct (is_empty n); [left; set_solver|].
  destruct (starts_with n "v" && _) eqn:Hv.
  - right. apply andb_true_iff in Hv as [Hv Hd]. apply prefix_spec in Hv as [version ->].
    exists version. done.
  - case_bool_decide as Hw; left; [|set_solver]. apply elem_of_cons. by right.
Qed.

(** The path that is kept of a request to a gateway is made of a fixed vocabulary and of
    version numbers, whatever the log says. *)
Theorem gateway_path_vocabulary raw :
  match gateway_safe_path raw with
  | Some path => ∃ segments, path = ("/" ++ join "/" segments)%string ∧ Forall gateway_word segments
  | None => True
  end.
Proof.
  unfold gateway_safe_path. destruct (is_empty (trim raw)); [done|].
  set (v := match split_once _ _ with Some _ => _ | None => _ end). clearbody v.
  destruct (if contains v "://" then _ else _) as [value|]; simpl; [|done].
  destruct (blank _); [by exists []|].
  set (words := map gateway_safe_path_segment _).
  assert (Forall gateway_word words) as Hw.
  { apply Forall_map, Forall_true. apply gateway_segment_word. }
  destruct words as [|w words]; [by exists []|]. by exists (w :: words).
Qed.
