(* ===== verification/ImportCategories.v ===== *)
(** * Categories of imported logs ([capabilities/src/portable_capture_lite.rs])

    The tables that turn the texts of a log into the categories that are kept: a lower-case
    copy of the text is searched for words, the first that occurs decides. [f32] and [f64]
    are the Standard Library's [spec_float]. *)

From S2P Require Import Prelude Collections RustStr RustText Effects Contracts Checks.
From S2P Require Import CallerVerification ImportContracts.
From Stdlib Require Import SpecFloat.

#[local] Open Scope string_scope.
#[local] Open Scope list_scope.
#[local] Open Scope N_scope.

(* ------------------------------------------------------------------ *)
(** ** Floats *)

Abbreviation f32 := Quality.f32.
(** [f64]: binary64. *)
Definition f64 : Type := spec_float.
(** The literal [n / d]: the nearest [f32] of the quotient of two exact integers. *)
Definition f32_lit (n d : Z) : f32 :=
  SFdiv 24 128 (binary_normalize 24 128 n 0 false) (binary_normalize 24 128 d 0 false).
Definition f32_of_u64 (n : N) : f32 := binary_normalize 24 128 (Z.of_N n) 0 false.
Definition f32_div : f32 → f32 → f32 := SFdiv 24 128.
Definition f32_sub : f32 → f32 → f32 := SFsub 24 128.
Definition f32_ge (a b : f32) : bool := SFleb b a.
(** [value as f32] of an [f64]: rounded again. *)
Definition f32_of_f64 (value : f64) : f32 :=
  match value with
  | S754_finite s m e => binary_normalize 24 128 (SpecFloat.cond_Zopp s (Zpos m)) e s
  | special => special
  end.
(** [value.clamp(low, high)] and [value.max(low)] *)
Definition f32_clamp (value low high : f32) : f32 :=
  let value := if SFltb value low then low else value in
  if SFltb high value then high else value.
Definition f32_max (value low : f32) : f32 := if SFltb value low then low else value.
(** [if cond { score -= by; }] *)
Definition minus_if (cond : bool) (by_ score : f32) : f32 :=
  if cond then f32_sub score by_ else score.

(* ------------------------------------------------------------------ *)
(** ** Texts *)

(** [value.contains(a) || value.contains(b) || ...] *)
Definition has (value : string) (words : list string) : bool := existsb (contains value) words.
(** [raw.unwrap_or_default().to_ascii_lowercase()] *)
Definition lower_or_empty (raw : option string) : string := to_ascii_lowercase (default "" raw).
(** [status.is_some_and(|s| (low..high).contains(&s))] and [|s| s >= low] *)
Definition status_in (low high : N) (status : option N) : bool :=
  match status with Some s => (low <=? s) && (s <? high) | None => false end.
Definition status_from (low : N) (status : option N) : bool :=
  match status with Some s => low <=? s | None => false end.

(* [portable_capture_lite.rs] safe_category_string *)
Definition safe_category_string (value : string) : string :=
  let sanitized :=
    to_ascii_lowercase (str_first 64
      (filter_chars (λ c, is_ascii_alphanumeric c || one_of ["_"; "-"; "."]%char c)
         (trim value))) in
  if is_empty sanitized then "unknown" else sanitized.
Definition is_label_char (c : ascii) : bool :=
  is_ascii_alphanumeric c || one_of ["_"; "-"]%char c.
Definition is_underscore (c : ascii) : bool := Ascii.eqb c "_".
(* [portable_capture_lite.rs] normalize_saas_safe_category *)
Definition normalize_saas_safe_category (value : option string) : option string :=
  value ← value;
  let normalized := replace_chars is_label_char "_" (to_ascii_lowercase value) in
  if is_empty (trim_matches is_underscore normalized) then None else Some normalized.
(* [portable_capture_lite.rs] normalize_deception_safe_category *)
Definition normalize_deception_safe_category (raw : option string) (fallback : string) : string :=
  let normalized :=
    trim_matches is_underscore
      (replace_chars is_label_char "_" (to_ascii_lowercase (default fallback raw))) in
  if is_empty normalized then fallback
  else if has normalized ["scan"; "probe"] then "probe"
  else if has normalized ["login"; "auth"] then "auth_interaction"
  else if has normalized ["connect"; "session"] then "connection"
  else if has normalized ["exploit"; "attack"] then "exploit_attempt"
  else normalized.
(* [portable_capture_lite.rs] normalize_deception_optional_category *)
Definition normalize_deception_optional_category (value : option string) : option string :=
  value ← value;
  let category := normalize_deception_safe_category (Some value) "unknown" in
  if bool_decide (category = "unknown") then None else Some category.

(** A count by its size. *)
(* [portable_capture_lite.rs:2356-2368] sdn_count_bucket *)
Definition count_bucket (count : option N) : option string :=
  count ← count;
  Some (if count =? 0 then "unknown"
        else if count =? 1 then "single"
        else if count <=? 10 then "low"
        else if count <=? 50 then "medium"
        else if count <=? 250 then "high"
        else "burst").

(* ------------------------------------------------------------------ *)
(** ** Tables *)

(* [portable_capture_lite.rs] normalize_sdn_controller_category *)
Definition normalize_sdn_controller_category (raw : option string) :
    PortableSdnControllerCategory :=
  let value := lower_or_empty raw in
  if has value ["onos"] then ScOnos
  else if has value ["opendaylight"] || bool_decide (value = "odl") || has value ["odl_"]
  then ScOpenDaylight
  else if has value ["openflow"] || bool_decide (value = "of") || has value ["ofproto"]
  then ScOpenFlow
  else if has value ["ovsdb"; "openvswitch"; "ovs"] then ScOvsdb
  else if has value ["sdwan"; "sd-wan"] then ScSdWan
  else if has value ["cni"; "calico"; "cilium"; "kubernetes"; "k8s"] then ScKubernetesCni
  else if has value ["cloud"; "vpc"; "vnet"; "transit"] then ScCloudNetworkController
  else if has value ["sdn"; "controller"] then ScGenericController
  else ScUnknown.

(* [portable_capture_lite.rs] normalize_sdn_event_category *)
Definition normalize_sdn_event_category (raw : option string) :
    PortableSdnControlPlaneEventCategory :=
  let value := lower_or_empty raw in
  if has value ["acl"; "access_list"; "access-list"] then SeAclChange
  else if has value ["policy"; "intent"; "security_rule"; "rule_change"] then SePolicyChange
  else if has value ["route"; "path"; "bgp"; "next_hop"] then SeRouteChange
  else if has value ["topology"; "link"; "node"; "port_status"] then SeTopologyChange
  else if has value ["health"; "heartbeat"; "leader"; "controller_status"]
  then SeControllerHealth
  else if has value ["flow"; "flow_mod"; "flow_rule"; "ofp"] then SeFlowRuleChange
  else SeUnknown.

(* [portable_capture_lite.rs] normalize_sdn_scope *)
Definition normalize_sdn_scope (raw : option string) : PortableSdnImpactScopeBucket :=
  let value := lower_or_empty raw in
  if has value ["global"; "fabric"] then SsGlobal
  else if has value ["datacenter"; "data_center"] || bool_decide (value = "dc") then SsDatacenter
  else if has value ["edge"; "branch"] then SsEdge
  else if has value ["multi"; "many"; "multiple"] then SsMultipleSegments
  else if has value ["segment"; "subnet"; "vlan"] then SsSingleSegment
  else SsUnknown.

(* [portable_capture_lite.rs] normalize_sdn_reliability *)
Definition normalize_sdn_reliability (raw : option string) : PortableSdnReliabilityBucket :=
  let value := lower_or_empty raw in
  if has value ["high"; "confirmed"; "authoritative"] then SrHigh
  else if has value ["medium"; "normal"; "controller"] then SrMedium
  else if has value ["low"; "sampled"; "derived"] then SrLow
  else SrUnknown.

(* [portable_capture_lite.rs] normalize_sdn_optional_category *)
Definition normalize_sdn_optional_category (raw : option string) : option string :=
  value ← raw;
  let lower := to_ascii_lowercase value in
  Some (
    if has lower ["allow"; "permit"; "pass"] then "allowed"
    else if has lower ["deny"; "block"; "drop"] then "blocked"
    else if has lower ["redirect"; "reroute"] then "redirected"
    else if has lower ["mirror"; "span"; "tap"] then "mirrored"
    else if has lower ["add"; "create"; "install"] then "added"
    else if has lower ["remove"; "delete"; "withdraw"; "down"] then "removed"
    else if has lower ["update"; "modify"; "change"] then "changed"
    else if has lower ["fail"; "error"] then "failed"
    else safe_category_string value).

(* [portable_capture_lite.rs] normalize_sdn_asset_category *)
Definition normalize_sdn_asset_category (raw : option string) : option string :=
  lower ← to_ascii_lowercase <$> raw;
  let category :=
    if has lower ["network"; "switch"; "router"] then "network_device"
    else if has lower ["server"] then "server"
    else if has lower ["workload"; "pod"; "vm"] then "cloud_workload"
    else if has lower ["endpoint"; "workstation"] then "endpoint"
    else if has lower ["iot"; "ot"; "ics"] then "iot_or_ot"
    else "unknown" in
  if bool_decide (category = "unknown") then None else Some category.

(* [portable_capture_lite.rs] normalize_sdn_exposure_category *)
Definition normalize_sdn_exposure_category (raw : option string) : option string :=
  lower ← to_ascii_lowercase <$> raw;
  let category :=
    if has lower ["lateral"; "east_west"] then "lateral_path"
    else if has lower ["new"; "open"; "exposure"] then "new_exposure"
    else if has lower ["reduce"; "closed"; "deny"; "block"] then "reduced_exposure"
    else if has lower ["none"; "unchanged"] then "no_change"
    else "unknown" in
  if bool_decide (category = "unknown") then None else Some category.

(* [portable_capture_lite.rs] sdn_count_bucket *)
Definition sdn_count_bucket (raw : option string) (count : option N) : option string :=
  match raw with
  | Some raw =>
      if has (to_ascii_lowercase raw) ["single"; "low"; "medium"; "high"; "burst"; "unknown"]
      then Some (safe_category_string raw) else count_bucket count
  | None => count_bucket count
  end.

(* [portable_capture_lite.rs] normalize_provider_category *)
Definition normalize_provider_category (raw : option string) : PortableProviderCategory :=
  let value := lower_or_empty raw in
  if has value ["object"; "bucket"; "blob"; "s3"] then PcObjectStorage
  else if has value ["cdn"; "front"] then PcCdn
  else if has value ["tunnel"; "proxy"; "vpn"] then PcTunnelProxy
  else if has value ["anon"; "tor"] then PcAnonymizing
  else if has value ["saas"; "app"] then PcSaas
  else if has value ["cloud"] then PcCloud
  else PcUnknown.

(* [portable_capture_lite.rs] normalize_object_storage_service_category *)
Definition normalize_object_storage_service_category
    (provider_hint service_hint : option string) : option string :=
  let combined :=
    to_ascii_lowercase (default "" provider_hint ++ " " ++ default "" service_hint) in
  Some (
    if has combined ["s3"; "simple_storage"] then "aws_s3"
    else if has combined ["blob"; "azure"] then "azure_blob"
    else if has combined ["gcs"; "google"] then "google_cloud_storage"
    else if has combined ["r2"; "cloudflare"] then "cloudflare_r2"
    else if has combined ["minio"] then "minio"
    else "object_storage").

(* [portable_capture_lite.rs] normalize_object_storage_activity_label *)
Definition normalize_object_storage_activity_label (raw : option string) : string :=
  let value := lower_or_empty raw in
  if has value ["delete"] then "delete"
  else if has value ["policy"; "acl"; "permission"; "public_access"; "replication";
      "lifecycle"] then "admin"
  else if has value ["put"; "write"; "upload"; "create"; "copy"; "restore"] then "write"
  else if has value ["auth"; "login"] then "auth"
  else if has value ["get"; "read"; "list"] then "read"
  else if blank value then "unknown"
  else "other".

(* [portable_capture_lite.rs] normalize_object_storage_api_method *)
Definition normalize_object_storage_api_method (raw : option string) :
    PortableApiMethodCategory :=
  let label := normalize_object_storage_activity_label raw in
  if bool_decide (label = "admin") then PmAdmin
  else if bool_decide (label = "delete") then PmDelete
  else if bool_decide (label = "write") then PmWrite
  else if bool_decide (label = "auth") then PmAuth
  else if bool_decide (label = "read") then PmRead
  else if bool_decide (label = "unknown") then PmUnknown
  else PmOther.

(* [portable_capture_lite.rs] normalize_object_storage_status_bucket *)
Definition normalize_object_storage_status_bucket (raw : option string) (status : option N) :
    PortableStatusBucket :=
  let value := lower_or_empty raw in
  if has value ["access_denied"; "auth"; "forbid"; "denied"] ||
      bool_decide (status = Some 401) || bool_decide (status = Some 403) then PsAuthError
  else if has value ["not_found"; "nosuch"] || bool_decide (status = Some 404) then PsNotFound
  else if has value ["throttl"; "slowdown"] || bool_decide (status = Some 429) then PsRateLimited
  else if has value ["success"; "allow"] || status_in 200 300 status then PsSuccess
  else if has value ["error"; "fail"; "deny"] || status_in 400 500 status then PsClientError
  else if status_from 500 status then PsServerError
  else PsUnknown.

(** Without a text and with a ratio. *)
(* [portable_capture_lite.rs:2722-2731] normalize_saas_ratio_bucket *)
Definition ratio_bucket (ratio : f32) : PortableUploadDownloadRatioBucket :=
  if f32_ge ratio (f32_lit 8 1) then PuUploadBurst
  else if f32_ge ratio (f32_lit 2 1) then PuUploadHeavy
  else if f32_ge (f32_lit 25 100) ratio then PuDownloadHeavy
  else PuBalanced.
(* [portable_capture_lite.rs] normalize_saas_ratio_bucket *)
Definition normalize_saas_ratio_bucket (raw : option string) (ratio : option f32)
    (request_size response_size : option N) : PortableUploadDownloadRatioBucket :=
  let value := lower_or_empty raw in
  if has value ["burst"] then PuUploadBurst
  else if has value ["upload"] then PuUploadHeavy
  else if has value ["download"] then PuDownloadHeavy
  else if has value ["balanced"] then PuBalanced
  else match ratio, request_size, response_size with
       | Some ratio, _, _ => ratio_bucket ratio
       | None, Some request_size, Some response_size =>
           ratio_bucket (f32_div (f32_of_u64 request_size) (f32_of_u64 (N.max response_size 1)))
       | None, _, _ => PuUnknown
       end.

(* [portable_capture_lite.rs] normalize_object_storage_direction_bucket *)
Definition normalize_object_storage_direction_bucket (direction ratio_bucket : option string)
    (ratio : option f64) : PortableUploadDownloadRatioBucket :=
  let value := lower_or_empty direction in
  if has value ["upload"; "write"; "put"; "create"; "copy"] then PuUploadHeavy
  else if has value ["download"; "read"; "get"; "list"] then PuDownloadHeavy
  else normalize_saas_ratio_bucket ratio_bucket (f32_of_f64 <$> ratio) None None.

(* [portable_capture_lite.rs] normalize_object_storage_auth_result *)
Definition normalize_object_storage_auth_result (raw : option string) : option string :=
  value ← to_ascii_lowercase <$> raw;
  Some (
    if has value ["access_denied"; "deny"; "forbid"; "unauthor"] then "blocked"
    else if has value ["success"; "allow"] then "success"
    else if has value ["fail"; "error"] then "failure"
    else "unknown").

(* [portable_capture_lite.rs] normalize_object_storage_destination_category *)
Definition normalize_object_storage_destination_category (raw : option string) : option string :=
  value ← to_ascii_lowercase <$> raw;
  Some (
    if has value ["public"; "internet"] then "public_bucket"
    else if has value ["cross"; "external"] then "cross_account"
    else if has value ["private"; "internal"] then "private_bucket"
    else if has value ["archive"; "cold"] then "archive_storage"
    else if has value ["sensitive"; "restricted"] then "restricted_storage"
    else "object_storage").

(* [portable_capture_lite.rs] normalize_provider_risk *)
Definition normalize_provider_risk (raw : option string) (metadata : PortableSaasCloudMetadata) :
    PortableProviderRiskCategory :=
  let value := lower_or_empty raw in
  if has value ["high"] || bool_decide (sc_provider_category metadata ∈ [PcTunnelProxy;
      PcAnonymizing]) then PrHigh
  else if has value ["medium"] ||
      bool_decide (sc_provider_category metadata ∈ [PcObjectStorage; PcCdn]) then PrMedium
  else if has value ["low"] || bool_decide (sc_provider_category metadata ∈ [PcSaas;
      PcCloud]) then PrLow
  else PrUnknown.

(* [portable_capture_lite.rs] normalize_provider_confidence *)
Definition normalize_provider_confidence (raw : option string)
    (metadata : PortableSaasCloudMetadata) : PortableProviderConfidenceBucket :=
  let value := lower_or_empty raw in
  if has value ["high"] then PbHigh
  else if has value ["medium"; "local"; "demo"] then PbMedium
  else if has value ["low"] || bool_decide (sc_provider_category metadata = PcUnknown) then PbLow
  else PbMedium.

(* [portable_capture_lite.rs] normalize_saas_api_method *)
Definition normalize_saas_api_method (raw : option string) : PortableApiMethodCategory :=
  let value := lower_or_empty raw in
  if has value ["admin"; "privilege"; "iam"] then PmAdmin
  else if has value ["delete"] || bool_decide (value = "del") then PmDelete
  else if has value ["post"; "put"; "patch"; "write"; "upload"] then PmWrite
  else if has value ["auth"; "login"; "token"] then PmAuth
  else if has value ["get"; "read"; "list"] then PmRead
  else if blank value then PmUnknown
  else PmOther.

(* [portable_capture_lite.rs] normalize_saas_status_bucket *)
Definition normalize_saas_status_bucket (raw : option string) (status : option N) :
    PortableStatusBucket :=
  let value := lower_or_empty raw in
  if has value ["auth"] || bool_decide (status = Some 401) || bool_decide (status = Some 403)
  then PsAuthError
  else if has value ["not_found"] || bool_decide (status = Some 404) then PsNotFound
  else if has value ["rate"] || bool_decide (status = Some 429) then PsRateLimited
  else if has value ["client"] || status_in 400 500 status then PsClientError
  else if has value ["server"] || status_from 500 status then PsServerError
  else if has value ["redirect"] || status_in 300 400 status then PsRedirect
  else if has value ["success"] || status_in 200 300 status then PsSuccess
  else PsUnknown.

(* [portable_capture_lite.rs] normalize_saas_auth_result *)
Definition normalize_saas_auth_result (raw : option string) : option string :=
  value ← to_ascii_lowercase <$> raw;
  Some (
    if has value ["success"; "allow"; "pass"] then "success"
    else if has value ["fail"; "deny"; "invalid"] then "failure"
    else if has value ["block"] then "blocked"
    else if has value ["challenge"; "mfa"] then "challenge"
    else if has value ["timeout"] then "timeout"
    else "unknown").

(* [portable_capture_lite.rs] normalize_deception_protocol *)
Definition normalize_deception_protocol (raw : option string) :
    PortableDeceptionProtocolCategory :=
  let value := lower_or_empty raw in
  if has value ["http"; "web"] then DpHttp
  else if has value ["dns"] then DpDns
  else if has value ["ssh"] then DpSsh
  else if has value ["smb"; "445"] then DpSmb
  else if has value ["rdp"; "3389"] then DpRdp
  else if has value ["ftp"] then DpFtp
  else if has value ["telnet"] then DpTelnet
  else if has value ["sql"; "database"; "db"] then DpDatabase
  else if has value ["ics"; "scada"; "ot"] then DpIcs
  else if blank value then DpUnknown
  else DpOther.

(* [portable_capture_lite.rs] normalize_deception_interaction_bucket *)
Definition normalize_deception_interaction_bucket (raw : option string) (count : option N) :
    PortableDecoyInteractionCountBucket :=
  let value := lower_or_empty raw in
  if has value ["burst"] then DiBurst
  else if has value ["high"] then DiHigh
  else if has value ["medium"] then DiMedium
  else if has value ["low"] then DiLow
  else if has value ["single"] then DiSingle
  else match count with
       | Some count =>
           if count <=? 1 then DiSingle
           else if count <=? 3 then DiLow
           else if count <=? 9 then DiMedium
           else if count <=? 24 then DiHigh
           else DiBurst
       | None => DiUnknown
       end.

(* [portable_capture_lite.rs] normalize_auth_provider_category *)
Definition normalize_auth_provider_category (raw service_hint : option string) : string :=
  let value := lower_or_empty raw in
  let service := lower_or_empty service_hint in
  if has value ["vpn"] || has service ["vpn"] then "vpn"
  else if has value ["ssh"; "rdp"; "smb"; "remote"] || has service ["ssh"; "rdp"; "smb"]
  then "remote_admin"
  else if has value ["waf"; "gateway"] then "waf_gateway"
  else if has value ["proxy"] then "reverse_proxy"
  else if has value ["cloud"; "external"] then "external_identity"
  else "idp".

(* [portable_capture_lite.rs] normalize_auth_result *)
Definition normalize_auth_result (raw : option string) : PortableAuthResultCategory :=
  let value := lower_or_empty raw in
  if has value ["success"; "accept"; "allow"] then ArSuccess
  else if has value ["block"; "deny"; "forbid"] then ArBlocked
  else if has value ["timeout"; "expired"] then ArTimeout
  else if has value ["challenge"; "prompt"; "mfa"] then ArChallenge
  else if has value ["fail"; "invalid"; "reject"; "error"] then ArFailure
  else ArUnknown.

(* [portable_capture_lite.rs] normalize_mfa_result *)
Definition normalize_mfa_result (raw : option string) : option PortableMfaResultCategory :=
  value ← to_ascii_lowercase <$> raw;
  Some (
    if has value ["satisfied"; "success"; "pass"] then AmSatisfied
    else if has value ["deny"; "reject"] then AmDenied
    else if has value ["prompt"; "push"] then AmPrompted
    else if has value ["timeout"; "expired"] then AmTimeout
    else if has value ["fail"; "error"] then AmFailed
    else if has value ["none"; "absent"; "n/a"] then AmNotPresent
    else AmUnknown).

(* [portable_capture_lite.rs] normalize_role_privilege_class *)
Definition normalize_role_privilege_class (raw : option string) : option string :=
  value ← to_ascii_lowercase <$> raw;
  if has value ["admin"; "root"; "privileged"] then Some "privileged"
  else if has value ["service"; "bot"; "machine"] then Some "service"
  else if has value ["guest"] then Some "guest"
  else if has value ["user"; "member"; "standard"] then Some "standard"
  else None.

(* [portable_capture_lite.rs] normalize_device_client_category *)
Definition normalize_device_client_category (raw : option string) : option string :=
  value ← to_ascii_lowercase <$> raw;
  Some (
    if has value ["browser"; "web"] then "browser"
    else if has value ["mobile"; "ios"; "android"] then "mobile"
    else if has value ["desktop"; "windows"; "mac"; "linux"] then "desktop"
    else if has value ["vpn"] then "vpn_client"
    else if has value ["script"; "curl"; "python"; "powershell"; "automation"] then "automation"
    else "other").

(* [portable_capture_lite.rs] normalize_destination_service_category *)
Definition normalize_destination_service_category (raw : option string) : option string :=
  value ← to_ascii_lowercase <$> raw;
  Some (
    if has value ["ssh"] then "ssh"
    else if has value ["rdp"] then "rdp"
    else if has value ["smb"] then "smb"
    else if has value ["vpn"] then "vpn"
    else if has value ["admin"] then "admin_portal"
    else if has value ["sso"; "idp"] then "sso"
    else if has value ["gateway"; "proxy"] then "auth_gateway"
    else if has value ["saas"; "cloud"] then "saas"
    else "other").

(* [portable_capture_lite.rs] normalize_failure_reason_category *)
Definition normalize_failure_reason_category (raw : option string) : option string :=
  value ← to_ascii_lowercase <$> raw;
  Some (
    if has value ["password"; "invalid"; "credential"] then "invalid_password"
    else if has value ["lock"; "disabled"] then "account_locked"
    else if has value ["mfa"] && has value ["timeout"; "expired"] then "mfa_timeout"
    else if has value ["mfa"] then "mfa_denied"
    else if has value ["policy"; "block"] then "policy_block"
    else if has value ["access"; "forbid"] then "access_denied"
    else if has value ["network"] then "network_denied"
    else "other").

(* [portable_capture_lite.rs] auth_attempt_count_bucket *)
Definition auth_attempt_count_bucket (value : N) : PortableAuthAttemptCountBucket :=
  if value <=? 1 then AaOne
  else if value <=? 3 then AaFew
  else if value <=? 6 then AaBurst
  else AaMany.
