(* ===== verification/ImportLogs.v ===== *)
(** * Imported logs ([capabilities/src/portable_capture_lite.rs])

    The parsers of cloud, object-storage, deception, network-control and authentication
    logs, line by line, and the batch that is prepared from what they return: its bounds,
    its provenance, the topics it declares.

    Identifiers and the clock are drawn in [ST]; [IM] adds the error, with the notation
    [let^]. The deserializers serde derives, the parsers of dates (the crate [chrono]) and
    the text of a float in an error that does not occur are the class [ImportText]. The
    records of flows, sessions, DNS, TLS and HTTP are types of which only the number is
    looked at ([CaptureTypes]); the parsers that produce them are an argument of
    [preview_portable_capture_import]. Field prefixes: [jc_], [jd_], [ja_] records of the
    JSON lines, [pa_] authentication, [pi_] parsed input, [pb_] batch. *)

From S2P Require Import Prelude Collections RustStr RustText Effects Contracts Checks Json.
From S2P Require Import CallerVerification MutationAuthorization Topics PortablePreferences.
From S2P Require Import ImportContracts ImportRedaction ImportCategories.
From Stdlib Require Import SpecFloat.

#[local] Open Scope string_scope.
#[local] Open Scope list_scope.
#[local] Open Scope N_scope.

(* ------------------------------------------------------------------ *)
(** ** Fallible steps *)

Definition IM (A : Type) : Type := ST (result A PortableCaptureLiteError).
Definition im_lift {A : Type} (r : result A PortableCaptureLiteError) : IM A := st_ret r.
Definition im_ok {A : Type} (x : A) : IM A := st_ret (Ok x).
Definition im_err {A : Type} (e : PortableCaptureLiteError) : IM A := st_ret (Err e).
Definition im_st {A : Type} (m : ST A) : IM A := let$ x := m in st_ret (Ok x).
Definition im_bind {A B : Type} (m : IM A) (f : A → IM B) : IM B :=
  let$ r := m in match r with Ok x => f x | Err e => st_ret (Err e) end.
Notation "'let^' x ':=' m 'in' k" := (im_bind m (λ x, k))
  (at level 10, x binder, m at level 100, k at level 200) : sentinel_scope.

(* [portable_capture_lite.rs:54-54] MAX_PORTABLE_CAPTURE_IMPORT_BYTES *)
Definition MAX_PORTABLE_CAPTURE_IMPORT_BYTES : N := 4 * 1024 * 1024.
(* [portable_capture_lite.rs:55-55] MAX_PORTABLE_CAPTURE_RECORDS *)
Definition MAX_PORTABLE_CAPTURE_RECORDS : N := 128.

(* ------------------------------------------------------------------ *)
(** ** Records of the JSON lines *)

(* [portable_capture_lite.rs] JsonlSaasCloudRecord *)
Record JsonlSaasCloudRecord := mkSaasRecord {
  jc_timestamp : option string;
  jc_time : option string;
  jc_ts : option string;
  jc_provider_category : option string;
  jc_provider : option string;
  jc_service_category : option string;
  jc_service : option string;
  jc_provider_risk_category : option string;
  jc_provider_confidence : option string;
  jc_endpoint_fingerprint : option string;
  jc_route_fingerprint : option string;
  jc_api_endpoint_fingerprint : option string;
  jc_api_method_category : option string;
  jc_method_category : option string;
  jc_api_method : option string;
  jc_status_bucket : option string;
  jc_status_code : option N;
  jc_status : option N;
  jc_upload_download_ratio_bucket : option string;
  jc_upload_download_ratio : option f32;
  jc_request_size_bytes : option N;
  jc_response_size_bytes : option N;
  jc_auth_result : option string;
  jc_identity_hash : option string;
  jc_user_hash : option string;
  jc_identity : option string;
  jc_user : option string;
  jc_account : option string;
  jc_source_session : option string;
  jc_session : option string;
  jc_session_id : option string;
  jc_connection_id : option string;
  jc_destination_category : option string;
  jc_host_category : option string
}.

(* [portable_capture_lite.rs] JsonlDeceptionEventRecord *)
Record JsonlDeceptionEventRecord := mkDeceptionRecord {
  jd_timestamp : option string;
  jd_time : option string;
  jd_ts : option string;
  jd_decoy_sensor_ref : option string;
  jd_decoy_ref : option string;
  jd_sensor_ref : option string;
  jd_sensor : option string;
  jd_decoy : option string;
  jd_event_category : option string;
  jd_event : option string;
  jd_interaction_category : option string;
  jd_source_context_category : option string;
  jd_source_context : option string;
  jd_source_category : option string;
  jd_destination_service_category : option string;
  jd_destination_category : option string;
  jd_service_category : option string;
  jd_service : option string;
  jd_interaction_count_bucket : option string;
  jd_interaction_count : option N;
  jd_count : option N;
  jd_protocol_category : option string;
  jd_protocol : option string
}.

(* [portable_capture_lite.rs] JsonlAuthRecord *)
Record JsonlAuthRecord := mkAuthRecord {
  ja_timestamp : option string;
  ja_time : option string;
  ja_ts : option string;
  ja_provider_category : option string;
  ja_provider : option string;
  ja_source_type : option string;
  ja_identity : option string;
  ja_username : option string;
  ja_user : option string;
  ja_email : option string;
  ja_account : option string;
  ja_subject : option string;
  ja_identity_hash : option string;
  ja_user_hash : option string;
  ja_session : option string;
  ja_session_id : option string;
  ja_connection_id : option string;
  ja_auth_result : option string;
  ja_result : option string;
  ja_outcome : option string;
  ja_status : option string;
  ja_mfa_result : option string;
  ja_mfa_status : option string;
  ja_mfa : option string;
  ja_role_class : option string;
  ja_privilege_class : option string;
  ja_device_category : option string;
  ja_client_category : option string;
  ja_client_type : option string;
  ja_destination_service : option string;
  ja_service : option string;
  ja_protocol : option string;
  ja_attempt_count : option N;
  ja_attempts : option N;
  ja_failure_reason : option string;
  ja_reason : option string
}.

(* [portable_capture_lite.rs] ParsedAuthRecord *)
Record ParsedAuthRecord := mkParsedAuth {
  pa_timestamp : Timestamp;
  pa_provider_category : string;
  pa_identity_source : option string;
  pa_source_session : option string;
  pa_auth_result : PortableAuthResultCategory;
  pa_mfa_result : option PortableMfaResultCategory;
  pa_role_privilege_class : option string;
  pa_device_client_category : option string;
  pa_destination_service_category : option string;
  pa_attempt_count : N;
  pa_failure_reason_category : option string
}.


(** What comes from outside: serde's derived deserializers, [chrono]'s parsers (instants
    are nanoseconds; an error is its text), [Display] of a [f32]. *)
Class ImportText := {
  saas_record_from_str : string → option JsonlSaasCloudRecord;
  deception_record_from_str : string → option JsonlDeceptionEventRecord;
  auth_record_from_str : string → option JsonlAuthRecord;
  parse_from_rfc3339 : string → result Z string;
  parse_common_log_time : string → option Z;
  datetime_from_timestamp : Z → N → option Z;
  parse_bind_time : string → option Z;
  parse_syslog_time : string → option Z;
  utc_year : Timestamp → string;
  f32_to_string : f32 → string
}.

Section logs.
Context `{Sha256} `{JsonText} `{JsonNumber} `{ImportText}.

(* ------------------------------------------------------------------ *)
(** ** Instants and scores *)

(* [portable_capture_lite.rs] timestamp_from_rfc3339 *)
Definition timestamp_from_rfc3339 (value : string) : result Timestamp PortableCaptureLiteError :=
  match parse_from_rfc3339 value with
  | Ok t => Ok (mkTimestamp t)
  | Err reason => Err (PeParse reason)
  end.
(* [portable_capture_lite.rs] timestamp_from_epoch_millis *)
Definition timestamp_from_epoch_millis (value : N) : result Timestamp PortableCaptureLiteError :=
  match datetime_from_timestamp (Z.of_N (value / 1000)) (value mod 1000 * 1000000) with
  | Some t => Ok (mkTimestamp t)
  | None => Err (PeParse "invalid epoch timestamp")
  end.
(* [portable_capture_lite.rs] timestamp_from_gateway_string *)
Definition timestamp_from_gateway_string (value : string) :
    result Timestamp PortableCaptureLiteError :=
  match parse_from_rfc3339 value with
  | Ok t => Ok (mkTimestamp t)
  | Err _ =>
      match parse_common_log_time value with
      | Some t => Ok (mkTimestamp t)
      | None => timestamp_from_rfc3339 value
      end
  end.
(** [timestamp()] is the whole seconds since the epoch, rounded down. *)
(* [portable_capture_lite.rs] bucket_auth_timestamp *)
Definition bucket_auth_timestamp (timestamp : Timestamp) : Timestamp :=
  let remainder := ((instant timestamp / 1000000000) mod 300)%Z in
  mkTimestamp (instant timestamp - remainder * 1000000000).
(* [portable_capture_lite.rs] q *)
Definition q (value : f32) : result Quality.QualityScore PortableCaptureLiteError :=
  map_err (λ e, PeContract ("quality score must be between 0.0 and 1.0: " ++
                            f32_to_string (Quality.rejected e))%string)
    (Quality.QualityScore_new value).
(* [portable_capture_lite.rs] first_owned *)
Definition first_owned (candidates : list (option string)) : option string :=
  find_map (λ value, value) candidates.
(** [a.or(b)] *)
Definition or_else {A : Type} (a b : option A) : option A :=
  match a with Some x => Some x | None => b end.

(* [portable_capture_lite.rs] sdn_control_plane_quality_score *)
Definition sdn_control_plane_quality_score (m : PortableSdnControlPlaneMetadata) : f32 :=
  let score :=
    match sd_reliability_bucket m with
    | SrHigh => f32_lit 8 10 | SrMedium => f32_lit 7 10 | SrLow => f32_lit 52 100
    | SrUnknown => f32_lit 44 100
    end in
  let score := minus_if (bool_decide (sd_controller_category m = ScUnknown)) (f32_lit 8 100) score in
  let score := minus_if (bool_decide (sd_event_category m = SeUnknown)) (f32_lit 1 10) score in
  let score := minus_if (bool_decide (sd_impact_scope_bucket m = SsUnknown)) (f32_lit 4 100) score in
  let score := minus_if (bool_decide (sd_status_bucket m = PsUnknown)) (f32_lit 3 100) score in
  f32_clamp score (f32_lit 3 10) (f32_lit 82 100).
(* [portable_capture_lite.rs] saas_cloud_quality_score *)
Definition saas_cloud_quality_score (m : PortableSaasCloudMetadata) : f32 :=
  let score :=
    match sc_provider_confidence m with
    | PbHigh => f32_lit 82 100 | PbMedium => f32_lit 72 100 | PbLow => f32_lit 52 100
    | PbUnknown => f32_lit 42 100
    end in
  let score := minus_if (bool_decide (sc_provider_category m = PcUnknown)) (f32_lit 12 100) score in
  let score := minus_if (bool_decide (sc_endpoint_fingerprint m = None)) (f32_lit 6 100) score in
  let score :=
    minus_if (bool_decide (sc_upload_download_ratio_bucket m = PuUnknown)) (f32_lit 4 100) score in
  f32_clamp score (f32_lit 28 100) (f32_lit 86 100).
(* [portable_capture_lite.rs] deception_quality_score *)
Definition deception_quality_score (m : PortableDeceptionEventMetadata) : f32 :=
  let score := f32_lit 76 100 in
  let score := minus_if (bool_decide (de_decoy_sensor_ref m = None)) (f32_lit 12 100) score in
  let score := minus_if (bool_decide (de_source_context_category m = None)) (f32_lit 6 100) score in
  let score :=
    minus_if (bool_decide (de_destination_service_category m = None)) (f32_lit 6 100) score in
  let score := minus_if (bool_decide (de_protocol_category m = DpUnknown)) (f32_lit 1 10) score in
  let score :=
    minus_if (bool_decide (de_interaction_count_bucket m = DiUnknown)) (f32_lit 8 100) score in
  f32_clamp score (f32_lit 3 10) (f32_lit 82 100).
(* [portable_capture_lite.rs] auth_quality_score *)
Definition auth_quality_score (m : PortableAuthMetadata) : f32 :=
  let score := f32_lit 86 100 in
  let score := minus_if (bool_decide (am_identity_label_redacted m = None)) (f32_lit 8 100) score in
  let score := minus_if (bool_decide (am_mfa_result m = None)) (f32_lit 6 100) score in
  let score := minus_if (bool_decide (am_role_privilege_class m = None)) (f32_lit 4 100) score in
  let score :=
    minus_if (bool_decide (am_destination_service_category m = None)) (f32_lit 4 100) score in
  f32_max score (f32_lit 55 100).

(* ------------------------------------------------------------------ *)
(** ** Network control *)

Definition is_object (value : JsonTree) : bool :=
  match value with JObject _ => true | _ => false end.
(** Fields at the top of a record. *)
Definition text_of (record : JsonTree) (keys : list string) : option string :=
  json_string_any record (map (λ key, [key]) keys).
Definition u64_of (record : JsonTree) (keys : list string) : option N :=
  json_u64_any record (map (λ key, [key]) keys).

(** The instant of a record: milliseconds since the epoch, or a text. *)
Definition record_timestamp (format : string) (keys : list string) (record : JsonTree) :
    result Timestamp PortableCaptureLiteError :=
  match u64_of record ["timestamp_ms"; "timestampMs"; "timeEpochMs"; "epoch_ms"] with
  | Some epoch_millis => timestamp_from_epoch_millis epoch_millis
  | None =>
      match text_of record keys with
      | Some raw => timestamp_from_gateway_string raw
      | None => Err (PeMalformed format)
      end
  end.
(* [portable_capture_lite.rs] sdn_timestamp *)
Definition sdn_timestamp : JsonTree → result Timestamp PortableCaptureLiteError :=
  record_timestamp "sdn_control_plane_log" ["timestamp"; "time"; "ts"; "event_time"; "observed_at"].
(* [portable_capture_lite.rs] object_storage_timestamp *)
Definition object_storage_timestamp : JsonTree → result Timestamp PortableCaptureLiteError :=
  record_timestamp "object_storage_audit_log"
    ["timestamp"; "time"; "ts"; "event_time"; "eventTime"; "observed_at"].

Definition sdn_scored (m : PortableSdnControlPlaneMetadata) (score : Quality.QualityScore) :
    PortableSdnControlPlaneMetadata :=
  mkSdnControl (sd_sdn_control_plane_metadata_id m) (sd_provenance_id m)
    (sd_controller_category m) (sd_event_category m) (sd_impact_scope_bucket m)
    (sd_reliability_bucket m) (sd_policy_action_category m) (sd_route_change_category m)
    (sd_topology_change_category m) (sd_affected_asset_category m) (sd_exposure_category m)
    (sd_status_bucket m) (sd_count_bucket m) (sd_time_bucket_start m) (sd_redaction_status m)
    (sd_missing_visibility_flags m) (sd_evidence_refs m) score.
(** The assignments to the new record's fields. *)
Definition sdn_fields (record : JsonTree) (m : PortableSdnControlPlaneMetadata) :
    PortableSdnControlPlaneMetadata :=
  mkSdnControl (sd_sdn_control_plane_metadata_id m) (sd_provenance_id m)
    (sd_controller_category m) (sd_event_category m)
    (normalize_sdn_scope
       (text_of record ["impact_scope"; "scope"; "blast_radius"; "segment_scope"; "domain_scope"]))
    (normalize_sdn_reliability
       (text_of record ["reliability"; "reliability_bucket"; "source_reliability"; "confidence"]))
    (normalize_sdn_optional_category
       (text_of record ["policy_action"; "action"; "decision"; "effect"; "acl_action"]))
    (normalize_sdn_optional_category
       (text_of record ["route_change"; "route_action"; "route_event"; "path_change"]))
    (normalize_sdn_optional_category
       (text_of record ["topology_change"; "topology_event"; "link_event"; "node_event"]))
    (normalize_sdn_asset_category
       (text_of record ["affected_asset_category"; "asset_category"; "workload_category";
                        "device_category"]))
    (normalize_sdn_exposure_category
       (text_of record ["exposure_category"; "exposure"; "security_effect"; "risk_category"]))
    (normalize_saas_status_bucket (text_of record ["status_bucket"; "status"; "result"]) None)
    (sdn_count_bucket (text_of record ["count_bucket"; "change_count_bucket"])
       (u64_of record ["count"; "change_count"; "affected_count"]))
    (sd_time_bucket_start m) (sd_redaction_status m) (sd_missing_visibility_flags m)
    (sd_evidence_refs m) (sd_quality_score m).
(* [portable_capture_lite.rs] sdn_control_plane_metadata_from_json *)
Definition sdn_control_plane_metadata_from_json (record : JsonTree) :
    IM PortableSdnControlPlaneMetadata :=
  if negb (is_object record) then im_err (PeMalformed "sdn_control_plane_log") else
  let^ timestamp := im_lift (sdn_timestamp record) in
  let controller_category :=
    normalize_sdn_controller_category
      (text_of record ["controller_category"; "controller_type"; "controller"; "provider";
                       "source"; "system"]) in
  let event_category :=
    normalize_sdn_event_category
      (text_of record ["event_category"; "event_type"; "event"; "type"; "operation";
                       "change_type"; "message_type"]) in
  if bool_decide (controller_category = ScUnknown) && bool_decide (event_category = SeUnknown)
  then im_err (PeMalformed "sdn_control_plane_log") else
  let^ new :=
    im_st (SdnControl_new controller_category event_category (bucket_auth_timestamp timestamp)) in
  let metadata := sdn_fields record new in
  let^ score := im_lift (q (sdn_control_plane_quality_score metadata)) in
  im_ok (sdn_scored metadata score).

(* ------------------------------------------------------------------ *)
(** ** Cloud and object storage *)

Definition saas_scored (m : PortableSaasCloudMetadata) (score : Quality.QualityScore) :
    PortableSaasCloudMetadata :=
  mkSaasCloud (sc_saas_cloud_metadata_id m) (sc_provenance_id m) (sc_provider_category m)
    (sc_service_category m) (sc_provider_risk_category m) (sc_provider_confidence m)
    (sc_endpoint_fingerprint m) (sc_api_method_category m) (sc_status_bucket m)
    (sc_upload_download_ratio_bucket m) (sc_auth_result_category m)
    (sc_identity_label_redacted m) (sc_source_session_label m) (sc_destination_category m)
    (sc_time_bucket_start m) (sc_redaction_status m) (sc_evidence_refs m) score.
(** [Hashed] where a label was made of an identity or a session. *)
Definition label_status (identity session : option string) : RedactionStatus :=
  match identity, session with None, None => RsRedacted | _, _ => RsHashed end.

Definition saas_fields (r : JsonlSaasCloudRecord) (m : PortableSaasCloudMetadata) :
    PortableSaasCloudMetadata :=
  let identity :=
    redact_auth_label "identity" <$>
      first_owned [jc_identity_hash r; jc_user_hash r; jc_identity r; jc_user r; jc_account r] in
  let session :=
    redact_auth_label "session" <$>
      first_owned [jc_source_session r; jc_session r; jc_session_id r; jc_connection_id r] in
  mkSaasCloud (sc_saas_cloud_metadata_id m) (sc_provenance_id m) (sc_provider_category m)
    (normalize_saas_safe_category (first_owned [jc_service_category r; jc_service r]))
    (normalize_provider_risk (jc_provider_risk_category r) m)
    (normalize_provider_confidence (jc_provider_confidence r) m)
    (normalize_endpoint_fingerprint
       (first_owned [jc_endpoint_fingerprint r; jc_route_fingerprint r;
                     jc_api_endpoint_fingerprint r]))
    (normalize_saas_api_method
       (or_else (jc_api_method_category r) (or_else (jc_method_category r) (jc_api_method r))))
    (normalize_saas_status_bucket (jc_status_bucket r) (or_else (jc_status_code r) (jc_status r)))
    (normalize_saas_ratio_bucket (jc_upload_download_ratio_bucket r) (jc_upload_download_ratio r)
       (jc_request_size_bytes r) (jc_response_size_bytes r))
    (normalize_saas_auth_result (jc_auth_result r))
    identity session
    (normalize_saas_safe_category (first_owned [jc_destination_category r; jc_host_category r]))
    (sc_time_bucket_start m) (label_status identity session) (sc_evidence_refs m)
    (sc_quality_score m).
(* [portable_capture_lite.rs] saas_cloud_metadata_from_jsonl *)
Definition saas_cloud_metadata_from_jsonl (record : JsonlSaasCloudRecord) :
    IM PortableSaasCloudMetadata :=
  let^ timestamp :=
    im_lift (match first_owned [jc_timestamp record; jc_time record; jc_ts record] with
             | Some value => timestamp_from_rfc3339 value
             | None => Err (PeMalformed "saas_cloud_metadata")
             end) in
  let provider_category :=
    normalize_provider_category
      (or_else (jc_provider_category record)
         (or_else (jc_provider record) (jc_service_category record))) in
  let^ new := im_st (SaasCloud_new provider_category (bucket_auth_timestamp timestamp)) in
  let metadata := saas_fields record new in
  let^ score := im_lift (q (saas_cloud_quality_score metadata)) in
  im_ok (saas_scored metadata score).

Definition object_storage_fields (record : JsonTree) (m : PortableSaasCloudMetadata) :
    PortableSaasCloudMetadata :=
  let text := text_of record in
  let provider_hint :=
    text ["provider_category"; "provider"; "storage_provider"; "service_category"; "service";
          "event_source_category"] in
  let service_category :=
    normalize_object_storage_service_category provider_hint
      (text ["storage_service"; "service_category"; "service"; "event_source_category"]) in
  let activity :=
    text ["activity_category"; "event_category"; "operation_category"; "operation";
          "event_name_category"; "event_name"; "api_method_category"; "api_method";
          "method_category"] in
  mkSaasCloud (sc_saas_cloud_metadata_id m) (sc_provenance_id m) (sc_provider_category m)
    service_category
    (normalize_provider_risk
       (text ["provider_risk_category"; "risk_category"; "exposure_risk"]) m)
    (normalize_provider_confidence
       (text ["provider_confidence"; "confidence"; "source_reliability"]) m)
    (normalize_endpoint_fingerprint
       (or_else
          (text ["endpoint_fingerprint"; "operation_fingerprint"; "audit_endpoint_fingerprint"])
          (Some ("object_storage:" ++ default "unknown_service" service_category ++ ":" ++
                 normalize_object_storage_activity_label activity)%string)))
    (normalize_object_storage_api_method activity)
    (normalize_object_storage_status_bucket
       (text ["status_bucket"; "result"; "outcome"; "error_category"; "error_code_category"])
       (json_u16_any record [["status_code"]; ["http_status"]; ["status"]]))
    (normalize_object_storage_direction_bucket
       (text ["transfer_direction"; "direction"; "activity_category"; "operation_category";
              "operation"; "event_name_category"; "event_name"])
       (text ["upload_download_ratio_bucket"])
       (json_f64_any record [["upload_download_ratio"]]))
    (normalize_object_storage_auth_result
       (text ["auth_result"; "access_result"; "authorization_result"; "result"; "outcome";
              "error_category"; "error_code_category"]))
    None None
    (normalize_object_storage_destination_category
       (text ["destination_category"; "bucket_exposure"; "storage_scope"; "resource_scope";
              "storage_class_category"]))
    (sc_time_bucket_start m) RsRedacted (sc_evidence_refs m) (sc_quality_score m).
(* [portable_capture_lite.rs] object_storage_metadata_from_json *)
Definition object_storage_metadata_from_json (record : JsonTree) : IM PortableSaasCloudMetadata :=
  if negb (is_object record) then im_err (PeMalformed "object_storage_audit_log") else
  let^ timestamp := im_lift (object_storage_timestamp record) in
  let^ new := im_st (SaasCloud_new PcObjectStorage (bucket_auth_timestamp timestamp)) in
  let metadata := object_storage_fields record new in
  let^ score := im_lift (q (saas_cloud_quality_score metadata)) in
  im_ok (saas_scored metadata score).

(* ------------------------------------------------------------------ *)
(** ** Deception *)

Definition deception_scored (m : PortableDeceptionEventMetadata) (score : Quality.QualityScore) :
    PortableDeceptionEventMetadata :=
  mkDeceptionEvent (de_deception_event_id m) (de_provenance_id m) (de_decoy_sensor_ref m)
    (de_event_category m) (de_source_context_category m) (de_destination_service_category m)
    (de_interaction_count_bucket m) (de_protocol_category m) (de_time_bucket_start m)
    (de_redaction_status m) (de_evidence_refs m) score.
Definition deception_fields (r : JsonlDeceptionEventRecord) (m : PortableDeceptionEventMetadata) :
    PortableDeceptionEventMetadata :=
  mkDeceptionEvent (de_deception_event_id m) (de_provenance_id m)
    (normalize_deception_ref
       (first_owned [jd_decoy_sensor_ref r; jd_decoy_ref r; jd_sensor_ref r; jd_sensor r;
                     jd_decoy r]))
    (de_event_category m)
    (normalize_deception_optional_category
       (first_owned [jd_source_context_category r; jd_source_context r; jd_source_category r]))
    (normalize_deception_optional_category
       (first_owned [jd_destination_service_category r; jd_destination_category r;
                     jd_service_category r; jd_service r]))
    (normalize_deception_interaction_bucket (jd_interaction_count_bucket r)
       (or_else (jd_interaction_count r) (jd_count r)))
    (de_protocol_category m) (de_time_bucket_start m) RsRedacted (de_evidence_refs m)
    (de_quality_score m).
(* [portable_capture_lite.rs] deception_event_from_jsonl *)
Definition deception_event_from_jsonl (record : JsonlDeceptionEventRecord) :
    IM PortableDeceptionEventMetadata :=
  let^ timestamp :=
    im_lift (match first_owned [jd_timestamp record; jd_time record; jd_ts record] with
             | Some value => timestamp_from_rfc3339 value
             | None => Err (PeMalformed "deception_event_log")
             end) in
  let event_category :=
    normalize_deception_safe_category
      (first_owned [jd_event_category record; jd_event record; jd_interaction_category record])
      "interaction" in
  let protocol_category :=
    normalize_deception_protocol
      (first_owned [jd_protocol_category record; jd_protocol record]) in
  let^ new :=
    im_st (DeceptionEvent_new event_category protocol_category (bucket_auth_timestamp timestamp)) in
  let metadata := deception_fields record new in
  let^ score := im_lift (q (deception_quality_score metadata)) in
  im_ok (deception_scored metadata score).

(* ------------------------------------------------------------------ *)
(** ** Authentication *)

(* [portable_capture_lite.rs] parsed_auth_record_from_jsonl *)
Definition parsed_auth_record_from_jsonl (r : JsonlAuthRecord) :
    result ParsedAuthRecord PortableCaptureLiteError :=
  let? timestamp :=
    match or_else (ja_timestamp r) (or_else (ja_time r) (ja_ts r)) with
    | Some value => timestamp_from_rfc3339 value
    | None => Err (PeMalformed "auth_security_log")
    end in
  let service_hint :=
    or_else (ja_destination_service r) (or_else (ja_service r) (ja_protocol r)) in
  Ok (mkParsedAuth timestamp
        (normalize_auth_provider_category
           (or_else (ja_provider_category r) (or_else (ja_provider r) (ja_source_type r)))
           service_hint)
        (first_owned [ja_identity_hash r; ja_user_hash r; ja_identity r; ja_username r;
                      ja_user r; ja_email r; ja_account r; ja_subject r])
        (first_owned [ja_session r; ja_session_id r; ja_connection_id r])
        (normalize_auth_result
           (or_else (ja_auth_result r)
              (or_else (ja_result r) (or_else (ja_outcome r) (ja_status r)))))
        (normalize_mfa_result
           (or_else (ja_mfa_result r) (or_else (ja_mfa_status r) (ja_mfa r))))
        (normalize_role_privilege_class (or_else (ja_role_class r) (ja_privilege_class r)))
        (normalize_device_client_category
           (or_else (ja_device_category r) (or_else (ja_client_category r) (ja_client_type r))))
        (normalize_destination_service_category service_hint)
        (default 1 (or_else (ja_attempt_count r) (ja_attempts r)))
        (normalize_failure_reason_category (or_else (ja_failure_reason r) (ja_reason r)))).

(** A later field of the same name replaces an earlier one. *)
Definition add_field (fields : gmap string string) (token : string) : gmap string string :=
  match split_once "=" token with
  | None => fields
  | Some (key, value) =>
      let normalized_key := to_ascii_lowercase (trim key) in
      let normalized_value :=
        trim_matches (Ascii.eqb "'") (trim_matches (Ascii.eqb double_quote) value) in
      if negb (is_empty normalized_key) && negb (is_empty normalized_value)
      then <[normalized_key := normalized_value]> fields
      else fields
  end.
(* [portable_capture_lite.rs] key_value_fields *)
Definition key_value_fields (line : string) : gmap string string :=
  fold_left add_field (split_whitespace line) ∅.

(* [portable_capture_lite.rs] parsed_auth_record_from_text_line *)
Definition parsed_auth_record_from_text_line (line : string) :
    result ParsedAuthRecord PortableCaptureLiteError :=
  let fields := key_value_fields line in
  let get := find_map (λ key, fields !! key) in
  let? timestamp :=
    match get ["timestamp"; "time"; "ts"] with
    | Some value => timestamp_from_rfc3339 value
    | None => Err (PeMalformed "auth_security_log")
    end in
  let service_hint := get ["destination_service"; "service"; "protocol"] in
  Ok (mkParsedAuth timestamp
        (normalize_auth_provider_category (get ["provider_category"; "provider"; "source_type"])
           service_hint)
        (get ["identity_hash"; "user_hash"; "identity"; "username"; "user"; "email"; "account";
              "subject"])
        (get ["session"; "session_id"; "connection_id"])
        (normalize_auth_result (get ["auth_result"; "result"; "outcome"; "status"]))
        (normalize_mfa_result (get ["mfa_result"; "mfa_status"; "mfa"]))
        (normalize_role_privilege_class (get ["role_class"; "privilege_class"]))
        (normalize_device_client_category
           (get ["device_category"; "client_category"; "client_type"]))
        (normalize_destination_service_category service_hint)
        (default 1 (value ← get ["attempt_count"; "attempts"]; parse_uint u32_max value))
        (normalize_failure_reason_category (get ["failure_reason"; "reason"]))).

Definition auth_scored (m : PortableAuthMetadata) (score : Quality.QualityScore) :
    PortableAuthMetadata :=
  mkAuth (am_auth_metadata_id m) (am_provenance_id m) (am_provider_category m)
    (am_identity_label_redacted m) (am_source_session_label m) (am_auth_result m)
    (am_mfa_result m) (am_role_privilege_class m) (am_device_client_category m)
    (am_destination_service_category m) (am_time_bucket_start m) (am_attempt_count_bucket m)
    (am_failure_reason_category m) (am_redaction_status m) score.
Definition auth_fields (r : ParsedAuthRecord) (m : PortableAuthMetadata) : PortableAuthMetadata :=
  let identity := redact_auth_label "identity" <$> pa_identity_source r in
  let session := redact_auth_label "session" <$> pa_source_session r in
  mkAuth (am_auth_metadata_id m) (am_provenance_id m) (am_provider_category m) identity session
    (am_auth_result m) (pa_mfa_result r) (pa_role_privilege_class r)
    (pa_device_client_category r) (pa_destination_service_category r) (am_time_bucket_start m)
    (auth_attempt_count_bucket (pa_attempt_count r)) (pa_failure_reason_category r)
    (label_status identity session) (am_quality_score m).
(* [portable_capture_lite.rs] auth_metadata_from_parsed_auth *)
Definition auth_metadata_from_parsed_auth (record : ParsedAuthRecord) : IM PortableAuthMetadata :=
  let^ new :=
    im_st (Auth_new (pa_provider_category record) (pa_auth_result record)
             (bucket_auth_timestamp (pa_timestamp record))) in
  let metadata := auth_fields record new in
  let^ score := im_lift (q (auth_quality_score metadata)) in
  im_ok (auth_scored metadata score).
End logs.

(* ------------------------------------------------------------------ *)
(** ** Lines of a log *)

(** The types of records of which a batch only counts how many there are. *)
Class CaptureTypes := {
  FlowRecord : Type;
  SessionRecord : Type;
  DnsObservation : Type;
  TlsObservation : Type;
  HttpMetadata : Type
}.

(* [portable_capture_lite.rs] ParsedPortableCaptureInput *)
Record ParsedPortableCaptureInput `{CaptureTypes} := mkParsed {
  pi_flow_records : list FlowRecord;
  pi_session_records : list SessionRecord;
  pi_dns_observations : list DnsObservation;
  pi_tls_observations : list TlsObservation;
  pi_http_metadata : list HttpMetadata;
  pi_auth_metadata : list PortableAuthMetadata;
  pi_saas_cloud_metadata : list PortableSaasCloudMetadata;
  pi_deception_events : list PortableDeceptionEventMetadata;
  pi_sdn_control_plane_metadata : list PortableSdnControlPlaneMetadata;
  pi_redaction_status : RedactionStatus
}.
(* [portable_capture_lite.rs] PortableCaptureLitePreparedBatch *)
Record PortableCaptureLitePreparedBatch `{CaptureTypes} := mkBatch {
  pb_provenance : PortableCaptureProvenance;
  pb_flow_records : list FlowRecord;
  pb_session_records : list SessionRecord;
  pb_dns_observations : list DnsObservation;
  pb_tls_observations : list TlsObservation;
  pb_http_metadata : list HttpMetadata;
  pb_auth_metadata : list PortableAuthMetadata;
  pb_saas_cloud_metadata : list PortableSaasCloudMetadata;
  pb_deception_events : list PortableDeceptionEventMetadata;
  pb_sdn_control_plane_metadata : list PortableSdnControlPlaneMetadata;
  pb_declared_topics : list string
}.

(** The loop of the parsers over [content.lines()]: blank lines are skipped, the line that
    would be one too many is refused, each other line gives one record. *)
Fixpoint collect_lines {A : Type} (parse : string → IM A) (line_count : N)
    (lines : list string) : IM (list A) :=
  match lines with
  | [] => im_ok []
  | line :: lines =>
      let trimmed := trim line in
      if is_empty trimmed then collect_lines parse line_count lines
      else if MAX_PORTABLE_CAPTURE_RECORDS <? line_count + 1 then im_err PeTooManyRecords
      else
        let^ record := parse trimmed in
        let^ records := collect_lines parse (line_count + 1) lines in
        im_ok (record :: records)
  end.
(** The records of a log; none is an error. *)
Definition parse_log {A : Type} (parse : string → IM A) (content : string) : IM (list A) :=
  let^ records := collect_lines parse 0 (lines content) in
  match records with
  | [] => im_err PeEmptyInput
  | _ => im_ok records
  end.
(** [serde_json::from_str(trimmed).map_err(|_| Malformed(format))] *)
Definition or_malformed {A : Type} (format : string) (r : option A) :
    result A PortableCaptureLiteError :=
  match r with Some x => Ok x | None => Err (PeMalformed format) end.

Section parsers.
Context `{Sha256} `{JsonText} `{JsonNumber} `{ImportText} `{CaptureTypes}.

(* [portable_capture_lite.rs] parse_saas_cloud_metadata_log *)
Definition parse_saas_cloud_metadata_log (content : string) : IM ParsedPortableCaptureInput :=
  let^ metadata :=
    parse_log (λ trimmed,
      let^ _ := im_lift (reject_saas_cloud_sensitive_json trimmed) in
      let^ record :=
        im_lift (or_malformed "saas_cloud_metadata" (saas_record_from_str trimmed)) in
      saas_cloud_metadata_from_jsonl record) content in
  let redaction_status :=
    if existsb (λ item, bool_decide (is_Some (sc_identity_label_redacted item)) ||
                        bool_decide (is_Some (sc_source_session_label item))) metadata
    then RsHashed else RsRedacted in
  im_ok (mkParsed _ [] [] [] [] [] [] metadata [] [] redaction_status).
(** [from_str::<Value>(trimmed)] *)
Definition json_value_of (format line : string) : result JsonTree PortableCaptureLiteError :=
  map_err (λ _, PeMalformed format) (json_parse line).
(* [portable_capture_lite.rs] parse_object_storage_audit_log *)
Definition parse_object_storage_audit_log (content : string) : IM ParsedPortableCaptureInput :=
  let^ metadata :=
    parse_log (λ trimmed,
      let^ _ := im_lift (reject_object_storage_sensitive_json trimmed) in
      let^ record := im_lift (json_value_of "object_storage_audit_log" trimmed) in
      object_storage_metadata_from_json record) content in
  im_ok (mkParsed _ [] [] [] [] [] [] metadata [] [] RsRedacted).
(* [portable_capture_lite.rs] parse_deception_event_log *)
Definition parse_deception_event_log (content : string) : IM ParsedPortableCaptureInput :=
  let^ deception_events :=
    parse_log (λ trimmed,
      let^ _ := im_lift (reject_deception_sensitive_json trimmed) in
      let^ record :=
        im_lift (or_malformed "deception_event_log" (deception_record_from_str trimmed)) in
      deception_event_from_jsonl record) content in
  im_ok (mkParsed _ [] [] [] [] [] [] [] deception_events [] RsRedacted).
(* [portable_capture_lite.rs] parse_sdn_control_plane_log *)
Definition parse_sdn_control_plane_log (content : string) : IM ParsedPortableCaptureInput :=
  let^ metadata :=
    parse_log (λ trimmed,
      let^ _ := im_lift (reject_sdn_sensitive_json trimmed) in
      let^ record := im_lift (json_value_of "sdn_control_plane_log" trimmed) in
      sdn_control_plane_metadata_from_json record) content in
  im_ok (mkParsed _ [] [] [] [] [] [] [] [] metadata RsRedacted).
(* [portable_capture_lite.rs] parse_auth_security_log *)
Definition parse_auth_security_log (content : string) : IM ParsedPortableCaptureInput :=
  match List.find (λ line, negb (is_empty (trim line))) (lines content) with
  | None => im_err PeEmptyInput
  | Some first_line =>
      let^ auth_metadata :=
        parse_log (λ trimmed,
          let^ record :=
            im_lift (if starts_with (trim_start first_line) "{"
                     then let? record :=
                            or_malformed "auth_security_log" (auth_record_from_str trimmed) in
                          parsed_auth_record_from_jsonl record
                     else parsed_auth_record_from_text_line trimmed) in
          auth_metadata_from_parsed_auth record) content in
      let redaction_status :=
        if existsb (λ item, bool_decide (am_redaction_status item = RsHashed)) auth_metadata
        then RsHashed else RsRedacted in
      im_ok (mkParsed _ [] [] [] [] [] auth_metadata [] [] [] redaction_status)
  end.
End parsers.

(* ------------------------------------------------------------------ *)
(** ** The prepared batch *)

(* [portable_capture_lite.rs] DeclaredTopicFlags *)
Record DeclaredTopicFlags := mkTopicFlags {
  has_flow : bool;
  has_session : bool;
  has_dns : bool;
  has_tls : bool;
  has_http : bool;
  has_auth : bool;
  has_saas_cloud : bool;
  has_deception : bool;
  has_sdn_control_plane : bool
}.
(* [capabilities/src/risk_alerting.rs:19-19] ALERT_CANDIDATE_CONTRACT *)
Definition ALERT_CANDIDATE_CONTRACT : string := "security.alert_candidate".
(* [capabilities/src/risk_alerting.rs:20-20] INCIDENT_CANDIDATE_CONTRACT *)
Definition INCIDENT_CANDIDATE_CONTRACT : string := "security.incident_candidate".
Definition topic_if (cond : bool) (topic : string) : list string := if cond then [topic] else [].
(* [portable_capture_lite.rs] declared_topics *)
Definition declared_topics (flags : DeclaredTopicFlags) : list string :=
  [SERVICE_CAPABILITY_STATUS; SECURITY_FUSION_CONTEXT] ++
  topic_if (has_flow flags) NETWORK_FLOW_RECORD ++
  topic_if (has_session flags) NETWORK_SESSION_RECORD ++
  topic_if (has_dns flags) NETWORK_DNS_OBSERVATION ++
  topic_if (has_tls flags) NETWORK_TLS_OBSERVATION ++
  topic_if (has_http flags) NETWORK_HTTP_METADATA ++
  topic_if (has_auth flags) IDENTITY_AUTH_METADATA ++
  topic_if (has_saas_cloud flags) CLOUD_SAAS_METADATA ++
  topic_if (has_deception flags) DECEPTION_EVENT_METADATA ++
  topic_if (has_sdn_control_plane flags) NETWORK_SDN_CONTROL_PLANE_METADATA ++
  [SECURITY_FINDING; SECURITY_EVIDENCE; "security.risk_hint"; SECURITY_RISK;
   ALERT_CANDIDATE_CONTRACT; SECURITY_ALERT; INCIDENT_CANDIDATE_CONTRACT; SECURITY_INCIDENT;
   GRAPH_HINT; SECURITY_FACT; SECURITY_HYPOTHESIS; SECURITY_FUSION_SUMMARY].

(** [item.provenance_id = provenance.provenance_id.clone()] *)
Definition auth_from (id : DataSourceId) (m : PortableAuthMetadata) : PortableAuthMetadata :=
  mkAuth (am_auth_metadata_id m) id (am_provider_category m)
    (am_identity_label_redacted m) (am_source_session_label m) (am_auth_result m)
    (am_mfa_result m) (am_role_privilege_class m) (am_device_client_category m)
    (am_destination_service_category m) (am_time_bucket_start m) (am_attempt_count_bucket m)
    (am_failure_reason_category m) (am_redaction_status m) (am_quality_score m).
Definition saas_from (id : DataSourceId) (m : PortableSaasCloudMetadata) :
    PortableSaasCloudMetadata :=
  mkSaasCloud (sc_saas_cloud_metadata_id m) id (sc_provider_category m)
    (sc_service_category m) (sc_provider_risk_category m) (sc_provider_confidence m)
    (sc_endpoint_fingerprint m) (sc_api_method_category m) (sc_status_bucket m)
    (sc_upload_download_ratio_bucket m) (sc_auth_result_category m)
    (sc_identity_label_redacted m) (sc_source_session_label m) (sc_destination_category m)
    (sc_time_bucket_start m) (sc_redaction_status m) (sc_evidence_refs m) (sc_quality_score m).
Definition deception_from (id : DataSourceId) (m : PortableDeceptionEventMetadata) :
    PortableDeceptionEventMetadata :=
  mkDeceptionEvent (de_deception_event_id m) id (de_decoy_sensor_ref m)
    (de_event_category m) (de_source_context_category m) (de_destination_service_category m)
    (de_interaction_count_bucket m) (de_protocol_category m) (de_time_bucket_start m)
    (de_redaction_status m) (de_evidence_refs m) (de_quality_score m).
Definition sdn_from (id : DataSourceId) (m : PortableSdnControlPlaneMetadata) :
    PortableSdnControlPlaneMetadata :=
  mkSdnControl (sd_sdn_control_plane_metadata_id m) id
    (sd_controller_category m) (sd_event_category m) (sd_impact_scope_bucket m)
    (sd_reliability_bucket m) (sd_policy_action_category m) (sd_route_change_category m)
    (sd_topology_change_category m) (sd_affected_asset_category m) (sd_exposure_category m)
    (sd_status_bucket m) (sd_count_bucket m) (sd_time_bucket_start m) (sd_redaction_status m)
    (sd_missing_visibility_flags m) (sd_evidence_refs m) (sd_quality_score m).

(** [list.is_empty()] *)
Definition none {A : Type} (l : list A) : bool := match l with [] => true | _ => false end.

Section batch.
Context `{CaptureTypes}.

(** [list.len() as u32] *)
Definition len_u32 {A : Type} (l : list A) : N := len l mod (u32_max + 1).
Definition record_counts_of (p : ParsedPortableCaptureInput) : PortableCaptureRecordCounts :=
  mkRecordCounts (len_u32 (pi_flow_records p)) (len_u32 (pi_session_records p))
    (len_u32 (pi_dns_observations p)) (len_u32 (pi_tls_observations p))
    (len_u32 (pi_http_metadata p)) (len_u32 (pi_auth_metadata p))
    (len_u32 (pi_saas_cloud_metadata p)) (len_u32 (pi_deception_events p))
    (len_u32 (pi_sdn_control_plane_metadata p)).
Definition topic_flags_of (p : ParsedPortableCaptureInput) : DeclaredTopicFlags :=
  mkTopicFlags (negb (none (pi_flow_records p))) (negb (none (pi_session_records p)))
    (negb (none (pi_dns_observations p))) (negb (none (pi_tls_observations p)))
    (negb (none (pi_http_metadata p))) (negb (none (pi_auth_metadata p)))
    (negb (none (pi_saas_cloud_metadata p))) (negb (none (pi_deception_events p)))
    (negb (none (pi_sdn_control_plane_metadata p))).
Definition too_many {A : Type} (l : list A) : bool := MAX_PORTABLE_CAPTURE_RECORDS <? len l.

(* [portable_capture_lite.rs] build_portable_capture_prepared_batch *)
Definition build_portable_capture_prepared_batch (source_type : PortableCaptureInputSourceType)
    (p : ParsedPortableCaptureInput) : IM PortableCaptureLitePreparedBatch :=
  if (negb (none (pi_flow_records p)) && none (pi_session_records p)) ||
     (none (pi_flow_records p) && negb (none (pi_session_records p)))
  then im_err (PeMalformed "metadata")
  else if none (pi_flow_records p) && none (pi_session_records p) &&
          none (pi_dns_observations p) && none (pi_tls_observations p) &&
          none (pi_http_metadata p) && none (pi_auth_metadata p) &&
          none (pi_saas_cloud_metadata p) && none (pi_deception_events p) &&
          none (pi_sdn_control_plane_metadata p)
  then im_err (PeMalformed "metadata")
  else if too_many (pi_flow_records p) || too_many (pi_session_records p) ||
          too_many (pi_dns_observations p) || too_many (pi_tls_observations p) ||
          too_many (pi_http_metadata p) || too_many (pi_auth_metadata p) ||
          too_many (pi_saas_cloud_metadata p) || too_many (pi_deception_events p) ||
          too_many (pi_sdn_control_plane_metadata p)
  then im_err PeTooManyRecords
  else
    let^ provenance :=
      im_st (Provenance_new source_type (record_counts_of p) (pi_redaction_status p)) in
    let id := pv_provenance_id provenance in
    im_ok (mkBatch _ provenance (pi_flow_records p) (pi_session_records p)
             (pi_dns_observations p) (pi_tls_observations p) (pi_http_metadata p)
             (map (auth_from id) (pi_auth_metadata p))
             (map (saas_from id) (pi_saas_cloud_metadata p))
             (map (deception_from id) (pi_deception_events p))
             (map (sdn_from id) (pi_sdn_control_plane_metadata p))
             (declared_topics (topic_flags_of p))).

(** [item.provider_category != ... || item.redaction_status != Redacted] *)
(* [portable_capture_lite.rs] prepare_object_storage_provider_metadata_import *)
Definition prepare_object_storage_provider_metadata_import
    (metadata : list PortableSaasCloudMetadata) : IM PortableCaptureLitePreparedBatch :=
  if none metadata then im_err PeEmptyInput
  else if existsb (λ item, negb (bool_decide (sc_provider_category item = PcObjectStorage)) ||
                           negb (bool_decide (sc_redaction_status item = RsRedacted))) metadata
  then im_err (PeMalformed "object_storage_provider_metadata")
  else build_portable_capture_prepared_batch ImportedObjectStorageAuditLog
         (mkParsed _ [] [] [] [] [] [] metadata [] [] RsRedacted).

(** The formats whose parsers are not part of this development are [other]. *)
(* [portable_capture_lite.rs] preview_portable_capture_import *)
Definition preview_portable_capture_import `{Sha256} `{JsonText} `{JsonNumber} `{ImportText}
    (other : PortableCaptureInputSourceType → string → IM ParsedPortableCaptureInput)
    (source_type : PortableCaptureInputSourceType) (content : string) (file_size_bytes : N) :
    IM PortableCaptureLitePreparedBatch :=
  if MAX_PORTABLE_CAPTURE_IMPORT_BYTES <? file_size_bytes then im_err PeOversizedFile
  else if is_empty (trim content) then im_err PeEmptyInput
  else
    let^ parsed :=
      match source_type with
      | ImportedSdnControlPlaneLog => parse_sdn_control_plane_log content
      | ImportedObjectStorageAuditLog => parse_object_storage_audit_log content
      | ImportedAuthSecurityLog => parse_auth_security_log content
      | ImportedSaasCloudMetadata => parse_saas_cloud_metadata_log content
      | ImportedDeceptionEventLog => parse_deception_event_log content
      | LocalProxyMetadata => im_err PeUnsupportedSourceType
      | _ => other source_type content
      end in
    build_portable_capture_prepared_batch source_type parsed.
End batch.
