(* ===== verification/ImportLogsFacts.v ===== *)
(** * Properties of imported logs *)

From S2P Require Import Prelude Collections RustStr RustText Effects Contracts Checks Json.
From S2P Require Import CallerVerification MutationAuthorization Topics PortablePreferences.
From S2P Require Import ImportContracts ImportRedaction ImportRedactionFacts ImportCategories.
From S2P Require Import ImportLogs.
From Stdlib Require Import SpecFloat.

#[local] Open Scope string_scope.
#[local] Open Scope list_scope.
#[local] Open Scope N_scope.

(* ------------------------------------------------------------------ *)
(** ** Fallible steps *)

Lemma im_bind_ok {A B : Type} (m : IM A) (f : A → IM B) w y w' :
  im_bind m f w = (Ok y, w') → ∃ x w1, m w = (Ok x, w1) ∧ f x w1 = (Ok y, w').
Proof.
  unfold im_bind, st_bind. destruct (m w) as [[x|e] w1]; [|done]. intros Hf. by exists x, w1.
Qed.
Lemma im_bind_err {A B : Type} (m : IM A) (f : A → IM B) w e w' :
  im_bind m f w = (Err e, w') →
  m w = (Err e, w') ∨ ∃ x w1, m w = (Ok x, w1) ∧ f x w1 = (Err e, w').
Proof.
  unfold im_bind, st_bind. destruct (m w) as [[x|e1] w1].
  - intros Hf. right. by exists x, w1.
  - intros [= -> ->]. by left.
Qed.
Lemma im_lift_ok {A : Type} (r : result A PortableCaptureLiteError) w x w' :
  im_lift r w = (Ok x, w') → r = Ok x ∧ w' = w.
Proof. by intros [= -> ->]. Qed.
Lemma im_st_ok {A : Type} (m : ST A) w x w' : im_st m w = (Ok x, w') → m w = (x, w').
Proof. unfold im_st, st_bind, st_ret. destruct (m w) as [y w1]. by intros [= -> ->]. Qed.

(** Takes a successful run apart, step by step. *)
Ltac im_inv H :=
  repeat match type of H with
  | im_bind _ _ _ = (Ok _, _) =>
      let x := fresh "x" in let w1 := fresh "w" in let Hx := fresh "Hstep" in
      apply im_bind_ok in H as (x & w1 & Hx & H);
      lazymatch type of Hx with
      | im_lift _ _ = _ => apply im_lift_ok in Hx as [Hx ->]
      | im_st _ _ = _ => apply im_st_ok in Hx
      | _ => idtac
      end
  | im_ok _ _ = (Ok _, _) => injection H as H ?
  | im_err _ _ = (Ok _, _) => discriminate H
  | (if ?b then _ else _) _ = _ => let Hb := fresh "Hguard" in destruct b eqn:Hb
  end.

(* ------------------------------------------------------------------ *)
(** ** Scores *)

Definition in_unit (x : f32) : bool := SFleb Quality.f32_zero x && SFleb x Quality.f32_one.

Lemma q_in_unit `{ImportText} x : in_unit x = true → q x = Ok (Quality.mkScore x).
Proof. unfold q, Quality.QualityScore_new, in_unit. by intros ->. Qed.

Ltac score_cases :=
  repeat match goal with
  | |- context [bool_decide ?P] => generalize (bool_decide P); intros []
  end; vm_compute; reflexivity.

Lemma sdn_score_in_unit m : in_unit (sdn_control_plane_quality_score m) = true.
Proof. unfold sdn_control_plane_quality_score. destruct (sd_reliability_bucket m); score_cases. Qed.
Lemma saas_score_in_unit m : in_unit (saas_cloud_quality_score m) = true.
Proof. unfold saas_cloud_quality_score. destruct (sc_provider_confidence m); score_cases. Qed.
Lemma deception_score_in_unit m : in_unit (deception_quality_score m) = true.
Proof. unfold deception_quality_score. score_cases. Qed.
Lemma auth_score_in_unit m : in_unit (auth_quality_score m) = true.
Proof. unfold auth_quality_score. score_cases. Qed.

(* ------------------------------------------------------------------ *)
(** ** Lines *)

Definition filled (line : string) : bool := negb (is_empty (trim line)).

Section lines.
Context {A : Type} (parse : string → IM A).

Lemma collect_lines_ok count ls w xs w' :
  collect_lines parse count ls w = (Ok xs, w') →
  (count ≤ MAX_PORTABLE_CAPTURE_RECORDS → count + len xs ≤ MAX_PORTABLE_CAPTURE_RECORDS) ∧
  Forall2 (λ line x, ∃ w1 w2, parse (trim line) w1 = (Ok x, w2)) (List.filter filled ls) xs.
Proof.
  revert count w xs. induction ls as [|line ls IH]; intros count w xs Hr; cbn [collect_lines] in Hr.
  { im_inv Hr. subst. split; [unfold len; simpl; lia|constructor]. }
  unfold filled in *. cbn [List.filter]. destruct (is_empty (trim line)) eqn:He; cbn [negb].
  { by apply (IH count w). }
  im_inv Hr. subst. apply IH in Hstep0 as [Hc Hl]. bool_prop. split.
  - intros _. rewrite len_cons. lia.
  - constructor; [by eauto|done].
Qed.

(** A log that is accepted has one record per line that is not blank, of which there are at
    least one and at most the limit. *)
Lemma parse_log_ok content w xs w' :
  parse_log parse content w = (Ok xs, w') →
  1 ≤ len xs ≤ MAX_PORTABLE_CAPTURE_RECORDS ∧
  Forall2 (λ line x, ∃ w1 w2, parse (trim line) w1 = (Ok x, w2))
    (List.filter filled (lines content)) xs.
Proof.
  unfold parse_log. intros Hr. apply im_bind_ok in Hr as (records & w1 & Hc & Hr).
  apply collect_lines_ok in Hc as [Hlen Hl].
  destruct records as [|x records]; [discriminate Hr|]. injection Hr as <- _.
  split; [|done]. split; [rewrite len_cons; lia|]. etrans; [|apply Hlen; done]. lia.
Qed.

Lemma parse_log_forall (P : A → Prop) content w xs w' :
  (∀ line w1 x w2, parse line w1 = (Ok x, w2) → P x) →
  parse_log parse content w = (Ok xs, w') → Forall P xs.
Proof.
  intros HP Hr. apply parse_log_ok in Hr as [_ Hl].
  induction Hl as [|line x ls xs (w1 & w2 & Hx) Hl IH]; constructor; [|done]. by eapply HP.
Qed.
End lines.

(* ------------------------------------------------------------------ *)
(** ** Alphabets *)

Lemma filter_chars_all p s : all_chars p (filter_chars p s) = true.
Proof. induction s as [|c s IH]; [done|]. cbn [filter_chars]. destruct (p c) eqn:Hc; [|done]. cbn. by rewrite Hc. Qed.
Lemma str_first_all p n s : all_chars p s = true → all_chars p (str_first n s) = true.
Proof.
  revert s. induction n as [|n IH]; intros [|c s]; try done.
  cbn. intros [Hc Hs]%andb_true_iff. by rewrite Hc, IH.
Qed.
Lemma str_first_length n s : (String.length (str_first n s) ≤ n)%nat.
Proof. revert s. induction n as [|n IH]; intros [|c s]; cbn; [lia..|]. specialize (IH s). lia. Qed.
Lemma trim_start_matches_all p q s :
  all_chars p s = true → all_chars p (trim_start_matches q s) = true.
Proof.
  induction s as [|c s IH]; [done|]. cbn [trim_start_matches]. intros Hs.
  destruct (q c); [|done]. apply IH. by apply andb_true_iff in Hs as [_ Hs].
Qed.
Lemma trim_end_matches_all p q s :
  all_chars p s = true → all_chars p (trim_end_matches q s) = true.
Proof.
  induction s as [|c s IH]; [done|]. intros [Hc Hs]%andb_true_iff. cbn [trim_end_matches].
  destruct (all_chars q (String c s)); [done|]. cbn. by rewrite Hc, IH.
Qed.
Lemma trim_matches_all p q s : all_chars p s = true → all_chars p (trim_matches q s) = true.
Proof. intros Hs. by apply trim_end_matches_all, trim_start_matches_all. Qed.
Lemma replace_chars_all p d s : p d = true → all_chars p (replace_chars p d s) = true.
Proof.
  intros Hd. induction s as [|c s IH]; [done|]. cbn [replace_chars].
  destruct (continues c); [done|]. cbn. rewrite IH, andb_true_r. by destruct (p c) eqn:Hc.
Qed.

(** Lower-case letters, digits and [_-.]. *)
Definition is_plain_char (c : ascii) : bool :=
  is_ascii_lowercase c || is_ascii_digit c || one_of ["_"; "-"; "."]%char c.
Definition plain (s : string) : Prop := all_chars is_plain_char s = true.

Lemma lowercase_plain p s :
  (∀ c, p c = true → is_ascii_alphanumeric c || one_of ["_"; "-"; "."]%char c = true) →
  all_chars p s = true → plain (to_ascii_lowercase s).
Proof.
  unfold plain, to_ascii_lowercase. intros Hp. induction s as [|c s IH]; [done|].
  intros [Hc%Hp Hs]%andb_true_iff. cbn [map_chars all_chars]. rewrite IH, andb_true_r by done.
  revert Hc. clear. by destruct c as [[] [] [] [] [] [] [] []].
Qed.

Lemma safe_category_plain value :
  plain (safe_category_string value) ∧ (String.length (safe_category_string value) ≤ 64)%nat.
Proof.
  unfold safe_category_string. set (kept := str_first 64 _).
  assert (plain (to_ascii_lowercase kept)) as Hp.
  { apply (lowercase_plain (λ c, is_ascii_alphanumeric c || one_of ["_"; "-"; "."]%char c)); [done|].
    apply str_first_all, filter_chars_all. }
  assert (String.length (to_ascii_lowercase kept) ≤ 64)%nat as Hl.
  { unfold to_ascii_lowercase. rewrite map_chars_length. apply str_first_length. }
  destruct (is_empty _); [|done]. split; [done|]. vm_compute. lia.
Qed.

Lemma lowercase_label s :
  plain (replace_chars is_label_char "_" (to_ascii_lowercase s)).
Proof.
  pose proof (replace_chars_all is_label_char "_" (to_ascii_lowercase s) eq_refl) as Hl.
  pose proof (to_ascii_lowercase_no_upper s) as Hu.
  assert (all_chars (λ c, negb (is_ascii_uppercase c))
            (replace_chars is_label_char "_" (to_ascii_lowercase s)) = true) as Hn.
  { clear Hl. revert Hu. generalize (to_ascii_lowercase s). intros t.
    induction t as [|c t IH]; [done|]. intros [Hc Ht]%andb_true_iff. cbn [replace_chars].
    destruct (continues c); [by apply IH|]. cbn [all_chars]. rewrite IH, andb_true_r by done.
    by destruct (is_label_char c). }
  unfold plain. revert Hl Hn. generalize (replace_chars is_label_char "_" (to_ascii_lowercase s)).
  intros t. induction t as [|c t IH]; [done|]. cbn [all_chars].
  intros [Hc Hl]%andb_true_iff [Hu' Hn]%andb_true_iff. rewrite IH, andb_true_r by done.
  revert Hc Hu'. clear. by destruct c as [[] [] [] [] [] [] [] []].
Qed.

Lemma deception_category_plain raw fallback :
  plain fallback → plain (normalize_deception_safe_category raw fallback).
Proof.
  intros Hf. unfold normalize_deception_safe_category.
  assert (plain (trim_matches is_underscore
    (replace_chars is_label_char "_" (to_ascii_lowercase (default fallback raw))))) as Hp
    by apply trim_matches_all, lowercase_label.
  by repeat case_match.
Qed.

(* ------------------------------------------------------------------ *)
(** ** What the records of an import may say *)

Definition among (words : list string) (text : option string) : Prop :=
  match text with Some s => s ∈ words | None => True end.
Definition some_plain (text : option string) : Prop :=
  match text with Some s => plain s | None => True end.
Definition short_plain (text : option string) : Prop :=
  match text with Some s => plain s ∧ (String.length s ≤ 64)%nat | None => True end.
(** Nothing but a hash, after one of these prefixes. *)
Definition marked (prefixes : list string) (text : option string) : Prop :=
  match text with Some s => existsb (starts_with s) prefixes = true | None => True end.

(** The words of the tables. *)
Definition ASSETS : list string :=
  ["network_device"; "server"; "cloud_workload"; "endpoint"; "iot_or_ot"].
Definition EXPOSURES : list string :=
  ["lateral_path"; "new_exposure"; "reduced_exposure"; "no_change"].
Definition VISIBILITY_FLAGS : list string :=
  ["metadata_only_visibility"; "no_packet_content_visibility";
   "no_live_controller_api_visibility"].
Definition STORAGE_RESULTS : list string :=
  ["blocked"; "success"; "failure"; "unknown"].
Definition STORAGE_SCOPES : list string :=
  ["public_bucket"; "cross_account"; "private_bucket"; "archive_storage";
   "restricted_storage"; "object_storage"].
Definition SAAS_RESULTS : list string :=
  ["success"; "failure"; "blocked"; "challenge"; "timeout"; "unknown"].
Definition ROLES : list string :=
  ["privileged"; "service"; "guest"; "standard"].
Definition DEVICES : list string :=
  ["browser"; "mobile"; "desktop"; "vpn_client"; "automation"; "other"].
Definition SERVICES : list string :=
  ["ssh"; "rdp"; "smb"; "vpn"; "admin_portal"; "sso"; "auth_gateway"; "saas"; "other"].
Definition FAILURES : list string :=
  ["invalid_password"; "account_locked"; "mfa_timeout"; "mfa_denied"; "policy_block";
   "access_denied"; "network_denied"; "other"].
Definition PROVIDERS : list string :=
  ["vpn"; "remote_admin"; "waf_gateway"; "reverse_proxy"; "external_identity"; "idp"].
Definition STORAGE_SERVICES : list string :=
  ["aws_s3"; "azure_blob"; "google_cloud_storage"; "cloudflare_r2"; "minio";
   "object_storage"].

Section vocabulary.
Context `{Sha256} `{JsonText} `{JsonNumber} `{ImportText} `{CaptureTypes}.

Definition hashed (prefix : string) (text : option string) : Prop :=
  match text with Some s => ∃ value, s = redact_auth_label prefix value | None => True end.

Definition sdn_vocabulary (m : PortableSdnControlPlaneMetadata) : Prop :=
  short_plain (sd_policy_action_category m) ∧ short_plain (sd_route_change_category m) ∧
  short_plain (sd_topology_change_category m) ∧ short_plain (sd_count_bucket m) ∧
  among ASSETS
    (sd_affected_asset_category m) ∧
  among EXPOSURES (sd_exposure_category m) ∧
  sd_missing_visibility_flags m = VISIBILITY_FLAGS ∧
  sd_redaction_status m = RsRedacted.

Definition object_storage_vocabulary (m : PortableSaasCloudMetadata) : Prop :=
  sc_provider_category m = PcObjectStorage ∧
  among STORAGE_SERVICES (sc_service_category m) ∧
  among STORAGE_RESULTS (sc_auth_result_category m) ∧
  among STORAGE_SCOPES (sc_destination_category m) ∧
  marked ["endpoint#"; "route#"] (sc_endpoint_fingerprint m) ∧
  sc_identity_label_redacted m = None ∧ sc_source_session_label m = None ∧
  sc_redaction_status m = RsRedacted.

Definition saas_vocabulary (m : PortableSaasCloudMetadata) : Prop :=
  some_plain (sc_service_category m) ∧ some_plain (sc_destination_category m) ∧
  among SAAS_RESULTS
    (sc_auth_result_category m) ∧
  marked ["endpoint#"; "route#"] (sc_endpoint_fingerprint m) ∧
  hashed "identity" (sc_identity_label_redacted m) ∧ hashed "session" (sc_source_session_label m).

Definition deception_vocabulary (m : PortableDeceptionEventMetadata) : Prop :=
  plain (de_event_category m) ∧ some_plain (de_source_context_category m) ∧
  some_plain (de_destination_service_category m) ∧
  marked ["sensor#"; "decoy#"] (de_decoy_sensor_ref m) ∧ de_redaction_status m = RsRedacted.

Definition auth_vocabulary (m : PortableAuthMetadata) : Prop :=
  am_provider_category m ∈ PROVIDERS ∧
  among ROLES (am_role_privilege_class m) ∧
  among DEVICES
    (am_device_client_category m) ∧
  among SERVICES
    (am_destination_service_category m) ∧
  among FAILURES (am_failure_reason_category m) ∧
  hashed "identity" (am_identity_label_redacted m) ∧ hashed "session" (am_source_session_label m).

Lemma hashed_label prefix value : hashed prefix (redact_auth_label prefix <$> value).
Proof. destruct value as [v|]; [by exists v|done]. Qed.

Lemma starts_with_app pat s : starts_with (pat ++ s)%string pat = true.
Proof. apply prefix_spec. by exists s. Qed.
Lemma fingerprint_marked value :
  marked ["endpoint#"; "route#"] (normalize_endpoint_fingerprint value).
Proof.
  destruct value as [v|]; [|done]. cbn [normalize_endpoint_fingerprint mbind option_bind].
  destruct (_ || _) eqn:Hs; unfold marked; cbn [existsb]; rewrite orb_false_r; [done|].
  by rewrite starts_with_app.
Qed.
Lemma ref_marked value : marked ["sensor#"; "decoy#"] (normalize_deception_ref value).
Proof.
  destruct value as [v|]; [|done]. cbn [normalize_deception_ref mbind option_bind].
  destruct (_ || _) eqn:Hs; unfold marked; cbn [existsb]; rewrite orb_false_r; [done|].
  by rewrite starts_with_app.
Qed.

(** A table of words: every branch gives one of them. *)
Ltac among_words :=
  repeat match goal with
  | |- context [if ?b then _ else _] =>
      lazymatch b with bool_decide (_ = "unknown") => fail | _ => destruct b end
  end;
  simpl; try done; unfold among; set_solver.
Lemma asset_words raw : among ASSETS (normalize_sdn_asset_category raw).
Proof. destruct raw; [|done]. unfold normalize_sdn_asset_category. cbn [fmap option_fmap option_map mbind option_bind]. among_words. Qed.
Lemma exposure_words raw : among EXPOSURES (normalize_sdn_exposure_category raw).
Proof. destruct raw; [|done]. unfold normalize_sdn_exposure_category. cbn [fmap option_fmap option_map mbind option_bind]. among_words. Qed.
Lemma storage_result_words raw : among STORAGE_RESULTS (normalize_object_storage_auth_result raw).
Proof. destruct raw; [|done]. unfold normalize_object_storage_auth_result. cbn [fmap option_fmap option_map mbind option_bind]. among_words. Qed.
Lemma storage_destination_words raw : among STORAGE_SCOPES (normalize_object_storage_destination_category raw).
Proof. destruct raw; [|done]. unfold normalize_object_storage_destination_category. cbn [fmap option_fmap option_map mbind option_bind]. among_words. Qed.
Lemma saas_result_words raw : among SAAS_RESULTS (normalize_saas_auth_result raw).
Proof. destruct raw; [|done]. unfold normalize_saas_auth_result. cbn [fmap option_fmap option_map mbind option_bind]. among_words. Qed.
Lemma role_words raw : among ROLES (normalize_role_privilege_class raw).
Proof. destruct raw; [|done]. unfold normalize_role_privilege_class. cbn [fmap option_fmap option_map mbind option_bind]. among_words. Qed.
Lemma device_words raw : among DEVICES (normalize_device_client_category raw).
Proof. destruct raw; [|done]. unfold normalize_device_client_category. cbn [fmap option_fmap option_map mbind option_bind]. among_words. Qed.
Lemma service_words raw : among SERVICES (normalize_destination_service_category raw).
Proof. destruct raw; [|done]. unfold normalize_destination_service_category. cbn [fmap option_fmap option_map mbind option_bind]. among_words. Qed.
Lemma failure_words raw : among FAILURES (normalize_failure_reason_category raw).
Proof. destruct raw; [|done]. unfold normalize_failure_reason_category. cbn [fmap option_fmap option_map mbind option_bind]. among_words. Qed.
Lemma provider_words raw hint : normalize_auth_provider_category raw hint ∈ PROVIDERS.
Proof. unfold normalize_auth_provider_category. among_words. Qed.
Lemma storage_service_words hint service :
  among STORAGE_SERVICES (normalize_object_storage_service_category hint service).
Proof. unfold normalize_object_storage_service_category. cbv zeta. among_words. Qed.

Lemma optional_category_short raw : short_plain (normalize_sdn_optional_category raw).
Proof.
  destruct raw as [value|]; [|done]. unfold normalize_sdn_optional_category.
  cbn [mbind option_bind].
  repeat match goal with |- context [if ?b then _ else _] => destruct b end;
    try (split; [done|vm_compute; lia]).
  apply safe_category_plain.
Qed.
Lemma count_bucket_short raw count : short_plain (sdn_count_bucket raw count).
Proof.
  assert (short_plain (count_bucket count)) as Hc.
  { destruct count as [n|]; [|done]. unfold count_bucket. cbn [mbind option_bind].
    repeat match goal with |- context [if ?b then _ else _] => destruct b end;
      (split; [done|vm_compute; lia]). }
  unfold sdn_count_bucket. destruct raw as [raw|]; [|done].
  destruct (has _ _); [apply safe_category_plain|done].
Qed.
Lemma safe_category_some_plain value : some_plain (normalize_saas_safe_category value).
Proof.
  destruct value as [v|]; [|done]. unfold normalize_saas_safe_category. cbn [mbind option_bind].
  destruct (is_empty _); [done|]. apply lowercase_label.
Qed.
Lemma deception_optional_plain value : some_plain (normalize_deception_optional_category value).
Proof.
  destruct value as [v|]; [|done]. unfold normalize_deception_optional_category.
  cbn [mbind option_bind]. case_bool_decide; [done|]. by apply deception_category_plain.
Qed.

Lemma sdn_record_vocabulary record w m w' :
  sdn_control_plane_metadata_from_json record w = (Ok m, w') → sdn_vocabulary m.
Proof.
  unfold sdn_control_plane_metadata_from_json. intros Hr. im_inv Hr. subst m.
  injection Hstep0 as <- _.
  unfold sdn_vocabulary, sdn_scored, sdn_fields. cbn. split_and!; try done.
  1-3: apply optional_category_short.
  - apply count_bucket_short.
  - apply asset_words.
  - apply exposure_words.
Qed.

Lemma object_storage_record_vocabulary record w m w' :
  object_storage_metadata_from_json record w = (Ok m, w') → object_storage_vocabulary m.
Proof.
  unfold object_storage_metadata_from_json. intros Hr. im_inv Hr. subst m.
  injection Hstep0 as <- _.
  unfold object_storage_vocabulary, saas_scored, object_storage_fields. cbn.
  split_and!; try done.
  - apply storage_service_words.
  - apply storage_result_words.
  - apply storage_destination_words.
  - apply fingerprint_marked.
Qed.

Lemma saas_record_vocabulary record w m w' :
  saas_cloud_metadata_from_jsonl record w = (Ok m, w') → saas_vocabulary m.
Proof.
  unfold saas_cloud_metadata_from_jsonl. intros Hr. im_inv Hr. subst m.
  injection Hstep0 as <- _.
  unfold saas_vocabulary, saas_scored, saas_fields. cbn.
  split_and!; try apply safe_category_some_plain; try apply hashed_label.
  - apply saas_result_words.
  - apply fingerprint_marked.
Qed.

Lemma deception_record_vocabulary record w m w' :
  deception_event_from_jsonl record w = (Ok m, w') → deception_vocabulary m.
Proof.
  unfold deception_event_from_jsonl. intros Hr. im_inv Hr. subst m.
  injection Hstep0 as <- _.
  unfold deception_vocabulary, deception_scored, deception_fields. cbn.
  split_and!; try done; try apply deception_optional_plain.
  - by apply deception_category_plain.
  - apply ref_marked.
Qed.

(** What a parsed record of authentication may say. *)
Definition parsed_vocabulary (r : ParsedAuthRecord) : Prop :=
  pa_provider_category r ∈ PROVIDERS ∧
  among ROLES (pa_role_privilege_class r) ∧
  among DEVICES
    (pa_device_client_category r) ∧
  among SERVICES
    (pa_destination_service_category r) ∧
  among FAILURES (pa_failure_reason_category r).

Lemma parsed_tables t provider hint identity session result mfa role device n reason :
  parsed_vocabulary (mkParsedAuth t (normalize_auth_provider_category provider hint) identity
    session result mfa (normalize_role_privilege_class role)
    (normalize_device_client_category device) (normalize_destination_service_category hint) n
    (normalize_failure_reason_category reason)).
Proof.
  unfold parsed_vocabulary. cbn. split_and!.
  - apply provider_words.
  - apply role_words.
  - apply device_words.
  - apply service_words.
  - apply failure_words.
Qed.

Lemma parsed_json_vocabulary record r :
  parsed_auth_record_from_jsonl record = Ok r → parsed_vocabulary r.
Proof.
  unfold parsed_auth_record_from_jsonl. intros (t & _ & [= <-])%res_bind_ok. apply parsed_tables.
Qed.
Lemma parsed_line_vocabulary line r :
  parsed_auth_record_from_text_line line = Ok r → parsed_vocabulary r.
Proof.
  unfold parsed_auth_record_from_text_line. intros (t & _ & [= <-])%res_bind_ok.
  apply parsed_tables.
Qed.

Lemma auth_record_vocabulary record w m w' :
  parsed_vocabulary record →
  auth_metadata_from_parsed_auth record w = (Ok m, w') → auth_vocabulary m.
Proof.
  intros (? & ? & ? & ? & ?). unfold auth_metadata_from_parsed_auth. intros Hr. im_inv Hr.
  subst m. injection Hstep as <- _. unfold auth_vocabulary, auth_scored, auth_fields. cbn.
  split_and!; try done; apply hashed_label.
Qed.

(** C16. Whatever the lines of a log contain, every text of the records of a network-control,
    object-storage, cloud, deception or authentication log is a word of a fixed list, a
    plain label, a hash, or carries one of the marks of a fingerprint. *)
Theorem import_vocabulary content w p w' :
  (parse_sdn_control_plane_log content w = (Ok p, w') →
     Forall sdn_vocabulary (pi_sdn_control_plane_metadata p)) ∧
  (parse_object_storage_audit_log content w = (Ok p, w') →
     Forall object_storage_vocabulary (pi_saas_cloud_metadata p)) ∧
  (parse_saas_cloud_metadata_log content w = (Ok p, w') →
     Forall saas_vocabulary (pi_saas_cloud_metadata p)) ∧
  (parse_deception_event_log content w = (Ok p, w') →
     Forall deception_vocabulary (pi_deception_events p)) ∧
  (parse_auth_security_log content w = (Ok p, w') →
     Forall auth_vocabulary (pi_auth_metadata p)).
Proof.
  split_and!; intros Hr.
  1-4: apply im_bind_ok in Hr as (records & w1 & Hlog & [= <- _]); cbn;
    refine (parse_log_forall _ _ _ _ _ _ _ Hlog); intros line w2 x w3 Hx; im_inv Hx.
  - by eapply sdn_record_vocabulary.
  - by eapply object_storage_record_vocabulary.
  - by eapply saas_record_vocabulary.
  - by eapply deception_record_vocabulary.
  - unfold parse_auth_security_log in Hr. destruct (List.find _ _) as [first_line|]; [|done].
    apply im_bind_ok in Hr as (records & w1 & Hlog & [= <- _]). cbn.
    refine (parse_log_forall _ _ _ _ _ _ _ Hlog). intros line w2 x w3 Hx. im_inv Hx.
    eapply auth_record_vocabulary; [|exact Hx]. clear Hlog Hx.
    destruct (starts_with _ _).
    + apply res_bind_ok in Hstep as (record & _ & Hp). by eapply parsed_json_vocabulary.
    + by eapply parsed_line_vocabulary.
Qed.
End vocabulary.

(* ------------------------------------------------------------------ *)
(** ** Records are refused for their text only *)

Section errors.
Context `{Sha256} `{JsonText} `{JsonNumber} `{ImportText}.

Definition is_contract_error (e : PortableCaptureLiteError) : Prop :=
  match e with PeContract _ => True | _ => False end.

Lemma timestamp_text_error value e : timestamp_from_rfc3339 value = Err e → ¬ is_contract_error e.
Proof. unfold timestamp_from_rfc3339. destruct (parse_from_rfc3339 value); [done|]. intros [= <-]. by intros []. Qed.
Lemma gateway_text_error value e :
  timestamp_from_gateway_string value = Err e → ¬ is_contract_error e.
Proof.
  unfold timestamp_from_gateway_string. destruct (parse_from_rfc3339 value); [done|].
  destruct (parse_common_log_time value); [done|]. apply timestamp_text_error.
Qed.
Lemma record_timestamp_error format keys record e :
  record_timestamp format keys record = Err e → ¬ is_contract_error e.
Proof.
  unfold record_timestamp. destruct (u64_of _ _) as [n|].
  - unfold timestamp_from_epoch_millis. destruct (datetime_from_timestamp _ _); [done|].
    intros [= <-]. by intros [].
  - destruct (text_of _ _); [apply gateway_text_error|]. intros [= <-]. by intros [].
Qed.

(** Takes a failed run apart: which step failed. *)
Ltac im_err_inv H :=
  repeat match type of H with
  | im_bind _ _ _ = (Err _, _) =>
      let x := fresh "x" in let w1 := fresh "w" in let Hx := fresh "Hstep" in
      apply im_bind_err in H as [H|(x & w1 & Hx & H)]
  | (if ?b then _ else _) _ = _ => destruct b eqn:?
  end.

(** Every score the importer computes is a quality score: no record is refused because of
    its score, and an authentication record is never refused. *)
Theorem scores_never_refused :
  (∀ record w e, (sdn_control_plane_metadata_from_json record w).1 = Err e → ¬ is_contract_error e) ∧
  (∀ record w e, (object_storage_metadata_from_json record w).1 = Err e → ¬ is_contract_error e) ∧
  (∀ record w e, (saas_cloud_metadata_from_jsonl record w).1 = Err e → ¬ is_contract_error e) ∧
  (∀ record w e, (deception_event_from_jsonl record w).1 = Err e → ¬ is_contract_error e) ∧
  (∀ record w, is_ok (auth_metadata_from_parsed_auth record w).1 = true).
Proof.
  split_and!.
  - intros record w e. unfold sdn_control_plane_metadata_from_json.
    destruct (negb _); [intros [= <-]; by intros []|].
    unfold im_bind, im_lift, im_st, st_bind, st_ret.
    destruct (sdn_timestamp record) as [t|e'] eqn:Ht;
      [|intros [= <-]; by eapply record_timestamp_error].
    destruct (_ && _); [intros [= <-]; by intros []|].
    destruct (SdnControl_new _ _ _ _) as [m w1]. cbn.
    by rewrite q_in_unit by apply sdn_score_in_unit.
  - intros record w e. unfold object_storage_metadata_from_json.
    destruct (negb _); [intros [= <-]; by intros []|].
    unfold im_bind, im_lift, im_st, st_bind, st_ret.
    destruct (object_storage_timestamp record) as [t|e'] eqn:Ht;
      [|intros [= <-]; by eapply record_timestamp_error].
    destruct (SaasCloud_new _ _ _) as [m w1]. cbn.
    by rewrite q_in_unit by apply saas_score_in_unit.
  - intros record w e. unfold saas_cloud_metadata_from_jsonl.
    unfold im_bind, im_lift, im_st, st_bind, st_ret.
    destruct (first_owned _) as [value|]; [|intros [= <-]; by intros []].
    destruct (timestamp_from_rfc3339 value) as [t|e'] eqn:Ht;
      [|intros [= <-]; by eapply timestamp_text_error].
    destruct (SaasCloud_new _ _ _) as [m w1]. cbn.
    by rewrite q_in_unit by apply saas_score_in_unit.
  - intros record w e. unfold deception_event_from_jsonl.
    unfold im_bind, im_lift, im_st, st_bind, st_ret.
    destruct (first_owned [jd_timestamp record; _; _]) as [value|]; [|intros [= <-]; by intros []].
    destruct (timestamp_from_rfc3339 value) as [t|e'] eqn:Ht;
      [|intros [= <-]; by eapply timestamp_text_error].
    destruct (DeceptionEvent_new _ _ _ _) as [m w1]. cbn.
    by rewrite q_in_unit by apply deception_score_in_unit.
  - intros record w. unfold auth_metadata_from_parsed_auth.
    unfold im_bind, im_lift, im_st, st_bind, st_ret.
    destruct (Auth_new _ _ _ _) as [m w1]. cbn.
    by rewrite q_in_unit by apply auth_score_in_unit.
Qed.
End errors.

(* ------------------------------------------------------------------ *)
(** ** The prepared batch *)

Section batch.
Context `{CaptureTypes}.

(** What every batch is: within the limits, counted, of one provenance (in the four kinds of
    records that name theirs: authentication, cloud, deception and network control), with the
    topics of exactly the kinds of records it has. *)
Record batch_ok (source_type : PortableCaptureInputSourceType)
    (b : PortableCaptureLitePreparedBatch) : Prop := mkBatchOk {
  bo_source : pv_source_type (pb_provenance b) = source_type;
  bo_counts : pv_record_counts (pb_provenance b) =
    mkRecordCounts (len (pb_flow_records b)) (len (pb_session_records b))
      (len (pb_dns_observations b)) (len (pb_tls_observations b)) (len (pb_http_metadata b))
      (len (pb_auth_metadata b)) (len (pb_saas_cloud_metadata b)) (len (pb_deception_events b))
      (len (pb_sdn_control_plane_metadata b));
  bo_bounds : Forall (λ n, n ≤ MAX_PORTABLE_CAPTURE_RECORDS)
    [len (pb_flow_records b); len (pb_session_records b); len (pb_dns_observations b);
     len (pb_tls_observations b); len (pb_http_metadata b); len (pb_auth_metadata b);
     len (pb_saas_cloud_metadata b); len (pb_deception_events b);
     len (pb_sdn_control_plane_metadata b)];
  bo_sessions : pb_flow_records b = [] ↔ pb_session_records b = [];
  bo_provenance :
    Forall (λ m, am_provenance_id m = pv_provenance_id (pb_provenance b)) (pb_auth_metadata b) ∧
    Forall (λ m, sc_provenance_id m = pv_provenance_id (pb_provenance b))
      (pb_saas_cloud_metadata b) ∧
    Forall (λ m, de_provenance_id m = pv_provenance_id (pb_provenance b)) (pb_deception_events b) ∧
    Forall (λ m, sd_provenance_id m = pv_provenance_id (pb_provenance b))
      (pb_sdn_control_plane_metadata b);
  bo_topics :
    (NETWORK_FLOW_RECORD ∈ pb_declared_topics b ↔ pb_flow_records b ≠ []) ∧
    (NETWORK_SESSION_RECORD ∈ pb_declared_topics b ↔ pb_session_records b ≠ []) ∧
    (NETWORK_DNS_OBSERVATION ∈ pb_declared_topics b ↔ pb_dns_observations b ≠ []) ∧
    (NETWORK_TLS_OBSERVATION ∈ pb_declared_topics b ↔ pb_tls_observations b ≠ []) ∧
    (NETWORK_HTTP_METADATA ∈ pb_declared_topics b ↔ pb_http_metadata b ≠ []) ∧
    (IDENTITY_AUTH_METADATA ∈ pb_declared_topics b ↔ pb_auth_metadata b ≠ []) ∧
    (CLOUD_SAAS_METADATA ∈ pb_declared_topics b ↔ pb_saas_cloud_metadata b ≠ []) ∧
    (DECEPTION_EVENT_METADATA ∈ pb_declared_topics b ↔ pb_deception_events b ≠ []) ∧
    (NETWORK_SDN_CONTROL_PLANE_METADATA ∈ pb_declared_topics b ↔
       pb_sdn_control_plane_metadata b ≠ [])
}.

Lemma none_true {A : Type} (l : list A) : none l = true ↔ l = [].
Proof. by destruct l. Qed.
Lemma too_many_false {A : Type} (l : list A) :
  too_many l = false ↔ len l ≤ MAX_PORTABLE_CAPTURE_RECORDS.
Proof. apply N.ltb_ge. Qed.
Lemma len_u32_exact {A : Type} (l : list A) : too_many l = false → len_u32 l = len l.
Proof.
  intros Hl%too_many_false. apply N.mod_small. eapply N.le_lt_trans; [exact Hl|]. done.
Qed.
Lemma len_map {A B : Type} (f : A → B) l : len (map f l) = len l.
Proof. unfold len. by rewrite length_map. Qed.
Lemma map_nil_iff {A B : Type} (f : A → B) l : map f l ≠ [] ↔ l ≠ [].
Proof. by destruct l. Qed.

(** Which of the topics that depend on the records are declared. *)
Definition declares (flags : DeclaredTopicFlags) (topic : string) : bool :=
  bool_decide (topic ∈ declared_topics flags).
Lemma declared_topics_flags flags :
  map (declares flags)
    [NETWORK_FLOW_RECORD; NETWORK_SESSION_RECORD; NETWORK_DNS_OBSERVATION;
     NETWORK_TLS_OBSERVATION; NETWORK_HTTP_METADATA; IDENTITY_AUTH_METADATA; CLOUD_SAAS_METADATA;
     DECEPTION_EVENT_METADATA; NETWORK_SDN_CONTROL_PLANE_METADATA] =
  [has_flow flags; has_session flags; has_dns flags; has_tls flags; has_http flags; has_auth flags;
   has_saas_cloud flags; has_deception flags; has_sdn_control_plane flags].
Proof. by destruct flags as [[] [] [] [] [] [] [] [] []]; vm_compute. Qed.

Lemma declares_iff {A : Type} flags topic (l : list A) :
  declares flags topic = negb (none l) → topic ∈ declared_topics flags ↔ l ≠ [].
Proof.
  unfold declares. intros Hd. rewrite <- (bool_decide_eq_true (topic ∈ _)), Hd.
  by destruct l.
Qed.

Lemma Forall_map_set {A B : Type} (f : A → A) (g : A → B) (y : B) l :
  (∀ x, g (f x) = y) → Forall (λ x, g x = y) (map f l).
Proof. intros Hf. by apply Forall_map, Forall_true. Qed.

Lemma build_batch_ok source_type p w b w' :
  build_portable_capture_prepared_batch source_type p w = (Ok b, w') → batch_ok source_type b.
Proof.
  unfold build_portable_capture_prepared_batch. intros Hr. im_inv Hr. subst b.
  injection Hstep as <- _.
  repeat match goal with
  | Hm : too_many _ || _ = false |- _ => apply orb_false_iff in Hm as [? Hm]
  | Hm : _ || too_many _ = false |- _ => apply orb_false_iff in Hm as [Hm ?]
  end.
  pose proof (declared_topics_flags (topic_flags_of p)) as Htopics.
  injection Htopics as Hf Hss Hd Ht Hh Ha Hc He Hs.
  constructor; cbn -[declared_topics].
  - done.
  - unfold record_counts_of. by rewrite !len_u32_exact, !len_map by done.
  - rewrite !len_map. repeat (constructor; [by apply too_many_false|]). constructor.
  - clear -Hguard. by destruct (pi_flow_records p), (pi_session_records p).
  - split_and!; by apply Forall_map_set.
  - rewrite !map_nil_iff. split_and!; by apply declares_iff.
Qed.

(** C17. Whatever file is imported, of whatever format, the batch that is prepared has at most
    128 records of each of the nine kinds, exact counts, and flows exactly when it has
    sessions; the records of the four kinds that name a provenance all name the batch's; of
    the nine topics of records it declares exactly those of the kinds it has; and the file
    was small enough and not blank. *)
Theorem prepared_batch_bounded `{Sha256} `{JsonText} `{JsonNumber} `{ImportText}
    other source_type content size w b w' :
  preview_portable_capture_import other source_type content size w = (Ok b, w') →
  batch_ok source_type b ∧ size ≤ MAX_PORTABLE_CAPTURE_IMPORT_BYTES ∧ trim content ≠ "".
Proof.
  unfold preview_portable_capture_import. intros Hr. im_inv Hr.
  split; [by eapply build_batch_ok|]. bool_prop. split; [done|].
  intros Ht. by rewrite Ht in Hguard0.
Qed.
End batch.

(* ------------------------------------------------------------------ *)
(** ** Time buckets *)

(** What a bucket's start is: the start of the five minutes, plus the fraction of the second
    of the instant itself. *)
Lemma bucket_start t :
  instant (bucket_auth_timestamp t) =
  (instant t / 300000000000 * 300000000000 + instant t mod 1000000000)%Z.
Proof.
  unfold bucket_auth_timestamp. cbn [instant].
  pose proof (Z.div_mod (instant t) 1000000000 ltac:(lia)) as Ht.
  pose proof (Z.div_mod (instant t / 1000000000) 300 ltac:(lia)) as Hs.
  replace 300000000000%Z with (1000000000 * 300)%Z by lia.
  rewrite <- Z.div_div by lia. lia.
Qed.

(** The start of the time bucket of a record is not the start of five minutes: it keeps
    the fraction of the second, by which records of one bucket are told apart. *)
Theorem bucket_keeps_fraction t :
  instant (bucket_auth_timestamp t) =
    (instant t / 300000000000 * 300000000000 + instant t mod 1000000000)%Z ∧
  ((300000000000 | instant (bucket_auth_timestamp t)) ↔ instant t mod 1000000000 = 0)%Z.
Proof.
  split; [apply bucket_start|]. rewrite bucket_start.
  pose proof (Z.mod_pos_bound (instant t) 1000000000 ltac:(lia)) as Hb. split.
  - intros [k Hk]. lia.
  - intros ->. exists (instant t / 300000000000)%Z. lia.
Qed.

(* ------------------------------------------------------------------ *)
(** ** Words inside other words *)

(** The tables look for words anywhere in a text: an unsuccessful login is a success, an
    unprivileged role privileged, a denied second factor unknown, storage an anonymizer of
    high risk, another protocol an industrial one, an unconfirmed source reliable. *)
Theorem categories_misread :
  normalize_auth_result (Some "unsuccessful") = ArSuccess ∧
  normalize_auth_result (Some "denied") = ArUnknown ∧
  normalize_mfa_result (Some "denied") = Some AmUnknown ∧
  normalize_role_privilege_class (Some "unprivileged") = Some "privileged" ∧
  normalize_provider_category (Some "cloud_storage") = PcAnonymizing ∧
  (∀ t w, normalize_provider_risk None
            (SaasCloud_new (normalize_provider_category (Some "cloud_storage")) t w).1 = PrHigh) ∧
  normalize_deception_protocol (Some "other") = DpIcs ∧
  normalize_sdn_reliability (Some "unconfirmed") = SrHigh.
Proof. split_and!; reflexivity. Qed.

(** A text that starts like a fingerprint is kept as it is, whatever follows. *)
Theorem fingerprint_kept_verbatim `{Sha256} text :
  normalize_endpoint_fingerprint (Some ("endpoint#" ++ text)%string)
  = Some ("endpoint#" ++ text)%string.
Proof.
  unfold normalize_endpoint_fingerprint. cbn [mbind option_bind].
  by rewrite starts_with_app.
Qed.

(* ------------------------------------------------------------------ *)
(** ** A concrete import *)

Module ImportSample.

#[local] Instance import_sha256 : Sha256 := {| sha256_hex := λ s, s |}.
#[local] Instance import_json : JsonText :=
  {| json_parse := λ _, Err "no JSON"; json_to_text := λ _, "";
     json_to_text_pretty := λ _, "" |}.
#[local] Instance import_number : JsonNumber := {| number_as_f64 := λ _, None |}.
#[local] Instance import_text : ImportText :=
  {| saas_record_from_str := λ _, None; deception_record_from_str := λ _, None;
     auth_record_from_str := λ _, None;
     parse_from_rfc3339 := λ s, if bool_decide (s = "noon") then Ok 43200500000000%Z else Err "no date";
     parse_common_log_time := λ _, None; datetime_from_timestamp := λ _ _, None;
     parse_bind_time := λ _, None; parse_syslog_time := λ _, None; utc_year := λ _, "2024";
     f32_to_string := λ _, "" |}.
#[local] Instance import_types : CaptureTypes :=
  {| FlowRecord := unit; SessionRecord := unit; DnsObservation := unit; TlsObservation := unit;
     HttpMetadata := unit |}.

Definition auth_log : string :=
  ("ts=noon user=alice role_class=admin result=success" ++ String newline (String newline
   "time=noon session=s1 outcome=blocked service=ssh attempts=5"))%string.

Lemma import_vocabulary_witness :
  ∃ p w', parse_auth_security_log auth_log counting_world = (Ok p, w') ∧
    len (pi_auth_metadata p) = 2 ∧ Forall auth_vocabulary (pi_auth_metadata p).
Proof.
  eexists _, _. split; [vm_compute; reflexivity|]. split; [reflexivity|].
  eapply (import_vocabulary auth_log counting_world). vm_compute. reflexivity.
Defined.

Lemma prepared_batch_bounded_witness :
  ∃ b w', preview_portable_capture_import (λ _ _, im_err PeEmptyInput) ImportedAuthSecurityLog
            auth_log 120 counting_world = (Ok b, w') ∧
    len (pb_auth_metadata b) = 2 ∧ batch_ok ImportedAuthSecurityLog b.
Proof.
  eexists _, _. split; [vm_compute; reflexivity|]. split; [reflexivity|].
  eapply (prepared_batch_bounded (λ _ _, im_err PeEmptyInput) ImportedAuthSecurityLog auth_log 120
            counting_world). vm_compute. reflexivity.
Defined.

Lemma scores_never_refused_witness :
  is_ok (auth_metadata_from_parsed_auth
           (mkParsedAuth (mkTimestamp 0) "idp" None None ArUnknown None None None None 1 None)
           counting_world).1 = true.
Proof. apply scores_never_refused. Defined.

End ImportSample.
