(* ===== verification/ImportDnsLog.v ===== *)
(** * Lines of DNS resolver logs ([capabilities/src/portable_capture_lite.rs])

    The parsers of the lines that dnsmasq, BIND and unbound write. A slice at a byte that is
    inside a character panics: a computation is a state transformer on the clock with an
    optional result ([Run], notation [let%]), [None] being the panic. The line's own result
    is optional too: a line that is no query gives nothing. *)

From S2P Require Import Prelude Collections RustStr RustText Effects Contracts Checks Json.
From S2P Require Import CallerVerification MutationAuthorization PortablePreferences.
From S2P Require Import ImportContracts ImportRedaction ImportCategories ImportLogs.

#[local] Open Scope string_scope.
#[local] Open Scope list_scope.
#[local] Open Scope N_scope.

Definition Run (A : Type) : Type := ST (option A).
Definition run_ret {A : Type} (x : A) : Run A := st_ret (Some x).
Definition run_bind {A B : Type} (m : Run A) (f : A → Run B) : Run B :=
  let$ r := m in match r with Some x => f x | None => st_ret None end.
Notation "'let%' x ':=' m 'in' k" := (run_bind m (λ x, k))
  (at level 10, x binder, m at level 100, k at level 200) : sentinel_scope.

(* [portable_capture_lite.rs] ResolverDnsFields *)
Record ResolverDnsFields := mkResolverFields {
  rd_query_name : string;
  rd_query_type : string;
  rd_response_code : option string;
  rd_client_ip : option string;
  rd_timestamp : Timestamp;
  rd_timestamp_from_log : bool;
  rd_feature_source_safe : bool
}.

(* ------------------------------------------------------------------ *)
(** ** Parts of a line *)

(** The trimmed name, when it is one. *)
Definition trimmed_query_name (value : string) : string :=
  trim_end_matches is_dot
    (trim_matches (one_of ["("; ")"; ":"; double_quote; "'"]%char) (trim value)).
Definition is_name_char (c : ascii) : bool :=
  is_ascii_alphanumeric c || one_of ["-"; "_"; "."; "*"]%char c.
(* [portable_capture_lite.rs] sanitize_dns_query_name *)
Definition sanitize_dns_query_name (value : string) : option string :=
  let trimmed := trimmed_query_name value in
  if is_empty trimmed || (253 <? str_len trimmed) then None
  else if all_chars is_name_char trimmed then Some (to_ascii_lowercase trimmed)
  else None.
(* [portable_capture_lite.rs] normalize_dns_query_type *)
Definition normalize_dns_query_type (value : string) : string :=
  to_ascii_uppercase
    (take_chars 16 (trim_matches (λ c, negb (is_ascii_alphanumeric c)) (trim value))).
(* [portable_capture_lite.rs] normalize_ip_token *)
Definition normalize_ip_token (value : string) : option string :=
  let candidate :=
    trim_matches (one_of ["["; "]"; "("; ")"; ","; ";"; ":"; double_quote]%char) (trim value) in
  show_ip_addr <$> parse_ip_addr candidate.
(* [portable_capture_lite.rs] extract_bind_client_ip *)
Definition extract_bind_client_ip (line : string) : option string :=
  find_map (λ token, '(candidate, _) ← split_once "#" token; normalize_ip_token candidate)
    (split_whitespace line).
(* [portable_capture_lite.rs] dns_response_code_from_line *)
Definition dns_response_code_from_line (line : string) : option string :=
  let lower := to_ascii_lowercase line in
  if has lower ["nxdomain"; "name error"] then Some "NXDOMAIN"
  else if has lower ["servfail"; "server failure"] then Some "SERVFAIL"
  else if has lower ["refused"] then Some "REFUSED"
  else if has lower ["timeout"; "timed out"] then Some "TIMEOUT"
  else if has lower ["noerror"] then Some "NOERROR"
  else None.
Definition DNS_CLASSES : list string := ["IN"; "CH"; "HS"; "ANY"].
Fixpoint type_after_class (tokens : list string) : option string :=
  match tokens with
  | first :: (second :: _) as rest =>
      if existsb (eq_ignore_ascii_case first) DNS_CLASSES
      then Some (normalize_dns_query_type second)
      else type_after_class rest
  | _ => None
  end.
(* [portable_capture_lite.rs] dns_query_type_from_bind_tokens *)
Definition dns_query_type_from_bind_tokens (tokens : list string) : option string :=
  or_else (type_after_class tokens) (normalize_dns_query_type <$> tokens !! 1%nat).
(* [portable_capture_lite.rs] dns_resolver_line_looks_query_like *)
Definition dns_resolver_line_looks_query_like (line : string) : bool :=
  let lower := to_ascii_lowercase line in
  contains lower "query[" || contains lower " query: " ||
  (contains lower "unbound" && contains lower " info: ").
(* [portable_capture_lite.rs] dns_feature_source_safe *)
Definition dns_feature_source_safe (query_name : string) : bool :=
  negb (contains_private_marker query_name) && negb (contains_local_path query_name) &&
  negb (looks_like_secret_token query_name).

(* ------------------------------------------------------------------ *)
(** ** The time of a line *)

Section resolver.
Context `{ImportText}.

(** The first token: a date, or the seconds since the epoch in brackets. *)
Definition first_token_time (line : string) : option Z :=
  first_token ← head (split_whitespace line);
  match parse_from_rfc3339 first_token with
  | Ok t => Some t
  | Err _ =>
      value ← strip_prefix first_token "[";
      value ← strip_suffix value "]"%char;
      seconds ← parse_i64 value;
      datetime_from_timestamp seconds 0
  end.
(** The ends [high], [high - 1], ..., 20. *)
Fixpoint ends_from (high : nat) : list nat :=
  match high with
  | O => []
  | S high' => if (20 <=? high)%nat then high :: ends_from high' else []
  end.
(** BIND's date, as long as it parses. *)
Definition prefix_time (line : string) : option Z :=
  prefix ← get_to line (Nat.min (String.length line) 24);
  find_map (λ e, candidate ← get_to prefix e; parse_bind_time (trim candidate))
    (ends_from (String.length prefix)).
(** [&line[..15]] panics unless byte 15 starts a character. *)
(* [portable_capture_lite.rs] parse_resolver_timestamp *)
Definition parse_resolver_timestamp (line : string) : Run (Timestamp * bool) :=
  match first_token_time line with
  | Some t => run_ret (mkTimestamp t, true)
  | None =>
      match prefix_time line with
      | Some t => run_ret (mkTimestamp t, true)
      | None =>
          let not_found : Run (Timestamp * bool) :=
            let$ t := now in run_ret (t, false) in
          if (15 <=? String.length line)%nat then
            let$ today := now in
            match get_to line 15 with
            | None => st_ret None
            | Some slice =>
                match parse_syslog_time (utc_year today ++ " " ++ slice)%string with
                | Some t => run_ret (mkTimestamp t, true)
                | None => not_found
                end
            end
          else not_found
      end
  end.

(* ------------------------------------------------------------------ *)
(** ** Lines *)

(** What the parsers do once they have the name, the type and the client. *)
Definition resolver_fields (line query_name query_type : string) (client_ip : option string) :
    Run (option ResolverDnsFields) :=
  let% '(timestamp, from_log) := parse_resolver_timestamp line in
  run_ret (Some (mkResolverFields query_name query_type (dns_response_code_from_line line)
                   client_ip timestamp from_log (dns_feature_source_safe query_name))).
(** What the three parsers find before they read the time: the name, the type and the
    client. The offsets found in the lower-case copy are those of the line. *)
(* [portable_capture_lite.rs:6823-6837] parse_dnsmasq_query_line *)
Definition dnsmasq_parts (line : string) : option (string * string * option string) :=
  query_offset ← find_str (to_ascii_lowercase line) "query[";
  let after_query := str_skip (query_offset + 6) line in
  query_type_end ← find_str after_query "]";
  let query_type := normalize_dns_query_type (str_first query_type_end after_query) in
  let rest := trim (str_skip (query_type_end + 1) after_query) in
  from_offset ← find_str (to_ascii_lowercase rest) " from ";
  query_name ← sanitize_dns_query_name (str_first from_offset rest);
  Some (query_name, query_type,
        token ← head (split_whitespace (str_skip (from_offset + 6) rest));
        normalize_ip_token token).
(* [portable_capture_lite.rs:6849-6855] parse_bind_query_line *)
Definition bind_parts (line : string) : option (string * string * option string) :=
  query_offset ← find_str (to_ascii_lowercase line) " query: ";
  let tokens := split_whitespace (str_skip (query_offset + 8) line) in
  query_name ← sanitize_dns_query_name (default "" (head tokens));
  query_type ← dns_query_type_from_bind_tokens tokens;
  Some (query_name, query_type, extract_bind_client_ip line).
(* [portable_capture_lite.rs:6868-6882] parse_unbound_query_line *)
Definition unbound_parts (line : string) : option (string * string * option string) :=
  let lower := to_ascii_lowercase line in
  if negb (contains lower "unbound") || negb (contains lower " info: ") then None else
  info_offset ← find_str lower " info: ";
  let tokens := split_whitespace (trim (str_skip (info_offset + 7) line)) in
  let first_ip := token ← head tokens; normalize_ip_token token in
  let query_index := match first_ip with Some _ => 1%nat | None => 0%nat end in
  query_name ← sanitize_dns_query_name (default "" (tokens !! query_index));
  query_type ← normalize_dns_query_type <$> tokens !! (query_index + 1)%nat;
  if is_empty query_type then None else Some (query_name, query_type, first_ip).

Definition query_line (parts : string → option (string * string * option string)) (line : string) :
    Run (option ResolverDnsFields) :=
  match parts line with
  | Some (query_name, query_type, client_ip) => resolver_fields line query_name query_type client_ip
  | None => run_ret None
  end.
(* [portable_capture_lite.rs] parse_dnsmasq_query_line *)
Definition parse_dnsmasq_query_line : string → Run (option ResolverDnsFields) :=
  query_line dnsmasq_parts.
(* [portable_capture_lite.rs] parse_bind_query_line *)
Definition parse_bind_query_line : string → Run (option ResolverDnsFields) := query_line bind_parts.
(* [portable_capture_lite.rs] parse_unbound_query_line *)
Definition parse_unbound_query_line : string → Run (option ResolverDnsFields) :=
  query_line unbound_parts.
(** [a.or_else(b)] *)
Definition run_or_else {A : Type} (a b : Run (option A)) : Run (option A) :=
  let% r := a in match r with Some x => run_ret (Some x) | None => b end.
(* [portable_capture_lite.rs] parse_dns_resolver_line *)
Definition parse_dns_resolver_line (line : string) : Run (option ResolverDnsFields) :=
  run_or_else (parse_dnsmasq_query_line line)
    (run_or_else (parse_bind_query_line line) (parse_unbound_query_line line)).
End resolver.

(* ------------------------------------------------------------------ *)
(** ** Quality and stand-in addresses *)

(* [portable_capture_lite.rs] resolver_dns_quality *)
Definition resolver_dns_quality (timestamp_from_log feature_source_safe : bool) : f32 :=
  minus_if (negb feature_source_safe) (f32_lit 1 10)
    (minus_if (negb timestamp_from_log) (f32_lit 12 100) (f32_lit 82 100)).
(** [53_u8.saturating_add((index % 16) as u8)] *)
(* [portable_capture_lite.rs] synthetic_dns_resolver_ip *)
Definition synthetic_dns_resolver_ip (index : N) : IpAddress :=
  mkIpAddress (V4 198 51 100 (saturating_add u8_max 53 (index mod 16))).
(** [is_loopback], [is_private], [is_link_local] and [is_multicast] of an address. *)
Definition v4_loopback (a : N) : bool := a =? 127.
Definition v4_private (a b : N) : bool :=
  (a =? 10) || ((a =? 172) && (16 <=? b) && (b <=? 31)) || ((a =? 192) && (b =? 168)).
Definition v4_link_local (a b : N) : bool := (a =? 169) && (b =? 254).
Definition v4_multicast (a : N) : bool := (224 <=? a) && (a <=? 239).
Definition v6_loopback (segments : list N) : bool :=
  bool_decide (segments = [0; 0; 0; 0; 0; 0; 0; 1]).
Definition v6_first (segments : list N) : N := default 0 (head segments).
Definition v6_multicast (segments : list N) : bool := N.land (v6_first segments) 65280 =? 65280.
Definition v6_link_local (segments : list N) : bool := N.land (v6_first segments) 65472 =? 65152.
(* [portable_capture_lite.rs] ip_privacy_bucket *)
Definition ip_privacy_bucket (address : IpAddr) : N :=
  match address with
  | V4 a b _ _ =>
      if v4_loopback a then 0
      else if v4_private a b then 1
      else if v4_link_local a b then 2
      else if v4_multicast a then 3
      else 4
  | V6 segments =>
      if v6_loopback segments then 0
      else if v6_multicast segments then 3
      else if v6_link_local segments then 2
      else 4
  end.
(* [portable_capture_lite.rs] synthetic_dns_client_ip *)
Definition synthetic_dns_client_ip (client_ip : option string) : IpAddress :=
  let bucket := default 4 (ip_privacy_bucket <$> (client_ip ≫= parse_ip_addr)) in
  mkIpAddress (V4 192 0 2 (40 + bucket)).
