(* ===== verification/ImportDnsLogFacts.v ===== *)
(** * Properties of the lines of DNS resolver logs *)

From S2P Require Import Prelude Collections RustStr RustText Effects Contracts Checks Json.
From S2P Require Import CallerVerification MutationAuthorization PortablePreferences.
From S2P Require Import ImportContracts ImportRedaction ImportRedactionFacts ImportCategories.
From S2P Require Import ImportLogs ImportLogsFacts ImportDnsLog.

#[local] Open Scope string_scope.
#[local] Open Scope list_scope.
#[local] Open Scope N_scope.

(* ------------------------------------------------------------------ *)
(** ** Where the importer panics *)

Section panics.
Context `{ImportText}.

(** A query in one of the three forms. *)
Definition is_query (line : string) : Prop :=
  is_Some (dnsmasq_parts line) ∨ is_Some (bind_parts line) ∨ is_Some (unbound_parts line).
(** The slice of fifteen bytes is taken, and cuts a character. *)
Definition slice_panics (line : string) : Prop :=
  first_token_time line = None ∧ prefix_time line = None ∧
  (15 ≤ String.length line)%nat ∧ is_char_boundary line 15 = false.

Lemma timestamp_panics line w :
  (parse_resolver_timestamp line w).1 = None ↔ slice_panics line.
Proof.
  unfold parse_resolver_timestamp, slice_panics, get_to.
  destruct (first_token_time line); [split; [done|by intros [? _]]|].
  destruct (prefix_time line); [split; [done|by intros (_ & ? & _)]|].
  destruct (Nat.leb_spec 15 (String.length line)) as [Hl|Hl].
  - unfold st_bind. cbn -[is_char_boundary str_first].
    destruct (is_char_boundary line 15) eqn:Hb.
    + split; [|by intros (_ & _ & _ & ?)]. by destruct (parse_syslog_time _).
    + split; [|done]. by intros _.
  - split; [done|]. intros (_ & _ & ? & _). lia.
Qed.

Lemma fields_panics line name type client w :
  (resolver_fields line name type client w).1 = None ↔ slice_panics line.
Proof.
  rewrite <- (timestamp_panics line w). unfold resolver_fields, run_bind, st_bind.
  by destruct (parse_resolver_timestamp line w) as [[[t b]|] w'].
Qed.

Lemma query_line_panics parts line w :
  (query_line parts line w).1 = None ↔ is_Some (parts line) ∧ slice_panics line.
Proof.
  unfold query_line. destruct (parts line) as [[[name type] client]|].
  - rewrite fields_panics. naive_solver.
  - split; [done|]. by intros [[] _].
Qed.

Lemma or_else_panics {A : Type} (a b : Run (option A)) w :
  (run_or_else a b w).1 = None ↔
  (a w).1 = None ∨ ((a w).1 = Some None ∧ (b (a w).2).1 = None).
Proof.
  unfold run_or_else, run_bind, st_bind. destruct (a w) as [[[x|]|] w']; cbn; naive_solver.
Qed.

(** A byte of an ASCII text starts a character. *)
Definition is_ascii (c : ascii) : bool := code c <? 128.
Lemma ascii_boundary s n :
  all_chars is_ascii s = true → (n ≤ String.length s)%nat → is_char_boundary s n = true.
Proof.
  intros Hs. destruct n as [|n]; [done|]. unfold is_char_boundary.
  assert (∀ m t, all_chars is_ascii t = true → (m ≤ String.length t)%nat →
    match str_skip m t with
    | "" => m = String.length t
    | String c _ => continues c = false
    end) as Hskip.
  { clear. induction m as [|m IH]; intros [|c t] Ht Hm; cbn in *; try done; try lia.
    - apply andb_true_iff in Ht as [Hc%N.ltb_lt _]. unfold continues.
      apply andb_false_iff. left. apply N.leb_gt. lia.
    - apply andb_true_iff in Ht as [_ Ht]. specialize (IH t Ht ltac:(lia)).
      destruct (str_skip m t); [by f_equal|done]. }
  intros Hn. specialize (Hskip (S n) s Hs Hn). destruct (str_skip (S n) s) as [|c t].
  - by apply Nat.eqb_eq.
  - by rewrite Hskip.
Qed.

(** C18. A line of a resolver's log makes the importer panic exactly when it is a query, its
    time is not found at the front, and its fifteenth byte is inside a character; a line of
    ASCII characters never does. *)
Theorem resolver_line_panics line w :
  ((parse_dns_resolver_line line w).1 = None ↔ is_query line ∧ slice_panics line) ∧
  (all_chars is_ascii line = true → (parse_dns_resolver_line line w).1 ≠ None).
Proof.
  assert ((parse_dns_resolver_line line w).1 = None ↔ is_query line ∧ slice_panics line) as Hiff.
  { unfold parse_dns_resolver_line, is_query.
    unfold parse_dnsmasq_query_line, parse_bind_query_line, parse_unbound_query_line.
    rewrite !or_else_panics, !query_line_panics. split; [tauto|]. intros [Hq Hp].
    destruct (dnsmasq_parts line) eqn:Hd; [left; split; [by eexists|done]|].
    right. split; [unfold query_line; by rewrite Hd|].
    destruct (bind_parts line) eqn:Hb; [left; split; [by eexists|done]|].
    right. split; [unfold query_line; by rewrite Hb|].
    split; [|done]. by destruct Hq as [[? [=]]|[[? [=]]|Hq]]. }
  split; [done|]. intros Hs Hpanic. apply Hiff in Hpanic as (_ & _ & _ & Hl & Hb).
  by rewrite ascii_boundary in Hb.
Qed.
End panics.

(* ------------------------------------------------------------------ *)
(** ** What is kept of a query *)

Lemma trim_end_matches_keeps p s :
  all_chars p s = false → all_chars p (trim_end_matches p s) = false.
Proof.
  induction s as [|c s IH]; [done|]. intros Hs. cbn [trim_end_matches]. rewrite Hs.
  cbn [all_chars] in *. destruct (p c); [|done]. by apply IH.
Qed.
Lemma trim_end_matches_idemp p s :
  trim_end_matches p (trim_end_matches p s) = trim_end_matches p s.
Proof.
  induction s as [|c s IH]; [done|]. cbn [trim_end_matches].
  destruct (all_chars p (String c s)) eqn:Hs; [done|].
  cbn [trim_end_matches]. rewrite IH. cbn [all_chars] in *.
  destruct (p c); [|done]. cbn in Hs. cbn [andb]. by rewrite trim_end_matches_keeps.
Qed.
Lemma trim_end_matches_map p f s :
  (∀ c, p (f c) = p c) → trim_end_matches p (map_chars f s) = map_chars f (trim_end_matches p s).
Proof.
  intros Hf. assert (∀ t, all_chars p (map_chars f t) = all_chars p t) as Hall.
  { induction t as [|c t IH]; [done|]. cbn. by rewrite Hf, IH. }
  induction s as [|c s IH]; [done|]. cbn [map_chars trim_end_matches].
  change (String (f c) (map_chars f s)) with (map_chars f (String c s)). rewrite Hall.
  destruct (all_chars p (String c s)); [done|]. cbn [map_chars]. by rewrite IH.
Qed.
Lemma trim_matches_id p s : avoids p s = true → trim_matches p s = s.
Proof.
  intros Hs. unfold trim_matches.
  assert (trim_start_matches p s = s) as ->.
  { destruct s as [|c s]; [done|]. apply andb_true_iff in Hs as [Hc%negb_true_iff _].
    cbn. by rewrite Hc. }
  induction s as [|c s IH]; [done|]. apply andb_true_iff in Hs as [Hc%negb_true_iff Hs].
  cbn [trim_end_matches all_chars]. rewrite Hc. cbn [andb]. by rewrite IH.
Qed.

(** A lower-case name: letters, digits and [-_.*], no dot at its end, not too long. *)
Definition query_name_ok (name : string) : Prop :=
  all_chars (λ c, is_name_char c && negb (is_ascii_uppercase c)) name = true ∧
  trim_end_matches is_dot name = name ∧ 0 < str_len name ≤ 253.

Lemma lower_name_char c :
  is_name_char c = true →
  is_name_char (if is_ascii_uppercase c then ascii_of_N (code c + 32) else c) &&
  negb (is_ascii_uppercase (if is_ascii_uppercase c then ascii_of_N (code c + 32) else c)) = true.
Proof. by destruct c as [[] [] [] [] [] [] [] []]. Qed.

Lemma sanitized_name_ok value name :
  sanitize_dns_query_name value = Some name → query_name_ok name.
Proof.
  unfold sanitize_dns_query_name. set (t := trimmed_query_name value).
  destruct (_ || _) eqn:Hl; [done|]. apply orb_false_iff in Hl as [He Hl%N.ltb_ge].
  destruct (all_chars is_name_char t) eqn:Ht; [|done]. intros [= <-].
  unfold query_name_ok, str_len, to_ascii_lowercase. rewrite map_chars_length. split_and!.
  - clear -Ht. induction t as [|c t IH]; [done|]. apply andb_true_iff in Ht as [Hc Ht].
    cbn [map_chars all_chars]. by rewrite lower_name_char, IH.
  - rewrite trim_end_matches_map.
    + f_equal. unfold t, trimmed_query_name. apply trim_end_matches_idemp.
    + intros c. by destruct c as [[] [] [] [] [] [] [] []].
  - clearbody t. destruct t as [|d t]; [done|]. cbn [String.length]. lia.
  - exact Hl.
Qed.

Lemma sanitize_ok_name name : query_name_ok name → sanitize_dns_query_name name = Some name.
Proof.
  intros (Hc & Hdot & Hlen). unfold sanitize_dns_query_name, trimmed_query_name.
  rewrite trim_graphic; [|revert Hc; apply all_chars_impl; intros c;
    by destruct c as [[] [] [] [] [] [] [] []]].
  rewrite trim_matches_id; [|revert Hc; apply all_chars_impl; intros c;
    by destruct c as [[] [] [] [] [] [] [] []]].
  rewrite Hdot. rewrite (proj2 (N.ltb_ge 253 (str_len name))) by lia.
  assert (is_empty name = false) as -> by (destruct name; [by destruct Hlen|done]).
  cbn [orb]. assert (all_chars is_name_char name = true) as ->.
  { revert Hc. apply all_chars_impl. by intros c [? _]%andb_true_iff. }
  f_equal. apply to_ascii_lowercase_id. revert Hc. apply all_chars_impl.
  by intros c [_ ?]%andb_true_iff.
Qed.

Definition RESPONSE_CODES : list string := ["NXDOMAIN"; "SERVFAIL"; "REFUSED"; "TIMEOUT"; "NOERROR"].
(** A client's address in its canonical form. *)
Definition canonical_ip (text : option string) : Prop :=
  match text with Some s => ∃ address token, parse_ip_addr token = Some address ∧ s = show_ip_addr address
  | None => True end.

Record kept_query (fields : ResolverDnsFields) : Prop := mkKept {
  kq_name : query_name_ok (rd_query_name fields);
  kq_again : sanitize_dns_query_name (rd_query_name fields) = Some (rd_query_name fields);
  kq_code : among RESPONSE_CODES (rd_response_code fields);
  kq_client : canonical_ip (rd_client_ip fields);
  kq_safe : rd_feature_source_safe fields = true ↔
    contains_private_marker (rd_query_name fields) = false ∧
    contains_local_path (rd_query_name fields) = false ∧
    looks_like_secret_token (rd_query_name fields) = false
}.

Lemma normalize_ip_canonical token : canonical_ip (normalize_ip_token token).
Proof.
  unfold normalize_ip_token, canonical_ip. set (t := trim_matches _ _).
  destruct (parse_ip_addr t) as [a|] eqn:Ha; [|done]. cbn. by exists a, t.
Qed.
Lemma find_map_canonical {A : Type} (f : A → option string) l :
  (∀ x, canonical_ip (f x)) → canonical_ip (find_map f l).
Proof. intros Hf. induction l as [|x l IH]; [done|]. cbn. specialize (Hf x). by destruct (f x). Qed.

Lemma parts_ok line name type client :
  dnsmasq_parts line = Some (name, type, client) ∨ bind_parts line = Some (name, type, client) ∨
  unbound_parts line = Some (name, type, client) →
  query_name_ok name ∧ canonical_ip client.
Proof.
  intros [Hp|[Hp|Hp]].
  - unfold dnsmasq_parts in Hp. simplify_option_eq. split; [by eapply sanitized_name_ok|].
    destruct (head _); [apply normalize_ip_canonical|done].
  - unfold bind_parts in Hp. simplify_option_eq. split; [by eapply sanitized_name_ok|].
    apply find_map_canonical. intros token. destruct (split_once _ token) as [[a b]|]; [|done].
    apply normalize_ip_canonical.
  - unfold unbound_parts in Hp. destruct (_ || _); [done|]. simplify_option_eq.
    destruct (is_empty _); [done|]. injection Hp as <- <- <-.
    split; [by eapply sanitized_name_ok|].
    destruct (head _); [apply normalize_ip_canonical|done].
Qed.

Lemma response_code_among line : among RESPONSE_CODES (dns_response_code_from_line line).
Proof.
  unfold dns_response_code_from_line.
  repeat match goal with |- context [if ?b then _ else _] => destruct b end; cbn; try done;
    unfold RESPONSE_CODES; set_solver.
Qed.

Section kept.
Context `{ImportText}.

Lemma query_line_kept parts line w fields w' :
  (∀ name type client, parts line = Some (name, type, client) →
     query_name_ok name ∧ canonical_ip client) →
  query_line parts line w = (Some (Some fields), w') → kept_query fields.
Proof.
  intros Hparts. unfold query_line. destruct (parts line) as [[[name type] client]|] eqn:Hp; [|done].
  specialize (Hparts _ _ _ eq_refl) as [Hn Hc].
  unfold resolver_fields, run_bind, st_bind.
  destruct (parse_resolver_timestamp line w) as [[[t b]|] w1]; [|done]. intros [= <- _].
  constructor; cbn; try done.
  - by apply sanitize_ok_name.
  - apply response_code_among.
  - unfold dns_feature_source_safe. rewrite !andb_true_iff, !negb_true_iff. tauto.
Qed.

Lemma run_or_else_some {A : Type} (a b : Run (option A)) w x w' :
  run_or_else a b w = (Some (Some x), w') →
  a w = (Some (Some x), w') ∨ ∃ w1, b w1 = (Some (Some x), w').
Proof.
  unfold run_or_else, run_bind, st_bind, run_ret, st_ret.
  destruct (a w) as [[[y|]|] w1]; intros Hr; [left; congruence|right; by exists w1|done].
Qed.

(** C19. What is kept of a resolver's line has a name of lower-case letters, digits and [-_.*]
    without a dot at its end and of at most 253 bytes, which is kept as it is when it is read
    again; an address of a client in canonical form; a response code of the list; and is
    marked safe exactly when the name carries no secret and no path. *)
Theorem resolver_query_kept line w fields w' :
  parse_dns_resolver_line line w = (Some (Some fields), w') → kept_query fields.
Proof.
  unfold parse_dns_resolver_line.
  intros [Hr|[w1 [Hr|[w2 Hr]]%run_or_else_some]]%run_or_else_some;
    revert Hr; apply query_line_kept; intros name type client Hp; apply (parts_ok line name type);
    tauto.
Qed.
End kept.

(** The addresses that stand in for those of the log are of the networks reserved for
    documentation. *)
Lemma stand_in_addresses index client :
  (∃ d, synthetic_dns_resolver_ip index = mkIpAddress (V4 198 51 100 d) ∧ 53 ≤ d ≤ 68) ∧
  (∃ d, synthetic_dns_client_ip client = mkIpAddress (V4 192 0 2 d) ∧ 40 ≤ d ≤ 44).
Proof.
  split; eexists; (split; [reflexivity|]).
  - assert (index mod 16 < 16) as Hm by by apply N.mod_lt.
    revert Hm. generalize (index mod 16). unfold saturating_add, u8_max. intros r Hr. lia.
  - assert (∀ a, ip_privacy_bucket a ≤ 4) as Hb.
    { intros []; cbn; repeat match goal with |- context [if ?b then _ else _] => destruct b end; lia. }
    assert (default 4 (ip_privacy_bucket <$> (client ≫= parse_ip_addr)) ≤ 4); [|lia].
    destruct (client ≫= parse_ip_addr) as [a|]; [exact (Hb a)|done].
Qed.

(* ------------------------------------------------------------------ *)
(** ** Concrete lines *)

Module ResolverSample.
Import ImportLogsFacts.ImportSample.
#[local] Existing Instance import_text.

Definition query : string := "noon dnsmasq[7]: query[aaaa] Mail.Example.COM. from 10.0.0.7".

Lemma resolver_query_kept_witness :
  ∃ fields w', parse_dns_resolver_line query counting_world = (Some (Some fields), w') ∧
    rd_query_name fields = "mail.example.com" ∧ rd_query_type fields = "AAAA" ∧
    rd_client_ip fields = Some "10.0.0.7" ∧ kept_query fields.
Proof.
  eexists _, _. split; [vm_compute; reflexivity|]. do 3 (split; [reflexivity|]).
  eapply (resolver_query_kept query counting_world). vm_compute. reflexivity.
Defined.

(** Fourteen letters, then a letter of two bytes. *)
Definition accented : string :=
  ("Josephs-Router" ++ String (ascii_of_N 195) (String (ascii_of_N 169)
   " dnsmasq: query[A] example.com from 10.0.0.7"))%string.

Lemma resolver_line_panics_witness :
  (parse_dns_resolver_line accented counting_world).1 = None ∧
  (parse_dns_resolver_line query counting_world).1 ≠ None.
Proof.
  split.
  - apply (resolver_line_panics accented counting_world). split.
    + left. vm_compute. by eexists.
    + vm_compute. split_and!; try done. lia.
  - apply (resolver_line_panics query counting_world). vm_compute. reflexivity.
Defined.
End ResolverSample.
