(* ===== verification/ImportSummary.v ===== *)
(** * Summaries of imported records ([capabilities/src/portable_capture_lite.rs])

    The counts and flags a run of the importer reports for its authentication, cloud and
    deception records, together with the references to what the plugins found. Of a
    finding, an evidence item and a graph hint only what the summaries read is known: the
    class [Detections]. A [BTreeMap] is a [gmap] whose entries are listed in the order of
    their keys. Field prefixes: [as_] authentication, [ss_] cloud, [ds_] deception. *)

From S2P Require Import Prelude Collections RustStr RustText Effects Contracts Checks.
From S2P Require Import CallerVerification ImportContracts ImportLogs.

#[local] Open Scope string_scope.
#[local] Open Scope list_scope.
#[local] Open Scope N_scope.

Abbreviation FindingId := (Id KFindingId).
Abbreviation GraphHintId := (Id KGraphHintId).

(* [contracts/src/security/mod.rs] SecuritySeverity *)
Inductive SecuritySeverity :=
  | SvInformational | SvLow | SvMedium | SvHigh | SvCritical.
#[export] Instance SecuritySeverity_eq_dec : EqDecision SecuritySeverity.
Proof. solve_decision. Defined.

(** What is read of findings, evidence and hints; identifiers are compared by their text. *)
Class Detections := {
  Finding : Type;
  finding_id : Finding → FindingId;
  finding_type : Finding → string;
  finding_severity : Finding → SecuritySeverity;
  EvidenceItem : Type;
  item_evidence_id : EvidenceItem → EvidenceId;
  item_evidence_type : EvidenceItem → string;
  GraphHint : Type;
  hint_id : GraphHint → GraphHintId;
  hint_evidence_refs : GraphHint → list EvidenceId
}.

(* ------------------------------------------------------------------ *)
(** ** Sorted maps *)

(** [*counts.entry(key).or_insert(0) += 1]: a batch has at most 128 records, so a count
    does not overflow. *)
Definition bump {K : Type} `{Countable K} (counts : gmap K N) (key : K) : gmap K N :=
  <[key := default 0 (counts !! key) + 1]> counts.
(** [counts.into_iter()] and [set.into_iter()] *)
Definition sorted_entries {K : Type} `{KeyOrder K} `{Countable K} (m : gmap K N) : list (K * N) :=
  sort_by_key fst (map_to_list m).
Definition sorted_elements (s : gset string) : list string := sort_by_key (λ x, x) (elements s).
(** [if cond { flags.insert(flag); }] *)
Definition flag_if (cond : bool) (flag : string) (flags : gset string) : gset string :=
  if cond then {[flag]} ∪ flags else flags.
Definition insert_some (text : option string) (s : gset string) : gset string :=
  match text with Some t => {[t]} ∪ s | None => s end.
Definition missing {A : Type} (o : option A) : bool :=
  match o with Some _ => false | None => true end.

(** The derived order of the results is the order in which they are declared. *)
Definition result_rank (r : PortableAuthResultCategory) : N :=
  match r with
  | ArSuccess => 0 | ArFailure => 1 | ArBlocked => 2 | ArChallenge => 3 | ArTimeout => 4
  | ArUnknown => 5
  end.
Definition result_of_rank (n : N) : PortableAuthResultCategory :=
  match n with
  | 0 => ArSuccess | 1 => ArFailure | 2 => ArBlocked | 3 => ArChallenge | 4 => ArTimeout
  | _ => ArUnknown
  end.
#[export] Instance result_countable : Countable PortableAuthResultCategory.
Proof. by apply (inj_countable' result_rank result_of_rank); intros []. Defined.
#[export] Program Instance result_key_order : KeyOrder PortableAuthResultCategory :=
  {| key_le := λ a b, result_rank a <=? result_rank b |}.
Next Obligation. intros x y z Hxy Hyz. cbv beta in *. bool_prop. apply N.leb_le. lia. Qed.
Next Obligation. intros. cbv beta. rewrite !N.leb_le. lia. Qed.
Next Obligation. by intros [] []. Qed.

(* ------------------------------------------------------------------ *)
(** ** Data *)

(* [identity/mod.rs] PortableAuthRiskBucket *)
Inductive PortableAuthRiskBucket := AbLow | AbMedium | AbHigh | AbUnknown.
#[export] Instance PortableAuthRiskBucket_eq_dec : EqDecision PortableAuthRiskBucket.
Proof. solve_decision. Defined.
(* [identity/mod.rs] PortableAuthCategoryCount *)
Record PortableAuthCategoryCount := mkAuthCount { ac_category : string; ac_count : N }.
(* [identity/mod.rs] PortableAuthServiceOutcomeCount *)
Record PortableAuthServiceOutcomeCount := mkOutcomeCount {
  oc_service_category : string;
  oc_auth_result : PortableAuthResultCategory;
  oc_count : N
}.
(* [identity/mod.rs] PortableAuthSummary *)
Record PortableAuthSummary := mkAuthSummary {
  as_provenance_id : DataSourceId;
  as_auth_record_count : N;
  as_identity_session_risk_bucket : PortableAuthRiskBucket;
  as_source_session_count : N;
  as_provider_category_counts : list PortableAuthCategoryCount;
  as_service_outcome_counts : list PortableAuthServiceOutcomeCount;
  as_first_seen_category_flags : list string;
  as_privileged_role_record_count : N;
  as_degraded_visibility_flags : list string;
  as_finding_refs : list FindingId;
  as_evidence_refs : list EvidenceId;
  as_graph_hint_refs : list GraphHintId
}.
(* [network/mod.rs] PortableSaasCloudCategoryCount *)
Record PortableSaasCloudCategoryCount := mkSaasCount { scc_category : string; scc_count : N }.
(* [network/mod.rs] PortableSaasCloudSummary *)
Record PortableSaasCloudSummary := mkSaasSummary {
  ss_provenance_id : DataSourceId;
  ss_metadata_record_count : N;
  ss_provider_category_counts : list PortableSaasCloudCategoryCount;
  ss_provider_risk_counts : list PortableSaasCloudCategoryCount;
  ss_unknown_provider_count : N;
  ss_degraded_visibility_flags : list string;
  ss_finding_refs : list FindingId;
  ss_evidence_refs : list EvidenceId;
  ss_graph_hint_refs : list GraphHintId
}.
(* [network/mod.rs] PortableDeceptionCategoryCount *)
Record PortableDeceptionCategoryCount := mkDeceptionCount { dc_category : string; dc_count : N }.
(* [network/mod.rs] PortableDeceptionSummary *)
Record PortableDeceptionSummary := mkDeceptionSummary {
  ds_provenance_id : DataSourceId;
  ds_event_record_count : N;
  ds_decoy_sensor_count : N;
  ds_event_category_counts : list PortableDeceptionCategoryCount;
  ds_protocol_category_counts : list PortableDeceptionCategoryCount;
  ds_degraded_visibility_flags : list string;
  ds_finding_refs : list FindingId;
  ds_evidence_refs : list EvidenceId;
  ds_graph_hint_refs : list GraphHintId
}.

(* [portable_capture_lite.rs] portable_provider_category_label *)
Definition portable_provider_category_label (category : PortableProviderCategory) : string :=
  match category with
  | PcSaas => "saas" | PcCloud => "cloud" | PcCdn => "cdn" | PcObjectStorage => "object_storage"
  | PcTunnelProxy => "tunnel_proxy" | PcAnonymizing => "anonymizing" | PcUnknown => "unknown"
  end.
(* [portable_capture_lite.rs] portable_deception_protocol_label *)
Definition portable_deception_protocol_label (category : PortableDeceptionProtocolCategory) :
    string :=
  match category with
  | DpHttp => "http" | DpDns => "dns" | DpSsh => "ssh" | DpSmb => "smb" | DpRdp => "rdp"
  | DpFtp => "ftp" | DpTelnet => "telnet" | DpDatabase => "database" | DpIcs => "ics"
  | DpOther => "other" | DpUnknown => "unknown"
  end.
(* [portable_capture_lite.rs] portable_provider_risk_label *)
Definition portable_provider_risk_label (category : PortableProviderRiskCategory) : string :=
  match category with
  | PrLow => "low" | PrMedium => "medium" | PrHigh => "high" | PrUnknown => "unknown"
  end.

(* ------------------------------------------------------------------ *)
(** ** The summaries *)

Section summaries.
Context `{Externals} `{Detections}.

(** The findings and the evidence of a plugin, by the prefix of their type, and the hints
    that refer to such evidence. *)
Definition findings_of (plugin : string) (findings : list Finding) : list Finding :=
  List.filter (λ f, starts_with (finding_type f) plugin) findings.
Definition evidence_of (plugin : string) (evidence : list EvidenceItem) : list EvidenceItem :=
  List.filter (λ e, starts_with (item_evidence_type e) plugin) evidence.
Definition hints_for (evidence : list EvidenceItem) (hints : list GraphHint) : list GraphHintId :=
  let refs := map (λ e, id_to_string (item_evidence_id e)) evidence in
  map hint_id
    (List.filter (λ h, existsb (λ r, bool_decide (id_to_string r ∈ refs)) (hint_evidence_refs h))
       hints).

(** The maps and sets of the loop over the records. *)
Record AuthTally := mkAuthTally {
  at_providers : gmap string N;
  at_outcomes : gmap (string * PortableAuthResultCategory) N;
  at_sessions : gset string;
  at_flags : gset string
}.
Definition auth_outcome (item : PortableAuthMetadata) : string * PortableAuthResultCategory :=
  (default "unknown" (am_destination_service_category item), am_auth_result item).
(* [portable_capture_lite.rs:6214-6244] build_portable_auth_summary *)
Definition auth_step (t : AuthTally) (item : PortableAuthMetadata) : AuthTally :=
  mkAuthTally
    (bump (at_providers t) (am_provider_category item))
    (bump (at_outcomes t) (auth_outcome item))
    (insert_some (am_source_session_label item) (at_sessions t))
    (flag_if (missing (am_destination_service_category item)) "missing_service_category"
      (flag_if (missing (am_role_privilege_class item)) "missing_role"
        (flag_if (missing (am_mfa_result item)) "missing_mfa"
          (flag_if (missing (am_source_session_label item)) "missing_source_session"
            (flag_if (missing (am_identity_label_redacted item)) "missing_identity"
               (at_flags t)))))).
Definition is_failure (r : PortableAuthResultCategory) : bool :=
  match r with ArFailure | ArBlocked | ArTimeout => true | _ => false end.
Definition is_severe (s : SecuritySeverity) : bool :=
  match s with SvHigh | SvCritical => true | _ => false end.
(* [portable_capture_lite.rs] build_portable_auth_summary *)
Definition build_portable_auth_summary (provenance_id : DataSourceId)
    (auth_metadata : list PortableAuthMetadata) (findings : list Finding)
    (evidence : list EvidenceItem) (graph_hints : list GraphHint) : option PortableAuthSummary :=
  if none auth_metadata then None else
  let auth_findings := findings_of "portable.auth_identity_analysis_lite." findings in
  let auth_evidence := evidence_of "portable.auth_identity_analysis_lite." evidence in
  let privileged_role_record_count :=
    len_u32 (List.filter (λ item, bool_decide (am_role_privilege_class item = Some "privileged"))
               auth_metadata) in
  let tally := fold_left auth_step auth_metadata (mkAuthTally ∅ ∅ ∅ ∅) in
  let failure_count := len (List.filter (λ item, is_failure (am_auth_result item)) auth_metadata) in
  let risk_bucket :=
    if existsb (λ f, is_severe (finding_severity f)) auth_findings || (3 <=? len auth_findings)
    then AbHigh
    else if negb (none auth_findings) || (3 <=? failure_count) ||
            (0 <? privileged_role_record_count)
    then AbMedium
    else AbLow in
  let first_seen :=
    if existsb (λ f, contains (finding_type f) "first_seen_identity_provider_combination")
         auth_findings
    then ["identity_provider_combination"] else [] in
  Some (mkAuthSummary provenance_id (len_u32 auth_metadata) risk_bucket
          (N.of_nat (size (at_sessions tally)) mod (u32_max + 1))
          (map (λ '(category, count), mkAuthCount category count)
             (sorted_entries (at_providers tally)))
          (map (λ '((service, result), count), mkOutcomeCount service result count)
             (sorted_entries (at_outcomes tally)))
          first_seen privileged_role_record_count (sorted_elements (at_flags tally))
          (map finding_id auth_findings) (map item_evidence_id auth_evidence)
          (hints_for auth_evidence graph_hints)).

Record SaasTally := mkSaasTally {
  st_providers : gmap string N;
  st_risks : gmap string N;
  st_unknown : N;
  st_flags : gset string
}.
Definition low_confidence (b : PortableProviderConfidenceBucket) : bool :=
  match b with PbLow | PbUnknown => true | _ => false end.
(* [portable_capture_lite.rs:6364-6391] build_portable_saas_cloud_summary *)
Definition saas_step (t : SaasTally) (item : PortableSaasCloudMetadata) : SaasTally :=
  let unknown := bool_decide (sc_provider_category item = PcUnknown) in
  mkSaasTally
    (bump (st_providers t) (portable_provider_category_label (sc_provider_category item)))
    (bump (st_risks t) (portable_provider_risk_label (sc_provider_risk_category item)))
    (if unknown then st_unknown t + 1 else st_unknown t)
    (flag_if (missing (sc_source_session_label item)) "missing_source_session"
      (flag_if (missing (sc_identity_label_redacted item)) "missing_redacted_identity"
        (flag_if (missing (sc_endpoint_fingerprint item)) "missing_endpoint_fingerprint"
          (flag_if (low_confidence (sc_provider_confidence item))
             "provider_classification_confidence_limited"
             (flag_if unknown "unknown_provider_category" (st_flags t)))))).
(* [portable_capture_lite.rs] build_portable_saas_cloud_summary *)
Definition build_portable_saas_cloud_summary (provenance_id : DataSourceId)
    (metadata : list PortableSaasCloudMetadata) (findings : list Finding)
    (evidence : list EvidenceItem) (graph_hints : list GraphHint) :
    option PortableSaasCloudSummary :=
  if none metadata then None else
  let saas_findings := findings_of "portable.saas_cloud_abuse_lite." findings in
  let saas_evidence := evidence_of "portable.saas_cloud_abuse_lite." evidence in
  let tally := fold_left saas_step metadata (mkSaasTally ∅ ∅ 0 ∅) in
  let counts m := map (λ '(category, count), mkSaasCount category count) (sorted_entries m) in
  Some (mkSaasSummary provenance_id (len_u32 metadata) (counts (st_providers tally))
          (counts (st_risks tally)) (st_unknown tally) (sorted_elements (st_flags tally))
          (map finding_id saas_findings) (map item_evidence_id saas_evidence)
          (hints_for saas_evidence graph_hints)).

Record DeceptionTally := mkDeceptionTally {
  dt_sensors : gset string;
  dt_events : gmap string N;
  dt_protocols : gmap string N;
  dt_flags : gset string
}.
(* [portable_capture_lite.rs:6463-6494] build_portable_deception_summary *)
Definition deception_step (t : DeceptionTally) (item : PortableDeceptionEventMetadata) :
    DeceptionTally :=
  mkDeceptionTally
    (insert_some (de_decoy_sensor_ref item) (dt_sensors t))
    (bump (dt_events t) (de_event_category item))
    (bump (dt_protocols t) (portable_deception_protocol_label (de_protocol_category item)))
    (flag_if (bool_decide (de_interaction_count_bucket item = DiUnknown)) "unknown_interaction_count"
      (flag_if (bool_decide (de_protocol_category item = DpUnknown)) "unknown_protocol"
        (flag_if (missing (de_destination_service_category item)) "missing_destination_service"
          (flag_if (missing (de_source_context_category item)) "missing_source_context"
            (flag_if (missing (de_decoy_sensor_ref item)) "missing_decoy_sensor"
               (dt_flags t)))))).
(* [portable_capture_lite.rs] build_portable_deception_summary *)
Definition build_portable_deception_summary (provenance_id : DataSourceId)
    (events : list PortableDeceptionEventMetadata) (findings : list Finding)
    (evidence : list EvidenceItem) (graph_hints : list GraphHint) :
    option PortableDeceptionSummary :=
  if none events then None else
  let deception_findings := findings_of "portable.deception_event_lite." findings in
  let deception_evidence := evidence_of "portable.deception_event_lite." evidence in
  let tally := fold_left deception_step events (mkDeceptionTally ∅ ∅ ∅ ∅) in
  let counts m := map (λ '(category, count), mkDeceptionCount category count) (sorted_entries m) in
  Some (mkDeceptionSummary provenance_id (len_u32 events)
          (N.of_nat (size (dt_sensors tally)) mod (u32_max + 1))
          (counts (dt_events tally)) (counts (dt_protocols tally))
          (sorted_elements (dt_flags tally)) (map finding_id deception_findings)
          (map item_evidence_id deception_evidence) (hints_for deception_evidence graph_hints)).
End summaries.
