(* ===== verification/ImportSummaryFacts.v ===== *)
(** * Properties of the summaries of imported records *)

From S2P Require Import Prelude Collections RustStr RustText Effects Contracts Checks.
From S2P Require Import CallerVerification ImportContracts ImportLogs ImportLogsFacts ImportSummary.

#[local] Open Scope string_scope.
#[local] Open Scope list_scope.
#[local] Open Scope N_scope.

(* ------------------------------------------------------------------ *)
(** ** Counting by a key *)

Definition sum (l : list N) : N := foldr N.add 0 l.
Lemma sum_cons n l : sum (n :: l) = n + sum l.
Proof. done. Qed.
Lemma sum_perm l k : l ≡ₚ k → sum l = sum k.
Proof. unfold sum. induction 1; simpl in *; lia. Qed.

Section counts.
Context {A K : Type} `{Countable K} `{!KeyOrder K} (key : A → K).

(** How many of the items have the key. *)
Definition count_of (k : K) (items : list A) : N :=
  len (List.filter (λ x, bool_decide (key x = k)) items).
(** Each key of the items once, in order, with the number of items that have it. *)
Definition counts_exact (items : list A) (entries : list (K * N)) : Prop :=
  (∀ k n, (k, n) ∈ entries ↔ 0 < n ∧ n = count_of k items) ∧
  NoDup entries.*1 ∧ StronglySorted (by_key fst) entries ∧ sum entries.*2 = len items.

Definition tally (items : list A) (m : gmap K N) : gmap K N :=
  fold_left (λ m x, bump m (key x)) items m.

Lemma bump_lookup (m : gmap K N) k k' :
  default 0 (bump m k !! k') = default 0 (m !! k') + (if bool_decide (k = k') then 1 else 0).
Proof.
  unfold bump. case_bool_decide as Hk.
  - subst k'. by rewrite lookup_insert_eq.
  - rewrite lookup_insert_ne by done. lia.
Qed.
Lemma tally_lookup items m k : default 0 (tally items m !! k) = default 0 (m !! k) + count_of k items.
Proof.
  revert m. induction items as [|x items IH]; intros m; cbn [tally fold_left].
  { unfold count_of, len. cbn. lia. }
  fold (tally items (bump m (key x))). rewrite IH, bump_lookup. unfold count_of. cbn [List.filter].
  case_bool_decide; [rewrite len_cons|]; lia.
Qed.
Definition positive (m : gmap K N) : Prop := ∀ k n, m !! k = Some n → 0 < n.
Lemma tally_positive items m : positive m → positive (tally items m).
Proof.
  revert m. induction items as [|x items IH]; intros m Hm; [done|]. apply IH.
  intros k n. unfold bump. rewrite lookup_insert_Some. intros [[_ <-]|[_ Hk]]; [lia|].
  by eapply Hm.
Qed.
Lemma bump_sum (m : gmap K N) k :
  sum (map_to_list (bump m k)).*2 = sum (map_to_list m).*2 + 1.
Proof.
  unfold bump. destruct (m !! k) as [n|] eqn:Hk; cbn [default].
  - rewrite <- insert_delete_eq.
    rewrite (sum_perm _ _ (fmap_Permutation snd _ _
      (map_to_list_insert (delete k m) k (n + 1) (lookup_delete_eq m k)))).
    rewrite <- (sum_perm _ _ (fmap_Permutation snd _ _ (map_to_list_delete m k n Hk))).
    rewrite !fmap_cons, !sum_cons. cbn [snd]. lia.
  - rewrite (sum_perm _ _ (fmap_Permutation snd _ _ (map_to_list_insert m k _ Hk))).
    rewrite fmap_cons, sum_cons. cbn [snd]. lia.
Qed.
Lemma tally_sum items m :
  sum (map_to_list (tally items m)).*2 = sum (map_to_list m).*2 + len items.
Proof.
  revert m. induction items as [|x items IH]; intros m; [unfold len; cbn; lia|].
  cbn [tally fold_left]. fold (tally items (bump m (key x))). rewrite IH, bump_sum, len_cons. lia.
Qed.

Lemma tally_counts items : counts_exact items (sorted_entries (tally items ∅)).
Proof.
  unfold sorted_entries. split_and!.
  - intros k n. rewrite elem_of_sort_by_key, elem_of_map_to_list.
    pose proof (tally_lookup items ∅ k) as Hk. rewrite lookup_empty in Hk. cbn [default] in Hk.
    split.
    + intros Hn. rewrite Hn in Hk. cbn in Hk. split; [|lia].
      by apply (tally_positive items ∅ (λ k n, ltac:(by rewrite lookup_empty)) k).
    + intros [Hn ->]. destruct (tally items ∅ !! k) as [n|]; cbn in Hk; [f_equal; lia|lia].
  - rewrite sort_by_key_perm. apply NoDup_fst_map_to_list.
  - apply sort_by_key_sorted.
  - rewrite (sum_perm _ (map_to_list (tally items ∅)).*2) by by rewrite sort_by_key_perm.
    rewrite tally_sum, map_to_list_empty. cbn. lia.
Qed.
End counts.

(** Counts that were wrapped in records. *)
Lemma unwrap_counts {K B : Type} (wrap : K * N → B) (unwrap : B → K * N) l :
  (∀ e, unwrap (wrap e) = e) → map unwrap (map wrap l) = l.
Proof. intros Hw. rewrite map_map. rewrite <- (map_id l) at 2. by apply map_ext. Qed.

(* ------------------------------------------------------------------ *)
(** ** Collecting texts *)

Lemma elem_of_sorted_elements s x : x ∈ sorted_elements s ↔ x ∈ s.
Proof. unfold sorted_elements. by rewrite elem_of_sort_by_key, elem_of_elements. Qed.
Lemma elem_of_flag_if cond flag x s : x ∈ flag_if cond flag s ↔ (cond = true ∧ x = flag) ∨ x ∈ s.
Proof. unfold flag_if. destruct cond; set_solver. Qed.

(** A set that grows along the items, by what each gives. *)
Lemma fold_union {A T : Type} (step : T → A → T) (view : T → gset string) (gives : A → string → Prop) :
  (∀ t x s, s ∈ view (step t x) ↔ gives x s ∨ s ∈ view t) →
  ∀ items t s, s ∈ view (fold_left step items t) ↔ (∃ x, x ∈ items ∧ gives x s) ∨ s ∈ view t.
Proof.
  intros Hstep. induction items as [|x items IH]; intros t s; cbn [fold_left].
  { split; [by right|]. intros [(x & Hx & _)|Hs]; [by apply elem_of_nil in Hx|done]. }
  rewrite IH, Hstep. split.
  - intros [(y & Hy & Hg)|[Hg|Hs]]; [left|left|by right].
    + exists y. split; [by right|done].
    + exists x. split; [by left|done].
  - intros [(y & [->|Hy]%elem_of_cons & Hg)|Hs]; eauto.
Qed.
(** A part of the loop's state that only depends on itself. *)
Lemma fold_view {A T V : Type} (step : T → A → T) (view : T → V) (step' : V → A → V) :
  (∀ t x, view (step t x) = step' (view t) x) →
  ∀ items t, view (fold_left step items t) = fold_left step' items (view t).
Proof. intros Hs. induction items as [|x items IH]; intros t; [done|]. cbn. by rewrite IH, Hs. Qed.

Definition labels_of {A : Type} (label : A → option string) (items : list A) : gset string :=
  list_to_set (omap label items).
Lemma fold_labels {A T : Type} (step : T → A → T) (view : T → gset string) (label : A → option string) :
  (∀ t x, view (step t x) = insert_some (label x) (view t)) →
  ∀ items t, view t = ∅ → view (fold_left step items t) = labels_of label items.
Proof.
  intros Hstep items t Ht. apply set_eq. intros s.
  rewrite (fold_union step view (λ x s, label x = Some s)), Ht.
  - unfold labels_of. rewrite elem_of_list_to_set, list_elem_of_omap. set_solver.
  - intros t' x s'. rewrite Hstep. unfold insert_some. destruct (label x); set_solver.
Qed.

(* ------------------------------------------------------------------ *)
(** ** The summaries *)

(** What is missing of a record. *)
Definition auth_gap (item : PortableAuthMetadata) (flag : string) : Prop :=
  (am_identity_label_redacted item = None ∧ flag = "missing_identity") ∨
  (am_source_session_label item = None ∧ flag = "missing_source_session") ∨
  (am_mfa_result item = None ∧ flag = "missing_mfa") ∨
  (am_role_privilege_class item = None ∧ flag = "missing_role") ∨
  (am_destination_service_category item = None ∧ flag = "missing_service_category").
Definition saas_gap (item : PortableSaasCloudMetadata) (flag : string) : Prop :=
  (sc_provider_category item = PcUnknown ∧ flag = "unknown_provider_category") ∨
  (low_confidence (sc_provider_confidence item) = true ∧
     flag = "provider_classification_confidence_limited") ∨
  (sc_endpoint_fingerprint item = None ∧ flag = "missing_endpoint_fingerprint") ∨
  (sc_identity_label_redacted item = None ∧ flag = "missing_redacted_identity") ∨
  (sc_source_session_label item = None ∧ flag = "missing_source_session").
Definition deception_gap (item : PortableDeceptionEventMetadata) (flag : string) : Prop :=
  (de_decoy_sensor_ref item = None ∧ flag = "missing_decoy_sensor") ∨
  (de_source_context_category item = None ∧ flag = "missing_source_context") ∨
  (de_destination_service_category item = None ∧ flag = "missing_destination_service") ∨
  (de_protocol_category item = DpUnknown ∧ flag = "unknown_protocol") ∨
  (de_interaction_count_bucket item = DiUnknown ∧ flag = "unknown_interaction_count").

Lemma missing_true {A : Type} (o : option A) : missing o = true ↔ o = None.
Proof. by destruct o. Qed.

Ltac gap_step :=
  intros t item flag; cbn; rewrite !elem_of_flag_if, ?missing_true, ?bool_decide_eq_true; tauto.
Lemma auth_step_gap t item flag :
  flag ∈ at_flags (auth_step t item) ↔ auth_gap item flag ∨ flag ∈ at_flags t.
Proof. unfold auth_gap. revert t item flag. gap_step. Qed.
Lemma saas_step_gap t item flag :
  flag ∈ st_flags (saas_step t item) ↔ saas_gap item flag ∨ flag ∈ st_flags t.
Proof. unfold saas_gap. revert t item flag. gap_step. Qed.
Lemma deception_step_gap t item flag :
  flag ∈ dt_flags (deception_step t item) ↔ deception_gap item flag ∨ flag ∈ dt_flags t.
Proof. unfold deception_gap. revert t item flag. gap_step. Qed.

(** The flags of a summary are the gaps of its records. *)
Definition flags_exact {A : Type} (gap : A → string → Prop) (items : list A) (flags : list string) : Prop :=
  ∀ flag, flag ∈ flags ↔ ∃ item, item ∈ items ∧ gap item flag.
Lemma fold_flags {A T : Type} (step : T → A → T) (view : T → gset string) (gap : A → string → Prop) items t :
  (∀ t x s, s ∈ view (step t x) ↔ gap x s ∨ s ∈ view t) → view t = ∅ →
  flags_exact gap items (sorted_elements (view (fold_left step items t))).
Proof.
  intros Hstep Ht flag. rewrite elem_of_sorted_elements, (fold_union step view gap Hstep), Ht.
  set_solver.
Qed.
Lemma fold_tally {A K T : Type} `{Countable K} `{!KeyOrder K} (step : T → A → T) (view : T → gmap K N)
    (key : A → K) items t :
  (∀ t x, view (step t x) = bump (view t) (key x)) → view t = ∅ →
  counts_exact key items (sorted_entries (view (fold_left step items t))).
Proof.
  intros Hstep Ht. rewrite (fold_view step view (λ m x, bump m (key x)) Hstep), Ht.
  apply tally_counts.
Qed.

Section exact.
Context `{Externals} `{Detections}.

Definition provider_label (m : PortableSaasCloudMetadata) : string :=
  portable_provider_category_label (sc_provider_category m).
Definition risk_label (m : PortableSaasCloudMetadata) : string :=
  portable_provider_risk_label (sc_provider_risk_category m).
Definition protocol_label (m : PortableDeceptionEventMetadata) : string :=
  portable_deception_protocol_label (de_protocol_category m).
Definition auth_count (c : PortableAuthCategoryCount) := (ac_category c, ac_count c).
Definition outcome_count (c : PortableAuthServiceOutcomeCount) :=
  (oc_service_category c, oc_auth_result c, oc_count c).
Definition saas_count (c : PortableSaasCloudCategoryCount) := (scc_category c, scc_count c).
Definition deception_count (c : PortableDeceptionCategoryCount) := (dc_category c, dc_count c).
Definition wrapped_size {K : Type} `{Countable K} (s : gset K) : N := N.of_nat (size s) mod (u32_max + 1).

Lemma unknown_count items t :
  st_unknown (fold_left saas_step items t) = st_unknown t + count_of sc_provider_category PcUnknown items.
Proof.
  revert t. induction items as [|x items IH]; intros t; [unfold count_of, len; cbn; lia|].
  cbn [fold_left]. rewrite IH. unfold count_of. cbn.
  case_bool_decide; [rewrite len_cons|]; lia.
Qed.

(** C20. The summary of imported records is exact: each category, outcome, risk and protocol
    that occurs is listed once, in order, with the number of its records, and the numbers
    add up to all records; sessions and sensors are counted once each; a flag is raised
    exactly when a record lacks what it names. *)
Theorem import_summaries_exact id findings evidence hints :
  (∀ items,
     match build_portable_auth_summary id items findings evidence hints with
     | None => items = []
     | Some s =>
         counts_exact am_provider_category items (map auth_count (as_provider_category_counts s)) ∧
         counts_exact auth_outcome items (map outcome_count (as_service_outcome_counts s)) ∧
         as_source_session_count s = wrapped_size (labels_of am_source_session_label items) ∧
         flags_exact auth_gap items (as_degraded_visibility_flags s)
     end) ∧
  (∀ items,
     match build_portable_saas_cloud_summary id items findings evidence hints with
     | None => items = []
     | Some s =>
         counts_exact provider_label items (map saas_count (ss_provider_category_counts s)) ∧
         counts_exact risk_label items (map saas_count (ss_provider_risk_counts s)) ∧
         ss_unknown_provider_count s = count_of sc_provider_category PcUnknown items ∧
         flags_exact saas_gap items (ss_degraded_visibility_flags s)
     end) ∧
  (∀ items,
     match build_portable_deception_summary id items findings evidence hints with
     | None => items = []
     | Some s =>
         counts_exact de_event_category items (map deception_count (ds_event_category_counts s)) ∧
         counts_exact protocol_label items (map deception_count (ds_protocol_category_counts s)) ∧
         ds_decoy_sensor_count s = wrapped_size (labels_of de_decoy_sensor_ref items) ∧
         flags_exact deception_gap items (ds_degraded_visibility_flags s)
     end).
Proof.
  split_and!; intros items.
  - unfold build_portable_auth_summary. destruct (none items) eqn:Hn; [by apply none_true|].
    cbv zeta. cbn [as_provider_category_counts as_service_outcome_counts as_source_session_count
      as_degraded_visibility_flags].
    rewrite (unwrap_counts (λ '(category, count), mkAuthCount category count) auth_count) by by intros [].
    rewrite (unwrap_counts (λ '((service, result), count), mkOutcomeCount service result count) outcome_count) by by intros [[]].
    split_and!.
    + by apply (fold_tally auth_step at_providers).
    + by apply (fold_tally auth_step at_outcomes).
    + unfold wrapped_size. do 3 f_equal. by apply (fold_labels auth_step at_sessions).
    + by apply (fold_flags auth_step at_flags auth_gap _ _ auth_step_gap).
  - unfold build_portable_saas_cloud_summary. destruct (none items) eqn:Hn; [by apply none_true|].
    cbv zeta. cbn [ss_provider_category_counts ss_provider_risk_counts ss_unknown_provider_count
      ss_degraded_visibility_flags].
    rewrite !(unwrap_counts (λ '(category, count), mkSaasCount category count) saas_count) by by intros [].
    split_and!.
    + by apply (fold_tally saas_step st_providers).
    + by apply (fold_tally saas_step st_risks).
    + by rewrite unknown_count.
    + by apply (fold_flags saas_step st_flags saas_gap _ _ saas_step_gap).
  - unfold build_portable_deception_summary. destruct (none items) eqn:Hn; [by apply none_true|].
    cbv zeta. cbn [ds_event_category_counts ds_protocol_category_counts ds_decoy_sensor_count
      ds_degraded_visibility_flags].
    rewrite !(unwrap_counts (λ '(category, count), mkDeceptionCount category count) deception_count) by by intros [].
    split_and!.
    + by apply (fold_tally deception_step dt_events).
    + by apply (fold_tally deception_step dt_protocols).
    + unfold wrapped_size. do 3 f_equal. by apply (fold_labels deception_step dt_sensors).
    + by apply (fold_flags deception_step dt_flags deception_gap _ _ deception_step_gap).
Qed.
End exact.
